(* ===== verification/_CoqProject ===== *)
-Q . S2P
Prelude.v
GoStrings.v
GoNum.v
GoNet.v
GoTime.v
GoJson.v
Resources.v
Types.v
Gateway.v
PortForward.v
Compose.v
Cache.v
NetMgr.v
Store.v
Health.v
Controllers.v
Rbac.v
GoCrypto.v
Auth.v
Cron.v
Scheduler.v
Routes.v
Api.v
InitShim.v
Gates.v
Dns.v
Pool.v
Deploys.v
Access.v
Projects.v
GoPath.v
Settings.v
SecretBox.v
Runtime.v
Telemetry.v
SshGw.v
Images.v
Builds.v
Analytics.v
Addons.v
Migrations.v
Durable.v
Hosts.v
Views.v
Edge.v
Tenant.v
Work.v
EndToEnd.v
Listings.v
Wires.v
