(* ===== verification/Prelude.v ===== *)
(** * Porter: a verification of the control plane's core logic

    Porter (sources under [src/backend]) is a self-hosted platform that runs
    projects as pools of Firecracker micro-VMs. A Go control plane keeps its state
    in PostgreSQL, exposes an HTTP API, routes public traffic to the VMs, allocates
    their networks, and reconciles the stored state with what runs. This library
    models that control plane's own logic as executable Rocq functions and proves
    what makes it correct. All Go paths below are relative to
    [src/backend/internal].

    ** How the parts interact

    A request to the API passes [auth] ([api/api.go]): its bearer token is resolved
    to a principal, its permission is decided from role assignments and
    memberships, and a keyed write is replayed instead of executed twice. Handlers
    write projects, replicas and deployments through the store. The controllers
    read the store and move replicas, servers and deployments through their states,
    asking the network manager for addresses and the runtime to boot; the cron
    runner and the autoscaler create and retire replicas. The gateway reads the
    same store to route an HTTP request to a healthy replica, after the project's
    firewall rules, and the port forwarder keeps host listeners in step with it.
    The runtime turns a boot into a Firecracker process and a sequence of requests
    on its socket, handing it the project's secrets, which the secret envelopes keep
    encrypted in the store; builds and uploads fill the image library it boots from.
    Collectors write logs and metrics, and the hub streams events to clients.

    ** Files, and the code they model

    - [Prelude]: notations, tactics, the [result] type for fallible code, lemmas on
      lists and on 64-bit integers ([i64], [u64] are the wrap-arounds).
    - [GoStrings], [GoNum], [GoNet], [GoTime], [GoJson], [GoCrypto]: what the code uses
      of Go's standard library: [strings], [strconv]; [float64] as [SpecFloat] with 53
      bits; [net.ParseIP], [ParseCIDR], [Contains], [SplitHostPort]; calendar dates and
      RFC 3339; the members [encoding/json] writes and reads for a described struct;
      SHA-256, hex, base64. Strings are byte strings; case folding is ASCII.
    - [Types]: the structs of [types/types.go], field by field.
    - [Resources]: [resource/*.go], every struct of the resource model with its JSON
      tags, the nineteen kinds and the interface [Resource] as a class with its laws.
    - [Gateway], [PortForward]: [gateway/gateway.go], [gateway/portforward.go].
    - [Compose]: [compose/compose.go], the compose-file parser and its dependency sort.
    - [Cache]: [cache/redis.go], [cache/resp.go], the Redis client with its pool.
    - [NetMgr]: [netmgr/netmgr.go], [runtime/network.go], [NetSpec] of
      [runtime/vm_manager.go].
    - [Store]: the tables and SQL statements of [store/store.go] and its siblings
      the other components use, under the constraints of the migrations.
    - [Health], [Controllers]: [health/health.go], [controller/*.go].
    - [Rbac]: [rbac/rbac.go] over the [Resolver] interface (a class with its laws),
      the PostgreSQL resolver of [store/rbac_scoped.go] that implements it, and the
      membership checks of [store/store.go] and [store/tenancy.go].
    - [Auth]: [auth/password.go], [auth/token.go], [auth/context.go],
      [store/sessions.go].
    - [Cron], [Scheduler]: [cron/runner.go], [scheduler/scheduler.go],
      [autoscale/scaler.go].
    - [Routes], [Api]: the route table and the request pipeline of [api/api.go],
      [store/idempotency.go].
    - [Pool], [Deploys], [Access], [Projects]: the resource handlers of
      [api/handlers.go] and [api/api.go]: boot, scale, redeploy, restart and delete
      the replicas of a project; deployments with their own pools, promotion,
      rollback and rollout; users, keys, roles, memberships and groups; creating,
      importing, patching projects and their environment, secrets and domains.
    - [Dns]: [dns/*.go], the internal resolver, the authoritative server's answers
      and the domain manager.
    - [InitShim]: [buildkit/initshim.go], the PID-1 script, read back by a model of
      the shell's word splitting.
    - [Gates]: the decisions of [riskgate], [cmdgate], [triage] and [alertjudge] for
      every answer of [judge].

    - [GoPath]: [path/filepath]: [Clean], [Join], [Base], [Dir] by components, and
      when a joined path stays below a directory.
    - [Settings]: [config/toml.go], [config/config.go], [runtime/mode.go].
    - [SecretBox]: [secretbox/secretbox.go] with AES-256 and GCM written out, and
      [encryptSecret], [decryptSecret] of [api/handlers.go].
    - [Runtime]: [runtime/fc_client.go], [runtime/manager.go],
      [runtime/vm_manager.go], [runtime/socket.go], [guestagent/protocol.go]. A host
      is its processes and the requests sent; what it answers is a [World].
    - [Telemetry]: the log rings of [store/store.go], [runtime/metrics.go],
      [metrics/collector.go], [event/hub.go].
    - [SshGw]: [sshgw/sshgw.go], signing and accepting certificates, sessions.
    - [Images]: [volumes/volumes.go], [imagecatalog/validate.go], [unzipTo] and the
      layers of [buildkit/builder.go], as file operations recorded in a trace.
    - [Builds]: [buildkit/detect.go], the rest of [buildkit/builder.go], the image
      library, and the handlers of uploads, git builds and volumes.
    - [Analytics], [Addons]: the traffic reports of [api/handlers.go]; alerts,
      hooks, crons, drains, redirects, firewall rules, environments and networks,
      their tables and handlers.
    - [Migrations], [Durable]: [Migrate], [splitSQL] and [EnsureSeededAdmin] of
      [store/store.go]; its append-only tables (build logs, metrics, health events,
      traffic, feedback, DNS records) and the handlers over them.
    - [Hosts]: servers, log streams, exec, SSH and console of a replica, snapshots
      and restores ([api/handlers.go]), IP allocations ([store/network.go]).
    - [Views]: entity tags and field selection ([api/api.go]) and the handlers that
      read: logs, metrics, services, frameworks, branches, images, the host.
    - [Edge]: one Module each for [judge/judge.go], [runtime/fc.go],
      [notify/notify.go], [startup/check.go], the middleware of [logging] and
      [observability], and [tls/autocert.go].
    - [Tenant]: row-level security ([store/rls.go], migrations 0019 and 0021), teams
      and default organisations, the static scope chain, minted tokens.
    - [Work]: the task ledger and audit log ([store/events.go]), the daily counters,
      deployments from a repository, and the ticker loops of [controller], [cron],
      [autoscale], [health], [metrics] and [runtime/metrics.go].
    - [EndToEnd]: a cycle of the replica controller over the store, between the handler
      that creates a project and the gateway that routes to it.
    - [Listings]: compose stacks, the disk usage of volumes, the listings of users, roles
      and grants, organisations and scopes, and the handlers that only answer.
    - [Wires]: step relations for the life cycle of background workers, the listeners of
      the DNS server and a forwarded connection; waiting for control sockets, response
      recorders, SSH key files, the image catalogue and the metrics page.

    State is passed explicitly: a component's state is a record, an operation a
    function to the new state and its result. A Go [(A, error)] is a [result], a
    nil-able pointer an [option], a map a [gmap]; where Go leaves the order of a
    map open ([Rbac.HasCapability]) or the algorithm of a sort ([Scheduler.PickNode])
    the order is an argument and the theorems hold for every one.

    ** What the theorems show

    - Routing: the firewall blocks exactly the matching active deny rules and
      reports one of least priority; requests are only proxied to healthy, allowed
      VMs; round robin is fair; the traffic ring refines the full log; a reconcile
      of host ports leaves exactly the wanted listeners.
    - Parsing: the dependency sort terminates, its results are boot orders and its
      errors name real cycles or undeclared services; RESP decoding inverts
      encoding and terminates on every byte stream; the cron matcher decides the
      meaning of every well-formed schedule.
    - Access control: the capability engine equals its specification against any
      resolver, the store's tables refine that interface, denials defeat
      memberships, outsiders are refused on project routes, the handler of a route
      runs only after every check; the route table is free of conflicts and
      guarded.
    - Credentials: password checks accept exactly the stored hash, minted tokens
      verify and only signed ones do, revoked sessions stay dead.
    - Resources: connections are never leaked; subnets, addresses and TAP devices
      are distinct, well formed and cleaned up; placement fits and is maximal;
      autoscaling stays within its policy; the rate limit is exact; paging loses
      nothing.
    - State: every reconcile keeps the replica table's invariant and follows the
      lifecycle; registration ends in ready and heartbeats time out as they should;
      reads through the cache equal the rows.
    - Handlers: a redeploy or a create leaves exactly the wanted pending replicas
      in the wanted slots, every pool operation keeps the replica table's invariant,
      promotion and deletion keep the production deployment, environment requests
      refine finite-map operations, conditional patches never lose an update, a
      login authenticates as exactly its user, memberships grant and take away
      exactly the role, listings show exactly the reachable projects.
    - Edges: DNS answers are exactly the addresses of the named service, host labels
      are well formed, the deploy gate fails closed, and the shell reads back the
      words the init script was built from.
    - Settings and secrets: parsing a written settings file gives back what was
      written; every setting is the environment's, else the file's, else the
      default; a box opens to a text exactly when it is a seal of that text.
    - Hosts: a boot sends a prefix of the prescribed requests and succeeds exactly
      when all were accepted; no sequence of boots and stops loses a process; the
      secrets reach a VM through the metadata request alone.
    - Files: uploads and layers work below their directory (with the exceptions the
      code leaves open), volumes have a directory of their own, images are ready
      exactly when both artifacts are.
    - Observation: a log is the end of what was written, polled lines hold no keys,
      a client's stream is the broadcasts since it connected; a signed certificate
      opens the gateway for its eleven minutes and at no other time.
    - Reports and attachments: the days, projects and totals of a usage report add
      up; attachment tables refine finite maps; a firewall rule made through the API
      is enforced at the gateway until it is undone; a path purge is exact.
    - Start-up: migrations are recorded in name order and executed once, whatever
      fails; scripts split back into their statements; the administrator's password
      is set once; a host is ready exactly when its checks pass.
    - Servers and snapshots: a registered server becomes ready; a ready snapshot
      has its files and can be restored; a log stream always shows the last state.
    - Clients: a copy kept with its entity tag is current; the judge answers all
      questions or none; request counts by method and status add up to the total.
    - Tenancy: a transaction under a tenant shows that tenant's rows alone and leaves
      no tenant behind; secret values never reach a listing; a minted token stands for
      its caller for twelve hours.
    - Work: lock keys deduplicate tasks; concurrent counters lose nothing; a schedule
      runs once a matching minute over any run of the loop.
    - End to end: the first project created through the API is booted by one cycle of the
      controller, replica for replica, and the gateway hands its requests to the proxy
      for one of them.
    - Resource model: what can be written as JSON is read back and written the same
      again, for every kind; hashes, salts and ciphertexts never leave; times survive
      formatting and parsing; the status interface is a lawful view.
    - Life cycles: at most one loop of a worker runs and every stop returns; the wait for
      a control socket ends in its ten seconds; DNS listeners follow the calls made one
      after the other; a forwarded connection reorders and invents nothing; the key files
      keep the SSH gateway's identity over restarts; what is stored for a replay is what
      the client was sent; the metrics page reads back.
    - Where the code does not do what it means to, a lemma or theorem shows the
      behaviour it has (for example [Controllers.rollback_never_persists]).

    ** Fuel

    The dependency sort has fuel one more than the number of services, the depth of
    its recursion ([topoSort_correct] shows it never runs out); a RESP reply has one
    more than the bytes of the stream ([readReply_terminates]); decimal printing has
    20 digits, enough for 64 bits; SHA-256 has the padded length, one block using 64
    bytes of it; an IPv6 literal has at most eight groups; a client that pages
    through a list has one more step than items ([paginate_complete]). The day loop
    of a usage report has the days of the period, and [strings.Count] one step more
    than the bytes of its text. The wait for a control socket has 101 looks, because a
    timer of a hundred milliseconds never fires early ([Wires.Sockets.waitForSocket_ends]).

    ** Not modelled

    PostgreSQL, HTTP, TCP, SSH, the Redis server, Firecracker and the [ip] command are
    outside: their answers are arguments of the functions that use them. Ed25519 and the
    text level of JSON are arguments too, with their documented laws as hypotheses.
    Goroutines are modelled where they are the subject ([Wires], with step relations);
    elsewhere an operation that holds a lock is one step, where goroutines race their
    statements are taken in any order, and a ticker loop is a function of the events its
    [select] receives. File contents, archives and the tools a build runs are arguments.
    Some SQL statements apply [COALESCE(col, '')] to a UUID column, which PostgreSQL
    refuses; where a component needs the statement to answer it is modelled by its
    intent, and the manifest records the fault.

    What is left without a definition is glue around libraries and the operating system:
    constructors and setters that only fill a struct ([NewStore], [NewAPI]), helpers that
    run a command or copy and hash a file, the accept loop of the SSH gateway, the
    [slog], OpenTelemetry and Sentry set-up ([logging.Configure], [observability/tracing.go],
    [observability/sentry.go]), the unused records of [runtime/port.go], and the packages
    that hold only a comment. *)
From Stdlib Require Export ZArith Lia.
From stdpp Require Export base list option strings gmap sets sorting.


(** ** Notations and automation *)

Declare Scope porter_scope.
Delimit Scope porter_scope with porter.

(** Go's [x && y], [x || y] and [s == t] on booleans and strings. *)
Notation "s ==? t" := (bool_decide (s = t)) (at level 70, no associativity) : porter_scope.
Notation "s !=? t" := (negb (bool_decide (s = t))) (at level 70, no associativity) : porter_scope.
Open Scope porter_scope.

Create HintDb porter.

(** Case analysis on the innermost [if] or [match] of the goal. *)
Ltac case_goal :=
  match goal with
  | |- context [match ?x with _ => _ end] =>
      lazymatch x with
      | context [match _ with _ => _ end] => fail
      | _ => let E := fresh "E" in destruct x eqn:E
      end
  end.

(** The same for a hypothesis. *)
Ltac case_in H :=
  match type of H with
  | context [match ?x with _ => _ end] =>
      lazymatch x with
      | context [match _ with _ => _ end] => fail
      | _ => let E := fresh "E" in destruct x eqn:E
      end
  end.

(** Evaluate the comparisons of closed strings in the goal. *)
Ltac eval_strings :=
  repeat match goal with
  | |- context [bool_decide (?a = ?b)] =>
      let v := eval vm_compute in (bool_decide (a = b)) in
      lazymatch v with
      | true => change (bool_decide (a = b)) with true
      | false => change (bool_decide (a = b)) with false
      end
  end; cbn [orb andb negb].

(** Membership in a list written out. *)
Ltac in_list := apply list_elem_of_In; cbn; tauto.

(** Turn boolean facts in the context into propositions. *)
Ltac bools :=
  repeat match goal with
  | H : _ && _ = true |- _ => apply andb_true_iff in H; destruct H
  | H : _ || _ = false |- _ => apply orb_false_iff in H; destruct H
  | H : negb _ = true |- _ => apply negb_true_iff in H
  | H : negb _ = false |- _ => apply negb_false_iff in H
  | H : bool_decide _ = true |- _ => apply bool_decide_eq_true_1 in H
  | H : bool_decide _ = false |- _ => apply bool_decide_eq_false_1 in H
  | H : (_ <? _)%Z = true |- _ => apply Z.ltb_lt in H
  | H : (_ <? _)%Z = false |- _ => apply Z.ltb_ge in H
  | H : (_ <=? _)%Z = true |- _ => apply Z.leb_le in H
  | H : (_ <=? _)%Z = false |- _ => apply Z.leb_gt in H
  | H : (_ =? _)%Z = true |- _ => apply Z.eqb_eq in H
  | H : (_ =? _)%Z = false |- _ => apply Z.eqb_neq in H
  end.

(** ** Fallible operations

    A Go function that returns [(A, error)] is a [result E A]: the value when
    the error is nil, the error otherwise. *)
Inductive result (E A : Type) : Type :=
| Ok (a : A)
| Err (e : E).
Arguments Ok {E A} _.
Arguments Err {E A} _.

#[export] Instance result_ret E : MRet (result E) := fun A a => Ok a.
#[export] Instance result_bind E : MBind (result E) := fun A B f m =>
  match m with Ok a => f a | Err e => Err e end.
#[export] Instance result_fmap E : FMap (result E) := fun A B f m =>
  match m with Ok a => Ok (f a) | Err e => Err e end.

Definition is_ok {E A} (r : result E A) : bool :=
  match r with Ok _ => true | Err _ => false end.

Lemma bind_ok {E A B} (m : result E A) (f : A -> result E B) b :
  (m ≫= f) = Ok b <-> exists a, m = Ok a /\ f a = Ok b.
Proof. destruct m; cbn; naive_solver. Qed.

(** Invert a chain of monadic binds that ended in [Ok]. *)
Ltac inv_ok :=
  repeat match goal with
  | H : (_ ≫= _) = Ok _ |- _ =>
      let a := fresh "a" in let E := fresh "E" in
      apply bind_ok in H; destruct H as (a & E & H)
  | H : Ok _ = Ok _ |- _ => injection H as H
  | H : mret _ = Ok _ |- _ => injection H as H
  | H : Err _ = Ok _ |- _ => discriminate H
  end.

(** ** Lists *)

(** The last [n] elements of a list: Go's [l[len(l)-n:]] when [n <= len(l)]. *)
Definition lastn {A} (n : nat) (l : list A) : list A := drop (length l - n) l.

Lemma length_lastn {A} n (l : list A) : length (lastn n l) = n `min` length l.
Proof. unfold lastn. rewrite length_drop. lia. Qed.

Lemma lastn_all {A} n (l : list A) : length l <= n -> lastn n l = l.
Proof. intros. unfold lastn. by replace (length l - n) with 0 by lia. Qed.

(** Dropping the front once more after appending does not lose a kept entry:
    bounded appends compose to the tail of the whole log. *)
Lemma lastn_app_lastn {A} n (l k : list A) :
  lastn n (lastn n l ++ k) = lastn n (l ++ k).
Proof.
  unfold lastn. rewrite !length_app, !length_drop.
  destruct (decide (length l <= n)) as [Hl|Hl].
  - replace (length l - n) with 0 by lia. by rewrite drop_0, Nat.sub_0_r.
  - replace (length l - (length l - n)) with n by lia.
    rewrite <- (take_drop (length l - n) l) at 4.
    rewrite <- app_assoc, (drop_app_ge (take _ _)) by (rewrite length_take; lia).
    rewrite length_take. f_equal; lia.
Qed.

Lemma lastn_lastn {A} n m (l : list A) : n <= m -> lastn n (lastn m l) = lastn n l.
Proof.
  intros. unfold lastn. rewrite drop_drop, length_drop. f_equal. lia.
Qed.

(** First element that satisfies a boolean test (a [for ... return] loop). *)
Fixpoint find_first {A} (p : A -> bool) (l : list A) : option A :=
  match l with
  | [] => None
  | x :: l => if p x then Some x else find_first p l
  end.

Lemma find_first_Some {A} (p : A -> bool) l x :
  find_first p l = Some x <->
  exists l1 l2, l = l1 ++ x :: l2 /\ p x = true /\ Forall (fun y => p y = false) l1.
Proof.
  induction l as [|y l IH]; cbn.
  - split; [done|]. intros (l1 & l2 & H & _). by destruct l1.
  - destruct (p y) eqn:Hp; split.
    + intros [= ->]. exists [], l. by repeat split.
    + intros ([|z l1] & l2 & H & Hx & Hall); simplify_eq/=; [done|].
      inversion Hall; congruence.
    + intros H. apply IH in H as (l1 & l2 & -> & ? & ?).
      exists (y :: l1), l2. repeat split; [done|by constructor].
    + intros ([|z l1] & l2 & H & Hx & Hall); simplify_eq/=; [congruence|].
      apply IH. exists l1, l2. inversion Hall. by repeat split.
Qed.

Lemma find_first_None {A} (p : A -> bool) l :
  find_first p l = None <-> Forall (fun y => p y = false) l.
Proof.
  induction l as [|y l IH]; cbn.
  - split; [by constructor|done].
  - destruct (p y) eqn:Hp; rewrite Forall_cons.
    + split; [done|]. intros [? _]; congruence.
    + rewrite IH. naive_solver.
Qed.

Lemma find_first_In {A} (p : A -> bool) l x :
  find_first p l = Some x -> x ∈ l /\ p x = true.
Proof.
  intros (l1 & l2 & -> & ? & _)%find_first_Some. split; [set_solver|done].
Qed.

Lemma NoDup_fmap_inj_on {A K} `{EqDecision K} (f : A -> K) (l : list A) :
  NoDup (f <$> l) -> forall x y, x ∈ l -> y ∈ l -> f x = f y -> x = y.
Proof.
  intros Hn x y Hx Hy E. apply list_elem_of_lookup in Hx as [i Hi], Hy as [j Hj].
  assert (i = j) as ->; [|congruence].
  eapply NoDup_lookup; [exact Hn|..]; rewrite list_lookup_fmap; [rewrite Hi; reflexivity|rewrite Hj; cbn; congruence].
Qed.

Lemma find_first_unique {A K} `{EqDecision K} (f : A -> K) (l : list A) x :
  NoDup (f <$> l) -> x ∈ l -> find_first (fun y => f y ==? f x) l = Some x.
Proof.
  intros Hn Hx. destruct (find_first (fun y => f y ==? f x) l) as [y|] eqn:E.
  - apply find_first_In in E as [Hy Ey]. bools. f_equal. by apply (NoDup_fmap_inj_on f l).
  - rewrite find_first_None, Forall_forall in E. specialize (E x Hx). by rewrite bool_decide_eq_true_2 in E.
Qed.

Lemma find_first_absent {A K} `{EqDecision K} (f : A -> K) (l : list A) k :
  k ∉ (f <$> l) -> find_first (fun x => f x ==? k) l = None.
Proof.
  intros Hk. apply find_first_None, Forall_forall. intros x Hx. apply bool_decide_eq_false_2. intros <-.
  apply Hk, list_elem_of_fmap. by exists x.
Qed.

Lemma find_first_app {A} (f : A -> bool) l l' :
  find_first f (l ++ l')%list = match find_first f l with Some x => Some x | None => find_first f l' end.
Proof. induction l as [|x l IH]; [done|]. cbn. by destruct (f x). Qed.

Lemma forallb_elem {A} (p : A -> bool) l : forallb p l = true -> forall x, x ∈ l -> p x = true.
Proof. rewrite forallb_forall. intros H x Hx. by apply H, list_elem_of_In. Qed.

(** [list_max]-free bound on sums used by the counting arguments. *)
Definition sum_nat (l : list nat) : nat := foldr Nat.add 0 l.

Lemma length_concat_map {A B} (f : A -> list B) (l : list A) :
  length (mjoin (f <$> l)) = sum_nat (length ∘ f <$> l).
Proof.
  induction l as [|x l IH]; [done|].
  cbn -[Nat.add]. rewrite length_app. f_equal. exact IH.
Qed.

Lemma sum_nat_le k (l : list nat) : Forall (fun x => x <= k) l -> sum_nat l <= k * length l.
Proof.
  induction 1 as [|x l Hx _ IH]; [cbn; lia|].
  change (x + sum_nat l <= k * S (length l)). rewrite Nat.mul_succ_r. lia.
Qed.

(** ** Integers *)

Open Scope Z_scope.

(** Two's-complement reduction to a signed or unsigned width. *)
Definition wrap_s (w z : Z) : Z := (z + 2 ^ (w - 1)) mod 2 ^ w - 2 ^ (w - 1).
Definition wrap_u (w z : Z) : Z := z mod 2 ^ w.

Definition i64 : Z -> Z := wrap_s 64.
Definition u64 : Z -> Z := wrap_u 64.

Definition max_int64 : Z := 2 ^ 63 - 1.
Definition min_int64 : Z := - 2 ^ 63.

Definition in_i64 (z : Z) : Prop := min_int64 <= z <= max_int64.

#[export] Instance in_i64_dec z : Decision (in_i64 z).
Proof. unfold in_i64. apply _. Defined.

Lemma i64_id z : in_i64 z -> i64 z = z.
Proof.
  unfold in_i64, min_int64, max_int64, i64, wrap_s. intros.
  change (64 - 1) with 63. rewrite Z.mod_small; lia.
Qed.

Lemma i64_range z : in_i64 (i64 z).
Proof.
  unfold in_i64, min_int64, max_int64, i64, wrap_s.
  change (64 - 1) with 63.
  pose proof (Z.mod_pos_bound (z + 2 ^ 63) (2 ^ 64) ltac:(lia)). lia.
Qed.

(** Wrapping a part of a sum does not change where the sum wraps to. *)
Lemma i64_add_l a b : i64 (i64 a + b) = i64 (a + b).
Proof.
  unfold i64, wrap_s. change (64 - 1) with 63. f_equal.
  replace ((a + 2 ^ 63) mod 2 ^ 64 - 2 ^ 63 + b + 2 ^ 63) with ((a + 2 ^ 63) mod 2 ^ 64 + b) by lia.
  rewrite Zplus_mod_idemp_l. f_equal. lia.
Qed.

Lemma i64_add_r a b : i64 (a + i64 b) = i64 (a + b).
Proof. by rewrite Z.add_comm, i64_add_l, Z.add_comm. Qed.

Lemma i64_idem a : i64 (i64 a) = i64 a.
Proof. apply i64_id, i64_range. Qed.

Lemma u64_range z : 0 <= u64 z < 2 ^ 64.
Proof. apply Z.mod_pos_bound. lia. Qed.

Lemma u64_id z : 0 <= z < 2 ^ 64 -> u64 z = z.
Proof. intros H. by apply Z.mod_small. Qed.

#[export] Hint Resolve i64_range u64_range : porter.

(** Sums of integers. *)
Definition zsum : list Z -> Z := foldr Z.add 0.

Lemma zsum_app l k : zsum (l ++ k)%list = zsum l + zsum k.
Proof. induction l as [|x l IH]; cbn; [done|]. rewrite IH. lia. Qed.

Lemma zsum_fmap_add {A} (f g : A -> Z) l : zsum ((fun x => f x + g x) <$> l) = zsum (f <$> l) + zsum (g <$> l).
Proof. induction l as [|x l IH]; cbn; [done|]. rewrite IH. lia. Qed.

Lemma zsum_ones {A} (l : list A) : zsum ((fun _ => 1) <$> l) = Z.of_nat (List.length l).
Proof. induction l as [|x l IH]; [done|]. cbn [List.length fmap list_fmap zsum foldr]. rewrite IH. lia. Qed.

(** A boolean fact checked on [0..n-1] holds on the whole range. *)
Lemma Zrange_check (n : nat) (p : Z -> bool) :
  forallb (fun k => p (Z.of_nat k)) (seq 0 n) = true ->
  forall z, 0 <= z < Z.of_nat n -> p z = true.
Proof.
  rewrite forallb_forall. intros H z Hz. rewrite <- (Z2Nat.id z) by lia.
  apply H, in_seq. lia.
Qed.

(** Masking with a [w]-bit network mask of [n] leading ones rounds down. *)
Lemma land_prefix v n w :
  0 <= n <= w -> 0 <= v < 2 ^ w ->
  Z.land v (2 ^ w - 2 ^ (w - n)) = v / 2 ^ (w - n) * 2 ^ (w - n).
Proof.
  intros Hn Hv.
  assert (Hm : 2 ^ w - 2 ^ (w - n) = Z.shiftl (Z.ones n) (w - n)).
  { rewrite Z.shiftl_mul_pow2, Z.ones_equiv by lia.
    rewrite <- Z.sub_1_r, Z.mul_sub_distr_r, <- Z.pow_add_r by lia.
    rewrite Z.mul_1_l. f_equal. f_equal. lia. }
  rewrite Hm, <- Z.shiftr_div_pow2, <- Z.shiftl_mul_pow2 by lia.
  apply Z.bits_inj'. intros i Hi. rewrite Z.land_spec.
  destruct (Z.lt_ge_cases i (w - n)).
  - rewrite !Z.shiftl_spec_low by lia. by rewrite andb_false_r.
  - rewrite !Z.shiftl_spec_high, Z.shiftr_spec by lia.
    replace (i - (w - n) + (w - n)) with i by lia.
    rewrite Z.testbit_ones_nonneg by lia.
    destruct (Z.ltb_spec (i - (w - n)) n); [by rewrite andb_true_r|].
    rewrite andb_false_r. symmetry. apply Z.testbit_false; [lia|].
    assert (Hp : 2 ^ w <= 2 ^ i) by (apply Z.pow_le_mono_r; lia).
    rewrite Z.div_small by lia. done.
Qed.
Close Scope Z_scope.
