(* ===== verification/GoStrings.v ===== *)
(** * Go's [strings] and [strconv] as the sources use them

    A Go string is a sequence of bytes: [string] here, one [ascii] per byte.
    Case folding and white space are the ASCII ones; every string the modelled
    code folds or trims is a host name, a configuration token or a keyword. *)
From S2P Require Import Prelude.
From Stdlib Require Import Ascii String.

Open Scope string_scope.

(** ** Slicing *)

(** [s[n:]] and [s[:n]]. *)
Fixpoint sdrop (n : nat) (s : string) : string :=
  match n, s with
  | 0, _ => s
  | S n, EmptyString => EmptyString
  | S n, String _ s => sdrop n s
  end.

Fixpoint stake (n : nat) (s : string) : string :=
  match n, s with
  | 0, _ => EmptyString
  | S n, EmptyString => EmptyString
  | S n, String c s => String c (stake n s)
  end.

Fixpoint srev_app (s acc : string) : string :=
  match s with
  | EmptyString => acc
  | String c s => srev_app s (String c acc)
  end.

Definition srev (s : string) : string := srev_app s EmptyString.

(** [strings.HasPrefix], [strings.HasSuffix], [strings.Contains]. *)
Fixpoint has_prefix (s p : string) : bool :=
  match p, s with
  | EmptyString, _ => true
  | String a p, String b s => Ascii.eqb a b && has_prefix s p
  | String _ _, EmptyString => false
  end.

Definition has_suffix (s suf : string) : bool :=
  (String.length suf <=? String.length s)%nat &&
  (sdrop (String.length s - String.length suf) s ==? suf).

Fixpoint contains (s sub : string) : bool :=
  has_prefix s sub ||
  match s with
  | EmptyString => false
  | String _ s => contains s sub
  end.

(** [strings.TrimPrefix], [strings.TrimSuffix]. *)
Definition trim_prefix (s p : string) : string :=
  if has_prefix s p then sdrop (String.length p) s else s.

Definition trim_suffix (s p : string) : string :=
  if has_suffix s p then stake (String.length s - String.length p) s else s.

(** ** Characters *)

Definition byte_of (c : ascii) : Z := Z.of_nat (nat_of_ascii c).

Definition is_digit (c : ascii) : bool :=
  (48 <=? byte_of c)%Z && (byte_of c <=? 57)%Z.
Definition is_upper (c : ascii) : bool :=
  (65 <=? byte_of c)%Z && (byte_of c <=? 90)%Z.
Definition is_lower (c : ascii) : bool :=
  (97 <=? byte_of c)%Z && (byte_of c <=? 122)%Z.
Definition is_space (c : ascii) : bool :=
  (byte_of c =? 32)%Z || ((9 <=? byte_of c)%Z && (byte_of c <=? 13)%Z).

Definition lower (c : ascii) : ascii :=
  if is_upper c then ascii_of_nat (nat_of_ascii c + 32) else c.
Definition upper (c : ascii) : ascii :=
  if is_lower c then ascii_of_nat (nat_of_ascii c - 32) else c.

Fixpoint smap (f : ascii -> ascii) (s : string) : string :=
  match s with
  | EmptyString => EmptyString
  | String c s => String (f c) (smap f s)
  end.

Definition to_lower : string -> string := smap lower.
Definition to_upper : string -> string := smap upper.

(** [strings.EqualFold]. *)
Definition equal_fold (s t : string) : bool := to_lower s ==? to_lower t.

Fixpoint sall (p : ascii -> bool) (s : string) : bool :=
  match s with
  | EmptyString => true
  | String c s => p c && sall p s
  end.

(** ** Trimming *)

(** [strings.TrimLeftFunc], [strings.TrimRightFunc], [strings.TrimFunc]. *)
Fixpoint trim_left_f (p : ascii -> bool) (s : string) : string :=
  match s with
  | EmptyString => EmptyString
  | String c s' => if p c then trim_left_f p s' else s
  end.

Fixpoint trim_right_f (p : ascii -> bool) (s : string) : string :=
  match s with
  | EmptyString => EmptyString
  | String c s =>
      match trim_right_f p s with
      | EmptyString => if p c then EmptyString else String c EmptyString
      | t => String c t
      end
  end.

Definition trim_f (p : ascii -> bool) (s : string) : string :=
  trim_right_f p (trim_left_f p s).

Definition trim_space : string -> string := trim_f is_space.

(** A cutset, as [strings.Trim], [strings.TrimLeft] and [strings.TrimRight] take one. *)
Fixpoint in_set (cs : string) (c : ascii) : bool :=
  match cs with
  | EmptyString => false
  | String d cs => Ascii.eqb c d || in_set cs c
  end.

Definition trim_set (cs s : string) : string := trim_f (in_set cs) s.
Definition trim_left_set (cs s : string) : string := trim_left_f (in_set cs) s.
Definition trim_right_set (cs s : string) : string := trim_right_f (in_set cs) s.

(** ** Splitting and joining *)

(** [strings.Split(s, sep)] for a one-byte separator: never empty. *)
Fixpoint split_on (sep : ascii) (s : string) : list string :=
  match s with
  | EmptyString => [EmptyString]
  | String c s =>
      if Ascii.eqb c sep then EmptyString :: split_on sep s
      else match split_on sep s with
           | [] => [String c EmptyString]
           | w :: ws => String c w :: ws
           end
  end.

(** [strings.Cut(s, sep)] and [strings.SplitN(s, sep, 2)] for one byte. *)
Fixpoint cut (sep : ascii) (s : string) : option (string * string) :=
  match s with
  | EmptyString => None
  | String c s =>
      if Ascii.eqb c sep then Some (EmptyString, s)
      else match cut sep s with
           | Some (a, b) => Some (String c a, b)
           | None => None
           end
  end.

(** [strings.LastIndex(s, sep)] split: everything before and after the last [sep]. *)
Fixpoint cut_last (sep : ascii) (s : string) : option (string * string) :=
  match s with
  | EmptyString => None
  | String c s =>
      match cut_last sep s with
      | Some (a, b) => Some (String c a, b)
      | None => if Ascii.eqb c sep then Some (EmptyString, s) else None
      end
  end.

(** [strings.Fields]: maximal runs of non-space bytes. *)
Definition fields (s : string) : list string :=
  filter (fun w => w <> EmptyString)
    (split_on " " (smap (fun c => if is_space c then " "%char else c) s)).

(** [strings.Join]. *)
Fixpoint join (sep : string) (l : list string) : string :=
  match l with
  | [] => EmptyString
  | [s] => s
  | s :: l => s ++ sep ++ join sep l
  end.

(** [strings.ReplaceAll] of one byte by a string. *)
Fixpoint replace_all (old : ascii) (new : string) (s : string) : string :=
  match s with
  | EmptyString => EmptyString
  | String c s =>
      if Ascii.eqb c old then new ++ replace_all old new s
      else String c (replace_all old new s)
  end.

Fixpoint srepeat (c : ascii) (n : nat) : string :=
  match n with
  | 0 => EmptyString
  | S n => String c (srepeat c n)
  end.

(** ** Decimal integers *)

Definition digit (d : Z) : ascii := ascii_of_nat (Z.to_nat (48 + d)).

(** Push the decimal digits of [n] in front of [acc], least significant first:
    the loop of [strconv.Itoa]. Fuel 20 covers every 64-bit value. *)
Fixpoint digits_aux (fuel : nat) (n : Z) (acc : string) : string :=
  match fuel with
  | 0 => acc
  | S fuel =>
      if (n =? 0)%Z then acc
      else digits_aux fuel (n / 10)%Z (String (digit (n mod 10)%Z) acc)
  end.

(** [strconv.Itoa] / [%d]. *)
Definition Itoa (n : Z) : string :=
  if (n =? 0)%Z then "0"
  else if (n <? 0)%Z then String "-" (digits_aux 20 (- n)%Z "")
  else digits_aux 20 n "".

(** Value of a string of digits, [None] on any other byte. *)
Fixpoint digits_val (s : string) (acc : Z) : option Z :=
  match s with
  | EmptyString => Some acc
  | String c s =>
      if is_digit c then digits_val s (acc * 10 + (byte_of c - 48))%Z else None
  end.

(** [strconv.Atoi]: an optional sign, at least one digit, 64-bit range.
    [None] stands for a non-nil error. *)
Definition Atoi (s : string) : option Z :=
  let '(neg, ds) :=
    match s with
    | String "-" s => (true, s)
    | String "+" s => (false, s)
    | _ => (false, s)
    end in
  match ds with
  | EmptyString => None
  | _ => match digits_val ds 0 with
         | None => None
         | Some v => let z := if neg then (- v)%Z else v in
                     if decide (in_i64 z) then Some z else None
         end
  end.

(** The value [strconv.Atoi] returns beside a possible error: 0 on a syntax
    error, the nearest bound on a range error. *)
Definition Atoi_val (s : string) : Z :=
  match Atoi s with
  | Some z => z
  | None =>
      let '(neg, ds) :=
        match s with
        | String "-" s => (true, s)
        | String "+" s => (false, s)
        | _ => (false, s)
        end in
      match ds with
      | EmptyString => 0%Z
      | _ => match digits_val ds 0 with
             | None => 0%Z
             | Some _ => if neg then min_int64 else max_int64
             end
      end
  end.

(** [sort.Strings]: byte order is total, so the sorted slice is unique. *)
Definition sort_strings : list string -> list string := merge_sort String.le.

(** ** Lemmas *)

Lemma sapp_cons c (s t : string) : String c s ++ t = String c (s ++ t).
Proof. done. Qed.

Lemma sapp_nil_l (s : string) : "" ++ s = s.
Proof. done. Qed.

Lemma sapp_nil_r (s : string) : s ++ "" = s.
Proof. induction s as [|c s IH]; [done|]. by rewrite sapp_cons, IH. Qed.

Lemma sapp_assoc (s t u : string) : (s ++ t) ++ u = s ++ t ++ u.
Proof. induction s as [|c s IH]; [done|]. by rewrite !sapp_cons, IH. Qed.

Lemma slen_app (s t : string) :
  String.length (s ++ t) = String.length s + String.length t.
Proof. induction s as [|c s IH]; [done|]. rewrite sapp_cons. cbn. by rewrite IH. Qed.

Lemma sapp_inj_l (s t u : string) : s ++ t = s ++ u -> t = u.
Proof. induction s as [|c s IH]; [done|]. rewrite !sapp_cons. intros [= H]. auto. Qed.

Lemma sdrop_app (s t : string) : sdrop (String.length s) (s ++ t) = t.
Proof. by induction s. Qed.

Lemma stake_app (s t : string) : stake (String.length s) (s ++ t) = s.
Proof. induction s as [|c s IH]; [by destruct t|]. rewrite sapp_cons. cbn. by rewrite IH. Qed.

Lemma has_prefix_app (s t : string) : has_prefix (s ++ t) s = true.
Proof.
  induction s as [|c s IH]; [by destruct t|].
  rewrite sapp_cons. cbn. by rewrite Ascii.eqb_refl, IH.
Qed.

Lemma has_prefix_spec s p : has_prefix s p = true <-> exists t, s = p ++ t.
Proof.
  split.
  - revert s; induction p as [|c p IH]; intros s H; [by exists s|].
    destruct s as [|d s]; [done|]. cbn in H. bools.
    apply Ascii.eqb_eq in H as ->. destruct (IH _ H0) as [t ->]. by exists t.
  - intros [t ->]. apply has_prefix_app.
Qed.

Lemma has_suffix_app (s t : string) : has_suffix (s ++ t) t = true.
Proof.
  unfold has_suffix. rewrite slen_app. apply andb_true_iff. split.
  - apply Nat.leb_le. lia.
  - rewrite Nat.add_sub, sdrop_app. by apply bool_decide_eq_true_2.
Qed.

Lemma trim_suffix_app (s t : string) : trim_suffix (s ++ t) t = s.
Proof.
  unfold trim_suffix. by rewrite has_suffix_app, slen_app, Nat.add_sub, stake_app.
Qed.

Lemma sall_app p (s t : string) : sall p (s ++ t) = sall p s && sall p t.
Proof. induction s as [|c s IH]; [done|]. rewrite sapp_cons. cbn. by rewrite IH, andb_assoc. Qed.

Lemma sall_impl (p q : ascii -> bool) s :
  (forall c, p c = true -> q c = true) -> sall p s = true -> sall q s = true.
Proof.
  intros Hpq. induction s as [|c s IH]; [done|]. cbn. intros ?. bools.
  rewrite Hpq, IH; done.
Qed.

(** A separator that does not occur in [s] splits [s ++ sep :: t] after [s]. *)
Lemma cut_app sep s t :
  sall (fun c => negb (Ascii.eqb c sep)) s = true ->
  cut sep (s ++ String sep t) = Some (s, t).
Proof.
  induction s as [|c s IH]; intros H.
  - rewrite sapp_nil_l. cbn. by rewrite Ascii.eqb_refl.
  - rewrite sapp_cons. cbn in *. bools. by rewrite H, IH.
Qed.

Lemma cut_none sep s : sall (fun c => negb (Ascii.eqb c sep)) s = true -> cut sep s = None.
Proof.
  induction s as [|c s IH]; [done|]. cbn. intros ?; bools. by rewrite H, IH.
Qed.

Lemma contains_char_none (c : ascii) s :
  sall (fun d => negb (Ascii.eqb d c)) s = true -> contains s (String c "") = false.
Proof.
  induction s as [|d s IH]; [done|]. cbn [sall]. intros ?; bools.
  cbn [contains has_prefix]. rewrite Ascii.eqb_sym, H. cbn [andb orb]. by apply IH.
Qed.

Lemma contains_char_app (c : ascii) s t : contains (s ++ String c t) (String c "") = true.
Proof.
  induction s as [|d s IH].
  - rewrite sapp_nil_l. cbn [contains has_prefix]. rewrite Ascii.eqb_refl. by destruct t.
  - rewrite sapp_cons. cbn [contains]. rewrite IH. by rewrite orb_true_r.
Qed.

Lemma split_on_none sep s :
  sall (fun c => negb (Ascii.eqb c sep)) s = true -> split_on sep s = [s].
Proof.
  induction s as [|c s IH]; [done|]. cbn. intros ?; bools. by rewrite H, IH.
Qed.

Lemma split_on_app sep s t :
  sall (fun c => negb (Ascii.eqb c sep)) s = true ->
  split_on sep (s ++ String sep t) = s :: split_on sep t.
Proof.
  induction s as [|c s IH]; intros H.
  - rewrite sapp_nil_l. cbn. by rewrite Ascii.eqb_refl.
  - rewrite sapp_cons. cbn in *. bools. by rewrite H, IH.
Qed.

Lemma split_on_not_nil sep s : split_on sep s <> [].
Proof.
  destruct s as [|c s]; [done|]. cbn.
  destruct (Ascii.eqb c sep); [done|]. by destruct (split_on sep s).
Qed.

(** [Split] inverts [Join] when no part holds the separator. *)
Lemma split_on_join sep (l : list string) :
  l <> [] -> Forall (fun s => sall (fun c => negb (Ascii.eqb c sep)) s = true) l ->
  split_on sep (join (String sep "") l) = l.
Proof.
  intros Hne Hl. induction Hl as [|s l Hs Hl IH]; [done|].
  destruct l as [|t l].
  - by apply split_on_none.
  - change (join (String sep "") (s :: t :: l))
      with (s ++ String sep (join (String sep "") (t :: l))).
    rewrite split_on_app by done.
    f_equal. by apply IH.
Qed.

Lemma smap_id_on (f : ascii -> ascii) (p : ascii -> bool) s :
  (forall c, p c = true -> f c = c) -> sall p s = true -> smap f s = s.
Proof.
  intros Hf. induction s as [|c s IH]; [done|]. cbn. intros ?; bools. by rewrite Hf, IH.
Qed.

Lemma smap_app f (s t : string) : smap f (s ++ t) = smap f s ++ smap f t.
Proof. induction s as [|c s IH]; [done|]. rewrite sapp_cons. cbn. by rewrite IH. Qed.

(** [Fields] inverts joining non-empty words with a space. *)
Lemma fields_join (l : list string) :
  Forall (fun s => s <> "" /\ sall (fun c => negb (is_space c)) s = true) l ->
  fields (join " " l) = l.
Proof.
  intros Hl. unfold fields.
  assert (Hm : smap (fun c => if is_space c then " "%char else c) (join " " l) = join " " l).
  { induction Hl as [|s l [_ Hs] Hl IH]; [done|].
    assert (smap (fun c => if is_space c then " "%char else c) s = s) as Es.
    { eapply smap_id_on; [|exact Hs]. intros c Hc. cbn in Hc. bools. by rewrite Hc. }
    destruct l as [|t l]; [done|]. change (join " " (s :: t :: l)) with (s ++ " " ++ join " " (t :: l)).
    by rewrite !smap_app, IH, Es. }
  rewrite Hm. destruct l as [|s0 l0] eqn:El; [done|]. rewrite <- El in *.
  assert (Hsp : split_on " " (join " " l) = l).
  { apply (split_on_join " "%char); [congruence|]. eapply Forall_impl; [exact Hl|].
    intros s [_ Hs]. eapply sall_impl; [|exact Hs]. intros c Hc. bools.
    apply negb_true_iff, Ascii.eqb_neq. intros ->. done. }
  rewrite Hsp. clear -Hl. induction Hl as [|s l [Hs _] _ IH]; [done|].
  rewrite filter_cons_True by done. by rewrite IH.
Qed.

(** *** Digits *)

Lemma byte_digit d : (0 <= d < 10)%Z -> byte_of (digit d) = (48 + d)%Z.
Proof.
  intros. unfold byte_of, digit. rewrite nat_ascii_embedding by lia. lia.
Qed.

Lemma is_digit_digit d : (0 <= d < 10)%Z -> is_digit (digit d) = true.
Proof.
  intros. unfold is_digit. rewrite byte_digit by done. apply andb_true_iff.
  split; apply Z.leb_le; lia.
Qed.

Lemma mod10_range n : (0 <= n mod 10 < 10)%Z.
Proof. apply Z.mod_pos_bound. lia. Qed.

(** Every bit of fuel buys one decimal digit. *)
Lemma digits_val_aux fuel n acc :
  (0 <= n < 10 ^ Z.of_nat fuel)%Z ->
  digits_val (digits_aux fuel n acc) 0 = digits_val acc n.
Proof.
  revert n acc. induction fuel as [|fuel IH]; intros n acc Hn.
  - cbn in *. by replace n with 0%Z by lia.
  - cbn [digits_aux]. destruct (Z.eqb_spec n 0) as [->|Hnz]; [done|].
    rewrite IH.
    + cbn [digits_val]. rewrite is_digit_digit, byte_digit by apply mod10_range.
      f_equal. pose proof (Z.div_mod n 10 ltac:(lia)). lia.
    + split; [apply Z.div_pos; lia|]. apply Z.div_lt_upper_bound; [lia|].
      rewrite Nat2Z.inj_succ, Z.pow_succ_r in Hn; lia.
Qed.

Lemma digits_aux_all fuel n acc :
  sall is_digit acc = true -> sall is_digit (digits_aux fuel n acc) = true.
Proof.
  revert n acc. induction fuel as [|fuel IH]; intros n acc Hacc; cbn; [done|].
  destruct (n =? 0)%Z; [done|]. apply IH. cbn.
  by rewrite is_digit_digit, Hacc by apply mod10_range.
Qed.

Lemma digits_aux_ne fuel n acc : acc <> "" -> digits_aux fuel n acc <> "".
Proof.
  revert n acc. induction fuel as [|fuel IH]; intros n acc Hacc; cbn; [done|].
  destruct (n =? 0)%Z; [done|]. by apply IH.
Qed.

Lemma digits_aux_pos fuel n : (0 < n)%Z -> digits_aux (S fuel) n "" <> "".
Proof.
  intros. cbn. destruct (Z.eqb_spec n 0); [lia|]. by apply digits_aux_ne.
Qed.

Lemma pow10_20 : (2 ^ 64 < 10 ^ Z.of_nat 20)%Z.
Proof. by vm_compute. Qed.

(** A digit string is neither signed nor empty, so [Atoi] reads its value. *)
Lemma Atoi_digits s v :
  s <> "" -> sall is_digit s = true -> digits_val s 0 = Some v -> in_i64 v ->
  Atoi s = Some v.
Proof.
  intros Hne Hd Hv Hr. destruct s as [|c s]; [done|]. unfold Atoi.
  assert (Hc : is_digit c = true) by (cbn in Hd; by bools).
  assert (Hs : c <> "-"%char /\ c <> "+"%char) by (split; intros ->; done).
  destruct Hs as [H1 H2].
  destruct c as [[] [] [] [] [] [] [] []];
    first [exfalso; (by apply H1) || (by apply H2) | rewrite Hv; by rewrite decide_True].
Qed.

Lemma Atoi_neg_digits s v :
  s <> "" -> digits_val s 0 = Some v -> in_i64 (- v) ->
  Atoi (String "-" s) = Some (- v)%Z.
Proof.
  intros Hne Hv Hr. destruct s as [|c s]; [by destruct Hne|].
  unfold Atoi. rewrite Hv. by rewrite decide_True by done.
Qed.

Theorem Atoi_Itoa n : in_i64 n -> Atoi (Itoa n) = Some n.
Proof.
  intros Hn. pose proof pow10_20. unfold in_i64, min_int64, max_int64 in Hn.
  unfold Itoa. destruct (Z.eqb_spec n 0) as [->|Hnz]; [done|].
  destruct (Z.ltb_spec n 0).
  - rewrite <- (Z.opp_involutive n) at 2. apply Atoi_neg_digits.
    + apply digits_aux_pos. lia.
    + by rewrite digits_val_aux by lia.
    + unfold in_i64, min_int64, max_int64. lia.
  - apply Atoi_digits.
    + apply digits_aux_pos. lia.
    + by apply digits_aux_all.
    + by rewrite digits_val_aux by lia.
    + done.
Qed.

#[export] Hint Resolve Atoi_Itoa digits_aux_all : porter.

Lemma Itoa_inj m n : in_i64 m -> in_i64 n -> Itoa m = Itoa n -> m = n.
Proof.
  intros Hm Hn H. apply Atoi_Itoa in Hm, Hn. rewrite H in Hm. congruence.
Qed.

Lemma Itoa_digits n : (0 <= n)%Z -> sall is_digit (Itoa n) = true.
Proof.
  intros. unfold Itoa. destruct (Z.eqb_spec n 0); [done|].
  destruct (Z.ltb_spec n 0); [lia|]. by apply digits_aux_all.
Qed.

Close Scope string_scope.
