(* ===== verification/GoNum.v ===== *)
(** * Go's [float64]

    IEEE 754 binary64 with rounding to nearest even, as the Standard Library's
    executable [SpecFloat] defines it (precision 53, maximal exponent 1024). *)
From S2P Require Import Prelude.
From Stdlib Require Import SpecFloat.

Abbreviation float64 := spec_float.

Definition prec : Z := 53.
Definition emax : Z := 1024.

Definition fadd : float64 -> float64 -> float64 := SFadd prec emax.
Definition fsub : float64 -> float64 -> float64 := SFsub prec emax.
Definition fmul : float64 -> float64 -> float64 := SFmul prec emax.
Definition fdiv : float64 -> float64 -> float64 := SFdiv prec emax.

(** [float64(n)] for an integer [n]. *)
Definition f_of_Z (n : Z) : float64 := binary_normalize prec emax n 0 false.

(** [x < y], [x > y], [x <= y]: false as soon as one side is NaN. *)
Definition flt (x y : float64) : bool := SFltb x y.
Definition fgt (x y : float64) : bool := SFltb y x.
Definition fle (x y : float64) : bool := SFleb x y.

(** A decimal literal [n / 10^k], correctly rounded. *)
Definition f_lit (n : Z) (k : Z) : float64 := fdiv (f_of_Z n) (f_of_Z (10 ^ k)).
