(* ===== verification/GoNet.v ===== *)
(** * Go's [net] addresses

    [net.ParseIP], [net.ParseCIDR], [IPNet.Contains], [IP.String] and
    [net.SplitHostPort] as the Go standard library documents them. A [net.IP] is
    its 16-byte form read as a 128-bit number; an IPv4 address is the mapped
    address [::ffff:a.b.c.d], which [To4] recognises. *)
From S2P Require Import Prelude GoStrings.
From Stdlib Require Import Ascii String.

Open Scope string_scope.
Open Scope Z_scope.

Definition IP := Z.

Definition v4_prefix : Z := 65535 * 2 ^ 32.

Definition ip_of_v4 (v : Z) : IP := v4_prefix + v.

(** [ip.To4()]: the 32-bit address when [ip] is IPv4-mapped. *)
Definition To4 (ip : IP) : option Z :=
  if ip / 2 ^ 32 =? 65535 then Some (ip mod 2 ^ 32) else None.

(** ** Parsing *)

(** One decimal field of an IPv4 address: no leading zero, at most 255. *)
Definition parse_octet (s : string) : option Z :=
  match s with
  | EmptyString => None
  | String "0" (String _ _) => None
  | _ => match digits_val s 0 with
         | Some v => if v <=? 255 then Some v else None
         | None => None
         end
  end.

Definition v4_of_octets (a b c d : Z) : Z := a * 2 ^ 24 + b * 2 ^ 16 + c * 2 ^ 8 + d.

Definition parse_ipv4 (s : string) : option Z :=
  match split_on "." s with
  | [a; b; c; d] =>
      match parse_octet a, parse_octet b, parse_octet c, parse_octet d with
      | Some a, Some b, Some c, Some d => Some (v4_of_octets a b c d)
      | _, _, _, _ => None
      end
  | _ => None
  end.

Definition hex_val (c : ascii) : option Z :=
  if is_digit c then Some (byte_of c - 48)
  else if (97 <=? byte_of c) && (byte_of c <=? 102) then Some (byte_of c - 87)
  else if (65 <=? byte_of c) && (byte_of c <=? 70) then Some (byte_of c - 55)
  else None.

(** The hex digits at the front of [s]: how many, their value, what follows. *)
Fixpoint hex_run (s : string) (n : nat) (acc : Z) : nat * Z * string :=
  match s with
  | EmptyString => (n, acc, s)
  | String c s' =>
      match hex_val c with
      | Some h => hex_run s' (S n) (acc * 16 + h)
      | None => (n, acc, s)
      end
  end.

(** The 16-bit groups of an IPv6 address: [gs] read so far (reversed), [ell]
    the number of groups before the [::]. At most eight rounds. *)
Fixpoint parse_v6_groups (fuel : nat) (s : string) (gs : list Z) (ell : option nat)
    : option (list Z * option nat) :=
  match fuel with
  | O => match s with EmptyString => Some (gs, ell) | _ => None end
  | S fuel =>
      match hex_run s 0 0 with
      | (n, acc, rest) =>
          if (n =? 0)%nat then None
          else if (4 <? n)%nat then None
          else match rest with
          | EmptyString => Some (acc :: gs, ell)
          | String "." _ =>
              if (match ell with None => negb (List.length gs =? 6)%nat | Some _ => false end)
                 || (6 <? List.length gs)%nat then None
              else match parse_ipv4 s with
                   | Some v => Some ((v mod 2 ^ 16) :: (v / 2 ^ 16) :: gs, ell)
                   | None => None
                   end
          | String ":" EmptyString => None
          | String ":" (String ":" rest) =>
              match ell with
              | Some _ => None
              | None =>
                  let ell := Some (S (List.length gs)) in
                  match rest with
                  | EmptyString => Some (acc :: gs, ell)
                  | _ => parse_v6_groups fuel rest (acc :: gs) ell
                  end
              end
          | String ":" rest => parse_v6_groups fuel rest (acc :: gs) ell
          | _ => None
          end
      end
  end.

Definition groups_val (gs : list Z) : Z := fold_left (fun a g => a * 2 ^ 16 + g) gs 0.

Definition parse_ipv6 (s : string) : option Z :=
  let start :=
    match s with
    | String ":" (String ":" s') => (s', Some 0%nat)
    | _ => (s, None)
    end in
  let r := match start with
           | (EmptyString, Some _) => Some ([], Some 0%nat)
           | (s', ell) => parse_v6_groups 8 s' [] ell
           end in
  match r with
  | Some (gs, None) =>
      if (List.length gs =? 8)%nat then Some (groups_val (rev gs)) else None
  | Some (gs, Some e) =>
      if (List.length gs <? 8)%nat then
        let l := rev gs in
        Some (groups_val (take e l ++ replicate (8 - List.length gs) 0 ++ drop e l)%list)
      else None
  | None => None
  end.

(** The address family is decided by the first ['.'], [':'] or ['%']. *)
Fixpoint addr_kind (s : string) : option ascii :=
  match s with
  | EmptyString => None
  | String c s =>
      if Ascii.eqb c "." || Ascii.eqb c ":" || Ascii.eqb c "%" then Some c else addr_kind s
  end.

Inductive addr := Addr4 (v : Z) | Addr6 (v : Z).

(** [netip.ParseAddr] without a zone. *)
Definition parse_addr (s : string) : option addr :=
  match addr_kind s with
  | Some "."%char => Addr4 <$> parse_ipv4 s
  | Some ":"%char => Addr6 <$> parse_ipv6 s
  | _ => None
  end.

Definition ParseIP (s : string) : option IP :=
  match parse_addr s with
  | Some (Addr4 v) => Some (ip_of_v4 v)
  | Some (Addr6 v) => Some v
  | None => None
  end.

(** ** Networks *)

(** The first [n] of [w] bits set. *)
Definition prefix_mask (n w : Z) : Z := 2 ^ w - 2 ^ (w - n).

(** A [net.IPNet]: the masked address, the prefix length, and whether the mask
    is a 4-byte one. *)
Record IPNet := mkIPNet { Net_IP : IP; Net_Bits : Z; Net_Mask4 : bool }.

(** [net.ParseCIDR]; the mask is a digit string below 0xFFFFFF. *)
Definition ParseCIDR (s : string) : option IPNet :=
  match cut "/" s with
  | None => None
  | Some (a, m) =>
      match parse_addr a, m, digits_val m 0 with
      | _, EmptyString, _ => None
      | Some (Addr4 v), _, Some n =>
          if n <=? 32 then
            Some (mkIPNet (ip_of_v4 (Z.land v (prefix_mask n 32))) n true)
          else None
      | Some (Addr6 v), _, Some n =>
          if n <=? 128 then Some (mkIPNet (Z.land v (prefix_mask n 128)) n false) else None
      | _, _, _ => None
      end
  end.

(** [IPNet.Contains]. *)
Definition Contains (n : IPNet) (ip : IP) : bool :=
  match To4 (Net_IP n), To4 ip with
  | Some nn, Some x =>
      let bits := if Net_Mask4 n then Net_Bits n else Z.max 0 (Net_Bits n - 96) in
      Z.land nn (prefix_mask bits 32) =? Z.land x (prefix_mask bits 32)
  | None, None =>
      Z.land (Net_IP n) (prefix_mask (Net_Bits n) 128) =?
      Z.land ip (prefix_mask (Net_Bits n) 128)
  | _, _ => false
  end.

(** ** Printing *)

Definition octet (v : Z) (k : Z) : Z := (v / 2 ^ k) mod 256.

Definition fmt_ipv4 (v : Z) : string :=
  join "." [Itoa (octet v 24); Itoa (octet v 16); Itoa (octet v 8); Itoa (octet v 0)].

Definition hex_digit (d : Z) : ascii :=
  if d <? 10 then digit d else ascii_of_nat (Z.to_nat (87 + d)).

(** [%x] of a 16-bit group, without leading zeros. *)
Definition fmt_hex16 (g : Z) : string :=
  if g <? 16 then String (hex_digit g) ""
  else if g <? 256 then String (hex_digit (g / 16)) (String (hex_digit (g mod 16)) "")
  else if g <? 4096 then
    String (hex_digit (g / 256)) (String (hex_digit (g / 16 mod 16))
      (String (hex_digit (g mod 16)) ""))
  else
    String (hex_digit (g / 4096)) (String (hex_digit (g / 256 mod 16))
      (String (hex_digit (g / 16 mod 16)) (String (hex_digit (g mod 16)) ""))).

Definition groups_of (ip : IP) : list Z :=
  map (fun k => (ip / 2 ^ k) mod 2 ^ 16) [112; 96; 80; 64; 48; 32; 16; 0].

Fixpoint zero_run (l : list Z) : nat :=
  match l with
  | 0 :: l => S (zero_run l)
  | _ => 0%nat
  end.

(** Start and length of the first longest run of zero groups. *)
Fixpoint longest_zero (i : nat) (l : list Z) (best : nat * nat) : nat * nat :=
  match l with
  | [] => best
  | _ :: l' =>
      let n := zero_run l in
      longest_zero (S i) l' (if (snd best <? n)%nat then (i, n) else best)
  end.

(** [ip.String()]: dotted decimal, or the RFC 5952 form. *)
Definition IP_String (ip : IP) : string :=
  match To4 ip with
  | Some v => fmt_ipv4 v
  | None =>
      let gs := groups_of ip in
      let '(i, n) := longest_zero 0 gs (0, 0)%nat in
      if (n <? 2)%nat then join ":" (map fmt_hex16 gs)
      else join ":" (map fmt_hex16 (take i gs)) ++ "::" ++
           join ":" (map fmt_hex16 (drop (i + n) gs))
  end.

(** [net.SplitHostPort]: [None] stands for an error. *)
Definition SplitHostPort (hp : string) : option (string * string) :=
  match cut_last ":" hp with
  | None => None
  | Some (before, port) =>
      match hp with
      | String "[" tl =>
          match cut "]" tl with
          | None => None
          | Some (host, after) =>
              (* what follows the bracket must be exactly [:port] *)
              if (after ==? String ":" port)
                 && sall (fun c => negb (Ascii.eqb c "[")) tl
                 && sall (fun c => negb (Ascii.eqb c "]")) after
              then Some (host, port) else None
          end
      | _ =>
          if sall (fun c => negb (Ascii.eqb c ":")) before
             && sall (fun c => negb (Ascii.eqb c "[")) hp
             && sall (fun c => negb (Ascii.eqb c "]")) hp
          then Some (before, port) else None
      end
  end.

(** ** Lemmas *)

Lemma octet_range v k : 0 <= octet v k < 256.
Proof. apply Z.mod_pos_bound. lia. Qed.

Lemma v4_octets v : 0 <= v < 2 ^ 32 ->
  v4_of_octets (octet v 24) (octet v 16) (octet v 8) (octet v 0) = v.
Proof.
  intros Hv. unfold v4_of_octets, octet. change (2 ^ 0) with 1.
  change (2 ^ 24) with 16777216. change (2 ^ 16) with 65536. change (2 ^ 8) with 256.
  change (2 ^ 32) with 4294967296 in Hv.
  rewrite Z.div_1_r.
  Z.to_euclidean_division_equations. lia.
Qed.

(** Printing then parsing one octet: checked over the 256 values. *)
Lemma parse_octet_Itoa v : 0 <= v < 256 -> parse_octet (Itoa v) = Some v.
Proof.
  intros Hv.
  apply (bool_decide_eq_true_1 (parse_octet (Itoa v) = Some v)).
  revert v Hv. apply (Zrange_check 256 (fun v => bool_decide (parse_octet (Itoa v) = Some v))).
  vm_compute. reflexivity.
Qed.

Lemma digit_not_dot s :
  sall is_digit s = true -> sall (fun c => negb (Ascii.eqb c ".")) s = true.
Proof.
  apply sall_impl. intros c Hc. apply negb_true_iff, Ascii.eqb_neq. by intros ->.
Qed.

Lemma parse_fmt_ipv4 v : 0 <= v < 2 ^ 32 -> parse_ipv4 (fmt_ipv4 v) = Some v.
Proof.
  intros Hv. unfold parse_ipv4, fmt_ipv4.
  rewrite (split_on_join "."); [|done|].
  - rewrite !parse_octet_Itoa by apply octet_range. by rewrite v4_octets.
  - repeat constructor; apply digit_not_dot, Itoa_digits, octet_range.
Qed.

Lemma addr_kind_app s t :
  sall is_digit s = true -> addr_kind (s ++ t) = addr_kind t.
Proof.
  induction s as [|c s IH]; [done|]. cbn. intros ?; bools.
  rewrite sapp_cons. cbn.
  destruct (Ascii.eqb_spec c "."), (Ascii.eqb_spec c ":"), (Ascii.eqb_spec c "%");
    subst; try done. cbn. auto.
Qed.

(** Dotted-decimal text of any 32-bit address parses back to it. *)
Lemma ParseIP_fmt_ipv4 v : 0 <= v < 2 ^ 32 -> ParseIP (fmt_ipv4 v) = Some (ip_of_v4 v).
Proof.
  intros Hv. unfold ParseIP, parse_addr.
  assert (addr_kind (fmt_ipv4 v) = Some "."%char) as ->.
  { unfold fmt_ipv4. cbn [join]. rewrite addr_kind_app; [done|].
    apply Itoa_digits, octet_range. }
  by rewrite parse_fmt_ipv4.
Qed.

Lemma To4_of_v4 v : 0 <= v < 2 ^ 32 -> To4 (ip_of_v4 v) = Some v.
Proof.
  intros Hv. unfold To4, ip_of_v4, v4_prefix.
  rewrite (Z.add_comm _ v), Z.div_add, Z.mod_add, Z.div_small, Z.mod_small by lia.
  by rewrite Z.eqb_refl.
Qed.

Lemma IP_String_v4 v : 0 <= v < 2 ^ 32 -> IP_String (ip_of_v4 v) = fmt_ipv4 v.
Proof. intros Hv. unfold IP_String. by rewrite To4_of_v4. Qed.

Definition is_octet (a : Z) : Prop := 0 <= a < 256.

Lemma v4_of_octets_range a b c d :
  is_octet a -> is_octet b -> is_octet c -> is_octet d -> 0 <= v4_of_octets a b c d < 2 ^ 32.
Proof. unfold is_octet, v4_of_octets. lia. Qed.

Lemma octets_of_v4 a b c d :
  is_octet a -> is_octet b -> is_octet c -> is_octet d ->
  let v := v4_of_octets a b c d in
  octet v 24 = a /\ octet v 16 = b /\ octet v 8 = c /\ octet v 0 = d.
Proof.
  unfold is_octet, v4_of_octets, octet. intros.
  change (2 ^ 24) with 16777216. change (2 ^ 16) with 65536.
  change (2 ^ 8) with 256. change (2 ^ 0) with 1. rewrite Z.div_1_r.
  repeat split; Z.to_euclidean_division_equations; lia.
Qed.

Lemma v4_of_octets_inj a b c d a' b' c' d' :
  is_octet a -> is_octet b -> is_octet c -> is_octet d ->
  is_octet a' -> is_octet b' -> is_octet c' -> is_octet d' ->
  v4_of_octets a b c d = v4_of_octets a' b' c' d' -> a = a' /\ b = b' /\ c = c' /\ d = d'.
Proof. unfold is_octet, v4_of_octets. lia. Qed.

Lemma fmt_ipv4_octets a b c d :
  is_octet a -> is_octet b -> is_octet c -> is_octet d ->
  fmt_ipv4 (v4_of_octets a b c d) = join "." (map Itoa [a; b; c; d]).
Proof.
  intros Ha Hb Hc Hd. unfold fmt_ipv4.
  by destruct (octets_of_v4 a b c d Ha Hb Hc Hd) as (-> & -> & -> & ->).
Qed.

(** Dotted text holds digits and dots only. *)
Lemma fmt_ipv4_chars (p : ascii -> bool) v :
  (forall c, is_digit c = true -> p c = true) -> p "."%char = true ->
  sall p (fmt_ipv4 v) = true.
Proof.
  intros Hd Hdot. unfold fmt_ipv4. cbn [join].
  assert (Hi : forall k, sall p (Itoa (octet v k)) = true).
  { intros k. eapply sall_impl; [exact Hd|]. apply Itoa_digits, octet_range. }
  rewrite !sall_app, !Hi. cbn. by rewrite Hdot.
Qed.

Lemma digits_val_Itoa n : 0 <= n < 2 ^ 63 -> digits_val (Itoa n) 0 = Some n.
Proof.
  intros Hn. unfold Itoa. destruct (Z.eqb_spec n 0) as [->|]; [done|].
  destruct (Z.ltb_spec n 0); [lia|]. pose proof pow10_20.
  by rewrite digits_val_aux by lia.
Qed.

Lemma Itoa_ne n : Itoa n <> "".
Proof.
  unfold Itoa. destruct (Z.eqb_spec n 0); [done|]. destruct (Z.ltb_spec n 0); [done|].
  apply digits_aux_pos. lia.
Qed.

(** [ParseCIDR] reads back a dotted address with a prefix length. *)
Lemma ParseCIDR_fmt v n :
  0 <= v < 2 ^ 32 -> 0 <= n <= 32 ->
  ParseCIDR (fmt_ipv4 v ++ "/" ++ Itoa n) =
  Some (mkIPNet (ip_of_v4 (v / 2 ^ (32 - n) * 2 ^ (32 - n))) n true).
Proof.
  intros Hv Hn. unfold ParseCIDR.
  change ("/" ++ Itoa n) with (String "/" (Itoa n)). rewrite cut_app.
  2: { apply fmt_ipv4_chars; [|done]. intros c Hc. apply negb_true_iff, Ascii.eqb_neq. by intros ->. }
  assert (Hk : parse_addr (fmt_ipv4 v) = Some (Addr4 v)).
  { pose proof (ParseIP_fmt_ipv4 v Hv) as Hp. unfold ParseIP, parse_addr in *.
    assert (addr_kind (fmt_ipv4 v) = Some "."%char) as ->.
    { unfold fmt_ipv4. cbn [join]. rewrite addr_kind_app; [done|].
      apply Itoa_digits, octet_range. }
    by rewrite parse_fmt_ipv4. }
  rewrite Hk. pose proof (digits_val_Itoa n ltac:(lia)) as Hd. pose proof (Itoa_ne n).
  destruct (Itoa n); [done|]. rewrite Hd. destruct (Z.leb_spec n 32); [|lia].
  unfold prefix_mask. by rewrite land_prefix by lia.
Qed.

Lemma Contains_v4 net v n :
  0 <= net < 2 ^ 32 -> 0 <= v < 2 ^ 32 -> 0 <= n <= 32 ->
  Contains (mkIPNet (ip_of_v4 net) n true) (ip_of_v4 v) =
  (net / 2 ^ (32 - n) =? v / 2 ^ (32 - n)).
Proof.
  intros Hnet Hv Hn. unfold Contains. cbn. rewrite !To4_of_v4 by done.
  unfold prefix_mask. rewrite !land_prefix by lia.
  assert (0 < 2 ^ (32 - n)) by (apply Z.pow_pos_nonneg; lia).
  apply eq_true_iff_eq. rewrite !Z.eqb_eq. split; [|by intros ->].
  intros E. apply Z.mul_reg_r in E; lia.
Qed.

Close Scope Z_scope.
Close Scope string_scope.
