(* ===== verification/GoTime.v ===== *)
(** * Times and their text

    What the code uses of Go's [time] package beyond instants as numbers: the calendar
    date of an instant, the layouts [RFC3339] and [RFC3339Nano], and parsing them. A
    [time.Time] is the number of nanoseconds since its zero value (January 1 of year 1,
    UTC); locations are not kept, so a time is formatted in UTC. Dates are those of the
    proleptic Gregorian calendar, which repeats every 146097 days. *)
From S2P Require Import Prelude GoStrings.
From Stdlib Require Import String Ascii.

Open Scope string_scope.
Open Scope Z_scope.

(** ** Calendar *)

Definition leap (y : Z) : bool := (y mod 4 =? 0) && (negb (y mod 100 =? 0) || (y mod 400 =? 0)).

(** The days of the months of a year. *)
Definition month_days (y : Z) : list Z :=
  [31; if leap y then 29 else 28; 31; 30; 31; 30; 31; 31; 30; 31; 30; 31].

Definition daysIn (m y : Z) : Z := nth (Z.to_nat (m - 1)) (month_days y) 0.

(** The month and day of a day of the year, counted from month [m] on. *)
Fixpoint month_of (ms : list Z) (m yday : Z) : Z * Z :=
  match ms with
  | [] => (m, yday + 1)
  | k :: ms' => if yday <? k then (m, yday + 1) else month_of ms' (m + 1) (yday - k)
  end.

(** The date of the [n]-th day since January 1 of year 1. *)
Definition date_of (n : Z) : Z * Z * Z :=
  let n400 := n / 146097 in let n := n mod 146097 in
  let n100 := Z.min 3 (n / 36524) in let n := n - 36524 * n100 in
  let n4 := n / 1461 in let n := n mod 1461 in
  let n1 := Z.min 3 (n / 365) in let n := n - 365 * n1 in
  let y := 1 + 400 * n400 + 100 * n100 + 4 * n4 + n1 in
  (y, (month_of (month_days y) 1 n).1, (month_of (month_days y) 1 n).2).

Definition days_before (y m : Z) : Z := zsum (take (Z.to_nat (m - 1)) (month_days y)).

(** The day a date falls on, from the same origin. *)
Definition days_of (y m d : Z) : Z :=
  365 * (y - 1) + (y - 1) / 4 - (y - 1) / 100 + (y - 1) / 400 + days_before y m + d - 1.

Definition second : Z := 1000000000.
Definition day : Z := 86400 * second.

(** ** Formatting *)

(** The last [w] decimal digits. *)
Fixpoint digitsn (w : nat) (n : Z) : string :=
  match w with O => "" | S w => digitsn w (n / 10) ++ String (digit (n mod 10)) "" end.

(** [appendInt]: zero-padded to a width. *)
Definition appendInt (w : nat) (n : Z) : string :=
  let pad n := if n <? 10 ^ Z.of_nat w then digitsn w n else Itoa n in
  if n <? 0 then "-" ++ pad (- n) else pad n.

(** The fraction ".999999999": no trailing zeros, nothing at all for zero. *)
Fixpoint trimmed (w : nat) (n : Z) : string :=
  match w with
  | O => ""
  | S w => if n =? 0 then "" else String (digit (n / 10 ^ Z.of_nat w)) (trimmed w (n mod 10 ^ Z.of_nat w))
  end.

Definition fraction (ns : Z) : string := if ns =? 0 then "" else "." ++ trimmed 9 ns.

Definition clock (sec : Z) : string :=
  appendInt 2 (sec / 3600) ++ ":" ++ appendInt 2 (sec / 60 mod 60) ++ ":" ++ appendInt 2 (sec mod 60).

(** [Time.Format] with [RFC3339Nano] ([nano]) or [RFC3339], for a time in UTC. *)
Definition Format (nano : bool) (t : Z) : string :=
  let '(y, m, d) := date_of (t / day) in
  appendInt 4 y ++ "-" ++ appendInt 2 m ++ "-" ++ appendInt 2 d ++ "T" ++ clock (t mod day / second) ++
  (if nano then fraction (t mod second) else "") ++ "Z".

(** ** Parsing *)

(** Exactly [w] digits. *)
Fixpoint getnum (w : nat) (acc : Z) (s : string) : option (Z * string) :=
  match w, s with
  | O, _ => Some (acc, s)
  | S w, String c s => if is_digit c then getnum w (10 * acc + (byte_of c - 48)) s else None
  | S _, EmptyString => None
  end.

(** A two-digit number, or one digit that no other follows (the hour). *)
Definition getnum12 (s : string) : option (Z * string) :=
  match getnum 2 0 s with Some r => Some r | None => getnum 1 0 s end.

Definition expect (c : ascii) (s : string) : option string :=
  match s with String c' s => if Ascii.eqb c c' then Some s else None | EmptyString => None end.

(** [parseNanoseconds]: the digits after the separator, those past the ninth ignored. *)
Fixpoint nanos (w : nat) (s : string) : Z * string :=
  match s with
  | String c s' =>
      if is_digit c then
        match w with
        | O => nanos O s'
        | S w => let '(v, r) := nanos w s' in ((byte_of c - 48) * 10 ^ Z.of_nat w + v, r)
        end
      else (0, s)
  | EmptyString => (0, s)
  end.

(** An optional fraction: a point or comma and at least one digit. *)
Definition parse_fraction (s : string) : Z * string :=
  match s with
  | String p (String c s') =>
      if (Ascii.eqb p "." || Ascii.eqb p ",") && is_digit c then nanos 9 (String c s') else (0, s)
  | _ => (0, s)
  end.

(** The zone: [Z], or a signed offset of at most 24 hours and 60 minutes; its seconds. *)
Definition parse_zone (s : string) : option Z :=
  match s with
  | "Z" => Some 0
  | String c s =>
      if Ascii.eqb c "+" || Ascii.eqb c "-" then
        '(hh, s) ← getnum 2 0 s; s ← expect ":" s; '(mm, s) ← getnum 2 0 s;
        if (s ==? "") && (hh <=? 24) && (mm <=? 60) then
          Some ((if Ascii.eqb c "-" then -1 else 1) * (3600 * hh + 60 * mm))
        else None
      else None
  | EmptyString => None
  end.

Definition within (lo hi n : Z) : bool := (lo <=? n) && (n <=? hi).

(** [time.Parse] with [RFC3339], as a time in UTC. *)
Definition Parse (s : string) : option Z :=
  '(y, s) ← getnum 4 0 s; s ← expect "-" s; '(m, s) ← getnum 2 0 s; s ← expect "-" s; '(d, s) ← getnum 2 0 s;
  s ← expect "T" s; '(hh, s) ← getnum12 s; s ← expect ":" s; '(mi, s) ← getnum 2 0 s; s ← expect ":" s;
  '(ss, s) ← getnum 2 0 s;
  let '(ns, s) := parse_fraction s in
  zone ← parse_zone s;
  if within 1 12 m && within 1 (daysIn m y) d && within 0 23 hh && within 0 59 mi && within 0 59 ss then
    Some (days_of y m d * day + (3600 * hh + 60 * mi + ss - zone) * second + ns)
  else None.

(** The years [Time.MarshalJSON] accepts: 0 to 9999. *)
Definition first_ns : Z := - 366 * day.
Definition last_ns : Z := 3652059 * day.
Definition json_year (t : Z) : bool := (first_ns <=? t) && (t <? last_ns).

Definition trunc_second (t : Z) : Z := t / second * second.

(** ** Dates *)

Lemma leap_mod y : leap y = true <-> y mod 4 = 0 /\ (y mod 100 <> 0 \/ y mod 400 = 0).
Proof. unfold leap. rewrite andb_true_iff, orb_true_iff, negb_true_iff, Z.eqb_neq, !Z.eqb_eq. done. Qed.

(** Evaluates the month numbers of a goal. *)
Ltac eval_month :=
  repeat match goal with |- context [Z.to_nat ?x] => let v := eval vm_compute in (Z.to_nat x) in change (Z.to_nat x) with v end;
  cbn [take nth zsum foldr].

(** A day of the year is in its month, and the months before it have the days before. *)
Lemma month_of_spec y n :
  0 <= n < (if leap y then 366 else 365) ->
  let '(m, d) := month_of (month_days y) 1 n in
  1 <= m <= 12 /\ 1 <= d <= daysIn m y /\ days_before y m + d - 1 = n.
Proof.
  intros Hn. unfold month_of, daysIn, days_before, month_days. destruct (leap y);
    repeat (match goal with |- context [?a <? ?b] => destruct (Z.ltb_spec a b) end; [eval_month; lia|]); lia.
Qed.

Ltac divlia := Z.to_euclidean_division_equations; lia.

(** The date of a day is a date of the calendar, and falls on that day. *)
Lemma date_of_spec n :
  let '(y, m, d) := date_of n in 1 <= m <= 12 /\ 1 <= d <= daysIn m y /\ days_of y m d = n.
Proof.
  unfold date_of. set (n400 := n / 146097). set (r := n mod 146097). set (n100 := Z.min 3 (r / 36524)).
  set (r1 := r - 36524 * n100). set (n4 := r1 / 1461). set (r2 := r1 mod 1461). set (n1 := Z.min 3 (r2 / 365)).
  set (y := 1 + 400 * n400 + 100 * n100 + 4 * n4 + n1).
  assert (Hr : n = 146097 * n400 + r /\ 0 <= r < 146097) by (unfold n400, r; split; [apply Z.div_mod|apply Z.mod_pos_bound]; lia). clearbody n400 r.
  assert (H100 : 0 <= n100 <= 3 /\ 0 <= r1 /\ (n100 < 3 -> r1 < 36524) /\ r1 < 36525 /\ r = 36524 * n100 + r1) by (unfold r1, n100; divlia). clearbody r1 n100.
  assert (H4 : r1 = 1461 * n4 + r2 /\ 0 <= r2 < 1461 /\ 0 <= n4 <= 24 /\ (n100 < 3 -> n4 = 24 -> r2 < 1460)) by (unfold n4, r2; divlia). clearbody n4 r2.
  assert (H1 : 0 <= n1 <= 3 /\ 0 <= r2 - 365 * n1 /\ (n1 < 3 -> r2 - 365 * n1 < 365) /\ r2 - 365 * n1 < 366) by (unfold n1; divlia). clearbody n1.
  assert (D4 : (y - 1) / 4 = 100 * n400 + 25 * n100 + n4) by (unfold y; divlia).
  assert (D100 : (y - 1) / 100 = 4 * n400 + n100) by (unfold y; divlia).
  assert (D400 : (y - 1) / 400 = n400) by (unfold y; divlia).
  assert (Hy : 0 <= r2 - 365 * n1 < if leap y then 366 else 365).
  { destruct (leap y) eqn:El; [lia|]. split; [lia|]. destruct (decide (r2 - 365 * n1 < 365)) as [|Hge]; [done|]. exfalso.
    assert (leap y = true) as E; [|by rewrite El in E]. apply leap_mod. unfold y. divlia. }
  pose proof (month_of_spec y (r2 - 365 * n1) Hy) as Hm. destruct (month_of _ _ _) as [m d]. destruct Hm as (Hm & Hd & Hb).
  cbn [fst snd]. split; [lia|]. split; [lia|]. unfold days_of. rewrite D4, D100, D400.
  assert (Ey : y - 1 = 400 * n400 + 100 * n100 + 4 * n4 + n1) by (unfold y; lia). clearbody y. lia.
Qed.

(** ** Text *)

(** Reading digits one after the other. *)
Lemma getnum_app w v acc s rest a :
  getnum w acc s = Some (a, "") -> getnum (w + v) acc (s ++ rest) = getnum v a rest.
Proof.
  revert acc s. induction w as [|w IH]; intros acc s; cbn; [by intros [= <- ->]|].
  destruct s as [|c s]; [done|]. rewrite sapp_cons. case_match; [apply IH|done].
Qed.

Lemma getnum_digitsn w n acc :
  0 <= n < 10 ^ Z.of_nat w -> getnum w acc (digitsn w n) = Some (acc * 10 ^ Z.of_nat w + n, "").
Proof.
  revert n acc. induction w as [|w IH]; intros n acc Hn; [cbn in *; do 2 f_equal; lia|].
  assert (Hp : 10 ^ Z.of_nat (S w) = 10 * 10 ^ Z.of_nat w) by (rewrite Nat2Z.inj_succ, Z.pow_succ_r; lia).
  cbn [digitsn]. replace (S w) with (w + 1)%nat at 1 by lia.
  rewrite (getnum_app w 1 acc _ _ _ (IH (n / 10) acc ltac:(divlia))).
  pose proof (mod10_range n). cbn -[byte_of digit is_digit Z.mul Z.add]. rewrite is_digit_digit, byte_digit by done.
  do 2 f_equal. rewrite Hp. pose proof (Z.div_mod n 10). lia.
Qed.

(** A number written with a width is read back with it. *)
Lemma getnum_appendInt w n rest :
  0 <= n < 10 ^ Z.of_nat w -> getnum w 0 (appendInt w n ++ rest) = Some (n, rest).
Proof.
  intros Hn. unfold appendInt. destruct (Z.ltb_spec n 0); [lia|]. destruct (Z.ltb_spec n (10 ^ Z.of_nat w)); [|lia].
  rewrite <- (Nat.add_0_r w) at 1. by rewrite (getnum_app w 0 0 _ rest n) by (rewrite getnum_digitsn; [done|lia]).
Qed.

Definition no_digit (s : string) : bool := match s with String c _ => negb (is_digit c) | EmptyString => true end.

Lemma nanos_stop w s : no_digit s = true -> nanos w s = (0, s).
Proof. destruct s as [|c s]; [done|]. cbn. intros ->%negb_true_iff. done. Qed.

Lemma nanos_trimmed w n rest :
  0 <= n < 10 ^ Z.of_nat w -> no_digit rest = true -> nanos w (trimmed w n ++ rest) = (n, rest).
Proof.
  revert n. induction w as [|w IH]; intros n Hn Hr.
  - rewrite nanos_stop by done. cbn in Hn. f_equal. lia.
  - cbn [trimmed]. destruct (Z.eqb_spec n 0) as [->|Hne]; [by rewrite nanos_stop|].
    assert (Hp : 10 ^ Z.of_nat (S w) = 10 * 10 ^ Z.of_nat w) by (rewrite Nat2Z.inj_succ, Z.pow_succ_r; lia).
    set (p := 10 ^ Z.of_nat w) in *. assert (0 < p) by (unfold p; lia).
    assert (Hd : 0 <= n / p < 10) by (split; [apply Z.div_pos|apply Z.div_lt_upper_bound]; lia).
    rewrite sapp_cons. cbn -[byte_of digit is_digit Z.mul Z.add]. rewrite is_digit_digit, byte_digit by done.
    rewrite IH by (done || apply Z.mod_pos_bound; lia). fold p. f_equal. pose proof (Z.div_mod n p). lia.
Qed.

Lemma trimmed_cons w n :
  n <> 0 -> trimmed (S w) n = String (digit (n / 10 ^ Z.of_nat w)) (trimmed w (n mod 10 ^ Z.of_nat w)).
Proof. intros H. cbn [trimmed]. by rewrite (proj2 (Z.eqb_neq n 0) H). Qed.

Lemma parse_fraction_ok n rest :
  0 <= n < second -> no_digit rest = true -> (forall s, rest <> String "." s /\ rest <> String "," s) ->
  parse_fraction (fraction n ++ rest) = (n, rest).
Proof.
  intros Hn Hr Hs. unfold fraction. destruct (Z.eqb_spec n 0) as [->|Hne].
  - rewrite sapp_nil_l. unfold parse_fraction. destruct rest as [|p [|c rest]]; [done..|].
    destruct (Hs (String c rest)) as [H1 H2]. destruct (Ascii.eqb_spec p "."%char) as [->|]; [congruence|].
    destruct (Ascii.eqb_spec p ","%char) as [->|]; [congruence|]. done.
  - pose proof (nanos_trimmed 9 n rest Hn Hr) as Hp. rewrite trimmed_cons in Hp |- * by done.
    change ("." ++ String ?c ?s) with (String "." (String c s)). rewrite !sapp_cons in *. unfold parse_fraction.
    rewrite is_digit_digit; [exact Hp|]. unfold second in Hn. change (10 ^ Z.of_nat 8) with 100000000. divlia.
Qed.

Lemma expect_app c s : expect c (String c "" ++ s) = Some s.
Proof. change (String c "" ++ s) with (String c s). unfold expect. by rewrite Ascii.eqb_refl. Qed.

Lemma within_ok lo hi n : lo <= n <= hi -> within lo hi n = true.
Proof. intros [H1 H2]. unfold within. by rewrite (proj2 (Z.leb_le _ _) H1), (proj2 (Z.leb_le _ _) H2). Qed.

(** The bounds of the years 0 to 9999 in days. *)
Lemma date_of_year n : -366 <= n < 3652059 -> 0 <= (date_of n).1.1 <= 9999.
Proof. intros Hn. unfold date_of. cbn [fst]. divlia. Qed.

Lemma getnum12_appendInt n rest : 0 <= n < 100 -> getnum12 (appendInt 2 n ++ rest) = Some (n, rest).
Proof. intros Hn. unfold getnum12. by rewrite getnum_appendInt. Qed.

(** One step of the parser over text it has formatted. *)
Ltac read_step :=
  first [rewrite expect_app | rewrite getnum12_appendInt by divlia | rewrite getnum_appendInt by (cbv [Z.of_nat Z.pow] in *; cbn; divlia)].

Lemma daysIn_le m y : daysIn m y <= 31.
Proof.
  unfold daysIn, month_days. generalize (Z.to_nat (m - 1)) as k.
  destruct (leap y); do 13 (intros [|k]; [cbn; lia|revert k]); cbn; lia.
Qed.

(** Formatting a time of the years 0 to 9999 and parsing the text gives the time back,
    to the nanosecond or, with the layout without a fraction, to the second. *)
Lemma Parse_Format nano t :
  json_year t = true -> Parse (Format nano t) = Some (if nano then t else trunc_second t).
Proof.
  intros [H1%Z.leb_le H2%Z.ltb_lt]%andb_true_iff. unfold Format.
  assert (Hd : -366 <= t / day < 3652059).
  { split; [apply Z.div_le_lower_bound|apply Z.div_lt_upper_bound]; unfold first_ns, last_ns in *; unfold day, second in *; lia. }
  pose proof (date_of_spec (t / day)) as Hs. pose proof (date_of_year _ Hd) as Hy.
  destruct (date_of (t / day)) as [[y m] d]. destruct Hs as (Hm & Hdm & Hdays). cbn [fst] in Hy.
  set (sec := t mod day / second). assert (Hsec : 0 <= sec < 86400) by (unfold sec, day, second; divlia).
  pose proof (daysIn_le m y) as Hmd.
  set (frac := if nano then fraction (t mod second) else "").
  assert (Hfrac : parse_fraction (frac ++ "Z") = (if nano then t mod second else 0, "Z")).
  { unfold frac. destruct nano; [|done]. apply parse_fraction_ok; [apply Z.mod_pos_bound; unfold second; lia|done|]. by intros s. }
  unfold Parse, clock. rewrite !sapp_assoc.
  repeat (read_step; cbn [mbind option_bind]).
  rewrite Hfrac. cbn [parse_zone mbind option_bind]. rewrite !within_ok by (done || divlia). cbn [andb]. f_equal.
  rewrite Hdays. unfold trunc_second, sec, day, second in *. destruct nano; divlia.
Qed.

Lemma trunc_second_date t : trunc_second t / day = t / day /\ trunc_second t mod day / second = t mod day / second.
Proof. unfold trunc_second, day, second. split; divlia. Qed.

Lemma Format_trunc t : Format false (trunc_second t) = Format false t.
Proof. unfold Format. destruct (trunc_second_date t) as [-> ->]. done. Qed.

Lemma json_year_trunc t : json_year (trunc_second t) = json_year t.
Proof.
  unfold json_year, trunc_second. f_equal; [apply Bool.eq_iff_eq_true; rewrite !Z.leb_le|apply Bool.eq_iff_eq_true; rewrite !Z.ltb_lt];
    unfold first_ns, last_ns, day, second; divlia.
Qed.

Lemma trunc_second_idem t : trunc_second (trunc_second t) = trunc_second t.
Proof. unfold trunc_second. rewrite Z.div_mul; [done|]. unfold second. lia. Qed.

(** The zero time, a leap day with a fraction, an offset, and a date that does not exist. *)
Example time_texts :
  Format true 0 = "0001-01-01T00:00:00Z" /\
  Format true (days_of 2024 2 29 * day + 45296 * second + 250000000) = "2024-02-29T12:34:56.25Z" /\
  Parse "2024-02-29T14:34:56+02:00" = Parse "2024-02-29T12:34:56Z" /\
  Parse "2023-02-29T12:34:56Z" = None.
Proof. vm_compute. done. Qed.
