(* ===== verification/GoJson.v ===== *)
(** * Values and their JSON

    What the code uses of [encoding/json] on its own types: which members a struct is
    written with (names from tags, [omitempty], fields of embedded structs unless a field
    of the outer struct has the name, hidden fields), and how an object is read back
    (exact name first, then ignoring case; unknown members skipped; [null] leaves a value
    and clears a pointer, slice or map). A JSON text is the tree it denotes: [VInt] is a
    number without fraction and exponent, [VFlt] any other, [VStr] the (valid UTF-8)
    value of a string literal.

    [Coded] is what a type has: its zero value, encoder, decoder into an existing value,
    emptiness for [omitempty]; with [good], the values that can be written and read, and
    [norm], what reading a written value gives. [CodedOk] states the laws. A struct is
    described by its fields; one lemma gives the laws of every such struct. *)
From S2P Require Import Prelude GoStrings GoNum GoTime.
From Stdlib Require Import String Ascii SpecFloat.

Open Scope string_scope.
Open Scope Z_scope.

Inductive Json :=
| VNull
| VBool (b : bool)
| VInt (n : Z)
| VFlt (f : float64)
| VStr (s : string)
| VArr (l : list Json)
| VObj (l : list (string * Json)).

Class Coded (A : Type) := {
  zero : A;
  enc : A -> option Json;
  dec : Json -> A -> option A;
  empty : A -> bool;
  good : A -> bool;
  norm : A -> A }.

Class CodedOk (A : Type) `{Coded A} : Prop := {
  enc_dec a : good a = true -> exists j, enc a = Some j /\ dec j zero = Some (norm a);
  enc_norm a : enc (norm a) = enc a;
  empty_norm a : empty (norm a) = empty a;
  empty_zero a : empty a = true -> empty (A := A) zero = true }.

(** Types whose values are never written as [null]: what a pointer may point to. *)
Class NonNull (A : Type) `{Coded A} : Prop := enc_nonnull a : enc a <> Some VNull.

(** ** Basic types *)

#[export] Instance string_coded : Coded string := {
  zero := ""; enc s := Some (VStr s);
  dec j s := match j with VStr s => Some s | VNull => Some s | _ => None end;
  empty s := s ==? ""; good _ := true; norm s := s }.

#[export] Instance bool_coded : Coded bool := {
  zero := false; enc b := Some (VBool b);
  dec j b := match j with VBool b => Some b | VNull => Some b | _ => None end;
  empty b := negb b; good _ := true; norm b := b }.

Definition is_i64 (z : Z) : bool := (min_int64 <=? z) && (z <=? max_int64).

(** [int] and [int64]. *)
#[export] Instance int_coded : Coded Z := {
  zero := 0; enc z := Some (VInt z);
  dec j z := match j with VInt z => if is_i64 z then Some z else None | VNull => Some z | _ => None end;
  empty z := z =? 0; good := is_i64; norm z := z }.

(** The value of a float that is written without fraction and exponent. *)
Definition int_value (f : float64) : option Z :=
  match f with
  | S754_zero false => Some 0
  | S754_finite s m e =>
      let sign z := if s then - z else z in
      let z := if 0 <=? e then Zpos m * 2 ^ e else if Zpos m mod 2 ^ (- e) =? 0 then Zpos m / 2 ^ (- e) else 0 in
      if (z =? 0) || (10 ^ 21 <=? z) then None else Some (sign z)
  | _ => None
  end.

#[export] Instance float_eq_dec : EqDecision spec_float.
Proof. solve_decision. Defined.

Definition float_json (f : float64) : option Json :=
  match f with
  | S754_nan | S754_infinity _ => None
  | _ => Some (match int_value f with Some z => VInt z | None => VFlt f end)
  end.

#[export] Instance float_coded : Coded float64 := {
  zero := S754_zero false; enc := float_json;
  dec j f := match j with
             | VFlt f => Some f
             | VInt z => match f_of_Z z with S754_infinity _ => None | f => Some f end
             | VNull => Some f | _ => None end;
  empty f := match f with S754_zero _ => true | _ => false end;
  good f := match f with
            | S754_nan | S754_infinity _ => false
            | _ => match int_value f with Some z => bool_decide (f_of_Z z = f) | None => true end
            end;
  norm f := f }.

(** [time.Time]. *)
Definition time : Type := Z.
#[global] Typeclasses Opaque time.

#[export] Instance time_coded : Coded time := {
  zero := (0 : Z); enc t := if json_year t then Some (VStr (Format true t)) else None;
  dec j t := match j with VStr s => Parse s | VNull => Some t | _ => None end;
  empty _ := false; good := json_year; norm t := t }.

(** Pointers: nil is [None]. *)
Definition ptr (A : Type) : Type := option A.
#[global] Typeclasses Opaque ptr.

#[export] Instance ptr_coded A `{Coded A} : Coded (ptr A) := {
  zero := None;
  enc p := match p with Some a => enc (A := A) a | None => Some VNull end;
  dec j p := match j with VNull => Some None | _ => option_map Some (dec (A := A) j (match p with Some a => a | None => zero end)) end;
  empty p := match p with Some _ => false | None => true end;
  good p := match p with Some a => good (A := A) a | None => true end;
  norm p := match p with Some a => Some (norm (A := A) a) | None => None end }.

(** Slices: nil is [None], and is not the empty slice. *)
Definition slice (A : Type) : Type := option (list A).
#[global] Typeclasses Opaque slice.

#[export] Instance slice_coded A `{Coded A} : Coded (slice A) := {
  zero := None;
  enc l := match l with Some l => VArr <$> mapM (enc (A := A)) l | None => Some VNull end;
  dec j _ := match j with VNull => Some None | VArr l => option_map Some (mapM (fun j => dec (A := A) j zero) l) | _ => None end;
  empty l := match l with Some (_ :: _) => false | _ => true end;
  good l := match l with Some l => forallb (good (A := A)) l | None => true end;
  norm l := match l with Some l => Some (norm (A := A) <$> l) | None => None end }.

(** Maps from strings, written in the order of the keys. *)
Definition gomap (A : Type) : Type := option (gmap string A).
#[global] Typeclasses Opaque gomap.

Definition members {A} (m : gmap string A) : list (string * A) :=
  omap (fun k => pair k <$> m !! k) (sort_strings (elements (dom m))).

Fixpoint dec_map {A} `{Coded A} (l : list (string * Json)) (m : gmap string A) : option (gmap string A) :=
  match l with
  | [] => Some m
  | (k, j) :: l => a ← dec j zero; dec_map l (<[k := a]> m)
  end.

#[export] Instance gomap_coded A `{Coded A} : Coded (gomap A) := {
  zero := None;
  enc m := match m with Some m => VObj <$> mapM (fun '(k, a) => pair k <$> enc (A := A) a) (members m) | None => Some VNull end;
  dec j m := match j with VNull => Some None | VObj l => option_map Some (dec_map (A := A) l (match m with Some m => m | None => ∅ end)) | _ => None end;
  empty m := match m with Some m => bool_decide (m = ∅) | None => true end;
  good m := match m with Some m => forallb (fun p => good (A := A) p.2) (map_to_list m) | None => true end;
  norm m := match m with Some m => Some (norm (A := A) <$> m) | None => None end }.

(** Values of type [interface{}], as the trees that encode them. *)
#[export] Instance any_coded : Coded Json := {
  zero := VNull; enc := Some; dec j _ := Some j; empty j := match j with VNull => true | _ => false end;
  good _ := true; norm j := j }.

(** ** Structs *)

Record field (S : Type) := Field {
  f_name : string; f_omit : bool; f_type : Type; f_coded : Coded f_type;
  f_get : S -> f_type; f_set : f_type -> S -> S }.
Arguments Field {S} _ _ _ _ _ _.
Arguments f_name {S} _.
Arguments f_omit {S} _.
Arguments f_type {S} _.
Arguments f_coded {S} _.
Arguments f_get {S} _ _.
Arguments f_set {S} _ _ _.
#[export] Existing Instance f_coded.

Definition fld {S A} `{Coded A} (name : string) (omit : bool) (get : S -> A) (set : A -> S -> S) : field S :=
  Field name omit A _ get set.

(** The fields of an embedded struct, as fields of the outer one. *)
Definition embed {S T} (get : S -> T) (set : T -> S -> S) (fs : list (field T)) : list (field S) :=
  (fun f => Field (f_name f) (f_omit f) (f_type f) (f_coded f) (fun s => f_get f (get s))
              (fun a s => set (f_set f a (get s)) s)) <$> fs.

(** An embedded struct first, then the fields of the struct itself, whose names win. *)
Definition promote {S} (inner own : list (field S)) : list (field S) :=
  (filter (fun f => f_name f ∉ f_name <$> own) inner ++ own)%list.

Section Struct.
Context {S : Type} (fs : list (field S)) (zero_value : S).

Definition omitted (f : field S) (s : S) : bool := f_omit f && empty (f_get f s).

Fixpoint enc_fields (l : list (field S)) (s : S) : option (list (string * Json)) :=
  match l with
  | [] => Some []
  | f :: l =>
      if omitted f s then enc_fields l s
      else j ← enc (f_get f s); rest ← enc_fields l s; Some ((f_name f, j) :: rest)
  end.

Definition find_field (k : string) : option (field S) :=
  match find_first (fun f => f_name f ==? k) fs with
  | Some f => Some f
  | None => find_first (fun f => equal_fold (f_name f) k) fs
  end.

Fixpoint dec_members (l : list (string * Json)) (s : S) : option S :=
  match l with
  | [] => Some s
  | (k, j) :: l =>
      match find_field k with
      | None => dec_members l s
      | Some f => a ← dec j (f_get f s); dec_members l (f_set f a s)
      end
  end.

(** What a field of [s] is when written and read, and what the fields [l] of [s] make of [t]. *)
Definition reread (f : field S) (s : S) : f_type f := if omitted f s then zero else norm (f_get f s).

Fixpoint copy (l : list (field S)) (s t : S) : S :=
  match l with
  | [] => t
  | f :: l => copy l s (f_set f (reread f s) t)
  end.

Definition struct_coded : Coded S := {|
  zero := zero_value;
  enc s := VObj <$> enc_fields fs s;
  dec j s := match j with VNull => Some s | VObj l => dec_members l s | _ => None end;
  empty _ := false;
  good s := forallb (fun f => omitted f s || good (f_get f s)) fs;
  norm s := copy fs s zero_value |}.

(** Each field is still zero when its turn comes, and afterwards has what was written. *)
Fixpoint clean (l : list (field S)) (s t : S) : Prop :=
  match l with
  | [] => True
  | f :: l => f_get f t = zero /\ clean l s (f_set f (reread f s) t)
  end.

Record struct_ok : Prop := {
  so_names : NoDup (f_name <$> fs);
  so_types : Forall (fun f => CodedOk (f_type f)) fs;
  so_lens : Forall (fun f => forall s, f_set f (f_get f s) s = s) fs;
  so_clean s : clean fs s zero_value;
  so_kept s : Forall (fun f => f_get f (copy fs s zero_value) = reread f s) fs }.
End Struct.

(** ** The laws *)

Section StructLaws.
Context {S : Type} (fs : list (field S)) (zero_value : S) (ok : struct_ok fs zero_value).

Lemma find_field_own f : f ∈ fs -> find_field fs (f_name f) = Some f.
Proof.
  intros Hf. unfold find_field. rewrite (find_first_unique f_name fs f); [done|apply ok|done].
Qed.

Lemma struct_enc_dec l s t :
  (forall f, f ∈ l -> f ∈ fs) -> clean l s t -> forallb (fun f => omitted f s || good (f_get f s)) l = true ->
  exists kvs, enc_fields l s = Some kvs /\ dec_members fs kvs t = Some (copy l s t).
Proof.
  revert t. induction l as [|f l IH]; intros t Hin Hc Hg; [by exists []|].
  cbn in Hc, Hg |- *. destruct Hc as [Hz Hc]. apply andb_true_iff in Hg as [Hg Hl].
  destruct (IH _ ltac:(intros g Hg'; apply Hin; by right) Hc Hl) as (kvs & E & D). unfold reread in D |- *.
  destruct (omitted f s) eqn:Eo.
  { exists kvs. split; [done|]. rewrite <- Hz in D |- *.
    by rewrite (proj1 (Forall_forall _ _) (so_lens _ _ ok) f ltac:(apply Hin; by left)) in D |- *. }
  cbn in Hg.
  assert (Hok : CodedOk (f_type f)) by (apply (proj1 (Forall_forall _ _) (so_types _ _ ok)), Hin; by left).
  destruct (enc_dec (f_get f s) Hg) as (j & Ej & Dj). rewrite Ej, E. cbn. eexists. split; [reflexivity|].
  cbn. rewrite find_field_own by (apply Hin; by left). rewrite Hz, Dj. exact D.
Qed.

Lemma enc_fields_kept (l : list (field S)) (s t : S) :
  Forall (fun f => CodedOk (f_type f)) l -> Forall (fun f => f_get f t = reread f s) l -> enc_fields l t = enc_fields l s.
Proof.
  intros Ht Hk. induction l as [|f l IH]; [done|]. apply Forall_cons in Ht as [Hok Ht]. apply Forall_cons in Hk as [Hf Hk].
  cbn. rewrite (IH Ht Hk). unfold reread, omitted in *. rewrite Hf.
  destruct (f_omit f && empty (f_get f s)) eqn:Eo.
  - apply andb_true_iff in Eo as [-> He]. by rewrite (empty_zero _ He).
  - by rewrite empty_norm, Eo, enc_norm.
Qed.

Lemma struct_coded_ok : @CodedOk S (struct_coded fs zero_value).
Proof.
  split; cbn [enc dec good norm empty zero struct_coded].
  - intros s Hg. destruct (struct_enc_dec fs s zero_value) as (kvs & -> & D); [done|apply ok|done|]. by exists (VObj kvs).
  - intros s. f_equal. apply enc_fields_kept; apply ok.
  - done.
  - done.
Qed.

Lemma struct_nonnull : @NonNull S (struct_coded fs zero_value).
Proof. intros s. cbn. by destruct (enc_fields fs s). Qed.
End StructLaws.

(** What is written depends on the described fields alone. *)
Lemma enc_fields_same {S} (l : list (field S)) (s t : S) :
  Forall (fun f => f_get f s = f_get f t) l -> enc_fields l s = enc_fields l t.
Proof.
  induction 1 as [|f l Hf _ IH]; [done|]. cbn. unfold omitted. by rewrite Hf, IH.
Qed.

Lemma struct_same {S} (l : list (field S)) (z s t : S) :
  Forall (fun f => f_get f s = f_get f t) l -> enc (Coded := struct_coded l z) s = enc (Coded := struct_coded l z) t.
Proof. intros H. cbn. by rewrite (enc_fields_same _ _ _ H). Qed.

#[export] Instance string_ok : CodedOk string.
Proof. split; [intros a _; eexists; split; reflexivity|intros; (reflexivity || discriminate)..]. Qed.

#[export] Instance bool_ok : CodedOk bool.
Proof. split; [intros a _; eexists; split; reflexivity|intros; (reflexivity || discriminate)..]. Qed.

#[export] Instance int_ok : CodedOk Z.
Proof. split; [|intros; (reflexivity || discriminate)..]. intros a Ha. eexists. split; [done|]. cbn in *. by rewrite Ha. Qed.

#[export] Instance float_ok : CodedOk float64.
Proof.
  split; [|intros; (reflexivity || discriminate)..]. intros a Ha. cbn in *. unfold float_json.
  destruct a as [s|s| |s m e]; try done; destruct (int_value _) as [z|]; try (eexists; done);
    apply bool_decide_eq_true in Ha; (eexists; split; [done|]); cbn; by rewrite Ha.
Qed.

#[export] Instance time_ok : CodedOk time.
Proof.
  split; [|intros; (reflexivity || discriminate)..]. intros a Ha. cbn in Ha. exists (VStr (Format true a)).
  cbn [enc dec time_coded]. rewrite Ha. split; [done|]. by rewrite (Parse_Format true).
Qed.

#[export] Instance any_ok : CodedOk Json.
Proof. split; [intros a _; eexists; split; reflexivity|intros; (reflexivity || discriminate)..]. Qed.

#[export] Instance ptr_ok A `{CodedOk A, !NonNull A} : CodedOk (ptr A).
Proof.
  split.
  - intros [a|] Ha; [|by exists VNull]. destruct (enc_dec a Ha) as (j & Ej & Dj). exists j. split; [done|].
    pose proof (enc_nonnull a) as Hn. rewrite Ej in Hn. destruct j; try done; cbn [dec ptr_coded zero]; by rewrite Dj.
  - intros [a|]; [exact (enc_norm (A := A) a)|done].
  - by intros [a|].
  - done.
Qed.

#[export] Instance slice_ok A `{CodedOk A} : CodedOk (slice A).
Proof.
  split.
  - intros [l|] Hl; [|by exists VNull]. cbn in *.
    assert (He : exists js, mapM enc l = Some js /\ mapM (fun j => dec j zero) js = Some (norm <$> l)).
    { induction l as [|a l IH]; [by exists []|]. cbn in Hl. apply andb_true_iff in Hl as [Ha Hl].
      destruct (IH Hl) as (js & Ej & Dj). destruct (enc_dec a Ha) as (j & E & D). exists (j :: js). cbn. by rewrite E, Ej, D, Dj. }
    destruct He as (js & -> & D). exists (VArr js). split; [done|]. cbn. by rewrite D.
  - intros [l|]; [|done]. cbn. f_equal. induction l as [|a l IH]; [done|]. cbn. by rewrite enc_norm, IH.
  - by intros [[|]|].
  - done.
Qed.

Lemma elem_of_members {A} (m : gmap string A) k a : (k, a) ∈ members m <-> m !! k = Some a.
Proof.
  unfold members. rewrite list_elem_of_omap. split.
  - intros (k' & _ & Hk). destruct (m !! k') eqn:E; [|done]. cbn in Hk. by injection Hk as -> ->.
  - intros Hk. exists k. rewrite Hk. split; [|done]. unfold sort_strings.
    rewrite merge_sort_Permutation. apply elem_of_elements, elem_of_dom. by exists a.
Qed.

Lemma members_keys {A} (m : gmap string A) : NoDup (members m).*1.
Proof.
  unfold members. assert (Hnd : NoDup (sort_strings (elements (dom m)))).
  { unfold sort_strings. rewrite merge_sort_Permutation. apply NoDup_elements. }
  induction Hnd as [|k l Hk _ IH]; [constructor|]. cbn. destruct (m !! k) eqn:E; cbn; [|done].
  constructor; [|done]. intros ([k1 a1] & -> & Hin)%list_elem_of_fmap. apply list_elem_of_omap in Hin as (k2 & Hin & Hk2).
  destruct (m !! k2); [|done]. cbn in Hk2. by injection Hk2 as -> ->.
Qed.

Lemma members_map {A} (m : gmap string A) : list_to_map (members m) = m.
Proof.
  apply map_eq. intros k. apply option_eq. intros a.
  rewrite <- elem_of_list_to_map by apply members_keys. apply elem_of_members.
Qed.

Lemma members_fmap {A B} (f : A -> B) (m : gmap string A) : members (f <$> m) = prod_map id f <$> members m.
Proof.
  unfold members. rewrite dom_fmap_L. induction (sort_strings _) as [|k l IH]; [done|].
  cbn. rewrite lookup_fmap. destruct (m !! k); cbn; by rewrite IH.
Qed.

Lemma dec_map_enc {A} `{CodedOk A} (l : list (string * A)) (m : gmap string A) :
  NoDup l.*1 -> forallb (fun p => good p.2) l = true ->
  exists kvs, mapM (fun '(k, a) => pair k <$> enc (A := A) a) l = Some kvs /\
    dec_map kvs m = Some (list_to_map (prod_map id norm <$> l) ∪ m).
Proof.
  revert m. induction l as [|[k a] l IH]; intros m Hnd Hg.
  - exists []. split; [done|]. cbn. by rewrite (left_id_L ∅ (∪)).
  - cbn in Hnd, Hg. apply NoDup_cons in Hnd as [Hk Hnd]. apply andb_true_iff in Hg as [Ha Hg].
    destruct (enc_dec a Ha) as (j & Ej & Dj). destruct (IH (<[k := norm a]> m) Hnd Hg) as (kvs & E & D).
    exists ((k, j) :: kvs). cbn. rewrite Ej, E. split; [done|]. cbn. rewrite Dj. cbn. rewrite D. f_equal.
    rewrite <- insert_union_l, insert_union_r; [done|]. apply not_elem_of_list_to_map.
    rewrite <- list_fmap_compose. intros (p & -> & Hp)%list_elem_of_fmap. apply Hk. by apply list_elem_of_fmap_2.
Qed.

#[export] Instance gomap_ok A `{CodedOk A} : CodedOk (gomap A).
Proof.
  split.
  - intros [m|] Hm; [|by exists VNull]. cbn in *.
    destruct (dec_map_enc (members m) ∅ (members_keys m)) as (kvs & -> & D).
    { apply forallb_forall. intros [k a] Hp%list_elem_of_In%elem_of_members. apply (forallb_elem _ _ Hm (k, a)). by apply elem_of_map_to_list. }
    exists (VObj kvs). split; [done|]. cbn. rewrite D. cbn. do 2 f_equal. by rewrite (right_id_L ∅ (∪)), list_to_map_fmap, members_map.
  - intros [m|]; [|done]. cbn. f_equal. rewrite members_fmap. induction (members m) as [|[k a] l IH]; [done|].
    cbn. by rewrite enc_norm, IH.
  - intros [m|]; [|done]. cbn. apply bool_decide_ext. apply fmap_empty_iff.
  - done.
Qed.

#[export] Instance bool_nonnull : NonNull bool.
Proof. done. Qed.

#[export] Instance time_nonnull : NonNull time.
Proof. intros t. cbn. by case_match. Qed.

(** The laws of a described struct: the checks that remain are computations. *)
Ltac struct_laws :=
  split;
  [ apply (bool_decide_unpack _); vm_compute; exact I
  | repeat (apply Forall_cons; split; [apply _|]); apply Forall_nil; exact I
  | repeat (apply Forall_cons; split; [intros []; solve [reflexivity | match goal with x : _ |- _ => destruct x; reflexivity end]|]);
    apply Forall_nil; exact I
  | intros s; repeat (split; [reflexivity|]); exact I
  | intros s; repeat (apply Forall_cons; split; [reflexivity|]); apply Forall_nil; exact I ].
