(* ===== verification/Resources.v ===== *)
(** * The resource model

    The package [internal/resource], which the repository calls the single source of
    truth of the resource model: every struct field for field with the members it has in
    JSON, the envelopes (metadata, spec, status) of the nineteen kinds, and the interface
    [Resource] they implement. Nil slices, maps and pointers are [None] and differ from
    empty ones, as in Go. A field [F] of a struct [T] is [T_F], an assignment to it
    [T_set_F]; [T_fields] are the tags of [T]. *)
From Stdlib Require Import String Ascii SpecFloat.
From S2P Require Import Prelude GoStrings GoNum GoTime GoJson.

Open Scope string_scope.
Open Scope Z_scope.

Module resource.

(** ** Kinds *)

Definition KindProject : string := "Project".
Definition KindEnvironment : string := "Environment".
Definition KindService : string := "Service".
Definition KindDeployment : string := "Deployment".
Definition KindReplica : string := "Replica".
Definition KindVolume : string := "Volume".
Definition KindNetwork : string := "Network".
Definition KindDomain : string := "Domain".
Definition KindCertificate : string := "Certificate".
Definition KindSecret : string := "Secret".
Definition KindBuild : string := "Build".
Definition KindImage : string := "Image".
Definition KindNode : string := "Node".
Definition KindCluster : string := "Cluster".
Definition KindUser : string := "User".
Definition KindOrg : string := "Org".
Definition KindTeam : string := "Team".
Definition KindRole : string := "Role".
Definition KindPermission : string := "Permission".
Definition KindRoleAssignment : string := "RoleAssignment".
Definition KindReseller : string := "Reseller".
Definition KindMicroVM : string := "MicroVM".
Definition KindIPAllocation : string := "IPAllocation".
Definition KindAPIKey : string := "APIKey".
Definition KindHook : string := "Hook".
Definition KindCron : string := "Cron".
Definition KindAlert : string := "Alert".
Definition KindIncident : string := "Incident".
Definition KindWorkflow : string := "Workflow".
Definition KindTask : string := "Task".
Definition KindEvent : string := "Event".
Definition KindMetric : string := "Metric".
Definition KindLog : string := "Log".
Definition KindTrace : string := "Trace".

(** ** The structs *)

Record Metadata := mkMetadata {
  Metadata_ID : string;
  Metadata_Name : string;
  Metadata_Namespace : string;
  Metadata_Labels : gomap string;
  Metadata_Annotations : gomap string;
  Metadata_CreatedAt : time;
  Metadata_UpdatedAt : time;
  Metadata_Version : Z }.

Definition Metadata_zero : Metadata := mkMetadata "" "" "" None None 0 0 0.

Definition Metadata_set_ID (a : string) (r : Metadata) : Metadata := let '(mkMetadata _ x1 x2 x3 x4 x5 x6 x7) := r in mkMetadata a x1 x2 x3 x4 x5 x6 x7.
Definition Metadata_set_Name (a : string) (r : Metadata) : Metadata := let '(mkMetadata x0 _ x2 x3 x4 x5 x6 x7) := r in mkMetadata x0 a x2 x3 x4 x5 x6 x7.
Definition Metadata_set_Namespace (a : string) (r : Metadata) : Metadata := let '(mkMetadata x0 x1 _ x3 x4 x5 x6 x7) := r in mkMetadata x0 x1 a x3 x4 x5 x6 x7.
Definition Metadata_set_Labels (a : gomap string) (r : Metadata) : Metadata := let '(mkMetadata x0 x1 x2 _ x4 x5 x6 x7) := r in mkMetadata x0 x1 x2 a x4 x5 x6 x7.
Definition Metadata_set_Annotations (a : gomap string) (r : Metadata) : Metadata := let '(mkMetadata x0 x1 x2 x3 _ x5 x6 x7) := r in mkMetadata x0 x1 x2 x3 a x5 x6 x7.
Definition Metadata_set_CreatedAt (a : time) (r : Metadata) : Metadata := let '(mkMetadata x0 x1 x2 x3 x4 _ x6 x7) := r in mkMetadata x0 x1 x2 x3 x4 a x6 x7.
Definition Metadata_set_UpdatedAt (a : time) (r : Metadata) : Metadata := let '(mkMetadata x0 x1 x2 x3 x4 x5 _ x7) := r in mkMetadata x0 x1 x2 x3 x4 x5 a x7.
Definition Metadata_set_Version (a : Z) (r : Metadata) : Metadata := let '(mkMetadata x0 x1 x2 x3 x4 x5 x6 _) := r in mkMetadata x0 x1 x2 x3 x4 x5 x6 a.

(** The members of [Metadata]. *)
Definition Metadata_fields : list (field Metadata) :=
  [fld "id" false Metadata_ID Metadata_set_ID;
   fld "name" false Metadata_Name Metadata_set_Name;
   fld "namespace" true Metadata_Namespace Metadata_set_Namespace;
   fld "labels" true Metadata_Labels Metadata_set_Labels;
   fld "annotations" true Metadata_Annotations Metadata_set_Annotations;
   fld "created_at" false Metadata_CreatedAt Metadata_set_CreatedAt;
   fld "updated_at" false Metadata_UpdatedAt Metadata_set_UpdatedAt;
   fld "version" true Metadata_Version Metadata_set_Version].

#[export] Instance Metadata_coded : Coded Metadata := struct_coded Metadata_fields Metadata_zero.

Lemma Metadata_struct : struct_ok Metadata_fields Metadata_zero.
Proof. struct_laws. Qed.

#[export] Instance Metadata_ok : CodedOk Metadata.
Proof. exact (struct_coded_ok _ _ Metadata_struct). Qed.

#[export] Instance Metadata_nonnull : NonNull Metadata.
Proof. apply struct_nonnull. Qed.

Record Condition := mkCondition {
  Condition_Type : string;
  Condition_Status : string;
  Condition_LastTransitionTime : time;
  Condition_Reason : string;
  Condition_Message : string;
  Condition_ObservedGeneration : Z }.

Definition Condition_zero : Condition := mkCondition "" "" 0 "" "" 0.

Definition Condition_set_Type (a : string) (r : Condition) : Condition := let '(mkCondition _ x1 x2 x3 x4 x5) := r in mkCondition a x1 x2 x3 x4 x5.
Definition Condition_set_Status (a : string) (r : Condition) : Condition := let '(mkCondition x0 _ x2 x3 x4 x5) := r in mkCondition x0 a x2 x3 x4 x5.
Definition Condition_set_LastTransitionTime (a : time) (r : Condition) : Condition := let '(mkCondition x0 x1 _ x3 x4 x5) := r in mkCondition x0 x1 a x3 x4 x5.
Definition Condition_set_Reason (a : string) (r : Condition) : Condition := let '(mkCondition x0 x1 x2 _ x4 x5) := r in mkCondition x0 x1 x2 a x4 x5.
Definition Condition_set_Message (a : string) (r : Condition) : Condition := let '(mkCondition x0 x1 x2 x3 _ x5) := r in mkCondition x0 x1 x2 x3 a x5.
Definition Condition_set_ObservedGeneration (a : Z) (r : Condition) : Condition := let '(mkCondition x0 x1 x2 x3 x4 _) := r in mkCondition x0 x1 x2 x3 x4 a.

(** The members of [Condition]. *)
Definition Condition_fields : list (field Condition) :=
  [fld "type" false Condition_Type Condition_set_Type;
   fld "status" false Condition_Status Condition_set_Status;
   fld "last_transition_time" false Condition_LastTransitionTime Condition_set_LastTransitionTime;
   fld "reason" true Condition_Reason Condition_set_Reason;
   fld "message" true Condition_Message Condition_set_Message;
   fld "observed_generation" true Condition_ObservedGeneration Condition_set_ObservedGeneration].

#[local] Instance Alias_coded : Coded Condition := struct_coded Condition_fields Condition_zero.

(** The anonymous struct of both methods: the alias, whose time the string shadows. *)
Definition Aux : Type := Condition * string.

Definition Aux_fields : list (field Aux) :=
  promote (embed fst (fun c x => (c, x.2)) Condition_fields)
  [fld "last_transition_time" false snd (fun t x => (x.1, t))].

Definition Aux_coded : Coded Aux := struct_coded Aux_fields (Condition_zero, "").

Definition Condition_MarshalJSON (c : Condition) : option Json :=
  enc (Coded := Aux_coded) (c, Format false (Condition_LastTransitionTime c)).

(** The receiver is overwritten, whatever it was. *)
Definition Condition_UnmarshalJSON (j : Json) : option Condition :=
  match dec (Coded := Aux_coded) j (Condition_zero, "") with
  | None => None
  | Some (c, text) =>
      if text ==? "" then Some c
      else match Parse text with None => None | Some t => Some (Condition_set_LastTransitionTime t c) end
  end.

#[export] Instance Condition_coded : Coded Condition := {|
  zero := Condition_zero;
  enc := Condition_MarshalJSON;
  dec j _ := Condition_UnmarshalJSON j;
  empty _ := false;
  good c := json_year (Condition_LastTransitionTime c) && is_i64 (Condition_ObservedGeneration c);
  norm c := Condition_set_LastTransitionTime (trunc_second (Condition_LastTransitionTime c)) c |}.

Lemma Aux_struct : struct_ok Aux_fields (Condition_zero, "").
Proof.
  split;
  [ apply (bool_decide_unpack _); vm_compute; exact I
  | repeat (apply Forall_cons; split; [apply _|]); apply Forall_nil; exact I
  | repeat (apply Forall_cons; split; [intros [[] ?]; reflexivity|]); apply Forall_nil; exact I
  | intros s; repeat (split; [reflexivity|]); exact I
  | intros s; repeat (apply Forall_cons; split; [reflexivity|]); apply Forall_nil; exact I ].
Qed.

Lemma Aux_ok : CodedOk (H := Aux_coded) Aux.
Proof. exact (struct_coded_ok _ _ Aux_struct). Qed.

Lemma reread_string (s : string) : (if empty s then zero else norm s) = s.
Proof. cbn. by case_bool_decide. Qed.

Lemma reread_int (z : Z) : (if empty z then zero else norm z) = z.
Proof. cbn. by destruct (Z.eqb_spec z 0). Qed.

Lemma Aux_norm c text :
  norm (Coded := Aux_coded) (c, text) = (Condition_set_LastTransitionTime 0 c, text).
Proof.
  destruct c as [ty st t reason message og].
  transitivity (mkCondition ty st 0 (if empty reason then zero else norm reason) (if empty message then zero else norm message)
    (if empty og then zero else norm og), text); [reflexivity|]. by rewrite !reread_string, reread_int.
Qed.

Lemma Aux_good c text : is_i64 (Condition_ObservedGeneration c) = true -> good (Coded := Aux_coded) (c, text) = true.
Proof.
  intros Hg. transitivity ((empty (Condition_Reason c) || true) && ((empty (Condition_Message c) || true) &&
    ((empty (Condition_ObservedGeneration c) || is_i64 (Condition_ObservedGeneration c)) && true))); [reflexivity|].
  by rewrite Hg, !orb_true_r.
Qed.

Lemma Format_not_empty t : (Format false t ==? "") = false.
Proof.
  apply bool_decide_eq_false. intros E%(f_equal String.length). revert E. unfold Format.
  destruct (date_of (t / day)) as [[y m] d]. rewrite !slen_app. cbn [String.length]. lia.
Qed.

(** Reading a written condition gives it back with its time in whole seconds. *)
#[export] Instance Condition_ok : CodedOk Condition.
Proof.
  split; [| |done|done].
  - intros c [Ht Hg]%andb_true_iff.
    destruct (enc_dec (CodedOk := Aux_ok) (c, Format false (Condition_LastTransitionTime c)) (Aux_good c _ Hg)) as (j & Ej & Dj).
    exists j. split; [exact Ej|]. cbn [dec norm Condition_coded zero]. unfold Condition_UnmarshalJSON.
    change (zero (Coded := Aux_coded)) with (Condition_zero, "") in Dj. rewrite Dj, Aux_norm, Format_not_empty.
    rewrite (Parse_Format false) by done. by destruct c.
  - intros c. cbn [enc norm Condition_coded]. unfold Condition_MarshalJSON.
    transitivity (enc (Coded := Aux_coded) (norm (Coded := Aux_coded) (c, Format false (Condition_LastTransitionTime c))));
      [|apply (enc_norm (CodedOk := Aux_ok))].
    rewrite Aux_norm. replace (Condition_LastTransitionTime (Condition_set_LastTransitionTime _ c))
      with (trunc_second (Condition_LastTransitionTime c)) by (by destruct c). rewrite Format_trunc. by destruct c.
Qed.

Record Status := mkStatus {
  Status_Conditions : slice Condition;
  Status_Phase : string;
  Status_Message : string;
  Status_ObservedGeneration : Z;
  Status_Replicas : Z;
  Status_ReadyReplicas : Z }.

Definition Status_zero : Status := mkStatus None "" "" 0 0 0.

Definition Status_set_Conditions (a : slice Condition) (r : Status) : Status := let '(mkStatus _ x1 x2 x3 x4 x5) := r in mkStatus a x1 x2 x3 x4 x5.
Definition Status_set_Phase (a : string) (r : Status) : Status := let '(mkStatus x0 _ x2 x3 x4 x5) := r in mkStatus x0 a x2 x3 x4 x5.
Definition Status_set_Message (a : string) (r : Status) : Status := let '(mkStatus x0 x1 _ x3 x4 x5) := r in mkStatus x0 x1 a x3 x4 x5.
Definition Status_set_ObservedGeneration (a : Z) (r : Status) : Status := let '(mkStatus x0 x1 x2 _ x4 x5) := r in mkStatus x0 x1 x2 a x4 x5.
Definition Status_set_Replicas (a : Z) (r : Status) : Status := let '(mkStatus x0 x1 x2 x3 _ x5) := r in mkStatus x0 x1 x2 x3 a x5.
Definition Status_set_ReadyReplicas (a : Z) (r : Status) : Status := let '(mkStatus x0 x1 x2 x3 x4 _) := r in mkStatus x0 x1 x2 x3 x4 a.

(** The members of [Status]. *)
Definition Status_fields : list (field Status) :=
  [fld "conditions" true Status_Conditions Status_set_Conditions;
   fld "phase" true Status_Phase Status_set_Phase;
   fld "message" true Status_Message Status_set_Message;
   fld "observed_generation" true Status_ObservedGeneration Status_set_ObservedGeneration;
   fld "replicas" true Status_Replicas Status_set_Replicas;
   fld "ready_replicas" true Status_ReadyReplicas Status_set_ReadyReplicas].

#[export] Instance Status_coded : Coded Status := struct_coded Status_fields Status_zero.

Lemma Status_struct : struct_ok Status_fields Status_zero.
Proof. struct_laws. Qed.

#[export] Instance Status_ok : CodedOk Status.
Proof. exact (struct_coded_ok _ _ Status_struct). Qed.

#[export] Instance Status_nonnull : NonNull Status.
Proof. apply struct_nonnull. Qed.

Record Port := mkPort {
  Port_ContainerPort : Z;
  Port_HostPort : Z;
  Port_Protocol : string }.

Definition Port_zero : Port := mkPort 0 0 "".

Definition Port_set_ContainerPort (a : Z) (r : Port) : Port := let '(mkPort _ x1 x2) := r in mkPort a x1 x2.
Definition Port_set_HostPort (a : Z) (r : Port) : Port := let '(mkPort x0 _ x2) := r in mkPort x0 a x2.
Definition Port_set_Protocol (a : string) (r : Port) : Port := let '(mkPort x0 x1 _) := r in mkPort x0 x1 a.

(** The members of [Port]. *)
Definition Port_fields : list (field Port) :=
  [fld "container_port" false Port_ContainerPort Port_set_ContainerPort;
   fld "host_port" true Port_HostPort Port_set_HostPort;
   fld "protocol" false Port_Protocol Port_set_Protocol].

#[export] Instance Port_coded : Coded Port := struct_coded Port_fields Port_zero.

Lemma Port_struct : struct_ok Port_fields Port_zero.
Proof. struct_laws. Qed.

#[export] Instance Port_ok : CodedOk Port.
Proof. exact (struct_coded_ok _ _ Port_struct). Qed.

#[export] Instance Port_nonnull : NonNull Port.
Proof. apply struct_nonnull. Qed.

Record Healthcheck := mkHealthcheck {
  Healthcheck_Type : string;
  Healthcheck_Path : string;
  Healthcheck_Port : Z;
  Healthcheck_IntervalSec : Z;
  Healthcheck_TimeoutSec : Z;
  Healthcheck_Threshold : Z }.

Definition Healthcheck_zero : Healthcheck := mkHealthcheck "" "" 0 0 0 0.

Definition Healthcheck_set_Type (a : string) (r : Healthcheck) : Healthcheck := let '(mkHealthcheck _ x1 x2 x3 x4 x5) := r in mkHealthcheck a x1 x2 x3 x4 x5.
Definition Healthcheck_set_Path (a : string) (r : Healthcheck) : Healthcheck := let '(mkHealthcheck x0 _ x2 x3 x4 x5) := r in mkHealthcheck x0 a x2 x3 x4 x5.
Definition Healthcheck_set_Port (a : Z) (r : Healthcheck) : Healthcheck := let '(mkHealthcheck x0 x1 _ x3 x4 x5) := r in mkHealthcheck x0 x1 a x3 x4 x5.
Definition Healthcheck_set_IntervalSec (a : Z) (r : Healthcheck) : Healthcheck := let '(mkHealthcheck x0 x1 x2 _ x4 x5) := r in mkHealthcheck x0 x1 x2 a x4 x5.
Definition Healthcheck_set_TimeoutSec (a : Z) (r : Healthcheck) : Healthcheck := let '(mkHealthcheck x0 x1 x2 x3 _ x5) := r in mkHealthcheck x0 x1 x2 x3 a x5.
Definition Healthcheck_set_Threshold (a : Z) (r : Healthcheck) : Healthcheck := let '(mkHealthcheck x0 x1 x2 x3 x4 _) := r in mkHealthcheck x0 x1 x2 x3 x4 a.

(** The members of [Healthcheck]. *)
Definition Healthcheck_fields : list (field Healthcheck) :=
  [fld "type" true Healthcheck_Type Healthcheck_set_Type;
   fld "path" true Healthcheck_Path Healthcheck_set_Path;
   fld "port" true Healthcheck_Port Healthcheck_set_Port;
   fld "interval_sec" true Healthcheck_IntervalSec Healthcheck_set_IntervalSec;
   fld "timeout_sec" true Healthcheck_TimeoutSec Healthcheck_set_TimeoutSec;
   fld "threshold" true Healthcheck_Threshold Healthcheck_set_Threshold].

#[export] Instance Healthcheck_coded : Coded Healthcheck := struct_coded Healthcheck_fields Healthcheck_zero.

Lemma Healthcheck_struct : struct_ok Healthcheck_fields Healthcheck_zero.
Proof. struct_laws. Qed.

#[export] Instance Healthcheck_ok : CodedOk Healthcheck.
Proof. exact (struct_coded_ok _ _ Healthcheck_struct). Qed.

#[export] Instance Healthcheck_nonnull : NonNull Healthcheck.
Proof. apply struct_nonnull. Qed.

Record ReplicaSpec := mkReplicaSpec {
  ReplicaSpec_ProjectID : string;
  ReplicaSpec_ReplicaIndex : Z;
  ReplicaSpec_Image : string;
  ReplicaSpec_RootfsPath : string;
  ReplicaSpec_Kernel : string;
  ReplicaSpec_VCPUs : Z;
  ReplicaSpec_MemMiB : Z;
  ReplicaSpec_Ports : slice Port;
  ReplicaSpec_Env : gomap string;
  ReplicaSpec_VolumeID : string;
  ReplicaSpec_Healthcheck : ptr Healthcheck;
  ReplicaSpec_Restart : string;
  ReplicaSpec_GuestBase : string;
  ReplicaSpec_DeploymentID : string;
  ReplicaSpec_DeploymentVersion : string;
  ReplicaSpec_DeploymentEnvironment : string;
  ReplicaSpec_SnapshotPolicy : string }.

Definition ReplicaSpec_zero : ReplicaSpec := mkReplicaSpec "" 0 "" "" "" 0 0 None None "" None "" "" "" "" "" "".

Definition ReplicaSpec_set_ProjectID (a : string) (r : ReplicaSpec) : ReplicaSpec := let '(mkReplicaSpec _ x1 x2 x3 x4 x5 x6 x7 x8 x9 x10 x11 x12 x13 x14 x15 x16) := r in mkReplicaSpec a x1 x2 x3 x4 x5 x6 x7 x8 x9 x10 x11 x12 x13 x14 x15 x16.
Definition ReplicaSpec_set_ReplicaIndex (a : Z) (r : ReplicaSpec) : ReplicaSpec := let '(mkReplicaSpec x0 _ x2 x3 x4 x5 x6 x7 x8 x9 x10 x11 x12 x13 x14 x15 x16) := r in mkReplicaSpec x0 a x2 x3 x4 x5 x6 x7 x8 x9 x10 x11 x12 x13 x14 x15 x16.
Definition ReplicaSpec_set_Image (a : string) (r : ReplicaSpec) : ReplicaSpec := let '(mkReplicaSpec x0 x1 _ x3 x4 x5 x6 x7 x8 x9 x10 x11 x12 x13 x14 x15 x16) := r in mkReplicaSpec x0 x1 a x3 x4 x5 x6 x7 x8 x9 x10 x11 x12 x13 x14 x15 x16.
Definition ReplicaSpec_set_RootfsPath (a : string) (r : ReplicaSpec) : ReplicaSpec := let '(mkReplicaSpec x0 x1 x2 _ x4 x5 x6 x7 x8 x9 x10 x11 x12 x13 x14 x15 x16) := r in mkReplicaSpec x0 x1 x2 a x4 x5 x6 x7 x8 x9 x10 x11 x12 x13 x14 x15 x16.
Definition ReplicaSpec_set_Kernel (a : string) (r : ReplicaSpec) : ReplicaSpec := let '(mkReplicaSpec x0 x1 x2 x3 _ x5 x6 x7 x8 x9 x10 x11 x12 x13 x14 x15 x16) := r in mkReplicaSpec x0 x1 x2 x3 a x5 x6 x7 x8 x9 x10 x11 x12 x13 x14 x15 x16.
Definition ReplicaSpec_set_VCPUs (a : Z) (r : ReplicaSpec) : ReplicaSpec := let '(mkReplicaSpec x0 x1 x2 x3 x4 _ x6 x7 x8 x9 x10 x11 x12 x13 x14 x15 x16) := r in mkReplicaSpec x0 x1 x2 x3 x4 a x6 x7 x8 x9 x10 x11 x12 x13 x14 x15 x16.
Definition ReplicaSpec_set_MemMiB (a : Z) (r : ReplicaSpec) : ReplicaSpec := let '(mkReplicaSpec x0 x1 x2 x3 x4 x5 _ x7 x8 x9 x10 x11 x12 x13 x14 x15 x16) := r in mkReplicaSpec x0 x1 x2 x3 x4 x5 a x7 x8 x9 x10 x11 x12 x13 x14 x15 x16.
Definition ReplicaSpec_set_Ports (a : slice Port) (r : ReplicaSpec) : ReplicaSpec := let '(mkReplicaSpec x0 x1 x2 x3 x4 x5 x6 _ x8 x9 x10 x11 x12 x13 x14 x15 x16) := r in mkReplicaSpec x0 x1 x2 x3 x4 x5 x6 a x8 x9 x10 x11 x12 x13 x14 x15 x16.
Definition ReplicaSpec_set_Env (a : gomap string) (r : ReplicaSpec) : ReplicaSpec := let '(mkReplicaSpec x0 x1 x2 x3 x4 x5 x6 x7 _ x9 x10 x11 x12 x13 x14 x15 x16) := r in mkReplicaSpec x0 x1 x2 x3 x4 x5 x6 x7 a x9 x10 x11 x12 x13 x14 x15 x16.
Definition ReplicaSpec_set_VolumeID (a : string) (r : ReplicaSpec) : ReplicaSpec := let '(mkReplicaSpec x0 x1 x2 x3 x4 x5 x6 x7 x8 _ x10 x11 x12 x13 x14 x15 x16) := r in mkReplicaSpec x0 x1 x2 x3 x4 x5 x6 x7 x8 a x10 x11 x12 x13 x14 x15 x16.
Definition ReplicaSpec_set_Healthcheck (a : ptr Healthcheck) (r : ReplicaSpec) : ReplicaSpec := let '(mkReplicaSpec x0 x1 x2 x3 x4 x5 x6 x7 x8 x9 _ x11 x12 x13 x14 x15 x16) := r in mkReplicaSpec x0 x1 x2 x3 x4 x5 x6 x7 x8 x9 a x11 x12 x13 x14 x15 x16.
Definition ReplicaSpec_set_Restart (a : string) (r : ReplicaSpec) : ReplicaSpec := let '(mkReplicaSpec x0 x1 x2 x3 x4 x5 x6 x7 x8 x9 x10 _ x12 x13 x14 x15 x16) := r in mkReplicaSpec x0 x1 x2 x3 x4 x5 x6 x7 x8 x9 x10 a x12 x13 x14 x15 x16.
Definition ReplicaSpec_set_GuestBase (a : string) (r : ReplicaSpec) : ReplicaSpec := let '(mkReplicaSpec x0 x1 x2 x3 x4 x5 x6 x7 x8 x9 x10 x11 _ x13 x14 x15 x16) := r in mkReplicaSpec x0 x1 x2 x3 x4 x5 x6 x7 x8 x9 x10 x11 a x13 x14 x15 x16.
Definition ReplicaSpec_set_DeploymentID (a : string) (r : ReplicaSpec) : ReplicaSpec := let '(mkReplicaSpec x0 x1 x2 x3 x4 x5 x6 x7 x8 x9 x10 x11 x12 _ x14 x15 x16) := r in mkReplicaSpec x0 x1 x2 x3 x4 x5 x6 x7 x8 x9 x10 x11 x12 a x14 x15 x16.
Definition ReplicaSpec_set_DeploymentVersion (a : string) (r : ReplicaSpec) : ReplicaSpec := let '(mkReplicaSpec x0 x1 x2 x3 x4 x5 x6 x7 x8 x9 x10 x11 x12 x13 _ x15 x16) := r in mkReplicaSpec x0 x1 x2 x3 x4 x5 x6 x7 x8 x9 x10 x11 x12 x13 a x15 x16.
Definition ReplicaSpec_set_DeploymentEnvironment (a : string) (r : ReplicaSpec) : ReplicaSpec := let '(mkReplicaSpec x0 x1 x2 x3 x4 x5 x6 x7 x8 x9 x10 x11 x12 x13 x14 _ x16) := r in mkReplicaSpec x0 x1 x2 x3 x4 x5 x6 x7 x8 x9 x10 x11 x12 x13 x14 a x16.
Definition ReplicaSpec_set_SnapshotPolicy (a : string) (r : ReplicaSpec) : ReplicaSpec := let '(mkReplicaSpec x0 x1 x2 x3 x4 x5 x6 x7 x8 x9 x10 x11 x12 x13 x14 x15 _) := r in mkReplicaSpec x0 x1 x2 x3 x4 x5 x6 x7 x8 x9 x10 x11 x12 x13 x14 x15 a.

(** The members of [ReplicaSpec]. *)
Definition ReplicaSpec_fields : list (field ReplicaSpec) :=
  [fld "project_id" false ReplicaSpec_ProjectID ReplicaSpec_set_ProjectID;
   fld "replica_index" false ReplicaSpec_ReplicaIndex ReplicaSpec_set_ReplicaIndex;
   fld "image" false ReplicaSpec_Image ReplicaSpec_set_Image;
   fld "rootfs_path" true ReplicaSpec_RootfsPath ReplicaSpec_set_RootfsPath;
   fld "kernel" true ReplicaSpec_Kernel ReplicaSpec_set_Kernel;
   fld "vcpus" false ReplicaSpec_VCPUs ReplicaSpec_set_VCPUs;
   fld "mem_mib" false ReplicaSpec_MemMiB ReplicaSpec_set_MemMiB;
   fld "ports" false ReplicaSpec_Ports ReplicaSpec_set_Ports;
   fld "env" true ReplicaSpec_Env ReplicaSpec_set_Env;
   fld "volume_id" true ReplicaSpec_VolumeID ReplicaSpec_set_VolumeID;
   fld "healthcheck" true ReplicaSpec_Healthcheck ReplicaSpec_set_Healthcheck;
   fld "restart" true ReplicaSpec_Restart ReplicaSpec_set_Restart;
   fld "guest_base" true ReplicaSpec_GuestBase ReplicaSpec_set_GuestBase;
   fld "deployment_id" true ReplicaSpec_DeploymentID ReplicaSpec_set_DeploymentID;
   fld "deployment_version" true ReplicaSpec_DeploymentVersion ReplicaSpec_set_DeploymentVersion;
   fld "deployment_environment" true ReplicaSpec_DeploymentEnvironment ReplicaSpec_set_DeploymentEnvironment;
   fld "snapshot_policy" true ReplicaSpec_SnapshotPolicy ReplicaSpec_set_SnapshotPolicy].

#[export] Instance ReplicaSpec_coded : Coded ReplicaSpec := struct_coded ReplicaSpec_fields ReplicaSpec_zero.

Lemma ReplicaSpec_struct : struct_ok ReplicaSpec_fields ReplicaSpec_zero.
Proof. struct_laws. Qed.

#[export] Instance ReplicaSpec_ok : CodedOk ReplicaSpec.
Proof. exact (struct_coded_ok _ _ ReplicaSpec_struct). Qed.

#[export] Instance ReplicaSpec_nonnull : NonNull ReplicaSpec.
Proof. apply struct_nonnull. Qed.

Record ReplicaNetworkSpec := mkReplicaNetworkSpec {
  ReplicaNetworkSpec_Subnet : string;
  ReplicaNetworkSpec_IPAddress : string;
  ReplicaNetworkSpec_Gateway : string;
  ReplicaNetworkSpec_MAC : string;
  ReplicaNetworkSpec_Bridge : string;
  ReplicaNetworkSpec_TapName : string }.

Definition ReplicaNetworkSpec_zero : ReplicaNetworkSpec := mkReplicaNetworkSpec "" "" "" "" "" "".

Definition ReplicaNetworkSpec_set_Subnet (a : string) (r : ReplicaNetworkSpec) : ReplicaNetworkSpec := let '(mkReplicaNetworkSpec _ x1 x2 x3 x4 x5) := r in mkReplicaNetworkSpec a x1 x2 x3 x4 x5.
Definition ReplicaNetworkSpec_set_IPAddress (a : string) (r : ReplicaNetworkSpec) : ReplicaNetworkSpec := let '(mkReplicaNetworkSpec x0 _ x2 x3 x4 x5) := r in mkReplicaNetworkSpec x0 a x2 x3 x4 x5.
Definition ReplicaNetworkSpec_set_Gateway (a : string) (r : ReplicaNetworkSpec) : ReplicaNetworkSpec := let '(mkReplicaNetworkSpec x0 x1 _ x3 x4 x5) := r in mkReplicaNetworkSpec x0 x1 a x3 x4 x5.
Definition ReplicaNetworkSpec_set_MAC (a : string) (r : ReplicaNetworkSpec) : ReplicaNetworkSpec := let '(mkReplicaNetworkSpec x0 x1 x2 _ x4 x5) := r in mkReplicaNetworkSpec x0 x1 x2 a x4 x5.
Definition ReplicaNetworkSpec_set_Bridge (a : string) (r : ReplicaNetworkSpec) : ReplicaNetworkSpec := let '(mkReplicaNetworkSpec x0 x1 x2 x3 _ x5) := r in mkReplicaNetworkSpec x0 x1 x2 x3 a x5.
Definition ReplicaNetworkSpec_set_TapName (a : string) (r : ReplicaNetworkSpec) : ReplicaNetworkSpec := let '(mkReplicaNetworkSpec x0 x1 x2 x3 x4 _) := r in mkReplicaNetworkSpec x0 x1 x2 x3 x4 a.

(** The members of [ReplicaNetworkSpec]. *)
Definition ReplicaNetworkSpec_fields : list (field ReplicaNetworkSpec) :=
  [fld "subnet" false ReplicaNetworkSpec_Subnet ReplicaNetworkSpec_set_Subnet;
   fld "ip_address" false ReplicaNetworkSpec_IPAddress ReplicaNetworkSpec_set_IPAddress;
   fld "gateway" false ReplicaNetworkSpec_Gateway ReplicaNetworkSpec_set_Gateway;
   fld "mac" false ReplicaNetworkSpec_MAC ReplicaNetworkSpec_set_MAC;
   fld "bridge" false ReplicaNetworkSpec_Bridge ReplicaNetworkSpec_set_Bridge;
   fld "tap_name" false ReplicaNetworkSpec_TapName ReplicaNetworkSpec_set_TapName].

#[export] Instance ReplicaNetworkSpec_coded : Coded ReplicaNetworkSpec := struct_coded ReplicaNetworkSpec_fields ReplicaNetworkSpec_zero.

Lemma ReplicaNetworkSpec_struct : struct_ok ReplicaNetworkSpec_fields ReplicaNetworkSpec_zero.
Proof. struct_laws. Qed.

#[export] Instance ReplicaNetworkSpec_ok : CodedOk ReplicaNetworkSpec.
Proof. exact (struct_coded_ok _ _ ReplicaNetworkSpec_struct). Qed.

#[export] Instance ReplicaNetworkSpec_nonnull : NonNull ReplicaNetworkSpec.
Proof. apply struct_nonnull. Qed.

Record ReplicaStatus := mkReplicaStatus {
  ReplicaStatus_Status : Status;
  ReplicaStatus_State : string;
  ReplicaStatus_HealthStatus : string;
  ReplicaStatus_LastTransitionTime : time;
  ReplicaStatus_DeploymentVersion : string;
  ReplicaStatus_IPAddress : string;
  ReplicaStatus_ContainerID : string;
  ReplicaStatus_TaskID : string;
  ReplicaStatus_StartedAt : ptr time;
  ReplicaStatus_Crashed : bool;
  ReplicaStatus_Error : string;
  ReplicaStatus_SnapshotPath : string;
  ReplicaStatus_SnapshotMemPath : string;
  ReplicaStatus_SnapshotStatus : string;
  ReplicaStatus_SnapshotError : string;
  ReplicaStatus_SnapshotCreatedAt : ptr time;
  ReplicaStatus_LastRecoveredAt : ptr time;
  ReplicaStatus_RecoveryCount : Z;
  ReplicaStatus_MACAddress : string;
  ReplicaStatus_NetworkSpec : ptr ReplicaNetworkSpec }.

Definition ReplicaStatus_zero : ReplicaStatus := mkReplicaStatus Status_zero "" "" 0 "" "" "" "" None false "" "" "" "" "" None None 0 "" None.

Definition ReplicaStatus_set_Status (a : Status) (r : ReplicaStatus) : ReplicaStatus := let '(mkReplicaStatus _ x1 x2 x3 x4 x5 x6 x7 x8 x9 x10 x11 x12 x13 x14 x15 x16 x17 x18 x19) := r in mkReplicaStatus a x1 x2 x3 x4 x5 x6 x7 x8 x9 x10 x11 x12 x13 x14 x15 x16 x17 x18 x19.
Definition ReplicaStatus_set_State (a : string) (r : ReplicaStatus) : ReplicaStatus := let '(mkReplicaStatus x0 _ x2 x3 x4 x5 x6 x7 x8 x9 x10 x11 x12 x13 x14 x15 x16 x17 x18 x19) := r in mkReplicaStatus x0 a x2 x3 x4 x5 x6 x7 x8 x9 x10 x11 x12 x13 x14 x15 x16 x17 x18 x19.
Definition ReplicaStatus_set_HealthStatus (a : string) (r : ReplicaStatus) : ReplicaStatus := let '(mkReplicaStatus x0 x1 _ x3 x4 x5 x6 x7 x8 x9 x10 x11 x12 x13 x14 x15 x16 x17 x18 x19) := r in mkReplicaStatus x0 x1 a x3 x4 x5 x6 x7 x8 x9 x10 x11 x12 x13 x14 x15 x16 x17 x18 x19.
Definition ReplicaStatus_set_LastTransitionTime (a : time) (r : ReplicaStatus) : ReplicaStatus := let '(mkReplicaStatus x0 x1 x2 _ x4 x5 x6 x7 x8 x9 x10 x11 x12 x13 x14 x15 x16 x17 x18 x19) := r in mkReplicaStatus x0 x1 x2 a x4 x5 x6 x7 x8 x9 x10 x11 x12 x13 x14 x15 x16 x17 x18 x19.
Definition ReplicaStatus_set_DeploymentVersion (a : string) (r : ReplicaStatus) : ReplicaStatus := let '(mkReplicaStatus x0 x1 x2 x3 _ x5 x6 x7 x8 x9 x10 x11 x12 x13 x14 x15 x16 x17 x18 x19) := r in mkReplicaStatus x0 x1 x2 x3 a x5 x6 x7 x8 x9 x10 x11 x12 x13 x14 x15 x16 x17 x18 x19.
Definition ReplicaStatus_set_IPAddress (a : string) (r : ReplicaStatus) : ReplicaStatus := let '(mkReplicaStatus x0 x1 x2 x3 x4 _ x6 x7 x8 x9 x10 x11 x12 x13 x14 x15 x16 x17 x18 x19) := r in mkReplicaStatus x0 x1 x2 x3 x4 a x6 x7 x8 x9 x10 x11 x12 x13 x14 x15 x16 x17 x18 x19.
Definition ReplicaStatus_set_ContainerID (a : string) (r : ReplicaStatus) : ReplicaStatus := let '(mkReplicaStatus x0 x1 x2 x3 x4 x5 _ x7 x8 x9 x10 x11 x12 x13 x14 x15 x16 x17 x18 x19) := r in mkReplicaStatus x0 x1 x2 x3 x4 x5 a x7 x8 x9 x10 x11 x12 x13 x14 x15 x16 x17 x18 x19.
Definition ReplicaStatus_set_TaskID (a : string) (r : ReplicaStatus) : ReplicaStatus := let '(mkReplicaStatus x0 x1 x2 x3 x4 x5 x6 _ x8 x9 x10 x11 x12 x13 x14 x15 x16 x17 x18 x19) := r in mkReplicaStatus x0 x1 x2 x3 x4 x5 x6 a x8 x9 x10 x11 x12 x13 x14 x15 x16 x17 x18 x19.
Definition ReplicaStatus_set_StartedAt (a : ptr time) (r : ReplicaStatus) : ReplicaStatus := let '(mkReplicaStatus x0 x1 x2 x3 x4 x5 x6 x7 _ x9 x10 x11 x12 x13 x14 x15 x16 x17 x18 x19) := r in mkReplicaStatus x0 x1 x2 x3 x4 x5 x6 x7 a x9 x10 x11 x12 x13 x14 x15 x16 x17 x18 x19.
Definition ReplicaStatus_set_Crashed (a : bool) (r : ReplicaStatus) : ReplicaStatus := let '(mkReplicaStatus x0 x1 x2 x3 x4 x5 x6 x7 x8 _ x10 x11 x12 x13 x14 x15 x16 x17 x18 x19) := r in mkReplicaStatus x0 x1 x2 x3 x4 x5 x6 x7 x8 a x10 x11 x12 x13 x14 x15 x16 x17 x18 x19.
Definition ReplicaStatus_set_Error (a : string) (r : ReplicaStatus) : ReplicaStatus := let '(mkReplicaStatus x0 x1 x2 x3 x4 x5 x6 x7 x8 x9 _ x11 x12 x13 x14 x15 x16 x17 x18 x19) := r in mkReplicaStatus x0 x1 x2 x3 x4 x5 x6 x7 x8 x9 a x11 x12 x13 x14 x15 x16 x17 x18 x19.
Definition ReplicaStatus_set_SnapshotPath (a : string) (r : ReplicaStatus) : ReplicaStatus := let '(mkReplicaStatus x0 x1 x2 x3 x4 x5 x6 x7 x8 x9 x10 _ x12 x13 x14 x15 x16 x17 x18 x19) := r in mkReplicaStatus x0 x1 x2 x3 x4 x5 x6 x7 x8 x9 x10 a x12 x13 x14 x15 x16 x17 x18 x19.
Definition ReplicaStatus_set_SnapshotMemPath (a : string) (r : ReplicaStatus) : ReplicaStatus := let '(mkReplicaStatus x0 x1 x2 x3 x4 x5 x6 x7 x8 x9 x10 x11 _ x13 x14 x15 x16 x17 x18 x19) := r in mkReplicaStatus x0 x1 x2 x3 x4 x5 x6 x7 x8 x9 x10 x11 a x13 x14 x15 x16 x17 x18 x19.
Definition ReplicaStatus_set_SnapshotStatus (a : string) (r : ReplicaStatus) : ReplicaStatus := let '(mkReplicaStatus x0 x1 x2 x3 x4 x5 x6 x7 x8 x9 x10 x11 x12 _ x14 x15 x16 x17 x18 x19) := r in mkReplicaStatus x0 x1 x2 x3 x4 x5 x6 x7 x8 x9 x10 x11 x12 a x14 x15 x16 x17 x18 x19.
Definition ReplicaStatus_set_SnapshotError (a : string) (r : ReplicaStatus) : ReplicaStatus := let '(mkReplicaStatus x0 x1 x2 x3 x4 x5 x6 x7 x8 x9 x10 x11 x12 x13 _ x15 x16 x17 x18 x19) := r in mkReplicaStatus x0 x1 x2 x3 x4 x5 x6 x7 x8 x9 x10 x11 x12 x13 a x15 x16 x17 x18 x19.
Definition ReplicaStatus_set_SnapshotCreatedAt (a : ptr time) (r : ReplicaStatus) : ReplicaStatus := let '(mkReplicaStatus x0 x1 x2 x3 x4 x5 x6 x7 x8 x9 x10 x11 x12 x13 x14 _ x16 x17 x18 x19) := r in mkReplicaStatus x0 x1 x2 x3 x4 x5 x6 x7 x8 x9 x10 x11 x12 x13 x14 a x16 x17 x18 x19.
Definition ReplicaStatus_set_LastRecoveredAt (a : ptr time) (r : ReplicaStatus) : ReplicaStatus := let '(mkReplicaStatus x0 x1 x2 x3 x4 x5 x6 x7 x8 x9 x10 x11 x12 x13 x14 x15 _ x17 x18 x19) := r in mkReplicaStatus x0 x1 x2 x3 x4 x5 x6 x7 x8 x9 x10 x11 x12 x13 x14 x15 a x17 x18 x19.
Definition ReplicaStatus_set_RecoveryCount (a : Z) (r : ReplicaStatus) : ReplicaStatus := let '(mkReplicaStatus x0 x1 x2 x3 x4 x5 x6 x7 x8 x9 x10 x11 x12 x13 x14 x15 x16 _ x18 x19) := r in mkReplicaStatus x0 x1 x2 x3 x4 x5 x6 x7 x8 x9 x10 x11 x12 x13 x14 x15 x16 a x18 x19.
Definition ReplicaStatus_set_MACAddress (a : string) (r : ReplicaStatus) : ReplicaStatus := let '(mkReplicaStatus x0 x1 x2 x3 x4 x5 x6 x7 x8 x9 x10 x11 x12 x13 x14 x15 x16 x17 _ x19) := r in mkReplicaStatus x0 x1 x2 x3 x4 x5 x6 x7 x8 x9 x10 x11 x12 x13 x14 x15 x16 x17 a x19.
Definition ReplicaStatus_set_NetworkSpec (a : ptr ReplicaNetworkSpec) (r : ReplicaStatus) : ReplicaStatus := let '(mkReplicaStatus x0 x1 x2 x3 x4 x5 x6 x7 x8 x9 x10 x11 x12 x13 x14 x15 x16 x17 x18 _) := r in mkReplicaStatus x0 x1 x2 x3 x4 x5 x6 x7 x8 x9 x10 x11 x12 x13 x14 x15 x16 x17 x18 a.

(** The members of [ReplicaStatus]. *)
Definition ReplicaStatus_fields : list (field ReplicaStatus) :=
  promote (embed ReplicaStatus_Status ReplicaStatus_set_Status Status_fields)
  [fld "state" false ReplicaStatus_State ReplicaStatus_set_State;
   fld "health_status" false ReplicaStatus_HealthStatus ReplicaStatus_set_HealthStatus;
   fld "last_transition_time" true ReplicaStatus_LastTransitionTime ReplicaStatus_set_LastTransitionTime;
   fld "deployment_version" true ReplicaStatus_DeploymentVersion ReplicaStatus_set_DeploymentVersion;
   fld "ip_address" true ReplicaStatus_IPAddress ReplicaStatus_set_IPAddress;
   fld "container_id" true ReplicaStatus_ContainerID ReplicaStatus_set_ContainerID;
   fld "task_id" true ReplicaStatus_TaskID ReplicaStatus_set_TaskID;
   fld "started_at" true ReplicaStatus_StartedAt ReplicaStatus_set_StartedAt;
   fld "crashed" true ReplicaStatus_Crashed ReplicaStatus_set_Crashed;
   fld "error" true ReplicaStatus_Error ReplicaStatus_set_Error;
   fld "snapshot_path" true ReplicaStatus_SnapshotPath ReplicaStatus_set_SnapshotPath;
   fld "snapshot_mem_path" true ReplicaStatus_SnapshotMemPath ReplicaStatus_set_SnapshotMemPath;
   fld "snapshot_status" true ReplicaStatus_SnapshotStatus ReplicaStatus_set_SnapshotStatus;
   fld "snapshot_error" true ReplicaStatus_SnapshotError ReplicaStatus_set_SnapshotError;
   fld "snapshot_created_at" true ReplicaStatus_SnapshotCreatedAt ReplicaStatus_set_SnapshotCreatedAt;
   fld "last_recovered_at" true ReplicaStatus_LastRecoveredAt ReplicaStatus_set_LastRecoveredAt;
   fld "recovery_count" true ReplicaStatus_RecoveryCount ReplicaStatus_set_RecoveryCount;
   fld "mac_address" true ReplicaStatus_MACAddress ReplicaStatus_set_MACAddress;
   fld "network_spec" true ReplicaStatus_NetworkSpec ReplicaStatus_set_NetworkSpec].

#[export] Instance ReplicaStatus_coded : Coded ReplicaStatus := struct_coded ReplicaStatus_fields ReplicaStatus_zero.

Lemma ReplicaStatus_struct : struct_ok ReplicaStatus_fields ReplicaStatus_zero.
Proof. struct_laws. Qed.

#[export] Instance ReplicaStatus_ok : CodedOk ReplicaStatus.
Proof. exact (struct_coded_ok _ _ ReplicaStatus_struct). Qed.

#[export] Instance ReplicaStatus_nonnull : NonNull ReplicaStatus.
Proof. apply struct_nonnull. Qed.

Record AutoscalePolicy := mkAutoscalePolicy {
  AutoscalePolicy_MinReplicas : Z;
  AutoscalePolicy_MaxReplicas : Z;
  AutoscalePolicy_TargetCPU : float64;
  AutoscalePolicy_ScaleDownCPU : float64;
  AutoscalePolicy_CooldownSec : Z;
  AutoscalePolicy_Enabled : bool;
  AutoscalePolicy_MetricsInterval : Z }.

Definition AutoscalePolicy_zero : AutoscalePolicy := mkAutoscalePolicy 0 0 (S754_zero false) (S754_zero false) 0 false 0.

Definition AutoscalePolicy_set_MinReplicas (a : Z) (r : AutoscalePolicy) : AutoscalePolicy := let '(mkAutoscalePolicy _ x1 x2 x3 x4 x5 x6) := r in mkAutoscalePolicy a x1 x2 x3 x4 x5 x6.
Definition AutoscalePolicy_set_MaxReplicas (a : Z) (r : AutoscalePolicy) : AutoscalePolicy := let '(mkAutoscalePolicy x0 _ x2 x3 x4 x5 x6) := r in mkAutoscalePolicy x0 a x2 x3 x4 x5 x6.
Definition AutoscalePolicy_set_TargetCPU (a : float64) (r : AutoscalePolicy) : AutoscalePolicy := let '(mkAutoscalePolicy x0 x1 _ x3 x4 x5 x6) := r in mkAutoscalePolicy x0 x1 a x3 x4 x5 x6.
Definition AutoscalePolicy_set_ScaleDownCPU (a : float64) (r : AutoscalePolicy) : AutoscalePolicy := let '(mkAutoscalePolicy x0 x1 x2 _ x4 x5 x6) := r in mkAutoscalePolicy x0 x1 x2 a x4 x5 x6.
Definition AutoscalePolicy_set_CooldownSec (a : Z) (r : AutoscalePolicy) : AutoscalePolicy := let '(mkAutoscalePolicy x0 x1 x2 x3 _ x5 x6) := r in mkAutoscalePolicy x0 x1 x2 x3 a x5 x6.
Definition AutoscalePolicy_set_Enabled (a : bool) (r : AutoscalePolicy) : AutoscalePolicy := let '(mkAutoscalePolicy x0 x1 x2 x3 x4 _ x6) := r in mkAutoscalePolicy x0 x1 x2 x3 x4 a x6.
Definition AutoscalePolicy_set_MetricsInterval (a : Z) (r : AutoscalePolicy) : AutoscalePolicy := let '(mkAutoscalePolicy x0 x1 x2 x3 x4 x5 _) := r in mkAutoscalePolicy x0 x1 x2 x3 x4 x5 a.

(** The members of [AutoscalePolicy]. *)
Definition AutoscalePolicy_fields : list (field AutoscalePolicy) :=
  [fld "min_replicas" false AutoscalePolicy_MinReplicas AutoscalePolicy_set_MinReplicas;
   fld "max_replicas" false AutoscalePolicy_MaxReplicas AutoscalePolicy_set_MaxReplicas;
   fld "target_cpu_percent" false AutoscalePolicy_TargetCPU AutoscalePolicy_set_TargetCPU;
   fld "scale_down_cpu_percent" false AutoscalePolicy_ScaleDownCPU AutoscalePolicy_set_ScaleDownCPU;
   fld "cooldown_seconds" false AutoscalePolicy_CooldownSec AutoscalePolicy_set_CooldownSec;
   fld "enabled" false AutoscalePolicy_Enabled AutoscalePolicy_set_Enabled;
   fld "metrics_interval_seconds" true AutoscalePolicy_MetricsInterval AutoscalePolicy_set_MetricsInterval].

#[export] Instance AutoscalePolicy_coded : Coded AutoscalePolicy := struct_coded AutoscalePolicy_fields AutoscalePolicy_zero.

Lemma AutoscalePolicy_struct : struct_ok AutoscalePolicy_fields AutoscalePolicy_zero.
Proof. struct_laws. Qed.

#[export] Instance AutoscalePolicy_ok : CodedOk AutoscalePolicy.
Proof. exact (struct_coded_ok _ _ AutoscalePolicy_struct). Qed.

#[export] Instance AutoscalePolicy_nonnull : NonNull AutoscalePolicy.
Proof. apply struct_nonnull. Qed.

Record ProjectSpec := mkProjectSpec {
  ProjectSpec_Source : string;
  ProjectSpec_Image : string;
  ProjectSpec_GitURL : string;
  ProjectSpec_GitBranch : string;
  ProjectSpec_Network : string;
  ProjectSpec_Networks : slice string;
  ProjectSpec_ReplicasDesired : Z;
  ProjectSpec_Replicas : Z;
  ProjectSpec_RestartPolicy : string;
  ProjectSpec_Healthcheck : ptr Healthcheck;
  ProjectSpec_Env : gomap string;
  ProjectSpec_Tags : slice string;
  ProjectSpec_SSHEnabled : bool;
  ProjectSpec_Autoscale : ptr AutoscalePolicy;
  ProjectSpec_HostMountPath : string;
  ProjectSpec_StackID : string;
  ProjectSpec_ComposeService : string;
  ProjectSpec_Model : string;
  ProjectSpec_GPU : string }.

Definition ProjectSpec_zero : ProjectSpec := mkProjectSpec "" "" "" "" "" None 0 0 "" None None None false None "" "" "" "" "".

Definition ProjectSpec_set_Source (a : string) (r : ProjectSpec) : ProjectSpec := let '(mkProjectSpec _ x1 x2 x3 x4 x5 x6 x7 x8 x9 x10 x11 x12 x13 x14 x15 x16 x17 x18) := r in mkProjectSpec a x1 x2 x3 x4 x5 x6 x7 x8 x9 x10 x11 x12 x13 x14 x15 x16 x17 x18.
Definition ProjectSpec_set_Image (a : string) (r : ProjectSpec) : ProjectSpec := let '(mkProjectSpec x0 _ x2 x3 x4 x5 x6 x7 x8 x9 x10 x11 x12 x13 x14 x15 x16 x17 x18) := r in mkProjectSpec x0 a x2 x3 x4 x5 x6 x7 x8 x9 x10 x11 x12 x13 x14 x15 x16 x17 x18.
Definition ProjectSpec_set_GitURL (a : string) (r : ProjectSpec) : ProjectSpec := let '(mkProjectSpec x0 x1 _ x3 x4 x5 x6 x7 x8 x9 x10 x11 x12 x13 x14 x15 x16 x17 x18) := r in mkProjectSpec x0 x1 a x3 x4 x5 x6 x7 x8 x9 x10 x11 x12 x13 x14 x15 x16 x17 x18.
Definition ProjectSpec_set_GitBranch (a : string) (r : ProjectSpec) : ProjectSpec := let '(mkProjectSpec x0 x1 x2 _ x4 x5 x6 x7 x8 x9 x10 x11 x12 x13 x14 x15 x16 x17 x18) := r in mkProjectSpec x0 x1 x2 a x4 x5 x6 x7 x8 x9 x10 x11 x12 x13 x14 x15 x16 x17 x18.
Definition ProjectSpec_set_Network (a : string) (r : ProjectSpec) : ProjectSpec := let '(mkProjectSpec x0 x1 x2 x3 _ x5 x6 x7 x8 x9 x10 x11 x12 x13 x14 x15 x16 x17 x18) := r in mkProjectSpec x0 x1 x2 x3 a x5 x6 x7 x8 x9 x10 x11 x12 x13 x14 x15 x16 x17 x18.
Definition ProjectSpec_set_Networks (a : slice string) (r : ProjectSpec) : ProjectSpec := let '(mkProjectSpec x0 x1 x2 x3 x4 _ x6 x7 x8 x9 x10 x11 x12 x13 x14 x15 x16 x17 x18) := r in mkProjectSpec x0 x1 x2 x3 x4 a x6 x7 x8 x9 x10 x11 x12 x13 x14 x15 x16 x17 x18.
Definition ProjectSpec_set_ReplicasDesired (a : Z) (r : ProjectSpec) : ProjectSpec := let '(mkProjectSpec x0 x1 x2 x3 x4 x5 _ x7 x8 x9 x10 x11 x12 x13 x14 x15 x16 x17 x18) := r in mkProjectSpec x0 x1 x2 x3 x4 x5 a x7 x8 x9 x10 x11 x12 x13 x14 x15 x16 x17 x18.
Definition ProjectSpec_set_Replicas (a : Z) (r : ProjectSpec) : ProjectSpec := let '(mkProjectSpec x0 x1 x2 x3 x4 x5 x6 _ x8 x9 x10 x11 x12 x13 x14 x15 x16 x17 x18) := r in mkProjectSpec x0 x1 x2 x3 x4 x5 x6 a x8 x9 x10 x11 x12 x13 x14 x15 x16 x17 x18.
Definition ProjectSpec_set_RestartPolicy (a : string) (r : ProjectSpec) : ProjectSpec := let '(mkProjectSpec x0 x1 x2 x3 x4 x5 x6 x7 _ x9 x10 x11 x12 x13 x14 x15 x16 x17 x18) := r in mkProjectSpec x0 x1 x2 x3 x4 x5 x6 x7 a x9 x10 x11 x12 x13 x14 x15 x16 x17 x18.
Definition ProjectSpec_set_Healthcheck (a : ptr Healthcheck) (r : ProjectSpec) : ProjectSpec := let '(mkProjectSpec x0 x1 x2 x3 x4 x5 x6 x7 x8 _ x10 x11 x12 x13 x14 x15 x16 x17 x18) := r in mkProjectSpec x0 x1 x2 x3 x4 x5 x6 x7 x8 a x10 x11 x12 x13 x14 x15 x16 x17 x18.
Definition ProjectSpec_set_Env (a : gomap string) (r : ProjectSpec) : ProjectSpec := let '(mkProjectSpec x0 x1 x2 x3 x4 x5 x6 x7 x8 x9 _ x11 x12 x13 x14 x15 x16 x17 x18) := r in mkProjectSpec x0 x1 x2 x3 x4 x5 x6 x7 x8 x9 a x11 x12 x13 x14 x15 x16 x17 x18.
Definition ProjectSpec_set_Tags (a : slice string) (r : ProjectSpec) : ProjectSpec := let '(mkProjectSpec x0 x1 x2 x3 x4 x5 x6 x7 x8 x9 x10 _ x12 x13 x14 x15 x16 x17 x18) := r in mkProjectSpec x0 x1 x2 x3 x4 x5 x6 x7 x8 x9 x10 a x12 x13 x14 x15 x16 x17 x18.
Definition ProjectSpec_set_SSHEnabled (a : bool) (r : ProjectSpec) : ProjectSpec := let '(mkProjectSpec x0 x1 x2 x3 x4 x5 x6 x7 x8 x9 x10 x11 _ x13 x14 x15 x16 x17 x18) := r in mkProjectSpec x0 x1 x2 x3 x4 x5 x6 x7 x8 x9 x10 x11 a x13 x14 x15 x16 x17 x18.
Definition ProjectSpec_set_Autoscale (a : ptr AutoscalePolicy) (r : ProjectSpec) : ProjectSpec := let '(mkProjectSpec x0 x1 x2 x3 x4 x5 x6 x7 x8 x9 x10 x11 x12 _ x14 x15 x16 x17 x18) := r in mkProjectSpec x0 x1 x2 x3 x4 x5 x6 x7 x8 x9 x10 x11 x12 a x14 x15 x16 x17 x18.
Definition ProjectSpec_set_HostMountPath (a : string) (r : ProjectSpec) : ProjectSpec := let '(mkProjectSpec x0 x1 x2 x3 x4 x5 x6 x7 x8 x9 x10 x11 x12 x13 _ x15 x16 x17 x18) := r in mkProjectSpec x0 x1 x2 x3 x4 x5 x6 x7 x8 x9 x10 x11 x12 x13 a x15 x16 x17 x18.
Definition ProjectSpec_set_StackID (a : string) (r : ProjectSpec) : ProjectSpec := let '(mkProjectSpec x0 x1 x2 x3 x4 x5 x6 x7 x8 x9 x10 x11 x12 x13 x14 _ x16 x17 x18) := r in mkProjectSpec x0 x1 x2 x3 x4 x5 x6 x7 x8 x9 x10 x11 x12 x13 x14 a x16 x17 x18.
Definition ProjectSpec_set_ComposeService (a : string) (r : ProjectSpec) : ProjectSpec := let '(mkProjectSpec x0 x1 x2 x3 x4 x5 x6 x7 x8 x9 x10 x11 x12 x13 x14 x15 _ x17 x18) := r in mkProjectSpec x0 x1 x2 x3 x4 x5 x6 x7 x8 x9 x10 x11 x12 x13 x14 x15 a x17 x18.
Definition ProjectSpec_set_Model (a : string) (r : ProjectSpec) : ProjectSpec := let '(mkProjectSpec x0 x1 x2 x3 x4 x5 x6 x7 x8 x9 x10 x11 x12 x13 x14 x15 x16 _ x18) := r in mkProjectSpec x0 x1 x2 x3 x4 x5 x6 x7 x8 x9 x10 x11 x12 x13 x14 x15 x16 a x18.
Definition ProjectSpec_set_GPU (a : string) (r : ProjectSpec) : ProjectSpec := let '(mkProjectSpec x0 x1 x2 x3 x4 x5 x6 x7 x8 x9 x10 x11 x12 x13 x14 x15 x16 x17 _) := r in mkProjectSpec x0 x1 x2 x3 x4 x5 x6 x7 x8 x9 x10 x11 x12 x13 x14 x15 x16 x17 a.

(** The members of [ProjectSpec]. *)
Definition ProjectSpec_fields : list (field ProjectSpec) :=
  [fld "source" false ProjectSpec_Source ProjectSpec_set_Source;
   fld "image" true ProjectSpec_Image ProjectSpec_set_Image;
   fld "git_url" true ProjectSpec_GitURL ProjectSpec_set_GitURL;
   fld "git_branch" true ProjectSpec_GitBranch ProjectSpec_set_GitBranch;
   fld "network" true ProjectSpec_Network ProjectSpec_set_Network;
   fld "networks" true ProjectSpec_Networks ProjectSpec_set_Networks;
   fld "replicas_desired" true ProjectSpec_ReplicasDesired ProjectSpec_set_ReplicasDesired;
   fld "replicas" true ProjectSpec_Replicas ProjectSpec_set_Replicas;
   fld "restart_policy" true ProjectSpec_RestartPolicy ProjectSpec_set_RestartPolicy;
   fld "healthcheck" true ProjectSpec_Healthcheck ProjectSpec_set_Healthcheck;
   fld "env" true ProjectSpec_Env ProjectSpec_set_Env;
   fld "tags" true ProjectSpec_Tags ProjectSpec_set_Tags;
   fld "ssh_enabled" true ProjectSpec_SSHEnabled ProjectSpec_set_SSHEnabled;
   fld "autoscale" true ProjectSpec_Autoscale ProjectSpec_set_Autoscale;
   fld "host_mount_path" true ProjectSpec_HostMountPath ProjectSpec_set_HostMountPath;
   fld "stack_id" true ProjectSpec_StackID ProjectSpec_set_StackID;
   fld "compose_service" true ProjectSpec_ComposeService ProjectSpec_set_ComposeService;
   fld "model" true ProjectSpec_Model ProjectSpec_set_Model;
   fld "gpu" true ProjectSpec_GPU ProjectSpec_set_GPU].

#[export] Instance ProjectSpec_coded : Coded ProjectSpec := struct_coded ProjectSpec_fields ProjectSpec_zero.

Lemma ProjectSpec_struct : struct_ok ProjectSpec_fields ProjectSpec_zero.
Proof. struct_laws. Qed.

#[export] Instance ProjectSpec_ok : CodedOk ProjectSpec.
Proof. exact (struct_coded_ok _ _ ProjectSpec_struct). Qed.

#[export] Instance ProjectSpec_nonnull : NonNull ProjectSpec.
Proof. apply struct_nonnull. Qed.

Record ServicePool := mkServicePool {
  ServicePool_Desired : Z;
  ServicePool_Healthy : Z;
  ServicePool_VMs : slice string;
  ServicePool_Replicas : slice string }.

Definition ServicePool_zero : ServicePool := mkServicePool 0 0 None None.

Definition ServicePool_set_Desired (a : Z) (r : ServicePool) : ServicePool := let '(mkServicePool _ x1 x2 x3) := r in mkServicePool a x1 x2 x3.
Definition ServicePool_set_Healthy (a : Z) (r : ServicePool) : ServicePool := let '(mkServicePool x0 _ x2 x3) := r in mkServicePool x0 a x2 x3.
Definition ServicePool_set_VMs (a : slice string) (r : ServicePool) : ServicePool := let '(mkServicePool x0 x1 _ x3) := r in mkServicePool x0 x1 a x3.
Definition ServicePool_set_Replicas (a : slice string) (r : ServicePool) : ServicePool := let '(mkServicePool x0 x1 x2 _) := r in mkServicePool x0 x1 x2 a.

(** The members of [ServicePool]. *)
Definition ServicePool_fields : list (field ServicePool) :=
  [fld "desired" false ServicePool_Desired ServicePool_set_Desired;
   fld "healthy" false ServicePool_Healthy ServicePool_set_Healthy;
   fld "vms" false ServicePool_VMs ServicePool_set_VMs;
   fld "replicas" true ServicePool_Replicas ServicePool_set_Replicas].

#[export] Instance ServicePool_coded : Coded ServicePool := struct_coded ServicePool_fields ServicePool_zero.

Lemma ServicePool_struct : struct_ok ServicePool_fields ServicePool_zero.
Proof. struct_laws. Qed.

#[export] Instance ServicePool_ok : CodedOk ServicePool.
Proof. exact (struct_coded_ok _ _ ServicePool_struct). Qed.

#[export] Instance ServicePool_nonnull : NonNull ServicePool.
Proof. apply struct_nonnull. Qed.

Record ProjectStatus := mkProjectStatus {
  ProjectStatus_Status : Status;
  ProjectStatus_ServicePools : gomap (ptr ServicePool);
  ProjectStatus_URL : string;
  ProjectStatus_LastDeploymentID : string;
  ProjectStatus_Replicas : Z;
  ProjectStatus_HealthyReplicas : Z }.

Definition ProjectStatus_zero : ProjectStatus := mkProjectStatus Status_zero None "" "" 0 0.

Definition ProjectStatus_set_Status (a : Status) (r : ProjectStatus) : ProjectStatus := let '(mkProjectStatus _ x1 x2 x3 x4 x5) := r in mkProjectStatus a x1 x2 x3 x4 x5.
Definition ProjectStatus_set_ServicePools (a : gomap (ptr ServicePool)) (r : ProjectStatus) : ProjectStatus := let '(mkProjectStatus x0 _ x2 x3 x4 x5) := r in mkProjectStatus x0 a x2 x3 x4 x5.
Definition ProjectStatus_set_URL (a : string) (r : ProjectStatus) : ProjectStatus := let '(mkProjectStatus x0 x1 _ x3 x4 x5) := r in mkProjectStatus x0 x1 a x3 x4 x5.
Definition ProjectStatus_set_LastDeploymentID (a : string) (r : ProjectStatus) : ProjectStatus := let '(mkProjectStatus x0 x1 x2 _ x4 x5) := r in mkProjectStatus x0 x1 x2 a x4 x5.
Definition ProjectStatus_set_Replicas (a : Z) (r : ProjectStatus) : ProjectStatus := let '(mkProjectStatus x0 x1 x2 x3 _ x5) := r in mkProjectStatus x0 x1 x2 x3 a x5.
Definition ProjectStatus_set_HealthyReplicas (a : Z) (r : ProjectStatus) : ProjectStatus := let '(mkProjectStatus x0 x1 x2 x3 x4 _) := r in mkProjectStatus x0 x1 x2 x3 x4 a.

(** The members of [ProjectStatus]. *)
Definition ProjectStatus_fields : list (field ProjectStatus) :=
  promote (embed ProjectStatus_Status ProjectStatus_set_Status Status_fields)
  [fld "service_pools" true ProjectStatus_ServicePools ProjectStatus_set_ServicePools;
   fld "url" true ProjectStatus_URL ProjectStatus_set_URL;
   fld "last_deployment_id" true ProjectStatus_LastDeploymentID ProjectStatus_set_LastDeploymentID;
   fld "replicas" true ProjectStatus_Replicas ProjectStatus_set_Replicas;
   fld "healthy_replicas" true ProjectStatus_HealthyReplicas ProjectStatus_set_HealthyReplicas].

#[export] Instance ProjectStatus_coded : Coded ProjectStatus := struct_coded ProjectStatus_fields ProjectStatus_zero.

Lemma ProjectStatus_struct : struct_ok ProjectStatus_fields ProjectStatus_zero.
Proof. struct_laws. Qed.

#[export] Instance ProjectStatus_ok : CodedOk ProjectStatus.
Proof. exact (struct_coded_ok _ _ ProjectStatus_struct). Qed.

#[export] Instance ProjectStatus_nonnull : NonNull ProjectStatus.
Proof. apply struct_nonnull. Qed.

Record APIKeySpec := mkAPIKeySpec {
  APIKeySpec_UserID : string;
  APIKeySpec_Name : string;
  APIKeySpec_TokenHash : string;
  APIKeySpec_Scopes : slice string;
  APIKeySpec_ExpiresAt : ptr time;
  APIKeySpec_Active : bool }.

Definition APIKeySpec_zero : APIKeySpec := mkAPIKeySpec "" "" "" None None false.

Definition APIKeySpec_set_UserID (a : string) (r : APIKeySpec) : APIKeySpec := let '(mkAPIKeySpec _ x1 x2 x3 x4 x5) := r in mkAPIKeySpec a x1 x2 x3 x4 x5.
Definition APIKeySpec_set_Name (a : string) (r : APIKeySpec) : APIKeySpec := let '(mkAPIKeySpec x0 _ x2 x3 x4 x5) := r in mkAPIKeySpec x0 a x2 x3 x4 x5.
Definition APIKeySpec_set_TokenHash (a : string) (r : APIKeySpec) : APIKeySpec := let '(mkAPIKeySpec x0 x1 _ x3 x4 x5) := r in mkAPIKeySpec x0 x1 a x3 x4 x5.
Definition APIKeySpec_set_Scopes (a : slice string) (r : APIKeySpec) : APIKeySpec := let '(mkAPIKeySpec x0 x1 x2 _ x4 x5) := r in mkAPIKeySpec x0 x1 x2 a x4 x5.
Definition APIKeySpec_set_ExpiresAt (a : ptr time) (r : APIKeySpec) : APIKeySpec := let '(mkAPIKeySpec x0 x1 x2 x3 _ x5) := r in mkAPIKeySpec x0 x1 x2 x3 a x5.
Definition APIKeySpec_set_Active (a : bool) (r : APIKeySpec) : APIKeySpec := let '(mkAPIKeySpec x0 x1 x2 x3 x4 _) := r in mkAPIKeySpec x0 x1 x2 x3 x4 a.

(** The members of [APIKeySpec]. *)
Definition APIKeySpec_fields : list (field APIKeySpec) :=
  [fld "user_id" false APIKeySpec_UserID APIKeySpec_set_UserID;
   fld "name" false APIKeySpec_Name APIKeySpec_set_Name;
   fld "scopes" true APIKeySpec_Scopes APIKeySpec_set_Scopes;
   fld "expires_at" true APIKeySpec_ExpiresAt APIKeySpec_set_ExpiresAt;
   fld "active" true APIKeySpec_Active APIKeySpec_set_Active].

#[export] Instance APIKeySpec_coded : Coded APIKeySpec := struct_coded APIKeySpec_fields APIKeySpec_zero.

Lemma APIKeySpec_struct : struct_ok APIKeySpec_fields APIKeySpec_zero.
Proof. struct_laws. Qed.

#[export] Instance APIKeySpec_ok : CodedOk APIKeySpec.
Proof. exact (struct_coded_ok _ _ APIKeySpec_struct). Qed.

#[export] Instance APIKeySpec_nonnull : NonNull APIKeySpec.
Proof. apply struct_nonnull. Qed.

Record APIKeyStatus := mkAPIKeyStatus {
  APIKeyStatus_Status : Status;
  APIKeyStatus_LastUsedAt : ptr time;
  APIKeyStatus_UseCount : Z }.

Definition APIKeyStatus_zero : APIKeyStatus := mkAPIKeyStatus Status_zero None 0.

Definition APIKeyStatus_set_Status (a : Status) (r : APIKeyStatus) : APIKeyStatus := let '(mkAPIKeyStatus _ x1 x2) := r in mkAPIKeyStatus a x1 x2.
Definition APIKeyStatus_set_LastUsedAt (a : ptr time) (r : APIKeyStatus) : APIKeyStatus := let '(mkAPIKeyStatus x0 _ x2) := r in mkAPIKeyStatus x0 a x2.
Definition APIKeyStatus_set_UseCount (a : Z) (r : APIKeyStatus) : APIKeyStatus := let '(mkAPIKeyStatus x0 x1 _) := r in mkAPIKeyStatus x0 x1 a.

(** The members of [APIKeyStatus]. *)
Definition APIKeyStatus_fields : list (field APIKeyStatus) :=
  promote (embed APIKeyStatus_Status APIKeyStatus_set_Status Status_fields)
  [fld "last_used_at" true APIKeyStatus_LastUsedAt APIKeyStatus_set_LastUsedAt;
   fld "use_count" true APIKeyStatus_UseCount APIKeyStatus_set_UseCount].

#[export] Instance APIKeyStatus_coded : Coded APIKeyStatus := struct_coded APIKeyStatus_fields APIKeyStatus_zero.

Lemma APIKeyStatus_struct : struct_ok APIKeyStatus_fields APIKeyStatus_zero.
Proof. struct_laws. Qed.

#[export] Instance APIKeyStatus_ok : CodedOk APIKeyStatus.
Proof. exact (struct_coded_ok _ _ APIKeyStatus_struct). Qed.

#[export] Instance APIKeyStatus_nonnull : NonNull APIKeyStatus.
Proof. apply struct_nonnull. Qed.

Record BuildSpec := mkBuildSpec {
  BuildSpec_ProjectID : string;
  BuildSpec_GitURL : string;
  BuildSpec_Branch : string;
  BuildSpec_Commit : string;
  BuildSpec_Dockerfile : string;
  BuildSpec_BuildArgs : gomap string;
  BuildSpec_Secrets : slice string;
  BuildSpec_Target : string;
  BuildSpec_Platform : string;
  BuildSpec_NoCache : bool;
  BuildSpec_PullBaseImage : bool }.

Definition BuildSpec_zero : BuildSpec := mkBuildSpec "" "" "" "" "" None None "" "" false false.

Definition BuildSpec_set_ProjectID (a : string) (r : BuildSpec) : BuildSpec := let '(mkBuildSpec _ x1 x2 x3 x4 x5 x6 x7 x8 x9 x10) := r in mkBuildSpec a x1 x2 x3 x4 x5 x6 x7 x8 x9 x10.
Definition BuildSpec_set_GitURL (a : string) (r : BuildSpec) : BuildSpec := let '(mkBuildSpec x0 _ x2 x3 x4 x5 x6 x7 x8 x9 x10) := r in mkBuildSpec x0 a x2 x3 x4 x5 x6 x7 x8 x9 x10.
Definition BuildSpec_set_Branch (a : string) (r : BuildSpec) : BuildSpec := let '(mkBuildSpec x0 x1 _ x3 x4 x5 x6 x7 x8 x9 x10) := r in mkBuildSpec x0 x1 a x3 x4 x5 x6 x7 x8 x9 x10.
Definition BuildSpec_set_Commit (a : string) (r : BuildSpec) : BuildSpec := let '(mkBuildSpec x0 x1 x2 _ x4 x5 x6 x7 x8 x9 x10) := r in mkBuildSpec x0 x1 x2 a x4 x5 x6 x7 x8 x9 x10.
Definition BuildSpec_set_Dockerfile (a : string) (r : BuildSpec) : BuildSpec := let '(mkBuildSpec x0 x1 x2 x3 _ x5 x6 x7 x8 x9 x10) := r in mkBuildSpec x0 x1 x2 x3 a x5 x6 x7 x8 x9 x10.
Definition BuildSpec_set_BuildArgs (a : gomap string) (r : BuildSpec) : BuildSpec := let '(mkBuildSpec x0 x1 x2 x3 x4 _ x6 x7 x8 x9 x10) := r in mkBuildSpec x0 x1 x2 x3 x4 a x6 x7 x8 x9 x10.
Definition BuildSpec_set_Secrets (a : slice string) (r : BuildSpec) : BuildSpec := let '(mkBuildSpec x0 x1 x2 x3 x4 x5 _ x7 x8 x9 x10) := r in mkBuildSpec x0 x1 x2 x3 x4 x5 a x7 x8 x9 x10.
Definition BuildSpec_set_Target (a : string) (r : BuildSpec) : BuildSpec := let '(mkBuildSpec x0 x1 x2 x3 x4 x5 x6 _ x8 x9 x10) := r in mkBuildSpec x0 x1 x2 x3 x4 x5 x6 a x8 x9 x10.
Definition BuildSpec_set_Platform (a : string) (r : BuildSpec) : BuildSpec := let '(mkBuildSpec x0 x1 x2 x3 x4 x5 x6 x7 _ x9 x10) := r in mkBuildSpec x0 x1 x2 x3 x4 x5 x6 x7 a x9 x10.
Definition BuildSpec_set_NoCache (a : bool) (r : BuildSpec) : BuildSpec := let '(mkBuildSpec x0 x1 x2 x3 x4 x5 x6 x7 x8 _ x10) := r in mkBuildSpec x0 x1 x2 x3 x4 x5 x6 x7 x8 a x10.
Definition BuildSpec_set_PullBaseImage (a : bool) (r : BuildSpec) : BuildSpec := let '(mkBuildSpec x0 x1 x2 x3 x4 x5 x6 x7 x8 x9 _) := r in mkBuildSpec x0 x1 x2 x3 x4 x5 x6 x7 x8 x9 a.

(** The members of [BuildSpec]. *)
Definition BuildSpec_fields : list (field BuildSpec) :=
  [fld "project_id" false BuildSpec_ProjectID BuildSpec_set_ProjectID;
   fld "git_url" false BuildSpec_GitURL BuildSpec_set_GitURL;
   fld "branch" false BuildSpec_Branch BuildSpec_set_Branch;
   fld "commit" true BuildSpec_Commit BuildSpec_set_Commit;
   fld "dockerfile" true BuildSpec_Dockerfile BuildSpec_set_Dockerfile;
   fld "build_args" true BuildSpec_BuildArgs BuildSpec_set_BuildArgs;
   fld "secrets" true BuildSpec_Secrets BuildSpec_set_Secrets;
   fld "target" true BuildSpec_Target BuildSpec_set_Target;
   fld "platform" true BuildSpec_Platform BuildSpec_set_Platform;
   fld "no_cache" true BuildSpec_NoCache BuildSpec_set_NoCache;
   fld "pull_base_image" true BuildSpec_PullBaseImage BuildSpec_set_PullBaseImage].

#[export] Instance BuildSpec_coded : Coded BuildSpec := struct_coded BuildSpec_fields BuildSpec_zero.

Lemma BuildSpec_struct : struct_ok BuildSpec_fields BuildSpec_zero.
Proof. struct_laws. Qed.

#[export] Instance BuildSpec_ok : CodedOk BuildSpec.
Proof. exact (struct_coded_ok _ _ BuildSpec_struct). Qed.

#[export] Instance BuildSpec_nonnull : NonNull BuildSpec.
Proof. apply struct_nonnull. Qed.

Record BuildStatus := mkBuildStatus {
  BuildStatus_Status : Status;
  BuildStatus_Phase : string;
  BuildStatus_Image : string;
  BuildStatus_ImageDigest : string;
  BuildStatus_Log : string;
  BuildStatus_StartedAt : ptr time;
  BuildStatus_CompletedAt : ptr time;
  BuildStatus_Error : string;
  BuildStatus_SBOM : string;
  BuildStatus_Provenance : string;
  BuildStatus_Vulnerabilities : string }.

Definition BuildStatus_zero : BuildStatus := mkBuildStatus Status_zero "" "" "" "" None None "" "" "" "".

Definition BuildStatus_set_Status (a : Status) (r : BuildStatus) : BuildStatus := let '(mkBuildStatus _ x1 x2 x3 x4 x5 x6 x7 x8 x9 x10) := r in mkBuildStatus a x1 x2 x3 x4 x5 x6 x7 x8 x9 x10.
Definition BuildStatus_set_Phase (a : string) (r : BuildStatus) : BuildStatus := let '(mkBuildStatus x0 _ x2 x3 x4 x5 x6 x7 x8 x9 x10) := r in mkBuildStatus x0 a x2 x3 x4 x5 x6 x7 x8 x9 x10.
Definition BuildStatus_set_Image (a : string) (r : BuildStatus) : BuildStatus := let '(mkBuildStatus x0 x1 _ x3 x4 x5 x6 x7 x8 x9 x10) := r in mkBuildStatus x0 x1 a x3 x4 x5 x6 x7 x8 x9 x10.
Definition BuildStatus_set_ImageDigest (a : string) (r : BuildStatus) : BuildStatus := let '(mkBuildStatus x0 x1 x2 _ x4 x5 x6 x7 x8 x9 x10) := r in mkBuildStatus x0 x1 x2 a x4 x5 x6 x7 x8 x9 x10.
Definition BuildStatus_set_Log (a : string) (r : BuildStatus) : BuildStatus := let '(mkBuildStatus x0 x1 x2 x3 _ x5 x6 x7 x8 x9 x10) := r in mkBuildStatus x0 x1 x2 x3 a x5 x6 x7 x8 x9 x10.
Definition BuildStatus_set_StartedAt (a : ptr time) (r : BuildStatus) : BuildStatus := let '(mkBuildStatus x0 x1 x2 x3 x4 _ x6 x7 x8 x9 x10) := r in mkBuildStatus x0 x1 x2 x3 x4 a x6 x7 x8 x9 x10.
Definition BuildStatus_set_CompletedAt (a : ptr time) (r : BuildStatus) : BuildStatus := let '(mkBuildStatus x0 x1 x2 x3 x4 x5 _ x7 x8 x9 x10) := r in mkBuildStatus x0 x1 x2 x3 x4 x5 a x7 x8 x9 x10.
Definition BuildStatus_set_Error (a : string) (r : BuildStatus) : BuildStatus := let '(mkBuildStatus x0 x1 x2 x3 x4 x5 x6 _ x8 x9 x10) := r in mkBuildStatus x0 x1 x2 x3 x4 x5 x6 a x8 x9 x10.
Definition BuildStatus_set_SBOM (a : string) (r : BuildStatus) : BuildStatus := let '(mkBuildStatus x0 x1 x2 x3 x4 x5 x6 x7 _ x9 x10) := r in mkBuildStatus x0 x1 x2 x3 x4 x5 x6 x7 a x9 x10.
Definition BuildStatus_set_Provenance (a : string) (r : BuildStatus) : BuildStatus := let '(mkBuildStatus x0 x1 x2 x3 x4 x5 x6 x7 x8 _ x10) := r in mkBuildStatus x0 x1 x2 x3 x4 x5 x6 x7 x8 a x10.
Definition BuildStatus_set_Vulnerabilities (a : string) (r : BuildStatus) : BuildStatus := let '(mkBuildStatus x0 x1 x2 x3 x4 x5 x6 x7 x8 x9 _) := r in mkBuildStatus x0 x1 x2 x3 x4 x5 x6 x7 x8 x9 a.

(** The members of [BuildStatus]. *)
Definition BuildStatus_fields : list (field BuildStatus) :=
  promote (embed BuildStatus_Status BuildStatus_set_Status Status_fields)
  [fld "phase" false BuildStatus_Phase BuildStatus_set_Phase;
   fld "image" true BuildStatus_Image BuildStatus_set_Image;
   fld "image_digest" true BuildStatus_ImageDigest BuildStatus_set_ImageDigest;
   fld "log" true BuildStatus_Log BuildStatus_set_Log;
   fld "started_at" true BuildStatus_StartedAt BuildStatus_set_StartedAt;
   fld "completed_at" true BuildStatus_CompletedAt BuildStatus_set_CompletedAt;
   fld "error" true BuildStatus_Error BuildStatus_set_Error;
   fld "sbom" true BuildStatus_SBOM BuildStatus_set_SBOM;
   fld "provenance" true BuildStatus_Provenance BuildStatus_set_Provenance;
   fld "vulnerabilities" true BuildStatus_Vulnerabilities BuildStatus_set_Vulnerabilities].

#[export] Instance BuildStatus_coded : Coded BuildStatus := struct_coded BuildStatus_fields BuildStatus_zero.

Lemma BuildStatus_struct : struct_ok BuildStatus_fields BuildStatus_zero.
Proof. struct_laws. Qed.

#[export] Instance BuildStatus_ok : CodedOk BuildStatus.
Proof. exact (struct_coded_ok _ _ BuildStatus_struct). Qed.

#[export] Instance BuildStatus_nonnull : NonNull BuildStatus.
Proof. apply struct_nonnull. Qed.

Record ACMEConfig := mkACMEConfig {
  ACMEConfig_Email : string;
  ACMEConfig_Server : string;
  ACMEConfig_Challenge : string;
  ACMEConfig_DNSProvider : string }.

Definition ACMEConfig_zero : ACMEConfig := mkACMEConfig "" "" "" "".

Definition ACMEConfig_set_Email (a : string) (r : ACMEConfig) : ACMEConfig := let '(mkACMEConfig _ x1 x2 x3) := r in mkACMEConfig a x1 x2 x3.
Definition ACMEConfig_set_Server (a : string) (r : ACMEConfig) : ACMEConfig := let '(mkACMEConfig x0 _ x2 x3) := r in mkACMEConfig x0 a x2 x3.
Definition ACMEConfig_set_Challenge (a : string) (r : ACMEConfig) : ACMEConfig := let '(mkACMEConfig x0 x1 _ x3) := r in mkACMEConfig x0 x1 a x3.
Definition ACMEConfig_set_DNSProvider (a : string) (r : ACMEConfig) : ACMEConfig := let '(mkACMEConfig x0 x1 x2 _) := r in mkACMEConfig x0 x1 x2 a.

(** The members of [ACMEConfig]. *)
Definition ACMEConfig_fields : list (field ACMEConfig) :=
  [fld "email" false ACMEConfig_Email ACMEConfig_set_Email;
   fld "server" true ACMEConfig_Server ACMEConfig_set_Server;
   fld "challenge" true ACMEConfig_Challenge ACMEConfig_set_Challenge;
   fld "dns_provider" true ACMEConfig_DNSProvider ACMEConfig_set_DNSProvider].

#[export] Instance ACMEConfig_coded : Coded ACMEConfig := struct_coded ACMEConfig_fields ACMEConfig_zero.

Lemma ACMEConfig_struct : struct_ok ACMEConfig_fields ACMEConfig_zero.
Proof. struct_laws. Qed.

#[export] Instance ACMEConfig_ok : CodedOk ACMEConfig.
Proof. exact (struct_coded_ok _ _ ACMEConfig_struct). Qed.

#[export] Instance ACMEConfig_nonnull : NonNull ACMEConfig.
Proof. apply struct_nonnull. Qed.

Record CertificateSpec := mkCertificateSpec {
  CertificateSpec_Domain : string;
  CertificateSpec_DNSNames : slice string;
  CertificateSpec_Issuer : string;
  CertificateSpec_ACME : ptr ACMEConfig;
  CertificateSpec_PrivateKey : string;
  CertificateSpec_Certificate : string;
  CertificateSpec_AutoRenew : bool;
  CertificateSpec_RenewBeforeDays : Z }.

Definition CertificateSpec_zero : CertificateSpec := mkCertificateSpec "" None "" None "" "" false 0.

Definition CertificateSpec_set_Domain (a : string) (r : CertificateSpec) : CertificateSpec := let '(mkCertificateSpec _ x1 x2 x3 x4 x5 x6 x7) := r in mkCertificateSpec a x1 x2 x3 x4 x5 x6 x7.
Definition CertificateSpec_set_DNSNames (a : slice string) (r : CertificateSpec) : CertificateSpec := let '(mkCertificateSpec x0 _ x2 x3 x4 x5 x6 x7) := r in mkCertificateSpec x0 a x2 x3 x4 x5 x6 x7.
Definition CertificateSpec_set_Issuer (a : string) (r : CertificateSpec) : CertificateSpec := let '(mkCertificateSpec x0 x1 _ x3 x4 x5 x6 x7) := r in mkCertificateSpec x0 x1 a x3 x4 x5 x6 x7.
Definition CertificateSpec_set_ACME (a : ptr ACMEConfig) (r : CertificateSpec) : CertificateSpec := let '(mkCertificateSpec x0 x1 x2 _ x4 x5 x6 x7) := r in mkCertificateSpec x0 x1 x2 a x4 x5 x6 x7.
Definition CertificateSpec_set_PrivateKey (a : string) (r : CertificateSpec) : CertificateSpec := let '(mkCertificateSpec x0 x1 x2 x3 _ x5 x6 x7) := r in mkCertificateSpec x0 x1 x2 x3 a x5 x6 x7.
Definition CertificateSpec_set_Certificate (a : string) (r : CertificateSpec) : CertificateSpec := let '(mkCertificateSpec x0 x1 x2 x3 x4 _ x6 x7) := r in mkCertificateSpec x0 x1 x2 x3 x4 a x6 x7.
Definition CertificateSpec_set_AutoRenew (a : bool) (r : CertificateSpec) : CertificateSpec := let '(mkCertificateSpec x0 x1 x2 x3 x4 x5 _ x7) := r in mkCertificateSpec x0 x1 x2 x3 x4 x5 a x7.
Definition CertificateSpec_set_RenewBeforeDays (a : Z) (r : CertificateSpec) : CertificateSpec := let '(mkCertificateSpec x0 x1 x2 x3 x4 x5 x6 _) := r in mkCertificateSpec x0 x1 x2 x3 x4 x5 x6 a.

(** The members of [CertificateSpec]. *)
Definition CertificateSpec_fields : list (field CertificateSpec) :=
  [fld "domain" false CertificateSpec_Domain CertificateSpec_set_Domain;
   fld "dns_names" true CertificateSpec_DNSNames CertificateSpec_set_DNSNames;
   fld "issuer" false CertificateSpec_Issuer CertificateSpec_set_Issuer;
   fld "acme" true CertificateSpec_ACME CertificateSpec_set_ACME;
   fld "private_key" true CertificateSpec_PrivateKey CertificateSpec_set_PrivateKey;
   fld "certificate" true CertificateSpec_Certificate CertificateSpec_set_Certificate;
   fld "auto_renew" true CertificateSpec_AutoRenew CertificateSpec_set_AutoRenew;
   fld "renew_before_days" true CertificateSpec_RenewBeforeDays CertificateSpec_set_RenewBeforeDays].

#[export] Instance CertificateSpec_coded : Coded CertificateSpec := struct_coded CertificateSpec_fields CertificateSpec_zero.

Lemma CertificateSpec_struct : struct_ok CertificateSpec_fields CertificateSpec_zero.
Proof. struct_laws. Qed.

#[export] Instance CertificateSpec_ok : CodedOk CertificateSpec.
Proof. exact (struct_coded_ok _ _ CertificateSpec_struct). Qed.

#[export] Instance CertificateSpec_nonnull : NonNull CertificateSpec.
Proof. apply struct_nonnull. Qed.

Record CertificateStatus := mkCertificateStatus {
  CertificateStatus_Status : Status;
  CertificateStatus_Phase : string;
  CertificateStatus_ExpiresAt : ptr time;
  CertificateStatus_IssuedAt : ptr time;
  CertificateStatus_RenewalStatus : string;
  CertificateStatus_LastRenewalAt : ptr time;
  CertificateStatus_PrivateKeyRef : string;
  CertificateStatus_CertificateRef : string }.

Definition CertificateStatus_zero : CertificateStatus := mkCertificateStatus Status_zero "" None None "" None "" "".

Definition CertificateStatus_set_Status (a : Status) (r : CertificateStatus) : CertificateStatus := let '(mkCertificateStatus _ x1 x2 x3 x4 x5 x6 x7) := r in mkCertificateStatus a x1 x2 x3 x4 x5 x6 x7.
Definition CertificateStatus_set_Phase (a : string) (r : CertificateStatus) : CertificateStatus := let '(mkCertificateStatus x0 _ x2 x3 x4 x5 x6 x7) := r in mkCertificateStatus x0 a x2 x3 x4 x5 x6 x7.
Definition CertificateStatus_set_ExpiresAt (a : ptr time) (r : CertificateStatus) : CertificateStatus := let '(mkCertificateStatus x0 x1 _ x3 x4 x5 x6 x7) := r in mkCertificateStatus x0 x1 a x3 x4 x5 x6 x7.
Definition CertificateStatus_set_IssuedAt (a : ptr time) (r : CertificateStatus) : CertificateStatus := let '(mkCertificateStatus x0 x1 x2 _ x4 x5 x6 x7) := r in mkCertificateStatus x0 x1 x2 a x4 x5 x6 x7.
Definition CertificateStatus_set_RenewalStatus (a : string) (r : CertificateStatus) : CertificateStatus := let '(mkCertificateStatus x0 x1 x2 x3 _ x5 x6 x7) := r in mkCertificateStatus x0 x1 x2 x3 a x5 x6 x7.
Definition CertificateStatus_set_LastRenewalAt (a : ptr time) (r : CertificateStatus) : CertificateStatus := let '(mkCertificateStatus x0 x1 x2 x3 x4 _ x6 x7) := r in mkCertificateStatus x0 x1 x2 x3 x4 a x6 x7.
Definition CertificateStatus_set_PrivateKeyRef (a : string) (r : CertificateStatus) : CertificateStatus := let '(mkCertificateStatus x0 x1 x2 x3 x4 x5 _ x7) := r in mkCertificateStatus x0 x1 x2 x3 x4 x5 a x7.
Definition CertificateStatus_set_CertificateRef (a : string) (r : CertificateStatus) : CertificateStatus := let '(mkCertificateStatus x0 x1 x2 x3 x4 x5 x6 _) := r in mkCertificateStatus x0 x1 x2 x3 x4 x5 x6 a.

(** The members of [CertificateStatus]. *)
Definition CertificateStatus_fields : list (field CertificateStatus) :=
  promote (embed CertificateStatus_Status CertificateStatus_set_Status Status_fields)
  [fld "phase" false CertificateStatus_Phase CertificateStatus_set_Phase;
   fld "expires_at" true CertificateStatus_ExpiresAt CertificateStatus_set_ExpiresAt;
   fld "issued_at" true CertificateStatus_IssuedAt CertificateStatus_set_IssuedAt;
   fld "renewal_status" true CertificateStatus_RenewalStatus CertificateStatus_set_RenewalStatus;
   fld "last_renewal_at" true CertificateStatus_LastRenewalAt CertificateStatus_set_LastRenewalAt;
   fld "private_key_ref" true CertificateStatus_PrivateKeyRef CertificateStatus_set_PrivateKeyRef;
   fld "certificate_ref" true CertificateStatus_CertificateRef CertificateStatus_set_CertificateRef].

#[export] Instance CertificateStatus_coded : Coded CertificateStatus := struct_coded CertificateStatus_fields CertificateStatus_zero.

Lemma CertificateStatus_struct : struct_ok CertificateStatus_fields CertificateStatus_zero.
Proof. struct_laws. Qed.

#[export] Instance CertificateStatus_ok : CodedOk CertificateStatus.
Proof. exact (struct_coded_ok _ _ CertificateStatus_struct). Qed.

#[export] Instance CertificateStatus_nonnull : NonNull CertificateStatus.
Proof. apply struct_nonnull. Qed.

Record DeploymentCheck := mkDeploymentCheck {
  DeploymentCheck_Name : string;
  DeploymentCheck_Status : string;
  DeploymentCheck_Detail : string;
  DeploymentCheck_URL : string }.

Definition DeploymentCheck_zero : DeploymentCheck := mkDeploymentCheck "" "" "" "".

Definition DeploymentCheck_set_Name (a : string) (r : DeploymentCheck) : DeploymentCheck := let '(mkDeploymentCheck _ x1 x2 x3) := r in mkDeploymentCheck a x1 x2 x3.
Definition DeploymentCheck_set_Status (a : string) (r : DeploymentCheck) : DeploymentCheck := let '(mkDeploymentCheck x0 _ x2 x3) := r in mkDeploymentCheck x0 a x2 x3.
Definition DeploymentCheck_set_Detail (a : string) (r : DeploymentCheck) : DeploymentCheck := let '(mkDeploymentCheck x0 x1 _ x3) := r in mkDeploymentCheck x0 x1 a x3.
Definition DeploymentCheck_set_URL (a : string) (r : DeploymentCheck) : DeploymentCheck := let '(mkDeploymentCheck x0 x1 x2 _) := r in mkDeploymentCheck x0 x1 x2 a.

(** The members of [DeploymentCheck]. *)
Definition DeploymentCheck_fields : list (field DeploymentCheck) :=
  [fld "name" false DeploymentCheck_Name DeploymentCheck_set_Name;
   fld "status" false DeploymentCheck_Status DeploymentCheck_set_Status;
   fld "detail" true DeploymentCheck_Detail DeploymentCheck_set_Detail;
   fld "url" true DeploymentCheck_URL DeploymentCheck_set_URL].

#[export] Instance DeploymentCheck_coded : Coded DeploymentCheck := struct_coded DeploymentCheck_fields DeploymentCheck_zero.

Lemma DeploymentCheck_struct : struct_ok DeploymentCheck_fields DeploymentCheck_zero.
Proof. struct_laws. Qed.

#[export] Instance DeploymentCheck_ok : CodedOk DeploymentCheck.
Proof. exact (struct_coded_ok _ _ DeploymentCheck_struct). Qed.

#[export] Instance DeploymentCheck_nonnull : NonNull DeploymentCheck.
Proof. apply struct_nonnull. Qed.

Record DeploymentSpec := mkDeploymentSpec {
  DeploymentSpec_ProjectID : string;
  DeploymentSpec_Revision : Z;
  DeploymentSpec_VersionLabel : string;
  DeploymentSpec_GuestBase : string;
  DeploymentSpec_Environment : string;
  DeploymentSpec_IsProduction : bool;
  DeploymentSpec_Replicas : Z;
  DeploymentSpec_RouteWeight : Z;
  DeploymentSpec_GitURL : string;
  DeploymentSpec_GitCommit : string;
  DeploymentSpec_ImageDigest : string;
  DeploymentSpec_Image : string;
  DeploymentSpec_RollbackTo : string;
  DeploymentSpec_Checks : slice DeploymentCheck;
  DeploymentSpec_RolloutPercent : Z;
  DeploymentSpec_Strategy : string;
  DeploymentSpec_MaxSurge : Z;
  DeploymentSpec_MaxUnavailable : Z }.

Definition DeploymentSpec_zero : DeploymentSpec := mkDeploymentSpec "" 0 "" "" "" false 0 0 "" "" "" "" "" None 0 "" 0 0.

Definition DeploymentSpec_set_ProjectID (a : string) (r : DeploymentSpec) : DeploymentSpec := let '(mkDeploymentSpec _ x1 x2 x3 x4 x5 x6 x7 x8 x9 x10 x11 x12 x13 x14 x15 x16 x17) := r in mkDeploymentSpec a x1 x2 x3 x4 x5 x6 x7 x8 x9 x10 x11 x12 x13 x14 x15 x16 x17.
Definition DeploymentSpec_set_Revision (a : Z) (r : DeploymentSpec) : DeploymentSpec := let '(mkDeploymentSpec x0 _ x2 x3 x4 x5 x6 x7 x8 x9 x10 x11 x12 x13 x14 x15 x16 x17) := r in mkDeploymentSpec x0 a x2 x3 x4 x5 x6 x7 x8 x9 x10 x11 x12 x13 x14 x15 x16 x17.
Definition DeploymentSpec_set_VersionLabel (a : string) (r : DeploymentSpec) : DeploymentSpec := let '(mkDeploymentSpec x0 x1 _ x3 x4 x5 x6 x7 x8 x9 x10 x11 x12 x13 x14 x15 x16 x17) := r in mkDeploymentSpec x0 x1 a x3 x4 x5 x6 x7 x8 x9 x10 x11 x12 x13 x14 x15 x16 x17.
Definition DeploymentSpec_set_GuestBase (a : string) (r : DeploymentSpec) : DeploymentSpec := let '(mkDeploymentSpec x0 x1 x2 _ x4 x5 x6 x7 x8 x9 x10 x11 x12 x13 x14 x15 x16 x17) := r in mkDeploymentSpec x0 x1 x2 a x4 x5 x6 x7 x8 x9 x10 x11 x12 x13 x14 x15 x16 x17.
Definition DeploymentSpec_set_Environment (a : string) (r : DeploymentSpec) : DeploymentSpec := let '(mkDeploymentSpec x0 x1 x2 x3 _ x5 x6 x7 x8 x9 x10 x11 x12 x13 x14 x15 x16 x17) := r in mkDeploymentSpec x0 x1 x2 x3 a x5 x6 x7 x8 x9 x10 x11 x12 x13 x14 x15 x16 x17.
Definition DeploymentSpec_set_IsProduction (a : bool) (r : DeploymentSpec) : DeploymentSpec := let '(mkDeploymentSpec x0 x1 x2 x3 x4 _ x6 x7 x8 x9 x10 x11 x12 x13 x14 x15 x16 x17) := r in mkDeploymentSpec x0 x1 x2 x3 x4 a x6 x7 x8 x9 x10 x11 x12 x13 x14 x15 x16 x17.
Definition DeploymentSpec_set_Replicas (a : Z) (r : DeploymentSpec) : DeploymentSpec := let '(mkDeploymentSpec x0 x1 x2 x3 x4 x5 _ x7 x8 x9 x10 x11 x12 x13 x14 x15 x16 x17) := r in mkDeploymentSpec x0 x1 x2 x3 x4 x5 a x7 x8 x9 x10 x11 x12 x13 x14 x15 x16 x17.
Definition DeploymentSpec_set_RouteWeight (a : Z) (r : DeploymentSpec) : DeploymentSpec := let '(mkDeploymentSpec x0 x1 x2 x3 x4 x5 x6 _ x8 x9 x10 x11 x12 x13 x14 x15 x16 x17) := r in mkDeploymentSpec x0 x1 x2 x3 x4 x5 x6 a x8 x9 x10 x11 x12 x13 x14 x15 x16 x17.
Definition DeploymentSpec_set_GitURL (a : string) (r : DeploymentSpec) : DeploymentSpec := let '(mkDeploymentSpec x0 x1 x2 x3 x4 x5 x6 x7 _ x9 x10 x11 x12 x13 x14 x15 x16 x17) := r in mkDeploymentSpec x0 x1 x2 x3 x4 x5 x6 x7 a x9 x10 x11 x12 x13 x14 x15 x16 x17.
Definition DeploymentSpec_set_GitCommit (a : string) (r : DeploymentSpec) : DeploymentSpec := let '(mkDeploymentSpec x0 x1 x2 x3 x4 x5 x6 x7 x8 _ x10 x11 x12 x13 x14 x15 x16 x17) := r in mkDeploymentSpec x0 x1 x2 x3 x4 x5 x6 x7 x8 a x10 x11 x12 x13 x14 x15 x16 x17.
Definition DeploymentSpec_set_ImageDigest (a : string) (r : DeploymentSpec) : DeploymentSpec := let '(mkDeploymentSpec x0 x1 x2 x3 x4 x5 x6 x7 x8 x9 _ x11 x12 x13 x14 x15 x16 x17) := r in mkDeploymentSpec x0 x1 x2 x3 x4 x5 x6 x7 x8 x9 a x11 x12 x13 x14 x15 x16 x17.
Definition DeploymentSpec_set_Image (a : string) (r : DeploymentSpec) : DeploymentSpec := let '(mkDeploymentSpec x0 x1 x2 x3 x4 x5 x6 x7 x8 x9 x10 _ x12 x13 x14 x15 x16 x17) := r in mkDeploymentSpec x0 x1 x2 x3 x4 x5 x6 x7 x8 x9 x10 a x12 x13 x14 x15 x16 x17.
Definition DeploymentSpec_set_RollbackTo (a : string) (r : DeploymentSpec) : DeploymentSpec := let '(mkDeploymentSpec x0 x1 x2 x3 x4 x5 x6 x7 x8 x9 x10 x11 _ x13 x14 x15 x16 x17) := r in mkDeploymentSpec x0 x1 x2 x3 x4 x5 x6 x7 x8 x9 x10 x11 a x13 x14 x15 x16 x17.
Definition DeploymentSpec_set_Checks (a : slice DeploymentCheck) (r : DeploymentSpec) : DeploymentSpec := let '(mkDeploymentSpec x0 x1 x2 x3 x4 x5 x6 x7 x8 x9 x10 x11 x12 _ x14 x15 x16 x17) := r in mkDeploymentSpec x0 x1 x2 x3 x4 x5 x6 x7 x8 x9 x10 x11 x12 a x14 x15 x16 x17.
Definition DeploymentSpec_set_RolloutPercent (a : Z) (r : DeploymentSpec) : DeploymentSpec := let '(mkDeploymentSpec x0 x1 x2 x3 x4 x5 x6 x7 x8 x9 x10 x11 x12 x13 _ x15 x16 x17) := r in mkDeploymentSpec x0 x1 x2 x3 x4 x5 x6 x7 x8 x9 x10 x11 x12 x13 a x15 x16 x17.
Definition DeploymentSpec_set_Strategy (a : string) (r : DeploymentSpec) : DeploymentSpec := let '(mkDeploymentSpec x0 x1 x2 x3 x4 x5 x6 x7 x8 x9 x10 x11 x12 x13 x14 _ x16 x17) := r in mkDeploymentSpec x0 x1 x2 x3 x4 x5 x6 x7 x8 x9 x10 x11 x12 x13 x14 a x16 x17.
Definition DeploymentSpec_set_MaxSurge (a : Z) (r : DeploymentSpec) : DeploymentSpec := let '(mkDeploymentSpec x0 x1 x2 x3 x4 x5 x6 x7 x8 x9 x10 x11 x12 x13 x14 x15 _ x17) := r in mkDeploymentSpec x0 x1 x2 x3 x4 x5 x6 x7 x8 x9 x10 x11 x12 x13 x14 x15 a x17.
Definition DeploymentSpec_set_MaxUnavailable (a : Z) (r : DeploymentSpec) : DeploymentSpec := let '(mkDeploymentSpec x0 x1 x2 x3 x4 x5 x6 x7 x8 x9 x10 x11 x12 x13 x14 x15 x16 _) := r in mkDeploymentSpec x0 x1 x2 x3 x4 x5 x6 x7 x8 x9 x10 x11 x12 x13 x14 x15 x16 a.

(** The members of [DeploymentSpec]. *)
Definition DeploymentSpec_fields : list (field DeploymentSpec) :=
  [fld "project_id" false DeploymentSpec_ProjectID DeploymentSpec_set_ProjectID;
   fld "revision" false DeploymentSpec_Revision DeploymentSpec_set_Revision;
   fld "version_label" true DeploymentSpec_VersionLabel DeploymentSpec_set_VersionLabel;
   fld "guest_base" true DeploymentSpec_GuestBase DeploymentSpec_set_GuestBase;
   fld "environment" true DeploymentSpec_Environment DeploymentSpec_set_Environment;
   fld "is_production" false DeploymentSpec_IsProduction DeploymentSpec_set_IsProduction;
   fld "replicas" false DeploymentSpec_Replicas DeploymentSpec_set_Replicas;
   fld "route_weight" false DeploymentSpec_RouteWeight DeploymentSpec_set_RouteWeight;
   fld "git_url" true DeploymentSpec_GitURL DeploymentSpec_set_GitURL;
   fld "git_commit" true DeploymentSpec_GitCommit DeploymentSpec_set_GitCommit;
   fld "image_digest" true DeploymentSpec_ImageDigest DeploymentSpec_set_ImageDigest;
   fld "image" true DeploymentSpec_Image DeploymentSpec_set_Image;
   fld "rollback_to" true DeploymentSpec_RollbackTo DeploymentSpec_set_RollbackTo;
   fld "checks" true DeploymentSpec_Checks DeploymentSpec_set_Checks;
   fld "rollout_percent" true DeploymentSpec_RolloutPercent DeploymentSpec_set_RolloutPercent;
   fld "strategy" true DeploymentSpec_Strategy DeploymentSpec_set_Strategy;
   fld "max_surge" true DeploymentSpec_MaxSurge DeploymentSpec_set_MaxSurge;
   fld "max_unavailable" true DeploymentSpec_MaxUnavailable DeploymentSpec_set_MaxUnavailable].

#[export] Instance DeploymentSpec_coded : Coded DeploymentSpec := struct_coded DeploymentSpec_fields DeploymentSpec_zero.

Lemma DeploymentSpec_struct : struct_ok DeploymentSpec_fields DeploymentSpec_zero.
Proof. struct_laws. Qed.

#[export] Instance DeploymentSpec_ok : CodedOk DeploymentSpec.
Proof. exact (struct_coded_ok _ _ DeploymentSpec_struct). Qed.

#[export] Instance DeploymentSpec_nonnull : NonNull DeploymentSpec.
Proof. apply struct_nonnull. Qed.

Record DeploymentStatus := mkDeploymentStatus {
  DeploymentStatus_Status : Status;
  DeploymentStatus_BuildStatus : string;
  DeploymentStatus_LastTransitionTime : time;
  DeploymentStatus_VMIDs : slice string;
  DeploymentStatus_CurrentReplicas : Z;
  DeploymentStatus_UpdatedReplicas : Z;
  DeploymentStatus_ReadyReplicas : Z;
  DeploymentStatus_AvailableReplicas : Z;
  DeploymentStatus_UnavailableReplicas : Z;
  DeploymentStatus_RouteWeight : Z;
  DeploymentStatus_RollbackTo : string;
  DeploymentStatus_ObservedGeneration : Z }.

Definition DeploymentStatus_zero : DeploymentStatus := mkDeploymentStatus Status_zero "" 0 None 0 0 0 0 0 0 "" 0.

Definition DeploymentStatus_set_Status (a : Status) (r : DeploymentStatus) : DeploymentStatus := let '(mkDeploymentStatus _ x1 x2 x3 x4 x5 x6 x7 x8 x9 x10 x11) := r in mkDeploymentStatus a x1 x2 x3 x4 x5 x6 x7 x8 x9 x10 x11.
Definition DeploymentStatus_set_BuildStatus (a : string) (r : DeploymentStatus) : DeploymentStatus := let '(mkDeploymentStatus x0 _ x2 x3 x4 x5 x6 x7 x8 x9 x10 x11) := r in mkDeploymentStatus x0 a x2 x3 x4 x5 x6 x7 x8 x9 x10 x11.
Definition DeploymentStatus_set_LastTransitionTime (a : time) (r : DeploymentStatus) : DeploymentStatus := let '(mkDeploymentStatus x0 x1 _ x3 x4 x5 x6 x7 x8 x9 x10 x11) := r in mkDeploymentStatus x0 x1 a x3 x4 x5 x6 x7 x8 x9 x10 x11.
Definition DeploymentStatus_set_VMIDs (a : slice string) (r : DeploymentStatus) : DeploymentStatus := let '(mkDeploymentStatus x0 x1 x2 _ x4 x5 x6 x7 x8 x9 x10 x11) := r in mkDeploymentStatus x0 x1 x2 a x4 x5 x6 x7 x8 x9 x10 x11.
Definition DeploymentStatus_set_CurrentReplicas (a : Z) (r : DeploymentStatus) : DeploymentStatus := let '(mkDeploymentStatus x0 x1 x2 x3 _ x5 x6 x7 x8 x9 x10 x11) := r in mkDeploymentStatus x0 x1 x2 x3 a x5 x6 x7 x8 x9 x10 x11.
Definition DeploymentStatus_set_UpdatedReplicas (a : Z) (r : DeploymentStatus) : DeploymentStatus := let '(mkDeploymentStatus x0 x1 x2 x3 x4 _ x6 x7 x8 x9 x10 x11) := r in mkDeploymentStatus x0 x1 x2 x3 x4 a x6 x7 x8 x9 x10 x11.
Definition DeploymentStatus_set_ReadyReplicas (a : Z) (r : DeploymentStatus) : DeploymentStatus := let '(mkDeploymentStatus x0 x1 x2 x3 x4 x5 _ x7 x8 x9 x10 x11) := r in mkDeploymentStatus x0 x1 x2 x3 x4 x5 a x7 x8 x9 x10 x11.
Definition DeploymentStatus_set_AvailableReplicas (a : Z) (r : DeploymentStatus) : DeploymentStatus := let '(mkDeploymentStatus x0 x1 x2 x3 x4 x5 x6 _ x8 x9 x10 x11) := r in mkDeploymentStatus x0 x1 x2 x3 x4 x5 x6 a x8 x9 x10 x11.
Definition DeploymentStatus_set_UnavailableReplicas (a : Z) (r : DeploymentStatus) : DeploymentStatus := let '(mkDeploymentStatus x0 x1 x2 x3 x4 x5 x6 x7 _ x9 x10 x11) := r in mkDeploymentStatus x0 x1 x2 x3 x4 x5 x6 x7 a x9 x10 x11.
Definition DeploymentStatus_set_RouteWeight (a : Z) (r : DeploymentStatus) : DeploymentStatus := let '(mkDeploymentStatus x0 x1 x2 x3 x4 x5 x6 x7 x8 _ x10 x11) := r in mkDeploymentStatus x0 x1 x2 x3 x4 x5 x6 x7 x8 a x10 x11.
Definition DeploymentStatus_set_RollbackTo (a : string) (r : DeploymentStatus) : DeploymentStatus := let '(mkDeploymentStatus x0 x1 x2 x3 x4 x5 x6 x7 x8 x9 _ x11) := r in mkDeploymentStatus x0 x1 x2 x3 x4 x5 x6 x7 x8 x9 a x11.
Definition DeploymentStatus_set_ObservedGeneration (a : Z) (r : DeploymentStatus) : DeploymentStatus := let '(mkDeploymentStatus x0 x1 x2 x3 x4 x5 x6 x7 x8 x9 x10 _) := r in mkDeploymentStatus x0 x1 x2 x3 x4 x5 x6 x7 x8 x9 x10 a.

(** The members of [DeploymentStatus]. *)
Definition DeploymentStatus_fields : list (field DeploymentStatus) :=
  promote (embed DeploymentStatus_Status DeploymentStatus_set_Status Status_fields)
  [fld "build_status" false DeploymentStatus_BuildStatus DeploymentStatus_set_BuildStatus;
   fld "last_transition_time" true DeploymentStatus_LastTransitionTime DeploymentStatus_set_LastTransitionTime;
   fld "vm_ids" true DeploymentStatus_VMIDs DeploymentStatus_set_VMIDs;
   fld "current_replicas" false DeploymentStatus_CurrentReplicas DeploymentStatus_set_CurrentReplicas;
   fld "updated_replicas" false DeploymentStatus_UpdatedReplicas DeploymentStatus_set_UpdatedReplicas;
   fld "ready_replicas" false DeploymentStatus_ReadyReplicas DeploymentStatus_set_ReadyReplicas;
   fld "available_replicas" false DeploymentStatus_AvailableReplicas DeploymentStatus_set_AvailableReplicas;
   fld "unavailable_replicas" false DeploymentStatus_UnavailableReplicas DeploymentStatus_set_UnavailableReplicas;
   fld "route_weight" true DeploymentStatus_RouteWeight DeploymentStatus_set_RouteWeight;
   fld "rollback_to" true DeploymentStatus_RollbackTo DeploymentStatus_set_RollbackTo;
   fld "observed_generation" false DeploymentStatus_ObservedGeneration DeploymentStatus_set_ObservedGeneration].

#[export] Instance DeploymentStatus_coded : Coded DeploymentStatus := struct_coded DeploymentStatus_fields DeploymentStatus_zero.

Lemma DeploymentStatus_struct : struct_ok DeploymentStatus_fields DeploymentStatus_zero.
Proof. struct_laws. Qed.

#[export] Instance DeploymentStatus_ok : CodedOk DeploymentStatus.
Proof. exact (struct_coded_ok _ _ DeploymentStatus_struct). Qed.

#[export] Instance DeploymentStatus_nonnull : NonNull DeploymentStatus.
Proof. apply struct_nonnull. Qed.

Record PathRoute := mkPathRoute {
  PathRoute_Path : string;
  PathRoute_ServiceName : string;
  PathRoute_Port : Z }.

Definition PathRoute_zero : PathRoute := mkPathRoute "" "" 0.

Definition PathRoute_set_Path (a : string) (r : PathRoute) : PathRoute := let '(mkPathRoute _ x1 x2) := r in mkPathRoute a x1 x2.
Definition PathRoute_set_ServiceName (a : string) (r : PathRoute) : PathRoute := let '(mkPathRoute x0 _ x2) := r in mkPathRoute x0 a x2.
Definition PathRoute_set_Port (a : Z) (r : PathRoute) : PathRoute := let '(mkPathRoute x0 x1 _) := r in mkPathRoute x0 x1 a.

(** The members of [PathRoute]. *)
Definition PathRoute_fields : list (field PathRoute) :=
  [fld "path" false PathRoute_Path PathRoute_set_Path;
   fld "service_name" false PathRoute_ServiceName PathRoute_set_ServiceName;
   fld "port" false PathRoute_Port PathRoute_set_Port].

#[export] Instance PathRoute_coded : Coded PathRoute := struct_coded PathRoute_fields PathRoute_zero.

Lemma PathRoute_struct : struct_ok PathRoute_fields PathRoute_zero.
Proof. struct_laws. Qed.

#[export] Instance PathRoute_ok : CodedOk PathRoute.
Proof. exact (struct_coded_ok _ _ PathRoute_struct). Qed.

#[export] Instance PathRoute_nonnull : NonNull PathRoute.
Proof. apply struct_nonnull. Qed.

Record DomainSpec := mkDomainSpec {
  DomainSpec_ProjectID : string;
  DomainSpec_Domain : string;
  DomainSpec_Type : string;
  DomainSpec_DNSProvider : string;
  DomainSpec_DNSZone : string;
  DomainSpec_CertificateID : string;
  DomainSpec_Wildcard : bool;
  DomainSpec_AutoTLS : bool;
  DomainSpec_TLSEmail : string;
  DomainSpec_PathRoutes : slice PathRoute }.

Definition DomainSpec_zero : DomainSpec := mkDomainSpec "" "" "" "" "" "" false false "" None.

Definition DomainSpec_set_ProjectID (a : string) (r : DomainSpec) : DomainSpec := let '(mkDomainSpec _ x1 x2 x3 x4 x5 x6 x7 x8 x9) := r in mkDomainSpec a x1 x2 x3 x4 x5 x6 x7 x8 x9.
Definition DomainSpec_set_Domain (a : string) (r : DomainSpec) : DomainSpec := let '(mkDomainSpec x0 _ x2 x3 x4 x5 x6 x7 x8 x9) := r in mkDomainSpec x0 a x2 x3 x4 x5 x6 x7 x8 x9.
Definition DomainSpec_set_Type (a : string) (r : DomainSpec) : DomainSpec := let '(mkDomainSpec x0 x1 _ x3 x4 x5 x6 x7 x8 x9) := r in mkDomainSpec x0 x1 a x3 x4 x5 x6 x7 x8 x9.
Definition DomainSpec_set_DNSProvider (a : string) (r : DomainSpec) : DomainSpec := let '(mkDomainSpec x0 x1 x2 _ x4 x5 x6 x7 x8 x9) := r in mkDomainSpec x0 x1 x2 a x4 x5 x6 x7 x8 x9.
Definition DomainSpec_set_DNSZone (a : string) (r : DomainSpec) : DomainSpec := let '(mkDomainSpec x0 x1 x2 x3 _ x5 x6 x7 x8 x9) := r in mkDomainSpec x0 x1 x2 x3 a x5 x6 x7 x8 x9.
Definition DomainSpec_set_CertificateID (a : string) (r : DomainSpec) : DomainSpec := let '(mkDomainSpec x0 x1 x2 x3 x4 _ x6 x7 x8 x9) := r in mkDomainSpec x0 x1 x2 x3 x4 a x6 x7 x8 x9.
Definition DomainSpec_set_Wildcard (a : bool) (r : DomainSpec) : DomainSpec := let '(mkDomainSpec x0 x1 x2 x3 x4 x5 _ x7 x8 x9) := r in mkDomainSpec x0 x1 x2 x3 x4 x5 a x7 x8 x9.
Definition DomainSpec_set_AutoTLS (a : bool) (r : DomainSpec) : DomainSpec := let '(mkDomainSpec x0 x1 x2 x3 x4 x5 x6 _ x8 x9) := r in mkDomainSpec x0 x1 x2 x3 x4 x5 x6 a x8 x9.
Definition DomainSpec_set_TLSEmail (a : string) (r : DomainSpec) : DomainSpec := let '(mkDomainSpec x0 x1 x2 x3 x4 x5 x6 x7 _ x9) := r in mkDomainSpec x0 x1 x2 x3 x4 x5 x6 x7 a x9.
Definition DomainSpec_set_PathRoutes (a : slice PathRoute) (r : DomainSpec) : DomainSpec := let '(mkDomainSpec x0 x1 x2 x3 x4 x5 x6 x7 x8 _) := r in mkDomainSpec x0 x1 x2 x3 x4 x5 x6 x7 x8 a.

(** The members of [DomainSpec]. *)
Definition DomainSpec_fields : list (field DomainSpec) :=
  [fld "project_id" false DomainSpec_ProjectID DomainSpec_set_ProjectID;
   fld "domain" false DomainSpec_Domain DomainSpec_set_Domain;
   fld "type" false DomainSpec_Type DomainSpec_set_Type;
   fld "dns_provider" true DomainSpec_DNSProvider DomainSpec_set_DNSProvider;
   fld "dns_zone" true DomainSpec_DNSZone DomainSpec_set_DNSZone;
   fld "certificate_id" true DomainSpec_CertificateID DomainSpec_set_CertificateID;
   fld "wildcard" true DomainSpec_Wildcard DomainSpec_set_Wildcard;
   fld "auto_tls" true DomainSpec_AutoTLS DomainSpec_set_AutoTLS;
   fld "tls_email" true DomainSpec_TLSEmail DomainSpec_set_TLSEmail;
   fld "path_routes" true DomainSpec_PathRoutes DomainSpec_set_PathRoutes].

#[export] Instance DomainSpec_coded : Coded DomainSpec := struct_coded DomainSpec_fields DomainSpec_zero.

Lemma DomainSpec_struct : struct_ok DomainSpec_fields DomainSpec_zero.
Proof. struct_laws. Qed.

#[export] Instance DomainSpec_ok : CodedOk DomainSpec.
Proof. exact (struct_coded_ok _ _ DomainSpec_struct). Qed.

#[export] Instance DomainSpec_nonnull : NonNull DomainSpec.
Proof. apply struct_nonnull. Qed.

Record DNSRecord := mkDNSRecord {
  DNSRecord_Name : string;
  DNSRecord_Type : string;
  DNSRecord_Value : string;
  DNSRecord_TTL : Z }.

Definition DNSRecord_zero : DNSRecord := mkDNSRecord "" "" "" 0.

Definition DNSRecord_set_Name (a : string) (r : DNSRecord) : DNSRecord := let '(mkDNSRecord _ x1 x2 x3) := r in mkDNSRecord a x1 x2 x3.
Definition DNSRecord_set_Type (a : string) (r : DNSRecord) : DNSRecord := let '(mkDNSRecord x0 _ x2 x3) := r in mkDNSRecord x0 a x2 x3.
Definition DNSRecord_set_Value (a : string) (r : DNSRecord) : DNSRecord := let '(mkDNSRecord x0 x1 _ x3) := r in mkDNSRecord x0 x1 a x3.
Definition DNSRecord_set_TTL (a : Z) (r : DNSRecord) : DNSRecord := let '(mkDNSRecord x0 x1 x2 _) := r in mkDNSRecord x0 x1 x2 a.

(** The members of [DNSRecord]. *)
Definition DNSRecord_fields : list (field DNSRecord) :=
  [fld "name" false DNSRecord_Name DNSRecord_set_Name;
   fld "type" false DNSRecord_Type DNSRecord_set_Type;
   fld "value" false DNSRecord_Value DNSRecord_set_Value;
   fld "ttl" false DNSRecord_TTL DNSRecord_set_TTL].

#[export] Instance DNSRecord_coded : Coded DNSRecord := struct_coded DNSRecord_fields DNSRecord_zero.

Lemma DNSRecord_struct : struct_ok DNSRecord_fields DNSRecord_zero.
Proof. struct_laws. Qed.

#[export] Instance DNSRecord_ok : CodedOk DNSRecord.
Proof. exact (struct_coded_ok _ _ DNSRecord_struct). Qed.

#[export] Instance DNSRecord_nonnull : NonNull DNSRecord.
Proof. apply struct_nonnull. Qed.

Record CertificateRef := mkCertificateRef {
  CertificateRef_ID : string;
  CertificateRef_Subject : string;
  CertificateRef_Issuer : string;
  CertificateRef_ExpiresAt : ptr time;
  CertificateRef_Status : string }.

Definition CertificateRef_zero : CertificateRef := mkCertificateRef "" "" "" None "".

Definition CertificateRef_set_ID (a : string) (r : CertificateRef) : CertificateRef := let '(mkCertificateRef _ x1 x2 x3 x4) := r in mkCertificateRef a x1 x2 x3 x4.
Definition CertificateRef_set_Subject (a : string) (r : CertificateRef) : CertificateRef := let '(mkCertificateRef x0 _ x2 x3 x4) := r in mkCertificateRef x0 a x2 x3 x4.
Definition CertificateRef_set_Issuer (a : string) (r : CertificateRef) : CertificateRef := let '(mkCertificateRef x0 x1 _ x3 x4) := r in mkCertificateRef x0 x1 a x3 x4.
Definition CertificateRef_set_ExpiresAt (a : ptr time) (r : CertificateRef) : CertificateRef := let '(mkCertificateRef x0 x1 x2 _ x4) := r in mkCertificateRef x0 x1 x2 a x4.
Definition CertificateRef_set_Status (a : string) (r : CertificateRef) : CertificateRef := let '(mkCertificateRef x0 x1 x2 x3 _) := r in mkCertificateRef x0 x1 x2 x3 a.

(** The members of [CertificateRef]. *)
Definition CertificateRef_fields : list (field CertificateRef) :=
  [fld "id" false CertificateRef_ID CertificateRef_set_ID;
   fld "subject" false CertificateRef_Subject CertificateRef_set_Subject;
   fld "issuer" false CertificateRef_Issuer CertificateRef_set_Issuer;
   fld "expires_at" true CertificateRef_ExpiresAt CertificateRef_set_ExpiresAt;
   fld "status" false CertificateRef_Status CertificateRef_set_Status].

#[export] Instance CertificateRef_coded : Coded CertificateRef := struct_coded CertificateRef_fields CertificateRef_zero.

Lemma CertificateRef_struct : struct_ok CertificateRef_fields CertificateRef_zero.
Proof. struct_laws. Qed.

#[export] Instance CertificateRef_ok : CodedOk CertificateRef.
Proof. exact (struct_coded_ok _ _ CertificateRef_struct). Qed.

#[export] Instance CertificateRef_nonnull : NonNull CertificateRef.
Proof. apply struct_nonnull. Qed.

Record DomainStatus := mkDomainStatus {
  DomainStatus_Status : Status;
  DomainStatus_Phase : string;
  DomainStatus_Verified : bool;
  DomainStatus_DNSRecords : slice DNSRecord;
  DomainStatus_Certificate : ptr CertificateRef;
  DomainStatus_ExpiresAt : ptr time;
  DomainStatus_VerificationToken : string }.

Definition DomainStatus_zero : DomainStatus := mkDomainStatus Status_zero "" false None None None "".

Definition DomainStatus_set_Status (a : Status) (r : DomainStatus) : DomainStatus := let '(mkDomainStatus _ x1 x2 x3 x4 x5 x6) := r in mkDomainStatus a x1 x2 x3 x4 x5 x6.
Definition DomainStatus_set_Phase (a : string) (r : DomainStatus) : DomainStatus := let '(mkDomainStatus x0 _ x2 x3 x4 x5 x6) := r in mkDomainStatus x0 a x2 x3 x4 x5 x6.
Definition DomainStatus_set_Verified (a : bool) (r : DomainStatus) : DomainStatus := let '(mkDomainStatus x0 x1 _ x3 x4 x5 x6) := r in mkDomainStatus x0 x1 a x3 x4 x5 x6.
Definition DomainStatus_set_DNSRecords (a : slice DNSRecord) (r : DomainStatus) : DomainStatus := let '(mkDomainStatus x0 x1 x2 _ x4 x5 x6) := r in mkDomainStatus x0 x1 x2 a x4 x5 x6.
Definition DomainStatus_set_Certificate (a : ptr CertificateRef) (r : DomainStatus) : DomainStatus := let '(mkDomainStatus x0 x1 x2 x3 _ x5 x6) := r in mkDomainStatus x0 x1 x2 x3 a x5 x6.
Definition DomainStatus_set_ExpiresAt (a : ptr time) (r : DomainStatus) : DomainStatus := let '(mkDomainStatus x0 x1 x2 x3 x4 _ x6) := r in mkDomainStatus x0 x1 x2 x3 x4 a x6.
Definition DomainStatus_set_VerificationToken (a : string) (r : DomainStatus) : DomainStatus := let '(mkDomainStatus x0 x1 x2 x3 x4 x5 _) := r in mkDomainStatus x0 x1 x2 x3 x4 x5 a.

(** The members of [DomainStatus]. *)
Definition DomainStatus_fields : list (field DomainStatus) :=
  promote (embed DomainStatus_Status DomainStatus_set_Status Status_fields)
  [fld "phase" false DomainStatus_Phase DomainStatus_set_Phase;
   fld "verified" false DomainStatus_Verified DomainStatus_set_Verified;
   fld "dns_records" true DomainStatus_DNSRecords DomainStatus_set_DNSRecords;
   fld "certificate" true DomainStatus_Certificate DomainStatus_set_Certificate;
   fld "expires_at" true DomainStatus_ExpiresAt DomainStatus_set_ExpiresAt;
   fld "verification_token" true DomainStatus_VerificationToken DomainStatus_set_VerificationToken].

#[export] Instance DomainStatus_coded : Coded DomainStatus := struct_coded DomainStatus_fields DomainStatus_zero.

Lemma DomainStatus_struct : struct_ok DomainStatus_fields DomainStatus_zero.
Proof. struct_laws. Qed.

#[export] Instance DomainStatus_ok : CodedOk DomainStatus.
Proof. exact (struct_coded_ok _ _ DomainStatus_struct). Qed.

#[export] Instance DomainStatus_nonnull : NonNull DomainStatus.
Proof. apply struct_nonnull. Qed.

Record ImageSpec := mkImageSpec {
  ImageSpec_Name : string;
  ImageSpec_Description : string;
  ImageSpec_Type : string;
  ImageSpec_Image : string;
  ImageSpec_Rootfs : string;
  ImageSpec_Kernel : string;
  ImageSpec_Architecture : string;
  ImageSpec_RootfsSHA256 : string;
  ImageSpec_KernelSHA256 : string;
  ImageSpec_VCPUs : Z;
  ImageSpec_MemMiB : Z;
  ImageSpec_Ports : slice Port;
  ImageSpec_Env : gomap string;
  ImageSpec_Tags : slice string;
  ImageSpec_Logo : string;
  ImageSpec_Version : string;
  ImageSpec_Kind : string }.

Definition ImageSpec_zero : ImageSpec := mkImageSpec "" "" "" "" "" "" "" "" "" 0 0 None None None "" "" "".

Definition ImageSpec_set_Name (a : string) (r : ImageSpec) : ImageSpec := let '(mkImageSpec _ x1 x2 x3 x4 x5 x6 x7 x8 x9 x10 x11 x12 x13 x14 x15 x16) := r in mkImageSpec a x1 x2 x3 x4 x5 x6 x7 x8 x9 x10 x11 x12 x13 x14 x15 x16.
Definition ImageSpec_set_Description (a : string) (r : ImageSpec) : ImageSpec := let '(mkImageSpec x0 _ x2 x3 x4 x5 x6 x7 x8 x9 x10 x11 x12 x13 x14 x15 x16) := r in mkImageSpec x0 a x2 x3 x4 x5 x6 x7 x8 x9 x10 x11 x12 x13 x14 x15 x16.
Definition ImageSpec_set_Type (a : string) (r : ImageSpec) : ImageSpec := let '(mkImageSpec x0 x1 _ x3 x4 x5 x6 x7 x8 x9 x10 x11 x12 x13 x14 x15 x16) := r in mkImageSpec x0 x1 a x3 x4 x5 x6 x7 x8 x9 x10 x11 x12 x13 x14 x15 x16.
Definition ImageSpec_set_Image (a : string) (r : ImageSpec) : ImageSpec := let '(mkImageSpec x0 x1 x2 _ x4 x5 x6 x7 x8 x9 x10 x11 x12 x13 x14 x15 x16) := r in mkImageSpec x0 x1 x2 a x4 x5 x6 x7 x8 x9 x10 x11 x12 x13 x14 x15 x16.
Definition ImageSpec_set_Rootfs (a : string) (r : ImageSpec) : ImageSpec := let '(mkImageSpec x0 x1 x2 x3 _ x5 x6 x7 x8 x9 x10 x11 x12 x13 x14 x15 x16) := r in mkImageSpec x0 x1 x2 x3 a x5 x6 x7 x8 x9 x10 x11 x12 x13 x14 x15 x16.
Definition ImageSpec_set_Kernel (a : string) (r : ImageSpec) : ImageSpec := let '(mkImageSpec x0 x1 x2 x3 x4 _ x6 x7 x8 x9 x10 x11 x12 x13 x14 x15 x16) := r in mkImageSpec x0 x1 x2 x3 x4 a x6 x7 x8 x9 x10 x11 x12 x13 x14 x15 x16.
Definition ImageSpec_set_Architecture (a : string) (r : ImageSpec) : ImageSpec := let '(mkImageSpec x0 x1 x2 x3 x4 x5 _ x7 x8 x9 x10 x11 x12 x13 x14 x15 x16) := r in mkImageSpec x0 x1 x2 x3 x4 x5 a x7 x8 x9 x10 x11 x12 x13 x14 x15 x16.
Definition ImageSpec_set_RootfsSHA256 (a : string) (r : ImageSpec) : ImageSpec := let '(mkImageSpec x0 x1 x2 x3 x4 x5 x6 _ x8 x9 x10 x11 x12 x13 x14 x15 x16) := r in mkImageSpec x0 x1 x2 x3 x4 x5 x6 a x8 x9 x10 x11 x12 x13 x14 x15 x16.
Definition ImageSpec_set_KernelSHA256 (a : string) (r : ImageSpec) : ImageSpec := let '(mkImageSpec x0 x1 x2 x3 x4 x5 x6 x7 _ x9 x10 x11 x12 x13 x14 x15 x16) := r in mkImageSpec x0 x1 x2 x3 x4 x5 x6 x7 a x9 x10 x11 x12 x13 x14 x15 x16.
Definition ImageSpec_set_VCPUs (a : Z) (r : ImageSpec) : ImageSpec := let '(mkImageSpec x0 x1 x2 x3 x4 x5 x6 x7 x8 _ x10 x11 x12 x13 x14 x15 x16) := r in mkImageSpec x0 x1 x2 x3 x4 x5 x6 x7 x8 a x10 x11 x12 x13 x14 x15 x16.
Definition ImageSpec_set_MemMiB (a : Z) (r : ImageSpec) : ImageSpec := let '(mkImageSpec x0 x1 x2 x3 x4 x5 x6 x7 x8 x9 _ x11 x12 x13 x14 x15 x16) := r in mkImageSpec x0 x1 x2 x3 x4 x5 x6 x7 x8 x9 a x11 x12 x13 x14 x15 x16.
Definition ImageSpec_set_Ports (a : slice Port) (r : ImageSpec) : ImageSpec := let '(mkImageSpec x0 x1 x2 x3 x4 x5 x6 x7 x8 x9 x10 _ x12 x13 x14 x15 x16) := r in mkImageSpec x0 x1 x2 x3 x4 x5 x6 x7 x8 x9 x10 a x12 x13 x14 x15 x16.
Definition ImageSpec_set_Env (a : gomap string) (r : ImageSpec) : ImageSpec := let '(mkImageSpec x0 x1 x2 x3 x4 x5 x6 x7 x8 x9 x10 x11 _ x13 x14 x15 x16) := r in mkImageSpec x0 x1 x2 x3 x4 x5 x6 x7 x8 x9 x10 x11 a x13 x14 x15 x16.
Definition ImageSpec_set_Tags (a : slice string) (r : ImageSpec) : ImageSpec := let '(mkImageSpec x0 x1 x2 x3 x4 x5 x6 x7 x8 x9 x10 x11 x12 _ x14 x15 x16) := r in mkImageSpec x0 x1 x2 x3 x4 x5 x6 x7 x8 x9 x10 x11 x12 a x14 x15 x16.
Definition ImageSpec_set_Logo (a : string) (r : ImageSpec) : ImageSpec := let '(mkImageSpec x0 x1 x2 x3 x4 x5 x6 x7 x8 x9 x10 x11 x12 x13 _ x15 x16) := r in mkImageSpec x0 x1 x2 x3 x4 x5 x6 x7 x8 x9 x10 x11 x12 x13 a x15 x16.
Definition ImageSpec_set_Version (a : string) (r : ImageSpec) : ImageSpec := let '(mkImageSpec x0 x1 x2 x3 x4 x5 x6 x7 x8 x9 x10 x11 x12 x13 x14 _ x16) := r in mkImageSpec x0 x1 x2 x3 x4 x5 x6 x7 x8 x9 x10 x11 x12 x13 x14 a x16.
Definition ImageSpec_set_Kind (a : string) (r : ImageSpec) : ImageSpec := let '(mkImageSpec x0 x1 x2 x3 x4 x5 x6 x7 x8 x9 x10 x11 x12 x13 x14 x15 _) := r in mkImageSpec x0 x1 x2 x3 x4 x5 x6 x7 x8 x9 x10 x11 x12 x13 x14 x15 a.

(** The members of [ImageSpec]. *)
Definition ImageSpec_fields : list (field ImageSpec) :=
  [fld "name" false ImageSpec_Name ImageSpec_set_Name;
   fld "description" true ImageSpec_Description ImageSpec_set_Description;
   fld "type" false ImageSpec_Type ImageSpec_set_Type;
   fld "image" true ImageSpec_Image ImageSpec_set_Image;
   fld "rootfs" true ImageSpec_Rootfs ImageSpec_set_Rootfs;
   fld "kernel" true ImageSpec_Kernel ImageSpec_set_Kernel;
   fld "architecture" true ImageSpec_Architecture ImageSpec_set_Architecture;
   fld "rootfs_sha256" true ImageSpec_RootfsSHA256 ImageSpec_set_RootfsSHA256;
   fld "kernel_sha256" true ImageSpec_KernelSHA256 ImageSpec_set_KernelSHA256;
   fld "vcpus" false ImageSpec_VCPUs ImageSpec_set_VCPUs;
   fld "mem_mib" false ImageSpec_MemMiB ImageSpec_set_MemMiB;
   fld "ports" false ImageSpec_Ports ImageSpec_set_Ports;
   fld "env" true ImageSpec_Env ImageSpec_set_Env;
   fld "tags" true ImageSpec_Tags ImageSpec_set_Tags;
   fld "logo" true ImageSpec_Logo ImageSpec_set_Logo;
   fld "version" true ImageSpec_Version ImageSpec_set_Version;
   fld "kind" true ImageSpec_Kind ImageSpec_set_Kind].

#[export] Instance ImageSpec_coded : Coded ImageSpec := struct_coded ImageSpec_fields ImageSpec_zero.

Lemma ImageSpec_struct : struct_ok ImageSpec_fields ImageSpec_zero.
Proof. struct_laws. Qed.

#[export] Instance ImageSpec_ok : CodedOk ImageSpec.
Proof. exact (struct_coded_ok _ _ ImageSpec_struct). Qed.

#[export] Instance ImageSpec_nonnull : NonNull ImageSpec.
Proof. apply struct_nonnull. Qed.

Record ImageStatus := mkImageStatus {
  ImageStatus_Status : Status;
  ImageStatus_Phase : string;
  ImageStatus_ValidatedAt : ptr time;
  ImageStatus_Size : Z;
  ImageStatus_DownloadURL : string }.

Definition ImageStatus_zero : ImageStatus := mkImageStatus Status_zero "" None 0 "".

Definition ImageStatus_set_Status (a : Status) (r : ImageStatus) : ImageStatus := let '(mkImageStatus _ x1 x2 x3 x4) := r in mkImageStatus a x1 x2 x3 x4.
Definition ImageStatus_set_Phase (a : string) (r : ImageStatus) : ImageStatus := let '(mkImageStatus x0 _ x2 x3 x4) := r in mkImageStatus x0 a x2 x3 x4.
Definition ImageStatus_set_ValidatedAt (a : ptr time) (r : ImageStatus) : ImageStatus := let '(mkImageStatus x0 x1 _ x3 x4) := r in mkImageStatus x0 x1 a x3 x4.
Definition ImageStatus_set_Size (a : Z) (r : ImageStatus) : ImageStatus := let '(mkImageStatus x0 x1 x2 _ x4) := r in mkImageStatus x0 x1 x2 a x4.
Definition ImageStatus_set_DownloadURL (a : string) (r : ImageStatus) : ImageStatus := let '(mkImageStatus x0 x1 x2 x3 _) := r in mkImageStatus x0 x1 x2 x3 a.

(** The members of [ImageStatus]. *)
Definition ImageStatus_fields : list (field ImageStatus) :=
  promote (embed ImageStatus_Status ImageStatus_set_Status Status_fields)
  [fld "status" false ImageStatus_Phase ImageStatus_set_Phase;
   fld "validated_at" true ImageStatus_ValidatedAt ImageStatus_set_ValidatedAt;
   fld "size" true ImageStatus_Size ImageStatus_set_Size;
   fld "download_url" true ImageStatus_DownloadURL ImageStatus_set_DownloadURL].

#[export] Instance ImageStatus_coded : Coded ImageStatus := struct_coded ImageStatus_fields ImageStatus_zero.

Lemma ImageStatus_struct : struct_ok ImageStatus_fields ImageStatus_zero.
Proof. struct_laws. Qed.

#[export] Instance ImageStatus_ok : CodedOk ImageStatus.
Proof. exact (struct_coded_ok _ _ ImageStatus_struct). Qed.

#[export] Instance ImageStatus_nonnull : NonNull ImageStatus.
Proof. apply struct_nonnull. Qed.

Record MicroVMSpec := mkMicroVMSpec {
  MicroVMSpec_ReplicaID : string;
  MicroVMSpec_NodeID : string;
  MicroVMSpec_CPUMillicores : Z;
  MicroVMSpec_MemMiB : Z;
  MicroVMSpec_TargetState : gomap Json }.

Definition MicroVMSpec_zero : MicroVMSpec := mkMicroVMSpec "" "" 0 0 None.

Definition MicroVMSpec_set_ReplicaID (a : string) (r : MicroVMSpec) : MicroVMSpec := let '(mkMicroVMSpec _ x1 x2 x3 x4) := r in mkMicroVMSpec a x1 x2 x3 x4.
Definition MicroVMSpec_set_NodeID (a : string) (r : MicroVMSpec) : MicroVMSpec := let '(mkMicroVMSpec x0 _ x2 x3 x4) := r in mkMicroVMSpec x0 a x2 x3 x4.
Definition MicroVMSpec_set_CPUMillicores (a : Z) (r : MicroVMSpec) : MicroVMSpec := let '(mkMicroVMSpec x0 x1 _ x3 x4) := r in mkMicroVMSpec x0 x1 a x3 x4.
Definition MicroVMSpec_set_MemMiB (a : Z) (r : MicroVMSpec) : MicroVMSpec := let '(mkMicroVMSpec x0 x1 x2 _ x4) := r in mkMicroVMSpec x0 x1 x2 a x4.
Definition MicroVMSpec_set_TargetState (a : gomap Json) (r : MicroVMSpec) : MicroVMSpec := let '(mkMicroVMSpec x0 x1 x2 x3 _) := r in mkMicroVMSpec x0 x1 x2 x3 a.

(** The members of [MicroVMSpec]. *)
Definition MicroVMSpec_fields : list (field MicroVMSpec) :=
  [fld "replica_id" true MicroVMSpec_ReplicaID MicroVMSpec_set_ReplicaID;
   fld "node_id" true MicroVMSpec_NodeID MicroVMSpec_set_NodeID;
   fld "cpu_millicores" true MicroVMSpec_CPUMillicores MicroVMSpec_set_CPUMillicores;
   fld "mem_mib" true MicroVMSpec_MemMiB MicroVMSpec_set_MemMiB;
   fld "target_state" true MicroVMSpec_TargetState MicroVMSpec_set_TargetState].

#[export] Instance MicroVMSpec_coded : Coded MicroVMSpec := struct_coded MicroVMSpec_fields MicroVMSpec_zero.

Lemma MicroVMSpec_struct : struct_ok MicroVMSpec_fields MicroVMSpec_zero.
Proof. struct_laws. Qed.

#[export] Instance MicroVMSpec_ok : CodedOk MicroVMSpec.
Proof. exact (struct_coded_ok _ _ MicroVMSpec_struct). Qed.

#[export] Instance MicroVMSpec_nonnull : NonNull MicroVMSpec.
Proof. apply struct_nonnull. Qed.

Record MicroVMStatus := mkMicroVMStatus {
  MicroVMStatus_Status : Status;
  MicroVMStatus_State : string }.

Definition MicroVMStatus_zero : MicroVMStatus := mkMicroVMStatus Status_zero "".

Definition MicroVMStatus_set_Status (a : Status) (r : MicroVMStatus) : MicroVMStatus := let '(mkMicroVMStatus _ x1) := r in mkMicroVMStatus a x1.
Definition MicroVMStatus_set_State (a : string) (r : MicroVMStatus) : MicroVMStatus := let '(mkMicroVMStatus x0 _) := r in mkMicroVMStatus x0 a.

(** The members of [MicroVMStatus]. *)
Definition MicroVMStatus_fields : list (field MicroVMStatus) :=
  promote (embed MicroVMStatus_Status MicroVMStatus_set_Status Status_fields)
  [fld "state" true MicroVMStatus_State MicroVMStatus_set_State].

#[export] Instance MicroVMStatus_coded : Coded MicroVMStatus := struct_coded MicroVMStatus_fields MicroVMStatus_zero.

Lemma MicroVMStatus_struct : struct_ok MicroVMStatus_fields MicroVMStatus_zero.
Proof. struct_laws. Qed.

#[export] Instance MicroVMStatus_ok : CodedOk MicroVMStatus.
Proof. exact (struct_coded_ok _ _ MicroVMStatus_struct). Qed.

#[export] Instance MicroVMStatus_nonnull : NonNull MicroVMStatus.
Proof. apply struct_nonnull. Qed.

Record IPAllocationSpec := mkIPAllocationSpec {
  IPAllocationSpec_NetworkID : string;
  IPAllocationSpec_IP : string;
  IPAllocationSpec_MicroVMID : string }.

Definition IPAllocationSpec_zero : IPAllocationSpec := mkIPAllocationSpec "" "" "".

Definition IPAllocationSpec_set_NetworkID (a : string) (r : IPAllocationSpec) : IPAllocationSpec := let '(mkIPAllocationSpec _ x1 x2) := r in mkIPAllocationSpec a x1 x2.
Definition IPAllocationSpec_set_IP (a : string) (r : IPAllocationSpec) : IPAllocationSpec := let '(mkIPAllocationSpec x0 _ x2) := r in mkIPAllocationSpec x0 a x2.
Definition IPAllocationSpec_set_MicroVMID (a : string) (r : IPAllocationSpec) : IPAllocationSpec := let '(mkIPAllocationSpec x0 x1 _) := r in mkIPAllocationSpec x0 x1 a.

(** The members of [IPAllocationSpec]. *)
Definition IPAllocationSpec_fields : list (field IPAllocationSpec) :=
  [fld "network_id" true IPAllocationSpec_NetworkID IPAllocationSpec_set_NetworkID;
   fld "ip" true IPAllocationSpec_IP IPAllocationSpec_set_IP;
   fld "micro_vm_id" true IPAllocationSpec_MicroVMID IPAllocationSpec_set_MicroVMID].

#[export] Instance IPAllocationSpec_coded : Coded IPAllocationSpec := struct_coded IPAllocationSpec_fields IPAllocationSpec_zero.

Lemma IPAllocationSpec_struct : struct_ok IPAllocationSpec_fields IPAllocationSpec_zero.
Proof. struct_laws. Qed.

#[export] Instance IPAllocationSpec_ok : CodedOk IPAllocationSpec.
Proof. exact (struct_coded_ok _ _ IPAllocationSpec_struct). Qed.

#[export] Instance IPAllocationSpec_nonnull : NonNull IPAllocationSpec.
Proof. apply struct_nonnull. Qed.

Record IPAllocationStatus := mkIPAllocationStatus {
  IPAllocationStatus_Status : Status }.

Definition IPAllocationStatus_zero : IPAllocationStatus := mkIPAllocationStatus Status_zero.

Definition IPAllocationStatus_set_Status (a : Status) (r : IPAllocationStatus) : IPAllocationStatus := let '(mkIPAllocationStatus _) := r in mkIPAllocationStatus a.

(** The members of [IPAllocationStatus]. *)
Definition IPAllocationStatus_fields : list (field IPAllocationStatus) :=
  promote (embed IPAllocationStatus_Status IPAllocationStatus_set_Status Status_fields)
  [].

#[export] Instance IPAllocationStatus_coded : Coded IPAllocationStatus := struct_coded IPAllocationStatus_fields IPAllocationStatus_zero.

Lemma IPAllocationStatus_struct : struct_ok IPAllocationStatus_fields IPAllocationStatus_zero.
Proof. struct_laws. Qed.

#[export] Instance IPAllocationStatus_ok : CodedOk IPAllocationStatus.
Proof. exact (struct_coded_ok _ _ IPAllocationStatus_struct). Qed.

#[export] Instance IPAllocationStatus_nonnull : NonNull IPAllocationStatus.
Proof. apply struct_nonnull. Qed.

Record IPAMPool := mkIPAMPool {
  IPAMPool_Subnet : string;
  IPAMPool_Gateway : string;
  IPAMPool_Range : string }.

Definition IPAMPool_zero : IPAMPool := mkIPAMPool "" "" "".

Definition IPAMPool_set_Subnet (a : string) (r : IPAMPool) : IPAMPool := let '(mkIPAMPool _ x1 x2) := r in mkIPAMPool a x1 x2.
Definition IPAMPool_set_Gateway (a : string) (r : IPAMPool) : IPAMPool := let '(mkIPAMPool x0 _ x2) := r in mkIPAMPool x0 a x2.
Definition IPAMPool_set_Range (a : string) (r : IPAMPool) : IPAMPool := let '(mkIPAMPool x0 x1 _) := r in mkIPAMPool x0 x1 a.

(** The members of [IPAMPool]. *)
Definition IPAMPool_fields : list (field IPAMPool) :=
  [fld "subnet" false IPAMPool_Subnet IPAMPool_set_Subnet;
   fld "gateway" true IPAMPool_Gateway IPAMPool_set_Gateway;
   fld "range" true IPAMPool_Range IPAMPool_set_Range].

#[export] Instance IPAMPool_coded : Coded IPAMPool := struct_coded IPAMPool_fields IPAMPool_zero.

Lemma IPAMPool_struct : struct_ok IPAMPool_fields IPAMPool_zero.
Proof. struct_laws. Qed.

#[export] Instance IPAMPool_ok : CodedOk IPAMPool.
Proof. exact (struct_coded_ok _ _ IPAMPool_struct). Qed.

#[export] Instance IPAMPool_nonnull : NonNull IPAMPool.
Proof. apply struct_nonnull. Qed.

Record IPAMConfig := mkIPAMConfig {
  IPAMConfig_Driver : string;
  IPAMConfig_Options : gomap string;
  IPAMConfig_Config : slice IPAMPool }.

Definition IPAMConfig_zero : IPAMConfig := mkIPAMConfig "" None None.

Definition IPAMConfig_set_Driver (a : string) (r : IPAMConfig) : IPAMConfig := let '(mkIPAMConfig _ x1 x2) := r in mkIPAMConfig a x1 x2.
Definition IPAMConfig_set_Options (a : gomap string) (r : IPAMConfig) : IPAMConfig := let '(mkIPAMConfig x0 _ x2) := r in mkIPAMConfig x0 a x2.
Definition IPAMConfig_set_Config (a : slice IPAMPool) (r : IPAMConfig) : IPAMConfig := let '(mkIPAMConfig x0 x1 _) := r in mkIPAMConfig x0 x1 a.

(** The members of [IPAMConfig]. *)
Definition IPAMConfig_fields : list (field IPAMConfig) :=
  [fld "driver" true IPAMConfig_Driver IPAMConfig_set_Driver;
   fld "options" true IPAMConfig_Options IPAMConfig_set_Options;
   fld "config" true IPAMConfig_Config IPAMConfig_set_Config].

#[export] Instance IPAMConfig_coded : Coded IPAMConfig := struct_coded IPAMConfig_fields IPAMConfig_zero.

Lemma IPAMConfig_struct : struct_ok IPAMConfig_fields IPAMConfig_zero.
Proof. struct_laws. Qed.

#[export] Instance IPAMConfig_ok : CodedOk IPAMConfig.
Proof. exact (struct_coded_ok _ _ IPAMConfig_struct). Qed.

#[export] Instance IPAMConfig_nonnull : NonNull IPAMConfig.
Proof. apply struct_nonnull. Qed.

Record NetworkSpec := mkNetworkSpec {
  NetworkSpec_ProjectID : string;
  NetworkSpec_CIDR : string;
  NetworkSpec_Driver : string;
  NetworkSpec_Internal : bool;
  NetworkSpec_IPAM : ptr IPAMConfig;
  NetworkSpec_DNSEnabled : bool;
  NetworkSpec_MTU : Z;
  NetworkSpec_Options : gomap string }.

Definition NetworkSpec_zero : NetworkSpec := mkNetworkSpec "" "" "" false None false 0 None.

Definition NetworkSpec_set_ProjectID (a : string) (r : NetworkSpec) : NetworkSpec := let '(mkNetworkSpec _ x1 x2 x3 x4 x5 x6 x7) := r in mkNetworkSpec a x1 x2 x3 x4 x5 x6 x7.
Definition NetworkSpec_set_CIDR (a : string) (r : NetworkSpec) : NetworkSpec := let '(mkNetworkSpec x0 _ x2 x3 x4 x5 x6 x7) := r in mkNetworkSpec x0 a x2 x3 x4 x5 x6 x7.
Definition NetworkSpec_set_Driver (a : string) (r : NetworkSpec) : NetworkSpec := let '(mkNetworkSpec x0 x1 _ x3 x4 x5 x6 x7) := r in mkNetworkSpec x0 x1 a x3 x4 x5 x6 x7.
Definition NetworkSpec_set_Internal (a : bool) (r : NetworkSpec) : NetworkSpec := let '(mkNetworkSpec x0 x1 x2 _ x4 x5 x6 x7) := r in mkNetworkSpec x0 x1 x2 a x4 x5 x6 x7.
Definition NetworkSpec_set_IPAM (a : ptr IPAMConfig) (r : NetworkSpec) : NetworkSpec := let '(mkNetworkSpec x0 x1 x2 x3 _ x5 x6 x7) := r in mkNetworkSpec x0 x1 x2 x3 a x5 x6 x7.
Definition NetworkSpec_set_DNSEnabled (a : bool) (r : NetworkSpec) : NetworkSpec := let '(mkNetworkSpec x0 x1 x2 x3 x4 _ x6 x7) := r in mkNetworkSpec x0 x1 x2 x3 x4 a x6 x7.
Definition NetworkSpec_set_MTU (a : Z) (r : NetworkSpec) : NetworkSpec := let '(mkNetworkSpec x0 x1 x2 x3 x4 x5 _ x7) := r in mkNetworkSpec x0 x1 x2 x3 x4 x5 a x7.
Definition NetworkSpec_set_Options (a : gomap string) (r : NetworkSpec) : NetworkSpec := let '(mkNetworkSpec x0 x1 x2 x3 x4 x5 x6 _) := r in mkNetworkSpec x0 x1 x2 x3 x4 x5 x6 a.

(** The members of [NetworkSpec]. *)
Definition NetworkSpec_fields : list (field NetworkSpec) :=
  [fld "project_id" true NetworkSpec_ProjectID NetworkSpec_set_ProjectID;
   fld "cidr" false NetworkSpec_CIDR NetworkSpec_set_CIDR;
   fld "driver" true NetworkSpec_Driver NetworkSpec_set_Driver;
   fld "internal" true NetworkSpec_Internal NetworkSpec_set_Internal;
   fld "ipam" true NetworkSpec_IPAM NetworkSpec_set_IPAM;
   fld "dns_enabled" true NetworkSpec_DNSEnabled NetworkSpec_set_DNSEnabled;
   fld "mtu" true NetworkSpec_MTU NetworkSpec_set_MTU;
   fld "options" true NetworkSpec_Options NetworkSpec_set_Options].

#[export] Instance NetworkSpec_coded : Coded NetworkSpec := struct_coded NetworkSpec_fields NetworkSpec_zero.

Lemma NetworkSpec_struct : struct_ok NetworkSpec_fields NetworkSpec_zero.
Proof. struct_laws. Qed.

#[export] Instance NetworkSpec_ok : CodedOk NetworkSpec.
Proof. exact (struct_coded_ok _ _ NetworkSpec_struct). Qed.

#[export] Instance NetworkSpec_nonnull : NonNull NetworkSpec.
Proof. apply struct_nonnull. Qed.

Record NetworkStatus := mkNetworkStatus {
  NetworkStatus_Status : Status;
  NetworkStatus_Phase : string;
  NetworkStatus_BridgeName : string;
  NetworkStatus_Subnets : slice string;
  NetworkStatus_Endpoints : Z }.

Definition NetworkStatus_zero : NetworkStatus := mkNetworkStatus Status_zero "" "" None 0.

Definition NetworkStatus_set_Status (a : Status) (r : NetworkStatus) : NetworkStatus := let '(mkNetworkStatus _ x1 x2 x3 x4) := r in mkNetworkStatus a x1 x2 x3 x4.
Definition NetworkStatus_set_Phase (a : string) (r : NetworkStatus) : NetworkStatus := let '(mkNetworkStatus x0 _ x2 x3 x4) := r in mkNetworkStatus x0 a x2 x3 x4.
Definition NetworkStatus_set_BridgeName (a : string) (r : NetworkStatus) : NetworkStatus := let '(mkNetworkStatus x0 x1 _ x3 x4) := r in mkNetworkStatus x0 x1 a x3 x4.
Definition NetworkStatus_set_Subnets (a : slice string) (r : NetworkStatus) : NetworkStatus := let '(mkNetworkStatus x0 x1 x2 _ x4) := r in mkNetworkStatus x0 x1 x2 a x4.
Definition NetworkStatus_set_Endpoints (a : Z) (r : NetworkStatus) : NetworkStatus := let '(mkNetworkStatus x0 x1 x2 x3 _) := r in mkNetworkStatus x0 x1 x2 x3 a.

(** The members of [NetworkStatus]. *)
Definition NetworkStatus_fields : list (field NetworkStatus) :=
  promote (embed NetworkStatus_Status NetworkStatus_set_Status Status_fields)
  [fld "phase" false NetworkStatus_Phase NetworkStatus_set_Phase;
   fld "bridge_name" true NetworkStatus_BridgeName NetworkStatus_set_BridgeName;
   fld "subnets" true NetworkStatus_Subnets NetworkStatus_set_Subnets;
   fld "endpoints" false NetworkStatus_Endpoints NetworkStatus_set_Endpoints].

#[export] Instance NetworkStatus_coded : Coded NetworkStatus := struct_coded NetworkStatus_fields NetworkStatus_zero.

Lemma NetworkStatus_struct : struct_ok NetworkStatus_fields NetworkStatus_zero.
Proof. struct_laws. Qed.

#[export] Instance NetworkStatus_ok : CodedOk NetworkStatus.
Proof. exact (struct_coded_ok _ _ NetworkStatus_struct). Qed.

#[export] Instance NetworkStatus_nonnull : NonNull NetworkStatus.
Proof. apply struct_nonnull. Qed.

Record Taint := mkTaint {
  Taint_Key : string;
  Taint_Value : string;
  Taint_Effect : string }.

Definition Taint_zero : Taint := mkTaint "" "" "".

Definition Taint_set_Key (a : string) (r : Taint) : Taint := let '(mkTaint _ x1 x2) := r in mkTaint a x1 x2.
Definition Taint_set_Value (a : string) (r : Taint) : Taint := let '(mkTaint x0 _ x2) := r in mkTaint x0 a x2.
Definition Taint_set_Effect (a : string) (r : Taint) : Taint := let '(mkTaint x0 x1 _) := r in mkTaint x0 x1 a.

(** The members of [Taint]. *)
Definition Taint_fields : list (field Taint) :=
  [fld "key" false Taint_Key Taint_set_Key;
   fld "value" false Taint_Value Taint_set_Value;
   fld "effect" false Taint_Effect Taint_set_Effect].

#[export] Instance Taint_coded : Coded Taint := struct_coded Taint_fields Taint_zero.

Lemma Taint_struct : struct_ok Taint_fields Taint_zero.
Proof. struct_laws. Qed.

#[export] Instance Taint_ok : CodedOk Taint.
Proof. exact (struct_coded_ok _ _ Taint_struct). Qed.

#[export] Instance Taint_nonnull : NonNull Taint.
Proof. apply struct_nonnull. Qed.

Record NodeConfig := mkNodeConfig {
  NodeConfig_FirecrackerBin : string;
  NodeConfig_KernelImage : string;
  NodeConfig_RootfsPath : string;
  NodeConfig_SocketDir : string;
  NodeConfig_SnapshotDir : string;
  NodeConfig_LogsDir : string;
  NodeConfig_VolumesDir : string;
  NodeConfig_ImagesDir : string }.

Definition NodeConfig_zero : NodeConfig := mkNodeConfig "" "" "" "" "" "" "" "".

Definition NodeConfig_set_FirecrackerBin (a : string) (r : NodeConfig) : NodeConfig := let '(mkNodeConfig _ x1 x2 x3 x4 x5 x6 x7) := r in mkNodeConfig a x1 x2 x3 x4 x5 x6 x7.
Definition NodeConfig_set_KernelImage (a : string) (r : NodeConfig) : NodeConfig := let '(mkNodeConfig x0 _ x2 x3 x4 x5 x6 x7) := r in mkNodeConfig x0 a x2 x3 x4 x5 x6 x7.
Definition NodeConfig_set_RootfsPath (a : string) (r : NodeConfig) : NodeConfig := let '(mkNodeConfig x0 x1 _ x3 x4 x5 x6 x7) := r in mkNodeConfig x0 x1 a x3 x4 x5 x6 x7.
Definition NodeConfig_set_SocketDir (a : string) (r : NodeConfig) : NodeConfig := let '(mkNodeConfig x0 x1 x2 _ x4 x5 x6 x7) := r in mkNodeConfig x0 x1 x2 a x4 x5 x6 x7.
Definition NodeConfig_set_SnapshotDir (a : string) (r : NodeConfig) : NodeConfig := let '(mkNodeConfig x0 x1 x2 x3 _ x5 x6 x7) := r in mkNodeConfig x0 x1 x2 x3 a x5 x6 x7.
Definition NodeConfig_set_LogsDir (a : string) (r : NodeConfig) : NodeConfig := let '(mkNodeConfig x0 x1 x2 x3 x4 _ x6 x7) := r in mkNodeConfig x0 x1 x2 x3 x4 a x6 x7.
Definition NodeConfig_set_VolumesDir (a : string) (r : NodeConfig) : NodeConfig := let '(mkNodeConfig x0 x1 x2 x3 x4 x5 _ x7) := r in mkNodeConfig x0 x1 x2 x3 x4 x5 a x7.
Definition NodeConfig_set_ImagesDir (a : string) (r : NodeConfig) : NodeConfig := let '(mkNodeConfig x0 x1 x2 x3 x4 x5 x6 _) := r in mkNodeConfig x0 x1 x2 x3 x4 x5 x6 a.

(** The members of [NodeConfig]. *)
Definition NodeConfig_fields : list (field NodeConfig) :=
  [fld "firecracker_bin" true NodeConfig_FirecrackerBin NodeConfig_set_FirecrackerBin;
   fld "kernel_image" true NodeConfig_KernelImage NodeConfig_set_KernelImage;
   fld "rootfs_path" true NodeConfig_RootfsPath NodeConfig_set_RootfsPath;
   fld "socket_dir" true NodeConfig_SocketDir NodeConfig_set_SocketDir;
   fld "snapshot_dir" true NodeConfig_SnapshotDir NodeConfig_set_SnapshotDir;
   fld "logs_dir" true NodeConfig_LogsDir NodeConfig_set_LogsDir;
   fld "volumes_dir" true NodeConfig_VolumesDir NodeConfig_set_VolumesDir;
   fld "images_dir" true NodeConfig_ImagesDir NodeConfig_set_ImagesDir].

#[export] Instance NodeConfig_coded : Coded NodeConfig := struct_coded NodeConfig_fields NodeConfig_zero.

Lemma NodeConfig_struct : struct_ok NodeConfig_fields NodeConfig_zero.
Proof. struct_laws. Qed.

#[export] Instance NodeConfig_ok : CodedOk NodeConfig.
Proof. exact (struct_coded_ok _ _ NodeConfig_struct). Qed.

#[export] Instance NodeConfig_nonnull : NonNull NodeConfig.
Proof. apply struct_nonnull. Qed.

Record NodeSpec := mkNodeSpec {
  NodeSpec_Name : string;
  NodeSpec_Address : string;
  NodeSpec_Region : string;
  NodeSpec_Zone : string;
  NodeSpec_NodePool : string;
  NodeSpec_VCPUs : Z;
  NodeSpec_MemMiB : Z;
  NodeSpec_Labels : gomap string;
  NodeSpec_Taints : slice Taint;
  NodeSpec_Capabilities : slice string;
  NodeSpec_Config : NodeConfig }.

Definition NodeSpec_zero : NodeSpec := mkNodeSpec "" "" "" "" "" 0 0 None None None NodeConfig_zero.

Definition NodeSpec_set_Name (a : string) (r : NodeSpec) : NodeSpec := let '(mkNodeSpec _ x1 x2 x3 x4 x5 x6 x7 x8 x9 x10) := r in mkNodeSpec a x1 x2 x3 x4 x5 x6 x7 x8 x9 x10.
Definition NodeSpec_set_Address (a : string) (r : NodeSpec) : NodeSpec := let '(mkNodeSpec x0 _ x2 x3 x4 x5 x6 x7 x8 x9 x10) := r in mkNodeSpec x0 a x2 x3 x4 x5 x6 x7 x8 x9 x10.
Definition NodeSpec_set_Region (a : string) (r : NodeSpec) : NodeSpec := let '(mkNodeSpec x0 x1 _ x3 x4 x5 x6 x7 x8 x9 x10) := r in mkNodeSpec x0 x1 a x3 x4 x5 x6 x7 x8 x9 x10.
Definition NodeSpec_set_Zone (a : string) (r : NodeSpec) : NodeSpec := let '(mkNodeSpec x0 x1 x2 _ x4 x5 x6 x7 x8 x9 x10) := r in mkNodeSpec x0 x1 x2 a x4 x5 x6 x7 x8 x9 x10.
Definition NodeSpec_set_NodePool (a : string) (r : NodeSpec) : NodeSpec := let '(mkNodeSpec x0 x1 x2 x3 _ x5 x6 x7 x8 x9 x10) := r in mkNodeSpec x0 x1 x2 x3 a x5 x6 x7 x8 x9 x10.
Definition NodeSpec_set_VCPUs (a : Z) (r : NodeSpec) : NodeSpec := let '(mkNodeSpec x0 x1 x2 x3 x4 _ x6 x7 x8 x9 x10) := r in mkNodeSpec x0 x1 x2 x3 x4 a x6 x7 x8 x9 x10.
Definition NodeSpec_set_MemMiB (a : Z) (r : NodeSpec) : NodeSpec := let '(mkNodeSpec x0 x1 x2 x3 x4 x5 _ x7 x8 x9 x10) := r in mkNodeSpec x0 x1 x2 x3 x4 x5 a x7 x8 x9 x10.
Definition NodeSpec_set_Labels (a : gomap string) (r : NodeSpec) : NodeSpec := let '(mkNodeSpec x0 x1 x2 x3 x4 x5 x6 _ x8 x9 x10) := r in mkNodeSpec x0 x1 x2 x3 x4 x5 x6 a x8 x9 x10.
Definition NodeSpec_set_Taints (a : slice Taint) (r : NodeSpec) : NodeSpec := let '(mkNodeSpec x0 x1 x2 x3 x4 x5 x6 x7 _ x9 x10) := r in mkNodeSpec x0 x1 x2 x3 x4 x5 x6 x7 a x9 x10.
Definition NodeSpec_set_Capabilities (a : slice string) (r : NodeSpec) : NodeSpec := let '(mkNodeSpec x0 x1 x2 x3 x4 x5 x6 x7 x8 _ x10) := r in mkNodeSpec x0 x1 x2 x3 x4 x5 x6 x7 x8 a x10.
Definition NodeSpec_set_Config (a : NodeConfig) (r : NodeSpec) : NodeSpec := let '(mkNodeSpec x0 x1 x2 x3 x4 x5 x6 x7 x8 x9 _) := r in mkNodeSpec x0 x1 x2 x3 x4 x5 x6 x7 x8 x9 a.

(** The members of [NodeSpec]. *)
Definition NodeSpec_fields : list (field NodeSpec) :=
  [fld "name" false NodeSpec_Name NodeSpec_set_Name;
   fld "address" false NodeSpec_Address NodeSpec_set_Address;
   fld "region" true NodeSpec_Region NodeSpec_set_Region;
   fld "zone" true NodeSpec_Zone NodeSpec_set_Zone;
   fld "node_pool" true NodeSpec_NodePool NodeSpec_set_NodePool;
   fld "vcpus" false NodeSpec_VCPUs NodeSpec_set_VCPUs;
   fld "mem_mib" false NodeSpec_MemMiB NodeSpec_set_MemMiB;
   fld "labels" true NodeSpec_Labels NodeSpec_set_Labels;
   fld "taints" true NodeSpec_Taints NodeSpec_set_Taints;
   fld "capabilities" true NodeSpec_Capabilities NodeSpec_set_Capabilities;
   fld "config" true NodeSpec_Config NodeSpec_set_Config].

#[export] Instance NodeSpec_coded : Coded NodeSpec := struct_coded NodeSpec_fields NodeSpec_zero.

Lemma NodeSpec_struct : struct_ok NodeSpec_fields NodeSpec_zero.
Proof. struct_laws. Qed.

#[export] Instance NodeSpec_ok : CodedOk NodeSpec.
Proof. exact (struct_coded_ok _ _ NodeSpec_struct). Qed.

#[export] Instance NodeSpec_nonnull : NonNull NodeSpec.
Proof. apply struct_nonnull. Qed.

Record NodeResources := mkNodeResources {
  NodeResources_VCPUs : Z;
  NodeResources_MemMiB : Z;
  NodeResources_Pods : Z }.

Definition NodeResources_zero : NodeResources := mkNodeResources 0 0 0.

Definition NodeResources_set_VCPUs (a : Z) (r : NodeResources) : NodeResources := let '(mkNodeResources _ x1 x2) := r in mkNodeResources a x1 x2.
Definition NodeResources_set_MemMiB (a : Z) (r : NodeResources) : NodeResources := let '(mkNodeResources x0 _ x2) := r in mkNodeResources x0 a x2.
Definition NodeResources_set_Pods (a : Z) (r : NodeResources) : NodeResources := let '(mkNodeResources x0 x1 _) := r in mkNodeResources x0 x1 a.

(** The members of [NodeResources]. *)
Definition NodeResources_fields : list (field NodeResources) :=
  [fld "vcpus" false NodeResources_VCPUs NodeResources_set_VCPUs;
   fld "mem_mib" false NodeResources_MemMiB NodeResources_set_MemMiB;
   fld "pods" true NodeResources_Pods NodeResources_set_Pods].

#[export] Instance NodeResources_coded : Coded NodeResources := struct_coded NodeResources_fields NodeResources_zero.

Lemma NodeResources_struct : struct_ok NodeResources_fields NodeResources_zero.
Proof. struct_laws. Qed.

#[export] Instance NodeResources_ok : CodedOk NodeResources.
Proof. exact (struct_coded_ok _ _ NodeResources_struct). Qed.

#[export] Instance NodeResources_nonnull : NonNull NodeResources.
Proof. apply struct_nonnull. Qed.

Record NodeStatus := mkNodeStatus {
  NodeStatus_Status : Status;
  NodeStatus_Phase : string;
  NodeStatus_LastTransitionTime : time;
  NodeStatus_Conditions : slice Condition;
  NodeStatus_Allocatable : NodeResources;
  NodeStatus_Capacity : NodeResources;
  NodeStatus_Used : NodeResources;
  NodeStatus_Projects : Z;
  NodeStatus_VMs : Z;
  NodeStatus_LastHeartbeat : ptr time;
  NodeStatus_Version : string;
  NodeStatus_OS : string;
  NodeStatus_Arch : string;
  NodeStatus_FirecrackerVersion : string;
  NodeStatus_BuildKitVersion : string }.

Definition NodeStatus_zero : NodeStatus := mkNodeStatus Status_zero "" 0 None NodeResources_zero NodeResources_zero NodeResources_zero 0 0 None "" "" "" "" "".

Definition NodeStatus_set_Status (a : Status) (r : NodeStatus) : NodeStatus := let '(mkNodeStatus _ x1 x2 x3 x4 x5 x6 x7 x8 x9 x10 x11 x12 x13 x14) := r in mkNodeStatus a x1 x2 x3 x4 x5 x6 x7 x8 x9 x10 x11 x12 x13 x14.
Definition NodeStatus_set_Phase (a : string) (r : NodeStatus) : NodeStatus := let '(mkNodeStatus x0 _ x2 x3 x4 x5 x6 x7 x8 x9 x10 x11 x12 x13 x14) := r in mkNodeStatus x0 a x2 x3 x4 x5 x6 x7 x8 x9 x10 x11 x12 x13 x14.
Definition NodeStatus_set_LastTransitionTime (a : time) (r : NodeStatus) : NodeStatus := let '(mkNodeStatus x0 x1 _ x3 x4 x5 x6 x7 x8 x9 x10 x11 x12 x13 x14) := r in mkNodeStatus x0 x1 a x3 x4 x5 x6 x7 x8 x9 x10 x11 x12 x13 x14.
Definition NodeStatus_set_Conditions (a : slice Condition) (r : NodeStatus) : NodeStatus := let '(mkNodeStatus x0 x1 x2 _ x4 x5 x6 x7 x8 x9 x10 x11 x12 x13 x14) := r in mkNodeStatus x0 x1 x2 a x4 x5 x6 x7 x8 x9 x10 x11 x12 x13 x14.
Definition NodeStatus_set_Allocatable (a : NodeResources) (r : NodeStatus) : NodeStatus := let '(mkNodeStatus x0 x1 x2 x3 _ x5 x6 x7 x8 x9 x10 x11 x12 x13 x14) := r in mkNodeStatus x0 x1 x2 x3 a x5 x6 x7 x8 x9 x10 x11 x12 x13 x14.
Definition NodeStatus_set_Capacity (a : NodeResources) (r : NodeStatus) : NodeStatus := let '(mkNodeStatus x0 x1 x2 x3 x4 _ x6 x7 x8 x9 x10 x11 x12 x13 x14) := r in mkNodeStatus x0 x1 x2 x3 x4 a x6 x7 x8 x9 x10 x11 x12 x13 x14.
Definition NodeStatus_set_Used (a : NodeResources) (r : NodeStatus) : NodeStatus := let '(mkNodeStatus x0 x1 x2 x3 x4 x5 _ x7 x8 x9 x10 x11 x12 x13 x14) := r in mkNodeStatus x0 x1 x2 x3 x4 x5 a x7 x8 x9 x10 x11 x12 x13 x14.
Definition NodeStatus_set_Projects (a : Z) (r : NodeStatus) : NodeStatus := let '(mkNodeStatus x0 x1 x2 x3 x4 x5 x6 _ x8 x9 x10 x11 x12 x13 x14) := r in mkNodeStatus x0 x1 x2 x3 x4 x5 x6 a x8 x9 x10 x11 x12 x13 x14.
Definition NodeStatus_set_VMs (a : Z) (r : NodeStatus) : NodeStatus := let '(mkNodeStatus x0 x1 x2 x3 x4 x5 x6 x7 _ x9 x10 x11 x12 x13 x14) := r in mkNodeStatus x0 x1 x2 x3 x4 x5 x6 x7 a x9 x10 x11 x12 x13 x14.
Definition NodeStatus_set_LastHeartbeat (a : ptr time) (r : NodeStatus) : NodeStatus := let '(mkNodeStatus x0 x1 x2 x3 x4 x5 x6 x7 x8 _ x10 x11 x12 x13 x14) := r in mkNodeStatus x0 x1 x2 x3 x4 x5 x6 x7 x8 a x10 x11 x12 x13 x14.
Definition NodeStatus_set_Version (a : string) (r : NodeStatus) : NodeStatus := let '(mkNodeStatus x0 x1 x2 x3 x4 x5 x6 x7 x8 x9 _ x11 x12 x13 x14) := r in mkNodeStatus x0 x1 x2 x3 x4 x5 x6 x7 x8 x9 a x11 x12 x13 x14.
Definition NodeStatus_set_OS (a : string) (r : NodeStatus) : NodeStatus := let '(mkNodeStatus x0 x1 x2 x3 x4 x5 x6 x7 x8 x9 x10 _ x12 x13 x14) := r in mkNodeStatus x0 x1 x2 x3 x4 x5 x6 x7 x8 x9 x10 a x12 x13 x14.
Definition NodeStatus_set_Arch (a : string) (r : NodeStatus) : NodeStatus := let '(mkNodeStatus x0 x1 x2 x3 x4 x5 x6 x7 x8 x9 x10 x11 _ x13 x14) := r in mkNodeStatus x0 x1 x2 x3 x4 x5 x6 x7 x8 x9 x10 x11 a x13 x14.
Definition NodeStatus_set_FirecrackerVersion (a : string) (r : NodeStatus) : NodeStatus := let '(mkNodeStatus x0 x1 x2 x3 x4 x5 x6 x7 x8 x9 x10 x11 x12 _ x14) := r in mkNodeStatus x0 x1 x2 x3 x4 x5 x6 x7 x8 x9 x10 x11 x12 a x14.
Definition NodeStatus_set_BuildKitVersion (a : string) (r : NodeStatus) : NodeStatus := let '(mkNodeStatus x0 x1 x2 x3 x4 x5 x6 x7 x8 x9 x10 x11 x12 x13 _) := r in mkNodeStatus x0 x1 x2 x3 x4 x5 x6 x7 x8 x9 x10 x11 x12 x13 a.

(** The members of [NodeStatus]. *)
Definition NodeStatus_fields : list (field NodeStatus) :=
  promote (embed NodeStatus_Status NodeStatus_set_Status Status_fields)
  [fld "phase" false NodeStatus_Phase NodeStatus_set_Phase;
   fld "last_transition_time" true NodeStatus_LastTransitionTime NodeStatus_set_LastTransitionTime;
   fld "conditions" true NodeStatus_Conditions NodeStatus_set_Conditions;
   fld "allocatable" true NodeStatus_Allocatable NodeStatus_set_Allocatable;
   fld "capacity" true NodeStatus_Capacity NodeStatus_set_Capacity;
   fld "used" true NodeStatus_Used NodeStatus_set_Used;
   fld "projects" false NodeStatus_Projects NodeStatus_set_Projects;
   fld "vms" false NodeStatus_VMs NodeStatus_set_VMs;
   fld "last_heartbeat" true NodeStatus_LastHeartbeat NodeStatus_set_LastHeartbeat;
   fld "version" true NodeStatus_Version NodeStatus_set_Version;
   fld "os" true NodeStatus_OS NodeStatus_set_OS;
   fld "arch" true NodeStatus_Arch NodeStatus_set_Arch;
   fld "firecracker_version" true NodeStatus_FirecrackerVersion NodeStatus_set_FirecrackerVersion;
   fld "buildkit_version" true NodeStatus_BuildKitVersion NodeStatus_set_BuildKitVersion].

#[export] Instance NodeStatus_coded : Coded NodeStatus := struct_coded NodeStatus_fields NodeStatus_zero.

Lemma NodeStatus_struct : struct_ok NodeStatus_fields NodeStatus_zero.
Proof. struct_laws. Qed.

#[export] Instance NodeStatus_ok : CodedOk NodeStatus.
Proof. exact (struct_coded_ok _ _ NodeStatus_struct). Qed.

#[export] Instance NodeStatus_nonnull : NonNull NodeStatus.
Proof. apply struct_nonnull. Qed.

Record OrgSettings := mkOrgSettings {
  OrgSettings_DefaultProjectQuota : Z;
  OrgSettings_MaxProjects : Z;
  OrgSettings_AllowedRegions : slice string;
  OrgSettings_RequireMFA : bool }.

Definition OrgSettings_zero : OrgSettings := mkOrgSettings 0 0 None false.

Definition OrgSettings_set_DefaultProjectQuota (a : Z) (r : OrgSettings) : OrgSettings := let '(mkOrgSettings _ x1 x2 x3) := r in mkOrgSettings a x1 x2 x3.
Definition OrgSettings_set_MaxProjects (a : Z) (r : OrgSettings) : OrgSettings := let '(mkOrgSettings x0 _ x2 x3) := r in mkOrgSettings x0 a x2 x3.
Definition OrgSettings_set_AllowedRegions (a : slice string) (r : OrgSettings) : OrgSettings := let '(mkOrgSettings x0 x1 _ x3) := r in mkOrgSettings x0 x1 a x3.
Definition OrgSettings_set_RequireMFA (a : bool) (r : OrgSettings) : OrgSettings := let '(mkOrgSettings x0 x1 x2 _) := r in mkOrgSettings x0 x1 x2 a.

(** The members of [OrgSettings]. *)
Definition OrgSettings_fields : list (field OrgSettings) :=
  [fld "default_project_quota" true OrgSettings_DefaultProjectQuota OrgSettings_set_DefaultProjectQuota;
   fld "max_projects" true OrgSettings_MaxProjects OrgSettings_set_MaxProjects;
   fld "allowed_regions" true OrgSettings_AllowedRegions OrgSettings_set_AllowedRegions;
   fld "require_mfa" true OrgSettings_RequireMFA OrgSettings_set_RequireMFA].

#[export] Instance OrgSettings_coded : Coded OrgSettings := struct_coded OrgSettings_fields OrgSettings_zero.

Lemma OrgSettings_struct : struct_ok OrgSettings_fields OrgSettings_zero.
Proof. struct_laws. Qed.

#[export] Instance OrgSettings_ok : CodedOk OrgSettings.
Proof. exact (struct_coded_ok _ _ OrgSettings_struct). Qed.

#[export] Instance OrgSettings_nonnull : NonNull OrgSettings.
Proof. apply struct_nonnull. Qed.

Record OrgSpec := mkOrgSpec {
  OrgSpec_Name : string;
  OrgSpec_OwnerID : string;
  OrgSpec_IsDefault : bool;
  OrgSpec_Description : string;
  OrgSpec_BillingEmail : string;
  OrgSpec_Settings : OrgSettings }.

Definition OrgSpec_zero : OrgSpec := mkOrgSpec "" "" false "" "" OrgSettings_zero.

Definition OrgSpec_set_Name (a : string) (r : OrgSpec) : OrgSpec := let '(mkOrgSpec _ x1 x2 x3 x4 x5) := r in mkOrgSpec a x1 x2 x3 x4 x5.
Definition OrgSpec_set_OwnerID (a : string) (r : OrgSpec) : OrgSpec := let '(mkOrgSpec x0 _ x2 x3 x4 x5) := r in mkOrgSpec x0 a x2 x3 x4 x5.
Definition OrgSpec_set_IsDefault (a : bool) (r : OrgSpec) : OrgSpec := let '(mkOrgSpec x0 x1 _ x3 x4 x5) := r in mkOrgSpec x0 x1 a x3 x4 x5.
Definition OrgSpec_set_Description (a : string) (r : OrgSpec) : OrgSpec := let '(mkOrgSpec x0 x1 x2 _ x4 x5) := r in mkOrgSpec x0 x1 x2 a x4 x5.
Definition OrgSpec_set_BillingEmail (a : string) (r : OrgSpec) : OrgSpec := let '(mkOrgSpec x0 x1 x2 x3 _ x5) := r in mkOrgSpec x0 x1 x2 x3 a x5.
Definition OrgSpec_set_Settings (a : OrgSettings) (r : OrgSpec) : OrgSpec := let '(mkOrgSpec x0 x1 x2 x3 x4 _) := r in mkOrgSpec x0 x1 x2 x3 x4 a.

(** The members of [OrgSpec]. *)
Definition OrgSpec_fields : list (field OrgSpec) :=
  [fld "name" false OrgSpec_Name OrgSpec_set_Name;
   fld "owner_id" true OrgSpec_OwnerID OrgSpec_set_OwnerID;
   fld "is_default" true OrgSpec_IsDefault OrgSpec_set_IsDefault;
   fld "description" true OrgSpec_Description OrgSpec_set_Description;
   fld "billing_email" true OrgSpec_BillingEmail OrgSpec_set_BillingEmail;
   fld "settings" true OrgSpec_Settings OrgSpec_set_Settings].

#[export] Instance OrgSpec_coded : Coded OrgSpec := struct_coded OrgSpec_fields OrgSpec_zero.

Lemma OrgSpec_struct : struct_ok OrgSpec_fields OrgSpec_zero.
Proof. struct_laws. Qed.

#[export] Instance OrgSpec_ok : CodedOk OrgSpec.
Proof. exact (struct_coded_ok _ _ OrgSpec_struct). Qed.

#[export] Instance OrgSpec_nonnull : NonNull OrgSpec.
Proof. apply struct_nonnull. Qed.

Record OrgStatus := mkOrgStatus {
  OrgStatus_Status : Status;
  OrgStatus_MemberCount : Z;
  OrgStatus_ProjectCount : Z;
  OrgStatus_TeamCount : Z }.

Definition OrgStatus_zero : OrgStatus := mkOrgStatus Status_zero 0 0 0.

Definition OrgStatus_set_Status (a : Status) (r : OrgStatus) : OrgStatus := let '(mkOrgStatus _ x1 x2 x3) := r in mkOrgStatus a x1 x2 x3.
Definition OrgStatus_set_MemberCount (a : Z) (r : OrgStatus) : OrgStatus := let '(mkOrgStatus x0 _ x2 x3) := r in mkOrgStatus x0 a x2 x3.
Definition OrgStatus_set_ProjectCount (a : Z) (r : OrgStatus) : OrgStatus := let '(mkOrgStatus x0 x1 _ x3) := r in mkOrgStatus x0 x1 a x3.
Definition OrgStatus_set_TeamCount (a : Z) (r : OrgStatus) : OrgStatus := let '(mkOrgStatus x0 x1 x2 _) := r in mkOrgStatus x0 x1 x2 a.

(** The members of [OrgStatus]. *)
Definition OrgStatus_fields : list (field OrgStatus) :=
  promote (embed OrgStatus_Status OrgStatus_set_Status Status_fields)
  [fld "member_count" true OrgStatus_MemberCount OrgStatus_set_MemberCount;
   fld "project_count" true OrgStatus_ProjectCount OrgStatus_set_ProjectCount;
   fld "team_count" true OrgStatus_TeamCount OrgStatus_set_TeamCount].

#[export] Instance OrgStatus_coded : Coded OrgStatus := struct_coded OrgStatus_fields OrgStatus_zero.

Lemma OrgStatus_struct : struct_ok OrgStatus_fields OrgStatus_zero.
Proof. struct_laws. Qed.

#[export] Instance OrgStatus_ok : CodedOk OrgStatus.
Proof. exact (struct_coded_ok _ _ OrgStatus_struct). Qed.

#[export] Instance OrgStatus_nonnull : NonNull OrgStatus.
Proof. apply struct_nonnull. Qed.

Record TeamSpec := mkTeamSpec {
  TeamSpec_OrgID : string;
  TeamSpec_Name : string;
  TeamSpec_Description : string;
  TeamSpec_Members : slice string;
  TeamSpec_Roles : slice string }.

Definition TeamSpec_zero : TeamSpec := mkTeamSpec "" "" "" None None.

Definition TeamSpec_set_OrgID (a : string) (r : TeamSpec) : TeamSpec := let '(mkTeamSpec _ x1 x2 x3 x4) := r in mkTeamSpec a x1 x2 x3 x4.
Definition TeamSpec_set_Name (a : string) (r : TeamSpec) : TeamSpec := let '(mkTeamSpec x0 _ x2 x3 x4) := r in mkTeamSpec x0 a x2 x3 x4.
Definition TeamSpec_set_Description (a : string) (r : TeamSpec) : TeamSpec := let '(mkTeamSpec x0 x1 _ x3 x4) := r in mkTeamSpec x0 x1 a x3 x4.
Definition TeamSpec_set_Members (a : slice string) (r : TeamSpec) : TeamSpec := let '(mkTeamSpec x0 x1 x2 _ x4) := r in mkTeamSpec x0 x1 x2 a x4.
Definition TeamSpec_set_Roles (a : slice string) (r : TeamSpec) : TeamSpec := let '(mkTeamSpec x0 x1 x2 x3 _) := r in mkTeamSpec x0 x1 x2 x3 a.

(** The members of [TeamSpec]. *)
Definition TeamSpec_fields : list (field TeamSpec) :=
  [fld "org_id" false TeamSpec_OrgID TeamSpec_set_OrgID;
   fld "name" false TeamSpec_Name TeamSpec_set_Name;
   fld "description" true TeamSpec_Description TeamSpec_set_Description;
   fld "members" true TeamSpec_Members TeamSpec_set_Members;
   fld "roles" true TeamSpec_Roles TeamSpec_set_Roles].

#[export] Instance TeamSpec_coded : Coded TeamSpec := struct_coded TeamSpec_fields TeamSpec_zero.

Lemma TeamSpec_struct : struct_ok TeamSpec_fields TeamSpec_zero.
Proof. struct_laws. Qed.

#[export] Instance TeamSpec_ok : CodedOk TeamSpec.
Proof. exact (struct_coded_ok _ _ TeamSpec_struct). Qed.

#[export] Instance TeamSpec_nonnull : NonNull TeamSpec.
Proof. apply struct_nonnull. Qed.

Record TeamStatus := mkTeamStatus {
  TeamStatus_Status : Status;
  TeamStatus_MemberCount : Z }.

Definition TeamStatus_zero : TeamStatus := mkTeamStatus Status_zero 0.

Definition TeamStatus_set_Status (a : Status) (r : TeamStatus) : TeamStatus := let '(mkTeamStatus _ x1) := r in mkTeamStatus a x1.
Definition TeamStatus_set_MemberCount (a : Z) (r : TeamStatus) : TeamStatus := let '(mkTeamStatus x0 _) := r in mkTeamStatus x0 a.

(** The members of [TeamStatus]. *)
Definition TeamStatus_fields : list (field TeamStatus) :=
  promote (embed TeamStatus_Status TeamStatus_set_Status Status_fields)
  [fld "member_count" true TeamStatus_MemberCount TeamStatus_set_MemberCount].

#[export] Instance TeamStatus_coded : Coded TeamStatus := struct_coded TeamStatus_fields TeamStatus_zero.

Lemma TeamStatus_struct : struct_ok TeamStatus_fields TeamStatus_zero.
Proof. struct_laws. Qed.

#[export] Instance TeamStatus_ok : CodedOk TeamStatus.
Proof. exact (struct_coded_ok _ _ TeamStatus_struct). Qed.

#[export] Instance TeamStatus_nonnull : NonNull TeamStatus.
Proof. apply struct_nonnull. Qed.

Record RoleAssignmentSpec := mkRoleAssignmentSpec {
  RoleAssignmentSpec_PrincipalType : string;
  RoleAssignmentSpec_PrincipalID : string;
  RoleAssignmentSpec_ScopeType : string;
  RoleAssignmentSpec_ScopeID : string;
  RoleAssignmentSpec_RoleID : string }.

Definition RoleAssignmentSpec_zero : RoleAssignmentSpec := mkRoleAssignmentSpec "" "" "" "" "".

Definition RoleAssignmentSpec_set_PrincipalType (a : string) (r : RoleAssignmentSpec) : RoleAssignmentSpec := let '(mkRoleAssignmentSpec _ x1 x2 x3 x4) := r in mkRoleAssignmentSpec a x1 x2 x3 x4.
Definition RoleAssignmentSpec_set_PrincipalID (a : string) (r : RoleAssignmentSpec) : RoleAssignmentSpec := let '(mkRoleAssignmentSpec x0 _ x2 x3 x4) := r in mkRoleAssignmentSpec x0 a x2 x3 x4.
Definition RoleAssignmentSpec_set_ScopeType (a : string) (r : RoleAssignmentSpec) : RoleAssignmentSpec := let '(mkRoleAssignmentSpec x0 x1 _ x3 x4) := r in mkRoleAssignmentSpec x0 x1 a x3 x4.
Definition RoleAssignmentSpec_set_ScopeID (a : string) (r : RoleAssignmentSpec) : RoleAssignmentSpec := let '(mkRoleAssignmentSpec x0 x1 x2 _ x4) := r in mkRoleAssignmentSpec x0 x1 x2 a x4.
Definition RoleAssignmentSpec_set_RoleID (a : string) (r : RoleAssignmentSpec) : RoleAssignmentSpec := let '(mkRoleAssignmentSpec x0 x1 x2 x3 _) := r in mkRoleAssignmentSpec x0 x1 x2 x3 a.

(** The members of [RoleAssignmentSpec]. *)
Definition RoleAssignmentSpec_fields : list (field RoleAssignmentSpec) :=
  [fld "principal_type" false RoleAssignmentSpec_PrincipalType RoleAssignmentSpec_set_PrincipalType;
   fld "principal_id" false RoleAssignmentSpec_PrincipalID RoleAssignmentSpec_set_PrincipalID;
   fld "scope_type" false RoleAssignmentSpec_ScopeType RoleAssignmentSpec_set_ScopeType;
   fld "scope_id" true RoleAssignmentSpec_ScopeID RoleAssignmentSpec_set_ScopeID;
   fld "role_id" false RoleAssignmentSpec_RoleID RoleAssignmentSpec_set_RoleID].

#[export] Instance RoleAssignmentSpec_coded : Coded RoleAssignmentSpec := struct_coded RoleAssignmentSpec_fields RoleAssignmentSpec_zero.

Lemma RoleAssignmentSpec_struct : struct_ok RoleAssignmentSpec_fields RoleAssignmentSpec_zero.
Proof. struct_laws. Qed.

#[export] Instance RoleAssignmentSpec_ok : CodedOk RoleAssignmentSpec.
Proof. exact (struct_coded_ok _ _ RoleAssignmentSpec_struct). Qed.

#[export] Instance RoleAssignmentSpec_nonnull : NonNull RoleAssignmentSpec.
Proof. apply struct_nonnull. Qed.

Record RoleAssignmentStatus := mkRoleAssignmentStatus {
  RoleAssignmentStatus_Status : Status;
  RoleAssignmentStatus_GrantedBy : string }.

Definition RoleAssignmentStatus_zero : RoleAssignmentStatus := mkRoleAssignmentStatus Status_zero "".

Definition RoleAssignmentStatus_set_Status (a : Status) (r : RoleAssignmentStatus) : RoleAssignmentStatus := let '(mkRoleAssignmentStatus _ x1) := r in mkRoleAssignmentStatus a x1.
Definition RoleAssignmentStatus_set_GrantedBy (a : string) (r : RoleAssignmentStatus) : RoleAssignmentStatus := let '(mkRoleAssignmentStatus x0 _) := r in mkRoleAssignmentStatus x0 a.

(** The members of [RoleAssignmentStatus]. *)
Definition RoleAssignmentStatus_fields : list (field RoleAssignmentStatus) :=
  promote (embed RoleAssignmentStatus_Status RoleAssignmentStatus_set_Status Status_fields)
  [fld "granted_by" true RoleAssignmentStatus_GrantedBy RoleAssignmentStatus_set_GrantedBy].

#[export] Instance RoleAssignmentStatus_coded : Coded RoleAssignmentStatus := struct_coded RoleAssignmentStatus_fields RoleAssignmentStatus_zero.

Lemma RoleAssignmentStatus_struct : struct_ok RoleAssignmentStatus_fields RoleAssignmentStatus_zero.
Proof. struct_laws. Qed.

#[export] Instance RoleAssignmentStatus_ok : CodedOk RoleAssignmentStatus.
Proof. exact (struct_coded_ok _ _ RoleAssignmentStatus_struct). Qed.

#[export] Instance RoleAssignmentStatus_nonnull : NonNull RoleAssignmentStatus.
Proof. apply struct_nonnull. Qed.

Record ResellerSpec := mkResellerSpec {
  ResellerSpec_Name : string }.

Definition ResellerSpec_zero : ResellerSpec := mkResellerSpec "".

Definition ResellerSpec_set_Name (a : string) (r : ResellerSpec) : ResellerSpec := let '(mkResellerSpec _) := r in mkResellerSpec a.

(** The members of [ResellerSpec]. *)
Definition ResellerSpec_fields : list (field ResellerSpec) :=
  [fld "name" false ResellerSpec_Name ResellerSpec_set_Name].

#[export] Instance ResellerSpec_coded : Coded ResellerSpec := struct_coded ResellerSpec_fields ResellerSpec_zero.

Lemma ResellerSpec_struct : struct_ok ResellerSpec_fields ResellerSpec_zero.
Proof. struct_laws. Qed.

#[export] Instance ResellerSpec_ok : CodedOk ResellerSpec.
Proof. exact (struct_coded_ok _ _ ResellerSpec_struct). Qed.

#[export] Instance ResellerSpec_nonnull : NonNull ResellerSpec.
Proof. apply struct_nonnull. Qed.

Record ResellerStatus := mkResellerStatus {
  ResellerStatus_Status : Status;
  ResellerStatus_OrganizationCount : Z }.

Definition ResellerStatus_zero : ResellerStatus := mkResellerStatus Status_zero 0.

Definition ResellerStatus_set_Status (a : Status) (r : ResellerStatus) : ResellerStatus := let '(mkResellerStatus _ x1) := r in mkResellerStatus a x1.
Definition ResellerStatus_set_OrganizationCount (a : Z) (r : ResellerStatus) : ResellerStatus := let '(mkResellerStatus x0 _) := r in mkResellerStatus x0 a.

(** The members of [ResellerStatus]. *)
Definition ResellerStatus_fields : list (field ResellerStatus) :=
  promote (embed ResellerStatus_Status ResellerStatus_set_Status Status_fields)
  [fld "organization_count" true ResellerStatus_OrganizationCount ResellerStatus_set_OrganizationCount].

#[export] Instance ResellerStatus_coded : Coded ResellerStatus := struct_coded ResellerStatus_fields ResellerStatus_zero.

Lemma ResellerStatus_struct : struct_ok ResellerStatus_fields ResellerStatus_zero.
Proof. struct_laws. Qed.

#[export] Instance ResellerStatus_ok : CodedOk ResellerStatus.
Proof. exact (struct_coded_ok _ _ ResellerStatus_struct). Qed.

#[export] Instance ResellerStatus_nonnull : NonNull ResellerStatus.
Proof. apply struct_nonnull. Qed.

Record SecretSpec := mkSecretSpec {
  SecretSpec_ProjectID : string;
  SecretSpec_Name : string;
  SecretSpec_Value : string;
  SecretSpec_ValueEncrypted : string;
  SecretSpec_Scope : string;
  SecretSpec_Type : string;
  SecretSpec_Immutable : bool }.

Definition SecretSpec_zero : SecretSpec := mkSecretSpec "" "" "" "" "" "" false.

Definition SecretSpec_set_ProjectID (a : string) (r : SecretSpec) : SecretSpec := let '(mkSecretSpec _ x1 x2 x3 x4 x5 x6) := r in mkSecretSpec a x1 x2 x3 x4 x5 x6.
Definition SecretSpec_set_Name (a : string) (r : SecretSpec) : SecretSpec := let '(mkSecretSpec x0 _ x2 x3 x4 x5 x6) := r in mkSecretSpec x0 a x2 x3 x4 x5 x6.
Definition SecretSpec_set_Value (a : string) (r : SecretSpec) : SecretSpec := let '(mkSecretSpec x0 x1 _ x3 x4 x5 x6) := r in mkSecretSpec x0 x1 a x3 x4 x5 x6.
Definition SecretSpec_set_ValueEncrypted (a : string) (r : SecretSpec) : SecretSpec := let '(mkSecretSpec x0 x1 x2 _ x4 x5 x6) := r in mkSecretSpec x0 x1 x2 a x4 x5 x6.
Definition SecretSpec_set_Scope (a : string) (r : SecretSpec) : SecretSpec := let '(mkSecretSpec x0 x1 x2 x3 _ x5 x6) := r in mkSecretSpec x0 x1 x2 x3 a x5 x6.
Definition SecretSpec_set_Type (a : string) (r : SecretSpec) : SecretSpec := let '(mkSecretSpec x0 x1 x2 x3 x4 _ x6) := r in mkSecretSpec x0 x1 x2 x3 x4 a x6.
Definition SecretSpec_set_Immutable (a : bool) (r : SecretSpec) : SecretSpec := let '(mkSecretSpec x0 x1 x2 x3 x4 x5 _) := r in mkSecretSpec x0 x1 x2 x3 x4 x5 a.

(** The members of [SecretSpec]. *)
Definition SecretSpec_fields : list (field SecretSpec) :=
  [fld "project_id" false SecretSpec_ProjectID SecretSpec_set_ProjectID;
   fld "name" false SecretSpec_Name SecretSpec_set_Name;
   fld "value" true SecretSpec_Value SecretSpec_set_Value;
   fld "scope" true SecretSpec_Scope SecretSpec_set_Scope;
   fld "type" true SecretSpec_Type SecretSpec_set_Type;
   fld "immutable" true SecretSpec_Immutable SecretSpec_set_Immutable].

#[export] Instance SecretSpec_coded : Coded SecretSpec := struct_coded SecretSpec_fields SecretSpec_zero.

Lemma SecretSpec_struct : struct_ok SecretSpec_fields SecretSpec_zero.
Proof. struct_laws. Qed.

#[export] Instance SecretSpec_ok : CodedOk SecretSpec.
Proof. exact (struct_coded_ok _ _ SecretSpec_struct). Qed.

#[export] Instance SecretSpec_nonnull : NonNull SecretSpec.
Proof. apply struct_nonnull. Qed.

Record SecretStatus := mkSecretStatus {
  SecretStatus_Status : Status;
  SecretStatus_Phase : string;
  SecretStatus_LastRotatedAt : ptr time;
  SecretStatus_RotationPolicy : string;
  SecretStatus_Checksum : string }.

Definition SecretStatus_zero : SecretStatus := mkSecretStatus Status_zero "" None "" "".

Definition SecretStatus_set_Status (a : Status) (r : SecretStatus) : SecretStatus := let '(mkSecretStatus _ x1 x2 x3 x4) := r in mkSecretStatus a x1 x2 x3 x4.
Definition SecretStatus_set_Phase (a : string) (r : SecretStatus) : SecretStatus := let '(mkSecretStatus x0 _ x2 x3 x4) := r in mkSecretStatus x0 a x2 x3 x4.
Definition SecretStatus_set_LastRotatedAt (a : ptr time) (r : SecretStatus) : SecretStatus := let '(mkSecretStatus x0 x1 _ x3 x4) := r in mkSecretStatus x0 x1 a x3 x4.
Definition SecretStatus_set_RotationPolicy (a : string) (r : SecretStatus) : SecretStatus := let '(mkSecretStatus x0 x1 x2 _ x4) := r in mkSecretStatus x0 x1 x2 a x4.
Definition SecretStatus_set_Checksum (a : string) (r : SecretStatus) : SecretStatus := let '(mkSecretStatus x0 x1 x2 x3 _) := r in mkSecretStatus x0 x1 x2 x3 a.

(** The members of [SecretStatus]. *)
Definition SecretStatus_fields : list (field SecretStatus) :=
  promote (embed SecretStatus_Status SecretStatus_set_Status Status_fields)
  [fld "phase" false SecretStatus_Phase SecretStatus_set_Phase;
   fld "last_rotated_at" true SecretStatus_LastRotatedAt SecretStatus_set_LastRotatedAt;
   fld "rotation_policy" true SecretStatus_RotationPolicy SecretStatus_set_RotationPolicy;
   fld "checksum" true SecretStatus_Checksum SecretStatus_set_Checksum].

#[export] Instance SecretStatus_coded : Coded SecretStatus := struct_coded SecretStatus_fields SecretStatus_zero.

Lemma SecretStatus_struct : struct_ok SecretStatus_fields SecretStatus_zero.
Proof. struct_laws. Qed.

#[export] Instance SecretStatus_ok : CodedOk SecretStatus.
Proof. exact (struct_coded_ok _ _ SecretStatus_struct). Qed.

#[export] Instance SecretStatus_nonnull : NonNull SecretStatus.
Proof. apply struct_nonnull. Qed.

Record UserSpec := mkUserSpec {
  UserSpec_Username : string;
  UserSpec_Email : string;
  UserSpec_Role : string;
  UserSpec_PasswordHash : string;
  UserSpec_Salt : string;
  UserSpec_NotifyOptIn : bool;
  UserSpec_Active : bool }.

Definition UserSpec_zero : UserSpec := mkUserSpec "" "" "" "" "" false false.

Definition UserSpec_set_Username (a : string) (r : UserSpec) : UserSpec := let '(mkUserSpec _ x1 x2 x3 x4 x5 x6) := r in mkUserSpec a x1 x2 x3 x4 x5 x6.
Definition UserSpec_set_Email (a : string) (r : UserSpec) : UserSpec := let '(mkUserSpec x0 _ x2 x3 x4 x5 x6) := r in mkUserSpec x0 a x2 x3 x4 x5 x6.
Definition UserSpec_set_Role (a : string) (r : UserSpec) : UserSpec := let '(mkUserSpec x0 x1 _ x3 x4 x5 x6) := r in mkUserSpec x0 x1 a x3 x4 x5 x6.
Definition UserSpec_set_PasswordHash (a : string) (r : UserSpec) : UserSpec := let '(mkUserSpec x0 x1 x2 _ x4 x5 x6) := r in mkUserSpec x0 x1 x2 a x4 x5 x6.
Definition UserSpec_set_Salt (a : string) (r : UserSpec) : UserSpec := let '(mkUserSpec x0 x1 x2 x3 _ x5 x6) := r in mkUserSpec x0 x1 x2 x3 a x5 x6.
Definition UserSpec_set_NotifyOptIn (a : bool) (r : UserSpec) : UserSpec := let '(mkUserSpec x0 x1 x2 x3 x4 _ x6) := r in mkUserSpec x0 x1 x2 x3 x4 a x6.
Definition UserSpec_set_Active (a : bool) (r : UserSpec) : UserSpec := let '(mkUserSpec x0 x1 x2 x3 x4 x5 _) := r in mkUserSpec x0 x1 x2 x3 x4 x5 a.

(** The members of [UserSpec]. *)
Definition UserSpec_fields : list (field UserSpec) :=
  [fld "username" false UserSpec_Username UserSpec_set_Username;
   fld "email" true UserSpec_Email UserSpec_set_Email;
   fld "role" true UserSpec_Role UserSpec_set_Role;
   fld "notify_opt_in" true UserSpec_NotifyOptIn UserSpec_set_NotifyOptIn;
   fld "active" true UserSpec_Active UserSpec_set_Active].

#[export] Instance UserSpec_coded : Coded UserSpec := struct_coded UserSpec_fields UserSpec_zero.

Lemma UserSpec_struct : struct_ok UserSpec_fields UserSpec_zero.
Proof. struct_laws. Qed.

#[export] Instance UserSpec_ok : CodedOk UserSpec.
Proof. exact (struct_coded_ok _ _ UserSpec_struct). Qed.

#[export] Instance UserSpec_nonnull : NonNull UserSpec.
Proof. apply struct_nonnull. Qed.

Record UserStatus := mkUserStatus {
  UserStatus_Status : Status;
  UserStatus_LastLoginAt : ptr time;
  UserStatus_APIKeyCount : Z }.

Definition UserStatus_zero : UserStatus := mkUserStatus Status_zero None 0.

Definition UserStatus_set_Status (a : Status) (r : UserStatus) : UserStatus := let '(mkUserStatus _ x1 x2) := r in mkUserStatus a x1 x2.
Definition UserStatus_set_LastLoginAt (a : ptr time) (r : UserStatus) : UserStatus := let '(mkUserStatus x0 _ x2) := r in mkUserStatus x0 a x2.
Definition UserStatus_set_APIKeyCount (a : Z) (r : UserStatus) : UserStatus := let '(mkUserStatus x0 x1 _) := r in mkUserStatus x0 x1 a.

(** The members of [UserStatus]. *)
Definition UserStatus_fields : list (field UserStatus) :=
  promote (embed UserStatus_Status UserStatus_set_Status Status_fields)
  [fld "last_login_at" true UserStatus_LastLoginAt UserStatus_set_LastLoginAt;
   fld "api_key_count" true UserStatus_APIKeyCount UserStatus_set_APIKeyCount].

#[export] Instance UserStatus_coded : Coded UserStatus := struct_coded UserStatus_fields UserStatus_zero.

Lemma UserStatus_struct : struct_ok UserStatus_fields UserStatus_zero.
Proof. struct_laws. Qed.

#[export] Instance UserStatus_ok : CodedOk UserStatus.
Proof. exact (struct_coded_ok _ _ UserStatus_struct). Qed.

#[export] Instance UserStatus_nonnull : NonNull UserStatus.
Proof. apply struct_nonnull. Qed.

Record VolumeSpec := mkVolumeSpec {
  VolumeSpec_ProjectID : string;
  VolumeSpec_SizeMiB : Z;
  VolumeSpec_StorageClass : string;
  VolumeSpec_Filesystem : string;
  VolumeSpec_Encryption : bool;
  VolumeSpec_IOPS : Z;
  VolumeSpec_ThroughputMBps : Z;
  VolumeSpec_SnapshotPolicy : string;
  VolumeSpec_BackupPolicy : string;
  VolumeSpec_ReplicaCount : Z;
  VolumeSpec_AccessModes : slice string }.

Definition VolumeSpec_zero : VolumeSpec := mkVolumeSpec "" 0 "" "" false 0 0 "" "" 0 None.

Definition VolumeSpec_set_ProjectID (a : string) (r : VolumeSpec) : VolumeSpec := let '(mkVolumeSpec _ x1 x2 x3 x4 x5 x6 x7 x8 x9 x10) := r in mkVolumeSpec a x1 x2 x3 x4 x5 x6 x7 x8 x9 x10.
Definition VolumeSpec_set_SizeMiB (a : Z) (r : VolumeSpec) : VolumeSpec := let '(mkVolumeSpec x0 _ x2 x3 x4 x5 x6 x7 x8 x9 x10) := r in mkVolumeSpec x0 a x2 x3 x4 x5 x6 x7 x8 x9 x10.
Definition VolumeSpec_set_StorageClass (a : string) (r : VolumeSpec) : VolumeSpec := let '(mkVolumeSpec x0 x1 _ x3 x4 x5 x6 x7 x8 x9 x10) := r in mkVolumeSpec x0 x1 a x3 x4 x5 x6 x7 x8 x9 x10.
Definition VolumeSpec_set_Filesystem (a : string) (r : VolumeSpec) : VolumeSpec := let '(mkVolumeSpec x0 x1 x2 _ x4 x5 x6 x7 x8 x9 x10) := r in mkVolumeSpec x0 x1 x2 a x4 x5 x6 x7 x8 x9 x10.
Definition VolumeSpec_set_Encryption (a : bool) (r : VolumeSpec) : VolumeSpec := let '(mkVolumeSpec x0 x1 x2 x3 _ x5 x6 x7 x8 x9 x10) := r in mkVolumeSpec x0 x1 x2 x3 a x5 x6 x7 x8 x9 x10.
Definition VolumeSpec_set_IOPS (a : Z) (r : VolumeSpec) : VolumeSpec := let '(mkVolumeSpec x0 x1 x2 x3 x4 _ x6 x7 x8 x9 x10) := r in mkVolumeSpec x0 x1 x2 x3 x4 a x6 x7 x8 x9 x10.
Definition VolumeSpec_set_ThroughputMBps (a : Z) (r : VolumeSpec) : VolumeSpec := let '(mkVolumeSpec x0 x1 x2 x3 x4 x5 _ x7 x8 x9 x10) := r in mkVolumeSpec x0 x1 x2 x3 x4 x5 a x7 x8 x9 x10.
Definition VolumeSpec_set_SnapshotPolicy (a : string) (r : VolumeSpec) : VolumeSpec := let '(mkVolumeSpec x0 x1 x2 x3 x4 x5 x6 _ x8 x9 x10) := r in mkVolumeSpec x0 x1 x2 x3 x4 x5 x6 a x8 x9 x10.
Definition VolumeSpec_set_BackupPolicy (a : string) (r : VolumeSpec) : VolumeSpec := let '(mkVolumeSpec x0 x1 x2 x3 x4 x5 x6 x7 _ x9 x10) := r in mkVolumeSpec x0 x1 x2 x3 x4 x5 x6 x7 a x9 x10.
Definition VolumeSpec_set_ReplicaCount (a : Z) (r : VolumeSpec) : VolumeSpec := let '(mkVolumeSpec x0 x1 x2 x3 x4 x5 x6 x7 x8 _ x10) := r in mkVolumeSpec x0 x1 x2 x3 x4 x5 x6 x7 x8 a x10.
Definition VolumeSpec_set_AccessModes (a : slice string) (r : VolumeSpec) : VolumeSpec := let '(mkVolumeSpec x0 x1 x2 x3 x4 x5 x6 x7 x8 x9 _) := r in mkVolumeSpec x0 x1 x2 x3 x4 x5 x6 x7 x8 x9 a.

(** The members of [VolumeSpec]. *)
Definition VolumeSpec_fields : list (field VolumeSpec) :=
  [fld "project_id" true VolumeSpec_ProjectID VolumeSpec_set_ProjectID;
   fld "size_mib" false VolumeSpec_SizeMiB VolumeSpec_set_SizeMiB;
   fld "storage_class" true VolumeSpec_StorageClass VolumeSpec_set_StorageClass;
   fld "filesystem" true VolumeSpec_Filesystem VolumeSpec_set_Filesystem;
   fld "encryption" true VolumeSpec_Encryption VolumeSpec_set_Encryption;
   fld "iops" true VolumeSpec_IOPS VolumeSpec_set_IOPS;
   fld "throughput_mbps" true VolumeSpec_ThroughputMBps VolumeSpec_set_ThroughputMBps;
   fld "snapshot_policy" true VolumeSpec_SnapshotPolicy VolumeSpec_set_SnapshotPolicy;
   fld "backup_policy" true VolumeSpec_BackupPolicy VolumeSpec_set_BackupPolicy;
   fld "replica_count" true VolumeSpec_ReplicaCount VolumeSpec_set_ReplicaCount;
   fld "access_modes" true VolumeSpec_AccessModes VolumeSpec_set_AccessModes].

#[export] Instance VolumeSpec_coded : Coded VolumeSpec := struct_coded VolumeSpec_fields VolumeSpec_zero.

Lemma VolumeSpec_struct : struct_ok VolumeSpec_fields VolumeSpec_zero.
Proof. struct_laws. Qed.

#[export] Instance VolumeSpec_ok : CodedOk VolumeSpec.
Proof. exact (struct_coded_ok _ _ VolumeSpec_struct). Qed.

#[export] Instance VolumeSpec_nonnull : NonNull VolumeSpec.
Proof. apply struct_nonnull. Qed.

Record VolumeStatus := mkVolumeStatus {
  VolumeStatus_Status : Status;
  VolumeStatus_Phase : string;
  VolumeStatus_Capacity : Z;
  VolumeStatus_Used : Z;
  VolumeStatus_AttachedTo : string;
  VolumeStatus_DevicePath : string;
  VolumeStatus_MountPath : string;
  VolumeStatus_NodeID : string;
  VolumeStatus_LastSnapshotAt : ptr time;
  VolumeStatus_LastBackupAt : ptr time }.

Definition VolumeStatus_zero : VolumeStatus := mkVolumeStatus Status_zero "" 0 0 "" "" "" "" None None.

Definition VolumeStatus_set_Status (a : Status) (r : VolumeStatus) : VolumeStatus := let '(mkVolumeStatus _ x1 x2 x3 x4 x5 x6 x7 x8 x9) := r in mkVolumeStatus a x1 x2 x3 x4 x5 x6 x7 x8 x9.
Definition VolumeStatus_set_Phase (a : string) (r : VolumeStatus) : VolumeStatus := let '(mkVolumeStatus x0 _ x2 x3 x4 x5 x6 x7 x8 x9) := r in mkVolumeStatus x0 a x2 x3 x4 x5 x6 x7 x8 x9.
Definition VolumeStatus_set_Capacity (a : Z) (r : VolumeStatus) : VolumeStatus := let '(mkVolumeStatus x0 x1 _ x3 x4 x5 x6 x7 x8 x9) := r in mkVolumeStatus x0 x1 a x3 x4 x5 x6 x7 x8 x9.
Definition VolumeStatus_set_Used (a : Z) (r : VolumeStatus) : VolumeStatus := let '(mkVolumeStatus x0 x1 x2 _ x4 x5 x6 x7 x8 x9) := r in mkVolumeStatus x0 x1 x2 a x4 x5 x6 x7 x8 x9.
Definition VolumeStatus_set_AttachedTo (a : string) (r : VolumeStatus) : VolumeStatus := let '(mkVolumeStatus x0 x1 x2 x3 _ x5 x6 x7 x8 x9) := r in mkVolumeStatus x0 x1 x2 x3 a x5 x6 x7 x8 x9.
Definition VolumeStatus_set_DevicePath (a : string) (r : VolumeStatus) : VolumeStatus := let '(mkVolumeStatus x0 x1 x2 x3 x4 _ x6 x7 x8 x9) := r in mkVolumeStatus x0 x1 x2 x3 x4 a x6 x7 x8 x9.
Definition VolumeStatus_set_MountPath (a : string) (r : VolumeStatus) : VolumeStatus := let '(mkVolumeStatus x0 x1 x2 x3 x4 x5 _ x7 x8 x9) := r in mkVolumeStatus x0 x1 x2 x3 x4 x5 a x7 x8 x9.
Definition VolumeStatus_set_NodeID (a : string) (r : VolumeStatus) : VolumeStatus := let '(mkVolumeStatus x0 x1 x2 x3 x4 x5 x6 _ x8 x9) := r in mkVolumeStatus x0 x1 x2 x3 x4 x5 x6 a x8 x9.
Definition VolumeStatus_set_LastSnapshotAt (a : ptr time) (r : VolumeStatus) : VolumeStatus := let '(mkVolumeStatus x0 x1 x2 x3 x4 x5 x6 x7 _ x9) := r in mkVolumeStatus x0 x1 x2 x3 x4 x5 x6 x7 a x9.
Definition VolumeStatus_set_LastBackupAt (a : ptr time) (r : VolumeStatus) : VolumeStatus := let '(mkVolumeStatus x0 x1 x2 x3 x4 x5 x6 x7 x8 _) := r in mkVolumeStatus x0 x1 x2 x3 x4 x5 x6 x7 x8 a.

(** The members of [VolumeStatus]. *)
Definition VolumeStatus_fields : list (field VolumeStatus) :=
  promote (embed VolumeStatus_Status VolumeStatus_set_Status Status_fields)
  [fld "phase" false VolumeStatus_Phase VolumeStatus_set_Phase;
   fld "capacity" false VolumeStatus_Capacity VolumeStatus_set_Capacity;
   fld "used" false VolumeStatus_Used VolumeStatus_set_Used;
   fld "attached_to" true VolumeStatus_AttachedTo VolumeStatus_set_AttachedTo;
   fld "device_path" true VolumeStatus_DevicePath VolumeStatus_set_DevicePath;
   fld "mount_path" true VolumeStatus_MountPath VolumeStatus_set_MountPath;
   fld "node_id" true VolumeStatus_NodeID VolumeStatus_set_NodeID;
   fld "last_snapshot_at" true VolumeStatus_LastSnapshotAt VolumeStatus_set_LastSnapshotAt;
   fld "last_backup_at" true VolumeStatus_LastBackupAt VolumeStatus_set_LastBackupAt].

#[export] Instance VolumeStatus_coded : Coded VolumeStatus := struct_coded VolumeStatus_fields VolumeStatus_zero.

Lemma VolumeStatus_struct : struct_ok VolumeStatus_fields VolumeStatus_zero.
Proof. struct_laws. Qed.

#[export] Instance VolumeStatus_ok : CodedOk VolumeStatus.
Proof. exact (struct_coded_ok _ _ VolumeStatus_struct). Qed.

#[export] Instance VolumeStatus_nonnull : NonNull VolumeStatus.
Proof. apply struct_nonnull. Qed.

Record ObjectRef := mkObjectRef {
  ObjectRef_Kind : string;
  ObjectRef_Namespace : string;
  ObjectRef_Name : string;
  ObjectRef_UID : string }.

Definition ObjectRef_zero : ObjectRef := mkObjectRef "" "" "" "".

Definition ObjectRef_set_Kind (a : string) (r : ObjectRef) : ObjectRef := let '(mkObjectRef _ x1 x2 x3) := r in mkObjectRef a x1 x2 x3.
Definition ObjectRef_set_Namespace (a : string) (r : ObjectRef) : ObjectRef := let '(mkObjectRef x0 _ x2 x3) := r in mkObjectRef x0 a x2 x3.
Definition ObjectRef_set_Name (a : string) (r : ObjectRef) : ObjectRef := let '(mkObjectRef x0 x1 _ x3) := r in mkObjectRef x0 x1 a x3.
Definition ObjectRef_set_UID (a : string) (r : ObjectRef) : ObjectRef := let '(mkObjectRef x0 x1 x2 _) := r in mkObjectRef x0 x1 x2 a.

(** The members of [ObjectRef]. *)
Definition ObjectRef_fields : list (field ObjectRef) :=
  [fld "kind" false ObjectRef_Kind ObjectRef_set_Kind;
   fld "namespace" true ObjectRef_Namespace ObjectRef_set_Namespace;
   fld "name" false ObjectRef_Name ObjectRef_set_Name;
   fld "uid" true ObjectRef_UID ObjectRef_set_UID].

#[export] Instance ObjectRef_coded : Coded ObjectRef := struct_coded ObjectRef_fields ObjectRef_zero.

Lemma ObjectRef_struct : struct_ok ObjectRef_fields ObjectRef_zero.
Proof. struct_laws. Qed.

#[export] Instance ObjectRef_ok : CodedOk ObjectRef.
Proof. exact (struct_coded_ok _ _ ObjectRef_struct). Qed.

#[export] Instance ObjectRef_nonnull : NonNull ObjectRef.
Proof. apply struct_nonnull. Qed.

Record OwnerReference := mkOwnerReference {
  OwnerReference_APIVersion : string;
  OwnerReference_Kind : string;
  OwnerReference_Name : string;
  OwnerReference_UID : string;
  OwnerReference_Controller : ptr bool;
  OwnerReference_BlockOwnerDeletion : ptr bool }.

Definition OwnerReference_zero : OwnerReference := mkOwnerReference "" "" "" "" None None.

Definition OwnerReference_set_APIVersion (a : string) (r : OwnerReference) : OwnerReference := let '(mkOwnerReference _ x1 x2 x3 x4 x5) := r in mkOwnerReference a x1 x2 x3 x4 x5.
Definition OwnerReference_set_Kind (a : string) (r : OwnerReference) : OwnerReference := let '(mkOwnerReference x0 _ x2 x3 x4 x5) := r in mkOwnerReference x0 a x2 x3 x4 x5.
Definition OwnerReference_set_Name (a : string) (r : OwnerReference) : OwnerReference := let '(mkOwnerReference x0 x1 _ x3 x4 x5) := r in mkOwnerReference x0 x1 a x3 x4 x5.
Definition OwnerReference_set_UID (a : string) (r : OwnerReference) : OwnerReference := let '(mkOwnerReference x0 x1 x2 _ x4 x5) := r in mkOwnerReference x0 x1 x2 a x4 x5.
Definition OwnerReference_set_Controller (a : ptr bool) (r : OwnerReference) : OwnerReference := let '(mkOwnerReference x0 x1 x2 x3 _ x5) := r in mkOwnerReference x0 x1 x2 x3 a x5.
Definition OwnerReference_set_BlockOwnerDeletion (a : ptr bool) (r : OwnerReference) : OwnerReference := let '(mkOwnerReference x0 x1 x2 x3 x4 _) := r in mkOwnerReference x0 x1 x2 x3 x4 a.

(** The members of [OwnerReference]. *)
Definition OwnerReference_fields : list (field OwnerReference) :=
  [fld "api_version" false OwnerReference_APIVersion OwnerReference_set_APIVersion;
   fld "kind" false OwnerReference_Kind OwnerReference_set_Kind;
   fld "name" false OwnerReference_Name OwnerReference_set_Name;
   fld "uid" false OwnerReference_UID OwnerReference_set_UID;
   fld "controller" true OwnerReference_Controller OwnerReference_set_Controller;
   fld "block_owner_deletion" true OwnerReference_BlockOwnerDeletion OwnerReference_set_BlockOwnerDeletion].

#[export] Instance OwnerReference_coded : Coded OwnerReference := struct_coded OwnerReference_fields OwnerReference_zero.

Lemma OwnerReference_struct : struct_ok OwnerReference_fields OwnerReference_zero.
Proof. struct_laws. Qed.

#[export] Instance OwnerReference_ok : CodedOk OwnerReference.
Proof. exact (struct_coded_ok _ _ OwnerReference_struct). Qed.

#[export] Instance OwnerReference_nonnull : NonNull OwnerReference.
Proof. apply struct_nonnull. Qed.

(** ** The interface and the envelopes *)

Class Resource (R : Type) := {
  SpecType : Type;
  GetMetadata : R -> Metadata;
  GetSpec : R -> SpecType;
  GetStatus : R -> Status;
  SetStatus : Status -> R -> R;
  GetKind : string }.
Arguments GetKind _ {_}.

(** The status is a view of the resource: what is set is read back, setting what is
    there changes nothing, the last setting counts, and nothing else changes. *)
Class ResourceOk (R : Type) `{Resource R} : Prop := {
  get_set s r : GetStatus (SetStatus s r) = s;
  set_get r : SetStatus (GetStatus r) r = r;
  set_set s s' r : SetStatus s (SetStatus s' r) = SetStatus s r;
  set_metadata s r : GetMetadata (SetStatus s r) = GetMetadata r;
  set_spec s r : GetSpec (SetStatus s r) = GetSpec r }.

(** [NewMetadata], at an instant and with the identifier the generator gives. *)
Definition NewMetadata (uuid : string) (now : time) (name namespace : string) : Metadata :=
  mkMetadata uuid name namespace (Some ∅) (Some ∅) now now 0.

(** Every kind is a struct of metadata, spec and status. *)
Record Envelope (P T : Type) := mkEnvelope { Env_Metadata : Metadata; Env_Spec : P; Env_Status : T }.
Arguments mkEnvelope {P T} _ _ _.
Arguments Env_Metadata {P T} _.
Arguments Env_Spec {P T} _.
Arguments Env_Status {P T} _.

Section Envelope.
Context {P T : Type} `{Coded P} `{Coded T}.

Definition Envelope_fields : list (field (Envelope P T)) :=
  [fld "metadata" false Env_Metadata (fun m r => mkEnvelope m (Env_Spec r) (Env_Status r));
   fld "spec" false Env_Spec (fun p r => mkEnvelope (Env_Metadata r) p (Env_Status r));
   fld "status" false Env_Status (fun t r => mkEnvelope (Env_Metadata r) (Env_Spec r) t)].

#[export] Instance Envelope_coded : Coded (Envelope P T) := struct_coded Envelope_fields (mkEnvelope Metadata_zero zero zero).

Context `{!CodedOk P} `{!CodedOk T}.

Lemma Envelope_struct : struct_ok Envelope_fields (mkEnvelope Metadata_zero zero zero).
Proof. struct_laws. Qed.

#[export] Instance Envelope_ok : CodedOk (Envelope P T).
Proof. exact (struct_coded_ok _ _ Envelope_struct). Qed.
End Envelope.

(** ** The kinds *)

Definition Replica : Type := Envelope ReplicaSpec ReplicaStatus.

#[export] Instance Resource_Replica : Resource Replica := {|
  SpecType := ReplicaSpec;
  GetMetadata := Env_Metadata;
  GetSpec := Env_Spec;
  GetStatus r := ReplicaStatus_Status (Env_Status r);
  SetStatus s r := mkEnvelope (Env_Metadata r) (Env_Spec r) (ReplicaStatus_set_Status s (Env_Status r));
  GetKind := KindReplica |}.

Definition Project : Type := Envelope ProjectSpec ProjectStatus.

#[export] Instance Resource_Project : Resource Project := {|
  SpecType := ProjectSpec;
  GetMetadata := Env_Metadata;
  GetSpec := Env_Spec;
  GetStatus r := ProjectStatus_Status (Env_Status r);
  SetStatus s r := mkEnvelope (Env_Metadata r) (Env_Spec r) (ProjectStatus_set_Status s (Env_Status r));
  GetKind := KindProject |}.

Definition APIKey : Type := Envelope APIKeySpec APIKeyStatus.

#[export] Instance Resource_APIKey : Resource APIKey := {|
  SpecType := APIKeySpec;
  GetMetadata := Env_Metadata;
  GetSpec := Env_Spec;
  GetStatus r := APIKeyStatus_Status (Env_Status r);
  SetStatus s r := mkEnvelope (Env_Metadata r) (Env_Spec r) (APIKeyStatus_set_Status s (Env_Status r));
  GetKind := KindAPIKey |}.

Definition Build : Type := Envelope BuildSpec BuildStatus.

#[export] Instance Resource_Build : Resource Build := {|
  SpecType := BuildSpec;
  GetMetadata := Env_Metadata;
  GetSpec := Env_Spec;
  GetStatus r := BuildStatus_Status (Env_Status r);
  SetStatus s r := mkEnvelope (Env_Metadata r) (Env_Spec r) (BuildStatus_set_Status s (Env_Status r));
  GetKind := KindBuild |}.

Definition Certificate : Type := Envelope CertificateSpec CertificateStatus.

#[export] Instance Resource_Certificate : Resource Certificate := {|
  SpecType := CertificateSpec;
  GetMetadata := Env_Metadata;
  GetSpec := Env_Spec;
  GetStatus r := CertificateStatus_Status (Env_Status r);
  SetStatus s r := mkEnvelope (Env_Metadata r) (Env_Spec r) (CertificateStatus_set_Status s (Env_Status r));
  GetKind := KindCertificate |}.

Definition Deployment : Type := Envelope DeploymentSpec DeploymentStatus.

#[export] Instance Resource_Deployment : Resource Deployment := {|
  SpecType := DeploymentSpec;
  GetMetadata := Env_Metadata;
  GetSpec := Env_Spec;
  GetStatus r := DeploymentStatus_Status (Env_Status r);
  SetStatus s r := mkEnvelope (Env_Metadata r) (Env_Spec r) (DeploymentStatus_set_Status s (Env_Status r));
  GetKind := KindDeployment |}.

Definition Domain : Type := Envelope DomainSpec DomainStatus.

#[export] Instance Resource_Domain : Resource Domain := {|
  SpecType := DomainSpec;
  GetMetadata := Env_Metadata;
  GetSpec := Env_Spec;
  GetStatus r := DomainStatus_Status (Env_Status r);
  SetStatus s r := mkEnvelope (Env_Metadata r) (Env_Spec r) (DomainStatus_set_Status s (Env_Status r));
  GetKind := KindDomain |}.

Definition Image : Type := Envelope ImageSpec ImageStatus.

#[export] Instance Resource_Image : Resource Image := {|
  SpecType := ImageSpec;
  GetMetadata := Env_Metadata;
  GetSpec := Env_Spec;
  GetStatus r := ImageStatus_Status (Env_Status r);
  SetStatus s r := mkEnvelope (Env_Metadata r) (Env_Spec r) (ImageStatus_set_Status s (Env_Status r));
  GetKind := KindImage |}.

Definition MicroVM : Type := Envelope MicroVMSpec MicroVMStatus.

#[export] Instance Resource_MicroVM : Resource MicroVM := {|
  SpecType := MicroVMSpec;
  GetMetadata := Env_Metadata;
  GetSpec := Env_Spec;
  GetStatus r := MicroVMStatus_Status (Env_Status r);
  SetStatus s r := mkEnvelope (Env_Metadata r) (Env_Spec r) (MicroVMStatus_set_Status s (Env_Status r));
  GetKind := KindMicroVM |}.

Definition IPAllocation : Type := Envelope IPAllocationSpec IPAllocationStatus.

#[export] Instance Resource_IPAllocation : Resource IPAllocation := {|
  SpecType := IPAllocationSpec;
  GetMetadata := Env_Metadata;
  GetSpec := Env_Spec;
  GetStatus r := IPAllocationStatus_Status (Env_Status r);
  SetStatus s r := mkEnvelope (Env_Metadata r) (Env_Spec r) (IPAllocationStatus_set_Status s (Env_Status r));
  GetKind := KindIPAllocation |}.

Definition Network : Type := Envelope NetworkSpec NetworkStatus.

#[export] Instance Resource_Network : Resource Network := {|
  SpecType := NetworkSpec;
  GetMetadata := Env_Metadata;
  GetSpec := Env_Spec;
  GetStatus r := NetworkStatus_Status (Env_Status r);
  SetStatus s r := mkEnvelope (Env_Metadata r) (Env_Spec r) (NetworkStatus_set_Status s (Env_Status r));
  GetKind := KindNetwork |}.

Definition Node : Type := Envelope NodeSpec NodeStatus.

#[export] Instance Resource_Node : Resource Node := {|
  SpecType := NodeSpec;
  GetMetadata := Env_Metadata;
  GetSpec := Env_Spec;
  GetStatus r := NodeStatus_Status (Env_Status r);
  SetStatus s r := mkEnvelope (Env_Metadata r) (Env_Spec r) (NodeStatus_set_Status s (Env_Status r));
  GetKind := KindNode |}.

Definition Org : Type := Envelope OrgSpec OrgStatus.

#[export] Instance Resource_Org : Resource Org := {|
  SpecType := OrgSpec;
  GetMetadata := Env_Metadata;
  GetSpec := Env_Spec;
  GetStatus r := OrgStatus_Status (Env_Status r);
  SetStatus s r := mkEnvelope (Env_Metadata r) (Env_Spec r) (OrgStatus_set_Status s (Env_Status r));
  GetKind := KindOrg |}.

Definition Team : Type := Envelope TeamSpec TeamStatus.

#[export] Instance Resource_Team : Resource Team := {|
  SpecType := TeamSpec;
  GetMetadata := Env_Metadata;
  GetSpec := Env_Spec;
  GetStatus r := TeamStatus_Status (Env_Status r);
  SetStatus s r := mkEnvelope (Env_Metadata r) (Env_Spec r) (TeamStatus_set_Status s (Env_Status r));
  GetKind := KindTeam |}.

Definition RoleAssignment : Type := Envelope RoleAssignmentSpec RoleAssignmentStatus.

#[export] Instance Resource_RoleAssignment : Resource RoleAssignment := {|
  SpecType := RoleAssignmentSpec;
  GetMetadata := Env_Metadata;
  GetSpec := Env_Spec;
  GetStatus r := RoleAssignmentStatus_Status (Env_Status r);
  SetStatus s r := mkEnvelope (Env_Metadata r) (Env_Spec r) (RoleAssignmentStatus_set_Status s (Env_Status r));
  GetKind := KindRoleAssignment |}.

Definition Reseller : Type := Envelope ResellerSpec ResellerStatus.

#[export] Instance Resource_Reseller : Resource Reseller := {|
  SpecType := ResellerSpec;
  GetMetadata := Env_Metadata;
  GetSpec := Env_Spec;
  GetStatus r := ResellerStatus_Status (Env_Status r);
  SetStatus s r := mkEnvelope (Env_Metadata r) (Env_Spec r) (ResellerStatus_set_Status s (Env_Status r));
  GetKind := KindReseller |}.

Definition Secret : Type := Envelope SecretSpec SecretStatus.

#[export] Instance Resource_Secret : Resource Secret := {|
  SpecType := SecretSpec;
  GetMetadata := Env_Metadata;
  GetSpec := Env_Spec;
  GetStatus r := SecretStatus_Status (Env_Status r);
  SetStatus s r := mkEnvelope (Env_Metadata r) (Env_Spec r) (SecretStatus_set_Status s (Env_Status r));
  GetKind := KindSecret |}.

Definition User : Type := Envelope UserSpec UserStatus.

#[export] Instance Resource_User : Resource User := {|
  SpecType := UserSpec;
  GetMetadata := Env_Metadata;
  GetSpec := Env_Spec;
  GetStatus r := UserStatus_Status (Env_Status r);
  SetStatus s r := mkEnvelope (Env_Metadata r) (Env_Spec r) (UserStatus_set_Status s (Env_Status r));
  GetKind := KindUser |}.

Definition Volume : Type := Envelope VolumeSpec VolumeStatus.

#[export] Instance Resource_Volume : Resource Volume := {|
  SpecType := VolumeSpec;
  GetMetadata := Env_Metadata;
  GetSpec := Env_Spec;
  GetStatus r := VolumeStatus_Status (Env_Status r);
  SetStatus s r := mkEnvelope (Env_Metadata r) (Env_Spec r) (VolumeStatus_set_Status s (Env_Status r));
  GetKind := KindVolume |}.

(** ** All kinds *)

Inductive Kind :=
| KReplica
| KProject
| KAPIKey
| KBuild
| KCertificate
| KDeployment
| KDomain
| KImage
| KMicroVM
| KIPAllocation
| KNetwork
| KNode
| KOrg
| KTeam
| KRoleAssignment
| KReseller
| KSecret
| KUser
| KVolume.

Definition carrier (k : Kind) : Type :=
  match k with
  | KReplica => Replica
  | KProject => Project
  | KAPIKey => APIKey
  | KBuild => Build
  | KCertificate => Certificate
  | KDeployment => Deployment
  | KDomain => Domain
  | KImage => Image
  | KMicroVM => MicroVM
  | KIPAllocation => IPAllocation
  | KNetwork => Network
  | KNode => Node
  | KOrg => Org
  | KTeam => Team
  | KRoleAssignment => RoleAssignment
  | KReseller => Reseller
  | KSecret => Secret
  | KUser => User
  | KVolume => Volume
  end.

#[export] Instance carrier_resource (k : Kind) : Resource (carrier k) :=
  match k with
  | KReplica => Resource_Replica
  | KProject => Resource_Project
  | KAPIKey => Resource_APIKey
  | KBuild => Resource_Build
  | KCertificate => Resource_Certificate
  | KDeployment => Resource_Deployment
  | KDomain => Resource_Domain
  | KImage => Resource_Image
  | KMicroVM => Resource_MicroVM
  | KIPAllocation => Resource_IPAllocation
  | KNetwork => Resource_Network
  | KNode => Resource_Node
  | KOrg => Resource_Org
  | KTeam => Resource_Team
  | KRoleAssignment => Resource_RoleAssignment
  | KReseller => Resource_Reseller
  | KSecret => Resource_Secret
  | KUser => Resource_User
  | KVolume => Resource_Volume
  end.

#[export] Instance carrier_coded (k : Kind) : Coded (carrier k) :=
  match k with
  | KReplica => Envelope_coded
  | KProject => Envelope_coded
  | KAPIKey => Envelope_coded
  | KBuild => Envelope_coded
  | KCertificate => Envelope_coded
  | KDeployment => Envelope_coded
  | KDomain => Envelope_coded
  | KImage => Envelope_coded
  | KMicroVM => Envelope_coded
  | KIPAllocation => Envelope_coded
  | KNetwork => Envelope_coded
  | KNode => Envelope_coded
  | KOrg => Envelope_coded
  | KTeam => Envelope_coded
  | KRoleAssignment => Envelope_coded
  | KReseller => Envelope_coded
  | KSecret => Envelope_coded
  | KUser => Envelope_coded
  | KVolume => Envelope_coded
  end.

#[export] Instance carrier_coded_ok (k : Kind) : CodedOk (carrier k).
Proof. destruct k; apply Envelope_ok. Qed.

#[export] Instance carrier_resource_ok (k : Kind) : ResourceOk (carrier k).
Proof. destruct k; split; intros; repeat match goal with r : carrier _ |- _ => destruct r as [? ? []] end; reflexivity. Qed.

(** [json.Marshal] and [json.Unmarshal] into a new value. *)
Definition Marshal {k : Kind} (r : carrier k) : option Json := enc r.
Definition Unmarshal {k : Kind} (j : Json) : option (carrier k) := dec j zero.

(** The fields tagged "-": hashes, salts and ciphertexts. *)
Definition hide {k : Kind} : carrier k -> carrier k :=
  match k with
  | KUser => fun r => mkEnvelope (Env_Metadata r) (UserSpec_set_PasswordHash "" (UserSpec_set_Salt "" (Env_Spec r))) (Env_Status r)
  | KAPIKey => fun r => mkEnvelope (Env_Metadata r) (APIKeySpec_set_TokenHash "" (Env_Spec r)) (Env_Status r)
  | KSecret => fun r => mkEnvelope (Env_Metadata r) (SecretSpec_set_ValueEncrypted "" (Env_Spec r)) (Env_Status r)
  | _ => fun r => r
  end.

(** ** Theorems *)

(** The same entries, whether or not there is a map. *)
Definition entries (m : gomap string) : gmap string string := match m with Some m => m | None => ∅ end.

Lemma reread_entries (m : gomap string) : entries (if empty m then zero else norm m) = entries m.
Proof.
  destruct m as [m|]; [|done]. cbn. case_bool_decide as E; [by rewrite E|]. cbn. apply map_fmap_id.
Qed.

(** Two metadata that differ at most in nil or empty maps. *)
Record same_metadata (m m' : Metadata) : Prop := {
  sm_id : Metadata_ID m' = Metadata_ID m;
  sm_name : Metadata_Name m' = Metadata_Name m;
  sm_namespace : Metadata_Namespace m' = Metadata_Namespace m;
  sm_labels : entries (Metadata_Labels m') = entries (Metadata_Labels m);
  sm_annotations : entries (Metadata_Annotations m') = entries (Metadata_Annotations m);
  sm_created : Metadata_CreatedAt m' = Metadata_CreatedAt m;
  sm_updated : Metadata_UpdatedAt m' = Metadata_UpdatedAt m;
  sm_version : Metadata_Version m' = Metadata_Version m }.

Lemma norm_metadata m : same_metadata m (norm m).
Proof.
  destruct m. split; [reflexivity..| | | |reflexivity|reflexivity|].
  - exact (reread_string _).
  - exact (reread_entries _).
  - exact (reread_entries _).
  - exact (reread_int _).
Qed.

Lemma GetMetadata_norm {k : Kind} (r : carrier k) : GetMetadata (norm r) = norm (GetMetadata r).
Proof. destruct k; reflexivity. Qed.

Lemma hide_norm {k : Kind} (r : carrier k) : hide (norm r) = norm r.
Proof. destruct k; reflexivity. Qed.

(** Envelopes are written the same when their specs and statuses are. *)
Lemma Envelope_same {P T} `{Coded P, Coded T} (m : Metadata) (p p' : P) (t t' : T) :
  enc p = enc p' -> enc t = enc t' -> enc (mkEnvelope m p t) = enc (mkEnvelope m p' t').
Proof. intros Hp Ht. cbn. by rewrite Hp, Ht. Qed.

Ltac same_fields := apply struct_same;
  repeat (apply Forall_cons; split; [reflexivity|]); apply Forall_nil; exact I.

Lemma Marshal_hide {k : Kind} (r : carrier k) : Marshal (hide r) = Marshal r.
Proof. destruct k; try reflexivity; destruct r as [? [] ?]; unfold Marshal; cbn -[enc]; (apply Envelope_same; [same_fields|reflexivity]). Qed.


(** The kind tells the type. *)
Definition all_kinds : list Kind :=
  [KReplica; KProject; KAPIKey; KBuild; KCertificate; KDeployment; KDomain; KImage; KMicroVM; KIPAllocation; KNetwork; KNode; KOrg; KTeam; KRoleAssignment; KReseller; KSecret; KUser; KVolume].

Definition kind_of (name : string) : option Kind := find_first (fun k => GetKind (carrier k) ==? name) all_kinds.

Lemma kind_of_GetKind k : kind_of (GetKind (carrier k)) = Some k.
Proof. destruct k; vm_compute; reflexivity. Qed.

Lemma kinds_distinct k k' : GetKind (carrier k) = GetKind (carrier k') -> k = k'.
Proof. intros E%(f_equal kind_of). rewrite !kind_of_GetKind in E. by injection E. Qed.

(** Seven status structs have a [Phase] of their own: the one the interface sets is
    shadowed, and setting it changes nothing anyone reads in JSON. *)
Definition shadows_phase (k : Kind) : bool :=
  match k with KNode | KNetwork | KDomain | KBuild | KCertificate | KSecret | KVolume => true | _ => false end.

Lemma set_phase_unseen k (r : carrier k) phase :
  shadows_phase k = true -> Marshal (SetStatus (Status_set_Phase phase (GetStatus r)) r) = Marshal r.
Proof. destruct k; try discriminate; intros _; destruct r as [? ? [[] ]]; unfold Marshal; cbn -[enc]; (apply Envelope_same; [reflexivity|same_fields]). Qed.

(** A deployment keeps two counts of ready replicas; the interface sets the hidden one. *)
Lemma deployment_ready_unseen (r : carrier KDeployment) n :
  Marshal (SetStatus (Status_set_ReadyReplicas n (GetStatus r)) r) = Marshal r.
Proof. destruct r as [? ? [[] ]]. unfold Marshal. cbn -[enc]. apply Envelope_same; [reflexivity|same_fields]. Qed.

(** The plaintext of a secret, unlike its ciphertext, is written. *)
Lemma secret_value_written (p : SecretSpec) v :
  v <> "" -> enc (A := SecretSpec) (SecretSpec_set_Value v p) <> enc (A := SecretSpec) (SecretSpec_set_Value "" p).
Proof.
  intros Hv. destruct p as [pid n v0 ve sc ty im]. cbn. rewrite (bool_decide_false (v = "")) by done. cbn.
  by repeat case_match.
Qed.

(** ** Witness *)

Definition ann_user : carrier KUser :=
  mkEnvelope (NewMetadata "u-1" (days_of 2025 3 1 * day) "ann" "acme") (mkUserSpec "ann" "ann@example.com" "admin" "hash" "salt" true true)
    (mkUserStatus (mkStatus (Some [mkCondition "Ready" "True" (days_of 2025 3 1 * day) "" "" 0]) "" "" 0 0 0) None 2).


End resource.
