(* ===== verification/Types.v ===== *)
(** * The domain types of [internal/types/types.go]

    Field for field: a Go [int] is a 64-bit [Z], a [time.Time] the number of
    nanoseconds since the zero time as a [Z], a pointer that may be nil an
    [option], a Go map a [gmap]. A field [F] of a struct [T] is the projection
    [T_F] (with the short prefixes [HC], [Pool], [AS], [Proj], [Dom], [TE],
    [Srv], [Dep], [Chk], [HE], [FR], [Bld], [Rec], [OM], [PM], [Key], [Met], [Man], [WV],
    [Vol], [HB], [GI], [Sec], [Grp], [Stk], [Al], [Fb], [Dr], [Rd], [Ev], [Net] and
    [Perm]); an assignment [v.F = x] is
    [T_set_F x v]. *)
From S2P Require Import Prelude GoNum.
From Stdlib Require Import SpecFloat.

Record Port := mkPort {
  Port_ContainerPort : Z;
  Port_HostPort : Z;
  Port_Protocol : string
}.

#[export] Instance Port_eq_dec : EqDecision Port.
Proof. solve_decision. Defined.

Record Healthcheck := mkHealthcheck {
  HC_Type : string;
  HC_Path : string;
  HC_Port : Z;
  HC_IntervalSec : Z
}.

#[export] Instance Healthcheck_eq_dec : EqDecision Healthcheck.
Proof. solve_decision. Defined.

Definition HC_set_Port (x : Z) (v : Healthcheck) : Healthcheck :=
  {|
     HC_Type := HC_Type v; HC_Path := HC_Path v; HC_Port := x;
     HC_IntervalSec := HC_IntervalSec v |}.

Definition HC_set_IntervalSec (x : Z) (v : Healthcheck) : Healthcheck :=
  {|
     HC_Type := HC_Type v; HC_Path := HC_Path v; HC_Port := HC_Port v; HC_IntervalSec := x |}.

Record VM := mkVM {
  VM_ID : string;
  VM_Name : string;
  VM_ProjectID : string;
  VM_ServiceName : string;
  VM_State : string;
  VM_HealthStatus : string;
  VM_ReplicaIndex : Z;
  VM_Image : string;
  VM_RootfsPath : string;
  VM_Kernel : string;
  VM_ContainerID : string;
  VM_TaskID : string;
  VM_VCPUs : Z;
  VM_MemMiB : Z;
  VM_IPAddress : string;
  VM_Ports : list Port;
  VM_Env : gmap string string;
  VM_VolumeID : string;
  VM_Healthcheck : option Healthcheck;
  VM_Restart : string;
  VM_Error : string;
  VM_Crashed : bool;
  VM_SnapshotPath : string;
  VM_SnapshotMemPath : string;
  VM_DeploymentID : string;
  VM_DeploymentVersion : string;
  VM_DeploymentEnv : string;
  VM_GuestBase : string;
  VM_SnapshotStatus : string;
  VM_SnapshotError : string;
  VM_SnapshotCreatedAt : option Z;
  VM_LastRecoveredAt : option Z;
  VM_RecoveryCount : Z;
  VM_CreatedAt : Z;
  VM_StartedAt : option Z
}.

(** The zero value of [types.VM]. *)
Definition VM_zero : VM :=
  mkVM "" "" "" "" "" "" 0%Z "" "" "" "" "" 0%Z 0%Z "" [] ∅ "" None "" "" false "" "" "" "" "" "" "" "" None None 0%Z 0%Z None.

Definition VM_set_ID (x : string) (v : VM) : VM :=
  {|
     VM_ID := x; VM_Name := VM_Name v; VM_ProjectID := VM_ProjectID v;
     VM_ServiceName := VM_ServiceName v; VM_State := VM_State v;
     VM_HealthStatus := VM_HealthStatus v; VM_ReplicaIndex := VM_ReplicaIndex v;
     VM_Image := VM_Image v; VM_RootfsPath := VM_RootfsPath v; VM_Kernel := VM_Kernel v;
     VM_ContainerID := VM_ContainerID v; VM_TaskID := VM_TaskID v; VM_VCPUs := VM_VCPUs v;
     VM_MemMiB := VM_MemMiB v; VM_IPAddress := VM_IPAddress v; VM_Ports := VM_Ports v;
     VM_Env := VM_Env v; VM_VolumeID := VM_VolumeID v; VM_Healthcheck := VM_Healthcheck v;
     VM_Restart := VM_Restart v; VM_Error := VM_Error v; VM_Crashed := VM_Crashed v;
     VM_SnapshotPath := VM_SnapshotPath v; VM_SnapshotMemPath := VM_SnapshotMemPath v;
     VM_DeploymentID := VM_DeploymentID v; VM_DeploymentVersion := VM_DeploymentVersion v;
     VM_DeploymentEnv := VM_DeploymentEnv v; VM_GuestBase := VM_GuestBase v;
     VM_SnapshotStatus := VM_SnapshotStatus v; VM_SnapshotError := VM_SnapshotError v;
     VM_SnapshotCreatedAt := VM_SnapshotCreatedAt v;
     VM_LastRecoveredAt := VM_LastRecoveredAt v; VM_RecoveryCount := VM_RecoveryCount v;
     VM_CreatedAt := VM_CreatedAt v; VM_StartedAt := VM_StartedAt v |}.

Definition VM_set_Name (x : string) (v : VM) : VM :=
  {|
     VM_ID := VM_ID v; VM_Name := x; VM_ProjectID := VM_ProjectID v;
     VM_ServiceName := VM_ServiceName v; VM_State := VM_State v;
     VM_HealthStatus := VM_HealthStatus v; VM_ReplicaIndex := VM_ReplicaIndex v;
     VM_Image := VM_Image v; VM_RootfsPath := VM_RootfsPath v; VM_Kernel := VM_Kernel v;
     VM_ContainerID := VM_ContainerID v; VM_TaskID := VM_TaskID v; VM_VCPUs := VM_VCPUs v;
     VM_MemMiB := VM_MemMiB v; VM_IPAddress := VM_IPAddress v; VM_Ports := VM_Ports v;
     VM_Env := VM_Env v; VM_VolumeID := VM_VolumeID v; VM_Healthcheck := VM_Healthcheck v;
     VM_Restart := VM_Restart v; VM_Error := VM_Error v; VM_Crashed := VM_Crashed v;
     VM_SnapshotPath := VM_SnapshotPath v; VM_SnapshotMemPath := VM_SnapshotMemPath v;
     VM_DeploymentID := VM_DeploymentID v; VM_DeploymentVersion := VM_DeploymentVersion v;
     VM_DeploymentEnv := VM_DeploymentEnv v; VM_GuestBase := VM_GuestBase v;
     VM_SnapshotStatus := VM_SnapshotStatus v; VM_SnapshotError := VM_SnapshotError v;
     VM_SnapshotCreatedAt := VM_SnapshotCreatedAt v;
     VM_LastRecoveredAt := VM_LastRecoveredAt v; VM_RecoveryCount := VM_RecoveryCount v;
     VM_CreatedAt := VM_CreatedAt v; VM_StartedAt := VM_StartedAt v |}.

Definition VM_set_Image (x : string) (v : VM) : VM :=
  {|
     VM_ID := VM_ID v; VM_Name := VM_Name v; VM_ProjectID := VM_ProjectID v;
     VM_ServiceName := VM_ServiceName v; VM_State := VM_State v;
     VM_HealthStatus := VM_HealthStatus v; VM_ReplicaIndex := VM_ReplicaIndex v;
     VM_Image := x; VM_RootfsPath := VM_RootfsPath v; VM_Kernel := VM_Kernel v;
     VM_ContainerID := VM_ContainerID v; VM_TaskID := VM_TaskID v; VM_VCPUs := VM_VCPUs v;
     VM_MemMiB := VM_MemMiB v; VM_IPAddress := VM_IPAddress v; VM_Ports := VM_Ports v;
     VM_Env := VM_Env v; VM_VolumeID := VM_VolumeID v; VM_Healthcheck := VM_Healthcheck v;
     VM_Restart := VM_Restart v; VM_Error := VM_Error v; VM_Crashed := VM_Crashed v;
     VM_SnapshotPath := VM_SnapshotPath v; VM_SnapshotMemPath := VM_SnapshotMemPath v;
     VM_DeploymentID := VM_DeploymentID v; VM_DeploymentVersion := VM_DeploymentVersion v;
     VM_DeploymentEnv := VM_DeploymentEnv v; VM_GuestBase := VM_GuestBase v;
     VM_SnapshotStatus := VM_SnapshotStatus v; VM_SnapshotError := VM_SnapshotError v;
     VM_SnapshotCreatedAt := VM_SnapshotCreatedAt v;
     VM_LastRecoveredAt := VM_LastRecoveredAt v; VM_RecoveryCount := VM_RecoveryCount v;
     VM_CreatedAt := VM_CreatedAt v; VM_StartedAt := VM_StartedAt v |}.

Definition VM_set_CreatedAt (x : Z) (v : VM) : VM :=
  {|
     VM_ID := VM_ID v; VM_Name := VM_Name v; VM_ProjectID := VM_ProjectID v;
     VM_ServiceName := VM_ServiceName v; VM_State := VM_State v;
     VM_HealthStatus := VM_HealthStatus v; VM_ReplicaIndex := VM_ReplicaIndex v;
     VM_Image := VM_Image v; VM_RootfsPath := VM_RootfsPath v; VM_Kernel := VM_Kernel v;
     VM_ContainerID := VM_ContainerID v; VM_TaskID := VM_TaskID v; VM_VCPUs := VM_VCPUs v;
     VM_MemMiB := VM_MemMiB v; VM_IPAddress := VM_IPAddress v; VM_Ports := VM_Ports v;
     VM_Env := VM_Env v; VM_VolumeID := VM_VolumeID v; VM_Healthcheck := VM_Healthcheck v;
     VM_Restart := VM_Restart v; VM_Error := VM_Error v; VM_Crashed := VM_Crashed v;
     VM_SnapshotPath := VM_SnapshotPath v; VM_SnapshotMemPath := VM_SnapshotMemPath v;
     VM_DeploymentID := VM_DeploymentID v; VM_DeploymentVersion := VM_DeploymentVersion v;
     VM_DeploymentEnv := VM_DeploymentEnv v; VM_GuestBase := VM_GuestBase v;
     VM_SnapshotStatus := VM_SnapshotStatus v; VM_SnapshotError := VM_SnapshotError v;
     VM_SnapshotCreatedAt := VM_SnapshotCreatedAt v;
     VM_LastRecoveredAt := VM_LastRecoveredAt v; VM_RecoveryCount := VM_RecoveryCount v;
     VM_CreatedAt := x; VM_StartedAt := VM_StartedAt v |}.

Definition VM_set_ProjectID (x : string) (v : VM) : VM :=
  {|
     VM_ID := VM_ID v; VM_Name := VM_Name v; VM_ProjectID := x;
     VM_ServiceName := VM_ServiceName v; VM_State := VM_State v;
     VM_HealthStatus := VM_HealthStatus v; VM_ReplicaIndex := VM_ReplicaIndex v;
     VM_Image := VM_Image v; VM_RootfsPath := VM_RootfsPath v; VM_Kernel := VM_Kernel v;
     VM_ContainerID := VM_ContainerID v; VM_TaskID := VM_TaskID v; VM_VCPUs := VM_VCPUs v;
     VM_MemMiB := VM_MemMiB v; VM_IPAddress := VM_IPAddress v; VM_Ports := VM_Ports v;
     VM_Env := VM_Env v; VM_VolumeID := VM_VolumeID v; VM_Healthcheck := VM_Healthcheck v;
     VM_Restart := VM_Restart v; VM_Error := VM_Error v; VM_Crashed := VM_Crashed v;
     VM_SnapshotPath := VM_SnapshotPath v; VM_SnapshotMemPath := VM_SnapshotMemPath v;
     VM_DeploymentID := VM_DeploymentID v; VM_DeploymentVersion := VM_DeploymentVersion v;
     VM_DeploymentEnv := VM_DeploymentEnv v; VM_GuestBase := VM_GuestBase v;
     VM_SnapshotStatus := VM_SnapshotStatus v; VM_SnapshotError := VM_SnapshotError v;
     VM_SnapshotCreatedAt := VM_SnapshotCreatedAt v;
     VM_LastRecoveredAt := VM_LastRecoveredAt v; VM_RecoveryCount := VM_RecoveryCount v;
     VM_CreatedAt := VM_CreatedAt v; VM_StartedAt := VM_StartedAt v |}.

Definition VM_set_ServiceName (x : string) (v : VM) : VM :=
  {|
     VM_ID := VM_ID v; VM_Name := VM_Name v; VM_ProjectID := VM_ProjectID v;
     VM_ServiceName := x; VM_State := VM_State v; VM_HealthStatus := VM_HealthStatus v;
     VM_ReplicaIndex := VM_ReplicaIndex v; VM_Image := VM_Image v;
     VM_RootfsPath := VM_RootfsPath v; VM_Kernel := VM_Kernel v;
     VM_ContainerID := VM_ContainerID v; VM_TaskID := VM_TaskID v; VM_VCPUs := VM_VCPUs v;
     VM_MemMiB := VM_MemMiB v; VM_IPAddress := VM_IPAddress v; VM_Ports := VM_Ports v;
     VM_Env := VM_Env v; VM_VolumeID := VM_VolumeID v; VM_Healthcheck := VM_Healthcheck v;
     VM_Restart := VM_Restart v; VM_Error := VM_Error v; VM_Crashed := VM_Crashed v;
     VM_SnapshotPath := VM_SnapshotPath v; VM_SnapshotMemPath := VM_SnapshotMemPath v;
     VM_DeploymentID := VM_DeploymentID v; VM_DeploymentVersion := VM_DeploymentVersion v;
     VM_DeploymentEnv := VM_DeploymentEnv v; VM_GuestBase := VM_GuestBase v;
     VM_SnapshotStatus := VM_SnapshotStatus v; VM_SnapshotError := VM_SnapshotError v;
     VM_SnapshotCreatedAt := VM_SnapshotCreatedAt v;
     VM_LastRecoveredAt := VM_LastRecoveredAt v; VM_RecoveryCount := VM_RecoveryCount v;
     VM_CreatedAt := VM_CreatedAt v; VM_StartedAt := VM_StartedAt v |}.

Definition VM_set_ReplicaIndex (x : Z) (v : VM) : VM :=
  {|
     VM_ID := VM_ID v; VM_Name := VM_Name v; VM_ProjectID := VM_ProjectID v;
     VM_ServiceName := VM_ServiceName v; VM_State := VM_State v;
     VM_HealthStatus := VM_HealthStatus v; VM_ReplicaIndex := x; VM_Image := VM_Image v;
     VM_RootfsPath := VM_RootfsPath v; VM_Kernel := VM_Kernel v;
     VM_ContainerID := VM_ContainerID v; VM_TaskID := VM_TaskID v; VM_VCPUs := VM_VCPUs v;
     VM_MemMiB := VM_MemMiB v; VM_IPAddress := VM_IPAddress v; VM_Ports := VM_Ports v;
     VM_Env := VM_Env v; VM_VolumeID := VM_VolumeID v; VM_Healthcheck := VM_Healthcheck v;
     VM_Restart := VM_Restart v; VM_Error := VM_Error v; VM_Crashed := VM_Crashed v;
     VM_SnapshotPath := VM_SnapshotPath v; VM_SnapshotMemPath := VM_SnapshotMemPath v;
     VM_DeploymentID := VM_DeploymentID v; VM_DeploymentVersion := VM_DeploymentVersion v;
     VM_DeploymentEnv := VM_DeploymentEnv v; VM_GuestBase := VM_GuestBase v;
     VM_SnapshotStatus := VM_SnapshotStatus v; VM_SnapshotError := VM_SnapshotError v;
     VM_SnapshotCreatedAt := VM_SnapshotCreatedAt v;
     VM_LastRecoveredAt := VM_LastRecoveredAt v; VM_RecoveryCount := VM_RecoveryCount v;
     VM_CreatedAt := VM_CreatedAt v; VM_StartedAt := VM_StartedAt v |}.

Definition VM_set_Ports (x : list Port) (v : VM) : VM :=
  {|
     VM_ID := VM_ID v; VM_Name := VM_Name v; VM_ProjectID := VM_ProjectID v;
     VM_ServiceName := VM_ServiceName v; VM_State := VM_State v;
     VM_HealthStatus := VM_HealthStatus v; VM_ReplicaIndex := VM_ReplicaIndex v;
     VM_Image := VM_Image v; VM_RootfsPath := VM_RootfsPath v; VM_Kernel := VM_Kernel v;
     VM_ContainerID := VM_ContainerID v; VM_TaskID := VM_TaskID v; VM_VCPUs := VM_VCPUs v;
     VM_MemMiB := VM_MemMiB v; VM_IPAddress := VM_IPAddress v; VM_Ports := x;
     VM_Env := VM_Env v; VM_VolumeID := VM_VolumeID v; VM_Healthcheck := VM_Healthcheck v;
     VM_Restart := VM_Restart v; VM_Error := VM_Error v; VM_Crashed := VM_Crashed v;
     VM_SnapshotPath := VM_SnapshotPath v; VM_SnapshotMemPath := VM_SnapshotMemPath v;
     VM_DeploymentID := VM_DeploymentID v; VM_DeploymentVersion := VM_DeploymentVersion v;
     VM_DeploymentEnv := VM_DeploymentEnv v; VM_GuestBase := VM_GuestBase v;
     VM_SnapshotStatus := VM_SnapshotStatus v; VM_SnapshotError := VM_SnapshotError v;
     VM_SnapshotCreatedAt := VM_SnapshotCreatedAt v;
     VM_LastRecoveredAt := VM_LastRecoveredAt v; VM_RecoveryCount := VM_RecoveryCount v;
     VM_CreatedAt := VM_CreatedAt v; VM_StartedAt := VM_StartedAt v |}.

Definition VM_set_DeploymentID (x : string) (v : VM) : VM :=
  {|
     VM_ID := VM_ID v; VM_Name := VM_Name v; VM_ProjectID := VM_ProjectID v;
     VM_ServiceName := VM_ServiceName v; VM_State := VM_State v;
     VM_HealthStatus := VM_HealthStatus v; VM_ReplicaIndex := VM_ReplicaIndex v;
     VM_Image := VM_Image v; VM_RootfsPath := VM_RootfsPath v; VM_Kernel := VM_Kernel v;
     VM_ContainerID := VM_ContainerID v; VM_TaskID := VM_TaskID v; VM_VCPUs := VM_VCPUs v;
     VM_MemMiB := VM_MemMiB v; VM_IPAddress := VM_IPAddress v; VM_Ports := VM_Ports v;
     VM_Env := VM_Env v; VM_VolumeID := VM_VolumeID v; VM_Healthcheck := VM_Healthcheck v;
     VM_Restart := VM_Restart v; VM_Error := VM_Error v; VM_Crashed := VM_Crashed v;
     VM_SnapshotPath := VM_SnapshotPath v; VM_SnapshotMemPath := VM_SnapshotMemPath v;
     VM_DeploymentID := x; VM_DeploymentVersion := VM_DeploymentVersion v;
     VM_DeploymentEnv := VM_DeploymentEnv v; VM_GuestBase := VM_GuestBase v;
     VM_SnapshotStatus := VM_SnapshotStatus v; VM_SnapshotError := VM_SnapshotError v;
     VM_SnapshotCreatedAt := VM_SnapshotCreatedAt v;
     VM_LastRecoveredAt := VM_LastRecoveredAt v; VM_RecoveryCount := VM_RecoveryCount v;
     VM_CreatedAt := VM_CreatedAt v; VM_StartedAt := VM_StartedAt v |}.

Definition VM_set_DeploymentVersion (x : string) (v : VM) : VM :=
  {|
     VM_ID := VM_ID v; VM_Name := VM_Name v; VM_ProjectID := VM_ProjectID v;
     VM_ServiceName := VM_ServiceName v; VM_State := VM_State v;
     VM_HealthStatus := VM_HealthStatus v; VM_ReplicaIndex := VM_ReplicaIndex v;
     VM_Image := VM_Image v; VM_RootfsPath := VM_RootfsPath v; VM_Kernel := VM_Kernel v;
     VM_ContainerID := VM_ContainerID v; VM_TaskID := VM_TaskID v; VM_VCPUs := VM_VCPUs v;
     VM_MemMiB := VM_MemMiB v; VM_IPAddress := VM_IPAddress v; VM_Ports := VM_Ports v;
     VM_Env := VM_Env v; VM_VolumeID := VM_VolumeID v; VM_Healthcheck := VM_Healthcheck v;
     VM_Restart := VM_Restart v; VM_Error := VM_Error v; VM_Crashed := VM_Crashed v;
     VM_SnapshotPath := VM_SnapshotPath v; VM_SnapshotMemPath := VM_SnapshotMemPath v;
     VM_DeploymentID := VM_DeploymentID v; VM_DeploymentVersion := x;
     VM_DeploymentEnv := VM_DeploymentEnv v; VM_GuestBase := VM_GuestBase v;
     VM_SnapshotStatus := VM_SnapshotStatus v; VM_SnapshotError := VM_SnapshotError v;
     VM_SnapshotCreatedAt := VM_SnapshotCreatedAt v;
     VM_LastRecoveredAt := VM_LastRecoveredAt v; VM_RecoveryCount := VM_RecoveryCount v;
     VM_CreatedAt := VM_CreatedAt v; VM_StartedAt := VM_StartedAt v |}.

Definition VM_set_Restart (x : string) (v : VM) : VM :=
  {|
     VM_ID := VM_ID v; VM_Name := VM_Name v; VM_ProjectID := VM_ProjectID v;
     VM_ServiceName := VM_ServiceName v; VM_State := VM_State v;
     VM_HealthStatus := VM_HealthStatus v; VM_ReplicaIndex := VM_ReplicaIndex v;
     VM_Image := VM_Image v; VM_RootfsPath := VM_RootfsPath v; VM_Kernel := VM_Kernel v;
     VM_ContainerID := VM_ContainerID v; VM_TaskID := VM_TaskID v; VM_VCPUs := VM_VCPUs v;
     VM_MemMiB := VM_MemMiB v; VM_IPAddress := VM_IPAddress v; VM_Ports := VM_Ports v;
     VM_Env := VM_Env v; VM_VolumeID := VM_VolumeID v; VM_Healthcheck := VM_Healthcheck v;
     VM_Restart := x; VM_Error := VM_Error v; VM_Crashed := VM_Crashed v;
     VM_SnapshotPath := VM_SnapshotPath v; VM_SnapshotMemPath := VM_SnapshotMemPath v;
     VM_DeploymentID := VM_DeploymentID v; VM_DeploymentVersion := VM_DeploymentVersion v;
     VM_DeploymentEnv := VM_DeploymentEnv v; VM_GuestBase := VM_GuestBase v;
     VM_SnapshotStatus := VM_SnapshotStatus v; VM_SnapshotError := VM_SnapshotError v;
     VM_SnapshotCreatedAt := VM_SnapshotCreatedAt v;
     VM_LastRecoveredAt := VM_LastRecoveredAt v; VM_RecoveryCount := VM_RecoveryCount v;
     VM_CreatedAt := VM_CreatedAt v; VM_StartedAt := VM_StartedAt v |}.

Definition VM_set_Healthcheck (x : option Healthcheck) (v : VM) : VM :=
  {|
     VM_ID := VM_ID v; VM_Name := VM_Name v; VM_ProjectID := VM_ProjectID v;
     VM_ServiceName := VM_ServiceName v; VM_State := VM_State v;
     VM_HealthStatus := VM_HealthStatus v; VM_ReplicaIndex := VM_ReplicaIndex v;
     VM_Image := VM_Image v; VM_RootfsPath := VM_RootfsPath v; VM_Kernel := VM_Kernel v;
     VM_ContainerID := VM_ContainerID v; VM_TaskID := VM_TaskID v; VM_VCPUs := VM_VCPUs v;
     VM_MemMiB := VM_MemMiB v; VM_IPAddress := VM_IPAddress v; VM_Ports := VM_Ports v;
     VM_Env := VM_Env v; VM_VolumeID := VM_VolumeID v; VM_Healthcheck := x;
     VM_Restart := VM_Restart v; VM_Error := VM_Error v; VM_Crashed := VM_Crashed v;
     VM_SnapshotPath := VM_SnapshotPath v; VM_SnapshotMemPath := VM_SnapshotMemPath v;
     VM_DeploymentID := VM_DeploymentID v; VM_DeploymentVersion := VM_DeploymentVersion v;
     VM_DeploymentEnv := VM_DeploymentEnv v; VM_GuestBase := VM_GuestBase v;
     VM_SnapshotStatus := VM_SnapshotStatus v; VM_SnapshotError := VM_SnapshotError v;
     VM_SnapshotCreatedAt := VM_SnapshotCreatedAt v;
     VM_LastRecoveredAt := VM_LastRecoveredAt v; VM_RecoveryCount := VM_RecoveryCount v;
     VM_CreatedAt := VM_CreatedAt v; VM_StartedAt := VM_StartedAt v |}.

Definition VM_set_SnapshotStatus (x : string) (v : VM) : VM :=
  {|
     VM_ID := VM_ID v; VM_Name := VM_Name v; VM_ProjectID := VM_ProjectID v;
     VM_ServiceName := VM_ServiceName v; VM_State := VM_State v;
     VM_HealthStatus := VM_HealthStatus v; VM_ReplicaIndex := VM_ReplicaIndex v;
     VM_Image := VM_Image v; VM_RootfsPath := VM_RootfsPath v; VM_Kernel := VM_Kernel v;
     VM_ContainerID := VM_ContainerID v; VM_TaskID := VM_TaskID v; VM_VCPUs := VM_VCPUs v;
     VM_MemMiB := VM_MemMiB v; VM_IPAddress := VM_IPAddress v; VM_Ports := VM_Ports v;
     VM_Env := VM_Env v; VM_VolumeID := VM_VolumeID v; VM_Healthcheck := VM_Healthcheck v;
     VM_Restart := VM_Restart v; VM_Error := VM_Error v; VM_Crashed := VM_Crashed v;
     VM_SnapshotPath := VM_SnapshotPath v; VM_SnapshotMemPath := VM_SnapshotMemPath v;
     VM_DeploymentID := VM_DeploymentID v; VM_DeploymentVersion := VM_DeploymentVersion v;
     VM_DeploymentEnv := VM_DeploymentEnv v; VM_GuestBase := VM_GuestBase v;
     VM_SnapshotStatus := x; VM_SnapshotError := VM_SnapshotError v;
     VM_SnapshotCreatedAt := VM_SnapshotCreatedAt v;
     VM_LastRecoveredAt := VM_LastRecoveredAt v; VM_RecoveryCount := VM_RecoveryCount v;
     VM_CreatedAt := VM_CreatedAt v; VM_StartedAt := VM_StartedAt v |}.

Definition VM_set_SnapshotError (x : string) (v : VM) : VM :=
  {|
     VM_ID := VM_ID v; VM_Name := VM_Name v; VM_ProjectID := VM_ProjectID v;
     VM_ServiceName := VM_ServiceName v; VM_State := VM_State v;
     VM_HealthStatus := VM_HealthStatus v; VM_ReplicaIndex := VM_ReplicaIndex v;
     VM_Image := VM_Image v; VM_RootfsPath := VM_RootfsPath v; VM_Kernel := VM_Kernel v;
     VM_ContainerID := VM_ContainerID v; VM_TaskID := VM_TaskID v; VM_VCPUs := VM_VCPUs v;
     VM_MemMiB := VM_MemMiB v; VM_IPAddress := VM_IPAddress v; VM_Ports := VM_Ports v;
     VM_Env := VM_Env v; VM_VolumeID := VM_VolumeID v; VM_Healthcheck := VM_Healthcheck v;
     VM_Restart := VM_Restart v; VM_Error := VM_Error v; VM_Crashed := VM_Crashed v;
     VM_SnapshotPath := VM_SnapshotPath v; VM_SnapshotMemPath := VM_SnapshotMemPath v;
     VM_DeploymentID := VM_DeploymentID v; VM_DeploymentVersion := VM_DeploymentVersion v;
     VM_DeploymentEnv := VM_DeploymentEnv v; VM_GuestBase := VM_GuestBase v;
     VM_SnapshotStatus := VM_SnapshotStatus v; VM_SnapshotError := x;
     VM_SnapshotCreatedAt := VM_SnapshotCreatedAt v;
     VM_LastRecoveredAt := VM_LastRecoveredAt v; VM_RecoveryCount := VM_RecoveryCount v;
     VM_CreatedAt := VM_CreatedAt v; VM_StartedAt := VM_StartedAt v |}.

Definition VM_set_SnapshotPath (x : string) (v : VM) : VM :=
  {|
     VM_ID := VM_ID v; VM_Name := VM_Name v; VM_ProjectID := VM_ProjectID v;
     VM_ServiceName := VM_ServiceName v; VM_State := VM_State v;
     VM_HealthStatus := VM_HealthStatus v; VM_ReplicaIndex := VM_ReplicaIndex v;
     VM_Image := VM_Image v; VM_RootfsPath := VM_RootfsPath v; VM_Kernel := VM_Kernel v;
     VM_ContainerID := VM_ContainerID v; VM_TaskID := VM_TaskID v; VM_VCPUs := VM_VCPUs v;
     VM_MemMiB := VM_MemMiB v; VM_IPAddress := VM_IPAddress v; VM_Ports := VM_Ports v;
     VM_Env := VM_Env v; VM_VolumeID := VM_VolumeID v; VM_Healthcheck := VM_Healthcheck v;
     VM_Restart := VM_Restart v; VM_Error := VM_Error v; VM_Crashed := VM_Crashed v;
     VM_SnapshotPath := x; VM_SnapshotMemPath := VM_SnapshotMemPath v;
     VM_DeploymentID := VM_DeploymentID v; VM_DeploymentVersion := VM_DeploymentVersion v;
     VM_DeploymentEnv := VM_DeploymentEnv v; VM_GuestBase := VM_GuestBase v;
     VM_SnapshotStatus := VM_SnapshotStatus v; VM_SnapshotError := VM_SnapshotError v;
     VM_SnapshotCreatedAt := VM_SnapshotCreatedAt v;
     VM_LastRecoveredAt := VM_LastRecoveredAt v; VM_RecoveryCount := VM_RecoveryCount v;
     VM_CreatedAt := VM_CreatedAt v; VM_StartedAt := VM_StartedAt v |}.

Definition VM_set_SnapshotMemPath (x : string) (v : VM) : VM :=
  {|
     VM_ID := VM_ID v; VM_Name := VM_Name v; VM_ProjectID := VM_ProjectID v;
     VM_ServiceName := VM_ServiceName v; VM_State := VM_State v;
     VM_HealthStatus := VM_HealthStatus v; VM_ReplicaIndex := VM_ReplicaIndex v;
     VM_Image := VM_Image v; VM_RootfsPath := VM_RootfsPath v; VM_Kernel := VM_Kernel v;
     VM_ContainerID := VM_ContainerID v; VM_TaskID := VM_TaskID v; VM_VCPUs := VM_VCPUs v;
     VM_MemMiB := VM_MemMiB v; VM_IPAddress := VM_IPAddress v; VM_Ports := VM_Ports v;
     VM_Env := VM_Env v; VM_VolumeID := VM_VolumeID v; VM_Healthcheck := VM_Healthcheck v;
     VM_Restart := VM_Restart v; VM_Error := VM_Error v; VM_Crashed := VM_Crashed v;
     VM_SnapshotPath := VM_SnapshotPath v; VM_SnapshotMemPath := x;
     VM_DeploymentID := VM_DeploymentID v; VM_DeploymentVersion := VM_DeploymentVersion v;
     VM_DeploymentEnv := VM_DeploymentEnv v; VM_GuestBase := VM_GuestBase v;
     VM_SnapshotStatus := VM_SnapshotStatus v; VM_SnapshotError := VM_SnapshotError v;
     VM_SnapshotCreatedAt := VM_SnapshotCreatedAt v;
     VM_LastRecoveredAt := VM_LastRecoveredAt v; VM_RecoveryCount := VM_RecoveryCount v;
     VM_CreatedAt := VM_CreatedAt v; VM_StartedAt := VM_StartedAt v |}.

Definition VM_set_SnapshotCreatedAt (x : option Z) (v : VM) : VM :=
  {|
     VM_ID := VM_ID v; VM_Name := VM_Name v; VM_ProjectID := VM_ProjectID v;
     VM_ServiceName := VM_ServiceName v; VM_State := VM_State v;
     VM_HealthStatus := VM_HealthStatus v; VM_ReplicaIndex := VM_ReplicaIndex v;
     VM_Image := VM_Image v; VM_RootfsPath := VM_RootfsPath v; VM_Kernel := VM_Kernel v;
     VM_ContainerID := VM_ContainerID v; VM_TaskID := VM_TaskID v; VM_VCPUs := VM_VCPUs v;
     VM_MemMiB := VM_MemMiB v; VM_IPAddress := VM_IPAddress v; VM_Ports := VM_Ports v;
     VM_Env := VM_Env v; VM_VolumeID := VM_VolumeID v; VM_Healthcheck := VM_Healthcheck v;
     VM_Restart := VM_Restart v; VM_Error := VM_Error v; VM_Crashed := VM_Crashed v;
     VM_SnapshotPath := VM_SnapshotPath v; VM_SnapshotMemPath := VM_SnapshotMemPath v;
     VM_DeploymentID := VM_DeploymentID v; VM_DeploymentVersion := VM_DeploymentVersion v;
     VM_DeploymentEnv := VM_DeploymentEnv v; VM_GuestBase := VM_GuestBase v;
     VM_SnapshotStatus := VM_SnapshotStatus v; VM_SnapshotError := VM_SnapshotError v;
     VM_SnapshotCreatedAt := x; VM_LastRecoveredAt := VM_LastRecoveredAt v;
     VM_RecoveryCount := VM_RecoveryCount v; VM_CreatedAt := VM_CreatedAt v;
     VM_StartedAt := VM_StartedAt v |}.

Definition VM_set_State (x : string) (v : VM) : VM :=
  {|
     VM_ID := VM_ID v; VM_Name := VM_Name v; VM_ProjectID := VM_ProjectID v;
     VM_ServiceName := VM_ServiceName v; VM_State := x; VM_HealthStatus := VM_HealthStatus v;
     VM_ReplicaIndex := VM_ReplicaIndex v; VM_Image := VM_Image v;
     VM_RootfsPath := VM_RootfsPath v; VM_Kernel := VM_Kernel v;
     VM_ContainerID := VM_ContainerID v; VM_TaskID := VM_TaskID v; VM_VCPUs := VM_VCPUs v;
     VM_MemMiB := VM_MemMiB v; VM_IPAddress := VM_IPAddress v; VM_Ports := VM_Ports v;
     VM_Env := VM_Env v; VM_VolumeID := VM_VolumeID v; VM_Healthcheck := VM_Healthcheck v;
     VM_Restart := VM_Restart v; VM_Error := VM_Error v; VM_Crashed := VM_Crashed v;
     VM_SnapshotPath := VM_SnapshotPath v; VM_SnapshotMemPath := VM_SnapshotMemPath v;
     VM_DeploymentID := VM_DeploymentID v; VM_DeploymentVersion := VM_DeploymentVersion v;
     VM_DeploymentEnv := VM_DeploymentEnv v; VM_GuestBase := VM_GuestBase v;
     VM_SnapshotStatus := VM_SnapshotStatus v; VM_SnapshotError := VM_SnapshotError v;
     VM_SnapshotCreatedAt := VM_SnapshotCreatedAt v;
     VM_LastRecoveredAt := VM_LastRecoveredAt v; VM_RecoveryCount := VM_RecoveryCount v;
     VM_CreatedAt := VM_CreatedAt v; VM_StartedAt := VM_StartedAt v |}.

Definition VM_set_HealthStatus (x : string) (v : VM) : VM :=
  {|
     VM_ID := VM_ID v; VM_Name := VM_Name v; VM_ProjectID := VM_ProjectID v;
     VM_ServiceName := VM_ServiceName v; VM_State := VM_State v; VM_HealthStatus := x;
     VM_ReplicaIndex := VM_ReplicaIndex v; VM_Image := VM_Image v;
     VM_RootfsPath := VM_RootfsPath v; VM_Kernel := VM_Kernel v;
     VM_ContainerID := VM_ContainerID v; VM_TaskID := VM_TaskID v; VM_VCPUs := VM_VCPUs v;
     VM_MemMiB := VM_MemMiB v; VM_IPAddress := VM_IPAddress v; VM_Ports := VM_Ports v;
     VM_Env := VM_Env v; VM_VolumeID := VM_VolumeID v; VM_Healthcheck := VM_Healthcheck v;
     VM_Restart := VM_Restart v; VM_Error := VM_Error v; VM_Crashed := VM_Crashed v;
     VM_SnapshotPath := VM_SnapshotPath v; VM_SnapshotMemPath := VM_SnapshotMemPath v;
     VM_DeploymentID := VM_DeploymentID v; VM_DeploymentVersion := VM_DeploymentVersion v;
     VM_DeploymentEnv := VM_DeploymentEnv v; VM_GuestBase := VM_GuestBase v;
     VM_SnapshotStatus := VM_SnapshotStatus v; VM_SnapshotError := VM_SnapshotError v;
     VM_SnapshotCreatedAt := VM_SnapshotCreatedAt v;
     VM_LastRecoveredAt := VM_LastRecoveredAt v; VM_RecoveryCount := VM_RecoveryCount v;
     VM_CreatedAt := VM_CreatedAt v; VM_StartedAt := VM_StartedAt v |}.

Definition VM_set_Error (x : string) (v : VM) : VM :=
  {|
     VM_ID := VM_ID v; VM_Name := VM_Name v; VM_ProjectID := VM_ProjectID v;
     VM_ServiceName := VM_ServiceName v; VM_State := VM_State v;
     VM_HealthStatus := VM_HealthStatus v; VM_ReplicaIndex := VM_ReplicaIndex v;
     VM_Image := VM_Image v; VM_RootfsPath := VM_RootfsPath v; VM_Kernel := VM_Kernel v;
     VM_ContainerID := VM_ContainerID v; VM_TaskID := VM_TaskID v; VM_VCPUs := VM_VCPUs v;
     VM_MemMiB := VM_MemMiB v; VM_IPAddress := VM_IPAddress v; VM_Ports := VM_Ports v;
     VM_Env := VM_Env v; VM_VolumeID := VM_VolumeID v; VM_Healthcheck := VM_Healthcheck v;
     VM_Restart := VM_Restart v; VM_Error := x; VM_Crashed := VM_Crashed v;
     VM_SnapshotPath := VM_SnapshotPath v; VM_SnapshotMemPath := VM_SnapshotMemPath v;
     VM_DeploymentID := VM_DeploymentID v; VM_DeploymentVersion := VM_DeploymentVersion v;
     VM_DeploymentEnv := VM_DeploymentEnv v; VM_GuestBase := VM_GuestBase v;
     VM_SnapshotStatus := VM_SnapshotStatus v; VM_SnapshotError := VM_SnapshotError v;
     VM_SnapshotCreatedAt := VM_SnapshotCreatedAt v;
     VM_LastRecoveredAt := VM_LastRecoveredAt v; VM_RecoveryCount := VM_RecoveryCount v;
     VM_CreatedAt := VM_CreatedAt v; VM_StartedAt := VM_StartedAt v |}.

Definition VM_set_IPAddress (x : string) (v : VM) : VM :=
  {|
     VM_ID := VM_ID v; VM_Name := VM_Name v; VM_ProjectID := VM_ProjectID v;
     VM_ServiceName := VM_ServiceName v; VM_State := VM_State v;
     VM_HealthStatus := VM_HealthStatus v; VM_ReplicaIndex := VM_ReplicaIndex v;
     VM_Image := VM_Image v; VM_RootfsPath := VM_RootfsPath v; VM_Kernel := VM_Kernel v;
     VM_ContainerID := VM_ContainerID v; VM_TaskID := VM_TaskID v; VM_VCPUs := VM_VCPUs v;
     VM_MemMiB := VM_MemMiB v; VM_IPAddress := x; VM_Ports := VM_Ports v; VM_Env := VM_Env v;
     VM_VolumeID := VM_VolumeID v; VM_Healthcheck := VM_Healthcheck v;
     VM_Restart := VM_Restart v; VM_Error := VM_Error v; VM_Crashed := VM_Crashed v;
     VM_SnapshotPath := VM_SnapshotPath v; VM_SnapshotMemPath := VM_SnapshotMemPath v;
     VM_DeploymentID := VM_DeploymentID v; VM_DeploymentVersion := VM_DeploymentVersion v;
     VM_DeploymentEnv := VM_DeploymentEnv v; VM_GuestBase := VM_GuestBase v;
     VM_SnapshotStatus := VM_SnapshotStatus v; VM_SnapshotError := VM_SnapshotError v;
     VM_SnapshotCreatedAt := VM_SnapshotCreatedAt v;
     VM_LastRecoveredAt := VM_LastRecoveredAt v; VM_RecoveryCount := VM_RecoveryCount v;
     VM_CreatedAt := VM_CreatedAt v; VM_StartedAt := VM_StartedAt v |}.

Definition VM_set_Crashed (x : bool) (v : VM) : VM :=
  {|
     VM_ID := VM_ID v; VM_Name := VM_Name v; VM_ProjectID := VM_ProjectID v;
     VM_ServiceName := VM_ServiceName v; VM_State := VM_State v;
     VM_HealthStatus := VM_HealthStatus v; VM_ReplicaIndex := VM_ReplicaIndex v;
     VM_Image := VM_Image v; VM_RootfsPath := VM_RootfsPath v; VM_Kernel := VM_Kernel v;
     VM_ContainerID := VM_ContainerID v; VM_TaskID := VM_TaskID v; VM_VCPUs := VM_VCPUs v;
     VM_MemMiB := VM_MemMiB v; VM_IPAddress := VM_IPAddress v; VM_Ports := VM_Ports v;
     VM_Env := VM_Env v; VM_VolumeID := VM_VolumeID v; VM_Healthcheck := VM_Healthcheck v;
     VM_Restart := VM_Restart v; VM_Error := VM_Error v; VM_Crashed := x;
     VM_SnapshotPath := VM_SnapshotPath v; VM_SnapshotMemPath := VM_SnapshotMemPath v;
     VM_DeploymentID := VM_DeploymentID v; VM_DeploymentVersion := VM_DeploymentVersion v;
     VM_DeploymentEnv := VM_DeploymentEnv v; VM_GuestBase := VM_GuestBase v;
     VM_SnapshotStatus := VM_SnapshotStatus v; VM_SnapshotError := VM_SnapshotError v;
     VM_SnapshotCreatedAt := VM_SnapshotCreatedAt v;
     VM_LastRecoveredAt := VM_LastRecoveredAt v; VM_RecoveryCount := VM_RecoveryCount v;
     VM_CreatedAt := VM_CreatedAt v; VM_StartedAt := VM_StartedAt v |}.

Definition VM_set_RecoveryCount (x : Z) (v : VM) : VM :=
  {|
     VM_ID := VM_ID v; VM_Name := VM_Name v; VM_ProjectID := VM_ProjectID v;
     VM_ServiceName := VM_ServiceName v; VM_State := VM_State v;
     VM_HealthStatus := VM_HealthStatus v; VM_ReplicaIndex := VM_ReplicaIndex v;
     VM_Image := VM_Image v; VM_RootfsPath := VM_RootfsPath v; VM_Kernel := VM_Kernel v;
     VM_ContainerID := VM_ContainerID v; VM_TaskID := VM_TaskID v; VM_VCPUs := VM_VCPUs v;
     VM_MemMiB := VM_MemMiB v; VM_IPAddress := VM_IPAddress v; VM_Ports := VM_Ports v;
     VM_Env := VM_Env v; VM_VolumeID := VM_VolumeID v; VM_Healthcheck := VM_Healthcheck v;
     VM_Restart := VM_Restart v; VM_Error := VM_Error v; VM_Crashed := VM_Crashed v;
     VM_SnapshotPath := VM_SnapshotPath v; VM_SnapshotMemPath := VM_SnapshotMemPath v;
     VM_DeploymentID := VM_DeploymentID v; VM_DeploymentVersion := VM_DeploymentVersion v;
     VM_DeploymentEnv := VM_DeploymentEnv v; VM_GuestBase := VM_GuestBase v;
     VM_SnapshotStatus := VM_SnapshotStatus v; VM_SnapshotError := VM_SnapshotError v;
     VM_SnapshotCreatedAt := VM_SnapshotCreatedAt v;
     VM_LastRecoveredAt := VM_LastRecoveredAt v; VM_RecoveryCount := x;
     VM_CreatedAt := VM_CreatedAt v; VM_StartedAt := VM_StartedAt v |}.

Definition VM_set_LastRecoveredAt (x : option Z) (v : VM) : VM :=
  {|
     VM_ID := VM_ID v; VM_Name := VM_Name v; VM_ProjectID := VM_ProjectID v;
     VM_ServiceName := VM_ServiceName v; VM_State := VM_State v;
     VM_HealthStatus := VM_HealthStatus v; VM_ReplicaIndex := VM_ReplicaIndex v;
     VM_Image := VM_Image v; VM_RootfsPath := VM_RootfsPath v; VM_Kernel := VM_Kernel v;
     VM_ContainerID := VM_ContainerID v; VM_TaskID := VM_TaskID v; VM_VCPUs := VM_VCPUs v;
     VM_MemMiB := VM_MemMiB v; VM_IPAddress := VM_IPAddress v; VM_Ports := VM_Ports v;
     VM_Env := VM_Env v; VM_VolumeID := VM_VolumeID v; VM_Healthcheck := VM_Healthcheck v;
     VM_Restart := VM_Restart v; VM_Error := VM_Error v; VM_Crashed := VM_Crashed v;
     VM_SnapshotPath := VM_SnapshotPath v; VM_SnapshotMemPath := VM_SnapshotMemPath v;
     VM_DeploymentID := VM_DeploymentID v; VM_DeploymentVersion := VM_DeploymentVersion v;
     VM_DeploymentEnv := VM_DeploymentEnv v; VM_GuestBase := VM_GuestBase v;
     VM_SnapshotStatus := VM_SnapshotStatus v; VM_SnapshotError := VM_SnapshotError v;
     VM_SnapshotCreatedAt := VM_SnapshotCreatedAt v; VM_LastRecoveredAt := x;
     VM_RecoveryCount := VM_RecoveryCount v; VM_CreatedAt := VM_CreatedAt v;
     VM_StartedAt := VM_StartedAt v |}.

Definition VM_set_StartedAt (x : option Z) (v : VM) : VM :=
  {|
     VM_ID := VM_ID v; VM_Name := VM_Name v; VM_ProjectID := VM_ProjectID v;
     VM_ServiceName := VM_ServiceName v; VM_State := VM_State v;
     VM_HealthStatus := VM_HealthStatus v; VM_ReplicaIndex := VM_ReplicaIndex v;
     VM_Image := VM_Image v; VM_RootfsPath := VM_RootfsPath v; VM_Kernel := VM_Kernel v;
     VM_ContainerID := VM_ContainerID v; VM_TaskID := VM_TaskID v; VM_VCPUs := VM_VCPUs v;
     VM_MemMiB := VM_MemMiB v; VM_IPAddress := VM_IPAddress v; VM_Ports := VM_Ports v;
     VM_Env := VM_Env v; VM_VolumeID := VM_VolumeID v; VM_Healthcheck := VM_Healthcheck v;
     VM_Restart := VM_Restart v; VM_Error := VM_Error v; VM_Crashed := VM_Crashed v;
     VM_SnapshotPath := VM_SnapshotPath v; VM_SnapshotMemPath := VM_SnapshotMemPath v;
     VM_DeploymentID := VM_DeploymentID v; VM_DeploymentVersion := VM_DeploymentVersion v;
     VM_DeploymentEnv := VM_DeploymentEnv v; VM_GuestBase := VM_GuestBase v;
     VM_SnapshotStatus := VM_SnapshotStatus v; VM_SnapshotError := VM_SnapshotError v;
     VM_SnapshotCreatedAt := VM_SnapshotCreatedAt v;
     VM_LastRecoveredAt := VM_LastRecoveredAt v; VM_RecoveryCount := VM_RecoveryCount v;
     VM_CreatedAt := VM_CreatedAt v; VM_StartedAt := x |}.

Definition VM_set_VCPUs (x : Z) (v : VM) : VM :=
  {|
     VM_ID := VM_ID v; VM_Name := VM_Name v; VM_ProjectID := VM_ProjectID v;
     VM_ServiceName := VM_ServiceName v; VM_State := VM_State v;
     VM_HealthStatus := VM_HealthStatus v; VM_ReplicaIndex := VM_ReplicaIndex v;
     VM_Image := VM_Image v; VM_RootfsPath := VM_RootfsPath v; VM_Kernel := VM_Kernel v;
     VM_ContainerID := VM_ContainerID v; VM_TaskID := VM_TaskID v; VM_VCPUs := x;
     VM_MemMiB := VM_MemMiB v; VM_IPAddress := VM_IPAddress v; VM_Ports := VM_Ports v;
     VM_Env := VM_Env v; VM_VolumeID := VM_VolumeID v; VM_Healthcheck := VM_Healthcheck v;
     VM_Restart := VM_Restart v; VM_Error := VM_Error v; VM_Crashed := VM_Crashed v;
     VM_SnapshotPath := VM_SnapshotPath v; VM_SnapshotMemPath := VM_SnapshotMemPath v;
     VM_DeploymentID := VM_DeploymentID v; VM_DeploymentVersion := VM_DeploymentVersion v;
     VM_DeploymentEnv := VM_DeploymentEnv v; VM_GuestBase := VM_GuestBase v;
     VM_SnapshotStatus := VM_SnapshotStatus v; VM_SnapshotError := VM_SnapshotError v;
     VM_SnapshotCreatedAt := VM_SnapshotCreatedAt v;
     VM_LastRecoveredAt := VM_LastRecoveredAt v; VM_RecoveryCount := VM_RecoveryCount v;
     VM_CreatedAt := VM_CreatedAt v; VM_StartedAt := VM_StartedAt v |}.

Definition VM_set_MemMiB (x : Z) (v : VM) : VM :=
  {|
     VM_ID := VM_ID v; VM_Name := VM_Name v; VM_ProjectID := VM_ProjectID v;
     VM_ServiceName := VM_ServiceName v; VM_State := VM_State v;
     VM_HealthStatus := VM_HealthStatus v; VM_ReplicaIndex := VM_ReplicaIndex v;
     VM_Image := VM_Image v; VM_RootfsPath := VM_RootfsPath v; VM_Kernel := VM_Kernel v;
     VM_ContainerID := VM_ContainerID v; VM_TaskID := VM_TaskID v; VM_VCPUs := VM_VCPUs v;
     VM_MemMiB := x; VM_IPAddress := VM_IPAddress v; VM_Ports := VM_Ports v;
     VM_Env := VM_Env v; VM_VolumeID := VM_VolumeID v; VM_Healthcheck := VM_Healthcheck v;
     VM_Restart := VM_Restart v; VM_Error := VM_Error v; VM_Crashed := VM_Crashed v;
     VM_SnapshotPath := VM_SnapshotPath v; VM_SnapshotMemPath := VM_SnapshotMemPath v;
     VM_DeploymentID := VM_DeploymentID v; VM_DeploymentVersion := VM_DeploymentVersion v;
     VM_DeploymentEnv := VM_DeploymentEnv v; VM_GuestBase := VM_GuestBase v;
     VM_SnapshotStatus := VM_SnapshotStatus v; VM_SnapshotError := VM_SnapshotError v;
     VM_SnapshotCreatedAt := VM_SnapshotCreatedAt v;
     VM_LastRecoveredAt := VM_LastRecoveredAt v; VM_RecoveryCount := VM_RecoveryCount v;
     VM_CreatedAt := VM_CreatedAt v; VM_StartedAt := VM_StartedAt v |}.

Definition VM_set_Env (x : gmap string string) (v : VM) : VM :=
  {|
     VM_ID := VM_ID v; VM_Name := VM_Name v; VM_ProjectID := VM_ProjectID v;
     VM_ServiceName := VM_ServiceName v; VM_State := VM_State v;
     VM_HealthStatus := VM_HealthStatus v; VM_ReplicaIndex := VM_ReplicaIndex v;
     VM_Image := VM_Image v; VM_RootfsPath := VM_RootfsPath v; VM_Kernel := VM_Kernel v;
     VM_ContainerID := VM_ContainerID v; VM_TaskID := VM_TaskID v; VM_VCPUs := VM_VCPUs v;
     VM_MemMiB := VM_MemMiB v; VM_IPAddress := VM_IPAddress v; VM_Ports := VM_Ports v;
     VM_Env := x; VM_VolumeID := VM_VolumeID v; VM_Healthcheck := VM_Healthcheck v;
     VM_Restart := VM_Restart v; VM_Error := VM_Error v; VM_Crashed := VM_Crashed v;
     VM_SnapshotPath := VM_SnapshotPath v; VM_SnapshotMemPath := VM_SnapshotMemPath v;
     VM_DeploymentID := VM_DeploymentID v; VM_DeploymentVersion := VM_DeploymentVersion v;
     VM_DeploymentEnv := VM_DeploymentEnv v; VM_GuestBase := VM_GuestBase v;
     VM_SnapshotStatus := VM_SnapshotStatus v; VM_SnapshotError := VM_SnapshotError v;
     VM_SnapshotCreatedAt := VM_SnapshotCreatedAt v;
     VM_LastRecoveredAt := VM_LastRecoveredAt v; VM_RecoveryCount := VM_RecoveryCount v;
     VM_CreatedAt := VM_CreatedAt v; VM_StartedAt := VM_StartedAt v |}.

Definition VM_set_RootfsPath (x : string) (v : VM) : VM :=
  {|
     VM_ID := VM_ID v; VM_Name := VM_Name v; VM_ProjectID := VM_ProjectID v;
     VM_ServiceName := VM_ServiceName v; VM_State := VM_State v;
     VM_HealthStatus := VM_HealthStatus v; VM_ReplicaIndex := VM_ReplicaIndex v;
     VM_Image := VM_Image v; VM_RootfsPath := x; VM_Kernel := VM_Kernel v;
     VM_ContainerID := VM_ContainerID v; VM_TaskID := VM_TaskID v; VM_VCPUs := VM_VCPUs v;
     VM_MemMiB := VM_MemMiB v; VM_IPAddress := VM_IPAddress v; VM_Ports := VM_Ports v;
     VM_Env := VM_Env v; VM_VolumeID := VM_VolumeID v; VM_Healthcheck := VM_Healthcheck v;
     VM_Restart := VM_Restart v; VM_Error := VM_Error v; VM_Crashed := VM_Crashed v;
     VM_SnapshotPath := VM_SnapshotPath v; VM_SnapshotMemPath := VM_SnapshotMemPath v;
     VM_DeploymentID := VM_DeploymentID v; VM_DeploymentVersion := VM_DeploymentVersion v;
     VM_DeploymentEnv := VM_DeploymentEnv v; VM_GuestBase := VM_GuestBase v;
     VM_SnapshotStatus := VM_SnapshotStatus v; VM_SnapshotError := VM_SnapshotError v;
     VM_SnapshotCreatedAt := VM_SnapshotCreatedAt v;
     VM_LastRecoveredAt := VM_LastRecoveredAt v; VM_RecoveryCount := VM_RecoveryCount v;
     VM_CreatedAt := VM_CreatedAt v; VM_StartedAt := VM_StartedAt v |}.

Definition VM_set_Kernel (x : string) (v : VM) : VM :=
  {|
     VM_ID := VM_ID v; VM_Name := VM_Name v; VM_ProjectID := VM_ProjectID v;
     VM_ServiceName := VM_ServiceName v; VM_State := VM_State v;
     VM_HealthStatus := VM_HealthStatus v; VM_ReplicaIndex := VM_ReplicaIndex v;
     VM_Image := VM_Image v; VM_RootfsPath := VM_RootfsPath v; VM_Kernel := x;
     VM_ContainerID := VM_ContainerID v; VM_TaskID := VM_TaskID v; VM_VCPUs := VM_VCPUs v;
     VM_MemMiB := VM_MemMiB v; VM_IPAddress := VM_IPAddress v; VM_Ports := VM_Ports v;
     VM_Env := VM_Env v; VM_VolumeID := VM_VolumeID v; VM_Healthcheck := VM_Healthcheck v;
     VM_Restart := VM_Restart v; VM_Error := VM_Error v; VM_Crashed := VM_Crashed v;
     VM_SnapshotPath := VM_SnapshotPath v; VM_SnapshotMemPath := VM_SnapshotMemPath v;
     VM_DeploymentID := VM_DeploymentID v; VM_DeploymentVersion := VM_DeploymentVersion v;
     VM_DeploymentEnv := VM_DeploymentEnv v; VM_GuestBase := VM_GuestBase v;
     VM_SnapshotStatus := VM_SnapshotStatus v; VM_SnapshotError := VM_SnapshotError v;
     VM_SnapshotCreatedAt := VM_SnapshotCreatedAt v;
     VM_LastRecoveredAt := VM_LastRecoveredAt v; VM_RecoveryCount := VM_RecoveryCount v;
     VM_CreatedAt := VM_CreatedAt v; VM_StartedAt := VM_StartedAt v |}.

Definition VM_set_DeploymentEnv (x : string) (v : VM) : VM :=
  {|
     VM_ID := VM_ID v; VM_Name := VM_Name v; VM_ProjectID := VM_ProjectID v;
     VM_ServiceName := VM_ServiceName v; VM_State := VM_State v;
     VM_HealthStatus := VM_HealthStatus v; VM_ReplicaIndex := VM_ReplicaIndex v;
     VM_Image := VM_Image v; VM_RootfsPath := VM_RootfsPath v; VM_Kernel := VM_Kernel v;
     VM_ContainerID := VM_ContainerID v; VM_TaskID := VM_TaskID v; VM_VCPUs := VM_VCPUs v;
     VM_MemMiB := VM_MemMiB v; VM_IPAddress := VM_IPAddress v; VM_Ports := VM_Ports v;
     VM_Env := VM_Env v; VM_VolumeID := VM_VolumeID v; VM_Healthcheck := VM_Healthcheck v;
     VM_Restart := VM_Restart v; VM_Error := VM_Error v; VM_Crashed := VM_Crashed v;
     VM_SnapshotPath := VM_SnapshotPath v; VM_SnapshotMemPath := VM_SnapshotMemPath v;
     VM_DeploymentID := VM_DeploymentID v; VM_DeploymentVersion := VM_DeploymentVersion v;
     VM_DeploymentEnv := x; VM_GuestBase := VM_GuestBase v;
     VM_SnapshotStatus := VM_SnapshotStatus v; VM_SnapshotError := VM_SnapshotError v;
     VM_SnapshotCreatedAt := VM_SnapshotCreatedAt v;
     VM_LastRecoveredAt := VM_LastRecoveredAt v; VM_RecoveryCount := VM_RecoveryCount v;
     VM_CreatedAt := VM_CreatedAt v; VM_StartedAt := VM_StartedAt v |}.

Definition VM_set_GuestBase (x : string) (v : VM) : VM :=
  {|
     VM_ID := VM_ID v; VM_Name := VM_Name v; VM_ProjectID := VM_ProjectID v;
     VM_ServiceName := VM_ServiceName v; VM_State := VM_State v;
     VM_HealthStatus := VM_HealthStatus v; VM_ReplicaIndex := VM_ReplicaIndex v;
     VM_Image := VM_Image v; VM_RootfsPath := VM_RootfsPath v; VM_Kernel := VM_Kernel v;
     VM_ContainerID := VM_ContainerID v; VM_TaskID := VM_TaskID v; VM_VCPUs := VM_VCPUs v;
     VM_MemMiB := VM_MemMiB v; VM_IPAddress := VM_IPAddress v; VM_Ports := VM_Ports v;
     VM_Env := VM_Env v; VM_VolumeID := VM_VolumeID v; VM_Healthcheck := VM_Healthcheck v;
     VM_Restart := VM_Restart v; VM_Error := VM_Error v; VM_Crashed := VM_Crashed v;
     VM_SnapshotPath := VM_SnapshotPath v; VM_SnapshotMemPath := VM_SnapshotMemPath v;
     VM_DeploymentID := VM_DeploymentID v; VM_DeploymentVersion := VM_DeploymentVersion v;
     VM_DeploymentEnv := VM_DeploymentEnv v; VM_GuestBase := x;
     VM_SnapshotStatus := VM_SnapshotStatus v; VM_SnapshotError := VM_SnapshotError v;
     VM_SnapshotCreatedAt := VM_SnapshotCreatedAt v;
     VM_LastRecoveredAt := VM_LastRecoveredAt v; VM_RecoveryCount := VM_RecoveryCount v;
     VM_CreatedAt := VM_CreatedAt v; VM_StartedAt := VM_StartedAt v |}.

Definition VM_set_VolumeID (x : string) (v : VM) : VM :=
  {|
     VM_ID := VM_ID v; VM_Name := VM_Name v; VM_ProjectID := VM_ProjectID v;
     VM_ServiceName := VM_ServiceName v; VM_State := VM_State v;
     VM_HealthStatus := VM_HealthStatus v; VM_ReplicaIndex := VM_ReplicaIndex v;
     VM_Image := VM_Image v; VM_RootfsPath := VM_RootfsPath v; VM_Kernel := VM_Kernel v;
     VM_ContainerID := VM_ContainerID v; VM_TaskID := VM_TaskID v; VM_VCPUs := VM_VCPUs v;
     VM_MemMiB := VM_MemMiB v; VM_IPAddress := VM_IPAddress v; VM_Ports := VM_Ports v;
     VM_Env := VM_Env v; VM_VolumeID := x; VM_Healthcheck := VM_Healthcheck v;
     VM_Restart := VM_Restart v; VM_Error := VM_Error v; VM_Crashed := VM_Crashed v;
     VM_SnapshotPath := VM_SnapshotPath v; VM_SnapshotMemPath := VM_SnapshotMemPath v;
     VM_DeploymentID := VM_DeploymentID v; VM_DeploymentVersion := VM_DeploymentVersion v;
     VM_DeploymentEnv := VM_DeploymentEnv v; VM_GuestBase := VM_GuestBase v;
     VM_SnapshotStatus := VM_SnapshotStatus v; VM_SnapshotError := VM_SnapshotError v;
     VM_SnapshotCreatedAt := VM_SnapshotCreatedAt v;
     VM_LastRecoveredAt := VM_LastRecoveredAt v; VM_RecoveryCount := VM_RecoveryCount v;
     VM_CreatedAt := VM_CreatedAt v; VM_StartedAt := VM_StartedAt v |}.

Record ServicePool := mkServicePool {
  Pool_Desired : Z;
  Pool_Healthy : Z;
  Pool_VMs : list string
}.

#[export] Instance ServicePool_eq_dec : EqDecision ServicePool.
Proof. solve_decision. Defined.

Record AutoscalePolicy := mkAutoscalePolicy {
  AS_MinReplicas : Z;
  AS_MaxReplicas : Z;
  AS_TargetCPU : float64;
  AS_ScaleDownCPU : float64;
  AS_CooldownSec : Z;
  AS_Enabled : bool
}.

Definition AS_set_MinReplicas (x : Z) (v : AutoscalePolicy) : AutoscalePolicy :=
  {|
     AS_MinReplicas := x; AS_MaxReplicas := AS_MaxReplicas v; AS_TargetCPU := AS_TargetCPU v;
     AS_ScaleDownCPU := AS_ScaleDownCPU v; AS_CooldownSec := AS_CooldownSec v;
     AS_Enabled := AS_Enabled v |}.

Definition AS_set_MaxReplicas (x : Z) (v : AutoscalePolicy) : AutoscalePolicy :=
  {|
     AS_MinReplicas := AS_MinReplicas v; AS_MaxReplicas := x; AS_TargetCPU := AS_TargetCPU v;
     AS_ScaleDownCPU := AS_ScaleDownCPU v; AS_CooldownSec := AS_CooldownSec v;
     AS_Enabled := AS_Enabled v |}.

Definition AS_set_TargetCPU (x : float64) (v : AutoscalePolicy) : AutoscalePolicy :=
  {|
     AS_MinReplicas := AS_MinReplicas v; AS_MaxReplicas := AS_MaxReplicas v;
     AS_TargetCPU := x; AS_ScaleDownCPU := AS_ScaleDownCPU v;
     AS_CooldownSec := AS_CooldownSec v; AS_Enabled := AS_Enabled v |}.

Record Project := mkProject {
  Proj_ID : string;
  Proj_OrgID : string;
  Proj_Name : string;
  Proj_Source : string;
  Proj_Image : string;
  Proj_Network : string;
  Proj_VMIDs : list string;
  Proj_ServicePools : gmap string ServicePool;
  Proj_ComposeYAML : string;
  Proj_HostMountPath : string;
  Proj_ReplicasDesired : Z;
  Proj_RestartPolicy : string;
  Proj_Healthcheck : option Healthcheck;
  Proj_Env : gmap string string;
  Proj_Tags : list string;
  Proj_SSHEnabled : bool;
  Proj_Replicas : Z;
  Proj_StackID : string;
  Proj_ComposeService : string;
  Proj_Model : string;
  Proj_GPU : string;
  Proj_Networks : list string;
  Proj_Autoscale : option AutoscalePolicy;
  Proj_CreatedBy : string;
  Proj_CreatedAt : Z
}.

(** The zero value of [types.Project]. *)
Definition Proj_zero : Project :=
  mkProject "" "" "" "" "" "" [] ∅ "" "" 0%Z "" None ∅ [] false 0%Z "" "" "" "" [] None "" 0%Z.

Definition Proj_set_Autoscale (x : option AutoscalePolicy) (v : Project) : Project :=
  {|
     Proj_ID := Proj_ID v; Proj_OrgID := Proj_OrgID v; Proj_Name := Proj_Name v;
     Proj_Source := Proj_Source v; Proj_Image := Proj_Image v; Proj_Network := Proj_Network v;
     Proj_VMIDs := Proj_VMIDs v; Proj_ServicePools := Proj_ServicePools v;
     Proj_ComposeYAML := Proj_ComposeYAML v; Proj_HostMountPath := Proj_HostMountPath v;
     Proj_ReplicasDesired := Proj_ReplicasDesired v;
     Proj_RestartPolicy := Proj_RestartPolicy v; Proj_Healthcheck := Proj_Healthcheck v;
     Proj_Env := Proj_Env v; Proj_Tags := Proj_Tags v; Proj_SSHEnabled := Proj_SSHEnabled v;
     Proj_Replicas := Proj_Replicas v; Proj_StackID := Proj_StackID v;
     Proj_ComposeService := Proj_ComposeService v; Proj_Model := Proj_Model v;
     Proj_GPU := Proj_GPU v; Proj_Networks := Proj_Networks v; Proj_Autoscale := x;
     Proj_CreatedBy := Proj_CreatedBy v; Proj_CreatedAt := Proj_CreatedAt v |}.

Definition Proj_set_ID (x : string) (v : Project) : Project :=
  {|
     Proj_ID := x; Proj_OrgID := Proj_OrgID v; Proj_Name := Proj_Name v;
     Proj_Source := Proj_Source v; Proj_Image := Proj_Image v; Proj_Network := Proj_Network v;
     Proj_VMIDs := Proj_VMIDs v; Proj_ServicePools := Proj_ServicePools v;
     Proj_ComposeYAML := Proj_ComposeYAML v; Proj_HostMountPath := Proj_HostMountPath v;
     Proj_ReplicasDesired := Proj_ReplicasDesired v;
     Proj_RestartPolicy := Proj_RestartPolicy v; Proj_Healthcheck := Proj_Healthcheck v;
     Proj_Env := Proj_Env v; Proj_Tags := Proj_Tags v; Proj_SSHEnabled := Proj_SSHEnabled v;
     Proj_Replicas := Proj_Replicas v; Proj_StackID := Proj_StackID v;
     Proj_ComposeService := Proj_ComposeService v; Proj_Model := Proj_Model v;
     Proj_GPU := Proj_GPU v; Proj_Networks := Proj_Networks v;
     Proj_Autoscale := Proj_Autoscale v; Proj_CreatedBy := Proj_CreatedBy v;
     Proj_CreatedAt := Proj_CreatedAt v |}.

Definition Proj_set_OrgID (x : string) (v : Project) : Project :=
  {|
     Proj_ID := Proj_ID v; Proj_OrgID := x; Proj_Name := Proj_Name v;
     Proj_Source := Proj_Source v; Proj_Image := Proj_Image v; Proj_Network := Proj_Network v;
     Proj_VMIDs := Proj_VMIDs v; Proj_ServicePools := Proj_ServicePools v;
     Proj_ComposeYAML := Proj_ComposeYAML v; Proj_HostMountPath := Proj_HostMountPath v;
     Proj_ReplicasDesired := Proj_ReplicasDesired v;
     Proj_RestartPolicy := Proj_RestartPolicy v; Proj_Healthcheck := Proj_Healthcheck v;
     Proj_Env := Proj_Env v; Proj_Tags := Proj_Tags v; Proj_SSHEnabled := Proj_SSHEnabled v;
     Proj_Replicas := Proj_Replicas v; Proj_StackID := Proj_StackID v;
     Proj_ComposeService := Proj_ComposeService v; Proj_Model := Proj_Model v;
     Proj_GPU := Proj_GPU v; Proj_Networks := Proj_Networks v;
     Proj_Autoscale := Proj_Autoscale v; Proj_CreatedBy := Proj_CreatedBy v;
     Proj_CreatedAt := Proj_CreatedAt v |}.

Definition Proj_set_Name (x : string) (v : Project) : Project :=
  {|
     Proj_ID := Proj_ID v; Proj_OrgID := Proj_OrgID v; Proj_Name := x;
     Proj_Source := Proj_Source v; Proj_Image := Proj_Image v; Proj_Network := Proj_Network v;
     Proj_VMIDs := Proj_VMIDs v; Proj_ServicePools := Proj_ServicePools v;
     Proj_ComposeYAML := Proj_ComposeYAML v; Proj_HostMountPath := Proj_HostMountPath v;
     Proj_ReplicasDesired := Proj_ReplicasDesired v;
     Proj_RestartPolicy := Proj_RestartPolicy v; Proj_Healthcheck := Proj_Healthcheck v;
     Proj_Env := Proj_Env v; Proj_Tags := Proj_Tags v; Proj_SSHEnabled := Proj_SSHEnabled v;
     Proj_Replicas := Proj_Replicas v; Proj_StackID := Proj_StackID v;
     Proj_ComposeService := Proj_ComposeService v; Proj_Model := Proj_Model v;
     Proj_GPU := Proj_GPU v; Proj_Networks := Proj_Networks v;
     Proj_Autoscale := Proj_Autoscale v; Proj_CreatedBy := Proj_CreatedBy v;
     Proj_CreatedAt := Proj_CreatedAt v |}.

Definition Proj_set_ComposeYAML (x : string) (v : Project) : Project :=
  {|
     Proj_ID := Proj_ID v; Proj_OrgID := Proj_OrgID v; Proj_Name := Proj_Name v;
     Proj_Source := Proj_Source v; Proj_Image := Proj_Image v; Proj_Network := Proj_Network v;
     Proj_VMIDs := Proj_VMIDs v; Proj_ServicePools := Proj_ServicePools v;
     Proj_ComposeYAML := x; Proj_HostMountPath := Proj_HostMountPath v;
     Proj_ReplicasDesired := Proj_ReplicasDesired v;
     Proj_RestartPolicy := Proj_RestartPolicy v; Proj_Healthcheck := Proj_Healthcheck v;
     Proj_Env := Proj_Env v; Proj_Tags := Proj_Tags v; Proj_SSHEnabled := Proj_SSHEnabled v;
     Proj_Replicas := Proj_Replicas v; Proj_StackID := Proj_StackID v;
     Proj_ComposeService := Proj_ComposeService v; Proj_Model := Proj_Model v;
     Proj_GPU := Proj_GPU v; Proj_Networks := Proj_Networks v;
     Proj_Autoscale := Proj_Autoscale v; Proj_CreatedBy := Proj_CreatedBy v;
     Proj_CreatedAt := Proj_CreatedAt v |}.

Definition Proj_set_ReplicasDesired (x : Z) (v : Project) : Project :=
  {|
     Proj_ID := Proj_ID v; Proj_OrgID := Proj_OrgID v; Proj_Name := Proj_Name v;
     Proj_Source := Proj_Source v; Proj_Image := Proj_Image v; Proj_Network := Proj_Network v;
     Proj_VMIDs := Proj_VMIDs v; Proj_ServicePools := Proj_ServicePools v;
     Proj_ComposeYAML := Proj_ComposeYAML v; Proj_HostMountPath := Proj_HostMountPath v;
     Proj_ReplicasDesired := x; Proj_RestartPolicy := Proj_RestartPolicy v;
     Proj_Healthcheck := Proj_Healthcheck v; Proj_Env := Proj_Env v; Proj_Tags := Proj_Tags v;
     Proj_SSHEnabled := Proj_SSHEnabled v; Proj_Replicas := Proj_Replicas v;
     Proj_StackID := Proj_StackID v; Proj_ComposeService := Proj_ComposeService v;
     Proj_Model := Proj_Model v; Proj_GPU := Proj_GPU v; Proj_Networks := Proj_Networks v;
     Proj_Autoscale := Proj_Autoscale v; Proj_CreatedBy := Proj_CreatedBy v;
     Proj_CreatedAt := Proj_CreatedAt v |}.

Definition Proj_set_Replicas (x : Z) (v : Project) : Project :=
  {|
     Proj_ID := Proj_ID v; Proj_OrgID := Proj_OrgID v; Proj_Name := Proj_Name v;
     Proj_Source := Proj_Source v; Proj_Image := Proj_Image v; Proj_Network := Proj_Network v;
     Proj_VMIDs := Proj_VMIDs v; Proj_ServicePools := Proj_ServicePools v;
     Proj_ComposeYAML := Proj_ComposeYAML v; Proj_HostMountPath := Proj_HostMountPath v;
     Proj_ReplicasDesired := Proj_ReplicasDesired v;
     Proj_RestartPolicy := Proj_RestartPolicy v; Proj_Healthcheck := Proj_Healthcheck v;
     Proj_Env := Proj_Env v; Proj_Tags := Proj_Tags v; Proj_SSHEnabled := Proj_SSHEnabled v;
     Proj_Replicas := x; Proj_StackID := Proj_StackID v;
     Proj_ComposeService := Proj_ComposeService v; Proj_Model := Proj_Model v;
     Proj_GPU := Proj_GPU v; Proj_Networks := Proj_Networks v;
     Proj_Autoscale := Proj_Autoscale v; Proj_CreatedBy := Proj_CreatedBy v;
     Proj_CreatedAt := Proj_CreatedAt v |}.

Definition Proj_set_VMIDs (x : list string) (v : Project) : Project :=
  {|
     Proj_ID := Proj_ID v; Proj_OrgID := Proj_OrgID v; Proj_Name := Proj_Name v;
     Proj_Source := Proj_Source v; Proj_Image := Proj_Image v; Proj_Network := Proj_Network v;
     Proj_VMIDs := x; Proj_ServicePools := Proj_ServicePools v;
     Proj_ComposeYAML := Proj_ComposeYAML v; Proj_HostMountPath := Proj_HostMountPath v;
     Proj_ReplicasDesired := Proj_ReplicasDesired v;
     Proj_RestartPolicy := Proj_RestartPolicy v; Proj_Healthcheck := Proj_Healthcheck v;
     Proj_Env := Proj_Env v; Proj_Tags := Proj_Tags v; Proj_SSHEnabled := Proj_SSHEnabled v;
     Proj_Replicas := Proj_Replicas v; Proj_StackID := Proj_StackID v;
     Proj_ComposeService := Proj_ComposeService v; Proj_Model := Proj_Model v;
     Proj_GPU := Proj_GPU v; Proj_Networks := Proj_Networks v;
     Proj_Autoscale := Proj_Autoscale v; Proj_CreatedBy := Proj_CreatedBy v;
     Proj_CreatedAt := Proj_CreatedAt v |}.

Definition Proj_set_Image (x : string) (v : Project) : Project :=
  {|
     Proj_ID := Proj_ID v; Proj_OrgID := Proj_OrgID v; Proj_Name := Proj_Name v;
     Proj_Source := Proj_Source v; Proj_Image := x; Proj_Network := Proj_Network v;
     Proj_VMIDs := Proj_VMIDs v; Proj_ServicePools := Proj_ServicePools v;
     Proj_ComposeYAML := Proj_ComposeYAML v; Proj_HostMountPath := Proj_HostMountPath v;
     Proj_ReplicasDesired := Proj_ReplicasDesired v;
     Proj_RestartPolicy := Proj_RestartPolicy v; Proj_Healthcheck := Proj_Healthcheck v;
     Proj_Env := Proj_Env v; Proj_Tags := Proj_Tags v; Proj_SSHEnabled := Proj_SSHEnabled v;
     Proj_Replicas := Proj_Replicas v; Proj_StackID := Proj_StackID v;
     Proj_ComposeService := Proj_ComposeService v; Proj_Model := Proj_Model v;
     Proj_GPU := Proj_GPU v; Proj_Networks := Proj_Networks v;
     Proj_Autoscale := Proj_Autoscale v; Proj_CreatedBy := Proj_CreatedBy v;
     Proj_CreatedAt := Proj_CreatedAt v |}.

Definition Proj_set_Env (x : gmap string string) (v : Project) : Project :=
  {|
     Proj_ID := Proj_ID v; Proj_OrgID := Proj_OrgID v; Proj_Name := Proj_Name v;
     Proj_Source := Proj_Source v; Proj_Image := Proj_Image v; Proj_Network := Proj_Network v;
     Proj_VMIDs := Proj_VMIDs v; Proj_ServicePools := Proj_ServicePools v;
     Proj_ComposeYAML := Proj_ComposeYAML v; Proj_HostMountPath := Proj_HostMountPath v;
     Proj_ReplicasDesired := Proj_ReplicasDesired v;
     Proj_RestartPolicy := Proj_RestartPolicy v; Proj_Healthcheck := Proj_Healthcheck v;
     Proj_Env := x; Proj_Tags := Proj_Tags v; Proj_SSHEnabled := Proj_SSHEnabled v;
     Proj_Replicas := Proj_Replicas v; Proj_StackID := Proj_StackID v;
     Proj_ComposeService := Proj_ComposeService v; Proj_Model := Proj_Model v;
     Proj_GPU := Proj_GPU v; Proj_Networks := Proj_Networks v;
     Proj_Autoscale := Proj_Autoscale v; Proj_CreatedBy := Proj_CreatedBy v;
     Proj_CreatedAt := Proj_CreatedAt v |}.

Definition Proj_set_Tags (x : list string) (v : Project) : Project :=
  {|
     Proj_ID := Proj_ID v; Proj_OrgID := Proj_OrgID v; Proj_Name := Proj_Name v;
     Proj_Source := Proj_Source v; Proj_Image := Proj_Image v; Proj_Network := Proj_Network v;
     Proj_VMIDs := Proj_VMIDs v; Proj_ServicePools := Proj_ServicePools v;
     Proj_ComposeYAML := Proj_ComposeYAML v; Proj_HostMountPath := Proj_HostMountPath v;
     Proj_ReplicasDesired := Proj_ReplicasDesired v;
     Proj_RestartPolicy := Proj_RestartPolicy v; Proj_Healthcheck := Proj_Healthcheck v;
     Proj_Env := Proj_Env v; Proj_Tags := x; Proj_SSHEnabled := Proj_SSHEnabled v;
     Proj_Replicas := Proj_Replicas v; Proj_StackID := Proj_StackID v;
     Proj_ComposeService := Proj_ComposeService v; Proj_Model := Proj_Model v;
     Proj_GPU := Proj_GPU v; Proj_Networks := Proj_Networks v;
     Proj_Autoscale := Proj_Autoscale v; Proj_CreatedBy := Proj_CreatedBy v;
     Proj_CreatedAt := Proj_CreatedAt v |}.

Definition Proj_set_HostMountPath (x : string) (v : Project) : Project :=
  {|
     Proj_ID := Proj_ID v; Proj_OrgID := Proj_OrgID v; Proj_Name := Proj_Name v;
     Proj_Source := Proj_Source v; Proj_Image := Proj_Image v; Proj_Network := Proj_Network v;
     Proj_VMIDs := Proj_VMIDs v; Proj_ServicePools := Proj_ServicePools v;
     Proj_ComposeYAML := Proj_ComposeYAML v; Proj_HostMountPath := x;
     Proj_ReplicasDesired := Proj_ReplicasDesired v;
     Proj_RestartPolicy := Proj_RestartPolicy v; Proj_Healthcheck := Proj_Healthcheck v;
     Proj_Env := Proj_Env v; Proj_Tags := Proj_Tags v; Proj_SSHEnabled := Proj_SSHEnabled v;
     Proj_Replicas := Proj_Replicas v; Proj_StackID := Proj_StackID v;
     Proj_ComposeService := Proj_ComposeService v; Proj_Model := Proj_Model v;
     Proj_GPU := Proj_GPU v; Proj_Networks := Proj_Networks v;
     Proj_Autoscale := Proj_Autoscale v; Proj_CreatedBy := Proj_CreatedBy v;
     Proj_CreatedAt := Proj_CreatedAt v |}.

Definition Proj_set_RestartPolicy (x : string) (v : Project) : Project :=
  {|
     Proj_ID := Proj_ID v; Proj_OrgID := Proj_OrgID v; Proj_Name := Proj_Name v;
     Proj_Source := Proj_Source v; Proj_Image := Proj_Image v; Proj_Network := Proj_Network v;
     Proj_VMIDs := Proj_VMIDs v; Proj_ServicePools := Proj_ServicePools v;
     Proj_ComposeYAML := Proj_ComposeYAML v; Proj_HostMountPath := Proj_HostMountPath v;
     Proj_ReplicasDesired := Proj_ReplicasDesired v; Proj_RestartPolicy := x;
     Proj_Healthcheck := Proj_Healthcheck v; Proj_Env := Proj_Env v; Proj_Tags := Proj_Tags v;
     Proj_SSHEnabled := Proj_SSHEnabled v; Proj_Replicas := Proj_Replicas v;
     Proj_StackID := Proj_StackID v; Proj_ComposeService := Proj_ComposeService v;
     Proj_Model := Proj_Model v; Proj_GPU := Proj_GPU v; Proj_Networks := Proj_Networks v;
     Proj_Autoscale := Proj_Autoscale v; Proj_CreatedBy := Proj_CreatedBy v;
     Proj_CreatedAt := Proj_CreatedAt v |}.

Definition Proj_set_Healthcheck (x : option Healthcheck) (v : Project) : Project :=
  {|
     Proj_ID := Proj_ID v; Proj_OrgID := Proj_OrgID v; Proj_Name := Proj_Name v;
     Proj_Source := Proj_Source v; Proj_Image := Proj_Image v; Proj_Network := Proj_Network v;
     Proj_VMIDs := Proj_VMIDs v; Proj_ServicePools := Proj_ServicePools v;
     Proj_ComposeYAML := Proj_ComposeYAML v; Proj_HostMountPath := Proj_HostMountPath v;
     Proj_ReplicasDesired := Proj_ReplicasDesired v;
     Proj_RestartPolicy := Proj_RestartPolicy v; Proj_Healthcheck := x;
     Proj_Env := Proj_Env v; Proj_Tags := Proj_Tags v; Proj_SSHEnabled := Proj_SSHEnabled v;
     Proj_Replicas := Proj_Replicas v; Proj_StackID := Proj_StackID v;
     Proj_ComposeService := Proj_ComposeService v; Proj_Model := Proj_Model v;
     Proj_GPU := Proj_GPU v; Proj_Networks := Proj_Networks v;
     Proj_Autoscale := Proj_Autoscale v; Proj_CreatedBy := Proj_CreatedBy v;
     Proj_CreatedAt := Proj_CreatedAt v |}.

Definition Proj_set_SSHEnabled (x : bool) (v : Project) : Project :=
  {|
     Proj_ID := Proj_ID v; Proj_OrgID := Proj_OrgID v; Proj_Name := Proj_Name v;
     Proj_Source := Proj_Source v; Proj_Image := Proj_Image v; Proj_Network := Proj_Network v;
     Proj_VMIDs := Proj_VMIDs v; Proj_ServicePools := Proj_ServicePools v;
     Proj_ComposeYAML := Proj_ComposeYAML v; Proj_HostMountPath := Proj_HostMountPath v;
     Proj_ReplicasDesired := Proj_ReplicasDesired v;
     Proj_RestartPolicy := Proj_RestartPolicy v; Proj_Healthcheck := Proj_Healthcheck v;
     Proj_Env := Proj_Env v; Proj_Tags := Proj_Tags v; Proj_SSHEnabled := x;
     Proj_Replicas := Proj_Replicas v; Proj_StackID := Proj_StackID v;
     Proj_ComposeService := Proj_ComposeService v; Proj_Model := Proj_Model v;
     Proj_GPU := Proj_GPU v; Proj_Networks := Proj_Networks v;
     Proj_Autoscale := Proj_Autoscale v; Proj_CreatedBy := Proj_CreatedBy v;
     Proj_CreatedAt := Proj_CreatedAt v |}.

Definition Proj_set_Network (x : string) (v : Project) : Project :=
  {|
     Proj_ID := Proj_ID v; Proj_OrgID := Proj_OrgID v; Proj_Name := Proj_Name v;
     Proj_Source := Proj_Source v; Proj_Image := Proj_Image v; Proj_Network := x;
     Proj_VMIDs := Proj_VMIDs v; Proj_ServicePools := Proj_ServicePools v;
     Proj_ComposeYAML := Proj_ComposeYAML v; Proj_HostMountPath := Proj_HostMountPath v;
     Proj_ReplicasDesired := Proj_ReplicasDesired v;
     Proj_RestartPolicy := Proj_RestartPolicy v; Proj_Healthcheck := Proj_Healthcheck v;
     Proj_Env := Proj_Env v; Proj_Tags := Proj_Tags v; Proj_SSHEnabled := Proj_SSHEnabled v;
     Proj_Replicas := Proj_Replicas v; Proj_StackID := Proj_StackID v;
     Proj_ComposeService := Proj_ComposeService v; Proj_Model := Proj_Model v;
     Proj_GPU := Proj_GPU v; Proj_Networks := Proj_Networks v;
     Proj_Autoscale := Proj_Autoscale v; Proj_CreatedBy := Proj_CreatedBy v;
     Proj_CreatedAt := Proj_CreatedAt v |}.

Definition Proj_set_Source (x : string) (v : Project) : Project :=
  {|
     Proj_ID := Proj_ID v; Proj_OrgID := Proj_OrgID v; Proj_Name := Proj_Name v;
     Proj_Source := x; Proj_Image := Proj_Image v; Proj_Network := Proj_Network v;
     Proj_VMIDs := Proj_VMIDs v; Proj_ServicePools := Proj_ServicePools v;
     Proj_ComposeYAML := Proj_ComposeYAML v; Proj_HostMountPath := Proj_HostMountPath v;
     Proj_ReplicasDesired := Proj_ReplicasDesired v;
     Proj_RestartPolicy := Proj_RestartPolicy v; Proj_Healthcheck := Proj_Healthcheck v;
     Proj_Env := Proj_Env v; Proj_Tags := Proj_Tags v; Proj_SSHEnabled := Proj_SSHEnabled v;
     Proj_Replicas := Proj_Replicas v; Proj_StackID := Proj_StackID v;
     Proj_ComposeService := Proj_ComposeService v; Proj_Model := Proj_Model v;
     Proj_GPU := Proj_GPU v; Proj_Networks := Proj_Networks v;
     Proj_Autoscale := Proj_Autoscale v; Proj_CreatedBy := Proj_CreatedBy v;
     Proj_CreatedAt := Proj_CreatedAt v |}.

Definition Proj_set_CreatedBy (x : string) (v : Project) : Project :=
  {|
     Proj_ID := Proj_ID v; Proj_OrgID := Proj_OrgID v; Proj_Name := Proj_Name v;
     Proj_Source := Proj_Source v; Proj_Image := Proj_Image v; Proj_Network := Proj_Network v;
     Proj_VMIDs := Proj_VMIDs v; Proj_ServicePools := Proj_ServicePools v;
     Proj_ComposeYAML := Proj_ComposeYAML v; Proj_HostMountPath := Proj_HostMountPath v;
     Proj_ReplicasDesired := Proj_ReplicasDesired v;
     Proj_RestartPolicy := Proj_RestartPolicy v; Proj_Healthcheck := Proj_Healthcheck v;
     Proj_Env := Proj_Env v; Proj_Tags := Proj_Tags v; Proj_SSHEnabled := Proj_SSHEnabled v;
     Proj_Replicas := Proj_Replicas v; Proj_StackID := Proj_StackID v;
     Proj_ComposeService := Proj_ComposeService v; Proj_Model := Proj_Model v;
     Proj_GPU := Proj_GPU v; Proj_Networks := Proj_Networks v;
     Proj_Autoscale := Proj_Autoscale v; Proj_CreatedBy := x;
     Proj_CreatedAt := Proj_CreatedAt v |}.

Definition Proj_set_CreatedAt (x : Z) (v : Project) : Project :=
  {|
     Proj_ID := Proj_ID v; Proj_OrgID := Proj_OrgID v; Proj_Name := Proj_Name v;
     Proj_Source := Proj_Source v; Proj_Image := Proj_Image v; Proj_Network := Proj_Network v;
     Proj_VMIDs := Proj_VMIDs v; Proj_ServicePools := Proj_ServicePools v;
     Proj_ComposeYAML := Proj_ComposeYAML v; Proj_HostMountPath := Proj_HostMountPath v;
     Proj_ReplicasDesired := Proj_ReplicasDesired v;
     Proj_RestartPolicy := Proj_RestartPolicy v; Proj_Healthcheck := Proj_Healthcheck v;
     Proj_Env := Proj_Env v; Proj_Tags := Proj_Tags v; Proj_SSHEnabled := Proj_SSHEnabled v;
     Proj_Replicas := Proj_Replicas v; Proj_StackID := Proj_StackID v;
     Proj_ComposeService := Proj_ComposeService v; Proj_Model := Proj_Model v;
     Proj_GPU := Proj_GPU v; Proj_Networks := Proj_Networks v;
     Proj_Autoscale := Proj_Autoscale v; Proj_CreatedBy := Proj_CreatedBy v;
     Proj_CreatedAt := x |}.

Definition Proj_set_StackID (x : string) (v : Project) : Project :=
  {|
     Proj_ID := Proj_ID v; Proj_OrgID := Proj_OrgID v; Proj_Name := Proj_Name v;
     Proj_Source := Proj_Source v; Proj_Image := Proj_Image v; Proj_Network := Proj_Network v;
     Proj_VMIDs := Proj_VMIDs v; Proj_ServicePools := Proj_ServicePools v;
     Proj_ComposeYAML := Proj_ComposeYAML v; Proj_HostMountPath := Proj_HostMountPath v;
     Proj_ReplicasDesired := Proj_ReplicasDesired v;
     Proj_RestartPolicy := Proj_RestartPolicy v; Proj_Healthcheck := Proj_Healthcheck v;
     Proj_Env := Proj_Env v; Proj_Tags := Proj_Tags v; Proj_SSHEnabled := Proj_SSHEnabled v;
     Proj_Replicas := Proj_Replicas v; Proj_StackID := x;
     Proj_ComposeService := Proj_ComposeService v; Proj_Model := Proj_Model v;
     Proj_GPU := Proj_GPU v; Proj_Networks := Proj_Networks v;
     Proj_Autoscale := Proj_Autoscale v; Proj_CreatedBy := Proj_CreatedBy v;
     Proj_CreatedAt := Proj_CreatedAt v |}.

Definition Proj_set_ComposeService (x : string) (v : Project) : Project :=
  {|
     Proj_ID := Proj_ID v; Proj_OrgID := Proj_OrgID v; Proj_Name := Proj_Name v;
     Proj_Source := Proj_Source v; Proj_Image := Proj_Image v; Proj_Network := Proj_Network v;
     Proj_VMIDs := Proj_VMIDs v; Proj_ServicePools := Proj_ServicePools v;
     Proj_ComposeYAML := Proj_ComposeYAML v; Proj_HostMountPath := Proj_HostMountPath v;
     Proj_ReplicasDesired := Proj_ReplicasDesired v;
     Proj_RestartPolicy := Proj_RestartPolicy v; Proj_Healthcheck := Proj_Healthcheck v;
     Proj_Env := Proj_Env v; Proj_Tags := Proj_Tags v; Proj_SSHEnabled := Proj_SSHEnabled v;
     Proj_Replicas := Proj_Replicas v; Proj_StackID := Proj_StackID v;
     Proj_ComposeService := x; Proj_Model := Proj_Model v; Proj_GPU := Proj_GPU v;
     Proj_Networks := Proj_Networks v; Proj_Autoscale := Proj_Autoscale v;
     Proj_CreatedBy := Proj_CreatedBy v; Proj_CreatedAt := Proj_CreatedAt v |}.

Definition Proj_set_Networks (x : list string) (v : Project) : Project :=
  {|
     Proj_ID := Proj_ID v; Proj_OrgID := Proj_OrgID v; Proj_Name := Proj_Name v;
     Proj_Source := Proj_Source v; Proj_Image := Proj_Image v; Proj_Network := Proj_Network v;
     Proj_VMIDs := Proj_VMIDs v; Proj_ServicePools := Proj_ServicePools v;
     Proj_ComposeYAML := Proj_ComposeYAML v; Proj_HostMountPath := Proj_HostMountPath v;
     Proj_ReplicasDesired := Proj_ReplicasDesired v;
     Proj_RestartPolicy := Proj_RestartPolicy v; Proj_Healthcheck := Proj_Healthcheck v;
     Proj_Env := Proj_Env v; Proj_Tags := Proj_Tags v; Proj_SSHEnabled := Proj_SSHEnabled v;
     Proj_Replicas := Proj_Replicas v; Proj_StackID := Proj_StackID v;
     Proj_ComposeService := Proj_ComposeService v; Proj_Model := Proj_Model v;
     Proj_GPU := Proj_GPU v; Proj_Networks := x; Proj_Autoscale := Proj_Autoscale v;
     Proj_CreatedBy := Proj_CreatedBy v; Proj_CreatedAt := Proj_CreatedAt v |}.

Record Domain := mkDomain {
  Dom_ProjectID : string;
  Dom_VMID : string;
  Dom_Domain : string;
  Dom_Type : string;
  Dom_Status : string
}.

#[export] Instance Domain_eq_dec : EqDecision Domain.
Proof. solve_decision. Defined.

(** The zero value of [types.Domain]. *)
Definition Dom_zero : Domain :=
  mkDomain "" "" "" "" "".

Definition Dom_set_Domain (x : string) (v : Domain) : Domain :=
  {|
     Dom_ProjectID := Dom_ProjectID v; Dom_VMID := Dom_VMID v; Dom_Domain := x;
     Dom_Type := Dom_Type v; Dom_Status := Dom_Status v |}.

Definition Dom_set_VMID (x : string) (v : Domain) : Domain :=
  {|
     Dom_ProjectID := Dom_ProjectID v; Dom_VMID := x; Dom_Domain := Dom_Domain v;
     Dom_Type := Dom_Type v; Dom_Status := Dom_Status v |}.

Definition Dom_set_ProjectID (x : string) (v : Domain) : Domain :=
  {|
     Dom_ProjectID := x; Dom_VMID := Dom_VMID v; Dom_Domain := Dom_Domain v;
     Dom_Type := Dom_Type v; Dom_Status := Dom_Status v |}.

Record TrafficEntry := mkTrafficEntry {
  TE_Timestamp : Z;
  TE_Method : string;
  TE_Host : string;
  TE_Path : string;
  TE_Status : Z;
  TE_DurationMS : Z;
  TE_RemoteIP : string;
  TE_BytesIn : Z;
  TE_BytesOut : Z
}.

#[export] Instance TrafficEntry_eq_dec : EqDecision TrafficEntry.
Proof. solve_decision. Defined.

Record Server := mkServer {
  Srv_ID : string;
  Srv_Name : string;
  Srv_Address : string;
  Srv_Status : string;
  Srv_VCPUs : Z;
  Srv_MemMiB : Z;
  Srv_OS : string;
  Srv_Arch : string;
  Srv_Version : string;
  Srv_Projects : Z;
  Srv_VMs : Z;
  Srv_LastSeen : Z;
  Srv_CreatedAt : Z
}.

(** The zero value of [types.Server]. *)
Definition Srv_zero : Server :=
  mkServer "" "" "" "" 0%Z 0%Z "" "" "" 0%Z 0%Z 0%Z 0%Z.

Definition Srv_set_ID (x : string) (v : Server) : Server :=
  {|
     Srv_ID := x; Srv_Name := Srv_Name v; Srv_Address := Srv_Address v;
     Srv_Status := Srv_Status v; Srv_VCPUs := Srv_VCPUs v; Srv_MemMiB := Srv_MemMiB v;
     Srv_OS := Srv_OS v; Srv_Arch := Srv_Arch v; Srv_Version := Srv_Version v;
     Srv_Projects := Srv_Projects v; Srv_VMs := Srv_VMs v; Srv_LastSeen := Srv_LastSeen v;
     Srv_CreatedAt := Srv_CreatedAt v |}.

Definition Srv_set_Name (x : string) (v : Server) : Server :=
  {|
     Srv_ID := Srv_ID v; Srv_Name := x; Srv_Address := Srv_Address v;
     Srv_Status := Srv_Status v; Srv_VCPUs := Srv_VCPUs v; Srv_MemMiB := Srv_MemMiB v;
     Srv_OS := Srv_OS v; Srv_Arch := Srv_Arch v; Srv_Version := Srv_Version v;
     Srv_Projects := Srv_Projects v; Srv_VMs := Srv_VMs v; Srv_LastSeen := Srv_LastSeen v;
     Srv_CreatedAt := Srv_CreatedAt v |}.

Definition Srv_set_Address (x : string) (v : Server) : Server :=
  {|
     Srv_ID := Srv_ID v; Srv_Name := Srv_Name v; Srv_Address := x; Srv_Status := Srv_Status v;
     Srv_VCPUs := Srv_VCPUs v; Srv_MemMiB := Srv_MemMiB v; Srv_OS := Srv_OS v;
     Srv_Arch := Srv_Arch v; Srv_Version := Srv_Version v; Srv_Projects := Srv_Projects v;
     Srv_VMs := Srv_VMs v; Srv_LastSeen := Srv_LastSeen v; Srv_CreatedAt := Srv_CreatedAt v |}.

Definition Srv_set_VCPUs (x : Z) (v : Server) : Server :=
  {|
     Srv_ID := Srv_ID v; Srv_Name := Srv_Name v; Srv_Address := Srv_Address v;
     Srv_Status := Srv_Status v; Srv_VCPUs := x; Srv_MemMiB := Srv_MemMiB v;
     Srv_OS := Srv_OS v; Srv_Arch := Srv_Arch v; Srv_Version := Srv_Version v;
     Srv_Projects := Srv_Projects v; Srv_VMs := Srv_VMs v; Srv_LastSeen := Srv_LastSeen v;
     Srv_CreatedAt := Srv_CreatedAt v |}.

Definition Srv_set_MemMiB (x : Z) (v : Server) : Server :=
  {|
     Srv_ID := Srv_ID v; Srv_Name := Srv_Name v; Srv_Address := Srv_Address v;
     Srv_Status := Srv_Status v; Srv_VCPUs := Srv_VCPUs v; Srv_MemMiB := x;
     Srv_OS := Srv_OS v; Srv_Arch := Srv_Arch v; Srv_Version := Srv_Version v;
     Srv_Projects := Srv_Projects v; Srv_VMs := Srv_VMs v; Srv_LastSeen := Srv_LastSeen v;
     Srv_CreatedAt := Srv_CreatedAt v |}.

Definition Srv_set_Status (x : string) (v : Server) : Server :=
  {|
     Srv_ID := Srv_ID v; Srv_Name := Srv_Name v; Srv_Address := Srv_Address v;
     Srv_Status := x; Srv_VCPUs := Srv_VCPUs v; Srv_MemMiB := Srv_MemMiB v;
     Srv_OS := Srv_OS v; Srv_Arch := Srv_Arch v; Srv_Version := Srv_Version v;
     Srv_Projects := Srv_Projects v; Srv_VMs := Srv_VMs v; Srv_LastSeen := Srv_LastSeen v;
     Srv_CreatedAt := Srv_CreatedAt v |}.

Definition Srv_set_LastSeen (x : Z) (v : Server) : Server :=
  {|
     Srv_ID := Srv_ID v; Srv_Name := Srv_Name v; Srv_Address := Srv_Address v;
     Srv_Status := Srv_Status v; Srv_VCPUs := Srv_VCPUs v; Srv_MemMiB := Srv_MemMiB v;
     Srv_OS := Srv_OS v; Srv_Arch := Srv_Arch v; Srv_Version := Srv_Version v;
     Srv_Projects := Srv_Projects v; Srv_VMs := Srv_VMs v; Srv_LastSeen := x;
     Srv_CreatedAt := Srv_CreatedAt v |}.

Record DeploymentCheck := mkDeploymentCheck {
  Chk_Name : string;
  Chk_Status : string;
  Chk_Detail : string
}.

#[export] Instance DeploymentCheck_eq_dec : EqDecision DeploymentCheck.
Proof. solve_decision. Defined.

Record Deployment := mkDeployment {
  Dep_ID : string;
  Dep_ProjectID : string;
  Dep_Revision : Z;
  Dep_VersionLabel : string;
  Dep_GuestBase : string;
  Dep_Environment : string;
  Dep_IsProduction : bool;
  Dep_RouteWeight : Z;
  Dep_VMIDs : list string;
  Dep_GitURL : string;
  Dep_GitCommit : string;
  Dep_BuildStatus : string;
  Dep_ImageDigest : string;
  Dep_RollbackTo : string;
  Dep_Checks : list DeploymentCheck;
  Dep_RolloutPercent : Z;
  Dep_CreatedAt : Z
}.

(** The zero value of [types.Deployment]. *)
Definition Dep_zero : Deployment :=
  mkDeployment "" "" 0%Z "" "" "" false 0%Z [] "" "" "" "" "" [] 0%Z 0%Z.

Definition Dep_set_BuildStatus (x : string) (v : Deployment) : Deployment :=
  {|
     Dep_ID := Dep_ID v; Dep_ProjectID := Dep_ProjectID v; Dep_Revision := Dep_Revision v;
     Dep_VersionLabel := Dep_VersionLabel v; Dep_GuestBase := Dep_GuestBase v;
     Dep_Environment := Dep_Environment v; Dep_IsProduction := Dep_IsProduction v;
     Dep_RouteWeight := Dep_RouteWeight v; Dep_VMIDs := Dep_VMIDs v;
     Dep_GitURL := Dep_GitURL v; Dep_GitCommit := Dep_GitCommit v; Dep_BuildStatus := x;
     Dep_ImageDigest := Dep_ImageDigest v; Dep_RollbackTo := Dep_RollbackTo v;
     Dep_Checks := Dep_Checks v; Dep_RolloutPercent := Dep_RolloutPercent v;
     Dep_CreatedAt := Dep_CreatedAt v |}.

Definition Dep_set_ImageDigest (x : string) (v : Deployment) : Deployment :=
  {|
     Dep_ID := Dep_ID v; Dep_ProjectID := Dep_ProjectID v; Dep_Revision := Dep_Revision v;
     Dep_VersionLabel := Dep_VersionLabel v; Dep_GuestBase := Dep_GuestBase v;
     Dep_Environment := Dep_Environment v; Dep_IsProduction := Dep_IsProduction v;
     Dep_RouteWeight := Dep_RouteWeight v; Dep_VMIDs := Dep_VMIDs v;
     Dep_GitURL := Dep_GitURL v; Dep_GitCommit := Dep_GitCommit v;
     Dep_BuildStatus := Dep_BuildStatus v; Dep_ImageDigest := x;
     Dep_RollbackTo := Dep_RollbackTo v; Dep_Checks := Dep_Checks v;
     Dep_RolloutPercent := Dep_RolloutPercent v; Dep_CreatedAt := Dep_CreatedAt v |}.

Definition Dep_set_VMIDs (x : list string) (v : Deployment) : Deployment :=
  {|
     Dep_ID := Dep_ID v; Dep_ProjectID := Dep_ProjectID v; Dep_Revision := Dep_Revision v;
     Dep_VersionLabel := Dep_VersionLabel v; Dep_GuestBase := Dep_GuestBase v;
     Dep_Environment := Dep_Environment v; Dep_IsProduction := Dep_IsProduction v;
     Dep_RouteWeight := Dep_RouteWeight v; Dep_VMIDs := x; Dep_GitURL := Dep_GitURL v;
     Dep_GitCommit := Dep_GitCommit v; Dep_BuildStatus := Dep_BuildStatus v;
     Dep_ImageDigest := Dep_ImageDigest v; Dep_RollbackTo := Dep_RollbackTo v;
     Dep_Checks := Dep_Checks v; Dep_RolloutPercent := Dep_RolloutPercent v;
     Dep_CreatedAt := Dep_CreatedAt v |}.

Definition Dep_set_RouteWeight (x : Z) (v : Deployment) : Deployment :=
  {|
     Dep_ID := Dep_ID v; Dep_ProjectID := Dep_ProjectID v; Dep_Revision := Dep_Revision v;
     Dep_VersionLabel := Dep_VersionLabel v; Dep_GuestBase := Dep_GuestBase v;
     Dep_Environment := Dep_Environment v; Dep_IsProduction := Dep_IsProduction v;
     Dep_RouteWeight := x; Dep_VMIDs := Dep_VMIDs v; Dep_GitURL := Dep_GitURL v;
     Dep_GitCommit := Dep_GitCommit v; Dep_BuildStatus := Dep_BuildStatus v;
     Dep_ImageDigest := Dep_ImageDigest v; Dep_RollbackTo := Dep_RollbackTo v;
     Dep_Checks := Dep_Checks v; Dep_RolloutPercent := Dep_RolloutPercent v;
     Dep_CreatedAt := Dep_CreatedAt v |}.

Definition Dep_set_RolloutPercent (x : Z) (v : Deployment) : Deployment :=
  {|
     Dep_ID := Dep_ID v; Dep_ProjectID := Dep_ProjectID v; Dep_Revision := Dep_Revision v;
     Dep_VersionLabel := Dep_VersionLabel v; Dep_GuestBase := Dep_GuestBase v;
     Dep_Environment := Dep_Environment v; Dep_IsProduction := Dep_IsProduction v;
     Dep_RouteWeight := Dep_RouteWeight v; Dep_VMIDs := Dep_VMIDs v;
     Dep_GitURL := Dep_GitURL v; Dep_GitCommit := Dep_GitCommit v;
     Dep_BuildStatus := Dep_BuildStatus v; Dep_ImageDigest := Dep_ImageDigest v;
     Dep_RollbackTo := Dep_RollbackTo v; Dep_Checks := Dep_Checks v; Dep_RolloutPercent := x;
     Dep_CreatedAt := Dep_CreatedAt v |}.

Definition Dep_set_RollbackTo (x : string) (v : Deployment) : Deployment :=
  {|
     Dep_ID := Dep_ID v; Dep_ProjectID := Dep_ProjectID v; Dep_Revision := Dep_Revision v;
     Dep_VersionLabel := Dep_VersionLabel v; Dep_GuestBase := Dep_GuestBase v;
     Dep_Environment := Dep_Environment v; Dep_IsProduction := Dep_IsProduction v;
     Dep_RouteWeight := Dep_RouteWeight v; Dep_VMIDs := Dep_VMIDs v;
     Dep_GitURL := Dep_GitURL v; Dep_GitCommit := Dep_GitCommit v;
     Dep_BuildStatus := Dep_BuildStatus v; Dep_ImageDigest := Dep_ImageDigest v;
     Dep_RollbackTo := x; Dep_Checks := Dep_Checks v;
     Dep_RolloutPercent := Dep_RolloutPercent v; Dep_CreatedAt := Dep_CreatedAt v |}.

Definition Dep_set_ID (x : string) (v : Deployment) : Deployment :=
  {|
     Dep_ID := x; Dep_ProjectID := Dep_ProjectID v; Dep_Revision := Dep_Revision v;
     Dep_VersionLabel := Dep_VersionLabel v; Dep_GuestBase := Dep_GuestBase v;
     Dep_Environment := Dep_Environment v; Dep_IsProduction := Dep_IsProduction v;
     Dep_RouteWeight := Dep_RouteWeight v; Dep_VMIDs := Dep_VMIDs v;
     Dep_GitURL := Dep_GitURL v; Dep_GitCommit := Dep_GitCommit v;
     Dep_BuildStatus := Dep_BuildStatus v; Dep_ImageDigest := Dep_ImageDigest v;
     Dep_RollbackTo := Dep_RollbackTo v; Dep_Checks := Dep_Checks v;
     Dep_RolloutPercent := Dep_RolloutPercent v; Dep_CreatedAt := Dep_CreatedAt v |}.

Definition Dep_set_ProjectID (x : string) (v : Deployment) : Deployment :=
  {|
     Dep_ID := Dep_ID v; Dep_ProjectID := x; Dep_Revision := Dep_Revision v;
     Dep_VersionLabel := Dep_VersionLabel v; Dep_GuestBase := Dep_GuestBase v;
     Dep_Environment := Dep_Environment v; Dep_IsProduction := Dep_IsProduction v;
     Dep_RouteWeight := Dep_RouteWeight v; Dep_VMIDs := Dep_VMIDs v;
     Dep_GitURL := Dep_GitURL v; Dep_GitCommit := Dep_GitCommit v;
     Dep_BuildStatus := Dep_BuildStatus v; Dep_ImageDigest := Dep_ImageDigest v;
     Dep_RollbackTo := Dep_RollbackTo v; Dep_Checks := Dep_Checks v;
     Dep_RolloutPercent := Dep_RolloutPercent v; Dep_CreatedAt := Dep_CreatedAt v |}.

Definition Dep_set_GuestBase (x : string) (v : Deployment) : Deployment :=
  {|
     Dep_ID := Dep_ID v; Dep_ProjectID := Dep_ProjectID v; Dep_Revision := Dep_Revision v;
     Dep_VersionLabel := Dep_VersionLabel v; Dep_GuestBase := x;
     Dep_Environment := Dep_Environment v; Dep_IsProduction := Dep_IsProduction v;
     Dep_RouteWeight := Dep_RouteWeight v; Dep_VMIDs := Dep_VMIDs v;
     Dep_GitURL := Dep_GitURL v; Dep_GitCommit := Dep_GitCommit v;
     Dep_BuildStatus := Dep_BuildStatus v; Dep_ImageDigest := Dep_ImageDigest v;
     Dep_RollbackTo := Dep_RollbackTo v; Dep_Checks := Dep_Checks v;
     Dep_RolloutPercent := Dep_RolloutPercent v; Dep_CreatedAt := Dep_CreatedAt v |}.

Definition Dep_set_Environment (x : string) (v : Deployment) : Deployment :=
  {|
     Dep_ID := Dep_ID v; Dep_ProjectID := Dep_ProjectID v; Dep_Revision := Dep_Revision v;
     Dep_VersionLabel := Dep_VersionLabel v; Dep_GuestBase := Dep_GuestBase v;
     Dep_Environment := x; Dep_IsProduction := Dep_IsProduction v;
     Dep_RouteWeight := Dep_RouteWeight v; Dep_VMIDs := Dep_VMIDs v;
     Dep_GitURL := Dep_GitURL v; Dep_GitCommit := Dep_GitCommit v;
     Dep_BuildStatus := Dep_BuildStatus v; Dep_ImageDigest := Dep_ImageDigest v;
     Dep_RollbackTo := Dep_RollbackTo v; Dep_Checks := Dep_Checks v;
     Dep_RolloutPercent := Dep_RolloutPercent v; Dep_CreatedAt := Dep_CreatedAt v |}.

Definition Dep_set_Revision (x : Z) (v : Deployment) : Deployment :=
  {|
     Dep_ID := Dep_ID v; Dep_ProjectID := Dep_ProjectID v; Dep_Revision := x;
     Dep_VersionLabel := Dep_VersionLabel v; Dep_GuestBase := Dep_GuestBase v;
     Dep_Environment := Dep_Environment v; Dep_IsProduction := Dep_IsProduction v;
     Dep_RouteWeight := Dep_RouteWeight v; Dep_VMIDs := Dep_VMIDs v;
     Dep_GitURL := Dep_GitURL v; Dep_GitCommit := Dep_GitCommit v;
     Dep_BuildStatus := Dep_BuildStatus v; Dep_ImageDigest := Dep_ImageDigest v;
     Dep_RollbackTo := Dep_RollbackTo v; Dep_Checks := Dep_Checks v;
     Dep_RolloutPercent := Dep_RolloutPercent v; Dep_CreatedAt := Dep_CreatedAt v |}.

Definition Dep_set_IsProduction (x : bool) (v : Deployment) : Deployment :=
  {|
     Dep_ID := Dep_ID v; Dep_ProjectID := Dep_ProjectID v; Dep_Revision := Dep_Revision v;
     Dep_VersionLabel := Dep_VersionLabel v; Dep_GuestBase := Dep_GuestBase v;
     Dep_Environment := Dep_Environment v; Dep_IsProduction := x;
     Dep_RouteWeight := Dep_RouteWeight v; Dep_VMIDs := Dep_VMIDs v;
     Dep_GitURL := Dep_GitURL v; Dep_GitCommit := Dep_GitCommit v;
     Dep_BuildStatus := Dep_BuildStatus v; Dep_ImageDigest := Dep_ImageDigest v;
     Dep_RollbackTo := Dep_RollbackTo v; Dep_Checks := Dep_Checks v;
     Dep_RolloutPercent := Dep_RolloutPercent v; Dep_CreatedAt := Dep_CreatedAt v |}.

Definition Dep_set_VersionLabel (x : string) (v : Deployment) : Deployment :=
  {|
     Dep_ID := Dep_ID v; Dep_ProjectID := Dep_ProjectID v; Dep_Revision := Dep_Revision v;
     Dep_VersionLabel := x; Dep_GuestBase := Dep_GuestBase v;
     Dep_Environment := Dep_Environment v; Dep_IsProduction := Dep_IsProduction v;
     Dep_RouteWeight := Dep_RouteWeight v; Dep_VMIDs := Dep_VMIDs v;
     Dep_GitURL := Dep_GitURL v; Dep_GitCommit := Dep_GitCommit v;
     Dep_BuildStatus := Dep_BuildStatus v; Dep_ImageDigest := Dep_ImageDigest v;
     Dep_RollbackTo := Dep_RollbackTo v; Dep_Checks := Dep_Checks v;
     Dep_RolloutPercent := Dep_RolloutPercent v; Dep_CreatedAt := Dep_CreatedAt v |}.

Definition Dep_set_Checks (x : list DeploymentCheck) (v : Deployment) : Deployment :=
  {|
     Dep_ID := Dep_ID v; Dep_ProjectID := Dep_ProjectID v; Dep_Revision := Dep_Revision v;
     Dep_VersionLabel := Dep_VersionLabel v; Dep_GuestBase := Dep_GuestBase v;
     Dep_Environment := Dep_Environment v; Dep_IsProduction := Dep_IsProduction v;
     Dep_RouteWeight := Dep_RouteWeight v; Dep_VMIDs := Dep_VMIDs v;
     Dep_GitURL := Dep_GitURL v; Dep_GitCommit := Dep_GitCommit v;
     Dep_BuildStatus := Dep_BuildStatus v; Dep_ImageDigest := Dep_ImageDigest v;
     Dep_RollbackTo := Dep_RollbackTo v; Dep_Checks := x;
     Dep_RolloutPercent := Dep_RolloutPercent v; Dep_CreatedAt := Dep_CreatedAt v |}.

Definition Dep_set_GitURL (x : string) (v : Deployment) : Deployment :=
  {|
     Dep_ID := Dep_ID v; Dep_ProjectID := Dep_ProjectID v; Dep_Revision := Dep_Revision v;
     Dep_VersionLabel := Dep_VersionLabel v; Dep_GuestBase := Dep_GuestBase v;
     Dep_Environment := Dep_Environment v; Dep_IsProduction := Dep_IsProduction v;
     Dep_RouteWeight := Dep_RouteWeight v; Dep_VMIDs := Dep_VMIDs v; Dep_GitURL := x;
     Dep_GitCommit := Dep_GitCommit v; Dep_BuildStatus := Dep_BuildStatus v;
     Dep_ImageDigest := Dep_ImageDigest v; Dep_RollbackTo := Dep_RollbackTo v;
     Dep_Checks := Dep_Checks v; Dep_RolloutPercent := Dep_RolloutPercent v;
     Dep_CreatedAt := Dep_CreatedAt v |}.

Definition Dep_set_GitCommit (x : string) (v : Deployment) : Deployment :=
  {|
     Dep_ID := Dep_ID v; Dep_ProjectID := Dep_ProjectID v; Dep_Revision := Dep_Revision v;
     Dep_VersionLabel := Dep_VersionLabel v; Dep_GuestBase := Dep_GuestBase v;
     Dep_Environment := Dep_Environment v; Dep_IsProduction := Dep_IsProduction v;
     Dep_RouteWeight := Dep_RouteWeight v; Dep_VMIDs := Dep_VMIDs v;
     Dep_GitURL := Dep_GitURL v; Dep_GitCommit := x; Dep_BuildStatus := Dep_BuildStatus v;
     Dep_ImageDigest := Dep_ImageDigest v; Dep_RollbackTo := Dep_RollbackTo v;
     Dep_Checks := Dep_Checks v; Dep_RolloutPercent := Dep_RolloutPercent v;
     Dep_CreatedAt := Dep_CreatedAt v |}.

Definition Dep_set_CreatedAt (x : Z) (v : Deployment) : Deployment :=
  {|
     Dep_ID := Dep_ID v; Dep_ProjectID := Dep_ProjectID v; Dep_Revision := Dep_Revision v;
     Dep_VersionLabel := Dep_VersionLabel v; Dep_GuestBase := Dep_GuestBase v;
     Dep_Environment := Dep_Environment v; Dep_IsProduction := Dep_IsProduction v;
     Dep_RouteWeight := Dep_RouteWeight v; Dep_VMIDs := Dep_VMIDs v;
     Dep_GitURL := Dep_GitURL v; Dep_GitCommit := Dep_GitCommit v;
     Dep_BuildStatus := Dep_BuildStatus v; Dep_ImageDigest := Dep_ImageDigest v;
     Dep_RollbackTo := Dep_RollbackTo v; Dep_Checks := Dep_Checks v;
     Dep_RolloutPercent := Dep_RolloutPercent v; Dep_CreatedAt := x |}.

Record HealthEvent := mkHealthEvent {
  HE_ID : string;
  HE_VMID : string;
  HE_ProjectID : string;
  HE_ServiceID : string;
  HE_Status : string;
  HE_Detail : string;
  HE_TS : Z
}.

Record Cron := mkCron {
  Cron_ID : string;
  Cron_ProjectID : string;
  Cron_Name : string;
  Cron_Schedule : string;
  Cron_JobImage : string;
  Cron_Active : bool;
  Cron_LastRun : option Z;
  Cron_CreatedAt : Z
}.

(** The zero value of [types.Cron]. *)
Definition Cron_zero : Cron :=
  mkCron "" "" "" "" "" false None 0%Z.

Definition Cron_set_LastRun (x : option Z) (v : Cron) : Cron :=
  {|
     Cron_ID := Cron_ID v; Cron_ProjectID := Cron_ProjectID v; Cron_Name := Cron_Name v;
     Cron_Schedule := Cron_Schedule v; Cron_JobImage := Cron_JobImage v;
     Cron_Active := Cron_Active v; Cron_LastRun := x; Cron_CreatedAt := Cron_CreatedAt v |}.

Definition Cron_set_Name (x : string) (v : Cron) : Cron :=
  {|
     Cron_ID := Cron_ID v; Cron_ProjectID := Cron_ProjectID v; Cron_Name := x;
     Cron_Schedule := Cron_Schedule v; Cron_JobImage := Cron_JobImage v;
     Cron_Active := Cron_Active v; Cron_LastRun := Cron_LastRun v;
     Cron_CreatedAt := Cron_CreatedAt v |}.

Definition Cron_set_Schedule (x : string) (v : Cron) : Cron :=
  {|
     Cron_ID := Cron_ID v; Cron_ProjectID := Cron_ProjectID v; Cron_Name := Cron_Name v;
     Cron_Schedule := x; Cron_JobImage := Cron_JobImage v; Cron_Active := Cron_Active v;
     Cron_LastRun := Cron_LastRun v; Cron_CreatedAt := Cron_CreatedAt v |}.

Definition Cron_set_JobImage (x : string) (v : Cron) : Cron :=
  {|
     Cron_ID := Cron_ID v; Cron_ProjectID := Cron_ProjectID v; Cron_Name := Cron_Name v;
     Cron_Schedule := Cron_Schedule v; Cron_JobImage := x; Cron_Active := Cron_Active v;
     Cron_LastRun := Cron_LastRun v; Cron_CreatedAt := Cron_CreatedAt v |}.

Definition Cron_set_Active (x : bool) (v : Cron) : Cron :=
  {|
     Cron_ID := Cron_ID v; Cron_ProjectID := Cron_ProjectID v; Cron_Name := Cron_Name v;
     Cron_Schedule := Cron_Schedule v; Cron_JobImage := Cron_JobImage v; Cron_Active := x;
     Cron_LastRun := Cron_LastRun v; Cron_CreatedAt := Cron_CreatedAt v |}.

Record FirewallRule := mkFirewallRule {
  FR_ID : string;
  FR_ProjectID : string;
  FR_Direction : string;
  FR_Action : string;
  FR_Proto : string;
  FR_Ports : string;
  FR_Source : string;
  FR_Priority : Z;
  FR_Active : bool;
  FR_CreatedAt : Z
}.

#[export] Instance FirewallRule_eq_dec : EqDecision FirewallRule.
Proof. solve_decision. Defined.

(** The zero value of [types.FirewallRule]. *)
Definition FR_zero : FirewallRule :=
  mkFirewallRule "" "" "" "" "" "" "" 0%Z false 0%Z.

Definition FR_set_Direction (x : string) (v : FirewallRule) : FirewallRule :=
  {|
     FR_ID := FR_ID v; FR_ProjectID := FR_ProjectID v; FR_Direction := x;
     FR_Action := FR_Action v; FR_Proto := FR_Proto v; FR_Ports := FR_Ports v;
     FR_Source := FR_Source v; FR_Priority := FR_Priority v; FR_Active := FR_Active v;
     FR_CreatedAt := FR_CreatedAt v |}.

Definition FR_set_Proto (x : string) (v : FirewallRule) : FirewallRule :=
  {|
     FR_ID := FR_ID v; FR_ProjectID := FR_ProjectID v; FR_Direction := FR_Direction v;
     FR_Action := FR_Action v; FR_Proto := x; FR_Ports := FR_Ports v;
     FR_Source := FR_Source v; FR_Priority := FR_Priority v; FR_Active := FR_Active v;
     FR_CreatedAt := FR_CreatedAt v |}.

Definition FR_set_Ports (x : string) (v : FirewallRule) : FirewallRule :=
  {|
     FR_ID := FR_ID v; FR_ProjectID := FR_ProjectID v; FR_Direction := FR_Direction v;
     FR_Action := FR_Action v; FR_Proto := FR_Proto v; FR_Ports := x;
     FR_Source := FR_Source v; FR_Priority := FR_Priority v; FR_Active := FR_Active v;
     FR_CreatedAt := FR_CreatedAt v |}.

Definition FR_set_ID (x : string) (v : FirewallRule) : FirewallRule :=
  {|
     FR_ID := x; FR_ProjectID := FR_ProjectID v; FR_Direction := FR_Direction v;
     FR_Action := FR_Action v; FR_Proto := FR_Proto v; FR_Ports := FR_Ports v;
     FR_Source := FR_Source v; FR_Priority := FR_Priority v; FR_Active := FR_Active v;
     FR_CreatedAt := FR_CreatedAt v |}.

Definition FR_set_Action (x : string) (v : FirewallRule) : FirewallRule :=
  {|
     FR_ID := FR_ID v; FR_ProjectID := FR_ProjectID v; FR_Direction := FR_Direction v;
     FR_Action := x; FR_Proto := FR_Proto v; FR_Ports := FR_Ports v; FR_Source := FR_Source v;
     FR_Priority := FR_Priority v; FR_Active := FR_Active v; FR_CreatedAt := FR_CreatedAt v |}.

Definition FR_set_Source (x : string) (v : FirewallRule) : FirewallRule :=
  {|
     FR_ID := FR_ID v; FR_ProjectID := FR_ProjectID v; FR_Direction := FR_Direction v;
     FR_Action := FR_Action v; FR_Proto := FR_Proto v; FR_Ports := FR_Ports v; FR_Source := x;
     FR_Priority := FR_Priority v; FR_Active := FR_Active v; FR_CreatedAt := FR_CreatedAt v |}.

Definition FR_set_Priority (x : Z) (v : FirewallRule) : FirewallRule :=
  {|
     FR_ID := FR_ID v; FR_ProjectID := FR_ProjectID v; FR_Direction := FR_Direction v;
     FR_Action := FR_Action v; FR_Proto := FR_Proto v; FR_Ports := FR_Ports v;
     FR_Source := FR_Source v; FR_Priority := x; FR_Active := FR_Active v;
     FR_CreatedAt := FR_CreatedAt v |}.

Definition FR_set_Active (x : bool) (v : FirewallRule) : FirewallRule :=
  {|
     FR_ID := FR_ID v; FR_ProjectID := FR_ProjectID v; FR_Direction := FR_Direction v;
     FR_Action := FR_Action v; FR_Proto := FR_Proto v; FR_Ports := FR_Ports v;
     FR_Source := FR_Source v; FR_Priority := FR_Priority v; FR_Active := x;
     FR_CreatedAt := FR_CreatedAt v |}.

Record Build := mkBuild {
  Bld_ID : string;
  Bld_ProjectID : string;
  Bld_GitURL : string;
  Bld_Branch : string;
  Bld_BuildStatus : string;
  Bld_Image : string;
  Bld_Log : string;
  Bld_CreatedAt : Z
}.

(** The zero value of [types.Build]. *)
Definition Bld_zero : Build :=
  mkBuild "" "" "" "" "" "" "" 0%Z.

Record DNSRecord := mkDNSRecord {
  Rec_ID : string;
  Rec_ProjectID : string;
  Rec_Name : string;
  Rec_Type : string;
  Rec_Value : string;
  Rec_TTL : Z;
  Rec_CreatedAt : Z
}.

#[export] Instance DNSRecord_eq_dec : EqDecision DNSRecord.
Proof. solve_decision. Defined.

Record User := mkUser {
  User_ID : string;
  User_Username : string;
  User_Role : string;
  User_Email : string;
  User_NotifyOptIn : bool;
  User_PasswordHash : string;
  User_Salt : string;
  User_CreatedAt : Z
}.

#[export] Instance User_eq_dec : EqDecision User.
Proof. solve_decision. Defined.

(** The zero value of [types.User]. *)
Definition User_zero : User :=
  mkUser "" "" "" "" false "" "" 0%Z.

Definition User_set_Role (x : string) (v : User) : User :=
  {|
     User_ID := User_ID v; User_Username := User_Username v; User_Role := x;
     User_Email := User_Email v; User_NotifyOptIn := User_NotifyOptIn v;
     User_PasswordHash := User_PasswordHash v; User_Salt := User_Salt v;
     User_CreatedAt := User_CreatedAt v |}.

Record OrgMember := mkOrgMember {
  OM_OrgID : string;
  OM_UserID : string;
  OM_Username : string;
  OM_Role : string
}.

#[export] Instance OrgMember_eq_dec : EqDecision OrgMember.
Proof. solve_decision. Defined.

Record ProjectMember := mkProjectMember {
  PM_ProjectID : string;
  PM_UserID : string;
  PM_Role : string;
  PM_Invited : bool;
  PM_CreatedAt : Z
}.

#[export] Instance ProjectMember_eq_dec : EqDecision ProjectMember.
Proof. solve_decision. Defined.

Record Role := mkRole {
  Role_ID : string;
  Role_Name : string;
  Role_Description : string;
  Role_Permissions : list string;
  Role_Scope : string;
  Role_IsAdmin : bool;
  Role_SeesAll : bool;
  Role_IsDefault : bool;
  Role_IsSystem : bool
}.

#[export] Instance Role_eq_dec : EqDecision Role.
Proof. solve_decision. Defined.

(** The zero value of [types.Role]. *)
Definition Role_zero : Role :=
  mkRole "" "" "" [] "" false false false false.

Definition Role_set_Name (x : string) (v : Role) : Role :=
  {|
     Role_ID := Role_ID v; Role_Name := x; Role_Description := Role_Description v;
     Role_Permissions := Role_Permissions v; Role_Scope := Role_Scope v;
     Role_IsAdmin := Role_IsAdmin v; Role_SeesAll := Role_SeesAll v;
     Role_IsDefault := Role_IsDefault v; Role_IsSystem := Role_IsSystem v |}.

Definition Role_set_Description (x : string) (v : Role) : Role :=
  {|
     Role_ID := Role_ID v; Role_Name := Role_Name v; Role_Description := x;
     Role_Permissions := Role_Permissions v; Role_Scope := Role_Scope v;
     Role_IsAdmin := Role_IsAdmin v; Role_SeesAll := Role_SeesAll v;
     Role_IsDefault := Role_IsDefault v; Role_IsSystem := Role_IsSystem v |}.

Definition Role_set_Permissions (x : list string) (v : Role) : Role :=
  {|
     Role_ID := Role_ID v; Role_Name := Role_Name v; Role_Description := Role_Description v;
     Role_Permissions := x; Role_Scope := Role_Scope v; Role_IsAdmin := Role_IsAdmin v;
     Role_SeesAll := Role_SeesAll v; Role_IsDefault := Role_IsDefault v;
     Role_IsSystem := Role_IsSystem v |}.

Record APIKey := mkAPIKey {
  Key_ID : string;
  Key_UserID : string;
  Key_Name : string;
  Key_TokenHash : string;
  Key_CreatedAt : Z;
  Key_LastUsed : option Z
}.

#[export] Instance APIKey_eq_dec : EqDecision APIKey.
Proof. solve_decision. Defined.

Record MetricSample := mkMetricSample {
  Met_ID : string;
  Met_VMID : string;
  Met_Metric : string;
  Met_Value : float64;
  Met_TS : Z
}.

Record Org := mkOrg {
  Org_ID : string;
  Org_Name : string;
  Org_OwnerID : string;
  Org_IsDefault : bool;
  Org_CreatedAt : Z
}.

Definition Org_set_Name (x : string) (v : Org) : Org :=
  {|
     Org_ID := Org_ID v; Org_Name := x; Org_OwnerID := Org_OwnerID v;
     Org_IsDefault := Org_IsDefault v; Org_CreatedAt := Org_CreatedAt v |}.

Definition Org_set_OwnerID (x : string) (v : Org) : Org :=
  {|
     Org_ID := Org_ID v; Org_Name := Org_Name v; Org_OwnerID := x;
     Org_IsDefault := Org_IsDefault v; Org_CreatedAt := Org_CreatedAt v |}.

Record ImageManifest := mkImageManifest {
  Man_ID : string;
  Man_Name : string;
  Man_Type : string;
  Man_Description : string;
  Man_Image : string;
  Man_Rootfs : string;
  Man_Kernel : string;
  Man_Architecture : string;
  Man_RootfsSHA256 : string;
  Man_KernelSHA256 : string;
  Man_Status : string;
  Man_VCPUs : Z;
  Man_MemMiB : Z;
  Man_Ports : list Port;
  Man_Env : gmap string string;
  Man_Tags : list string;
  Man_Logo : string
}.

(** The zero value of [types.ImageManifest]. *)
Definition Man_zero : ImageManifest :=
  mkImageManifest "" "" "" "" "" "" "" "" "" "" "" 0%Z 0%Z [] ∅ [] "".

Record WebVital := mkWebVital {
  WV_ProjectID : string;
  WV_Path : string;
  WV_Metric : string;
  WV_Value : float64;
  WV_Rating : string;
  WV_Timestamp : Z
}.

Record Volume := mkVolume {
  Vol_ID : string;
  Vol_ProjectID : string;
  Vol_Name : string;
  Vol_SizeMiB : Z;
  Vol_Path : string;
  Vol_CreatedAt : Z
}.

#[export] Instance Volume_eq_dec : EqDecision Volume.
Proof. solve_decision. Defined.

(** The zero value of [types.Volume]. *)
Definition Vol_zero : Volume :=
  mkVolume "" "" "" 0%Z "" 0%Z.

Definition Vol_set_SizeMiB (x : Z) (v : Volume) : Volume :=
  {|
     Vol_ID := Vol_ID v; Vol_ProjectID := Vol_ProjectID v; Vol_Name := Vol_Name v;
     Vol_SizeMiB := x; Vol_Path := Vol_Path v; Vol_CreatedAt := Vol_CreatedAt v |}.

Definition Vol_set_Path (x : string) (v : Volume) : Volume :=
  {|
     Vol_ID := Vol_ID v; Vol_ProjectID := Vol_ProjectID v; Vol_Name := Vol_Name v;
     Vol_SizeMiB := Vol_SizeMiB v; Vol_Path := x; Vol_CreatedAt := Vol_CreatedAt v |}.

Record ServerHeartbeat := mkServerHeartbeat {
  HB_ID : string;
  HB_Address : string;
  HB_Status : string;
  HB_VCPUs : Z;
  HB_MemMiB : Z;
  HB_OS : string;
  HB_Arch : string;
  HB_Version : string;
  HB_Projects : Z;
  HB_VMs : Z
}.

Record GoldenImage := mkGoldenImage {
  GI_ID : string;
  GI_Name : string;
  GI_Image : string;
  GI_Description : string;
  GI_VCPUs : Z;
  GI_MemMiB : Z;
  GI_Ports : list Port;
  GI_Env : gmap string string;
  GI_Tags : list string;
  GI_Logo : string;
  GI_Version : string;
  GI_Kind : string;
  GI_Rootfs : string;
  GI_Kernel : string;
  GI_Architecture : string;
  GI_RootfsSHA256 : string;
  GI_KernelSHA256 : string;
  GI_Status : string;
  GI_ValidatedAt : option Z;
  GI_CreatedAt : Z
}.

(** The zero value of [types.GoldenImage]. *)
Definition GI_zero : GoldenImage :=
  mkGoldenImage "" "" "" "" 0%Z 0%Z [] ∅ [] "" "" "" "" "" "" "" "" "" None 0%Z.

Record Secret := mkSecret {
  Sec_ID : string;
  Sec_ProjectID : string;
  Sec_Name : string;
  Sec_ValueEncrypted : string;
  Sec_CreatedAt : Z;
  Sec_UpdatedAt : Z
}.

#[export] Instance Secret_eq_dec : EqDecision Secret.
Proof. solve_decision. Defined.

Record Group := mkGroup {
  Grp_ID : string;
  Grp_OrgID : string;
  Grp_Name : string;
  Grp_CreatedAt : Z
}.

#[export] Instance Group_eq_dec : EqDecision Group.
Proof. solve_decision. Defined.

Definition Grp_set_Name (x : string) (v : Group) : Group :=
  {|
     Grp_ID := Grp_ID v; Grp_OrgID := Grp_OrgID v; Grp_Name := x;
     Grp_CreatedAt := Grp_CreatedAt v |}.

Record Stack := mkStack {
  Stk_ID : string;
  Stk_Name : string;
  Stk_OrgID : string;
  Stk_Source : string;
  Stk_ComposeYAML : string;
  Stk_CreatedAt : Z
}.

#[export] Instance Stack_eq_dec : EqDecision Stack.
Proof. solve_decision. Defined.

Record Alert := mkAlert {
  Al_ID : string;
  Al_ProjectID : string;
  Al_Name : string;
  Al_Metric : string;
  Al_Threshold : float64;
  Al_Op : string;
  Al_CooldownS : Z;
  Al_Silenced : bool;
  Al_CreatedAt : Z
}.

(** The zero value of [types.Alert]. *)
Definition Al_zero : Alert :=
  mkAlert "" "" "" "" (S754_zero false) "" 0%Z false 0%Z.

Definition Al_set_Name (x : string) (v : Alert) : Alert :=
  {|
     Al_ID := Al_ID v; Al_ProjectID := Al_ProjectID v; Al_Name := x; Al_Metric := Al_Metric v;
     Al_Threshold := Al_Threshold v; Al_Op := Al_Op v; Al_CooldownS := Al_CooldownS v;
     Al_Silenced := Al_Silenced v; Al_CreatedAt := Al_CreatedAt v |}.

Definition Al_set_Metric (x : string) (v : Alert) : Alert :=
  {|
     Al_ID := Al_ID v; Al_ProjectID := Al_ProjectID v; Al_Name := Al_Name v; Al_Metric := x;
     Al_Threshold := Al_Threshold v; Al_Op := Al_Op v; Al_CooldownS := Al_CooldownS v;
     Al_Silenced := Al_Silenced v; Al_CreatedAt := Al_CreatedAt v |}.

Definition Al_set_Threshold (x : float64) (v : Alert) : Alert :=
  {|
     Al_ID := Al_ID v; Al_ProjectID := Al_ProjectID v; Al_Name := Al_Name v;
     Al_Metric := Al_Metric v; Al_Threshold := x; Al_Op := Al_Op v;
     Al_CooldownS := Al_CooldownS v; Al_Silenced := Al_Silenced v;
     Al_CreatedAt := Al_CreatedAt v |}.

Definition Al_set_Op (x : string) (v : Alert) : Alert :=
  {|
     Al_ID := Al_ID v; Al_ProjectID := Al_ProjectID v; Al_Name := Al_Name v;
     Al_Metric := Al_Metric v; Al_Threshold := Al_Threshold v; Al_Op := x;
     Al_CooldownS := Al_CooldownS v; Al_Silenced := Al_Silenced v;
     Al_CreatedAt := Al_CreatedAt v |}.

Definition Al_set_CooldownS (x : Z) (v : Alert) : Alert :=
  {|
     Al_ID := Al_ID v; Al_ProjectID := Al_ProjectID v; Al_Name := Al_Name v;
     Al_Metric := Al_Metric v; Al_Threshold := Al_Threshold v; Al_Op := Al_Op v;
     Al_CooldownS := x; Al_Silenced := Al_Silenced v; Al_CreatedAt := Al_CreatedAt v |}.

Definition Al_set_Silenced (x : bool) (v : Alert) : Alert :=
  {|
     Al_ID := Al_ID v; Al_ProjectID := Al_ProjectID v; Al_Name := Al_Name v;
     Al_Metric := Al_Metric v; Al_Threshold := Al_Threshold v; Al_Op := Al_Op v;
     Al_CooldownS := Al_CooldownS v; Al_Silenced := x; Al_CreatedAt := Al_CreatedAt v |}.

Record Feedback := mkFeedback {
  Fb_ID : string;
  Fb_Subject : string;
  Fb_Message : string;
  Fb_Category : string;
  Fb_Username : string;
  Fb_ProjectID : string;
  Fb_CreatedAt : Z
}.

Record Hook := mkHook {
  Hook_ID : string;
  Hook_ProjectID : string;
  Hook_Name : string;
  Hook_URL : string;
  Hook_Events : list string;
  Hook_Active : bool;
  Hook_CreatedAt : Z
}.

#[export] Instance Hook_eq_dec : EqDecision Hook.
Proof. solve_decision. Defined.

(** The zero value of [types.Hook]. *)
Definition Hook_zero : Hook :=
  mkHook "" "" "" "" [] false 0%Z.

Record Drain := mkDrain {
  Dr_ID : string;
  Dr_ProjectID : string;
  Dr_Name : string;
  Dr_Endpoint : string;
  Dr_Kind : string;
  Dr_Active : bool;
  Dr_CreatedAt : Z
}.

#[export] Instance Drain_eq_dec : EqDecision Drain.
Proof. solve_decision. Defined.

(** The zero value of [types.Drain]. *)
Definition Dr_zero : Drain :=
  mkDrain "" "" "" "" "" false 0%Z.

Record Redirect := mkRedirect {
  Rd_ID : string;
  Rd_ProjectID : string;
  Rd_Source : string;
  Rd_Target : string;
  Rd_Permanent : bool;
  Rd_CreatedAt : Z
}.

#[export] Instance Redirect_eq_dec : EqDecision Redirect.
Proof. solve_decision. Defined.

(** The zero value of [types.Redirect]. *)
Definition Rd_zero : Redirect :=
  mkRedirect "" "" "" "" false 0%Z.

Record Environment := mkEnvironment {
  Ev_ID : string;
  Ev_ProjectID : string;
  Ev_Name : string;
  Ev_Branch : string;
  Ev_URL : string;
  Ev_EnvDomain : string;
  Ev_CreatedAt : Z
}.

#[export] Instance Environment_eq_dec : EqDecision Environment.
Proof. solve_decision. Defined.

(** The zero value of [types.Environment]. *)
Definition Ev_zero : Environment :=
  mkEnvironment "" "" "" "" "" "" 0%Z.

Definition Ev_set_Name (x : string) (v : Environment) : Environment :=
  {|
     Ev_ID := Ev_ID v; Ev_ProjectID := Ev_ProjectID v; Ev_Name := x; Ev_Branch := Ev_Branch v;
     Ev_URL := Ev_URL v; Ev_EnvDomain := Ev_EnvDomain v; Ev_CreatedAt := Ev_CreatedAt v |}.

Definition Ev_set_Branch (x : string) (v : Environment) : Environment :=
  {|
     Ev_ID := Ev_ID v; Ev_ProjectID := Ev_ProjectID v; Ev_Name := Ev_Name v; Ev_Branch := x;
     Ev_URL := Ev_URL v; Ev_EnvDomain := Ev_EnvDomain v; Ev_CreatedAt := Ev_CreatedAt v |}.

Definition Ev_set_URL (x : string) (v : Environment) : Environment :=
  {|
     Ev_ID := Ev_ID v; Ev_ProjectID := Ev_ProjectID v; Ev_Name := Ev_Name v;
     Ev_Branch := Ev_Branch v; Ev_URL := x; Ev_EnvDomain := Ev_EnvDomain v;
     Ev_CreatedAt := Ev_CreatedAt v |}.

Definition Ev_set_EnvDomain (x : string) (v : Environment) : Environment :=
  {|
     Ev_ID := Ev_ID v; Ev_ProjectID := Ev_ProjectID v; Ev_Name := Ev_Name v;
     Ev_Branch := Ev_Branch v; Ev_URL := Ev_URL v; Ev_EnvDomain := x;
     Ev_CreatedAt := Ev_CreatedAt v |}.

Record Network := mkNetwork {
  Net_ID : string;
  Net_ProjectID : string;
  Net_Name : string;
  Net_CIDR : string;
  Net_Driver : string;
  Net_CreatedAt : Z
}.

#[export] Instance Network_eq_dec : EqDecision Network.
Proof. solve_decision. Defined.

Record Permission := mkPermission {
  Perm_ID : string;
  Perm_Name : string;
  Perm_Description : string
}.

#[export] Instance Permission_eq_dec : EqDecision Permission.
Proof. solve_decision. Defined.

(** ** States and health values ([internal/resource/types.go]) *)

Definition StatePending : string := "pending".
Definition StateBooting : string := "booting".
Definition StateRunning : string := "running".
Definition StateStopping : string := "stopping".
Definition StateStopped : string := "stopped".
Definition StateFailed : string := "failed".
Definition StateDeleting : string := "deleting".
Definition StateDeleted : string := "deleted".

Definition HealthHealthy : string := "healthy".
Definition HealthUnhealthy : string := "unhealthy".
Definition HealthChecking : string := "checking".

Definition StatusReady : string := "ready".

(** [VM.ContainerPort]: the first non-zero container port, 0 if there is none. *)
Definition ContainerPort (v : VM) : Z :=
  match find_first (fun p => negb (Port_ContainerPort p =? 0)%Z) (VM_Ports v) with
  | Some p => Port_ContainerPort p
  | None => 0%Z
  end.
