(* ===== verification/Gateway.v ===== *)
(** * The HTTP gateway ([internal/gateway/gateway.go])

    Host-header routing to the healthy replica pool, weighted deployment
    backends, the project firewall, the round-robin cursor and the in-memory
    traffic ring. The persistence surface is the class [GatewayStore], the
    reverse proxy and the DNS resolver are parameters of [ServeHTTP]. *)
From S2P Require Import Prelude GoStrings GoNum GoNet Types.
From Stdlib Require Import Ascii String.

Open Scope string_scope.
Open Scope Z_scope.

(** ** The store the gateway needs *)

(** The interface [gateway.Store] over a store state [S]. [ListFirewallRules]
    may hold nil entries; [ListDeployments] is [None] when the store does not
    implement the optional [deploymentStore] interface. *)
Class GatewayStore (S : Type) := {
  GetVM : S -> string -> option VM;
  ListVMs : S -> list VM;
  ListDomains : S -> string -> list Domain;
  ListFirewallRules : S -> string -> list (option FirewallRule);
  AddTraffic : S -> string -> TrafficEntry -> S;
  ListDeployments : option (S -> string -> list Deployment)
}.

(** ** The traffic ring *)

Record TrafficRing := mkRing {
  perVM : gmap string (list TrafficEntry);
  size : Z
}.

Definition NewTrafficRing (n : Z) : TrafficRing :=
  mkRing ∅ (if n <=? 0 then 500 else n).

(** A missing key reads as the nil slice. *)
Definition ring_buf (t : TrafficRing) (vmID : string) : list TrafficEntry :=
  default [] (perVM t !! vmID).

Definition zlen {A} (l : list A) : Z := Z.of_nat (List.length l).

Definition TrafficRing_Add (t : TrafficRing) (vmID : string) (e : TrafficEntry) : TrafficRing :=
  let buf := (ring_buf t vmID ++ [e])%list in
  let buf := if size t <? zlen buf then drop (Z.to_nat (zlen buf - size t)) buf else buf in
  mkRing (<[vmID := buf]> (perVM t)) (size t).

Definition TrafficRing_List (t : TrafficRing) (vmID : string) (limit : Z) : list TrafficEntry :=
  let buf := ring_buf t vmID in
  let limit := if (limit <=? 0) || (zlen buf <? limit) then zlen buf else limit in
  let start := zlen buf - limit in
  drop (Z.to_nat start) buf.

(** ** Decimal port numbers *)

(** The digit loop of [itoa] over its 20-byte buffer: [acc] is [b[pos:]]. *)
Fixpoint itoa_loop (fuel : nat) (i : Z) (acc : string) : string :=
  match fuel with
  | O => acc
  | S fuel =>
      if 0 <? i then itoa_loop fuel (Z.quot i 10) (String (digit (Z.rem i 10)) acc)
      else acc
  end.

Definition itoa (i : Z) : string :=
  if i =? 0 then "0"
  else
    let neg := i <? 0 in
    let i := if neg then i64 (- i) else i in
    let b := itoa_loop 20 i "" in
    if neg then String "-" b else b.

(** ** Routing *)

Definition isHealthy (vm : VM) : bool :=
  (VM_State vm ==? StateRunning) && (VM_HealthStatus vm !=? HealthUnhealthy).

(** The upstream host, or nothing for a VM without an address. *)
Definition targetAddress (vm : VM) : option string :=
  if VM_IPAddress vm ==? "" then None
  else
    let port := match VM_Ports vm with
                | p :: _ => if Port_ContainerPort p =? 0 then 80 else Port_ContainerPort p
                | [] => 80
                end in
    Some (VM_IPAddress vm ++ ":" ++ itoa port).

Section Routing.
Context {S : Type} `{GatewayStore S}.
(** The attached [DNSResolver], if any: [None] as a result is a lookup error. *)
Context (dns : option (string -> option (list IP))).

(** How often one replica of a deployment with this weight is listed. *)
Definition repeats (weight : Z) : Z :=
  let r := Z.quot weight 10 in
  let r := if r <? 1 then 1 else r in
  if 10 <? r then 10 else r.

Definition deployment_weight (d : Deployment) : Z :=
  if Dep_RouteWeight d <=? 0 then Dep_RolloutPercent d else Dep_RouteWeight d.

Definition deployment_backends (s : S) (d : Deployment) : list VM :=
  let weight := deployment_weight d in
  if (weight <=? 0) || (Dep_BuildStatus d ==? "failed") || (zlen (Dep_VMIDs d) =? 0) then []
  else
    mjoin ((fun vmID =>
      match GetVM s vmID with
      | Some vm => if isHealthy vm then replicate (Z.to_nat (repeats weight)) vm else []
      | None => []
      end) <$> Dep_VMIDs d).

Definition weightedDeploymentBackends (s : S) (projectID : string) (fallback : VM) : list VM :=
  match ListDeployments with
  | None => [fallback]
  | Some ds =>
      match mjoin (deployment_backends s <$> ds s projectID) with
      | [] => [fallback]
      | out => out
      end
  end.

(** First healthy VM one of whose domain records equals the host. *)
Definition domain_match (s : S) (host : string) : option VM :=
  find_first (fun vm => isHealthy vm &&
    existsb (fun d => equal_fold (Dom_Domain d) host) (ListDomains s (VM_ID vm))) (ListVMs s).

(** First healthy VM whose address is one the resolver returned. *)
Definition dns_match (s : S) (host : string) : option VM :=
  match dns with
  | Some lookup =>
      if has_suffix host ".local" then
        match lookup host with
        | Some ips =>
            find_first (fun vm => isHealthy vm &&
              existsb (fun ip => (VM_IPAddress vm !=? "") && (VM_IPAddress vm ==? IP_String ip)) ips)
              (ListVMs s)
        | None => None
        end
      else None
  | None => None
  end.

Definition backendsFor (s : S) (host : string) : list VM :=
  match domain_match s host with
  | Some vm => weightedDeploymentBackends s (VM_ProjectID vm) vm
  | None =>
      match dns_match s host with
      | Some vm => [vm]
      | None => base.filter (fun vm => isHealthy vm = true) (ListVMs s)
      end
  end.

(** ** Firewall *)

(** Exact address or CIDR; the empty source and the wildcards match all. *)
Definition sourceMatches (source ip : string) : bool :=
  if (source ==? "") || (source ==? "*") || (source ==? "0.0.0.0/0") then true
  else if source ==? ip then true
  else match ParseCIDR source with
       | Some cidr => match ParseIP ip with
                      | Some parsed => Contains cidr parsed
                      | None => false
                      end
       | None => false
       end.

(** The inner loop for one [i]: [x] is [best[i]], the list is [best[i+1:]]. *)
Fixpoint exchange_pass (x : FirewallRule) (tl : list FirewallRule)
    : FirewallRule * list FirewallRule :=
  match tl with
  | [] => (x, [])
  | y :: tl =>
      if FR_Priority y <? FR_Priority x
      then let '(m, tl) := exchange_pass y tl in (m, x :: tl)
      else let '(m, tl) := exchange_pass x tl in (m, y :: tl)
  end.

(** The outer loop: one pass per position. *)
Fixpoint exchange_sort (n : nat) (best : list FirewallRule) : list FirewallRule :=
  match n, best with
  | Datatypes.S n, x :: tl => let '(m, tl) := exchange_pass x tl in m :: exchange_sort n tl
  | _, _ => best
  end.

Definition active_deny (fr : FirewallRule) : bool := FR_Active fr && (FR_Action fr ==? "deny").

Definition remote_ip (remoteAddr : string) : string :=
  match SplitHostPort remoteAddr with
  | Some (h, _) => h
  | None => remoteAddr
  end.

Definition blockedByFirewall (s : S) (projectID remoteAddr : string) : option FirewallRule :=
  if projectID ==? "" then None
  else
    let ip := remote_ip remoteAddr in
    let best := base.filter (fun fr => active_deny fr = true)
                  (omap id (ListFirewallRules s projectID)) in
    let best := exchange_sort (List.length best) best in
    find_first (fun fr => sourceMatches (FR_Source fr) ip) best.

(** ** Serving a request *)

Record Request := mkRequest {
  Req_Host : string;
  Req_Method : string;
  Req_Path : string;
  Req_RemoteAddr : string;
  Req_Cookie : option string  (** the [porter_deployment] cookie *)
}.

(** What the reverse proxy reported: status, milliseconds, bytes in and out. *)
Record ProxyResult := mkProxy { px_status : Z; px_ms : Z; px_in : Z; px_out : Z }.

(** The response: an error page, a proxied answer, or Go's index panic. The
    second component of [Proxied] and [Blocked] is the cookie set on the way. *)
Inductive Response :=
| NoBackend (host : string)
| Blocked (rule : FirewallRule) (cookie : option string)
| NoAddress (cookie : option string)
| Proxied (vm : VM) (target : string) (cookie : option string) (px : ProxyResult)
| IndexPanic.

Record Gateway := mkGateway { gw_ring : TrafficRing; gw_rr : Z }.

Definition NewGateway : Gateway := mkGateway (NewTrafficRing 500) 0.

Definition split_host (h : string) : string := default "" (head (split_on ":" h)).

(** The replica pinned by the deployment cookie, if the pool still has it. *)
Definition sticky (vms : list VM) (cookie : option string) : option VM :=
  match cookie with
  | Some v => find_first (fun c => (VM_DeploymentID c ==? v) || (VM_DeploymentVersion c ==? v)) vms
  | None => None
  end.

(** [vms[int(g.rr.Add(1))%len(vms)]]: the new cursor and the element, [None]
    when the index is out of range. *)
Definition rr_next (rr : Z) (vms : list VM) : Z * option VM :=
  let rr := u64 (rr + 1) in
  let i := Z.rem (i64 rr) (zlen vms) in
  (rr, if i <? 0 then None else vms !! Z.to_nat i).

(** Choose the backend: new cursor, VM, cookie to set. *)
Definition choose (g : Gateway) (r : Request) (vms : list VM)
    : Gateway * option (VM * option string) :=
  match sticky vms (Req_Cookie r) with
  | Some vm => (g, Some (vm, None))
  | None =>
      let '(rr, o) := rr_next (gw_rr g) vms in
      (mkGateway (gw_ring g) rr,
       match o with
       | Some vm => Some (vm, if VM_DeploymentVersion vm ==? "" then None
                              else Some (VM_DeploymentVersion vm))
       | None => None
       end)
  end.

Context (proxy : string -> Request -> ProxyResult).

Definition ServeHTTP (g : Gateway) (s : S) (now : Z) (r : Request) : Gateway * S * Response :=
  let host := split_host (Req_Host r) in
  let vms := backendsFor s host in
  if zlen vms =? 0 then (g, s, NoBackend host)
  else
    match choose g r vms with
    | (g, None) => (g, s, IndexPanic)
    | (g, Some (vm, cookie)) =>
        match blockedByFirewall s (VM_ProjectID vm) (Req_RemoteAddr r) with
        | Some rule => (g, s, Blocked rule cookie)
        | None =>
            match targetAddress vm with
            | None => (g, s, NoAddress cookie)
            | Some target =>
                let px := proxy target r in
                let entry := {| TE_Timestamp := now; TE_Method := Req_Method r;
                                TE_Host := Req_Host r; TE_Path := Req_Path r;
                                TE_Status := px_status px; TE_DurationMS := px_ms px;
                                TE_RemoteIP := Req_RemoteAddr r;
                                TE_BytesIn := px_in px; TE_BytesOut := px_out px |} in
                (mkGateway (TrafficRing_Add (gw_ring g) (VM_ID vm) entry) (gw_rr g),
                 AddTraffic s (VM_ID vm) entry,
                 Proxied vm target cookie px)
            end
        end
    end.

End Routing.

(** ** Lemmas: the exchange sort *)

Definition prio_le (a b : FirewallRule) : Prop := FR_Priority a <= FR_Priority b.

Lemma exchange_pass_perm x tl m tl' :
  exchange_pass x tl = (m, tl') -> x :: tl ≡ₚ m :: tl'.
Proof.
  revert x m tl'. induction tl as [|y tl IH]; intros x m tl' E; cbn in E; [by simplify_eq|].
  destruct (FR_Priority y <? FR_Priority x); destruct (exchange_pass _ tl) as [m0 t0] eqn:E0;
    simplify_eq; apply IH in E0.
  - by rewrite E0, Permutation_swap.
  - by rewrite Permutation_swap, E0, Permutation_swap.
Qed.

Lemma exchange_pass_min x tl m tl' :
  exchange_pass x tl = (m, tl') -> Forall (prio_le m) (x :: tl).
Proof.
  unfold prio_le. revert x m tl'.
  induction tl as [|y tl IH]; intros x m tl' E; cbn in E.
  - simplify_eq. by repeat constructor.
  - destruct (Z.ltb_spec (FR_Priority y) (FR_Priority x)) as [Hlt|Hge];
      destruct (exchange_pass _ tl) as [m0 t0] eqn:E0; simplify_eq;
      apply IH in E0; inversion_clear E0; repeat constructor; try done; lia.
Qed.

Lemma exchange_pass_length x tl m tl' :
  exchange_pass x tl = (m, tl') -> List.length tl' = List.length tl.
Proof. intros E%exchange_pass_perm%Permutation_length. cbn in E. lia. Qed.

Lemma exchange_sort_perm n l : exchange_sort n l ≡ₚ l.
Proof.
  revert l. induction n as [|n IH]; intros [|x tl]; cbn; try done.
  destruct (exchange_pass x tl) as [m tl'] eqn:E.
  apply exchange_pass_perm in E. by rewrite IH, E.
Qed.

Lemma exchange_sort_sorted n l :
  List.length l = n -> StronglySorted prio_le (exchange_sort n l).
Proof.
  revert l. induction n as [|n IH]; intros [|x tl] Hn; cbn in *; try (done || constructor).
  destruct (exchange_pass x tl) as [m tl'] eqn:E. constructor.
  - apply IH. apply exchange_pass_length in E. lia.
  - rewrite exchange_sort_perm.
    pose proof (exchange_pass_min _ _ _ _ E) as Hmin.
    apply exchange_pass_perm in E. rewrite E in Hmin. by inversion Hmin.
Qed.

(** In a sorted list the first match is a least match. *)
Lemma find_first_sorted p l x :
  StronglySorted prio_le l -> find_first p l = Some x ->
  forall y, y ∈ l -> p y = true -> prio_le x y.
Proof.
  intros Hs (l1 & l2 & -> & Hx & Hall)%find_first_Some y Hy Hp.
  apply elem_of_app in Hy as [Hy|Hy].
  - rewrite Forall_forall in Hall. apply Hall in Hy. congruence.
  - apply elem_of_cons in Hy as [->|Hy]; [unfold prio_le; lia|].
    apply StronglySorted_app_1_r in Hs. inversion Hs as [|? ? _ Hf]; subst.
    rewrite Forall_forall in Hf. auto.
Qed.

#[export] Hint Resolve exchange_sort_sorted exchange_sort_perm : porter.

(** ** Theorems: firewall, routing *)

Section GatewayTheorems.
Context {S : Type} `{GatewayStore S}.
Context (dns : option (string -> option (list IP))).

(** A rule that must block requests from [ip] under the firewall of [p]. *)
Definition denies (s : S) (p ip : string) (fr : FirewallRule) : Prop :=
  Some fr ∈ ListFirewallRules s p /\ active_deny fr = true /\
  sourceMatches (FR_Source fr) ip = true.

Lemma elem_of_candidates (s : S) p fr :
  fr ∈ base.filter (fun fr => active_deny fr = true) (omap id (ListFirewallRules s p)) <->
  Some fr ∈ ListFirewallRules s p /\ active_deny fr = true.
Proof.
  rewrite list_elem_of_filter, list_elem_of_omap. split.
  - intros (Ha & x & Hx & Hid). destruct x; cbn in Hid; by simplify_eq.
  - intros [Hin Ha]. split; [done|]. by exists (Some fr).
Qed.

Lemma firewall_decision (s : S) p ra :
  p <> "" ->
  match blockedByFirewall s p ra with
  | Some fr => denies s p (remote_ip ra) fr /\
               forall fr', denies s p (remote_ip ra) fr' -> FR_Priority fr <= FR_Priority fr'
  | None => forall fr, ~ denies s p (remote_ip ra) fr
  end.
Proof.
  intros Hp. unfold blockedByFirewall, denies.
  rewrite bool_decide_eq_false_2 by done.
  set (cand := base.filter _ _).
  pose proof (exchange_sort_perm (List.length cand) cand) as Hperm.
  pose proof (exchange_sort_sorted (List.length cand) cand eq_refl) as Hsort.
  set (l := exchange_sort _ _) in *.
  destruct (find_first _ l) as [fr|] eqn:E.
  - pose proof (find_first_In _ _ _ E) as [Hin Hm].
    rewrite Hperm in Hin. apply elem_of_candidates in Hin as [Hin Ha].
    split; [done|]. intros fr' (Hin' & Ha' & Hm').
    apply (find_first_sorted _ _ _ Hsort E); [|done].
    rewrite Hperm. by apply elem_of_candidates.
  - intros fr (Hin & Ha & Hm). apply find_first_None in E.
    rewrite Hperm, Forall_forall in E. specialize (E fr).
    rewrite Hm in E. discriminate E. by apply elem_of_candidates.
Qed.

(** C2: the firewall decision. For a request to a project, the gateway reports
    a rule exactly when some active deny rule of that project matches the
    source address, and the rule it reports is one of least Priority. *)
Theorem blockedByFirewall_spec (s : S) p ra :
  p <> "" ->
  match blockedByFirewall s p ra with
  | Some fr => denies s p (remote_ip ra) fr /\
               forall fr', denies s p (remote_ip ra) fr' -> FR_Priority fr <= FR_Priority fr'
  | None => forall fr, ~ denies s p (remote_ip ra) fr
  end.
Proof. apply firewall_decision. Qed.

Lemma repeats_range w : 1 <= repeats w <= 10.
Proof. unfold repeats. repeat case_goal; bools; lia. Qed.

Lemma deployment_backends_healthy (s : S) d :
  Forall (fun vm => isHealthy vm = true) (deployment_backends s d).
Proof.
  unfold deployment_backends. case_goal; [constructor|].
  apply Forall_forall. intros vm Hvm.
  apply list_elem_of_join in Hvm as (l & Hvm & Hl).
  apply list_elem_of_fmap in Hl as (id & -> & _).
  destruct (GetVM s id); [|by apply elem_of_nil in Hvm].
  destruct (isHealthy v) eqn:Hh; [|by apply elem_of_nil in Hvm].
  by apply elem_of_replicate in Hvm as [-> _].
Qed.

Lemma weighted_healthy (s : S) p vm :
  isHealthy vm = true ->
  Forall (fun vm => isHealthy vm = true) (weightedDeploymentBackends s p vm).
Proof.
  intros Hvm. unfold weightedDeploymentBackends.
  destruct ListDeployments as [ds|]; [|by repeat constructor].
  assert (Hall : Forall (fun vm => isHealthy vm = true)
                   (mjoin (deployment_backends s <$> ds s p))).
  { apply Forall_join, Forall_fmap, Forall_true. intros d.
    apply deployment_backends_healthy. }
  by destruct (mjoin _); [repeat constructor|].
Qed.

(** Every backend the router offers for a host is a healthy VM, whichever
    of the three routing passes produced it. *)
Theorem backendsFor_healthy (s : S) host :
  Forall (fun vm => isHealthy vm = true) (backendsFor dns s host).
Proof.
  unfold backendsFor. destruct (domain_match s host) as [vm|] eqn:E.
  - apply weighted_healthy. unfold domain_match in E.
    apply find_first_In in E as [_ E]. by bools.
  - destruct (dns_match dns s host) as [vm|] eqn:E'.
    + repeat constructor. unfold dns_match in E'.
      repeat case_in E'; try done. apply find_first_In in E' as [_ E']. by bools.
    + apply Forall_forall. intros vm Hvm. by apply list_elem_of_filter in Hvm as [? _].
Qed.

(** The whole pool of a project's deployments is bounded by ten entries per
    listed replica. *)
Lemma weighted_length (s : S) p vm ds :
  ListDeployments = Some ds ->
  (List.length (weightedDeploymentBackends s p vm) <=
   Nat.max 1 (10 * sum_nat ((fun d => List.length (Dep_VMIDs d)) <$> ds s p)))%nat.
Proof.
  intros Hds. unfold weightedDeploymentBackends. rewrite Hds.
  assert (Hb : forall d, (List.length (deployment_backends s d) <=
                          10 * List.length (Dep_VMIDs d))%nat).
  { intros d. unfold deployment_backends. case_goal; [cbn; lia|].
    rewrite length_concat_map. etrans; [apply (sum_nat_le 10)|by rewrite length_fmap].
    apply Forall_fmap, Forall_true. intros id. cbn.
    repeat case_goal; cbn; try lia. rewrite length_replicate.
    pose proof (repeats_range (deployment_weight d)). lia. }
  assert (Hl : (List.length (mjoin (deployment_backends s <$> ds s p)) <=
                10 * sum_nat ((fun d => List.length (Dep_VMIDs d)) <$> ds s p))%nat).
  { rewrite length_concat_map. induction (ds s p) as [|d l IH]; [done|].
    change (List.length (deployment_backends s d) +
            sum_nat (List.length ∘ deployment_backends s <$> l) <=
            10 * (List.length (Dep_VMIDs d) +
                  sum_nat ((fun d => List.length (Dep_VMIDs d)) <$> l)))%nat.
    specialize (Hb d). lia. }
  destruct (mjoin _); cbn in *; lia.
Qed.

End GatewayTheorems.

(** ** Theorems: the traffic ring *)

(** The unbounded log the ring abstracts: every entry ever added, per VM. *)
Definition log_of (vmID : string) (log : list (string * TrafficEntry)) : list TrafficEntry :=
  snd <$> base.filter (fun p => p.1 = vmID) log.

Definition ring_of (n : Z) (log : list (string * TrafficEntry)) : TrafficRing :=
  fold_left (fun t p => TrafficRing_Add t p.1 p.2) log (NewTrafficRing n).

(** Simulation relation: each buffer is the tail of that VM's log. *)
Definition ring_rel (t : TrafficRing) (log : list (string * TrafficEntry)) : Prop :=
  0 < size t /\ forall vmID, ring_buf t vmID = lastn (Z.to_nat (size t)) (log_of vmID log).

Lemma log_of_snoc vmID log v e :
  log_of vmID (log ++ [(v, e)])%list =
  (log_of vmID log ++ if decide (v = vmID) then [e] else [])%list.
Proof.
  unfold log_of. rewrite filter_app, fmap_app. f_equal.
  rewrite filter_cons. cbn. by case_decide.
Qed.

Lemma trim_lastn (n : Z) (l : list TrafficEntry) :
  0 < n ->
  (if n <? zlen l then drop (Z.to_nat (zlen l - n)) l else l) = lastn (Z.to_nat n) l.
Proof.
  intros Hn. unfold zlen, lastn. destruct (Z.ltb_spec n (Z.of_nat (List.length l))).
  - f_equal. lia.
  - by replace (List.length l - Z.to_nat n)%nat with 0%nat by lia.
Qed.

Lemma ring_rel_Add t log v e :
  ring_rel t log -> ring_rel (TrafficRing_Add t v e) (log ++ [(v, e)])%list.
Proof.
  intros [Hn Hbuf]. unfold TrafficRing_Add. split; [done|]. intros vmID.
  rewrite log_of_snoc. unfold ring_buf at 1; cbn [perVM size].
  rewrite trim_lastn by done. destruct (decide (v = vmID)) as [->|Hne].
  - rewrite lookup_insert_eq. cbn. by rewrite Hbuf, lastn_app_lastn.
  - rewrite lookup_insert_ne, app_nil_r by done. apply Hbuf.
Qed.

Lemma ring_of_rel n log : ring_rel (ring_of n log) log.
Proof.
  unfold ring_of. induction log as [|[v e] log IH] using rev_ind.
  - split; [cbn; case_goal; bools; lia|]. done.
  - rewrite fold_left_app. by apply ring_rel_Add.
Qed.

Lemma size_ring_of n log : size (ring_of n log) = size (NewTrafficRing n).
Proof.
  unfold ring_of. by induction log as [|p log IH] using rev_ind; [|rewrite fold_left_app].
Qed.

(** The bounded ring refines the full request log. Whatever sequence of
    requests was recorded, listing a VM returns exactly the most recent entries
    of that VM in order, as many as the limit asks for and the bound keeps. *)
Theorem ring_refines_log n log vmID limit :
  TrafficRing_List (ring_of n log) vmID limit =
  lastn (Z.to_nat (let bound := if n <=? 0 then 500 else n in
                   if limit <=? 0 then bound else Z.min limit bound))
        (log_of vmID log).
Proof.
  destruct (ring_of_rel n log) as [Hn Hbuf].
  unfold TrafficRing_List. rewrite Hbuf, size_ring_of in *.
  cbn [NewTrafficRing size] in *. set (b := if n <=? 0 then 500 else n) in *.
  set (l := log_of vmID log).
  assert (Hlen : zlen (lastn (Z.to_nat b) l) = Z.min b (zlen l)).
  { unfold zlen. rewrite length_lastn. lia. }
  rewrite Hlen. destruct (Z.leb_spec limit 0) as [Hl|Hl]; cbn [orb].
  - by rewrite Z.sub_diag.
  - destruct (Z.ltb_spec (Z.min b (zlen l)) limit) as [Hlt|Hge].
    + rewrite Z.sub_diag. cbn [Z.to_nat drop]. unfold zlen in *.
      destruct (decide (limit <= b)); [|by rewrite (Z.min_r limit b) by lia].
      rewrite !lastn_all by lia. done.
    + assert (limit <= b) by lia. rewrite (Z.min_l limit b) by done.
      rewrite <- (lastn_lastn (Z.to_nat limit) (Z.to_nat b)) by lia.
      set (k := lastn (Z.to_nat b) l) in *. unfold lastn, zlen in *. f_equal. lia.
Qed.

(** ** Theorems: port numbers *)

Lemma itoa_loop_digits fuel i acc :
  0 <= i -> itoa_loop fuel i acc = digits_aux fuel i acc.
Proof.
  revert i acc. induction fuel as [|fuel IH]; intros i acc Hi; [done|].
  cbn [itoa_loop digits_aux]. destruct (Z.ltb_spec 0 i), (Z.eqb_spec i 0); try lia; [|done].
  rewrite Z.quot_div_nonneg, Z.rem_mod_nonneg by lia. apply IH.
  apply Z.div_pos; lia.
Qed.

(** The hand-written [itoa] is [strconv.Itoa] on every 64-bit integer but
    the least one, so what it prints reads back as the number. *)
Theorem itoa_correct i :
  in_i64 i -> i <> min_int64 -> itoa i = Itoa i /\ Atoi (itoa i) = Some i.
Proof.
  intros Hi Hmin.
  assert (E : itoa i = Itoa i); [|split; [done|rewrite E; by apply Atoi_Itoa]].
  unfold in_i64, min_int64, max_int64 in *. unfold itoa, Itoa.
  destruct (Z.eqb_spec i 0); [done|]. destruct (Z.ltb_spec i 0).
  - rewrite i64_id by (unfold in_i64, min_int64, max_int64; lia).
    by rewrite itoa_loop_digits by lia.
  - by rewrite itoa_loop_digits by lia.
Qed.

(** On the least 64-bit integer the negation overflows and no digit is written. *)
Lemma itoa_min_int64 : itoa min_int64 = "-".
Proof. by vm_compute. Qed.

(** ** Theorems: the round-robin cursor *)

Lemma rr_next_index rr vms :
  vms <> [] -> 0 <= rr < max_int64 ->
  rr_next rr vms = (rr + 1, vms !! (Z.to_nat (rr + 1) mod List.length vms)%nat).
Proof.
  intros Hne Hrr. unfold max_int64 in Hrr.
  assert (0 < zlen vms) by (destruct vms; [done|unfold zlen; cbn; lia]).
  unfold rr_next. unfold u64, wrap_u. rewrite Z.mod_small by lia.
  rewrite i64_id by (unfold in_i64, min_int64, max_int64; lia).
  rewrite Z.rem_mod_nonneg by lia. f_equal.
  pose proof (Z.mod_pos_bound (rr + 1) (zlen vms) ltac:(lia)).
  destruct (Z.ltb_spec ((rr + 1) mod zlen vms) 0); [lia|].
  f_equal. unfold zlen in *. rewrite Z2Nat.inj_mod by lia. by rewrite Nat2Z.id.
Qed.

(** The backends picked by [n] consecutive requests on a fixed pool. *)
Fixpoint picks (n : nat) (rr : Z) (vms : list VM) : list (option VM) :=
  match n with
  | O => []
  | S n => let '(rr, o) := rr_next rr vms in o :: picks n rr vms
  end.

Lemma length_picks n rr vms : List.length (picks n rr vms) = n.
Proof.
  revert rr. induction n as [|n IH]; intros rr; [done|].
  cbn [picks]. destruct (rr_next rr vms). cbn. by rewrite IH.
Qed.

Lemma lookup_picks n rr vms i :
  vms <> [] -> 0 <= rr -> rr + Z.of_nat n <= max_int64 -> (i < n)%nat ->
  picks n rr vms !! i = Some (vms !! (Z.to_nat (rr + 1 + Z.of_nat i) mod List.length vms)%nat).
Proof.
  revert rr i. induction n as [|n IH]; intros rr i Hne Hrr Hmax Hi; [lia|].
  cbn [picks]. rewrite rr_next_index by (done || lia). destruct i as [|i].
  - cbn. by rewrite Z.add_0_r.
  - cbn [lookup list_lookup]. rewrite IH by (done || lia). do 4 f_equal. lia.
Qed.

(** Round robin is fair. Any run of as many requests as the pool has entries
    picks every entry exactly once, as long as the cursor stays a positive Go
    int; so a replica listed [k] times in the weighted pool gets [k] of them. *)
Theorem round_robin_fair rr vms :
  vms <> [] -> 0 <= rr -> rr + zlen vms <= max_int64 ->
  picks (List.length vms) rr vms ≡ₚ Some <$> vms.
Proof.
  intros Hne Hrr Hmax.
  assert (Hlen : (0 < List.length vms)%nat) by (destruct vms; [done|cbn; lia]).
  assert (E : picks (List.length vms) rr vms = Some <$> rotate (Z.to_nat (rr + 1)) vms).
  { apply list_eq_same_length with (n := List.length vms).
    - by rewrite length_fmap, length_rotate.
    - apply length_picks.
    - intros i x y Hi Hx Hy. rewrite lookup_picks in Hx by (done || lia).
      rewrite list_lookup_fmap, lookup_rotate_r in Hy by done.
      assert (rotate_nat_add (Z.to_nat (rr + 1)) i (List.length vms) =
              (Z.to_nat (rr + 1 + Z.of_nat i) mod List.length vms)%nat) as Hidx.
      { unfold rotate_nat_add. rewrite Z2Nat.inj_mod, Nat2Z.id by lia. f_equal. lia. }
      rewrite Hidx in Hy. simplify_eq.
      destruct (vms !! _) eqn:E; cbn in Hy; by simplify_eq. }
  rewrite E. apply fmap_Permutation. unfold rotate.
  by rewrite Permutation_app_comm, take_drop.
Qed.

(** ** Theorems: serving a request *)

Section ServeTheorems.
Context {S : Type} `{GatewayStore S}.
Context (dns : option (string -> option (list IP))).
Context (proxy : string -> Request -> ProxyResult).

(** A VM a deployment cookie of value [v] pins. *)
Definition pinned (v : string) (vm : VM) : Prop :=
  VM_DeploymentID vm = v \/ VM_DeploymentVersion vm = v.

Lemma sticky_Some vms cookie vm :
  sticky vms cookie = Some vm -> vm ∈ vms /\ exists v, cookie = Some v /\ pinned v vm.
Proof.
  unfold sticky. destruct cookie as [v|]; [|done]. intros E.
  apply find_first_In in E as [Hin Hp]. split; [done|]. exists v. split; [done|].
  apply orb_true_iff in Hp as [Hp|Hp]; apply bool_decide_eq_true_1 in Hp; unfold pinned; auto.
Qed.

Lemma sticky_None vms v vm :
  sticky vms (Some v) = None -> vm ∈ vms -> ~ pinned v vm.
Proof.
  cbn. intros E Hin Hp. apply find_first_None in E. rewrite Forall_forall in E.
  apply E, orb_false_iff in Hin as [H1 H2]. bools. by destruct Hp.
Qed.

Lemma choose_in_pool g r vms :
  vms <> [] -> 0 <= gw_rr g < max_int64 ->
  exists g' vm cookie, choose g r vms = (g', Some (vm, cookie)) /\
    vm ∈ vms /\ gw_ring g' = gw_ring g /\ gw_rr g <= gw_rr g' <= gw_rr g + 1 /\
    (forall v c, Req_Cookie r = Some v -> c ∈ vms -> pinned v c -> pinned v vm).
Proof.
  intros Hne Hrr. unfold choose. destruct (sticky vms (Req_Cookie r)) as [vm|] eqn:E.
  - destruct (sticky_Some _ _ _ E) as (Hin & v & Hv & Hp).
    exists g, vm, None. repeat split; try done; try lia. intros; by simplify_eq.
  - rewrite rr_next_index by done.
    assert (Hidx : (Z.to_nat (gw_rr g + 1) mod List.length vms < List.length vms)%nat).
    { apply Nat.mod_upper_bound. by destruct vms. }
    destruct (lookup_lt_is_Some_2 vms _ Hidx) as [vm Hvm]. rewrite Hvm.
    eexists _, vm, _. split; [done|]. split; [by eapply list_elem_of_lookup_2|].
    cbn. repeat split; try lia. intros v c Hv Hc Hp. rewrite Hv in E.
    by destruct (sticky_None _ _ _ E Hc).
Qed.

(** What a response means for the gateway and the store. *)
Definition response_ok (g : Gateway) (s : S) (now : Z) (r : Request)
    (out : Gateway * S * Response) : Prop :=
  let pool := backendsFor dns s (split_host (Req_Host r)) in
  match out with
  | (g', s', NoBackend h) => g' = g /\ s' = s /\ pool = [] /\ h = split_host (Req_Host r)
  | (g', s', Blocked rule _) =>
      s' = s /\ gw_ring g' = gw_ring g /\
      exists vm, vm ∈ pool /\
        blockedByFirewall s (VM_ProjectID vm) (Req_RemoteAddr r) = Some rule
  | (g', s', NoAddress _) =>
      s' = s /\ gw_ring g' = gw_ring g /\ exists vm, vm ∈ pool /\ VM_IPAddress vm = ""
  | (g', s', Proxied vm target _ px) =>
      vm ∈ pool /\ isHealthy vm = true /\
      blockedByFirewall s (VM_ProjectID vm) (Req_RemoteAddr r) = None /\
      targetAddress vm = Some target /\ px = proxy target r /\
      (forall v c, Req_Cookie r = Some v -> c ∈ pool -> pinned v c -> pinned v vm) /\
      exists e, s' = AddTraffic s (VM_ID vm) e /\
                gw_ring g' = TrafficRing_Add (gw_ring g) (VM_ID vm) e /\
                TE_Timestamp e = now /\ TE_Host e = Req_Host r /\ TE_Path e = Req_Path r /\
                TE_Status e = px_status px /\ TE_RemoteIP e = Req_RemoteAddr r
  | (_, _, IndexPanic) => False
  end.

(** C1: serving one request. With the cursor below the largest Go int the index
    never panics; a request is proxied only to a healthy VM of the pool that the
    firewall lets through, the deployment cookie keeps its version while the pool
    has it, and exactly the proxied requests are recorded, in ring and store. *)
Theorem ServeHTTP_spec g s now r :
  0 <= gw_rr g < max_int64 ->
  response_ok g s now r (ServeHTTP dns proxy g s now r).
Proof.
  intros Hrr. unfold ServeHTTP.
  set (pool := backendsFor dns s (split_host (Req_Host r))).
  destruct (Z.eqb_spec (zlen pool) 0) as [Hz|Hz].
  - cbn. repeat split; try done. by destruct pool eqn:E; [|unfold zlen in Hz; cbn in Hz].
  - assert (Hne : pool <> []) by (intros E; by rewrite E in Hz).
    destruct (choose_in_pool g r pool Hne Hrr)
      as (g' & vm & cookie & -> & Hin & Hring & _ & Hpin).
    destruct (blockedByFirewall s (VM_ProjectID vm) (Req_RemoteAddr r)) as [rule|] eqn:Ef.
    { cbn. eauto. }
    destruct (targetAddress vm) as [target|] eqn:Et; cbn.
    + repeat split; try done.
      * pose proof (backendsFor_healthy dns s (split_host (Req_Host r))) as Hh.
        rewrite Forall_forall in Hh. by apply Hh.
      * rewrite Hring. by eexists.
    + repeat split; try done. exists vm. split; [done|].
      unfold targetAddress in Et. by case_in Et; bools.
Qed.

End ServeTheorems.

(** ** A concrete store, as the gateway's tests use one *)

Record MemStore := mkMem {
  ms_vms : list VM;
  ms_domains : gmap string (list Domain);
  ms_rules : gmap string (list (option FirewallRule));
  ms_deployments : gmap string (list Deployment);
  ms_traffic : list (string * TrafficEntry)
}.

#[export] Instance MemStore_store : GatewayStore MemStore := {|
  GetVM s id := find_first (fun vm => VM_ID vm ==? id) (ms_vms s);
  ListVMs := ms_vms;
  ListDomains s id := default [] (ms_domains s !! id);
  ListFirewallRules s p := default [] (ms_rules s !! p);
  AddTraffic s id e := mkMem (ms_vms s) (ms_domains s) (ms_rules s) (ms_deployments s)
                         (ms_traffic s ++ [(id, e)])%list;
  ListDeployments := Some (fun s p => default [] (ms_deployments s !! p))
|}.

Definition vm_up (id proj ip : string) : VM :=
  VM_set_ID id (VM_set_ProjectID proj (VM_set_IPAddress ip
    (VM_set_State StateRunning (VM_set_HealthStatus HealthHealthy VM_zero)))).

Definition deny (id src : string) (prio : Z) : FirewallRule :=
  FR_set_ID id (FR_set_Action "deny" (FR_set_Source src
    (FR_set_Priority prio (FR_set_Active true FR_zero)))).

Definition mem1 : MemStore :=
  mkMem [vm_up "a" "p" "10.42.0.10"; vm_up "b" "p" "10.42.0.11"] ∅
    {["p" := [Some (deny "r1" "10.0.0.0/8" 20); None; Some (deny "r2" "10.1.2.3" 5)]]} ∅ [].

Lemma blockedByFirewall_spec_witness :
  "p" <> "" /\ blockedByFirewall mem1 "p" "10.1.2.3:5555" = Some (deny "r2" "10.1.2.3" 5) /\
  match blockedByFirewall mem1 "p" "10.1.2.3:5555" with
  | Some fr => denies mem1 "p" (remote_ip "10.1.2.3:5555") fr /\
               forall fr', denies mem1 "p" (remote_ip "10.1.2.3:5555") fr' ->
                           FR_Priority fr <= FR_Priority fr'
  | None => forall fr, ~ denies mem1 "p" (remote_ip "10.1.2.3:5555") fr
  end.
Proof.
  split; [discriminate|]. split; [vm_compute; reflexivity|].
  apply (blockedByFirewall_spec mem1 "p" "10.1.2.3:5555"). discriminate.
Defined.

Lemma itoa_correct_witness : itoa (-8080) = Itoa (-8080) /\ Atoi (itoa (-8080)) = Some (-8080).
Proof. apply (itoa_correct (-8080)); [split; vm_compute; discriminate|discriminate]. Defined.

Lemma round_robin_fair_witness :
  picks 2 7 (ms_vms mem1) ≡ₚ Some <$> ms_vms mem1.
Proof.
  apply (round_robin_fair 7 (ms_vms mem1)); [discriminate|discriminate|vm_compute; discriminate].
Defined.

Definition req1 : Request := mkRequest "app.example.com:80" "GET" "/" "192.0.2.7:1000" None.

Lemma ServeHTTP_spec_witness :
  (0 <= gw_rr NewGateway < max_int64) /\
  response_ok None (fun _ _ => mkProxy 200 3 0 12) NewGateway mem1 9 req1
    (ServeHTTP None (fun _ _ => mkProxy 200 3 0 12) NewGateway mem1 9 req1).
Proof.
  assert (0 <= gw_rr NewGateway < max_int64) by (split; vm_compute; [discriminate|reflexivity]).
  split; [assumption|].
  apply (ServeHTTP_spec None (fun _ _ => mkProxy 200 3 0 12) NewGateway mem1 9 req1). assumption.
Defined.

(** Eleven replicas of one deployment at weight 100 make a pool of 110 entries:
    the pool is not bounded to 100. *)
Definition mem11 : MemStore :=
  let ids := ["0"; "1"; "2"; "3"; "4"; "5"; "6"; "7"; "8"; "9"; "10"] in
  mkMem ((fun id => vm_up id "p" "10.42.0.10") <$> ids) ∅ ∅
    {["p" := [Dep_set_VMIDs ids (Dep_set_RouteWeight 100 Dep_zero)]]} [].

Lemma weighted_pool_exceeds_100 :
  List.length (weightedDeploymentBackends mem11 "p" (vm_up "0" "p" "10.42.0.10")) = 110%nat.
Proof. vm_compute. reflexivity. Qed.

(** Once the cursor passes the largest Go int, the index is negative and panics. *)
Lemma rr_overflow_panics :
  rr_next (2 ^ 63) (vm_up "c" "p" "10.42.0.12" :: ms_vms mem1) = (2 ^ 63 + 1, None).
Proof. vm_compute. reflexivity. Qed.

Close Scope Z_scope.
Close Scope string_scope.
