(* ===== verification/PortForward.v ===== *)
(** * Host-port forwarding ([internal/gateway/portforward.go])

    The reconcile loop that keeps one host listener per host port declared by a
    running VM. A listener carries the target its accept loop was started with;
    whether the host lets us bind a port is the parameter [can_listen]. *)
From S2P Require Import Prelude GoStrings GoNum Types Gateway.
From Stdlib Require Import String.

Open Scope string_scope.
Open Scope Z_scope.

(** An open listener: the address and port [acceptLoop] proxies to. *)
Record Listener := mkListener { ln_ip : string; ln_port : Z }.

(** The forwarder's state: host port to active listener. *)
Record PortForwarder := mkForwarder { lns : gmap Z Listener }.

Definition NewPortForwarder : PortForwarder := mkForwarder ∅.

Section Forwarder.
Context {S : Type} `{GatewayStore S}.
Context (can_listen : Z -> bool).

(** One port of one running VM: the first VM to claim a host port keeps it. *)
Definition claim (vm : VM) (out : gmap Z VM) (p : Port) : gmap Z VM :=
  if Port_HostPort p =? 0 then out
  else match out !! Port_HostPort p with
       | Some _ => out
       | None => <[Port_HostPort p := vm]> out
       end.

Definition claims (out : gmap Z VM) (vm : VM) : gmap Z VM :=
  if VM_State vm !=? StateRunning then out
  else fold_left (claim vm) (VM_Ports vm) out.

Definition wantedPorts (s : S) : gmap Z VM := fold_left claims (ListVMs s) ∅.

(** The first loop: close listeners whose port is no longer wanted. *)
Definition close_unwanted (wanted : gmap Z VM) (l : gmap Z Listener) : gmap Z Listener :=
  base.filter (fun p => is_Some (wanted !! p.1)) l.

(** One round of the second loop: open a listener for a newly wanted port. *)
Definition open_one (hp : Z) (vm : VM) (l : gmap Z Listener) : gmap Z Listener :=
  match l !! hp with
  | Some _ => l
  | None => if can_listen hp then <[hp := mkListener (VM_IPAddress vm) (ContainerPort vm)]> l else l
  end.

Definition reconcile (s : S) (f : PortForwarder) : PortForwarder :=
  let wanted := wantedPorts s in
  let l := close_unwanted wanted (lns f) in
  mkForwarder (map_fold open_one l wanted).

(** [Close]: every listener is closed and forgotten. *)
Definition Close (f : PortForwarder) : PortForwarder := mkForwarder ∅.

(** ** Lemmas *)

(** The VMs, in store order, paired with the host ports they declare. *)
Definition port_claims (vm : VM) : list (Z * VM) :=
  if VM_State vm !=? StateRunning then []
  else (fun p => (Port_HostPort p, vm)) <$>
         base.filter (fun p => Port_HostPort p <> 0) (VM_Ports vm).

Definition first_claim (l : list (Z * VM)) (hp : Z) : option VM :=
  snd <$> find_first (fun c => fst c =? hp) l.

Lemma first_claim_app l k hp :
  first_claim (l ++ k) hp = match first_claim l hp with Some v => Some v | None => first_claim k hp end.
Proof. unfold first_claim. rewrite find_first_app. by destruct (find_first _ l). Qed.

Lemma lookup_claim vm out p hp :
  claim vm out p !! hp =
  match out !! hp with
  | Some v => Some v
  | None => if (negb (Port_HostPort p =? 0)) && (Port_HostPort p =? hp) then Some vm else None
  end.
Proof.
  unfold claim. destruct (Z.eqb_spec (Port_HostPort p) 0); [by destruct (out !! hp)|].
  destruct (Z.eqb_spec (Port_HostPort p) hp) as [->|Hne]; cbn.
  - destruct (out !! hp) eqn:E; rewrite ?E; [done|]. by rewrite lookup_insert_eq.
  - destruct (out !! Port_HostPort p); [by destruct (out !! hp)|].
    rewrite lookup_insert_ne by done. by destruct (out !! hp).
Qed.

Lemma lookup_claims out vm hp :
  claims out vm !! hp =
  match out !! hp with Some v => Some v | None => first_claim (port_claims vm) hp end.
Proof.
  unfold claims, port_claims. case_goal; [by destruct (out !! hp)|].
  revert out. induction (VM_Ports vm) as [|p ps IH]; intros out; cbn [fold_left].
  - by destruct (out !! hp).
  - rewrite IH, lookup_claim. destruct (out !! hp); [done|].
    rewrite filter_cons. destruct (Z.eqb_spec (Port_HostPort p) 0) as [E0|E0]; cbn.
    + by rewrite decide_False by (by intros []).
    + rewrite decide_True by done. unfold first_claim. cbn.
      by destruct (Port_HostPort p =? hp).
Qed.

Lemma lookup_wantedPorts (s : S) hp :
  wantedPorts s !! hp = first_claim (mjoin (port_claims <$> ListVMs s)) hp.
Proof.
  unfold wantedPorts. assert (Hgen : forall l out,
    fold_left claims l out !! hp =
    match out !! hp with Some v => Some v | None => first_claim (mjoin (port_claims <$> l)) hp end).
  { induction l as [|vm l IH]; intros out; [by cbn; destruct (out !! hp)|].
    change (mjoin (port_claims <$> vm :: l)) with (port_claims vm ++ mjoin (port_claims <$> l))%list.
    cbn [fold_left]. rewrite IH, lookup_claims, first_claim_app. by destruct (out !! hp). }
  by rewrite Hgen, lookup_empty.
Qed.

Lemma lookup_open_fold wanted l hp :
  map_fold open_one l wanted !! hp =
  match l !! hp with
  | Some x => Some x
  | None => match wanted !! hp with
            | Some vm => if can_listen hp then Some (mkListener (VM_IPAddress vm) (ContainerPort vm))
                         else None
            | None => None
            end
  end.
Proof.
  revert wanted. refine (map_fold_weak_ind (fun r wanted => r !! hp = _) _ _ _ _).
  - rewrite lookup_empty. by destruct (l !! hp).
  - intros k vm wanted r Hk IH. unfold open_one.
    destruct (decide (k = hp)) as [->|Hne].
    + rewrite lookup_insert_eq, IH, Hk. destruct (l !! hp) eqn:E; [by rewrite IH|].
      destruct (can_listen hp); [by rewrite lookup_insert_eq|]. by rewrite IH, Hk.
    + rewrite lookup_insert_ne by done. rewrite <- IH.
      destruct (r !! k); [done|]. destruct (can_listen k); [|done].
      by rewrite lookup_insert_ne.
Qed.

Lemma lookup_close_unwanted (wanted : gmap Z VM) l hp :
  close_unwanted wanted l !! hp = match wanted !! hp with Some _ => l !! hp | None => None end.
Proof.
  unfold close_unwanted. rewrite map_lookup_filter.
  destruct (l !! hp) as [x|]; cbn; [|by destruct (wanted !! hp)].
  case_guard as Hg; cbn in *; destruct (wanted !! hp) eqn:E; try done;
    [by apply is_Some_None in Hg || by destruct Hg..].
Qed.

(** What one reconcile leaves behind, port by port. A port keeps its open
    listener while some running VM wants it, gets one to the first VM that claims
    it when the host allows the bind, and has none otherwise. *)
Theorem reconcile_spec (s : S) f hp :
  lns (reconcile s f) !! hp =
  match first_claim (mjoin (port_claims <$> ListVMs s)) hp with
  | None => None
  | Some vm =>
      match lns f !! hp with
      | Some ln => Some ln
      | None => if can_listen hp then Some (mkListener (VM_IPAddress vm) (ContainerPort vm)) else None
      end
  end.
Proof.
  unfold reconcile. cbn. rewrite lookup_open_fold, lookup_close_unwanted, lookup_wantedPorts.
  by destruct (first_claim _ hp), (lns f !! hp).
Qed.

(** Reconciling is idempotent: with an unchanged store and the same ports
    bindable, a second pass changes no listener. *)
Theorem reconcile_idempotent (s : S) f : reconcile s (reconcile s f) = reconcile s f.
Proof.
  assert (E : lns (reconcile s (reconcile s f)) = lns (reconcile s f)).
  { apply map_eq. intros hp. unfold reconcile at 1. cbn [lns].
    rewrite lookup_open_fold, lookup_close_unwanted, lookup_wantedPorts.
    unfold reconcile. cbn [lns].
    rewrite lookup_open_fold, lookup_close_unwanted, lookup_wantedPorts.
    destruct (first_claim _ hp) as [vm|]; [|done].
    by destruct (lns f !! hp), (can_listen hp). }
  destruct (reconcile s (reconcile s f)), (reconcile s f). cbn in E. by subst.
Qed.

End Forwarder.

(** The listener of a port that moved to another VM keeps its old target. *)
Definition vm_ports (ip : string) : VM :=
  VM_set_Ports [mkPort 80 8080 "tcp"] (vm_up "x" "p" ip).

Lemma stale_target :
  let f := reconcile (fun _ => true) (mkMem [vm_ports "10.42.0.10"] ∅ ∅ ∅ []) NewPortForwarder in
  lns (reconcile (fun _ => true) (mkMem [vm_ports "10.42.0.99"] ∅ ∅ ∅ []) f) !! 8080 =
  Some (mkListener "10.42.0.10" 80).
Proof. vm_compute. reflexivity. Qed.

Close Scope Z_scope.
Close Scope string_scope.
