(* ===== verification/Compose.v ===== *)
(** * Compose files ([internal/compose/compose.go])

    The indentation parser for the constrained Compose subset and the
    dependency sort that turns [depends_on] into a boot order. The parser is a
    state machine over lines; the depth-first [visit] runs on fuel, and the
    fuel [topoSort] passes (one more than the number of services) is proved to
    be enough. *)
From S2P Require Import Prelude GoStrings GoNum Types.
From Stdlib Require Import Ascii String.

Open Scope string_scope.
Open Scope Z_scope.

Record ComposeService := mkService {
  CS_Name : string;
  CS_Image : string;
  CS_Rootfs : string;
  CS_Ports : list Port;
  CS_Env : gmap string string;
  CS_Replicas : Z;
  CS_DependsOn : list string;
  CS_Networks : list string;
  CS_Healthcheck : option Healthcheck;
  CS_Restart : string
}.

(** The errors of the package, with the data their messages print. *)
Inductive ComposeErr :=
| ExpectedServiceName (line : Z) (got : string)
| EmptyServiceName (line : Z)
| OutsideService (line : Z)
| InvalidPort (line : Z) (item : string)
| InvalidEnv (line : Z) (item : string)
| ReplicasNotInteger (line : Z)
| BuildUnsupported (service : string)
| NoServices
| CircularDependency (path : list string) (name : string)
| UnknownService (from name : string)
| MissingImage (service : string).

(** ** Lexing *)

(** The byte class [\s] of the comment expression. *)
Definition re_space (c : ascii) : bool :=
  (byte_of c =? 9) || (byte_of c =? 10) || (byte_of c =? 12) || (byte_of c =? 13) || (byte_of c =? 32).

(** [commentRe.ReplaceAllString(raw, "")]: cut at the first ['#'] that opens the
    line or follows white space; that white space goes too. [at_start] holds
    at the beginning of the text. *)
Fixpoint strip_comment (at_start : bool) (s : string) : string :=
  match s with
  | EmptyString => EmptyString
  | String c s' =>
      if at_start && Ascii.eqb c "#" then EmptyString
      else match s' with
           | String "#" _ => if re_space c then EmptyString else String c (strip_comment false s')
           | _ => String c (strip_comment false s')
           end
  end.

Definition newline : ascii := ascii_of_nat 10.
Definition tab : ascii := ascii_of_nat 9.

Definition split_lines (yaml : string) : list string :=
  split_on newline (replace_all tab "    " yaml).

Definition indent_of (line : string) : Z :=
  Z.of_nat (String.length line) - Z.of_nat (String.length (trim_left_set " " line)).

Definition quotes : string := String (ascii_of_nat 34) "'".

(** ** Items *)

(** The error carries the text the message quotes. *)
Definition parsePort (item : string) : result string Port :=
  let item := trim_set quotes item in
  let '(item, proto) := match cut "/" item with
                        | Some (a, b) => (a, b)
                        | None => (item, "tcp")
                        end in
  let parts := split_on ":" item in
  match Atoi (default "" (last parts)) with
  | None => Err item
  | Some p =>
      let hostPort :=
        if (1 <? List.length parts)%nat
        then default 0 (Atoi (default "" (head parts)))
        else 0 in
      Ok (mkPort p hostPort proto)
  end.

Definition parseKV (item : string) : result string (string * string) :=
  let item := trim_set quotes item in
  match cut "=" item with
  | Some (k, v) => Ok (trim_space k, trim_space v)
  | None =>
      match cut ":" item with
      | Some (k, v) => Ok (trim_space k, trim_set quotes (trim_space v))
      | None => Err item
      end
  end.

Definition parseDurationSeconds (s : string) : Z :=
  let s := trim_space s in
  if has_suffix s "s" then Atoi_val (trim_suffix s "s") else Atoi_val s.

(** ** The line machine of [ParseCompose] *)

(** The loop's variables. [svc] is the name of the service the pointer [svc]
    points to: a service is entered in [services] when it is created, so the
    pointer and the map entry are the same object. *)
Record ParseState := mkParse {
  inServices : bool;
  servicesIndent : Z;
  svc : option string;
  svcIndent : Z;
  section : string;
  sectionIndent : Z;
  services : gmap string ComposeService;
  order : list string
}.

Definition parse_init : ParseState := mkParse false (-1) None (-1) "" (-1) ∅ [].

(** [svc.F = ...]: update the current service in place. *)
Definition upd_svc (f : ComposeService -> ComposeService) (name : string) (st : ParseState)
    : ParseState :=
  mkParse (inServices st) (servicesIndent st) (svc st) (svcIndent st) (section st)
    (sectionIndent st) (alter f name (services st)) (order st).

Definition set_section (key : string) (indent : Z) (st : ParseState) : ParseState :=
  mkParse (inServices st) (servicesIndent st) (svc st) (svcIndent st) key indent
    (services st) (order st).

Definition set_Ports x (s : ComposeService) := mkService (CS_Name s) (CS_Image s) (CS_Rootfs s)
  x (CS_Env s) (CS_Replicas s) (CS_DependsOn s) (CS_Networks s) (CS_Healthcheck s) (CS_Restart s).
Definition set_Env x (s : ComposeService) := mkService (CS_Name s) (CS_Image s) (CS_Rootfs s)
  (CS_Ports s) x (CS_Replicas s) (CS_DependsOn s) (CS_Networks s) (CS_Healthcheck s) (CS_Restart s).
Definition set_Replicas x (s : ComposeService) := mkService (CS_Name s) (CS_Image s) (CS_Rootfs s)
  (CS_Ports s) (CS_Env s) x (CS_DependsOn s) (CS_Networks s) (CS_Healthcheck s) (CS_Restart s).
Definition set_DependsOn x (s : ComposeService) := mkService (CS_Name s) (CS_Image s) (CS_Rootfs s)
  (CS_Ports s) (CS_Env s) (CS_Replicas s) x (CS_Networks s) (CS_Healthcheck s) (CS_Restart s).
Definition set_Networks x (s : ComposeService) := mkService (CS_Name s) (CS_Image s) (CS_Rootfs s)
  (CS_Ports s) (CS_Env s) (CS_Replicas s) (CS_DependsOn s) x (CS_Healthcheck s) (CS_Restart s).
Definition set_Healthcheck x (s : ComposeService) := mkService (CS_Name s) (CS_Image s) (CS_Rootfs s)
  (CS_Ports s) (CS_Env s) (CS_Replicas s) (CS_DependsOn s) (CS_Networks s) x (CS_Restart s).
Definition set_Image x (s : ComposeService) := mkService (CS_Name s) x (CS_Rootfs s)
  (CS_Ports s) (CS_Env s) (CS_Replicas s) (CS_DependsOn s) (CS_Networks s) (CS_Healthcheck s) (CS_Restart s).
Definition set_Restart x (s : ComposeService) := mkService (CS_Name s) (CS_Image s) (CS_Rootfs s)
  (CS_Ports s) (CS_Env s) (CS_Replicas s) (CS_DependsOn s) (CS_Networks s) (CS_Healthcheck s) x.

Inductive step_result :=
| Continue (st : ParseState)
| Break (st : ParseState)
| Return (e : ComposeErr).

(** An item of the open section. *)
Definition healthcheck_item (item : string) (hc : option Healthcheck) : option Healthcheck :=
  let '(k, v) := default (item, "") (cut ":" item) in
  let k := trim_space k in
  let v := trim_set quotes (trim_space v) in
  let hc := default (mkHealthcheck "tcp" "" 0 0) hc in
  Some (if k ==? "test" then mkHealthcheck "http" (HC_Path hc) (HC_Port hc) (HC_IntervalSec hc)
        else if k ==? "interval" then
          mkHealthcheck (HC_Type hc) (HC_Path hc) (HC_Port hc) (parseDurationSeconds v)
        else hc).

Definition section_item (lineNo : Z) (name item : string) (st : ParseState) : step_result :=
  if section st ==? "ports" then
    match parsePort item with
    | Err item => Return (InvalidPort (lineNo + 1) item)
    | Ok p => Continue (upd_svc (fun s => set_Ports (CS_Ports s ++ [p])%list s) name st)
    end
  else if section st ==? "environment" then
    match parseKV item with
    | Err item => Return (InvalidEnv (lineNo + 1) item)
    | Ok (k, v) => Continue (upd_svc (fun s => set_Env (<[k := v]> (CS_Env s)) s) name st)
    end
  else if section st ==? "depends_on" then
    Continue (upd_svc (fun s => set_DependsOn (CS_DependsOn s ++ [item])%list s) name st)
  else if section st ==? "networks" then
    Continue (upd_svc (fun s => set_Networks (CS_Networks s ++ [item])%list s) name st)
  else if section st ==? "deploy" then
    match cut ":" item with
    | Some (k, v) =>
        if trim_space k ==? "replicas" then
          match Atoi (trim_space v) with
          | None => Return (ReplicasNotInteger (lineNo + 1))
          | Some n => Continue (upd_svc (set_Replicas n) name st)
          end
        else Continue st
    | None => Continue st
    end
  else if section st ==? "healthcheck" then
    Continue (upd_svc (fun s => set_Healthcheck (healthcheck_item item (CS_Healthcheck s)) s) name st)
  else Continue st.

(** A [key: value] line of the current service. *)
Definition service_key (name trimmed : string) (indent : Z) (st : ParseState) : step_result :=
  let '(key, val) := default (trimmed, "") (cut ":" trimmed) in
  let key := trim_space key in
  let val := trim_set quotes (trim_space val) in
  if key ==? "image" then Continue (upd_svc (set_Image val) name st)
  else if key ==? "restart" then Continue (upd_svc (set_Restart val) name st)
  else if key ==? "build" then Return (BuildUnsupported name)
  else if bool_decide (key ∈ ["ports"; "environment"; "depends_on"; "networks"; "deploy"; "healthcheck"])
  then Continue (set_section key indent st)
  else Continue st.

(** The body of the loop for one line. *)
Definition parse_line (lineNo : Z) (raw : string) (st : ParseState) : step_result :=
  let line := strip_comment true raw in
  if trim_space line ==? "" then Continue st
  else
    let indent := indent_of line in
    let trimmed := trim_space line in
    if negb (inServices st) then
      if trimmed ==? "services:" then
        Continue (mkParse true indent (svc st) (svcIndent st) (section st) (sectionIndent st)
                    (services st) (order st))
      else Continue st
    else if (indent <=? servicesIndent st) && (trimmed !=? "services:") then Break st
    else if (svcIndent st =? -1) || (indent =? svcIndent st) then
      if negb (has_suffix trimmed ":") then Return (ExpectedServiceName (lineNo + 1) trimmed)
      else
        let name := trim_suffix trimmed ":" in
        if name ==? "" then Return (EmptyServiceName (lineNo + 1))
        else
          let new := mkService name "" "" [] ∅ 1 [] [] None "" in
          Continue (mkParse true (servicesIndent st) (Some name) indent "" (-1)
                      (<[name := new]> (services st)) (order st ++ [name])%list)
    else
      match svc st with
      | None => Return (OutsideService (lineNo + 1))
      | Some name =>
          if (section st !=? "") && (sectionIndent st <? indent)
          then section_item lineNo name (trim_prefix trimmed "- ") st
          else service_key name trimmed indent st
      end.

Fixpoint parse_lines (lineNo : Z) (lines : list string) (st : ParseState)
    : result ComposeErr ParseState :=
  match lines with
  | [] => Ok st
  | raw :: lines =>
      match parse_line lineNo raw st with
      | Continue st => parse_lines (lineNo + 1) lines st
      | Break st => Ok st
      | Return e => Err e
      end
  end.

(** ** The dependency sort *)

Inductive Mark := Visiting | Done.

#[export] Instance Mark_eq_dec : EqDecision Mark.
Proof. solve_decision. Defined.

Record TopoState := mkTopo {
  visited : gmap string Mark;
  tout : list ComposeService
}.

(** [Err None] is exhausted fuel, [Err (Some e)] an error of the code. *)
Definition TopoRes := result (option ComposeErr) TopoState.

Fixpoint visit_all (visit1 : string -> TopoState -> TopoRes) (ds : list string) (st : TopoState)
    : TopoRes :=
  match ds with
  | [] => Ok st
  | d :: ds =>
      match visit1 d st with
      | Ok st => visit_all visit1 ds st
      | Err e => Err e
      end
  end.

Fixpoint visit (fuel : nat) (svcs : gmap string ComposeService) (path : list string)
    (name : string) (st : TopoState) : TopoRes :=
  match fuel with
  | O => Err None
  | S fuel =>
      match visited st !! name with
      | Some Done => Ok st
      | Some Visiting => Err (Some (CircularDependency path name))
      | None =>
          let st := mkTopo (<[name := Visiting]> (visited st)) (tout st) in
          match svcs !! name with
          | None => Err (Some (UnknownService (default "" (last path)) name))
          | Some s =>
              match visit_all (visit fuel svcs (path ++ [name])%list)
                      (sort_strings (CS_DependsOn s)) st with
              | Ok st => Ok (mkTopo (<[name := Done]> (visited st)) (tout st ++ [s])%list)
              | Err e => Err e
              end
          end
      end
  end.

Definition topo_fuel (svcs : gmap string ComposeService) : nat := S (size svcs).

Definition topoSort (svcs : gmap string ComposeService) (declOrder : list string)
    : result (option ComposeErr) (list ComposeService) :=
  match visit_all (visit (topo_fuel svcs) svcs []) declOrder (mkTopo ∅ []) with
  | Ok st => Ok (tout st)
  | Err e => Err e
  end.

(** ** The whole parser *)

(** The final loop. [ordered] is a slice of structs and the range variable a
    copy, so the replica default the loop assigns is dropped: only the check for
    an image has an effect. *)
Definition check_images (ordered : list ComposeService) : option ComposeErr :=
  match find_first (fun s => CS_Image s ==? "") ordered with
  | Some s => Some (MissingImage (CS_Name s))
  | None => None
  end.

Definition ParseCompose (yaml : string) : result (option ComposeErr) (list ComposeService) :=
  match parse_lines 0 (split_lines yaml) parse_init with
  | Err e => Err (Some e)
  | Ok st =>
      if (size (services st) =? 0)%nat then Err (Some NoServices)
      else
        match topoSort (services st) (order st) with
        | Err e => Err e
        | Ok ordered =>
            match check_images ordered with
            | Some e => Err (Some e)
            | None => Ok ordered
            end
        end
  end.

(** ** Top-level networks *)

Record NetScan := mkScan { inNetworks : bool; networksIndent : Z; names : list string }.

(** One line of the scan; [None] leaves the loop. [names] also plays the role
    of the [seen] set. *)
Definition network_line (raw : string) (st : NetScan) : option NetScan :=
  let line := strip_comment true raw in
  if trim_space line ==? "" then Some st
  else
    let indent := indent_of line in
    let trimmed := trim_space line in
    if negb (inNetworks st) then
      if trimmed ==? "networks:" then Some (mkScan true indent (names st)) else Some st
    else if indent <=? networksIndent st then None
    else if has_suffix trimmed ":" && negb (contains trimmed " ") then
      let name := trim_suffix trimmed ":" in
      if bool_decide (name ∈ names st) then Some st
      else Some (mkScan true (networksIndent st) (names st ++ [name])%list)
    else Some st.

Fixpoint network_lines (lines : list string) (st : NetScan) : NetScan :=
  match lines with
  | [] => st
  | raw :: lines =>
      match network_line raw st with
      | Some st => network_lines lines st
      | None => st
      end
  end.

Definition ParseTopLevelNetworks (yaml : string) : list string :=
  names (network_lines (split_lines yaml) (mkScan false (-1) [])).

(** ** Lemmas: the dependency sort *)

Section Topo.
Context (svcs : gmap string ComposeService).

(** [svcs] files every service under its own name. *)
Definition named : Prop := forall n s, svcs !! n = Some s -> CS_Name s = n.

(** [a] declares a dependency on [b]. *)
Definition depends (a b : string) : Prop :=
  exists s, svcs !! a = Some s /\ b ∈ CS_DependsOn s.

(** A boot order: every service is the declared one, appears once, and comes
    after everything it depends on. *)
Definition boot_order (out : list ComposeService) : Prop :=
  NoDup (CS_Name <$> out) /\
  (forall s, s ∈ out -> svcs !! CS_Name s = Some s) /\
  (forall l1 s l2, out = (l1 ++ s :: l2)%list ->
     forall d, d ∈ CS_DependsOn s -> d ∈ CS_Name <$> l1).

(** Each element of a path depends on the next one. *)
Fixpoint chain (path : list string) : Prop :=
  match path with
  | a :: (b :: _) as tl => depends a b /\ chain tl
  | _ => True
  end.

Lemma chain_snoc path a : chain path -> (forall z, last path = Some z -> depends z a) ->
  chain (path ++ [a])%list.
Proof.
  induction path as [|x path IH]; [done|]. destruct path as [|y path]; cbn.
  - intros _ H. split; [by apply H|done].
  - intros [Hxy Hch] H. split; [done|]. by apply IH.
Qed.

(** The state of the search below [path]: done services are exactly those
    output, in boot order, and the services being visited are those on the path. *)
Record topo_inv (path : list string) (st : TopoState) : Prop := {
  ti_done : forall n, visited st !! n = Some Done <-> n ∈ CS_Name <$> tout st;
  ti_visiting : forall n, visited st !! n = Some Visiting <-> n ∈ path;
  ti_order : boot_order (tout st);
  ti_nodup : NoDup path;
  ti_known : forall n, n ∈ path -> is_Some (svcs !! n);
  ti_chain : chain path
}.

(** What an error of the search says about the dependency graph. *)
Definition error_sound (e : ComposeErr) : Prop :=
  match e with
  | CircularDependency path name =>
      name ∈ path /\ chain (path ++ [name])%list
  | UnknownService from name => svcs !! name = None /\ depends from name
  | _ => False
  end.

(** The outcome of visiting [name] below [path] from [st]. *)
Definition visit_post (path : list string) (goal : string -> Prop) (st : TopoState) (r : TopoRes) : Prop :=
  match r with
  | Ok st' => topo_inv path st' /\ (exists k, tout st' = (tout st ++ k)%list) /\
              forall n, goal n -> n ∈ CS_Name <$> tout st'
  | Err (Some e) => error_sound e
  | Err None => False
  end.

(** A node may be visited below a path when it is a declared service or a
    dependency of the path's last element. *)
Definition may_visit (path : list string) (n : string) : Prop :=
  match last path with
  | Some z => depends z n
  | None => is_Some (svcs !! n)
  end.

Lemma may_visit_chain path n : chain path -> may_visit path n -> chain (path ++ [n])%list.
Proof.
  intros Hc Hm. apply chain_snoc; [done|]. intros z Hz. unfold may_visit in Hm. by rewrite Hz in Hm.
Qed.

Lemma visit_all_post path visit1 ds st :
  (forall d st, d ∈ ds -> topo_inv path st -> visit_post path (fun n => n = d) st (visit1 d st)) ->
  topo_inv path st ->
  visit_post path (fun n => n ∈ ds) st (visit_all visit1 ds st).
Proof.
  revert st. induction ds as [|d ds IH]; intros st Hv Hinv; cbn.
  - split; [done|]. split; [exists []; by rewrite app_nil_r|]. by intros n ?%elem_of_nil.
  - pose proof (Hv d st ltac:(left) Hinv) as H1.
    destruct (visit1 d st) as [st1|e]; [|done].
    destruct H1 as (Hinv1 & (k1 & Hk1) & Hd).
    pose proof (IH st1 ltac:(intros; apply Hv; [by right|done]) Hinv1) as H2.
    destruct (visit_all visit1 ds st1) as [st2|e]; [|done].
    destruct H2 as (Hinv2 & (k2 & Hk2) & Hds). split; [done|]. split.
    + exists (k1 ++ k2)%list. by rewrite Hk2, Hk1, app_assoc.
    + intros n [->|Hn]%elem_of_cons; [|by apply Hds].
      rewrite Hk2, fmap_app. apply elem_of_app. left. by apply Hd.
Qed.

(** Entering a node: it joins the path. *)
Lemma topo_inv_enter path st name :
  topo_inv path st -> visited st !! name = None -> is_Some (svcs !! name) ->
  may_visit path name ->
  topo_inv (path ++ [name])%list (mkTopo (<[name := Visiting]> (visited st)) (tout st)).
Proof.
  intros [Hd Hv Ho Hn Hk Hc] Hnew Hin Hm. split; cbn.
  - intros n. rewrite <- Hd. destruct (decide (n = name)) as [->|].
    + by rewrite lookup_insert_eq, Hnew.
    + by rewrite lookup_insert_ne.
  - intros n. rewrite elem_of_app, list_elem_of_singleton, <- Hv.
    destruct (decide (n = name)) as [->|].
    + rewrite lookup_insert_eq. naive_solver.
    + rewrite lookup_insert_ne by done. naive_solver.
  - done.
  - apply NoDup_app. repeat split; [done| |by apply NoDup_singleton].
    intros n Hn1 ->%list_elem_of_singleton. apply Hv in Hn1. congruence.
  - intros n [Hn1| ->%list_elem_of_singleton]%elem_of_app; auto.
  - by apply may_visit_chain.
Qed.

(** Leaving a node: its dependencies are all out, so it may be appended. *)
Lemma topo_inv_leave path st name s :
  named -> topo_inv (path ++ [name])%list st -> svcs !! name = Some s ->
  (forall d, d ∈ CS_DependsOn s -> d ∈ CS_Name <$> tout st) ->
  topo_inv path (mkTopo (<[name := Done]> (visited st)) (tout st ++ [s])%list).
Proof.
  intros Hnamed [Hd Hv Ho Hn Hk Hc] Hs Hdeps.
  assert (Hname : CS_Name s = name) by by apply Hnamed.
  assert (Hvis : visited st !! name = Some Visiting).
  { apply Hv, elem_of_app. right. by apply list_elem_of_singleton. }
  apply NoDup_app in Hn as (Hn1 & Hn2 & _).
  split; cbn.
  - intros n. rewrite fmap_app, elem_of_app, <- Hd. cbn. rewrite list_elem_of_singleton, Hname.
    destruct (decide (n = name)) as [->|].
    + rewrite lookup_insert_eq. naive_solver.
    + rewrite lookup_insert_ne by done. naive_solver.
  - intros n. destruct (decide (n = name)) as [->|Hne].
    + rewrite lookup_insert_eq. split; [done|]. intros Hin. exfalso.
      apply (Hn2 name Hin). by apply list_elem_of_singleton.
    + rewrite lookup_insert_ne, Hv, elem_of_app, list_elem_of_singleton by done. naive_solver.
  - destruct Ho as (Ho1 & Ho2 & Ho3). split; [|split].
    + rewrite fmap_app. apply NoDup_app. repeat split; [done| |by apply NoDup_singleton].
      intros n Hn Hn'. cbn in Hn'. apply list_elem_of_singleton in Hn' as ->.
      rewrite Hname in Hn. apply Hd in Hn. congruence.
    + intros t [Ht| ->%list_elem_of_singleton]%elem_of_app; [by apply Ho2|by rewrite Hname].
    + intros l1 t l2 E d Hin. destruct l2 as [|u l2 _] using rev_ind.
      * apply app_inj_tail in E as [<- <-]. by apply Hdeps.
      * rewrite app_comm_cons, app_assoc in E. apply app_inj_tail in E as [E _].
        by eapply Ho3.
  - done.
  - intros n Hin. apply Hk, elem_of_app. by left.
  - clear -Hc. induction path as [|x path IH]; [done|]. destruct path as [|y path]; [done|].
    cbn in *. destruct Hc. split; [done|]. by apply IH.
Qed.

(** A path without repetitions over declared services is no longer than they are many. *)
Lemma path_bound path : NoDup path -> (forall n, n ∈ path -> is_Some (svcs !! n)) ->
  (List.length path <= size svcs)%nat.
Proof.
  intros Hn Hk. rewrite <- (size_list_to_set (C := gset string) path) by done.
  rewrite <- size_dom. apply subseteq_size. intros n Hin%elem_of_list_to_set.
  apply elem_of_dom. auto.
Qed.

Lemma elem_of_sort_strings d l : d ∈ sort_strings l <-> d ∈ l.
Proof. unfold sort_strings. by rewrite merge_sort_Permutation. Qed.

Lemma visit_spec fuel path name st :
  named -> topo_inv path st -> may_visit path name ->
  (size svcs < fuel + List.length path)%nat ->
  visit_post path (fun n => n = name) st (visit fuel svcs path name st).
Proof.
  intros Hnamed. revert path name st.
  induction fuel as [|fuel IH]; intros path name st Hinv Hm Hfuel.
  { pose proof (path_bound path (ti_nodup _ _ Hinv) (ti_known _ _ Hinv)). lia. }
  cbn. destruct (visited st !! name) as [[]|] eqn:Hvis.
  - split.
    + by apply (ti_visiting _ _ Hinv).
    + apply may_visit_chain; [apply Hinv|done].
  - split; [done|]. split; [exists []; by rewrite app_nil_r|].
    intros n ->. by apply (ti_done _ _ Hinv).
  - destruct (svcs !! name) as [s|] eqn:Hs.
    + pose proof (topo_inv_enter path st name Hinv Hvis ltac:(by eexists) Hm) as Hent.
      set (st1 := mkTopo _ _) in *.
      pose proof (visit_all_post (path ++ [name])%list (visit fuel svcs (path ++ [name])%list)
        (sort_strings (CS_DependsOn s)) st1) as Hall.
      destruct (visit_all _ _ st1) as [st2|e].
      * destruct Hall as (Hinv2 & (k & Hk) & Hdeps); [|done|].
        { intros d st' Hd Hinv'. apply IH; [done| |rewrite length_app; cbn; lia].
          unfold may_visit. rewrite last_snoc. exists s. by rewrite elem_of_sort_strings in Hd. }
        split; [|split].
        -- apply topo_inv_leave; auto. intros d Hd. apply Hdeps. by rewrite elem_of_sort_strings.
        -- cbn. exists (k ++ [s])%list. rewrite Hk. cbn. by rewrite app_assoc.
        -- intros n ->. cbn. rewrite fmap_app. apply elem_of_app. right. cbn.
           rewrite (Hnamed _ _ Hs). by apply list_elem_of_singleton.
      * apply Hall; [|done].
        intros d st' Hd Hinv'. apply IH; [done| |rewrite length_app; cbn; lia].
        unfold may_visit. rewrite last_snoc. exists s. by rewrite elem_of_sort_strings in Hd.
    + unfold may_visit in Hm. destruct (last path) as [z|] eqn:Hl; cbn.
      * done.
      * rewrite Hs in Hm. by apply is_Some_None in Hm.
Qed.

Lemma topo_inv_init : topo_inv [] (mkTopo ∅ []).
Proof.
  split; cbn; try done.
  - intros n. rewrite lookup_empty. split; [done|]. by intros ?%elem_of_nil.
  - intros n. rewrite lookup_empty. split; [done|]. by intros ?%elem_of_nil.
  - split; [constructor|]. split; [by intros s ?%elem_of_nil|]. by intros [] ? ? ?.
  - constructor.
  - by intros n ?%elem_of_nil.
Qed.

End Topo.

(** ** Theorems: the dependency sort *)

Lemma topoSort_post svcs decl :
  named svcs -> (forall n, n ∈ decl -> is_Some (svcs !! n)) ->
  match topoSort svcs decl with
  | Ok out => boot_order svcs out /\ forall n, n ∈ decl -> n ∈ CS_Name <$> out
  | Err (Some e) => error_sound svcs e
  | Err None => False
  end.
Proof.
  intros Hnamed Hdecl. unfold topoSort.
  assert (H : visit_post svcs [] (fun n => n ∈ decl) (mkTopo ∅ [])
    (visit_all (visit (topo_fuel svcs) svcs []) decl (mkTopo ∅ []))).
  { apply visit_all_post; [|apply topo_inv_init]. intros d st' Hd Hinv.
    apply visit_spec; auto; [by apply Hdecl|unfold topo_fuel; cbn; lia]. }
  destruct (visit_all _ _ _) as [st|[e|]]; [|done|done].
  destruct H as (Hinv & _ & Hd). split; [apply Hinv|done].
Qed.

(** C6: the dependency sort. On a service map keyed by name and a list of
    declared services it always terminates within its fuel; a result is a boot
    order that holds every declared service, and an error names a real cycle of
    [depends_on] edges or a dependency that is not declared. *)
Theorem topoSort_correct svcs decl :
  named svcs -> (forall n, n ∈ decl -> is_Some (svcs !! n)) ->
  match topoSort svcs decl with
  | Ok out => boot_order svcs out /\ forall n, n ∈ decl -> n ∈ CS_Name <$> out
  | Err (Some e) => error_sound svcs e
  | Err None => False
  end.
Proof. apply topoSort_post. Qed.

(** The sort refuses nothing it should accept. If every dependency is
    declared and no chain of dependencies returns to its start, a boot order is
    produced. *)
Theorem topoSort_complete svcs decl :
  named svcs -> (forall n, n ∈ decl -> is_Some (svcs !! n)) ->
  (forall a b, depends svcs a b -> is_Some (svcs !! b)) ->
  (forall path n, n ∈ path -> ~ chain svcs (path ++ [n])%list) ->
  exists out, topoSort svcs decl = Ok out.
Proof.
  intros Hnamed Hdecl Hclosed Hacyclic.
  pose proof (topoSort_post svcs decl Hnamed Hdecl) as Hpost.
  destruct (topoSort svcs decl) as [out|e]; [by eexists|]. exfalso.
  destruct e as [[]|]; cbn in Hpost; try done.
  - destruct Hpost as [Hin Hch]. by eapply Hacyclic.
  - destruct Hpost as [Hnone Hdep]. apply Hclosed in Hdep. rewrite Hnone in Hdep.
    by apply is_Some_None in Hdep.
Qed.

(** ** Theorems: the parser *)

(** What every line keeps: services are filed under their names, the order lists
    exactly the declared services, and the current service is one of them. *)
Record parse_inv (st : ParseState) : Prop := {
  pi_named : named (services st);
  pi_order : forall n, n ∈ order st <-> is_Some (services st !! n);
  pi_svc : forall n, svc st = Some n -> n <> ""
}.

Lemma parse_inv_upd f name st :
  (forall s, CS_Name (f s) = CS_Name s) -> parse_inv st -> parse_inv (upd_svc f name st).
Proof.
  intros Hf [Hn Ho Hs]. split; cbn; [|intros n|done].
  - intros n s H. destruct (decide (name = n)) as [->|Hne].
    + rewrite lookup_alter_eq in H. destruct (services st !! n) as [s0|] eqn:E; [|done].
      cbn in H. simplify_eq. rewrite Hf. by apply Hn.
    + rewrite lookup_alter_ne in H by done. by apply Hn.
  - rewrite Ho. destruct (decide (name = n)) as [->|Hne].
    + rewrite lookup_alter_eq. by rewrite fmap_is_Some.
    + by rewrite lookup_alter_ne.
Qed.

Lemma parse_inv_section key i st : parse_inv st -> parse_inv (set_section key i st).
Proof. by intros [Hn Ho Hs]. Qed.

#[export] Hint Resolve parse_inv_upd parse_inv_section : porter.

(** The invariant, and a property of errors, of one step's outcome. *)
Definition step_inv (r : step_result) : Prop :=
  match r with
  | Continue st | Break st => parse_inv st
  | Return _ => True
  end.

Lemma section_item_inv lineNo name item st :
  parse_inv st -> step_inv (section_item lineNo name item st).
Proof.
  intros H. unfold section_item. repeat (case_goal; cbn); auto with porter;
    apply parse_inv_upd; done.
Qed.

Lemma service_key_inv name trimmed indent st :
  parse_inv st -> step_inv (service_key name trimmed indent st).
Proof.
  intros H. unfold service_key. repeat (case_goal; cbn); auto with porter;
    apply parse_inv_upd; done.
Qed.

Lemma parse_line_inv lineNo raw st :
  parse_inv st -> step_inv (parse_line lineNo raw st).
Proof.
  intros H. unfold parse_line.
  destruct (trim_space _ ==? ""); [done|]. destruct (negb (inServices st)).
  { destruct (_ ==? _); [|done]. by destruct H. }
  destruct (_ && _); [done|]. destruct (_ || _).
  - destruct (negb _); [done|].
    set (name := trim_suffix _ _). destruct (name ==? "") eqn:Ename; [done|]. bools.
    destruct H as [Hn Ho Hs]. split; cbn.
    + intros n s. destruct (decide (name = n)) as [<-|Hne].
      * rewrite lookup_insert_eq. intros [= <-]. done.
      * rewrite lookup_insert_ne by done. apply Hn.
    + intros n. rewrite elem_of_app, list_elem_of_singleton, Ho.
      destruct (decide (name = n)) as [<-|Hne].
      * rewrite lookup_insert_eq. split; [by eexists|by right].
      * rewrite lookup_insert_ne by done. naive_solver.
    + intros n [= <-]. done.
  - destruct (svc st) as [name|]; [|done].
    destruct (_ && _); [by apply section_item_inv|by apply service_key_inv].
Qed.

Lemma parse_lines_inv lineNo lines st st' :
  parse_inv st -> parse_lines lineNo lines st = Ok st' -> parse_inv st'.
Proof.
  revert lineNo st. induction lines as [|raw lines IH]; intros lineNo st H E; cbn in E.
  - by simplify_eq.
  - pose proof (parse_line_inv lineNo raw st H) as Hs.
    destruct (parse_line lineNo raw st); simplify_eq; eauto.
Qed.

Lemma parse_inv_init : parse_inv parse_init.
Proof.
  split; cbn; [by intros ? ? ?|intros n|done].
  rewrite lookup_empty. split; [by intros ?%elem_of_nil|by intros ?%is_Some_None].
Qed.

(** C12: a compose file that parses yields a non-empty list of services with
    distinct names, each with an image, in which every dependency of a service
    comes before it; and parsing never runs out of fuel. *)
Theorem ParseCompose_correct yaml :
  match ParseCompose yaml with
  | Ok out => out <> [] /\ NoDup (CS_Name <$> out) /\ Forall (fun s => CS_Image s <> "") out /\
              forall l1 s l2, out = (l1 ++ s :: l2)%list ->
                forall d, d ∈ CS_DependsOn s -> d ∈ CS_Name <$> l1
  | Err e => e <> None
  end.
Proof.
  unfold ParseCompose.
  destruct (parse_lines 0 (split_lines yaml) parse_init) as [st|e] eqn:Ep; [|done].
  apply parse_lines_inv in Ep; [|apply parse_inv_init]. destruct Ep as [Hn Ho _].
  destruct (Nat.eqb_spec (size (services st)) 0) as [|Hsize]; [done|].
  pose proof (topoSort_post (services st) (order st) Hn ltac:(intros; by apply Ho)) as Ht.
  destruct (topoSort _ _) as [out|[e|]]; [|done|done].
  destruct Ht as ((Hnd & _ & Hdeps) & Hall).
  unfold check_images. destruct (find_first _ out) as [s|] eqn:Ef; [done|].
  apply find_first_None in Ef. repeat split; try done.
  - intros ->. apply Hsize, map_size_empty_iff. apply map_empty. intros n.
    destruct (services st !! n) eqn:E; [|done]. exfalso.
    assert (Hin : n ∈ order st) by (apply Ho; by eexists). apply Hall in Hin. by apply elem_of_nil in Hin.
  - eapply Forall_impl; [exact Ef|]. cbn. intros s Hs. by bools.
Qed.

(** A rank that decreases along dependencies rules out cycles. *)
Lemma rank_acyclic svcs (rank : string -> nat) :
  (forall a b, depends svcs a b -> (rank b < rank a)%nat) ->
  forall path n, n ∈ path -> ~ chain svcs (path ++ [n])%list.
Proof.
  intros Hr. assert (H : forall path n, chain svcs (path ++ [n])%list ->
    forall a, a ∈ path -> (rank n < rank a)%nat).
  { induction path as [|x path IH]; intros n Hc a Ha; [by apply elem_of_nil in Ha|].
    assert (Htl : chain svcs (path ++ [n])%list /\
                  forall y l, (path ++ [n])%list = y :: l -> depends svcs x y).
    { destruct path as [|y path]; cbn in Hc |- *; destruct Hc; split; try done;
        intros ? ? [= <- <-]; done. }
    destruct Htl as [Htl Hx]. apply elem_of_cons in Ha as [->|Ha]; [|by apply (IH n)].
    destruct path as [|y path]; cbn in Hx.
    - by apply Hr, (Hx n []).
    - transitivity (rank y); [apply (IH n Htl); left|]. by apply Hr, (Hx y (path ++ [n])%list). }
  intros path n Hn Hc. specialize (H path n Hc n Hn). lia.
Qed.

(** ** Witnesses *)

Definition svc_web : ComposeService := mkService "web" "nginx" "" [] ∅ 1 ["db"] [] None "".
Definition svc_db : ComposeService := mkService "db" "postgres" "" [] ∅ 1 [] [] None "".
Definition two_services : gmap string ComposeService := {["web" := svc_web; "db" := svc_db]}.

Lemma two_services_lookup n s :
  two_services !! n = Some s -> (n = "web" /\ s = svc_web) \/ (n = "db" /\ s = svc_db).
Proof.
  unfold two_services. intros [[<- <-]|[_ H]]%lookup_insert_Some; [by left|].
  apply lookup_singleton_Some in H as [<- <-]. by right.
Qed.

Lemma two_services_named : named two_services.
Proof. intros n s [[-> ->]|[-> ->]]%two_services_lookup; done. Qed.

Lemma two_services_decl n : n ∈ ["web"; "db"] -> is_Some (two_services !! n).
Proof.
  intros [->|[->|H]%elem_of_cons]%elem_of_cons; [by eexists|by eexists|by apply elem_of_nil in H].
Qed.

Lemma two_services_depends a b : depends two_services a b -> a = "web" /\ b = "db".
Proof.
  intros (s & [[-> ->]|[-> ->]]%two_services_lookup & Hb); cbn in Hb.
  - by apply list_elem_of_singleton in Hb.
  - by apply elem_of_nil in Hb.
Qed.

Lemma topoSort_correct_witness :
  topoSort two_services ["web"; "db"] = Ok [svc_db; svc_web] /\
  match topoSort two_services ["web"; "db"] with
  | Ok out => boot_order two_services out /\ forall n, n ∈ ["web"; "db"] -> n ∈ CS_Name <$> out
  | Err (Some e) => error_sound two_services e
  | Err None => False
  end.
Proof.
  split; [vm_compute; reflexivity|].
  apply (topoSort_correct two_services ["web"; "db"]);
    [exact two_services_named|exact two_services_decl].
Defined.

Lemma topoSort_complete_witness : exists out, topoSort two_services ["web"; "db"] = Ok out.
Proof.
  apply (topoSort_complete two_services ["web"; "db"]);
    [exact two_services_named|exact two_services_decl|..].
  - intros a b [-> ->]%two_services_depends. by eexists.
  - apply (rank_acyclic two_services (fun n => if n ==? "web" then 1%nat else 0%nat)).
    intros a b [-> ->]%two_services_depends. vm_compute. lia.
Defined.

Definition compose_sample : string := "version: 3
services:
  web:
    image: nginx   # front
    ports:
      - 8080:80
    depends_on:
      - db
  db:
    image: postgres
    deploy:
      replicas: 0
".

(** A file evaluated: boot order, port mapping, and the replica count 0 that
    the final loop meant to replace by 1. *)
Example ParseCompose_sample :
  match ParseCompose compose_sample with
  | Ok [db; web] => CS_Name db = "db" /\ CS_Replicas db = 0 /\ CS_Ports web = [mkPort 80 8080 "tcp"]
  | _ => False
  end.
Proof. vm_compute. repeat split. Qed.

(** Items under a key the parser does not know fall into the section opened
    before it: here a volume becomes a dependency. *)
Definition compose_leak : string := "services:
  web:
    image: nginx
    depends_on:
    volumes:
      - data
".

Example ParseCompose_leak :
  ParseCompose compose_leak = Err (Some (UnknownService "web" "data")).
Proof. vm_compute. reflexivity. Qed.

Close Scope Z_scope.
Close Scope string_scope.
