(* ===== verification/Cache.v ===== *)
(** * The Redis cache client ([internal/cache])

    The RESP wire format ([resp.go]) over a byte stream, and the connection pool
    with its retry ([redis.go]). The stream is the string of bytes still to be
    read; decoding runs on fuel, one unit per byte is proved to be enough. The
    network is the parameter [roundtrip] with its own state. *)
From S2P Require Import Prelude GoStrings GoNet.
From Stdlib Require Import Ascii String.

Open Scope string_scope.
Open Scope Z_scope.

(** ** RESP *)

(** What [readReply] returns as [any]: bytes, an int, nil or a slice. *)
Inductive Reply :=
| RBytes (b : string)
| RInt (n : Z)
| RNil
| RArray (l : list Reply).

Inductive RespErr :=
| EOF
| Malformed (line : string)
| EmptyLine
| BadInteger (body : string)
| BadBulkLength (body : string)
| BadArrayLength (body : string)
| UnexpectedType (typ : ascii)
| ErrorReply (msg : string)
| MakeSlicePanic.

Definition cr : ascii := ascii_of_nat 13.
Definition lf : ascii := ascii_of_nat 10.
Definition crlf : string := String cr (String lf "").

Definition slen (s : string) : Z := Z.of_nat (String.length s).

Definition write_arg (a : string) : string := "$" ++ Itoa (slen a) ++ crlf ++ a ++ crlf.

Fixpoint write_args (args : list string) : string :=
  match args with
  | [] => ""
  | a :: args => write_arg a ++ write_args args
  end.

(** The bytes [writeCommand] flushes. *)
Definition writeCommand (args : list string) : string :=
  "*" ++ Itoa (Z.of_nat (List.length args)) ++ crlf ++ write_args args.

(** [r.ReadBytes('\n')] and the check of the carriage return: the line without
    its terminator and the rest of the stream. *)
Definition readCRLFLine (s : string) : result RespErr (string * string) :=
  match cut lf s with
  | None => Err EOF
  | Some (line, rest) =>
      if has_suffix line (String cr "") then Ok (trim_suffix line (String cr ""), rest)
      else Err (Malformed line)
  end.

(** [make] panics beyond the address space of the runtime. *)
Definition max_alloc : Z := 2 ^ 48.

(** [io.ReadFull(r, buf)] with [len(buf) = n + 2], then [buf[:n]]. *)
Definition read_bulk (n : Z) (s : string) : result RespErr (string * string) :=
  if (i64 (n + 2) <? 0) || (max_alloc <? n + 2) then Err MakeSlicePanic
  else if slen s <? n + 2 then Err EOF
  else Ok (stake (Z.to_nat n) s, sdrop (Z.to_nat (n + 2)) s).

Definition RespRes A := result (option RespErr) A.

Definition lift {A} (r : result RespErr A) : RespRes A :=
  match r with Ok a => Ok a | Err e => Err (Some e) end.

(** The element loop of an array reply; [k] bounds the number of rounds. *)
Fixpoint read_many (read : string -> RespRes (Reply * string)) (k : nat) (n : Z) (s : string)
    : RespRes (list Reply * string) :=
  match k with
  | O => Err None
  | S k =>
      if n <=? 0 then Ok ([], s)
      else match read s with
           | Err e => Err e
           | Ok (v, s) =>
               match read_many read k (n - 1) s with
               | Err e => Err e
               | Ok (l, s) => Ok (v :: l, s)
               end
           end
  end.

Fixpoint readReply (fuel : nat) (s : string) : RespRes (Reply * string) :=
  match fuel with
  | O => Err None
  | S fuel =>
      match readCRLFLine s with
      | Err e => Err (Some e)
      | Ok (EmptyString, _) => Err (Some EmptyLine)
      | Ok (String typ body, rest) =>
          if Ascii.eqb typ "+" then Ok (RBytes body, rest)
          else if Ascii.eqb typ "-" then Err (Some (ErrorReply body))
          else if Ascii.eqb typ ":" then
            match Atoi body with
            | None => Err (Some (BadInteger body))
            | Some n => Ok (RInt n, rest)
            end
          else if Ascii.eqb typ "$" then
            match Atoi body with
            | None => Err (Some (BadBulkLength body))
            | Some n =>
                if n <? 0 then Ok (RNil, rest)
                else match lift (read_bulk n rest) with
                     | Ok (b, rest) => Ok (RBytes b, rest)
                     | Err e => Err e
                     end
            end
          else if Ascii.eqb typ "*" then
            match Atoi body with
            | None => Err (Some (BadArrayLength body))
            | Some n =>
                if n <? 0 then Ok (RNil, rest)
                else if max_alloc <? n * 16 then Err (Some MakeSlicePanic)
                else match read_many (readReply fuel) (S (String.length rest)) n rest with
                     | Ok (l, rest) => Ok (RArray l, rest)
                     | Err e => Err e
                     end
            end
          else Err (Some (UnexpectedType typ))
      end
  end.

(** ** The client *)

Record Options := mkOptions {
  Addr : string;
  User : string;
  Password : string;
  DB : Z;
  MaxIdleConns : Z
}.

(** The parts of a [url.URL] that [ParseURL] looks at. *)
Record URL := mkURL {
  Scheme : string;
  Host : string;
  UserInfo : option (string * option string);
  Path : string
}.

Inductive UrlErr := EmptyURL | BadURL | UnsupportedScheme (s : string) | InvalidDB (s : string).

(** [url.Parse] is the standard library's; its result is the argument [parse]. *)
Definition ParseURL (parse : string -> option URL) (raw : string) : result UrlErr Options :=
  if raw ==? "" then Err EmptyURL
  else match parse raw with
  | None => Err BadURL
  | Some u =>
      if Scheme u !=? "redis" then Err (UnsupportedScheme (Scheme u))
      else
        let host := if Host u ==? "" then "localhost" else Host u in
        let host := match SplitHostPort host with Some _ => host | None => host ++ ":6379" end in
        let user := match UserInfo u with Some (n, _) => n | None => "" end in
        let pw := match UserInfo u with Some (_, Some p) => p | _ => "" end in
        let dbStr := trim_prefix (Path u) "/" in
        if (dbStr !=? "") && (dbStr !=? "/") then
          match Atoi dbStr with
          | None => Err (InvalidDB dbStr)
          | Some db => Ok (mkOptions host user pw db 0)
          end
        else Ok (mkOptions host user pw 0 0)
  end.

(** The defaults [Open] applies to the pool bound. *)
Definition with_defaults (o : Options) : Options :=
  mkOptions (Addr o) (User o) (Password o) (DB o)
    (if MaxIdleConns o <=? 0 then 8 else MaxIdleConns o).

Definition Conn := nat.

(** The client and the network it runs on: the idle pool, every connection that
    is open, the number of the next connection, and the world's state. *)
Record Redis (W : Type) := mkRedis {
  pool : list Conn;
  opened : gset Conn;
  next : Conn;
  world : W
}.
Arguments mkRedis {W}.
Arguments pool {W}.
Arguments opened {W}.
Arguments next {W}.
Arguments world {W}.

Section Client.
Context {W NetErr : Type}.
(** Whether a TCP dial succeeds, and one command round trip on a connection. *)
Context (tcp_dial : W -> W * option NetErr).
Context (roundtrip : W -> Conn -> list string -> W * result NetErr Reply).
Context (opts : Options).

Definition close_conn (c : Conn) (r : Redis W) : Redis W :=
  mkRedis (pool r) (opened r ∖ {[c]}) (next r) (world r).

Definition rt (c : Conn) (args : list string) (r : Redis W) : Redis W * result NetErr Reply :=
  let '(w, res) := roundtrip (world r) c args in
  (mkRedis (pool r) (opened r) (next r) w, res).

Definition authArgs : list string :=
  ("AUTH" :: (if User opts !=? "" then [User opts] else []) ++ [Password opts])%list.

(** [SELECT] when a database other than 0 is configured. *)
Definition dial_select (c : Conn) (r : Redis W) : Redis W * result NetErr Conn :=
  if negb (DB opts =? 0) then
    match rt c ["SELECT"; Itoa (DB opts)] r with
    | (r, Err e) => (close_conn c r, Err e)
    | (r, Ok _) => (r, Ok c)
    end
  else (r, Ok c).

Definition dial (r : Redis W) : Redis W * result NetErr Conn :=
  let '(w, res) := tcp_dial (world r) in
  match res with
  | Some e => (mkRedis (pool r) (opened r) (next r) w, Err e)
  | None =>
      let c := next r in
      let r := mkRedis (pool r) ({[c]} ∪ opened r) (S c) w in
      if Password opts ==? "" then dial_select c r
      else match rt c authArgs r with
           | (r, Err e) => (close_conn c r, Err e)
           | (r, Ok _) => dial_select c r
           end
  end.

(** The pool is a stack: the last connection released is the next one used. *)
Definition acquire (r : Redis W) : Redis W * option Conn :=
  match rev (pool r) with
  | [] => (r, None)
  | c :: tl => (mkRedis (rev tl) (opened r) (next r) (world r), Some c)
  end.

Definition release (c : Conn) (r : Redis W) : Redis W :=
  if MaxIdleConns opts <=? Z.of_nat (List.length (pool r)) then close_conn c r
  else mkRedis (pool r ++ [c])%list (opened r) (next r) (world r).

(** One attempt with a retry on a fresh connection. *)
Definition attempt (c : Conn) (args : list string) (r : Redis W) : Redis W * result NetErr Reply :=
  match rt c args r with
  | (r, Ok reply) => (release c r, Ok reply)
  | (r, Err e) =>
      let r := close_conn c r in
      match dial r with
      | (r, Err _) => (r, Err e)
      | (r, Ok fresh) =>
          match rt fresh args r with
          | (r, Err e) => (close_conn fresh r, Err e)
          | (r, Ok reply) => (release fresh r, Ok reply)
          end
      end
  end.

Definition redis_do (args : list string) (r : Redis W) : Redis W * result NetErr Reply :=
  match acquire r with
  | (r, Some c) => attempt c args r
  | (r, None) =>
      match dial r with
      | (r, Err e) => (r, Err e)
      | (r, Ok c) => attempt c args r
      end
  end.

(** The commands. An unexpected reply is [inr reply]. *)
Definition Get (key : string) (r : Redis W) : Redis W * option string :=
  match redis_do ["GET"; key] r with
  | (r, Ok (RBytes b)) => (r, Some b)
  | (r, _) => (r, None)
  end.

Definition set_args (key value : string) (ttl : Z) : list string :=
  (["SET"; key; value] ++
   if 0 <? ttl then ["PX"; Itoa (Z.quot ttl 1000000)] else [])%list.

Definition SetKey (key value : string) (ttl : Z) (r : Redis W) : Redis W * result (NetErr + Reply) unit :=
  match redis_do (set_args key value ttl) r with
  | (r, Err e) => (r, Err (inl e))
  | (r, Ok (RBytes _)) => (r, Ok tt)
  | (r, Ok v) => (r, Err (inr v))
  end.

Definition Del (keys : list string) (r : Redis W) : Redis W * result NetErr unit :=
  match keys with
  | [] => (r, Ok tt)
  | _ => match redis_do ("DEL" :: keys) r with
         | (r, Err e) => (r, Err e)
         | (r, Ok _) => (r, Ok tt)
         end
  end.

Definition Flush (r : Redis W) : Redis W * result NetErr unit :=
  match redis_do ["FLUSHDB"] r with
  | (r, Err e) => (r, Err e)
  | (r, Ok _) => (r, Ok tt)
  end.

Definition Ping (r : Redis W) : Redis W * result (NetErr + Reply) unit :=
  match redis_do ["PING"] r with
  | (r, Err e) => (r, Err (inl e))
  | (r, Ok (RBytes _)) => (r, Ok tt)
  | (r, Ok v) => (r, Err (inr v))
  end.

Definition CloseAll (r : Redis W) : Redis W :=
  mkRedis [] (opened r ∖ list_to_set (pool r)) (next r) (world r).

End Client.

(** The no-op cache. *)
Definition Noop_Get (key : string) : option string := None.

(** ** Theorems: the wire format *)

Definition no_lf : string -> bool := sall (fun c => negb (Ascii.eqb c lf)).

Lemma cut_Some sep s a b : cut sep s = Some (a, b) -> s = a ++ String sep b.
Proof.
  revert a. induction s as [|c s IH]; intros a E; cbn in E; [done|].
  destruct (Ascii.eqb_spec c sep) as [->|].
  - by simplify_eq.
  - destruct (cut sep s) as [[a' b']|]; [|done]. simplify_eq.
    rewrite sapp_cons. f_equal. by apply IH.
Qed.

Lemma readCRLFLine_app line rest :
  no_lf line = true -> readCRLFLine (line ++ crlf ++ rest) = Ok (line, rest).
Proof.
  intros H. unfold readCRLFLine.
  assert (E : line ++ crlf ++ rest = (line ++ String cr "") ++ String lf rest).
  { unfold crlf. by rewrite sapp_assoc. }
  rewrite E, cut_app.
  - by rewrite has_suffix_app, trim_suffix_app.
  - rewrite sall_app. unfold no_lf in H. by rewrite H.
Qed.

Lemma readCRLFLine_shorter s line rest :
  readCRLFLine s = Ok (line, rest) -> (String.length rest < String.length s)%nat.
Proof.
  unfold readCRLFLine. destruct (cut lf s) as [[a b]|] eqn:E; [|done].
  apply cut_Some in E as ->. case_goal; [|done]. intros [= _ <-].
  rewrite slen_app. cbn. lia.
Qed.

Lemma digits_no_lf s : sall is_digit s = true -> no_lf s = true.
Proof.
  apply sall_impl. intros c Hc. apply negb_true_iff, Ascii.eqb_neq. by intros ->.
Qed.

(** The header line of a count: a type byte, the decimal count, CRLF. *)
Lemma readCRLFLine_header typ n rest :
  0 <= n -> negb (Ascii.eqb typ lf) = true ->
  readCRLFLine (String typ (Itoa n ++ crlf ++ rest)) = Ok (String typ (Itoa n), rest).
Proof.
  intros Hn Ht. change (String typ (Itoa n ++ crlf ++ rest))
    with ((String typ (Itoa n)) ++ crlf ++ rest).
  apply readCRLFLine_app. unfold no_lf. cbn. rewrite Ht. by apply digits_no_lf, Itoa_digits.
Qed.

(** Lengths the runtime can allocate. *)
Definition small (n : Z) : Prop := 0 <= n /\ n * 16 + 2 <= max_alloc.

Lemma small_i64 n : small n -> in_i64 n.
Proof. unfold small, max_alloc, in_i64, min_int64, max_int64. lia. Qed.

Lemma read_bulk_app a rest :
  small (slen a) -> read_bulk (slen a) (a ++ crlf ++ rest) = Ok (a, rest).
Proof.
  intros Hs. unfold read_bulk.
  rewrite i64_id by (unfold small, max_alloc, in_i64, min_int64, max_int64 in *; lia).
  unfold small in Hs. destruct (Z.ltb_spec (slen a + 2) 0); [lia|].
  destruct (Z.ltb_spec max_alloc (slen a + 2)); [lia|]. cbn [orb].
  assert (E : slen (a ++ crlf ++ rest) = slen a + 2 + slen rest).
  { unfold slen. rewrite !slen_app. cbn. lia. }
  rewrite E. destruct (Z.ltb_spec (slen a + 2 + slen rest) (slen a + 2)).
  { unfold slen in *. lia. }
  f_equal. f_equal.
  - unfold slen. rewrite Nat2Z.id. apply stake_app.
  - replace (Z.to_nat (slen a + 2)) with (String.length (a ++ crlf)).
    + by rewrite <- sapp_assoc, sdrop_app.
    + unfold slen. rewrite slen_app. cbn. lia.
Qed.

Lemma readReply_arg fuel a rest :
  small (slen a) -> readReply (S fuel) (write_arg a ++ rest) = Ok (RBytes a, rest).
Proof.
  intros Hs. unfold write_arg. rewrite !sapp_assoc.
  change ("$" ++ Itoa (slen a) ++ crlf ++ a ++ crlf ++ rest)
    with (String "$" (Itoa (slen a) ++ crlf ++ a ++ crlf ++ rest)).
  cbn [readReply]. rewrite readCRLFLine_header by (unfold slen; done || lia).
  cbn [Ascii.eqb Bool.eqb]. rewrite Atoi_Itoa by by apply small_i64.
  destruct (Z.ltb_spec (slen a) 0); [unfold slen in *; lia|].
  by rewrite read_bulk_app.
Qed.

Lemma read_many_args fuel args rest k :
  Forall (fun a => small (slen a)) args -> (List.length args < k)%nat ->
  read_many (readReply (S fuel)) k (Z.of_nat (List.length args)) (write_args args ++ rest) =
  Ok (RBytes <$> args, rest).
Proof.
  intros H. revert k. induction H as [|a args Ha H IH]; intros k Hk;
    (destruct k as [|k]; [cbn in Hk; lia|]); [done|].
  cbn [read_many write_args List.length].
  destruct (Z.leb_spec (Z.of_nat (S (List.length args))) 0); [lia|].
  rewrite sapp_assoc, readReply_arg by done.
  replace (Z.of_nat (S (List.length args)) - 1) with (Z.of_nat (List.length args)) by lia.
  rewrite IH by (cbn in Hk; lia). done.
Qed.

Lemma write_args_length args : (List.length args <= String.length (write_args args))%nat.
Proof.
  induction args as [|a args IH]; [done|]. cbn [write_args List.length].
  rewrite slen_app. unfold write_arg. rewrite slen_app. cbn. lia.
Qed.

(** C29: what the client writes is what a RESP reader reads. Decoding an encoded
    command gives back exactly its arguments, whatever bytes they hold, and
    leaves the rest of the stream untouched. *)
Theorem resp_roundtrip args rest fuel :
  small (Z.of_nat (List.length args)) -> Forall (fun a => small (slen a)) args ->
  readReply (S (S fuel)) (writeCommand args ++ rest) = Ok (RArray (RBytes <$> args), rest).
Proof.
  intros Hn Hargs. unfold writeCommand. rewrite !sapp_assoc.
  change ("*" ++ Itoa (Z.of_nat (List.length args)) ++ crlf ++ write_args args ++ rest)
    with (String "*" (Itoa (Z.of_nat (List.length args)) ++ crlf ++ write_args args ++ rest)).
  remember (S fuel) as f. cbn [readReply].
  rewrite readCRLFLine_header by (done || lia). cbn [Ascii.eqb Bool.eqb].
  rewrite Atoi_Itoa by by apply small_i64.
  destruct (Z.ltb_spec (Z.of_nat (List.length args)) 0); [lia|].
  destruct (Z.ltb_spec max_alloc (Z.of_nat (List.length args) * 16)); [unfold small in Hn; lia|].
  rewrite Heqf, read_many_args; [done|done|].
  rewrite slen_app. pose proof (write_args_length args). lia.
Qed.

(** Reading consumes input, so fuel beyond the input length is never exhausted. *)
Definition consumes (read : string -> RespRes (Reply * string)) : Prop :=
  forall s v s', read s = Ok (v, s') -> (String.length s' < String.length s)%nat.

Definition total_below (n : nat) (read : string -> RespRes (Reply * string)) : Prop :=
  forall s, (String.length s < n)%nat -> read s <> Err None.

Lemma read_many_total read n k m s :
  consumes read -> total_below n read -> (String.length s < n)%nat -> (String.length s < k)%nat ->
  read_many read k m s <> Err None.
Proof.
  intros Hc Ht. revert m s. induction k as [|k IH]; intros m s Hn Hk; [lia|]. cbn.
  destruct (m <=? 0); [done|]. specialize (Ht s Hn).
  destruct (read s) as [[v s']|e] eqn:E; [|congruence]. apply Hc in E.
  specialize (IH (m - 1) s' ltac:(lia) ltac:(lia)).
  destruct (read_many read k (m - 1) s') as [[]|]; [done|congruence].
Qed.

Lemma read_many_shorter read k m s l s' :
  consumes read -> read_many read k m s = Ok (l, s') -> (String.length s' <= String.length s)%nat.
Proof.
  intros Hc. revert m s l. induction k as [|k IH]; intros m s l E; cbn in E; [done|].
  destruct (m <=? 0); [by simplify_eq|]. destruct (read s) as [[v s1]|] eqn:E1; [|done].
  apply Hc in E1. destruct (read_many read k (m - 1) s1) as [[l2 s2]|] eqn:E2; [|done].
  simplify_eq. apply IH in E2. lia.
Qed.

Lemma sdrop_le n s : (String.length (sdrop n s) <= String.length s)%nat.
Proof. revert s. induction n as [|n IH]; intros [|c s]; cbn; try lia. specialize (IH s). lia. Qed.

Lemma read_bulk_shorter n s b s' :
  read_bulk n s = Ok (b, s') -> (String.length s' <= String.length s)%nat.
Proof.
  unfold read_bulk. repeat case_goal; try done. intros [= _ <-]. apply sdrop_le.
Qed.

Lemma readReply_consumes fuel : consumes (readReply fuel).
Proof.
  induction fuel as [|fuel IH]; intros s v s' E; cbn -[Atoi read_many] in E; [done|].
  destruct (readCRLFLine s) as [[[|typ body] rest]|] eqn:El; [done| |done].
  apply readCRLFLine_shorter in El.
  destruct (Ascii.eqb typ "+"); [by simplify_eq|].
  destruct (Ascii.eqb typ "-"); [done|].
  destruct (Ascii.eqb typ ":"); [by destruct (Atoi body); simplify_eq|].
  destruct (Ascii.eqb typ "$").
  { destruct (Atoi body) as [n|]; [|done]. destruct (n <? 0); [by simplify_eq|].
    destruct (read_bulk n rest) as [[b r]|] eqn:Eb; cbn in E; [|done].
    apply read_bulk_shorter in Eb. simplify_eq. lia. }
  destruct (Ascii.eqb typ "*"); [|done].
  destruct (Atoi body) as [n|]; [|done]. destruct (n <? 0); [by simplify_eq|].
  destruct (max_alloc <? n * 16); [done|].
  destruct (read_many _ _ n rest) as [[l r]|] eqn:Em; [|done].
  apply read_many_shorter in Em; [|done]. simplify_eq. lia.
Qed.

Lemma readReply_total fuel : total_below fuel (readReply fuel).
Proof.
  induction fuel as [|fuel IH]; intros s Hs; [lia|]. cbn -[Atoi read_many].
  destruct (readCRLFLine s) as [[[|typ body] rest]|] eqn:El; [done| |done].
  apply readCRLFLine_shorter in El.
  destruct (Ascii.eqb typ "+"); [done|]. destruct (Ascii.eqb typ "-"); [done|].
  destruct (Ascii.eqb typ ":"); [by destruct (Atoi body)|].
  destruct (Ascii.eqb typ "$").
  { destruct (Atoi body) as [n|]; [|done]. destruct (n <? 0); [done|].
    by destruct (read_bulk n rest) as [[]|]. }
  destruct (Ascii.eqb typ "*"); [|done].
  destruct (Atoi body) as [n|]; [|done]. destruct (n <? 0); [done|].
  destruct (max_alloc <? n * 16); [done|].
  pose proof (read_many_total (readReply fuel) fuel (S (String.length rest)) n rest
    (readReply_consumes fuel) IH ltac:(lia) ltac:(lia)) as Hm.
  destruct (read_many _ _ n rest) as [[]|]; [done|congruence].
Qed.

(** C13: Reading a reply terminates on every byte stream. Fuel one above the
    number of bytes always produces a reply or one of the code's errors, however
    deeply arrays nest, and a reply leaves a strictly shorter stream. *)
Theorem readReply_terminates s :
  match readReply (S (String.length s)) s with
  | Ok (_, s') => (String.length s' < String.length s)%nat
  | Err e => e <> None
  end.
Proof.
  pose proof (readReply_total (S (String.length s)) s ltac:(lia)) as Ht.
  pose proof (readReply_consumes (S (String.length s)) s) as Hc.
  destruct (readReply _ s) as [[v s']|e]; [by eapply Hc|congruence].
Qed.

(** ** Theorems: the connection pool *)

Section PoolTheorems.
Context {W NetErr : Type}.
Context (tcp_dial : W -> W * option NetErr).
Context (roundtrip : W -> Conn -> list string -> W * result NetErr Reply).
Context (opts : Options).

(** [fl] are the connections in use. Every open connection is either in use or
    idle in the pool, none is both or twice, and the pool respects its bound. *)
Record pool_inv (fl : list Conn) (r : Redis W) : Prop := {
  po_nodup : NoDup (fl ++ pool r);
  po_open : opened r = list_to_set (fl ++ pool r);
  po_next : forall c, c ∈ (fl ++ pool r)%list -> (c < next r)%nat;
  po_bound : Z.of_nat (List.length (pool r)) <= Z.max 0 (MaxIdleConns opts)
}.

Lemma pool_inv_rt fl c args r :
  pool_inv fl r -> pool_inv fl (rt roundtrip c args r).1.
Proof. intros [H1 H2 H3 H4]. unfold rt. by destruct (roundtrip (world r) c args). Qed.

Lemma pool_inv_close fl c r : pool_inv (c :: fl) r -> pool_inv fl (close_conn c r).
Proof.
  intros [H1 H2 H3 H4]. cbn in H1. apply NoDup_cons in H1 as [Hc H1]. split; cbn; auto.
  - rewrite H2. apply set_eq. intros x. rewrite elem_of_difference, elem_of_list_to_set,
      elem_of_singleton, elem_of_list_to_set. cbn. rewrite elem_of_cons. naive_solver.
  - intros x Hx. apply H3. by right.
Qed.

Lemma pool_inv_release fl c r : pool_inv (c :: fl) r -> pool_inv fl (release opts c r).
Proof.
  intros H. unfold release. case_goal; [by apply pool_inv_close|]. bools.
  destruct H as [H1 H2 H3 H4].
  change ((c :: fl) ++ pool r)%list with (c :: fl ++ pool r)%list in *.
  assert (Hp : (c :: fl ++ pool r)%list ≡ₚ (fl ++ pool r ++ [c])%list).
  { rewrite app_assoc. apply Permutation_cons_append. }
  split; cbn [pool opened next].
  - by rewrite <- Hp.
  - rewrite H2. apply set_eq. intros x. rewrite !elem_of_list_to_set. by rewrite Hp.
  - intros x Hx. rewrite <- Hp in Hx. by apply H3.
  - rewrite length_app. cbn. lia.
Qed.

Lemma pool_inv_select fl c r r' o :
  pool_inv (c :: fl) r -> dial_select roundtrip opts c r = (r', o) ->
  match o with Ok c' => pool_inv (c' :: fl) r' | Err _ => pool_inv fl r' end.
Proof.
  intros H. unfold dial_select. case_goal; [|by intros [= <- <-]].
  pose proof (pool_inv_rt _ c ["SELECT"; Itoa (DB opts)] _ H) as H'.
  destruct (rt _ _ _ r) as [r1 [v|e]]; intros [= <- <-]; [done|by apply pool_inv_close].
Qed.

Lemma pool_inv_dial fl r r' o :
  pool_inv fl r -> dial tcp_dial roundtrip opts r = (r', o) ->
  match o with Ok c => pool_inv (c :: fl) r' | Err _ => pool_inv fl r' end.
Proof.
  intros [H1 H2 H3 H4]. unfold dial. destruct (tcp_dial (world r)) as [w [e|]].
  { by intros [= <- <-]. }
  assert (Hn : pool_inv (next r :: fl) (mkRedis (pool r) ({[next r]} ∪ opened r) (S (next r)) w)).
  { split; cbn; auto.
    - apply NoDup_cons. split; [|done]. intros Hin%H3. lia.
    - by rewrite H2.
    - intros c [->|Hc]%elem_of_cons; [lia|]. apply H3 in Hc. lia. }
  case_goal; [by apply pool_inv_select|].
  pose proof (pool_inv_rt _ (next r) (authArgs opts) _ Hn) as H'.
  destruct (rt _ _ _ _) as [r1 [v|e]]; [by apply pool_inv_select|].
  intros [= <- <-]. by apply pool_inv_close.
Qed.

Lemma pool_inv_attempt fl c args r :
  pool_inv (c :: fl) r -> pool_inv fl (attempt tcp_dial roundtrip opts c args r).1.
Proof.
  intros H. unfold attempt. pose proof (pool_inv_rt _ c args _ H) as H1.
  destruct (rt roundtrip c args r) as [r1 [v|e]]; [by apply pool_inv_release|].
  apply pool_inv_close in H1.
  destruct (dial _ _ _ _) as [r2 [c2|e2]] eqn:E; pose proof (pool_inv_dial _ _ _ _ H1 E) as H2;
    [|done].
  pose proof (pool_inv_rt _ c2 args _ H2) as H3.
  destruct (rt roundtrip c2 args r2) as [r3 [v|e3]];
    [by apply pool_inv_release|by apply pool_inv_close].
Qed.

Lemma pool_inv_acquire fl r r' o :
  pool_inv fl r -> acquire r = (r', o) ->
  match o with Some c => pool_inv (c :: fl) r' | None => pool_inv fl r' end.
Proof.
  intros H. unfold acquire. destruct (rev (pool r)) as [|c tl] eqn:E; intros [= <- <-]; [done|].
  assert (Ep : pool r = (rev tl ++ [c])%list).
  { rewrite <- (rev_involutive (pool r)), E. done. }
  destruct H as [H1 H2 H3 H4]. rewrite Ep in *.
  assert (Hp : (fl ++ rev tl ++ [c])%list ≡ₚ (c :: fl ++ rev tl)%list).
  { rewrite app_assoc. symmetry. apply Permutation_cons_append. }
  split; cbn [pool opened next];
    change ((c :: fl) ++ rev tl)%list with (c :: fl ++ rev tl)%list.
  - by rewrite <- Hp.
  - rewrite H2. apply set_eq. intros x. rewrite !elem_of_list_to_set. by rewrite Hp.
  - intros x Hx. rewrite <- Hp in Hx. by apply H3.
  - rewrite length_app in H4. cbn in H4. lia.
Qed.

(** C9: no command leaks a connection. Whatever the dials and round trips
    answer, on success, on a retry and on every error path, a command returns
    with exactly the connections other callers hold plus the idle pool open, each
    once, and the pool within [MaxIdleConns]. *)
Theorem redis_do_no_leak fl args r :
  pool_inv fl r -> pool_inv fl (redis_do tcp_dial roundtrip opts args r).1.
Proof.
  intros H. unfold redis_do.
  destruct (acquire r) as [r1 o] eqn:Ea. pose proof (pool_inv_acquire _ _ _ _ H Ea) as H1.
  destruct o as [c|]; [by apply pool_inv_attempt|].
  destruct (dial _ _ _ r1) as [r2 o2] eqn:Ed. pose proof (pool_inv_dial _ _ _ _ H1 Ed) as H2.
  destruct o2 as [c|e]; [by apply pool_inv_attempt|done].
Qed.

End PoolTheorems.

(** ** Witnesses *)

Lemma resp_roundtrip_witness :
  readReply 2 (writeCommand ["SET"; "k"; crlf] ++ "+OK") =
  Ok (RArray [RBytes "SET"; RBytes "k"; RBytes crlf], "+OK").
Proof.
  apply (resp_roundtrip ["SET"; "k"; crlf] "+OK" 0).
  - split; vm_compute; discriminate.
  - repeat constructor; vm_compute; discriminate.
Defined.

(** A network on which every second round trip fails. *)
Definition flaky_rt (w : nat) (c : Conn) (args : list string) : nat * result unit Reply :=
  (S w, if Nat.even w then Err tt else Ok (RBytes "OK")).
Definition flaky_opts : Options := mkOptions "localhost:6379" "" "secret" 2 8.

Lemma redis_do_no_leak_witness :
  pool_inv flaky_opts [] (mkRedis [] ∅ 0%nat 0%nat) /\
  pool_inv flaky_opts []
    (redis_do (fun w => (w, None)) flaky_rt flaky_opts ["PING"] (mkRedis [] ∅ 0%nat 0%nat)).1.
Proof.
  assert (H : pool_inv flaky_opts [] (mkRedis (W := nat) [] ∅ 0%nat 0%nat)).
  { split; cbn; [constructor|reflexivity|intros c Hc; by apply elem_of_nil in Hc|lia]. }
  split; [exact H|].
  apply (redis_do_no_leak (fun w => (w, None)) flaky_rt flaky_opts [] ["PING"]). exact H.
Defined.

Close Scope Z_scope.
Close Scope string_scope.
