(* ===== verification/NetMgr.v ===== *)
(** * Address management ([internal/netmgr], [internal/runtime/network.go])

    The per-project subnet allocator, the per-replica addresses, the /30 link
    layout, the FNV-derived MAC and TAP identities, and the subnet bookkeeping of
    [VMManager.NetSpec]. The [ip] commands run on the host are the parameter
    [run] over a host state. *)
From S2P Require Import Prelude GoStrings GoNum GoNet Types.
From Stdlib Require Import Ascii String.

Open Scope string_scope.
Open Scope Z_scope.

(** ** Hashing *)

(** FNV-1a of width [w]: xor each byte, multiply, wrap. *)
Fixpoint fnv1a (w prime h : Z) (s : string) : Z :=
  match s with
  | EmptyString => h
  | String c s => fnv1a w prime (wrap_u w (Z.lxor h (byte_of c) * prime)) s
  end.

Definition fnv64a (s : string) : Z := fnv1a 64 1099511628211 14695981039346656037 s.
Definition fnv32a (s : string) : Z := fnv1a 32 16777619 2166136261 s.

(** The byte [byte(sum >> k)]. *)
Definition byte_at (sum k : Z) : Z := Z.land (Z.shiftr sum k) 255.

(** The six bytes of the hardware address. *)
Definition DeterministicMAC (vmID : string) : list Z :=
  let sum := fnv64a vmID in
  6 :: map (byte_at sum) [40; 32; 24; 16; 8].

Definition hex2 (b : Z) : string := String (hex_digit (b / 16)) (String (hex_digit (b mod 16)) "").

(** [net.HardwareAddr.String()]. *)
Definition HardwareAddr_String (mac : list Z) : string := join ":" (map hex2 mac).

(** Digits of [strconv.FormatUint(n, 16)]; eight suffice for 32 bits. *)
Fixpoint hex_aux (fuel : nat) (n : Z) (acc : string) : string :=
  match fuel with
  | O => acc
  | S fuel => if n =? 0 then acc else hex_aux fuel (n / 16) (String (hex_digit (n mod 16)) acc)
  end.

Definition FormatHex (n : Z) : string := if n =? 0 then "0" else hex_aux 8 n "".

(** ** Scanning a dotted prefix *)

(** One [%d] of [fmt.Sscanf]: spaces, a sign, decimal digits, 64-bit range. *)
Fixpoint digit_run (s : string) : string * string :=
  match s with
  | String c s' => if is_digit c then let '(d, r) := digit_run s' in (String c d, r) else ("", s)
  | EmptyString => ("", "")
  end.

Definition scan_space (c : ascii) : bool := is_space c && negb (byte_of c =? 10).

Definition scan_d (s : string) : option (Z * string) :=
  let s := trim_left_f scan_space s in
  let '(sign, s) := match s with
                    | String "+" s => ("", s)
                    | String "-" s => ("-", s)
                    | _ => ("", s)
                    end in
  let '(d, rest) := digit_run s in
  match d with
  | EmptyString => None
  | _ => match Atoi (sign ++ d) with Some n => Some (n, rest) | None => None end
  end.

(** A literal of the format. *)
Definition scan_lit (lit s : string) : option string :=
  if has_prefix s lit then Some (sdrop (String.length lit) s) else None.

(** [Sscanf(s, "%d.%d.%d.", ...)]. *)
Definition scan_three (s : string) : option (Z * Z * Z) :=
  '(a, s) ← scan_d s; s ← scan_lit "." s;
  '(b, s) ← scan_d s; s ← scan_lit "." s;
  '(c, s) ← scan_d s; s ← scan_lit "." s;
  Some (a, b, c).

(** [Sscanf(s, "10.42.%d.", &third)]. *)
Definition scan_third (s : string) : option Z :=
  s ← scan_lit "10.42." s; '(t, s) ← scan_d s; s ← scan_lit "." s; Some t.

(** ** The allocator *)

Record BootSpec := mkBoot {
  MacAddress : string;
  HostDevName : string;
  CIDR : string;
  GatewayAddr : string
}.

Inductive NetErr :=
| NotLinux
| InvalidSubnet (s : string)
| IndexOutOfRange (i : Z)
| OctetOutOfRange (o : Z)
| CreateTAP (tap : string)
| AssignGateway (gw tap : string)
| BringUp (tap : string)
| Exhausted
| ParseSubnet (s : string)
| NotIPv4
| NilVM.

Record NetManager := mkNet { nextSubnet : Z }.

Definition NewNetManager : NetManager := mkNet 0.

Definition dotted (l : list Z) : string := join "." (map Itoa l).

Definition AllocateSubnet (n : NetManager) : NetManager * result NetErr IPNet :=
  if 255 <? nextSubnet n then (n, Err Exhausted)
  else
    let sub := "10.42." ++ Itoa (nextSubnet n) ++ ".0/24" in
    let n := mkNet (nextSubnet n + 1) in
    match ParseCIDR sub with
    | None => (n, Err (ParseSubnet sub))
    | Some ipnet => (n, Ok ipnet)
    end.

(** [IPNet.String()] for a network with a 4-byte mask. *)
Definition IPNet_String (n : IPNet) : string := IP_String (Net_IP n) ++ "/" ++ Itoa (Net_Bits n).

Definition AllocateProjectSubnet (n : NetManager) : NetManager * string :=
  match AllocateSubnet n with
  | (n, Err _) => (n, "10.42.0.0/24")
  | (n, Ok ipn) => (n, IPNet_String ipn)
  end.

Definition bootShortID (vmID : string) : string :=
  if (8 <? String.length vmID)%nat then stake 8 vmID else vmID.

(** The host commands, in the order the code runs them. *)
Inductive IpCmd :=
| LinkDel (tap : string)
| TuntapAdd (tap : string)
| AddrReplace (addr tap : string)
| LinkUp (tap : string).

Section Host.
Context {H : Type} (run : IpCmd -> H -> H * bool) (linux : bool).

Definition AllocateVMNetwork (subnetCIDR : string) (replicaIndex : Z) (vmID : string) (h : H)
    : H * result NetErr BootSpec :=
  if negb linux then (h, Err NotLinux)
  else match scan_three subnetCIDR with
  | None => (h, Err (InvalidSubnet subnetCIDR))
  | Some (a, b, c) =>
      if (replicaIndex <? 0) || (245 <? replicaIndex) then (h, Err (IndexOutOfRange replicaIndex))
      else
        let ip := dotted [a; b; c; 10 + replicaIndex] in
        let gw := dotted [a; b; c; 1] in
        let mac := HardwareAddr_String (DeterministicMAC vmID) in
        let tap := "tap-" ++ bootShortID vmID in
        let '(h, _) := run (LinkDel tap) h in
        let '(h, ok) := run (TuntapAdd tap) h in
        if negb ok then (h, Err (CreateTAP tap))
        else
          let '(h, ok) := run (AddrReplace (gw ++ "/24") tap) h in
          if negb ok then let '(h, _) := run (LinkDel tap) h in (h, Err (AssignGateway gw tap))
          else
            let '(h, ok) := run (LinkUp tap) h in
            if negb ok then let '(h, _) := run (LinkDel tap) h in (h, Err (BringUp tap))
            else (h, Ok (mkBoot mac tap (ip ++ "/24") gw))
  end.

End Host.

Definition AllocateVMNetwork30 (baseThirdOctet replicaIndex : Z) (vmID : string)
    : result NetErr BootSpec :=
  if (baseThirdOctet <? 0) || (252 <? baseThirdOctet) then Err (OctetOutOfRange baseThirdOctet)
  else if (replicaIndex <? 0) || (63 <? replicaIndex) then Err (IndexOutOfRange replicaIndex)
  else
    let base4 := replicaIndex * 4 in
    let gw := dotted [10; 42; baseThirdOctet; base4 + 1] in
    let guest := dotted [10; 42; baseThirdOctet; base4 + 2] in
    Ok (mkBoot (HardwareAddr_String (DeterministicMAC vmID)) ("tap-" ++ bootShortID vmID)
          (guest ++ "/30") gw).

(** Replace the last octet of a 32-bit address. *)
Definition with_last (v b : Z) : Z := v / 256 * 256 + b.

Definition AllocateIP (subnet : IPNet) (replicaIndex : Z) : result NetErr IP :=
  match To4 (Net_IP subnet) with
  | None => Err NotIPv4
  | Some ip =>
      if (replicaIndex <? 0) || (245 <? replicaIndex) then Err (IndexOutOfRange replicaIndex)
      else Ok (ip_of_v4 (with_last ip (wrap_u 8 (10 + replicaIndex))))
  end.

Definition GatewayIP (subnet : IPNet) : option IP :=
  match To4 (Net_IP subnet) with
  | None => None
  | Some ip => Some (ip_of_v4 (with_last ip 1))
  end.

(** ** The deterministic allocator of [internal/runtime/network.go] *)

Record ReplicaNetworkSpec := mkReplicaNet {
  RN_Subnet : string;
  RN_IPAddress : string;
  RN_Gateway : string;
  RN_MAC : string;
  RN_Bridge : string;
  RN_TapName : string
}.

Record NetworkManager := mkNetworkManager { nm_bridge : string; nm_base : string }.

Definition NewNetworkManager (bridge base : string) : NetworkManager :=
  mkNetworkManager (if bridge ==? "" then "porter-br0" else bridge)
                   (if base ==? "" then "10.42" else base).

(** The hash of [projectID:replicaIndex] and the third octet taken from it. *)
Definition replica_hash (projectID : string) (replicaIndex : Z) : Z :=
  fnv32a (projectID ++ ":" ++ Itoa replicaIndex).
Definition replica_third (projectID : string) (replicaIndex : Z) : Z :=
  replica_hash projectID replicaIndex mod 253.

Definition NM_AllocateVMNetwork (m : NetworkManager) (projectID : string) (replicaIndex : Z)
    (vmID : string) : result NetErr ReplicaNetworkSpec :=
  if (replicaIndex <? 0) || (245 <? replicaIndex) then Err (IndexOutOfRange replicaIndex)
  else
    let o := replica_hash projectID replicaIndex in
    let third := replica_third projectID replicaIndex in
    Ok {| RN_Subnet := nm_base m ++ "." ++ Itoa third ++ ".0.0/24";
          RN_IPAddress := nm_base m ++ "." ++ Itoa third ++ "." ++ Itoa (10 + replicaIndex);
          RN_Gateway := nm_base m ++ "." ++ Itoa third ++ "." ++ Itoa 1;
          RN_MAC := HardwareAddr_String (DeterministicMAC vmID);
          RN_Bridge := nm_bridge m;
          RN_TapName := "tap" ++ FormatHex o |}.

Definition NM_AllocateVMNetwork30 (m : NetworkManager) (projectID : string) (replicaIndex : Z)
    (vmID : string) : result NetErr ReplicaNetworkSpec :=
  if (replicaIndex <? 0) || (63 <? replicaIndex) then Err (IndexOutOfRange replicaIndex)
  else
    let o := replica_hash projectID replicaIndex in
    let third := replica_third projectID replicaIndex in
    let base4 := replicaIndex * 4 in
    Ok {| RN_Subnet := nm_base m ++ "." ++ Itoa third ++ "." ++ Itoa base4 ++ "/30";
          RN_IPAddress := nm_base m ++ "." ++ Itoa third ++ "." ++ Itoa (base4 + 2);
          RN_Gateway := nm_base m ++ "." ++ Itoa third ++ "." ++ Itoa (base4 + 1);
          RN_MAC := HardwareAddr_String (DeterministicMAC vmID);
          RN_Bridge := nm_bridge m;
          RN_TapName := "tap" ++ FormatHex o |}.

(** ** Subnet bookkeeping of the VM manager ([runtime/vm_manager.go]) *)

Record SubnetTable := mkSubs { subs_net : NetManager; subs : gmap string string }.

(** The first half of [NetSpec]: the subnet of a project, allocated on first use. *)
Definition project_subnet (t : SubnetTable) (projectID : string) : SubnetTable * string :=
  match subs t !! projectID with
  | Some s => (t, s)
  | None =>
      let '(n, s) := AllocateProjectSubnet (subs_net t) in
      (mkSubs n (<[projectID := s]> (subs t)), s)
  end.

Section NetSpec.
Context {H : Type} (run : IpCmd -> H -> H * bool) (linux use30 : bool).

Definition NetSpec (t : SubnetTable) (h : H) (vm : VM) : SubnetTable * H * result NetErr BootSpec :=
  let '(t, subnet) := project_subnet t (VM_ProjectID vm) in
  let plain := let '(h, r) := AllocateVMNetwork run linux subnet (VM_ReplicaIndex vm) (VM_ID vm) h in
               (t, h, r) in
  if use30 && (0 <=? VM_ReplicaIndex vm) && (VM_ReplicaIndex vm <=? 63) then
    match scan_third subnet with
    | Some third => (t, h, AllocateVMNetwork30 third (VM_ReplicaIndex vm) (VM_ID vm))
    | None => plain
    end
  else plain.

End NetSpec.

(** [ipFromCIDR]. *)
Definition ipFromCIDR (cidr : string) : string :=
  match cut "/" cidr with Some (a, _) => a | None => cidr end.

(** ** Lemmas *)

(** The text of the [k]-th project subnet and the address of one of its hosts. *)
Definition subnet_text (k : Z) : string := "10.42." ++ Itoa k ++ ".0/24".
Definition host_addr (k last : Z) : Z := v4_of_octets 10 42 k last.
Definition subnet_net (k : Z) : IPNet := mkIPNet (ip_of_v4 (host_addr k 0)) 24 true.

#[export] Instance IPNet_eq_dec : EqDecision IPNet.
Proof. solve_decision. Defined.

Lemma ParseCIDR_subnet k : 0 <= k < 256 -> ParseCIDR (subnet_text k) = Some (subnet_net k).
Proof.
  intros Hk. apply (bool_decide_eq_true_1 (ParseCIDR (subnet_text k) = Some (subnet_net k))).
  revert k Hk.
  apply (Zrange_check 256 (fun k => bool_decide (ParseCIDR (subnet_text k) = Some (subnet_net k)))).
  vm_compute. reflexivity.
Qed.

Lemma IPNet_String_subnet k : 0 <= k < 256 -> IPNet_String (subnet_net k) = subnet_text k.
Proof.
  intros Hk. apply (bool_decide_eq_true_1 (IPNet_String (subnet_net k) = subnet_text k)).
  revert k Hk.
  apply (Zrange_check 256 (fun k => bool_decide (IPNet_String (subnet_net k) = subnet_text k))).
  vm_compute. reflexivity.
Qed.

Lemma scan_subnet k : 0 <= k < 256 ->
  scan_three (subnet_text k) = Some (10, 42, k) /\ scan_third (subnet_text k) = Some k.
Proof.
  intros Hk. apply (bool_decide_eq_true_1 (scan_three (subnet_text k) = Some (10, 42, k) /\
                                           scan_third (subnet_text k) = Some k)).
  revert k Hk. apply (Zrange_check 256 (fun k => bool_decide (
    scan_three (subnet_text k) = Some (10, 42, k) /\ scan_third (subnet_text k) = Some k))).
  vm_compute. reflexivity.
Qed.

Lemma AllocateSubnet_ok k :
  0 <= k < 256 -> AllocateSubnet (mkNet k) = (mkNet (k + 1), Ok (subnet_net k)).
Proof.
  intros Hk. unfold AllocateSubnet. cbn [nextSubnet].
  destruct (Z.ltb_spec 255 k); [lia|].
  change ("10.42." ++ Itoa k ++ ".0/24") with (subnet_text k). by rewrite ParseCIDR_subnet.
Qed.

Lemma AllocateProjectSubnet_ok k :
  0 <= k < 256 -> AllocateProjectSubnet (mkNet k) = (mkNet (k + 1), subnet_text k).
Proof.
  intros Hk. unfold AllocateProjectSubnet. rewrite AllocateSubnet_ok by done.
  by rewrite IPNet_String_subnet.
Qed.

Lemma subnet_text_inj j k :
  0 <= j < 256 -> 0 <= k < 256 -> subnet_text j = subnet_text k -> j = k.
Proof.
  intros Hj Hk E. apply ParseCIDR_subnet in Hj as Hj', Hk as Hk'. rewrite E in Hj'.
  rewrite Hk' in Hj'. unfold subnet_net, host_addr, ip_of_v4, v4_of_octets in Hj'.
  injection Hj'. lia.
Qed.

(** The subnet allocator. In every state the counter can be in, the first
    256 allocations give 10.42.0.0/24, 10.42.1.0/24, ... in turn, each the
    network its text denotes, and every later one fails and changes nothing. *)
Theorem AllocateSubnet_spec k :
  0 <= k ->
  AllocateSubnet (mkNet k) =
  if k <? 256 then (mkNet (k + 1), Ok (subnet_net k)) else (mkNet k, Err Exhausted).
Proof.
  intros Hk. destruct (Z.ltb_spec k 256); [by apply AllocateSubnet_ok|].
  unfold AllocateSubnet. cbn. by destruct (Z.ltb_spec 255 k); [|lia].
Qed.

(** ** Theorems: one subnet per project *)

(** The table after any history of requests for fewer than 257 projects. *)
Record subs_inv (t : SubnetTable) : Prop := {
  si_count : nextSubnet (subs_net t) = Z.of_nat (size (subs t));
  si_text : forall p s, subs t !! p = Some s ->
    exists k, 0 <= k < nextSubnet (subs_net t) /\ s = subnet_text k;
  si_inj : forall p q s, subs t !! p = Some s -> subs t !! q = Some s -> p = q
}.

Definition NewSubnetTable : SubnetTable := mkSubs NewNetManager ∅.

Definition request_all (ps : list string) : SubnetTable :=
  fold_left (fun t p => (project_subnet t p).1) ps NewSubnetTable.

Lemma subs_inv_step t p :
  subs_inv t -> (size (subs t) < 256)%nat -> subs_inv (project_subnet t p).1.
Proof.
  intros [Hc Ht Hi] Hsize. unfold project_subnet.
  destruct (subs t !! p) as [s|] eqn:Ep; [by split|].
  destruct t as [[k] m]. cbn in *. subst k.
  rewrite AllocateProjectSubnet_ok by lia. cbn.
  assert (Hfresh : forall q s, m !! q = Some s -> s <> subnet_text (Z.of_nat (size m))).
  { intros q s Hq ->. destruct (Ht _ _ Hq) as (k & Hk & E).
    apply subnet_text_inj in E; lia. }
  split; cbn.
  - rewrite map_size_insert_None by done. lia.
  - intros q s [[<- <-]|[Hne Hq]]%lookup_insert_Some.
    + exists (Z.of_nat (size m)). split; [lia|done].
    + destruct (Ht _ _ Hq) as (k & Hk & ->). exists k. split; [lia|done].
  - intros q r s [[<- <-]|[Hq1 Hq]]%lookup_insert_Some [[<- E]|[Hr1 Hr]]%lookup_insert_Some;
      try done.
    + by apply Hfresh in Hr.
    + subst s. by apply Hfresh in Hq.
    + by eapply Hi.
Qed.

Lemma dom_request_all ps : dom (subs (request_all ps)) = list_to_set ps.
Proof.
  unfold request_all. induction ps as [|p ps IH] using rev_ind.
  - cbn. by rewrite dom_empty_L.
  - rewrite fold_left_app, list_to_set_app_L. cbn. rewrite union_empty_r_L, <- IH.
    set (t := fold_left _ _ _). unfold project_subnet.
    destruct (subs t !! p) eqn:E.
    + cbn. apply elem_of_dom_2 in E. set_solver.
    + destruct (AllocateProjectSubnet (subs_net t)). cbn. rewrite dom_insert_L. set_solver.
Qed.

Lemma request_all_inv ps :
  (size (list_to_set ps : gset string) <= 256)%nat -> subs_inv (request_all ps).
Proof.
  intros Hs. induction ps as [|p ps IH] using rev_ind.
  - by split.
  - rewrite list_to_set_app_L in Hs. cbn in Hs. rewrite union_empty_r_L in Hs.
    unfold request_all. rewrite fold_left_app. cbn. fold (request_all ps).
    assert (Hps : (size (list_to_set ps : gset string) <= 256)%nat).
    { etrans; [|exact Hs]. apply subseteq_size. set_solver. }
    specialize (IH Hps). unfold project_subnet at 1.
    destruct (subs (request_all ps) !! p) eqn:Ep; [done|].
    assert (Hlt : (size (subs (request_all ps)) < 256)%nat).
    { rewrite <- size_dom, dom_request_all.
      assert (Hp : p ∉ (list_to_set ps : gset string)).
      { rewrite <- dom_request_all. by apply not_elem_of_dom. }
      rewrite size_union, size_singleton in Hs by set_solver. lia. }
    pose proof (subs_inv_step (request_all ps) p IH Hlt) as H.
    unfold project_subnet in H. by rewrite Ep in H.
Qed.

(** Project isolation. Whatever the order and repetition of requests, as
    long as at most 256 projects ask, every project that asked has a subnet and
    no two projects share one. *)
Theorem project_subnets_distinct ps :
  (size (list_to_set ps : gset string) <= 256)%nat ->
  (forall p, p ∈ ps -> is_Some (subs (request_all ps) !! p)) /\
  (forall p q s, subs (request_all ps) !! p = Some s -> subs (request_all ps) !! q = Some s -> p = q).
Proof.
  intros Hs. split.
  - intros p Hp. apply elem_of_dom. rewrite dom_request_all. by apply elem_of_list_to_set.
  - apply (si_inj _ (request_all_inv ps Hs)).
Qed.

(** The 257th project is given the subnet of the first. *)
Lemma subnet_exhaustion_collides :
  let t := request_all (map (fun k => Itoa (Z.of_nat k)) (seq 0 257)) in
  subs t !! "0" = Some "10.42.0.0/24" /\ subs t !! "256" = Some "10.42.0.0/24".
Proof. vm_compute. split; reflexivity. Qed.

(** ** Theorems: replica addresses *)

Lemma octet10 : is_octet 10.
Proof. done. Qed.
Lemma octet42 : is_octet 42.
Proof. done. Qed.
#[export] Hint Resolve octet10 octet42 : porter.

Lemma dotted_host k l :
  is_octet k -> is_octet l -> dotted [10; 42; k; l] = fmt_ipv4 (host_addr k l).
Proof. intros. symmetry. apply fmt_ipv4_octets; auto with porter. Qed.

Lemma host_addr_range k l : is_octet k -> is_octet l -> 0 <= host_addr k l < 2 ^ 32.
Proof. intros. apply v4_of_octets_range; auto with porter. Qed.

Lemma ipFromCIDR_fmt v s : ipFromCIDR (fmt_ipv4 v ++ "/" ++ s) = fmt_ipv4 v.
Proof.
  unfold ipFromCIDR. change ("/" ++ s) with (String "/" s). rewrite cut_app; [done|].
  apply fmt_ipv4_chars; [|done]. intros c Hc. apply negb_true_iff, Ascii.eqb_neq. by intros ->.
Qed.

(** What an identity assigned to replica [i] of the [k]-th subnet must be. *)
Definition identity_ok (k i : Z) (vmID : string) (b : BootSpec) : Prop :=
  ParseIP (ipFromCIDR (CIDR b)) = Some (ip_of_v4 (host_addr k (10 + i))) /\
  ParseCIDR (CIDR b) = Some (subnet_net k) /\
  ParseIP (GatewayAddr b) = Some (ip_of_v4 (host_addr k 1)) /\
  AllocateIP (subnet_net k) i = Ok (ip_of_v4 (host_addr k (10 + i))) /\
  HostDevName b = "tap-" ++ bootShortID vmID.

Section HostTheorems.
Context {H : Type} (run : IpCmd -> H -> H * bool).

(** The network identity of a replica. Whenever boot-time allocation in the
    [k]-th project subnet succeeds, the index was within 0..245, the guest address
    is the text of 10.42.k.(10+i) inside that /24, the gateway is its .1, and the
    address is the one [AllocateIP] computes. *)
Theorem AllocateVMNetwork_identity k i vmID h h' b :
  0 <= k < 256 ->
  AllocateVMNetwork run true (subnet_text k) i vmID h = (h', Ok b) ->
  0 <= i <= 245 /\ identity_ok k i vmID b.
Proof.
  intros Hk E. unfold AllocateVMNetwork in E. cbn [negb] in E.
  destruct (scan_subnet k Hk) as [Hscan _]. rewrite Hscan in E.
  destruct ((i <? 0) || (245 <? i)) eqn:Hi; [done|]. bools.
  assert (Ho : is_octet (10 + i)) by (unfold is_octet; lia).
  assert (Hko : is_octet k) by done. assert (Hg1 : is_octet 1) by done.
  rewrite (dotted_host k (10 + i)), (dotted_host k 1) in E by done.
  split; [lia|].
  set (spec := mkBoot _ _ _ _) in E. assert (Hb : identity_ok k i vmID spec).
  2: { repeat match type of E with
       | context [run ?c ?x] => destruct (run c x) as [? []]; cbn [negb] in E; try discriminate E
       end; injection E as _ <-; exact Hb. }
  unfold spec; clear E spec.
  unfold identity_ok. cbn [CIDR GatewayAddr HostDevName].
  pose proof (host_addr_range k (10 + i) Hko Ho). pose proof (host_addr_range k 1 Hko Hg1).
  repeat split.
  - rewrite (ipFromCIDR_fmt _ "24"). by apply ParseIP_fmt_ipv4.
  - rewrite (ParseCIDR_fmt _ 24) by lia. unfold subnet_net. do 3 f_equal.
    unfold host_addr, v4_of_octets. change (2 ^ (32 - 24)) with 256.
    change (2 ^ 24) with 16777216. change (2 ^ 16) with 65536. change (2 ^ 8) with 256.
    Z.to_euclidean_division_equations. lia.
  - by apply ParseIP_fmt_ipv4.
  - unfold AllocateIP, subnet_net. cbn [Net_IP].
    rewrite To4_of_v4 by (apply host_addr_range; done).
    destruct (Z.ltb_spec i 0); [lia|]. destruct (Z.ltb_spec 245 i); [lia|]. cbn [orb].
    do 2 f_equal. unfold with_last, wrap_u, host_addr, v4_of_octets.
    rewrite Z.mod_small by (change (2 ^ 8) with 256; lia).
    change (2 ^ 24) with 16777216. change (2 ^ 16) with 65536. change (2 ^ 8) with 256.
    Z.to_euclidean_division_equations. lia.
Qed.

End HostTheorems.

(** Identities of different replicas are different addresses. *)
Lemma host_addr_inj k i k' i' :
  0 <= k < 256 -> 0 <= i <= 245 -> 0 <= k' < 256 -> 0 <= i' <= 245 ->
  host_addr k (10 + i) = host_addr k' (10 + i') -> k = k' /\ i = i'.
Proof. unfold host_addr, v4_of_octets. lia. Qed.

(** ** Theorems: the /30 link layout *)

(** The /30 layout. A successful allocation puts guest and gateway into the
    four-address block of its index: the block's network contains both, they
    differ, and no other index of the same third octet has an address in it. *)
Theorem AllocateVMNetwork30_layout t i vmID b :
  AllocateVMNetwork30 t i vmID = Ok b ->
  exists net, ParseCIDR (CIDR b) = Some net /\
    ParseIP (ipFromCIDR (CIDR b)) = Some (ip_of_v4 (host_addr t (4 * i + 2))) /\
    ParseIP (GatewayAddr b) = Some (ip_of_v4 (host_addr t (4 * i + 1))) /\
    Contains net (ip_of_v4 (host_addr t (4 * i + 1))) = true /\
    Contains net (ip_of_v4 (host_addr t (4 * i + 2))) = true /\
    forall j, 0 <= j <= 63 -> j <> i ->
      Contains net (ip_of_v4 (host_addr t (4 * j + 1))) = false /\
      Contains net (ip_of_v4 (host_addr t (4 * j + 2))) = false.
Proof.
  unfold AllocateVMNetwork30. destruct ((t <? 0) || _) eqn:Ht; [done|].
  destruct ((i <? 0) || _) eqn:Hi; [done|]. intros [= <-]. bools. cbn [CIDR GatewayAddr].
  replace (i * 4) with (4 * i) by lia.
  assert (Hto : is_octet t) by (unfold is_octet; lia).
  assert (Hlo : forall j r, 0 <= j <= 63 -> 0 <= r <= 3 -> is_octet (4 * j + r))
    by (unfold is_octet; lia).
  assert (Hr : forall j r, 0 <= j <= 63 -> 0 <= r <= 3 ->
             0 <= host_addr t (4 * j + r) < 2 ^ 32) by auto using host_addr_range.
  rewrite !dotted_host by auto with lia.
  set (g := host_addr t (4 * i + 2)). exists (mkIPNet (ip_of_v4 (g / 4 * 4)) 30 true).
  assert (Hblock : forall j r, 0 <= j <= 63 -> 0 <= r <= 3 ->
            host_addr t (4 * j + r) / 4 = host_addr t 0 / 4 + j).
  { intros j r Hj Hr'. unfold host_addr, v4_of_octets.
    change (2 ^ 24) with 16777216. change (2 ^ 16) with 65536. change (2 ^ 8) with 256.
    Z.to_euclidean_division_equations. lia. }
  assert (Hg : 0 <= g < 2 ^ 32) by (apply Hr; lia).
  assert (HC : forall j r, 0 <= j <= 63 -> 0 <= r <= 3 ->
    Contains (mkIPNet (ip_of_v4 (g / 4 * 4)) 30 true) (ip_of_v4 (host_addr t (4 * j + r))) = (i =? j)).
  { intros j r Hj Hr'. rewrite Contains_v4; [|..]; [|
      Z.to_euclidean_division_equations; lia|by apply Hr|lia].
    change (2 ^ (32 - 30)) with 4. rewrite Z.div_mul by lia.
    rewrite (Hblock j r) by lia. unfold g. rewrite (Hblock i 2) by lia.
    destruct (Z.eqb_spec i j); [by subst; rewrite Z.eqb_refl|]. apply Z.eqb_neq. lia. }
  repeat split.
  - rewrite (ParseCIDR_fmt _ 30) by lia. done.
  - rewrite (ipFromCIDR_fmt _ "30"). by apply ParseIP_fmt_ipv4.
  - apply ParseIP_fmt_ipv4. apply Hr; lia.
  - rewrite HC by lia. apply Z.eqb_refl.
  - unfold g. rewrite HC by lia. apply Z.eqb_refl.
  - rewrite HC by lia. apply Z.eqb_neq. lia.
  - rewrite HC by lia. apply Z.eqb_neq. lia.
Qed.

(** ** Theorems: host devices *)

(** A host that knows its TAP devices; [fails] says which commands fail, and
    adding an existing device fails. *)
Definition run_taps (fails : IpCmd -> bool) (c : IpCmd) (taps : gset string) : gset string * bool :=
  match c with
  | LinkDel t => (taps ∖ {[t]}, bool_decide (t ∈ taps))
  | TuntapAdd t => if fails c || bool_decide (t ∈ taps) then (taps, false) else ({[t]} ∪ taps, true)
  | AddrReplace _ t | LinkUp t => (taps, negb (fails c) && bool_decide (t ∈ taps))
  end.

(** No half-configured TAP survives. Allocation leaves the VM's TAP on the
    host exactly when it succeeds; when a later command fails the device is gone,
    when the arguments are refused nothing on the host changed, and no other
    device is ever touched. *)
Theorem AllocateVMNetwork_taps fails subnet i vmID (taps : gset string) :
  let tap := "tap-" ++ bootShortID vmID in
  match AllocateVMNetwork (run_taps fails) true subnet i vmID taps with
  | (taps', Ok b) => taps' = {[tap]} ∪ taps /\ HostDevName b = tap
  | (taps', Err (CreateTAP t)) | (taps', Err (AssignGateway _ t)) | (taps', Err (BringUp t)) =>
      t = tap /\ taps' = taps ∖ {[tap]}
  | (taps', Err _) => taps' = taps
  end.
Proof.
  intros tap. unfold AllocateVMNetwork. cbn [negb].
  destruct (scan_three subnet) as [[[a b] c]|]; [|done].
  destruct (_ || _); [done|]. fold tap. cbn [run_taps].
  rewrite (bool_decide_eq_false_2 (tap ∈ taps ∖ {[tap]})) by set_solver.
  rewrite orb_false_r. destruct (fails (TuntapAdd tap)); cbn [negb]; [done|].
  rewrite (bool_decide_eq_true_2 (tap ∈ {[tap]} ∪ taps ∖ {[tap]})) by set_solver.
  rewrite !andb_true_r.
  assert (E : ({[tap]} ∪ taps ∖ {[tap]}) ∖ {[tap]} = taps ∖ {[tap]}) by set_solver.
  destruct (fails (AddrReplace _ tap)); cbn [negb]; [by rewrite E|].
  destruct (fails (LinkUp tap)); cbn [negb]; [by rewrite E|].
  split; [|done]. apply set_eq. intros x. destruct (decide (x = tap)); set_solver.
Qed.

(** Device names fit the kernel's 15-byte limit. *)
Lemma stake_length n s : (String.length (stake n s) <= n)%nat.
Proof. revert s. induction n as [|n IH]; intros [|c s]; cbn; try lia. specialize (IH s). lia. Qed.

Lemma hex_aux_length fuel n acc :
  (String.length (hex_aux fuel n acc) <= fuel + String.length acc)%nat.
Proof.
  revert n acc. induction fuel as [|fuel IH]; intros n acc; cbn; [lia|].
  destruct (n =? 0); [lia|]. etrans; [apply IH|]. cbn. lia.
Qed.

(** Interface names. Every TAP name either allocator hands out is at most 15
    bytes long, the kernel's limit, and every MAC is six bytes whose first octet
    is a locally administered unicast one. *)
Theorem tap_and_mac_wellformed vmID projectID i :
  (String.length ("tap-" ++ bootShortID vmID) <= 15)%nat /\
  (String.length ("tap" ++ FormatHex (replica_hash projectID i)) <= 15)%nat /\
  List.length (DeterministicMAC vmID) = 6%nat /\
  Forall is_octet (DeterministicMAC vmID) /\
  exists b, head (DeterministicMAC vmID) = Some b /\ Z.testbit b 0 = false /\ Z.testbit b 1 = true.
Proof.
  repeat split.
  - rewrite slen_app. change (String.length "tap-") with 4%nat. unfold bootShortID.
    pose proof (stake_length 8 vmID). destruct (Nat.ltb_spec 8 (String.length vmID)); lia.
  - rewrite slen_app. unfold FormatHex. case_goal; [cbn; lia|].
    pose proof (hex_aux_length 8 (replica_hash projectID i) "").
    change (String.length "tap") with 3%nat. change (String.length "") with 0%nat in *. lia.
  - unfold DeterministicMAC. constructor; [done|]. apply Forall_forall. intros x Hx.
    apply list_elem_of_In, in_map_iff in Hx as (k & <- & _). unfold byte_at, is_octet.
    change 255 with (Z.ones 8). rewrite Z.land_ones by lia. apply Z.mod_pos_bound. lia.
  - exists 6. repeat split.
Qed.

(** ** What the hash-based allocator gets wrong *)

(** Its /24 subnet has five octets and is never a CIDR (shown for one replica);
    two projects can be given the same address. *)
Example NM_subnet_not_a_cidr :
  match NM_AllocateVMNetwork (NewNetworkManager "" "") "p1" 0 "vm" with
  | Ok s => RN_Subnet s = "10.42.242.0.0/24" /\ ParseCIDR (RN_Subnet s) = None
  | Err _ => False
  end.
Proof. vm_compute. split; reflexivity. Qed.

Example NM_addresses_collide :
  match NM_AllocateVMNetwork (NewNetworkManager "" "") "p15" 0 "a",
        NM_AllocateVMNetwork (NewNetworkManager "" "") "p37" 0 "b" with
  | Ok s, Ok t => RN_IPAddress s = RN_IPAddress t
  | _, _ => False
  end.
Proof. vm_compute. reflexivity. Qed.

(** ** Witnesses *)

Lemma AllocateSubnet_spec_witness :
  AllocateSubnet (mkNet 255) = (mkNet 256, Ok (subnet_net 255)).
Proof. apply (AllocateSubnet_spec 255). discriminate. Defined.

Lemma project_subnets_distinct_witness :
  (forall p, p ∈ ["a"; "b"; "a"] -> is_Some (subs (request_all ["a"; "b"; "a"]) !! p)) /\
  (forall p q s, subs (request_all ["a"; "b"; "a"]) !! p = Some s ->
                 subs (request_all ["a"; "b"; "a"]) !! q = Some s -> p = q).
Proof. apply (project_subnets_distinct ["a"; "b"; "a"]). vm_compute. lia. Defined.

Definition boot_example : BootSpec :=
  mkBoot "06:c6:00:d9:71:01" "tap-vm-1" "10.42.7.13/24" "10.42.7.1".

Lemma AllocateVMNetwork_identity_witness :
  AllocateVMNetwork (run_taps (fun _ => false)) true (subnet_text 7) 3 "vm-1" ∅ =
    ({["tap-vm-1"]}, Ok boot_example) /\
  (0 <= 3 <= 245 /\ identity_ok 7 3 "vm-1" boot_example).
Proof.
  assert (E : AllocateVMNetwork (run_taps (fun _ => false)) true (subnet_text 7) 3 "vm-1" ∅ =
    ({["tap-vm-1"]}, Ok boot_example)) by (vm_compute; reflexivity).
  split; [exact E|].
  apply (AllocateVMNetwork_identity (run_taps (fun _ => false)) 7 3 "vm-1" ∅ {["tap-vm-1"]}).
  - split; [discriminate|reflexivity].
  - exact E.
Defined.

Lemma AllocateVMNetwork30_layout_witness :
  exists net, ParseCIDR "10.42.9.14/30" = Some net /\
    Contains net (ip_of_v4 (host_addr 9 13)) = true.
Proof.
  assert (E : AllocateVMNetwork30 9 3 "vm-1" =
    Ok (mkBoot "06:c6:00:d9:71:01" "tap-vm-1" "10.42.9.14/30" "10.42.9.13")) by (vm_compute; reflexivity).
  destruct (AllocateVMNetwork30_layout 9 3 "vm-1" _ E) as (net & H1 & _ & _ & H2 & _).
  exists net. split; [exact H1|exact H2].
Defined.

Close Scope Z_scope.
Close Scope string_scope.
