(* ===== verification/Store.v ===== *)
(** * The store ([internal/store])

    The tables the modelled components use, with the SQL statements of
    [store.go], [microvms.go], [usage.go] and [events.go] as functions on a state.
    A table is the list of its rows in [created_at] order; an upsert replaces a row
    in place or appends it. PostgreSQL itself is not modelled: a statement has the
    effect its text says, and is refused when a CHECK, NOT NULL, UNIQUE or
    foreign-key constraint of the migrations named below would be violated. The
    rows' JSON column holds the value that was marshalled, less the fields tagged
    ["-"]. *)
From S2P Require Import Prelude GoStrings GoNum GoNet Types Gateway.
From Stdlib Require Import String.

Open Scope string_scope.
Open Scope Z_scope.

(** ** Keyed tables *)

Section Table.
Context {A : Type} (key : A -> string).

Fixpoint upsert (x : A) (l : list A) : list A :=
  match l with
  | [] => [x]
  | y :: l => if key y ==? key x then x :: l else y :: upsert x l
  end.

Definition row (k : string) (l : list A) : option A := find_first (fun y => key y ==? k) l.

Definition delete_row (k : string) (l : list A) : list A := base.filter (fun y => key y <> k) l.

Lemma row_upsert_eq x l : row (key x) (upsert x l) = Some x.
Proof.
  unfold row. induction l as [|y l IH]; cbn.
  - by rewrite bool_decide_eq_true_2.
  - destruct (key y ==? key x) eqn:E; cbn; [by rewrite bool_decide_eq_true_2|].
    by rewrite E.
Qed.

Lemma row_upsert_ne x k l : key x <> k -> row k (upsert x l) = row k l.
Proof.
  intros Hne. unfold row. induction l as [|y l IH]; cbn.
  - by rewrite bool_decide_eq_false_2.
  - destruct (key y ==? key x) eqn:E; cbn.
    + bools. rewrite E. by rewrite !bool_decide_eq_false_2.
    + by rewrite IH.
Qed.

Lemma row_delete k l : row k (delete_row k l) = None.
Proof.
  apply find_first_None, Forall_forall. intros y [Hy _]%list_elem_of_filter.
  by apply bool_decide_eq_false_2.
Qed.

Lemma elem_of_upsert x y l : y ∈ upsert x l -> y = x \/ y ∈ l.
Proof.
  induction l as [|z l IH]; cbn.
  - intros ?%list_elem_of_singleton. by left.
  - destruct (key z ==? key x); intros [->|Hy]%elem_of_cons;
      rewrite ?elem_of_cons; [by left|by right; right|by right; left|].
    destruct (IH Hy); [by left|by right; right].
Qed.

Lemma upsert_keys x l :
  key <$> upsert x l = if bool_decide (key x ∈ key <$> l) then key <$> l else ((key <$> l) ++ [key x])%list.
Proof.
  induction l as [|y l IH]; cbn [upsert fmap list_fmap].
  - by rewrite bool_decide_eq_false_2 by apply not_elem_of_nil.
  - destruct (key y ==? key x) eqn:E; bools; cbn.
    + rewrite bool_decide_eq_true_2; [by rewrite E|]. rewrite E. left.
    + change (list_fmap _ _ key (upsert x l)) with (key <$> upsert x l). rewrite IH.
      change (list_fmap _ _ key l) with (key <$> l).
      destruct (decide (key x ∈ key <$> l)).
      * rewrite !bool_decide_eq_true_2; [done|by right|done].
      * rewrite !bool_decide_eq_false_2; [done| |done].
        intros [?|?]%elem_of_cons; [by apply E|done].
Qed.

Lemma upsert_nodup x l : NoDup (key <$> l) -> NoDup (key <$> upsert x l).
Proof.
  intros H. rewrite upsert_keys. case_bool_decide as Hx; [done|].
  apply NoDup_app. repeat split; [done| |by apply NoDup_singleton].
  by intros k Hk ->%list_elem_of_singleton.
Qed.

End Table.

(** ** The state *)

(** A [projects] row: the JSON document and the [org_id] column beside it. *)
Record ProjectRow := mkProjectRow { pr_data : Project; pr_org : string }.

(** A [domains] row. *)
Record DomainRow := mkDomainRow { dr_project : string; dr_data : Domain }.

(** A [deployments] row: the serial [revision] column and the other columns. *)
Record DepRow := mkDepRow { dp_revision : Z; dp_data : Deployment }.

Record Event := mkEvent { ev_name : string; ev_scope : string; ev_ref : string; ev_state : string }.

Record StoreState := mkStore {
  replicas : list VM;
  projects : list ProjectRow;
  domains : list DomainRow;
  deployments : list DepRow;
  next_revision : Z;
  servers : list Server;
  builds : list Build;
  firewall_rules : list FirewallRule;
  micro_vms : gmap string string;
  events : list Event;
  usage_keys : gset string;
  traffic : gmap string (list TrafficEntry);
  project_cache : gmap string Project
}.

Definition empty_store : StoreState := mkStore [] [] [] [] 1 [] [] [] ∅ [] ∅ ∅ ∅.

Definition with_replicas x s := mkStore x (projects s) (domains s) (deployments s) (next_revision s)
  (servers s) (builds s) (firewall_rules s) (micro_vms s) (events s) (usage_keys s) (traffic s) (project_cache s).
Definition with_projects x s := mkStore (replicas s) x (domains s) (deployments s) (next_revision s)
  (servers s) (builds s) (firewall_rules s) (micro_vms s) (events s) (usage_keys s) (traffic s) (project_cache s).
Definition with_domains x s := mkStore (replicas s) (projects s) x (deployments s) (next_revision s)
  (servers s) (builds s) (firewall_rules s) (micro_vms s) (events s) (usage_keys s) (traffic s) (project_cache s).
Definition with_deployments x n s := mkStore (replicas s) (projects s) (domains s) x n
  (servers s) (builds s) (firewall_rules s) (micro_vms s) (events s) (usage_keys s) (traffic s) (project_cache s).
Definition with_servers x s := mkStore (replicas s) (projects s) (domains s) (deployments s) (next_revision s)
  x (builds s) (firewall_rules s) (micro_vms s) (events s) (usage_keys s) (traffic s) (project_cache s).
Definition with_micro_vms x s := mkStore (replicas s) (projects s) (domains s) (deployments s) (next_revision s)
  (servers s) (builds s) (firewall_rules s) x (events s) (usage_keys s) (traffic s) (project_cache s).
Definition with_events x s := mkStore (replicas s) (projects s) (domains s) (deployments s) (next_revision s)
  (servers s) (builds s) (firewall_rules s) (micro_vms s) x (usage_keys s) (traffic s) (project_cache s).
Definition with_usage x s := mkStore (replicas s) (projects s) (domains s) (deployments s) (next_revision s)
  (servers s) (builds s) (firewall_rules s) (micro_vms s) (events s) x (traffic s) (project_cache s).
Definition with_traffic x s := mkStore (replicas s) (projects s) (domains s) (deployments s) (next_revision s)
  (servers s) (builds s) (firewall_rules s) (micro_vms s) (events s) (usage_keys s) x (project_cache s).
Definition with_cache x s := mkStore (replicas s) (projects s) (domains s) (deployments s) (next_revision s)
  (servers s) (builds s) (firewall_rules s) (micro_vms s) (events s) (usage_keys s) (traffic s) x.

(** ** Replicas *)

Definition pr_id (r : ProjectRow) : string := Proj_ID (pr_data r).

(** The reference of a nullable [project_id] (0003, lines 97 and 101). *)
Definition project_ref (s : StoreState) (id : string) : bool :=
  (id ==? "") || existsb (fun r => pr_id r ==? id) (projects s).

(** The CHECKs on [state] and [health_status] (0001, lines 40-43), the unique
    index on [(project_id, replica_index)] (0003, line 98), where a NULL project
    never collides, and the reference to the project. *)
Definition replica_states : list string :=
  ["pending"; "booting"; "running"; "stopping"; "stopped"; "failed"].
Definition replica_healths : list string := ["healthy"; "unhealthy"; "checking"].

Definition slot_taken (s : StoreState) (vm : VM) : bool :=
  existsb (fun r => (VM_ID r !=? VM_ID vm) && (VM_ProjectID r !=? "") &&
                    (VM_ProjectID r ==? VM_ProjectID vm) &&
                    (VM_ReplicaIndex r =? VM_ReplicaIndex vm)) (replicas s).

Definition replica_ok (s : StoreState) (vm : VM) : bool :=
  bool_decide (VM_State vm ∈ replica_states) && bool_decide (VM_HealthStatus vm ∈ replica_healths)
  && negb (slot_taken s vm) && project_ref s (VM_ProjectID vm).

(** [PutVM]: a refused row is only logged. *)
Definition PutVM (vm : VM) (s : StoreState) : StoreState :=
  if replica_ok s vm then with_replicas (upsert VM_ID vm (replicas s)) s else s.

Definition Store_GetVM (s : StoreState) (id : string) : option VM := row VM_ID id (replicas s).

Definition Store_ListVMs (s : StoreState) : list VM := replicas s.

Definition index_le (a b : VM) : Prop := VM_ReplicaIndex a <= VM_ReplicaIndex b.

#[export] Instance index_le_dec a b : Decision (index_le a b).
Proof. unfold index_le. apply _. Defined.

Definition ListReplicas (s : StoreState) (projectID : string) : list VM :=
  merge_sort index_le
    (base.filter (fun vm => VM_ProjectID vm = projectID /\ projectID <> "") (replicas s)).

Definition DeleteVM (id : string) (s : StoreState) : StoreState :=
  let s := with_replicas (delete_row VM_ID id (replicas s)) s in
  let s := with_domains (base.filter (fun d => Dom_VMID (dr_data d) <> id) (domains s)) s in
  with_traffic (delete id (traffic s)) s.

Definition DeleteReplicasByProject (projectID : string) (s : StoreState) : StoreState :=
  with_replicas (base.filter (fun vm => ~ (VM_ProjectID vm = projectID /\ projectID <> "")) (replicas s)) s.

(** ** Projects *)

Definition project_json (p : Project) : Project := Proj_set_ComposeYAML "" p.

(** The UNIQUE on [name] (0001, line 10) and [replicas_desired >= 0] (0005, line 44). *)
Definition project_ok (s : StoreState) (p : Project) : bool :=
  (0 <=? Proj_ReplicasDesired p) &&
  negb (existsb (fun r => (pr_id r !=? Proj_ID p) && (Proj_Name (pr_data r) ==? Proj_Name p)) (projects s)).

(** [PutProject] drops the cached copy, then writes the row. *)
Definition PutProject_cache (p : Project) (s : StoreState) : StoreState :=
  with_cache (delete (Proj_ID p) (project_cache s)) s.

Definition PutProject_row (p : Project) (s : StoreState) : StoreState :=
  if project_ok s p
  then with_projects (upsert pr_id (mkProjectRow (project_json p) (Proj_OrgID p)) (projects s)) s
  else s.

Definition PutProject (p : Project) (s : StoreState) : StoreState :=
  PutProject_row p (PutProject_cache p s).

(** [GetProject] through the read-through cache: the answer and whether the
    answer is then cached. The load reads the row, the store follows. *)
Definition load_project (s : StoreState) (id : string) : option Project :=
  pr_data <$> row pr_id id (projects s).

Definition cache_project (id : string) (p : Project) (s : StoreState) : StoreState :=
  with_cache (<[id := p]> (project_cache s)) s.

Definition GetProject (id : string) (s : StoreState) : StoreState * option Project :=
  match project_cache s !! id with
  | Some p => (s, Some p)
  | None =>
      match load_project s id with
      | None => (s, None)
      | Some p => (cache_project id p s, Some p)
      end
  end.

(** The cache's time to live ran out. *)
Definition cache_expire (id : string) (s : StoreState) : StoreState :=
  with_cache (delete id (project_cache s)) s.

Definition ListProjects (s : StoreState) : list Project := pr_data <$> projects s.

Definition ListProjectsByOrg (s : StoreState) (org : string) : list Project :=
  pr_data <$> base.filter (fun r => pr_org r = org /\ org <> "") (projects s).

(** [DeleteProject]: the row, and the rows that reference it with ON DELETE CASCADE. *)
Definition DeleteProject (id : string) (s : StoreState) : StoreState :=
  let s := with_projects (delete_row pr_id id (projects s)) s in
  let s := with_replicas (base.filter (fun vm => VM_ProjectID vm <> id) (replicas s)) s in
  let s := with_domains (base.filter (fun d => dr_project d <> id) (domains s)) s in
  with_deployments (base.filter (fun d => Dep_ProjectID (dp_data d) <> id) (deployments s))
    (next_revision s) s.

(** [SetProjectOrg] updates the column only. *)
Definition SetProjectOrg (id org : string) (s : StoreState) : StoreState :=
  with_projects ((fun r => if pr_id r ==? id then mkProjectRow (pr_data r) org else r) <$> projects s) s.

(** ** Domains *)

Definition dr_key (d : DomainRow) : string := Dom_Domain (dr_data d).

Definition AddDomain (projectID : string) (d : Domain) (s : StoreState) : StoreState :=
  if project_ref s projectID
  then with_domains (upsert dr_key (mkDomainRow projectID (Dom_set_VMID "" d)) (domains s)) s
  else s.

Definition Store_ListDomains (s : StoreState) (projectID : string) : list Domain :=
  dr_data <$> base.filter (fun d => dr_project d = projectID /\ projectID <> "") (domains s).

Definition RemoveDomain (projectID domain : string) (s : StoreState) : StoreState * bool :=
  let keep := base.filter (fun d => ~ (dr_key d = domain /\ dr_project d = projectID)) (domains s) in
  (with_domains keep s, negb (List.length keep =? List.length (domains s))%nat).

(** ** Deployments *)

(** The CHECK on [build_status] (0005, line 40), the NOT NULL columns that an
    empty Go string is written to as NULL (0016, lines 3-5), and the references of
    [rollback_to] to a deployment (0003, line 120) and of a new row's [project_id]
    to a project (0003, line 116). *)
Definition build_statuses : list string :=
  ["pending"; "building"; "queued"; "ready"; "failed"; "preview"; "live"].

Definition dp_id (r : DepRow) : string := Dep_ID (dp_data r).

Inductive StoreErr := CheckViolation | NotNullViolation | ForeignKeyViolation.

Definition deployment_check (s : StoreState) (d : Deployment) : option StoreErr :=
  if (Dep_ProjectID d ==? "") || (Dep_VersionLabel d ==? "") || (Dep_GuestBase d ==? "")
     || (Dep_Environment d ==? "") then Some NotNullViolation
  else if negb (bool_decide (Dep_BuildStatus d ∈ build_statuses)) then Some CheckViolation
  else if (Dep_RollbackTo d !=? "") && negb (existsb (fun r => dp_id r ==? Dep_RollbackTo d) (deployments s))
  then Some ForeignKeyViolation
  else None.

(** The weight normalisation [CreateDeployment] does in place on its argument. *)
Definition normalise_weight (d : Deployment) : Deployment :=
  let d := if (Dep_RouteWeight d =? 0) && negb (Dep_RolloutPercent d =? 0)
           then Dep_set_RouteWeight (Dep_RolloutPercent d) d else d in
  if Dep_RolloutPercent d =? 0 then Dep_set_RolloutPercent (Dep_RouteWeight d) d else d.

(** The row after a conflict on [id]: [project_id], [guest_base], [revision] and
    [created_at] keep their old values. *)
Definition merge_dep (old new : Deployment) : Deployment :=
  Dep_set_ProjectID (Dep_ProjectID old) (Dep_set_GuestBase (Dep_GuestBase old) new).

(** The columns [ListDeployments] does not read come back as zero values. *)
Definition columns (d : Deployment) : Deployment := Dep_set_Revision 0 d.

Definition CreateDeployment (d : Deployment) (s : StoreState)
    : StoreState * result StoreErr unit :=
  let d := normalise_weight d in
  match deployment_check s d with
  | Some e => (s, Err e)
  | None =>
      match row dp_id (Dep_ID d) (deployments s) with
      | Some old =>
          (with_deployments
             (upsert dp_id (mkDepRow (dp_revision old) (columns (merge_dep (dp_data old) d))) (deployments s))
             (next_revision s) s, Ok tt)
      | None =>
          if project_ref s (Dep_ProjectID d)
          then (with_deployments
                  (upsert dp_id (mkDepRow (next_revision s) (columns d)) (deployments s))
                  (next_revision s + 1) s, Ok tt)
          else (s, Err ForeignKeyViolation)
      end
  end.

Definition rev_ge (a b : DepRow) : Prop := dp_revision b <= dp_revision a.

#[export] Instance rev_ge_dec a b : Decision (rev_ge a b).
Proof. unfold rev_ge. apply _. Defined.

(** A zero route weight reads as the rollout percentage. *)
Definition read_weight (d : Deployment) : Deployment :=
  if Dep_RouteWeight d =? 0 then Dep_set_RouteWeight (Dep_RolloutPercent d) d else d.

Definition Store_ListDeployments (s : StoreState) (projectID : string) : list Deployment :=
  if projectID ==? "" then []
  else (fun r => read_weight (dp_data r)) <$>
         merge_sort rev_ge (base.filter (fun r => Dep_ProjectID (dp_data r) = projectID) (deployments s)).

Definition GetDeployment (s : StoreState) (projectID id : string) : option Deployment :=
  find_first (fun d => Dep_ID d ==? id) (Store_ListDeployments s projectID).

(** [DeleteDeployment]; rows that roll back to it lose the reference (ON DELETE SET
    NULL, 0003, line 120). *)
Definition DeleteDeployment (projectID id : string) (s : StoreState) : StoreState :=
  let hit r := bool_decide (Dep_ProjectID (dp_data r) = projectID) && bool_decide (dp_id r = id) in
  let unlink r := if existsb hit (deployments s) && (Dep_RollbackTo (dp_data r) ==? id)
                  then mkDepRow (dp_revision r) (Dep_set_RollbackTo "" (dp_data r)) else r in
  with_deployments (unlink <$> base.filter (fun r => hit r = false) (deployments s)) (next_revision s) s.

Definition AllChecksPassed (d : Deployment) : bool :=
  match Dep_Checks d with
  | [] => true
  | cs => forallb (fun c => Chk_Status c ==? "passed") cs
  end.

(** ** Servers *)

(** [PutServer] writes name, address and status; the live fields belong to
    [ApplyHeartbeat]. *)
Definition server_cols (old : option Server) (srv : Server) : Server :=
  match old with
  | Some o => Srv_set_Name (Srv_Name srv) (Srv_set_Address (Srv_Address srv) (Srv_set_Status (Srv_Status srv) o))
  | None => Srv_set_ID (Srv_ID srv) (Srv_set_Name (Srv_Name srv)
              (Srv_set_Address (Srv_Address srv) (Srv_set_Status (Srv_Status srv) Srv_zero)))
  end.

(** The UNIQUE on [hostname] (0003, line 201). *)
Definition hostname_taken (s : StoreState) (srv : Server) : bool :=
  existsb (fun r => (Srv_ID r !=? Srv_ID srv) && (Srv_Name r ==? Srv_Name srv)) (servers s).

Definition PutServer (srv : Server) (s : StoreState) : StoreState :=
  if hostname_taken s srv then s
  else with_servers (upsert Srv_ID (server_cols (row Srv_ID (Srv_ID srv) (servers s)) srv) (servers s)) s.

Definition GetServer (s : StoreState) (id : string) : option Server := row Srv_ID id (servers s).

Definition ListServers (s : StoreState) : list Server := servers s.

(** [ApplyHeartbeat]: the counters are INT columns, a value outside 32 bits is
    refused by the driver and the heartbeat reported as of an unknown server. *)
Definition int4 (n : Z) : bool := (-(2 ^ 31) <=? n) && (n <? 2 ^ 31).

Definition heartbeat_fits (h : ServerHeartbeat) : bool :=
  int4 (HB_VCPUs h) && int4 (HB_MemMiB h) && int4 (HB_Projects h) && int4 (HB_VMs h).

Definition heartbeat_cols (h : ServerHeartbeat) (now : Z) (srv : Server) : Server :=
  {| Srv_ID := Srv_ID srv; Srv_Name := Srv_Name srv; Srv_Address := HB_Address h; Srv_Status := HB_Status h;
     Srv_VCPUs := HB_VCPUs h; Srv_MemMiB := HB_MemMiB h; Srv_OS := HB_OS h; Srv_Arch := HB_Arch h;
     Srv_Version := HB_Version h; Srv_Projects := HB_Projects h; Srv_VMs := HB_VMs h; Srv_LastSeen := now;
     Srv_CreatedAt := Srv_CreatedAt srv |}.

Definition ApplyHeartbeat (h : ServerHeartbeat) (now : Z) (s : StoreState) : StoreState * bool :=
  match row Srv_ID (HB_ID h) (servers s) with
  | Some srv =>
      if heartbeat_fits h
      then (with_servers (upsert Srv_ID (heartbeat_cols h now srv) (servers s)) s, true)
      else (s, false)
  | None => (s, false)
  end.

Definition DeleteServer (id : string) (s : StoreState) : StoreState * bool :=
  (with_servers (delete_row Srv_ID id (servers s)) s,
   match row Srv_ID id (servers s) with Some _ => true | None => false end).

(** ** Builds, firewall rules *)

Definition GetBuild (s : StoreState) (id : string) : option Build := row Bld_ID id (builds s).

Definition prio_le_dec (a b : FirewallRule) : Decision (prio_le a b) :=
  Z_le_dec (FR_Priority a) (FR_Priority b).
#[export] Existing Instance prio_le_dec.

Definition Store_ListFirewallRules (s : StoreState) (projectID : string) : list (option FirewallRule) :=
  Some <$> merge_sort prio_le
    (base.filter (fun r => FR_ProjectID r = projectID /\ projectID <> "") (firewall_rules s)).

(** ** MicroVM truth, events, usage, traffic *)

Definition UpsertMicroVM (id state : string) (s : StoreState) : StoreState :=
  with_micro_vms (<[id := state]> (micro_vms s)) s.
Definition SetMicroVMState (id state : string) (s : StoreState) : StoreState :=
  match micro_vms s !! id with
  | Some _ => with_micro_vms (<[id := state]> (micro_vms s)) s
  | None => s
  end.
Definition DeleteMicroVM (id : string) (s : StoreState) : StoreState :=
  with_micro_vms (delete id (micro_vms s)) s.

Definition AppendEvent (e : Event) (s : StoreState) : StoreState :=
  with_events (events s ++ [e])%list s.

(** [RecordUsage] with a non-empty idempotency key: the unique index keeps the first. *)
Definition RecordUsage (projectID meter key : string) (s : StoreState) : StoreState :=
  if (projectID ==? "") || (meter ==? "") then s else with_usage ({[key]} ∪ usage_keys s) s.

Definition trafficRingSize : Z := 200.

Definition Store_AddTraffic (s : StoreState) (vmID : string) (e : TrafficEntry) : StoreState :=
  with_traffic (perVM (TrafficRing_Add (mkRing (traffic s) trafficRingSize) vmID e)) s.

Definition ListTraffic (s : StoreState) (vmID : string) (limit : Z) : list TrafficEntry :=
  TrafficRing_List (mkRing (traffic s) trafficRingSize) vmID limit.

Definition ClearTraffic (s : StoreState) : StoreState := with_traffic ∅ s.

(** The gateway's interface, implemented by the store. *)
#[export] Instance StoreState_gateway : GatewayStore StoreState := {|
  GetVM := Store_GetVM;
  ListVMs := Store_ListVMs;
  ListDomains := Store_ListDomains;
  ListFirewallRules := Store_ListFirewallRules;
  AddTraffic := Store_AddTraffic;
  ListDeployments := Some Store_ListDeployments
|}.

(** ** Theorems: replicas *)

(** Identifiers are unique, no two replicas of a project share an index, and
    every row satisfies the schema's CHECKs and references a stored project or none. *)
Record replicas_inv (s : StoreState) : Prop := {
  ri_ids : NoDup (VM_ID <$> replicas s);
  ri_slots : forall a b, a ∈ replicas s -> b ∈ replicas s -> VM_ProjectID a <> "" ->
    VM_ProjectID a = VM_ProjectID b -> VM_ReplicaIndex a = VM_ReplicaIndex b -> VM_ID a = VM_ID b;
  ri_checks : forall a, a ∈ replicas s ->
    VM_State a ∈ replica_states /\ VM_HealthStatus a ∈ replica_healths;
  ri_refs : forall a, a ∈ replicas s -> project_ref s (VM_ProjectID a) = true
}.

Lemma slot_free s vm r :
  slot_taken s vm = false -> r ∈ replicas s -> VM_ProjectID r <> "" ->
  VM_ProjectID r = VM_ProjectID vm -> VM_ReplicaIndex r = VM_ReplicaIndex vm -> VM_ID r = VM_ID vm.
Proof.
  unfold slot_taken. intros Hf Hr Hp Hpe Hie. destruct (decide (VM_ID r = VM_ID vm)) as [|Hne]; [done|].
  exfalso. assert (Hex : existsb (fun r => (VM_ID r !=? VM_ID vm) && (VM_ProjectID r !=? "") &&
      (VM_ProjectID r ==? VM_ProjectID vm) && (VM_ReplicaIndex r =? VM_ReplicaIndex vm)) (replicas s) = true).
  { apply existsb_exists. exists r. split; [by apply list_elem_of_In|].
    rewrite !bool_decide_eq_false_2, bool_decide_eq_true_2 by done. cbn. by apply Z.eqb_eq. }
  by rewrite Hf in Hex.
Qed.

(** Rewriting a stored replica in its own slot passes the unique index. *)
Lemma replica_ok_update s vm vm' :
  replicas_inv s -> vm ∈ replicas s ->
  VM_ID vm' = VM_ID vm -> VM_ProjectID vm' = VM_ProjectID vm ->
  VM_ReplicaIndex vm' = VM_ReplicaIndex vm ->
  VM_State vm' ∈ replica_states -> VM_HealthStatus vm' ∈ replica_healths ->
  replica_ok s vm' = true.
Proof.
  intros Hinv Hin Hid Hp Hi Hs Hh. unfold replica_ok.
  rewrite !bool_decide_eq_true_2, Hp, (ri_refs _ Hinv vm Hin), andb_true_r by done.
  apply negb_true_iff, not_true_is_false. intros Hex.
  apply existsb_exists in Hex as (r & Hr & Hb). apply list_elem_of_In in Hr.
  rewrite Hid, Hp, Hi in Hb. bools.
  assert (VM_ID r = VM_ID vm) by (by apply (ri_slots _ Hinv)). done.
Qed.

Lemma PutVM_inv s vm : replicas_inv s -> replicas_inv (PutVM vm s).
Proof.
  intros [Hid Hsl Hck Hrf]. unfold PutVM. destruct (replica_ok s vm) eqn:E; [|by split].
  unfold replica_ok in E. bools. split; cbn.
  - by apply upsert_nodup.
  - intros a b Ha Hb Hp Hpe Hie.
    apply elem_of_upsert in Ha as [->|Ha], Hb as [->|Hb]; try done.
    + symmetry. apply (slot_free s); try done; congruence.
    + by apply (slot_free s).
    + by apply Hsl.
  - intros a [->|Ha]%elem_of_upsert; [done|by apply Hck].
  - intros a [->|Ha]%elem_of_upsert; [done|by apply Hrf].
Qed.

Lemma NoDup_fmap_filter {A} (key : A -> string) (P : A -> Prop) `{forall x, Decision (P x)} l :
  NoDup (key <$> l) -> NoDup (key <$> base.filter P l).
Proof.
  induction l as [|x l IH]; [done|]. rewrite fmap_cons, NoDup_cons. intros [Hx Hn].
  rewrite filter_cons. case_decide; [|by apply IH].
  rewrite fmap_cons. apply NoDup_cons. split; [|by apply IH].
  intros (y & Ey & Hy)%list_elem_of_fmap. apply Hx, list_elem_of_fmap. exists y.
  split; [done|]. by apply list_elem_of_filter in Hy as [_ ?].
Qed.

(** Deleting a project takes its replicas with it. *)
Lemma DeleteProject_inv s id : replicas_inv s -> replicas_inv (DeleteProject id s).
Proof.
  intros [Hid Hsl Hck Hrf]. unfold DeleteProject. split; cbn [replicas projects with_replicas with_domains
    with_projects with_deployments].
  - by apply NoDup_fmap_filter.
  - intros a b [_ Ha]%list_elem_of_filter [_ Hb]%list_elem_of_filter. by apply Hsl.
  - intros a [_ Ha]%list_elem_of_filter. by apply Hck.
  - intros a [Hne Ha]%list_elem_of_filter. specialize (Hrf a Ha). unfold project_ref in *. cbn.
    apply orb_true_iff in Hrf as [->|Hex]; [done|]. apply orb_true_iff. right.
    apply existsb_exists in Hex as (r & Hr & E). apply existsb_exists. exists r. split; [|done].
    apply list_elem_of_In. unfold delete_row. apply list_elem_of_filter. bools.
    split; [congruence|by apply list_elem_of_In].
Qed.

Lemma GetVM_PutVM_ne s vm id :
  id <> VM_ID vm -> Store_GetVM (PutVM vm s) id = Store_GetVM s id.
Proof.
  intros Hne. unfold PutVM, Store_GetVM. case_goal; [|done]. by apply row_upsert_ne.
Qed.

(** [s'] is [s] with the replica [vm] replaced by [vm'] in its own slot. *)
Record replica_updated (vm : VM) (s : StoreState) (vm' : VM) (s' : StoreState) : Prop := {
  ru_inv : replicas_inv s';
  ru_get : Store_GetVM s' (VM_ID vm) = Some vm';
  ru_others : forall id, id <> VM_ID vm -> Store_GetVM s' id = Store_GetVM s id;
  ru_slot : VM_ID vm' = VM_ID vm /\ VM_ProjectID vm' = VM_ProjectID vm /\
            VM_ReplicaIndex vm' = VM_ReplicaIndex vm
}.

Lemma GetVM_In s id vm : Store_GetVM s id = Some vm -> vm ∈ replicas s /\ VM_ID vm = id.
Proof. intros [Hin Hk]%find_first_In. by bools. Qed.

Lemma replica_updated_refl s vm :
  replicas_inv s -> Store_GetVM s (VM_ID vm) = Some vm -> replica_updated vm s vm s.
Proof. by split. Qed.

(** Writing the replica once more, with state and health the schema allows. *)
Lemma replica_updated_Put vm s vm1 s1 vm2 :
  replica_updated vm s vm1 s1 ->
  VM_ID vm2 = VM_ID vm1 -> VM_ProjectID vm2 = VM_ProjectID vm1 ->
  VM_ReplicaIndex vm2 = VM_ReplicaIndex vm1 ->
  VM_State vm2 ∈ replica_states -> VM_HealthStatus vm2 ∈ replica_healths ->
  replica_updated vm s vm2 (PutVM vm2 s1).
Proof.
  intros [Hinv Hget Hoth (Hs1 & Hs2 & Hs3)] Hid Hp Hi Hst Hh.
  destruct (GetVM_In _ _ _ Hget) as [Hin _].
  assert (Hok : replica_ok s1 vm2 = true) by (by apply (replica_ok_update s1 vm1)).
  split.
  - by apply PutVM_inv.
  - unfold PutVM, Store_GetVM. rewrite Hok, <- Hs1, <- Hid. apply row_upsert_eq.
  - intros id Hne. rewrite GetVM_PutVM_ne by congruence. by apply Hoth.
  - by rewrite Hid, Hp, Hi.
Qed.

(** The tables the replica invariant is about. *)
Definition replica_rows (s : StoreState) : list VM * list ProjectRow := (replicas s, projects s).

(** Writes to other tables do not matter. *)
Lemma replica_updated_ext vm s vm1 s1 s2 :
  replica_rows s2 = replica_rows s1 -> replica_updated vm s vm1 s1 -> replica_updated vm s vm1 s2.
Proof.
  intros [= E Ep] [[H1 H2 H3 H4] Hget Hoth Hs].
  split; [split; unfold project_ref in *; rewrite ?E, ?Ep; done|..]; unfold Store_GetVM in *; rewrite ?E; done.
Qed.


(** ** Theorems: deployments *)

Lemma find_first_fmap {A B} (f : A -> B) (p : B -> bool) l :
  find_first p (f <$> l) = f <$> find_first (fun x => p (f x)) l.
Proof. induction l as [|x l IH]; [done|]. cbn. by destruct (p (f x)). Qed.

(** Where keys are unique, the search does not depend on the order of rows. *)
Lemma find_first_perm {A} (key : A -> string) k l l' :
  l ≡ₚ l' -> NoDup (key <$> l) ->
  find_first (fun x => key x ==? k) l = find_first (fun x => key x ==? k) l'.
Proof.
  intros Hp Hn.
  destruct (find_first _ l) as [x|] eqn:E, (find_first _ l') as [y|] eqn:E'; [|exfalso..|done].
  - apply find_first_In in E as [Hx Ex], E' as [Hy Ey]. rewrite <- Hp in Hy. bools.
    f_equal. apply list_elem_of_lookup in Hx as [i Hi], Hy as [j Hj].
    assert (i = j) as ->.
    { eapply NoDup_lookup; [exact Hn|..]; rewrite list_lookup_fmap;
        [rewrite Hi; reflexivity|rewrite Hj; cbn; congruence]. }
    congruence.
  - apply find_first_In in E as [Hx Ex]. rewrite Hp in Hx.
    rewrite find_first_None, Forall_forall in E'. apply E' in Hx. congruence.
  - apply find_first_In in E' as [Hx Ex]. rewrite <- Hp in Hx.
    rewrite find_first_None, Forall_forall in E. apply E in Hx. congruence.
Qed.

Lemma find_first_filter {A} (p : A -> bool) (P : A -> Prop) `{forall x, Decision (P x)} l x :
  find_first p l = Some x -> P x -> find_first p (base.filter P l) = Some x.
Proof.
  induction l as [|y l IH]; [done|]. cbn [find_first]. rewrite filter_cons.
  destruct (p y) eqn:Ep.
  - intros [= ->] HP. rewrite decide_True by done. cbn. by rewrite Ep.
  - intros E HP. case_decide; cbn; [rewrite Ep|]; by apply IH.
Qed.

(** The stored row of a deployment is what [GetDeployment] returns. *)
Lemma GetDeployment_row s r :
  NoDup (dp_id <$> deployments s) -> row dp_id (dp_id r) (deployments s) = Some r ->
  Dep_ProjectID (dp_data r) <> "" ->
  GetDeployment s (Dep_ProjectID (dp_data r)) (dp_id r) = Some (read_weight (dp_data r)).
Proof.
  intros Hn Hr Hp. unfold GetDeployment, Store_ListDeployments.
  rewrite bool_decide_eq_false_2 by done. rewrite find_first_fmap.
  assert (Hid : forall x, Dep_ID (read_weight (dp_data x)) = dp_id x).
  { intros x. unfold read_weight. by case_goal. }
  set (rows := base.filter _ _).
  assert (E : find_first (fun x => dp_id x ==? dp_id r) (merge_sort rev_ge rows) = Some r).
  { rewrite <- (find_first_perm dp_id _ rows).
    - unfold rows. by apply find_first_filter.
    - by rewrite merge_sort_Permutation.
    - by apply NoDup_fmap_filter. }
  replace (find_first (fun x => Dep_ID (read_weight (dp_data x)) ==? dp_id r) (merge_sort rev_ge rows))
    with (Some r); [done|].
  rewrite <- E. clear E. induction (merge_sort rev_ge rows) as [|x l IH]; [done|]. cbn. by rewrite Hid, IH.
Qed.

Lemma normalise_weight_id d :
  Dep_ID (normalise_weight d) = Dep_ID d /\ Dep_ProjectID (normalise_weight d) = Dep_ProjectID d.
Proof. unfold normalise_weight. by repeat case_goal. Qed.

(** What a deployment write keeps. A successful [CreateDeployment] reads back
    as the written deployment with its weights normalised, except that the
    revision is not stored, and that writing an existing id keeps the project and
    guest base of the first write; other deployments keep their rows. *)
Theorem CreateDeployment_readback s d s' :
  NoDup (dp_id <$> deployments s) ->
  CreateDeployment d s = (s', Ok tt) ->
  let d' := normalise_weight d in
  let kept := match row dp_id (Dep_ID d) (deployments s) with
              | Some old => merge_dep (dp_data old) d'
              | None => d'
              end in
  NoDup (dp_id <$> deployments s') /\
  (Dep_ProjectID kept <> "" ->
   GetDeployment s' (Dep_ProjectID kept) (Dep_ID d) = Some (read_weight (columns kept))) /\
  (forall id, id <> Dep_ID d -> row dp_id id (deployments s') = row dp_id id (deployments s)).
Proof.
  intros Hn E d' kept. unfold CreateDeployment in E. fold d' in E.
  destruct (normalise_weight_id d) as [Hid _].
  destruct (deployment_check s d'); [done|].
  fold d' in Hid. rewrite Hid in E.
  assert (Hr : exists rev n, s' = with_deployments (upsert dp_id (mkDepRow rev (columns kept)) (deployments s)) n s /\
                             dp_id (mkDepRow rev (columns kept)) = Dep_ID d).
  { unfold kept. destruct (row dp_id (Dep_ID d) (deployments s)) as [old|]; [|case_in E; [|done]];
      injection E as <-; eexists _, _; (split; [reflexivity|]); cbn; exact Hid. }
  destruct Hr as (rev & n & -> & Hkey). set (r := mkDepRow rev (columns kept)) in *. cbn.
  repeat split.
  - by apply upsert_nodup.
  - intros Hp. rewrite <- Hkey.
    apply (GetDeployment_row (with_deployments (upsert dp_id r (deployments s)) n s) r).
    + by apply upsert_nodup.
    + apply row_upsert_eq.
    + exact Hp.
  - intros id Hne. apply row_upsert_ne. by rewrite Hkey.
Qed.

(** ** Theorems: the project cache *)

(** Every cached project is the stored one. *)
Definition coherent (s : StoreState) : Prop :=
  forall id p, project_cache s !! id = Some p -> load_project s id = Some p.

(** The operations one goroutine performs, one after another. *)
Inductive ProjOp := OpPut (p : Project) | OpGet (id : string) | OpExpire (id : string).

Definition run_op (s : StoreState) (o : ProjOp) : StoreState :=
  match o with
  | OpPut p => PutProject p s
  | OpGet id => (GetProject id s).1
  | OpExpire id => cache_expire id s
  end.

Lemma PutProject_coherent p s : coherent s -> coherent (PutProject p s).
Proof.
  intros H id q. unfold PutProject, PutProject_row, PutProject_cache, load_project.
  destruct (project_ok _ p); cbn [projects with_projects project_cache with_cache];
    intros [Hne Hq]%lookup_delete_Some; apply H in Hq; unfold load_project in Hq; [|done]. by rewrite row_upsert_ne.
Qed.

Lemma GetProject_coherent id s : coherent s -> coherent (GetProject id s).1.
Proof.
  intros H. unfold GetProject. destruct (project_cache s !! id) eqn:E; [done|].
  destruct (load_project s id) as [p|] eqn:El; [|done].
  intros id' q. cbn. intros [[<- <-]|[_ Hq]]%lookup_insert_Some; [exact El|by apply H].
Qed.


(** Interleaved with a write the cache is not: a reader that loads between the
    two halves of [PutProject] caches the old row past the end of the write. *)
Definition proj_named (name : string) : Project := Proj_set_ID "p" (Proj_set_Name name Proj_zero).

Lemma cache_race_stale :
  let s0 := PutProject (proj_named "old") empty_store in
  let s1 := PutProject_cache (proj_named "new") s0 in
  let s2 := (GetProject "p" s1).1 in
  let s3 := PutProject_row (proj_named "new") s2 in
  Proj_Name <$> load_project s3 "p" = Some "new" /\ Proj_Name <$> (GetProject "p" s3).2 = Some "old".
Proof. vm_compute. split; reflexivity. Qed.

(** A deleted project stays readable until its cache entry expires. *)
Lemma cache_delete_stale :
  let s := (GetProject "p" (PutProject (proj_named "x") empty_store)).1 in
  (GetProject "p" (DeleteProject "p" s)).2 <> None /\ load_project (DeleteProject "p" s) "p" = None.
Proof. vm_compute. split; [discriminate|reflexivity]. Qed.

(** ** What the gateway sees of domains *)

(** The gateway asks for the domains of a VM id, the store answers by
    project id. As long as no project with a domain has the id of a VM, no host
    name is ever routed by its domain record. *)
Theorem domain_routing_never_matches (s : StoreState) host :
  (forall vm d, vm ∈ replicas s -> d ∈ domains s -> dr_project d <> VM_ID vm) ->
  domain_match s host = None.
Proof.
  intros Hdis. unfold domain_match. apply find_first_None, Forall_forall. intros vm Hvm.
  apply andb_false_iff. right. apply not_true_is_false. intros Hex.
  apply existsb_exists in Hex as (d & Hd & _). apply list_elem_of_In in Hd. cbn in Hd.
  unfold Store_ListDomains in Hd. apply list_elem_of_fmap in Hd as (r & -> & Hr).
  apply list_elem_of_filter in Hr as [[Hp _] Hr]. by apply (Hdis vm r).
Qed.

(** ** Witnesses *)

Definition vm_row : VM := VM_set_ReplicaIndex 1 (vm_up "v1" "p" "10.42.0.11").

(** A store with the project ["p"]. *)
Definition store_p : StoreState := PutProject (proj_named "shop") empty_store.

Lemma no_replicas_inv s : replicas s = [] -> replicas_inv s.
Proof. intros E. split; rewrite E; [constructor|by intros ? ? ?%elem_of_nil|by intros ? ?%elem_of_nil..]. Qed.


Definition dep1 : Deployment :=
  Dep_set_ID "d1" (Dep_set_ProjectID "p" (Dep_set_VersionLabel "v1" (Dep_set_GuestBase "alpine"
    (Dep_set_Environment "preview" (Dep_set_BuildStatus "ready" (Dep_set_RolloutPercent 25 Dep_zero)))))).

Lemma CreateDeployment_readback_witness :
  GetDeployment (CreateDeployment dep1 store_p).1 "p" "d1" =
  Some (Dep_set_RouteWeight 25 dep1).
Proof.
  destruct (CreateDeployment_readback store_p dep1 (CreateDeployment dep1 store_p).1)
    as (_ & H & _); [constructor|vm_compute; reflexivity|].
  apply H. discriminate.
Defined.

(** The controller's own status values are outside the CHECK. *)
Lemma completed_is_refused :
  (CreateDeployment (Dep_set_BuildStatus "completed" dep1) store_p).2 = Err CheckViolation.
Proof. vm_compute. reflexivity. Qed.


Definition store_dom : StoreState :=
  AddDomain "p" (Dom_set_Domain "app.example.com" Dom_zero) (PutVM vm_row store_p).

Lemma domain_routing_never_matches_witness :
  Store_ListDomains store_dom "p" <> [] /\ domain_match store_dom "app.example.com" = None.
Proof.
  split; [vm_compute; discriminate|].
  apply (domain_routing_never_matches store_dom "app.example.com").
  intros vm d Hvm Hd.
  assert (E1 : replicas store_dom = [vm_row]) by (vm_compute; reflexivity).
  assert (E2 : domains store_dom = [mkDomainRow "p" (Dom_set_Domain "app.example.com" Dom_zero)])
    by (vm_compute; reflexivity).
  rewrite E1 in Hvm. rewrite E2 in Hd.
  apply list_elem_of_singleton in Hvm as ->. apply list_elem_of_singleton in Hd as ->. discriminate.
Defined.

Close Scope Z_scope.
Close Scope string_scope.
