(* ===== verification/Health.v ===== *)
(** * Health probes ([internal/health/health.go])

    The probe's target and verdict, and one round of the watch loop. The HTTP
    and TCP stacks are parameters: the status code a GET returns, and whether a
    dial succeeds. *)
From S2P Require Import Prelude GoStrings GoNum Types Store.
From Stdlib Require Import String.

Open Scope string_scope.
Open Scope Z_scope.

Record HealthSpec := mkHealthSpec {
  HS_Type : string; HS_Path : string; HS_Port : Z; HS_IntervalSec : Z
}.

Section Probe.
Context (http_get : string -> option Z) (tcp_dial : string -> bool).

(** The port probed: the declared one, else the first container port, else 80. *)
Definition probe_port (vm : VM) (spec : HealthSpec) : Z :=
  let port := HS_Port spec in
  let port := if port =? 0
              then match VM_Ports vm with p :: _ => Port_ContainerPort p | [] => port end
              else port in
  if port =? 0 then 80 else port.

Definition Probe (vm : VM) (spec : HealthSpec) : bool :=
  let host := VM_IPAddress vm in
  if host ==? "" then false
  else
    let port := probe_port vm spec in
    if (HS_Type spec ==? "http") || (HS_Path spec !=? "") then
      let path := if HS_Path spec ==? "" then "/" else HS_Path spec in
      match http_get ("http://" ++ host ++ ":" ++ Itoa port ++ path) with
      | None => false
      | Some code => (200 <=? code) && (code <? 400)
      end
    else tcp_dial (host ++ ":" ++ Itoa port).

(** [setHealth]: write only on a change. *)
Definition setHealth (vm : VM) (status : string) (s : StoreState) : StoreState :=
  if VM_HealthStatus vm ==? status then s else PutVM (VM_set_HealthStatus status vm) s.

(** [probeOnce]: the new store and whether the replace hook is called. *)
Definition probeOnce (vmID : string) (spec : HealthSpec) (s : StoreState) : StoreState * bool :=
  match Store_GetVM s vmID with
  | None => (s, false)
  | Some vm =>
      if VM_State vm !=? StateRunning then (s, false)
      else if Probe vm spec then (setHealth vm HealthHealthy s, false)
      else (setHealth vm HealthUnhealthy s, true)
  end.

(** One probe changes nothing but the health of the probed VM, which then tells
    the probe's verdict. *)
Lemma probeOnce_health vmID spec s s' b vm :
  probeOnce vmID spec s = (s', b) -> replicas_inv s -> Store_GetVM s vmID = Some vm ->
  VM_State vm = StateRunning ->
  b = negb (Probe vm spec) /\
  Store_GetVM s' vmID = Some (VM_set_HealthStatus (if b then HealthUnhealthy else HealthHealthy) vm).
Proof.
  unfold probeOnce. intros E Hinv Hvm Hrun. rewrite Hvm, Hrun in E. cbn [negb] in E.
  rewrite bool_decide_eq_true_2 in E by done. cbn [negb] in E.
  assert (Hid : VM_ID vm = vmID).
  { apply find_first_In in Hvm as [_ Hk]. by bools. }
  assert (Hset : forall st, st ∈ replica_healths ->
    Store_GetVM (setHealth vm st s) vmID = Some (VM_set_HealthStatus st vm)).
  { intros st Hst. unfold setHealth. case_goal; bools.
    - rewrite Hvm. f_equal. subst st. by destruct vm.
    - assert (Hok : replica_ok s (VM_set_HealthStatus st vm) = true).
      { apply find_first_In in Hvm as [Hin _].
        by apply (replica_ok_update s vm); [..|apply (ri_checks _ Hinv _ Hin)|]. }
      unfold PutVM. rewrite Hok. rewrite <- Hid. apply (row_upsert_eq VM_ID (VM_set_HealthStatus st vm)). }
  destruct (Probe vm spec); injection E as <- <-; (split; [done|]); apply Hset; vm_compute;
    [left|right; left].
Qed.

End Probe.

Close Scope Z_scope.
Close Scope string_scope.
