(* ===== verification/Controllers.v ===== *)
(** * Reconciliation controllers ([internal/controller])

    The node, deployment and replica controllers as functions on the store
    state, and the manager's pass over all objects. The Firecracker runtime is the
    class [Runtime]; the SSE fan-out of events is not part of the state. *)
From S2P Require Import Prelude GoStrings GoNum GoNet Types Gateway NetMgr Store Health.
From Stdlib Require Import String.

Open Scope string_scope.
Open Scope Z_scope.

(** ** The manager *)

(** [reconcileAll]: every listed object is reconciled, a failure never stops the
    others. The list is read once, before the first object. *)
Definition reconcileAll {S Obj Err : Type} (List : S -> list Obj)
    (Reconcile : Obj -> S -> S * result Err unit) (s : S) : S :=
  fold_left (fun s o => (Reconcile o s).1) (List s) s.

(** ** Nodes *)

(** [serverHasCapability]. *)
Definition serverHasCapability (cap : string) : bool :=
  bool_decide (cap ∈ ["kvm"; "firecracker"; "buildkit"; "tap"; "storage"]).

Definition second : Z := 1000000000.

(** Advance when a capability is there, else mark the node unhealthy. *)
Definition gate (cap next : string) (srv : Server) : Server :=
  if negb (serverHasCapability cap) then Srv_set_Status "Unhealthy" srv
  else Srv_set_Status next srv.

(** The status machine of [NodeController.Reconcile]: the server handed to
    [updateStatus]. The zero time is 0. *)
Definition node_step (now : Z) (srv : Server) : Server :=
  let st := Srv_Status srv in
  if (st ==? "") || (st ==? "Register") then Srv_set_Status "AgentConnected" srv
  else if st ==? "AgentConnected" then Srv_set_LastSeen now (Srv_set_Status "HardwareDiscovered" srv)
  else if st ==? "HardwareDiscovered" then gate "kvm" "KVMVerified" srv
  else if st ==? "KVMVerified" then gate "firecracker" "FirecrackerReady" srv
  else if st ==? "FirecrackerReady" then gate "buildkit" "BuildKitReady" srv
  else if st ==? "BuildKitReady" then gate "tap" "NetworkReady" srv
  else if st ==? "NetworkReady" then gate "storage" "StorageReady" srv
  else if st ==? "StorageReady" then Srv_set_Status "CapabilitiesRegistered" srv
  else if st ==? "CapabilitiesRegistered" then Srv_set_Status StatusReady srv
  else if bool_decide (st ∈ ["Cordoned"; "Draining"; "Maintenance"]) then srv
  else if st ==? StatusReady then
    if negb (Srv_LastSeen srv =? 0) && (60 * second <? now - Srv_LastSeen srv)
    then Srv_set_Status "Unhealthy" srv
    else Srv_set_LastSeen now srv
  else if st ==? "Unhealthy" then
    if serverHasCapability "kvm" && serverHasCapability "firecracker"
    then Srv_set_Status "Register" srv else srv
  else Srv_set_Status "AgentConnected" srv.

Definition Node_Reconcile (now : Z) (srv : Server) (s : StoreState) : StoreState * result unit unit :=
  (PutServer (node_step now srv) s, Ok tt).

(** One cycle of the node controller. *)
Definition node_cycle (now : Z) (s : StoreState) : StoreState :=
  reconcileAll ListServers (Node_Reconcile now) s.

(** ** Deployments *)

Definition phase (d : Deployment) : string :=
  let b := Dep_BuildStatus d in
  if bool_decide (b ∈ [""; "pending"; "building"]) then "building"
  else if b ==? "failed" then "failed"
  else if bool_decide (b ∈ ["completed"; "success"]) then
    if (0 <? Dep_RouteWeight d) && (Dep_RouteWeight d <? 100) then "rolling"
    else if Dep_IsProduction d && (Dep_RouteWeight d =? 100) then "promoting"
    else "ready"
  else "building".

(** [CreateDeployment] normalises its argument in place: the deployment as it
    is in memory afterwards comes back too. *)
Definition DepStep := (Deployment * StoreState * result StoreErr unit)%type.

Definition updateDeployment (d : Deployment) (s : StoreState) : DepStep :=
  let '(s, r) := CreateDeployment d s in (normalise_weight d, s, r).

Definition reconcileBuilding (d : Deployment) (s : StoreState) : DepStep :=
  match GetBuild s (Dep_ID d) with
  | None => (d, s, Ok tt)
  | Some build =>
      if bool_decide (Bld_BuildStatus build ∈ ["completed"; "success"]) then
        let d := Dep_set_BuildStatus "completed" d in
        let d := if Bld_Image build !=? "" then Dep_set_ImageDigest (Bld_Image build) d else d in
        updateDeployment d s
      else if Bld_BuildStatus build ==? "failed" then
        updateDeployment (Dep_set_BuildStatus "failed" d) s
      else (d, s, Ok tt)
  end.

Definition vmIDsByDeployment (vms : list VM) (deploymentID : string) : list string :=
  VM_ID <$> base.filter (fun vm => VM_DeploymentID vm = deploymentID) vms.

Definition copyCount (d : Deployment) : Z :=
  match Dep_VMIDs d with
  | [] => 1
  | l => Z.of_nat (List.length l)
  end.

Definition reconcilePromoting (d : Deployment) (s : StoreState) : DepStep :=
  updateDeployment (Dep_set_RolloutPercent 100 (Dep_set_RouteWeight 100 d)) s.

Definition running_count (s : StoreState) (d : Deployment) : Z :=
  Z.of_nat (List.length (base.filter (fun vm => VM_DeploymentID vm = Dep_ID d /\ VM_State vm = StateRunning)
                           (ListReplicas s (Dep_ProjectID d)))).

Definition desired_count (p : option Project) (d : Deployment) : Z :=
  match p with
  | Some proj => if 0 <? Proj_ReplicasDesired proj then Proj_ReplicasDesired proj else copyCount d
  | None => copyCount d
  end.

Definition reconcileRolling (d : Deployment) (s : StoreState) : DepStep :=
  let running := running_count s d in
  let '(s, proj) := GetProject (Dep_ProjectID d) s in
  let desired := desired_count proj d in
  let d := Dep_set_VMIDs (vmIDsByDeployment (ListReplicas s (Dep_ProjectID d)) (Dep_ID d)) d in
  if desired <=? running then reconcilePromoting d s
  else
    let weight := if 0 <? desired then Z.quot (running * 100) desired else 0 in
    if negb (weight =? Dep_RouteWeight d)
    then updateDeployment (Dep_set_RolloutPercent weight (Dep_set_RouteWeight weight d)) s
    else updateDeployment d s.

Definition reconcileFailedDeployment (d : Deployment) (s : StoreState) : DepStep :=
  updateDeployment (Dep_set_BuildStatus "failed" d) s.

(** The fields a rollback takes over from its target. *)
Definition rolled_back (target d : Deployment) : Deployment :=
  let d := Dep_set_ImageDigest (Dep_ImageDigest target) d in
  let d := Dep_set_GuestBase (Dep_GuestBase target) d in
  let d := Dep_set_Environment (Dep_Environment target) d in
  let d := Dep_set_RouteWeight (Dep_RouteWeight target) d in
  let d := Dep_set_BuildStatus "completed" d in
  let d := Dep_set_RollbackTo "" d in
  Dep_set_Revision (Dep_Revision d + 1) d.

Definition reconcileRollback (d : Deployment) (s : StoreState) : DepStep :=
  match GetDeployment s (Dep_ProjectID d) (Dep_RollbackTo d) with
  | None => updateDeployment (Dep_set_RollbackTo "" d) s
  | Some target => updateDeployment (rolled_back target d) s
  end.

Definition Deployment_Reconcile (d : Deployment) (s : StoreState) : DepStep :=
  if Dep_RollbackTo d !=? "" then reconcileRollback d s
  else
    let p := phase d in
    if p ==? "building" then reconcileBuilding d s
    else if p ==? "rolling" then reconcileRolling d s
    else if p ==? "promoting" then reconcilePromoting d s
    else if p ==? "failed" then reconcileFailedDeployment d s
    else (d, s, Ok tt).

Definition Deployment_List (s : StoreState) : list Deployment :=
  mjoin ((fun p => Store_ListDeployments s (Proj_ID p)) <$> ListProjects s).

(** ** Replicas *)

Class Runtime (R : Type) := {
  rt_NetSpec : R -> VM -> R * result string BootSpec;
  rt_Boot : R -> VM -> BootSpec -> R * result string unit;
  rt_Stop : R -> VM -> R * result string unit;
  rt_Restore : R -> VM -> string -> string -> R * result string unit
}.

Section Replica.
Context {R : Type} `{Runtime R}.
Context (http_get : string -> option Z) (tcp_dial : string -> bool).

Definition emit (vm : VM) (name : string) (s : StoreState) : StoreState :=
  AppendEvent (mkEvent name (VM_ProjectID vm) ("vm/" ++ VM_ID vm) (VM_State vm)) s.

(** The failure branches: state, message, store, event. *)
Definition fail_vm (msg : string) (vm : VM) (s : StoreState) : StoreState :=
  let vm := VM_set_Error msg (VM_set_State StateFailed vm) in
  emit vm "vm.failed" (PutVM vm s).

Definition reconcilePending (vm : VM) (r : R) (s : StoreState) : R * StoreState :=
  let s := emit vm "vm.create.started" s in
  match rt_NetSpec r vm with
  | (r, Err e) => (r, fail_vm ("network allocation failed: " ++ e) vm s)
  | (r, Ok spec) =>
      let vm := VM_set_HealthStatus HealthChecking (VM_set_State StateBooting vm) in
      let s := PutVM vm s in
      match rt_Boot r vm spec with
      | (r, Err e) => (r, fail_vm ("boot failed: " ++ e) vm s)
      | (r, Ok _) =>
          let vm := VM_set_IPAddress (CIDR spec) (VM_set_State StateRunning vm) in
          let s := PutVM vm s in
          let s := UpsertMicroVM (VM_ID vm) StateRunning s in
          let s := emit vm "vm.created" s in
          let s := RecordUsage (VM_ProjectID vm) "vcpu.count" ("boot:" ++ VM_ID vm) s in
          (r, RecordUsage (VM_ProjectID vm) "mem.mib" ("boot-mem:" ++ VM_ID vm) s)
      end
  end.

Definition reconcileBooting (vm : VM) (s : StoreState) : StoreState :=
  if VM_IPAddress vm !=? "" then PutVM (VM_set_State StateRunning vm) s else s.

Definition reconcileRunning (vm : VM) (s : StoreState) : StoreState :=
  match VM_Healthcheck vm with
  | None => s
  | Some hc =>
      let spec := mkHealthSpec (HC_Type hc) (HC_Path hc) (HC_Port hc) (HC_IntervalSec hc) in
      if negb (Probe http_get tcp_dial vm spec) then
        let vm := VM_set_Error "healthcheck failed"
                    (VM_set_HealthStatus HealthUnhealthy (VM_set_State StateFailed vm)) in
        emit vm "vm.failed" (SetMicroVMState (VM_ID vm) StateFailed (PutVM vm s))
      else if VM_HealthStatus vm !=? HealthHealthy
      then PutVM (VM_set_HealthStatus HealthHealthy vm) s
      else s
  end.

Definition reconcileStopping (vm : VM) (r : R) (s : StoreState) : R * StoreState :=
  match rt_Stop r vm with
  | (r, Err e) => (r, PutVM (VM_set_Error ("stop failed: " ++ e) vm) s)
  | (r, Ok _) =>
      let vm := VM_set_State StateStopped vm in
      (r, PutVM vm (SetMicroVMState (VM_ID vm) StateStopped s))
  end.

Definition reconcileFailed (vm : VM) (r : R) (s : StoreState) : R * StoreState :=
  if (VM_SnapshotStatus vm ==? "ready") && (VM_SnapshotPath vm !=? "") then
    let vm := VM_set_HealthStatus HealthChecking (VM_set_State StateBooting vm) in
    let s := PutVM vm s in
    match rt_Restore r vm (VM_SnapshotPath vm) (VM_SnapshotMemPath vm) with
    | (r, Err e) => (r, PutVM (VM_set_Error ("restore failed: " ++ e) vm) s)
    | (r, Ok _) => (r, PutVM (VM_set_State StateRunning vm) s)
    end
  else if (VM_Restart vm ==? "always") || (VM_Restart vm ==? "on-failure")
  then (r, PutVM (VM_set_State StatePending vm) s)
  else (r, s).

Definition reconcileDelete (vm : VM) (r : R) (s : StoreState) : R * StoreState :=
  let '(r, _) := rt_Stop r vm in
  (r, emit vm "vm.deleted" (DeleteVM (VM_ID vm) (DeleteMicroVM (VM_ID vm) s))).

Definition Replica_Reconcile (vm : VM) (r : R) (s : StoreState) : R * StoreState :=
  let st := VM_State vm in
  if (st ==? StatePending) || (st ==? "") then reconcilePending vm r s
  else if st ==? StateBooting then (r, reconcileBooting vm s)
  else if st ==? StateRunning then (r, reconcileRunning vm s)
  else if st ==? StateStopping then reconcileStopping vm r s
  else if st ==? StateStopped then (r, s)
  else if st ==? StateFailed then reconcileFailed vm r s
  else if (st ==? StateDeleting) || (st ==? StateDeleted) then reconcileDelete vm r s
  else reconcilePending vm r s.

End Replica.

(** ** Theorems: nodes *)

(** What one cycle stores of a server: only its status moves. *)
Definition node_stored (now : Z) (srv : Server) : Server :=
  Srv_set_Status (Srv_Status (node_step now srv)) srv.

Record servers_inv (s : StoreState) : Prop := {
  sv_ids : NoDup (Srv_ID <$> servers s);
  sv_names : NoDup (Srv_Name <$> servers s)
}.

Lemma gate_fields cap next srv :
  Srv_ID (gate cap next srv) = Srv_ID srv /\ Srv_Name (gate cap next srv) = Srv_Name srv /\
  Srv_Address (gate cap next srv) = Srv_Address srv.
Proof. unfold gate. by case_goal. Qed.

Lemma node_step_fields now srv :
  Srv_ID (node_step now srv) = Srv_ID srv /\ Srv_Name (node_step now srv) = Srv_Name srv /\
  Srv_Address (node_step now srv) = Srv_Address srv.
Proof. unfold node_step. repeat case_goal; try done; apply gate_fields. Qed.

Lemma server_cols_step now srv : server_cols (Some srv) (node_step now srv) = node_stored now srv.
Proof.
  unfold server_cols, node_stored. destruct (node_step_fields now srv) as (_ & -> & ->).
  by destruct srv.
Qed.

Lemma upsert_at {A} (key : A -> string) l1 y l2 x :
  key y = key x -> key x ∉ key <$> l1 -> upsert key x (l1 ++ y :: l2) = (l1 ++ x :: l2)%list.
Proof.
  intros Hk. induction l1 as [|z l1 IH]; cbn; intros Hn.
  - by rewrite bool_decide_eq_true_2.
  - apply not_elem_of_cons in Hn as [Hz Hn]. rewrite bool_decide_eq_false_2 by done.
    f_equal. by apply IH.
Qed.

Lemma row_at {A} (key : A -> string) l1 y l2 :
  key y ∉ key <$> l1 -> row key (key y) (l1 ++ y :: l2)%list = Some y.
Proof.
  unfold row. induction l1 as [|z l1 IH]; cbn; intros Hn.
  - by rewrite bool_decide_eq_true_2.
  - apply not_elem_of_cons in Hn as [Hz Hn]. rewrite bool_decide_eq_false_2 by done. by apply IH.
Qed.

Lemma PutServer_step now s l1 srv l2 :
  servers s = (l1 ++ srv :: l2)%list -> servers_inv s ->
  servers (PutServer (node_step now srv) s) = (l1 ++ node_stored now srv :: l2)%list.
Proof.
  intros E [Hid Hname]. unfold PutServer.
  destruct (node_step_fields now srv) as (Ei & En & _).
  assert (Hfree : hostname_taken s (node_step now srv) = false).
  { apply not_true_is_false. intros Hex. unfold hostname_taken in Hex. rewrite Ei, En in Hex.
    apply existsb_exists in Hex as (r & Hr & Hb). apply list_elem_of_In in Hr. bools.
    assert (Hsrv : srv ∈ servers s) by (rewrite E; set_solver).
    apply list_elem_of_lookup in Hr as [i Hi], Hsrv as [j Hj].
    assert (i = j) as ->.
    { eapply NoDup_lookup; [exact Hname|..]; rewrite list_lookup_fmap;
        [rewrite Hi; reflexivity|rewrite Hj; cbn; congruence]. }
    congruence. }
  rewrite Hfree. cbn. rewrite Ei, E.
  assert (Hk : Srv_ID srv ∉ Srv_ID <$> l1).
  { rewrite E, fmap_app in Hid. apply NoDup_app in Hid as (_ & Hd & _). intros Hin.
    apply (Hd _ Hin). cbn. left. }
  rewrite row_at by done. rewrite server_cols_step. by apply upsert_at.
Qed.

Lemma servers_inv_ext s s' :
  Srv_ID <$> servers s' = Srv_ID <$> servers s -> Srv_Name <$> servers s' = Srv_Name <$> servers s ->
  servers_inv s -> servers_inv s'.
Proof. intros H1 H2 [A B]. split; congruence. Qed.

(** One cycle moves every registered server exactly one step. *)
Lemma node_cycle_all now s :
  servers_inv s -> servers (node_cycle now s) = node_stored now <$> servers s.
Proof.
  unfold node_cycle, reconcileAll, ListServers.
  assert (Hgen : forall l2 l1 s, servers s = (l1 ++ l2)%list -> servers_inv s ->
    servers (fold_left (fun s o => (Node_Reconcile now o s).1) l2 s) = (l1 ++ (node_stored now <$> l2))%list).
  { induction l2 as [|srv l2 IH]; intros l1 s0 E Hinv; cbn; [by rewrite E|].
    pose proof (PutServer_step now s0 l1 srv l2 E Hinv) as E1.
    rewrite (IH (l1 ++ [node_stored now srv])%list); [by rewrite <- app_assoc|..].
    - by rewrite E1, <- app_assoc.
    - eapply servers_inv_ext; [..|exact Hinv]; rewrite E, E1, !fmap_app, !fmap_cons; done. }
  intros Hinv. by apply (Hgen _ []).
Qed.

Definition node_cycles (ts : list Z) (s : StoreState) : StoreState :=
  fold_left (fun s now => node_cycle now s) ts s.

Lemma GetServer_cycle now s id :
  servers_inv s -> GetServer (node_cycle now s) id = node_stored now <$> GetServer s id.
Proof.
  intros Hinv. unfold GetServer, row. rewrite node_cycle_all by done.
  rewrite find_first_fmap. done.
Qed.

Lemma node_cycle_inv now s : servers_inv s -> servers_inv (node_cycle now s).
Proof.
  intros Hinv. eapply servers_inv_ext; [..|exact Hinv]; rewrite node_cycle_all by done;
    rewrite <- list_fmap_compose; done.
Qed.

Lemma GetServer_cycles ts s id :
  servers_inv s ->
  GetServer (node_cycles ts s) id = (fun srv => fold_left (fun v now => node_stored now v) ts srv) <$> GetServer s id.
Proof.
  revert s. induction ts as [|t ts IH]; intros s Hinv; cbn; [by destruct (GetServer s id)|].
  rewrite IH by by apply node_cycle_inv. rewrite GetServer_cycle by done.
  by destruct (GetServer s id).
Qed.

(** Cycles left until ready, for the statuses of the registration chain. *)
Definition cycles_to_ready (status : string) : option nat :=
  if (status ==? "") || (status ==? "Register") then Some 9%nat
  else if status ==? "AgentConnected" then Some 8%nat
  else if status ==? "HardwareDiscovered" then Some 7%nat
  else if status ==? "KVMVerified" then Some 6%nat
  else if status ==? "FirecrackerReady" then Some 5%nat
  else if status ==? "BuildKitReady" then Some 4%nat
  else if status ==? "NetworkReady" then Some 3%nat
  else if status ==? "StorageReady" then Some 2%nat
  else if status ==? "CapabilitiesRegistered" then Some 1%nat
  else if status ==? StatusReady then Some 0%nat
  else None.

Lemma cycles_to_ready_0 st : cycles_to_ready st = Some 0%nat -> st = StatusReady.
Proof. unfold cycles_to_ready. repeat case_goal; try done. by bools. Qed.

Lemma cycles_to_ready_S now srv n :
  cycles_to_ready (Srv_Status srv) = Some (S n) ->
  cycles_to_ready (Srv_Status (node_stored now srv)) = Some n.
Proof.
  unfold cycles_to_ready at 1. unfold node_stored, node_step, gate.
  repeat match goal with
  | |- context [bool_decide (Srv_Status srv = ?x)] =>
      destruct (bool_decide_reflect (Srv_Status srv = x)); cbn [orb negb];
      [intros [= <-]; vm_compute; reflexivity|]
  end.
  done.
Qed.

(** Registration always completes. Whatever the times of the cycles, a
    server anywhere on the registration chain is ready after exactly the number
    of cycles its status is away from ready, at most nine, with every other field
    of its row unchanged. *)
Theorem node_reaches_ready s id srv n ts :
  servers_inv s -> GetServer s id = Some srv ->
  cycles_to_ready (Srv_Status srv) = Some n -> List.length ts = n ->
  GetServer (node_cycles ts s) id = Some (Srv_set_Status StatusReady srv).
Proof.
  intros Hinv Hs Hn Hlen. rewrite GetServer_cycles by done. rewrite Hs. cbn. f_equal.
  clear Hs. revert srv ts Hn Hlen. induction n as [|n IH]; intros srv ts Hn Hlen.
  - destruct ts; [|done]. apply cycles_to_ready_0 in Hn. cbn. rewrite <- Hn. by destruct srv.
  - destruct ts as [|t ts]; [done|]. cbn. apply (cycles_to_ready_S t) in Hn.
    rewrite (IH (node_stored t srv)) by (done || (cbn in Hlen; lia)). by destruct srv.
Qed.

Lemma ready_step now srv :
  Srv_Status srv = StatusReady ->
  node_stored now srv =
  if negb (Srv_LastSeen srv =? 0) && (60 * second <? now - Srv_LastSeen srv)
  then Srv_set_Status "Unhealthy" srv else srv.
Proof.
  intros E. unfold node_stored, node_step. rewrite E.
  repeat (rewrite bool_decide_eq_false_2 by (vm_compute; discriminate || (intros ?%list_elem_of_In; cbn in *; intuition discriminate))).
  cbn [orb]. rewrite bool_decide_eq_true_2 by done.
  case_goal; destruct srv; cbn in *; by subst.
Qed.

(** The heartbeat timeout. A ready server stays ready through every cycle in
    the 60 seconds after its last heartbeat, and the first later cycle marks it
    unhealthy: reconciling never renews the stored heartbeat time. *)
Theorem node_heartbeat_timeout s id srv ts now :
  servers_inv s -> GetServer s id = Some srv -> Srv_Status srv = StatusReady ->
  Srv_LastSeen srv <> 0 -> Forall (fun t => t - Srv_LastSeen srv <= 60 * second) ts ->
  now - Srv_LastSeen srv > 60 * second ->
  GetServer (node_cycles ts s) id = Some srv /\
  GetServer (node_cycles (ts ++ [now])%list s) id = Some (Srv_set_Status "Unhealthy" srv).
Proof.
  intros Hinv Hs Hr Hz Hts Hnow. rewrite !GetServer_cycles by done. rewrite Hs. cbn.
  assert (E : fold_left (fun v now => node_stored now v) ts srv = srv).
  { induction Hts as [|t ts Ht Hts IH]; [done|]. cbn. rewrite ready_step by done.
    apply Z.eqb_neq in Hz. rewrite Hz. cbn [negb andb].
    destruct (Z.ltb_spec (60 * second) (t - Srv_LastSeen srv)); [lia|]. exact IH. }
  rewrite fold_left_app, E. split; [done|]. cbn. f_equal. rewrite ready_step by done.
  apply Z.eqb_neq in Hz. rewrite Hz. cbn [negb andb].
  by destruct (Z.ltb_spec (60 * second) (now - Srv_LastSeen srv)); [|lia].
Qed.

(** ** Theorems: deployments *)

Lemma updateDeployment_refused d s :
  Dep_BuildStatus d ∉ build_statuses ->
  exists e, updateDeployment d s = (normalise_weight d, s, Err e).
Proof.
  intros Hb. unfold updateDeployment, CreateDeployment, deployment_check.
  assert (E : Dep_BuildStatus (normalise_weight d) = Dep_BuildStatus d).
  { unfold normalise_weight. by repeat case_goal. }
  rewrite E, (bool_decide_eq_false_2 (_ ∈ _)) by done. case_goal; by eexists.
Qed.

Lemma completed_not_stored : "completed" ∉ build_statuses.
Proof. intros H%list_elem_of_In. cbn in H. intuition discriminate. Qed.

(** A rollback request never takes effect. Whatever is stored, reconciling a
    deployment whose rollback target exists is refused by the schema and leaves
    the store, and with it the request, as it was. *)
Theorem rollback_never_persists d s target :
  Dep_RollbackTo d <> "" ->
  GetDeployment s (Dep_ProjectID d) (Dep_RollbackTo d) = Some target ->
  exists d' e, Deployment_Reconcile d s = (d', s, Err e) /\ Dep_RollbackTo d' = "".
Proof.
  intros Hr Ht. unfold Deployment_Reconcile, reconcileRollback.
  rewrite (bool_decide_eq_false_2 (Dep_RollbackTo d = "")) by done. cbn [negb]. rewrite Ht.
  edestruct updateDeployment_refused as [e ->]; [apply completed_not_stored|].
  eexists _, e. split; [done|]. unfold normalise_weight. by repeat case_goal.
Qed.

(** The schema and the controller disagree on status values. Every status
    the deployments table accepts is in the building or the failed phase, so the
    rolling and promoting phases are never entered for a stored deployment. *)
Theorem stored_phase d :
  Dep_BuildStatus d ∈ build_statuses -> phase d = "building" \/ phase d = "failed".
Proof.
  intros H%list_elem_of_In. unfold phase. cbn in H.
  repeat destruct H as [<-|H]; try done; vm_compute; auto.
Qed.

(** Rollout arithmetic. Reconciling a rolling deployment leaves its route
    weight between 0 and 100, at 100 exactly when as many of its replicas run as
    are desired, and otherwise at the rounded-down percentage of running ones. *)
Theorem rolling_weight d s d' s' r :
  reconcileRolling d s = (d', s', r) ->
  0 < Dep_RouteWeight d < 100 ->
  let running := running_count s d in
  let desired := desired_count (GetProject (Dep_ProjectID d) s).2 d in
  0 <= Dep_RouteWeight d' <= 100 /\
  (Dep_RouteWeight d' = 100 <-> desired <= running) /\
  (running < desired -> 0 < running * 100 / desired ->
   Dep_RouteWeight d' = running * 100 / desired).
Proof.
  intros E Hw running desired. unfold reconcileRolling in E. fold running in E.
  destruct (GetProject (Dep_ProjectID d) s) as [s1 proj] eqn:Ep.
  assert (Ed : desired_count proj d = desired) by done. rewrite Ed in E. clearbody desired.
  assert (Hrun : 0 <= running) by (unfold running, running_count; lia).
  assert (Hn : forall w d0, Dep_RouteWeight (normalise_weight (Dep_set_RolloutPercent w (Dep_set_RouteWeight w d0))) = w).
  { intros w d0. unfold normalise_weight. cbn. destruct (Z.eqb_spec w 0); cbn; [by subst|].
    destruct (Z.eqb_spec w 0); [lia|]. done. }
  assert (Hsame : forall d0, 0 < Dep_RouteWeight d0 -> Dep_RouteWeight (normalise_weight d0) = Dep_RouteWeight d0).
  { intros d0 H0. unfold normalise_weight. destruct (Z.eqb_spec (Dep_RouteWeight d0) 0); [lia|]. cbn.
    by case_goal. }
  unfold updateDeployment, reconcilePromoting in E.
  destruct (Z.leb_spec desired running) as [Hle|Hlt].
  - unfold updateDeployment in E. destruct (CreateDeployment _ s1) as [s2 r2]. injection E as <- _ _.
    rewrite Hn. split; [lia|]. split; [|lia]. by split.
  - destruct (Z.ltb_spec 0 desired); [|lia].
    rewrite Z.quot_div_nonneg in E by lia.
    assert (Hq : 0 <= running * 100 / desired < 100).
    { split; [apply Z.div_pos; lia|]. apply Z.div_lt_upper_bound; lia. }
    destruct (Z.eqb_spec (running * 100 / desired) (Dep_RouteWeight d)) as [Heq|Hne];
      cbn [Dep_set_VMIDs Dep_RouteWeight] in E.
    + rewrite Heq, Z.eqb_refl in E. cbn [negb] in E.
      destruct (CreateDeployment _ s1) as [s2 r2]. injection E as <- _ _.
      rewrite Hsame by (cbn; lia). cbn. split; [lia|]. split; [|lia]. split; lia.
    + apply Z.eqb_neq in Hne. rewrite Hne in E. cbn [negb] in E.
      destruct (CreateDeployment _ s1) as [s2 r2]. injection E as <- _ _.
      rewrite Hn. split; [lia|]. split; [|lia]. split; lia.
Qed.

(** ** Theorems: replicas *)

(** The edges of the replica lifecycle that one reconcile may take. *)
Definition lifecycle (a b : string) : bool :=
  if a ==? StatePending then (b ==? StateRunning) || (b ==? StateFailed)
  else if a ==? StateBooting then (b ==? StateRunning) || (b ==? StateBooting)
  else if a ==? StateRunning then (b ==? StateRunning) || (b ==? StateFailed)
  else if a ==? StateStopping then (b ==? StateStopped) || (b ==? StateStopping)
  else if a ==? StateStopped then b ==? StateStopped
  else if a ==? StateFailed then
    (b ==? StatePending) || (b ==? StateRunning) || (b ==? StateBooting) || (b ==? StateFailed)
  else false.

Section ReplicaTheorems.
Context {R : Type} `{Runtime R}.
Context (http_get : string -> option Z) (tcp_dial : string -> bool).

(** A chain of writes ended with the replica in state [st]. *)
Definition ends_in (vm : VM) (s s' : StoreState) (st : string) : Prop :=
  exists vm', replica_updated vm s vm' s' /\ VM_State vm' = st.

Lemma ends_in_Put vm s vm1 s1 vm2 st :
  replica_updated vm s vm1 s1 ->
  VM_ID vm2 = VM_ID vm1 -> VM_ProjectID vm2 = VM_ProjectID vm1 ->
  VM_ReplicaIndex vm2 = VM_ReplicaIndex vm1 -> VM_State vm2 = st -> st ∈ replica_states ->
  VM_HealthStatus vm2 ∈ replica_healths -> ends_in vm s (PutVM vm2 s1) st.
Proof.
  intros Hu Hid Hp Hi <- Hst Hh. exists vm2. split; [|done]. by eapply replica_updated_Put.
Qed.

Lemma ends_in_ext vm s s1 s2 st :
  replica_rows s2 = replica_rows s1 -> ends_in vm s s1 st -> ends_in vm s s2 st.
Proof. intros E (vm' & Hu & Hs). exists vm'. split; [|done]. by eapply replica_updated_ext. Qed.

Lemma RecordUsage_replicas p m k s : replica_rows (RecordUsage p m k s) = replica_rows s.
Proof. unfold RecordUsage. by case_goal. Qed.

Lemma SetMicroVMState_replicas id st s : replica_rows (SetMicroVMState id st s) = replica_rows s.
Proof. unfold SetMicroVMState. by case_goal. Qed.

Lemma emit_replicas vm n s : replica_rows (emit vm n s) = replica_rows s.
Proof. done. Qed.

Lemma UpsertMicroVM_replicas id st s : replica_rows (UpsertMicroVM id st s) = replica_rows s.
Proof. done. Qed.

(** The last write to the replica table decides the state. *)
Ltac ends_put Hu :=
  match goal with
  | |- ends_in _ _ ?S _ =>
      match S with
      | context [PutVM ?v ?s0] =>
          apply (ends_in_ext _ _ (PutVM v s0));
          [rewrite ?RecordUsage_replicas, ?emit_replicas, ?UpsertMicroVM_replicas,
             ?SetMicroVMState_replicas; reflexivity|];
          apply (ends_in_Put _ _ _ _ _ _ Hu); [reflexivity..|in_list|try done; in_list]
      end
  end.

Lemma pending_ends vm r s :
  replicas_inv s -> Store_GetVM s (VM_ID vm) = Some vm -> VM_HealthStatus vm ∈ replica_healths ->
  ends_in vm s (reconcilePending vm r s).2 StateRunning \/
  ends_in vm s (reconcilePending vm r s).2 StateFailed.
Proof.
  intros Hinv Hget Hh. pose proof (replica_updated_refl _ _ Hinv Hget) as H0.
  assert (H1 : replica_updated vm s vm (emit vm "vm.create.started" s))
    by (by eapply replica_updated_ext; [|exact H0]).
  unfold reconcilePending. destruct (rt_NetSpec r vm) as [r1 [spec|e]]; cbn [snd].
  - set (vm1 := VM_set_HealthStatus _ _).
    assert (H2 : replica_updated vm s vm1 (PutVM vm1 (emit vm "vm.create.started" s)))
      by (apply (replica_updated_Put _ _ _ _ _ H1); [reflexivity..|in_list|in_list]).
    destruct (rt_Boot r1 vm1 spec) as [r2 [?|e]]; cbn [snd].
    + left. ends_put H2.
    + right. unfold fail_vm. ends_put H2.
  - right. unfold fail_vm. ends_put H1.
Qed.

Lemma running_ends vm s :
  replicas_inv s -> Store_GetVM s (VM_ID vm) = Some vm -> VM_State vm = StateRunning ->
  VM_HealthStatus vm ∈ replica_healths ->
  ends_in vm s (reconcileRunning http_get tcp_dial vm s) StateRunning \/
  ends_in vm s (reconcileRunning http_get tcp_dial vm s) StateFailed.
Proof.
  intros Hinv Hget Hst Hh. pose proof (replica_updated_refl _ _ Hinv Hget) as H0.
  unfold reconcileRunning. destruct (VM_Healthcheck vm); [|by left; exists vm].
  case_goal.
  - right. ends_put H0.
  - left. case_goal; [|by exists vm].
    apply (ends_in_Put _ _ _ _ _ _ H0); [done..|in_list|in_list].
Qed.

Lemma stopping_ends vm r s :
  replicas_inv s -> Store_GetVM s (VM_ID vm) = Some vm -> VM_State vm = StateStopping ->
  VM_HealthStatus vm ∈ replica_healths ->
  ends_in vm s (reconcileStopping vm r s).2 StateStopped \/
  ends_in vm s (reconcileStopping vm r s).2 StateStopping.
Proof.
  intros Hinv Hget Hst Hh. pose proof (replica_updated_refl _ _ Hinv Hget) as H0.
  unfold reconcileStopping. destruct (rt_Stop r vm) as [r1 [?|e]]; cbn [snd].
  - left. assert (H1 : replica_updated vm s vm (SetMicroVMState (VM_ID vm) StateStopped s)).
    { eapply replica_updated_ext; [apply SetMicroVMState_replicas|exact H0]. }
    apply (ends_in_Put _ _ _ _ _ _ H1); [done..|in_list|done].
  - right. apply (ends_in_Put _ _ _ _ _ _ H0); [done..|in_list|done].
Qed.

Lemma failed_ends vm r s :
  replicas_inv s -> Store_GetVM s (VM_ID vm) = Some vm -> VM_State vm = StateFailed ->
  VM_HealthStatus vm ∈ replica_healths ->
  exists st, ends_in vm s (reconcileFailed vm r s).2 st /\
             st ∈ [StatePending; StateRunning; StateBooting; StateFailed].
Proof.
  intros Hinv Hget Hst Hh. pose proof (replica_updated_refl _ _ Hinv Hget) as H0.
  unfold reconcileFailed. case_goal.
  - set (vm1 := VM_set_HealthStatus _ _).
    assert (H1 : replica_updated vm s vm1 (PutVM vm1 s))
      by (apply (replica_updated_Put _ _ _ _ _ H0); [reflexivity..|in_list|in_list]).
    destruct (rt_Restore _ _ _ _) as [r1 [?|e]]; cbn [snd].
    + exists StateRunning. split; [|in_list]. ends_put H1.
    + exists StateBooting. split; [|in_list]. ends_put H1.
  - case_goal; cbn [snd].
    + exists StatePending. split; [|in_list].
      apply (ends_in_Put _ _ _ _ _ _ H0); [done..|in_list|done].
    + exists StateFailed. split; [by exists vm|in_list].
Qed.

(** Where one reconcile ends, by the state it starts from. *)
Lemma Replica_Reconcile_ends vm r s :
  replicas_inv s -> Store_GetVM s (VM_ID vm) = Some vm ->
  exists st, ends_in vm s (Replica_Reconcile http_get tcp_dial vm r s).2 st /\ lifecycle (VM_State vm) st = true.
Proof.
  intros Hinv Hget. pose proof (replica_updated_refl _ _ Hinv Hget) as H0.
  destruct (GetVM_In _ _ _ Hget) as [Hin _].
  destruct (ri_checks _ Hinv _ Hin) as [Hst Hh].
  unfold Replica_Reconcile. apply list_elem_of_In in Hst. cbn in Hst.
  repeat destruct Hst as [Hst|Hst]; try done; symmetry in Hst; rewrite Hst; eval_strings.
  - destruct (pending_ends vm r s Hinv Hget Hh) as [He|He]; by eexists.
  - unfold reconcileBooting; cbn [snd]. case_goal.
    + exists StateRunning. split; [|done]. apply (ends_in_Put _ _ _ _ _ StateRunning H0); [done..|in_list|done].
    + exists StateBooting. split; [by exists vm|done].
  - cbn [snd]. destruct (running_ends vm s Hinv Hget Hst Hh) as [He|He]; by eexists.
  - destruct (stopping_ends vm r s Hinv Hget Hst Hh) as [He|He]; by eexists.
  - exists StateStopped. split; [by exists vm|done].
  - destruct (failed_ends vm r s Hinv Hget Hst Hh) as (st & He & Hin').
    exists st. split; [exact He|]. apply list_elem_of_In in Hin'. cbn in Hin'.
    repeat destruct Hin' as [<-|Hin']; done.
Qed.

(** C7: the replica lifecycle. Reconciling a stored replica, whatever the runtime
    and the probes answer, keeps the replica table's invariant, touches no other
    replica, keeps the replica's identity and slot, and moves its stored state
    along an edge of the lifecycle. *)
Theorem replica_lifecycle vm r s :
  replicas_inv s -> Store_GetVM s (VM_ID vm) = Some vm ->
  exists vm', replica_updated vm s vm' (Replica_Reconcile http_get tcp_dial vm r s).2 /\
              lifecycle (VM_State vm) (VM_State vm') = true.
Proof.
  intros Hinv Hget. destruct (Replica_Reconcile_ends vm r s Hinv Hget) as (st & (vm' & Hu & <-) & Hl).
  by exists vm'.
Qed.

End ReplicaTheorems.

(** ** Theorems: booting *)

Section BootTheorem.
Context {R : Type} `{Runtime R}.

(** The replica handed to the runtime, and the one stored after a boot. *)
Definition booting_vm (vm : VM) : VM := VM_set_HealthStatus HealthChecking (VM_set_State StateBooting vm).
Definition booted_vm (spec : BootSpec) (vm : VM) : VM :=
  VM_set_IPAddress (CIDR spec) (VM_set_State StateRunning (booting_vm vm)).

Lemma PutVM_frame vm s :
  micro_vms (PutVM vm s) = micro_vms s /\ events (PutVM vm s) = events s /\
  usage_keys (PutVM vm s) = usage_keys s.
Proof. unfold PutVM. by case_goal. Qed.

Lemma RecordUsage_frame p m k s :
  micro_vms (RecordUsage p m k s) = micro_vms s /\ events (RecordUsage p m k s) = events s.
Proof. unfold RecordUsage. by case_goal. Qed.

(** A successful boot. When the network identity is allocated and the
    runtime boots, the stored replica is running and being checked, carries the
    allocated address, its MicroVM row says running, and the event log gained
    exactly the start and the creation of this replica, in this order. *)
Theorem reconcilePending_boots vm r s r1 spec r2 :
  replicas_inv s -> Store_GetVM s (VM_ID vm) = Some vm ->
  rt_NetSpec r vm = (r1, Ok spec) -> rt_Boot r1 (booting_vm vm) spec = (r2, Ok tt) ->
  let s' := (reconcilePending vm r s).2 in
  (reconcilePending vm r s).1 = r2 /\
  replica_updated vm s (booted_vm spec vm) s' /\
  micro_vms s' !! VM_ID vm = Some StateRunning /\
  exists e1 e2, events s' = (events s ++ [e1; e2])%list /\
    ev_name e1 = "vm.create.started" /\ ev_name e2 = "vm.created" /\
    ev_ref e1 = "vm/" ++ VM_ID vm /\ ev_ref e2 = "vm/" ++ VM_ID vm /\ ev_state e2 = StateRunning.
Proof.
  intros Hinv Hget Hnet Hboot. unfold reconcilePending. rewrite Hnet.
  fold (booting_vm vm). rewrite Hboot. cbn [fst snd].
  set (s0 := emit vm "vm.create.started" s). set (s1 := PutVM (booting_vm vm) s0).
  fold (booted_vm spec vm). set (s2 := PutVM (booted_vm spec vm) s1).
  assert (H0 : replica_updated vm s vm s0)
    by (apply (replica_updated_ext _ _ _ s); [done|by apply replica_updated_refl]).
  assert (H1 : replica_updated vm s (booting_vm vm) s1)
    by (apply (replica_updated_Put _ _ _ _ _ H0); [reflexivity..|in_list|in_list]).
  assert (H2 : replica_updated vm s (booted_vm spec vm) s2)
    by (apply (replica_updated_Put _ _ _ _ _ H1); [reflexivity..|in_list|in_list]).
  destruct (PutVM_frame (booting_vm vm) s0) as (_ & Ev1 & _).
  destruct (PutVM_frame (booted_vm spec vm) s1) as (_ & Ev2 & _). fold s1 in Ev1. fold s2 in Ev2.
  split; [done|]. split; [|split].
  - eapply replica_updated_ext; [|exact H2]. by rewrite !RecordUsage_replicas.
  - destruct (RecordUsage_frame (VM_ProjectID (booted_vm spec vm)) "mem.mib" ("boot-mem:" ++ VM_ID (booted_vm spec vm))
      (RecordUsage (VM_ProjectID (booted_vm spec vm)) "vcpu.count" ("boot:" ++ VM_ID (booted_vm spec vm))
        (emit (booted_vm spec vm) "vm.created" (UpsertMicroVM (VM_ID (booted_vm spec vm)) StateRunning s2)))) as [-> _].
    rewrite (proj1 (RecordUsage_frame _ _ _ _)). cbn. apply lookup_insert_eq.
  - eexists _, _. rewrite (proj2 (RecordUsage_frame _ _ _ _)), (proj2 (RecordUsage_frame _ _ _ _)).
    cbn -[s2]. rewrite Ev2, Ev1. cbn. rewrite <- app_assoc. by repeat split.
Qed.

End BootTheorem.

(** ** Witnesses and observations *)

(** A runtime that boots everything and restores nothing. *)
#[export] Instance SimRuntime : Runtime nat := {|
  rt_NetSpec r vm := (r, Ok boot_example);
  rt_Boot r vm spec := (Datatypes.S r, Ok tt);
  rt_Stop r vm := (r, Ok tt);
  rt_Restore r vm p m := (r, Err "no snapshot backend")
|}.

Definition pending_vm : VM :=
  VM_set_State StatePending (VM_set_HealthStatus HealthChecking (vm_row)).

Definition store1 : StoreState := PutVM pending_vm store_p.

Lemma store1_inv : replicas_inv store1.
Proof. apply PutVM_inv. by apply no_replicas_inv. Qed.

Lemma reconcilePending_boots_witness :
  replica_updated pending_vm store1 (booted_vm boot_example pending_vm)
    (reconcilePending pending_vm 0%nat store1).2.
Proof.
  destruct (reconcilePending_boots pending_vm 0%nat store1 0%nat boot_example 1%nat) as (_ & H & _).
  - exact store1_inv.
  - vm_compute. reflexivity.
  - reflexivity.
  - reflexivity.
  - exact H.
Defined.

Lemma replica_lifecycle_witness :
  exists vm', replica_updated pending_vm store1 vm'
    (Replica_Reconcile (fun _ => None) (fun _ => false) pending_vm 0%nat store1).2 /\
  lifecycle (VM_State pending_vm) (VM_State vm') = true.
Proof.
  apply (replica_lifecycle (fun _ => None) (fun _ => false) pending_vm 0%nat store1).
  - exact store1_inv.
  - vm_compute. reflexivity.
Defined.

(** A booted replica's stored address is a CIDR, not an address: it does not
    parse, and the upstream the gateway builds from it is not a host and port. *)
Lemma booted_address_unusable :
  let vm := booted_vm boot_example pending_vm in
  GoNet.ParseIP (VM_IPAddress vm) = None /\
  Gateway.targetAddress vm = Some "10.42.7.13/24:80".
Proof. vm_compute. split; reflexivity. Qed.

(** A failed restore leaves the replica booting with its old address, and the
    next cycle declares it running. *)
Definition snap_vm : VM :=
  VM_set_State StateFailed (VM_set_SnapshotStatus "ready" (VM_set_SnapshotPath "/snap" vm_row)).

Lemma failed_restore_becomes_running :
  let s := PutVM snap_vm store_p in
  let s1 := (Replica_Reconcile (fun _ => None) (fun _ => false) snap_vm 0%nat s).2 in
  match Store_GetVM s1 "v1" with
  | None => False
  | Some vm1 =>
      VM_State vm1 = StateBooting /\ VM_Error vm1 = "restore failed: no snapshot backend" /\
      VM_State <$> Store_GetVM (Replica_Reconcile (fun _ => None) (fun _ => false) vm1 0%nat s1).2 "v1" =
      Some StateRunning
  end.
Proof. vm_compute. repeat split. Qed.

(** No stored replica is ever in a deleting state: the delete branch is dead. *)
Lemma deleting_not_storable vm s :
  VM_State vm = StateDeleting \/ VM_State vm = StateDeleted -> PutVM vm s = s.
Proof.
  intros Hd. unfold PutVM, replica_ok. rewrite bool_decide_eq_false_2; [done|].
  intros Hin%list_elem_of_In. cbn in Hin. destruct Hd as [E|E]; rewrite E in Hin; intuition discriminate.
Qed.

Definition srv1 : Server := Srv_set_ID "n1" (Srv_set_Name "node-1" (Srv_set_LastSeen 5 (Srv_set_Status "Register" Srv_zero))).
Definition store_srv (srv : Server) : StoreState := with_servers [srv] empty_store.

Lemma store_srv_inv srv : servers_inv (store_srv srv).
Proof. split; apply NoDup_singleton. Qed.

Lemma node_reaches_ready_witness :
  GetServer (node_cycles [1; 2; 3; 4; 5; 6; 7; 8; 9] (store_srv srv1)) "n1" =
  Some (Srv_set_Status StatusReady srv1).
Proof.
  apply (node_reaches_ready (store_srv srv1) "n1" srv1 9 [1; 2; 3; 4; 5; 6; 7; 8; 9]).
  - exact (store_srv_inv srv1).
  - reflexivity.
  - reflexivity.
  - reflexivity.
Defined.

Definition srv_ready : Server := Srv_set_Status StatusReady srv1.

Lemma node_heartbeat_timeout_witness :
  GetServer (node_cycles [10; 20] (store_srv srv_ready)) "n1" = Some srv_ready /\
  GetServer (node_cycles ([10; 20] ++ [61 * second])%list (store_srv srv_ready)) "n1" =
  Some (Srv_set_Status "Unhealthy" srv_ready).
Proof.
  apply (node_heartbeat_timeout (store_srv srv_ready) "n1" srv_ready [10; 20] (61 * second)).
  - exact (store_srv_inv srv_ready).
  - reflexivity.
  - reflexivity.
  - discriminate.
  - repeat constructor; vm_compute; discriminate.
  - vm_compute. reflexivity.
Defined.

Definition store_dep : StoreState := (CreateDeployment dep1 store_p).1.
Definition dep_back : Deployment := Dep_set_ID "d2" (Dep_set_RollbackTo "d1" dep1).

Lemma rollback_never_persists_witness :
  exists d' e, Deployment_Reconcile dep_back store_dep = (d', store_dep, Err e) /\
             Dep_RollbackTo d' = "".
Proof.
  apply (rollback_never_persists dep_back store_dep (Dep_set_RouteWeight 25 dep1)).
  - discriminate.
  - vm_compute. reflexivity.
Defined.

Lemma stored_phase_witness : phase dep1 = "building" \/ phase dep1 = "failed".
Proof. apply (stored_phase dep1). vm_compute. do 3 right. left. Defined.

Definition dep_roll : Deployment := Dep_set_BuildStatus "completed" (Dep_set_RouteWeight 50 dep1).

Lemma rolling_weight_witness :
  0 <= Dep_RouteWeight (reconcileRolling dep_roll store1).1.1 <= 100.
Proof.
  destruct (rolling_weight dep_roll store1 (reconcileRolling dep_roll store1).1.1
    (reconcileRolling dep_roll store1).1.2 (reconcileRolling dep_roll store1).2) as [H _].
  - by destruct (reconcileRolling dep_roll store1) as [[d1 s1] r1].
  - split; vm_compute; reflexivity.
  - exact H.
Defined.

Close Scope Z_scope.
Close Scope string_scope.
