(* ===== verification/Rbac.v ===== *)
(** * Capabilities and tenancy ([internal/rbac], [internal/store])

    The capability engine of [rbac/rbac.go] over an abstract [Resolver], the
    PostgreSQL resolver of [store/rbac_scoped.go] that implements it, and the
    membership checks of [store/store.go] and [store/tenancy.go] the API falls
    back to. The tables are lists of rows; [q_ok] says which of the statements
    the database answers, so that the places where the code swallows a query
    error are visible. *)
From S2P Require Import Prelude GoStrings Types Store.
From Stdlib Require Import String.

Open Scope string_scope.

(** ** [rbac/rbac.go] *)

Definition ScopePlatform : string := "platform".
Definition ScopeReseller : string := "reseller".
Definition ScopeOrg : string := "org".
Definition ScopeTeam : string := "team".
Definition ScopeProject : string := "project".
Definition ScopeEnvironment : string := "environment".

Definition EffectAllow : string := "allow".
Definition EffectDeny : string := "deny".

Record Scope := mkScope { Scope_Type : string; Scope_ID : string }.

#[export] Instance Scope_eq_dec : EqDecision Scope.
Proof. solve_decision. Defined.

Record Assignment := mkAssignment {
  As_PrincipalType : string; As_PrincipalID : string; As_Scope : Scope; As_RoleID : string }.

#[export] Instance Assignment_eq_dec : EqDecision Assignment.
Proof. solve_decision. Defined.

Record RoleCapability := mkCap { Cap_Capability : string; Cap_Effect : string }.

(** [rbac.Resolver]: what the engine asks of a store. *)
Class Resolver (R : Type) := {
  AssignmentsForPrincipal : R -> string -> string -> result string (list Assignment);
  RoleCapabilities : R -> list string -> result string (list RoleCapability);
  ScopeAncestors : R -> Scope -> result string (list Scope) }.

(** What an answer of a resolver means: the assignments in force, the entries of
    a role, and which scope lies above which. *)
Class ResolverLaws (R : Type) `{Resolver R} := {
  assigned : R -> Assignment -> Prop;
  role_entry : R -> string -> RoleCapability -> Prop;
  ancestor : R -> Scope -> Scope -> Prop;
  assignments_law r pt pid l : AssignmentsForPrincipal r pt pid = Ok l ->
    forall a, a ∈ l <-> assigned r a /\ As_PrincipalType a = pt /\ As_PrincipalID a = pid;
  capabilities_law r ids l : RoleCapabilities r ids = Ok l ->
    forall c, c ∈ l <-> exists id, id ∈ ids /\ role_entry r id c;
  ancestors_law r s l : ScopeAncestors r s = Ok l -> forall s', s' ∈ l <-> ancestor r s s' }.

Definition scopeIn (s : Scope) (l : list Scope) : bool :=
  match find_first (fun o => o ==? s) l with Some _ => true | None => false end.

Section HasCapability.
Context `{Resolver R} (order : gset string -> list string).

(** The roles assigned at the scope or at one of its ancestors (a Go map). *)
Definition matching (scope : Scope) (ancestors : list Scope) (l : list Assignment) : gset string :=
  foldl (fun m a => if (As_Scope a ==? scope) || scopeIn (As_Scope a) ancestors
                    then {[As_RoleID a]} ∪ m else m) ∅ l.

(** The pair [(allowed, denied)] after the loop over the entries. *)
Definition effects (capability : string) (caps : list RoleCapability) : bool * bool :=
  foldl (fun ad c => if Cap_Capability c !=? capability then ad
                     else if Cap_Effect c ==? EffectDeny then (ad.1, true) else (true, ad.2))
    (false, false) caps.

(** [order] is the order in which Go's [range] visits the map of roles. *)
Definition HasCapability (r : R) (principalType principalID capability : string) (scope : Scope)
  : result string bool :=
  if (principalType ==? "") || (principalID ==? "") || (capability ==? "")
  then Err "rbac: principal type, principal id and capability are required"
  else
    match AssignmentsForPrincipal r principalType principalID with
    | Err e => Err ("rbac: assignments: " ++ e)
    | Ok assignments =>
        match assignments with
        | [] => Ok false
        | _ =>
            match ScopeAncestors r scope with
            | Err e => Err ("rbac: ancestors: " ++ e)
            | Ok ancestors =>
                let m := matching scope ancestors assignments in
                if decide (m = ∅) then Ok false
                else
                  match RoleCapabilities r (order m) with
                  | Err e => Err ("rbac: role capabilities: " ++ e)
                  | Ok caps =>
                      let ad := effects capability caps in
                      if ad.2 then Ok false else Ok ad.1
                  end
            end
        end
    end.
End HasCapability.

(** ** The tables *)

Record RolePerm := mkRolePerm { rp_role : string; rp_perm : string; rp_effect : string }.
Record OrgMemberRow := mkOMRow { om_org : string; om_user : string; om_role : string }.
Record ProjMemberRow := mkPMRow { pm_project : string; pm_user : string; pm_role : string; pm_invited : bool }.

(** One constructor per SQL statement whose failure the code handles. *)
Inductive Query :=
| QAssignments | QRoleCapabilities | QEnvironment | QGroupProjects | QGroupOrg
| QProjectOrg | QTeamOrg | QDeny | QUser | QRole | QRolePermissions
| QProjectMember | QProjectOrgCoalesce | QOrgMember | QUserOrgs.

Record TenancyDB := mkTenancy {
  q_ok : Query -> bool;
  role_assignments : list Assignment;
  role_permissions : list RolePerm;
  roles : list Role;
  permissions : list string;
  environments : list (string * string);      (* id, project_id *)
  group_projects : list (string * string);    (* group_id, project_id *)
  groups : list (string * string);            (* id, org_id *)
  project_orgs : list (string * option string);   (* projects: id, org_id *)
  teams : list (string * option string);      (* id, organization_id *)
  users : list User;
  org_members : list OrgMemberRow;
  project_members : list ProjMemberRow }.

Definition with_assignments (l : list Assignment) (db : TenancyDB) : TenancyDB :=
  mkTenancy (q_ok db) l (role_permissions db) (roles db) (permissions db) (environments db)
    (group_projects db) (groups db) (project_orgs db) (teams db) (users db) (org_members db)
    (project_members db).
Definition with_role_permissions (l : list RolePerm) (db : TenancyDB) : TenancyDB :=
  mkTenancy (q_ok db) (role_assignments db) l (roles db) (permissions db) (environments db)
    (group_projects db) (groups db) (project_orgs db) (teams db) (users db) (org_members db)
    (project_members db).

Definition query {A} (db : TenancyDB) (q : Query) (rows : list A) : option (list A) :=
  if q_ok db q then Some rows else None.

(** [QueryRow(...).Scan(&x)] of a keyed table: the first row with the key. *)
Definition query_row {A} (db : TenancyDB) (q : Query) (key : string) (rows : list (string * A))
  : option A :=
  if q_ok db q then snd <$> find_first (fun r => r.1 ==? key) rows else None.

(** ** [store/rbac_scoped.go] *)

Definition Store_AssignmentsForPrincipal (db : TenancyDB) (principalType principalID : string)
  : result string (list Assignment) :=
  match query db QAssignments
    (base.filter (fun a => As_PrincipalType a = principalType /\ As_PrincipalID a = principalID)
      (role_assignments db)) with
  | Some l => Ok l
  | None => Err "query failed"
  end.

Definition Store_RoleCapabilities (db : TenancyDB) (roleIDs : list string)
  : result string (list RoleCapability) :=
  match roleIDs with
  | [] => Ok []
  | _ =>
      match query db QRoleCapabilities
        (base.filter (fun r => rp_role r ∈ roleIDs) (role_permissions db)) with
      | Some l => Ok ((fun r => mkCap (rp_perm r) (rp_effect r)) <$> l)
      | None => Err "query failed"
      end
  end.

Fixpoint dedupe_seen (seen : list Scope) (l : list Scope) : list Scope :=
  match l with
  | [] => []
  | s :: l => if decide (s ∈ seen) then dedupe_seen seen l else s :: dedupe_seen (s :: seen) l
  end.

Definition dedupeScopes (l : list Scope) : list Scope := dedupe_seen [] l.

Definition push (t id : string) : list Scope :=
  if id !=? "" then [mkScope t id] else [].

Definition push_row (t : string) (r : option string) : list Scope :=
  match r with Some id => push t id | None => [] end.

(** The body of [ScopeAncestors]; [rec] is the recursive call. *)
Definition ancestors_body (rec : Scope -> list Scope) (db : TenancyDB) (scope : Scope) : list Scope :=
  let t := Scope_Type scope in
  let id := Scope_ID scope in
  let out : list Scope := (
    if t ==? ScopeEnvironment then
      match query_row db QEnvironment id (environments db) with
      | Some projectID => (push ScopeProject projectID ++ rec (mkScope ScopeProject projectID))%list
      | None => []
      end
    else if t ==? ScopeProject then
      match query db QGroupProjects (base.filter (fun r => r.2 = id) (group_projects db)) with
      | Some rows =>
          mjoin ((fun r : string * string => push ScopeTeam r.1 ++
                   push_row ScopeOrg (query_row db QGroupOrg r.1 (groups db))) <$> rows)
      | None => []
      end ++ push_row ScopeOrg (mjoin (query_row db QProjectOrg id (project_orgs db)))
    else if t ==? ScopeTeam then
      push_row ScopeOrg (query_row db QGroupOrg id (groups db)) ++
      push_row ScopeOrg (mjoin (query_row db QTeamOrg id (teams db)))
    else [])%list in
  dedupeScopes (out ++ [mkScope ScopePlatform ""])%list.

(** The recursion is one level deep: an environment asks for its project, and
    the project branch does not recurse. *)
Definition Store_ScopeAncestors (db : TenancyDB) (scope : Scope) : result string (list Scope) :=
  Ok (ancestors_body (ancestors_body (fun _ => []) db) db scope).

#[export] Instance store_Resolver : Resolver TenancyDB := {
  AssignmentsForPrincipal := Store_AssignmentsForPrincipal;
  RoleCapabilities := Store_RoleCapabilities;
  ScopeAncestors := Store_ScopeAncestors }.

(** [INSERT ... ON CONFLICT DO NOTHING]; the role must exist (foreign key). *)
Definition AssignRole (principalType principalID scopeType scopeID roleID : string) (db : TenancyDB)
  : TenancyDB * bool :=
  let a := mkAssignment principalType principalID (mkScope scopeType scopeID) roleID in
  if negb (existsb (fun r => Role_ID r ==? roleID) (roles db)) then (db, false)
  else if decide (a ∈ role_assignments db) then (db, true)
  else (with_assignments (role_assignments db ++ [a])%list db, true).

Definition RevokeRole (principalType principalID scopeType scopeID roleID : string) (db : TenancyDB)
  : TenancyDB :=
  let a := mkAssignment principalType principalID (mkScope scopeType scopeID) roleID in
  with_assignments (base.filter (fun b => b <> a) (role_assignments db)) db.

(** [Store.HasCapability]: an error is logged and denies. *)
Definition Store_HasCapability (order : gset string -> list string) (db : TenancyDB)
  (principalType principalID capability scopeType scopeID : string) : bool :=
  match HasCapability order db principalType principalID capability (mkScope scopeType scopeID) with
  | Ok b => b
  | Err _ => false
  end.

Definition ScopedDeny (db : TenancyDB)
  (principalType principalID capability scopeType scopeID : string) : bool :=
  match Store_AssignmentsForPrincipal db principalType principalID with
  | Err _ | Ok [] => false
  | Ok assignments =>
      let scope := mkScope scopeType scopeID in
      match Store_ScopeAncestors db scope with
      | Err _ => false
      | Ok ancestors =>
          let inScope aScope := (aScope ==? scope) ||
            match find_first (fun o => o ==? aScope) ancestors with Some _ => true | None => false end in
          let roleIDs := As_RoleID <$> base.filter (fun a => inScope (As_Scope a) = true) assignments in
          match roleIDs with
          | [] => false
          | _ =>
              match query db QDeny (base.filter (fun r => rp_role r ∈ roleIDs /\ rp_perm r = capability /\
                                      rp_effect r = EffectDeny) (role_permissions db)) with
              | Some (_ :: _) => true
              | _ => false
              end
          end
      end
  end.

(** ** Membership and global roles ([store/store.go], [store/tenancy.go]) *)

Definition GetUserByUsername (db : TenancyDB) (username : string) : option User :=
  if q_ok db QUser then find_first (fun u => User_Username u ==? username) (users db) else None.

(** The statement does not read the [effect] column. *)
Definition RolePermissions (db : TenancyDB) (roleID : string) : list string :=
  if roleID ==? "" then []
  else
    match query db QRolePermissions (base.filter (fun r => rp_role r = roleID) (role_permissions db)) with
    | Some l => rp_perm <$> l
    | None => []
    end.

Definition GetRole (db : TenancyDB) (id : string) : option Role :=
  if q_ok db QRole
  then (fun r => Role_set_Permissions (RolePermissions db (Role_ID r)) r) <$>
         find_first (fun r => Role_ID r ==? id) (roles db)
  else None.

Definition roleGrants (db : TenancyDB) (role permission : string) : bool :=
  if role ==? "" then false
  else existsb (fun p => p ==? permission) (RolePermissions db role).

Definition HasPermission (db : TenancyDB) (username permission : string) : bool :=
  match GetUserByUsername db username with
  | None => false
  | Some u => existsb (fun p => p ==? permission) (RolePermissions db (User_Role u))
  end.

Definition IsPlatformAdmin (db : TenancyDB) (username : string) : bool :=
  match GetUserByUsername db username with
  | None => false
  | Some u => match GetRole db (User_Role u) with Some r => Role_IsAdmin r | None => false end
  end.

Definition org_member (db : TenancyDB) (orgID userID : string) : option string :=
  if q_ok db QOrgMember then
    om_role <$> find_first (fun m => (om_org m ==? orgID) && (om_user m ==? userID)) (org_members db)
  else None.

Definition OrgRoleForUser (db : TenancyDB) (orgID username : string) : string :=
  if (orgID ==? "") || (username ==? "") then ""
  else
    match GetUserByUsername db username with
    | None => ""
    | Some u => match org_member db orgID (User_ID u) with Some role => role | None => "" end
    end.

(** [QProjectOrgCoalesce] is the statement with [COALESCE(org_id,'')]. *)
Definition ProjectRoleForUser (db : TenancyDB) (projectID username : string) : string :=
  if (projectID ==? "") || (username ==? "") then ""
  else
    match GetUserByUsername db username with
    | None => ""
    | Some u =>
        let direct :=
          if q_ok db QProjectMember then
            pm_role <$> find_first (fun m => (pm_project m ==? projectID) && (pm_user m ==? User_ID u))
              (project_members db)
          else None in
        let orgID := default "" (mjoin (query_row db QProjectOrgCoalesce projectID (project_orgs db))) in
        let via_org := if orgID ==? "" then "" else default "" (org_member db orgID (User_ID u)) in
        match direct with
        | Some role => if role !=? "" then role else via_org
        | None => via_org
        end
    end.

(** The membership role, or a platform admin's own role. *)
Definition member_or_admin (db : TenancyDB) (role username permission : string) : bool :=
  if role ==? "" then
    if negb (IsPlatformAdmin db username) then false
    else
      match GetUserByUsername db username with
      | None => false
      | Some u => roleGrants db (User_Role u) permission
      end
  else roleGrants db role permission.

Definition HasProjectPermission (db : TenancyDB) (projectID username permission : string) : bool :=
  member_or_admin db (ProjectRoleForUser db projectID username) username permission.

Definition HasOrgPermission (db : TenancyDB) (orgID username permission : string) : bool :=
  member_or_admin db (OrgRoleForUser db orgID username) username permission.

Definition UserOrgIDs (db : TenancyDB) (username : string) : list string :=
  match GetUserByUsername db username with
  | None => []
  | Some u =>
      match query db QUserOrgs (base.filter (fun m => om_user m = User_ID u) (org_members db)) with
      | Some l => om_org <$> l
      | None => []
      end
  end.

Definition HasPermissionAnywhere (db : TenancyDB) (username permission : string) : bool :=
  if existsb (fun orgID => let role := OrgRoleForUser db orgID username in
                           (role !=? "") && roleGrants db role permission) (UserOrgIDs db username)
  then true
  else HasPermission db username permission.

Definition OrgForGroup (db : TenancyDB) (groupID : string) : string :=
  default "" (query_row db QGroupOrg groupID (groups db)).

Definition GroupRoleForUser (db : TenancyDB) (groupID username : string) : string :=
  OrgRoleForUser db (OrgForGroup db groupID) username.

(** ** Editing roles *)

(** Both foreign keys and the primary key (role, permission) of the table. *)
Definition AddRolePermission (roleID permission : string) (db : TenancyDB) : TenancyDB :=
  if existsb (fun r => (rp_role r ==? roleID) && (rp_perm r ==? permission)) (role_permissions db) then db
  else if existsb (fun r => Role_ID r ==? roleID) (roles db) && existsb (fun p => p ==? permission) (permissions db)
  then with_role_permissions (role_permissions db ++ [mkRolePerm roleID permission EffectAllow])%list db
  else db.

Definition RemoveRolePermission (roleID permission : string) (db : TenancyDB) : TenancyDB :=
  with_role_permissions
    (base.filter (fun r => ~ (rp_role r = roleID /\ rp_perm r = permission)) (role_permissions db)) db.

(** One transaction: an unknown role or permission rolls everything back. *)
Definition SetRolePermissions (roleID : string) (perms : list string) (db : TenancyDB)
  : TenancyDB * bool :=
  let cleared := with_role_permissions (base.filter (fun r => rp_role r <> roleID) (role_permissions db)) db in
  if forallb (fun p => existsb (fun q => q ==? p) (permissions db)) perms &&
     (existsb (fun r => Role_ID r ==? roleID) (roles db) || (match perms with [] => true | _ => false end))
  then (foldl (fun d p => AddRolePermission roleID p d) cleared perms, true)
  else (db, false).

(** ** The engine's theorems *)

Lemma scopeIn_spec s l : scopeIn s l = true <-> s ∈ l.
Proof.
  unfold scopeIn. destruct (find_first _ l) as [x|] eqn:E.
  - apply find_first_In in E as [Hx Hs]. bools. subst. done.
  - apply find_first_None in E. rewrite Forall_forall in E. split; [done|].
    intros Hs. specialize (E _ Hs). bools. done.
Qed.

Lemma elem_of_matching scope anc l id :
  id ∈ matching scope anc l <->
  exists a, a ∈ l /\ As_RoleID a = id /\ (As_Scope a = scope \/ As_Scope a ∈ anc).
Proof.
  unfold matching. assert (Hgen : forall acc : gset string,
    id ∈ foldl (fun m a => if (As_Scope a ==? scope) || scopeIn (As_Scope a) anc
                           then {[As_RoleID a]} ∪ m else m) acc l <->
    id ∈ acc \/ exists a, a ∈ l /\ As_RoleID a = id /\ (As_Scope a = scope \/ As_Scope a ∈ anc)).
  { induction l as [|a l IH]; intros acc; cbn [foldl].
    - set_solver.
    - rewrite IH. destruct ((As_Scope a ==? scope) || scopeIn (As_Scope a) anc) eqn:E.
      + apply orb_true_iff in E. rewrite bool_decide_eq_true, scopeIn_spec in E. set_solver.
      + apply orb_false_iff in E. rewrite bool_decide_eq_false in E. destruct E as [E1 E2].
        assert (As_Scope a ∉ anc) by (rewrite <- scopeIn_spec; congruence). set_solver. }
  rewrite Hgen. set_solver.
Qed.

Lemma effects_spec capability caps :
  ((effects capability caps).1 = true <->
     exists c, c ∈ caps /\ Cap_Capability c = capability /\ Cap_Effect c <> EffectDeny) /\
  ((effects capability caps).2 = true <->
     exists c, c ∈ caps /\ Cap_Capability c = capability /\ Cap_Effect c = EffectDeny).
Proof.
  unfold effects. set (step := fun _ _ => _).
  assert (Hgen : forall ad : bool * bool,
    ((foldl step ad caps).1 = true <-> ad.1 = true \/
       exists c, c ∈ caps /\ Cap_Capability c = capability /\ Cap_Effect c <> EffectDeny) /\
    ((foldl step ad caps).2 = true <-> ad.2 = true \/
       exists c, c ∈ caps /\ Cap_Capability c = capability /\ Cap_Effect c = EffectDeny)).
  { induction caps as [|c caps IH]; intros ad; cbn [foldl]; [set_solver|].
    destruct (IH (step ad c)) as [-> ->]. unfold step.
    destruct (decide (Cap_Capability c = capability)) as [Hc|Hc];
      [rewrite bool_decide_true by done; cbn [negb]|rewrite bool_decide_false by done; cbn [negb]].
    - destruct (decide (Cap_Effect c = EffectDeny)) as [He|He];
        [rewrite bool_decide_true by done|rewrite bool_decide_false by done]; cbn; set_solver.
    - set_solver. }
  specialize (Hgen (false, false)). cbn in Hgen. split.
  - rewrite (proj1 Hgen). naive_solver.
  - rewrite (proj2 Hgen). naive_solver.
Qed.

Section Engine.
Context `{ResolverLaws R} (order : gset string -> list string).
Hypothesis order_perm : forall X, order X ≡ₚ elements X.

(** An assignment of the principal that counts at a scope. *)
Definition applies (r : R) (pt pid : string) (scope : Scope) (a : Assignment) : Prop :=
  assigned r a /\ As_PrincipalType a = pt /\ As_PrincipalID a = pid /\
  (As_Scope a = scope \/ ancestor r scope (As_Scope a)).

(** Some applicable role has an entry for the capability whose effect satisfies [P]. *)
Definition entry_with (P : string -> Prop) (r : R) (pt pid capability : string) (scope : Scope) : Prop :=
  exists a c, applies r pt pid scope a /\ role_entry r (As_RoleID a) c /\
    Cap_Capability c = capability /\ P (Cap_Effect c).

Definition denies := entry_with (fun e => e = EffectDeny).
Definition allows := entry_with (fun e => e <> EffectDeny).

Lemma HasCapability_ok r pt pid cap scope b :
  HasCapability order r pt pid cap scope = Ok b ->
  b = true <-> allows r pt pid cap scope /\ ~ denies r pt pid cap scope.
Proof.
  unfold HasCapability. destruct (_ || _ || _); [done|].
  destruct (AssignmentsForPrincipal r pt pid) as [asg|] eqn:Ea; [|done].
  pose proof (assignments_law _ _ _ _ Ea) as Hasg.
  assert (Hnone : forall P, asg = [] -> ~ entry_with P r pt pid cap scope).
  { intros P -> (a & c & (Ha & Ht & Hp & _) & _).
    assert (a ∈ []) as []%not_elem_of_nil by by apply Hasg. }
  destruct asg as [|a0 asg0] eqn:Easg.
  { intros [= <-]. split; [done|]. intros [Hal _]. by destruct (Hnone (fun e => e <> EffectDeny)). }
  rewrite <- Easg in *. clear Hnone a0 asg0 Easg.
  destruct (ScopeAncestors r scope) as [anc|] eqn:En; [|done].
  pose proof (ancestors_law _ _ _ En) as Hanc.
  assert (Hm : forall id, id ∈ matching scope anc asg <->
    exists a, applies r pt pid scope a /\ As_RoleID a = id).
  { intros id. rewrite elem_of_matching. unfold applies.
    setoid_rewrite Hasg. setoid_rewrite Hanc. naive_solver. }
  case_decide as Hempty.
  { intros [= <-]. split; [done|]. intros [(a & c & Happ & _) _].
    assert (As_RoleID a ∈ matching scope anc asg) by (apply Hm; eauto). set_solver. }
  destruct (RoleCapabilities r (order (matching scope anc asg))) as [caps|] eqn:Ec; [|done].
  pose proof (capabilities_law _ _ _ Ec) as Hcaps.
  assert (He : forall P, (exists c, c ∈ caps /\ Cap_Capability c = cap /\ P (Cap_Effect c)) <->
                         entry_with P r pt pid cap scope).
  { intros P. unfold entry_with. setoid_rewrite Hcaps. setoid_rewrite order_perm.
    setoid_rewrite elem_of_elements. setoid_rewrite Hm. naive_solver. }
  destruct (effects_spec cap caps) as [H1 H2].
  rewrite (He (fun e => e <> EffectDeny)) in H1. rewrite (He (fun e => e = EffectDeny)) in H2.
  unfold allows, denies. rewrite <- H1, <- H2.
  destruct (effects cap caps) as [[] []]; cbn; intros [= <-]; intuition congruence.
Qed.

(** C5: the capability engine, against any resolver that keeps its interface and for
    any iteration order of Go's maps: the answer is yes exactly when some role
    assigned at the scope or above it allows the capability and none of those roles
    denies it; an error comes only from an empty argument or a failing resolver. *)
Theorem HasCapability_spec r pt pid cap scope :
  match HasCapability order r pt pid cap scope with
  | Ok b => b = true <-> allows r pt pid cap scope /\ ~ denies r pt pid cap scope
  | Err _ => pt = "" \/ pid = "" \/ cap = "" \/
      is_ok (AssignmentsForPrincipal r pt pid) = false \/
      is_ok (ScopeAncestors r scope) = false \/
      (exists ids, is_ok (RoleCapabilities r ids) = false)
  end.
Proof.
  destruct (HasCapability order r pt pid cap scope) eqn:E; [by apply HasCapability_ok|].
  revert E. unfold HasCapability. destruct (_ || _ || _) eqn:Ev.
  { intros _. rewrite !orb_true_iff, !bool_decide_eq_true in Ev. naive_solver. }
  destruct (AssignmentsForPrincipal r pt pid) as [[|a asg]|]; [done| |by auto].
  destruct (ScopeAncestors r scope) as [anc|]; [|by auto 6].
  cbv zeta. destruct (decide (matching scope anc (a :: asg) = ∅)); [done|].
  destruct (RoleCapabilities r _) eqn:Ec.
  - destruct (effects cap _).2; discriminate.
  - intros _. do 5 right. eexists. by rewrite Ec.
Qed.
End Engine.

(** ** The store implements the resolver's interface *)

Definition platform : Scope := mkScope ScopePlatform "".

(** Scopes above a scope, as far as the statements that succeed can tell. *)
Inductive above (db : TenancyDB) : Scope -> Scope -> Prop :=
| above_platform s : above db s platform
| above_env e p : query_row db QEnvironment e (environments db) = Some p -> p <> "" ->
    above db (mkScope ScopeEnvironment e) (mkScope ScopeProject p)
| above_env_project e p s : query_row db QEnvironment e (environments db) = Some p ->
    above db (mkScope ScopeProject p) s -> above db (mkScope ScopeEnvironment e) s
| above_project_team p g : q_ok db QGroupProjects = true -> (g, p) ∈ group_projects db -> g <> "" ->
    above db (mkScope ScopeProject p) (mkScope ScopeTeam g)
| above_project_group_org p g o : q_ok db QGroupProjects = true -> (g, p) ∈ group_projects db ->
    query_row db QGroupOrg g (groups db) = Some o -> o <> "" ->
    above db (mkScope ScopeProject p) (mkScope ScopeOrg o)
| above_project_org p o : query_row db QProjectOrg p (project_orgs db) = Some (Some o) -> o <> "" ->
    above db (mkScope ScopeProject p) (mkScope ScopeOrg o)
| above_team_group t o : query_row db QGroupOrg t (groups db) = Some o -> o <> "" ->
    above db (mkScope ScopeTeam t) (mkScope ScopeOrg o)
| above_team_org t o : query_row db QTeamOrg t (teams db) = Some (Some o) -> o <> "" ->
    above db (mkScope ScopeTeam t) (mkScope ScopeOrg o).

Lemma elem_of_dedupe_seen seen l s : s ∈ dedupe_seen seen l <-> s ∈ l /\ s ∉ seen.
Proof.
  revert seen. induction l as [|x l IH]; intros seen; cbn; [set_solver|].
  case_decide; [|rewrite elem_of_cons]; rewrite IH; destruct (decide (s = x)); set_solver.
Qed.

Lemma elem_of_dedupe l s : s ∈ dedupeScopes l <-> s ∈ l.
Proof. unfold dedupeScopes. rewrite elem_of_dedupe_seen. set_solver. Qed.

Lemma dedupe_nodup l : NoDup (dedupeScopes l).
Proof.
  unfold dedupeScopes. generalize (@nil Scope) as seen.
  induction l as [|x l IH]; intros seen; cbn; [constructor|]. case_decide; [done|].
  constructor; [|done]. rewrite elem_of_dedupe_seen. set_solver.
Qed.

Lemma elem_of_push t id s : s ∈ push t id <-> id <> "" /\ s = mkScope t id.
Proof.
  unfold push. destruct (decide (id = "")) as [->|Hid].
  - rewrite bool_decide_true by done. set_solver.
  - rewrite bool_decide_false by done. cbn. set_solver.
Qed.

Lemma elem_of_push_row t r s : s ∈ push_row t r <-> exists id, r = Some id /\ id <> "" /\ s = mkScope t id.
Proof. destruct r; cbn; [rewrite elem_of_push|]; naive_solver set_solver. Qed.

Lemma mjoin_Some {A} (o : option (option A)) x : mjoin o = Some x <-> o = Some (Some x).
Proof. destruct o as [[]|]; cbn; naive_solver. Qed.

Lemma project_ancestors rec db p s :
  s ∈ ancestors_body rec db (mkScope ScopeProject p) <-> above db (mkScope ScopeProject p) s.
Proof.
  unfold ancestors_body. cbn [Scope_Type Scope_ID]. eval_strings.
  rewrite elem_of_dedupe, !elem_of_app, elem_of_push_row, list_elem_of_singleton.
  setoid_rewrite mjoin_Some. split.
  - intros [[Hg|(o & Ho & Hne & ->)]| ->]; [|by apply above_project_org|constructor].
    unfold query in Hg. destruct (q_ok db QGroupProjects) eqn:Eq; [|set_solver].
    apply list_elem_of_join in Hg as (l & Hs & Hl).
    apply list_elem_of_fmap in Hl as ([g q] & -> & Hr). apply list_elem_of_filter in Hr as [[= ->] Hr].
    cbn [fst] in Hs. rewrite elem_of_app, elem_of_push, elem_of_push_row in Hs.
    destruct Hs as [[Hne ->]|(o & Ho & Hne & ->)]; [by constructor|by eapply above_project_group_org].
  - assert (Hrow : forall g, q_ok db QGroupProjects = true -> (g, p) ∈ group_projects db ->
      forall s', s' ∈ (push ScopeTeam g ++ push_row ScopeOrg (query_row db QGroupOrg g (groups db)))%list ->
      s' ∈ match query db QGroupProjects (base.filter (fun r : string * string => r.2 = p) (group_projects db)) with
           | Some rows => mjoin ((fun r : string * string => push ScopeTeam r.1 ++
                   push_row ScopeOrg (query_row db QGroupOrg r.1 (groups db)))%list <$> rows)
           | None => [] end).
    { intros g Hq Hg s' Hs'. unfold query. rewrite Hq. apply list_elem_of_join.
      eexists; split; [exact Hs'|]. apply list_elem_of_fmap. exists (g, p). split; [done|].
      by apply list_elem_of_filter. }
    inversion 1; subst; [by right| | |].
    + left. left. eapply Hrow; [done..|]. rewrite elem_of_app, elem_of_push. by left.
    + left. left. eapply Hrow; [done..|]. rewrite elem_of_app, elem_of_push_row. right. eauto.
    + left. right. eauto.
Qed.

Lemma ancestors_above db scope s :
  s ∈ ancestors_body (ancestors_body (fun _ => []) db) db scope <-> above db scope s.
Proof.
  destruct scope as [t i]. destruct (decide (t = ScopeProject)) as [->|Hp]; [apply project_ancestors|].
  unfold ancestors_body at 1. cbn [Scope_Type Scope_ID].
  rewrite elem_of_dedupe, elem_of_app, list_elem_of_singleton.
  destruct (decide (t = ScopeEnvironment)) as [->|He].
  { eval_strings. destruct (query_row db QEnvironment i (environments db)) as [p|] eqn:Eq.
    - rewrite elem_of_app, elem_of_push, project_ancestors. split.
      + intros [[[? ->]|?]| ->]; [by constructor|by eapply above_env_project|constructor].
      + inversion 1; subst; simplify_eq; auto.
    - split; [intros [[]%elem_of_nil| ->]; constructor|].
      inversion 1; subst; simplify_eq; by right. }
  rewrite (bool_decide_false (t = ScopeEnvironment)), (bool_decide_false (t = ScopeProject)) by done.
  destruct (decide (t = ScopeTeam)) as [->|Ht].
  - eval_strings. rewrite elem_of_app, !elem_of_push_row. setoid_rewrite mjoin_Some. split.
    + intros [[(o & Ho & ? & ->)|(o & Ho & ? & ->)]| ->];
        [by apply above_team_group|by apply above_team_org|constructor].
    + inversion 1; subst; eauto 8.
  - rewrite (bool_decide_false (t = ScopeTeam)) by done. split.
    + intros [[]%elem_of_nil| ->]. constructor.
    + inversion 1; subst; by auto.
Qed.

(** The entries of a role in [role_permissions], when the statement succeeds. *)
Definition role_row (db : TenancyDB) (id : string) (c : RoleCapability) : Prop :=
  mkRolePerm id (Cap_Capability c) (Cap_Effect c) ∈ role_permissions db.

#[export] Instance store_ResolverLaws : ResolverLaws TenancyDB.
Proof.
  refine {| assigned := fun db a => a ∈ role_assignments db; role_entry := role_row; ancestor := above |}.
  - intros db pt pid l. cbn. unfold Store_AssignmentsForPrincipal, query.
    destruct (q_ok db QAssignments); [|done]. intros [= <-] a. rewrite list_elem_of_filter. naive_solver.
  - intros db ids l. cbn. unfold Store_RoleCapabilities, query.
    destruct ids as [|id0 ids0] eqn:Ei; [intros [= <-]; set_solver|]. rewrite <- Ei. clear id0 ids0 Ei.
    destruct (q_ok db QRoleCapabilities); [|done]. intros [= <-] c.
    rewrite list_elem_of_fmap. setoid_rewrite list_elem_of_filter. unfold role_row. split.
    + intros ([id p e] & -> & Hid & Hin). by exists id.
    + intros (id & Hid & Hin). exists (mkRolePerm id (Cap_Capability c) (Cap_Effect c)).
      split; [by destruct c|]. by split.
  - intros db s l. cbn. intros [= <-] s'. apply ancestors_above.
Defined.

Definition store_up (db : TenancyDB) : Prop := forall q, q_ok db q = true.

(** An explicit deny of a role assigned at the scope or above it. *)
Lemma ScopedDeny_iff db pt pid cap t i :
  store_up db ->
  ScopedDeny db pt pid cap t i = true <-> denies db pt pid cap (mkScope t i).
Proof.
  intros Hup. unfold ScopedDeny.
  destruct (Store_AssignmentsForPrincipal db pt pid) as [asg|] eqn:Ea;
    [|by unfold Store_AssignmentsForPrincipal, query in Ea; rewrite Hup in Ea].
  pose proof (assignments_law (R := TenancyDB) _ _ _ _ Ea) as Hasg. cbn in Hasg.
  destruct asg as [|a0 asg0] eqn:Easg.
  { split; [done|]. intros (a & c & (Ha & Ht & Hp & _) & _).
    assert (a ∈ []) as []%not_elem_of_nil by by apply Hasg. }
  rewrite <- Easg in *. clear a0 asg0 Easg. cbn zeta. unfold Store_ScopeAncestors.
  set (anc := ancestors_body _ db _). set (ids := As_RoleID <$> _).
  assert (Hids : forall id, id ∈ ids <-> exists a, applies db pt pid (mkScope t i) a /\ As_RoleID a = id).
  { intros id. unfold ids, applies. rewrite list_elem_of_fmap. setoid_rewrite list_elem_of_filter.
    setoid_rewrite Hasg. setoid_rewrite orb_true_iff. setoid_rewrite bool_decide_eq_true.
    fold (scopeIn). setoid_rewrite scopeIn_spec. cbn. unfold anc. setoid_rewrite ancestors_above.
    naive_solver. }
  unfold query. rewrite Hup.
  assert (Hd : denies db pt pid cap (mkScope t i) <->
    exists r, r ∈ base.filter (fun r => rp_role r ∈ ids /\ rp_perm r = cap /\ rp_effect r = EffectDeny)
                (role_permissions db)).
  { setoid_rewrite list_elem_of_filter. setoid_rewrite Hids. split.
    - intros (a & c & Ha & Hr & <- & He). cbn in Hr. unfold role_row in Hr. rewrite He in Hr.
      exists (mkRolePerm (As_RoleID a) (Cap_Capability c) EffectDeny). cbn. eauto 10.
    - intros ([id p e] & ((a & Ha & Hid) & Hp & He) & Hr). cbn in Hid, Hp, He. subst id p e.
      exists a, (mkCap cap EffectDeny). do 2 (split; [done|]). done. }
  rewrite Hd. destruct ids as [|id0 ids0].
  { split; [done|]. intros (r & Hr). apply list_elem_of_filter in Hr as ((Hr & _) & _). by apply not_elem_of_nil in Hr. }
  destruct (base.filter _ _) as [|r0 l0].
  - split; [done|]. intros (r & Hr). by apply not_elem_of_nil in Hr.
  - split; [|done]. intros _. exists r0. by left.
Qed.

Section StoreCapability.
Context (order : gset string -> list string) (order_perm : forall X, order X ≡ₚ elements X).

Lemma Store_HasCapability_iff db pt pid cap t i :
  store_up db -> pt <> "" -> pid <> "" -> cap <> "" ->
  Store_HasCapability order db pt pid cap t i = true <->
  allows db pt pid cap (mkScope t i) /\ ~ denies db pt pid cap (mkScope t i).
Proof.
  intros Hup Hpt Hpid Hcap. unfold Store_HasCapability.
  destruct (HasCapability order db pt pid cap (mkScope t i)) eqn:E; [by eapply HasCapability_ok|].
  exfalso. revert E. unfold HasCapability.
  rewrite !bool_decide_false by done. cbn -[decide].
  unfold Store_AssignmentsForPrincipal, query. rewrite Hup.
  destruct (base.filter _ _); [done|]. case_decide; [done|].
  unfold Store_RoleCapabilities, query. rewrite Hup.
  destruct (order _); destruct (effects _ _).2; done.
Qed.
(** C11: the store's two capability questions agree with the tables: [HasCapability]
    is a role entry that allows it and none that denies it among the roles assigned
    at the scope or above, [ScopedDeny] is exactly such a denying entry, and the two
    are never both true. *)
Theorem store_capability_spec db pt pid cap t i :
  store_up db -> pt <> "" -> pid <> "" -> cap <> "" ->
  (Store_HasCapability order db pt pid cap t i = true <->
     allows db pt pid cap (mkScope t i) /\ ~ denies db pt pid cap (mkScope t i)) /\
  (ScopedDeny db pt pid cap t i = true <-> denies db pt pid cap (mkScope t i)) /\
  (Store_HasCapability order db pt pid cap t i = true -> ScopedDeny db pt pid cap t i = false).
Proof.
  intros Hup Hpt Hpid Hcap.
  pose proof (Store_HasCapability_iff db pt pid cap t i Hup Hpt Hpid Hcap) as H1.
  pose proof (ScopedDeny_iff db pt pid cap t i Hup) as H2.
  split; [done|]. split; [done|]. intros [_ Hd]%H1. apply not_true_iff_false. by rewrite H2.
Qed.

Lemma above_with_assignments l db s s' : above (with_assignments l db) s s' <-> above db s s'.
Proof. split; induction 1; by econstructor. Qed.

Lemma AssignRole_rows pt pid t i role db db' :
  AssignRole pt pid t i role db = (db', true) ->
  exists l, db' = with_assignments l db /\
    forall a, a ∈ l <-> a ∈ role_assignments db \/ a = mkAssignment pt pid (mkScope t i) role.
Proof.
  unfold AssignRole. destruct (negb _); [done|]. case_decide as Hin; intros [= <-].
  - exists (role_assignments db). split; [by destruct db|]. set_solver.
  - eexists. split; [done|]. set_solver.
Qed.

(** A role granted at a scope takes effect there and at every scope below it,
    unless an applicable role denies the capability; revoking the grant removes that
    assignment and no other. *)
Theorem grant_inherits db db' pt pid cap t i role e :
  store_up db -> pt <> "" -> pid <> "" -> cap <> "" ->
  AssignRole pt pid t i role db = (db', true) ->
  mkRolePerm role cap e ∈ role_permissions db -> e <> EffectDeny ->
  (forall t' i', mkScope t' i' = mkScope t i \/ above db (mkScope t' i') (mkScope t i) ->
     ~ denies db' pt pid cap (mkScope t' i') ->
     Store_HasCapability order db' pt pid cap t' i' = true) /\
  (forall a, a ∈ role_assignments (RevokeRole pt pid t i role db') <->
     a ∈ role_assignments db' /\ a <> mkAssignment pt pid (mkScope t i) role).
Proof.
  intros Hup Hpt Hpid Hcap (l & -> & Hl)%AssignRole_rows Hrow He. split.
  - intros t' i' Hs Hd. apply Store_HasCapability_iff; [done..|]. split; [|done].
    exists (mkAssignment pt pid (mkScope t i) role), (mkCap cap e).
    split; [|by repeat split]. split; [by apply Hl; right|]. split; [done|]. split; [done|].
    destruct Hs as [<-|Hs]; [by left|right]. by apply above_with_assignments.
  - intros a. cbn. rewrite list_elem_of_filter. naive_solver.
Qed.
End StoreCapability.

(** Reseller grants are not inherited: no scope has a reseller above it. *)
Lemma reseller_not_inherited db s s' : above db s s' -> Scope_Type s' <> ScopeReseller.
Proof. induction 1; done. Qed.

Definition db_empty : TenancyDB := mkTenancy (fun _ => true) [] [] [] [] [] [] [] [] [] [] [] [].

(** A project p1 in group g1 of org o1; the role dev allows project.read, the role
    banned denies it; ann is dev on the project, eve too but banned on the org. *)
Definition role_named (id : string) (admin : bool) : Role := mkRole id id "" [] "" admin false false false.

Definition db1 : TenancyDB :=
  mkTenancy (fun _ => true)
    [mkAssignment "user" "ann" (mkScope "project" "p1") "dev";
     mkAssignment "user" "eve" (mkScope "project" "p1") "dev";
     mkAssignment "user" "eve" (mkScope "org" "o1") "banned"]
    [mkRolePerm "dev" "project.read" "allow"; mkRolePerm "banned" "project.read" "deny"]
    [role_named "dev" false; role_named "banned" false; role_named "admin" true] ["project.read"]
    [("e1", "p1")] [("g1", "p1")] [("g1", "o1")] [("p1", Some "o1")] []
    [mkUser "u1" "ann" "member" "" false "" "" 0; mkUser "u2" "bob" "banned" "" false "" "" 0] [] [].

Lemma HasCapability_spec_witness :
  HasCapability elements db1 "user" "ann" "project.read" (mkScope "environment" "e1") = Ok true /\
  allows db1 "user" "ann" "project.read" (mkScope "environment" "e1").
Proof.
  split; [by vm_compute|].
  pose proof (HasCapability_spec elements (fun X => Permutation_refl _) db1
    "user" "ann" "project.read" (mkScope "environment" "e1")) as H.
  replace (HasCapability elements db1 "user" "ann" "project.read" (mkScope "environment" "e1"))
    with (@Ok string bool true) in H by (by vm_compute).
  apply H. reflexivity.
Defined.

Lemma store_capability_spec_witness :
  ScopedDeny db1 "user" "eve" "project.read" "environment" "e1" = true /\
  denies db1 "user" "eve" "project.read" (mkScope "environment" "e1").
Proof.
  split; [by vm_compute|].
  apply (store_capability_spec elements (fun X => Permutation_refl _) db1 "user" "eve" "project.read"
    "environment" "e1"); [done..|by vm_compute].
Defined.

Lemma grant_inherits_witness :
  Store_HasCapability elements (AssignRole "user" "bob" "team" "g1" "dev" db1).1
    "user" "bob" "project.read" "project" "p1" = true.
Proof.
  refine (proj1 (grant_inherits elements (fun X => Permutation_refl _) db1
    (AssignRole "user" "bob" "team" "g1" "dev" db1).1 "user" "bob" "project.read" "team" "g1" "dev" "allow"
    _ _ _ _ _ _ _) "project" "p1" _ _); [done|done|done|done|by vm_compute|by left|done| |].
  - right. apply above_project_team; [done|by left|done].
  - intros Hd. apply ScopedDeny_iff in Hd; [|done]. by vm_compute in Hd.
Defined.

(** A failing statement drops ancestors silently, and with them the denials there. *)
Lemma ancestors_fail_open :
  let up := db1 in
  let down := mkTenancy (fun q => match q with QGroupProjects | QProjectOrg => false | _ => true end)
    (role_assignments up) (role_permissions up) (roles up) (permissions up) (environments up)
    (group_projects up) (groups up) (project_orgs up) (teams up) (users up) (org_members up)
    (project_members up) in
  Store_HasCapability elements up "user" "eve" "project.read" "project" "p1" = false /\
  Store_HasCapability elements down "user" "eve" "project.read" "project" "p1" = true.
Proof. by vm_compute. Qed.

(** The membership checks ignore the effect column: a role that denies grants. *)
Lemma legacy_ignores_deny : HasPermission db1 "bob" "project.read" = true.
Proof. by vm_compute. Qed.

Close Scope string_scope.
