(* ===== verification/GoCrypto.v ===== *)
(** * Go's [crypto/sha256], [encoding/hex] and [encoding/base64]

    What the credential code uses of the standard library, executable: SHA-256 of
    a byte string (FIPS 180-4, 32-bit words as [Z] with their wrap-around), the
    lower-case hexadecimal encoding, and the unpadded URL alphabet of base64 with
    its decoder. *)
From S2P Require Import Prelude GoStrings GoNet.
From Stdlib Require Import String Ascii.

Open Scope Z_scope.

(** ** Bytes *)

Fixpoint bytes_of (s : string) : list Z :=
  match s with
  | EmptyString => []
  | String c s => byte_of c :: bytes_of s
  end.

Definition chr (b : Z) : ascii := ascii_of_nat (Z.to_nat b).

Fixpoint string_of (l : list Z) : string :=
  match l with
  | [] => EmptyString
  | b :: l => String (chr b) (string_of l)
  end.

Definition is_byte (b : Z) : Prop := 0 <= b < 256.

Lemma byte_of_range c : is_byte (byte_of c).
Proof. unfold is_byte, byte_of. pose proof (nat_ascii_bounded c). lia. Qed.

Lemma chr_byte_of c : chr (byte_of c) = c.
Proof. unfold chr, byte_of. by rewrite Nat2Z.id, ascii_nat_embedding. Qed.

Lemma byte_of_chr b : is_byte b -> byte_of (chr b) = b.
Proof. unfold is_byte, chr, byte_of. intros. rewrite nat_ascii_embedding; lia. Qed.

Lemma string_of_bytes s : string_of (bytes_of s) = s.
Proof. induction s as [|c s IH]; cbn; [done|]. by rewrite chr_byte_of, IH. Qed.

Lemma bytes_of_string l : Forall is_byte l -> bytes_of (string_of l) = l.
Proof. induction 1 as [|b l Hb _ IH]; cbn; [done|]. by rewrite byte_of_chr, IH. Qed.

Lemma bytes_of_range s : Forall is_byte (bytes_of s).
Proof. induction s; constructor; [apply byte_of_range|done]. Qed.

(** ** SHA-256 *)

Definition w32 (z : Z) : Z := z mod 2 ^ 32.
Definition rotr (n x : Z) : Z := Z.lor (Z.shiftr x n) (w32 (Z.shiftl x (32 - n))).

(** The constants are the first 32 bits of the fractional parts of the cube roots
    of the first 64 primes, and of the square roots of the first eight. *)
Fixpoint cube_root (bits : nat) (r x : Z) : Z :=
  match bits with
  | O => r
  | S k => let r' := r + 2 ^ Z.of_nat k in cube_root k (if r' * (r' * r') <=? x then r' else r) x
  end.

Definition is_prime (n : Z) : bool :=
  forallb (fun d => negb (n mod Z.of_nat d =? 0)) (seq 2 (Z.to_nat n - 2)).

Definition primes : list Z :=
  Eval vm_compute in base.filter (fun p => is_prime p = true) (Z.of_nat <$> seq 2 310).

Definition K256 : list Z :=
  Eval vm_compute in (fun p => w32 (cube_root 40 0 (p * 2 ^ 96))) <$> primes.

Definition H256 : list Z :=
  Eval vm_compute in (fun p => w32 (Z.sqrt (p * 2 ^ 64))) <$> firstn 8 primes.

(** Words of a block, big-endian. *)
Fixpoint words (n : nat) (l : list Z) : list Z :=
  match n, l with
  | S n, a :: b :: c :: d :: l => (a * 2 ^ 24 + b * 2 ^ 16 + c * 2 ^ 8 + d) :: words n l
  | _, _ => []
  end.

(** The message schedule, newest word first. *)
Fixpoint schedule (n : nat) (w : list Z) : list Z :=
  match n with
  | O => w
  | S n =>
      let at_ i := nth i w 0 in
      let s0 := let x := at_ 14%nat in Z.lxor (Z.lxor (rotr 7 x) (rotr 18 x)) (Z.shiftr x 3) in
      let s1 := let x := at_ 1%nat in Z.lxor (Z.lxor (rotr 17 x) (rotr 19 x)) (Z.shiftr x 10) in
      schedule n (w32 (at_ 15%nat + s0 + at_ 6%nat + s1) :: w)
  end.

Definition round (st : list Z) (kw : Z * Z) : list Z :=
  match st with
  | [a; b; c; d; e; f; g; h] =>
      let S1 := Z.lxor (Z.lxor (rotr 6 e) (rotr 11 e)) (rotr 25 e) in
      let ch := Z.lxor (Z.land e f) (Z.land (Z.lxor e (2 ^ 32 - 1)) g) in
      let t1 := w32 (h + S1 + ch + kw.1 + kw.2) in
      let S0 := Z.lxor (Z.lxor (rotr 2 a) (rotr 13 a)) (rotr 22 a) in
      let maj := Z.lxor (Z.lxor (Z.land a b) (Z.land a c)) (Z.land b c) in
      [w32 (t1 + w32 (S0 + maj)); a; b; c; w32 (d + t1); e; f; g]
  | _ => st
  end.

Definition compress (st : list Z) (block : list Z) : list Z :=
  let w := rev (schedule 48 (rev (words 16 block))) in
  zip_with (fun x y => w32 (x + y)) st (foldl round st (zip K256 w)).

Definition be64 (n : Z) : list Z :=
  (fun k => (n / 2 ^ (8 * k)) mod 256) <$> [7; 6; 5; 4; 3; 2; 1; 0].

Definition pad (l : list Z) : list Z :=
  let n := Z.of_nat (List.length l) in
  (l ++ [128] ++ repeat 0 (Z.to_nat ((55 - n) mod 64)) ++ be64 (8 * n))%list.

Fixpoint blocks (fuel : nat) (st : list Z) (l : list Z) : list Z :=
  match fuel, l with
  | S fuel, _ :: _ => blocks fuel (compress st (firstn 64 l)) (skipn 64 l)
  | _, _ => st
  end.

Definition be32 (w : Z) : list Z := (fun k => (w / 2 ^ (8 * k)) mod 256) <$> [3; 2; 1; 0].

(** [sha256.Sum256]: every block takes 64 bytes, so the length is enough fuel. *)
Definition Sum256 (s : string) : list Z :=
  let p := pad (bytes_of s) in
  mjoin (be32 <$> blocks (List.length p) H256 p).

(** ** [hex.EncodeToString] *)

Fixpoint EncodeHex (l : list Z) : string :=
  match l with
  | [] => EmptyString
  | b :: l => String (hex_digit (b / 16)) (String (hex_digit (b mod 16)) (EncodeHex l))
  end.

Definition hash_hex (s : string) : string := EncodeHex (Sum256 s).

Example sha256_abc :
  hash_hex "abc" = "ba7816bf8f01cfea414140de5dae2223b00361a396177a9cb410ff61f20015ad"%string.
Proof. by vm_compute. Qed.

Example sha256_two_blocks :
  hash_hex "abcdbcdecdefdefgefghfghighijhijkijkljklmklmnlmnomnopnopq" =
  "248d6a61d20638b8e5c026930c3e6039a33ce45964ff2167f6ecedd419db06c1"%string.
Proof. by vm_compute. Qed.

Lemma round_length st kw : List.length st = 8%nat -> List.length (round st kw) = 8%nat.
Proof. intros. by do 9 (destruct st as [|? st]; try done). Qed.

Lemma rounds_length l st : List.length st = 8%nat -> List.length (foldl round st l) = 8%nat.
Proof. revert st. induction l; cbn; auto using round_length. Qed.

Lemma blocks_length fuel st l : List.length st = 8%nat -> List.length (blocks fuel st l) = 8%nat.
Proof.
  revert st l. induction fuel as [|fuel IH]; intros st l Hst; cbn -[firstn skipn compress]; [done|].
  destruct l; [done|]. apply IH. unfold compress. rewrite length_zip_with, rounds_length; lia.
Qed.

Lemma be32_bytes w : Forall is_byte (be32 w).
Proof. repeat constructor; unfold is_byte; apply Z.mod_pos_bound; lia. Qed.

Lemma Sum256_length s : List.length (Sum256 s) = 32%nat.
Proof.
  unfold Sum256. cbv zeta. set (st := blocks _ _ _).
  assert (Hst : List.length st = 8%nat) by (by apply blocks_length).
  rewrite length_concat_map. clearbody st. by do 9 (destruct st as [|? st]; try done).
Qed.

Lemma Sum256_bytes s : Forall is_byte (Sum256 s).
Proof.
  unfold Sum256. cbv zeta. apply Forall_forall. intros b Hb.
  apply list_elem_of_join in Hb as (l & Hb & Hl). apply list_elem_of_fmap in Hl as (w & -> & _).
  pose proof (be32_bytes w) as Hf. rewrite Forall_forall in Hf. auto.
Qed.

Definition is_hex (c : ascii) : bool := is_digit c || ((97 <=? byte_of c) && (byte_of c <=? 102)).

Lemma is_hex_digit d : 0 <= d < 16 -> is_hex (hex_digit d) = true.
Proof. apply (Zrange_check 16 (fun d => is_hex (hex_digit d))). by vm_compute. Qed.

Lemma EncodeHex_wf l : Forall is_byte l ->
  String.length (EncodeHex l) = (2 * List.length l)%nat /\ sall is_hex (EncodeHex l) = true.
Proof.
  induction 1 as [|b l Hb _ [IH1 IH2]]; [done|]. unfold is_byte in Hb. cbn [EncodeHex String.length sall].
  rewrite IH2, !is_hex_digit; [|apply Z.mod_pos_bound; lia|
    split; [apply Z.div_pos; lia|apply Z.div_lt_upper_bound; lia]].
  split; [cbn [List.length]; lia|done].
Qed.

Lemma hash_hex_wf s : String.length (hash_hex s) = 64%nat /\ sall is_hex (hash_hex s) = true.
Proof.
  destruct (EncodeHex_wf (Sum256 s) (Sum256_bytes s)) as [H1 H2]. rewrite Sum256_length in H1. by split.
Qed.

(** ** [base64.RawURLEncoding] *)

Definition b64_alphabet : string := "ABCDEFGHIJKLMNOPQRSTUVWXYZabcdefghijklmnopqrstuvwxyz0123456789-_".

Definition b64_char (d : Z) : ascii := default "A"%char (String.get (Z.to_nat d) b64_alphabet).

Definition b64_val (c : ascii) : option Z :=
  let b := byte_of c in
  if is_upper c then Some (b - 65)
  else if is_lower c then Some (b - 71)
  else if is_digit c then Some (b + 4)
  else if b =? 45 then Some 62
  else if b =? 95 then Some 63
  else None.

Fixpoint b64_encode (l : list Z) : string :=
  match l with
  | a :: b :: c :: l =>
      String (b64_char (a / 4)) (String (b64_char (a mod 4 * 16 + b / 16))
        (String (b64_char (b mod 16 * 4 + c / 64)) (String (b64_char (c mod 64)) (b64_encode l))))
  | [a; b] =>
      String (b64_char (a / 4)) (String (b64_char (a mod 4 * 16 + b / 16))
        (String (b64_char (b mod 16 * 4)) EmptyString))
  | [a] => String (b64_char (a / 4)) (String (b64_char (a mod 4 * 16)) EmptyString)
  | [] => EmptyString
  end.

(** The decoder ignores carriage returns and line feeds, refuses a character
    outside the alphabet and a final group of one character, and does not check
    the unused low bits of a final group of two or three. *)
Fixpoint b64_strip (s : string) : string :=
  match s with
  | EmptyString => EmptyString
  | String c s => if (byte_of c =? 10) || (byte_of c =? 13) then b64_strip s else String c (b64_strip s)
  end.

Fixpoint b64_groups (s : string) : option (list Z) :=
  match s with
  | EmptyString => Some []
  | String a (String b (String c (String d s))) =>
      w ← b64_val a; x ← b64_val b; y ← b64_val c; z ← b64_val d; l ← b64_groups s;
      Some (w * 4 + x / 16 :: x mod 16 * 16 + y / 4 :: y mod 4 * 64 + z :: l)
  | String a (String b (String c EmptyString)) =>
      w ← b64_val a; x ← b64_val b; y ← b64_val c;
      Some [w * 4 + x / 16; x mod 16 * 16 + y / 4]
  | String a (String b EmptyString) =>
      w ← b64_val a; x ← b64_val b; Some [w * 4 + x / 16]
  | String a EmptyString => None
  end.

Definition EncodeB64 (s : string) : string := b64_encode (bytes_of s).
Definition DecodeB64 (s : string) : option string := string_of <$> b64_groups (b64_strip s).

Definition is_b64 (c : ascii) : bool :=
  match b64_val c with Some _ => negb ((byte_of c =? 10) || (byte_of c =? 13) || (byte_of c =? 46)) | None => false end.

Lemma b64_char_ok d : 0 <= d < 64 -> b64_val (b64_char d) = Some d /\ is_b64 (b64_char d) = true.
Proof.
  intros Hd. assert (H : bool_decide (b64_val (b64_char d) = Some d) && is_b64 (b64_char d) = true)
    by (revert d Hd; apply (Zrange_check 64 (fun d => bool_decide (b64_val (b64_char d) = Some d) &&
          is_b64 (b64_char d))); by vm_compute).
  by bools.
Qed.

Lemma b64_val_char d : 0 <= d < 64 -> b64_val (b64_char d) = Some d.
Proof. apply b64_char_ok. Qed.

Lemma is_b64_char d : 0 <= d < 64 -> is_b64 (b64_char d) = true.
Proof. apply b64_char_ok. Qed.

(** Induction three bytes at a time, as the encoder consumes them. *)
Lemma list_ind3 {A} (P : list A -> Prop) :
  P [] -> (forall a, P [a]) -> (forall a b, P [a; b]) ->
  (forall a b c l, P l -> P (a :: b :: c :: l)) -> forall l, P l.
Proof.
  intros H0 H1 H2 H3. fix IH 1. intros [|a [|b [|c l]]]; [apply H0|apply H1|apply H2|apply H3, IH].
Qed.

Ltac b64_range := unfold is_byte in *; Z.to_euclidean_division_equations; lia.

Lemma b64_encode_wf l : Forall is_byte l -> sall is_b64 (b64_encode l) = true.
Proof.
  induction l as [| | |a b c l IH] using list_ind3; intros H; decompose_Forall_hyps; cbn [b64_encode sall];
    rewrite ?is_b64_char by b64_range; [done..|]. by rewrite IH.
Qed.

Lemma b64_strip_id s : sall is_b64 s = true -> b64_strip s = s.
Proof.
  induction s as [|c s IH]; cbn; [done|]. intros [Hc Hs]%andb_true_iff.
  unfold is_b64 in Hc. destruct (b64_val c); [|done].
  destruct ((byte_of c =? 10) || (byte_of c =? 13)); [done|]. by rewrite IH.
Qed.

Lemma b64_groups_encode l : Forall is_byte l -> b64_groups (b64_encode l) = Some l.
Proof.
  induction l as [| | |a b c l IH] using list_ind3; intros H; decompose_Forall_hyps; cbn [b64_encode b64_groups];
    rewrite ?b64_val_char by b64_range; cbn [mbind option_bind]; [done| | |];
    rewrite ?IH by done; cbn [mbind option_bind]; repeat f_equal; b64_range.
Qed.

Lemma DecodeB64_EncodeB64 s : DecodeB64 (EncodeB64 s) = Some s.
Proof.
  unfold DecodeB64, EncodeB64. pose proof (bytes_of_range s) as Hb.
  rewrite b64_strip_id by (by apply b64_encode_wf). rewrite b64_groups_encode by done. cbn.
  by rewrite string_of_bytes.
Qed.

Lemma EncodeB64_no_dot s : sall (fun c => negb (Ascii.eqb c "."%char)) (EncodeB64 s) = true.
Proof.
  eapply sall_impl; [|apply b64_encode_wf, bytes_of_range]. intros c Hc.
  apply negb_true_iff, Ascii.eqb_neq. intros ->. by vm_compute in Hc.
Qed.

Close Scope Z_scope.
