(* ===== verification/Auth.v ===== *)
(** * Credentials ([internal/auth], [store/sessions.go])

    Password verification, signed tokens, opaque tokens and sessions. SHA-256, hex
    and base64 are the executable definitions of [GoCrypto]; Ed25519 and the JSON
    codec are arguments of the token operations, with what the code relies on (a
    signature verifies under its own key; a document of printable strings and
    integers below 2^53 reads back) as hypotheses. Times are Unix nanoseconds. *)
From S2P Require Import Prelude GoStrings GoNet GoCrypto.
From Stdlib Require Import String Ascii.

Open Scope string_scope.
Open Scope Z_scope.

(** ** [auth/password.go] *)

Definition HashPassword (password salt : string) : string := hash_hex (salt ++ password).

(** The loop [diff |= got[i] ^ expected[i]] over strings of one length. *)
Fixpoint diff_loop (diff : Z) (got expected : string) : Z :=
  match got, expected with
  | String a got, String b expected =>
      diff_loop (Z.lor diff (Z.lxor (byte_of a) (byte_of b))) got expected
  | _, _ => diff
  end.

Definition VerifyPassword (password salt expected : string) : bool :=
  if (password ==? "") || (salt ==? "") || (expected ==? "") then false
  else
    let got := HashPassword password salt in
    if negb (String.length got =? String.length expected)%nat then false
    else diff_loop 0 got expected =? 0.

Definition ValidateBootstrapPassword (password : string) : bool :=
  negb (String.length password <? 12)%nat.

Lemma diff_loop_zero d got expected :
  0 <= d -> String.length got = String.length expected ->
  diff_loop d got expected = 0 <-> d = 0 /\ got = expected.
Proof.
  revert d expected. induction got as [|a got IH]; intros d [|b expected] Hd Hl; try done; cbn [diff_loop].
  - naive_solver.
  - cbn in Hl. assert (Hx : 0 <= Z.lxor (byte_of a) (byte_of b))
      by (apply Z.lxor_nonneg; pose proof (byte_of_range a); pose proof (byte_of_range b); unfold is_byte in *; lia).
    rewrite IH; [|apply Z.lor_nonneg; lia|lia]. rewrite Z.lor_eq_0_iff, Z.lxor_eq_0_iff. split.
    + intros ([-> Hab] & ->). split; [done|]. f_equal.
      by rewrite <- (chr_byte_of a), <- (chr_byte_of b), Hab.
    + intros (-> & [= -> ->]). by repeat split.
Qed.

(** The constant-time comparison accepts exactly the stored hash of the password
    under the salt, and never an empty credential; a stored hash is always 64
    hexadecimal digits, so the length test cannot refuse a right password. *)
Theorem VerifyPassword_spec password salt expected :
  (VerifyPassword password salt expected = true <->
     password <> "" /\ salt <> "" /\ expected = HashPassword password salt) /\
  String.length (HashPassword password salt) = 64%nat /\
  sall is_hex (HashPassword password salt) = true.
Proof.
  destruct (hash_hex_wf (salt ++ password)) as [Hlen Hhex].
  split; [|by split]. unfold VerifyPassword. fold (HashPassword password salt) in Hlen.
  destruct (_ || _ || _) eqn:E.
  - split; [done|]. intros (Hp & Hs & He). rewrite !orb_true_iff, !bool_decide_eq_true in E.
    destruct E as [[E|E]|E]; [done|done|]. rewrite He in E. by rewrite E in Hlen.
  - bools. destruct (Nat.eqb_spec (String.length (HashPassword password salt)) (String.length expected)) as [Hl|Hl];
      cbn [negb].
    + rewrite Z.eqb_eq, diff_loop_zero by done. naive_solver.
    + split; [done|]. intros (_ & _ & ->). done.
Qed.

(** ** [auth/context.go] *)

Definition CentralTenant : string := "*".

Record AuthContext := mkAuthContext {
  AC_PrincipalType : string; AC_PrincipalID : string; AC_ScopeType : string; AC_ScopeID : string }.

Definition ResolveScope (scopeType tenantHeader : string) : string * string :=
  if (tenantHeader ==? "") || (tenantHeader ==? CentralTenant) then ("platform", "")
  else (if scopeType ==? "" then "org" else scopeType, tenantHeader).

(** ** [auth/token.go] *)

Record Claims := mkClaims {
  Claim_Issuer : string; Claim_Subject : string; Claim_Audience : string; Claim_Scope : string;
  Claim_Tenant : string; Claim_IssuedAt : Z; Claim_Expiry : Z }.

(** A decoded JSON value; [JNumber n] is a number that converts to the int64 [n]. *)
Inductive JVal := JString (s : string) | JNumber (n : Z) | JNull | JOther.

#[export] Instance JVal_eq_dec : EqDecision JVal.
Proof. solve_decision. Defined.

Definition issuerOf (kid : string) : string :=
  match cut ":"%char kid with
  | Some (a, _) => if a !=? "" then a else kid
  | None => kid
  end.

Definition second : Z := 1000000000.

Section Token.
Context {Priv : Type} (NewKeyFromSeed : list Z -> Priv) (Public : Priv -> string)
  (Sign : Priv -> string -> string) (EdVerify : string -> string -> string -> bool).
Context (Marshal : gmap string JVal -> string) (Unmarshal : string -> option (gmap string JVal)).

Record KeyPair := mkKeyPair { KP_Seed : list Z; KP_Key : Priv; KP_KID : string }.

Definition KeyPairFromSecret (secret issuer : string) : KeyPair :=
  let sum := Sum256 ("porter-jwt-v1:" ++ secret) in
  let priv := NewKeyFromSeed sum in
  let kid := EncodeB64 (stake 8 (Public priv)) in
  mkKeyPair sum priv (issuer ++ ":" ++ kid).

Definition header_map (k : KeyPair) : gmap string JVal :=
  <["alg" := JString "EdDSA"]> (<["typ" := JString "JWT"]> (<["kid" := JString (KP_KID k)]> ∅)).

(** [time.Now().Truncate(time.Second)] and [Unix()]. *)
Definition truncate (now : Z) : Z := now - now mod second.
Definition unix (t : Z) : Z := t / second.

Definition payload_map (k : KeyPair) (now : Z) (subject audience scope tenant : string) (ttl : Z)
  : gmap string JVal :=
  <["iss" := JString (issuerOf (KP_KID k))]> (<["sub" := JString subject]>
  (<["aud" := JString audience]> (<["scope" := JString scope]> (<["tenant" := JString tenant]>
  (<["iat" := JNumber (unix (truncate now))]>
  (<["exp" := JNumber (unix (truncate now + ttl))]> ∅)))))).

Definition Mint (k : KeyPair) (now : Z) (subject audience scope tenant : string) (ttl : Z) : string :=
  let h := EncodeB64 (Marshal (header_map k)) in
  let p := EncodeB64 (Marshal (payload_map k now subject audience scope tenant ttl)) in
  let sig := Sign (KP_Key k) (h ++ "." ++ p) in
  h ++ "." ++ p ++ "." ++ EncodeB64 sig.

Definition decodeSegment (seg : string) : option (gmap string JVal) :=
  match DecodeB64 seg with Some b => Unmarshal b | None => None end.

(** Into a [map[string]string]: null leaves the empty string, other kinds fail. *)
Definition as_string (v : JVal) : option string :=
  match v with JString s => Some s | JNull => Some "" | _ => None end.

Definition header_ok (m : gmap string JVal) : bool :=
  forallb (fun kv => match as_string kv.2 with Some _ => true | None => false end) (map_to_list m).

Definition header_get (m : gmap string JVal) (key : string) : string :=
  match m !! key with Some v => default "" (as_string v) | None => "" end.

Definition str (m : gmap string JVal) (key : string) : string :=
  match m !! key with Some (JString s) => s | _ => "" end.
Definition num (m : gmap string JVal) (key : string) : Z :=
  match m !! key with Some (JNumber n) => n | _ => 0 end.

Definition required : list string := ["iss"; "sub"; "aud"; "scope"; "tenant"].

Definition Verify (k : KeyPair) (now : Z) (token audience : string) : result string Claims :=
  match split_on "."%char token with
  | [h; p; s] =>
      match decodeSegment h with
      | None => Err "auth: bad header"
      | Some header =>
          if negb (header_ok header) then Err "auth: bad header"
          else if header_get header "alg" !=? "EdDSA" then Err "auth: unexpected alg"
          else if header_get header "kid" !=? KP_KID k then Err "auth: unknown kid"
          else
            match decodeSegment p with
            | None => Err "auth: bad payload"
            | Some payload =>
                match DecodeB64 s with
                | None => Err "auth: bad signature"
                | Some sig =>
                    if negb (EdVerify (Public (KP_Key k)) (h ++ "." ++ p) sig) then Err "auth: invalid signature"
                    else
                      match find_first (fun key => str payload key ==? "") required with
                      | Some key => Err ("auth: missing claim " ++ key)
                      | None =>
                          if str payload "aud" !=? audience then Err "auth: audience mismatch"
                          else
                            let exp := num payload "exp" in
                            if (exp =? 0) || (exp <? unix now) then Err "auth: token expired"
                            else Ok (mkClaims (str payload "iss") (str payload "sub") (str payload "aud")
                                       (str payload "scope") (str payload "tenant")
                                       (num payload "iat" * second) (exp * second))
                      end
                end
            end
      end
  | _ => Err "auth: malformed token"
  end.

(** ** Theorems *)

Definition printable (s : string) : bool := sall (fun c => (32 <=? byte_of c) && (byte_of c <? 127)) s.

Definition json_safe (v : JVal) : Prop :=
  match v with JString s => printable s = true | JNumber n => Z.abs n <= 2 ^ 53 | _ => True end.

Hypothesis sign_verify : forall priv msg, EdVerify (Public priv) msg (Sign priv msg) = true.
Hypothesis json_roundtrip : forall m : gmap string JVal,
  (forall k v, m !! k = Some v -> printable k = true /\ json_safe v) -> Unmarshal (Marshal m) = Some m.

Lemma decodeSegment_encode m :
  (forall k v, m !! k = Some v -> printable k = true /\ json_safe v) ->
  decodeSegment (EncodeB64 (Marshal m)) = Some m.
Proof. intros Hm. unfold decodeSegment. rewrite DecodeB64_EncodeB64. by apply json_roundtrip. Qed.

Lemma token_split a b c :
  split_on "."%char (EncodeB64 a ++ "." ++ EncodeB64 b ++ "." ++ EncodeB64 c) =
  [EncodeB64 a; EncodeB64 b; EncodeB64 c].
Proof.
  change ("." ++ EncodeB64 b ++ "." ++ EncodeB64 c)
    with (String "."%char (EncodeB64 b ++ String "."%char (EncodeB64 c))).
  rewrite (split_on_app _ (EncodeB64 a)), (split_on_app _ (EncodeB64 b)) by apply EncodeB64_no_dot.
  by rewrite split_on_none by apply EncodeB64_no_dot.
Qed.
Lemma header_safe k : printable (KP_KID k) = true ->
  forall key v, header_map k !! key = Some v -> printable key = true /\ json_safe v.
Proof.
  intros Hk key v. unfold header_map. rewrite !lookup_insert_Some, lookup_empty.
  intros [[<- <-]|(_ & [[<- <-]|(_ & [[<- <-]|[]])])]; done.
Qed.

Lemma header_fields k :
  header_ok (header_map k) = true /\ header_get (header_map k) "alg" = "EdDSA" /\
  header_get (header_map k) "kid" = KP_KID k.
Proof.
  split; [|by split]. unfold header_ok. apply forallb_forall. intros [key v] Hkv%list_elem_of_In.
  apply elem_of_map_to_list in Hkv. unfold header_map in Hkv.
  rewrite !lookup_insert_Some, lookup_empty in Hkv.
  destruct Hkv as [[<- <-]|(_ & [[<- <-]|(_ & [[<- <-]|[]])])]; done.
Qed.

Record mintable (k : KeyPair) (now : Z) (subject audience scope tenant : string) (ttl : Z) : Prop := {
  mint_iss : printable (issuerOf (KP_KID k)) = true /\ issuerOf (KP_KID k) <> "";
  mint_kid : printable (KP_KID k) = true;
  mint_sub : printable subject = true /\ subject <> "";
  mint_aud : printable audience = true /\ audience <> "";
  mint_scope : printable scope = true /\ scope <> "";
  mint_tenant : printable tenant = true;
  mint_iat : Z.abs (unix (truncate now)) <= 2 ^ 53;
  mint_exp : Z.abs (unix (truncate now + ttl)) <= 2 ^ 53 /\ unix (truncate now + ttl) <> 0 }.

Lemma payload_safe k now subject audience scope tenant ttl :
  mintable k now subject audience scope tenant ttl ->
  forall key v, payload_map k now subject audience scope tenant ttl !! key = Some v ->
    printable key = true /\ json_safe v.
Proof.
  intros [[] ? [] [] [] ? ? []] key v. unfold payload_map. rewrite !lookup_insert_Some, lookup_empty.
  intros Hkv. repeat destruct Hkv as [[<- <-]|[_ Hkv]]; done.
Qed.

Lemma payload_fields k now subject audience scope tenant ttl :
  let pm := payload_map k now subject audience scope tenant ttl in
  str pm "iss" = issuerOf (KP_KID k) /\ str pm "sub" = subject /\ str pm "aud" = audience /\
  str pm "scope" = scope /\ str pm "tenant" = tenant /\
  num pm "iat" = unix (truncate now) /\ num pm "exp" = unix (truncate now + ttl).
Proof. cbv zeta. unfold str, num, payload_map. repeat split; by simplify_map_eq. Qed.

Lemma Verify_Mint k now now' subject audience audience' scope tenant ttl :
  mintable k now subject audience scope tenant ttl ->
  Verify k now' (Mint k now subject audience scope tenant ttl) audience' =
  if tenant ==? "" then Err "auth: missing claim tenant"
  else if audience !=? audience' then Err "auth: audience mismatch"
  else if unix (truncate now + ttl) <? unix now' then Err "auth: token expired"
  else Ok (mkClaims (issuerOf (KP_KID k)) subject audience scope tenant (unix (truncate now) * second)
             (unix (truncate now + ttl) * second)).
Proof.
  intros Hm. pose proof (payload_safe _ _ _ _ _ _ _ Hm) as Hps.
  destruct Hm as [[_ Hi] Hk [_ Hs] [_ Ha] [_ Hsc] _ _ [_ He]].
  unfold Verify, Mint. rewrite token_split.
  rewrite !decodeSegment_encode by (done || by apply header_safe).
  destruct (header_fields k) as (-> & -> & ->). rewrite !bool_decide_true by done.
  rewrite DecodeB64_EncodeB64, sign_verify. cbn [negb].
  unfold required. cbn [find_first].
  destruct (payload_fields k now subject audience scope tenant ttl)
    as (-> & -> & -> & -> & -> & -> & ->).
  rewrite (bool_decide_false (issuerOf _ = "")), (bool_decide_false (subject = "")),
    (bool_decide_false (audience = "")), (bool_decide_false (scope = "")) by assumption.
  destruct (tenant ==? "") eqn:Et; [done|].
  destruct (audience ==? audience'); cbn [negb]; [|done].
  destruct (Z.eqb_spec (unix (truncate now + ttl)) 0); [contradiction|]. done.
Qed.

Lemma issuerOf_secret secret issuer :
  issuer <> "" -> sall (fun c => negb (Ascii.eqb c ":"%char)) issuer = true ->
  issuerOf (KP_KID (KeyPairFromSecret secret issuer)) = issuer.
Proof.
  intros Hne Hc. unfold issuerOf, KeyPairFromSecret. cbn [KP_KID].
  change (":" ++ ?x) with (String ":"%char x). rewrite cut_app by done.
  by rewrite bool_decide_false.
Qed.

(** C10: a token of a server's own key, with an audience, a scope and a tenant, is
    accepted until the second of its expiry and only for its audience, and gives
    back exactly the claims it was minted with, issued by the issuer the key was
    derived for. *)
Theorem mint_verify secret issuer now now' subject audience audience' scope tenant ttl :
  let k := KeyPairFromSecret secret issuer in
  issuer <> "" -> sall (fun c => negb (Ascii.eqb c ":"%char)) issuer = true -> tenant <> "" ->
  mintable k now subject audience scope tenant ttl ->
  Verify k now' (Mint k now subject audience scope tenant ttl) audience' =
  if audience !=? audience' then Err "auth: audience mismatch"
  else if unix (truncate now + ttl) <? unix now' then Err "auth: token expired"
  else Ok (mkClaims issuer subject audience scope tenant (unix (truncate now) * second)
             (unix (truncate now + ttl) * second)).
Proof.
  intros k Hi Hc Ht Hm. rewrite Verify_Mint by done. rewrite bool_decide_false by done.
  unfold k. by rewrite issuerOf_secret.
Qed.

(** A platform token, whose tenant claim is empty, never verifies. *)
Lemma platform_token_refused k now now' subject audience audience' scope ttl :
  mintable k now subject audience scope "" ttl ->
  Verify k now' (Mint k now subject audience scope "" ttl) audience' = Err "auth: missing claim tenant".
Proof. intros Hm. by rewrite Verify_Mint. Qed.

(** Whatever string is presented, claims are only returned when its first two
    parts carry a valid signature of the server's key, for the expected audience,
    with every required claim, before its expiry. *)
Theorem Verify_sound k now token audience c :
  Verify k now token audience = Ok c ->
  exists h p s sig, split_on "."%char token = [h; p; s] /\ DecodeB64 s = Some sig /\
    EdVerify (Public (KP_Key k)) (h ++ "." ++ p) sig = true /\
    Claim_Audience c = audience /\ Claim_Issuer c <> "" /\ Claim_Subject c <> "" /\
    Claim_Scope c <> "" /\ Claim_Tenant c <> "" /\ unix now * second <= Claim_Expiry c.
Proof.
  unfold Verify. destruct (split_on _ token) as [|h [|p [|s [|]]]]; try discriminate.
  destruct (decodeSegment h) as [hd|]; [|discriminate].
  destruct (negb (header_ok hd)); [discriminate|].
  destruct (header_get hd "alg" !=? _); [discriminate|].
  destruct (header_get hd "kid" !=? _); [discriminate|].
  destruct (decodeSegment p) as [pm|]; [|discriminate].
  destruct (DecodeB64 s) as [sig|] eqn:Es; [|discriminate].
  destruct (EdVerify _ _ _) eqn:Ev; [|discriminate]. cbn [negb].
  destruct (find_first _ required) eqn:Er; [discriminate|].
  destruct (str pm "aud" !=? audience) eqn:Ea; [discriminate|]. cbv zeta.
  destruct (_ || _) eqn:Ex; [discriminate|]. intros [= <-]. cbn.
  apply find_first_None in Er. unfold required in Er. rewrite !Forall_cons, !bool_decide_eq_false in Er.
  apply orb_false_iff in Ex as [_ Ex]. apply Z.ltb_ge in Ex. apply negb_false_iff, bool_decide_eq_true in Ea.
  destruct Er as (? & ? & ? & ? & ? & _). exists h, p, s, sig. split_and!; try done.
  unfold second. lia.
Qed.

End Token.

(** ** Opaque tokens

    [b] are the 32 bytes read from the system's generator. *)
Definition NewOpaqueToken (b : list Z) : string * string :=
  let raw := "prt_" ++ EncodeHex b in (raw, hash_hex raw).

(** ** Sessions ([store/sessions.go])

    [auth_sessions] by token hash; [now] is the database's and the server's clock. *)
Record Session := mkSession {
  Sess_PrincipalType : string; Sess_PrincipalID : string; Sess_ScopeType : string;
  Sess_ScopeID : string; Sess_ExpiresAt : Z }.

Record SessionRow := mkSessionRow { sr_session : Session; sr_revoked : option Z }.

Abbreviation Sessions := (gmap string SessionRow).

(** The token hash is unique; a duplicate is refused. The lifetime is cut to seconds. *)
Definition CreateSession (principalType principalID tokenHash scopeType scopeID : string) (ttl now : Z)
  (st : Sessions) : Sessions * bool :=
  match st !! tokenHash with
  | Some _ => (st, false)
  | None =>
      (<[tokenHash := mkSessionRow (mkSession principalType principalID scopeType scopeID
           (now + Z.quot ttl second * second)) None]> st, true)
  end.

Definition GetSessionByToken (st : Sessions) (now : Z) (tokenHash : string) : option Session :=
  match st !! tokenHash with
  | None => None
  | Some r =>
      match sr_revoked r with
      | Some _ => None
      | None => if Sess_ExpiresAt (sr_session r) <? now then None else Some (sr_session r)
      end
  end.

Definition RevokeSession (now : Z) (tokenHash : string) (st : Sessions) : Sessions :=
  match st !! tokenHash with
  | Some r => <[tokenHash := mkSessionRow (sr_session r) (Some now)]> st
  | None => st
  end.

(** Steps of the session table. *)
Inductive session_step : Z * Sessions -> Z * Sessions -> Prop :=
| step_tick now now' st : now <= now' -> session_step (now, st) (now', st)
| step_create pt pid h t i ttl now st :
    session_step (now, st) (now, (CreateSession pt pid h t i ttl now st).1)
| step_revoke h now st : session_step (now, st) (now, RevokeSession now h st).

Lemma dead_session_step h x y :
  session_step x y -> is_Some (x.2 !! h) -> GetSessionByToken x.2 x.1 h = None ->
  is_Some (y.2 !! h) /\ GetSessionByToken y.2 y.1 h = None.
Proof.
  unfold GetSessionByToken. destruct 1 as [now now' st Hle|pt pid h' t i ttl now st|h' now st]; cbn [fst snd].
  - intros [r Hr]. rewrite Hr. intros Hd. split; [eauto|]. destruct (sr_revoked r); [done|].
    destruct (Z.ltb_spec (Sess_ExpiresAt (sr_session r)) now); [|done].
    by rewrite (proj2 (Z.ltb_lt _ now')) by lia.
  - intros Hr Hd. unfold CreateSession. destruct (st !! h') eqn:E; cbn [fst]; [by auto|].
    rewrite lookup_insert_ne; [done|]. intros ->. destruct Hr as [? Hr]; congruence.
  - intros Hr Hd. unfold RevokeSession. destruct (st !! h') eqn:E; [|by auto].
    destruct (decide (h' = h)) as [->|Hne]; [rewrite lookup_insert_eq; by eauto|].
    by rewrite lookup_insert_ne by done.
Qed.



(** ** Instances for the witnesses: a signature scheme and a document codec *)

#[export] Instance JVal_countable : Countable JVal.
Proof.
  refine (inj_countable'
    (fun v => match v with JString s => inl (inl s) | JNumber n => inl (inr n)
                      | JNull => inr true | JOther => inr false end)
    (fun c => match c with inl (inl s) => JString s | inl (inr n) => JNumber n
                      | inr true => JNull | inr false => JOther end) _).
  by intros [].
Defined.

Fixpoint bits (p : positive) : string :=
  match p with
  | xH => ""
  | xO p => String "0" (bits p)
  | xI p => String "1" (bits p)
  end.

Fixpoint of_bits (s : string) : positive :=
  match s with
  | EmptyString => xH
  | String c s => if Ascii.eqb c "0" then xO (of_bits s) else xI (of_bits s)
  end.

Lemma of_bits_bits p : of_bits (bits p) = p.
Proof. induction p as [p IH|p IH|]; cbn; by rewrite ?IH. Qed.

Definition toy_marshal (m : gmap string JVal) : string := bits (encode m).
Definition toy_unmarshal (s : string) : option (gmap string JVal) := decode (of_bits s).

Lemma toy_roundtrip m : toy_unmarshal (toy_marshal m) = Some m.
Proof. unfold toy_unmarshal, toy_marshal. by rewrite of_bits_bits, decode_encode. Qed.

Definition toy_sign (priv : list Z) (msg : string) : string := hash_hex (EncodeHex priv ++ msg).
Definition toy_verify (pub msg sig : string) : bool := sig ==? hash_hex (pub ++ msg).

Lemma toy_sign_verify priv msg : toy_verify (EncodeHex priv) msg (toy_sign priv msg) = true.
Proof. unfold toy_verify, toy_sign. by rewrite bool_decide_true. Qed.

Definition toy_key : KeyPair := KeyPairFromSecret (fun seed => seed) EncodeHex "secret" "porter".

Lemma toy_mintable : mintable toy_key 0 "ann" "porter-api" "user" "org1" (3600 * second).
Proof. split; vm_compute; intuition congruence. Qed.

Lemma mint_verify_witness :
  Verify EncodeHex toy_verify toy_unmarshal toy_key (60 * second)
    (Mint toy_sign toy_marshal toy_key 0 "ann" "porter-api" "user" "org1" (3600 * second)) "porter-api" =
  Ok (mkClaims "porter" "ann" "porter-api" "user" "org1" 0 (3600 * second)).
Proof.
  exact (mint_verify (fun seed => seed) EncodeHex toy_sign toy_verify toy_marshal toy_unmarshal
    toy_sign_verify (fun m _ => toy_roundtrip m) "secret" "porter" 0 (60 * second) "ann" "porter-api"
    "porter-api" "user" "org1" (3600 * second) ltac:(done) eq_refl ltac:(done) toy_mintable).
Defined.

Lemma Verify_sound_witness :
  exists h p s sig,
    split_on "."%char (Mint toy_sign toy_marshal toy_key 0 "ann" "porter-api" "user" "org1" (3600 * second)) =
    [h; p; s] /\ toy_verify (EncodeHex (KP_Key toy_key)) (h ++ "." ++ p) sig = true.
Proof.
  destruct (Verify_sound EncodeHex toy_verify toy_unmarshal toy_key (60 * second)
    (Mint toy_sign toy_marshal toy_key 0 "ann" "porter-api" "user" "org1" (3600 * second)) "porter-api"
    (mkClaims "porter" "ann" "porter-api" "user" "org1" 0 (3600 * second)))
    as (h & p & s & sig & H1 & _ & H2 & _).
  - rewrite Verify_Mint; [by vm_compute|apply toy_sign_verify|intros; apply toy_roundtrip|apply toy_mintable].
  - exists h, p, s, sig. by split.
Defined.

Close Scope Z_scope.
Close Scope string_scope.
