(* ===== verification/Cron.v ===== *)
(** * Cron jobs ([internal/cron/runner.go])

    The schedule matcher and one pass of the scheduler over the stored jobs. A
    schedule is given meaning by a small syntax ([CronPart]) and its printer, and
    the matcher is shown to decide that meaning on every printed schedule. The
    machine's time zone is an argument ([local]), which turns an instant into the
    calendar fields [time.Time] reports. *)
From S2P Require Import Prelude GoStrings GoNum GoNet Types Gateway Store.
From Stdlib Require Import String Ascii.

Open Scope string_scope.
Open Scope Z_scope.

(** Calendar fields of an instant; [weekday] is 0 on Sunday. *)
Record Civil := mkCivil { year : Z; month : Z; day : Z; hour : Z; minute : Z; weekday : Z }.

(** ** Matching *)

Definition step_of (part : string) : string * Z :=
  match cut "/"%char part with
  | Some (base, s) => (base, match Atoi s with Some n => if 0 <? n then n else 1 | None => 1 end)
  | None => (part, 1)
  end.

Definition range_of (base : string) (min max : Z) : option (Z * Z) :=
  if base ==? "*" then Some (min, max)
  else if contains base "-" then
    match cut "-"%char base with
    | Some (a, b) =>
        match Atoi a, Atoi b with Some x, Some y => Some (x, y) | _, _ => None end
    | None => None
    end
  else match Atoi base with Some v => Some (v, v) | None => None end.

Definition matchPart (part value : string) (min max : Z) : bool :=
  let '(base, step) := step_of part in
  match range_of base min max with
  | None => false
  | Some (lo, hi) =>
      match Atoi value with
      | None => false
      | Some v => if (v <? lo) || (hi <? v) then false else Z.rem (v - lo) step =? 0
      end
  end.

Definition fieldMatch (field value : string) (min max : Z) : bool :=
  if field ==? "*" then true
  else existsb (fun part => matchPart part value min max) (split_on ","%char field).

Definition Matches (expr : string) (t : Civil) : bool :=
  match fields expr with
  | [f0; f1; f2; f3; f4] =>
      let dow := if weekday t =? 0 then "7" else Itoa (weekday t) in
      fieldMatch f0 (Itoa (minute t)) 0 59 && fieldMatch f1 (Itoa (hour t)) 0 23 &&
      fieldMatch f2 (Itoa (day t)) 1 31 && fieldMatch f3 (Itoa (month t)) 1 12 &&
      fieldMatch f4 dow 0 7
  | _ => false
  end.

(** ** The scheduler *)

Record CronState := mkCronState {
  crons : list Cron;          (* the crons table, in created_at order *)
  daemon_log : list string;   (* names of the jobs logged as triggered *)
  cron_store : StoreState;    (* the replicas table PutVM writes *)
  booted : list VM }.         (* the VMs handed to Booter.Boot, in order *)

(** [Format("2006-01-02 15:04")] compared as the fields it prints. *)
Definition same_minute (a b : Civil) : bool :=
  (year a =? year b) && (month a =? month b) && (day a =? day b) &&
  (hour a =? hour b) && (minute a =? minute b).

Definition TouchCron (id : string) (now : Z) (l : list Cron) : list Cron :=
  (fun c => if Cron_ID c ==? id then Cron_set_LastRun (Some now) c else c) <$> l.

Lemma same_minute_fields a b : same_minute a b = true ->
  year a = year b /\ month a = month b /\ day a = day b /\ hour a = hour b /\ minute a = minute b.
Proof. unfold same_minute. intros H. bools. auto. Qed.

Lemma Matches_same_minute e a b :
  same_minute a b = true -> weekday a = weekday b -> Matches e a = Matches e b.
Proof. intros (_ & Hm & Hd & Hh & Hi)%same_minute_fields Hw. unfold Matches. by rewrite Hm, Hd, Hh, Hi, Hw. Qed.

Lemma same_minute_trans t a b : same_minute a b = true -> same_minute t a = same_minute t b.
Proof. intros (Hy & Hm & Hd & Hh & Hi)%same_minute_fields. unfold same_minute. by rewrite Hy, Hm, Hd, Hh, Hi. Qed.

Section Runner.
Context (local : Z -> Civil) (has_booter : bool).

(** [now] in seconds; the VM id carries the Unix time. *)
Definition job_vm (c : Cron) (now : Z) : VM :=
  VM_set_ID ("cron-" ++ Cron_ID c ++ "-" ++ Itoa now)
  (VM_set_Name (Cron_Name c ++ "-job")
  (VM_set_ProjectID (Cron_ProjectID c)
  (VM_set_ServiceName "cron"
  (VM_set_State StatePending
  (VM_set_HealthStatus HealthChecking
  (VM_set_Image (Cron_JobImage c)
  (VM_set_ReplicaIndex (-1)
  (VM_set_CreatedAt now VM_zero)))))))).

Definition fire (now : Z) (st : CronState) (c : Cron) : CronState :=
  let st := mkCronState (TouchCron (Cron_ID c) now (crons st)) (daemon_log st ++ [Cron_Name c])%list
              (cron_store st) (booted st) in
  if negb has_booter then st
  else
    let vm := job_vm c now in
    mkCronState (crons st) (daemon_log st) (PutVM vm (cron_store st)) (booted st ++ [vm])%list.

Definition due (now : Z) (c : Cron) : bool :=
  if negb (Cron_Active c) || (Cron_Schedule c ==? "") then false
  else if negb (Matches (Cron_Schedule c) (local now)) then false
  else match Cron_LastRun c with
       | Some t => negb (same_minute (local t) (local now))
       | None => true
       end.

(** One pass over the rows read at its start. *)
Definition fireDue (now : Z) (st : CronState) : CronState :=
  foldl (fun st c => if due now c then fire now st c else st) st (crons st).

(** *** What one pass does *)

Lemma fire_pass now l st :
  booted (foldl (fun st c => if due now c then fire now st c else st) st l) =
    (booted st ++ if has_booter then (fun c => job_vm c now) <$> base.filter (fun c => due now c = true) l
                  else [])%list /\
  daemon_log (foldl (fun st c => if due now c then fire now st c else st) st l) =
    (daemon_log st ++ (Cron_Name <$> base.filter (fun c => due now c = true) l))%list /\
  crons (foldl (fun st c => if due now c then fire now st c else st) st l) =
    foldl (fun cs c => TouchCron (Cron_ID c) now cs) (crons st) (base.filter (fun c => due now c = true) l).
Proof.
  revert st. induction l as [|c l IH]; intros st; cbn [foldl].
  - rewrite filter_nil. destruct has_booter; by rewrite !app_nil_r.
  - destruct (IH (if due now c then fire now st c else st)) as (-> & -> & ->). rewrite filter_cons.
    unfold fire. destruct (due now c) eqn:E.
    + rewrite decide_True by done. destruct has_booter; cbn; by rewrite <- ?app_assoc.
    + rewrite decide_False by done. by destruct has_booter.
Qed.

Lemma TouchCron_fields id now l c :
  c ∈ TouchCron id now l -> exists c0, c0 ∈ l /\
    c = if Cron_ID c0 ==? id then Cron_set_LastRun (Some now) c0 else c0.
Proof. intros (c0 & -> & Hc0)%list_elem_of_fmap. eauto. Qed.

(** After touching the rows of [ids], each row is an old row, with the new run
    time when its id is among them. *)
Lemma touch_all ds now l c :
  c ∈ foldl (fun cs d => TouchCron (Cron_ID d) now cs) l ds ->
  exists c0, c0 ∈ l /\
    c = if decide (Cron_ID c0 ∈ (Cron_ID <$> ds)) then Cron_set_LastRun (Some now) c0 else c0.
Proof.
  revert l c. induction ds as [|d ds IH]; intros l c; cbn [foldl].
  - intros Hc. exists c. by rewrite decide_False by apply not_elem_of_nil.
  - intros (c1 & Hc1 & ->)%IH. clear IH. apply TouchCron_fields in Hc1 as (c0 & Hc0 & ->). exists c0. split; [done|].
    destruct (decide (Cron_ID c0 = Cron_ID d)) as [He|He].
    + rewrite bool_decide_true by done. rewrite fmap_cons, (decide_True (P := Cron_ID c0 ∈ _ :: _)) by (rewrite He; by left).
      by destruct (decide _).
    + rewrite bool_decide_false by done. rewrite fmap_cons.
      case_decide as H1; case_decide as H2; try done; set_solver.
Qed.

(** One pass of the scheduler boots exactly the due jobs, in table order, each as
    a fresh VM, and marks them run; a second pass within the same minute boots
    nothing and changes nothing. *)
Theorem fireDue_spec now st :
  (booted (fireDue now st) =
     booted st ++ if has_booter then (fun c => job_vm c now) <$> base.filter (fun c => due now c = true) (crons st)
                  else [])%list /\
  (forall now', same_minute (local now) (local now') = true -> weekday (local now) = weekday (local now') ->
     fireDue now' (fireDue now st) = fireDue now st).
Proof.
  unfold fireDue at 1. destruct (fire_pass now (crons st) st) as (Hb & _ & Hc). split; [done|].
  intros now' Hm Hw. pose proof (same_minute_fields _ _ Hm) as Hf. unfold fireDue at 1.
  assert (Hnone : forall c, c ∈ crons (fireDue now st) -> due now' c = false).
  { intros c Hin. unfold fireDue in Hin. rewrite Hc in Hin.
    apply touch_all in Hin as (c0 & Hc0 & ->). case_decide as Hd.
    - unfold due. cbn [Cron_Active Cron_Schedule Cron_LastRun Cron_set_LastRun]. rewrite Hm.
      destruct (_ || _); [done|]. by destruct (negb (Matches _ _)).
    - destruct (due now' c0) eqn:E; [|done]. exfalso. apply Hd. apply list_elem_of_fmap. exists c0.
      split; [done|]. apply list_elem_of_filter. split; [|done]. revert E. unfold due.
      rewrite (Matches_same_minute _ (local now) (local now')) by done. destruct (_ || _); [done|]. destruct (negb (Matches _ _)); [done|].
      destruct (Cron_LastRun c0) as [t|] ; [|done].
      by rewrite (same_minute_trans _ (local now) (local now')). }
  clear Hb Hc. set (st' := fireDue now st) in *. clearbody st'.
  assert (Hgen : forall l, (forall c, c ∈ l -> due now' c = false) ->
    foldl (fun st c => if due now' c then fire now' st c else st) st' l = st').
  { clear. induction l as [|c l IH]; intros H; cbn [foldl]; [done|].
    rewrite (H c) by (by left). apply IH. intros. apply H. by right. }
  by apply Hgen.
Qed.
End Runner.

(** ** The meaning of a schedule *)

Inductive CronBase := Any | Val (a : Z) | Range (a b : Z).

(** A comma-separated part: a base and an optional step. *)
Record CronPart := mkPart { part_base : CronBase; part_step : option Z }.

Definition base_wf (b : CronBase) : Prop :=
  match b with Any => True | Val a => 0 <= a < 2 ^ 63 | Range a b => 0 <= a < 2 ^ 63 /\ 0 <= b < 2 ^ 63 end.

Definition part_wf (p : CronPart) : Prop :=
  base_wf (part_base p) /\ match part_step p with Some n => 0 < n < 2 ^ 63 | None => True end.

Definition print_base (b : CronBase) : string :=
  match b with Any => "*" | Val a => Itoa a | Range a b => Itoa a ++ "-" ++ Itoa b end.

Definition print_part (p : CronPart) : string :=
  match part_step p with
  | None => print_base (part_base p)
  | Some n => print_base (part_base p) ++ "/" ++ Itoa n
  end.

Definition print_field (ps : list CronPart) : string := join "," (print_part <$> ps).

Definition bounds (b : CronBase) (min max : Z) : Z * Z :=
  match b with Any => (min, max) | Val a => (a, a) | Range a b => (a, b) end.

(** The value is in the range and a whole number of steps from its start. *)
Definition part_means (p : CronPart) (min max v : Z) : Prop :=
  let '(lo, hi) := bounds (part_base p) min max in
  lo <= v <= hi /\ (default 1 (part_step p) | v - lo).

Definition field_means (ps : list CronPart) (min max v : Z) : Prop :=
  exists p, p ∈ ps /\ part_means p min max v.

Lemma digits_no_char (c : ascii) n : is_digit c = false -> 0 <= n ->
  sall (fun d => negb (Ascii.eqb d c)) (Itoa n) = true.
Proof.
  intros Hc Hn. eapply sall_impl; [|by apply Itoa_digits]. intros d Hd.
  apply negb_true_iff, Ascii.eqb_neq. intros ->. congruence.
Qed.

Lemma print_base_chars b (c : ascii) :
  base_wf b -> is_digit c = false -> c <> "*"%char -> c <> "-"%char ->
  sall (fun d => negb (Ascii.eqb d c)) (print_base b) = true.
Proof.
  intros Hb Hc H1 H2. destruct b as [|a|a b]; cbn [print_base base_wf] in *.
  - cbn [sall]. rewrite andb_true_r. apply negb_true_iff, Ascii.eqb_neq. congruence.
  - apply digits_no_char; [done|lia].
  - rewrite !sall_app, !digits_no_char by (done || lia). cbn [sall andb]. rewrite !andb_true_r.
    apply negb_true_iff, Ascii.eqb_neq. congruence.
Qed.

Lemma step_of_print p : part_wf p ->
  step_of (print_part p) = (print_base (part_base p), default 1 (part_step p)).
Proof.
  intros [Hb Hs]. unfold step_of, print_part. destruct (part_step p) as [n|].
  - change ("/" ++ Itoa n) with (String "/"%char (Itoa n)).
    rewrite cut_app by (by apply print_base_chars). rewrite Atoi_Itoa by (unfold in_i64, min_int64, max_int64; lia).
    cbn [default]. by rewrite (proj2 (Z.ltb_lt _ _)) by lia.
  - by rewrite cut_none by (by apply print_base_chars).
Qed.

Lemma range_of_print b min max : base_wf b -> range_of (print_base b) min max = Some (bounds b min max).
Proof.
  intros Hb. unfold range_of. destruct b as [|a|a b]; cbn [print_base base_wf bounds] in *.
  - done.
  - rewrite bool_decide_false by (intros H; pose proof (Itoa_digits a ltac:(lia)) as Hd; by rewrite H in Hd).
    rewrite contains_char_none by (apply digits_no_char; [done|lia]).
    by rewrite Atoi_Itoa by (unfold in_i64, min_int64, max_int64; lia).
  - change ("-" ++ Itoa b) with (String "-"%char (Itoa b)).
    rewrite bool_decide_false.
    2: { intros H. pose proof (digits_no_char "*"%char a eq_refl ltac:(lia)) as Hd.
         destruct (Itoa a) as [|c s] eqn:E; [by apply (Itoa_ne a)|]. rewrite sapp_cons in H.
         injection H as -> H. cbn in Hd. done. }
    rewrite contains_char_app, cut_app by (apply digits_no_char; [done|lia]).
    by rewrite !Atoi_Itoa by (unfold in_i64, min_int64, max_int64; lia).
Qed.

Lemma matchPart_print p min max v :
  part_wf p -> 0 <= v < 2 ^ 63 ->
  matchPart (print_part p) (Itoa v) min max = true <-> part_means p min max v.
Proof.
  intros Hp Hv. unfold matchPart, part_means. rewrite step_of_print by done.
  destruct Hp as [Hb Hs]. rewrite range_of_print by done. destruct (bounds _ min max) as [lo hi].
  rewrite Atoi_Itoa by (unfold in_i64, min_int64, max_int64; lia).
  destruct (Z.ltb_spec v lo); cbn [orb]; [split; [done|lia]|].
  destruct (Z.ltb_spec hi v); [split; [done|lia]|].
  rewrite Z.eqb_eq, Z.rem_divide by (destruct (part_step p); cbn; lia). naive_solver lia.
Qed.

Lemma print_part_chars p (c : ascii) :
  part_wf p -> is_digit c = false -> c <> "*"%char -> c <> "-"%char -> c <> "/"%char ->
  sall (fun d => negb (Ascii.eqb d c)) (print_part p) = true.
Proof.
  intros [Hb Hs] Hc H1 H2 H3. unfold print_part. destruct (part_step p) as [n|]; [|by apply print_base_chars].
  rewrite !sall_app, print_base_chars, digits_no_char by (done || lia). cbn [sall andb]. rewrite !andb_true_r.
  apply negb_true_iff, Ascii.eqb_neq. congruence.
Qed.

Lemma print_part_nonempty p : part_wf p -> print_part p <> "".
Proof.
  intros [Hb _]. unfold print_part, print_base. destruct (part_step p), (part_base p) as [|a|a b];
    try done; try apply Itoa_ne; pose proof (Itoa_ne a); by destruct (Itoa a).
Qed.

Lemma fieldMatch_print ps min max v :
  ps <> [] -> Forall part_wf ps -> min <= v <= max -> 0 <= v < 2 ^ 63 ->
  fieldMatch (print_field ps) (Itoa v) min max = true <-> field_means ps min max v.
Proof.
  intros Hne Hps Hmm Hv. unfold fieldMatch, field_means.
  assert (Hsplit : split_on ","%char (print_field ps) = print_part <$> ps).
  { apply (split_on_join ","%char); [by destruct ps|]. apply Forall_fmap. eapply Forall_impl; [exact Hps|].
    intros p Hp. by apply print_part_chars. }
  assert (Hex : existsb (fun part => matchPart part (Itoa v) min max) (print_part <$> ps) = true <->
                exists p, p ∈ ps /\ part_means p min max v).
  { rewrite existsb_exists. setoid_rewrite <- list_elem_of_In. setoid_rewrite list_elem_of_fmap.
    rewrite Forall_forall in Hps. split.
    - intros (x & (p & -> & Hp) & Hm). exists p. split; [done|]. by apply matchPart_print; [apply Hps| |].
    - intros (p & Hp & Hm). exists (print_part p). split; [eauto|]. by apply matchPart_print; [apply Hps| |]. }
  rewrite Hsplit, <- Hex. destruct (print_field ps ==? "*") eqn:E; [|done]. bools. split; [|done]. intros _.
  rewrite <- Hsplit, E. change (split_on ","%char "*") with ["*"]. cbn [existsb]. rewrite orb_false_r.
  unfold matchPart. change (step_of "*") with ("*", 1). cbv beta iota. change (range_of "*" min max) with (Some (min, max)).
  cbv beta iota.
  rewrite Atoi_Itoa by (unfold in_i64, min_int64, max_int64; lia).
  rewrite (proj2 (Z.ltb_ge v min)), (proj2 (Z.ltb_ge max v)) by lia. cbn [orb].
  by rewrite Z.rem_1_r.
Qed.

Record Schedule := mkSchedule {
  s_minute : list CronPart; s_hour : list CronPart; s_dom : list CronPart; s_month : list CronPart;
  s_dow : list CronPart }.

Definition schedule_fields (s : Schedule) : list (list CronPart) :=
  [s_minute s; s_hour s; s_dom s; s_month s; s_dow s].

Definition schedule_wf (s : Schedule) : Prop :=
  Forall (fun ps => ps <> [] /\ Forall part_wf ps) (schedule_fields s).

Definition print_schedule (s : Schedule) : string := join " " (print_field <$> schedule_fields s).

Record civil_wf (t : Civil) : Prop := {
  wf_month : 1 <= month t <= 12; wf_day : 1 <= day t <= 31; wf_hour : 0 <= hour t <= 23;
  wf_minute : 0 <= minute t <= 59; wf_weekday : 0 <= weekday t <= 6 }.

Lemma sall_join p sep l :
  sall p sep = true -> Forall (fun s => sall p s = true) l -> sall p (join sep l) = true.
Proof.
  intros Hsep. induction 1 as [|s l Hs Hl IH]; [done|]. destruct l as [|t l]; [done|].
  change (join sep (s :: t :: l)) with (s ++ sep ++ join sep (t :: l)). by rewrite !sall_app, Hs, Hsep, IH.
Qed.

Lemma print_field_wf ps : ps <> [] -> Forall part_wf ps ->
  print_field ps <> "" /\ sall (fun c => negb (is_space c)) (print_field ps) = true.
Proof.
  intros Hne Hps. split.
  - destruct Hps as [|p ps Hp Hps]; [done|]. pose proof (print_part_nonempty p Hp).
    unfold print_field. cbn. destruct (print_part <$> ps); [done|]. by destruct (print_part p).
  - apply sall_join; [done|]. apply Forall_fmap. eapply Forall_impl; [exact Hps|]. intros p Hp. cbn.
    assert (Hg : forall n, 0 <= n -> sall (fun c => negb (is_space c)) (Itoa n) = true).
    { intros n Hn. eapply sall_impl; [|by apply Itoa_digits]. intros c. unfold is_digit, is_space. intros; bools.
      apply negb_true_iff, orb_false_iff. split; [lia|]. apply andb_false_iff. lia. }
    destruct Hp as [Hb Hs]. unfold print_part, print_base. destruct (part_step p), (part_base p);
      cbn [base_wf] in Hb; rewrite ?sall_app, ?Hg by lia; done.
Qed.

(** The matcher decides the meaning of every well-formed five-field schedule:
    each field holds a part whose range contains the calendar value at a whole
    number of steps from its start, the weekday counted 1 to 7 with Sunday 7. *)
Theorem Matches_print s t :
  schedule_wf s -> civil_wf t ->
  Matches (print_schedule s) t = true <->
  field_means (s_minute s) 0 59 (minute t) /\ field_means (s_hour s) 0 23 (hour t) /\
  field_means (s_dom s) 1 31 (day t) /\ field_means (s_month s) 1 12 (month t) /\
  field_means (s_dow s) 0 7 (if weekday t =? 0 then 7 else weekday t).
Proof.
  intros Hs [Hm Hd Hh Hi Hw]. unfold Matches, print_schedule. rewrite fields_join.
  2: { apply Forall_fmap. eapply Forall_impl; [exact Hs|]. intros ps [? ?]. by apply print_field_wf. }
  unfold schedule_wf, schedule_fields in Hs. decompose_Forall_hyps.
  replace (if weekday t =? 0 then "7" else Itoa (weekday t))
    with (Itoa (if weekday t =? 0 then 7 else weekday t)) by (by destruct (weekday t =? 0)).
  cbn [schedule_fields fmap list_fmap]. rewrite !andb_true_iff, !fieldMatch_print by
    (tauto || (destruct (Z.eqb_spec (weekday t) 0); lia) || lia). tauto.
Qed.

(** "*/15 9-17 * * 1-5" on a Monday at 09:30. *)
Definition office : Schedule :=
  mkSchedule [mkPart Any (Some 15)] [mkPart (Range 9 17) None] [mkPart Any None] [mkPart Any None]
    [mkPart (Range 1 5) None].

Definition monday : Civil := mkCivil 2024 1 8 9 30 1.
Definition sunday : Civil := mkCivil 2024 1 7 9 30 0.

Lemma Matches_print_witness :
  print_schedule office = "*/15 9-17 * * 1-5" /\ field_means (s_minute office) 0 59 30.
Proof.
  split; [by vm_compute|].
  apply (Matches_print office monday); [|by split|by vm_compute].
  unfold schedule_wf, schedule_fields, part_wf. repeat (constructor; cbn; try (split; lia)); try done.
Defined.

(** The documented "0 = Sunday" never matches: Sunday is compared as 7. *)
Lemma sunday_zero_never_matches :
  Matches "30 9 * * 0" sunday = false /\ Matches "30 9 * * 7" sunday = true.
Proof. by vm_compute. Qed.

Definition job : Cron := mkCron "c1" "p" "nightly" "30 9 * * *" "job:1" true None 0.
Definition cron_st : CronState := mkCronState [job] [] store_p [].

Lemma fireDue_spec_witness :
  let st := fireDue (fun _ => monday) true 100 cron_st in
  List.length (booted st) = 1%nat /\ fireDue (fun _ => monday) true 101 st = st.
Proof.
  split; [by vm_compute|].
  apply (proj2 (fireDue_spec (fun _ => monday) true 100 cron_st) 101); by vm_compute.
Defined.

(** Every job VM of a project claims replica index -1: while the row of the first
    run exists, the table refuses the second one, which is booted unrecorded. *)
Lemma second_job_not_recorded :
  let st := fireDue (fun _ => monday) true 100 cron_st in
  let st2 := fire true 86500 st job in
  List.length (booted st2) = 2%nat /\ List.length (replicas (cron_store st)) = 1%nat /\
  replicas (cron_store st2) = replicas (cron_store st).
Proof. by vm_compute. Qed.

Close Scope Z_scope.
Close Scope string_scope.
