(* ===== verification/Scheduler.v ===== *)
(** * Placement and autoscaling ([internal/scheduler], [internal/autoscale])

    [PickNode] filters and ranks nodes with float64 scores; [sort.Slice] is an
    argument that is only known to sort by a strict weak order. The autoscaler
    decides a target per project and drives it through its boot and stop hooks,
    whose calls are recorded in order. *)
From S2P Require Import Prelude GoStrings GoNum Types Store.
From Stdlib Require Import String SpecFloat.

Open Scope string_scope.
Open Scope Z_scope.

(** ** [scheduler/scheduler.go] *)

Record Node := mkNode {
  Node_ID : string; Node_Ready : bool; Node_Arch : string; Node_VCPUFree : Z; Node_MemFreeMiB : Z;
  Node_Labels : gmap string string; Node_Taints : list string; Node_CurrentLoad : float64 }.

Record Request := mkRequest {
  Req_Arch : string; Req_VCPUs : Z; Req_MemMiB : Z; Req_Labels : gmap string string;
  Req_Tolerations : list string; Req_PreferBinpack : bool }.

Definition tolerates (taints tol : list string) : bool :=
  forallb (fun t => bool_decide (t ∈ tol)) taints.

(** A missing label reads as the empty string. *)
Definition label_matches (labels want : gmap string string) : bool :=
  forallb (fun kv => default "" (labels !! kv.1) ==? kv.2) (map_to_list want).

Definition maxint (a b : Z) : Z := if b <? a then a else b.

Definition f_one : float64 := f_of_Z 1.

Definition score (n : Node) (req : Request) : float64 :=
  let used := fsub f_one (fdiv (f_of_Z (Node_VCPUFree n))
                (f_of_Z (maxint (i64 (Node_VCPUFree n + Req_VCPUs req)) 1))) in
  let s := fsub used (Node_CurrentLoad n) in
  if negb (Req_PreferBinpack req) then SFopp s else s.

Definition fits (req : Request) (n : Node) : bool :=
  if negb (Node_Ready n) then false
  else if (Req_Arch req !=? "") && (Node_Arch n !=? "") && (Node_Arch n !=? Req_Arch req) then false
  else if (Node_VCPUFree n <? Req_VCPUs req) || (Node_MemFreeMiB n <? Req_MemMiB req) then false
  else if negb (tolerates (Node_Taints n) (Req_Tolerations req)) then false
  else label_matches (Node_Labels n) (Req_Labels req).

(** The comparison handed to [sort.Slice]: [==] and [>] of float64. *)
Definition node_less (req : Request) (a b : Node) : bool :=
  let si := score a req in
  let sj := score b req in
  if SFeqb si sj then bool_decide (strict String.le (Node_ID a) (Node_ID b)) else fgt si sj.

Section PickNode.
Context (sortSlice : (Node -> Node -> bool) -> list Node -> list Node).

Definition PickNode (nodes : list Node) (req : Request) : string :=
  match base.filter (fun n => fits req n = true) nodes with
  | [] => ""
  | cands => match sortSlice (node_less req) cands with n :: _ => Node_ID n | [] => "" end
  end.
End PickNode.

(** *** Floats are ordered *)

(** A key whose lexicographic order is [SFcompare] on everything but NaN. *)
Definition fkey (x : float64) : Z * Z * Z :=
  match x with
  | S754_nan => (9, 0, 0)
  | S754_infinity true => (0, 0, 0)
  | S754_finite true m e => (1, - e, - Z.pos m)
  | S754_zero _ => (2, 0, 0)
  | S754_finite false m e => (3, e, Z.pos m)
  | S754_infinity false => (4, 0, 0)
  end.

Definition key_cmp (a b : Z * Z * Z) : comparison :=
  match a.1.1 ?= b.1.1 with
  | Eq => match a.1.2 ?= b.1.2 with Eq => a.2 ?= b.2 | c => c end
  | c => c
  end.

Lemma SFcompare_key x y :
  x <> S754_nan -> y <> S754_nan -> SFcompare x y = Some (key_cmp (fkey x) (fkey y)).
Proof.
  intros Hx Hy. destruct x as [s|s| |s m e], y as [t|t| |t n f]; try done;
    try destruct s; try destruct t; try done; unfold SFcompare, key_cmp; cbn [fkey fst snd]; cbn [Z.compare].
  - rewrite Z.compare_opp. rewrite (Z.compare_antisym e f).
    destruct (e ?= f) eqn:E; cbn; [|done|done]. rewrite Z.compare_antisym in E. by destruct (f ?= e).
Qed.

Definition key_lt (a b : Z * Z * Z) : Prop :=
  a.1.1 < b.1.1 \/ a.1.1 = b.1.1 /\ (a.1.2 < b.1.2 \/ a.1.2 = b.1.2 /\ a.2 < b.2).

Lemma key_cmp_spec a b :
  match key_cmp a b with Lt => key_lt a b | Eq => a = b | Gt => key_lt b a end.
Proof.
  destruct a as [[a1 a2] a3], b as [[b1 b2] b3]. unfold key_cmp, key_lt. cbn.
  destruct (Z.compare_spec a1 b1); subst; [|lia|lia].
  destruct (Z.compare_spec a2 b2); subst; [|lia|lia].
  destruct (Z.compare_spec a3 b3); subst; [done|lia|lia].
Qed.

Lemma node_less_spec req a b :
  score a req <> S754_nan -> score b req <> S754_nan ->
  node_less req a b = true <->
  key_lt (fkey (score b req)) (fkey (score a req)) \/
  fkey (score a req) = fkey (score b req) /\ strict String.le (Node_ID a) (Node_ID b).
Proof.
  intros Ha Hb. unfold node_less, fgt, SFeqb, SFltb. rewrite !SFcompare_key by done.
  pose proof (key_cmp_spec (fkey (score a req)) (fkey (score b req))) as H1.
  pose proof (key_cmp_spec (fkey (score b req)) (fkey (score a req))) as H2.
  set (ka := fkey (score a req)) in *. set (kb := fkey (score b req)) in *. clearbody ka kb.
  destruct (key_cmp ka kb), (key_cmp kb ka); rewrite ?bool_decide_eq_true; subst;
    unfold key_lt in *; naive_solver lia.
Qed.

(** A strict weak order on the elements of a list, as [sort.Slice] asks for. *)
Record strict_weak {A} (less : A -> A -> bool) (l : list A) : Prop := {
  sw_irrefl a : a ∈ l -> less a a = false;
  sw_trans a b c : a ∈ l -> b ∈ l -> c ∈ l -> less a b = true -> less b c = true -> less a c = true;
  sw_incomp a b c : a ∈ l -> b ∈ l -> c ∈ l -> less a b = false -> less b c = false -> less a c = false }.

Lemma node_less_weak req l :
  Forall (fun n => score n req <> S754_nan) l -> strict_weak (node_less req) l.
Proof.
  intros Hl. rewrite Forall_forall in Hl. split.
  - intros a Ha. apply not_true_iff_false. rewrite node_less_spec by auto. unfold key_lt.
    intros [?|[_ [? ?]]]; [lia|done].
  - intros a b c Ha Hb Hc. rewrite !node_less_spec by auto. unfold key_lt.
    set (ka := fkey (score a req)). set (kb := fkey (score b req)). set (kc := fkey (score c req)).
    clearbody ka kb kc. intros [H1|[-> H1]] [H2|[-> H2]]; [left; lia|by left|by left|right].
    split; [done|by transitivity (Node_ID b)].
  - intros a b c Ha Hb Hc. rewrite <- !not_true_iff_false, !node_less_spec by auto. unfold key_lt.
    set (ka := fkey (score a req)). set (kb := fkey (score b req)). set (kc := fkey (score c req)).
    clearbody ka kb kc. destruct ka as [[a1 a2] a3], kb as [[b1 b2] b3], kc as [[c1 c2] c3]. cbn.
    intros H1 H2 H3.
    assert (Hk : (a1, a2, a3) = (b1, b2, b3) /\ (b1, b2, b3) = (c1, c2, c3) /\
                 strict String.le (Node_ID a) (Node_ID c)).
    { destruct H3 as [H3|[[= <- <- <-] H3]].
      - exfalso. assert (~ (b1, b2, b3) = (c1, c2, c3) \/ ~ (a1, a2, a3) = (b1, b2, b3)) by
          (destruct (decide ((b1, b2, b3) = (c1, c2, c3))); [right|by left]; intros ?; simplify_eq; lia).
        assert (b1 = c1 -> b2 = c2 -> b3 = c3 -> a1 = b1 -> a2 = b2 -> a3 = b3 -> False) by naive_solver. lia.
      - assert (a1 = b1 /\ a2 = b2 /\ a3 = b3) as (-> & -> & ->) by lia. done. }
    destruct Hk as ([= -> -> ->] & _ & Hac).
    assert (Hbc : b1 = c1 /\ b2 = c2 /\ b3 = c3) by (destruct H3 as [H3|[[= -> -> ->] _]]; lia).
    destruct Hbc as (-> & -> & ->).
    destruct (total String.le (Node_ID a) (Node_ID b)) as [Hab|Hba].
    + apply H1. right. split; [done|]. split; [done|]. intros Hba. apply H2. right. split; [done|].
      destruct Hac as [Hac Hca]. split; [by transitivity (Node_ID a)|].
      intros Hcb. apply Hca. by transitivity (Node_ID b).
    + apply H2. right. split; [done|]. destruct Hac as [Hac Hca]. split; [by transitivity (Node_ID a)|].
      intros Hcb. apply Hca. by transitivity (Node_ID b).
Qed.

(** What [sort.Slice] documents. *)
Definition sorts (sortSlice : (Node -> Node -> bool) -> list Node -> list Node) : Prop :=
  forall less l, strict_weak less l ->
    sortSlice less l ≡ₚ l /\ StronglySorted (fun a b => less b a = false) (sortSlice less l).

(** Placement answers the empty string only when no node fits, and otherwise the
    id of a node that is ready, of the architecture, with the capacity, taints and
    labels asked for, such that no other fitting node has a higher score, or the
    same score and a smaller id. *)
Theorem PickNode_spec sortSlice nodes req :
  sorts sortSlice ->
  Forall (fun n => Node_ID n <> "" /\ score n req <> S754_nan) nodes ->
  (PickNode sortSlice nodes req = "" <-> forall n, n ∈ nodes -> fits req n = false) /\
  (PickNode sortSlice nodes req <> "" -> exists n, n ∈ nodes /\ fits req n = true /\
     PickNode sortSlice nodes req = Node_ID n /\
     forall m, m ∈ nodes -> fits req m = true -> node_less req m n = false).
Proof.
  intros Hsort Hn. rewrite Forall_forall in Hn. unfold PickNode.
  set (cands := base.filter _ _).
  assert (Hc : forall n, n ∈ cands <-> fits req n = true /\ n ∈ nodes) by (intros; unfold cands; by rewrite list_elem_of_filter).
  destruct cands as [|c0 cs] eqn:Ec.
  { split; [|done]. split; [|done]. intros _ n Hin. apply not_true_iff_false. intros Hf.
    assert (n ∈ []) as []%not_elem_of_nil by (by apply Hc). }
  rewrite <- Ec in *.
  destruct (Hsort (node_less req) cands) as [Hp Hs].
  { apply node_less_weak, Forall_forall. intros n [_ Hin]%Hc. by apply Hn. }
  destruct (sortSlice (node_less req) cands) as [|n l] eqn:El.
  { apply Permutation_nil in Hp. congruence. }
  assert (Hin : n ∈ cands) by (rewrite <- Hp; by left).
  apply Hc in Hin as Hin'. destruct Hin' as [Hf Hnn]. split.
  - split; [intros He; by destruct (Hn n Hnn)|]. intros H. rewrite H in Hf by done. done.
  - intros _. exists n. split; [done|]. split; [done|]. split; [done|]. intros m Hm Hfm.
    assert (Hmc : m ∈ n :: l) by (rewrite Hp; by apply Hc).
    apply StronglySorted_inv in Hs as [_ Hs]. rewrite Forall_forall in Hs.
    apply elem_of_cons in Hmc as [->|Hmc]; [|by apply Hs].
    apply not_true_iff_false. rewrite node_less_spec by (by apply Hn). unfold key_lt.
    intros [?|[_ [? ?]]]; [lia|done].
Qed.

(** Insertion sort, which Go uses for slices of up to twelve elements. *)
Fixpoint insert_node (less : Node -> Node -> bool) (x : Node) (l : list Node) : list Node :=
  match l with
  | [] => [x]
  | y :: l => if less x y then x :: y :: l else y :: insert_node less x l
  end.

Definition insertion_sort (less : Node -> Node -> bool) (l : list Node) : list Node :=
  foldr (insert_node less) [] l.

Lemma insert_node_perm less x l : insert_node less x l ≡ₚ x :: l.
Proof.
  induction l as [|y l IH]; cbn; [done|]. destruct (less x y); [done|]. rewrite IH. apply Permutation_swap.
Qed.

Lemma insertion_sort_perm less l : insertion_sort less l ≡ₚ l.
Proof. induction l as [|x l IH]; cbn; [done|]. by rewrite insert_node_perm, IH. Qed.

Lemma insert_node_sorted less all x l :
  strict_weak less all -> x ∈ all -> Forall (fun y => y ∈ all) l ->
  StronglySorted (fun a b => less b a = false) l ->
  StronglySorted (fun a b => less b a = false) (insert_node less x l).
Proof.
  intros [Hirr Htr Hinc] Hx. induction l as [|y l IH]; intros Hall Hs; cbn; [by repeat constructor|].
  inversion_clear Hall as [|? ? Hy Hl]. inversion_clear Hs as [|? ? Hs' Hf].
  assert (Hasym : less x y = true -> less y x = false).
  { intros H. apply not_true_iff_false. intros H'. pose proof (Htr _ _ _ Hx Hy Hx H H') as Hxx.
    by rewrite Hirr in Hxx. }
  destruct (less x y) eqn:E.
  - constructor; [by constructor|]. constructor; [by apply Hasym|].
    rewrite Forall_forall in Hf, Hl |- *. intros z Hz. apply (Hinc z y x); auto.
  - constructor; [by apply IH|]. rewrite Forall_forall in *. intros z Hz.
    rewrite insert_node_perm in Hz. apply elem_of_cons in Hz as [->|Hz]; auto.
Qed.

Lemma insertion_sort_sorts : sorts insertion_sort.
Proof.
  intros less l Hl. split; [apply insertion_sort_perm|].
  assert (Hgen : forall k, Forall (fun y => y ∈ l) k ->
    StronglySorted (fun a b => less b a = false) (insertion_sort less k)).
  { induction 1 as [|x k Hx Hk IH]; [constructor|].
    change (insertion_sort less (x :: k)) with (insert_node less x (insertion_sort less k)).
    eapply insert_node_sorted; [done|done| |done]. by rewrite insertion_sort_perm. }
  apply Hgen. by apply Forall_forall.
Qed.

Definition node_with (id : string) (free : Z) (load : float64) : Node :=
  mkNode id true "arm64" free 4096 ∅ [] load.
Definition small_req (binpack : bool) : Request := mkRequest "arm64" 2 512 ∅ [] binpack.

Lemma PickNode_spec_witness :
  exists n, Node_ID n = "n2" /\ fits (small_req true) n = true /\
    PickNode insertion_sort [node_with "n1" 8 (f_of_Z 0); node_with "n2" 2 (f_of_Z 0)] (small_req true) = Node_ID n.
Proof.
  destruct (proj2 (PickNode_spec insertion_sort
    [node_with "n1" 8 (f_of_Z 0); node_with "n2" 2 (f_of_Z 0)] (small_req true) insertion_sort_sorts
    ltac:(repeat constructor; done))) as (n & _ & Hf & Hp & _); [by vm_compute|].
  exists n. split; [|by split]. rewrite <- Hp. by vm_compute.
Defined.

(** In spread mode the whole score is negated, so the loaded node of two otherwise
    equal ones is preferred. *)
Lemma spread_prefers_hot_node :
  PickNode insertion_sort [node_with "cold" 4 (f_of_Z 0); node_with "hot" 4 (f_of_Z 1)] (small_req false) = "hot" /\
  PickNode insertion_sort [node_with "cold" 4 (f_of_Z 0); node_with "hot" 4 (f_of_Z 1)] (small_req true) = "cold".
Proof. by vm_compute. Qed.


(** ** [autoscale/scaler.go] *)

Inductive HookCall := BootCall (projectID : string) (index : Z) | StopCall (vmID : string).

#[export] Instance HookCall_eq_dec : EqDecision HookCall.
Proof. solve_decision. Defined.

Record ScalerState := mkScaler {
  sc_store : StoreState; sc_last : gmap string Z; sc_calls : list HookCall }.

Definition cooldown (sec : Z) : Z :=
  if sec <=? 0 then 60 * 1000000000 else i64 (sec * 1000000000).

(** [handlePutAutoscale] of [api/handlers.go]: the policy that is stored. *)
Definition put_policy (p : AutoscalePolicy) : AutoscalePolicy :=
  let max := if AS_MaxReplicas p <=? 0 then 3 else AS_MaxReplicas p in
  let min := if AS_MinReplicas p <? 0 then 0 else AS_MinReplicas p in
  let min := if max <=? min then max - 1 else min in
  let cpu := if fle (AS_TargetCPU p) (f_of_Z 0) then f_of_Z 80 else AS_TargetCPU p in
  mkAutoscalePolicy min max cpu (AS_ScaleDownCPU p) (AS_CooldownSec p) (AS_Enabled p).

Definition policy_wf (p : AutoscalePolicy) : Prop := 0 <= AS_MinReplicas p < AS_MaxReplicas p.

Lemma put_policy_wf p : policy_wf (put_policy p).
Proof.
  unfold policy_wf, put_policy. cbn [AS_MinReplicas AS_MaxReplicas].
  destruct (Z.leb_spec (AS_MaxReplicas p) 0), (Z.ltb_spec (AS_MinReplicas p) 0);
    match goal with |- context [?a <=? ?b] => destruct (Z.leb_spec a b) end; lia.
Qed.

Section Scaler.
(** [metrics id] are the latest three samples of a VM; [new_vm p i] is the id the
    boot hook appends to the project's VMs, if the boot gets that far. *)
Context (metrics : string -> list MetricSample) (new_vm : Project -> Z -> option string).

Definition avgCPU (proj : Project) : float64 :=
  let samples := base.filter (fun m => Met_Metric m = "cpu_percent") (mjoin (metrics <$> Proj_VMIDs proj)) in
  let total := foldl (fun t m => fadd t (Met_Value m)) (f_of_Z 0) samples in
  let n := foldl (fun t _ => fadd t (f_of_Z 1)) (f_of_Z 0) samples in
  if SFeqb n (f_of_Z 0) then f_of_Z 0 else fdiv total n.

(** The loop [for cur < target]: [n] iterations. *)
Fixpoint scale_up (n : nat) (cur : Z) (proj : Project) (calls : list HookCall) : Project * list HookCall :=
  match n with
  | O => (proj, calls)
  | S n =>
      let proj' := match new_vm proj cur with
                   | Some id => Proj_set_VMIDs (Proj_VMIDs proj ++ [id])%list proj
                   | None => proj
                   end in
      scale_up n (cur + 1) proj' (calls ++ [BootCall (Proj_ID proj) cur])%list
  end.

(** The loop [for cur > target], which starts at [cur = len(VMIDs)]; it would index
    [VMIDs[-1]] only for a negative target, which needs a negative minimum, and
    [handlePutAutoscale] stores none. *)
Fixpoint scale_down (n : nat) (proj : Project) (calls : list HookCall) : Project * list HookCall :=
  match n with
  | O => (proj, calls)
  | S n =>
      let k := pred (List.length (Proj_VMIDs proj)) in
      let calls' := match Proj_VMIDs proj !! k with Some id => (calls ++ [StopCall id])%list | None => calls end in
      scale_down n (Proj_set_VMIDs (firstn k (Proj_VMIDs proj)) proj) calls'
  end.

Definition scale (proj : Project) (target now : Z) (st : ScalerState) : ScalerState :=
  let cur := Z.of_nat (List.length (Proj_VMIDs proj)) in
  let '(proj, calls) := scale_up (Z.to_nat (target - cur)) cur proj (sc_calls st) in
  let '(proj, calls) := if cur <? target then (proj, calls)
                        else scale_down (Z.to_nat (cur - target)) proj calls in
  let proj := Proj_set_ReplicasDesired target proj in
  mkScaler (PutProject proj (sc_store st)) (<[Proj_ID proj := now]> (sc_last st)) calls.

(** The target of a project whose policy is on and whose cooldown has passed. *)
Definition target_of (proj : Project) (p : AutoscalePolicy) : option Z :=
  let avg := avgCPU proj in
  let cur := Z.of_nat (List.length (Proj_VMIDs proj)) in
  if cur <? AS_MinReplicas p then Some (AS_MinReplicas p)
  else if fgt avg (AS_TargetCPU p) && (cur <? AS_MaxReplicas p) then Some (cur + 1)
  else if fgt (AS_ScaleDownCPU p) (f_of_Z 0) && flt avg (AS_ScaleDownCPU p) && (AS_MinReplicas p <? cur)
  then Some (cur - 1)
  else None.

Definition cooling (now : Z) (st : ScalerState) (proj : Project) (p : AutoscalePolicy) : bool :=
  match sc_last st !! Proj_ID proj with
  | Some t => now - t <? cooldown (AS_CooldownSec p)
  | None => false
  end.

Definition scale_project (now : Z) (st : ScalerState) (proj : Project) : ScalerState :=
  match Proj_Autoscale proj with
  | None => st
  | Some p =>
      if negb (AS_Enabled p) then st
      else if (AS_MaxReplicas p <=? 0) || (AS_MaxReplicas p <=? AS_MinReplicas p) then st
      else if cooling now st proj p then st
      else match target_of proj p with
           | Some target => scale proj target now st
           | None => st
           end
  end.

Definition scaler_reconcile (now : Z) (st : ScalerState) : ScalerState :=
  foldl (scale_project now) st (ListProjects (sc_store st)).

(** *** What a scaling event does *)

(** Indices [cur], ..., [cur+n-1]. *)
Definition boots (proj : Project) (cur : Z) (n : nat) : list HookCall :=
  (fun k => BootCall (Proj_ID proj) (cur + Z.of_nat k)) <$> seq 0 n.

Lemma scale_up_calls n cur proj calls :
  (scale_up n cur proj calls).2 = (calls ++ boots proj cur n)%list.
Proof.
  revert cur proj calls. induction n as [|n IH]; intros cur proj calls; cbn [scale_up].
  - by rewrite app_nil_r.
  - rewrite IH, <- app_assoc. f_equal. unfold boots. cbn [seq fmap list_fmap app].
    rewrite <- seq_shift. change (map S (seq 0 n)) with (S <$> seq 0 n). rewrite <- list_fmap_compose.
    f_equal; [by rewrite Z.add_0_r|].
    destruct (new_vm proj cur); apply list_fmap_ext; intros i k _; cbn [compose Proj_ID Proj_set_VMIDs];
      f_equal; lia.
Qed.

Lemma scale_up_id n cur proj calls proj' calls' :
  scale_up n cur proj calls = (proj', calls') -> Proj_ID proj' = Proj_ID proj.
Proof.
  revert cur proj calls. induction n as [|n IH]; intros cur proj calls; cbn [scale_up]; [by intros [= <- _]|].
  intros H%IH. by destruct (new_vm proj cur).
Qed.

Lemma scale_down_calls n proj calls :
  (n <= List.length (Proj_VMIDs proj))%nat ->
  (scale_down n proj calls).2 = (calls ++ (StopCall <$> rev (lastn n (Proj_VMIDs proj))))%list /\
  Proj_VMIDs (scale_down n proj calls).1 = firstn (List.length (Proj_VMIDs proj) - n) (Proj_VMIDs proj).
Proof.
  revert proj calls. induction n as [|n IH]; intros proj calls Hn; cbn [scale_down].
  - unfold lastn. rewrite Nat.sub_0_r, drop_ge, app_nil_r, take_ge by lia. done.
  - set (l := Proj_VMIDs proj) in *.
    destruct (IH (Proj_set_VMIDs (firstn (pred (List.length l)) l) proj)
      (match l !! pred (List.length l) with Some id => (calls ++ [StopCall id])%list | None => calls end))
      as [IH1 IH2]; cbn [Proj_VMIDs Proj_set_VMIDs] in *.
    { rewrite length_take. lia. }
    rewrite IH1, IH2. destruct (l !! pred (List.length l)) as [id|] eqn:Eid;
      [|apply lookup_ge_None in Eid; lia].
    rewrite !length_take, !take_take.
    assert (Hl : l = (firstn (pred (List.length l)) l ++ [id])%list).
    { rewrite <- (take_drop (pred (List.length l)) l) at 1. f_equal.
      rewrite (drop_S _ id) by done. by rewrite drop_ge by lia. }
    split; [|f_equal; lia].
    rewrite <- app_assoc. f_equal. change [StopCall id] with (StopCall <$> [id]). rewrite <- fmap_app. f_equal.
    change [id] with (rev [id]). rewrite <- rev_app_distr. f_equal. unfold lastn.
    transitivity (drop (List.length l - S n) (firstn (pred (List.length l)) l ++ [id])%list);
      [|by rewrite <- Hl].
    rewrite drop_app_le by (rewrite length_take; lia). rewrite length_take. do 2 f_equal. lia.
Qed.

(** An autoscaler step on a project either changes nothing, or its cooldown is
    over and it moves the pool to a target between the policy's bounds (or one step
    down from above the maximum), by one replica or straight up to the minimum,
    with exactly the boot calls of the missing indices in order or stop calls of
    the last VMs from the end, and the event starts the next cooldown. *)
Theorem scale_project_spec now st proj :
  (forall p, Proj_Autoscale proj = Some p -> policy_wf p) ->
  scale_project now st proj = st \/
  exists p target, Proj_Autoscale proj = Some p /\ AS_Enabled p = true /\
    let cur := Z.of_nat (List.length (Proj_VMIDs proj)) in
    let st' := scale_project now st proj in
    (AS_MinReplicas p <= target <= AS_MaxReplicas p \/ AS_MaxReplicas p < cur /\ target = cur - 1) /\
    (target = cur + 1 \/ target = cur - 1 \/ cur < target /\ target = AS_MinReplicas p) /\
    sc_calls st' = (sc_calls st ++
      if cur <? target then boots proj cur (Z.to_nat (target - cur))
      else StopCall <$> rev (lastn (Z.to_nat (cur - target)) (Proj_VMIDs proj)))%list /\
    sc_last st' = <[Proj_ID proj := now]> (sc_last st) /\
    (forall t, sc_last st !! Proj_ID proj = Some t -> cooldown (AS_CooldownSec p) <= now - t).
Proof.
  intros Hwf. unfold scale_project. destruct (Proj_Autoscale proj) as [p|]; [|by left].
  specialize (Hwf p eq_refl). unfold policy_wf in Hwf.
  destruct (AS_Enabled p) eqn:Een; cbn [negb]; [|by left].
  destruct (_ || _) eqn:Emax; [by left|]. bools.
  destruct (cooling now st proj p) eqn:Ecool; [by left|].
  destruct (target_of proj p) as [target|] eqn:Et; [right|by left].
  exists p, target. split; [done|]. split; [done|]. cbv zeta.
  set (cur := Z.of_nat (List.length (Proj_VMIDs proj))).
  assert (Hcur : 0 <= cur) by (unfold cur; lia).
  assert (Hcool : forall t, sc_last st !! Proj_ID proj = Some t -> cooldown (AS_CooldownSec p) <= now - t).
  { intros t Ht. unfold cooling in Ecool. rewrite Ht in Ecool. lia. }
  assert (Hcases : target = AS_MinReplicas p /\ cur < target \/
                   target = cur + 1 /\ cur < AS_MaxReplicas p /\ AS_MinReplicas p <= cur \/
                   target = cur - 1 /\ AS_MinReplicas p < cur).
  { unfold target_of in Et. cbv zeta in Et. fold cur in Et.
    destruct (Z.ltb_spec cur (AS_MinReplicas p)); [left; naive_solver|right].
    destruct (fgt _ _ && (cur <? _)) eqn:E1; [left; bools; naive_solver lia|right].
    destruct (_ && _ && _) eqn:E2; [|done]. bools. naive_solver lia. }
  split; [lia|]. split; [lia|]. unfold scale. fold cur.
  destruct (Z.ltb_spec cur target) as [Hlt|Hge].
  - pose proof (scale_up_calls (Z.to_nat (target - cur)) cur proj (sc_calls st)) as Hup.
    destruct (scale_up _ cur proj _) as [proj' calls'] eqn:Eu. cbn in *.
    assert (Hid : Proj_ID proj' = Proj_ID proj) by (eapply scale_up_id, Eu). rewrite Hid. by split.
  - assert (target = cur - 1) as -> by lia.
    replace (Z.to_nat (cur - 1 - cur)) with 0%nat by lia. cbn [scale_up].
    replace (Z.to_nat (cur - (cur - 1))) with 1%nat by lia.
    destruct (scale_down_calls 1 proj (sc_calls st)) as [Hd _]; [lia|].
    destruct (scale_down 1 proj (sc_calls st)) as [proj' calls'] eqn:Ed. cbn in Hd |- *.
    split; [done|]. split; [|done]. cbn in Ed. injection Ed as <- <-. done.
Qed.
End Scaler.

Definition cpu_policy (min max : Z) : AutoscalePolicy :=
  mkAutoscalePolicy min max (f_of_Z 80) (f_of_Z 20) 60 true.

Definition scaled_proj (min max : Z) (vms : list string) : Project :=
  Proj_set_Autoscale (Some (cpu_policy min max)) (Proj_set_VMIDs vms (Proj_set_ID "p1" (Proj_set_ReplicasDesired 1 Proj_zero))).

Definition idle (vm : string) : list MetricSample := [mkMetricSample "" vm "cpu_percent" (f_of_Z 5) 0].

Lemma scale_project_spec_witness :
  let proj := scaled_proj 1 4 ["a"; "b"] in
  let st := mkScaler empty_store ∅ [] in
  let st' := scale_project idle (fun _ _ => None) 7 st proj in
  sc_calls st' = [StopCall "b"] /\
  (st' = st \/ exists p target, Proj_Autoscale proj = Some p /\ AS_MinReplicas p <= target <= 4).
Proof.
  cbv zeta. split; [by vm_compute|].
  destruct (scale_project_spec idle (fun _ _ => None) 7 (mkScaler empty_store ∅ []) (scaled_proj 1 4 ["a"; "b"]))
    as [H|(p & target & Hp & _ & Hb & _)].
  - by intros p [= <-].
  - by left.
  - right. exists p, target. split; [done|]. injection Hp as <-. cbn in *. lia.
Defined.

Close Scope Z_scope.
Close Scope string_scope.
