(* ===== verification/Routes.v ===== *)
(** * The API's route table ([internal/api/api.go], [apiRoutes])

    The table is the single declaration of the HTTP surface: [Routes] registers it
    and [permForRoute] reads it. It is transcribed row by row, grouped as in the
    source; the permission seeds are the ids the migrations insert. The theorems
    are about the whole table. *)
From S2P Require Import Prelude GoStrings.
From Stdlib Require Import String Ascii.

Open Scope string_scope.

Record routeDef := Route { rd_method : string; rd_pattern : string; rd_perm : string; rd_auth : bool; rd_handler : string }.

Definition routes_system : list routeDef :=
  [Route "GET" "/csrf" "" true "handleCSRFToken";
   Route "GET" "/health" "" false "handleHealth";
   Route "GET" "/healthz" "" false "handleHealthz";
   Route "GET" "/version" "" false "handleVersion"].

Definition routes_feedback : list routeDef :=
  [Route "POST" "/feedback" "feedback.write" true "handleFeedback";
   Route "GET" "/feedback" "feedback.read" true "handleListFeedback"].

Definition routes_auth : list routeDef :=
  [Route "POST" "/auth/login" "" false "handleLogin";
   Route "POST" "/login" "" false "handleLogin";
   Route "POST" "/auth/logout" "" false "handleLogout";
   Route "POST" "/logout" "" false "handleLogout";
   Route "POST" "/auth/signup" "" false "handleSignup";
   Route "POST" "/auth/password/forgot" "" false "handlePasswordForgot";
   Route "POST" "/auth/password/reset" "" false "handlePasswordReset";
   Route "GET" "/auth/jwks" "" false "handleJWKS";
   Route "POST" "/auth/token" "" true "handleMintToken";
   Route "GET" "/auth/session" "" true "handleSession"].

Definition routes_users : list routeDef :=
  [Route "GET" "/users/me" "" true "handleMe";
   Route "PATCH" "/users/me" "" true "handlePatchMe";
   Route "DELETE" "/users/me" "" true "handleDeleteMe";
   Route "GET" "/users/me/api-keys" "apikey.create" true "handleListAPIKeys";
   Route "POST" "/users/me/api-keys" "apikey.create" true "handleCreateAPIKey";
   Route "DELETE" "/users/me/api-keys/{keyId}" "apikey.delete" true "handleDeleteAPIKey";
   Route "GET" "/users" "user.list" true "handleListUsers";
   Route "POST" "/users" "user.create" true "handleCreateUser";
   Route "DELETE" "/users/{username}" "user.delete" true "handleDeleteUser"].

Definition routes_orgs : list routeDef :=
  [Route "GET" "/orgs" "project.read" true "handleListOrgs";
   Route "GET" "/orgs/default" "project.read" true "handleDefaultOrg";
   Route "POST" "/orgs" "org.member.role" true "handleCreateOrg";
   Route "GET" "/orgs/current" "project.read" true "handleGetCurrentOrg";
   Route "PATCH" "/orgs/current" "org.settings" true "handlePatchCurrentOrg";
   Route "DELETE" "/orgs/current" "org.settings" true "handleDeleteCurrentOrg";
   Route "GET" "/orgs/members" "member.list" true "handleListOrgMembers";
   Route "POST" "/orgs/members" "org.member.add" true "handleAddOrgMember";
   Route "PATCH" "/orgs/members/{username}" "org.member.role" true "handlePatchOrgMember";
   Route "DELETE" "/orgs/members/{username}" "org.member.remove" true "handleRemoveOrgMember";
   Route "GET" "/orgs/audit" "org.audit" true "handleOrgAudit";
   Route "POST" "/orgs/transfer" "org.transfer" true "handleOrgTransfer";
   Route "GET" "/orgs/events" "event.read" true "handleOrgEvents"].

Definition routes_org : list routeDef :=
  [Route "GET" "/org" "project.read" true "handleGetOrg";
   Route "PATCH" "/org" "org.settings" true "handlePatchOrg"].

Definition routes_groups : list routeDef :=
  [Route "GET" "/groups" "group.create" true "handleListGroups";
   Route "POST" "/groups" "group.create" true "handleCreateGroup";
   Route "GET" "/groups/{groupId}" "project.read" true "handleGetGroup";
   Route "PATCH" "/groups/{groupId}" "group.update" true "handlePatchGroup";
   Route "DELETE" "/groups/{groupId}" "group.delete" true "handleDeleteGroup";
   Route "GET" "/groups/{groupId}/projects" "project.read" true "handleGroupProjects";
   Route "POST" "/groups/{groupId}/projects/{projectId}" "project.write" true "handleAddGroupProject";
   Route "DELETE" "/groups/{groupId}/projects/{projectId}" "project.write" true "handleRemoveGroupProject"].

Definition routes_projects : list routeDef :=
  [Route "GET" "/projects" "project.list" true "handleListProjects";
   Route "POST" "/projects" "project.create" true "handleCreateProject";
   Route "POST" "/projects/compose" "project.create" true "handleCreateComposeProject";
   Route "GET" "/projects/{projectId}" "project.read" true "handleGetProject";
   Route "PATCH" "/projects/{projectId}" "project.rename" true "handlePatchProject";
   Route "DELETE" "/projects/{projectId}" "project.delete" true "handleDeleteProject";
   Route "POST" "/projects/{projectId}/redeploy" "project.deploy" true "handleRedeployProject";
   Route "GET" "/projects/{projectId}/scale" "replica.list" true "handleGetScale";
   Route "PATCH" "/projects/{projectId}/scale" "project.scale" true "handleScale";
   Route "GET" "/projects/{projectId}/healthcheck" "project.read" true "handleGetHealthcheck";
   Route "PUT" "/projects/{projectId}/healthcheck" "project.settings" true "handlePutHealthcheck";
   Route "GET" "/projects/{projectId}/autoscale" "project.read" true "handleGetAutoscale";
   Route "PUT" "/projects/{projectId}/autoscale" "project.settings" true "handlePutAutoscale";
   Route "POST" "/projects/{projectId}/restart" "project.restart" true "handleRestartProject";
   Route "GET" "/projects/{projectId}/env" "env.list" true "handleListEnv";
   Route "POST" "/projects/{projectId}/env" "env.set" true "handleSetEnv";
   Route "POST" "/projects/{projectId}/env/bulk" "env.set" true "handleSetEnvBulk";
   Route "PATCH" "/projects/{projectId}/env/{envId}" "env.set" true "handlePatchEnv";
   Route "DELETE" "/projects/{projectId}/env/{envId}" "env.set" true "handleDeleteEnv";
   Route "GET" "/projects/{projectId}/secrets" "secret.list" true "handleListSecrets";
   Route "POST" "/projects/{projectId}/secrets" "secret.create" true "handleCreateSecret";
   Route "DELETE" "/projects/{projectId}/secrets/{secretId}" "secret.delete" true "handleDeleteSecret";
   Route "GET" "/projects/{projectId}/domains" "domain.list" true "handleListDomains";
   Route "POST" "/projects/{projectId}/domains" "domain.add" true "handleAddDomain";
   Route "GET" "/projects/{projectId}/domains/records" "domain.list" true "handleDomainRecords";
   Route "GET" "/projects/{projectId}/domains/{domainId}" "domain.list" true "handleGetDomain";
   Route "DELETE" "/projects/{projectId}/domains/{domainId}" "domain.remove" true "handleDeleteDomain";
   Route "POST" "/projects/{projectId}/domains/{domainId}/verify" "domain.verify" true "handleVerifyDomain";
   Route "POST" "/projects/{projectId}/domains/{domainId}/reverify" "domain.verify" true "handleVerifyDomain";
   Route "GET" "/projects/{projectId}/dns" "domain.list" true "handleProjectDNS";
   Route "GET" "/projects/{projectId}/dns/records" "domain.list" true "handleProjectDNS";
   Route "GET" "/projects/{projectId}/compose" "project.read" true "handleGetCompose";
   Route "PUT" "/projects/{projectId}/compose" "project.import" true "handlePutCompose";
   Route "POST" "/projects/{projectId}/compose/validate" "project.import" true "handleValidateCompose";
   Route "GET" "/projects/{projectId}/compose/preview" "project.read" true "handleComposePreview";
   Route "GET" "/projects/{projectId}/logs" "log.read" true "handleProjectLogs";
   Route "GET" "/projects/{projectId}/logs/stream" "log.read" true "handleProjectLogStream";
   Route "GET" "/projects/{projectId}/metrics" "metric.read" true "handleProjectMetrics";
   Route "GET" "/projects/{projectId}/traffic" "traffic.read" true "handleProjectTraffic";
   Route "GET" "/projects/{projectId}/events" "event.read" true "handleProjectEvents";
   Route "GET" "/projects/{projectId}/pool" "replica.list" true "handlePoolStatus";
   Route "POST" "/projects/{projectId}/pool/drain" "project.settings" true "handlePoolDrain";
   Route "GET" "/projects/{projectId}/status" "project.read" true "handleProjectStatus";
   Route "GET" "/projects/{projectId}/liveness" "project.read" true "handleProjectLiveness";
   Route "GET" "/projects/{projectId}/replicas" "replica.list" true "handleListReplicas";
   Route "POST" "/projects/{projectId}/replicas/batch/start" "replica.start" true "handleReplicaBatchStart";
   Route "POST" "/projects/{projectId}/replicas/batch/stop" "replica.stop" true "handleReplicaBatchStop";
   Route "GET" "/projects/{projectId}/replicas/{n}" "replica.list" true "handleGetReplica";
   Route "POST" "/projects/{projectId}/replicas/{n}/start" "replica.start" true "handleReplicaStart";
   Route "POST" "/projects/{projectId}/replicas/{n}/stop" "replica.stop" true "handleReplicaStop";
   Route "POST" "/projects/{projectId}/replicas/{n}/restart" "replica.restart" true "handleReplicaRestart";
   Route "POST" "/projects/{projectId}/replicas/{n}/snapshot" "replica.snapshot" true "handleReplicaSnapshot";
   Route "POST" "/projects/{projectId}/replicas/{n}/restore" "replica.restore" true "handleReplicaRestore";
   Route "POST" "/projects/{projectId}/replicas/{n}/recover" "replica.restore" true "handleReplicaRestore";
   Route "DELETE" "/projects/{projectId}/replicas/{n}" "replica.delete" true "handleReplicaDelete";
   Route "GET" "/projects/{projectId}/replicas/{n}/logs" "log.read" true "handleReplicaLogs";
   Route "GET" "/projects/{projectId}/replicas/{n}/metrics" "metric.read" true "handleReplicaMetrics";
   Route "GET" "/projects/{projectId}/replicas/{n}/traffic" "traffic.read" true "handleReplicaTraffic";
   Route "GET" "/projects/{projectId}/replicas/{n}/health" "replica.list" true "handleReplicaHealth";
   Route "GET" "/projects/{projectId}/replicas/{n}/ssh-info" "ssh.connect" true "handleSSHInfo";
   Route "POST" "/projects/{projectId}/replicas/{n}/ssh-cert" "ssh.connect" true "handleSSHCert";
   Route "POST" "/projects/{projectId}/replicas/{n}/exec" "replica.exec" true "handleReplicaExec";
   Route "GET" "/projects/{projectId}/replicas/{n}/console" "console.open" true "handleReplicaConsole";
   Route "GET" "/projects/{projectId}/deployments" "deployment.list" true "handleListDeployments";
   Route "POST" "/projects/{projectId}/deployments" "deployment.create" true "handleCreateDeployment";
   Route "GET" "/projects/{projectId}/deployments/upload" "deployment.create" true "handleDeploymentUpload";
   Route "GET" "/projects/{projectId}/deployments/{deployId}" "deployment.list" true "handleGetDeployment";
   Route "GET" "/projects/{projectId}/deployments/{deployId}/checks" "deployment.list" true "handleGetDeploymentChecks";
   Route "PUT" "/projects/{projectId}/deployments/{deployId}/checks" "deployment.create" true "handleUpsertDeploymentChecks";
   Route "PATCH" "/projects/{projectId}/deployments/{deployId}/checks/{checkName}" "deployment.create" true "handleSetDeploymentCheck";
   Route "PUT" "/projects/{projectId}/deployments/{deployId}/rollout" "deployment.promote" true "handleSetDeploymentRollout";
   Route "GET" "/projects/{projectId}/deployments/{deployId}/logs" "log.read" true "handleDeploymentLogs";
   Route "POST" "/projects/{projectId}/deployments/{deployId}/promote" "deployment.promote" true "handlePromoteDeployment";
   Route "POST" "/projects/{projectId}/deployments/{deployId}/rollback" "deployment.rollback" true "handleRollbackDeployment";
   Route "DELETE" "/projects/{projectId}/deployments/{deployId}" "deployment.rollback" true "handleDeleteDeployment";
   Route "GET" "/projects/{projectId}/deployments/{deployId}/source" "deployment.list" true "handleDeploymentSource";
   Route "GET" "/projects/{projectId}/deployments/{deployId}/og" "deployment.list" true "handleDeploymentOG";
   Route "GET" "/projects/{projectId}/settings/general" "project.read" true "handleGetGeneral";
   Route "PATCH" "/projects/{projectId}/settings/general" "project.settings" true "handlePatchGeneral";
   Route "POST" "/projects/{projectId}/avatar" "project.avatar" true "handleSetAvatar";
   Route "POST" "/projects/{projectId}/transfer" "project.transfer" true "handleTransferProject";
   Route "GET" "/projects/{projectId}/settings/build" "project.read" true "handleGetBuild";
   Route "PUT" "/projects/{projectId}/settings/build" "project.settings" true "handlePutBuild";
   Route "GET" "/projects/{projectId}/settings/checks" "project.read" true "handleGetChecks";
   Route "POST" "/projects/{projectId}/settings/checks" "project.settings" true "handlePutChecks";
   Route "GET" "/projects/{projectId}/settings/rollout" "project.read" true "handleGetRollout";
   Route "PUT" "/projects/{projectId}/settings/rollout" "project.settings" true "handlePutRollout";
   Route "GET" "/projects/{projectId}/settings/build-machine" "project.read" true "handleGetBuildMachine";
   Route "PUT" "/projects/{projectId}/settings/build-machine" "project.settings" true "handlePutBuildMachine";
   Route "POST" "/projects/{projectId}/settings/ignore-command" "git.settings" true "handleSetIgnoreCommand";
   Route "GET" "/projects/{projectId}/settings/framework" "project.read" true "handleGetFramework";
   Route "GET" "/projects/{projectId}/environments" "project.read" true "handleListEnvironments";
   Route "POST" "/projects/{projectId}/environments" "project.settings" true "handleCreateEnvironment";
   Route "GET" "/projects/{projectId}/environments/available" "project.read" true "handleEnvironmentsAvailable";
   Route "GET" "/projects/{projectId}/environments/{envId}" "project.read" true "handleGetEnvironment";
   Route "PATCH" "/projects/{projectId}/environments/{envId}" "project.settings" true "handlePatchEnvironment";
   Route "DELETE" "/projects/{projectId}/environments/{envId}" "project.settings" true "handleDeleteEnvironment";
   Route "POST" "/projects/{projectId}/environments/{envId}/branch" "project.settings" true "handleEnvBranch";
   Route "POST" "/projects/{projectId}/environments/{envId}/domain" "project.settings" true "handleEnvDomain";
   Route "GET" "/projects/{projectId}/environments/{envId}/range" "project.read" true "handleEnvRange";
   Route "GET" "/projects/{projectId}/settings/git" "project.read" true "handleGetGit";
   Route "PUT" "/projects/{projectId}/settings/git" "git.settings" true "handlePutGit";
   Route "POST" "/projects/{projectId}/settings/git/sync" "git.settings" true "handleGitSync";
   Route "PATCH" "/projects/{projectId}/settings/git/toggles" "git.settings" true "handleGitToggles";
   Route "GET" "/projects/{projectId}/settings/git/lfs" "project.read" true "handleGetGitLFS";
   Route "PUT" "/projects/{projectId}/settings/git/lfs" "git.settings" true "handlePutGitLFS"].

Definition routes_projects_more : list routeDef :=
  [Route "GET" "/projects/{projectId}/hooks" "project.read" true "handleListHooks";
   Route "POST" "/projects/{projectId}/hooks" "hook.create" true "handleCreateHook";
   Route "DELETE" "/projects/{projectId}/hooks/{hookId}" "hook.delete" true "handleDeleteHook";
   Route "POST" "/projects/{projectId}/hooks/{hookId}/trigger" "hook.trigger" true "handleTriggerHook";
   Route "GET" "/projects/{projectId}/settings/deployment-protection" "project.read" true "handleGetProtection";
   Route "PUT" "/projects/{projectId}/settings/deployment-protection" "project.settings" true "handlePutProtection";
   Route "GET" "/projects/{projectId}/settings/oidc" "project.read" true "handleGetOIDC";
   Route "PUT" "/projects/{projectId}/settings/oidc" "project.settings" true "handlePutOIDC";
   Route "GET" "/projects/{projectId}/settings/functions" "git.settings" true "handleGetFunctions";
   Route "PUT" "/projects/{projectId}/settings/functions" "git.settings" true "handlePutFunctions";
   Route "GET" "/projects/{projectId}/crons" "cron.create" true "handleListCrons";
   Route "POST" "/projects/{projectId}/crons" "cron.create" true "handleCreateCron";
   Route "GET" "/projects/{projectId}/crons/history" "cron.update" true "handleCronHistory";
   Route "GET" "/projects/{projectId}/crons/{cronId}" "cron.create" true "handleGetCron";
   Route "PATCH" "/projects/{projectId}/crons/{cronId}" "cron.update" true "handlePatchCron";
   Route "DELETE" "/projects/{projectId}/crons/{cronId}" "cron.delete" true "handleDeleteCron";
   Route "POST" "/projects/{projectId}/crons/{cronId}/run" "cron.run" true "handleRunCron";
   Route "GET" "/projects/{projectId}/members" "member.list" true "handleListProjectMembers";
   Route "POST" "/projects/{projectId}/members" "member.invite" true "handleAddProjectMember";
   Route "GET" "/projects/{projectId}/members/{username}" "member.list" true "handleGetProjectMember";
   Route "PATCH" "/projects/{projectId}/members/{username}" "member.role" true "handlePatchProjectMember";
   Route "DELETE" "/projects/{projectId}/members/{username}" "member.remove" true "handleRemoveProjectMember";
   Route "POST" "/projects/{projectId}/members/invite" "member.invite" true "handleInviteMember";
   Route "GET" "/projects/{projectId}/drains" "project.settings" true "handleListDrains";
   Route "POST" "/projects/{projectId}/drains" "drain.create" true "handleCreateDrain";
   Route "DELETE" "/projects/{projectId}/drains/{drainId}" "drain.delete" true "handleDeleteDrain";
   Route "POST" "/projects/{projectId}/drains/{drainId}/test" "drain.create" true "handleTestDrain";
   Route "GET" "/projects/{projectId}/alerts" "project.read" true "handleListAlerts";
   Route "POST" "/projects/{projectId}/alerts" "alert.create" true "handleCreateAlert";
   Route "GET" "/projects/{projectId}/alerts/{alertId}" "project.read" true "handleGetAlert";
   Route "PATCH" "/projects/{projectId}/alerts/{alertId}" "alert.update" true "handlePatchAlert";
   Route "DELETE" "/projects/{projectId}/alerts/{alertId}" "alert.delete" true "handleDeleteAlert";
   Route "POST" "/projects/{projectId}/alerts/{alertId}/silence" "alert.silence" true "handleSilenceAlert";
   Route "POST" "/projects/{projectId}/alerts/{alertId}/unsilence" "alert.silence" true "handleUnsilenceAlert";
   Route "GET" "/projects/{projectId}/settings/security" "project.read" true "handleGetSecurity";
   Route "PUT" "/projects/{projectId}/settings/security" "project.settings" true "handlePutSecurity";
   Route "GET" "/projects/{projectId}/settings/retention" "project.read" true "handleGetRetention";
   Route "PUT" "/projects/{projectId}/settings/retention" "project.settings" true "handlePutRetention";
   Route "GET" "/projects/{projectId}/settings/networking" "project.network" true "handleGetNetworking";
   Route "PUT" "/projects/{projectId}/settings/networking" "project.network" true "handlePutNetworking";
   Route "GET" "/projects/{projectId}/settings/advanced" "project.read" true "handleGetAdvanced";
   Route "PUT" "/projects/{projectId}/settings/advanced" "project.settings" true "handlePutAdvanced";
   Route "GET" "/projects/{projectId}/settings/passport" "project.read" true "handleGetPassport";
   Route "PUT" "/projects/{projectId}/settings/passport" "project.settings" true "handlePutPassport";
   Route "GET" "/projects/{projectId}/settings/microfrontends" "project.read" true "handleGetMicrofrontends";
   Route "PUT" "/projects/{projectId}/settings/microfrontends" "project.settings" true "handlePutMicrofrontends";
   Route "GET" "/projects/{projectId}/redirects" "project.read" true "handleListRedirects";
   Route "POST" "/projects/{projectId}/redirects" "redirect.create" true "handleCreateRedirect";
   Route "DELETE" "/projects/{projectId}/redirects/{redirectId}" "redirect.delete" true "handleDeleteRedirect";
   Route "PUT" "/projects/{projectId}/redirects/bulk" "redirect.create" true "handleBulkRedirects";
   Route "GET" "/projects/{projectId}/analytics/usage" "analytics.read" true "handleAnalyticsUsage";
   Route "GET" "/projects/{projectId}/analytics/usage/timeseries" "analytics.read" true "handleAnalyticsTimeseries";
   Route "GET" "/projects/{projectId}/analytics/paths" "analytics.read" true "handleAnalyticsPaths";
   Route "GET" "/projects/{projectId}/analytics/status-codes" "analytics.read" true "handleAnalyticsStatusCodes";
   Route "GET" "/projects/{projectId}/analytics/bandwidth" "analytics.read" true "handleAnalyticsBandwidth";
   Route "GET" "/projects/{projectId}/analytics/requests" "analytics.read" true "handleAnalyticsRequests";
   Route "GET" "/projects/{projectId}/analytics/invocations" "analytics.read" true "handleAnalyticsInvocations";
   Route "GET" "/projects/{projectId}/observability/web-vitals" "webvital.read" true "handleWebVitals";
   Route "POST" "/projects/{projectId}/observability/web-vitals/beacon" "webvital.read" true "handleWebVitalsBeacon";
   Route "GET" "/projects/{projectId}/observability/web-vitals/timeseries" "webvital.read" true "handleWebVitalsTimeseries";
   Route "GET" "/projects/{projectId}/observability/lcp" "webvital.read" true "handleAnalyticsUsage";
   Route "GET" "/projects/{projectId}/observability/cls" "webvital.read" true "handleAnalyticsUsage";
   Route "GET" "/projects/{projectId}/observability/fid" "webvital.read" true "handleAnalyticsUsage";
   Route "GET" "/projects/{projectId}/firewall/rules" "project.read" true "handleListFirewallRules";
   Route "POST" "/projects/{projectId}/firewall/rules" "firewall.create" true "handleCreateFirewallRule";
   Route "GET" "/projects/{projectId}/firewall/rules/{ruleId}" "project.read" true "handleGetFirewallRule";
   Route "DELETE" "/projects/{projectId}/firewall/rules/{ruleId}" "firewall.delete" true "handleDeleteFirewallRule";
   Route "PATCH" "/projects/{projectId}/firewall/rules/{ruleId}" "firewall.update" true "handlePatchFirewallRule";
   Route "GET" "/projects/{projectId}/firewall/events" "traffic.read" true "handleFirewallEvents";
   Route "GET" "/projects/{projectId}/firewall/stats" "traffic.read" true "handleFirewallStats";
   Route "POST" "/projects/{projectId}/firewall/whitelist" "firewall.create" true "handleFirewallWhitelist";
   Route "GET" "/projects/{projectId}/cache/stats" "cache.stats" true "handleCacheStats";
   Route "POST" "/projects/{projectId}/cache/purge" "cache.purge" true "handleCachePurge";
   Route "POST" "/projects/{projectId}/cache/purge/path" "cache.purge" true "handleCachePurgePath";
   Route "GET" "/projects/{projectId}/volumes" "volume.read" true "handleListVolumes";
   Route "POST" "/projects/{projectId}/volumes" "volume.create" true "handleCreateVolume";
   Route "GET" "/projects/{projectId}/volumes/{volumeId}" "volume.read" true "handleGetVolume";
   Route "DELETE" "/projects/{projectId}/volumes/{volumeId}" "volume.delete" true "handleDeleteVolume";
   Route "POST" "/projects/{projectId}/volumes/{volumeId}/resize" "volume.resize" true "handleResizeVolume";
   Route "GET" "/projects/{projectId}/volumes/{volumeId}/usage" "volume.read" true "handleVolumeUsage";
   Route "POST" "/projects/{projectId}/export" "project.export" true "handleExportProject";
   Route "POST" "/projects/{projectId}/import" "project.import" true "handleImportProject";
   Route "PUT" "/projects/{projectId}/ssh" "ssh.toggle" true "handleSSHToggle";
   Route "POST" "/projects/{projectId}/git/import" "git.import" true "handleGitImport";
   Route "POST" "/projects/{projectId}/deployments/git" "build.create" true "handleDeployGit";
   Route "GET" "/projects/{projectId}/builds" "build.create" true "handleListBuilds";
   Route "POST" "/projects/{projectId}/builds" "build.create" true "handleCreateBuild";
   Route "POST" "/projects/{projectId}/builds/run" "build.create" true "handleCreateBuild";
   Route "GET" "/projects/{projectId}/builds/{buildId}/logs" "log.read" true "handleBuildLogs";
   Route "GET" "/projects/{projectId}/builds/{buildId}/logs/stream" "log.read" true "handleBuildLogStream";
   Route "GET" "/projects/{projectId}/git/branches" "git.import" true "handleGitBranches";
   Route "GET" "/projects/{projectId}/rollouts" "deployment.list" true "handleListRollouts";
   Route "GET" "/projects/{projectId}/services" "project.read" true "handleListServices";
   Route "GET" "/projects/{projectId}/services/{serviceName}" "project.read" true "handleGetService";
   Route "POST" "/projects/{projectId}/services/{serviceName}/scale" "project.scale" true "handleScaleService";
   Route "GET" "/projects/{projectId}/networks" "project.network" true "handleListNetworks";
   Route "POST" "/projects/{projectId}/networks" "project.network" true "handleCreateNetwork"].

Definition routes_global : list routeDef :=
  [Route "GET" "/global/analytics" "analytics.read" true "handleGlobalAnalytics";
   Route "GET" "/global/analytics/timeseries" "analytics.read" true "handleGlobalAnalyticsTimeseries"].

Definition routes_usage : list routeDef :=
  [Route "GET" "/usage" "analytics.read" true "handleUsage";
   Route "GET" "/usage/bandwidth" "analytics.read" true "handleUsageBandwidth";
   Route "GET" "/usage/requests" "analytics.read" true "handleUsageRequests";
   Route "GET" "/usage/timeseries" "analytics.read" true "handleGlobalAnalyticsTimeseries"].

Definition routes_replicas : list routeDef :=
  [Route "GET" "/replicas" "replica.list" true "handleGlobalReplicas";
   Route "GET" "/replicas/{replicaId}" "replica.list" true "handleGlobalReplica"].

Definition routes_volumes : list routeDef :=
  [Route "GET" "/volumes" "volume.read" true "handleListVolumes";
   Route "POST" "/volumes" "volume.create" true "handleCreateVolume";
   Route "GET" "/volumes/{volumeId}" "volume.read" true "handleGetVolume";
   Route "DELETE" "/volumes/{volumeId}" "volume.delete" true "handleDeleteVolume";
   Route "POST" "/volumes/{volumeId}/resize" "volume.resize" true "handleResizeVolume";
   Route "GET" "/volumes/{volumeId}/usage" "volume.read" true "handleVolumeUsage"].

Definition routes_guest_bases : list routeDef :=
  [Route "GET" "/guest-bases" "project.read" true "handleListGuestBases"].

Definition routes_images : list routeDef :=
  [Route "GET" "/images" "project.read" true "handleListImages";
   Route "GET" "/images/base" "project.read" true "handleBaseImage";
   Route "GET" "/images/base/readiness" "project.read" true "handleBaseImageReadiness";
   Route "POST" "/images/custom" "image.upload" true "handleUploadCustomImage";
   Route "GET" "/images/search" "project.read" true "handleImageSearch";
   Route "GET" "/images/{reference}" "project.read" true "handleGetImage";
   Route "DELETE" "/images/{reference}" "project.delete" true "handleDeleteImage";
   Route "POST" "/images/prune" "cache.purge" true "handlePruneImages";
   Route "GET" "/images/stats" "project.read" true "handleImageStats";
   Route "GET" "/images/ml" "project.read" true "handleImageSearch"].

Definition routes_overview : list routeDef :=
  [Route "GET" "/overview" "project.read" true "handleOverview"].

Definition routes_vms : list routeDef :=
  [Route "GET" "/vms" "replica.list" true "handleListAllVMs";
   Route "GET" "/vms/{replicaId}" "replica.list" true "handleGetVMCompat";
   Route "POST" "/vms/{replicaId}/start" "replica.start" true "handleReplicaStartByID";
   Route "POST" "/vms/{replicaId}/stop" "replica.stop" true "handleReplicaStopByID";
   Route "POST" "/vms/{replicaId}/restart" "replica.restart" true "handleReplicaRestartByID";
   Route "POST" "/vms/{replicaId}/snapshot" "replica.snapshot" true "handleReplicaSnapshotByID";
   Route "POST" "/vms/{replicaId}/restore" "replica.restore" true "handleReplicaRestoreByID";
   Route "POST" "/vms/{replicaId}/recover" "replica.restore" true "handleReplicaRestoreByID";
   Route "DELETE" "/vms/{replicaId}" "replica.delete" true "handleVMCompatDelete";
   Route "GET" "/vms/{replicaId}/domains" "domain.list" true "handleVMCompatDomains";
   Route "GET" "/vms/{replicaId}/logs" "log.read" true "handleReplicaLogsByID";
   Route "GET" "/vms/{replicaId}/logs/stream" "log.read" true "handleReplicaLogStream";
   Route "GET" "/vms/{replicaId}/metrics" "metric.read" true "handleReplicaMetricsByID";
   Route "GET" "/vms/{replicaId}/traffic" "traffic.read" true "handleReplicaTrafficByID";
   Route "GET" "/vms/{replicaId}/health" "replica.list" true "handleReplicaHealthByID";
   Route "GET" "/vms/{replicaId}/ssh-info" "ssh.connect" true "handleSSHInfoByID";
   Route "POST" "/vms/{replicaId}/ssh-cert" "ssh.connect" true "handleSSHCertByID";
   Route "POST" "/vms/{replicaId}/exec" "replica.exec" true "handleReplicaExecByID";
   Route "GET" "/vms/{replicaId}/console" "console.open" true "handleReplicaConsoleByID"].

Definition routes_host : list routeDef :=
  [Route "GET" "/host/overview" "metric.read" true "handleHostOverview";
   Route "GET" "/host/ports" "metric.read" true "handleHostPorts";
   Route "GET" "/host/kernel" "metric.read" true "handleHostKernel";
   Route "GET" "/host/prerequisites" "metric.read" true "handleHostPrerequisites";
   Route "GET" "/host/runtime" "metric.read" true "handleRuntimeConfig"].

Definition routes_logs : list routeDef :=
  [Route "GET" "/logs" "log.read" true "handleDaemonLogs"].

Definition routes_traffic : list routeDef :=
  [Route "GET" "/traffic" "traffic.read" true "handleAllTraffic";
   Route "DELETE" "/traffic" "cache.purge" true "handleClearTraffic";
   Route "GET" "/traffic/search" "traffic.read" true "handleTrafficSearch"].

Definition routes_servers : list routeDef :=
  [Route "GET" "/servers" "server.register" true "handleListServers";
   Route "POST" "/servers" "server.register" true "handleRegisterServer";
   Route "GET" "/servers/{id}" "server.register" true "handleGetServer";
   Route "POST" "/servers/{id}/heartbeat" "server.register" true "handleServerHeartbeat";
   Route "GET" "/servers/{id}/ssh" "server.register" true "handleServerSSH";
   Route "DELETE" "/servers/{id}" "server.remove" true "handleDeleteServer"].

Definition routes_roles : list routeDef :=
  [Route "GET" "/roles" "org.audit" true "handleListRoles";
   Route "POST" "/roles" "org.member.role" true "handleCreateRole";
   Route "GET" "/roles/{roleId}" "org.audit" true "handleGetRole";
   Route "PATCH" "/roles/{roleId}" "org.member.role" true "handlePatchRole";
   Route "DELETE" "/roles/{roleId}" "org.member.role" true "handleDeleteRole";
   Route "GET" "/roles/{roleId}/permissions" "org.audit" true "handleGetRolePermissions";
   Route "PUT" "/roles/{roleId}/permissions" "org.member.role" true "handleSetRolePermissions";
   Route "POST" "/roles/{roleId}/permissions/{permissionId}" "org.member.role" true "handleAddRolePermission";
   Route "DELETE" "/roles/{roleId}/permissions/{permissionId}" "org.member.role" true "handleRemoveRolePermission"].

Definition routes_permissions : list routeDef :=
  [Route "GET" "/permissions" "org.audit" true "handleListPermissions"].

Definition apiRoutes : list routeDef :=
  (routes_system ++
   routes_feedback ++
   routes_auth ++
   routes_users ++
   routes_orgs ++
   routes_org ++
   routes_groups ++
   routes_projects ++
   routes_projects_more ++
   routes_global ++
   routes_usage ++
   routes_replicas ++
   routes_volumes ++
   routes_guest_bases ++
   routes_images ++
   routes_overview ++
   routes_vms ++
   routes_host ++
   routes_logs ++
   routes_traffic ++
   routes_servers ++
   routes_roles ++
   routes_permissions)%list.

Definition seeds_0007 : list string :=
  ["project.list"; "project.read"; "project.create"; "project.rename"; "project.delete";
   "project.transfer"; "project.export"; "project.import"; "project.avatar"; "project.deploy";
   "project.scale"; "project.restart"; "project.network"; "project.settings"; "user.list";
   "user.read"; "env.list"; "env.set"; "secret.list"; "secret.create";
   "secret.delete"; "domain.list"; "domain.add"; "domain.remove"; "domain.verify";
   "deployment.list"; "deployment.create"; "deployment.promote"; "deployment.rollback"; "build.create";
   "git.import"; "git.settings"; "replica.list"; "replica.start"; "replica.stop";
   "replica.restart"; "replica.delete"; "replica.exec"; "ssh.connect"; "ssh.toggle";
   "console.open"; "log.read"; "traffic.read"; "metric.read"; "analytics.read";
   "webvital.read"; "event.read"; "cron.create"; "cron.update"; "cron.delete";
   "cron.run"; "hook.create"; "hook.delete"; "hook.trigger"; "drain.create";
   "drain.delete"; "alert.create"; "alert.update"; "alert.delete"; "alert.silence";
   "redirect.create"; "redirect.delete"; "firewall.create"; "firewall.delete"; "firewall.update";
   "cache.purge"; "cache.stats"; "volume.create"; "volume.resize"; "volume.delete";
   "volume.read"; "member.list"; "member.invite"; "member.remove"; "member.role";
   "org.settings"; "org.transfer"; "org.audit"; "org.member.add"; "org.member.remove";
   "org.member.role"; "group.create"; "group.update"; "group.delete"; "user.create";
   "user.delete"; "server.register"; "server.remove"; "apikey.create"; "apikey.delete";
   "feedback.write"; "feedback.read"].

Definition seeds_0016 : list string :=
  ["image.upload"].

Definition seeds_0018 : list string :=
  ["replica.snapshot"; "replica.restore"; "network.create"; "network.read"; "network.delete";
   "certificate.read"; "certificate.issue"; "event.read"; "audit.read"].

Definition seeded_permissions : list string := (seeds_0007 ++ seeds_0016 ++ seeds_0018)%list.

(** ** Registration *)

Definition route_key (r : routeDef) : string := rd_method r ++ " " ++ rd_pattern r.

(** [buildRoutePerms]: later rows overwrite earlier ones. *)
Definition buildRoutePerms (l : list routeDef) : gmap string string :=
  foldl (fun m r => if rd_perm r !=? "" then <[route_key r := rd_perm r]> m else m) ∅ l.

Definition routePerms : gmap string string := buildRoutePerms apiRoutes.

(** [permForRoute] on the pattern the request matched. *)
Definition permForRoute (pattern : string) : string := default "" (routePerms !! pattern).

(** [http.ServeMux] compares two patterns segment by segment: a wildcard matches any
    segment, equal literals match, different literals make the patterns disjoint. *)
Definition wildcard (seg : string) : bool := has_prefix seg "{".

Inductive relation := Disjoint | Equal | MoreGeneral | MoreSpecific | Overlaps.

Definition combine (a b : relation) : relation :=
  match a, b with
  | Disjoint, _ | _, Disjoint => Disjoint
  | Equal, r | r, Equal => r
  | MoreGeneral, MoreGeneral => MoreGeneral
  | MoreSpecific, MoreSpecific => MoreSpecific
  | _, _ => Overlaps
  end.

Fixpoint compare_paths (p q : list string) : relation :=
  match p, q with
  | [], [] => Equal
  | a :: p, b :: q =>
      combine
        (match wildcard a, wildcard b with
         | true, true => Equal
         | true, false => MoreGeneral
         | false, true => MoreSpecific
         | false, false => if a ==? b then Equal else Disjoint
         end) (compare_paths p q)
  | _, _ => Disjoint
  end.

(** Registering two patterns panics when they are equal or overlap without one
    being more specific. The methods [GET] and the others are disjoint here: no
    row registers [HEAD]. *)
Definition conflicts (r s : routeDef) : bool :=
  (rd_method r ==? rd_method s) &&
  match compare_paths (split_on "/"%char (rd_pattern r)) (split_on "/"%char (rd_pattern s)) with
  | Equal | Overlaps => true
  | _ => false
  end.

Fixpoint registers (l : list routeDef) : bool :=
  match l with
  | [] => true
  | r :: l => negb (existsb (conflicts r) l) && registers l
  end.

(** Routes served without the [auth] wrapper, and the authenticated ones that need
    no permission: a caller's own session, token and account. *)
Definition public_routes : list string :=
  ["GET /health"; "GET /healthz"; "GET /version"; "POST /auth/login"; "POST /login"; "POST /auth/logout";
   "POST /logout"; "POST /auth/signup"; "POST /auth/password/forgot"; "POST /auth/password/reset";
   "GET /auth/jwks"].

Definition self_service_routes : list string :=
  ["GET /csrf"; "POST /auth/token"; "GET /auth/session"; "GET /users/me"; "PATCH /users/me"; "DELETE /users/me"].

Definition guarded (r : routeDef) : bool :=
  if rd_auth r then
    (if rd_perm r ==? "" then bool_decide (route_key r ∈ self_service_routes)
     else permForRoute (route_key r) ==? rd_perm r)
  else bool_decide (route_key r ∈ public_routes) && (permForRoute (route_key r) ==? "").

Lemma all_guarded : forallb guarded apiRoutes = true.
Proof. by vm_compute. Qed.

Lemma all_register : registers apiRoutes = true.
Proof. by vm_compute. Qed.

Lemma registers_pairs l i j r s :
  registers l = true -> (i < j)%nat -> l !! i = Some r -> l !! j = Some s -> conflicts r s = false.
Proof.
  revert i j. induction l as [|x l IH]; intros i j Hl Hij Hi Hj; [done|]. cbn [registers] in Hl. bools.
  destruct i as [|i], j as [|j]; try lia; cbn in Hi, Hj.
  - injection Hi as ->. apply not_true_iff_false. intros Hc.
    assert (existsb (conflicts r) l = true); [|congruence].
    apply existsb_exists. exists s. split; [|done]. by eapply list_elem_of_In, list_elem_of_lookup_2.
  - eapply IH; [done| |done|done]. lia.
Qed.

(** The whole route table: no two rows conflict, so registering them never
    panics and each request has one row; a row outside the authentication wrapper
    is one of the eleven public ones; every authenticated row is guarded by the
    permission it declares, except the six on the caller's own session and account. *)
Theorem routes_guarded :
  (forall i j r s, (i < j)%nat -> apiRoutes !! i = Some r -> apiRoutes !! j = Some s -> conflicts r s = false) /\
  (forall r, r ∈ apiRoutes -> rd_auth r = false -> route_key r ∈ public_routes) /\
  (forall r, r ∈ apiRoutes -> rd_auth r = true ->
     (route_key r ∈ self_service_routes /\ rd_perm r = "") \/
     (rd_perm r <> "" /\ permForRoute (route_key r) = rd_perm r)).
Proof.
  split; [intros i j r s; apply registers_pairs, all_register|].
  split; intros r Hr Ha; pose proof (forallb_elem _ _ all_guarded r Hr) as Hg; revert Hg;
    unfold guarded; rewrite Ha; generalize (permForRoute (route_key r)) as q; intros q Hg.
  - apply andb_true_iff in Hg as [Hg _]. by apply bool_decide_eq_true in Hg.
  - destruct (decide (rd_perm r = "")) as [E|E].
    + rewrite bool_decide_true in Hg by exact E. left. split; [by apply bool_decide_eq_true in Hg|exact E].
    + rewrite bool_decide_false in Hg by exact E. right. split; [exact E|by apply bool_decide_eq_true in Hg].
Qed.

(** The two routes that put a project into a group require a permission no
    migration seeds, so no role can hold it. *)
Lemma unseeded_permissions :
  rd_handler <$> base.filter (fun r => rd_perm r <> "" /\ rd_perm r ∉ seeded_permissions) apiRoutes =
  ["handleAddGroupProject"; "handleRemoveGroupProject"].
Proof. by vm_compute. Qed.

Close Scope string_scope.
