(* ===== verification/Api.v ===== *)
(** * The API's request pipeline ([internal/api/api.go])

    Every authenticated route runs through [auth]: bearer resolution, the per-IP
    rate limit, the CSRF check, the route's permission, and the idempotency
    wrapper around the handler. Paging of list responses is modelled beside it.
    The response writer is a status and a body; a handler is a function on the
    server's state. *)
From S2P Require Import Prelude GoStrings GoNet GoCrypto Types Store Rbac Auth Routes.
From Stdlib Require Import String Ascii.

Open Scope string_scope.
Open Scope Z_scope.

(** ** Rate limit *)

Record rateEntry := mkRate { rate_count : Z; rate_reset : Z }.

Definition client_ip (client : string) : string :=
  match SplitHostPort client with Some (h, _) => h | None => client end.

Definition allowRate (limit : Z) (client : string) (now : Z) (rate : gmap string rateEntry)
  : gmap string rateEntry * bool :=
  let ip := client_ip client in
  match rate !! ip with
  | Some e =>
      if rate_reset e <? now then (<[ip := mkRate 1 (now + 60 * second)]> rate, true)
      else
        let c := rate_count e + 1 in
        if limit <? c then (rate, false)
        else (<[ip := mkRate c (rate_reset e)]> rate, true)
  | None => (<[ip := mkRate 1 (now + 60 * second)]> rate, true)
  end.

(** A run of requests [(client, time)] and the answers they get. *)
Fixpoint rate_run (limit : Z) (rate : gmap string rateEntry) (reqs : list (string * Z)) : list bool :=
  match reqs with
  | [] => []
  | (client, t) :: reqs =>
      let '(rate', ok) := allowRate limit client t rate in ok :: rate_run limit rate' reqs
  end.

(** How many requests of an address were let through. *)
Fixpoint passed (ip : string) (reqs : list (string * Z)) (oks : list bool) : Z :=
  match reqs, oks with
  | (client, _) :: reqs, ok :: oks =>
      (if (client_ip client ==? ip) && ok then 1 else 0) + passed ip reqs oks
  | _, _ => 0
  end.

Definition requests_of (ip : string) (reqs : list (string * Z)) : Z :=
  Z.of_nat (List.length (base.filter (fun r : string * Z => client_ip r.1 = ip) reqs)).

Lemma rate_window limit ip c reset rate reqs :
  rate !! ip = Some (mkRate c reset) -> c <= limit ->
  Forall (fun r : string * Z => r.2 <= reset) reqs ->
  passed ip reqs (rate_run limit rate reqs) = Z.min (limit - c) (requests_of ip reqs).
Proof.
  revert rate c. induction reqs as [|[client t] reqs IH]; intros rate c Hr Hc Hall; cbn [rate_run passed].
  { unfold requests_of. rewrite filter_nil. cbn. lia. }
  inversion_clear Hall as [|? ? Ht Hall']. cbn [snd] in Ht.
  unfold requests_of. rewrite filter_cons. cbn [fst].
  destruct (decide (client_ip client = ip)) as [Hip|Hne].
  - unfold allowRate. rewrite Hip, Hr. cbn [rate_reset rate_count].
    rewrite (proj2 (Z.ltb_ge _ _)) by lia. destruct (Z.ltb_spec limit (c + 1)).
    + cbn [passed]. rewrite andb_false_r. rewrite (IH rate c) by done.
      unfold requests_of. cbn [List.length]. lia.
    + cbn [passed]. rewrite bool_decide_true by done. cbn [andb].
      rewrite (IH _ (c + 1)); [|by rewrite lookup_insert_eq|lia|done].
      unfold requests_of. cbn [List.length]. lia.
  - destruct (allowRate limit client t rate) as [rate' ok] eqn:E. cbn [passed].
    rewrite bool_decide_false by done. cbn [andb]. rewrite (IH rate' c); [unfold requests_of; lia| |done|done].
    unfold allowRate in E. repeat case_in E; simplify_eq; by rewrite ?lookup_insert_ne.
Qed.

(** The per-address limit is exact: of the requests an address makes in the
    minute after the one that opened its window, together with that one, precisely
    the first [limit] pass, whatever other addresses do in between. *)
Theorem rate_limit_exact limit ip client t0 rate reqs :
  1 <= limit -> client_ip client = ip ->
  (forall e, rate !! ip = Some e -> rate_reset e < t0) ->
  Forall (fun r : string * Z => r.2 <= t0 + 60 * second) reqs ->
  passed ip ((client, t0) :: reqs) (rate_run limit rate ((client, t0) :: reqs)) =
  Z.min limit (1 + requests_of ip reqs).
Proof.
  intros Hl Hip Hfresh Hall. cbn [rate_run].
  assert (Ha : allowRate limit client t0 rate = (<[ip := mkRate 1 (t0 + 60 * second)]> rate, true)).
  { unfold allowRate. rewrite Hip. destruct (rate !! ip) as [e|] eqn:E; [|done].
    by rewrite (proj2 (Z.ltb_lt _ _)) by (by apply Hfresh). }
  rewrite Ha. cbn [passed]. rewrite bool_decide_true by done. cbn [andb].
  rewrite (rate_window limit ip 1 (t0 + 60 * second)); [lia|by rewrite lookup_insert_eq|done|done].
Qed.

Lemma rate_limit_exact_witness :
  passed "10.0.0.1" [("10.0.0.1:5000", 0); ("10.0.0.1:5001", 1); ("10.0.0.1:5002", 2)]
    (rate_run 2 ∅ [("10.0.0.1:5000", 0); ("10.0.0.1:5001", 1); ("10.0.0.1:5002", 2)]) = 2.
Proof.
  rewrite (rate_limit_exact 2 "10.0.0.1" "10.0.0.1:5000" 0 ∅ [("10.0.0.1:5001", 1); ("10.0.0.1:5002", 2)]);
    [by vm_compute|lia|by vm_compute|by intros|repeat constructor; cbn; unfold second; lia].
Defined.

(** ** Paging *)

(** [strconv.Atoi] of a query value, when it is a positive number. *)
Definition positive_param (s : string) : option Z :=
  match Atoi s with Some v => if 0 <? v then Some v else None | None => None end.

Record Page (T : Type) := mkPage { page_items : list T; page_total : string; page_next : string }.
Arguments mkPage {T}. Arguments page_items {T}. Arguments page_total {T}. Arguments page_next {T}.

Definition paginate {T} (limit_q cursor_q : string) (items : list T) : Page T :=
  let n := Z.of_nat (List.length items) in
  let limit := default 50 (positive_param limit_q) in
  let limit := if 200 <? limit then 200 else limit in
  let offset := default 0 (positive_param cursor_q) in
  let offset := if n <? offset then n else offset in
  let end_ := offset + limit in
  let end_ := if n <? end_ then n else end_ in
  mkPage (firstn (Z.to_nat (end_ - offset)) (skipn (Z.to_nat offset) items))
    (Itoa n) (if end_ <? n then Itoa end_ else "").

(** A client that follows [X-Next-Cursor] until it is empty. *)
Fixpoint walk {T} (fuel : nat) (limit_q cursor : string) (items : list T) : option (list (list T)) :=
  match fuel with
  | O => None
  | S fuel =>
      let p := paginate limit_q cursor items in
      if page_next p ==? "" then Some [page_items p]
      else (fun ps => page_items p :: ps) <$> walk fuel limit_q (page_next p) items
  end.

Lemma positive_param_Itoa n : 0 < n < 2 ^ 63 -> positive_param (Itoa n) = Some n.
Proof.
  intros. unfold positive_param. rewrite Atoi_Itoa by (unfold in_i64, min_int64, max_int64; lia).
  by rewrite (proj2 (Z.ltb_lt _ _)) by lia.
Qed.

Definition eff_limit (limit_q : string) : Z := Z.min 200 (default 50 (positive_param limit_q)).

Lemma eff_limit_range limit_q : 1 <= eff_limit limit_q <= 200.
Proof.
  unfold eff_limit, positive_param. destruct (Atoi limit_q); cbn; [|lia].
  destruct (Z.ltb_spec 0 z); cbn; lia.
Qed.

(** One page from a cursor within the list. *)
Lemma paginate_at {T} limit_q (off : nat) cursor (items : list T) :
  (off <= List.length items)%nat ->
  Z.of_nat off = (let o := default 0 (positive_param cursor) in Z.min o (Z.of_nat (List.length items))) ->
  let len := List.length items in
  let e := (off + Z.to_nat (eff_limit limit_q))%nat in
  paginate limit_q cursor items =
  mkPage (firstn (Z.to_nat (eff_limit limit_q)) (skipn off items)) (Itoa (Z.of_nat len))
    (if (e <? len)%nat then Itoa (Z.of_nat e) else "").
Proof.
  intros Hoff Ho. cbv zeta in *. pose proof (eff_limit_range limit_q) as Hlim.
  unfold paginate. cbv zeta.
  set (o := default 0 (positive_param cursor)) in *. set (len := List.length items) in *.
  replace (if 200 <? default 50 (positive_param limit_q) then 200 else default 50 (positive_param limit_q))
    with (eff_limit limit_q) by (unfold eff_limit; destruct (Z.ltb_spec 200 (default 50 (positive_param limit_q))); lia).
  replace (if Z.of_nat len <? o then Z.of_nat len else o) with (Z.of_nat off)
    by (destruct (Z.ltb_spec (Z.of_nat len) o); lia).
  set (lim := eff_limit limit_q) in *. clearbody lim o. rewrite Nat2Z.id.
  destruct (Z.ltb_spec (Z.of_nat len) (Z.of_nat off + lim)) as [Hlt|Hge].
  - rewrite (proj2 (Z.ltb_ge _ _)) by lia. rewrite (proj2 (Nat.ltb_ge _ _)) by lia.
    f_equal. rewrite !take_ge; [done|rewrite length_drop; fold len; lia|rewrite length_drop; fold len; lia].
  - replace (Z.of_nat off + lim - Z.of_nat off) with lim by lia. f_equal.
    destruct (Z.ltb_spec (Z.of_nat off + lim) (Z.of_nat len)), (Nat.ltb_spec (off + Z.to_nat lim) len);
      try lia; [f_equal; lia|done].
Qed.

Lemma walk_from {T} limit_q fuel off cursor (items : list T) :
  Z.of_nat (List.length items) < 2 ^ 63 -> (off <= List.length items)%nat ->
  Z.of_nat off = (let o := default 0 (positive_param cursor) in Z.min o (Z.of_nat (List.length items))) ->
  (List.length items - off < fuel)%nat ->
  exists ps, walk fuel limit_q cursor items = Some ps /\ mjoin ps = skipn off items /\
    Forall (fun p => (List.length p <= 200)%nat) ps.
Proof.
  intros Hlen. revert off cursor. induction fuel as [|fuel IH]; intros off cursor Hoff Ho Hf; [lia|].
  cbn [walk]. cbv zeta. rewrite (paginate_at limit_q off cursor items Hoff Ho). cbn [page_next page_items].
  pose proof (eff_limit_range limit_q) as Hlim. set (lim := Z.to_nat (eff_limit limit_q)) in *.
  assert (1 <= lim <= 200)%nat by (unfold lim; lia). clearbody lim.
  destruct (Nat.ltb_spec (off + lim) (List.length items)) as [Hlt|Hge].
  - rewrite bool_decide_false by apply Itoa_ne.
    destruct (IH (off + lim)%nat (Itoa (Z.of_nat (off + lim)))) as (ps & -> & Hps & Hall); [lia| |lia|].
    { cbv zeta. rewrite positive_param_Itoa by lia. cbn [from_option]. unfold id. lia. }
    eexists. split; [done|]. split.
    + transitivity (firstn lim (skipn off items) ++ mjoin ps)%list; [done|].
      rewrite Hps, <- drop_drop. apply take_drop.
    + constructor; [rewrite length_take; lia|done].
  - rewrite bool_decide_true by done. rewrite take_ge by (rewrite length_drop; lia).
    eexists. split; [done|]. split; [apply app_nil_r|].
    constructor; [rewrite length_drop; lia|constructor].
Qed.

(** Paging loses nothing: whatever limit a client asks for, following the cursors
    from the first page ends, every page has at most 200 items, and the pages
    together are the list. *)
Theorem paginate_complete {T} limit_q (items : list T) :
  Z.of_nat (List.length items) < 2 ^ 63 ->
  exists ps, walk (S (List.length items)) limit_q "" items = Some ps /\ mjoin ps = items /\
    Forall (fun p => (List.length p <= 200)%nat) ps.
Proof. intros H. apply (walk_from limit_q _ 0 "" items H); cbn; lia. Qed.

Lemma paginate_complete_witness :
  exists ps, walk 4 "2" "" [1; 2; 3] = Some ps /\ mjoin ps = [1; 2; 3].
Proof.
  destruct (paginate_complete "2" [1; 2; 3]) as (ps & H1 & H2 & _); [cbn; lia|].
  exists ps. by split.
Defined.


(** ** Idempotent writes *)

Record Response := mkResponse { resp_status : Z; resp_body : string }.

(** [store/idempotency.go]: [jsonb] is PostgreSQL's cast of a body to jsonb printed
    back as text, [None] when the body is not a JSON document. *)
Section Idempotent.
Context {W : Type} (jsonb : string -> option string).

Abbreviation IdemStore := (gmap string Response).

Definition GetIdempotency (st : IdemStore) (key : string) : option Response := st !! key.

Definition PutIdempotency (key : string) (status : Z) (response : string) (st : IdemStore) : IdemStore :=
  let response := if response ==? "" then "{}" else response in
  match jsonb response with
  | None => st
  | Some text => match st !! key with Some _ => st | None => <[key := mkResponse status text]> st end
  end.

Definition mutating (method : string) : bool :=
  (method ==? "POST") || (method ==? "PUT") || (method ==? "PATCH") || (method ==? "DELETE").

(** [idempotent]: [next] is the wrapped handler on the server's state. *)
Definition idempotent (next : W -> W * Response) (method pattern key : string) (s : IdemStore * W)
  : (IdemStore * W) * Response :=
  let '(st, w) := s in
  if (key ==? "") || negb (mutating method) then
    let '(w, r) := next w in ((st, w), r)
  else
    let scoped := method ++ " " ++ pattern ++ " " ++ key in
    match GetIdempotency st scoped with
    | Some rec => ((st, w), rec)
    | None =>
        let '(w, r) := next w in
        ((PutIdempotency scoped (resp_status r) (resp_body r) st, w), r)
    end.

(** A write with an idempotency key is executed once: after a first response that
    is a JSON document, every later request with the same method, route and key
    leaves the server's state alone and gets the first response back, as PostgreSQL
    prints it. *)
Theorem idempotent_replays next next' method pattern key st w st1 w1 r1 text w2 :
  key <> "" -> mutating method = true ->
  st !! (method ++ " " ++ pattern ++ " " ++ key) = None ->
  idempotent next method pattern key (st, w) = ((st1, w1), r1) ->
  jsonb (if resp_body r1 ==? "" then "{}" else resp_body r1) = Some text ->
  (w1, r1) = next w /\
  idempotent next' method pattern key (st1, w2) = ((st1, w2), mkResponse (resp_status r1) text).
Proof.
  intros Hk Hm Hst Hrun Hj. unfold idempotent, GetIdempotency in *.
  rewrite bool_decide_false in Hrun |- * by done. rewrite Hm in Hrun |- *. cbn [negb orb] in *. cbv zeta in *.
  rewrite Hst in Hrun. destruct (next w) as [w' r]. injection Hrun as <- <- <-. split; [done|].
  unfold PutIdempotency. rewrite Hj, Hst. by rewrite lookup_insert_eq.
Qed.
End Idempotent.

(** The key is scoped to the route pattern, not to the path or the caller: the same
    key on another project gets the first project's response and is not executed. *)
Lemma idempotent_crosses_projects :
  let del p (w : gset string) := (w ∖ {[p]}, mkResponse 200 p) in
  let pattern := "DELETE /projects/{projectId}" in
  let s0 := (∅, {["p1"; "p2"]} : gset string) in
  let '(s1, _) := idempotent Some (del "p1") "DELETE" pattern "k" s0 in
  let '(s2, r2) := idempotent Some (del "p2") "DELETE" pattern "k" s1 in
  "p2" ∈ s2.2 /\ resp_body r2 = "p1".
Proof. vm_compute. by split. Qed.

Lemma idempotent_replays_witness :
  idempotent Some (fun w : Z => (w + 1, mkResponse 201 "{}")) "POST" "POST /projects" "k"
    ({["POST POST /projects k" := mkResponse 201 "{}"]}, 7) =
  (({["POST POST /projects k" := mkResponse 201 "{}"]}, 7), mkResponse 201 "{}").
Proof.
  exact (proj2 (idempotent_replays Some (fun w : Z => (w + 1, mkResponse 201 "{}"))
    (fun w : Z => (w + 1, mkResponse 201 "{}")) "POST" "POST /projects" "k" ∅ 6
    {["POST POST /projects k" := mkResponse 201 "{}"]} 7 (mkResponse 201 "{}") "{}" 7
    ltac:(done) eq_refl eq_refl ltac:(by vm_compute) eq_refl)).
Defined.

(** ** Bearer tokens *)

Definition constantTimeEqual (a b : string) : bool :=
  if negb (String.length a =? String.length b)%nat then false else diff_loop 0 a b =? 0.

Lemma constantTimeEqual_iff a b : constantTimeEqual a b = true <-> a = b.
Proof.
  unfold constantTimeEqual. destruct (Nat.eqb_spec (String.length a) (String.length b)) as [H|H]; cbn [negb].
  - rewrite Z.eqb_eq, diff_loop_zero by done. naive_solver.
  - split; [done|]. by intros ->.
Qed.

(** The request's parts the pipeline reads; [q_access_token] is the query value. *)
Record Req := mkReq {
  q_method : string; q_path : string; q_pattern : string; q_remote : string; q_authorization : string;
  q_access_token : string; q_csrf : string; q_tenant : string; q_org : string; q_project : string }.

Definition bearerToken (r : Req) : string :=
  match cut " "%char (q_authorization r) with
  | Some (scheme, tok) => if equal_fold scheme "Bearer" then tok else q_access_token r
  | None => q_access_token r
  end.

Record principal := mkPrincipal { p_username : string; p_role : string }.

(** What the pipeline reads: the tenancy tables, the sessions, the API keys. *)
Record Server := mkServer {
  srv_db : TenancyDB; srv_sessions : Sessions; srv_keys : list APIKey; srv_csrf : string;
  srv_rate_limit : Z; srv_kid : string }.

Definition GetUserByID (db : TenancyDB) (id : string) : option User :=
  if q_ok db QUser then find_first (fun u => User_ID u ==? id) (users db) else None.

Definition GetUserByToken (s : Server) (raw : string) : option User :=
  match find_first (fun k => Key_TokenHash k ==? hash_hex raw) (srv_keys s) with
  | None => None
  | Some k =>
      if (Key_UserID k ==? "") || (Key_UserID k ==? "*") then None
      else GetUserByID (srv_db s) (Key_UserID k)
  end.

Definition user_role (db : TenancyDB) (username : string) : string :=
  match GetUserByUsername db username with Some u => User_Role u | None => "" end.

Definition count_dots (s : string) : nat := pred (List.length (split_on "."%char s)).

Section Pipeline.
(** [verify tok] is [jwtKey.Verify(tok, "porter-api")] at the request's time. *)
Context (verify : string -> result string Claims) (order : gset string -> list string).

Definition jwt_principal (s : Server) (tok : string) : option (principal * AuthContext) :=
  if (count_dots tok =? 2)%nat && (srv_kid s !=? "") then
    match verify tok with
    | Ok c =>
        if Claim_Subject c !=? "" then
          let '(t, i) := ResolveScope "" (Claim_Tenant c) in
          Some (mkPrincipal (Claim_Subject c) (user_role (srv_db s) (Claim_Subject c)),
                mkAuthContext "user" (Claim_Subject c) t i)
        else None
    | Err _ => None
    end
  else None.

Definition resolveBearer (s : Server) (now : Z) (tok : string) : principal * option AuthContext :=
  match jwt_principal s tok with
  | Some (p, c) => (p, Some c)
  | None =>
      match GetSessionByToken (srv_sessions s) now (hash_hex tok) with
      | Some sess =>
          (mkPrincipal (Sess_PrincipalID sess) (user_role (srv_db s) (Sess_PrincipalID sess)),
           Some (mkAuthContext (Sess_PrincipalType sess) (Sess_PrincipalID sess)
                   (Sess_ScopeType sess) (Sess_ScopeID sess)))
      | None =>
          match GetUserByToken s tok with
          | Some u => if User_Username u !=? "" then (mkPrincipal (User_Username u) (User_Role u), None)
                      else (mkPrincipal "" "", None)
          | None => (mkPrincipal "" "", None)
          end
      end
  end.

(** ** Permission of a request *)

Definition granted (db : TenancyDB) (r : Req) (p : principal) (perm : string) : bool :=
  let user := p_username p in
  let has t i := Store_HasCapability order db "user" user perm t i in
  let deny t i := ScopedDeny db "user" user perm t i in
  let tail t i :=
    if has t i then true
    else if deny t i then false
    else if t ==? "project" then HasProjectPermission db i user perm
    else HasPermissionAnywhere db user perm in
  if q_project r !=? "" then tail "project" (q_project r)
  else if q_org r !=? "" then
    if has "org" (q_org r) then true
    else if deny "org" (q_org r) then false
    else if OrgRoleForUser db (q_org r) user !=? "" then HasOrgPermission db (q_org r) user perm
    else tail "org" (q_org r)
  else tail "platform" "".

Inductive Outcome :=
| Unauthorized | TooManyRequests | BadCSRF | MissingPermission (perm : string)
| Pass (p : principal) (ctx : AuthContext).

(** [auth] up to the call of the handler; the rate table is updated on the way. *)
Definition auth (s : Server) (now : Z) (r : Req) (rate : gmap string rateEntry)
  : gmap string rateEntry * Outcome :=
  let tok := bearerToken r in
  let '(p, forced) := if tok !=? "" then resolveBearer s now tok else (mkPrincipal "" "", None) in
  if p_username p ==? "" then (rate, Unauthorized)
  else
    let '(rate, ok) := if 0 <? srv_rate_limit s then allowRate (srv_rate_limit s) (q_remote r) now rate
                       else (rate, true) in
    if negb ok then (rate, TooManyRequests)
    else if (q_method r !=? "GET") && (q_method r !=? "HEAD") && (q_path r !=? "/csrf") &&
            ((q_csrf r ==? "") || negb (constantTimeEqual (q_csrf r) (srv_csrf s)))
    then (rate, BadCSRF)
    else
      let perm := permForRoute (q_pattern r) in
      if (perm !=? "") && negb (granted (srv_db s) r p perm) then (rate, MissingPermission perm)
      else
        let '(t, i) := match forced with
                       | Some c => (AC_ScopeType c, AC_ScopeID c)
                       | None => ResolveScope "" (q_tenant r)
                       end in
        (rate, Pass p (mkAuthContext "user" (p_username p) t i)).
End Pipeline.

(** ** What the pipeline guarantees *)

Definition request_scope (r : Req) : Scope :=
  if q_project r !=? "" then mkScope "project" (q_project r)
  else if q_org r !=? "" then mkScope "org" (q_org r)
  else mkScope "platform" "".

Section PipelineProofs.
Context (order : gset string -> list string).
Hypothesis order_perm : forall X, order X ≡ₚ elements X.

Lemma member_or_admin_outsider db user perm :
  IsPlatformAdmin db user = false -> member_or_admin db "" user perm = false.
Proof. intros H. unfold member_or_admin. by rewrite bool_decide_true, H. Qed.

(** The two scoped answers at the request's scope decide before any membership. *)
Lemma granted_scoped db r p perm :
  let s := request_scope r in
  (ScopedDeny db "user" (p_username p) perm (Scope_Type s) (Scope_ID s) = true ->
   Store_HasCapability order db "user" (p_username p) perm (Scope_Type s) (Scope_ID s) = false ->
   granted order db r p perm = false) /\
  (Store_HasCapability order db "user" (p_username p) perm (Scope_Type s) (Scope_ID s) = true ->
   granted order db r p perm = true).
Proof.
  cbv zeta. unfold granted, request_scope. cbv zeta.
  destruct (q_project r ==? ""), (q_org r ==? ""); cbn [negb Scope_Type Scope_ID];
    split; intros H1; rewrite ?H1; try done; intros H2; by rewrite ?H1, ?H2.
Qed.

(** C4: a request's permission: a role that denies it at the request's scope or above
    defeats every membership, a role that allows it suffices, and on a project
    route a caller with neither, without a role on the project and not a platform
    admin, is refused whatever their global role grants. *)
Theorem granted_spec db r p perm :
  store_up db -> p_username p <> "" -> perm <> "" ->
  let user := p_username p in
  let s := request_scope r in
  (denies db "user" user perm s -> granted order db r p perm = false) /\
  (allows db "user" user perm s -> ~ denies db "user" user perm s -> granted order db r p perm = true) /\
  (q_project r <> "" -> ~ allows db "user" user perm s ->
   ProjectRoleForUser db (q_project r) user = "" -> IsPlatformAdmin db user = false ->
   granted order db r p perm = false).
Proof.
  intros Hup Hu Hp user s. destruct (granted_scoped db r p perm) as [Hd Ha]. fold user s in Hd, Ha.
  assert (Hcap := Store_HasCapability_iff order order_perm db "user" user perm (Scope_Type s) (Scope_ID s)
    Hup ltac:(done) Hu Hp).
  assert (Hden := ScopedDeny_iff db "user" user perm (Scope_Type s) (Scope_ID s) Hup).
  replace (mkScope (Scope_Type s) (Scope_ID s)) with s in Hcap, Hden by (by destruct s).
  split_and!.
  - intros H. apply Hd; [by apply Hden|]. apply not_true_iff_false. rewrite Hcap. tauto.
  - intros H1 H2. apply Ha, Hcap. by split.
  - intros Hproj Hno Hrole Hadm. unfold granted. cbv zeta.
    rewrite bool_decide_false by done. cbn [negb].
    assert (Hs : s = mkScope "project" (q_project r))
      by (unfold s, request_scope; by rewrite bool_decide_false).
    rewrite Hs in Hcap. cbn [Scope_Type Scope_ID] in Hcap.
    destruct (Store_HasCapability order db "user" (p_username p) perm "project" (q_project r)) eqn:E.
    + exfalso. apply Hno. rewrite Hs. by apply Hcap.
    + clear Hden Hd Ha. destruct (ScopedDeny db "user" (p_username p) perm "project" (q_project r)); [reflexivity|].
      rewrite bool_decide_true by reflexivity.
      unfold HasProjectPermission. fold user. rewrite Hrole. by apply member_or_admin_outsider.
Qed.

(** C3: the handler of an authenticated route only runs for a caller whose bearer
    token resolved to a named principal, within the rate limit, with the CSRF token
    on every method but GET and HEAD, and with the route's permission; the scope a
    token is bound to overrides the tenant header. *)
Theorem auth_sound (verify : string -> result string Claims) s now r rate rate' p ctx :
  auth verify order s now r rate = (rate', Pass p ctx) ->
  let '(q, forced) := resolveBearer verify s now (bearerToken r) in
  bearerToken r <> "" /\ p = q /\ p_username p <> "" /\
  (0 < srv_rate_limit s -> allowRate (srv_rate_limit s) (q_remote r) now rate = (rate', true)) /\
  (q_method r = "GET" \/ q_method r = "HEAD" \/ q_path r = "/csrf" \/
   (q_csrf r = srv_csrf s /\ q_csrf r <> "")) /\
  (permForRoute (q_pattern r) = "" \/ granted order (srv_db s) r p (permForRoute (q_pattern r)) = true) /\
  AC_PrincipalID ctx = p_username p /\
  (forall c, forced = Some c -> AC_ScopeType ctx = AC_ScopeType c /\ AC_ScopeID ctx = AC_ScopeID c).
Proof.
  unfold auth. generalize (permForRoute (q_pattern r)) as perm. intros perm. cbv zeta.
  destruct (decide (bearerToken r = "")) as [Et|Et].
  { rewrite bool_decide_true by done. cbn [negb p_username]. rewrite bool_decide_true by done. by intros [= _ ?]. }
  rewrite bool_decide_false by done. cbn [negb].
  destruct (resolveBearer verify s now (bearerToken r)) as [q forced].
  destruct (decide (p_username q = "")) as [Eu|Eu];
    [rewrite bool_decide_true by done; by intros [= _ ?]|rewrite bool_decide_false by done].
  destruct (if 0 <? srv_rate_limit s then _ else _) as [rate1 ok] eqn:Er.
  destruct ok; cbn [negb]; [|by intros [= _ ?]].
  destruct (_ && _ && _ && _) eqn:Ec; [by intros [= _ ?]|].
  destruct (_ && negb (granted _ _ _ _ _)) eqn:Eg; [by intros [= _ ?]|].
  destruct (match forced with Some _ => _ | None => _ end) as [t i] eqn:Ef.
  intros [= <- <- <-]. split; [done|]. split; [done|]. split; [done|]. split; [|split; [|split; [|split]]].
  - intros Hl. by rewrite (proj2 (Z.ltb_lt _ _)) in Er by lia.
  - rewrite !andb_false_iff, !negb_false_iff, !bool_decide_eq_true, orb_false_iff, negb_false_iff,
      bool_decide_eq_false, constantTimeEqual_iff in Ec. tauto.
  - rewrite andb_false_iff, !negb_false_iff, bool_decide_eq_true in Eg. done.
  - done.
  - intros c ->. by injection Ef as <- <-.
Qed.
End PipelineProofs.

(** A token that is neither a signed one, a live session nor an API key is refused. *)
Lemma unknown_token_unauthorized verify order s now r rate :
  jwt_principal verify s (bearerToken r) = None ->
  GetSessionByToken (srv_sessions s) now (hash_hex (bearerToken r)) = None ->
  GetUserByToken s (bearerToken r) = None ->
  auth verify order s now r rate = (rate, Unauthorized).
Proof.
  intros H1 H2 H3. unfold auth, resolveBearer. rewrite H1, H2, H3.
  by destruct (bearerToken r !=? "").
Qed.

(** *** Examples: ann calls a guarded route with an API key *)

Definition ann_server : Server :=
  mkServer db1 ∅ [mkAPIKey "k1" "u1" "" (hash_hex "prt_ann") 0 None] "csrf-1" 100 "".

Definition ann_req (method csrf : string) : Req :=
  mkReq method "/projects/p1" "GET /projects/{projectId}" "10.0.0.9:4000" "bearer prt_ann" "" csrf "" "" "p1".

Lemma auth_sound_witness :
  granted elements db1 (ann_req "GET" "") (mkPrincipal "ann" "member")
    (permForRoute "GET /projects/{projectId}") = true.
Proof.
  assert (Ha : auth (fun _ => Err "") elements ann_server 0 (ann_req "GET" "") ∅ =
    (<["10.0.0.9" := mkRate 1 (60 * second)]> ∅,
     Pass (mkPrincipal "ann" "member") (mkAuthContext "user" "ann" "platform" ""))) by (by vm_compute).
  pose proof (auth_sound elements (fun _ => Err "") ann_server 0 (ann_req "GET" "") ∅ _ _ _ Ha) as H.
  destruct (resolveBearer _ _ _ _). destruct H as (_ & _ & _ & _ & _ & [H|H] & _); [by vm_compute in H|exact H].
Defined.

Lemma granted_spec_witness :
  granted elements db1 (ann_req "GET" "") (mkPrincipal "bob" "banned") "project.read" = false.
Proof.
  refine (proj2 (proj2 (granted_spec elements (fun X => Permutation_refl _) db1 (ann_req "GET" "")
    (mkPrincipal "bob" "banned") "project.read" _ _ _)) _ _ _ _); [done|done|done|done| |by vm_compute|by vm_compute].
  intros (a & c & (Ha & _ & Hp & _) & _). cbn in Ha, Hp.
  rewrite !elem_of_cons in Ha. destruct Ha as [->|[->|[->|[]%not_elem_of_nil]]]; done.
Defined.

Lemma wrong_csrf_rejected :
  (auth (fun _ => Err "") elements ann_server 0 (ann_req "POST" "wrong") ∅).2 = BadCSRF.
Proof. by vm_compute. Qed.
Close Scope Z_scope.
Close Scope string_scope.
