(* ===== verification/InitShim.v ===== *)
(** * The PID-1 shim of converted images ([internal/buildkit/initshim.go])

    [BuildInitScript] renders an image's entry point as a POSIX shell script. The
    quoting is checked against the part of the shell's tokenizer it relies on
    (XCU 2.2: single quotes, backslash, blanks): a character the shell would give
    a meaning of its own outside quotes makes the tokenizer below fail. *)
From S2P Require Import Prelude GoStrings.
From Stdlib Require Import String Ascii.

Open Scope string_scope.

Definition quote : ascii := "'"%char.

Definition shQuote (s : string) : string := "'" ++ replace_all quote "'\''" s ++ "'".

Definition env_start (c : ascii) : bool := Ascii.eqb c "_" || is_upper c || is_lower c.

Definition validEnvName (k : string) : bool :=
  match k with
  | EmptyString => false
  | String c k => env_start c && sall (fun d => env_start d || is_digit d) k
  end.

Definition newline : string := String (ascii_of_nat 10) "".

Definition prologue : string :=
  "#!/bin/sh" ++ newline ++ "# generated by porter: OCI config -> PID 1" ++ newline ++
  "mount -t proc proc /proc 2>/dev/null" ++ newline ++
  "mount -t sysfs sys /sys 2>/dev/null" ++ newline ++
  "mount -t devtmpfs dev /dev 2>/dev/null" ++ newline ++
  "mkdir -p /dev/pts /dev/shm && mount -t devpts devpts /dev/pts 2>/dev/null" ++ newline ++
  "mount -t tmpfs tmpfs /tmp 2>/dev/null" ++ newline ++
  "export PATH=/usr/local/sbin:/usr/local/bin:/usr/sbin:/usr/bin:/sbin:/bin" ++ newline.

(** The line of one [KEY=value] entry, if it has a legal name. *)
Definition export_line (kv : string) : option string :=
  match cut "="%char kv with
  | Some (k, v) => if validEnvName k then Some ("export " ++ k ++ "=" ++ shQuote v) else None
  | None => None
  end.

Definition exports (env : list string) : string :=
  foldr (fun kv acc => match export_line kv with Some l => l ++ newline ++ acc | None => acc end) "" env.

Definition cd_line (workdir : string) : string :=
  if workdir !=? "" then "cd " ++ shQuote workdir ++ " || exit 1" ++ newline else "".

Definition exec_line (argv : list string) : string :=
  "exec" ++ foldr (fun a acc => " " ++ shQuote a ++ acc) "" argv.

Definition BuildInitScript (entrypoint cmd env : list string) (workdir : string) : result string string :=
  let argv := (entrypoint ++ cmd)%list in
  match argv with
  | [] => Err "image has no ENTRYPOINT or CMD; nothing to run as PID 1"
  | _ => Ok (prologue ++ exports env ++ cd_line workdir ++ exec_line argv ++ newline)
  end.

(** ** The shell's tokenizer *)

(** Characters that stand for themselves outside quotes. *)
Definition plain (c : ascii) : bool :=
  is_upper c || is_lower c || is_digit c || in_set "_=-./:,+@%" c.

Definition flush (cur : option string) : list string := match cur with Some w => [w] | None => [] end.
Definition snoc (cur : option string) (c : ascii) : option string := Some (default "" cur ++ String c "").

(** The words of a line: [inq] inside single quotes, [cur] the word being read. *)
Fixpoint sh_words (inq : bool) (cur : option string) (s : string) : option (list string) :=
  match s with
  | EmptyString => if inq then None else Some (flush cur)
  | String c s =>
      if inq then
        if Ascii.eqb c quote then sh_words false cur s else sh_words true (snoc cur c) s
      else if Ascii.eqb c quote then sh_words true (Some (default "" cur)) s
      else if Ascii.eqb c "\" then
        match s with EmptyString => None | String d s => sh_words false (snoc cur d) s end
      else if Ascii.eqb c " " then
        match sh_words false None s with Some ws => Some (flush cur ++ ws)%list | None => None end
      else if plain c then sh_words false (snoc cur c) s
      else None
  end.

(** ** Quoting is exact *)

Lemma snoc_app w c s : snoc (Some w) c = Some (w ++ String c "") /\ w ++ String c "" ++ s = w ++ String c s.
Proof. split; [done|]. by rewrite sapp_cons, sapp_nil_l. Qed.

Lemma sh_words_in_quotes w s rest :
  sh_words true (Some w) (replace_all quote "'\''" s ++ "'" ++ rest) = sh_words false (Some (w ++ s)) rest.
Proof.
  revert w. induction s as [|c s IH]; intros w; cbn [replace_all].
  - rewrite sapp_nil_l, sapp_nil_r. change ("'" ++ rest) with (String quote rest). done.
  - destruct (Ascii.eqb_spec c quote) as [->|Hc].
    + cbv iota. rewrite sapp_assoc. change ("'\''" ++ ?x) with (String quote (String "\" (String quote (String quote x)))).
      change (sh_words true (Some w) (String quote (String "\" (String quote (String quote ?x)))))
        with (sh_words true (Some (w ++ "'")) x).
      rewrite IH. rewrite sapp_assoc. by rewrite sapp_cons, sapp_nil_l.
    + cbv iota. rewrite sapp_cons. cbn [sh_words]. rewrite (proj2 (Ascii.eqb_neq _ _)) by done.
      unfold snoc. cbn [from_option]. unfold id. rewrite IH, sapp_assoc. by rewrite sapp_cons, sapp_nil_l.
Qed.

(** A quoted string is read as itself, whatever it holds, and appended to the word
    in progress. *)
Lemma sh_words_quoted cur s rest :
  sh_words false cur (shQuote s ++ rest) = sh_words false (Some (default "" cur ++ s)) rest.
Proof.
  unfold shQuote. rewrite !sapp_assoc. change ("'" ++ replace_all quote "'\''" s ++ "'" ++ rest)
    with (String quote (replace_all quote "'\''" s ++ "'" ++ rest)).
  cbn [sh_words]. rewrite Ascii.eqb_refl. apply sh_words_in_quotes.
Qed.

(** Plain text extends the word in progress. *)
Lemma sh_words_plain w p rest :
  sall plain p = true -> p <> "" ->
  sh_words false w (p ++ rest) = sh_words false (Some (default "" w ++ p)) rest.
Proof.
  revert w. induction p as [|c p IH]; intros w Hp Hne; [done|].
  cbn [sall] in Hp. apply andb_true_iff in Hp as [Hc Hp]. rewrite sapp_cons. cbn [sh_words].
  assert (Hq : Ascii.eqb c quote = false /\ Ascii.eqb c "\" = false /\ Ascii.eqb c " " = false).
  { split_and!; apply Ascii.eqb_neq; intros ->; by vm_compute in Hc. }
  destruct Hq as (-> & -> & ->). rewrite Hc. destruct p as [|d p].
  - by rewrite sapp_nil_l.
  - rewrite IH by done. unfold snoc. cbn [from_option]. unfold id. by rewrite sapp_assoc, sapp_cons, sapp_nil_l.
Qed.

Lemma sh_words_space cur rest :
  sh_words false cur (" " ++ rest) = (fun ws => (flush cur ++ ws)%list) <$> sh_words false None rest.
Proof. change (" " ++ rest) with (String " " rest). cbn [sh_words]. by destruct (sh_words false None rest). Qed.

Lemma exec_words argv w :
  sh_words false (Some w) (foldr (fun a acc => " " ++ shQuote a ++ acc) "" argv) = Some (w :: argv).
Proof.
  revert w. induction argv as [|a argv IH]; intros w; [done|]. cbn [foldr].
  rewrite sh_words_space, sh_words_quoted, IH. done.
Qed.

(** The generated shim runs exactly the image's command: the script is the fixed
    prologue, one line per environment entry with a legal name, an optional [cd],
    and an [exec] line; the shell reads the [exec] line as [exec] followed by the
    entry point and command word for word, each export as its name and value, and
    the directory as given, for all byte strings. *)
Theorem BuildInitScript_spec entrypoint cmd env workdir :
  match BuildInitScript entrypoint cmd env workdir with
  | Err _ => entrypoint = [] /\ cmd = []
  | Ok script =>
      script = prologue ++ exports env ++ cd_line workdir ++ exec_line (entrypoint ++ cmd) ++ newline /\
      sh_words false None (exec_line (entrypoint ++ cmd)) = Some ("exec" :: (entrypoint ++ cmd)%list) /\
      (forall kv l, export_line kv = Some l ->
         exists k v, cut "="%char kv = Some (k, v) /\ sh_words false None l = Some ["export"; k ++ "=" ++ v]) /\
      sh_words false None ("cd " ++ shQuote workdir) = Some ["cd"; workdir]
  end.
Proof.
  unfold BuildInitScript. cbv zeta. destruct (entrypoint ++ cmd)%list as [|a argv] eqn:E.
  { by apply app_eq_nil in E. }
  rewrite <- E. clear E a argv. split; [done|]. split; [|split].
  - unfold exec_line. rewrite sh_words_plain by done. apply exec_words.
  - intros kv l Hl. unfold export_line in Hl. destruct (cut "="%char kv) as [[k v]|]; [|done].
    destruct (validEnvName k) eqn:Ek; [|done]. injection Hl as <-. exists k, v. split; [done|].
    change "export " with ("export" ++ " "). rewrite sapp_assoc, sh_words_plain by done.
    rewrite sh_words_space.
    assert (Hk : sall plain k = true /\ k <> "").
    { destruct k as [|c k]; [done|]. split; [|done]. cbn [validEnvName sall] in *. apply andb_true_iff in Ek as [Hc Hk].
      assert (Hs : forall d, env_start d = true -> plain d = true).
      { intros d. unfold env_start, plain. rewrite !orb_true_iff, Ascii.eqb_eq. intros [[->|H]|H]; rewrite ?H; by auto. }
      rewrite Hs by done. cbn [andb]. eapply sall_impl; [|exact Hk]. intros d [Hd|Hd]%orb_true_iff; [by apply Hs|].
      unfold plain. by rewrite Hd, !orb_true_r. }
    destruct Hk as [Hk1 Hk2]. rewrite sh_words_plain by done.
    rewrite (sh_words_plain _ "=") by done. rewrite <- (sapp_nil_r (shQuote v)), sh_words_quoted. cbn. by rewrite sapp_assoc.
  - change "cd " with ("cd" ++ " "). rewrite sapp_assoc, sh_words_plain by done.
    rewrite sh_words_space, <- (sapp_nil_r (shQuote workdir)), sh_words_quoted. done.
Qed.

Example quoting_sample : exec_line ["/app"; "it's $HOME; rm -rf /"] = "exec '/app' 'it'\''s $HOME; rm -rf /'".
Proof. by vm_compute. Qed.

Close Scope string_scope.
