(* ===== verification/Gates.v ===== *)
(** * Decision gates over model judgments

    [riskgate/riskgate.go], [cmdgate/cmdgate.go], [triage/triage.go] and
    [alertjudge/alertjudge.go]: each asks a judge for typed answers and composes
    them into a decision in code. The judge is an argument, so the theorems hold
    for whatever it answers; a missing answer reads as Go's zero value. *)
From S2P Require Import Prelude GoStrings GoNum.
From Stdlib Require Import String SpecFloat.

Open Scope string_scope.
Open Scope Z_scope.

(** ** [judge/judge.go]: answers

    Without the distributions and legends, which no gate reads. *)

Record ChoiceA := mkChoiceA { Choice_Choice : string; Choice_Confidence : float64 }.
Record ScoreA := mkScoreA { Score_Value : float64; Score_Confidence : float64 }.
Record Answers := mkAnswers {
  Ans_Choices : gmap string ChoiceA; Ans_Nouls : gmap string float64; Ans_Scores : gmap string ScoreA }.

Definition f_zero : float64 := S754_zero false.
Definition choice_of (a : Answers) (id : string) : ChoiceA := default (mkChoiceA "" f_zero) (Ans_Choices a !! id).
Definition score_of (a : Answers) (id : string) : ScoreA := default (mkScoreA f_zero f_zero) (Ans_Scores a !! id).
Definition noul_of (a : Answers) (id : string) : float64 := default f_zero (Ans_Nouls a !! id).

Definition fge (x y : float64) : bool := fle y x.
Definition half : float64 := f_lit 5 1.

Lemma Ok_inj {E A} (a b : A) : @Ok E A a = Ok b -> a = b.
Proof. congruence. Qed.

(** ** [riskgate/riskgate.go] *)
Module RiskGate.

Inductive Gate := GateAuto | GatePolicy | GateExplicitApproval | GateDeny.

#[export] Instance Gate_eq_dec : EqDecision Gate.
Proof. solve_decision. Defined.

Record Deploy := mkDeploy { Env : string; Replicas : Z; Summary : string; RecentFailures : Z }.

Inductive Reason := ReasonProduction | ReasonFailures | ReasonScores (risk : float64) (change : string).

Record Report := mkReport {
  Risk : float64; Change : string; Confidence : float64; Report_Gate : Gate; Report_Reason : Reason }.

Definition base_gate (choice : string) (conf risk : float64) : Gate :=
  if (choice ==? "unknown") || flt conf half || fge risk (f_lit 25 1) then GateDeny
  else if fge risk (f_lit 15 1) || (choice ==? "migration") || (choice ==? "infra") then GateExplicitApproval
  else if fge risk (f_lit 5 1) || (choice ==? "code_rolling") then GatePolicy
  else GateAuto.

Definition Assess (evaluate : Deploy -> result string Answers) (d : Deploy) : result string Report :=
  if (Env d ==? "") || (Summary d ==? "") then Err "riskgate: env and summary are required"
  else
    match evaluate d with
    | Err e => Err ("riskgate: judgment: " ++ e)
    | Ok ans =>
        let change := choice_of ans "change" in
        let risk := Score_Value (score_of ans "risk") in
        let base := base_gate (Choice_Choice change) (Choice_Confidence change) risk in
        let '(base, reason) :=
          if (Env d ==? "production") && (bool_decide (base = GateAuto) || bool_decide (base = GatePolicy))
          then (GateExplicitApproval, Some ReasonProduction) else (base, None) in
        let '(base, reason) :=
          if (0 <? RecentFailures d) && bool_decide (base = GateExplicitApproval)
          then (GateDeny, Some ReasonFailures) else (base, reason) in
        Ok (mkReport risk (Choice_Choice change) (Choice_Confidence change) base
              (default (ReasonScores risk (Choice_Choice change)) reason))
    end.

(** What must hold of the answers for a deploy to go ahead unattended. *)
Definition benign (choice : string) (conf risk : float64) : Prop :=
  choice <> "unknown" /\ flt conf half = false /\ fge risk (f_lit 25 1) = false.

Lemma base_gate_deny choice conf risk : ~ benign choice conf risk <-> base_gate choice conf risk = GateDeny.
Proof.
  unfold benign, base_gate. generalize (f_lit 25 1) (f_lit 15 1) (f_lit 5 1). intros c25 c15 c5.
  destruct (decide (choice = "unknown")) as [H|H].
  - rewrite bool_decide_true by done. naive_solver.
  - rewrite bool_decide_false by done. cbn [orb]. destruct (flt conf half), (fge risk c25); cbn [orb]; [naive_solver..|].
    split; [naive_solver|]. destruct (_ || _ || _); [done|]. by destruct (_ || _).
Qed.

Lemma base_gate_auto choice conf risk :
  base_gate choice conf risk = GateAuto <->
  benign choice conf risk /\ fge risk (f_lit 15 1) = false /\ fge risk (f_lit 5 1) = false /\
  choice <> "migration" /\ choice <> "infra" /\ choice <> "code_rolling".
Proof.
  unfold benign, base_gate. generalize (f_lit 25 1) (f_lit 15 1) (f_lit 5 1). intros c25 c15 c5.
  destruct (_ || flt conf half || _) eqn:E1.
  { split; [done|]. intros ((H1 & H2 & H3) & _). rewrite H2, H3, bool_decide_false in E1; done. }
  rewrite !orb_false_iff, bool_decide_eq_false in E1. destruct E1 as [[H1 H2] H3].
  destruct (fge risk c15 || _ || _) eqn:E2.
  { split; [done|]. intros (_ & H4 & _ & H5 & H6 & _). rewrite H4, !bool_decide_false in E2; done. }
  rewrite !orb_false_iff, !bool_decide_eq_false in E2. destruct E2 as [[H4 H5] H6].
  destruct (fge risk c5 || _) eqn:E3.
  - split; [done|]. intros (_ & _ & H7 & _ & _ & H8). rewrite H7, bool_decide_false in E3; done.
  - rewrite !orb_false_iff, !bool_decide_eq_false in E3. tauto.
Qed.

(** The deploy gate fails closed: whatever the judge answers, production is never
    released without explicit approval, recent failures turn an approval into a
    denial, an uncertain or dangerous judgment is denied, and automatic release
    needs a certain, low-risk, non-production change that is neither a rollout, a
    migration nor infrastructure. *)
Theorem Assess_spec evaluate d rep :
  Assess evaluate d = Ok rep ->
  (Env d = "production" -> Report_Gate rep = GateExplicitApproval \/ Report_Gate rep = GateDeny) /\
  (0 < RecentFailures d -> Report_Gate rep <> GateExplicitApproval) /\
  (~ benign (Change rep) (Confidence rep) (Risk rep) -> Report_Gate rep = GateDeny) /\
  (Report_Gate rep = GateAuto <->
     Env d <> "production" /\ benign (Change rep) (Confidence rep) (Risk rep) /\
     fge (Risk rep) (f_lit 15 1) = false /\ fge (Risk rep) (f_lit 5 1) = false /\
     Change rep <> "migration" /\ Change rep <> "infra" /\ Change rep <> "code_rolling").
Proof.
  unfold Assess. destruct (_ || _); [done|]. destruct (evaluate d) as [ans|]; [|done].
  generalize (choice_of ans "change") (Score_Value (score_of ans "risk")). intros [choice conf] risk.
  cbn [Choice_Choice Choice_Confidence]. pose proof (base_gate_deny choice conf risk) as Hdeny.
  pose proof (base_gate_auto choice conf risk) as Hauto.
  destruct (base_gate choice conf risk); destruct (decide (Env d = "production")) as [Hp|Hp];
    rewrite ?(bool_decide_true (Env d = "production")), ?(bool_decide_false (Env d = "production")) by done;
    destruct (Z.ltb_spec 0 (RecentFailures d)); cbn -[f_lit]; intros [= <-]; cbn -[f_lit];
    clear evaluate ans;
    (split; [intros ?; first [by left|by right|congruence]|]);
    (split; [intros ?; first [discriminate|lia]|]);
    (split; [intros Hn%Hdeny; first [reflexivity|discriminate]|]); clear Hdeny; intuition congruence.
Qed.

Definition sure (change : string) (risk : float64) : Answers :=
  mkAnswers {["change" := mkChoiceA change (f_of_Z 1)]} ∅ {["risk" := mkScoreA risk (f_of_Z 1)]}.

Lemma Assess_spec_witness :
  Report_Gate <$> Assess (fun _ => Ok (sure "config_only" f_zero)) (mkDeploy "production" 3 "docs" 0) =
    Ok GateExplicitApproval /\
  Report_Gate <$> Assess (fun _ => Ok (sure "config_only" f_zero)) (mkDeploy "dev" 3 "docs" 0) = Ok GateAuto.
Proof.
  split; [|by vm_compute].
  destruct (Assess (fun _ => Ok (sure "config_only" f_zero)) (mkDeploy "production" 3 "docs" 0)) as [rep|] eqn:E;
    [|by vm_compute in E].
  destruct (proj1 (Assess_spec _ _ rep E) eq_refl) as [H|H]; cbn; [by rewrite H|].
  exfalso. by vm_compute in E; injection E as <-; vm_compute in H.
Defined.
End RiskGate.

(** ** [cmdgate/cmdgate.go] *)
Module CmdGate.

Inductive Decision := Allow | AllowWithAudit | RequireApproval | Deny.

#[export] Instance Decision_eq_dec : EqDecision Decision.
Proof. solve_decision. Defined.

Record Report := mkReport { Class : string; Confidence : float64; Report_Decision : Decision }.

Definition denylist : list string :=
  ["rm -rf /"; "rm -rf /*"; ":(){:|:&};:"; "mkfs"; "dd of=/dev/"; "shutdown"; "reboot"; "halt"; "poweroff"].

Definition deniedInCode (argv : list string) : option string :=
  let lower := to_lower (trim_space (join " " argv)) in
  find_first (fun p => contains lower p) denylist.

(** The judge is called only when no pattern matched. *)
Definition Check (evaluate : string -> list string -> result string Answers) (env : string) (argv : list string)
  : result string Report :=
  match argv with
  | [] => Err "cmdgate: no command given"
  | _ =>
      match deniedInCode argv with
      | Some _ => Ok (mkReport "destructive" (f_of_Z 1) Deny)
      | None =>
          match evaluate env argv with
          | Err e => Err ("cmdgate: judgment: " ++ e)
          | Ok ans =>
              let class := choice_of ans "class" in
              let c := Choice_Choice class in
              Ok (mkReport c (Choice_Confidence class)
                (if (c ==? "unknown") || flt (Choice_Confidence class) half then RequireApproval
                 else if c ==? "destructive" then Deny
                 else if (c ==? "prod_change") || (env ==? "production") then RequireApproval
                 else if c ==? "low_risk" then AllowWithAudit
                 else Allow))
          end
      end
  end.

(** The command gate fails closed: a command on the denylist is denied without
    asking the judge, nothing runs unattended in production, an uncertain class
    needs approval, a class judged destructive never runs, and an error of the
    judge never yields a decision. *)
Theorem Check_spec evaluate env argv :
  match Check evaluate env argv with
  | Err _ => argv = [] \/ deniedInCode argv = None /\ exists e, evaluate env argv = Err e
  | Ok rep =>
      (deniedInCode argv <> None ->
         Report_Decision rep = Deny /\ forall evaluate', Check evaluate' env argv = Ok rep) /\
      (env = "production" -> Report_Decision rep = RequireApproval \/ Report_Decision rep = Deny) /\
      (Class rep = "unknown" \/ flt (Confidence rep) half = true ->
         Report_Decision rep <> Allow /\ Report_Decision rep <> AllowWithAudit) /\
      (Class rep = "destructive" -> Report_Decision rep = Deny \/ Report_Decision rep = RequireApproval)
  end.
Proof.
  unfold Check. destruct argv as [|a argv]; [by left|]. set (av := a :: argv). clearbody av.
  destruct (deniedInCode av) as [p|]; cbn [Report_Decision Class Confidence].
  { split_and!; try done; auto. }
  destruct (evaluate env av) as [ans|e]; [|by eauto].
  generalize (choice_of ans "class"). intros [c conf]. cbn [Choice_Choice Choice_Confidence Report_Decision Class Confidence].
  split; [done|]. destruct (decide (c = "unknown")) as [->|Hu].
  { rewrite bool_decide_true by done. cbn [orb]. split_and!; auto; done. }
  rewrite (bool_decide_false (c = "unknown")) by done. cbn [orb].
  destruct (flt conf half); [split_and!; auto; done|].
  destruct (decide (c = "destructive")) as [->|Hd].
  { rewrite bool_decide_true by done. split_and!; auto; done. }
  rewrite (bool_decide_false (c = "destructive")) by done. split_and!.
  - intros ->. rewrite (bool_decide_true ("production" = "production")), orb_true_r by done. by left.
  - by intros [?|?].
  - done.
Qed.

(** A class the judge was not offered counts as read-only and is allowed. *)
Lemma unexpected_class_allowed :
  let ans := mkAnswers {["class" := mkChoiceA "surprise" (f_of_Z 1)]} ∅ ∅ in
  Report_Decision <$> Check (fun _ _ => Ok ans) "dev" ["do"; "it"] = Ok Allow.
Proof. by vm_compute. Qed.

(** The patterns are searched for anywhere in the command, and only as spelled. *)
Lemma denylist_is_substring :
  deniedInCode ["cat"; "/var/log/shutdown.log"] = Some "shutdown" /\
  deniedInCode ["rm"; "-rf"; "/tmp/cache"] = Some "rm -rf /" /\
  deniedInCode ["rm"; "-r"; "-f"; "/"] = None.
Proof. by vm_compute. Qed.
End CmdGate.

(** ** [triage/triage.go] *)
Module Triage.

Inductive Outcome := Retry | NeedsAttention | Fail_.

Definition RetryThreshold : float64 := f_lit 7 1.
Definition FailThreshold : float64 := f_lit 35 2.
Definition MinDomainConfidence : float64 := f_lit 5 1.

Record Report := mkReport { Domain : string; DomainConfidence : float64; Retryable : float64; Report_Outcome : Outcome }.

Definition outcome (domain : string) (conf retryable : float64) : Outcome :=
  if (domain ==? "unknown") || flt conf MinDomainConfidence then NeedsAttention
  else if fge retryable RetryThreshold && ((domain ==? "infra_flake") || (domain ==? "dependency")) then Retry
  else if flt retryable FailThreshold then Fail_
  else NeedsAttention.

Definition TriageBuildFailure (evaluate : string -> result string Answers) (logText : string) : result string Report :=
  if logText ==? "" then Err "triage: empty build log"
  else
    match evaluate logText with
    | Err e => Err ("triage: judgment: " ++ e)
    | Ok ans =>
        let domain := choice_of ans "failure_domain" in
        let r := noul_of ans "retryable" in
        Ok (mkReport (Choice_Choice domain) (Choice_Confidence domain) r
              (outcome (Choice_Choice domain) (Choice_Confidence domain) r))
    end.

(** A build is only retried for a trusted transient cause, and an untrusted cause
    always goes to a human. *)
Lemma TriageBuildFailure_safe evaluate logText rep :
  TriageBuildFailure evaluate logText = Ok rep ->
  (Report_Outcome rep = Retry ->
     (Domain rep = "infra_flake" \/ Domain rep = "dependency") /\
     flt (DomainConfidence rep) MinDomainConfidence = false /\ fge (Retryable rep) RetryThreshold = true) /\
  (Domain rep = "unknown" \/ flt (DomainConfidence rep) MinDomainConfidence = true ->
     Report_Outcome rep = NeedsAttention).
Proof.
  unfold TriageBuildFailure. destruct (_ ==? ""); [done|]. destruct (evaluate logText) as [ans|]; [|done].
  intros [= <-]. cbn. generalize (choice_of ans "failure_domain") (noul_of ans "retryable"). intros [d conf] r. cbn.
  unfold outcome. destruct (_ || flt conf _) eqn:E1.
  - done.
  - rewrite orb_false_iff, bool_decide_eq_false in E1. destruct E1 as [H1 H2]. split; [|by intros [?|?]; congruence].
    destruct (fge r RetryThreshold) eqn:E2; cbn [andb]; [|by destruct (flt r FailThreshold)].
    destruct (_ || _) eqn:E3; [|by destruct (flt r FailThreshold)].
    rewrite orb_true_iff, !bool_decide_eq_true in E3. done.
Qed.
End Triage.

(** ** [alertjudge/alertjudge.go] *)
Module AlertJudge.

Inductive Action := Log | Notify | Page.

Record Alert := mkAlert { Name : string; Summary : string; Service : string; AEnv : string }.
Record Report := mkReport { Severity : float64; Route : string; Confidence : float64; Report_Action : Action }.

Definition action (sev : float64) (route : string) (conf : float64) : Action :=
  if fge sev (f_lit 25 1) && (route ==? "page") && fge conf half then Page
  else if fge sev (f_lit 25 1) && (route ==? "page") then Notify
  else if fge sev (f_lit 15 1) || (route ==? "notify") then Notify
  else Log.

Definition AssessAlert (evaluate : Alert -> result string Answers) (a : Alert) : result string Report :=
  if (Name a ==? "") || (Summary a ==? "") then Err "alertjudge: name and summary are required"
  else
    match evaluate a with
    | Err e => Err ("alertjudge: judgment: " ++ e)
    | Ok ans =>
        let route := choice_of ans "route" in
        let sev := score_of ans "severity" in
        let conf := fdiv (fadd (Choice_Confidence route) (Score_Confidence sev)) (f_of_Z 2) in
        Ok (mkReport (Score_Value sev) (Choice_Choice route) conf
              (action (Score_Value sev) (Choice_Choice route) conf))
    end.

(** Paging needs both a critical score and the page route with trust; a critical
    page-routed alert is never only logged. *)
Lemma AssessAlert_safe evaluate a rep :
  AssessAlert evaluate a = Ok rep ->
  (Report_Action rep = Page <->
     fge (Severity rep) (f_lit 25 1) = true /\ Route rep = "page" /\ fge (Confidence rep) half = true) /\
  (fge (Severity rep) (f_lit 25 1) = true -> Route rep = "page" -> Report_Action rep <> Log).
Proof.
  unfold AssessAlert. destruct (_ || _); [done|]. destruct (evaluate a) as [ans|]; [|done]. intros <-%Ok_inj.
  cbn [Severity Route Confidence Report_Action].
  generalize (fdiv (fadd (Choice_Confidence (choice_of ans "route"))
    (Score_Confidence (score_of ans "severity"))) (f_of_Z 2)). intros conf.
  generalize (Score_Value (score_of ans "severity")) (Choice_Choice (choice_of ans "route")). intros sev route.
  unfold action. generalize (f_lit 25 1) (f_lit 15 1). intros c25 c15.
  destruct (fge sev c25) eqn:E1, (fge conf half) eqn:E2, (decide (route = "page")) as [H|H];
    rewrite ?(bool_decide_true (route = "page")), ?(bool_decide_false (route = "page")) by done; cbn [andb];
    clear evaluate a ans; try destruct (_ || _); (split; [split|]); intuition congruence.
Qed.
End AlertJudge.
Close Scope Z_scope.
Close Scope string_scope.
