(* ===== verification/Dns.v ===== *)
(** * DNS ([internal/dns])

    The [.local] resolver ([dns.go]), the authoritative server's answers
    ([server.go]) and the domains given to projects ([domains.go]). The wire
    format is the miekg/dns library's; of that library the server's logic uses
    [Fqdn], an argument here, with its documented result on plain names as a
    hypothesis. Stored VMs come from the store's table. *)
From S2P Require Import Prelude GoStrings GoNum GoNet Types Store.
From Stdlib Require Import String Ascii.

Open Scope string_scope.
Open Scope Z_scope.

(** ** [dns.go] *)

Definition label_char (c : ascii) : bool := is_lower c || is_digit c || Ascii.eqb c "-".

(** [zonePattern]: the two captured labels of [<svc>.<project>.local]. *)
Definition zone_match (host : string) : option (string * string) :=
  match split_on "."%char host with
  | [a; b; l] =>
      if (a !=? "") && (b !=? "") && sall label_char a && sall label_char b && (l ==? "local")
      then Some (a, b) else None
  | _ => None
  end.

(** The filter shared by the resolver and the server. *)
Definition vm_matches (svc project : string) (vm : VM) : bool :=
  equal_fold (VM_ServiceName vm) svc &&
  negb ((project !=? "") && negb (contains (to_lower (VM_ProjectID vm)) project) &&
        negb (contains (to_lower (VM_Name vm)) project)).

Definition LookupIP (vms : list VM) (host : string) : result string (list IP) :=
  let host := to_lower (trim_suffix host ".") in
  match zone_match host with
  | None => Err ("dns: " ++ host ++ " is not a .local service name")
  | Some (svc, project) =>
      let out := omap (fun vm => ParseIP (VM_IPAddress vm))
                   (base.filter (fun vm => vm_matches svc project vm = true) vms) in
      match out with
      | [] => Err ("dns: no VM for " ++ host)
      | _ => Ok out
      end
  end.

Definition projectName (vm : VM) : string :=
  if VM_ProjectID vm ==? "" then "default" else VM_ProjectID vm.

Definition LookupHost (vms : list VM) (ip : string) : result string string :=
  match find_first (fun vm => VM_IPAddress vm ==? ip) vms with
  | Some vm => Ok (VM_ServiceName vm ++ "." ++ projectName vm ++ ".local")
  | None => Err ("dns: no VM with ip " ++ ip)
  end.

(** ** [server.go] *)

Inductive Rcode := RcodeSuccess | RcodeNameError.
Inductive Qtype := TypeA | TypeAAAA | TypePTR | TypeNS | TypeSOA | TypeOther.

Inductive RR :=
| RR_A (name : string) (ttl : Z) (ip : IP)
| RR_PTR (name : string) (ttl : Z) (ptr : string)
| RR_NS (name : string) (ttl : Z) (ns : string)
| RR_SOA (name : string) (ttl : Z) (ns mbox : string) (serial refresh retry expire minttl : Z).

Record Msg := mkMsg { msg_authoritative : bool; msg_rcode : Rcode; msg_answer : list RR }.

Record DNSServer := mkDNS { dns_base : string; dns_gateway : option IP }.

Definition NewServer (baseDomain : string) (gatewayIP : option IP) : DNSServer :=
  mkDNS (to_lower (trim_suffix baseDomain ".")) gatewayIP.

Definition ptrToIP (name : string) : option IP :=
  let name := trim_suffix name "." in
  let name := trim_suffix name ".in-addr.arpa" in
  let name := trim_suffix name ".ip6.arpa" in
  match split_on "."%char name with
  | [a; b; c; d] => ParseIP (d ++ "." ++ c ++ "." ++ b ++ "." ++ a)
  | _ => None
  end.

Section Server.
Context (Fqdn : string -> string).

Definition nxdomain : Msg := mkMsg false RcodeNameError [].

(** [qname] is the name as the client spelled it, used in the VM answers. An
    [IP] is an address, so the answer's [ip.To4()] is [ip] itself. *)
Definition resolveVM (vms : list VM) (qname svc project : string) : list RR :=
  omap (fun vm => match ParseIP (VM_IPAddress vm) with
                  | Some ip => match To4 ip with Some _ => Some (RR_A qname 30 ip) | None => None end
                  | None => None
                  end)
    (base.filter (fun vm => vm_matches svc project vm = true) vms).

Definition handleA (s : DNSServer) (vms : list VM) (qname name : string) : Msg :=
  if negb (has_suffix name (Fqdn (dns_base s))) && (name !=? Fqdn (dns_base s)) then nxdomain
  else
    let subdomain := trim_suffix (trim_suffix name (Fqdn (dns_base s))) "." in
    match cut "."%char subdomain with
    | Some (svc, project) => mkMsg true RcodeSuccess (resolveVM vms qname svc project)
    | None => mkMsg true RcodeSuccess (match dns_gateway s with Some ip => [RR_A name 300 ip] | None => [] end)
    end.

Definition handlePTR (s : DNSServer) (vms : list VM) (name : string) : Msg :=
  match ptrToIP name with
  | None => mkMsg true RcodeNameError []
  | Some ip =>
      match find_first (fun vm => VM_IPAddress vm ==? IP_String ip) vms with
      | Some vm => mkMsg true RcodeSuccess
          [RR_PTR name 300 (VM_ServiceName vm ++ "." ++ to_lower (VM_ProjectID vm) ++ "." ++ dns_base s ++ ".")]
      | None => mkMsg true RcodeNameError []
      end
  end.

Definition handleNS (s : DNSServer) (name : string) : Msg :=
  mkMsg true RcodeSuccess [RR_NS name 86400 ("ns1." ++ dns_base s ++ ".")].

Definition handleSOA (s : DNSServer) (name : string) : Msg :=
  mkMsg true RcodeSuccess [RR_SOA name 300 ("ns1." ++ dns_base s ++ ".") ("admin." ++ dns_base s ++ ".")
                               1 3600 600 604800 300].

Definition handleDNS (s : DNSServer) (vms : list VM) (question : option (string * Qtype)) : Msg :=
  match question with
  | None => mkMsg true RcodeSuccess []
  | Some (qname, qtype) =>
      let fqdn := Fqdn (to_lower qname) in
      match qtype with
      | TypeA => handleA s vms qname fqdn
      | TypeAAAA => mkMsg true RcodeSuccess []
      | TypePTR => handlePTR s vms fqdn
      | TypeNS => handleNS s fqdn
      | TypeSOA => handleSOA s fqdn
      | TypeOther => nxdomain
      end
  end.
End Server.

(** ** [domains.go] *)

(** [strings.ReplaceAll(s, "--", "-")]: pairs from the left, not overlapping. *)
Fixpoint collapse (s : string) : string :=
  match s with
  | String "-" (String "-" s) => String "-" (collapse s)
  | String c s => String c (collapse s)
  | EmptyString => EmptyString
  end.

(** The loop [for strings.Contains(slug, "--")]; a round that changes the slug
    shortens it. *)
Fixpoint collapse_all (fuel : nat) (s : string) : string :=
  match fuel with
  | O => s
  | S fuel => if contains s "--" then collapse_all fuel (collapse s) else s
  end.

Fixpoint sfilter (p : ascii -> bool) (s : string) : string :=
  match s with
  | EmptyString => EmptyString
  | String c s => if p c then String c (sfilter p s) else sfilter p s
  end.

Definition projectSlug (p : Project) : string :=
  let slug := to_lower (Proj_Name p) in
  let slug := smap (fun c => if Ascii.eqb c " " then "-"%char else c) slug in
  let slug := smap (fun c => if Ascii.eqb c "_" then "-"%char else c) slug in
  let slug := sfilter label_char slug in
  let slug := collapse_all (String.length slug) slug in
  let slug := trim_set "-" slug in
  if slug ==? "" then "app" else slug.

Record DomainManager := mkDM { dm_base : string; dm_gateway : string }.

Definition NewDomainManager (baseDomain gatewayIP : string) : DomainManager :=
  mkDM (to_lower (trim_suffix baseDomain ".")) gatewayIP.

Definition GetPreviewDomain (dm : DomainManager) (p : Project) : string :=
  projectSlug p ++ ".preview." ++ dm_base dm.
Definition GetProductionDomain (dm : DomainManager) (p : Project) : string :=
  projectSlug p ++ "." ++ dm_base dm.

(** [VerifyDomain] with its explanation; [lookup] is the system resolver. *)
Definition VerifyDomain (lookup : string -> result string (list string)) (dm : DomainManager) (d : Domain)
  : bool * string :=
  match lookup (Dom_Domain d) with
  | Err e => (false, "DNS lookup failed: " ++ e)
  | Ok [] => (false, "no A/AAAA records")
  | Ok ips =>
      match find_first (fun ip => ip ==? dm_gateway dm) ips with
      | Some ip => (true, "resolves to " ++ ip ++ " (verified)")
      | None => (false, "resolves to " ++ join ", " ips ++ " (not gateway " ++ dm_gateway dm ++ ")")
      end
  end.

(** The private [verifyDomain] sets the status of the caller's record. *)
Definition verifyDomain lookup (dm : DomainManager) (d : Domain) : Domain :=
  mkDomain (Dom_ProjectID d) (Dom_VMID d) (Dom_Domain d) (Dom_Type d)
    (if fst (VerifyDomain lookup dm d) then "verified" else "unverified").

(** The returned domains carry the verification, the stored rows were written before it. *)
Definition AssignDomains (lookup : string -> result string (list string)) (dm : DomainManager) (p : Project)
  (s : StoreState) : StoreState * result string (list Domain) :=
  if dm_base dm ==? "" then (s, Err "dns: base_domain not configured")
  else
    let preview := mkDomain (Proj_ID p) "" (GetPreviewDomain dm p) "preview" "pending" in
    let prod := mkDomain (Proj_ID p) "" (GetProductionDomain dm p) "production" "pending" in
    let s := AddDomain (Proj_ID p) prod (AddDomain (Proj_ID p) preview s) in
    (s, Ok [verifyDomain lookup dm preview; verifyDomain lookup dm prod]).


(** ** Slugs are DNS labels *)

Lemma contains_trim_left p s x : contains (trim_left_f p s) x = true -> contains s x = true.
Proof.
  induction s as [|c s IH]; [done|]. cbn [trim_left_f]. destruct (p c); [|done].
  intros H%IH. cbn [contains]. by rewrite H, orb_true_r.
Qed.

Lemma has_prefix_trim_right p s x : has_prefix (trim_right_f p s) x = true -> has_prefix s x = true.
Proof.
  revert x. induction s as [|c s IH]; intros [|d x]; cbn [trim_right_f]; try done.
  destruct (trim_right_f p s) as [|e t] eqn:E.
  - destruct (p c); [done|]. cbn [has_prefix]. intros [-> Hx]%andb_true_iff. destruct x; [|done].
    by destruct s.
  - cbn [has_prefix]. intros [-> Hx]%andb_true_iff. by apply IH.
Qed.

Lemma contains_cons c s x : contains (String c s) x = has_prefix (String c s) x || contains s x.
Proof. done. Qed.

Lemma contains_trim_right p s x : x <> "" -> contains (trim_right_f p s) x = true -> contains s x = true.
Proof.
  intros Hx. induction s as [|c s IH]; [done|]. intros H. rewrite contains_cons. apply orb_true_iff.
  destruct (has_prefix (trim_right_f p (String c s)) x) eqn:Ep; [left; by eapply has_prefix_trim_right|right].
  apply IH. cbn [trim_right_f] in H, Ep. destruct (trim_right_f p s) as [|e t] eqn:E.
  - destruct (p c); [done|]. by rewrite contains_cons, Ep in H.
  - by rewrite contains_cons, Ep in H.
Qed.

Lemma sall_trim_left p q s : sall q s = true -> sall q (trim_left_f p s) = true.
Proof.
  induction s as [|c s IH]; [done|]. cbn [trim_left_f sall]. intros [Hc Hs]%andb_true_iff.
  destruct (p c); [by apply IH|]. cbn. by rewrite Hc, Hs.
Qed.

Lemma sall_trim_right p q s : sall q s = true -> sall q (trim_right_f p s) = true.
Proof.
  induction s as [|c s IH]; [done|]. cbn [trim_right_f sall]. intros [Hc Hs]%andb_true_iff. specialize (IH Hs).
  destruct (trim_right_f p s); [destruct (p c); cbn; by rewrite ?Hc|]. cbn [sall] in *. by rewrite Hc, IH.
Qed.

Lemma trim_left_idem p s : trim_left_f p (trim_left_f p s) = trim_left_f p s.
Proof.
  induction s as [|c s IH]; [done|]. cbn [trim_left_f]. destruct (p c) eqn:E; [done|]. cbn. by rewrite E.
Qed.

Lemma trim_right_idem p s : trim_right_f p (trim_right_f p s) = trim_right_f p s.
Proof.
  induction s as [|c s IH]; [done|]. cbn [trim_right_f]. destruct (trim_right_f p s) as [|d t] eqn:E.
  - destruct (p c) eqn:Ec; [done|]. cbn. by rewrite Ec.
  - change (trim_right_f p (String c (String d t))) with
      (match trim_right_f p (String d t) with
       | EmptyString => if p c then EmptyString else String c EmptyString
       | t' => String c t' end). by rewrite IH.
Qed.

Lemma trim_left_right p s : trim_left_f p s = s -> trim_left_f p (trim_right_f p s) = trim_right_f p s.
Proof.
  destruct s as [|c s]; [done|]. cbn [trim_left_f trim_right_f]. destruct (p c) eqn:E.
  - intros H. exfalso. assert (Hl : (String.length (trim_left_f p s) <= String.length s)%nat).
    { clear. induction s as [|c s IH]; [done|]. cbn [trim_left_f]. destruct (p c); cbn in *; lia. }
    rewrite H in Hl. cbn in Hl. lia.
  - intros _. destruct (trim_right_f p s); cbn; by rewrite E.
Qed.

Lemma trim_idem p s : trim_f p (trim_f p s) = trim_f p s.
Proof. unfold trim_f. rewrite trim_left_right by apply trim_left_idem. apply trim_right_idem. Qed.

Lemma collapse_cons c s :
  collapse (String c s) =
  match s with
  | String d t => if Ascii.eqb c "-" && Ascii.eqb d "-" then String "-" (collapse t) else String c (collapse s)
  | EmptyString => String c EmptyString
  end.
Proof.
  destruct s as [|d t].
  - destruct c as [[] [] [] [] [] [] [] []]; done.
  - destruct (Ascii.eqb_spec c "-") as [->|Hc].
    + destruct (Ascii.eqb_spec d "-") as [->|Hd]; [done|].
      destruct d as [[] [] [] [] [] [] [] []]; done.
    + cbn [andb]. destruct c as [[] [] [] [] [] [] [] []]; done.
Qed.

(** Strings are handled two bytes at a time below. *)
Lemma string_ind2 (P : string -> Prop) :
  P "" -> (forall c, P (String c "")) -> (forall c d s, P s -> P (String d s) -> P (String c (String d s))) ->
  forall s, P s.
Proof.
  intros H0 H1 H2 s. assert (H : P s /\ forall c, P (String c s)); [|apply H].
  induction s as [|c s [IH1 IH2]]; [by split|]. split; [apply IH2|]. intros d. by apply H2.
Qed.

Lemma collapse_length s :
  (String.length (collapse s) <= String.length s)%nat /\
  (contains s "--" = true -> (String.length (collapse s) < String.length s)%nat).
Proof.
  induction s as [|c|c d s IH1 IH2] using string_ind2; [done|destruct c as [[] [] [] [] [] [] [] []]; done|].
  rewrite collapse_cons. destruct (Ascii.eqb c "-" && Ascii.eqb d "-") eqn:E; [cbn [String.length]; lia|].
  cbn [String.length] in *. split; [lia|]. intros H.
  assert (Hc : contains (String d s) "--" = true); [|pose proof (proj2 IH2 Hc); lia].
  rewrite contains_cons in H. apply orb_true_iff in H as [H|H]; [|done].
  apply has_prefix_spec in H as [t Ht]. change ("--" ++ t) with (String "-" (String "-" t)) in Ht.
  injection Ht as -> -> _. by vm_compute in E.
Qed.

Lemma collapse_all_clean fuel s : (String.length s <= fuel)%nat -> contains (collapse_all fuel s) "--" = false.
Proof.
  revert s. induction fuel as [|fuel IH]; intros s Hs; cbn [collapse_all].
  - by destruct s; [|cbn in Hs; lia].
  - destruct (contains s "--") eqn:E; [|done]. apply IH. pose proof (proj2 (collapse_length s) E). lia.
Qed.

Lemma sall_collapse q s : q "-"%char = true -> sall q s = true -> sall q (collapse s) = true.
Proof.
  intros Hq. induction s as [|c|c d s IH1 IH2] using string_ind2; intros H; [done|by rewrite collapse_cons|].
  rewrite collapse_cons. cbn [sall] in H. apply andb_true_iff in H as [Hc Hds].
  destruct (Ascii.eqb c "-" && Ascii.eqb d "-").
  - cbn [sall]. rewrite Hq, IH1; [done|]. by apply andb_true_iff in Hds as [_ ?].
  - cbn [sall]. by rewrite Hc, IH2.
Qed.

Lemma sall_collapse_all q fuel s : q "-"%char = true -> sall q s = true -> sall q (collapse_all fuel s) = true.
Proof.
  intros Hq. revert s. induction fuel as [|fuel IH]; intros s Hs; cbn [collapse_all]; [done|].
  destruct (contains s "--"); [|done]. by apply IH, sall_collapse.
Qed.

Lemma sall_sfilter p s : sall p (sfilter p s) = true.
Proof. induction s as [|c s IH]; [done|]. cbn [sfilter]. destruct (p c) eqn:E; [|done]. cbn. by rewrite E, IH. Qed.

Lemma sfilter_id p s : sall p s = true -> sfilter p s = s.
Proof. induction s as [|c s IH]; [done|]. cbn. intros [-> Hs]%andb_true_iff. by rewrite IH. Qed.

(** A label of lower-case letters, digits and single inner hyphens. *)
Record slug_ok (s : string) : Prop := {
  slug_nonempty : s <> "";
  slug_chars : sall label_char s = true;
  slug_single : contains s "--" = false;
  slug_trimmed : trim_set "-" s = s }.

(** C36: Every project, whatever its name, gets a well-formed host label, and a name
    that already is one is kept. *)
Theorem projectSlug_ok p :
  slug_ok (projectSlug p) /\ (slug_ok (Proj_Name p) -> projectSlug p = Proj_Name p).
Proof.
  unfold projectSlug. cbv zeta. split.
  - set (f := sfilter label_char _). set (c := collapse_all (String.length f) f).
    assert (Hc : sall label_char c = true) by (apply sall_collapse_all; [done|apply sall_sfilter]).
    assert (Hd : contains c "--" = false) by (by apply collapse_all_clean).
    destruct (decide (trim_set "-" c = "")) as [E|E];
      [rewrite bool_decide_true by done; by split|rewrite bool_decide_false by done].
    split; [done| | |apply trim_idem].
    + by apply sall_trim_right, sall_trim_left.
    + apply not_true_iff_false. intros H. unfold trim_set, trim_f in H.
      apply contains_trim_right in H; [|done]. apply contains_trim_left in H. congruence.
  - intros [Hne Hch Hdd Htr].
    assert (Hkeep : forall (g : ascii -> ascii), (forall c, label_char c = true -> g c = c) ->
      smap g (Proj_Name p) = Proj_Name p) by (intros g Hg; by eapply smap_id_on).
    unfold to_lower. rewrite (Hkeep lower).
    2: { intros c Hc. unfold lower, label_char in *. destruct (is_upper c) eqn:Eu; [|done].
         exfalso. unfold is_lower, is_digit, is_upper in *. bools.
         rewrite !orb_true_iff, !andb_true_iff, !Z.leb_le, Ascii.eqb_eq in Hc. destruct Hc as [[?|?]| ->]; [lia..|].
         by vm_compute in H. }
    rewrite (Hkeep (fun c => if Ascii.eqb c " " then "-"%char else c)).
    2: { intros c Hc. destruct (Ascii.eqb_spec c " ") as [->|]; [by vm_compute in Hc|done]. }
    rewrite (Hkeep (fun c => if Ascii.eqb c "_" then "-"%char else c)).
    2: { intros c Hc. destruct (Ascii.eqb_spec c "_") as [->|]; [by vm_compute in Hc|done]. }
    rewrite sfilter_id by done.
    assert (Hca : forall fuel, collapse_all fuel (Proj_Name p) = Proj_Name p)
      by (intros []; cbn [collapse_all]; by rewrite ?Hdd).
    rewrite Hca, Htr. by rewrite bool_decide_false.
Qed.

(** ** Forward and reverse answers *)

Definition reverse_name (v : Z) : string :=
  Itoa (octet v 0) ++ "." ++ Itoa (octet v 8) ++ "." ++ Itoa (octet v 16) ++ "." ++ Itoa (octet v 24) ++
  ".in-addr.arpa.".

Lemma sall_sdrop p n s : sall p s = true -> sall p (sdrop n s) = true.
Proof.
  revert s. induction n as [|n IH]; intros [|c s]; try done. cbn. intros [_ Hs]%andb_true_iff. by apply IH.
Qed.

(** A suffix with a character the text does not have is not one. *)
Lemma has_suffix_chars p s suf : sall p s = true -> sall p suf = false -> has_suffix s suf = false.
Proof.
  intros Hs Hsuf. unfold has_suffix. apply andb_false_iff. right. apply bool_decide_eq_false. intros E.
  pose proof (sall_sdrop p (String.length s - String.length suf) s Hs) as H. rewrite E in H. congruence.
Qed.

Definition dotted (c : ascii) : bool := is_digit c || Ascii.eqb c ".".

Lemma Itoa_octet_dotted v k : sall dotted (Itoa (octet v k)) = true.
Proof.
  eapply sall_impl; [|apply Itoa_digits; pose proof (octet_range v k); lia]. intros c Hc. unfold dotted. by rewrite Hc.
Qed.

Lemma ptrToIP_reverse v : 0 <= v < 2 ^ 32 -> ptrToIP (reverse_name v) = Some (ip_of_v4 v).
Proof.
  intros Hv. unfold ptrToIP, reverse_name. cbv zeta.
  set (a := Itoa (octet v 0)). set (b := Itoa (octet v 8)). set (c := Itoa (octet v 16)). set (d := Itoa (octet v 24)).
  set (q := a ++ "." ++ b ++ "." ++ c ++ "." ++ d).
  assert (Hq : sall dotted q = true).
  { unfold q. rewrite !sall_app. unfold a, b, c, d. by rewrite !Itoa_octet_dotted. }
  assert (Hn : a ++ "." ++ b ++ "." ++ c ++ "." ++ d ++ ".in-addr.arpa." = (q ++ ".in-addr.arpa") ++ ".")
    by (unfold q; by rewrite !sapp_assoc).
  rewrite Hn, !trim_suffix_app.
  unfold trim_suffix. rewrite (has_suffix_chars dotted q ".ip6.arpa") by done.
  assert (Hd : forall k, sall (fun x => negb (Ascii.eqb x ".")) (Itoa (octet v k)) = true).
  { intros k. eapply sall_impl; [|apply Itoa_digits; pose proof (octet_range v k); lia].
    intros x Hx. apply negb_true_iff, Ascii.eqb_neq. by intros ->. }
  assert (Hs : split_on "." q = [a; b; c; d]).
  { unfold q. apply (split_on_join "."%char [a; b; c; d]); [done|]. repeat constructor; apply Hd. }
  rewrite Hs. rewrite <- (ParseIP_fmt_ipv4 v Hv). unfold fmt_ipv4. f_equal.
Qed.

Section Answers.
Context (Fqdn : string -> string).
Hypothesis Fqdn_plain : forall s,
  sall (fun c => negb (Ascii.eqb c "\")) s = true -> Fqdn s = if has_suffix s "." then s else s ++ ".".

(** The characters of names the theorem is about. *)
Definition name_char (c : ascii) : bool := label_char c || Ascii.eqb c ".".

Lemma Fqdn_dot s : sall name_char s = true -> Fqdn (s ++ ".") = s ++ ".".
Proof.
  intros Hs. rewrite Fqdn_plain, has_suffix_app; [done|]. rewrite sall_app.
  rewrite (sall_impl name_char); [done| |done]. intros c Hc.
  apply negb_true_iff, Ascii.eqb_neq. intros ->. by vm_compute in Hc.
Qed.

Lemma lower_name s : sall name_char s = true -> to_lower s = s.
Proof.
  intros Hs. eapply smap_id_on; [|exact Hs]. intros c Hc. unfold lower. destruct (is_upper c) eqn:E; [|done].
  exfalso. unfold name_char, label_char, is_lower, is_digit, is_upper in *. bools.
  rewrite !orb_true_iff, !andb_true_iff, !Z.leb_le, !Ascii.eqb_eq in Hc.
  destruct Hc as [[[?|?]| ->]| ->]; [lia|lia|by vm_compute in H|by vm_compute in H].
Qed.

Lemma in_zone_query q base : sall name_char base = true ->
  has_suffix (q ++ "." ++ base ++ ".") (Fqdn (base ++ ".")) = true /\
  trim_suffix (trim_suffix (q ++ "." ++ base ++ ".") (Fqdn (base ++ "."))) "." = q.
Proof.
  intros Hb. rewrite Fqdn_dot, <- sapp_assoc by done. by rewrite has_suffix_app, !trim_suffix_app.
Qed.

Lemma Fqdn_base base : sall name_char base = true -> has_suffix base "." = false -> Fqdn base = base ++ ".".
Proof.
  intros Hb Hs. rewrite Fqdn_plain, Hs; [done|]. eapply sall_impl; [|exact Hb].
  intros c Hc. apply negb_true_iff, Ascii.eqb_neq. intros ->. by vm_compute in Hc.
Qed.

Lemma label_name s : sall label_char s = true -> sall name_char s = true.
Proof. apply sall_impl. intros c Hc. unfold name_char. by rewrite Hc. Qed.

(** A name below the base domain is split at its first dot and looked up. *)
Lemma handleDNS_service base gw vms svc project :
  sall name_char base = true -> has_suffix base "." = false ->
  sall label_char svc = true -> sall name_char project = true ->
  let q := svc ++ "." ++ project ++ "." ++ base ++ "." in
  handleDNS Fqdn (mkDNS base gw) vms (Some (q, TypeA)) = mkMsg true RcodeSuccess (resolveVM vms q svc project).
Proof.
  intros Hb Hbs Hsvc Hp q.
  assert (Hq : q = (svc ++ "." ++ project) ++ "." ++ base ++ ".") by (unfold q; by rewrite !sapp_assoc).
  assert (Hn : sall name_char ((svc ++ "." ++ project) ++ "." ++ base) = true).
  { rewrite !sall_app, (label_name svc), Hp, Hb by done. done. }
  assert (Hq' : q = ((svc ++ "." ++ project) ++ "." ++ base) ++ ".") by (rewrite Hq; by rewrite !sapp_assoc).
  unfold handleDNS. cbv zeta.
  assert (Hl : Fqdn (to_lower q) = q).
  { rewrite lower_name; [rewrite Hq'; by apply Fqdn_dot|]. rewrite Hq', sall_app, Hn. done. }
  rewrite Hl. unfold handleA. cbn [dns_base]. rewrite (Fqdn_base base) by done.
  destruct (in_zone_query (svc ++ "." ++ project) base Hb) as [Hsf Htr].
  rewrite Fqdn_dot in Hsf, Htr by done. rewrite <- Hq in Hsf, Htr. rewrite Hsf. cbn [negb andb].
  cbv zeta. rewrite Htr. change ("." ++ project) with (String "." project). rewrite cut_app; [done|].
  eapply sall_impl; [|exact Hsvc]. intros c Hc. apply negb_true_iff, Ascii.eqb_neq. intros ->. by vm_compute in Hc.
Qed.

Lemma resolveVM_elem vms q svc project ip :
  RR_A q 30 ip ∈ resolveVM vms q svc project <->
  exists vm, vm ∈ vms /\ vm_matches svc project vm = true /\ ParseIP (VM_IPAddress vm) = Some ip /\ is_Some (To4 ip).
Proof.
  unfold resolveVM. rewrite list_elem_of_omap. split.
  - intros (vm & [Hm Hvm]%list_elem_of_filter & E). exists vm. destruct (ParseIP (VM_IPAddress vm)) as [i|]; [|done].
    destruct (To4 i) eqn:Et; [|done]. injection E as ->. by rewrite Et.
  - intros (vm & Hvm & Hm & Hip & [v Hv]). exists vm. rewrite list_elem_of_filter, Hip, Hv. done.
Qed.

Lemma reverse_name_plain v : sall name_char (reverse_name v) = true.
Proof.
  assert (Hd : forall k, sall name_char (Itoa (octet v k)) = true).
  { intros k. eapply sall_impl; [|apply Itoa_digits; pose proof (octet_range v k); lia].
    intros c Hc. unfold name_char, label_char. rewrite Hc. by rewrite orb_true_r. }
  unfold reverse_name. rewrite !sall_app, !Hd. done.
Qed.

Lemma reverse_name_Fqdn v : Fqdn (to_lower (reverse_name v)) = reverse_name v.
Proof.
  rewrite lower_name by apply reverse_name_plain. pose proof (reverse_name_plain v) as H. unfold reverse_name in *.
  change ".in-addr.arpa." with (".in-addr.arpa" ++ ".") in *. rewrite <- !sapp_assoc in *.
  rewrite sall_app in H. apply andb_true_iff in H as [H _]. by apply Fqdn_dot.
Qed.

(** The name server answers from the replica table: the A query of a service in
    a project is authoritative and gives exactly the IPv4 addresses of the matching
    VMs, and the PTR query of the reversed address of a VM names the service and
    project of the first VM that has it. *)
Theorem dns_answers base gw vms :
  sall name_char base = true -> has_suffix base "." = false ->
  let s := mkDNS base gw in
  (forall svc project, sall label_char svc = true -> sall name_char project = true ->
     let q := svc ++ "." ++ project ++ "." ++ base ++ "." in
     let m := handleDNS Fqdn s vms (Some (q, TypeA)) in
     msg_authoritative m = true /\ msg_rcode m = RcodeSuccess /\
     forall ip, RR_A q 30 ip ∈ msg_answer m <->
       exists vm, vm ∈ vms /\ vm_matches svc project vm = true /\ ParseIP (VM_IPAddress vm) = Some ip /\
         is_Some (To4 ip)) /\
  (forall v vm l1 l2, 0 <= v < 2 ^ 32 -> vms = (l1 ++ vm :: l2)%list -> VM_IPAddress vm = fmt_ipv4 v ->
     Forall (fun w => VM_IPAddress w <> fmt_ipv4 v) l1 ->
     handleDNS Fqdn s vms (Some (reverse_name v, TypePTR)) =
     mkMsg true RcodeSuccess
       [RR_PTR (reverse_name v) 300 (VM_ServiceName vm ++ "." ++ to_lower (VM_ProjectID vm) ++ "." ++ base ++ ".")]).
Proof.
  intros Hb Hbs s. split.
  - intros svc project Hsvc Hp q m. unfold m, q, s. rewrite handleDNS_service by done.
    split_and!; [done..|]. intros ip. apply resolveVM_elem.
  - intros v vm l1 l2 Hv -> Hip Hl1. unfold handleDNS. cbv zeta. rewrite reverse_name_Fqdn.
    unfold handlePTR. rewrite ptrToIP_reverse, IP_String_v4 by done.
    rewrite (proj2 (find_first_Some _ _ vm)); [done|]. exists l1, l2. split_and!; [done|by apply bool_decide_eq_true|].
    eapply Forall_impl; [exact Hl1|]. intros w Hw. by apply bool_decide_eq_false.
Qed.
End Answers.

(** ** Instances *)

(** [dns.Fqdn] on names without escapes. *)
Definition plain_Fqdn (s : string) : string := if has_suffix s "." then s else s ++ ".".

Definition web0 : VM :=
  VM_set_IPAddress "10.42.7.13" (VM_set_Name "web-0" (VM_set_ServiceName "web" (VM_set_ProjectID "shop" VM_zero))).

Lemma dns_answers_witness :
  handleDNS plain_Fqdn (mkDNS "example.dev" None) [web0] (Some ("13.7.42.10.in-addr.arpa.", TypePTR)) =
    mkMsg true RcodeSuccess [RR_PTR "13.7.42.10.in-addr.arpa." 300 "web.shop.example.dev."] /\
  RR_A "web.shop.example.dev." 30 (ip_of_v4 170526477) ∈
    msg_answer (handleDNS plain_Fqdn (mkDNS "example.dev" None) [web0] (Some ("web.shop.example.dev.", TypeA))).
Proof.
  destruct (dns_answers plain_Fqdn (fun s _ => eq_refl) "example.dev" None [web0] eq_refl eq_refl) as [Ha Hp].
  split.
  - apply (Hp 170526477 web0 [] []); [lia|done..].
  - destruct (Ha "web" "shop" eq_refl eq_refl) as (_ & _ & H). apply H.
    exists web0. split; [apply list_elem_of_here|]. split_and!; [done..|]. by exists 170526477.
Defined.

(** ** Divergences *)

(** The zone check has no label boundary: a name outside the zone that ends in the
    same letters is answered authoritatively, with the gateway's address. *)
Lemma foreign_zone_answered :
  handleDNS plain_Fqdn (mkDNS "example.dev" (Some (ip_of_v4 1))) [] (Some ("evilexample.dev.", TypeA)) =
  mkMsg true RcodeSuccess [RR_A "evilexample.dev." 300 (ip_of_v4 1)].
Proof. vm_compute. reflexivity. Qed.

(** The documented per-replica name is compared with the service name, so replica
    zero of [web] is not found under it. *)
Lemma replica_name_not_resolved :
  LookupIP [web0] "web-0.shop.local" = Err "dns: no VM for web-0.shop.local" /\
  LookupIP [web0] "web.shop.local" = Ok [ip_of_v4 170526477].
Proof. split; vm_compute; reflexivity. Qed.

(** Projects are matched by substring: a query for one project returns the
    addresses of every project whose identifier contains its name. *)
Lemma project_substring_leak :
  LookupIP [VM_set_ProjectID "myshop2" web0] "web.shop.local" = Ok [ip_of_v4 170526477].
Proof. vm_compute. reflexivity. Qed.

(** The verified status is set on the returned records only. *)
Lemma verification_not_stored :
  let dm := NewDomainManager "example.dev." "192.0.2.1" in
  let p := Proj_set_ID "p1" (Proj_set_Name "Shop" Proj_zero) in
  let '(s, r) := AssignDomains (fun _ => Ok ["192.0.2.1"]) dm p (PutProject p empty_store) in
  match r with Ok ds => Dom_Status <$> ds | Err _ => [] end = ["verified"; "verified"] /\
  Dom_Status <$> Store_ListDomains s "p1" = ["pending"; "pending"].
Proof. vm_compute. by split. Qed.

(** Two names with the same slug: the second project takes the domain of the first. *)
Lemma slug_collision_moves_domain :
  let dm := NewDomainManager "example.dev" "192.0.2.1" in
  let p1 := Proj_set_ID "p1" (Proj_set_Name "My Shop" Proj_zero) in
  let p2 := Proj_set_ID "p2" (Proj_set_Name "my_shop" Proj_zero) in
  let s1 := fst (AssignDomains (fun _ => Ok []) dm p1 (PutProject p2 (PutProject p1 empty_store))) in
  let s2 := fst (AssignDomains (fun _ => Ok []) dm p2 s1) in
  List.length (Store_ListDomains s1 "p1") = 2%nat /\ Store_ListDomains s2 "p1" = [] /\
  List.length (Store_ListDomains s2 "p2") = 2%nat.
Proof. vm_compute. by split. Qed.

Close Scope Z_scope.
Close Scope string_scope.
