(* ===== verification/Pool.v ===== *)
(** * The replica pool behind the API ([api/api.go], [api/handlers.go])

    How the API boots, scales, redeploys, restarts and deletes the replicas of a
    project: [bootReplica] with the image lookup and environment it composes, and
    the handlers that drive it. A handler is a function from the server's state to
    the new state and the response. The VM runner (an interface whose
    implementation is outside the sources), the secret box, artifact validation
    and the random identifiers are arguments; JSON decoding of a body has happened,
    or failed, when a handler starts. *)
From S2P Require Import Prelude GoStrings GoNum GoNet Types Gateway Store NetMgr Controllers.
From Stdlib Require Import String Ascii.

Open Scope string_scope.
Open Scope Z_scope.

(** ** Responses *)

Inductive Json :=
| JStr (s : string) | JInt (n : Z) | JBool (b : bool) | JStrs (l : list string)
| JProject (p : Project) | JVM (v : VM) | JVMs (l : list VM) | JHealth (h : Healthcheck)
| JAutoscale (p : AutoscalePolicy) | JDep (d : Deployment) | JDeps (l : list Deployment)
| JChecks (l : list DeploymentCheck) | JDomain (d : Domain) | JDomains (l : list Domain)
| JUser (u : User) | JRole (r : Role) | JOrg (o : Org) | JKey (k : APIKey) | JMember (m : ProjectMember)
| JOrgMember (m : OrgMember) | JGroup (g : Group) | JStack (s : Stack) | JServer (s : Server)
| JServers (l : list Server) | JTraffic (l : list TrafficEntry) | JMetrics (l : list MetricSample)
| JEvents (l : list HealthEvent) | JNull
| JObj (l : list (string * Json)) | JList (l : list Json).

Record Resp := mkResp { r_status : Z; r_body : Json }.

Definition writeJSON (status : Z) (v : Json) : Resp := mkResp status v.
Definition writeError (status : Z) (msg : string) : Resp :=
  mkResp status (JObj [("code", JInt status); ("message", JStr msg); ("error", JStr msg)]).

(** ** The server *)

(** [VMRunner], with a state of its own; it has no access to the store. *)
Class VMRunner (R : Type) := {
  vr_Boot : R -> VM -> R * option string;
  vr_Stop : R -> VM -> R * option string;
  vr_Restart : R -> VM -> R * option string;
  vr_Delete : R -> VM -> R * option string
}.

(** The fields of [config.Config] the pool reads. *)
Record HostConfig := mkHost { BaseImageRef : string; KernelImage : string; GuestBaseDefault : string }.

(** What the server is wired with and does not change: the identifiers
    [store.NewID] will return, the secret box, [imagecatalog.ValidateArtifacts]
    (its report's error), the catalog and the configuration. *)
Record Wiring := mkWiring {
  NewID : nat -> string;
  decryptSecret : string -> result string string;
  ValidateArtifacts : string -> string -> option string;
  hostConfig : option HostConfig;
  catalog : option (list ImageManifest);
  baseDomain : string
}.

(** [api_async] are the VMs whose boot was started in the background. *)
Record API {R : Type} := mkAPI {
  store : StoreState;
  secrets : list Secret;
  golden_images : list GoldenImage;
  vmm : R;
  next_id : nat;
  async_boots : list VM;
  daemon_log : list string;
  build_log : list (string * string);
  broadcasts : list (string * Json)
}.
Arguments API : clear implicits.
Arguments mkAPI {R}.

Section Pool.
Context {R : Type} `{VMRunner R} (w : Wiring).
Implicit Types a : API R.

Definition with_store (s : StoreState) a : API R :=
  mkAPI s (secrets a) (golden_images a) (vmm a) (next_id a) (async_boots a) (daemon_log a) (build_log a) (broadcasts a).
Definition with_vmm (r : R) a : API R :=
  mkAPI (store a) (secrets a) (golden_images a) r (next_id a) (async_boots a) (daemon_log a) (build_log a) (broadcasts a).
Definition on_store (f : StoreState -> StoreState) a : API R := with_store (f (store a)) a.
Definition AppendDaemonLog (line : string) a : API R :=
  mkAPI (store a) (secrets a) (golden_images a) (vmm a) (next_id a) (async_boots a) (daemon_log a ++ [line])%list
    (build_log a) (broadcasts a).
Definition AppendBuildLog (projectID line : string) a : API R :=
  mkAPI (store a) (secrets a) (golden_images a) (vmm a) (next_id a) (async_boots a) (daemon_log a)
    (build_log a ++ [(projectID, line)])%list (broadcasts a).
Definition Broadcast (kind : string) (payload : Json) a : API R :=
  mkAPI (store a) (secrets a) (golden_images a) (vmm a) (next_id a) (async_boots a) (daemon_log a) (build_log a)
    (broadcasts a ++ [(kind, payload)])%list.
Definition go_boot (vm : VM) a : API R :=
  mkAPI (store a) (secrets a) (golden_images a) (vmm a) (next_id a) (async_boots a ++ [vm])%list (daemon_log a)
    (build_log a) (broadcasts a).
Definition fresh_id a : API R * string :=
  (mkAPI (store a) (secrets a) (golden_images a) (vmm a) (Datatypes.S (next_id a)) (async_boots a) (daemon_log a)
     (build_log a) (broadcasts a), NewID w (next_id a)).

Definition get_project (id : string) a : API R * option Project :=
  let '(s, p) := GetProject id (store a) in (with_store s a, p).

Definition run_vmm (op : R -> VM -> R * option string) (vm : VM) a : API R * option string :=
  let '(r, e) := op (vmm a) vm in (with_vmm r a, e).

(** ** Images *)

(** [knownDirectImage] *)
Definition knownDirectImage a (ref : string) : bool :=
  if has_prefix ref "docker://" || has_prefix ref "oci://" || contains ref "@sha256:" then false
  else
    existsb (fun gi => (GI_Image gi ==? ref) || (GI_Name gi ==? ref)) (golden_images a) ||
    match catalog w with
    | None => false
    | Some l => existsb (fun m => (Man_Image m ==? ref) || (Man_ID m ==? ref) || (Man_Name m ==? ref)) l
    end.

Definition golden_matches (image : string) (gi : GoldenImage) : bool :=
  (GI_Image gi ==? image) || (GI_Name gi ==? image) ||
  (GI_Image gi ==? "custom://" ++ trim_prefix image "custom://").

Definition use_artifacts (rootfs kernel : string) (vcpus mem : Z) (vm : VM) : VM :=
  let vm := VM_set_Kernel kernel (VM_set_RootfsPath rootfs vm) in
  let vm := if VM_VCPUs vm =? 0 then VM_set_VCPUs vcpus vm else vm in
  if VM_MemMiB vm =? 0 then VM_set_MemMiB mem vm else vm.

(** [applyImageManifest] *)
Definition applyImageManifest a (vm : VM) : VM :=
  match find_first (golden_matches (VM_Image vm)) (golden_images a) with
  | Some gi => use_artifacts (GI_Rootfs gi) (GI_Kernel gi) (GI_VCPUs gi) (GI_MemMiB gi) vm
  | None =>
      match catalog w with
      | None => vm
      | Some l =>
          match find_first (fun m => (Man_Image m ==? VM_Image vm) || (Man_ID m ==? VM_Image vm) ||
                                     (Man_Name m ==? VM_Image vm)) l with
          | Some m => use_artifacts (Man_Rootfs m) (Man_Kernel m) (Man_VCPUs m) (Man_MemMiB m) vm
          | None => vm
          end
      end
  end.

(** ** Booting a replica *)

(** The environment map of a boot request: the project's own map object, or one
    of the request. Booting writes the secrets into the map it was given. *)
Inductive EnvMap := SharedEnv | OwnEnv (m : gmap string string).

Record createProjectReq := mkCreateReq {
  cp_Name : string; cp_Image : string; cp_GitURL : string; cp_Branch : string; cp_OrgID : string;
  cp_GroupID : string; cp_VCPUs : Z; cp_MemMiB : Z; cp_Env : EnvMap; cp_Ports : list Port; cp_Replicas : Z;
  cp_HostMountPath : string; cp_VolumeID : string; cp_Healthcheck : option Healthcheck;
  cp_RestartPolicy : string; cp_SSHEnabled : bool; cp_deployment : option Deployment }.

(** The literal the handlers build: name, image, count, environment, ports and
    the deployment, the rest zero. *)
Definition pool_req (name image : string) (replicas : Z) (env : EnvMap) (ports : list Port)
    (dep : option Deployment) : createProjectReq :=
  mkCreateReq name image "" "" "" "" 0 0 env ports replicas "" "" None "" false dep.

Definition ListSecrets a (projectID : string) : list Secret :=
  base.filter (fun s => Sec_ProjectID s = projectID /\ projectID <> "") (secrets a).

(** [%q] of a name without quotes, backslashes and control characters. *)
Definition quoted (s : string) : string :=
  String (ascii_of_nat 34) (s ++ String (ascii_of_nat 34) "").

(** [secretsEnv]: the project's environment, overridden by its readable secrets;
    unreadable ones are reported in the daemon log. *)
Definition secretsEnv (proj : Project) a : API R * gmap string string :=
  fold_left
    (fun '(a, m) sec =>
       match decryptSecret w (Sec_ValueEncrypted sec) with
       | Err e => (AppendDaemonLog ("secret " ++ quoted (Sec_Name sec) ++ " for project " ++ Proj_ID proj ++
                                    " could not be decrypted (" ++ e ++ ")") a, m)
       | Ok v => (a, <[Sec_Name sec := v]> m)
       end)
    (ListSecrets a (Proj_ID proj)) (a, Proj_Env proj).

(** The request's map with the merged environment where it has no entry. A map
    shared with the project is written through; a nil one (an empty environment,
    which is stored as nil) is replaced by a fresh map. *)
Definition replica_env (env : EnvMap) (proj : Project) (merged : gmap string string)
    : Project * gmap string string :=
  match env with
  | OwnEnv m => (proj, m ∪ merged)
  | SharedEnv =>
      let m := Proj_Env proj ∪ merged in
      (if bool_decide (Proj_Env proj = ∅) then proj else Proj_set_Env m proj, m)
  end.

Definition tag_deployment (d : Deployment) (vm : VM) : VM :=
  VM_set_GuestBase (Dep_GuestBase d) (VM_set_DeploymentEnv (Dep_Environment d)
    (VM_set_DeploymentVersion (Dep_VersionLabel d) (VM_set_DeploymentID (Dep_ID d) vm))).

Definition new_vm (now : Z) (vmID : string) (proj : Project) (req : createProjectReq) (env : gmap string string)
    (idx : Z) : VM :=
  VM_set_CreatedAt now (VM_set_VolumeID (cp_VolumeID req) (VM_set_Env env (VM_set_Ports (cp_Ports req)
    (VM_set_MemMiB (cp_MemMiB req) (VM_set_VCPUs (cp_VCPUs req) (VM_set_ReplicaIndex idx
      (VM_set_Image (cp_Image req) (VM_set_HealthStatus HealthChecking (VM_set_State StatePending
        (VM_set_ServiceName "web" (VM_set_ProjectID (Proj_ID proj) (VM_set_Name (Proj_Name proj ++ "-" ++ Itoa idx)
          (VM_set_ID vmID VM_zero))))))))))))).

Definition set_default_kernel (vm : VM) : VM :=
  match hostConfig w with
  | Some c => if VM_Kernel vm ==? "" then VM_set_Kernel (KernelImage c) vm else vm
  | None => vm
  end.

Definition failed_vm (msg : string) (vm : VM) : VM := VM_set_Error msg (VM_set_State StateFailed vm).

(** Why the prepared VM cannot be booted. *)
Definition boot_error (vm : VM) : option string :=
  if (VM_RootfsPath vm ==? "") || (VM_Kernel vm ==? "")
  then Some "direct Firecracker deploy requires a registered image with readable rootfs.ext4 and vmlinux artifacts"
  else match ValidateArtifacts w (VM_RootfsPath vm) (VM_Kernel vm) with
       | Some e => Some ("image artifact validation failed: " ++ e)
       | None => None
       end.

(** The VM [bootReplica] composes, before its artifacts are checked. *)
Definition prepared_vm (now : Z) (vmID : string) a (proj : Project) (req : createProjectReq)
    (env : gmap string string) (idx : Z) : VM :=
  let vm := new_vm now vmID proj req env idx in
  let vm := match cp_deployment req with Some d => tag_deployment d vm | None => vm end in
  set_default_kernel (applyImageManifest a vm).

(** [bootReplica]: the server, and the caller's project and deployment, which it
    updates in place. *)
Definition bootReplica (now : Z) (proj : Project) (req : createProjectReq) (idx : Z) a
    : API R * Project * option Deployment :=
  let '(a, vmID) := fresh_id a in
  let '(a, merged) := secretsEnv proj a in
  let '(proj, env) := replica_env (cp_Env req) proj merged in
  let vm := prepared_vm now vmID a proj req env idx in
  match boot_error vm with
  | Some e => (on_store (PutVM (failed_vm e vm)) a, proj, cp_deployment req)
  | None =>
      let a := on_store (PutVM vm) a in
      let '(a, proj, dep) :=
        match cp_deployment req with
        | Some d =>
            let '(d, s, _) := updateDeployment (Dep_set_VMIDs (Dep_VMIDs d ++ [vmID])%list d) (store a) in
            (with_store s a, proj, Some d)
        | None => (a, Proj_set_VMIDs (Proj_VMIDs proj ++ [vmID])%list proj, None)
        end in
      let a := go_boot vm a in
      (on_store (PutProject proj) a, proj, dep)
  end.

(** [projPorts] *)
Fixpoint first_ports (s : StoreState) (ids : list string) : list Port :=
  match ids with
  | [] => []
  | id :: ids => match Store_GetVM s id with Some vm => VM_Ports vm | None => first_ports s ids end
  end.

Definition projPorts a (proj : Project) : list Port := first_ports (store a) (Proj_VMIDs proj).

(** The loops [for i := from; i < from+n; i++ { a.bootReplica(proj, req, i) }];
    the request is built anew in each round. *)
Fixpoint boot_range (now : Z) (mkreq : API R -> Project -> createProjectReq) (from : Z) (n : nat) (proj : Project) a
    : API R * Project :=
  match n with
  | O => (a, proj)
  | Datatypes.S n =>
      let '(a, proj, _) := bootReplica now proj (mkreq a proj) from a in
      boot_range now mkreq (from + 1) n proj a
  end.

(** The same for a deployment, which the rounds share. *)
Fixpoint boot_deployment (now : Z) (mkreq : Deployment -> createProjectReq) (from : Z) (n : nat) (proj : Project)
    (d : Deployment) a : API R * Project * Deployment :=
  match n with
  | O => (a, proj, d)
  | Datatypes.S n =>
      let '(a, proj, d') := bootReplica now proj (mkreq d) from a in
      boot_deployment now mkreq (from + 1) n proj (default d d') a
  end.

(** ** Acting on replicas *)

Inductive ReplicaAction := ActStop | ActStart | ActRestart.

Definition vmm_action (act : ReplicaAction) : R -> VM -> R * option string :=
  match act with ActStop => vr_Stop | ActStart => vr_Boot | ActRestart => vr_Restart end.

Definition act_on (act : ReplicaAction) (acc : API R * Z * list string) (vmID : string) : API R * Z * list string :=
  let '(a, n, failures) := acc in
  match Store_GetVM (store a) vmID with
  | None => (a, n, (failures ++ [(vmID ++ ": replica not found")%string])%list)
  | Some vm =>
      let '(a, e) := run_vmm (vmm_action act) vm a in
      match e with
      | Some e => (a, n, (failures ++ [(vmID ++ ": " ++ e)%string])%list)
      | None => (a, n + 1, failures)
      end
  end.

(** [idxFilterAt]: the positions that pass; a negative index filters nothing. *)
Definition idxFilterAt (idx : Z) : option (Z -> bool) := if idx <? 0 then None else Some (Z.eqb idx).

Definition selected (filter : option (Z -> bool)) (ids : list string) : list string :=
  match filter with
  | None => ids
  | Some p => omap (fun '(i, id) => if p (Z.of_nat i) then Some id else None) (imap pair ids)
  end.

(** [mutateReplicas] *)
Definition mutateReplicas (projID : string) (filter : option (Z -> bool)) (act : ReplicaAction) a
    : API R * Z * list string :=
  let '(a, p) := get_project projID a in
  match p with
  | None => (a, 0, ["project not found"])
  | Some proj => fold_left (act_on act) (selected filter (Proj_VMIDs proj)) (a, 0, [])
  end.

Definition action_status (ok : Z) (n : Z) (failures : list string) : Z :=
  if negb (bool_decide (failures = [])) && (n =? 0) then 409 else ok.

(** ** Pool handlers *)

Definition handleRestartProject (projID : string) a : API R * Resp :=
  let '(a, n, failures) := mutateReplicas projID None ActRestart a in
  let a := AppendDaemonLog ("project " ++ projID ++ " restarted") a in
  (a, writeJSON (action_status 200 n failures) (JObj [("restarted", JInt n); ("failed", JStrs failures)])).

Definition handleReplicaBatchStart (projID : string) a : API R * Resp :=
  let '(a, n, failures) := mutateReplicas projID None ActStart a in
  (a, writeJSON (action_status 202 n failures) (JObj [("started", JInt n); ("failed", JStrs failures)])).

Definition handleReplicaBatchStop (projID : string) a : API R * Resp :=
  let '(a, n, failures) := mutateReplicas projID None ActStop a in
  (a, writeJSON (action_status 200 n failures) (JObj [("stopped", JInt n); ("failed", JStrs failures)])).

(** [replicaIndex]: the path parameter, -1 when it is not a number. *)
Definition replicaIndex (n : string) : Z := match Atoi n with Some z => z | None => -1 end.

Definition handleReplicaStart (projID n : string) a : API R * Resp :=
  let '(a, k, failures) := mutateReplicas projID (idxFilterAt (replicaIndex n)) ActStart a in
  (a, writeJSON (action_status 202 k failures) (JObj [("started", JBool (k =? 1)); ("failed", JStrs failures)])).

Definition handleReplicaStop (projID n : string) a : API R * Resp :=
  let '(a, k, failures) := mutateReplicas projID (idxFilterAt (replicaIndex n)) ActStop a in
  (a, writeJSON (action_status 200 k failures) (JObj [("stopped", JBool (k =? 1)); ("failed", JStrs failures)])).

Definition handleReplicaRestart (projID n : string) a : API R * Resp :=
  let '(a, k, failures) := mutateReplicas projID (idxFilterAt (replicaIndex n)) ActRestart a in
  (a, writeJSON (action_status 200 k failures) (JObj [("restarted", JBool (k =? 1)); ("failed", JStrs failures)])).

Definition action_name (act : ReplicaAction) : string :=
  match act with ActStop => "stop" | ActStart => "start" | ActRestart => "restart" end.

(** [replicaActionByID], behind the three [handleReplica...ByID]. *)
Definition replicaActionByID (act : ReplicaAction) (replicaId : string) a : API R * Resp :=
  match Store_GetVM (store a) replicaId with
  | None => (a, writeError 404 "replica not found")
  | Some vm =>
      let '(a, n, failures) := mutateReplicas (VM_ProjectID vm) (idxFilterAt (VM_ReplicaIndex vm)) act a in
      (a, writeJSON (action_status 202 n failures)
            (JObj [(action_name act ++ "ed", JBool (n =? 1)); ("failed", JStrs failures)]))
  end.

Definition handleGetScale (projID : string) a : API R * Resp :=
  let '(a, p) := get_project projID a in
  match p with
  | None => (a, writeError 404 "project not found")
  | Some proj =>
      (a, writeJSON 200 (JObj [("desired", JInt (Proj_ReplicasDesired proj));
                               ("current", JInt (Z.of_nat (List.length (Proj_VMIDs proj))));
                               ("project_id", JStr (Proj_ID proj))]))
  end.

(** Deleting or stopping the VMs of a list, results ignored. *)
Definition each_vm (op : R -> VM -> R * option string) (ids : list string) a : API R :=
  fold_left (fun a id => match Store_GetVM (store a) id with
                         | Some vm => fst (run_vmm op vm a)
                         | None => a
                         end) ids a.

(** [handleScale]; the replicas that are scaled away are stopped from the last
    one on, and leave the project's list. *)
Definition handleScale (now : Z) (projID : string) (body : result string Z) a : API R * Resp :=
  match body with
  | Err e => (a, writeError 400 ("bad request: " ++ e))
  | Ok replicas =>
      let '(a, p) := get_project projID a in
      match p with
      | None => (a, writeError 404 "project not found")
      | Some proj =>
          let want := Z.max 0 replicas in
          let cur := Z.of_nat (List.length (Proj_VMIDs proj)) in
          let '(a, proj) :=
            if cur <? want then
              boot_range now (fun a proj => pool_req (Proj_Name proj) (Proj_Image proj) 1 SharedEnv (projPorts a proj) None)
                cur (Z.to_nat (want - cur)) proj a
            else if want <? cur then
              (each_vm vr_Stop (rev (drop (Z.to_nat want) (Proj_VMIDs proj))) a,
               Proj_set_VMIDs (take (Z.to_nat want) (Proj_VMIDs proj)) proj)
            else (a, proj) in
          let proj := Proj_set_ReplicasDesired want proj in
          let a := on_store (PutProject proj) a in
          let current := JInt (Z.of_nat (List.length (Proj_VMIDs proj))) in
          let a := Broadcast "pool.updated"
                     (JObj [("project_id", JStr (Proj_ID proj)); ("desired", JInt want); ("current", current)]) a in
          (a, writeJSON 200 (JObj [("desired", JInt want); ("current", current)]))
      end
  end.

Definition handleRedeployProject (now : Z) (projID : string) a : API R * Resp :=
  let '(a, p) := get_project projID a in
  match p with
  | None => (a, writeError 404 "project not found")
  | Some proj =>
      let a := each_vm vr_Delete (Proj_VMIDs proj) a in
      let a := on_store (DeleteReplicasByProject (Proj_ID proj)) a in
      let proj := Proj_set_VMIDs [] proj in
      let '(a, proj) :=
        boot_range now (fun a proj => pool_req (Proj_Name proj) (Proj_Image proj) (Proj_ReplicasDesired proj) SharedEnv
                                        (projPorts a proj) None)
          0 (Z.to_nat (Proj_ReplicasDesired proj)) proj a in
      let a := on_store (PutProject proj) a in
      (a, writeJSON 202 (JObj [("status", JStr "redeploying"); ("project", JProject proj)]))
  end.

Definition handleDeleteProject (id : string) a : API R * Resp :=
  let '(a, p) := get_project id a in
  let a := match p with Some proj => each_vm vr_Delete (Proj_VMIDs proj) a | None => a end in
  let a := on_store (DeleteProject id) a in
  let a := AppendDaemonLog ("project " ++ id ++ " deleted") a in
  (a, writeJSON 200 (JObj [("status", JStr "deleted")])).

(** [proj.VMIDs] at an index: present when it is in range. *)
Definition vmid_at (proj : Project) (idx : Z) : option string :=
  if idx <? 0 then None else Proj_VMIDs proj !! Z.to_nat idx.

Definition handleGetReplica (projID n : string) a : API R * Resp :=
  let '(a, p) := get_project projID a in
  match p with
  | None => (a, writeError 404 "project not found")
  | Some proj =>
      match vmid_at proj (replicaIndex n) ≫= Store_GetVM (store a) with
      | None => (a, writeError 404 "replica not found")
      | Some vm => (a, writeJSON 200 (JVM vm))
      end
  end.

(** [handleReplicaDelete]: the VM is deleted on the host and leaves the list; its
    row stays. *)
Definition handleReplicaDelete (projID n : string) a : API R * Resp :=
  let '(a, p) := get_project projID a in
  match p with
  | None => (a, writeError 404 "project not found")
  | Some proj =>
      match vmid_at proj (replicaIndex n) with
      | None => (a, writeError 404 "replica not found")
      | Some id =>
          let a := each_vm vr_Delete [id] a in
          let i := Z.to_nat (replicaIndex n) in
          let proj := Proj_set_VMIDs (take i (Proj_VMIDs proj) ++ drop (Datatypes.S i) (Proj_VMIDs proj))%list proj in
          (on_store (PutProject proj) a, writeJSON 200 (JObj [("status", JStr "deleted")]))
      end
  end.

Definition handleGetVMCompat (replicaId : string) a : API R * Resp :=
  match Store_GetVM (store a) replicaId with
  | None => (a, writeError 404 "replica not found")
  | Some vm => (a, writeJSON 200 (JVM vm))
  end.

Definition handleListAllVMs a : API R * Resp :=
  (a, writeJSON 200 (JObj [("vms", JVMs (Store_ListVMs (store a)))])).

(** [handleVMCompatDelete]: host, row and list. *)
Definition handleVMCompatDelete (replicaId : string) a : API R * Resp :=
  match Store_GetVM (store a) replicaId with
  | None => (a, writeError 404 "replica not found")
  | Some vm =>
      let a := fst (run_vmm vr_Delete vm a) in
      let a := on_store (DeleteVM (VM_ID vm)) a in
      let '(a, p) := get_project (VM_ProjectID vm) a in
      let a := match p with
               | Some proj =>
                   on_store (PutProject (Proj_set_VMIDs (base.filter (fun id => id <> VM_ID vm) (Proj_VMIDs proj)) proj)) a
               | None => a
               end in
      (a, writeJSON 200 (JObj [("status", JStr "deleted")]))
  end.

Definition handlePoolStatus (projID : string) a : API R * Resp :=
  let '(a, p) := get_project projID a in
  match p with
  | None => (a, writeError 404 "project not found")
  | Some proj =>
      let healthy := base.filter (fun vm => VM_HealthStatus vm = HealthHealthy)
                       (omap (Store_GetVM (store a)) (Proj_VMIDs proj)) in
      (a, writeJSON 200 (JObj [("desired", JInt (Proj_ReplicasDesired proj));
                               ("healthy", JInt (Z.of_nat (List.length healthy))); ("draining", JInt 0);
                               ("vms", JStrs (Proj_VMIDs proj))]))
  end.
End Pool.

(** ** The project table *)

Lemma upsert_fresh {A} (key : A -> string) x l : key x ∉ (key <$> l) -> upsert key x l = (l ++ [x])%list.
Proof.
  induction l as [|y l IH]; [done|]. rewrite fmap_cons, not_elem_of_cons. intros [Hne Hl]. cbn.
  rewrite bool_decide_eq_false_2 by congruence. by rewrite IH.
Qed.

(** Names identify projects, and no stored replica count is negative. *)
Record projects_inv (s : StoreState) : Prop := {
  pi_names : forall r r', r ∈ projects s -> r' ∈ projects s ->
    Proj_Name (pr_data r) = Proj_Name (pr_data r') -> pr_id r = pr_id r';
  pi_desired : forall r, r ∈ projects s -> 0 <= Proj_ReplicasDesired (pr_data r)
}.

Lemma load_project_row s id p :
  load_project s id = Some p -> exists r, r ∈ projects s /\ pr_data r = p /\ pr_id r = id.
Proof.
  unfold load_project, row. destruct (find_first _ _) as [r|] eqn:E; [|done]. intros [= <-].
  apply find_first_In in E as [Hr Hk]. bools. by exists r.
Qed.

(** A stored project may be rewritten under its own name. *)
Lemma project_ok_update s p p0 :
  projects_inv s -> load_project s (Proj_ID p) = Some p0 -> Proj_Name p = Proj_Name p0 ->
  0 <= Proj_ReplicasDesired p -> project_ok s p = true.
Proof.
  intros Hinv (r0 & Hr0 & <- & Hid)%load_project_row Hn Hd. unfold project_ok.
  apply andb_true_iff. split; [by apply Z.leb_le|]. apply negb_true_iff, not_true_is_false.
  intros (r & Hr & Hb)%existsb_exists. apply list_elem_of_In in Hr. bools.
  assert (pr_id r = pr_id r0) by (apply (pi_names _ Hinv); congruence). congruence.
Qed.

Lemma PutProject_projects s p :
  projects (PutProject p s) =
  if project_ok s p then upsert pr_id (mkProjectRow (project_json p) (Proj_OrgID p)) (projects s) else projects s.
Proof.
  unfold PutProject, PutProject_row. change (project_ok (PutProject_cache p s) p) with (project_ok s p).
  by destruct (project_ok s p).
Qed.

Lemma PutProject_replicas s p : replicas (PutProject p s) = replicas s.
Proof. unfold PutProject, PutProject_row. by case_goal. Qed.

Lemma PutProject_deployments s p : deployments (PutProject p s) = deployments s.
Proof. unfold PutProject, PutProject_row. by case_goal. Qed.

Lemma PutProject_projects_inv s p : projects_inv s -> projects_inv (PutProject p s).
Proof.
  intros [Hn Hd]. pose proof (PutProject_projects s p) as E.
  destruct (project_ok s p) eqn:Hok.
  - unfold project_ok in Hok. bools.
    assert (Hnew : forall r, r ∈ projects s -> Proj_Name (pr_data r) = Proj_Name p -> pr_id r = Proj_ID p).
    { intros r Hr En. destruct (decide (pr_id r = Proj_ID p)) as [|Hne]; [done|]. exfalso.
      assert (Hex : existsb (fun r => (pr_id r !=? Proj_ID p) && (Proj_Name (pr_data r) ==? Proj_Name p)) (projects s) = true).
      { apply existsb_exists. exists r. split; [by apply list_elem_of_In|].
        by rewrite bool_decide_eq_false_2, bool_decide_eq_true_2. }
      congruence. }
    split; rewrite E.
    + intros r r' [->|Hr]%elem_of_upsert [->|Hr']%elem_of_upsert Enm; try done.
      * symmetry. apply Hnew; [done|]. by rewrite <- Enm.
      * by apply Hnew.
      * by apply Hn.
    + intros r [->|Hr]%elem_of_upsert; [done|by apply Hd].
  - split; rewrite E; done.
Qed.

Lemma load_PutProject s p :
  project_ok s p = true -> load_project (PutProject p s) (Proj_ID p) = Some (project_json p).
Proof.
  intros Hok. unfold load_project. rewrite PutProject_projects, Hok.
  by rewrite (row_upsert_eq pr_id (mkProjectRow (project_json p) (Proj_OrgID p))).
Qed.

Lemma project_ref_PutProject s p id : project_ref s id = true -> project_ref (PutProject p s) id = true.
Proof.
  unfold project_ref. rewrite !orb_true_iff. intros [|Hex]; [by left|]. right.
  apply existsb_exists in Hex as (r & Hr & Hk). rewrite PutProject_projects. case_goal; apply existsb_exists; [|by exists r].
  apply list_elem_of_In in Hr. bools.
  assert (Hin : id ∈ (pr_id <$> upsert pr_id (mkProjectRow (project_json p) (Proj_OrgID p)) (projects s))).
  { rewrite upsert_keys. assert (id ∈ pr_id <$> projects s) by (apply list_elem_of_fmap; by exists r).
    case_bool_decide; [done|]. apply elem_of_app. by left. }
  apply list_elem_of_fmap in Hin as (r' & -> & Hr'). exists r'. split; [by apply list_elem_of_In|].
  by apply bool_decide_eq_true_2.
Qed.

Lemma load_project_ref s id p : load_project s id = Some p -> project_ref s id = true.
Proof.
  intros (r & Hr & _ & Hid)%load_project_row. unfold project_ref. apply orb_true_iff. right.
  apply existsb_exists. exists r. split; [by apply list_elem_of_In|by apply bool_decide_eq_true_2].
Qed.

(** The replica invariant survives what shrinks the table or leaves it alone. *)
Lemma replicas_inv_sub s s' :
  replicas_inv s -> NoDup (VM_ID <$> replicas s') -> (forall v, v ∈ replicas s' -> v ∈ replicas s) ->
  (forall id, project_ref s id = true -> project_ref s' id = true) -> replicas_inv s'.
Proof.
  intros [Hid Hsl Hck Hrf] Hn Hsub Href. split; [done|..]; eauto.
Qed.

Lemma PutProject_replicas_inv s p : replicas_inv s -> replicas_inv (PutProject p s).
Proof.
  intros Hi. apply (replicas_inv_sub s); [done|rewrite PutProject_replicas; apply Hi|by rewrite PutProject_replicas|].
  intros id. apply project_ref_PutProject.
Qed.

Lemma DeleteReplicas_inv s p : replicas_inv s -> replicas_inv (DeleteReplicasByProject p s).
Proof.
  intros Hi. apply (replicas_inv_sub s); [done|by apply NoDup_fmap_filter, Hi| |done].
  by intros v [_ ?]%list_elem_of_filter.
Qed.

Lemma DeleteVM_inv s id : replicas_inv s -> replicas_inv (DeleteVM id s).
Proof.
  intros Hi. apply (replicas_inv_sub s); [done|by apply NoDup_fmap_filter, Hi| |done].
  by intros v [_ ?]%list_elem_of_filter.
Qed.

Lemma GetProject_rows id s : replica_rows (GetProject id s).1 = replica_rows s.
Proof. unfold GetProject. by repeat case_goal. Qed.

Lemma replicas_inv_rows s s' : replica_rows s' = replica_rows s -> replicas_inv s -> replicas_inv s'.
Proof.
  intros [= E Ep] Hi. apply (replicas_inv_sub s); [done|rewrite E; apply Hi|by rewrite E|].
  unfold project_ref. by rewrite Ep.
Qed.

Lemma updateDeployment_rows d s : replica_rows (updateDeployment d s).1.2 = replica_rows s.
Proof. unfold updateDeployment, CreateDeployment. by repeat case_goal. Qed.

(** ** Booting a pool *)

Section Boot.
Context {R : Type} `{VMRunner R} (w : Wiring).
Hypothesis NewID_inj : forall i j, NewID w i = NewID w j -> i = j.
Implicit Types a : API R.

(** The image resolves to artifacts that pass validation. *)
Definition image_ready a (image : string) : Prop :=
  boot_error w (set_default_kernel w (applyImageManifest w a (VM_set_Image image VM_zero))) = None.

(** Only rootfs, kernel and sizes come from the image, and only its name matters. *)
Record same_identity (vm vm' : VM) : Prop := {
  si_id : VM_ID vm' = VM_ID vm;
  si_project : VM_ProjectID vm' = VM_ProjectID vm;
  si_index : VM_ReplicaIndex vm' = VM_ReplicaIndex vm;
  si_state : VM_State vm' = VM_State vm;
  si_health : VM_HealthStatus vm' = VM_HealthStatus vm;
  si_image : VM_Image vm' = VM_Image vm;
  si_env : VM_Env vm' = VM_Env vm;
  si_ports : VM_Ports vm' = VM_Ports vm
}.

Lemma use_artifacts_identity rootfs kernel c m vm : same_identity vm (use_artifacts rootfs kernel c m vm).
Proof. unfold use_artifacts. repeat case_goal; by split. Qed.

Lemma use_artifacts_paths rootfs kernel c m vm :
  VM_RootfsPath (use_artifacts rootfs kernel c m vm) = rootfs /\ VM_Kernel (use_artifacts rootfs kernel c m vm) = kernel.
Proof. unfold use_artifacts. by repeat case_goal. Qed.

Lemma applyImageManifest_identity a vm : same_identity vm (applyImageManifest w a vm).
Proof. unfold applyImageManifest. repeat case_goal; try apply use_artifacts_identity; by split. Qed.

Lemma set_default_kernel_identity vm : same_identity vm (set_default_kernel w vm).
Proof. unfold set_default_kernel. repeat case_goal; by split. Qed.

Lemma applyImageManifest_paths a vm vm' :
  VM_Image vm = VM_Image vm' -> VM_RootfsPath vm = VM_RootfsPath vm' -> VM_Kernel vm = VM_Kernel vm' ->
  VM_RootfsPath (applyImageManifest w a vm) = VM_RootfsPath (applyImageManifest w a vm') /\
  VM_Kernel (applyImageManifest w a vm) = VM_Kernel (applyImageManifest w a vm').
Proof.
  intros Ei Er Ek. unfold applyImageManifest. rewrite Ei.
  destruct (find_first (golden_matches (VM_Image vm')) _) as [gi|].
  { split; [rewrite !(proj1 (use_artifacts_paths _ _ _ _ _))|rewrite !(proj2 (use_artifacts_paths _ _ _ _ _))]; done. }
  destruct (catalog w) as [l|]; [|done]. destruct (find_first _ l) as [m|]; [|done].
  split; [rewrite !(proj1 (use_artifacts_paths _ _ _ _ _))|rewrite !(proj2 (use_artifacts_paths _ _ _ _ _))]; done.
Qed.

Lemma boot_error_paths vm vm' :
  VM_RootfsPath vm = VM_RootfsPath vm' -> VM_Kernel vm = VM_Kernel vm' ->
  boot_error w (set_default_kernel w vm) = boot_error w (set_default_kernel w vm').
Proof.
  intros Er Ek. unfold boot_error, set_default_kernel. destruct (hostConfig w); [|by rewrite Er, Ek].
  rewrite Ek. case_goal; cbn; by rewrite Er, ?Ek.
Qed.

Lemma image_ready_boots a vm :
  image_ready a (VM_Image vm) -> VM_RootfsPath vm = "" -> VM_Kernel vm = "" ->
  boot_error w (set_default_kernel w (applyImageManifest w a vm)) = None.
Proof.
  intros Hr E1 E2. unfold image_ready in Hr.
  destruct (applyImageManifest_paths a vm (VM_set_Image (VM_Image vm) VM_zero)) as [Ea Eb]; [done..|].
  by rewrite (boot_error_paths _ _ Ea Eb).
Qed.

Lemma image_ready_ext a a' img : golden_images a' = golden_images a -> image_ready a img -> image_ready a' img.
Proof. intros E. unfold image_ready, applyImageManifest. by rewrite E. Qed.

(** What the preparation of a boot leaves alone. *)
Record same_tables a a' : Prop := {
  st_store : store a' = store a;
  st_images : golden_images a' = golden_images a;
  st_next : next_id a' = next_id a;
  st_async : async_boots a' = async_boots a
}.

Lemma secretsEnv_frame proj a : same_tables a (secretsEnv w proj a).1.
Proof.
  unfold secretsEnv. match goal with |- context [fold_left ?F _ _] => set (f := F) end.
  assert (Hg : forall l b m, same_tables a b -> same_tables a (fold_left f l (b, m)).1); [|by apply Hg].
  induction l as [|sec l IH]; intros b m Hb; [done|]. cbn [fold_left]. unfold f at 2.
  destruct (decryptSecret w (Sec_ValueEncrypted sec)); apply IH; [done|]. by destruct Hb.
Qed.

(** A row of a fresh pool: the [k]-th identifier, at replica index [idx]. *)
Record pool_row (proj : Project) (k : nat) (idx : Z) (vm : VM) : Prop := {
  row_id : VM_ID vm = NewID w k;
  row_project : VM_ProjectID vm = Proj_ID proj;
  row_index : VM_ReplicaIndex vm = idx;
  row_state : VM_State vm = StatePending;
  row_health : VM_HealthStatus vm = HealthChecking;
  row_image : VM_Image vm = Proj_Image proj
}.

(** The parts of a project a boot does not change. *)
Record same_project (p p' : Project) : Prop := {
  sp_id : Proj_ID p' = Proj_ID p;
  sp_name : Proj_Name p' = Proj_Name p;
  sp_image : Proj_Image p' = Proj_Image p;
  sp_desired : Proj_ReplicasDesired p' = Proj_ReplicasDesired p
}.

Lemma replica_env_project env proj merged :
  same_project proj (replica_env env proj merged).1 /\ Proj_VMIDs (replica_env env proj merged).1 = Proj_VMIDs proj.
Proof. destruct env; cbn; [case_goal|]; by repeat split. Qed.

Lemma bootReplica_ok now proj req idx a :
  cp_deployment req = None -> cp_Image req = Proj_Image proj -> image_ready a (Proj_Image proj) ->
  exists vm a' proj', bootReplica w now proj req idx a = (a', proj', None) /\
    store a' = PutProject proj' (PutVM vm (store a)) /\ pool_row proj (next_id a) idx vm /\
    VM_Ports vm = cp_Ports req /\ async_boots a' = (async_boots a ++ [vm])%list /\
    golden_images a' = golden_images a /\ next_id a' = Datatypes.S (next_id a) /\
    same_project proj proj' /\ Proj_VMIDs proj' = (Proj_VMIDs proj ++ [NewID w (next_id a)])%list.
Proof.
  intros Hd Hi Hr. unfold bootReplica. cbn [fresh_id].
  set (a1 := mkAPI _ _ _ _ _ _ _ _ _). destruct (secretsEnv w proj a1) as [a2 merged] eqn:Es.
  pose proof (secretsEnv_frame proj a1) as Hf. rewrite Es in Hf. cbn [fst] in Hf. destruct Hf as [F1 F2 F3 F4].
  destruct (replica_env (cp_Env req) proj merged) as [proj1 env] eqn:Ee.
  pose proof (replica_env_project (cp_Env req) proj merged) as [[P1 P2 P3 P4] P5]. rewrite Ee in *. cbn [fst] in *.
  unfold prepared_vm. rewrite Hd. set (vm0 := new_vm _ _ _ _ _ _).
  pose proof (applyImageManifest_identity a2 vm0) as [].
  pose proof (set_default_kernel_identity (applyImageManifest w a2 vm0)) as [].
  rewrite image_ready_boots; [|by apply (image_ready_ext a); [|rewrite <- Hi in Hr]|done|done].
  set (vm := set_default_kernel w _) in *.
  eexists vm, _, _. split; [reflexivity|]. cbn. rewrite F1, F2, F3, F4, P5. repeat split; try done; cbn in *; congruence.
Qed.

(** What has to hold for the next replica, at index [from], to be stored. *)
Record pool_ready a (proj : Project) (from : Z) : Prop := {
  rd_replicas : replicas_inv (store a);
  rd_projects : projects_inv (store a);
  rd_stored : exists p0, load_project (store a) (Proj_ID proj) = Some p0 /\ Proj_Name p0 = Proj_Name proj;
  rd_id : Proj_ID proj <> "";
  rd_desired : 0 <= Proj_ReplicasDesired proj;
  rd_slots : forall vm, vm ∈ replicas (store a) -> VM_ProjectID vm = Proj_ID proj -> VM_ReplicaIndex vm < from;
  rd_fresh : forall k, (next_id a <= k)%nat -> NewID w k ∉ (VM_ID <$> replicas (store a));
  rd_vmids : forall k, (next_id a <= k)%nat -> NewID w k ∉ Proj_VMIDs proj;
  rd_image : image_ready a (Proj_Image proj)
}.

Lemma pool_row_ok a proj from vm :
  pool_ready a proj from -> pool_row proj (next_id a) from vm -> replica_ok (store a) vm = true.
Proof.
  intros Hr Hv. unfold replica_ok. rewrite (row_state _ _ _ _ Hv), (row_health _ _ _ _ Hv).
  rewrite !bool_decide_eq_true_2 by in_list. destruct (rd_stored _ _ _ Hr) as (p0 & Hp0 & _).
  rewrite (row_project _ _ _ _ Hv), (load_project_ref _ _ _ Hp0), andb_true_r.
  apply negb_true_iff, not_true_is_false. intros (r & Hin & Hb)%existsb_exists. apply list_elem_of_In in Hin. bools.
  rewrite (row_project _ _ _ _ Hv) in *. rewrite (row_index _ _ _ _ Hv) in *.
  pose proof (rd_slots _ _ _ Hr r Hin ltac:(done)). lia.
Qed.

Lemma PutVM_append s vm :
  replica_ok s vm = true -> VM_ID vm ∉ (VM_ID <$> replicas s) -> replicas (PutVM vm s) = (replicas s ++ [vm])%list.
Proof. intros Hok Hn. unfold PutVM. rewrite Hok. cbn. by apply upsert_fresh. Qed.

Lemma GetVM_append s s' vm id :
  replicas s' = (replicas s ++ [vm])%list -> VM_ID vm <> id -> Store_GetVM s' id = Store_GetVM s id.
Proof.
  intros E Hne. unfold Store_GetVM, row. rewrite E. clear E. induction (replicas s) as [|r l IH]; cbn.
  - by rewrite bool_decide_eq_false_2.
  - by rewrite IH.
Qed.

Lemma GetVM_append_new s s' vm :
  replicas s' = (replicas s ++ [vm])%list -> VM_ID vm ∉ (VM_ID <$> replicas s) -> Store_GetVM s' (VM_ID vm) = Some vm.
Proof.
  intros E. unfold Store_GetVM, row. rewrite E. clear E. induction (replicas s) as [|r l IH]; cbn.
  - intros _. by rewrite bool_decide_eq_true_2.
  - rewrite not_elem_of_cons. intros [Hne Hl]. rewrite bool_decide_eq_false_2 by congruence. by apply IH.
Qed.

(** A replica booted with the pool's ports does not change them. *)
Lemma first_ports_append s s' vm ids :
  replicas s' = (replicas s ++ [vm])%list -> VM_ID vm ∉ (VM_ID <$> replicas s) -> VM_ID vm ∉ ids ->
  VM_Ports vm = first_ports s ids -> first_ports s' (ids ++ [VM_ID vm]) = first_ports s ids.
Proof.
  intros E Hn. induction ids as [|i ids IH]; cbn.
  - intros _ Hp. by rewrite (GetVM_append_new s s' vm).
  - rewrite not_elem_of_cons. intros [Hi Hids] Hp. rewrite (GetVM_append s s' vm) by done.
    destruct (Store_GetVM s i); [done|by apply IH].
Qed.

(** One replica of the pool: its row is added and everything is ready for the next. *)
Lemma bootReplica_step now proj req from a :
  cp_deployment req = None -> cp_Image req = Proj_Image proj -> pool_ready a proj from ->
  exists vm a' proj', bootReplica w now proj req from a = (a', proj', None) /\
    replicas (store a') = (replicas (store a) ++ [vm])%list /\ pool_row proj (next_id a) from vm /\
    VM_Ports vm = cp_Ports req /\ (cp_Ports req = projPorts a proj -> projPorts a' proj' = projPorts a proj) /\
    next_id a' = Datatypes.S (next_id a) /\ same_project proj proj' /\
    Proj_VMIDs proj' = (Proj_VMIDs proj ++ [VM_ID vm])%list /\ pool_ready a' proj' (from + 1) /\
    load_project (store a') (Proj_ID proj') = Some (project_json proj').
Proof.
  intros Hd Hi Hr. destruct (bootReplica_ok now proj req from a Hd Hi (rd_image _ _ _ Hr))
    as (vm & a' & proj' & E & Es & Hrow & Hports & _ & Hgi & Hnx & [S1 S2 S3 S4] & Hids).
  pose proof (pool_row_ok _ _ _ _ Hr Hrow) as Hok.
  assert (Hfr : VM_ID vm ∉ (VM_ID <$> replicas (store a))).
  { rewrite (row_id _ _ _ _ Hrow). by apply (rd_fresh _ _ _ Hr). }
  assert (Hrep : replicas (store a') = (replicas (store a) ++ [vm])%list)
    by (rewrite Es, PutProject_replicas; by apply PutVM_append).
  assert (Hpr : projects (PutVM vm (store a)) = projects (store a)) by (unfold PutVM; by rewrite Hok).
  destruct (rd_stored _ _ _ Hr) as (p0 & Hp0 & Hn0).
  assert (Hp0' : load_project (PutVM vm (store a)) (Proj_ID proj') = Some p0)
    by (unfold load_project in *; by rewrite Hpr, S1).
  assert (Hpi : projects_inv (PutVM vm (store a))) by (destruct (rd_projects _ _ _ Hr); split; by rewrite Hpr).
  assert (Hpok : project_ok (PutVM vm (store a)) proj' = true).
  { eapply project_ok_update; [done|exact Hp0'|congruence|]. rewrite S4. apply (rd_desired _ _ _ Hr). }
  rewrite <- (row_id _ _ _ _ Hrow) in Hids.
  exists vm, a', proj'. split_and!; try done.
  - intros Hpt. unfold projPorts. rewrite Hids. apply (first_ports_append (store a)); [done..| |by rewrite Hports, Hpt].
    rewrite (row_id _ _ _ _ Hrow). by apply (rd_vmids _ _ _ Hr).
  - split.
    + rewrite Es. apply PutProject_replicas_inv, PutVM_inv, Hr.
    + rewrite Es. by apply PutProject_projects_inv.
    + exists (project_json proj'). split; [rewrite Es; by apply load_PutProject|done].
    + rewrite S1. apply Hr.
    + rewrite S4. apply Hr.
    + intros v. rewrite Hrep, S1. intros [Hv| ->%list_elem_of_singleton]%elem_of_app Hp.
      * pose proof (rd_slots _ _ _ Hr v Hv Hp). lia.
      * rewrite (row_index _ _ _ _ Hrow). lia.
    + intros k Hk. rewrite Hrep, fmap_app, not_elem_of_app. split; [apply (rd_fresh _ _ _ Hr); lia|].
      intros Hv%list_elem_of_singleton. rewrite (row_id _ _ _ _ Hrow) in Hv. apply NewID_inj in Hv. lia.
    + intros k Hk. rewrite Hids, not_elem_of_app. split; [apply (rd_vmids _ _ _ Hr); lia|].
      intros Hv%list_elem_of_singleton. rewrite (row_id _ _ _ _ Hrow) in Hv. apply NewID_inj in Hv. lia.
    + rewrite S3. apply (image_ready_ext a); [done|apply Hr].
  - rewrite Es. by apply load_PutProject.
Qed.

(** The rows [bootReplica] adds for indices [from], [from+1], ... *)
Inductive pool_rows (proj : Project) (ports : list Port) : nat -> Z -> list VM -> Prop :=
| rows_nil k from : pool_rows proj ports k from []
| rows_cons k from vm vms : pool_row proj k from vm -> VM_Ports vm = ports ->
    pool_rows proj ports (Datatypes.S k) (from + 1) vms -> pool_rows proj ports k from (vm :: vms).

Lemma same_project_trans p q r : same_project p q -> same_project q r -> same_project p r.
Proof. intros [] []. split; congruence. Qed.

Lemma pool_rows_project p q ports k from vms :
  same_project p q -> pool_rows q ports k from vms -> pool_rows p ports k from vms.
Proof.
  intros [S1 _ S3 _]. induction 1 as [|k from vm vms [] Hpt Hrows IH]; constructor; try done.
  split; congruence.
Qed.

(** A pool booted with given ports, or with those the pool already has. *)
Lemma boot_range_pool ports now mkreq n from proj a :
  (forall b q, same_project proj q -> cp_deployment (mkreq b q) = None /\ cp_Image (mkreq b q) = Proj_Image q /\
               cp_Ports (mkreq b q) = default (projPorts b q) ports) ->
  pool_ready a proj from ->
  exists vms a' proj', boot_range w now mkreq from n proj a = (a', proj') /\ List.length vms = n /\
    replicas (store a') = (replicas (store a) ++ vms)%list /\
    pool_rows proj (default (projPorts a proj) ports) (next_id a) from vms /\ same_project proj proj' /\
    Proj_VMIDs proj' = (Proj_VMIDs proj ++ (VM_ID <$> vms))%list /\ pool_ready a' proj' (from + Z.of_nat n) /\
    (n <> 0%nat -> load_project (store a') (Proj_ID proj') = Some (project_json proj')).
Proof.
  revert from proj a. induction n as [|n IH]; intros from proj a Hreq Hr.
  - exists [], a, proj. rewrite !app_nil_r, Z.add_0_r. split_and!; try done; constructor.
  - destruct (Hreq a proj) as (R1 & R2 & R3); [by split|].
    destruct (bootReplica_step now proj (mkreq a proj) from a R1 R2 Hr)
      as (vm & a1 & proj1 & E1 & Hrep1 & Hrow & Hp1 & Hpp & Hn1 & Hs1 & Hv1 & Hr1 & Hl1).
    destruct (IH (from + 1) proj1 a1) as (vms & a' & proj' & E & Hl & Hrep & Hrows & Hs & Hv & Hr' & Hld);
      [intros b q Hq; apply Hreq; by eapply same_project_trans|done|].
    exists (vm :: vms), a', proj'. cbn [boot_range]. rewrite E1, E. split_and!; try done.
    + cbn. by rewrite Hl.
    + rewrite Hrep, Hrep1. by rewrite <- app_assoc.
    + constructor; [done|congruence|]. rewrite Hn1 in Hrows. apply (pool_rows_project _ proj1); [done|].
      destruct ports; [done|]. cbn in *. by rewrite Hpp in Hrows.
    + by eapply same_project_trans.
    + rewrite Hv, Hv1, <- app_assoc. done.
    + by rewrite Nat2Z.inj_succ, <- Z.add_1_l, Z.add_assoc.
    + intros _. destruct n as [|n]; [|by apply Hld]. cbn in E. by injection E as <- <-.
Qed.

Lemma each_vm_frame op ids a : same_tables a (each_vm op ids a).
Proof.
  unfold each_vm. assert (Hg : forall b, same_tables a b -> same_tables a
    (fold_left (fun a id => match Store_GetVM (store a) id with Some vm => fst (run_vmm op vm a) | None => a end) ids b));
    [|by apply Hg].
  induction ids as [|i ids IH]; intros b Hb; [done|]. cbn [fold_left]. apply IH.
  destruct (Store_GetVM (store b) i); [|done]. unfold run_vmm. destruct (op (vmm b) _) as [r e]. by destruct Hb.
Qed.

(** The read of a project through a coherent cache. *)
Lemma get_project_loaded id a proj :
  coherent (store a) -> load_project (store a) id = Some proj ->
  exists s, get_project id a = (with_store s a, Some proj) /\ replica_rows s = replica_rows (store a).
Proof.
  intros Hc Hl. pose proof (GetProject_rows id (store a)) as Hrows.
  unfold get_project. destruct (GetProject id (store a)) as [s o] eqn:E. exists s. split; [|done].
  f_equal. unfold GetProject in E. destruct (project_cache (store a) !! id) as [q|] eqn:Ec.
  - injection E as _ <-. apply Hc in Ec. congruence.
  - rewrite Hl in E. by injection E as _ <-.
Qed.

Lemma load_project_id s id p : load_project s id = Some p -> Proj_ID p = id.
Proof. intros (r & _ & <- & <-)%load_project_row. done. Qed.

Lemma replica_rows_load s s' id : replica_rows s' = replica_rows s -> load_project s' id = load_project s id.
Proof. intros [= _ E]. unfold load_project. by rewrite E. Qed.

Lemma projects_inv_rows s s' : projects s' = projects s -> projects_inv s -> projects_inv s'.
Proof. intros E []. split; by rewrite E. Qed.

(** What the handlers below start from: a well-formed store, a stored project whose
    image is bootable, and identifiers that are new. *)
Record pool_server a (id : string) (proj : Project) : Prop := {
  ps_replicas : replicas_inv (store a);
  ps_projects : projects_inv (store a);
  ps_coherent : coherent (store a);
  ps_stored : load_project (store a) id = Some proj;
  ps_id : id <> "";
  ps_fresh : forall k, (next_id a <= k)%nat -> NewID w k ∉ (VM_ID <$> replicas (store a));
  ps_vmids : forall k, (next_id a <= k)%nat -> NewID w k ∉ Proj_VMIDs proj;
  ps_image : image_ready a (Proj_Image proj)
}.

Lemma pool_server_desired a id proj : pool_server a id proj -> 0 <= Proj_ReplicasDesired proj.
Proof.
  intros Hs. destruct (load_project_row _ _ _ (ps_stored _ _ _ Hs)) as (r & Hr & <- & _).
  by apply (pi_desired _ (ps_projects _ _ _ Hs)).
Qed.

(** C14: A redeploy replaces the pool. The project's rows become exactly the desired
    number of fresh pending replicas of its image at indices 0, 1, ..., the project
    lists exactly those, and no other project's replica is touched. The new
    replicas have no port mappings, since the ports are read off the pool after it
    was removed. *)
Theorem handleRedeployProject_spec now id a proj :
  pool_server a id proj ->
  exists vms a' r p', handleRedeployProject w now id a = (a', r) /\ r_status r = 202 /\
    Z.of_nat (List.length vms) = Proj_ReplicasDesired proj /\ pool_rows proj [] (next_id a) 0 vms /\
    replicas (store a') = (base.filter (fun vm => ~ (VM_ProjectID vm = id /\ id <> "")) (replicas (store a)) ++ vms)%list /\
    load_project (store a') id = Some p' /\ Proj_VMIDs p' = VM_ID <$> vms /\
    replicas_inv (store a') /\ projects_inv (store a').
Proof.
  intros Hs. pose proof (pool_server_desired _ _ _ Hs) as Hd. pose proof (load_project_id _ _ _ (ps_stored _ _ _ Hs)) as Hid.
  unfold handleRedeployProject.
  destruct (get_project_loaded id a proj (ps_coherent _ _ _ Hs) (ps_stored _ _ _ Hs)) as (s0 & -> & Hrows).
  destruct (each_vm_frame vr_Delete (Proj_VMIDs proj) (with_store s0 a)) as [F1 F2 F3 _].
  set (a1 := each_vm vr_Delete (Proj_VMIDs proj) (with_store s0 a)) in *. cbn in F1, F2, F3.
  set (a2 := on_store _ a1). set (p1 := Proj_set_VMIDs [] proj).
  injection Hrows as E1 E2.
  assert (Hrep : replicas (store a2) = base.filter (fun vm => ~ (VM_ProjectID vm = id /\ id <> "")) (replicas (store a))).
  { unfold a2. cbn. by rewrite F1, E1, Hid. }
  assert (Hpr : projects (store a2) = projects (store a)) by (unfold a2; cbn; by rewrite F1, E2).
  assert (Hr : pool_ready a2 p1 0).
  { split.
    - unfold a2. apply DeleteReplicas_inv. rewrite F1. apply (replicas_inv_rows (store a)); [|apply Hs].
      unfold replica_rows. by rewrite E1, E2.
    - apply (projects_inv_rows (store a)); [done|apply Hs].
    - exists proj. split; [|done]. change (Proj_ID p1) with (Proj_ID proj). rewrite Hid. unfold load_project.
      rewrite Hpr. exact (ps_stored _ _ _ Hs).
    - change (Proj_ID p1) with (Proj_ID proj). rewrite Hid. apply Hs.
    - done.
    - intros vm. rewrite Hrep. change (Proj_ID p1) with (Proj_ID proj). rewrite Hid. intros [Hne _]%list_elem_of_filter Hp.
      destruct Hne. split; [done|apply Hs].
    - intros k Hk Hin. rewrite Hrep in Hin. change (next_id a2) with (next_id a1) in Hk. rewrite F3 in Hk. apply (ps_fresh _ _ _ Hs k Hk).
      apply list_elem_of_fmap in Hin as (v & -> & [_ Hv]%list_elem_of_filter). apply list_elem_of_fmap. by exists v.
    - intros k _ Hk. by apply elem_of_nil in Hk.
    - apply (image_ready_ext a); [done|apply Hs]. }
  edestruct (boot_range_pool None now (fun a proj => pool_req (Proj_Name proj) (Proj_Image proj) (Proj_ReplicasDesired proj)
      SharedEnv (projPorts a proj) None) (Z.to_nat (Proj_ReplicasDesired p1)) 0 p1 a2)
    as (vms & a' & p' & E & Hl & Hrep' & Hrow & [S1 S2 S3 S4] & Hv & Hr' & _); [done|done|]. rewrite E.
  destruct (rd_stored _ _ _ Hr') as (p0 & Hp0 & Hn0).
  assert (Hok : project_ok (store a') p' = true).
  { eapply project_ok_update; [apply Hr'|exact Hp0|done|apply Hr']. }
  eexists vms, _, _, (project_json p'). split; [reflexivity|]. cbn. rewrite PutProject_replicas. split_and!; try done.
  - rewrite Hl. cbn. lia.
  - change (next_id a2) with (next_id a1) in Hrow. rewrite F3 in Hrow. by apply (pool_rows_project _ p1).
  - by rewrite Hrep', Hrep.
  - rewrite <- Hid. cbn in S1. rewrite <- S1. by apply load_PutProject.
  - apply PutProject_replicas_inv, Hr'.
  - apply PutProject_projects_inv, Hr'.
Qed.

(** Storing the resized project under its old name ends every branch. *)
Lemma resize_stored s id p0 p want :
  replicas_inv s -> projects_inv s -> load_project s id = Some p0 -> Proj_ID p = id -> Proj_Name p = Proj_Name p0 ->
  0 <= want ->
  let p' := Proj_set_ReplicasDesired want p in
  replicas (PutProject p' s) = replicas s /\ load_project (PutProject p' s) id = Some (project_json p') /\
  replicas_inv (PutProject p' s) /\ projects_inv (PutProject p' s).
Proof.
  intros Hr Hi Hl Hid Hn Hw p'. split; [apply PutProject_replicas|]. split; [|split].
  - rewrite <- Hid. change (Proj_ID p) with (Proj_ID p'). apply load_PutProject.
    apply (project_ok_update _ _ p0); [done|change (Proj_ID p') with (Proj_ID p); by rewrite Hid|done|done].
  - by apply PutProject_replicas_inv.
  - by apply PutProject_projects_inv.
Qed.

Lemma pool_server_ready a id proj s0 from :
  pool_server a id proj -> replica_rows s0 = replica_rows (store a) ->
  (forall vm, vm ∈ replicas (store a) -> VM_ProjectID vm = id -> VM_ReplicaIndex vm < from) ->
  pool_ready (with_store s0 a) proj from.
Proof.
  intros Hs Hrows Hidx. pose proof (load_project_id _ _ _ (ps_stored _ _ _ Hs)) as Hid.
  pose proof Hrows as Hrows'. injection Hrows' as E1 E2. split; cbn; try done.
  - apply (replicas_inv_rows (store a)); [done|apply Hs].
  - apply (projects_inv_rows (store a)); [done|apply Hs].
  - exists proj. rewrite Hid, (replica_rows_load _ _ _ Hrows). split; [exact (ps_stored _ _ _ Hs)|done].
  - rewrite Hid. apply Hs.
  - by apply (pool_server_desired a id).
  - intros vm. rewrite E1, Hid. apply Hidx.
  - rewrite E1. apply (ps_fresh _ _ _ Hs).
  - apply (ps_vmids _ _ _ Hs).
  - apply (image_ready_ext a); [done|apply Hs].
Qed.

Lemma first_ports_rows s s' ids : replicas s' = replicas s -> first_ports s' ids = first_ports s ids.
Proof. intros E. induction ids as [|i ids IH]; cbn; [done|]. unfold Store_GetVM, row. rewrite E. by case_goal. Qed.

(** Scaling sets the pool's size. When the pool's replica indices are below its
    length, scaling to [n] answers with that size, keeps the first replicas and
    adds fresh pending ones at the next indices with the pool's ports; a negative
    [n] counts as zero. *)
Theorem handleScale_spec now id n a proj :
  pool_server a id proj ->
  (forall vm, vm ∈ replicas (store a) -> VM_ProjectID vm = id ->
     VM_ReplicaIndex vm < Z.of_nat (List.length (Proj_VMIDs proj))) ->
  let cur := Z.of_nat (List.length (Proj_VMIDs proj)) in
  let want := Z.max 0 n in
  exists vms a' p',
    handleScale w now id (Ok n) a = (a', writeJSON 200 (JObj [("desired", JInt want); ("current", JInt want)])) /\
    Z.of_nat (List.length vms) = Z.max 0 (want - cur) /\
    pool_rows proj (projPorts a proj) (next_id a) cur vms /\
    replicas (store a') = (replicas (store a) ++ vms)%list /\
    load_project (store a') id = Some p' /\ Proj_ReplicasDesired p' = want /\
    Proj_VMIDs p' = (take (Z.to_nat want) (Proj_VMIDs proj) ++ (VM_ID <$> vms))%list /\
    replicas_inv (store a') /\ projects_inv (store a').
Proof.
  intros Hs Hidx cur want. pose proof (load_project_id _ _ _ (ps_stored _ _ _ Hs)) as Hid.
  unfold handleScale. destruct (get_project_loaded id a proj (ps_coherent _ _ _ Hs) (ps_stored _ _ _ Hs)) as (s0 & -> & Hrows).
  fold cur want. pose proof (pool_server_ready a id proj s0 cur Hs Hrows Hidx) as Hr.
  destruct (rd_stored _ _ _ Hr) as (p0 & Hp0 & Hn0). rewrite Hid in Hp0. injection Hrows as E1 _.
  destruct (Z.ltb_spec cur want) as [Hup|Hle]; [|destruct (Z.ltb_spec want cur) as [Hdn|Heq]].
  - edestruct (boot_range_pool None now (fun a proj => pool_req (Proj_Name proj) (Proj_Image proj) 1 SharedEnv
        (projPorts a proj) None) (Z.to_nat (want - cur)) cur proj (with_store s0 a))
      as (vms & a' & p1 & E & Hl & Hrep & Hrow & [S1 S2 S3 S4] & Hv & Hr' & _); [done|done|]. rewrite E.
    destruct (rd_stored _ _ _ Hr') as (p2 & Hp2 & Hn2). rewrite S1, Hid in Hp2.
    destruct (resize_stored (store a') id p2 p1 want) as (T1 & T2 & T3 & T4); [apply Hr'..|done|congruence|congruence|lia|].
    assert (Hlen : Z.of_nat (List.length (Proj_VMIDs p1)) = want).
    { rewrite Hv, length_app, length_fmap, Hl. unfold cur in *. lia. }
    exists vms. eexists _, _. split; [cbn; rewrite Hlen; reflexivity|]. split_and!; try done.
    + rewrite Hl. lia.
    + unfold projPorts in *. cbn in Hrow. by rewrite (first_ports_rows (store a)) in Hrow.
    + cbn. rewrite T1, Hrep. cbn. by rewrite E1.
    + cbn. rewrite Hv, take_ge; [done|]. unfold cur in *. lia.
  - destruct (each_vm_frame vr_Stop (rev (drop (Z.to_nat want) (Proj_VMIDs proj))) (with_store s0 a)) as [F1 _ _ _].
    destruct (resize_stored s0 id p0 (Proj_set_VMIDs (take (Z.to_nat want) (Proj_VMIDs proj)) proj) want)
      as (T1 & T2 & T3 & T4); [apply Hr..|done|done|done|lia|].
    exists []. eexists _, _. split; [|split; [cbn; lia|]; split; [constructor|]].
    + cbn. rewrite length_take. replace (Z.of_nat (Z.to_nat want `min` List.length (Proj_VMIDs proj))%nat) with want
        by (unfold cur in *; lia). reflexivity.
    + cbn in F1 |- *. rewrite F1, T1, !app_nil_r. split_and!; [done|exact T2|done..].
  - destruct (resize_stored s0 id p0 proj want) as (T1 & T2 & T3 & T4); [apply Hr..|done|done|done|lia|].
    exists []. eexists _, _. split; [|split; [cbn; lia|]; split; [constructor|]].
    + cbn. fold cur. replace cur with want by lia. reflexivity.
    + cbn. rewrite T1, !app_nil_r. split_and!; [done|exact T2|done| |done..].
      cbn. rewrite take_ge; [done|]. unfold cur in *. lia.
Qed.
End Boot.

(** ** Every pool operation keeps the store well formed *)

Definition store_wf (s : StoreState) : Prop := replicas_inv s /\ projects_inv s.

Lemma wf_PutVM vm s : store_wf s -> store_wf (PutVM vm s).
Proof.
  intros [Hr Hp]. split; [by apply PutVM_inv|]. apply (projects_inv_rows s); [|done]. unfold PutVM. by case_goal.
Qed.

Lemma wf_PutProject p s : store_wf s -> store_wf (PutProject p s).
Proof. intros [Hr Hp]. split; [by apply PutProject_replicas_inv|by apply PutProject_projects_inv]. Qed.

Lemma wf_rows s s' : replica_rows s' = replica_rows s -> store_wf s -> store_wf s'.
Proof.
  intros E [Hr Hp]. split; [by apply (replicas_inv_rows s)|]. injection E as _ E. by apply (projects_inv_rows s).
Qed.

Lemma wf_updateDeployment d s : store_wf s -> store_wf (updateDeployment d s).1.2.
Proof. apply wf_rows, updateDeployment_rows. Qed.

Lemma wf_DeleteReplicas p s : store_wf s -> store_wf (DeleteReplicasByProject p s).
Proof. intros [Hr Hp]. split; [by apply DeleteReplicas_inv|by apply (projects_inv_rows s)]. Qed.

Lemma wf_DeleteVM id s : store_wf s -> store_wf (DeleteVM id s).
Proof. intros [Hr Hp]. split; [by apply DeleteVM_inv|by apply (projects_inv_rows s)]. Qed.

Lemma wf_DeleteProject id s : store_wf s -> store_wf (DeleteProject id s).
Proof.
  intros [Hr [Hn Hd]]. split; [by apply DeleteProject_inv|]. split; cbn.
  - intros r r' [_ Hr1]%list_elem_of_filter [_ Hr2]%list_elem_of_filter. by apply Hn.
  - intros r [_ Hr1]%list_elem_of_filter. by apply Hd.
Qed.

Create HintDb pool.
#[export] Hint Resolve wf_PutVM wf_PutProject wf_updateDeployment wf_DeleteReplicas wf_DeleteVM wf_DeleteProject : pool.

Section PoolOps.
Context {R : Type} `{VMRunner R} (w : Wiring).
Implicit Types a : API R.

Lemma wf_get_project id a : store_wf (store a) -> store_wf (store (get_project id a).1).
Proof.
  intros Hw. unfold get_project. pose proof (GetProject_rows id (store a)) as E.
  destruct (GetProject id (store a)) as [s o]. by apply (wf_rows (store a)).
Qed.

Lemma wf_tables a a' : same_tables a a' -> store_wf (store a) -> store_wf (store a').
Proof. intros [-> _ _ _]. done. Qed.

Lemma wf_each_vm op ids a : store_wf (store a) -> store_wf (store (each_vm op ids a)).
Proof. apply wf_tables, each_vm_frame. Qed.

Lemma wf_bootReplica now proj req idx a :
  store_wf (store a) -> store_wf (store (bootReplica w now proj req idx a).1.1).
Proof.
  intros Hw. unfold bootReplica. cbn [fresh_id]. set (a1 := mkAPI _ _ _ _ _ _ _ _ _).
  pose proof (secretsEnv_frame w proj a1) as [F1 _ _ _]. destruct (secretsEnv w proj a1) as [a2 merged]. cbn in F1.
  destruct (replica_env _ _ _) as [proj1 env]. destruct (boot_error w _).
  { cbn. rewrite F1. by apply wf_PutVM. }
  destruct (cp_deployment req) as [d|]; [|cbn; rewrite F1; auto with pool].
  destruct (updateDeployment _ _) as [[d' s'] e] eqn:E. cbn. apply wf_PutProject.
  replace s' with (updateDeployment (Dep_set_VMIDs (Dep_VMIDs d ++ [NewID w (next_id a)])%list d)
    (store (on_store (PutVM (prepared_vm w now (NewID w (next_id a)) a2 proj1 req env idx)) a2))).1.2 by (by rewrite E).
  apply wf_updateDeployment. cbn. rewrite F1. by apply wf_PutVM.
Qed.

Lemma wf_boot_range now mkreq from n proj a :
  store_wf (store a) -> store_wf (store (boot_range w now mkreq from n proj a).1).
Proof.
  revert from proj a. induction n as [|n IH]; intros from proj a Hw; [done|]. cbn [boot_range].
  pose proof (wf_bootReplica now proj (mkreq a proj) from a Hw) as H1.
  destruct (bootReplica w now proj _ from a) as [[a1 p1] d1]. by apply IH.
Qed.

Lemma wf_mutateReplicas id f act a : store_wf (store a) -> store_wf (store (mutateReplicas id f act a).1.1).
Proof.
  intros Hw. unfold mutateReplicas. pose proof (wf_get_project id a Hw) as H1.
  destruct (get_project id a) as [a1 [proj|]]; [|done]. cbn in H1.
  assert (Hg : forall ids acc, store_wf (store acc.1.1) -> store_wf (store (fold_left (act_on act) ids acc).1.1)); [|by apply Hg].
  induction ids as [|i ids IH]; intros [[b n] fl] Hb; [done|]. cbn [fold_left]. apply IH. cbn.
  destruct (Store_GetVM (store b) i); [|done]. unfold run_vmm. destruct (vmm_action act (vmm b) _) as [r [e|]]; done.
Qed.

(** The requests that change a pool. *)
Inductive PoolOp :=
| OpScale (now : Z) (id : string) (body : result string Z)
| OpRedeploy (now : Z) (id : string)
| OpRestart (id : string)
| OpReplica (act : ReplicaAction) (replicaId : string)
| OpReplicaDelete (id n : string)
| OpVMDelete (replicaId : string)
| OpDeleteProject (id : string).

Definition run_pool a (o : PoolOp) : API R :=
  match o with
  | OpScale now id body => (handleScale w now id body a).1
  | OpRedeploy now id => (handleRedeployProject w now id a).1
  | OpRestart id => (handleRestartProject id a).1
  | OpReplica act id => (replicaActionByID act id a).1
  | OpReplicaDelete id n => (handleReplicaDelete id n a).1
  | OpVMDelete id => (handleVMCompatDelete id a).1
  | OpDeleteProject id => (handleDeleteProject id a).1
  end.

Lemma wf_run_pool o a : store_wf (store a) -> store_wf (store (run_pool a o)).
Proof.
  intros Hw. destruct o as [now id [n|e]|now id|id|act id|id n|id|id]; cbn [run_pool].
  - unfold handleScale. pose proof (wf_get_project id a Hw) as H1. destruct (get_project id a) as [a1 [proj|]]; [|done].
    cbn [fst] in H1. case_goal; [|case_goal].
    + pose proof (wf_boot_range now (fun a proj => pool_req (Proj_Name proj) (Proj_Image proj) 1 SharedEnv (projPorts a proj) None)
        (Z.of_nat (List.length (Proj_VMIDs proj))) (Z.to_nat (Z.max 0 n - Z.of_nat (List.length (Proj_VMIDs proj)))) proj a1 H1) as H2.
      destruct (boot_range _ _ _ _ _ _ _). cbn. by apply wf_PutProject.
    + cbn. by apply wf_PutProject, wf_each_vm.
    + cbn. by apply wf_PutProject.
  - done.
  - unfold handleRedeployProject. pose proof (wf_get_project id a Hw) as H1. destruct (get_project id a) as [a1 [proj|]]; [|done].
    cbn [fst] in H1. set (a2 := on_store _ _). assert (H2 : store_wf (store a2)) by (by apply wf_DeleteReplicas, wf_each_vm).
    pose proof (wf_boot_range now (fun a proj => pool_req (Proj_Name proj) (Proj_Image proj) (Proj_ReplicasDesired proj)
      SharedEnv (projPorts a proj) None) 0 (Z.to_nat (Proj_ReplicasDesired (Proj_set_VMIDs [] proj))) (Proj_set_VMIDs [] proj) a2 H2) as H3.
    destruct (boot_range _ _ _ _ _ _ _). cbn. by apply wf_PutProject.
  - unfold handleRestartProject. pose proof (wf_mutateReplicas id None ActRestart a Hw) as H1.
    by destruct (mutateReplicas _ _ _ _) as [[b k] fl].
  - unfold replicaActionByID. destruct (Store_GetVM (store a) id) as [vm|]; [|done].
    pose proof (wf_mutateReplicas (VM_ProjectID vm) (idxFilterAt (VM_ReplicaIndex vm)) act a Hw) as H1.
    by destruct (mutateReplicas _ _ _ _) as [[b k] fl].
  - unfold handleReplicaDelete. pose proof (wf_get_project id a Hw) as H1. destruct (get_project id a) as [a1 [proj|]]; [|done].
    destruct (vmid_at proj _) as [i|]; [|done]. cbn -[each_vm]. by apply wf_PutProject, wf_each_vm.
  - unfold handleVMCompatDelete. destruct (Store_GetVM (store a) id) as [vm|]; [|done].
    set (a1 := on_store _ _). assert (H1 : store_wf (store a1)).
    { unfold a1, run_vmm. destruct (vr_Delete _ _). by apply wf_DeleteVM. }
    pose proof (wf_get_project (VM_ProjectID vm) a1 H1) as H2. destruct (get_project _ a1) as [a2 [proj|]]; [|done].
    cbn. by apply wf_PutProject.
  - unfold handleDeleteProject. pose proof (wf_get_project id a Hw) as H1. destruct (get_project id a) as [a1 [proj|]];
      cbn; apply wf_DeleteProject; [by apply wf_each_vm|done].
Qed.

End PoolOps.

(** ** Witnesses and observations *)

(** A runner that succeeds and records its calls. *)
#[export] Instance RecordingRunner : VMRunner (list string) := {|
  vr_Boot r vm := ((r ++ [("boot " ++ VM_ID vm)%string])%list, None);
  vr_Stop r vm := ((r ++ [("stop " ++ VM_ID vm)%string])%list, None);
  vr_Restart r vm := ((r ++ [("restart " ++ VM_ID vm)%string])%list, None);
  vr_Delete r vm := ((r ++ [("delete " ++ VM_ID vm)%string])%list, None)
|}.

Fixpoint tally (n : nat) : string := match n with O => "v" | Datatypes.S n => String "i" (tally n) end.

Lemma tally_inj i j : tally i = tally j -> i = j.
Proof. revert j. induction i as [|i IH]; intros [|j]; cbn; [done..|]. intros [= E]. by rewrite (IH j). Qed.

Definition demo_wiring : Wiring := mkWiring tally (fun c => Ok ("plain:" ++ c)) (fun _ _ => None) None None "example.dev".

Definition demo_image : GoldenImage :=
  mkGoldenImage "g" "app" "custom://app" "" 1 256 [] ∅ [] "" "v1" "custom" "/img/rootfs.ext4" "/img/vmlinux" "x86_64"
    "" "" "ready" None 0.

Definition demo_project : Project :=
  Proj_set_Image "custom://app" (Proj_set_Env {["MODE" := "prod"]} (Proj_set_ReplicasDesired 2 (proj_named "shop"))).

Definition demo_api : API (list string) :=
  mkAPI (PutProject demo_project empty_store) [mkSecret "s1" "p" "TOKEN" "c1" 0 0] [demo_image] [] 0 [] [] [] [].

Lemma demo_server : pool_server demo_wiring demo_api "p" demo_project.
Proof.
  split.
  - by apply no_replicas_inv.
  - assert (E : projects (store demo_api) = [mkProjectRow demo_project ""]) by (vm_compute; reflexivity).
    split; rewrite E.
    + by intros r r' ->%list_elem_of_singleton ->%list_elem_of_singleton.
    + by intros r ->%list_elem_of_singleton.
  - intros id p E. cbn in E. by rewrite delete_empty, lookup_empty in E.
  - vm_compute. reflexivity.
  - done.
  - intros k _ Hk. by apply elem_of_nil in Hk.
  - intros k _ Hk. by apply elem_of_nil in Hk.
  - vm_compute. reflexivity.
Qed.

Lemma handleRedeployProject_spec_witness :
  exists vms a' r p', handleRedeployProject demo_wiring 0 "p" demo_api = (a', r) /\ r_status r = 202 /\
    List.length vms = 2%nat /\ load_project (store a') "p" = Some p' /\ Proj_VMIDs p' = VM_ID <$> vms.
Proof.
  destruct (handleRedeployProject_spec demo_wiring tally_inj 0 "p" demo_api demo_project demo_server)
    as (vms & a' & r & p' & E & Hst & Hl & _ & _ & Hp & Hv & _).
  exists vms, a', r, p'. split_and!; [done..| |done|done]. cbn in Hl. lia.
Defined.

Lemma handleScale_spec_witness :
  exists vms a' p', handleScale demo_wiring 0 "p" (Ok 3) demo_api =
      (a', writeJSON 200 (JObj [("desired", JInt 3); ("current", JInt 3)])) /\
    List.length vms = 3%nat /\ load_project (store a') "p" = Some p' /\ Proj_VMIDs p' = VM_ID <$> vms.
Proof.
  destruct (handleScale_spec demo_wiring tally_inj 0 "p" 3 demo_api demo_project demo_server)
    as (vms & a' & p' & E & Hl & _ & _ & Hp & _ & Hv & _).
  - intros vm Hvm. by apply elem_of_nil in Hvm.
  - exists vms, a', p'. split_and!; [done| |done|done]. cbn in Hl. lia.
Defined.


(** The rows of replicas that were scaled away keep their slots: scaling down and up
    again lists and boots a replica whose row the unique index refused. *)
Lemma scale_down_up_loses_replica :
  let a := fold_left (run_pool demo_wiring) [OpScale 0 "p" (Ok 2); OpScale 1 "p" (Ok 1); OpScale 2 "p" (Ok 2)] demo_api in
  Proj_VMIDs <$> load_project (store a) "p" = Some ["v"; "iiv"] /\ Store_GetVM (store a) "iiv" = None /\
  VM_ID <$> async_boots a = ["v"; "iv"; "iiv"].
Proof. vm_compute. by split. Qed.

(** Booting writes the decrypted secrets into the project's own environment, which
    is then stored in clear. *)
Lemma secrets_stored_in_clear :
  let a := run_pool demo_wiring demo_api (OpScale 0 "p" (Ok 1)) in
  (fun p => Proj_Env p !! "TOKEN") <$> load_project (store a) "p" = Some (Some "plain:c1").
Proof. vm_compute. reflexivity. Qed.

(** Deleting a replica by position leaves its row, shifts the others, and an action
    on a replica's identifier then reaches its neighbour. *)
Lemma action_by_id_hits_neighbour :
  let a := fold_left (run_pool demo_wiring)
             [OpScale 0 "p" (Ok 3); OpReplicaDelete "p" "0"; OpReplica ActRestart "iv"] demo_api in
  vmm a = ["delete v"; "restart iiv"] /\ is_Some (Store_GetVM (store a) "v").
Proof. vm_compute. split; [done|by eexists]. Qed.

Close Scope Z_scope.
Close Scope string_scope.
