(* ===== verification/Deploys.v ===== *)
(** * Deployments behind the API ([api/handlers.go], [imagecatalog/guestbase.go])

    Creating, checking, weighting, promoting, rolling back and deleting the
    deployments of a project, over the pool of [Pool]. *)
From S2P Require Import Prelude GoStrings GoNum GoNet Types Gateway Store NetMgr Controllers Pool.
From Stdlib Require Import String Ascii.

Open Scope string_scope.
Open Scope Z_scope.

(** ** [imagecatalog/guestbase.go] *)

Record GuestBase := mkGuestBase {
  GB_Name : string; GB_Reference : string; GB_Family : string; GB_Description : string; GB_KernelPath : string;
  GB_RootfsPath : string; GB_AgentPath : string; GB_Managed : bool }.

Definition alpine_base : GuestBase :=
  mkGuestBase "Alpine" "porter://alpine/latest" "alpine"
    "Small musl-based guest optimized for fast startup and low storage use" "" "" "" true.
Definition debian_base : GuestBase :=
  mkGuestBase "Debian" "porter://debian/latest" "debian"
    "General-purpose glibc guest with broad package compatibility" "" "" "" true.
Definition ubuntu_base : GuestBase :=
  mkGuestBase "Ubuntu" "porter://ubuntu/latest" "ubuntu"
    "glibc guest for Ubuntu packages, Python, ML, and enterprise workloads" "" "" "" true.

Definition ManagedGuestBases : list GuestBase := [alpine_base; debian_base; ubuntu_base].

Definition names_base (name ref : string) : bool :=
  (ref ==? name) || (ref ==? "porter://" ++ name) || (ref ==? "porter://" ++ name ++ "/latest").

Definition ResolveGuestBase (ref defaultRef : string) (custom : gmap string GuestBase) : result string GuestBase :=
  let ref := if ref ==? "" then defaultRef else ref in
  let ref := trim_space (to_lower ref) in
  let ref := if ref ==? "" then "alpine" else ref in
  if names_base "alpine" ref then Ok alpine_base
  else if names_base "debian" ref then Ok debian_base
  else if names_base "ubuntu" ref then Ok ubuntu_base
  else if has_prefix ref "custom://" then
    match custom !! ref with
    | Some b =>
        if (GB_KernelPath b !=? "") && (GB_RootfsPath b !=? "")
        then Ok (mkGuestBase (GB_Name b) (GB_Reference b) (GB_Family b) (GB_Description b) (GB_KernelPath b)
                   (GB_RootfsPath b) (GB_AgentPath b) false)
        else Err ("custom guest base " ++ quoted ref ++ " is not registered with kernel and rootfs artifacts")
    | None => Err ("custom guest base " ++ quoted ref ++ " is not registered with kernel and rootfs artifacts")
    end
  else Err ("unsupported guest base " ++ quoted ref ++ " (want alpine, debian, ubuntu, or custom://...)").

(** ** Requests *)

(** [err_text] is the text of a database error. *)
Section Deploys.
Context {R : Type} `{VMRunner R} (w : Wiring) (err_text : StoreErr -> string).
Implicit Types a : API R.

Record DeployReq := mkDeployReq {
  dq_Image : string; dq_Env : gmap string string; dq_Tag : string; dq_Commit : string; dq_GitURL : string;
  dq_TrafficP : Z; dq_Replicas : Z; dq_GuestBase : string }.

(** [CreateDeployment] on the server; the record is normalised in place. *)
Definition create_deployment (d : Deployment) a : API R * Deployment * result StoreErr unit :=
  let '(d, s, r) := updateDeployment d (store a) in (with_store s a, d, r).

(** [currentRollout]: the last of the list. *)
Definition currentRollout (ds : list Deployment) : string :=
  match last ds with Some d => Dep_ID d | None => "" end.

Definition preview_host (tag project : string) : string :=
  if baseDomain w !=? "" then tag ++ "." ++ project ++ ".preview." ++ baseDomain w
  else "http://" ++ tag ++ "-" ++ project ++ ".preview.local".

Definition default_base : string :=
  match hostConfig w with
  | Some c => if GuestBaseDefault c !=? "" then GuestBaseDefault c else "alpine"
  | None => "alpine"
  end.

(** [handleCreateDeployment]; [hex] is what [randHex(6)] returns. *)
Definition handleCreateDeployment (now : Z) (hex projID : string) (body : result string DeployReq) a : API R * Resp :=
  match body with
  | Err e => (a, writeError 400 ("bad request: " ++ e))
  | Ok req =>
      let '(a, p) := get_project projID a in
      match p with
      | None => (a, writeError 404 "project not found")
      | Some proj =>
          let replicas := if dq_Replicas req <? 1 then Z.max 1 (Proj_ReplicasDesired proj) else dq_Replicas req in
          if (dq_TrafficP req <? 0) || (100 <? dq_TrafficP req)
          then (a, writeError 400 "traffic_pct must be between 0 and 100")
          else
            let tag := if dq_Tag req ==? "" then "rev-" ++ to_lower hex else dq_Tag req in
            match ResolveGuestBase (dq_GuestBase req) default_base ∅ with
            | Err e => (a, writeError 400 e)
            | Ok base =>
                let preview := preview_host tag (Proj_Name proj) in
                let deps := Store_ListDeployments (store a) (Proj_ID proj) in
                let '(a, id) := fresh_id w a in
                let d := mkDeployment id (Proj_ID proj) (Z.of_nat (List.length deps) + 1) tag (GB_Reference base)
                           "preview" false (dq_TrafficP req) [] (dq_GitURL req) (dq_Commit req) "preview"
                           (dq_Image req) (currentRollout deps) [] (dq_TrafficP req) now in
                let '(a, d, r) := create_deployment d a in
                match r with
                | Err e => (a, writeError 500 (err_text e))
                | Ok _ =>
                    let image := if dq_Image req ==? "" then Proj_Image proj else dq_Image req in
                    if negb (knownDirectImage w a image) then
                      let '(a, _, _) := create_deployment (Dep_set_BuildStatus "failed" d) a in
                      (a, writeError 422 "deployment image is not a registered direct Firecracker image")
                    else
                      let ports := projPorts a proj in
                      let '(a, _, d) :=
                        boot_deployment w now (fun d => pool_req (Proj_Name proj ++ "-" ++ tag) image replicas
                                                          (OwnEnv (dq_Env req)) ports (Some d))
                          0 (Z.to_nat replicas) proj d a in
                      let '(a, d, _) := create_deployment (Dep_set_BuildStatus "ready" d) a in
                      let a := AppendBuildLog (Proj_ID proj) ("deployment " ++ tag ++ " (rev " ++ Itoa (Dep_Revision d) ++
                                 ", " ++ image ++ ") → preview at " ++ preview) a in
                      let a := AppendDaemonLog ("project " ++ Proj_Name proj ++ " deployment rev " ++
                                 Itoa (Dep_Revision d) ++ " ready; preview " ++ preview) a in
                      let a := Broadcast "deployment.created"
                                 (JObj [("id", JStr (Dep_ID d)); ("preview", JStr preview); ("image", JStr (dq_Image req))]) a in
                      (a, writeJSON 202 (JObj [("deployment", JDep d); ("preview_url", JStr preview);
                                               ("status", JStr "preview")]))
                end
            end
      end
  end.

Definition handleGetDeployment (projID deployId : string) a : API R * Resp :=
  match find_first (fun d => Dep_ID d ==? deployId) (Store_ListDeployments (store a) projID) with
  | Some d => (a, writeJSON 200 (JDep d))
  | None => (a, writeError 404 "deployment not found")
  end.

(** The project and the deployment most handlers start by reading. *)
Definition with_deployment (projID deployId : string) a (k : API R -> Project -> Deployment -> API R * Resp)
    : API R * Resp :=
  let '(a, p) := get_project projID a in
  match p with
  | None => (a, writeError 404 "project not found")
  | Some proj =>
      match GetDeployment (store a) (Proj_ID proj) deployId with
      | None => (a, writeError 404 "deployment not found")
      | Some d => k a proj d
      end
  end.

Definition checks_body (d : Deployment) : Json :=
  JObj [("deployment", JStr (Dep_ID d)); ("checks", JChecks (Dep_Checks d));
        ("all_passed", JBool (AllChecksPassed d)); ("rollout_pct", JInt (Dep_RolloutPercent d))].

Definition handleGetDeploymentChecks (projID deployId : string) a : API R * Resp :=
  with_deployment projID deployId a (fun a _ d => (a, writeJSON 200 (checks_body d))).

Definition handleUpsertDeploymentChecks (projID deployId : string) (body : result string (list DeploymentCheck)) a
    : API R * Resp :=
  with_deployment projID deployId a (fun a _ d =>
    match body with
    | Err e => (a, writeError 400 ("bad request: " ++ e))
    | Ok checks =>
        let '(a, d, r) := create_deployment (Dep_set_Checks checks d) a in
        match r with
        | Err e => (a, writeError 500 (err_text e))
        | Ok _ => (a, writeJSON 200 (checks_body d))
        end
    end).

(** The first check of that name, updated. *)
Fixpoint set_check (name status detail : string) (cs : list DeploymentCheck) : option (list DeploymentCheck) :=
  match cs with
  | [] => None
  | c :: cs => if Chk_Name c ==? name then Some (mkDeploymentCheck (Chk_Name c) status detail :: cs)
               else cons c <$> set_check name status detail cs
  end.

Definition handleSetDeploymentCheck (projID deployId name : string) (body : result string (string * string)) a
    : API R * Resp :=
  with_deployment projID deployId a (fun a _ d =>
    match body with
    | Err e => (a, writeError 400 ("bad request: " ++ e))
    | Ok (status, detail) =>
        match set_check name status detail (Dep_Checks d) with
        | None => (a, writeError 404 ("check not found: " ++ name))
        | Some cs =>
            let '(a, d, r) := create_deployment (Dep_set_Checks cs d) a in
            match r with
            | Err e => (a, writeError 500 (err_text e))
            | Ok _ => (a, writeJSON 200 (JObj [("deployment", JStr (Dep_ID d)); ("check", JStr name);
                                               ("status", JStr status); ("all_passed", JBool (AllChecksPassed d))]))
            end
        end
    end).

Definition handleSetDeploymentRollout (projID deployId : string) (body : result string Z) a : API R * Resp :=
  with_deployment projID deployId a (fun a _ d =>
    match body with
    | Err e => (a, writeError 400 ("bad request: " ++ e))
    | Ok percent =>
        if (percent <? 0) || (100 <? percent) then (a, writeError 400 "percent must be 0-100")
        else
          let '(a, d, r) := create_deployment (Dep_set_RolloutPercent percent d) a in
          match r with
          | Err e => (a, writeError 500 (err_text e))
          | Ok _ => (a, writeJSON 200 (JObj [("deployment", JStr (Dep_ID d)); ("rollout_pct", JInt (Dep_RolloutPercent d))]))
          end
    end).

(** ** Promotion *)

(** What the loop of [handlePromoteDeployment] writes for each deployment; the
    branch for a previous production deployment tests a flag the line before has
    cleared. *)
Definition promote_row (target : string) (d : Deployment) : Deployment :=
  let d := Dep_set_IsProduction (Dep_ID d ==? target) d in
  if Dep_ID d ==? target
  then Dep_set_BuildStatus "live" (Dep_set_RolloutPercent 100 (Dep_set_RouteWeight 100 (Dep_set_Environment "production" d)))
  else if Dep_IsProduction d then Dep_set_IsProduction false (Dep_set_RouteWeight 0 d)
  else d.

Definition promote_rows (target : string) (ds : list Deployment) a : API R :=
  fold_left (fun a d => (create_deployment (promote_row target d) a).1.1) ds a.

Definition live_deployment (d : Deployment) : Deployment :=
  Dep_set_RolloutPercent 100 (Dep_set_RouteWeight 100 (Dep_set_Environment "production"
    (Dep_set_IsProduction true (Dep_set_BuildStatus "live" d)))).

(** [previewURL]: the first eight bytes of the identifier. *)
Definition previewURL (id project : string) : string :=
  let short := stake 8 id in
  if baseDomain w !=? "" then short ++ "." ++ project ++ ".preview." ++ baseDomain w
  else "http://" ++ short ++ "." ++ project ++ ".preview.local".

(** Stop the VMs that have a row, then drop the rows of all. *)
Definition retire (ids : list string) a : API R :=
  let a := each_vm vr_Stop ids a in
  on_store (fun s => fold_left (fun s id => DeleteVM id s) ids s) a.

Definition handlePromoteDeployment (now : Z) (projID target : string) (keepOld : bool) a : API R * Resp :=
  let '(a, p) := get_project projID a in
  match p with
  | None => (a, writeError 404 "project not found")
  | Some proj =>
      match find_first (fun d => Dep_ID d ==? target) (Store_ListDeployments (store a) (Proj_ID proj)) with
      | None => (a, writeError 404 "deployment not found or has no image")
      | Some dep =>
          if Dep_ImageDigest dep ==? "" then (a, writeError 404 "deployment not found or has no image")
          else if negb (AllChecksPassed dep)
          then (a, writeError 409 "deployment has pending/failed checks; complete checks before promoting")
          else
            let old := Proj_VMIDs proj in
            let proj := Proj_set_Image (Dep_ImageDigest dep) proj in
            let '(a, proj, dep) :=
              if bool_decide (Dep_VMIDs dep = []) then
                let ports := projPorts a proj in
                boot_deployment w now (fun d => pool_req (Proj_Name proj ++ "-" ++ Dep_VersionLabel dep) (Proj_Image proj)
                                                  (Proj_ReplicasDesired proj) SharedEnv ports (Some d))
                  0 (Z.to_nat (Proj_ReplicasDesired proj)) proj dep a
              else (a, proj, dep) in
            let proj := Proj_set_VMIDs (Dep_VMIDs dep) proj in
            let a := promote_rows (Dep_ID dep) (Store_ListDeployments (store a) (Proj_ID proj)) a in
            let a := if keepOld then a else retire old a in
            let a := on_store (PutProject proj) a in
            let '(a, dep, _) := create_deployment (live_deployment dep) a in
            let a := AppendDaemonLog ("project " ++ Proj_Name proj ++ " promoted deployment " ++ Dep_ID dep ++ " (image " ++
                       Proj_Image proj ++ "); " ++ Itoa (Z.of_nat (List.length (Proj_VMIDs proj))) ++ " replica(s) live") a in
            let a := Broadcast "deployment.promoted" (JObj [("id", JStr (Dep_ID dep)); ("image", JStr (Proj_Image proj))]) a in
            (a, writeJSON 200 (JObj [("status", JStr "promoted"); ("deployment", JStr (Dep_ID dep));
                                     ("preview", JStr (previewURL (Dep_ID dep) (Proj_Name proj)))]))
      end
  end.

(** ** Rollback and removal *)

(** [rollbackOf]: the deployment named by the pointer, or the next one of the list,
    which is newest first. *)
Fixpoint rollback_from (all ds : list Deployment) (id : string) : option Deployment :=
  match ds with
  | [] => None
  | d :: ds =>
      if Dep_ID d ==? id then
        match (if Dep_RollbackTo d ==? "" then None
               else find_first (fun p => Dep_ID p ==? Dep_RollbackTo d) all) with
        | Some p => Some p
        | None => head ds
        end
      else rollback_from all ds id
  end.

Definition rollbackOf (deps : list Deployment) (id : string) : option Deployment := rollback_from deps deps id.

Definition handleRollbackDeployment (now : Z) (projID deployId : string) a : API R * Resp :=
  let '(a, p) := get_project projID a in
  match p with
  | None => (a, writeError 404 "project not found")
  | Some proj =>
      match rollbackOf (Store_ListDeployments (store a) (Proj_ID proj)) deployId with
      | None => (a, writeError 404 "no rollback target for this deployment")
      | Some target =>
          let proj := Proj_set_VMIDs [] (Proj_set_Image (Dep_ImageDigest target) proj) in
          let a := on_store (DeleteReplicasByProject (Proj_ID proj)) a in
          let ports := projPorts a proj in
          let '(a, proj) :=
            boot_range w now (fun _ proj => pool_req (Proj_Name proj) (Proj_Image proj) (Proj_ReplicasDesired proj)
                                             SharedEnv ports None)
              0 (Z.to_nat (Proj_ReplicasDesired proj)) proj a in
          let a := on_store (PutProject proj) a in
          let a := AppendDaemonLog ("project " ++ Proj_Name proj ++ " rolled back to deployment " ++ Dep_ID target) a in
          (a, writeJSON 200 (JObj [("status", JStr "rolled back"); ("deployment", JStr (Dep_ID target))]))
      end
  end.

(** [deploymentFor]: across all projects. *)
Fixpoint deployment_in (s : StoreState) (id : string) (ps : list Project) : option Deployment :=
  match ps with
  | [] => None
  | p :: ps =>
      match find_first (fun d => Dep_ID d ==? id) (Store_ListDeployments s (Proj_ID p)) with
      | Some d => Some d
      | None => deployment_in s id ps
      end
  end.

Definition deploymentFor (s : StoreState) (id : string) : option Deployment := deployment_in s id (ListProjects s).

Definition handleDeploymentSource (deployId : string) a : API R * Resp :=
  match deploymentFor (store a) deployId with
  | None => (a, writeError 404 "deployment not found")
  | Some d =>
      (a, writeJSON 200 (JObj [("deployment", JStr (Dep_ID d));
                               ("source", JStr (if Dep_GitURL d ==? "" then "image" else "git"));
                               ("git_url", JStr (Dep_GitURL d)); ("commit", JStr (Dep_GitCommit d))]))
  end.

Definition handleDeploymentOG (deployId : string) a : API R * Resp :=
  match deploymentFor (store a) deployId with
  | None => (a, writeError 404 "deployment not found")
  | Some d =>
      (a, writeJSON 200 (JObj [("deployment", JStr (Dep_ID d)); ("image", JStr (Dep_ImageDigest d));
                               ("status", JStr (Dep_BuildStatus d)); ("git", JStr (Dep_GitURL d))]))
  end.

(** The loop of [handleDeleteDeployment]: it ends at the first VM that cannot be stopped. *)
Fixpoint stop_pool (ids : list string) a : API R * option string :=
  match ids with
  | [] => (a, None)
  | id :: ids =>
      match Store_GetVM (store a) id with
      | None => stop_pool ids a
      | Some vm =>
          let '(a, e) := run_vmm vr_Stop vm a in
          match e with
          | Some e => (a, Some ("stop deployment VM " ++ id ++ ": " ++ e))
          | None => stop_pool ids (on_store (DeleteVM id) a)
          end
      end
  end.

Definition handleDeleteDeployment (projID deployId : string) a : API R * Resp :=
  match GetDeployment (store a) projID deployId with
  | None => (a, writeError 404 "deployment not found")
  | Some d =>
      if Dep_IsProduction d || (Dep_Environment d ==? "production")
      then (a, writeError 409 "cannot delete the production deployment; promote another version first")
      else
        let '(a, e) := stop_pool (Dep_VMIDs d) a in
        match e with
        | Some e => (a, writeError 409 e)
        | None =>
            let a := on_store (DeleteDeployment projID (Dep_ID d)) a in
            let a := AppendDaemonLog ("deployment " ++ Dep_VersionLabel d ++ " removed from project " ++ projID) a in
            (a, writeJSON 200 (JObj [("status", JStr "deleted"); ("deployment", JStr (Dep_ID d));
                                     ("tag", JStr (Dep_VersionLabel d))]))
        end
  end.
End Deploys.

(** ** The deployment table *)

(** Identifiers are unique and every row satisfies the constraints. *)
Record deps_inv (s : StoreState) : Prop := {
  di_ids : NoDup (dp_id <$> deployments s);
  di_checks : forall r, r ∈ deployments s -> deployment_check s (dp_data r) = None
}.

Lemma ListDeployments_elem s pid d :
  d ∈ Store_ListDeployments s pid <->
  pid <> "" /\ exists r, r ∈ deployments s /\ Dep_ProjectID (dp_data r) = pid /\ d = read_weight (dp_data r).
Proof.
  unfold Store_ListDeployments. case_bool_decide as Hp; [split; [by intros ?%elem_of_nil|naive_solver]|].
  rewrite list_elem_of_fmap. split.
  - intros (r & -> & Hr). rewrite merge_sort_Permutation, list_elem_of_filter in Hr. split; [done|]. exists r. naive_solver.
  - intros [_ (r & Hr & Ep & ->)]. exists r. split; [done|]. by rewrite merge_sort_Permutation, list_elem_of_filter.
Qed.

Lemma read_weight_same d :
  Dep_ID (read_weight d) = Dep_ID d /\ Dep_ProjectID (read_weight d) = Dep_ProjectID d /\
  (forall s, deployment_check s (read_weight d) = deployment_check s d).
Proof. unfold read_weight. by case_goal. Qed.

Lemma normalise_weight_check s d : deployment_check s (normalise_weight d) = deployment_check s d.
Proof. unfold normalise_weight. by repeat case_goal. Qed.

(** The constraints only look at the identifiers of the other rows. *)
Lemma deployment_check_ids s s' d :
  (dp_id <$> deployments s') = (dp_id <$> deployments s) -> deployment_check s' d = deployment_check s d.
Proof.
  intros E. unfold deployment_check.
  assert (Hex : forall x, existsb (fun r => dp_id r ==? x) (deployments s') = existsb (fun r => dp_id r ==? x) (deployments s)).
  { intros x. revert E. generalize (deployments s) as l. induction (deployments s') as [|r l' IH]; intros [|r0 l]; try done.
    cbn. intros [= E1 E2]. by rewrite E1, (IH l). }
  by rewrite Hex.
Qed.

Lemma upsert_existing {A} (key : A -> string) x l :
  NoDup (key <$> l) -> key x ∈ (key <$> l) ->
  upsert key x l = (fun r => if key r ==? key x then x else r) <$> l.
Proof.
  induction l as [|y l IH]; cbn; [by intros _ ?%elem_of_nil|]. intros [Hy Hn]%NoDup_cons Hin.
  destruct (decide (key y = key x)) as [E|E].
  - rewrite bool_decide_eq_true_2 by done. f_equal. symmetry. etrans; [|apply list_fmap_id].
    apply list_fmap_ext. intros i z Hz. rewrite bool_decide_eq_false_2; [done|]. intros Ez. apply Hy. rewrite E, <- Ez.
    apply list_elem_of_fmap. exists z. split; [done|]. by eapply list_elem_of_lookup_2.
  - rewrite bool_decide_eq_false_2 by done. f_equal. apply IH; [done|].
    apply elem_of_cons in Hin as [Hin|Hin]; [by rewrite Hin in E|done].
Qed.

(** The row a stored deployment becomes when it is written again. *)
Definition rewritten (d : Deployment) (r : DepRow) : DepRow :=
  mkDepRow (dp_revision r) (columns (merge_dep (dp_data r) (normalise_weight d))).

Lemma rewritten_id d r : dp_id r = Dep_ID d -> dp_id (rewritten d r) = dp_id r.
Proof. intros E. unfold rewritten, dp_id. cbn. rewrite (proj1 (normalise_weight_id d)). done. Qed.

Lemma row_of_elem s r :
  NoDup (dp_id <$> deployments s) -> r ∈ deployments s -> row dp_id (dp_id r) (deployments s) = Some r.
Proof.
  unfold row. induction (deployments s) as [|x l IH]; [by intros _ ?%elem_of_nil|]. cbn. intros [Hx Hn]%NoDup_cons Hin.
  apply elem_of_cons in Hin as [->|Hin]; [by rewrite bool_decide_eq_true_2|]. rewrite bool_decide_eq_false_2; [by apply IH|].
  intros E. apply Hx. rewrite E. apply list_elem_of_fmap. by exists r.
Qed.

Lemma updateDeployment_stored s d r :
  deps_inv s -> r ∈ deployments s -> dp_id r = Dep_ID d -> deployment_check s d = None ->
  updateDeployment d s =
  (normalise_weight d,
   with_deployments ((fun x => if dp_id x ==? Dep_ID d then rewritten d x else x) <$> deployments s) (next_revision s) s,
   Ok tt).
Proof.
  intros [Hn _] Hr Hid Hc. unfold updateDeployment, CreateDeployment.
  rewrite normalise_weight_check, Hc, (proj1 (normalise_weight_id d)), <- Hid, (row_of_elem s r) by done.
  f_equal. f_equal. f_equal. change (mkDepRow _ _) with (rewritten d r).
  rewrite upsert_existing; [|done|rewrite rewritten_id by done; apply list_elem_of_fmap; by exists r].
  rewrite rewritten_id by done. apply list_fmap_ext. intros i x Hx. case_bool_decide as E; [|done].
  f_equal. apply list_elem_of_lookup_2 in Hx.
  pose proof (row_of_elem s x Hn Hx) as H1. rewrite E, (row_of_elem s r) in H1 by done. by injection H1 as ->.
Qed.

Lemma rewrite_rows_ids d (l : list DepRow) :
  dp_id <$> ((fun x => if dp_id x ==? Dep_ID d then rewritten d x else x) <$> l) = dp_id <$> l.
Proof.
  rewrite <- list_fmap_compose. apply list_fmap_ext. intros i x _. cbn. case_bool_decide as E; [|done]. by apply rewritten_id.
Qed.

Lemma deployment_check_None s d :
  deployment_check s d = None <->
  (Dep_ProjectID d <> "" /\ Dep_VersionLabel d <> "" /\ Dep_GuestBase d <> "" /\ Dep_Environment d <> "") /\
  Dep_BuildStatus d ∈ build_statuses /\
  (Dep_RollbackTo d = "" \/ existsb (fun r => dp_id r ==? Dep_RollbackTo d) (deployments s) = true).
Proof.
  unfold deployment_check. destruct (_ || _ || _ || _) eqn:E1.
  { split; [done|]. intros ((H1 & H2 & H3 & H4) & _). by rewrite !bool_decide_eq_false_2 in E1. }
  rewrite !orb_false_iff, !bool_decide_eq_false in E1.
  destruct (decide (Dep_BuildStatus d ∈ build_statuses)) as [Hb|Hb];
    [rewrite (bool_decide_eq_true_2 (_ ∈ _)) by done|rewrite (bool_decide_eq_false_2 (_ ∈ _)) by done; cbn [negb]; split; [done|tauto]].
  cbn [negb]. destruct (decide (Dep_RollbackTo d = "")) as [Hr|Hr].
  - rewrite (bool_decide_eq_true_2 (_ = "")) by done. cbn [negb andb]. tauto.
  - rewrite (bool_decide_eq_false_2 (_ = "")) by done. cbn [negb andb].
    destruct (existsb _ _); cbn [negb]; [tauto|]. split; [done|]. intros (_ & _ & [?|?]); done.
Qed.

Lemma deps_inv_rewrite s d :
  deps_inv s -> deployment_check s d = None ->
  deps_inv (with_deployments ((fun x => if dp_id x ==? Dep_ID d then rewritten d x else x) <$> deployments s)
              (next_revision s) s).
Proof.
  intros [Hn Hc] Hd. assert (E := rewrite_rows_ids d (deployments s)).
  split; cbn [deployments with_deployments]; [by rewrite E|].
  intros r (x & -> & Hx)%list_elem_of_fmap. rewrite (deployment_check_ids s) by done.
  case_bool_decide as Ex; [|by apply Hc]. specialize (Hc x Hx).
  rewrite <- (normalise_weight_check s d) in Hd. rewrite deployment_check_None in *.
  destruct Hc as ((C1 & C2 & C3 & C4) & _), Hd as ((D1 & D2 & D3 & D4) & D5 & D6). done.
Qed.

(** ** Promotion, proved *)

Section Promote.
Context {R : Type} `{VMRunner R} (w : Wiring).
Implicit Types a : API R.

Lemma promote_row_same target d :
  Dep_ID (promote_row target d) = Dep_ID d /\ Dep_ProjectID (promote_row target d) = Dep_ProjectID d.
Proof. unfold promote_row. by repeat case_goal. Qed.

Lemma promote_row_check s target d :
  deployment_check s d = None -> deployment_check s (promote_row target d) = None.
Proof.
  rewrite !deployment_check_None. unfold promote_row. cbn [Dep_ID Dep_set_IsProduction].
  intros ((? & ? & ? & ?) & ? & ?). repeat case_goal; cbn; split_and!; try done. in_list.
Qed.

Definition promoted (target : string) (ds : list Deployment) (r : DepRow) : DepRow :=
  match find_first (fun d => Dep_ID d ==? dp_id r) ds with
  | Some d => rewritten (promote_row target d) r
  | None => r
  end.

Lemma promote_rows_spec target ds a :
  deps_inv (store a) -> NoDup (Dep_ID <$> ds) ->
  (forall d, d ∈ ds -> Dep_ID d ∈ (dp_id <$> deployments (store a)) /\ deployment_check (store a) d = None) ->
  let a' := promote_rows target ds a in
  deps_inv (store a') /\ replica_rows (store a') = replica_rows (store a) /\ vmm a' = vmm a /\
  deployments (store a') = promoted target ds <$> deployments (store a).
Proof.
  revert a. induction ds as [|d ds IH]; intros a Hi Hnd Hds.
  { cbn. split_and!; try done. symmetry. apply list_fmap_id. }
  rewrite fmap_cons, NoDup_cons in Hnd. destruct Hnd as [Hd Hnd]. destruct (Hds d) as [Hin Hc]; [left|].
  apply (promote_row_check _ target) in Hc. apply list_elem_of_fmap in Hin as (r & Hid & Hr).
  pose proof (promote_row_same target d) as [P1 P2].
  set (a1 := with_store (with_deployments ((fun x => if dp_id x ==? Dep_ID (promote_row target d)
    then rewritten (promote_row target d) x else x) <$> deployments (store a)) (next_revision (store a)) (store a)) a).
  assert (Ea : promote_rows target (d :: ds) a = promote_rows target ds a1).
  { cbn [promote_rows fold_left]. unfold create_deployment at 2.
    by rewrite (updateDeployment_stored _ _ r) by (done || congruence). }
  cbv zeta. rewrite Ea. assert (Hids := rewrite_rows_ids (promote_row target d) (deployments (store a))).
  destruct (IH a1) as (I1 & I2 & I3 & I4); [by apply deps_inv_rewrite|done| |].
  { intros d' Hd'. destruct (Hds d') as [Hin' Hc']; [by right|]. cbn. rewrite Hids. split; [done|].
    by rewrite (deployment_check_ids (store a)). }
  split_and!; [done|exact I2|done|]. rewrite I4. cbn. rewrite <- list_fmap_compose.
  apply list_fmap_ext. intros i x _. unfold promoted, compose. cbn [find_first]. rewrite P1.
  case_bool_decide as E; [rewrite bool_decide_eq_true_2 by done|by rewrite bool_decide_eq_false_2].
  rewrite rewritten_id by congruence.
  assert (Hnone : find_first (fun d0 => Dep_ID d0 ==? dp_id x) ds = None) by (apply find_first_None, Forall_forall;
    intros d' Hd'; apply bool_decide_eq_false_2; intros E'; apply Hd; rewrite <- E, <- E'; apply list_elem_of_fmap; by exists d').
  by rewrite Hnone.
Qed.

(** The list the loop runs over: the rows of the project, once each. *)
Lemma ListDeployments_facts s pid :
  deps_inv s ->
  NoDup (Dep_ID <$> Store_ListDeployments s pid) /\
  (forall d, d ∈ Store_ListDeployments s pid ->
     Dep_ID d ∈ (dp_id <$> deployments s) /\ deployment_check s d = None).
Proof.
  intros [Hn Hc]. split.
  - unfold Store_ListDeployments. case_bool_decide; [apply NoDup_nil_2|]. rewrite <- list_fmap_compose.
    assert (E : forall l : list DepRow, Dep_ID ∘ (fun r => read_weight (dp_data r)) <$> l = dp_id <$> l).
    { intros l. apply list_fmap_ext. intros i r _. apply (proj1 (read_weight_same (dp_data r))). }
    rewrite E. rewrite merge_sort_Permutation. by apply NoDup_fmap_filter.
  - intros d (_ & r & Hr & _ & ->)%ListDeployments_elem. destruct (read_weight_same (dp_data r)) as (-> & _ & ->).
    split; [|by apply Hc]. apply list_elem_of_fmap. by exists r.
Qed.

Lemma retire_replicas ids a :
  replicas (store (retire ids a)) = base.filter (fun vm => VM_ID vm ∉ ids) (replicas (store a)) /\
  deployments (store (retire ids a)) = deployments (store a) /\ projects (store (retire ids a)) = projects (store a).
Proof.
  unfold retire. cbn [store on_store with_store]. destruct (each_vm_frame vr_Stop ids a) as [-> _ _ _].
  generalize (store a) as s. induction ids as [|i ids IH]; intros s; cbn [fold_left].
  - split_and!; [|done..]. induction (replicas s) as [|r l IHl]; [done|].
    rewrite filter_cons_True by apply not_elem_of_nil. by rewrite <- IHl.
  - destruct (IH (DeleteVM i s)) as (-> & -> & ->). split_and!; [|done..]. cbn. unfold delete_row.
    rewrite list_filter_filter. apply list_filter_iff. intros v. rewrite not_elem_of_cons. tauto.
Qed.

Lemma promoted_row s target pid r :
  deps_inv s -> pid <> "" -> r ∈ deployments s -> Dep_ProjectID (dp_data r) = pid ->
  promoted target (Store_ListDeployments s pid) r = rewritten (promote_row target (read_weight (dp_data r))) r.
Proof.
  intros Hi Hp Hr Hpid. unfold promoted. destruct (ListDeployments_facts s pid Hi) as [Hn _].
  destruct (read_weight_same (dp_data r)) as (Eid & _ & _).
  change (Dep_ID (dp_data r)) with (dp_id r) in Eid. rewrite <- Eid.
  rewrite find_first_unique; [done|done|]. apply ListDeployments_elem. split; [done|]. by exists r.
Qed.

(** A deployment that takes all of its project's traffic. *)
Record is_live (d : Deployment) : Prop := {
  live_status : Dep_BuildStatus d = "live";
  live_production : Dep_IsProduction d = true;
  live_env : Dep_Environment d = "production";
  live_weight : Dep_RouteWeight d = 100
}.

(** What a row reads as after it was rewritten. *)
Lemma rewritten_read d r :
  dp_id r = Dep_ID d -> Dep_RouteWeight d <> 0 \/ Dep_RolloutPercent d = 0 ->
  let d' := read_weight (dp_data (rewritten d r)) in
  Dep_BuildStatus d' = Dep_BuildStatus d /\ Dep_IsProduction d' = Dep_IsProduction d /\
  Dep_Environment d' = Dep_Environment d /\ Dep_RouteWeight d' = Dep_RouteWeight d /\ Dep_VMIDs d' = Dep_VMIDs d.
Proof.
  intros Hid Hw. unfold rewritten, read_weight, normalise_weight. cbn [dp_data].
  destruct (Z.eqb_spec (Dep_RouteWeight d) 0) as [E1|E1], (Z.eqb_spec (Dep_RolloutPercent d) 0) as [E2|E2];
    cbn [negb andb]; cbn; rewrite ?E1, ?E2; cbn; try (destruct Hw; lia);
    repeat match goal with |- context [(?x =? 0)] => destruct (Z.eqb_spec x 0) end; cbn; split_and!; done || lia.
Qed.

Lemma read_weight_settled d : Dep_RouteWeight (read_weight d) <> 0 \/ Dep_RolloutPercent (read_weight d) = 0.
Proof. unfold read_weight. destruct (Z.eqb_spec (Dep_RouteWeight d) 0); cbn; lia. Qed.

Lemma GetProject_cached id s : exists c, (GetProject id s).1 = with_cache c s.
Proof.
  unfold GetProject. destruct (project_cache s !! id); [exists (project_cache s); by destruct s|].
  destruct (load_project s id); [by eexists|exists (project_cache s); by destruct s].
Qed.

(** Reading a stored project only fills the cache. *)
Lemma get_project_cached pid a proj :
  coherent (store a) -> load_project (store a) pid = Some proj ->
  exists c, get_project pid a = (with_store (with_cache c (store a)) a, Some proj).
Proof.
  intros Hc Hl. destruct (get_project_loaded pid a proj Hc Hl) as (s0 & E & _). destruct (GetProject_cached pid (store a)) as [c Ec].
  exists c. rewrite E. unfold get_project in E. destruct (GetProject pid (store a)) as [s1 o]. cbn in Ec. subst s1.
  by injection E as <- _.
Qed.

(** A stored deployment written again is read back as what was written. *)
Lemma update_read s pid d0 d :
  deps_inv s -> pid <> "" -> GetDeployment s pid (Dep_ID d) = Some d0 -> deployment_check s d = None ->
  exists s' r, updateDeployment d s = (normalise_weight d, s', Ok tt) /\
    dp_id r = Dep_ID d /\ GetDeployment s' pid (Dep_ID d) = Some (read_weight (dp_data (rewritten d r))) /\
    replica_rows s' = replica_rows s.
Proof.
  intros Hi Hp Hg Hck. apply find_first_In in Hg as [Hin Hid]. apply ListDeployments_elem in Hin as (_ & r & Hr & Hpid & ->).
  rewrite (proj1 (read_weight_same _)) in Hid. bools. assert (Hid' : dp_id r = Dep_ID d) by done.
  eexists _, r. split; [by apply (updateDeployment_stored s d r)|]. split_and!; [done| |done].
  set (s' := with_deployments _ _ s). rewrite <- Hid'. rewrite <- (rewritten_id d r) by done. rewrite <- Hpid at 1.
  apply (GetDeployment_row s' (rewritten d r)).
  - cbn. rewrite rewrite_rows_ids. apply Hi.
  - apply row_of_elem; [cbn; rewrite rewrite_rows_ids; apply Hi|]. cbn. apply list_elem_of_fmap. exists r.
    by rewrite bool_decide_eq_true_2.
  - cbn. by rewrite Hpid.
Qed.

(** The rows of the project's deployments once the loop and the last write are done. *)
Definition after_promote (dep : Deployment) (ds : list Deployment) (r : DepRow) : DepRow :=
  let r := promoted (Dep_ID dep) ds r in
  if dp_id r ==? Dep_ID dep then rewritten (live_deployment dep) r else r.

Lemma after_promote_id dep ds r : dp_id (after_promote dep ds r) = dp_id r.
Proof.
  unfold after_promote. assert (E : dp_id (promoted (Dep_ID dep) ds r) = dp_id r).
  { unfold promoted. destruct (find_first _ ds) as [d|] eqn:Ef; [|done]. apply find_first_In in Ef as [_ Ed]. bools.
    apply rewritten_id. by rewrite (proj1 (promote_row_same _ _)). }
  case_bool_decide as Ed; [|done]. by rewrite rewritten_id.
Qed.

(** Reading a deployment back after the promotion. *)
Lemma after_promote_read s s' pid dep r :
  deps_inv s -> pid <> "" -> r ∈ deployments s -> Dep_ProjectID (dp_data r) = pid ->
  deployments s' = after_promote dep (Store_ListDeployments s pid) <$> deployments s ->
  exists d', GetDeployment s' pid (dp_id r) = Some d' /\
    (dp_id r = Dep_ID dep -> is_live d' /\ Dep_VMIDs d' = Dep_VMIDs dep) /\
    (dp_id r <> Dep_ID dep -> Dep_IsProduction d' = false /\
       Dep_RouteWeight d' = Dep_RouteWeight (read_weight (dp_data r))).
Proof.
  intros Hi Hp Hr Hpid E. set (x := after_promote dep (Store_ListDeployments s pid) r).
  assert (Hx : x ∈ deployments s') by (rewrite E; apply list_elem_of_fmap; by exists r).
  assert (Hids : dp_id <$> deployments s' = dp_id <$> deployments s).
  { rewrite E, <- list_fmap_compose. apply list_fmap_ext. intros i y _. apply after_promote_id. }
  assert (Hn : NoDup (dp_id <$> deployments s')) by (rewrite Hids; apply Hi).
  assert (Hxid : dp_id x = dp_id r) by apply after_promote_id.
  pose proof (promoted_row s (Dep_ID dep) pid r Hi Hp Hr Hpid) as Hpr.
  assert (Hxp : Dep_ProjectID (dp_data x) = pid).
  { unfold x, after_promote. rewrite Hpr. case_goal; done. }
  exists (read_weight (dp_data x)). split.
  { rewrite <- Hxid, <- Hxp. apply GetDeployment_row; [done|by apply row_of_elem|congruence]. }
  destruct (read_weight_same (dp_data r)) as (Eid & _ & _).
  unfold x, after_promote. rewrite Hpr. rewrite rewritten_id by (rewrite (proj1 (promote_row_same _ _)); done).
  split; intros Ed.
  - rewrite bool_decide_eq_true_2 by done.
    destruct (rewritten_read (live_deployment dep) (rewritten (promote_row (Dep_ID dep) (read_weight (dp_data r))) r))
      as (R1 & R2 & R3 & R4 & R5); [|by left|by split].
    rewrite rewritten_id by (rewrite (proj1 (promote_row_same _ _)); done). done.
  - rewrite bool_decide_eq_false_2 by done.
    assert (Epr : promote_row (Dep_ID dep) (read_weight (dp_data r)) = Dep_set_IsProduction false (read_weight (dp_data r))).
    { unfold promote_row. cbn [Dep_ID Dep_set_IsProduction]. rewrite Eid.
      change (Dep_ID (dp_data r)) with (dp_id r). by rewrite bool_decide_eq_false_2. }
    rewrite Epr. destruct (rewritten_read (Dep_set_IsProduction false (read_weight (dp_data r))) r) as (R1 & R2 & R3 & R4 & R5);
      [exact (eq_sym Eid)|apply read_weight_settled|done].
Qed.

Lemma live_check s d : deployment_check s d = None -> deployment_check s (live_deployment d) = None.
Proof. rewrite !deployment_check_None. cbn. intros ((? & ? & ? & ?) & ? & ?). split_and!; try done. in_list. Qed.

(** The store after the loop, the retirement of the old pool and the last two writes. *)
Lemma promote_store a pid proj dep (keepOld : bool) old :
  deps_inv (store a) -> pid <> "" -> GetDeployment (store a) pid (Dep_ID dep) = Some dep ->
  let a1 := promote_rows (Dep_ID dep) (Store_ListDeployments (store a) pid) a in
  let a2 := on_store (PutProject proj) (if keepOld then a1 else retire old a1) in
  forall a3 d' r, create_deployment (live_deployment dep) a2 = (a3, d', r) ->
  Dep_ID d' = Dep_ID dep /\ projects (store a3) = projects (store a2) /\ replicas (store a3) = replicas (store a2) /\
  deployments (store a3) = after_promote dep (Store_ListDeployments (store a) pid) <$> deployments (store a).
Proof.
  intros Hi Hp Hg a1 a2 a3 d' r E3. destruct (ListDeployments_facts (store a) pid Hi) as [Hn Hds].
  destruct (promote_rows_spec (Dep_ID dep) (Store_ListDeployments (store a) pid) a Hi Hn Hds) as (P1 & _ & _ & P4).
  fold a1 in P1, P4.
  assert (Hd2 : deployments (store a2) = deployments (store a1)).
  { unfold a2. cbn. rewrite PutProject_deployments. destruct keepOld; [done|apply retire_replicas]. }
  assert (Hids : dp_id <$> deployments (store a2) = dp_id <$> deployments (store a1)) by (by rewrite Hd2).
  assert (Hi2 : deps_inv (store a2)).
  { destruct P1 as [Q1 Q2]. split; rewrite Hd2; [done|]. intros x Hx. rewrite (deployment_check_ids (store a1)) by done. by apply Q2. }
  clearbody a2. assert (Hids1 : dp_id <$> deployments (store a1) = dp_id <$> deployments (store a)).
  { rewrite P4, <- list_fmap_compose. apply list_fmap_ext. intros i x _. unfold compose, promoted.
    destruct (find_first _ _) as [d|] eqn:Ef; [|done]. apply find_first_In in Ef as [_ Ed]. bools.
    apply rewritten_id. by rewrite (proj1 (promote_row_same _ _)). }
  apply find_first_In in Hg as [Hin _]. destruct (Hds dep Hin) as [Hid Hc].
  rewrite <- Hids1, <- Hids in Hid. apply list_elem_of_fmap in Hid as (x & Ex & Hx).
  unfold create_deployment in E3. rewrite (updateDeployment_stored _ _ x) in E3; [|done|done|done|].
  2: { apply live_check. by rewrite (deployment_check_ids (store a)) by congruence. }
  injection E3 as <- <- _. split; [apply (proj1 (normalise_weight_id (live_deployment dep)))|]. split_and!; [done..|].
  cbn. rewrite Hd2, P4, <- list_fmap_compose. done.
Qed.

(** What the promotion leaves in the project and replica tables. *)
Lemma promote_frame a pid proj target (keepOld : bool) old :
  deps_inv (store a) ->
  let a1 := promote_rows target (Store_ListDeployments (store a) pid) a in
  let a2 := on_store (PutProject proj) (if keepOld then a1 else retire old a1) in
  projects (store a2) = projects (PutProject proj (store a)) /\ replicas (store a2) =
    if keepOld then replicas (store a) else base.filter (fun vm => VM_ID vm ∉ old) (replicas (store a)).
Proof.
  intros Hi a1 a2. destruct (ListDeployments_facts (store a) pid Hi) as [Hn Hds].
  destruct (promote_rows_spec target (Store_ListDeployments (store a) pid) a Hi Hn Hds) as (_ & Q & _ & _).
  fold a1 in Q. unfold a2. cbn [store on_store with_store].
  rewrite PutProject_replicas, !PutProject_projects. unfold project_ok.
  clearbody a1. injection Q as Q1 Q2. destruct keepOld; [by rewrite Q1, Q2|].
  destruct (retire_replicas old a1) as (-> & _ & ->). by rewrite Q1, Q2.
Qed.


(** The share a deployment reads back after [handleSetDeploymentRollout] set it. *)
Definition rollout_after (percent weight : Z) : Z * Z :=
  (if weight =? 0 then percent else weight, if percent =? 0 then weight else percent).

(** Setting the rollout percentage of a stored deployment answers 200 and
    stores it, but leaves a route weight that is not zero as it is, so the share of
    traffic the gateway sends does not follow; and a rollout of 0 is replaced by the
    current weight. A percentage outside 0..100 is refused and nothing changes. *)
Theorem handleSetDeploymentRollout_spec err_text pid target percent a proj d :
  coherent (store a) -> load_project (store a) pid = Some proj -> pid <> "" -> deps_inv (store a) ->
  GetDeployment (store a) pid target = Some d ->
  exists a' r, handleSetDeploymentRollout err_text pid target (Ok percent) a = (a', r) /\
    replica_rows (store a') = replica_rows (store a) /\
    if (0 <=? percent) && (percent <=? 100) then
      r_status r = 200 /\ exists d', GetDeployment (store a') pid target = Some d' /\
        (Dep_RouteWeight d', Dep_RolloutPercent d') = rollout_after percent (Dep_RouteWeight d)
    else r_status r = 400 /\ deployments (store a') = deployments (store a).
Proof.
  intros Hc Hl Hp Hi Hg. pose proof (load_project_id _ _ _ Hl) as Hid.
  destruct (get_project_cached pid a proj Hc Hl) as [c Hget]. set (a0 := with_store (with_cache c (store a)) a) in *.
  assert (Hg0 : GetDeployment (store a0) pid target = Some d) by exact Hg.
  assert (Hi0 : deps_inv (store a0)) by (destruct Hi as [Q1 Q2]; split; [exact Q1|exact Q2]).
  assert (Hr0 : replica_rows (store a0) = replica_rows (store a)) by done.
  assert (Hd0 : deployments (store a0) = deployments (store a)) by done.
  unfold handleSetDeploymentRollout, with_deployment. rewrite Hget, Hid, Hg0. rewrite <- Hr0, <- Hd0. clearbody a0.
  destruct (Z.ltb_spec percent 0), (Z.ltb_spec 100 percent), (Z.leb_spec 0 percent), (Z.leb_spec percent 100);
    try lia; cbn [orb andb]; [by eexists _, _..|].
  assert (Ht : Dep_ID d = target) by (apply find_first_In in Hg0 as [_ ?]; by bools). subst target.
  apply find_first_In in Hg as [Hin _]. apply ListDeployments_elem in Hin as (_ & r1 & Hr1 & Hp1 & Ed).
  assert (Hck : deployment_check (store a0) (Dep_set_RolloutPercent percent d) = None).
  { change (deployment_check (store a0) d = None). rewrite Ed, (proj2 (proj2 (read_weight_same _))). apply Hi0. by rewrite Hd0. }
  destruct (update_read (store a0) pid d (Dep_set_RolloutPercent percent d) Hi0 Hp Hg0 Hck) as (s' & r & E & Hrid & Hgd & Hrw).
  unfold create_deployment. rewrite E. eexists _, _. split; [reflexivity|]. split; [exact Hrw|]. split; [done|].
  eexists. split; [exact Hgd|]. unfold rollout_after, rewritten, normalise_weight, read_weight. cbn.
  destruct (Z.eqb_spec (Dep_RouteWeight d) 0) as [E1|E1], (Z.eqb_spec percent 0) as [E2|E2]; cbn;
    rewrite ?E1, ?E2; cbn; rewrite ?E1; try done;
    repeat first [progress cbn | match goal with |- context [?x =? 0] => destruct (Z.eqb_spec x 0); [lia|] end]; done.
Qed.
End Promote.

(** ** Rolling back and deleting *)

(** The target of a rollback is a deployment of the list: the one the pointer names
    when it is there, the next older one otherwise. *)
Lemma rollback_from_spec all pre ds id t :
  all = (pre ++ ds)%list -> rollback_from all ds id = Some t ->
  t ∈ all /\ exists d, d ∈ ds /\ Dep_ID d = id /\ (Dep_ID t = Dep_RollbackTo d \/
    exists l l', all = (l ++ d :: t :: l')%list).
Proof.
  revert pre. induction ds as [|d ds IH]; intros pre Hall; cbn; [done|]. case_bool_decide as Eid.
  - intros Ht. assert (Hs : head ds = Some t -> t ∈ all /\ exists d0, d0 ∈ d :: ds /\ Dep_ID d0 = id /\
      (Dep_ID t = Dep_RollbackTo d0 \/ exists l l', all = (l ++ d0 :: t :: l')%list)).
    { intros Hh. destruct ds as [|t' l']; [done|]. injection Hh as ->. split; [rewrite Hall; set_solver|].
      exists d. split; [left|]. split; [done|]. right. by exists pre, l'. }
    destruct (find_first _ all) as [p|] eqn:Ef; case_bool_decide; try by apply Hs.
    injection Ht as <-. apply find_first_In in Ef as [Hp Ep]. bools. split; [done|]. exists d.
    split; [left|]. split; [done|by left].
  - intros Ht. destruct (IH (pre ++ [d])%list) as (Hin & d0 & Hd0 & E & Hor); [by rewrite <- app_assoc|done|].
    split; [done|]. exists d0. split; [by right|done].
Qed.

Lemma filter_keeps {A} (P Q : A -> Prop) `{!forall x, Decision (P x), !forall x, Decision (Q x)} (l : list A) :
  (forall x, x ∈ l -> P x <-> Q x) -> base.filter P l = base.filter Q l.
Proof.
  induction l as [|x l IH]; intros Hx; [done|]. rewrite !filter_cons, IH by (intros; apply Hx; by right).
  specialize (Hx x ltac:(left)). repeat case_decide; tauto || done.
Qed.

(** A pool whose VMs all stop loses its rows. *)
Lemma stop_pool_ok {R} `{VMRunner R} ids (b : API R) :
  (forall r vm, (vr_Stop r vm).2 = None) ->
  exists b', stop_pool ids b = (b', None) /\
    replicas (store b') = base.filter (fun vm => VM_ID vm ∉ ids) (replicas (store b)) /\
    projects (store b') = projects (store b) /\ deployments (store b') = deployments (store b).
Proof.
  intros Hs. revert b. induction ids as [|i ids IH]; intros b.
  - exists b. split_and!; try done. induction (replicas (store b)) as [|r l IHl]; [done|].
    rewrite filter_cons_True by apply not_elem_of_nil. by rewrite <- IHl.
  - cbn. destruct (Store_GetVM (store b) i) as [vm|] eqn:Eg.
    + unfold run_vmm. specialize (Hs (vmm b) vm). destruct (vr_Stop (vmm b) vm) as [r e]. cbn in Hs. subst e.
      destruct (IH (on_store (DeleteVM i) (with_vmm r b))) as (b' & -> & Hr & Hp & Hd). exists b'. split_and!; try done.
      rewrite Hr. cbn. unfold delete_row. rewrite list_filter_filter. apply list_filter_iff. intros v.
      rewrite not_elem_of_cons. tauto.
    + destruct (IH b) as (b' & -> & Hr & Hp & Hd). exists b'. split_and!; try done. rewrite Hr.
      apply filter_keeps. intros v Hv. rewrite not_elem_of_cons. split; [|tauto]. intros Hn. split; [|done].
      intros Ei. unfold Store_GetVM, row in Eg. rewrite find_first_None, Forall_forall in Eg.
      specialize (Eg v Hv). by bools.
Qed.

Lemma DeleteDeployment_gone s pid id : GetDeployment (DeleteDeployment pid id s) pid id = None.
Proof.
  unfold GetDeployment. apply find_first_None, Forall_forall. intros x Hx. apply bool_decide_eq_false_2. intros Ex.
  apply ListDeployments_elem in Hx as (_ & r & Hin & Hpid & ->). rewrite (proj1 (read_weight_same _)) in Ex.
  unfold DeleteDeployment in Hin. cbn in Hin. apply list_elem_of_fmap in Hin as (r0 & -> & [Hh _]%list_elem_of_filter).
  revert Ex Hpid. case_goal; cbn; intros Ex Hpid; apply andb_false_iff in Hh as [Hh|Hh]; by bools.
Qed.

(** Deleting a deployment is refused, with nothing changed, for the production
    one; otherwise, when every VM of its pool stops, the rows of the pool and of the
    deployment are gone, and no other replica is touched. *)
Theorem handleDeleteDeployment_spec {R} `{VMRunner R} pid target (a : API R) d :
  GetDeployment (store a) pid target = Some d ->
  (Dep_IsProduction d = true \/ Dep_Environment d = "production" ->
     exists r, handleDeleteDeployment pid target a = (a, r) /\ r_status r = 409) /\
  (Dep_IsProduction d = false -> Dep_Environment d <> "production" ->
   (forall r vm, (vr_Stop r vm).2 = None) ->
     exists a' r, handleDeleteDeployment pid target a = (a', r) /\ r_status r = 200 /\
       replicas (store a') = base.filter (fun vm => VM_ID vm ∉ Dep_VMIDs d) (replicas (store a)) /\
       GetDeployment (store a') pid target = None /\ projects (store a') = projects (store a)).
Proof.
  intros Hg. assert (Ht : Dep_ID d = target) by (apply find_first_In in Hg as [_ ?]; by bools).
  unfold handleDeleteDeployment. rewrite Hg. split.
  { intros Hor. replace (_ || _) with true; [by eexists|]. symmetry. apply orb_true_iff.
    destruct Hor; [by left|right; by apply bool_decide_eq_true_2]. }
  intros -> He Hs. rewrite bool_decide_eq_false_2 by done. cbn [orb].
  destruct (stop_pool_ok (Dep_VMIDs d) a Hs) as (a' & -> & Hr & Hp & Hd). eexists _, _. split; [reflexivity|].
  cbn [store AppendDaemonLog on_store with_store]. rewrite Ht. split_and!; [done..|apply DeleteDeployment_gone|done].
Qed.

(** ** Witnesses and observations *)

Definition text_of (e : StoreErr) : string := "database error".
Definition deploy_body : result string DeployReq := Ok (mkDeployReq "custom://app" ∅ "v2" "" "" 10 1 "").

(** The demonstration server with one deployment, of one replica. *)
Definition deployed_api : API (list string) :=
  (handleCreateDeployment demo_wiring text_of 5 "ab" "p" deploy_body demo_api).1.

Definition deployed_row : Deployment := Eval vm_compute in
  match GetDeployment (store deployed_api) "p" "v" with Some d => d | None => Dep_zero end.
Definition deployed_project : Project := Eval vm_compute in
  match load_project (store deployed_api) "p" with Some p => p | None => Proj_zero end.

Lemma deployed_get : GetDeployment (store deployed_api) "p" "v" = Some deployed_row.
Proof. vm_compute. reflexivity. Qed.

Lemma deployed_load : load_project (store deployed_api) "p" = Some deployed_project.
Proof. vm_compute. reflexivity. Qed.

(** One project and one deployment. *)
Lemma deployed_inv :
  projects_inv (store deployed_api) /\ coherent (store deployed_api) /\ deps_inv (store deployed_api).
Proof.
  assert (Ep : exists r, projects (store deployed_api) = [r] /\ 0 <= Proj_ReplicasDesired (pr_data r))
    by (eexists; split; [vm_compute; reflexivity|done]).
  assert (Ec : project_cache (store deployed_api) = ∅) by (vm_compute; reflexivity).
  assert (Ed : exists r, deployments (store deployed_api) = [r] /\ deployment_check (store deployed_api) (dp_data r) = None)
    by (eexists; split; vm_compute; reflexivity).
  destruct Ep as (r & Er & Hr), Ed as (d & Ed & Hd). split_and!.
  - split; rewrite Er; [by intros ? ? ->%list_elem_of_singleton ->%list_elem_of_singleton|].
    by intros ? ->%list_elem_of_singleton.
  - intros id p. by rewrite Ec, lookup_empty.
  - split; rewrite Ed; [apply NoDup_singleton|by intros ? ->%list_elem_of_singleton].
Qed.


Lemma handleSetDeploymentRollout_spec_witness :
  exists a' r d', handleSetDeploymentRollout text_of "p" "v" (Ok 0) deployed_api = (a', r) /\ r_status r = 200 /\
    GetDeployment (store a') "p" "v" = Some d' /\ (Dep_RouteWeight d', Dep_RolloutPercent d') = (10, 10).
Proof.
  destruct deployed_inv as (H1 & H2 & H3).
  destruct (handleSetDeploymentRollout_spec text_of "p" "v" 0 deployed_api deployed_project deployed_row
    H2 deployed_load ltac:(done) H3 deployed_get) as (a' & r & E & _ & Hst & d' & Hd & Hw). by exists a', r, d'.
Defined.

Lemma handleDeleteDeployment_spec_witness :
  exists a' r, handleDeleteDeployment "p" "v" deployed_api = (a', r) /\ r_status r = 200 /\
    replicas (store a') = [] /\ GetDeployment (store a') "p" "v" = None.
Proof.
  destruct (handleDeleteDeployment_spec "p" "v" deployed_api deployed_row deployed_get) as [_ H1].
  destruct (H1 eq_refl ltac:(done) ltac:(done)) as (a' & r & E & Hst & Hr & Hg & _). exists a', r.
  split_and!; [done|done| |done]. rewrite Hr. vm_compute. reflexivity.
Defined.

(** A deployment's replicas are numbered from 0 like the production ones, so where
    the project already has a pool, none of their rows are stored; promoting the
    deployment then empties the replica table while the project still lists the VM. *)
Lemma deployment_pool_collides :
  let a := run_pool demo_wiring demo_api (OpScale 0 "p" (Ok 1)) in
  let b := (handleCreateDeployment demo_wiring text_of 5 "ab" "p" deploy_body a).1 in
  let c := (handlePromoteDeployment demo_wiring 9 "p" "iv" false b).1 in
  VM_ID <$> replicas (store b) = ["v"] /\
  Dep_VMIDs <$> GetDeployment (store b) "p" "iv" = Some ["iiv"] /\
  VM_ID <$> replicas (store c) = [] /\
  Proj_VMIDs <$> load_project (store c) "p" = Some ["iiv"].
Proof. vm_compute. by split_and!. Qed.

(** [currentRollout] of a list sorted newest first is the oldest deployment. *)
Lemma rollback_pointer_is_oldest :
  let create hex a := (handleCreateDeployment demo_wiring text_of 5 hex "p" (Ok (mkDeployReq "custom://app" ∅ "" "" "" 0 1 "")) a).1 in
  let a := create "c" (create "b" (create "a" demo_api)) in
  (fun d => (Dep_VersionLabel d, Dep_RollbackTo d)) <$> Store_ListDeployments (store a) "p" =
  [("rev-c", "v"); ("rev-b", "v"); ("rev-a", "")].
Proof. vm_compute. reflexivity. Qed.

(** The handler resolves against an empty registry, so that only a managed base is
    ever accepted. *)
Lemma only_managed_bases ref def b : ResolveGuestBase ref def ∅ = Ok b -> b ∈ ManagedGuestBases.
Proof.
  unfold ResolveGuestBase. rewrite lookup_empty. repeat case_goal; intros [= <-]; unfold ManagedGuestBases; set_solver.
Qed.

Close Scope Z_scope.
Close Scope string_scope.
