(* ===== verification/Access.v ===== *)
(** * Accounts, roles and memberships behind the API ([api/api.go], [api/handlers.go], [store/store.go])

    Login and API keys, users, roles, organisations, groups, memberships and the
    listing of projects a caller may see. The state is the pipeline's [Server] with
    the tables it does not read. The identifiers [store.NewID] returns, the collation
    of the database and the text of its errors are arguments. *)
From S2P Require Import Prelude GoStrings GoNum Types Store Rbac GoCrypto Auth Routes Api Pool.
From Stdlib Require Import String Ascii.

Open Scope string_scope.
Open Scope Z_scope.

(** ** Tables *)

Record TeamMember := mkTeamMember { tm_group : string; tm_user : string; tm_role : string }.

Record Accounts := mkAccounts {
  ac_srv : Server;
  ac_orgs : list Org;
  ac_groups : list Group;
  ac_team_members : list TeamMember;
  ac_log : list string;
  ac_next : nat }.

Definition with_users (l : list User) (db : TenancyDB) : TenancyDB :=
  mkTenancy (q_ok db) (role_assignments db) (role_permissions db) (roles db) (permissions db) (environments db)
    (group_projects db) (groups db) (project_orgs db) (teams db) l (org_members db) (project_members db).
Definition with_roles (l : list Role) (p : list RolePerm) (db : TenancyDB) : TenancyDB :=
  mkTenancy (q_ok db) (role_assignments db) p l (permissions db) (environments db)
    (group_projects db) (groups db) (project_orgs db) (teams db) (users db) (org_members db) (project_members db).
Definition with_org_members (l : list OrgMemberRow) (db : TenancyDB) : TenancyDB :=
  mkTenancy (q_ok db) (role_assignments db) (role_permissions db) (roles db) (permissions db) (environments db)
    (group_projects db) (groups db) (project_orgs db) (teams db) (users db) l (project_members db).
Definition with_project_members (l : list ProjMemberRow) (db : TenancyDB) : TenancyDB :=
  mkTenancy (q_ok db) (role_assignments db) (role_permissions db) (roles db) (permissions db) (environments db)
    (group_projects db) (groups db) (project_orgs db) (teams db) (users db) (org_members db) l.
Definition with_groups (g gp : list (string * string)) (db : TenancyDB) : TenancyDB :=
  mkTenancy (q_ok db) (role_assignments db) (role_permissions db) (roles db) (permissions db) (environments db)
    gp g (project_orgs db) (teams db) (users db) (org_members db) (project_members db).

Definition ac_db (a : Accounts) : TenancyDB := srv_db (ac_srv a).

Definition on_db (f : TenancyDB -> TenancyDB) (a : Accounts) : Accounts :=
  let s := ac_srv a in
  mkAccounts (mkServer (f (srv_db s)) (srv_sessions s) (srv_keys s) (srv_csrf s) (srv_rate_limit s) (srv_kid s))
    (ac_orgs a) (ac_groups a) (ac_team_members a) (ac_log a) (ac_next a).
Definition with_keys (k : list APIKey) (a : Accounts) : Accounts :=
  let s := ac_srv a in
  mkAccounts (mkServer (srv_db s) (srv_sessions s) k (srv_csrf s) (srv_rate_limit s) (srv_kid s))
    (ac_orgs a) (ac_groups a) (ac_team_members a) (ac_log a) (ac_next a).
Definition with_orgs (l : list Org) (a : Accounts) : Accounts :=
  mkAccounts (ac_srv a) l (ac_groups a) (ac_team_members a) (ac_log a) (ac_next a).
Definition ac_append_log (line : string) (a : Accounts) : Accounts :=
  mkAccounts (ac_srv a) (ac_orgs a) (ac_groups a) (ac_team_members a) (ac_log a ++ [line])%list (ac_next a).

(** ** Store operations *)

(** A conflict on the user name keeps the stored identifier. *)
Definition PutUser (u : User) (db : TenancyDB) : TenancyDB :=
  with_users (match find_first (fun x => User_Username x ==? User_Username u) (users db) with
              | Some old => upsert User_Username (mkUser (User_ID old) (User_Username u) (User_Role u) (User_Email u)
                              (User_NotifyOptIn u) (User_PasswordHash u) (User_Salt u) (User_CreatedAt old)) (users db)
              | None => if existsb (fun x => User_ID x ==? User_ID u) (users db) then users db
                        else (users db ++ [u])%list
              end) db.

Definition DeleteUser (id : string) (db : TenancyDB) : TenancyDB :=
  with_users (base.filter (fun u => User_ID u <> id) (users db)) db.

(** The permissions of a role live in their own table. *)
Definition PutRole (r : Role) (db : TenancyDB) : TenancyDB :=
  if (Role_ID r ==? "") || (Role_Name r ==? "") then db
  else with_roles (upsert Role_ID (Role_set_Permissions [] r) (roles db)) (role_permissions db) db.

(** The grants of a deleted role go with it (ON DELETE CASCADE). *)
Definition DeleteRole (id : string) (db : TenancyDB) : TenancyDB * bool :=
  (with_roles (base.filter (fun r => Role_ID r <> id) (roles db))
     (base.filter (fun p => rp_role p <> id) (role_permissions db)) db,
   existsb (fun r => Role_ID r ==? id) (roles db)).

Definition IsSystemRole (db : TenancyDB) (id : string) : bool :=
  match GetRole db id with Some r => Role_IsSystem r | None => false end.

Definition RoleSeesAll (db : TenancyDB) (id : string) : bool :=
  match GetRole db id with Some r => Role_SeesAll r || Role_IsAdmin r | None => false end.

Definition PutProjectMember (m : ProjectMember) (db : TenancyDB) : TenancyDB :=
  let hit r := (pm_project r ==? PM_ProjectID m) && (pm_user r ==? PM_UserID m) in
  let new := mkPMRow (PM_ProjectID m) (PM_UserID m) (PM_Role m) (PM_Invited m) in
  if existsb hit (project_members db)
  then with_project_members ((fun r => if hit r then new else r) <$> project_members db) db
  else if existsb (fun p => p.1 ==? PM_ProjectID m) (project_orgs db)
  then with_project_members (project_members db ++ [new])%list db
  else db.

Definition ListProjectMembers (db : TenancyDB) (projectID : string) : list ProjectMember :=
  (fun r => mkProjectMember (pm_project r) (pm_user r) (pm_role r) (pm_invited r) 0) <$>
    base.filter (fun r => pm_project r = projectID) (project_members db).

Definition DeleteProjectMember (projectID userID : string) (db : TenancyDB) : TenancyDB :=
  with_project_members
    (base.filter (fun r => ~ (pm_project r = projectID /\ pm_user r = userID)) (project_members db)) db.

Definition om_hit (orgID userID : string) (r : OrgMemberRow) : bool := (om_org r ==? orgID) && (om_user r ==? userID).

Definition SetOrgMemberRole (orgID userID role : string) (db : TenancyDB) : TenancyDB * bool :=
  (with_org_members ((fun r => if om_hit orgID userID r then mkOMRow orgID userID role else r) <$> org_members db) db,
   existsb (om_hit orgID userID) (org_members db)).

(** The organisation has to exist. *)
Definition AddOrgMember (orgs : list Org) (orgID userID role : string) (db : TenancyDB) : TenancyDB * bool :=
  if existsb (om_hit orgID userID) (org_members db) then ((SetOrgMemberRole orgID userID role db).1, true)
  else if existsb (fun o => Org_ID o ==? orgID) orgs
  then (with_org_members (org_members db ++ [mkOMRow orgID userID role])%list db, true)
  else (db, false).

Definition DeleteOrgMember (orgID userID : string) (db : TenancyDB) : TenancyDB * bool :=
  (with_org_members (base.filter (fun r => om_hit orgID userID r = false) (org_members db)) db,
   existsb (om_hit orgID userID) (org_members db)).

(** An INSERT without a conflict clause: a known identifier or name is an error. *)
Definition PutOrg (o : Org) (a : Accounts) : Accounts * bool :=
  if existsb (fun x => (Org_ID x ==? Org_ID o) || (Org_Name x ==? Org_Name o)) (ac_orgs a) then (a, false)
  else (with_orgs (ac_orgs a ++ [mkOrg (Org_ID o) (Org_Name o) (Org_OwnerID o) false 0])%list a, true).

(** An organisation without an owner has NULL there, which does not scan. *)
Definition GetOrg (a : Accounts) (id : string) : option Org :=
  match find_first (fun o => Org_ID o ==? id) (ac_orgs a) with
  | Some o => if Org_OwnerID o ==? "" then None else Some o
  | None => None
  end.

Definition PutGroup (g : Group) (a : Accounts) : Accounts * bool :=
  if existsb (fun x => Grp_ID x ==? Grp_ID g) (ac_groups a) ||
     negb (existsb (fun o => Org_ID o ==? Grp_OrgID g) (ac_orgs a))
  then (a, false)
  else
    let a' := on_db (fun db => with_groups (groups db ++ [(Grp_ID g, Grp_OrgID g)])%list (group_projects db) db) a in
    (mkAccounts (ac_srv a') (ac_orgs a) (ac_groups a ++ [g])%list (ac_team_members a) (ac_log a) (ac_next a), true).

(** Its projects and members go with a group (ON DELETE CASCADE). *)
Definition DeleteGroup (id : string) (a : Accounts) : Accounts * bool :=
  let a' := on_db (fun db => with_groups (base.filter (fun g => g.1 <> id) (groups db))
                               (base.filter (fun g => g.1 <> id) (group_projects db)) db) a in
  (mkAccounts (ac_srv a') (ac_orgs a) (base.filter (fun g => Grp_ID g <> id) (ac_groups a))
     (base.filter (fun m => tm_group m <> id) (ac_team_members a)) (ac_log a) (ac_next a),
   existsb (fun g => Grp_ID g ==? id) (ac_groups a)).

(** Both identifiers have to exist; a repeated row is kept. *)
Definition AddProjectToGroup (groupID projectID : string) (db : TenancyDB) : TenancyDB * bool :=
  if existsb (fun g => (g.1 ==? groupID) && (g.2 ==? projectID)) (group_projects db) then (db, true)
  else if existsb (fun g => g.1 ==? groupID) (groups db) && existsb (fun p => p.1 ==? projectID) (project_orgs db)
  then (with_groups (groups db) (group_projects db ++ [(groupID, projectID)])%list db, true)
  else (db, false).

Definition RemoveProjectFromGroup (groupID projectID : string) (db : TenancyDB) : TenancyDB :=
  with_groups (groups db) (base.filter (fun g => g <> (groupID, projectID)) (group_projects db)) db.

Definition AddTeamMember (groupID userID role : string) (a : Accounts) : Accounts :=
  let hit m := (tm_group m ==? groupID) && (tm_user m ==? userID) in
  let l := if existsb hit (ac_team_members a)
           then (fun m => if hit m then mkTeamMember groupID userID role else m) <$> ac_team_members a
           else if existsb (fun g => Grp_ID g ==? groupID) (ac_groups a)
           then (ac_team_members a ++ [mkTeamMember groupID userID role])%list
           else ac_team_members a in
  mkAccounts (ac_srv a) (ac_orgs a) (ac_groups a) l (ac_log a) (ac_next a).

(** API keys are looked up by hash and belong to a user. *)
Definition PutAPIKey (k : APIKey) (keys : list APIKey) : list APIKey :=
  match find_first (fun x => Key_ID x ==? Key_ID k) keys with
  | Some old => upsert Key_ID (mkAPIKey (Key_ID k) (Key_UserID old) (Key_Name k) (Key_TokenHash k) (Key_CreatedAt old)
                                 (Key_LastUsed old)) keys
  | None => if Key_UserID k ==? "" then keys else (keys ++ [k])%list
  end.

Definition ListAPIKeys (keys : list APIKey) (userID : string) : list APIKey :=
  base.filter (fun k => Key_UserID k = userID /\ userID <> "") keys.

Definition DeleteAPIKey (id : string) (keys : list APIKey) : list APIKey * bool :=
  (base.filter (fun k => Key_ID k <> id) keys, existsb (fun k => Key_ID k ==? id) keys).

(** [UserScopes]: direct memberships, then each organisation with its groups and their projects. *)
Definition UserScopes (db : TenancyDB) (username : string) : list Scope :=
  (match GetUserByUsername db username with
   | Some u => (fun m => mkScope ScopeProject (pm_project m)) <$>
                 base.filter (fun m => pm_user m = User_ID u) (project_members db)
   | None => []
   end ++
   mjoin ((fun orgID =>
     mkScope ScopeOrg orgID ::
     mjoin ((fun g => mkScope ScopeTeam g.1 ::
               ((fun gp => mkScope ScopeProject gp.2) <$> base.filter (fun gp => gp.1 = g.1) (group_projects db))) <$>
            base.filter (fun g => g.2 = orgID) (groups db))) <$> UserOrgIDs db username))%list.

(** ** Handlers *)

Section Handlers.
Context (newid : nat -> string) (collate : forall A, (A -> string) -> list A -> list A) (db_error : string).

Definition fresh (a : Accounts) : Accounts * string :=
  (mkAccounts (ac_srv a) (ac_orgs a) (ac_groups a) (ac_team_members a) (ac_log a) (S (ac_next a)), newid (ac_next a)).

Definition ListOrgs (a : Accounts) : list Org :=
  (fun o => mkOrg (Org_ID o) (Org_Name o) "" false 0) <$> collate Org Org_Name (ac_orgs a).

Definition ListGroups (a : Accounts) (orgID : string) : list Group :=
  collate Group Grp_Name (base.filter (fun g => Grp_OrgID g = orgID) (ac_groups a)).

Definition DefaultRoleID (db : TenancyDB) : string :=
  match collate Role Role_ID (base.filter (fun r => Role_IsDefault r = true) (roles db)) with
  | r :: _ => Role_ID r
  | [] => ""
  end.

Definition ListOrgMembers (a : Accounts) (orgID : string) : list OrgMember :=
  collate OrgMember OM_Username
    (omap (fun m => if om_org m ==? orgID
                    then (fun u => mkOrgMember (om_org m) (om_user m) (User_Username u) (om_role m)) <$>
                           find_first (fun u => User_ID u ==? om_user m) (users (ac_db a))
                    else None) (org_members (ac_db a))).

(** [orgIDFromHeader] *)
Definition orgIDFromHeader (header : string) (a : Accounts) : string :=
  if header !=? "" then header else match ListOrgs a with o :: _ => Org_ID o | [] => "" end.

(** *** Login and API keys *)

Definition issueUserToken (now : Z) (user : User) (a : Accounts) : Accounts * string :=
  let '(a, r1) := fresh a in
  let '(a, r2) := fresh a in
  let raw := r1 ++ r2 in
  let '(a, id) := fresh a in
  (with_keys (PutAPIKey (mkAPIKey id (User_ID user) "session" (hash_hex raw) now None) (srv_keys (ac_srv a))) a, raw).

Definition handleLogin (now : Z) (body : result string (string * string)) (a : Accounts) : Accounts * Resp :=
  match body with
  | Err e => (a, writeError 400 ("bad request: " ++ e))
  | Ok (username, password) =>
      let denied := (a, writeError 401 "invalid username or password") in
      match GetUserByUsername (ac_db a) username with
      | Some user =>
          if VerifyPassword password (User_Salt user) (User_PasswordHash user) then
            let '(a, token) := issueUserToken now user a in
            (a, writeJSON 200 (JObj [("token", JStr token); ("user", JUser user)]))
          else denied
      | None => denied
      end
  end.

Definition handleListAPIKeys (me : string) (a : Accounts) : Accounts * Resp :=
  match GetUserByUsername (ac_db a) me with
  | None => (a, writeError 401 "authenticated user not found")
  | Some u => (a, writeJSON 200 (JList (JKey <$> ListAPIKeys (srv_keys (ac_srv a)) (User_ID u))))
  end.

Definition handleCreateAPIKey (now : Z) (me : string) (body : result string string) (a : Accounts) : Accounts * Resp :=
  match body with
  | Err e => (a, writeError 400 ("bad request: " ++ e))
  | Ok name =>
      let name := if name ==? "" then "default" else name in
      match GetUserByUsername (ac_db a) me with
      | None => (a, writeError 401 "authenticated user not found")
      | Some u =>
          let '(a, raw) := fresh a in
          let '(a, id) := fresh a in
          let k := mkAPIKey id (User_ID u) name (hash_hex raw) now None in
          (with_keys (PutAPIKey k (srv_keys (ac_srv a))) a,
           writeJSON 201 (JObj [("api_key", JKey k); ("token", JStr raw)]))
      end
  end.

Definition handleDeleteAPIKey (keyId : string) (a : Accounts) : Accounts * Resp :=
  let '(keys, ok) := DeleteAPIKey keyId (srv_keys (ac_srv a)) in
  (with_keys keys a, if ok then writeJSON 200 (JObj [("status", JStr "deleted")]) else writeError 404 "api key not found").

(** *** Users *)

Record UserReq := mkUserReq { uq_Username : string; uq_Password : string; uq_Role : string; uq_Email : string; uq_Notify : bool }.

(** [ensurePersonalTeam] *)
Definition ensurePersonalTeam (now : Z) (header : string) (u : User) (a : Accounts) : Accounts :=
  let orgID := orgIDFromHeader header a in
  if orgID ==? "" then a
  else
    let name := User_Username u ++ "-team" in
    if existsb (fun g => Grp_Name g ==? name) (ListGroups a orgID) then a
    else
      let '(a, id) := fresh a in
      let '(a, ok) := PutGroup (mkGroup id orgID name now) a in
      if negb ok then a
      else
        let role := DefaultRoleID (ac_db a) in
        if role ==? "" then a else AddTeamMember id (User_ID u) role a.

Definition handleCreateUser (now : Z) (header : string) (body : result string UserReq) (a : Accounts) : Accounts * Resp :=
  match body with
  | Err e => (a, writeError 400 ("bad request: " ++ e))
  | Ok req =>
      if uq_Username req ==? "" then (a, writeError 400 "username is required")
      else
        let role := if uq_Role req ==? "" then DefaultRoleID (ac_db a) else uq_Role req in
        if role ==? "" then (a, writeError 503 "no default role is seeded; create one via POST /roles")
        else
          match GetRole (ac_db a) role with
          | None => (a, writeError 400 ("unknown role: " ++ role))
          | Some _ =>
              let '(a, salt) := fresh a in
              let '(a, id) := fresh a in
              let u := mkUser id (uq_Username req) role (uq_Email req) (uq_Notify req)
                         (HashPassword (uq_Password req) salt) salt now in
              let a := on_db (PutUser u) a in
              (ensurePersonalTeam now header u a, writeJSON 201 (JUser u))
          end
  end.

Definition handleDeleteUser (username : string) (a : Accounts) : Accounts * Resp :=
  match GetUserByUsername (ac_db a) username with
  | None => (a, writeError 404 "user not found")
  | Some u => (on_db (DeleteUser (User_ID u)) a, writeJSON 200 (JObj [("status", JStr "deleted")]))
  end.

(** *** Roles *)

Definition handleGetRole (roleId : string) (a : Accounts) : Accounts * Resp :=
  match GetRole (ac_db a) roleId with
  | Some r => (a, writeJSON 200 (JRole r))
  | None => (a, writeError 404 "role not found")
  end.

Definition handleCreateRole (body : result string Role) (a : Accounts) : Accounts * Resp :=
  match body with
  | Err e => (a, writeError 400 ("bad request: " ++ e))
  | Ok req =>
      if (Role_ID req ==? "") || (Role_Name req ==? "") then (a, writeError 400 "role id and name are required")
      else
        let a := on_db (PutRole req) a in
        let a := match Role_Permissions req with
                 | [] => a
                 | perms => on_db (fun db => (SetRolePermissions (Role_ID req) perms db).1) a
                 end in
        (a, writeJSON 201 (match GetRole (ac_db a) (Role_ID req) with Some r => JRole r | None => JNull end))
  end.

Definition handlePatchRole (roleId : string) (body : result string (string * string)) (a : Accounts) : Accounts * Resp :=
  if IsSystemRole (ac_db a) roleId then (a, writeError 403 "system roles cannot be edited")
  else
    match GetRole (ac_db a) roleId with
    | None => (a, writeError 404 "role not found")
    | Some role =>
        match body with
        | Err e => (a, writeError 400 ("bad request: " ++ e))
        | Ok (name, description) =>
            let role := if name !=? "" then Role_set_Name name role else role in
            let role := if description !=? "" then Role_set_Description description role else role in
            (on_db (PutRole role) a, writeJSON 200 (JRole role))
        end
    end.

Definition handleDeleteRole (roleId : string) (a : Accounts) : Accounts * Resp :=
  if IsSystemRole (ac_db a) roleId then (a, writeError 403 "system roles cannot be deleted")
  else
    let ok := (DeleteRole roleId (ac_db a)).2 in
    (on_db (fun db => (DeleteRole roleId db).1) a,
     if ok then writeJSON 200 (JObj [("status", JStr "deleted")]) else writeError 404 "role not found").

Definition permissions_body (roleId : string) (a : Accounts) : Json :=
  JObj [("role", JStr roleId); ("permissions", JStrs (RolePermissions (ac_db a) roleId))].

Definition handleGetRolePermissions (roleId : string) (a : Accounts) : Accounts * Resp :=
  match GetRole (ac_db a) roleId with
  | None => (a, writeError 404 "role not found")
  | Some _ => (a, writeJSON 200 (permissions_body roleId a))
  end.

Definition handleSetRolePermissions (roleId : string) (body : result string (list string)) (a : Accounts)
    : Accounts * Resp :=
  if IsSystemRole (ac_db a) roleId then (a, writeError 403 "system role permissions are migration-managed")
  else
    match GetRole (ac_db a) roleId with
    | None => (a, writeError 404 "role not found")
    | Some _ =>
        match body with
        | Err e => (a, writeError 400 ("bad request: " ++ e))
        | Ok perms =>
            if (SetRolePermissions roleId perms (ac_db a)).2 then
              let a := on_db (fun db => (SetRolePermissions roleId perms db).1) a in
              (a, writeJSON 200 (permissions_body roleId a))
            else (a, writeError 500 ("failed to update permissions: " ++ db_error))
        end
    end.

(** [handleAddRolePermission], [handleRemoveRolePermission] *)
Definition guarded_role (roleId : string) (f : TenancyDB -> TenancyDB) (status : string) (a : Accounts)
    : Accounts * Resp :=
  if IsSystemRole (ac_db a) roleId then (a, writeError 403 "system role permissions are migration-managed")
  else
    match GetRole (ac_db a) roleId with
    | None => (a, writeError 404 "role not found")
    | Some _ => (on_db f a, writeJSON 200 (JObj [("status", JStr status)]))
    end.

Definition handleAddRolePermission (roleId perm : string) (a : Accounts) : Accounts * Resp :=
  guarded_role roleId (AddRolePermission roleId perm) "granted" a.
Definition handleRemoveRolePermission (roleId perm : string) (a : Accounts) : Accounts * Resp :=
  guarded_role roleId (RemoveRolePermission roleId perm) "revoked" a.

(** *** Organisations *)

Definition handleDefaultOrg (header : string) (a : Accounts) : Accounts * Resp :=
  match GetOrg a (orgIDFromHeader header a) with
  | Some o => (a, writeJSON 200 (JOrg o))
  | None => (a, match ListOrgs a with o :: _ => writeJSON 200 (JOrg o) | [] => writeError 404 "no org set" end)
  end.

Definition handleCreateOrg (now : Z) (me userHeader : string) (body : result string string) (a : Accounts)
    : Accounts * Resp :=
  match body with
  | Err e => (a, writeError 400 ("bad request: " ++ e))
  | Ok name =>
      if name ==? "" then (a, writeError 400 "org name is required")
      else
        let owner := if (userHeader !=? "") && (userHeader !=? me) then "" else me in
        let '(a, id) := fresh a in
        let o := mkOrg id name owner true now in
        let '(a, ok) := PutOrg o a in
        (a, if ok then writeJSON 201 (JOrg o) else writeError 500 ("failed to create org: " ++ db_error))
  end.

Definition handleGetOrg (header : string) (a : Accounts) : Accounts * Resp :=
  match GetOrg a (orgIDFromHeader header a) with
  | Some o => (a, writeJSON 200 (JOrg o))
  | None => (a, writeError 404 "org not found")
  end.

Definition handlePatchOrg (header : string) (body : result string string) (a : Accounts) : Accounts * Resp :=
  match body with
  | Err e => (a, writeError 400 ("bad request: " ++ e))
  | Ok name =>
      match GetOrg a (orgIDFromHeader header a) with
      | None => (a, writeError 404 "org not found")
      | Some o =>
          let o := if name !=? "" then Org_set_Name name o else o in
          let '(a, ok) := PutOrg o a in
          (a, if ok then writeJSON 200 (JOrg o) else writeError 500 ("failed to update org: " ++ db_error))
      end
  end.

(** An unreadable body leaves the request empty. *)
Definition handlePatchCurrentOrg (header name : string) (a : Accounts) : Accounts * Resp :=
  match GetOrg a (orgIDFromHeader header a) with
  | None => (a, writeError 404 "no org set")
  | Some o =>
      let o := if name !=? "" then Org_set_Name name o else o in
      ((PutOrg o a).1, writeJSON 200 (JObj [("org", JOrg o)]))
  end.

Definition handleDeleteCurrentOrg (header : string) (a : Accounts) : Accounts * Resp :=
  match GetOrg a (orgIDFromHeader header a) with
  | None => (a, writeError 404 "no org set")
  | Some o =>
      if Org_IsDefault o then (a, writeError 403 "cannot delete your default org")
      else (a, writeJSON 200 (JObj [("status", JStr "deleted"); ("org", JStr (Org_Name o))]))
  end.

Definition handleOrgTransfer (header email : string) (a : Accounts) : Accounts * Resp :=
  match GetOrg a (orgIDFromHeader header a) with
  | None => (a, writeError 404 "no org set")
  | Some o =>
      let o := Org_set_OwnerID email o in
      let a := (PutOrg o a).1 in
      (ac_append_log ("org " ++ Org_Name o ++ " transferred to " ++ email) a,
       writeJSON 200 (JObj [("status", JStr "transferred"); ("to", JStr email); ("org", JOrg o)]))
  end.

Definition handleListOrgMembers (header : string) (a : Accounts) : Accounts * Resp :=
  let orgID := orgIDFromHeader header a in
  (a, writeJSON 200 (JObj [("org_id", JStr orgID); ("members", JList (JOrgMember <$> ListOrgMembers a orgID))])).

Definition handleAddOrgMember (now : Z) (header username password role : string) (a : Accounts) : Accounts * Resp :=
  if username ==? "" then (a, writeError 400 "username is required")
  else
    let role := if role ==? "" then DefaultRoleID (ac_db a) else role in
    if role ==? "" then (a, writeError 503 "no default role is seeded; create one via POST /roles")
    else
      match GetRole (ac_db a) role with
      | None => (a, writeError 400 ("unknown role: " ++ role))
      | Some _ =>
          let found :=
            match GetUserByUsername (ac_db a) username with
            | Some u => Some (a, u)
            | None =>
                if password ==? "" then None
                else
                  let '(a, salt) := fresh a in
                  let '(a, id) := fresh a in
                  let u := mkUser id username "member" "" false (HashPassword password salt) salt now in
                  Some (on_db (PutUser u) a, u)
            end in
          match found with
          | None => (a, writeError 400 "password is required when creating a new user")
          | Some (a, u) =>
              let orgID := orgIDFromHeader header a in
              if orgID ==? "" then (a, writeError 400 "organization context is required")
              else
                let ok := (AddOrgMember (ac_orgs a) orgID (User_ID u) role (ac_db a)).2 in
                let a := on_db (fun db => (AddOrgMember (ac_orgs a) orgID (User_ID u) role db).1) a in
                if ok then
                  (ac_append_log ("org member " ++ username ++ " added (role " ++ role ++ ")") a,
                   writeJSON 201 (JObj [("status", JStr "added");
                     ("member", JOrgMember (mkOrgMember orgID (User_ID u) (User_Username u) role))]))
                else (a, writeError 500 ("add organization member: " ++ db_error))
          end
      end.

Definition handlePatchOrgMember (header username role : string) (a : Accounts) : Accounts * Resp :=
  match GetUserByUsername (ac_db a) username with
  | None => (a, writeJSON 404 (JObj [("status", JStr "user not found"); ("username", JStr username)]))
  | Some u =>
      if role ==? "" then (a, writeError 400 "role is required")
      else
        match GetRole (ac_db a) role with
        | None => (a, writeError 400 ("unknown role: " ++ role))
        | Some _ =>
            let orgID := orgIDFromHeader header a in
            if (SetOrgMemberRole orgID (User_ID u) role (ac_db a)).2 then
              (on_db (fun db => (SetOrgMemberRole orgID (User_ID u) role db).1) a,
               writeJSON 200 (JObj [("status", JStr "updated"); ("username", JStr username); ("role", JStr role)]))
            else (a, writeError 404 "organization membership not found")
        end
  end.

Definition handleRemoveOrgMember (header username : string) (a : Accounts) : Accounts * Resp :=
  match GetUserByUsername (ac_db a) username with
  | None => (a, writeJSON 404 (JObj [("status", JStr "user not found"); ("username", JStr username)]))
  | Some u =>
      let orgID := orgIDFromHeader header a in
      if match GetOrg a orgID with Some o => Org_OwnerID o ==? User_ID u | None => false end
      then (a, writeError 403 "organization owner cannot be removed")
      else if (DeleteOrgMember orgID (User_ID u) (ac_db a)).2 then
        (ac_append_log ("org member " ++ username ++ " removed")
           (on_db (fun db => (DeleteOrgMember orgID (User_ID u) db).1) a),
         writeJSON 200 (JObj [("status", JStr "removed"); ("username", JStr username)]))
      else (a, writeError 404 "organization membership not found")
  end.

(** *** Groups *)

Definition handleListGroups (header : string) (a : Accounts) : Accounts * Resp :=
  (a, writeJSON 200 (JObj [("groups", JList (JGroup <$> ListGroups a (orgIDFromHeader header a)))])).

Definition handleCreateGroup (now : Z) (header : string) (body : result string string) (a : Accounts) : Accounts * Resp :=
  let orgID := orgIDFromHeader header a in
  match body with
  | Err e => (a, writeError 400 ("bad request: " ++ e))
  | Ok name =>
      let '(a, id) := fresh a in
      let g := mkGroup id orgID name now in
      let '(a, ok) := PutGroup g a in
      (a, if ok then writeJSON 201 (JObj [("group", JGroup g)]) else writeError 500 db_error)
  end.

Definition groupsAll (a : Accounts) : list Group := mjoin ((fun o => ListGroups a (Org_ID o)) <$> ListOrgs a).

Definition handleGetGroup (groupId : string) (a : Accounts) : Accounts * Resp :=
  match find_first (fun g => Grp_ID g ==? groupId) (groupsAll a) with
  | Some g => (a, writeJSON 200 (JObj [("group", JGroup g)]))
  | None => (a, writeError 404 "group not found")
  end.

Definition handleDeleteGroup (groupId : string) (a : Accounts) : Accounts * Resp :=
  let '(a, deleted) := DeleteGroup groupId a in
  (a, writeJSON 200 (JObj [("status", JStr "deleted"); ("id", JStr groupId); ("deleted", JBool deleted)])).

Definition handleAddGroupProject (groupId projectId : string) (a : Accounts) : Accounts * Resp :=
  if (AddProjectToGroup groupId projectId (ac_db a)).2
  then (on_db (fun db => (AddProjectToGroup groupId projectId db).1) a, writeJSON 200 (JObj [("status", JStr "added")]))
  else (a, writeError 500 db_error).

Definition handleRemoveGroupProject (groupId projectId : string) (a : Accounts) : Accounts * Resp :=
  (on_db (RemoveProjectFromGroup groupId projectId) a, writeJSON 200 (JObj [("status", JStr "removed")])).

(** *** Project members *)

Definition handleGetProjectMember (pid username : string) (a : Accounts) : Accounts * Resp :=
  match GetUserByUsername (ac_db a) username with
  | Some u =>
      match find_first (fun m => User_ID u ==? PM_UserID m) (ListProjectMembers (ac_db a) pid) with
      | Some m => (a, writeJSON 200 (JObj [("member", JMember m); ("username", JStr (User_Username u))]))
      | None => (a, writeError 404 "member not found")
      end
  | None => (a, writeError 404 "member not found")
  end.

(** The role is not checked. *)
Definition handlePatchProjectMember (pid username role : string) (a : Accounts) : Accounts * Resp :=
  match GetUserByUsername (ac_db a) username with
  | None => (a, writeError 404 "user not found")
  | Some u =>
      match find_first (fun m => PM_UserID m ==? User_ID u) (ListProjectMembers (ac_db a) pid) with
      | None => (a, writeError 404 "member not found")
      | Some m =>
          (on_db (PutProjectMember (mkProjectMember (PM_ProjectID m) (PM_UserID m) role (PM_Invited m) (PM_CreatedAt m))) a,
           writeJSON 200 (JObj [("member", JStr role); ("username", JStr username)]))
      end
  end.

Definition handleRemoveProjectMember (pid username : string) (a : Accounts) : Accounts * Resp :=
  match GetUserByUsername (ac_db a) username with
  | None => (a, writeError 404 "user not found")
  | Some u => (on_db (DeleteProjectMember pid (User_ID u)) a, writeJSON 200 (JObj [("status", JStr "removed")]))
  end.

Definition handleAddProjectMember (now : Z) (pid : string) (body : result string (string * string)) (a : Accounts)
    : Accounts * Resp :=
  match body with
  | Err e => (a, writeError 400 ("bad request: " ++ e))
  | Ok (username, role) =>
      if username ==? "" then (a, writeError 400 "username is required")
      else
        let role := if role ==? "" then DefaultRoleID (ac_db a) else role in
        if role ==? "" then (a, writeError 503 "no default role is seeded; create one via POST /roles")
        else
          match GetUserByUsername (ac_db a) username with
          | None => (a, writeError 404 "user not found")
          | Some u =>
              let m := mkProjectMember pid (User_ID u) role false now in
              (on_db (PutProjectMember m) a,
               writeJSON 201 (JObj [("member", JMember m); ("username", JStr (User_Username u))]))
          end
  end.

Definition handleInviteMember (now : Z) (pid email username : string) (a : Accounts) : Accounts * Resp :=
  let defRole := DefaultRoleID (ac_db a) in
  if defRole ==? "" then (a, writeError 503 "no default role is seeded; create one via POST /roles")
  else
    match GetUserByUsername (ac_db a) username with
    | None =>
        let '(a, id) := fresh a in
        let m := mkProjectMember pid id defRole true now in
        (on_db (PutProjectMember m) a,
         writeJSON 201 (JObj [("member", JMember m); ("email", JStr email); ("invited", JBool true)]))
    | Some u =>
        let m := mkProjectMember pid (User_ID u) defRole true now in
        (on_db (PutProjectMember m) a,
         writeJSON 201 (JObj [("member", JMember m); ("email", JStr email); ("username", JStr (User_Username u));
                              ("invited", JBool true)]))
    end.

(** *** The project list *)

Context (order : gset string -> list string).

Definition projectListVisibleEverywhere (db : TenancyDB) (p : principal) : bool :=
  Store_HasCapability order db "user" (p_username p) "project.list" "platform" "" || RoleSeesAll db (p_role p).

Definition filterProjectsByScope (db : TenancyDB) (me : string) (projects : list Project) : list Project :=
  let scopes := UserScopes db me in
  base.filter (fun p => mkScope ScopeProject (Proj_ID p) ∈ scopes \/ mkScope ScopeOrg (Proj_OrgID p) ∈ scopes) projects.

(** [handleListProjects] before paging; an organisation without projects yields an
    empty list, not the list of all. *)
Definition list_projects (header : string) (p : principal) (a : Accounts) (st : StoreState) : list Project :=
  let orgID := orgIDFromHeader header a in
  let projects := if orgID !=? "" then ListProjectsByOrg st orgID else ListProjects st in
  if projectListVisibleEverywhere (ac_db a) p then projects else filterProjectsByScope (ac_db a) (p_username p) projects.

Definition handleListProjects (limit cursor header : string) (p : principal) (a : Accounts) (st : StoreState)
    : Page Project := paginate limit cursor (list_projects header p a st).
End Handlers.

(** ** Login *)

(** The token and key identifier a login draws are new: no key or session has the
    token's hash, no key the identifier, and the token does not look like a JWT. *)
Record login_fresh (newid : nat -> string) (a : Accounts) : Prop := {
  lf_key : newid (S (S (ac_next a))) ∉ (Key_ID <$> srv_keys (ac_srv a));
  lf_hash : hash_hex (newid (ac_next a) ++ newid (S (ac_next a))) ∉ (Key_TokenHash <$> srv_keys (ac_srv a));
  lf_session : srv_sessions (ac_srv a) !! hash_hex (newid (ac_next a) ++ newid (S (ac_next a))) = None;
  lf_dots : count_dots (newid (ac_next a) ++ newid (S (ac_next a))) <> 2%nat
}.


(** ** System roles *)

(** The requests that change roles. *)
Inductive RoleOp :=
| OpCreateRole (body : result string Role)
| OpPatchRole (roleId : string) (body : result string (string * string))
| OpDeleteRole (roleId : string)
| OpSetRolePermissions (roleId : string) (body : result string (list string))
| OpAddRolePermission (roleId perm : string)
| OpRemoveRolePermission (roleId perm : string).

Definition run_role (db_error : string) (a : Accounts) (o : RoleOp) : Accounts :=
  match o with
  | OpCreateRole body => (handleCreateRole body a).1
  | OpPatchRole id body => (handlePatchRole id body a).1
  | OpDeleteRole id => (handleDeleteRole id a).1
  | OpSetRolePermissions id body => (handleSetRolePermissions db_error id body a).1
  | OpAddRolePermission id p => (handleAddRolePermission id p a).1
  | OpRemoveRolePermission id p => (handleRemoveRolePermission id p a).1
  end.

(** The role row and the grants of a role. *)
Definition role_is (ok : Query -> bool) (db : TenancyDB) (id : string) (r : Role) (perms : list RolePerm) : Prop :=
  q_ok db = ok /\ row Role_ID id (roles db) = Some r /\
  base.filter (fun p => rp_role p = id) (role_permissions db) = perms.

Lemma role_is_system ok db id r perms : role_is ok db id r perms -> ok QRole = true -> Role_IsSystem r = true -> IsSystemRole db id = true.
Proof. intros (<- & Hr & _) Hq Hs. unfold IsSystemRole, GetRole. rewrite Hq. unfold row in Hr. by rewrite Hr. Qed.

Lemma role_is_PutRole ok db id r perms x : role_is ok db id r perms -> Role_ID x <> id -> role_is ok (PutRole x db) id r perms.
Proof.
  intros (Hq & Hr & Hp) Hne. unfold PutRole. case_goal; [done|]. split_and!; [done| |done]. cbn [roles with_roles].
  by rewrite row_upsert_ne.
Qed.

Lemma role_is_perms ok db id r perms l :
  role_is ok db id r perms -> base.filter (fun p => rp_role p = id) l = base.filter (fun p => rp_role p = id) (role_permissions db) ->
  role_is ok (with_role_permissions l db) id r perms.
Proof. intros (Hq & Hr & Hp) E. split_and!; [done..|]. cbn. by rewrite E. Qed.

Lemma role_is_Add ok db id r perms x p : role_is ok db id r perms -> x <> id -> role_is ok (AddRolePermission x p db) id r perms.
Proof.
  intros Hr Hne. unfold AddRolePermission. repeat case_goal; try done. apply role_is_perms; [done|].
  by rewrite filter_app, filter_cons_False, filter_nil, app_nil_r.
Qed.

Lemma role_is_Remove ok db id r perms x p : role_is ok db id r perms -> x <> id -> role_is ok (RemoveRolePermission x p db) id r perms.
Proof.
  intros Hr Hne. apply role_is_perms; [done|]. rewrite list_filter_filter. apply list_filter_iff. intros q.
  split; [tauto|]. intros E. split; [done|]. intros [E' _]. congruence.
Qed.

Lemma role_is_Set ok db id r perms x ps : role_is ok db id r perms -> x <> id -> role_is ok (SetRolePermissions x ps db).1 id r perms.
Proof.
  intros Hr Hne. unfold SetRolePermissions.
  match goal with |- context [if ?b then _ else _] => destruct b; [|done] end. cbn [fst]. set (db0 := with_role_permissions _ db).
  assert (H0 : role_is ok db0 id r perms).
  { apply role_is_perms; [done|]. rewrite list_filter_filter. apply list_filter_iff. intros q. split; [tauto|].
    intros E. split; [done|congruence]. }
  clearbody db0. revert db0 H0. induction ps as [|p ps IH]; intros db0 H0; [done|]. cbn. apply IH. by apply role_is_Add.
Qed.

Lemma role_is_Delete ok db id r perms x : role_is ok db id r perms -> x <> id -> role_is ok (DeleteRole x db).1 id r perms.
Proof.
  intros (Hq & Hr & Hp) Hne. split_and!; [done|..]; cbn.
  - unfold row in *. induction (roles db) as [|y l IH]; [done|]. cbn in Hr. rewrite filter_cons.
    case_bool_decide as Ey; simplify_eq; cbn.
    + rewrite decide_True by congruence. cbn. by rewrite bool_decide_eq_true_2.
    + case_decide; [cbn; rewrite bool_decide_eq_false_2 by done|]; by apply IH.
  - rewrite <- Hp, list_filter_filter. apply list_filter_iff. intros q. split; [tauto|]. intros E. split; [done|congruence].
Qed.

Create HintDb roles.
#[export] Hint Resolve role_is_PutRole role_is_Add role_is_Remove role_is_Set role_is_Delete : roles.

Definition creates (id : string) (o : RoleOp) : Prop :=
  match o with OpCreateRole (Ok r) => Role_ID r = id | _ => False end.

Lemma GetRole_id db x r : GetRole db x = Some r -> Role_ID r = x.
Proof.
  unfold GetRole. destruct (q_ok db QRole); [|done]. destruct (find_first _ _) as [y|] eqn:E; [|done].
  intros [= <-]. apply find_first_In in E as [_ Ey]. by bools.
Qed.

Lemma run_role_keeps ok e a o id r perms :
  role_is ok (ac_db a) id r perms -> ok QRole = true -> Role_IsSystem r = true -> ~ creates id o -> role_is ok (ac_db (run_role e a o)) id r perms.
Proof.
  intros Hr Hq Hs Hc. pose proof (role_is_system _ _ _ _ _ Hr Hq Hs) as Hsys.
  assert (Hg : forall x, IsSystemRole (ac_db a) x = false -> x <> id) by congruence.
  destruct o as [[q|x]|x body|x|x body|x p|x p]; cbn [run_role].
  - unfold handleCreateRole. case_goal; [done|]. cbn in Hc.
    destruct (Role_Permissions q); cbn; [by auto with roles|]. apply role_is_Set; [by apply role_is_PutRole|done].
  - done.
  - unfold handlePatchRole. destruct (IsSystemRole _ x) eqn:E; [done|]. destruct (GetRole _ x) as [y|] eqn:Ey; [|done].
    destruct body as [[n d]|]; [|done]. apply GetRole_id in Ey. cbn.
    apply role_is_PutRole; [done|]. specialize (Hg x E). repeat case_goal; cbn; congruence.
  - unfold handleDeleteRole. destruct (IsSystemRole _ x) eqn:E; [done|]. apply role_is_Delete; [done|by apply Hg].
  - unfold handleSetRolePermissions. destruct (IsSystemRole _ x) eqn:E; [done|]. destruct (GetRole _ x); [|done].
    destruct body as [ps|]; [|done]. destruct (SetRolePermissions x ps (ac_db a)).2; [|done].
    apply role_is_Set; [done|by apply Hg].
  - unfold handleAddRolePermission, guarded_role. destruct (IsSystemRole _ x) eqn:E; [done|].
    destruct (GetRole _ x); [|done]. apply role_is_Add; [done|by apply Hg].
  - unfold handleRemoveRolePermission, guarded_role. destruct (IsSystemRole _ x) eqn:E; [done|].
    destruct (GetRole _ x); [|done]. apply role_is_Remove; [done|by apply Hg].
Qed.

(** Whatever role requests are served, in whatever order, a system role keeps its
    row and its permissions, unless one of them creates a role under its identifier. *)
Theorem system_roles_protected e ops a id r perms :
  role_is (q_ok (ac_db a)) (ac_db a) id r perms -> q_ok (ac_db a) QRole = true -> Role_IsSystem r = true ->
  Forall (fun o => ~ creates id o) ops ->
  let b := fold_left (run_role e) ops a in
  GetRole (ac_db b) id = GetRole (ac_db a) id /\ RolePermissions (ac_db b) id = RolePermissions (ac_db a) id.
Proof.
  intros Hr Hq Hs Hops. cbn. generalize dependent (q_ok (ac_db a)). intros ok Hr Hq.
  assert (Hb : role_is ok (ac_db (fold_left (run_role e) ops a)) id r perms).
  { revert a Hr. induction ops as [|o ops IH]; intros a Hr; [done|]. apply Forall_cons in Hops as [Ho Hops]. cbn.
    apply IH; [done|]. by apply run_role_keeps. }
  destruct Hr as (Q1 & R1 & P1), Hb as (Q2 & R2 & P2).
  assert (Hp : RolePermissions (ac_db (fold_left (run_role e) ops a)) id = RolePermissions (ac_db a) id).
  { unfold RolePermissions, query. by rewrite Q1, Q2, P1, P2. }
  split; [|done]. unfold GetRole. rewrite Q1, Q2, Hq. unfold row in R1, R2. rewrite R1, R2. cbn.
  assert (Role_ID r = id) as -> by (apply find_first_In in R1 as [_ E]; by bools). by rewrite Hp.
Qed.

(** ** Who sees a project *)

(** How a user reaches a project: as a member of it, through an organisation of
    theirs that owns it, or through a group of such an organisation. *)
Inductive reaches (db : TenancyDB) (username : string) (p : Project) : Prop :=
| reach_member u m :
    GetUserByUsername db username = Some u -> m ∈ project_members db -> pm_user m = User_ID u ->
    pm_project m = Proj_ID p -> reaches db username p
| reach_org : Proj_OrgID p ∈ UserOrgIDs db username -> reaches db username p
| reach_group g org :
    org ∈ UserOrgIDs db username -> (g, org) ∈ groups db -> (g, Proj_ID p) ∈ group_projects db -> reaches db username p.

Lemma elem_of_org_scopes db s orgs :
  s ∈ mjoin ((fun orgID => mkScope ScopeOrg orgID ::
     mjoin ((fun g => mkScope ScopeTeam g.1 ::
               ((fun gp => mkScope ScopeProject gp.2) <$> base.filter (fun gp => gp.1 = g.1) (group_projects db))) <$>
            base.filter (fun g => g.2 = orgID) (groups db))) <$> orgs) <->
  exists org, org ∈ orgs /\ (s = mkScope ScopeOrg org \/ exists g, (g, org) ∈ groups db /\
    (s = mkScope ScopeTeam g \/ exists pid, (g, pid) ∈ group_projects db /\ s = mkScope ScopeProject pid)).
Proof.
  rewrite list_elem_of_join. split.
  - intros (l & Hs & (org & -> & Ho)%list_elem_of_fmap). exists org. split; [done|].
    apply elem_of_cons in Hs as [->|Hs]; [by left|]. right. apply list_elem_of_join in Hs as (l & Hs & Hl).
    apply list_elem_of_fmap in Hl as ([g o] & -> & [Eo Hg]%list_elem_of_filter). cbn in *. subst o. exists g.
    split; [done|]. apply elem_of_cons in Hs as [->|Hs]; [by left|]. right.
    apply list_elem_of_fmap in Hs as ([g' pid] & -> & [Eg Hgp]%list_elem_of_filter). cbn in *. subst g'. by exists pid.
  - intros (org & Ho & Hs). eexists. split; cycle 1; [apply list_elem_of_fmap; by exists org|].
    destruct Hs as [->|(g & Hg & Hs)]; [by left|]. right. apply list_elem_of_join. eexists.
    split; cycle 1; [apply list_elem_of_fmap; exists (g, org); rewrite list_elem_of_filter; by split_and!|]. cbn.
    destruct Hs as [->|(pid & Hp & ->)]; [by left|]. right. apply list_elem_of_fmap. exists (g, pid).
    by rewrite list_elem_of_filter.
Qed.

Lemma reaches_scopes db username p :
  mkScope ScopeProject (Proj_ID p) ∈ UserScopes db username \/ mkScope ScopeOrg (Proj_OrgID p) ∈ UserScopes db username <->
  reaches db username p.
Proof.
  unfold UserScopes. rewrite !elem_of_app, !elem_of_org_scopes. split.
  - intros [[Hm|(org & Ho & [[=]|(g & Hg & [[=]|(pid & Hp & [= E])])])]|
            [Hm|(org & Ho & [[= E]|(g & Hg & [[=]|(pid & Hp & [=])])])]].
    + destruct (GetUserByUsername db username) as [u|] eqn:Eu; [|by apply elem_of_nil in Hm].
      apply list_elem_of_fmap in Hm as (m & [= E] & [Hu Hm]%list_elem_of_filter). by eapply reach_member.
    + subst pid. by eapply reach_group.
    + destruct (GetUserByUsername db username) as [u|]; [|by apply elem_of_nil in Hm].
      by apply list_elem_of_fmap in Hm as (m & [=] & _).
    + apply reach_org. by rewrite E.
  - intros [u m Eu Hm Hu Hp|Ho|g org Ho Hg Hp].
    + left. left. rewrite Eu. apply list_elem_of_fmap. exists m. rewrite list_elem_of_filter. by rewrite Hp.
    + right. right. eexists. split; [exact Ho|by left].
    + left. right. exists org. split; [done|]. right. exists g. split; [done|]. right. by exists (Proj_ID p).
Qed.

(** The project list of a caller without platform-wide visibility holds exactly
    the projects of the selected organisation (or of the platform, when there is
    none) that the caller reaches, in the order of the store and each page of it. *)
Theorem list_projects_scoped collate order header p a st pr :
  projectListVisibleEverywhere order (ac_db a) p = false ->
  let all := if orgIDFromHeader collate header a !=? "" then ListProjectsByOrg st (orgIDFromHeader collate header a)
             else ListProjects st in
  (pr ∈ list_projects collate order header p a st <-> pr ∈ all /\ reaches (ac_db a) (p_username p) pr) /\
  list_projects collate order header p a st `sublist_of` all.
Proof.
  intros Hv all. unfold list_projects. rewrite Hv. fold all. unfold filterProjectsByScope. split; [|apply sublist_filter].
  rewrite list_elem_of_filter, reaches_scopes. tauto.
Qed.

(** ** Memberships *)

Lemma find_first_filter_none {A} (P : A -> Prop) `{!forall x, Decision (P x)} (f : A -> bool) (l : list A) :
  (forall x, f x = true -> ~ P x) -> find_first f (base.filter P l) = None.
Proof.
  intros Hf. apply find_first_None, Forall_forall. intros x [Hx _]%list_elem_of_filter.
  destruct (f x) eqn:E; [|done]. by apply Hf in E.
Qed.

Lemma PutProjectMember_found m db :
  existsb (fun p => p.1 ==? PM_ProjectID m) (project_orgs db) = true ->
  find_first (fun r => (pm_project r ==? PM_ProjectID m) && (pm_user r ==? PM_UserID m))
    (project_members (PutProjectMember m db)) = Some (mkPMRow (PM_ProjectID m) (PM_UserID m) (PM_Role m) (PM_Invited m)).
Proof.
  intros Hp. unfold PutProjectMember. set (new := mkPMRow _ _ _ _).
  set (hit := fun r => (pm_project r ==? PM_ProjectID m) && (pm_user r ==? PM_UserID m)).
  assert (Hnew : hit new = true) by (unfold hit, new; cbn; by rewrite !bool_decide_eq_true_2).
  change (find_first hit (project_members (if existsb hit (project_members db)
    then with_project_members ((fun r => if hit r then new else r) <$> project_members db) db
    else if existsb (fun p => p.1 ==? PM_ProjectID m) (project_orgs db)
    then with_project_members (project_members db ++ [new])%list db else db)) = Some new).
  clearbody hit new. destruct (existsb hit (project_members db)) eqn:E.
  - cbn [project_members with_project_members]. induction (project_members db) as [|x l IH]; [done|]. cbn in E |- *.
    destruct (hit x) eqn:Ex; [by rewrite Hnew|]. rewrite Ex. by apply IH.
  - rewrite Hp. cbn [project_members with_project_members]. rewrite find_first_app.
    assert (find_first hit (project_members db) = None) as ->.
    { apply find_first_None, Forall_forall. intros x Hx. apply not_true_is_false. intros Hh.
      assert (existsb hit (project_members db) = true); [|congruence]. apply existsb_exists. exists x.
      split; [by apply list_elem_of_In|done]. }
    cbn. by rewrite Hnew.
Qed.

Lemma PutProjectMember_members m db :
  PutProjectMember m db = with_project_members (project_members (PutProjectMember m db)) db.
Proof.
  unfold PutProjectMember. destruct (existsb _ (project_members db)); [done|].
  destruct (existsb _ (project_orgs db)); [done|by destruct db].
Qed.

(** Adding a member to a project gives them exactly the permissions of the role
    named, there; removing them takes the permissions away again, unless their
    organisation or platform role has them. *)
Theorem membership_lifecycle collate now pid username role a u perm :
  GetUserByUsername (ac_db a) username = Some u -> username <> "" -> pid <> "" -> role <> "" ->
  q_ok (ac_db a) QProjectMember = true -> existsb (fun p => p.1 ==? pid) (project_orgs (ac_db a)) = true ->
  exists b r, handleAddProjectMember collate now pid (Ok (username, role)) a = (b, r) /\ r_status r = 201 /\
    HasProjectPermission (ac_db b) pid username perm = roleGrants (ac_db a) role perm /\
    exists c r', handleRemoveProjectMember pid username b = (c, r') /\ r_status r' = 200 /\
      HasProjectPermission (ac_db c) pid username perm =
      member_or_admin (ac_db a)
        (let orgID := default "" (mjoin (query_row (ac_db a) QProjectOrgCoalesce pid (project_orgs (ac_db a)))) in
         if orgID ==? "" then "" else default "" (org_member (ac_db a) orgID (User_ID u))) username perm.
Proof.
  intros Hu Hn Hp Hr Hq Hex. unfold handleAddProjectMember.
  rewrite (bool_decide_eq_false_2 (username = "")) by done. rewrite (bool_decide_eq_false_2 (role = "")) by done.
  rewrite (bool_decide_eq_false_2 (role = "")) by done. rewrite Hu.
  eexists _, _. split; [reflexivity|]. split; [done|]. set (m := mkProjectMember pid (User_ID u) role false now).
  assert (Hub : forall l, GetUserByUsername (with_project_members l (ac_db a)) username = Some u) by done.
  assert (Hput : exists l, PutProjectMember m (ac_db a) = with_project_members l (ac_db a) /\
    find_first (fun r => (pm_project r ==? pid) && (pm_user r ==? User_ID u)) l = Some (mkPMRow pid (User_ID u) role false)).
  { eexists. split; [apply PutProjectMember_members|]. exact (PutProjectMember_found m (ac_db a) Hex). }
  destruct Hput as (l & El & Hf).
  assert (Hdb : ac_db (on_db (PutProjectMember m) a) = with_project_members l (ac_db a)) by (cbn; exact El). split.
  - rewrite Hdb. unfold HasProjectPermission, ProjectRoleForUser. rewrite !bool_decide_eq_false_2 by done. cbn [orb].
    rewrite Hub. cbn [q_ok with_project_members project_members]. rewrite Hq, Hf. cbn.
    rewrite bool_decide_eq_false_2 by done. cbn. unfold member_or_admin. by rewrite bool_decide_eq_false_2.
  - unfold handleRemoveProjectMember. rewrite Hdb, Hub. eexists _, _. split; [reflexivity|]. split; [done|].
    assert (Hdc : exists l', ac_db (on_db (DeleteProjectMember pid (User_ID u)) (on_db (PutProjectMember m) a)) =
      with_project_members l' (ac_db a) /\ find_first (fun r => (pm_project r ==? pid) && (pm_user r ==? User_ID u)) l' = None).
    { exists (base.filter (fun r => ~ (pm_project r = pid /\ pm_user r = User_ID u)) l). split.
      { transitivity (DeleteProjectMember pid (User_ID u) (ac_db (on_db (PutProjectMember m) a))); [done|]. by rewrite Hdb. }
      apply find_first_filter_none.
      intros x Hx. bools. tauto. }
    destruct Hdc as (l' & -> & Hf'). unfold HasProjectPermission, ProjectRoleForUser.
    rewrite (bool_decide_eq_false_2 (pid = "")), (bool_decide_eq_false_2 (username = "")) by done. cbn [orb].
    rewrite Hub. cbn [q_ok with_project_members project_members project_orgs]. rewrite Hq, Hf'. done.
Qed.

(** ** Organisations are written once *)

Lemma PutOrg_known a o : existsb (fun x => Org_ID x ==? Org_ID o) (ac_orgs a) = true -> PutOrg o a = (a, false).
Proof.
  intros He. unfold PutOrg. replace (existsb _ _) with true; [done|]. symmetry.
  apply existsb_exists in He as (x & Hx & E). apply existsb_exists. exists x. split; [done|]. by rewrite E.
Qed.

(** [PutOrg] is a plain INSERT: renaming an organisation fails with 500, and the
    handlers that ignore the error answer 200 for a rename or a transfer that is
    not stored. *)
Lemma org_updates_lost collate e header name a o :
  GetOrg a (orgIDFromHeader collate header a) = Some o ->
  handlePatchOrg collate e header (Ok name) a = (a, writeError 500 ("failed to update org: " ++ e)) /\
  (exists r, handlePatchCurrentOrg collate header name a = (a, r) /\ r_status r = 200) /\
  (exists l r, handleOrgTransfer collate header name a = (ac_append_log l a, r) /\ r_status r = 200).
Proof.
  intros Hg. unfold handlePatchOrg, handlePatchCurrentOrg, handleOrgTransfer. rewrite Hg.
  assert (Hid : existsb (fun x => Org_ID x ==? Org_ID o) (ac_orgs a) = true).
  { unfold GetOrg in Hg. destruct (find_first _ (ac_orgs a)) as [x|] eqn:E; [|done]. case_bool_decide; [done|].
    injection Hg as ->. apply find_first_In in E as [Hin _]. apply existsb_exists. exists o.
    split; [by apply list_elem_of_In|by apply bool_decide_eq_true_2]. }
  split_and!.
  - rewrite PutOrg_known; [done|]. case_bool_decide; exact Hid.
  - rewrite PutOrg_known; [|case_bool_decide; exact Hid]. by eexists.
  - rewrite PutOrg_known by exact Hid. by eexists _, _.
Qed.

(** ** Witnesses and observations *)

Definition plain_order (A : Type) (key : A -> string) (l : list A) : list A := l.

Definition member_role : Role := mkRole "member" "Member" "" [] "shared" false false true true.
Definition ann : User := mkUser "u1" "ann" "member" "" false (HashPassword "pw" "salt") "salt" 0.
Definition bob : User := mkUser "u2" "bob" "member" "" false (HashPassword "secret" "pepper") "pepper" 0.

Definition demo_accounts : Accounts :=
  mkAccounts
    (mkServer
       (mkTenancy (fun _ => true) [] [mkRolePerm "member" "project.read" "allow"] [member_role]
          ["project.read"; "project.delete"] [] [] [] [("p", Some "o1"); ("q", Some "o1")] [] [ann; bob] [] [])
       ∅ [] "csrf" 0 "")
    [mkOrg "o1" "Org" "ann" true 0] [] [] [] 0.

Lemma demo_fresh : login_fresh tally demo_accounts.
Proof. split; vm_compute; [intros ?%elem_of_nil; done|intros ?%elem_of_nil; done|done|done]. Qed.


Lemma system_roles_protected_witness :
  GetRole (ac_db (fold_left (run_role "") [OpDeleteRole "member"; OpAddRolePermission "member" "project.delete"] demo_accounts))
    "member" = GetRole (ac_db demo_accounts) "member".
Proof.
  apply (system_roles_protected "" [OpDeleteRole "member"; OpAddRolePermission "member" "project.delete"] demo_accounts
    "member" member_role [mkRolePerm "member" "project.read" "allow"]).
  - repeat split.
  - done.
  - done.
  - repeat constructor; intros [].
Defined.

Lemma membership_lifecycle_witness :
  exists b r, handleAddProjectMember plain_order 0 "p" (Ok ("ann", "member")) demo_accounts = (b, r) /\
    HasProjectPermission (ac_db b) "p" "ann" "project.read" = true.
Proof.
  destruct (membership_lifecycle plain_order 0 "p" "ann" "member" demo_accounts ann "project.read")
    as (b & r & H1 & _ & H2 & _); [reflexivity|discriminate..|reflexivity|reflexivity|].
  exists b, r. split; [exact H1|]. rewrite H2. reflexivity.
Defined.

Definition p_of_org (id org : string) : Project := Proj_set_ID id (Proj_set_OrgID org Proj_zero).

Lemma list_projects_scoped_witness :
  let b := (handleAddProjectMember plain_order 0 "p" (Ok ("ann", "member")) demo_accounts).1 in
  let st := with_projects [mkProjectRow (p_of_org "p" "o1") "o1"; mkProjectRow (p_of_org "q" "o1") "o1"] empty_store in
  p_of_org "p" "o1" ∈ list_projects plain_order elements "" (mkPrincipal "ann" "member") b st.
Proof.
  intros b st. apply (list_projects_scoped plain_order elements "" (mkPrincipal "ann" "member") b st (p_of_org "p" "o1")).
  - vm_compute. reflexivity.
  - split; [vm_compute; left|]. apply (reach_member _ _ _ ann (mkPMRow "p" "u1" "member" false)); try reflexivity. vm_compute. left.
Defined.

(** Creating a role under the identifier of a system role replaces its row and its
    permissions. *)
Lemma create_role_overwrites_system :
  let a := (handleCreateRole (Ok (mkRole "member" "m" "" ["project.delete"] "" true true false false)) demo_accounts).1 in
  IsSystemRole (ac_db demo_accounts) "member" = true /\ IsSystemRole (ac_db a) "member" = false /\
  RolePermissions (ac_db a) "member" = ["project.delete"] /\ IsPlatformAdmin (ac_db a) "ann" = true.
Proof. vm_compute. by split_and!. Qed.

(** Creating a user under a known name replaces that user's password and answers with
    an identifier that is not stored. *)
Lemma create_user_takes_over :
  let '(a, r) := handleCreateUser tally plain_order 0 "" (Ok (mkUserReq "bob" "mine" "member" "" false)) demo_accounts in
  r_status r = 201 /\ (User_ID <$> GetUserByUsername (ac_db a) "bob" = Some "u2") /\
  r_status (handleLogin tally 0 (Ok ("bob", "secret")) a).2 = 401 /\
  r_status (handleLogin tally 0 (Ok ("bob", "mine")) a).2 = 200.
Proof. vm_compute. by split_and!. Qed.

(** The owner of an organisation is recorded by name and compared by identifier, so
    that the owner can be removed. *)
Lemma owner_can_be_removed :
  let a := (handleAddOrgMember tally plain_order "" 0 "" "ann" "" "member" demo_accounts).1 in
  r_status (handleRemoveOrgMember plain_order "" "ann" a).2 = 200.
Proof. vm_compute. reflexivity. Qed.

(** A key is deleted by identifier alone, whoever it belongs to. *)
Lemma key_deleted_by_anyone :
  let '(a, r) := handleCreateAPIKey tally 0 "bob" (Ok "ci") demo_accounts in
  ListAPIKeys (srv_keys (ac_srv (handleDeleteAPIKey "iv" a).1)) "u2" = [].
Proof. vm_compute. reflexivity. Qed.

Close Scope Z_scope.
Close Scope string_scope.
