(* ===== verification/Projects.v ===== *)
(** * Projects behind the API ([api/api.go], [api/handlers.go])

    Creating a project from an image or a repository, importing and exporting one,
    deploying a compose file as a stack, and the handlers that read and change a
    stored project: patch, health check, autoscaling policy, environment, secrets,
    compose file, domains, services and transfer. The state is the pool's server, the
    accounts, the subnet allocator and the tables only these handlers use. The image
    build of a repository drives external tools and is an argument. *)
From S2P Require Import Prelude GoStrings GoNum GoNet Types Gateway Compose Store NetMgr Controllers Rbac GoCrypto Auth.
From S2P Require Import Scheduler Routes Api Pool Access.
From Stdlib Require Import String Ascii.

Open Scope string_scope.
Open Scope Z_scope.

Record Platform {R : Type} := mkPlatform {
  pf_api : API R;
  pf_acc : Accounts;
  pf_net : option NetManager;
  pf_stacks : list Stack;
  pf_settings : gmap (string * string) Json }.
Arguments Platform : clear implicits.
Arguments mkPlatform {R}.

Section Projects.
Context {R : Type} `{VMRunner R} (w : Wiring) (collate : forall A, (A -> string) -> list A -> list A).
Implicit Types a : API R.
Implicit Types pf : Platform R.

Definition on_api (f : API R -> API R) pf : Platform R :=
  mkPlatform (f (pf_api pf)) (pf_acc pf) (pf_net pf) (pf_stacks pf) (pf_settings pf).
Definition on_acc (f : Accounts -> Accounts) pf : Platform R :=
  mkPlatform (pf_api pf) (f (pf_acc pf)) (pf_net pf) (pf_stacks pf) (pf_settings pf).
Definition new_id pf : Platform R * string :=
  let '(a, id) := fresh_id w (pf_api pf) in (on_api (fun _ => a) pf, id).

(** The organisation column of the projects table, which the permission checks read. *)
Definition project_columns (s : StoreState) : list (string * option string) :=
  (fun r => (pr_id r, if pr_org r ==? "" then None else Some (pr_org r))) <$> projects s.

Definition sync_projects pf : Platform R :=
  let cols := project_columns (store (pf_api pf)) in
  on_acc (on_db (fun db => mkTenancy (q_ok db) (role_assignments db) (role_permissions db) (roles db) (permissions db)
                            (environments db) (group_projects db) (groups db) cols (teams db) (users db)
                            (org_members db) (project_members db))) pf.

Definition put_project (p : Project) pf : Platform R := sync_projects (on_api (on_store (PutProject p)) pf).

(** ** Creating *)

(** [PutBuild]: the status, image and log of a known build change. *)
Definition PutBuild (b : Build) (s : StoreState) : StoreState :=
  if project_ref s (Bld_ProjectID b) && (Bld_ProjectID b !=? "")
  then mkStore (replicas s) (projects s) (domains s) (deployments s) (next_revision s) (servers s)
         (upsert Bld_ID b (builds s)) (firewall_rules s) (micro_vms s) (events s) (usage_keys s) (traffic s) (project_cache s)
  else s.

(** The next subnet, or the default network. *)
Definition allocate_network pf : Platform R * string :=
  match pf_net pf with
  | None => (pf, "10.42.0.0/16")
  | Some n =>
      let '(n, r) := AllocateSubnet n in
      (mkPlatform (pf_api pf) (pf_acc pf) (Some n) (pf_stacks pf) (pf_settings pf),
       match r with Ok subnet => IPNet_String subnet | Err _ => "10.42.0.0/16" end)
  end.

Definition first_org pf (orgID : string) : string :=
  if orgID !=? "" then orgID else match ListOrgs collate (pf_acc pf) with o :: _ => Org_ID o | [] => "" end.

Definition new_project (now : Z) (id orgID network creator : string) (req : createProjectReq) (env : gmap string string)
    : Project :=
  Proj_set_CreatedBy creator (Proj_set_CreatedAt now (Proj_set_SSHEnabled (cp_SSHEnabled req) (Proj_set_Env env
    (Proj_set_Healthcheck (cp_Healthcheck req) (Proj_set_RestartPolicy (cp_RestartPolicy req)
      (Proj_set_Replicas (cp_Replicas req) (Proj_set_ReplicasDesired (cp_Replicas req)
        (Proj_set_HostMountPath (cp_HostMountPath req) (Proj_set_Network network (Proj_set_Image (cp_Image req)
          (Proj_set_Source (if cp_GitURL req !=? "" then "git" else "image") (Proj_set_Name (cp_Name req)
            (Proj_set_OrgID orgID (Proj_set_ID id Proj_zero)))))))))))))).

Definition set_image (image : string) (r : createProjectReq) : createProjectReq :=
  mkCreateReq (cp_Name r) image (cp_GitURL r) (cp_Branch r) (cp_OrgID r) (cp_GroupID r) (cp_VCPUs r) (cp_MemMiB r)
    (cp_Env r) (cp_Ports r) (cp_Replicas r) (cp_HostMountPath r) (cp_VolumeID r) (cp_Healthcheck r)
    (cp_RestartPolicy r) (cp_SSHEnabled r) (cp_deployment r).

(** The request with its defaults, and the map its replicas share with the project. *)
Definition complete_req (r : createProjectReq) : createProjectReq :=
  mkCreateReq (cp_Name r) (cp_Image r) (cp_GitURL r) (cp_Branch r) (cp_OrgID r) (cp_GroupID r) (cp_VCPUs r)
    (cp_MemMiB r) SharedEnv (cp_Ports r) (Z.max 1 (cp_Replicas r)) (cp_HostMountPath r) (cp_VolumeID r)
    (cp_Healthcheck r) (if cp_RestartPolicy r ==? "" then "on-failure" else cp_RestartPolicy r) (cp_SSHEnabled r)
    (cp_deployment r).

Definition req_env (r : createProjectReq) : gmap string string := match cp_Env r with OwnEnv m => m | SharedEnv => ∅ end.

Definition base_image (r : createProjectReq) : createProjectReq :=
  match hostConfig w with
  | Some c => if (cp_Image r ==? "") && (cp_GitURL r ==? "") then set_image (BaseImageRef c) r else r
  | None => r
  end.

(** Why the request cannot be served. *)
Definition create_error a (r : createProjectReq) : option Resp :=
  if cp_GitURL r !=? "" then None
  else if cp_Image r ==? "" then
    Some (writeError 400 "image is required; choose a registered base:// or custom:// microVM image")
  else if negb (knownDirectImage w a (cp_Image r)) then
    Some (writeError 422 "image is not a registered direct Firecracker manifest; Docker/OCI references are not bootable")
  else None.

(** The creator joins the project with the default role. *)
Definition join_creator (now : Z) (projID creator : string) pf : Platform R :=
  match GetUserByUsername (ac_db (pf_acc pf)) creator with
  | Some u =>
      let role := DefaultRoleID collate (ac_db (pf_acc pf)) in
      if role !=? "" then on_acc (on_db (PutProjectMember (mkProjectMember projID (User_ID u) role false now))) pf else pf
  | None => pf
  end.

(** The creator's membership and the group of a new project. *)
Definition register_project (now : Z) (req : createProjectReq) (projID creator : string) pf : Platform R :=
  let pf := join_creator now projID creator pf in
  if cp_GroupID req !=? ""
  then on_acc (on_db (fun db => (AddProjectToGroup (cp_GroupID req) projID db).1)) pf else pf.

(** [runGitBuildCtx]: the clone and build of a queued build; it returns the build it
    has updated. *)
Context (runGitBuildCtx : Build -> API R -> API R * Build).

(** The boots of a new project: with the request's image, or the one that was built. *)
Definition boot_new (now : Z) (req : createProjectReq) (image : string) (proj : Project) pf : Platform R * Project :=
  let '(a, proj) := boot_range w now (fun _ _ => set_image image req) 0 (Z.to_nat (cp_Replicas req)) proj (pf_api pf) in
  (on_api (fun _ => a) pf, proj).

(** The deployment row of a new project. *)
Definition first_deployment (now : Z) (id projID status digest git : string) : Deployment :=
  mkDeployment id projID 0 "" "" "" false 0 [] git "" status digest "" [] 0 now.

Definition createProjectFrom (now : Z) (req : createProjectReq) (creator : string) pf : Platform R * Resp :=
  if cp_Name req ==? "" then (pf, writeError 400 "name is required")
  else
    let req := base_image req in
    match create_error (pf_api pf) req with
    | Some e => (pf, e)
    | None =>
        let env := req_env req in
        let req := complete_req req in
        let orgID := first_org pf (cp_OrgID req) in
        let '(pf, projID) := new_id pf in
        let '(pf, network) := allocate_network pf in
        let proj := new_project now projID orgID network creator req env in
        let pf := put_project proj pf in
        let pf := register_project now req projID creator pf in
        if cp_GitURL req !=? "" then
          let '(pf, bid) := new_id pf in
          let b := mkBuild bid projID (cp_GitURL req) (if cp_Branch req ==? "" then "main" else cp_Branch req)
                     "building" "" "" now in
          let pf := on_api (on_store (PutBuild b)) pf in
          let pf := on_api (AppendBuildLog projID ("git project queued: " ++ cp_GitURL req)) pf in
          let '(a, b) := runGitBuildCtx b (pf_api pf) in
          let pf := on_api (fun _ => a) pf in
          let '(pf, proj) := if Bld_Image b ==? "" then (pf, proj) else boot_new now req (Bld_Image b) proj pf in
          let '(pf, did) := new_id pf in
          let pf := on_api (on_store (fun s => (CreateDeployment (first_deployment now did projID (Bld_BuildStatus b)
                              (Bld_Image b) (cp_GitURL req)) s).1)) pf in
          let pf := on_api (AppendDaemonLog ("project " ++ cp_Name req ++ " created via git (" ++ cp_GitURL req ++ ")")) pf in
          (pf, writeJSON 202 (JObj [("project", JProject proj); ("status", JStr "building")]))
        else
          let '(pf, proj) := boot_new now req (cp_Image req) proj pf in
          let '(pf, did) := new_id pf in
          let pf := on_api (on_store (fun s => (CreateDeployment (first_deployment now did projID "ready" (cp_Image req) "") s).1)) pf in
          let pf := on_api (AppendBuildLog projID ("deployed " ++ cp_Name req ++ " (" ++ cp_Image req ++ ") with " ++
                              Itoa (cp_Replicas req) ++ " replica(s)")) pf in
          let pf := on_api (AppendDaemonLog ("project " ++ cp_Name req ++ " created (" ++ cp_Image req ++ ")")) pf in
          (pf, writeJSON 202 (JObj [("project", JProject proj); ("status", JStr "deploying")]))
    end.

Definition set_org (org : string) (r : createProjectReq) : createProjectReq :=
  mkCreateReq (cp_Name r) (cp_Image r) (cp_GitURL r) (cp_Branch r) org (cp_GroupID r) (cp_VCPUs r) (cp_MemMiB r)
    (cp_Env r) (cp_Ports r) (cp_Replicas r) (cp_HostMountPath r) (cp_VolumeID r) (cp_Healthcheck r)
    (cp_RestartPolicy r) (cp_SSHEnabled r) (cp_deployment r).

Definition handleCreateProject (now : Z) (header me : string) (body : result string createProjectReq) pf : Platform R * Resp :=
  match body with
  | Err e => (pf, writeError 400 ("bad request: " ++ e))
  | Ok req =>
      let req := if cp_OrgID req ==? "" then set_org (orgIDFromHeader collate header (pf_acc pf)) req else req in
      createProjectFrom now req me pf
  end.

(** [handleImportProject]; the manifest's fields, absent or of another type as [None].
    A replica count is truncated to an integer. *)
Record Manifest := mkManifest { mf_project : option string; mf_image : option string; mf_replicas : option Z; mf_ssh : option bool }.

Definition handleImportProject (now : Z) (header me : string) (body : result string (option Manifest)) pf : Platform R * Resp :=
  match body with
  | Err e => (pf, writeError 400 ("bad request: " ++ e))
  | Ok None => (pf, writeError 400 "manifest is required")
  | Ok (Some m) =>
      let name := default "" (mf_project m) in
      let image := default "" (mf_image m) in
      if (name ==? "") || (image ==? "") then (pf, writeError 400 "manifest needs project + image")
      else createProjectFrom now (mkCreateReq name image "" "" (orgIDFromHeader collate header (pf_acc pf)) "" 0 0
                                    (OwnEnv ∅) [] (default 0 (mf_replicas m)) "" "" None "" (default false (mf_ssh m)) None) me pf
  end.

(** ** Compose stacks *)

Definition stack_project (now : Z) (id orgID network stackID name yaml : string) (svc : ComposeService) : Project :=
  Proj_set_CreatedAt now (Proj_set_Networks (match CS_Networks svc with
      | [] => match ParseTopLevelNetworks yaml with [] => [] | l => l end
      | l => l
      end)
    (Proj_set_ComposeService (CS_Name svc) (Proj_set_StackID stackID (Proj_set_ComposeYAML yaml (Proj_set_Env (CS_Env svc)
      (Proj_set_Healthcheck (CS_Healthcheck svc) (Proj_set_RestartPolicy "on-failure" (Proj_set_Replicas (CS_Replicas svc)
        (Proj_set_ReplicasDesired (CS_Replicas svc) (Proj_set_Network network (Proj_set_Image (CS_Image svc)
          (Proj_set_Source "compose" (Proj_set_Name (name ++ "/" ++ CS_Name svc) (Proj_set_OrgID orgID
            (Proj_set_ID id Proj_zero))))))))))))))).

Definition deploy_service (now : Z) (orgID stackID name yaml : string) (acc : Platform R * list Project) (svc : ComposeService)
    : Platform R * list Project :=
  let '(pf, created) := acc in
  let '(pf, id) := new_id pf in
  let '(pf, network) := allocate_network pf in
  let proj := stack_project now id orgID network stackID name yaml svc in
  let spec := mkCreateReq (Proj_Name proj) (CS_Image svc) "" "" orgID "" 0 0 SharedEnv (CS_Ports svc) (CS_Replicas svc)
                "" "" (CS_Healthcheck svc) "" false None in
  let pf := put_project proj pf in
  let '(pf, proj) := boot_new now spec (CS_Image svc) proj pf in
  let pf := on_api (AppendDaemonLog ("compose stack " ++ name ++ ": service " ++ CS_Name svc ++ " (" ++ CS_Image svc ++
                      ") with " ++ Itoa (CS_Replicas svc) ++ " replica(s)")) pf in
  (pf, (created ++ [proj])%list).

(** [stamp] is the formatted time of an unnamed stack, [perr] the text of a parse error. *)
Definition handleCreateComposeProject (now : Z) (stamp header : string) (perr : option ComposeErr -> string)
    (body : result string (string * string)) pf : Platform R * Resp :=
  match body with
  | Err e => (pf, writeError 400 ("bad request: " ++ e))
  | Ok (name, yaml) =>
      match ParseCompose yaml with
      | Err e => (pf, writeError 400 (perr e))
      | Ok svcs =>
          let name := if name ==? "" then "compose-" ++ stamp else name in
          let orgID := orgIDFromHeader collate header (pf_acc pf) in
          let '(pf, sid) := new_id pf in
          let stack := mkStack sid name orgID "compose" yaml now in
          let pf := mkPlatform (pf_api pf) (pf_acc pf) (pf_net pf) (upsert Stk_ID stack (pf_stacks pf)) (pf_settings pf) in
          let '(pf, created) := fold_left (deploy_service now orgID sid name yaml) svcs (pf, []) in
          let pf := on_api (Broadcast "compose.created"
                              (JObj [("stack", JStr name); ("projects", JInt (Z.of_nat (List.length created)))])) pf in
          (pf, writeJSON 201 (JObj [("stack", JStack stack); ("projects", JList (JProject <$> created))]))
      end
  end.

(** ** Stored projects *)

(** The handlers that read a project, change it and write it back. *)
Definition with_project (id : string) a (k : API R -> Project -> API R * Resp) : API R * Resp :=
  let '(a, p) := get_project id a in
  match p with
  | None => (a, writeError 404 "project not found")
  | Some proj => k a proj
  end.

(** [etagOf] is the quoted hash of the JSON of a project, [match_hdr] the trimmed
    [If-Match] header. *)
Context (etagOf : Project -> string).

Definition checkIfMatch (match_hdr : string) (current : Project) : option Resp :=
  if (match_hdr ==? "") || (match_hdr ==? "*") || (etagOf current ==? match_hdr) then None
  else Some (writeError 412 "resource changed (ETag mismatch; refetch and retry)").

Record PatchReq := mkPatch {
  pq_Tags : option (list string); pq_HostMountPath : string; pq_ReplicasDesired : Z; pq_RestartPolicy : string;
  pq_Healthcheck : option Healthcheck; pq_Env : option (gmap string string); pq_SSHEnabled : option bool }.

Definition patch_project (req : PatchReq) (p : Project) : Project :=
  let p := match pq_Tags req with Some t => Proj_set_Tags t p | None => p end in
  let p := if pq_HostMountPath req !=? "" then Proj_set_HostMountPath (pq_HostMountPath req) p else p in
  let p := if 1 <=? pq_ReplicasDesired req then Proj_set_ReplicasDesired (pq_ReplicasDesired req) p else p in
  let p := if pq_RestartPolicy req !=? "" then Proj_set_RestartPolicy (pq_RestartPolicy req) p else p in
  let p := match pq_Healthcheck req with Some h => Proj_set_Healthcheck (Some h) p | None => p end in
  let p := match pq_Env req with Some e => Proj_set_Env (e ∪ Proj_Env p) p | None => p end in
  match pq_SSHEnabled req with Some b => Proj_set_SSHEnabled b p | None => p end.

Definition handlePatchProject (id match_hdr : string) (body : result string PatchReq) a : API R * Resp :=
  with_project id a (fun a proj =>
    match checkIfMatch match_hdr proj with
    | Some e => (a, e)
    | None =>
        match body with
        | Err e => (a, writeError 400 ("bad request: " ++ e))
        | Ok req =>
            let proj := patch_project req proj in
            let a := on_store (PutProject proj) a in
            let a := Broadcast "project.updated" (JObj [("project_id", JStr (Proj_ID proj))]) a in
            (a, writeJSON 200 (JProject proj))
        end
    end).

Definition handleGetHealthcheck (id : string) a : API R * Resp :=
  with_project id a (fun a proj =>
    (a, writeJSON 200 (match Proj_Healthcheck proj with Some h => JHealth h | None => JObj [("enabled", JBool false)] end))).

(** The body is read before the project. *)
Definition with_body {B} (body : result string B) a (k : B -> API R * Resp) : API R * Resp :=
  match body with Err e => (a, writeError 400 ("bad request: " ++ e)) | Ok b => k b end.

Definition handlePutHealthcheck (id : string) (body : result string Healthcheck) a : API R * Resp :=
  with_body body a (fun hc =>
    with_project id a (fun a proj =>
      let hc := if HC_Port hc <=? 0 then HC_set_Port 80 hc else hc in
      let hc := if HC_IntervalSec hc <=? 0 then HC_set_IntervalSec 30 hc else hc in
      (on_store (PutProject (Proj_set_Healthcheck (Some hc) proj)) a, writeJSON 200 (JHealth hc)))).

Definition handleGetAutoscale (id : string) a : API R * Resp :=
  with_project id a (fun a proj =>
    (a, writeJSON 200 (match Proj_Autoscale proj with Some p => JAutoscale p | None => JObj [("enabled", JBool false)] end))).

Definition handlePutAutoscale (id : string) (body : result string AutoscalePolicy) a : API R * Resp :=
  with_body body a (fun p =>
    with_project id a (fun a proj =>
      let p := put_policy p in
      (on_store (PutProject (Proj_set_Autoscale (Some p) proj)) a, writeJSON 200 (JAutoscale p)))).

Definition env_entry (kv : string * string) : Json := JObj [("key", JStr kv.1); ("value", JStr kv.2)].

(** [by_key] sorts the entries of the map by key. *)
Definition handleListEnv (by_key : list (string * string) -> list (string * string)) (id : string) a : API R * Resp :=
  with_project id a (fun a proj => (a, writeJSON 200 (JList (env_entry <$> by_key (map_to_list (Proj_Env proj)))))).

Definition handleSetEnv (id : string) (body : result string (string * string)) a : API R * Resp :=
  with_body body a (fun '(key, value) =>
    if key ==? "" then (a, writeError 400 "key is required")
    else
      with_project id a (fun a proj =>
        (on_store (PutProject (Proj_set_Env (<[key := value]> (Proj_Env proj)) proj)) a, writeJSON 200 (env_entry (key, value))))).

Definition handleSetEnvBulk (id : string) (body : result string (gmap string string)) a : API R * Resp :=
  with_body body a (fun m =>
    with_project id a (fun a proj =>
      (on_store (PutProject (Proj_set_Env (m ∪ Proj_Env proj) proj)) a,
       writeJSON 200 (JObj [("set", JInt (Z.of_nat (base.size m)))])))).

(** An empty environment is stored as nil, and is left alone here. *)
Definition handlePatchEnv (id key : string) (body : result string string) a : API R * Resp :=
  with_body body a (fun value =>
    with_project id a (fun a proj =>
      (if bool_decide (Proj_Env proj = ∅) then a
       else on_store (PutProject (Proj_set_Env (<[key := value]> (Proj_Env proj)) proj)) a,
       writeJSON 200 (env_entry (key, value))))).

Definition handleDeleteEnv (id key : string) a : API R * Resp :=
  with_project id a (fun a proj =>
    (on_store (PutProject (Proj_set_Env (delete key (Proj_Env proj)) proj)) a,
     writeJSON 200 (JObj [("status", JStr "deleted")]))).

(** *** Secrets *)

Definition with_secrets (l : list Secret) a : API R :=
  mkAPI (store a) l (golden_images a) (vmm a) (next_id a) (async_boots a) (daemon_log a) (build_log a) (broadcasts a).

(** A conflict on project and name keeps the identifier. *)
Definition PutSecret (sec : Secret) a : API R * bool :=
  let hit s := (Sec_ProjectID s ==? Sec_ProjectID sec) && (Sec_Name s ==? Sec_Name sec) in
  if (Sec_ProjectID sec ==? "") || negb (project_ref (store a) (Sec_ProjectID sec)) then (a, false)
  else if existsb hit (secrets a) then
    (with_secrets ((fun s => if hit s then mkSecret (Sec_ID s) (Sec_ProjectID s) (Sec_Name s) (Sec_ValueEncrypted sec)
                                             (Sec_CreatedAt s) (Sec_UpdatedAt sec) else s) <$> secrets a) a, true)
  else (with_secrets (secrets a ++ [sec])%list a, true).

Definition DeleteSecret (id : string) a : API R := with_secrets (base.filter (fun s => Sec_ID s <> id) (secrets a)) a.

(** [encrypt] is the secret box, absent when no key is configured. *)
Definition handleCreateSecret (now : Z) (encrypt : option (string -> result string string)) (db_error id : string)
    (body : result string (string * string)) a : API R * Resp :=
  with_body body a (fun '(name, value) =>
    if name ==? "" then (a, writeError 400 "name is required")
    else
      match encrypt with
      | None => (a, writeError 503 "project secret encryption is not configured; set PORTER_SECRET_KEY")
      | Some seal =>
          match seal value with
          | Err e => (a, writeError 500 ("encrypt secret: " ++ e))
          | Ok enc =>
              let '(a, sid) := fresh_id w a in
              let '(a, ok) := PutSecret (mkSecret sid id name enc now now) a in
              (a, if ok then writeJSON 201 (JObj [("id", JStr sid); ("name", JStr name)]) else writeError 500 db_error)
          end
      end).

Definition handleDeleteSecret (secretId : string) a : API R * Resp :=
  (DeleteSecret secretId a, writeJSON 200 (JObj [("status", JStr "deleted")])).

(** *** Compose file, services *)

Definition handleGetCompose (id : string) a : API R * Resp :=
  with_project id a (fun a proj => (a, writeJSON 200 (JObj [("compose_yaml", JStr (Proj_ComposeYAML proj))]))).

Definition handlePutCompose (id : string) (body : result string string) a : API R * Resp :=
  with_body body a (fun yaml =>
    with_project id a (fun a proj =>
      (on_store (PutProject (Proj_set_ComposeYAML yaml proj)) a, writeJSON 200 (JObj [("status", JStr "saved")])))).

Definition svcNames (svcs : list ComposeService) : list string := CS_Name <$> svcs.

Definition handleValidateCompose (perr : option ComposeErr -> string) (body : result string string) a : API R * Resp :=
  with_body body a (fun yaml =>
    (a, match ParseCompose yaml with
        | Err e => writeError 400 ("compose parse error: " ++ perr e)
        | Ok svcs => writeJSON 200 (JObj [("valid", JBool true); ("services", JStrs (svcNames svcs))])
        end)).

Definition handleComposePreview (id : string) a : API R * Resp :=
  with_project id a (fun a proj =>
    let names := match ParseCompose (Proj_ComposeYAML proj) with Ok svcs => svcNames svcs | Err _ => [] end in
    (a, writeJSON 200 (JObj [("preview", JStr (Proj_ComposeYAML proj)); ("services", JStrs names)]))).

Definition serviceNames (proj : Project) : list string :=
  if trim_space (Proj_ComposeYAML proj) ==? "" then []
  else match ParseCompose (Proj_ComposeYAML proj) with Ok svcs => svcNames svcs | Err _ => [] end.

Definition handleScaleService (now : Z) (id service : string) (body : result string Z) a : API R * Resp :=
  with_body body a (fun replicas =>
    with_project id a (fun a proj =>
      if replicas <? 0 then (a, writeError 400 "replicas must be >= 0")
      else
        let cur := Z.of_nat (List.length (Proj_VMIDs proj)) in
        let ports := projPorts a proj in
        let '(a, proj) :=
          if cur <? replicas then
            boot_range w now (fun _ proj => pool_req (Proj_Name proj) (Proj_Image proj) 1 SharedEnv ports None)
              cur (Z.to_nat (replicas - cur)) proj a
          else if replicas <? cur then
            (each_vm vr_Stop (rev (drop (Z.to_nat replicas) (Proj_VMIDs proj))) a,
             Proj_set_VMIDs (take (Z.to_nat replicas) (Proj_VMIDs proj)) proj)
          else (a, proj) in
        let proj := Proj_set_Replicas replicas (Proj_set_ReplicasDesired replicas proj) in
        let a := on_store (PutProject proj) a in
        let a := AppendDaemonLog ("service " ++ Proj_Name proj ++ " scaled to " ++ Itoa replicas ++ " replica(s)") a in
        (a, writeJSON 200 (JObj [("service", JStr service); ("desired", JInt replicas);
                                 ("current", JInt (Z.of_nat (List.length (Proj_VMIDs proj)))); ("status", JStr "applied")])))).

(** *** Domains *)

Definition handleListDomains (id : string) a : API R * Resp :=
  (a, writeJSON 200 (JDomains (Store_ListDomains (store a) id))).

Definition handleAddDomain (id : string) (body : result string (string * string)) a : API R * Resp :=
  with_body body a (fun '(domain, type) =>
    if domain ==? "" then (a, writeError 400 "domain is required")
    else
      let d := mkDomain id "" domain type "" in
      let a := on_store (AddDomain id d) a in
      let a := Broadcast "domain.status" (JObj [("domain", JStr domain); ("status", JStr "pending")]) a in
      (a, writeJSON 201 (JDomain d))).

Definition handleGetDomain (id domainId : string) a : API R * Resp :=
  match find_first (fun d => Dom_Domain d ==? domainId) (Store_ListDomains (store a) id) with
  | Some d => (a, writeJSON 200 (JDomain d))
  | None => (a, writeError 404 "domain not found")
  end.

Definition handleDeleteDomain (id domainId : string) a : API R * Resp :=
  let ok := (RemoveDomain id domainId (store a)).2 in
  (on_store (fun s => (RemoveDomain id domainId s).1) a,
   if ok then writeJSON 200 (JObj [("status", JStr "deleted")]) else writeError 404 "domain not found").

(** [lookup] is the system resolver. *)
Definition handleVerifyDomain (lookup : string -> result string (list string)) (domain : string) a : API R * Resp :=
  match lookup domain with
  | Err e => (a, writeJSON 200 (JObj [("domain", JStr domain); ("status", JStr "unverified");
                                      ("detail", JStr ("DNS lookup failed: " ++ e))]))
  | Ok ips =>
      let own := (baseDomain w !=? "") && ((domain ==? baseDomain w) || has_suffix domain ("." ++ baseDomain w)) in
      let none := negb own && bool_decide (ips = []) in
      (a, writeJSON 200 (JObj [("domain", JStr domain); ("status", JStr (if none then "unverified" else "verified"));
                               ("detail", JStr (if none then "no A/AAAA records" else "resolves to " ++ join ", " ips));
                               ("records", JStrs ips)]))
  end.

(** *** Transfer, export, status, draining *)

Definition handleTransferProject (id : string) (body : result string string) a : API R * Resp :=
  with_body body a (fun org =>
    if org ==? "" then (a, writeError 400 "org_id is required")
    else (on_store (SetProjectOrg id org) a, writeJSON 200 (JObj [("status", JStr "transferred"); ("org_id", JStr org)]))).

Definition export_manifest (p : Project) : Manifest :=
  mkManifest (Some (Proj_Name p)) (Some (Proj_Image p)) (Some (Proj_ReplicasDesired p)) None.

Definition handleExportProject (id : string) a : API R * Resp :=
  with_project id a (fun a proj =>
    (a, writeJSON 200 (JObj [("manifest", JObj [("project", JStr (Proj_Name proj)); ("image", JStr (Proj_Image proj));
       ("replicas", JInt (Proj_ReplicasDesired proj)); ("env", JList (env_entry <$> map_to_list (Proj_Env proj)));
       ("source", JStr (Proj_Source proj))])]))).

Definition handleSSHToggle (id : string) (body : result string bool) a : API R * Resp :=
  with_body body a (fun enabled =>
    with_project id a (fun a proj =>
      (on_store (PutProject (Proj_set_SSHEnabled enabled proj)) a, writeJSON 200 (JObj [("ssh_enabled", JBool enabled)])))).

Definition projStatus (p : Project) : string :=
  if bool_decide (Proj_VMIDs p = []) then "pending" else if Proj_Source p ==? "compose" then "deploying" else "running".

Definition handleProjectStatus (id : string) a : API R * Resp :=
  with_project id a (fun a proj =>
    (a, writeJSON 200 (JObj [("status", JStr (projStatus proj)); ("desired", JInt (Proj_ReplicasDesired proj));
                             ("current", JInt (Z.of_nat (List.length (Proj_VMIDs proj))))]))).

Definition handleProjectLiveness (id : string) a : API R * Resp :=
  with_project id a (fun a proj =>
    let healthy := Z.of_nat (List.length (base.filter (fun vm => VM_HealthStatus vm = HealthHealthy)
                                            (omap (Store_GetVM (store a)) (Proj_VMIDs proj)))) in
    (a, writeJSON 200 (JObj [("alive", JBool (0 <? healthy)); ("healthy", JInt healthy);
                             ("total", JInt (Z.of_nat (List.length (Proj_VMIDs proj))))]))).

Definition PutProjectSettings (id section : string) (data : Json) pf : Platform R :=
  if project_ref (store (pf_api pf)) id && (id !=? "")
  then mkPlatform (pf_api pf) (pf_acc pf) (pf_net pf) (pf_stacks pf) (<[(id, section) := data]> (pf_settings pf))
  else pf.

Definition GetProjectSettings (id section : string) pf : Json := default (JObj []) (pf_settings pf !! (id, section)).

Definition settingsGet (id section : string) pf : Platform R * Resp := (pf, writeJSON 200 (GetProjectSettings id section pf)).

Definition settingsPut (id section : string) (body : result string Json) pf : Platform R * Resp :=
  match body with
  | Err e => (pf, writeError 400 ("bad request: " ++ e))
  | Ok data => (PutProjectSettings id section data pf, writeJSON 200 data)
  end.

Definition handleSetAvatar (id : string) (body : result string string) pf : Platform R * Resp :=
  match body with
  | Err e => (pf, writeError 400 ("bad request: " ++ e))
  | Ok url => (PutProjectSettings id "general" (JObj [("avatar_url", JStr url)]) pf,
               writeJSON 200 (JObj [("status", JStr "avatar updated")]))
  end.

(** [stamp] is the formatted time. *)
Definition handlePoolDrain (id stamp : string) pf : Platform R * Resp :=
  let pf := PutProjectSettings id "pool" (JObj [("draining", JBool true); ("drained_at", JStr stamp)]) pf in
  let '(a, n, failures) := mutateReplicas id None ActStop (pf_api pf) in
  let a := AppendDaemonLog ("pool drained for project " ++ id ++ " (" ++ Itoa n ++ " replicas stopped)") a in
  (on_api (fun _ => a) pf,
   writeJSON (action_status 202 n failures)
     (JObj [("status", JStr "draining"); ("project_id", JStr id); ("stopped", JInt n); ("failed", JStrs failures)])).
End Projects.

(** ** Reading and writing a stored project *)

(** Project [p] is what the store holds under [id]. *)
Record stored {R} (a : API R) (id : string) (p : Project) : Prop := {
  sd_coherent : coherent (store a);
  sd_inv : projects_inv (store a);
  sd_load : load_project (store a) id = Some p;
  sd_yaml : Proj_ComposeYAML p = ""
}.

(** What an update leaves of a project's identity. *)
Definition keeps_identity (f : Project -> Project) : Prop :=
  forall p, Proj_ID (f p) = Proj_ID p /\ Proj_Name (f p) = Proj_Name p /\
    (0 <= Proj_ReplicasDesired p -> 0 <= Proj_ReplicasDesired (f p)).

Section Stored.
Context {R : Type} `{VMRunner R}.
Implicit Types a : API R.

Lemma get_stored id a p :
  stored a id p -> exists a', get_project id a = (a', Some p) /\ stored a' id p /\
    replica_rows (store a') = replica_rows (store a).
Proof.
  intros [Hc Hi Hl Hy]. destruct (get_project_loaded id a p Hc Hl) as (s & E & Hr). exists (with_store s a).
  split; [done|]. split; [|done]. split; [|by apply (projects_inv_rows (store a)); [injection Hr|]|by rewrite (replica_rows_load (store a))|done].
  pose proof (GetProject_coherent id (store a) Hc) as Hg. unfold get_project in E.
  destruct (GetProject id (store a)) as [s1 o]. by injection E as <- _.
Qed.

Lemma project_json_idem p : Proj_ComposeYAML p = "" -> project_json p = p.
Proof. unfold project_json. destruct p. cbn. by intros ->. Qed.

Lemma put_stored id a p f :
  stored a id p -> keeps_identity f ->
  stored (on_store (PutProject (f p)) a) id (project_json (f p)) /\ replicas (store (on_store (PutProject (f p)) a)) = replicas (store a).
Proof.
  intros [Hc Hi Hl Hy] Hk. destruct (Hk p) as (K1 & K2 & K3). pose proof (load_project_id _ _ _ Hl) as Hid.
  assert (Hok : project_ok (store a) (f p) = true).
  { apply (project_ok_update _ _ p); [done|by rewrite K1, Hid|done|]. apply K3.
    destruct (load_project_row _ _ _ Hl) as (r & Hr & <- & _). by apply (pi_desired _ Hi). }
  split; [|apply PutProject_replicas]. split; [by apply PutProject_coherent|by apply PutProject_projects_inv| |done].
  cbn. rewrite <- Hid, <- K1. by apply load_PutProject.
Qed.

(** A handler that reads a project, writes [f] of it and answers. *)
Lemma with_project_put id a p f (r : Project -> Resp) :
  stored a id p -> keeps_identity f ->
  exists a', with_project id a (fun a q => (on_store (PutProject (f q)) a, r q)) = (a', r p) /\
    stored a' id (project_json (f p)) /\ replicas (store a') = replicas (store a).
Proof.
  intros Hs Hk. destruct (get_stored id a p Hs) as (a1 & E & Hs1 & [= Hr _]). unfold with_project. rewrite E.
  destruct (put_stored id a1 p f Hs1 Hk) as [H1 H2]. eexists. split; [reflexivity|]. split; [done|]. by rewrite H2.
Qed.

(** ** The environment is a map *)

Inductive EnvOp :=
| EnvSet (key value : string) | EnvBulk (m : gmap string string) | EnvPatch (key value : string) | EnvDelete (key : string).

Definition run_env (id : string) (a : API R) (o : EnvOp) : API R :=
  match o with
  | EnvSet k v => (handleSetEnv id (Ok (k, v)) a).1
  | EnvBulk m => (handleSetEnvBulk id (Ok m) a).1
  | EnvPatch k v => (handlePatchEnv id k (Ok v) a).1
  | EnvDelete k => (handleDeleteEnv id k a).1
  end.

(** The specification: what each request does to a finite map. *)
Definition env_spec (m : gmap string string) (o : EnvOp) : gmap string string :=
  match o with
  | EnvSet k v => if k ==? "" then m else <[k := v]> m
  | EnvBulk b => b ∪ m
  | EnvPatch k v => if bool_decide (m = ∅) then m else <[k := v]> m
  | EnvDelete k => delete k m
  end.

Lemma keeps_env g : keeps_identity (fun p => Proj_set_Env (g (Proj_Env p)) p).
Proof. by intros p. Qed.

Lemma json_env m p : Proj_ComposeYAML p = "" -> project_json (Proj_set_Env m p) = Proj_set_Env m p.
Proof. intros Hy. by apply project_json_idem. Qed.

Lemma set_same_env p : Proj_set_Env (Proj_Env p) p = p.
Proof. by destruct p. Qed.

Lemma run_env_step id a p o :
  stored a id p ->
  stored (run_env id a o) id (Proj_set_Env (env_spec (Proj_Env p) o) p) /\ replicas (store (run_env id a o)) = replicas (store a).
Proof.
  intros Hs. pose proof (sd_yaml _ _ _ Hs) as Hy. destruct o as [k v|b|k v|k]; cbn [run_env env_spec].
  - unfold handleSetEnv, with_body. case_bool_decide; [by rewrite set_same_env|].
    destruct (with_project_put id a p _ (fun _ => writeJSON 200 (env_entry (k, v))) Hs (keeps_env (insert k v))) as (a' & -> & H1 & H2).
    by rewrite json_env in H1.
  - unfold handleSetEnvBulk, with_body.
    destruct (with_project_put id a p _ (fun _ => writeJSON 200 (JObj [("set", JInt (Z.of_nat (base.size b)))])) Hs
      (keeps_env (union b))) as (a' & -> & H1 & H2).
    by rewrite json_env in H1.
  - unfold handlePatchEnv, with_body, with_project. destruct (get_stored id a p Hs) as (a1 & -> & Hs1 & [= Hr _]).
    destruct (bool_decide (Proj_Env p = ∅)) eqn:E; cbn [fst]; [by rewrite set_same_env|].
    destruct (put_stored id a1 p _ Hs1 (keeps_env (insert k v))) as [H1 H2]. rewrite json_env in H1 by done. split; [done|].
    by rewrite H2.
  - unfold handleDeleteEnv.
    destruct (with_project_put id a p _ (fun _ => writeJSON 200 (JObj [("status", JStr "deleted")])) Hs (keeps_env (delete k)))
      as (a' & -> & H1 & H2). by rewrite json_env in H1.
Qed.

(** C17: The environment handlers implement a finite map: after any sequence of set,
    bulk, patch and delete requests the stored environment is the one the same
    sequence of map operations gives, where a patch of an empty environment is
    lost; nothing else of the project, and no replica, changes. *)
Theorem env_refines_map id ops a p :
  stored a id p ->
  let b := fold_left (run_env id) ops a in
  load_project (store b) id = Some (Proj_set_Env (fold_left env_spec ops (Proj_Env p)) p) /\
  replicas (store b) = replicas (store a).
Proof.
  intros Hs. cbn. assert (Hg : stored (fold_left (run_env id) ops a) id (Proj_set_Env (fold_left env_spec ops (Proj_Env p)) p) /\
    replicas (store (fold_left (run_env id) ops a)) = replicas (store a)).
  { revert a p Hs. induction ops as [|o ops IH]; intros a p Hs; cbn [fold_left]; [by rewrite set_same_env|].
    destruct (run_env_step id a p o Hs) as [H1 H2]. destruct (IH _ _ H1) as [H3 H4]. split; [|by rewrite H4]. exact H3. }
  destruct Hg as [Hg Hr]. split; [exact (sd_load _ _ _ Hg)|exact Hr].
Qed.

(** ** Concurrent changes *)


(** A stored compose file is never read back: the field is not part of the document
    the project is stored as. *)
Lemma compose_file_lost id yaml a p :
  stored a id p ->
  exists a', handlePutCompose id (Ok yaml) a = (a', writeJSON 200 (JObj [("status", JStr "saved")])) /\
    (handleGetCompose id a').2 = writeJSON 200 (JObj [("compose_yaml", JStr "")]).
Proof.
  intros Hs. destruct (with_project_put id a p (Proj_set_ComposeYAML yaml) (fun _ => writeJSON 200 (JObj [("status", JStr "saved")])) Hs)
    as (a' & E & Hs' & _); [by intros q|]. exists a'. split; [exact E|]. unfold handleGetCompose, with_project.
  by destruct (get_stored id a' _ Hs') as (a2 & -> & _ & _).
Qed.
End Stored.

(** ** Creating a project *)

Section Create.
Context {R : Type} `{VMRunner R} (w : Wiring) (collate : forall A, (A -> string) -> list A -> list A).
Context (runGitBuildCtx : Build -> API R -> API R * Build).
Hypothesis NewID_inj : forall i j, NewID w i = NewID w j -> i = j.
Implicit Types pf : Platform R.

(** A request for a bootable image under a name no project has, from a stored user,
    with identifiers that are new. *)
Record create_ready pf (req : createProjectReq) (creator : string) (u : User) : Prop := {
  cr_replicas : replicas_inv (store (pf_api pf));
  cr_projects : projects_inv (store (pf_api pf));
  cr_name : cp_Name req <> "";
  cr_unused : forall r, r ∈ projects (store (pf_api pf)) -> Proj_Name (pr_data r) <> cp_Name req;
  cr_git : cp_GitURL req = "";
  cr_nodep : cp_deployment req = None;
  cr_image : cp_Image req <> "";
  cr_known : knownDirectImage w (pf_api pf) (cp_Image req) = true;
  cr_ready : image_ready w (pf_api pf) (cp_Image req);
  cr_ids : forall k, (next_id (pf_api pf) <= k)%nat -> NewID w k <> "" /\
    (NewID w k ∉ (VM_ID <$> replicas (store (pf_api pf)))) /\ (NewID w k ∉ (pr_id <$> projects (store (pf_api pf))));
  cr_creator : creator <> "" /\ GetUserByUsername (ac_db (pf_acc pf)) creator = Some u;
  cr_role : DefaultRoleID collate (ac_db (pf_acc pf)) <> "";
  cr_query : q_ok (ac_db (pf_acc pf)) QProjectMember = true
}.

Lemma allocate_network_frame pf :
  pf_api (allocate_network pf).1 = pf_api pf /\ pf_acc (allocate_network pf).1 = pf_acc pf.
Proof. unfold allocate_network. destruct (pf_net pf) as [n|]; [|done]. by destruct (AllocateSubnet n). Qed.

(** The store once the new project's row is in: everything is ready for its pool. *)
Lemma new_project_ready pf req creator u proj (s0 := store (pf_api pf)) (b : API R) :
  create_ready pf req creator u -> Proj_ID proj = NewID w (next_id (pf_api pf)) -> Proj_Name proj = cp_Name req ->
  Proj_Image proj = cp_Image req -> Proj_VMIDs proj = [] -> 0 <= Proj_ReplicasDesired proj ->
  store b = PutProject proj s0 -> golden_images b = golden_images (pf_api pf) -> next_id b = S (next_id (pf_api pf)) ->
  pool_ready w b proj 0 /\ load_project (store b) (Proj_ID proj) = Some (project_json proj).
Proof.
  intros Hc Hid Hn Him Hv Hd Hs Hg Hk. subst s0. destruct (cr_ids _ _ _ _ Hc (next_id (pf_api pf))) as (I1 & I2 & I3); [done|].
  assert (Hok : project_ok (store (pf_api pf)) proj = true).
  { unfold project_ok. apply andb_true_iff. split; [by apply Z.leb_le|]. apply negb_true_iff, not_true_is_false.
    intros (r & Hr & Hb)%existsb_exists. apply list_elem_of_In in Hr. bools. apply (cr_unused _ _ _ _ Hc r Hr). congruence. }
  assert (Hl : load_project (store b) (Proj_ID proj) = Some (project_json proj)) by (rewrite Hs; by apply load_PutProject).
  split; [|done]. split.
  - rewrite Hs. apply PutProject_replicas_inv, Hc.
  - rewrite Hs. apply PutProject_projects_inv, Hc.
  - by exists (project_json proj).
  - by rewrite Hid.
  - done.
  - intros vm. rewrite Hs, PutProject_replicas. intros Hvm Hp. exfalso.
    pose proof (ri_refs _ (cr_replicas _ _ _ _ Hc) vm Hvm) as Hr. rewrite Hp, Hid in Hr. unfold project_ref in Hr.
    apply orb_true_iff in Hr as [Hr|(r & Hr & Hb)%existsb_exists]; bools; [done|]. apply I3, list_elem_of_fmap. exists r.
    split; [done|by apply list_elem_of_In].
  - intros k Hk'. rewrite Hs, PutProject_replicas. apply (cr_ids _ _ _ _ Hc). lia.
  - intros k _. rewrite Hv. apply not_elem_of_nil.
  - rewrite Him. apply (image_ready_ext w (pf_api pf)); [done|apply Hc].
Qed.

(** The initial deployment has no version label, which the table refuses. *)
Lemma first_deployment_refused now id pid status digest git s :
  (CreateDeployment (first_deployment now id pid status digest git) s).1 = s.
Proof.
  unfold CreateDeployment. replace (deployment_check s _) with (Some NotNullViolation); [done|].
  unfold deployment_check, normalise_weight. cbn. by rewrite orb_true_r.
Qed.

(** Replicas outside a deployment leave the deployment table alone. *)
Lemma bootReplica_deployments now proj req idx (a : API R) :
  cp_deployment req = None -> deployments (store (bootReplica w now proj req idx a).1.1) = deployments (store a).
Proof.
  intros Hd. unfold bootReplica. cbn [fresh_id]. set (a1 := mkAPI _ _ _ _ _ _ _ _ _).
  pose proof (secretsEnv_frame w proj a1) as [F1 _ _ _]. destruct (secretsEnv w proj a1) as [a2 merged]. cbn in F1.
  destruct (replica_env _ _ _) as [proj1 env]. rewrite Hd.
  assert (Hput : forall vm s, deployments (PutVM vm s) = deployments s) by (intros; unfold PutVM; by case_goal).
  destruct (boot_error w _); cbn; by rewrite ?PutProject_deployments, Hput, F1.
Qed.

Lemma boot_range_deployments now mkreq n from proj (a a' : API R) proj' :
  (forall b q, cp_deployment (mkreq b q) = None) -> boot_range w now mkreq from n proj a = (a', proj') ->
  deployments (store a') = deployments (store a).
Proof.
  intros Hreq. revert from proj a. induction n as [|n IH]; intros from proj a; [by intros [= <- _]|]. cbn [boot_range].
  pose proof (bootReplica_deployments now proj (mkreq a proj) from a (Hreq a proj)) as Hb.
  destruct (bootReplica w now proj (mkreq a proj) from a) as [[a1 p1] d1]. intros E. by rewrite (IH _ _ _ E).
Qed.

Lemma join_creator_member now pid creator pf u :
  GetUserByUsername (ac_db (pf_acc pf)) creator = Some u -> DefaultRoleID collate (ac_db (pf_acc pf)) <> "" ->
  existsb (fun p => p.1 ==? pid) (project_orgs (ac_db (pf_acc pf))) = true ->
  exists l, ac_db (pf_acc (join_creator collate now pid creator pf)) = with_project_members l (ac_db (pf_acc pf)) /\
    find_first (fun r => (pm_project r ==? pid) && (pm_user r ==? User_ID u)) l =
      Some (mkPMRow pid (User_ID u) (DefaultRoleID collate (ac_db (pf_acc pf))) false) /\
    pf_api (join_creator collate now pid creator pf) = pf_api pf.
Proof.
  intros Hu Hr Hp. unfold join_creator. rewrite Hu, bool_decide_eq_false_2 by done. cbn [negb].
  set (m := mkProjectMember pid (User_ID u) _ false now).
  exists (project_members (PutProjectMember m (ac_db (pf_acc pf)))). split; [apply PutProjectMember_members|].
  split; [|done]. exact (PutProjectMember_found m (ac_db (pf_acc pf)) Hp).
Qed.

Lemma member_permission db l pid username u role perm :
  GetUserByUsername db username = Some u -> username <> "" -> pid <> "" -> role <> "" -> q_ok db QProjectMember = true ->
  find_first (fun r => (pm_project r ==? pid) && (pm_user r ==? User_ID u)) l = Some (mkPMRow pid (User_ID u) role false) ->
  HasProjectPermission (with_project_members l db) pid username perm = roleGrants db role perm.
Proof.
  intros Hu Hn Hp Hr Hq Hf. unfold HasProjectPermission, ProjectRoleForUser.
  rewrite (bool_decide_eq_false_2 (pid = "")), (bool_decide_eq_false_2 (username = "")) by done. cbn [orb].
  change (GetUserByUsername (with_project_members l db) username) with (GetUserByUsername db username).
  rewrite Hu. cbn [q_ok with_project_members project_members]. rewrite Hq, Hf. cbn.
  rewrite bool_decide_eq_false_2 by done. cbn. unfold member_or_admin. by rewrite bool_decide_eq_false_2.
Qed.

Lemma group_permission db g pid pid' username perm :
  HasProjectPermission (AddProjectToGroup g pid db).1 pid' username perm = HasProjectPermission db pid' username perm.
Proof. unfold AddProjectToGroup. by repeat case_goal. Qed.

Lemma project_columns_has s id p :
  load_project s id = Some p -> existsb (fun p => p.1 ==? id) (project_columns s) = true.
Proof.
  intros (r & Hr & _ & <-)%load_project_row. apply existsb_exists.
  exists (pr_id r, if pr_org r ==? "" then None else Some (pr_org r)). split; [|by apply bool_decide_eq_true_2].
  apply list_elem_of_In. apply list_elem_of_fmap. by exists r.
Qed.

Lemma register_project_spec now req pid creator pf u perm :
  creator <> "" -> GetUserByUsername (ac_db (pf_acc pf)) creator = Some u -> pid <> "" ->
  DefaultRoleID collate (ac_db (pf_acc pf)) <> "" -> q_ok (ac_db (pf_acc pf)) QProjectMember = true ->
  existsb (fun p => p.1 ==? pid) (project_orgs (ac_db (pf_acc pf))) = true ->
  pf_api (register_project collate now req pid creator pf) = pf_api pf /\
  HasProjectPermission (ac_db (pf_acc (register_project collate now req pid creator pf))) pid creator perm =
    roleGrants (ac_db (pf_acc pf)) (DefaultRoleID collate (ac_db (pf_acc pf))) perm.
Proof.
  intros Hc Hu Hp Hr Hq Hex. destruct (join_creator_member now pid creator pf u Hu Hr Hex) as (l & Edb & Hf & Eapi).
  assert (H4 : HasProjectPermission (ac_db (pf_acc (join_creator collate now pid creator pf))) pid creator perm =
    roleGrants (ac_db (pf_acc pf)) (DefaultRoleID collate (ac_db (pf_acc pf))) perm).
  { rewrite Edb. by apply (member_permission _ _ _ _ u). }
  unfold register_project. case_bool_decide; cbn [negb]; [done|]. split; [exact Eapi|]. rewrite <- H4. apply group_permission.
Qed.

(** What creating a project leaves behind. *)
Lemma createProjectFrom_pool now req creator pf u perm :
  create_ready pf req creator u ->
  let pid := NewID w (next_id (pf_api pf)) in
  exists pf' r vms p', createProjectFrom w collate runGitBuildCtx now req creator pf = (pf', r) /\ r_status r = 202 /\
    Z.of_nat (List.length vms) = Z.max 1 (cp_Replicas req) /\
    replicas (store (pf_api pf')) = (replicas (store (pf_api pf)) ++ vms)%list /\
    pool_rows w p' (cp_Ports req) (S (next_id (pf_api pf))) 0 vms /\
    load_project (store (pf_api pf')) pid = Some p' /\ Proj_Name p' = cp_Name req /\ Proj_VMIDs p' = VM_ID <$> vms /\
    deployments (store (pf_api pf')) = deployments (store (pf_api pf)) /\ replicas_inv (store (pf_api pf')) /\ Proj_ID p' = pid /\
    HasProjectPermission (ac_db (pf_acc pf')) pid creator perm =
      roleGrants (ac_db (pf_acc pf)) (DefaultRoleID collate (ac_db (pf_acc pf))) perm.
Proof.
  intros Hc pid. unfold createProjectFrom. rewrite (bool_decide_eq_false_2 (cp_Name req = "")) by apply Hc.
  assert (Hb : base_image w req = req).
  { unfold base_image. destruct (hostConfig w); [|done]. by rewrite (bool_decide_eq_false_2 _ (cr_image _ _ _ _ Hc)). }
  rewrite Hb. unfold create_error.
  rewrite (bool_decide_eq_true_2 _ (cr_git _ _ _ _ Hc)), (bool_decide_eq_false_2 _ (cr_image _ _ _ _ Hc)), (cr_known _ _ _ _ Hc).
  cbn [negb]. cbn [new_id fresh_id]. fold pid. set (pf1 := on_api _ pf).
  destruct (allocate_network_frame pf1) as [F1 F2]. destruct (allocate_network pf1) as [pf2 network]. cbn [fst] in F1, F2.
  set (rq := complete_req req). set (proj := new_project now pid _ network creator rq (req_env req)).
  destruct (new_project_ready pf req creator u proj (pf_api (put_project proj pf2)) Hc) as [Hr Hl];
    [done..|cbn; lia|cbn; by rewrite F1|cbn; by rewrite F1|cbn; by rewrite F1|].
  set (pf3 := put_project proj pf2) in *.
  destruct (register_project_spec now rq pid creator pf3 u perm) as [Hapi5 Hperm].
  { apply Hc. }
  { unfold pf3. cbn. rewrite F2. apply Hc. }
  { by apply (cr_ids _ _ _ _ Hc). }
  { unfold pf3. cbn. rewrite F2. apply Hc. }
  { unfold pf3. cbn. rewrite F2. apply Hc. }
  { unfold pf3. cbn [pf_acc put_project sync_projects on_acc]. cbn. exact (project_columns_has _ _ _ Hl). }
  replace (roleGrants (ac_db (pf_acc pf3)) _ perm) with
    (roleGrants (ac_db (pf_acc pf)) (DefaultRoleID collate (ac_db (pf_acc pf))) perm) in Hperm by (unfold pf3; cbn; by rewrite F2).
  rewrite (bool_decide_eq_true_2 (cp_GitURL rq = "")) by apply Hc. cbn [negb].
  set (pf5 := register_project collate now rq pid creator pf3) in *.
  clearbody pf5. unfold boot_new. rewrite <- Hapi5 in Hr.
  edestruct (boot_range_pool w NewID_inj (Some (cp_Ports req)) now (fun _ _ => set_image (cp_Image rq) rq)
    (Z.to_nat (cp_Replicas rq)) 0 proj (pf_api pf5)) as (vms & a' & p' & E & Hl' & Hrep & Hrow & [S1 S2 S3 S4] & Hv & Hr' & Hld).
  { intros b q [Q1 Q2 Q3 Q4]. split_and!; [apply Hc|by rewrite Q3|done]. }
  { exact Hr. }
  assert (Hld' : load_project (store a') pid = Some (project_json p')).
  { rewrite <- Hld; [by rewrite S1|]. cbn. lia. }
  rewrite E. eexists _, _, vms, (project_json p'). split; [reflexivity|].
  cbn [pf_api pf_acc on_api new_id fresh_id store on_store with_store AppendBuildLog AppendDaemonLog].
  rewrite first_deployment_refused. split_and!; try done.
  - rewrite Hl'. cbn. lia.
  - rewrite Hrep, Hapi5. unfold pf3. cbn. by rewrite PutProject_replicas, F1.
  - change (default (projPorts (pf_api pf5) proj) (Some (cp_Ports req))) with (cp_Ports req) in Hrow.
    rewrite Hapi5 in Hrow. replace (next_id (pf_api pf3)) with (S (next_id (pf_api pf))) in Hrow by (unfold pf3; cbn; by rewrite F1).
    apply (pool_rows_project _ _ proj); [|done]. by split.
  - rewrite (boot_range_deployments now (fun _ _ => set_image (cp_Image rq) rq) (Z.to_nat (cp_Replicas rq)) 0 proj (pf_api pf5) a' p');
      [|by intros; apply Hc|done]. rewrite Hapi5. unfold pf3. cbn. by rewrite PutProject_deployments, F1.
  - apply Hr'.
Qed.

End Create.

(** ** Witnesses and observations *)

Definition no_build (b : Build) (a : API (list string)) : API (list string) * Build := (a, b).

Definition demo_platform : Platform (list string) :=
  mkPlatform (mkAPI empty_store [] [demo_image] [] 0 [] [] [] []) demo_accounts (Some NewNetManager) [] ∅.

Definition shop_req (replicas : Z) : createProjectReq :=
  mkCreateReq "shop" "custom://app" "" "" "" "" 0 0 (OwnEnv {["MODE" := "prod"]}) [] replicas "" "" None "" false None.

Lemma demo_create_ready : create_ready demo_wiring plain_order demo_platform (shop_req 2) "ann" ann.
Proof.
  split.
  - by apply no_replicas_inv.
  - split; cbn; [by intros ? ? ?%elem_of_nil|by intros ? ?%elem_of_nil].
  - discriminate.
  - by intros r ?%elem_of_nil.
  - reflexivity.
  - reflexivity.
  - discriminate.
  - reflexivity.
  - vm_compute. reflexivity.
  - intros k _. split_and!; [by destruct k|by intros ?%elem_of_nil|by intros ?%elem_of_nil].
  - split; [discriminate|reflexivity].
  - discriminate.
  - reflexivity.
Qed.


Lemma demo_stored : stored demo_api "p" demo_project.
Proof.
  pose proof demo_server as [H1 H2 H3 H4 _ _ _ _]. by split.
Qed.

Lemma env_refines_map_witness :
  let b := fold_left (run_env "p") [EnvSet "A" "1"; EnvDelete "MODE"] demo_api in
  load_project (store b) "p" = Some (Proj_set_Env {["A" := "1"]} demo_project).
Proof.
  pose proof (env_refines_map "p" [EnvSet "A" "1"; EnvDelete "MODE"] demo_api demo_project demo_stored) as [H _].
  etransitivity; [exact H|vm_compute; reflexivity].
Defined.

Definition demo_patch (path : string) : PatchReq := mkPatch None path 0 "" None None None.

(** A tag that tells the versions of the demonstration apart. *)
Definition demo_tag (p : Project) : string := "tag:" ++ Proj_HostMountPath p.


(** Creating a project under a name that is taken answers 202 and boots VMs, but stores
    neither the project nor its replicas. *)
Lemma duplicate_name_accepted :
  let pf := (createProjectFrom demo_wiring plain_order no_build 0 (shop_req 1) "ann" demo_platform).1 in
  let '(pf', r) := createProjectFrom demo_wiring plain_order no_build 1 (shop_req 1) "bob" pf in
  r_status r = 202 /\ List.length (projects (store (pf_api pf'))) = 1%nat /\
  List.length (replicas (store (pf_api pf'))) = 1%nat /\ List.length (async_boots (pf_api pf')) = 2%nat.
Proof. vm_compute. by split_and!. Qed.

(** A patched variable of a project without environment is answered with 200 and lost. *)
Lemma patch_env_lost :
  let a := (handleDeleteEnv "p" "MODE" demo_api).1 in
  let '(b, r) := handlePatchEnv "p" "A" (Ok "1") a in
  r_status r = 200 /\ Proj_Env <$> load_project (store b) "p" = Some ∅.
Proof. vm_compute. by split. Qed.

(** A transfer changes the column alone; the next write of the project undoes it. *)
Lemma transfer_undone :
  let a := (handleTransferProject "p" (Ok "o9") demo_api).1 in
  let b := (handleSSHToggle "p" (Ok true) a).1 in
  pr_org <$> projects (store a) = ["o9"] /\ pr_org <$> projects (store b) = [""].
Proof. vm_compute. by split. Qed.

(** A domain of one project is taken over by adding it to another. *)
Lemma domain_taken_over :
  let a := on_store (PutProject (Proj_set_ID "q" (Proj_set_Name "other" demo_project))) demo_api in
  let b := (handleAddDomain "q" (Ok ("shop.dev", "custom")) (handleAddDomain "p" (Ok ("shop.dev", "custom")) a).1).1 in
  List.length (Store_ListDomains (store b) "p") = 0%nat /\ List.length (Store_ListDomains (store b) "q") = 1%nat.
Proof. vm_compute. by split. Qed.

(** A secret is deleted by identifier alone, whatever project the route names. *)
Lemma secret_deleted_by_id : secrets (handleDeleteSecret "s1" demo_api).1 = [].
Proof. vm_compute. reflexivity. Qed.

(** Any name that resolves is reported as verified. *)
Lemma foreign_domain_verified :
  (handleVerifyDomain demo_wiring (fun _ => Ok ["192.0.2.7"]) "someone.else" demo_api).2 =
  writeJSON 200 (JObj [("domain", JStr "someone.else"); ("status", JStr "verified");
                       ("detail", JStr "resolves to 192.0.2.7"); ("records", JStrs ["192.0.2.7"])]).
Proof. reflexivity. Qed.

Close Scope Z_scope.
Close Scope string_scope.
