(* ===== verification/GoPath.v ===== *)
(** * Go's [path/filepath] on Unix, lexically

    [Clean], [Join], [Base], [Dir], [IsAbs] and [Ext] as the components use them, and
    the facts their path checks rest on: cleaning is a normal form, joining a relative
    name without a leading [..] stays below the directory. Nothing here follows
    symbolic links. *)
From S2P Require Import Prelude GoStrings.
From Stdlib Require Import String Ascii.

Open Scope string_scope.

Definition slash : ascii := "/".

Definition IsAbs (p : string) : bool := has_prefix p "/".

(** The stack of kept components, last one first. *)
Fixpoint clean_from (rooted : bool) (stack l : list string) : list string :=
  match l with
  | [] => stack
  | c :: l =>
      if (c ==? "") || (c ==? ".") then clean_from rooted stack l
      else if c ==? ".." then
        match stack with
        | [] => clean_from rooted (if rooted then [] else [".."]) l
        | top :: rest => clean_from rooted (if top ==? ".." then ".." :: stack else rest) l
        end
      else clean_from rooted (c :: stack) l
  end.

Definition parts (p : string) : list string := reverse (clean_from (IsAbs p) [] (split_on slash p)).

Definition render (rooted : bool) (l : list string) : string :=
  if rooted then "/" ++ join "/" l else match l with [] => "." | _ => join "/" l end.

(** [filepath.Clean]. *)
Definition Clean (p : string) : string := render (IsAbs p) (parts p).

(** [filepath.Join]: leading empty elements are dropped. *)
Fixpoint Join (elems : list string) : string :=
  match elems with
  | [] => ""
  | e :: l => if e ==? "" then Join l else Clean (join "/" elems)
  end.

(** [filepath.Base]: the last element, without trailing slashes. *)
Definition Base (p : string) : string :=
  if p ==? "" then "."
  else
    let p := trim_right_set "/" p in
    let p := match cut_last slash p with Some (_, b) => b | None => p end in
    if p ==? "" then "/" else p.

(** [filepath.Dir]: everything up to the last slash, cleaned. *)
Definition Dir (p : string) : string :=
  match cut_last slash p with Some (d, _) => Clean (d ++ "/") | None => Clean "" end.

(** [filepath.Ext]: from the last dot of the last element. *)
Definition Ext (p : string) : string :=
  let name := match cut_last slash p with Some (_, b) => b | None => p end in
  match cut_last "." name with Some (_, e) => "." ++ e | None => "" end.

(** ** The normal form *)

(** A plain component: no slash, and neither empty, [.] nor [..]. *)
Definition no_slash (s : string) : bool := sall (fun c => negb (Ascii.eqb c slash)) s.
Definition plain_part (s : string) : bool := no_slash s && (s !=? "") && (s !=? ".") && (s !=? "..").

(** Components of a cleaned path: plain, after leading [..]s if it is not rooted. *)
Fixpoint normal (rooted : bool) (l : list string) : bool :=
  match l with
  | [] => true
  | c :: rest => if negb rooted && (c ==? "..") then normal rooted rest else forallb plain_part l
  end.

(** [p] is [dir] or below it, comparing cleaned components. *)
Definition below (dir p : string) : Prop :=
  IsAbs p = IsAbs dir /\ exists rest, parts p = (parts dir ++ rest)%list /\ forallb plain_part rest = true.

Lemma plain_part_spec c : plain_part c = true <-> no_slash c = true /\ c <> "" /\ c <> "." /\ c <> "..".
Proof. unfold plain_part. rewrite !andb_true_iff, !negb_true_iff, !bool_decide_eq_false. tauto. Qed.

Lemma clean_from_app r st l k : clean_from r st (l ++ k)%list = clean_from r (clean_from r st l) k.
Proof.
  revert st. induction l as [|c l IH]; intros st; [done|]. cbn [app clean_from].
  destruct (_ || _); [apply IH|]. destruct (c ==? ".."); [|apply IH]. destruct st; apply IH.
Qed.

Lemma clean_from_plain r st l : forallb plain_part l = true -> clean_from r st l = (reverse l ++ st)%list.
Proof.
  revert st. induction l as [|c l IH]; intros st; [done|]. cbn [forallb]. rewrite andb_true_iff.
  intros [(_ & H1 & H2 & H3)%plain_part_spec Hl]. cbn [clean_from].
  rewrite !bool_decide_false by done. cbn [orb]. rewrite IH by done. by rewrite reverse_cons, <- app_assoc.
Qed.

Lemma dotdot_stays k l : ".." ∈ k -> ".." ∈ clean_from false k l.
Proof.
  revert k. induction l as [|c l IH]; intros k Hk; [done|]. cbn [clean_from].
  destruct (_ || _); [by apply IH|]. case_bool_decide as Hc; [|apply IH; by right].
  destruct k as [|top k]; [by apply elem_of_nil in Hk|]. apply IH.
  case_bool_decide as Ht; [by left|]. by apply elem_of_cons in Hk as [<-|?].
Qed.

(** A name that does not climb out of where it starts only adds to the stack. *)
Lemma clean_from_safe r k st l : ".." ∉ clean_from false k l ->
  clean_from r (k ++ st)%list l = (clean_from false k l ++ st)%list.
Proof.
  revert k. induction l as [|c l IH]; intros k Hk; [done|]. cbn [clean_from] in *.
  destruct (_ || _); [by apply IH|]. destruct (c ==? "..").
  - destruct k as [|top k]; cbn [app].
    + exfalso. apply Hk, dotdot_stays. by left.
    + destruct (top ==? "..") eqn:Et.
      * exfalso. apply Hk, dotdot_stays. by left.
      * by apply IH.
  - by apply (IH (c :: k)).
Qed.

Lemma split_on_no_slash p : Forall (fun c => no_slash c = true) (split_on slash p).
Proof.
  induction p as [|c p IH]; [by repeat constructor|]. cbn [split_on].
  destruct (Ascii.eqb c slash) eqn:Ec; [by constructor|].
  destruct (split_on slash p) as [|w ws]; [repeat constructor; cbn; by rewrite Ec|].
  inversion_clear IH as [|? ? Hw Hws]. constructor; [|done]. unfold no_slash in *. cbn [sall]. by rewrite Ec.
Qed.

(** What the stack looks like: plain components above [..]s, and no [..] when rooted. *)
Definition stack_ok (r : bool) (st : list string) : Prop :=
  exists k n, st = (k ++ replicate n "..")%list /\ forallb plain_part k = true /\ (r = true -> n = 0%nat).

Lemma clean_from_ok r st l : Forall (fun c => no_slash c = true) l -> stack_ok r st -> stack_ok r (clean_from r st l).
Proof.
  intros Hl. revert st. induction Hl as [|c l Hc Hl IH]; intros st Hst; [done|]. cbn [clean_from].
  destruct (_ || _) eqn:E1; [by apply IH|]. destruct (c ==? "..") eqn:E2.
  - destruct Hst as (k & n & -> & Hk & Hn). destruct k as [|x k]; cbn [app].
    + destruct n as [|n]; cbn [replicate].
      * apply IH. destruct r; [by exists [], 0%nat|]. by exists [], 1%nat.
      * rewrite bool_decide_true by done. apply IH. exists [], (S (S n)). split_and!; [done|done|].
        intros Hr. by specialize (Hn Hr).
    + cbn [forallb] in Hk. apply andb_true_iff in Hk as [Hx Hk]. apply plain_part_spec in Hx as (_ & _ & _ & Hx).
      rewrite bool_decide_false by done. apply IH. by exists k, n.
  - apply IH. destruct Hst as (k & n & -> & Hk & Hn). exists (c :: k), n. split_and!; [done| |done].
    cbn [forallb]. rewrite Hk, andb_true_r. apply plain_part_spec. apply orb_false_iff in E1 as [H1 H2].
    by apply bool_decide_eq_false in H1, H2, E2.
Qed.

Lemma normal_parts p : normal (IsAbs p) (parts p) = true.
Proof.
  unfold parts. destruct (clean_from_ok (IsAbs p) [] (split_on slash p)) as (k & n & -> & Hk & Hn).
  { apply split_on_no_slash. }
  { by exists [], 0%nat. }
  rewrite reverse_app, reverse_replicate.
  assert (Hk' : forallb plain_part (reverse k) = true).
  { apply forallb_forall. intros x Hx. apply (forallb_elem _ _ Hk). by apply elem_of_reverse, list_elem_of_In. }
  induction n as [|n IH]; cbn [replicate app].
  - destruct (reverse k) as [|c l]; [done|]. cbn [normal]. cbn [forallb] in Hk'. 
    assert (c <> "..") by (by apply andb_true_iff in Hk' as [(_ & _ & _ & ?)%plain_part_spec _]).
    by rewrite (bool_decide_false (c = "..")), andb_false_r.
  - destruct (IsAbs p); [by specialize (Hn eq_refl)|]. cbn [normal negb andb]. apply IH. done.
Qed.

(** ** Cleaning is idempotent *)

Lemma normal_no_slash r l : normal r l = true -> Forall (fun c => no_slash c = true) l.
Proof.
  induction l as [|c l IH]; [done|]. cbn [normal]. destruct (negb r && _) eqn:E.
  - apply andb_true_iff in E as [_ ->%bool_decide_eq_true]. intros H. constructor; [done|by apply IH].
  - intros H. apply Forall_forall. intros x Hx. apply (forallb_elem _ _ H) in Hx.
    by apply plain_part_spec in Hx as [? _].
Qed.

Lemma normal_head r c l : normal r (c :: l) = true -> no_slash c = true /\ c <> "" /\ c <> ".".
Proof.
  cbn [normal]. destruct (negb r && _) eqn:E.
  - by apply andb_true_iff in E as [_ ->%bool_decide_eq_true].
  - cbn [forallb]. intros [(? & ? & ? & ?)%plain_part_spec _]%andb_true_iff. done.
Qed.

Lemma clean_from_normal_aux l st : normal false l = true -> Forall (fun c => c = "..") st ->
  clean_from false st l = (reverse l ++ st)%list.
Proof.
  revert st. induction l as [|c l IH]; intros st Hl Hst; [done|]. cbn [normal negb andb] in Hl.
  destruct (c ==? "..") eqn:E; [|by apply clean_from_plain].
  apply bool_decide_eq_true in E as ->. cbn [clean_from]. rewrite !bool_decide_false by done. cbn [orb].
  rewrite bool_decide_true by done. rewrite reverse_cons, <- app_assoc.
  destruct Hst as [|? st ->]; [by apply IH; [|repeat constructor]|].
  rewrite bool_decide_true by done. apply IH; [done|]. by repeat constructor.
Qed.

Lemma clean_from_normal r l : normal r l = true -> clean_from r [] l = reverse l.
Proof.
  destruct r; intros Hl.
  - rewrite <- (app_nil_r (reverse l)). apply clean_from_plain. by destruct l.
  - rewrite <- (app_nil_r (reverse l)). by apply clean_from_normal_aux.
Qed.

Lemma join_head c l : join "/" (c :: l) = match l with [] => c | _ => c ++ "/" ++ join "/" l end.
Proof. by destruct l. Qed.

Lemma IsAbs_render r l : normal r l = true -> IsAbs (render r l) = r.
Proof.
  unfold render, IsAbs. destruct r; [intros _; apply (has_prefix_app "/")|].
  destruct l as [|c l]; [done|]. intros (Hs & Hne & _)%normal_head. rewrite join_head.
  destruct c as [|a c]; [done|]. cbn in Hs. apply andb_true_iff in Hs as [Ha%negb_true_iff _].
  replace (match l with [] => String a c | _ => String a c ++ "/" ++ join "/" l end)
    with (String a (match l with [] => c | _ => c ++ "/" ++ join "/" l end)) by by destruct l.
  cbn [has_prefix]. rewrite Ascii.eqb_sym. unfold slash in Ha. by rewrite Ha.
Qed.

Lemma parts_render r l : normal r l = true -> parts (render r l) = l.
Proof.
  intros Hl. unfold parts. rewrite IsAbs_render by done.
  destruct l as [|c l]; [by destruct r|].
  assert (Hj : split_on slash (join "/" (c :: l)) = c :: l).
  { apply (split_on_join slash); [done|]. by eapply normal_no_slash. }
  unfold render. destruct r.
  - change ("/" ++ ?x) with (String slash x). cbn [split_on]. rewrite Ascii.eqb_refl.
    change (clean_from true [] ("" :: ?x)) with (clean_from true [] x).
    by rewrite Hj, clean_from_normal, reverse_involutive.
  - by rewrite Hj, clean_from_normal, reverse_involutive.
Qed.

Lemma IsAbs_Clean p : IsAbs (Clean p) = IsAbs p.
Proof. apply IsAbs_render, normal_parts. Qed.

Lemma parts_Clean p : parts (Clean p) = parts p.
Proof. apply parts_render, normal_parts. Qed.

Lemma Clean_idem p : Clean (Clean p) = Clean p.
Proof. unfold Clean at 1. by rewrite IsAbs_Clean, parts_Clean. Qed.

(** ** Joining *)

Lemma split_on_app_slash s t : split_on slash (s ++ "/" ++ t) = (split_on slash s ++ split_on slash t)%list.
Proof.
  change ("/" ++ t) with (String slash t). induction s as [|c s IH].
  - rewrite sapp_nil_l. cbn [split_on]. by rewrite Ascii.eqb_refl.
  - rewrite sapp_cons. cbn [split_on]. rewrite IH. destruct (Ascii.eqb c slash); [done|].
    destruct (split_on slash s) as [|w ws] eqn:E; [by apply split_on_not_nil in E|done].
Qed.

(** The components a relative name adds; the name climbs when they hold a [..]. *)
Definition rel_parts (rel : string) : list string := reverse (clean_from false [] (split_on slash rel)).

Definition climbs (rel : string) : bool := bool_decide (".." ∈ rel_parts rel).

Lemma IsAbs_app p q : p <> "" -> IsAbs (p ++ q) = IsAbs p.
Proof. destruct p as [|a p]; [done|]. intros _. unfold IsAbs. rewrite sapp_cons. cbn [has_prefix].
  assert (He : forall s, has_prefix s "" = true) by by intros []. by rewrite !He.
Qed.

(** Joining a name that does not climb appends its components. *)
Lemma Join_parts dir rel : dir <> "" -> climbs rel = false ->
  IsAbs (Join [dir; rel]) = IsAbs dir /\ parts (Join [dir; rel]) = (parts dir ++ rel_parts rel)%list.
Proof.
  intros Hd Hrel. cbn [Join join]. rewrite bool_decide_false by done. rewrite IsAbs_Clean, parts_Clean.
  rewrite IsAbs_app by done. split; [done|]. unfold parts, rel_parts. rewrite IsAbs_app by done.
  rewrite split_on_app_slash, clean_from_app.
  pose proof (clean_from_safe (IsAbs dir) [] (clean_from (IsAbs dir) [] (split_on slash dir)) (split_on slash rel)) as Hs.
  cbn [app] in Hs. rewrite Hs.
  - by rewrite reverse_app.
  - apply bool_decide_eq_false in Hrel. unfold rel_parts in Hrel. by rewrite elem_of_reverse in Hrel.
Qed.

Lemma rel_parts_plain rel : climbs rel = false -> forallb plain_part (rel_parts rel) = true.
Proof.
  unfold climbs, rel_parts. intros H%bool_decide_eq_false. rewrite elem_of_reverse in H.
  destruct (clean_from_ok false [] (split_on slash rel)) as (k & n & Hk & Hp & _).
  { apply split_on_no_slash. }
  { by exists [], 0%nat. }
  rewrite Hk in *. destruct n as [|n].
  - rewrite app_nil_r. apply forallb_forall. intros x Hx. apply (forallb_elem _ _ Hp).
    apply list_elem_of_In in Hx. by rewrite elem_of_reverse in Hx.
  - exfalso. apply H, elem_of_app. right. by left.
Qed.

Lemma Join_below dir rel : dir <> "" -> climbs rel = false -> below dir (Join [dir; rel]).
Proof.
  intros Hd Hr. destruct (Join_parts dir rel Hd Hr) as [Ha Hp]. split; [done|].
  exists (rel_parts rel). split; [done|]. by apply rel_parts_plain.
Qed.

Lemma rel_parts_single c : plain_part c = true -> rel_parts c = [c].
Proof.
  intros Hc. pose proof Hc as (Hs & _)%plain_part_spec. unfold rel_parts. rewrite split_on_none by done.
  rewrite clean_from_plain; [done|]. cbn. by rewrite Hc.
Qed.

Lemma climbs_single c : plain_part c = true -> climbs c = false.
Proof.
  intros Hc. unfold climbs. rewrite rel_parts_single by done. apply bool_decide_eq_false.
  intros <-%list_elem_of_singleton. done.
Qed.

Lemma Join_single dir c : dir <> "" -> plain_part c = true ->
  below dir (Join [dir; c]) /\ parts (Join [dir; c]) = (parts dir ++ [c])%list.
Proof.
  intros Hd Hc. split; [apply Join_below; [done|by apply climbs_single]|].
  rewrite <- (rel_parts_single c) at 2 by done. apply Join_parts; [done|by apply climbs_single].
Qed.

(** ** Cleaned names *)

Lemma rel_parts_Clean n : rel_parts (Clean n) = parts n.
Proof.
  unfold Clean. pose proof (normal_parts n) as Hn. set (r := IsAbs n) in *. set (l := parts n) in *. clearbody r l. clear n.
  unfold rel_parts. destruct l as [|c l]; [by destruct r|].
  assert (Hj : split_on slash (join "/" (c :: l)) = c :: l).
  { apply (split_on_join slash); [done|]. by eapply normal_no_slash. }
  unfold render. destruct r.
  - change ("/" ++ ?x) with (String slash x). cbn [split_on]. rewrite Ascii.eqb_refl.
    change (clean_from false [] ("" :: ?x)) with (clean_from false [] x). rewrite Hj.
    rewrite clean_from_plain by done. by rewrite app_nil_r, reverse_involutive.
  - by rewrite Hj, clean_from_normal, reverse_involutive.
Qed.

(** The test the unpackers make on a cleaned name: it climbs exactly when it is
    [..] or starts with [../]. *)
Lemma climbs_Clean n : climbs (Clean n) = (Clean n ==? "..") || has_prefix (Clean n) "../".
Proof.
  unfold climbs. rewrite rel_parts_Clean. unfold Clean.
  pose proof (normal_parts n) as Hn. set (r := IsAbs n) in *. set (l := parts n) in *. clearbody r l. clear n.
  assert (Hplain : forall k, forallb plain_part k = true -> bool_decide (".." ∈ k) = false).
  { intros k Hk. apply bool_decide_eq_false. intros Hin. by apply (forallb_elem _ _ Hk) in Hin. }
  destruct r; cbn [render].
  - rewrite Hplain by (by destruct l). symmetry. apply orb_false_iff. split; [by apply bool_decide_eq_false|done].
  - destruct l as [|c l]; [done|]. cbn [normal negb andb] in Hn. destruct (c ==? "..") eqn:Ec.
    + apply bool_decide_eq_true in Ec as ->. rewrite bool_decide_true by by left.
      rewrite join_head. destruct l as [|d l]; [done|]. symmetry. apply orb_true_iff. right.
      rewrite <- sapp_assoc. apply has_prefix_app.
    + rewrite Hplain by done. apply bool_decide_eq_false in Ec. symmetry.
      cbn [forallb] in Hn. apply andb_true_iff in Hn as [(Hs & H0 & H1 & _)%plain_part_spec _]. rewrite join_head.
      apply orb_false_iff. split.
      * apply bool_decide_eq_false. destruct l as [|d l]; [done|]. intros Heq.
        assert (no_slash (c ++ "/" ++ join "/" (d :: l)) = true) as Hbad by by rewrite Heq.
        unfold no_slash in Hbad. rewrite !sall_app in Hbad. cbn in Hbad. by rewrite andb_false_r in Hbad.
      * apply not_true_is_false. intros [t Ht]%has_prefix_spec.
        assert (Hsp : split_on slash (join "/" (c :: l)) = split_on slash (".." ++ "/" ++ t))
          by (f_equal; rewrite join_head; by rewrite Ht).
        rewrite split_on_app_slash in Hsp. rewrite join_head in Hsp. destruct l as [|d l].
        { rewrite split_on_none in Hsp by done. by injection Hsp. }
        rewrite split_on_app_slash, split_on_none in Hsp by done. by injection Hsp.
Qed.

Lemma join_app (l k : list string) : l <> [] -> k <> [] -> join "/" (l ++ k)%list = join "/" l ++ "/" ++ join "/" k.
Proof.
  intros Hl Hk. induction l as [|c l IH]; [done|]. cbn [app]. rewrite !join_head.
  destruct l as [|d l]; [by destruct k|]. cbn [app] in *. rewrite IH by done. by rewrite !sapp_assoc.
Qed.

(** The text of a path below a directory that is neither [.] nor [/]. *)
Lemma render_app r (l k : list string) : l <> [] ->
  render r (l ++ k)%list = match k with [] => render r l | _ => render r l ++ "/" ++ join "/" k end.
Proof.
  intros Hl. destruct k as [|c k]; [by rewrite app_nil_r|]. unfold render.
  destruct r; [by rewrite join_app, sapp_assoc|]. destruct l as [|d l]; [done|].
  change ((d :: l) ++ c :: k)%list with (d :: (l ++ c :: k))%list at 1. by rewrite <- join_app.
Qed.

(** [Base] gives a name without slashes, or [/] itself. *)
Lemma Base_no_slash p : Base p = "/" \/ no_slash (Base p) = true.
Proof.
  unfold Base. destruct (p ==? ""); [by right|]. set (q := trim_right_set "/" p). clearbody q.
  assert (Hq : no_slash (match cut_last slash q with Some (_, b) => b | None => q end) = true).
  { induction q as [|c q IH]; [done|]. cbn [cut_last]. destruct (cut_last slash q) as [[a b]|]; [done|].
    destruct (Ascii.eqb c slash) eqn:E; [done|]. unfold no_slash in *. cbn [sall]. by rewrite E, IH. }
  case_bool_decide; [by left|by right].
Qed.

(** ** Parents *)

Lemma Clean_nonempty p : Clean p <> "".
Proof.
  unfold Clean. pose proof (normal_parts p) as Hn. destruct (IsAbs p); [done|]. cbn [render].
  destruct (parts p) as [|c l]; [done|]. apply normal_head in Hn as (_ & Hc & _). rewrite join_head.
  destruct c; [done|]. by destruct l.
Qed.

Lemma Join_nonempty dir rel : dir <> "" -> Join [dir; rel] <> "".
Proof. intros Hd. cbn [Join]. rewrite bool_decide_false by done. apply Clean_nonempty. Qed.

Lemma parts_nil n : parts n = [] -> Clean n = "/" \/ Clean n = ".".
Proof. unfold Clean. intros ->. destruct (IsAbs n); [by left|by right]. Qed.

Lemma cut_last_none s : no_slash s = true -> cut_last slash s = None.
Proof.
  unfold no_slash. induction s as [|c s IH]; [done|]. cbn [sall cut_last]. intros [Hc Hs]%andb_true_iff.
  rewrite IH by done. apply negb_true_iff in Hc. by rewrite Hc.
Qed.

Lemma cut_last_app s c : no_slash c = true -> cut_last slash (s ++ String slash c) = Some (s, c).
Proof.
  intros Hc. induction s as [|a s IH].
  - rewrite sapp_nil_l. cbn [cut_last]. by rewrite cut_last_none, Ascii.eqb_refl.
  - rewrite sapp_cons. cbn [cut_last]. by rewrite IH.
Qed.

Lemma Clean_trailing p : p <> "" -> Clean (p ++ "/") = Clean p.
Proof.
  intros Hp. unfold Clean, parts. rewrite IsAbs_app by done. do 2 f_equal.
  replace (p ++ "/") with (p ++ "/" ++ "") by done. rewrite split_on_app_slash, clean_from_app. done.
Qed.

Lemma Clean_render r l : normal r l = true -> Clean (render r l) = render r l.
Proof. intros Hl. unfold Clean. by rewrite IsAbs_render, parts_render. Qed.

Lemma normal_snoc r l c : normal r (l ++ [c])%list = true -> normal r l = true.
Proof.
  induction l as [|d l IH]; [done|]. cbn [app normal]. destruct (negb r && _); [apply IH|].
  rewrite app_comm_cons, forallb_app. by intros [? _]%andb_true_iff.
Qed.

(** The directory of a cleaned path drops its last component. *)
Lemma Dir_Clean p l c : parts p = (l ++ [c])%list -> c <> ".." -> Dir (Clean p) = render (IsAbs p) l.
Proof.
  intros Hp Hc. pose proof (normal_parts p) as Hn. unfold Clean. rewrite Hp in *. set (r := IsAbs p) in *. clearbody r.
  pose proof (normal_snoc _ _ _ Hn) as Hl.
  assert (Hs : no_slash c = true).
  { apply normal_no_slash in Hn. rewrite Forall_app in Hn. destruct Hn as [_ Hn]. by inversion Hn. }
  unfold Dir. destruct l as [|d l].
  - destruct r; cbn [app render join].
    + change ("/" ++ c) with ("" ++ String slash c). by rewrite cut_last_app.
    + by rewrite cut_last_none.
  - rewrite render_app by done. cbn [join]. change ("/" ++ c) with (String slash c). rewrite cut_last_app by done.
    rewrite Clean_trailing; [by apply Clean_render|].
    intros He. pose proof (Clean_render r (d :: l) Hl) as Hr. rewrite He in Hr. by vm_compute in Hr.
Qed.

Lemma below_refl dir : below dir (Clean dir).
Proof. split; [apply IsAbs_Clean|]. exists []. by rewrite parts_Clean, app_nil_r. Qed.

Lemma below_trans a b c : below a b -> below b c -> below a c.
Proof.
  intros (H1 & l & Hl & Hp) (H2 & k & Hk & Hq). split; [congruence|]. exists (l ++ k)%list.
  rewrite Hk, Hl, app_assoc. split; [done|]. by rewrite forallb_app, Hp, Hq.
Qed.

Lemma Clean_Join dir rel : dir <> "" -> Clean (Join [dir; rel]) = Join [dir; rel].
Proof. intros Hd. cbn [Join]. rewrite bool_decide_false by done. apply Clean_idem. Qed.

Lemma Join_dot dir : Join [Clean dir; "."] = Clean dir.
Proof.
  pose proof (Clean_nonempty dir) as Hd. destruct (Join_parts (Clean dir) "." Hd) as [Ha Hp]; [by vm_compute|].
  rewrite <- Clean_Join by done. unfold Clean at 1. rewrite Ha, Hp. change (rel_parts ".") with (@nil string).
  by rewrite app_nil_r, IsAbs_Clean, parts_Clean.
Qed.

(** The directory of a joined name that has a component is still below. *)
Lemma Dir_Join_below dir rel : dir <> "" -> climbs rel = false -> rel_parts rel <> [] -> below dir (Dir (Join [dir; rel])).
Proof.
  intros Hd Hr Hne. destruct (Join_parts dir rel Hd Hr) as [Ha Hp].
  pose proof (rel_parts_plain rel Hr) as Hpl. destruct (rel_parts rel) as [|x k] using rev_ind; [done|]. clear IHk.
  rewrite forallb_app in Hpl. apply andb_true_iff in Hpl as [Hk Hx]. cbn in Hx. rewrite andb_true_r in Hx.
  apply plain_part_spec in Hx as (_ & _ & _ & Hx).
  rewrite <- Clean_Join by done. rewrite app_assoc in Hp. rewrite (Dir_Clean _ _ _ Hp Hx), Ha.
  assert (Hn : normal (IsAbs dir) (parts dir ++ k)%list = true).
  { pose proof (normal_parts (Join [dir; rel])) as H. rewrite Ha, Hp in H. by eapply normal_snoc. }
  split; [by apply IsAbs_render|]. exists k. split; [by apply parts_render|done].
Qed.
