(* ===== verification/SecretBox.v ===== *)
(** * Secret envelopes ([secretbox/secretbox.go])

    AES-GCM as [crypto/aes] and [crypto/cipher] give it to the box: AES for 16, 24 and
    32 byte keys (FIPS 197), GCM with a 12-byte nonce, a 16-byte tag and no additional
    data (SP 800-38D), executable, and the box itself: [nonce ‖ ciphertext ‖ tag].
    The random source is an argument. *)
From S2P Require Import Prelude GoStrings GoNet GoCrypto.
From Stdlib Require Import String Ascii.

Open Scope string_scope.
Open Scope Z_scope.

(** ** AES *)

Definition xtime (b : Z) : Z := let x := 2 * b in if 256 <=? x then Z.lxor x 283 else x.

(** The product in GF(2^8), by the bits of [b]. *)
Fixpoint gmul_bits (n : nat) (a b : Z) : Z :=
  match n with
  | O => 0
  | S n => Z.lxor (if Z.odd b then a else 0) (gmul_bits n (xtime a) (b / 2))
  end.
Definition gmul (a b : Z) : Z := gmul_bits 8 a b.

Fixpoint gpow (a : Z) (n : nat) : Z := match n with O => 1 | S n => gmul a (gpow a n) end.

Definition rotl8 (n x : Z) : Z := Z.lor ((Z.shiftl x n) mod 256) (Z.shiftr x (8 - n)).

(** The S-box: the affine image of the inverse, which is the 254th power. *)
Definition sbox_table : list Z :=
  Eval vm_compute in
    (fun b => let i := gpow b 254 in
              Z.lxor (Z.lxor (Z.lxor (Z.lxor (Z.lxor i (rotl8 1 i)) (rotl8 2 i)) (rotl8 3 i)) (rotl8 4 i)) 99)
    <$> (Z.of_nat <$> seq 0 256).
Definition sbox (b : Z) : Z := nth (Z.to_nat b) sbox_table 0.

Definition xor_bytes (l k : list Z) : list Z := zip_with Z.lxor l k.

Fixpoint chunks (n : nat) (fuel : nat) (l : list Z) : list (list Z) :=
  match fuel, l with
  | S fuel, _ :: _ => take n l :: chunks n fuel (drop n l)
  | _, _ => []
  end.

(** The key schedule: words of four bytes, newest first. *)
Fixpoint expand (nk : nat) (n : nat) (i : nat) (rcon : Z) (w : list (list Z)) : list (list Z) :=
  match n with
  | O => w
  | S n =>
      let temp := nth 0 w [] in
      let '(temp, rcon) :=
        if (i mod nk =? 0)%nat then
          (xor_bytes (sbox <$> (drop 1 temp ++ take 1 temp)%list) [rcon; 0; 0; 0], xtime rcon)
        else if (6 <? nk)%nat && (i mod nk =? 4)%nat then (sbox <$> temp, rcon)
        else (temp, rcon) in
      expand nk n (S i) rcon (xor_bytes (nth (nk - 1) w []) temp :: w)
  end.

(** The round keys of 16 bytes, first one first. *)
Definition round_keys (key : list Z) : list (list Z) :=
  let nk := (List.length key / 4)%nat in
  let w := expand nk (4 * (nk + 7) - nk) nk 1 (reverse (chunks 4 (List.length key) key)) in
  let bytes := mjoin (reverse w) in
  chunks 16 (List.length bytes) bytes.

Definition shift_rows (s : list Z) : list Z :=
  (fun i => nth i s 0) <$> [0; 5; 10; 15; 4; 9; 14; 3; 8; 13; 2; 7; 12; 1; 6; 11]%nat.

Definition mix_column (c : list Z) : list Z :=
  match c with
  | [a; b; c; d] =>
      let m x y z u := Z.lxor (Z.lxor (gmul x 2) (gmul y 3)) (Z.lxor z u) in
      [m a b c d; m b c d a; m c d a b; m d a b c]
  | _ => c
  end.

Definition mix_columns (s : list Z) : list Z := mjoin (mix_column <$> chunks 4 4 s).

Fixpoint aes_rounds (keys : list (list Z)) (s : list Z) : list Z :=
  match keys with
  | [] => s
  | [k] => xor_bytes (shift_rows (sbox <$> s)) k
  | k :: keys => aes_rounds keys (xor_bytes (mix_columns (shift_rows (sbox <$> s))) k)
  end.

Definition aes_encrypt (keys : list (list Z)) (block : list Z) : list Z :=
  match keys with
  | k :: keys => aes_rounds keys (xor_bytes block k)
  | [] => block
  end.

(** ** GCM *)

Definition be_val (l : list Z) : Z := foldl (fun acc b => acc * 256 + b) 0 l.
Definition be128 (x : Z) : list Z := (fun i => (x / 2 ^ (8 * (15 - Z.of_nat i))) mod 256) <$> seq 0 16.

(** The product in GF(2^128) with GCM's bit order: the first bit is the highest. *)
Fixpoint gf128 (n : nat) (x v acc : Z) : Z :=
  match n with
  | O => acc
  | S n =>
      let acc := if Z.testbit x (Z.of_nat n) then Z.lxor acc v else acc in
      let v := if Z.odd v then Z.lxor (v / 2) (225 * 2 ^ 120) else v / 2 in
      gf128 n x v acc
  end.

Definition ghash_step (h y : Z) (block : list Z) : Z :=
  gf128 128 (Z.lxor y (be_val (block ++ replicate (16 - List.length block) 0)%list)) h 0.

Definition ghash (h : Z) (c : list Z) : Z :=
  let y := foldl (ghash_step h) 0 (chunks 16 (List.length c) c) in
  gf128 128 (Z.lxor y (8 * Z.of_nat (List.length c))) h 0.

Definition block_cipher (keys : list (list Z)) (x : Z) : Z := be_val (aes_encrypt keys (be128 x)).

(** Counter blocks: the 32-bit counter is incremented modulo 2^32. *)
Definition ctr_block (j0 : Z) (i : nat) : Z := j0 - j0 mod 2 ^ 32 + (j0 + Z.of_nat i) mod 2 ^ 32.

Definition keystream (keys : list (list Z)) (j0 : Z) (n : nat) : list Z :=
  take n (mjoin ((fun i => be128 (block_cipher keys (ctr_block j0 (S i)))) <$> seq 0 ((n + 15) / 16))).

Definition gcm_tag (keys : list (list Z)) (j0 : Z) (c : list Z) : list Z :=
  be128 (Z.lxor (block_cipher keys j0) (ghash (block_cipher keys 0) c)).

Definition j0_of (nonce : list Z) : Z := be_val (nonce ++ [0; 0; 0; 1])%list.

(** [gcm.Seal(nil, nonce, plaintext, nil)] and [gcm.Open(nil, nonce, ciphertext, nil)]. *)
Definition gcm_seal (key nonce plaintext : list Z) : list Z :=
  let keys := round_keys key in
  let c := xor_bytes plaintext (keystream keys (j0_of nonce) (List.length plaintext)) in
  (c ++ gcm_tag keys (j0_of nonce) c)%list.

Definition gcm_open (key nonce ciphertext : list Z) : option (list Z) :=
  if (List.length ciphertext <? 16)%nat then None
  else
    let keys := round_keys key in
    let n := (List.length ciphertext - 16)%nat in
    let c := take n ciphertext in
    if bool_decide (drop n ciphertext = gcm_tag keys (j0_of nonce) c) then
      Some (xor_bytes c (keystream keys (j0_of nonce) n))
    else None.

(** The vectors of SP 800-38D for 256-bit keys. *)
Example gcm_empty :
  EncodeHex (gcm_seal (replicate 32 0) (replicate 12 0) []) = "530f8afbc74536b9a963b4f1c4cb738b".
Proof. by vm_compute. Qed.

Example gcm_zero_block :
  EncodeHex (gcm_seal (replicate 32 0) (replicate 12 0) (replicate 16 0))
  = "cea7403d4d606b6e074ec5d3baf39d18d0d1c8a799996bf0265b98b5d48ab919".
Proof. by vm_compute. Qed.

(** ** The box *)

Definition NonceSize : nat := 12.

(** [aes.NewCipher] accepts three key sizes. *)
Definition NewCipher (key : string) : result string (list Z) :=
  if bool_decide (String.length key ∈ [16; 24; 32]%nat) then Ok (bytes_of key)
  else Err ("crypto/aes: invalid key size " ++ Itoa (Z.of_nat (String.length key))).

Definition Key (material : string) : string := string_of (Sum256 material).

(** [nonce] is what [rand.Read] fills in, or its error. *)
Definition Seal (key : string) (nonce : result string string) (plaintext : string) : result string string :=
  block ← NewCipher key;
  nonce ← nonce;
  Ok (nonce ++ string_of (gcm_seal block (bytes_of nonce) (bytes_of plaintext))).

Definition Open (key box : string) : result string string :=
  block ← NewCipher key;
  if (String.length box <? NonceSize)%nat then Err "secretbox: box too short"
  else
    let nonce := stake NonceSize box in
    let ciphertext := sdrop NonceSize box in
    match gcm_open block (bytes_of nonce) (bytes_of ciphertext) with
    | Some raw => Ok (string_of raw)
    | None => Err "secretbox: open: cipher: message authentication failed"
    end.

(** [encryptSecret], [decryptSecret] of [api/handlers.go], under the server's key material. *)
Definition encryptSecret (material : string) (nonce : result string string) (value : string) : result string string :=
  Seal (Key material) nonce value.
Definition decryptSecret (material blob : string) : result string string := Open (Key material) blob.

(** ** What is sealed is what opens *)

Lemma length_xor_bytes l k : List.length (xor_bytes l k) = Nat.min (List.length l) (List.length k).
Proof. apply length_zip_with. Qed.

Lemma xor_bytes_twice l k : (List.length l <= List.length k)%nat -> xor_bytes (xor_bytes l k) k = l.
Proof.
  revert k. induction l as [|x l IH]; intros [|y k] H; cbn in *; try done; [lia|].
  f_equal; [by rewrite Z.lxor_assoc, Z.lxor_nilpotent, Z.lxor_0_r|]. apply IH. lia.
Qed.

Lemma lxor_byte a b : is_byte a -> is_byte b -> is_byte (Z.lxor a b).
Proof.
  unfold is_byte. intros [Ha Ha'] [Hb Hb']. split; [by apply Z.lxor_nonneg|].
  destruct (Z.eq_dec (Z.lxor a b) 0) as [->|Hne]; [lia|].
  assert (0 <= Z.lxor a b) by by apply Z.lxor_nonneg.
  change 256 with (2 ^ 8). apply Z.log2_lt_pow2; [lia|].
  eapply Z.le_lt_trans; [by apply Z.log2_lxor|]. apply Z.max_lub_lt.
  - destruct (Z.eq_dec a 0) as [->|]; [done|]. apply Z.log2_lt_pow2; lia.
  - destruct (Z.eq_dec b 0) as [->|]; [done|]. apply Z.log2_lt_pow2; lia.
Qed.

Lemma be128_bytes x : Forall is_byte (be128 x).
Proof. apply Forall_fmap, Forall_true. intros i. apply Z.mod_pos_bound. lia. Qed.

Lemma length_be128 x : List.length (be128 x) = 16%nat.
Proof. done. Qed.

Lemma length_blocks {A} (f : A -> list Z) l :
  (forall a, List.length (f a) = 16%nat) -> List.length (mjoin (f <$> l)) = (16 * List.length l)%nat.
Proof.
  intros Hf. induction l as [|a l IH]; [done|]. rewrite fmap_cons.
  change (mjoin (f a :: (f <$> l))) with (f a ++ mjoin (f <$> l))%list.
  rewrite length_app, Hf, IH. cbn [List.length]. lia.
Qed.

Lemma length_keystream keys j0 n : List.length (keystream keys j0 n) = n.
Proof.
  unfold keystream. rewrite length_take, length_blocks by done. rewrite length_seq.
  pose proof (Nat.div_mod_eq (n + 15) 16). pose proof (Nat.mod_upper_bound (n + 15) 16). lia.
Qed.

Lemma keystream_bytes keys j0 n : Forall is_byte (keystream keys j0 n).
Proof.
  apply Forall_take, Forall_join, Forall_fmap, Forall_true. intros i. apply be128_bytes.
Qed.

Lemma xor_bytes_range l k : Forall is_byte l -> Forall is_byte k -> Forall is_byte (xor_bytes l k).
Proof.
  intros Hl. revert k. induction Hl as [|x l Hx Hl IH]; intros k Hk; [done|].
  destruct Hk as [|y k Hy Hk]; [done|]. cbn. constructor; [by apply lxor_byte|by apply IH].
Qed.

Lemma length_gcm_tag keys j0 c : List.length (gcm_tag keys j0 c) = 16%nat.
Proof. apply length_be128. Qed.

(** Opening succeeds exactly on sealed texts. *)
Lemma gcm_open_seal key nonce p : gcm_open key nonce (gcm_seal key nonce p) = Some p.
Proof.
  unfold gcm_open, gcm_seal. set (ks := keystream _ _ _). set (c := xor_bytes p ks).
  assert (Hc : List.length c = List.length p).
  { unfold c, ks. rewrite length_xor_bytes, length_keystream. lia. }
  rewrite length_app, length_gcm_tag, Hc.
  replace (List.length p + 16 <? 16)%nat with false by (symmetry; apply Nat.ltb_ge; lia).
  replace (List.length p + 16 - 16)%nat with (List.length c) by lia.
  rewrite take_app_length, drop_app_length. rewrite bool_decide_true by done. f_equal.
  rewrite Hc. unfold c. apply xor_bytes_twice. unfold ks. by rewrite length_keystream.
Qed.

Lemma gcm_seal_open key nonce ct p : gcm_open key nonce ct = Some p -> gcm_seal key nonce p = ct.
Proof.
  unfold gcm_open. destruct (_ <? _)%nat eqn:El; [done|]. apply Nat.ltb_ge in El.
  set (n := (List.length ct - 16)%nat). case_bool_decide as Ht; [|done]. intros [= <-].
  unfold gcm_seal. set (ks := keystream _ _ n).
  assert (Hn : List.length (take n ct) = n) by (rewrite length_take; unfold n; lia).
  assert (Hl : List.length (xor_bytes (take n ct) ks) = n).
  { rewrite length_xor_bytes, Hn. unfold ks. rewrite length_keystream. lia. }
  rewrite Hl. fold ks. rewrite xor_bytes_twice by (unfold ks; rewrite Hn, length_keystream; done).
  rewrite <- Ht. apply take_drop.
Qed.

Lemma bytes_of_app s t : bytes_of (s ++ t) = (bytes_of s ++ bytes_of t)%list.
Proof. induction s as [|c s IH]; [by rewrite sapp_nil_l|]. rewrite sapp_cons. cbn. by rewrite IH. Qed.

Lemma length_bytes_of s : List.length (bytes_of s) = String.length s.
Proof. induction s; cbn; by f_equal. Qed.

Lemma length_string_of l : String.length (string_of l) = List.length l.
Proof. induction l; cbn; by f_equal. Qed.

Lemma gcm_seal_bytes key nonce p : Forall is_byte p -> Forall is_byte (gcm_seal key nonce p).
Proof.
  intros Hp. apply Forall_app. split; [|apply be128_bytes]. by apply xor_bytes_range, keystream_bytes.
Qed.

Lemma stake_sdrop n s : stake n s ++ sdrop n s = s.
Proof. revert s. induction n as [|n IH]; intros [|c s]; try done. cbn. by rewrite sapp_cons, IH. Qed.

Lemma length_stake n s : (n <= String.length s)%nat -> String.length (stake n s) = n.
Proof.
  revert s. induction n as [|n IH]; intros [|c s] H; cbn in *; try done; [lia|]. rewrite IH; [done|lia].
Qed.

Lemma Key_cipher material : NewCipher (Key material) = Ok (bytes_of (Key material)).
Proof.
  unfold NewCipher. rewrite bool_decide_true; [done|]. unfold Key. rewrite length_string_of, Sum256_length.
  right. right. by left.
Qed.

Lemma Open_Seal material blob value :
  Open (Key material) blob = Ok value <->
  exists nonce, String.length nonce = NonceSize /\ Seal (Key material) (Ok nonce) value = Ok blob.
Proof.
  unfold Open, Seal. rewrite Key_cipher. cbn [mbind result_bind].
  set (k := bytes_of (Key material)). clearbody k. split.
  - destruct (_ <? _)%nat eqn:El; [done|]. apply Nat.ltb_ge in El. destruct (gcm_open _ _ _) as [raw|] eqn:Eo; [|done].
    intros [= <-]. exists (stake NonceSize blob). split; [by apply length_stake|]. apply gcm_seal_open in Eo as Es.
    rewrite bytes_of_string.
    + by rewrite Es, string_of_bytes, stake_sdrop.
    + unfold gcm_open in Eo. destruct (_ <? _)%nat; [done|]. case_bool_decide; [|done]. injection Eo as <-.
      apply xor_bytes_range; [apply Forall_take, bytes_of_range|apply keystream_bytes].
  - intros (nonce & Hn & [= <-]). rewrite slen_app. replace (_ <? _)%nat with false by (symmetry; apply Nat.ltb_ge; lia).
    rewrite <- Hn, stake_app, sdrop_app. rewrite bytes_of_string by apply gcm_seal_bytes, bytes_of_range.
    by rewrite gcm_open_seal, string_of_bytes.
Qed.

(** C23: The envelope is exact: a box opens to a text precisely when it is a seal of that
    text under the same key with some nonce. So what is sealed always opens to itself,
    and nothing opens that sealing could not have produced; the key derived from the
    server's material is always a valid one. *)
Theorem decryptSecret_spec material blob value :
  decryptSecret material blob = Ok value <->
  exists nonce, String.length nonce = NonceSize /\ encryptSecret material (Ok nonce) value = Ok blob.
Proof. apply Open_Seal. Qed.

Lemma decryptSecret_witness : decryptSecret "k"
  (match encryptSecret "k" (Ok "nonce-nonce-") "hunter2" with Ok b => b | Err _ => "" end) = Ok "hunter2".
Proof. apply decryptSecret_spec. exists "nonce-nonce-". split; [done|]. vm_compute. reflexivity. Defined.
