(* ===== verification/Runtime.v ===== *)
(** * Driving Firecracker ([runtime/*.go], [guestagent/protocol.go])

    The client of the Firecracker API ([runtime/fc_client.go]), the managers over it
    ([runtime/manager.go], [runtime/vm_manager.go]), socket names
    ([runtime/socket.go]), the log collector ([runtime/metrics.go]) and the protocol
    client of the guest agent. The host is a record of what it answers (operating
    system, directories, process starts, sockets, and the reply to an API request given
    the requests before it) and a state of live processes and requests sent. A JSON
    object is the list of its fields. *)
From S2P Require Import Prelude GoStrings GoPath GoNum GoNet GoCrypto SecretBox Types Gateway Store NetMgr Controllers Pool.
From Stdlib Require Import String Ascii.

Open Scope string_scope.
Open Scope Z_scope.

(** ** The host *)

Record Call := mkCall { c_method : string; c_socket : string; c_path : string; c_body : Json }.

(** [w_api past call] is the error of the request [call] after [past], if any: of the
    transport, or of a status of 400 and above. *)
Record World := mkWorld {
  w_goos : string;
  w_mkdir : string -> option string;
  w_spawn : list string -> option string;
  w_socket : string -> option string;
  w_api : list Call -> Call -> option string
}.

(** Live processes by their argument vector, and the requests sent. *)
Record Host := mkHostState { h_procs : gmap Z (list string); h_next : Z; h_calls : list Call }.

Definition kill (pid : Z) (h : Host) : Host := mkHostState (delete pid (h_procs h)) (h_next h) (h_calls h).

(** ** Platform and sockets *)

Definition MicroVMHost (w : World) : bool := w_goos w ==? "linux".

Definition RequireMicroVMHost (w : World) (op : string) : option string :=
  if MicroVMHost w then None
  else Some (op ++ " requires a Linux host with KVM (running on " ++ w_goos w
             ++ ": control plane works, MicroVM boot does not)").

(** [strings.NewReplacer] of three bytes by a hyphen. *)
Definition safeVMID (vmID : string) : string :=
  smap (fun c => if in_set "/\ " c then "-"%char else c) vmID.

Definition socketPath (socketDir vmID : string) : string :=
  Join [socketDir; "porter-" ++ safeVMID vmID ++ ".sock"].

(** [OperationError.Error] ([runtime/port.go]). *)
Definition OperationError (operation vmID err : string) : string :=
  if vmID ==? "" then "runtime " ++ operation ++ ": " ++ err
  else "runtime " ++ operation ++ " vm=" ++ vmID ++ ": " ++ err.

(** ** The Firecracker client *)

Record VMHandle := mkHandle { hd_VMID : string; hd_SocketPath : string; hd_PID : Z }.
Record FCClient := mkFC { fc_binPath : string; fc_socketDir : string; fc_vms : gmap string VMHandle }.

Definition NewFCClient (binPath socketDir : string) : FCClient := mkFC binPath socketDir ∅.

Record FCDataDrive := mkDrive { Drive_ID : string; Drive_Path : string }.

Record FCVMConfig := mkFCVMConfig {
  FC_VMID : string;
  FC_KernelPath : string;
  FC_RootfsPath : string;
  FC_VCPUs : Z;
  FC_MemMiB : Z;
  FC_NetworkSpec : option ReplicaNetworkSpec;
  FC_DataDrives : list FCDataDrive;
  FC_SnapshotDir : string;
  FC_LogsDir : string;
  FC_MMDSData : list (string * Json);
  FC_Jailer : list string;
  FC_BalloonMiB : Z;
  FC_VsockUDSPath : string;
  FC_VsockGuestCID : Z;
  FC_RxBandwidthKbps : Z;
  FC_TxBandwidthKbps : Z;
  FC_RxOpsPerSec : Z;
  FC_TxOpsPerSec : Z
}.

(** Go's [if err := f(); err != nil { return err }]. *)
Definition and_then {S : Type} (r : S * option string) (k : S -> S * option string) : S * option string :=
  match r with (s, None) => k s | (s, Some e) => (s, Some e) end.
Notation "h <~ r ;; k" := (and_then r (fun h => k)) (at level 100, r at next level, right associativity) : porter_scope.

Section Client.
Context (w : World).

(** [put] and [patch]: the request is sent; its error is the answer. *)
Definition send (method sock path : string) (body : Json) (h : Host) : Host * option string :=
  let call := mkCall method sock path body in
  (mkHostState (h_procs h) (h_next h) (h_calls h ++ [call]), w_api w (h_calls h) call).
Definition put := send "PUT".
Definition patch := send "PATCH".

Definition buildBootArgs (cfg : FCVMConfig) : string :=
  match FC_NetworkSpec cfg with
  | Some n => " ip=" ++ RN_IPAddress n ++ "::" ++ RN_Gateway n ++ ":255.255.255.0::eth0:off"
  | None => ""
  end.

Definition putMMDSConfig (sock : string) (data : list (string * Json)) : Host -> Host * option string :=
  put sock "/mmds/config"
    (JObj [("version", JStr "V2"); ("network_interfaces", JStrs ["eth0"]); ("mmds_data", JObj data)]).

Definition putBalloon (sock : string) (amountMiB : Z) : Host -> Host * option string :=
  put sock "/balloon"
    (JObj [("amount_mib", JInt amountMiB); ("deflate_on_oom", JBool true); ("stats_polling_interval_s", JInt 10)]).

Definition putVsock (sock udsPath : string) (guestCID : Z) : Host -> Host * option string :=
  let guestCID := if guestCID <? 3 then 3 else guestCID in
  put sock "/vsock" (JObj [("guest_cid", JInt guestCID); ("uds_path", JStr udsPath)]).

Definition bucket (bw ops : Z) : list (string * Json) :=
  ((if 0 <? bw then [("bandwidth", JObj [("size", JInt (bw * 1024)); ("one_time_burst", JInt (bw * 1024));
                                         ("refill_time", JInt 1000)])] else [])
   ++ (if 0 <? ops then [("ops", JObj [("size", JInt ops); ("one_time_burst", JInt ops);
                                       ("refill_time", JInt 1000)])] else []))%list.

Definition limiter_body (rxBW txBW rxOps txOps : Z) : list (string * Json) :=
  let rx := bucket rxBW rxOps in
  let tx := bucket txBW txOps in
  ([("iface_id", JStr "eth0")]
   ++ (if bool_decide (rx <> []) then [("rx_rate_limiter", JObj rx)] else [])
   ++ (if bool_decide (tx <> []) then [("tx_rate_limiter", JObj tx)] else []))%list.

Definition putRateLimiter (sock : string) (rxBW txBW rxOps txOps : Z) (h : Host) : Host * option string :=
  let body := limiter_body rxBW txBW rxOps txOps in
  if (List.length body =? 1)%nat then (h, None)
  else patch sock "/network-interfaces/eth0" (JObj body) h.

Definition drive_body (id path : string) (root : bool) : Json :=
  JObj [("drive_id", JStr id); ("path_on_host", JStr path); ("is_root_device", JBool root); ("is_read_only", JBool false)].

Fixpoint putDrives (sock : string) (drives : list FCDataDrive) (h : Host) : Host * option string :=
  match drives with
  | [] => (h, None)
  | d :: rest =>
      h <~ put sock ("/drives/" ++ Drive_ID d) (drive_body (Drive_ID d) (Drive_Path d) false) h;;
      putDrives sock rest h
  end.

Definition limits (cfg : FCVMConfig) : Z :=
  FC_RxBandwidthKbps cfg + FC_TxBandwidthKbps cfg + FC_RxOpsPerSec cfg + FC_TxOpsPerSec cfg.

Definition configureVM (sock : string) (cfg : FCVMConfig) (h : Host) : Host * option string :=
  h <~ put sock "/boot-source"
         (JObj [("kernel_image_path", JStr (FC_KernelPath cfg));
                ("boot_args", JStr ("console=ttyS0 reboot=k panic=1 pci=off nomodules ro root=/dev/vda " ++ buildBootArgs cfg))]) h;;
  h <~ put sock "/drives/rootfs" (drive_body "rootfs" (FC_RootfsPath cfg) true) h;;
  h <~ match FC_NetworkSpec cfg with
       | Some n => put sock "/network-interfaces/eth0"
                     (JObj [("iface_id", JStr "eth0"); ("guest_mac", JStr (RN_MAC n)); ("host_dev_name", JStr (RN_TapName n))]) h
       | None => (h, None)
       end;;
  h <~ putDrives sock (FC_DataDrives cfg) h;;
  h <~ (if (0 <? List.length (FC_MMDSData cfg))%nat then putMMDSConfig sock (FC_MMDSData cfg) h else (h, None));;
  h <~ (if FC_VsockUDSPath cfg !=? "" then putVsock sock (FC_VsockUDSPath cfg) (FC_VsockGuestCID cfg) h else (h, None));;
  h <~ (if 0 <? FC_BalloonMiB cfg then putBalloon sock (FC_BalloonMiB cfg) h else (h, None));;
  h <~ (if 0 <? limits cfg then
          putRateLimiter sock (FC_RxBandwidthKbps cfg) (FC_TxBandwidthKbps cfg) (FC_RxOpsPerSec cfg) (FC_TxOpsPerSec cfg) h
        else (h, None));;
  put sock "/machine-config" (JObj [("vcpu_count", JInt (FC_VCPUs cfg)); ("mem_size_mib", JInt (FC_MemMiB cfg))]) h.

Definition startVM (sock : string) : Host -> Host * option string :=
  put sock "/actions" (JObj [("action_type", JStr "InstanceStart")]).

(** Starting a process: its number, new among all so far. *)
Definition spawn (argv : list string) (h : Host) : Host * Z :=
  (mkHostState (<[h_next h := argv]> (h_procs h)) (h_next h + 1) (h_calls h), h_next h).

(** What [exec.Command] is given. *)
Definition boot_argv (c : FCClient) (sock : string) (cfg : FCVMConfig) : list string :=
  match FC_Jailer cfg with
  | [] => [fc_binPath c; "--api-sock"; sock; "--config-file"; "/dev/null"]
  | argv => argv
  end.

Definition wrap (prefix : string) (r : Host * option string) : Host * option string :=
  match r with (h, None) => (h, None) | (h, Some e) => (h, Some (prefix ++ e)) end.

Definition CreateAndStartVM (c : FCClient) (cfg : FCVMConfig) (h : Host) : FCClient * Host * option string :=
  match RequireMicroVMHost w "Firecracker boot" with
  | Some e => (c, h, Some e)
  | None =>
      let sock := Join [fc_socketDir c; FC_VMID cfg ++ ".sock"] in
      match w_mkdir w (fc_socketDir c) with
      | Some e => (c, h, Some ("create socket dir: " ++ e))
      | None =>
          let argv := boot_argv c sock cfg in
          match w_spawn w argv with
          | Some e => (c, h, Some ("start firecracker: " ++ e))
          | None =>
              let '(h, pid) := spawn argv h in
              let c := mkFC (fc_binPath c) (fc_socketDir c)
                         (<[FC_VMID cfg := mkHandle (FC_VMID cfg) sock pid]> (fc_vms c)) in
              let '(h, r) :=
                h <~ wrap "wait for socket: " (h, w_socket w sock);;
                h <~ wrap "configure VM: " (configureVM sock cfg h);;
                wrap "start VM: " (startVM sock h) in
              (c, h, r)
          end
      end
  end.

(** The process is gone afterwards whether it obeyed or was killed. *)
Definition StopVM (c : FCClient) (vmID : string) (h : Host) : FCClient * Host * option string :=
  match fc_vms c !! vmID with
  | None => (c, h, None)
  | Some handle =>
      let '(h, _) := put (hd_SocketPath handle) "/actions" (JObj [("action_type", JStr "SendCtrlAltDel")]) h in
      let h := kill (hd_PID handle) h in
      (mkFC (fc_binPath c) (fc_socketDir c) (delete vmID (fc_vms c)), h, None)
  end.

Record SnapshotResult := mkSnapshot { Snap_Path : string; Snap_MemoryPath : string; Snap_CreatedAt : Z }.

Definition CreateSnapshot (c : FCClient) (vmID snapshotDir : string) (now : Z) (h : Host) : Host * result string SnapshotResult :=
  match fc_vms c !! vmID with
  | None => (h, Err ("VM not found: " ++ vmID))
  | Some handle =>
      let snapPath := Join [snapshotDir; vmID ++ ".snap"] in
      let memPath := Join [snapshotDir; vmID ++ ".mem"] in
      let '(h, r) := put (hd_SocketPath handle) "/snapshot/create"
                       (JObj [("snapshot_type", JStr "Full"); ("snapshot_path", JStr snapPath); ("mem_file_path", JStr memPath)]) h in
      match r with
      | Some e => (h, Err e)
      | None => (h, Ok (mkSnapshot snapPath memPath now))
      end
  end.

Definition LoadSnapshot (c : FCClient) (vmID snapPath memPath : string) (h : Host) : FCClient * Host * option string :=
  match RequireMicroVMHost w "Firecracker snapshot restore" with
  | Some e => (c, h, Some e)
  | None =>
      let sock := Join [fc_socketDir c; vmID ++ ".sock"] in
      match w_mkdir w (fc_socketDir c) with
      | Some e => (c, h, Some ("create socket dir: " ++ e))
      | None =>
          let argv := [fc_binPath c; "--api-sock"; sock; "--config-file"; "/dev/null"] in
          match w_spawn w argv with
          | Some e => (c, h, Some ("start firecracker: " ++ e))
          | None =>
              let '(h, pid) := spawn argv h in
              let c := mkFC (fc_binPath c) (fc_socketDir c) (<[vmID := mkHandle vmID sock pid]> (fc_vms c)) in
              let '(h, r) :=
                h <~ wrap "wait for socket: " (h, w_socket w sock);;
                put sock "/snapshot/load"
                  (JObj [("snapshot_path", JStr snapPath);
                         ("mem_backend", JObj [("backend_path", JStr memPath); ("backend_type", JStr "File")]);
                         ("resume_vm", JBool true)]) h in
              (c, h, r)
          end
      end
  end.

Definition Close (c : FCClient) (h : Host) : FCClient * Host :=
  (mkFC (fc_binPath c) (fc_socketDir c) ∅, map_fold (fun _ handle h => kill (hd_PID handle) h) h (fc_vms c)).

End Client.

(** [jailArgs]. *)
Definition jailArgs (jailerBin vmID fcBin socketDir cgroupVer : string) : list string :=
  if jailerBin ==? "" then []
  else
    let cgroupVer := if cgroupVer ==? "" then "v2" else cgroupVer in
    let sock := socketDir ++ "/" ++ vmID ++ ".sock" in
    ["--id"; vmID; "--exec-file"; fcBin; "--api-sock"; sock; "--cgroup-version"; cgroupVer;
     "--"; "--api-sock"; sock; "--config-file"; "/dev/null"].

(** ** The guest agent *)

Definition ProtocolVersion : string := "porter.guest.v1".

Record Request := mkRequest { Rq_Protocol : string; Rq_ID : string; Rq_Action : string; Rq_Payload : list (string * Json) }.
Record Response := mkResponse { Rs_Protocol : string; Rs_ID : string; Rs_OK : bool; Rs_Error : string; Rs_Data : list (string * Json) }.

Definition Response_zero : Response := mkResponse "" "" false "" [].

(** A connection: the error of dialling, of writing the request, and the decoded answer. *)
Record Agent := mkAgent {
  ag_dial : option string;
  ag_write : Request -> option string;
  ag_read : Request -> result string Response
}.

Definition call (dial : option Agent) (nano : Z) (action : string) (payload : list (string * Json)) : Response * option string :=
  match dial with
  | None => (Response_zero, Some "guest agent dialer is not configured")
  | Some conn =>
      match ag_dial conn with
      | Some e => (Response_zero, Some e)
      | None =>
          let req := mkRequest ProtocolVersion (Itoa nano) action payload in
          match ag_write conn req with
          | Some e => (Response_zero, Some ("guest agent request: " ++ e))
          | None =>
              match ag_read conn req with
              | Err e => (Response_zero, Some ("guest agent response: " ++ e))
              | Ok response =>
                  if (Rs_Protocol response !=? ProtocolVersion) || (Rs_ID response !=? Rq_ID req) then
                    (Response_zero, Some "guest agent protocol mismatch")
                  else if negb (Rs_OK response) then
                    (response, Some ("guest agent " ++ action ++ ": " ++ Rs_Error response))
                  else (response, None)
              end
          end
      end
  end.

Record ExecResult := mkExec { Ex_Stdout : string; Ex_Stderr : string; Ex_ExitCode : Z }.
Definition Exec_zero : ExecResult := mkExec "" "" 0.

(** Decoding the answer's data: field names match up to case, null changes nothing. *)
Definition exec_field (r : ExecResult) (kv : string * Json) : option ExecResult :=
  let '(k, v) := kv in
  if equal_fold k "stdout" then
    match v with JStr s => Some (mkExec s (Ex_Stderr r) (Ex_ExitCode r)) | JNull => Some r | _ => None end
  else if equal_fold k "stderr" then
    match v with JStr s => Some (mkExec (Ex_Stdout r) s (Ex_ExitCode r)) | JNull => Some r | _ => None end
  else if equal_fold k "exit_code" then
    match v with JInt n => Some (mkExec (Ex_Stdout r) (Ex_Stderr r) n) | JNull => Some r | _ => None end
  else Some r.

Fixpoint decode_exec (r : ExecResult) (data : list (string * Json)) : option ExecResult :=
  match data with
  | [] => Some r
  | kv :: rest => match exec_field r kv with Some r => decode_exec r rest | None => None end
  end.

Definition Client_Exec (dial : option Agent) (nano : Z) (argv : list string) (stdin : string) : ExecResult * option string :=
  let '(response, err) := call dial nano "exec" [("argv", JStrs argv); ("stdin", JStr stdin)] in
  match err with
  | Some e => (Exec_zero, Some e)
  | None =>
      match decode_exec Exec_zero (Rs_Data response) with
      | None => (Exec_zero, Some "decode guest exec result: json: cannot unmarshal")
      | Some result =>
          if negb (Ex_ExitCode result =? 0) then
            (result, Some ("guest command exited " ++ Itoa (Ex_ExitCode result) ++ ": " ++ Ex_Stderr result))
          else (result, None)
      end
  end.

(** [Drain], [Shutdown] and [Health]: one action each, only the error is kept. *)
Definition Client_action (action : string) (dial : option Agent) (nano : Z) : option string := (call dial nano action []).2.

(** ** The managers *)

Record FCConfig := mkFCConfig {
  Cfg_Mode : string;
  Cfg_FirecrackerBin : string;
  Cfg_KernelImage : string;
  Cfg_RootfsPath : string;
  Cfg_SocketDir : string;
  Cfg_SnapshotDir : string;
  Cfg_LogsDir : string;
  Cfg_SecretKey : string;
  Cfg_JailerBin : string;
  Cfg_EnableJailer : bool;
  Cfg_CgroupVersion : string;
  Cfg_SeccompFilter : string;
  Cfg_VsockUDSPath : string;
  Cfg_BalloonMiB : Z;
  Cfg_UseNetwork30 : bool
}.

Definition first_of (a b : string) : string := if a ==? "" then b else a.

(** [fcConfigFor]; [drives] and [mmds] are what [Boot] adds. *)
Definition fcConfigFor (m : FCConfig) (vm : VM) (spec : option ReplicaNetworkSpec) (drives : list FCDataDrive)
    (mmds : list (string * Json)) : FCVMConfig :=
  {| FC_VMID := VM_ID vm;
     FC_KernelPath := first_of (VM_Kernel vm) (Cfg_KernelImage m);
     FC_RootfsPath := first_of (VM_RootfsPath vm) (Cfg_RootfsPath m);
     FC_VCPUs := VM_VCPUs vm;
     FC_MemMiB := VM_MemMiB vm;
     FC_NetworkSpec := spec;
     FC_DataDrives := drives;
     FC_SnapshotDir := Cfg_SnapshotDir m;
     FC_LogsDir := Cfg_LogsDir m;
     FC_MMDSData := mmds;
     FC_Jailer := if Cfg_EnableJailer m then
                    jailArgs (Cfg_JailerBin m) (VM_ID vm) (Cfg_FirecrackerBin m) (Cfg_SocketDir m) (Cfg_CgroupVersion m)
                  else [];
     FC_BalloonMiB := Cfg_BalloonMiB m;
     FC_VsockUDSPath := Cfg_VsockUDSPath m;
     FC_VsockGuestCID := 3;
     FC_RxBandwidthKbps := 0;
     FC_TxBandwidthKbps := 0;
     FC_RxOpsPerSec := 0;
     FC_TxOpsPerSec := 0 |}.

(** [store.GetVolume]. *)
Definition GetVolume (volumes : list Volume) (id : string) : option Volume := find_first (fun v => Vol_ID v ==? id) volumes.

(** [secretbox.MMDSPayload]. *)
Definition MMDSPayload (projectID : string) (secrets : gmap string string) : list (string * Json) :=
  [("porter", JObj [("project_id", JStr projectID);
                    ("secrets", JObj ((fun kv => (kv.1, JStr kv.2)) <$> map_to_list secrets))])].

(** The readable secrets of a project, later ones of a name winning. *)
Definition add_secret (key : string) (plain : gmap string string) (sec : Secret) : gmap string string :=
  if (Sec_Name sec ==? "") || (Sec_ValueEncrypted sec ==? "") then plain
  else match Open key (Sec_ValueEncrypted sec) with
       | Ok raw => <[Sec_Name sec := raw]> plain
       | Err _ => plain
       end.

Definition plain_secrets (key : string) (secs : list Secret) : gmap string string := fold_left (add_secret key) secs ∅.

Section Managers.
Context (w : World) (m : FCConfig).

(** The VM manager's client, its key and the tables it reads. *)
Definition boot_config (secretKey : string) (volumes : list Volume) (ListSecrets : string -> list Secret) (vm : VM) (spec : BootSpec) : FCVMConfig :=
  let netSpec := {| RN_Subnet := CIDR spec; RN_IPAddress := ipFromCIDR (CIDR spec); RN_Gateway := GatewayAddr spec;
                    RN_MAC := MacAddress spec; RN_Bridge := ""; RN_TapName := HostDevName spec |} in
  let drives :=
    if VM_VolumeID vm !=? "" then
      match GetVolume volumes (VM_VolumeID vm) with
      | Some vol => if Vol_Path vol !=? "" then [mkDrive "vdb" (Vol_Path vol)] else []
      | None => []
      end
    else [] in
  let mmds :=
    if (secretKey !=? "") && (VM_ProjectID vm !=? "") then
      let plain := plain_secrets secretKey (ListSecrets (VM_ProjectID vm)) in
      if bool_decide (plain = ∅) then [] else MMDSPayload (VM_ProjectID vm) plain
    else [] in
  fcConfigFor m vm (Some netSpec) drives mmds.

Definition VMManager_Boot (secretKey : string) (volumes : list Volume) (ListSecrets : string -> list Secret)
    (c : FCClient) (vm : option VM) (spec : BootSpec) (h : Host) : FCClient * Host * option string :=
  match vm with
  | None => (c, h, Some "Boot: nil vm")
  | Some vm =>
      match RequireMicroVMHost w "VM boot" with
      | Some e => (c, h, Some e)
      | None => CreateAndStartVM w c (boot_config secretKey volumes ListSecrets vm spec) h
      end
  end.

Definition VMManager_Stop (c : FCClient) (vm : option VM) (h : Host) : FCClient * Host * option string :=
  match vm with
  | None => (c, h, Some "Stop: nil vm")
  | Some vm => StopVM w c (VM_ID vm) h
  end.

Definition VMManager_Snapshot (c : FCClient) (vm : option VM) (now : Z) (h : Host) : Host * result string SnapshotResult :=
  match vm with
  | None => (h, Err "Snapshot: nil vm")
  | Some vm => CreateSnapshot w c (VM_ID vm) (Cfg_SnapshotDir m) now h
  end.

Definition VMManager_Restore (c : FCClient) (vm : option VM) (snapPath memPath : string) (h : Host) : FCClient * Host * option string :=
  match vm with
  | None => (c, h, Some "Restore: nil vm")
  | Some vm => LoadSnapshot w c (VM_ID vm) snapPath memPath h
  end.

Definition isDialError (err : option string) : bool :=
  match err with
  | None => false
  | Some s => contains s "connect:" || contains s "no such file" || contains s "dial "
  end.

(** [Exec]: [agents] is what listens on a socket path; the answer is what is written
    to [stdout] and the error. *)
Definition VMManager_Exec (agents : string -> Agent) (nano : Z) (vmID : string) (argv : list string) (stdin : option string) : string * option string :=
  match argv with
  | [] => ("", Some "exec: no command given")
  | _ =>
      let sockPath := Join [Cfg_SocketDir m; vmID ++ ".agent.sock"] in
      let '(result, err) := Client_Exec (Some (agents sockPath)) nano argv (default "" stdin) in
      match err with
      | Some e =>
          if isDialError err then
            ("", Some ("guest agent not connected for vm " ++ vmID ++ " (socket " ++ sockPath ++ ")"))
          else (Ex_Stdout result ++ Ex_Stderr result, Some e)
      | None => (Ex_Stdout result, None)
      end
  end.

End Managers.

(** The manager of [runtime/manager.go] over [resource.Replica], of which it reads the
    identity, the artifacts, the sizes and the network; [rm_vms] is its own map. *)
Record RuntimeReplica := mkRR { RR_ID : string; RR_Kernel : string; RR_RootfsPath : string; RR_VCPUs : Z; RR_MemMiB : Z;
                                RR_NetworkSpec : option ReplicaNetworkSpec }.
Record Manager := mkManager { rm_config : FCConfig; rm_vms : gmap string RuntimeReplica; rm_fc : FCClient }.

Definition NewManager (cfg : FCConfig) : Manager :=
  mkManager cfg ∅ (NewFCClient (Cfg_FirecrackerBin cfg) (Cfg_SocketDir cfg)).

Definition replica_config (m : FCConfig) (r : RuntimeReplica) : FCVMConfig :=
  {| FC_VMID := RR_ID r;
     FC_KernelPath := first_of (RR_Kernel r) (Cfg_KernelImage m);
     FC_RootfsPath := first_of (RR_RootfsPath r) (Cfg_RootfsPath m);
     FC_VCPUs := RR_VCPUs r;
     FC_MemMiB := RR_MemMiB r;
     FC_NetworkSpec := RR_NetworkSpec r;
     FC_DataDrives := [];
     FC_SnapshotDir := Cfg_SnapshotDir m;
     FC_LogsDir := Cfg_LogsDir m;
     FC_MMDSData := [];
     FC_Jailer := if Cfg_EnableJailer m then
                    jailArgs (Cfg_JailerBin m) (RR_ID r) (Cfg_FirecrackerBin m) (Cfg_SocketDir m) (Cfg_CgroupVersion m)
                  else [];
     FC_BalloonMiB := Cfg_BalloonMiB m;
     FC_VsockUDSPath := Cfg_VsockUDSPath m;
     FC_VsockGuestCID := 3;
     FC_RxBandwidthKbps := 0;
     FC_TxBandwidthKbps := 0;
     FC_RxOpsPerSec := 0;
     FC_TxOpsPerSec := 0 |}.

Definition Manager_Boot (w : World) (m : Manager) (r : RuntimeReplica) (h : Host) : Manager * Host * option string :=
  match RequireMicroVMHost w "Replica boot" with
  | Some e => (m, h, Some e)
  | None =>
      let '(fc, h, err) := CreateAndStartVM w (rm_fc m) (replica_config (rm_config m) r) h in
      (mkManager (rm_config m) (<[RR_ID r := r]> (rm_vms m)) fc, h, err)
  end.

Definition Manager_Stop (w : World) (m : Manager) (r : RuntimeReplica) (h : Host) : Manager * Host * option string :=
  let '(fc, h, err) := StopVM w (rm_fc m) (RR_ID r) h in
  (mkManager (rm_config m) (delete (RR_ID r) (rm_vms m)) fc, h, err).

Definition Manager_Restart (w : World) (m : Manager) (r : RuntimeReplica) (h : Host) : Manager * Host * option string :=
  let '(m, h, err) := Manager_Stop w m r h in
  match err with
  | Some e => (m, h, Some e)
  | None => Manager_Boot w m r h
  end.

Definition Manager_GetVM (m : Manager) (vmID : string) : result string RuntimeReplica :=
  match rm_vms m !! vmID with
  | Some r => Ok r
  | None => Err ("vm " ++ quoted vmID ++ " not found in runtime")
  end.

(** ** The sequence of requests of a boot *)

Section Plan.
Context (w : World).

(** Requests sent one after the other until one fails. *)
Fixpoint run (l : list Call) (h : Host) : Host * option string :=
  match l with
  | [] => (h, None)
  | c :: l => h <~ send w (c_method c) (c_socket c) (c_path c) (c_body c) h;; run l h
  end.

(** Every request of [l] is accepted when sent after [past]. *)
Fixpoint accepted (past l : list Call) : Prop :=
  match l with
  | [] => True
  | c :: l => w_api w past c = None /\ accepted (past ++ [c]) l
  end.

Definition when {A} (b : bool) (x : A) : list A := if b then [x] else [].

Definition nic_call (sock : string) (n : ReplicaNetworkSpec) : Call :=
  mkCall "PUT" sock "/network-interfaces/eth0"
    (JObj [("iface_id", JStr "eth0"); ("guest_mac", JStr (RN_MAC n)); ("host_dev_name", JStr (RN_TapName n))]).
Definition mmds_call (sock : string) (data : list (string * Json)) : Call :=
  mkCall "PUT" sock "/mmds/config"
    (JObj [("version", JStr "V2"); ("network_interfaces", JStrs ["eth0"]); ("mmds_data", JObj data)]).
Definition drive_call (sock : string) (d : FCDataDrive) : Call :=
  mkCall "PUT" sock ("/drives/" ++ Drive_ID d) (drive_body (Drive_ID d) (Drive_Path d) false).
Definition start_call (sock : string) : Call :=
  mkCall "PUT" sock "/actions" (JObj [("action_type", JStr "InstanceStart")]).

(** Before the metadata: kernel, disks and network. *)
Definition devices (sock : string) (cfg : FCVMConfig) : list Call :=
  ([mkCall "PUT" sock "/boot-source"
      (JObj [("kernel_image_path", JStr (FC_KernelPath cfg));
             ("boot_args", JStr ("console=ttyS0 reboot=k panic=1 pci=off nomodules ro root=/dev/vda " ++ buildBootArgs cfg))]);
    mkCall "PUT" sock "/drives/rootfs" (drive_body "rootfs" (FC_RootfsPath cfg) true)]
   ++ (match FC_NetworkSpec cfg with Some n => [nic_call sock n] | None => [] end)
   ++ map (drive_call sock) (FC_DataDrives cfg))%list.

(** After it: the optional devices, the limits and the machine. *)
Definition options (sock : string) (cfg : FCVMConfig) : list Call :=
  (when (FC_VsockUDSPath cfg !=? "")
     (mkCall "PUT" sock "/vsock" (JObj [("guest_cid", JInt (Z.max 3 (FC_VsockGuestCID cfg))); ("uds_path", JStr (FC_VsockUDSPath cfg))]))
   ++ when (0 <? FC_BalloonMiB cfg)
        (mkCall "PUT" sock "/balloon" (JObj [("amount_mib", JInt (FC_BalloonMiB cfg)); ("deflate_on_oom", JBool true);
                                             ("stats_polling_interval_s", JInt 10)]))
   ++ (let body := limiter_body (FC_RxBandwidthKbps cfg) (FC_TxBandwidthKbps cfg) (FC_RxOpsPerSec cfg) (FC_TxOpsPerSec cfg) in
       when ((0 <? limits cfg) && negb (List.length body =? 1)%nat) (mkCall "PATCH" sock "/network-interfaces/eth0" (JObj body)))
   ++ [mkCall "PUT" sock "/machine-config" (JObj [("vcpu_count", JInt (FC_VCPUs cfg)); ("mem_size_mib", JInt (FC_MemMiB cfg))])])%list.

Definition boot_plan (sock : string) (cfg : FCVMConfig) : list Call :=
  (devices sock cfg
   ++ when (0 <? List.length (FC_MMDSData cfg))%nat (mmds_call sock (FC_MMDSData cfg))
   ++ options sock cfg)%list.

Lemma and_then_assoc {S} (r : S * option string) f g :
  and_then (and_then r f) g = and_then r (fun s => and_then (f s) g).
Proof. by destruct r as [s [e|]]. Qed.

Lemma and_then_ret {S} (r : S * option string) : and_then r (fun s => (s, None)) = r.
Proof. by destruct r as [s [e|]]. Qed.

Lemma and_then_ext {S} (r : S * option string) f g : (forall s, f s = g s) -> and_then r f = and_then r g.
Proof. intros H. destruct r as [s [e|]]; cbn; [done|apply H]. Qed.

Lemma run_app l k h : run (l ++ k)%list h = and_then (run l h) (run k).
Proof.
  revert h. induction l as [|c l IH]; intros h; [done|]. cbn [app run]. rewrite and_then_assoc.
  apply and_then_ext. intros s. apply IH.
Qed.

Lemma run_one c h : run [c] h = send w (c_method c) (c_socket c) (c_path c) (c_body c) h.
Proof. apply and_then_ret. Qed.

Lemma run_when b c h : run (when b c) h = if b then run [c] h else (h, None).
Proof. by destruct b. Qed.

Lemma putDrives_run sock l h : putDrives w sock l h = run (map (drive_call sock) l) h.
Proof. revert h. induction l as [|d l IH]; intros h; [done|]. cbn [putDrives map run]. apply and_then_ext. apply IH. Qed.

Lemma configureVM_run sock cfg h : configureVM w sock cfg h = run (boot_plan sock cfg) h.
Proof.
  unfold boot_plan, devices, options, configureVM. rewrite !run_app. cbn [run]. rewrite !and_then_assoc.
  apply and_then_ext. intros h1. rewrite !and_then_assoc. apply and_then_ext. intros h2. cbn [and_then].
  replace (match FC_NetworkSpec cfg with Some n => put w sock _ _ h2 | None => (h2, None) end)
    with (run (match FC_NetworkSpec cfg with Some n => [nic_call sock n] | None => [] end) h2)
    by (destruct (FC_NetworkSpec cfg); [by rewrite run_one|done]).
  rewrite run_app, !and_then_assoc. apply and_then_ext. intros h3. rewrite putDrives_run. apply and_then_ext. intros h4. rewrite run_app, run_when, run_one.
  apply and_then_ext. intros h5. rewrite run_app, run_when, run_one. cbn [c_method c_socket c_path c_body].
  unfold putVsock, put. replace (if FC_VsockGuestCID cfg <? 3 then 3 else FC_VsockGuestCID cfg)
    with (Z.max 3 (FC_VsockGuestCID cfg)) by (destruct (Z.ltb_spec (FC_VsockGuestCID cfg) 3); lia).
  apply and_then_ext. intros h6. rewrite run_app, run_when, run_one. apply and_then_ext. intros h7.
  rewrite run_app, run_when, run_one. unfold putRateLimiter.
  destruct (0 <? limits cfg); cbn [andb]; [destruct (_ =? 1)%nat|]; cbn [negb]; apply and_then_ext; intros h8; by rewrite run_one.
Qed.

(** The requests that went out are a prefix of the sequence, all of them accepted but
    possibly the last; the outcome is success exactly when all are. *)
Lemma run_outcome l h :
  let '(h', r) := run l h in
  h_procs h' = h_procs h /\ h_next h' = h_next h
  /\ (r = None <-> accepted (h_calls h) l)
  /\ exists k, (k <= List.length l)%nat /\ h_calls h' = (h_calls h ++ take k l)%list
       /\ accepted (h_calls h) (take (k - 1) l) /\ (r = None -> k = List.length l).
Proof.
  revert h. induction l as [|c l IH]; intros h; cbn [run accepted].
  - split_and!; try done. exists 0%nat. cbn. split_and!; try done. by rewrite app_nil_r.
  - unfold send. destruct c as [me so pa bo]. cbn [c_method c_socket c_path c_body].
    set (c := mkCall me so pa bo). destruct (w_api w (h_calls h) c) as [e|] eqn:E; cbn [and_then].
    + split_and!; try done; [by split; [|intros [? _]]|]. exists 1%nat. cbn. split_and!; try done. lia.
    + specialize (IH (mkHostState (h_procs h) (h_next h) (h_calls h ++ [c]))). cbn [h_procs h_next h_calls] in IH.
      destruct (run l _) as [h' r]. destruct IH as (Hp & Hn & Hr & k & Hk & Hc & Ha & Hl).
      split_and!; try done; [tauto|]. exists (S k). cbn [List.length take].
      split_and!; [lia|by rewrite Hc, <- app_assoc| |intros ?; f_equal; auto].
      replace (S k - 1)%nat with k by lia. destruct k as [|k]; [done|]. cbn [take accepted].
      split; [done|]. by replace (S k - 1)%nat with k in Ha by lia.
Qed.

Lemma accepted_app past l k : accepted past (l ++ k)%list <-> accepted past l /\ accepted (past ++ l)%list k.
Proof.
  revert past. induction l as [|c l IH]; intros past; cbn [app accepted]; [rewrite app_nil_r; tauto|].
  rewrite IH, <- app_assoc. tauto.
Qed.

Lemma wrap_none p (r : Host * option string) : (wrap p r).1 = r.1 /\ ((wrap p r).2 = None <-> r.2 = None).
Proof. by destruct r as [h [e|]]. Qed.

(** The part of a boot after the process is started. *)
Lemma boot_sequence sock cfg h :
  let '(h', r) :=
    h1 <~ wrap "wait for socket: " (h, w_socket w sock);;
    h2 <~ wrap "configure VM: " (configureVM w sock cfg h1);;
    wrap "start VM: " (startVM w sock h2) in
  let plan := (boot_plan sock cfg ++ [start_call sock])%list in
  h_procs h' = h_procs h /\ h_next h' = h_next h
  /\ (r = None <-> w_socket w sock = None /\ accepted (h_calls h) plan)
  /\ exists k, (k <= List.length plan)%nat /\ h_calls h' = (h_calls h ++ take k plan)%list
       /\ (r = None -> k = List.length plan)
       /\ (k = List.length plan -> accepted (h_calls h) (boot_plan sock cfg)).
Proof.
  destruct (w_socket w sock) as [e|]; cbn [wrap and_then].
  { split_and!; try done; [by split; [|intros [? _]]|]. exists 0%nat. cbn [take].
    rewrite app_nil_r, length_app. cbn. split_and!; try done; lia. }
  cbv zeta. set (plan := (boot_plan sock cfg ++ [start_call sock])%list).
  assert (Hrun : forall h0, (let r := (h2 <~ wrap "configure VM: " (configureVM w sock cfg h0);; wrap "start VM: " (startVM w sock h2)) in
    r.1 = (run plan h0).1 /\ (r.2 = None <-> (run plan h0).2 = None))).
  { intros h0. unfold plan. rewrite run_app, <- configureVM_run. destruct (configureVM w sock cfg h0) as [h1 [e|]]; cbn; [done|].
    unfold start_call. by destruct (w_api w (h_calls h1) _). }
  specialize (Hrun h). cbv zeta in Hrun. destruct (and_then _ _) as [h' r]. destruct Hrun as [H1 H2].
  pose proof (run_outcome plan h) as Ho. destruct (run plan h) as [h'' r']. cbn [fst snd] in *. subst h''.
  destruct Ho as (Hp & Hn & Hr & k & Hk & Hc & Ha & Hl). split_and!; try done; [tauto|].
  exists k. split_and!; try done; [tauto|]. intros ->. revert Ha. unfold plan. rewrite length_app. cbn [List.length].
  by replace (List.length (boot_plan sock cfg) + 1 - 1)%nat with (List.length (boot_plan sock cfg)) by lia;
    rewrite take_app_length.
Qed.
End Plan.

(** C22: Booting a VM. On a host that cannot run one, or cannot make the socket directory
    or start the process, nothing changes. Otherwise one new process runs and is
    recorded under the VM's identifier, and the requests sent are a prefix of the
    prescribed sequence (kernel, root disk, network, data disks, metadata, vsock,
    balloon, limits, machine, start): success means that all of them were sent and
    accepted, and the start is only ever sent when everything before it was accepted. *)
Theorem CreateAndStartVM_spec w c cfg h :
  let sock := Join [fc_socketDir c; FC_VMID cfg ++ ".sock"] in
  let argv := boot_argv c sock cfg in
  let plan := (boot_plan sock cfg ++ [start_call sock])%list in
  let '(c', h', r) := CreateAndStartVM w c cfg h in
  if MicroVMHost w && bool_decide (w_mkdir w (fc_socketDir c) = None) && bool_decide (w_spawn w argv = None) then
    fc_vms c' = <[FC_VMID cfg := mkHandle (FC_VMID cfg) sock (h_next h)]> (fc_vms c)
    /\ h_procs h' = <[h_next h := argv]> (h_procs h)
    /\ (r = None <-> w_socket w sock = None /\ accepted w (h_calls h) plan)
    /\ exists k, (k <= List.length plan)%nat /\ h_calls h' = (h_calls h ++ take k plan)%list
         /\ (r = None -> k = List.length plan)
         /\ (k = List.length plan -> accepted w (h_calls h) (boot_plan sock cfg))
  else c' = c /\ h' = h /\ r <> None.
Proof.
  cbv zeta. unfold CreateAndStartVM, RequireMicroVMHost. destruct (MicroVMHost w); [|done]. cbn [andb].
  destruct (w_mkdir w _); [done|]. rewrite (bool_decide_true (None = None)) by done. cbn [andb].
  destruct (w_spawn w _); [done|]. rewrite (bool_decide_true (None = None)) by done. cbn [spawn].
  pose proof (boot_sequence w (Join [fc_socketDir c; FC_VMID cfg ++ ".sock"]) cfg
    (mkHostState (<[h_next h := boot_argv c (Join [fc_socketDir c; FC_VMID cfg ++ ".sock"]) cfg]> (h_procs h)) (h_next h + 1) (h_calls h))) as Hb.
  cbv zeta in Hb. destruct (and_then _ _) as [h' r]. cbn [h_procs h_next h_calls fc_vms] in *.
  destruct Hb as (Hp & _ & Hr & Hk). done.
Qed.

(** ** Processes *)

Inductive fc_op := OBoot (cfg : FCVMConfig) | OStop (vmID : string) | ORestore (vmID snap mem : string)
                 | OSnapshot (vmID dir : string) (now : Z).

Definition fc_step (w : World) (s : FCClient * Host) (o : fc_op) : FCClient * Host :=
  match o with
  | OBoot cfg => (CreateAndStartVM w s.1 cfg s.2).1
  | OStop id => (StopVM w s.1 id s.2).1
  | ORestore id snap mem => (LoadSnapshot w s.1 id snap mem s.2).1
  | OSnapshot id dir now => (s.1, (CreateSnapshot w s.1 id dir now s.2).1)
  end.

(** A VM is booted or restored only while it is not running. *)
Definition op_fresh (c : FCClient) (o : fc_op) : Prop :=
  match o with
  | OBoot cfg => fc_vms c !! FC_VMID cfg = None
  | ORestore id _ _ => fc_vms c !! id = None
  | _ => True
  end.

Inductive fc_reach (w : World) (bin dir : string) : FCClient -> Host -> Prop :=
| fc_start n calls : fc_reach w bin dir (NewFCClient bin dir) (mkHostState ∅ n calls)
| fc_next c h o : fc_reach w bin dir c h -> op_fresh c o ->
    fc_reach w bin dir (fc_step w (c, h) o).1 (fc_step w (c, h) o).2.

(** The client's handles and the live processes correspond one to one. *)
Definition tracked (vms : gmap string VMHandle) (h : Host) : Prop :=
  (forall pid, is_Some (h_procs h !! pid) <-> exists id hd, vms !! id = Some hd /\ hd_PID hd = pid)
  /\ (forall id hd id' hd', vms !! id = Some hd -> vms !! id' = Some hd' -> hd_PID hd = hd_PID hd' -> id = id')
  /\ (forall pid, is_Some (h_procs h !! pid) -> pid < h_next h).

Lemma tracked_spawn vms h h' id hd argv : tracked vms h -> vms !! id = None -> hd_PID hd = h_next h ->
  h_procs h' = <[h_next h := argv]> (h_procs h) -> h_next h' = h_next h + 1 -> tracked (<[id := hd]> vms) h'.
Proof.
  intros (H1 & H2 & H3) Hid Hpid Hp Hn.
  assert (Hold : forall id' hd', vms !! id' = Some hd' -> hd_PID hd' < h_next h).
  { intros id' hd' H. apply H3, H1. eauto. }
  split_and!.
  - intros pid. rewrite Hp, lookup_insert_is_Some, H1. split.
    + intros [<-|[_ (id' & hd' & Hl & <-)]]; [exists id, hd; by rewrite lookup_insert_eq|].
      exists id', hd'. split; [|done]. rewrite lookup_insert_ne; [done|]. by intros ->; rewrite Hl in Hid.
    + intros (id' & hd' & [[<- <-]|[Hne Hl]]%lookup_insert_Some & <-); [by left|].
      right. split; [|eauto]. specialize (Hold _ _ Hl). lia.
  - intros a x b y [[<- <-]|[_ Ha]]%lookup_insert_Some [[<- <-]|[_ Hb]]%lookup_insert_Some He; try done.
    + specialize (Hold _ _ Hb). lia.
    + specialize (Hold _ _ Ha). lia.
    + by eapply H2.
  - intros pid. rewrite Hp, Hn, lookup_insert_is_Some. intros [<-|[_ Hpid']]; [lia|]. specialize (H3 _ Hpid'). lia.
Qed.

Lemma tracked_kill vms h h' id hd : tracked vms h -> vms !! id = Some hd ->
  h_procs h' = delete (hd_PID hd) (h_procs h) -> h_next h' = h_next h -> tracked (delete id vms) h'.
Proof.
  intros (H1 & H2 & H3) Hid Hp Hn. split_and!.
  - intros pid. rewrite Hp, lookup_delete_is_Some, H1. split.
    + intros [Hne (id' & hd' & Hl & <-)]. exists id', hd'. split; [|done]. rewrite lookup_delete_ne; [done|].
      intros <-. by rewrite Hid in Hl; injection Hl as ->.
    + intros (id' & hd' & [Hne Hl]%lookup_delete_Some & <-). split; [|eauto].
      intros He. apply Hne. by eapply H2.
  - intros a x b y [_ Ha]%lookup_delete_Some [_ Hb]%lookup_delete_Some. by apply H2.
  - intros pid. rewrite Hp, Hn, lookup_delete_is_Some. intros [_ ?]. by apply H3.
Qed.

Lemma tracked_calls vms h h' : tracked vms h -> h_procs h' = h_procs h -> h_next h' = h_next h -> tracked vms h'.
Proof. intros H Hp Hn. unfold tracked. by rewrite Hp, Hn. Qed.

Lemma boot_tracked w c cfg h : tracked (fc_vms c) h -> fc_vms c !! FC_VMID cfg = None ->
  tracked (fc_vms (CreateAndStartVM w c cfg h).1.1) (CreateAndStartVM w c cfg h).1.2.
Proof.
  intros Ht Hf. unfold CreateAndStartVM. destruct (RequireMicroVMHost w _); [done|].
  destruct (w_mkdir w _); [done|]. destruct (w_spawn w _); [done|]. cbn [spawn].
  match goal with |- context [configureVM w ?s cfg _] => pose proof (boot_sequence w s cfg
    (mkHostState (<[h_next h := boot_argv c s cfg]> (h_procs h)) (h_next h + 1) (h_calls h))) as Hb end.
  cbv zeta in Hb. destruct (and_then _ _) as [h' r]. cbn [fst snd fc_vms h_procs h_next] in *.
  destruct Hb as (Hp & Hn & _). by eapply tracked_spawn.
Qed.

Lemma restore_tracked w c id snap mem h : tracked (fc_vms c) h -> fc_vms c !! id = None ->
  tracked (fc_vms (LoadSnapshot w c id snap mem h).1.1) (LoadSnapshot w c id snap mem h).1.2.
Proof.
  intros Ht Hf. unfold LoadSnapshot. destruct (RequireMicroVMHost w _); [done|].
  destruct (w_mkdir w _); [done|]. destruct (w_spawn w _); [done|]. cbn [spawn].
  destruct (w_socket w _); cbn [wrap and_then put send fst snd fc_vms]; by eapply tracked_spawn.
Qed.

Lemma stop_tracked w c id h : tracked (fc_vms c) h -> tracked (fc_vms (StopVM w c id h).1.1) (StopVM w c id h).1.2.
Proof.
  intros Ht. unfold StopVM. destruct (fc_vms c !! id) as [hd|] eqn:E; [|done].
  cbn [put send fst snd fc_vms]. by eapply tracked_kill.
Qed.

Lemma step_tracked w c h o : tracked (fc_vms c) h -> op_fresh c o ->
  tracked (fc_vms (fc_step w (c, h) o).1) (fc_step w (c, h) o).2.
Proof.
  destruct o as [cfg|id|id snap mem|id dir now]; cbn [fc_step op_fresh fst snd]; intros Ht Hf.
  - by apply boot_tracked.
  - by apply stop_tracked.
  - by apply restore_tracked.
  - unfold CreateSnapshot. destruct (fc_vms c !! id); [|done]. unfold put, send.
    destruct (w_api w _ _); by eapply tracked_calls.
Qed.

Lemma close_procs (vms : gmap string VMHandle) h pid :
  is_Some (h_procs (map_fold (fun _ handle h => kill (hd_PID handle) h) h vms) !! pid) <->
  is_Some (h_procs h !! pid) /\ (forall id hd, vms !! id = Some hd -> hd_PID hd <> pid).
Proof.
  apply (map_fold_weak_ind (fun r m => is_Some (h_procs r !! pid) <->
    is_Some (h_procs h !! pid) /\ (forall id hd, m !! id = Some hd -> hd_PID hd <> pid))).
  - split; [|by intros [? _]]. intros H. split; [done|]. intros id hd. by rewrite lookup_empty.
  - intros i x m r Hi IH. cbn [kill h_procs]. rewrite lookup_delete_is_Some, IH. split.
    + intros (Hne & Hs & Hm). split; [done|]. intros id hd [[<- <-]|[_ Hl]]%lookup_insert_Some; [done|by eapply Hm].
    + intros [Hs Hm]. split; [apply (Hm i x); by rewrite lookup_insert_eq|]. split; [done|].
      intros id hd Hl. apply (Hm id). rewrite lookup_insert_ne; [done|]. by intros ->; rewrite Hi in Hl.
Qed.

(** C20: No Firecracker process is lost: whatever the host answers and whichever boots
    fail half-way, as long as no VM is booted while one of that identifier is running,
    the live processes are exactly those of the client's handles, one each, stopping a
    VM ends exactly its process, and closing the client leaves none. *)
Theorem no_process_leaks w bin dir c h : fc_reach w bin dir c h ->
  tracked (fc_vms c) h
  /\ h_procs (Close c h).2 = ∅
  /\ forall id hd, fc_vms c !! id = Some hd ->
       h_procs (StopVM w c id h).1.2 = delete (hd_PID hd) (h_procs h)
       /\ is_Some (h_procs h !! hd_PID hd).
Proof.
  intros Hr. assert (Ht : tracked (fc_vms c) h).
  { induction Hr as [n calls|c h o Hr IH Ho]; [|by apply step_tracked].
    split_and!; cbn; [|by intros ? ? ? ? ?%lookup_empty_Some|by intros ? [? ?%lookup_empty_Some]].
    intros pid. split; [by intros [? ?%lookup_empty_Some]|by intros (? & ? & ?%lookup_empty_Some & _)]. }
  split_and!; [done| |].
  - apply map_empty. intros pid. apply eq_None_not_Some. intros [Hs Hno]%close_procs.
    apply Ht in Hs as (id & hd & Hl & He). by apply (Hno id hd).
  - intros id hd Hl. unfold StopVM. rewrite Hl. split; [done|]. apply Ht. eauto.
Qed.

(** A host where everything succeeds but the machine configuration of one VM. *)
Definition demo_world : World :=
  mkWorld "linux" (fun _ => None) (fun _ => None) (fun _ => None)
    (fun _ c => if (c_path c ==? "/machine-config") && contains (c_socket c) "bad" then Some "400 Bad Request" else None).

Definition demo_config (id : string) : FCVMConfig :=
  mkFCVMConfig id "/vmlinux" "/rootfs.ext4" 1 256 None [] "/snap" "/log" [] [] 0 "" 3 0 0 0 0.

Fixpoint ops_fresh (w : World) (s : FCClient * Host) (ops : list fc_op) : Prop :=
  match ops with
  | [] => True
  | o :: ops => op_fresh s.1 o /\ ops_fresh w (fc_step w s o) ops
  end.

Lemma fc_reach_run w bin dir ops s : fc_reach w bin dir s.1 s.2 -> ops_fresh w s ops ->
  fc_reach w bin dir (foldl (fc_step w) s ops).1 (foldl (fc_step w) s ops).2.
Proof.
  revert s. induction ops as [|o ops IH]; intros [c h] Hr Ho; [done|]. destruct Ho as [Ho Hops].
  cbn [foldl]. apply IH; [by apply fc_next|done].
Qed.

Lemma no_process_leaks_witness :
  let s := foldl (fc_step demo_world) (NewFCClient "firecracker" "/run", mkHostState ∅ 1 [])
             [OBoot (demo_config "a"); OBoot (demo_config "bad"); OStop "a"] in
  h_procs (Close s.1 s.2).2 = ∅ /\ dom (h_procs s.2) = {[2]}.
Proof.
  cbv zeta. split; [|by vm_compute].
  refine (proj1 (proj2 (no_process_leaks demo_world "firecracker" "/run" _ _ _))).
  apply fc_reach_run; [apply fc_start|by vm_compute].
Defined.

(** A boot that failed half-way leaves its process; trying again under the same
    identifier starts a second one and forgets the first. *)
Lemma retry_leaks_process :
  let s1 := CreateAndStartVM demo_world (NewFCClient "firecracker" "/run") (demo_config "bad") (mkHostState ∅ 1 []) in
  let s2 := CreateAndStartVM demo_world s1.1.1 (demo_config "bad") s1.1.2 in
  s1.2 <> None /\ s2.2 <> None /\ dom (h_procs s2.1.2) = {[1; 2]} /\ dom (h_procs (Close s2.1.1 s2.1.2).2) = {[1]}.
Proof. vm_compute. done. Qed.

(** ** Secrets at boot *)

Definition not_mmds (c : Call) : Prop := c_path c <> "/mmds/config".
#[export] Instance not_mmds_dec c : Decision (not_mmds c).
Proof. unfold not_mmds. apply _. Defined.

Definition readable (key : string) (sec : Secret) (v : string) : Prop :=
  Sec_Name sec <> "" /\ Sec_ValueEncrypted sec <> "" /\ Open key (Sec_ValueEncrypted sec) = Ok v.

Lemma plain_secrets_acc key (secs : list Secret) (acc : gmap string string) n v : NoDup (Sec_Name <$> secs) ->
  fold_left (add_secret key) secs acc !! n = Some v <->
  (exists sec, sec ∈ secs /\ Sec_Name sec = n /\ readable key sec v)
  \/ (acc !! n = Some v /\ forall sec v', sec ∈ secs -> Sec_Name sec = n -> ~ readable key sec v').
Proof.
  revert acc. induction secs as [|sec secs IH]; intros acc Hnd; cbn [fold_left].
  { split; [intros H; right; split; [done|]; by intros ? ? ?%elem_of_nil|].
    intros [(? & ?%elem_of_nil & _)|[? _]]; done. }
  rewrite fmap_cons in Hnd. apply NoDup_cons in Hnd as [Hni Hnd]. rewrite IH by done. clear IH.
  assert (Hother : forall s, s ∈ secs -> Sec_Name s <> Sec_Name sec).
  { intros s Hs He. apply Hni. rewrite <- He. by apply list_elem_of_fmap_2. }
  assert (Hnot : forall P : Prop, (forall v', ~ readable key sec v') ->
    ((exists s, s ∈ sec :: secs /\ Sec_Name s = n /\ readable key s v) \/ (P /\ forall s v', s ∈ sec :: secs -> Sec_Name s = n -> ~ readable key s v'))
    <-> ((exists s, s ∈ secs /\ Sec_Name s = n /\ readable key s v) \/ (P /\ forall s v', s ∈ secs -> Sec_Name s = n -> ~ readable key s v'))).
  { intros P Hno. setoid_rewrite elem_of_cons. naive_solver. }
  unfold add_secret. destruct ((Sec_Name sec ==? "") || (Sec_ValueEncrypted sec ==? "")) eqn:Es.
  { symmetry. apply Hnot. intros v' (Hn & He & _). apply orb_true_iff in Es. rewrite !bool_decide_eq_true in Es. tauto. }
  apply orb_false_iff in Es. rewrite !bool_decide_eq_false in Es. destruct Es as [Hn He].
  destruct (Open key (Sec_ValueEncrypted sec)) as [raw|e] eqn:Eo.
  2:{ symmetry. apply Hnot. intros v' (_ & _ & ?). congruence. }
  assert (Hr : forall v', readable key sec v' <-> v' = raw) by (intros v'; unfold readable; rewrite Eo; naive_solver).
  rewrite lookup_insert_Some. clear Eo Hnot. revert Hr. generalize (readable key). intros readable Hr. split.
  - intros [(s & Hs & E & Hv)|[[[E <-]|[E Ha]] Hno]].
    + left. exists s. split; [by right|done].
    + left. exists sec. split_and!; [by left|done|by apply Hr].
    + right. split; [done|]. intros s v' [->|Hs]%elem_of_cons E'; [done|by apply Hno].
  - intros [(s & [->|Hs]%elem_of_cons & E & Hv)|[Ha Hno]].
    + right. split; [left; split; [done|symmetry; by apply Hr]|].
      intros s v' Hs E'. exfalso. apply (Hother s Hs). congruence.
    + left. by exists s.
    + right. split; [right; split; [|done]|]; [intros E; apply (Hno sec raw); [by left|done|by apply Hr]|].
      intros s v' Hs. apply Hno. by right.
Qed.

(** C21: The secrets of a project reach its VM through the metadata service and nothing
    else: the process arguments and every other request are the same whatever the
    secrets and the key are; the metadata holds exactly the named secrets whose box was
    sealed under the server's key, with the sealed values, and is sent after the network
    interface it needs. *)
Theorem boot_secrets_confined m material vols (secs : string -> list Secret) vm spec sock c :
  NoDup (Sec_Name <$> secs (VM_ProjectID vm)) -> VM_ProjectID vm <> "" ->
  let cfg := boot_config m (Key material) vols secs vm spec in
  (forall key' secs', let cfg' := boot_config m key' vols secs' vm spec in
     boot_argv c sock cfg = boot_argv c sock cfg'
     /\ base.filter not_mmds (boot_plan sock cfg) = base.filter not_mmds (boot_plan sock cfg'))
  /\ exists plain,
       FC_MMDSData cfg = (if bool_decide (plain = ∅) then [] else MMDSPayload (VM_ProjectID vm) plain)
       /\ (forall name v, plain !! name = Some v <->
             exists sec nonce, sec ∈ secs (VM_ProjectID vm) /\ Sec_Name sec = name /\ name <> ""
               /\ String.length nonce = NonceSize /\ Seal (Key material) (Ok nonce) v = Ok (Sec_ValueEncrypted sec))
       /\ (plain <> ∅ -> exists pre mid post n,
             boot_plan sock cfg = (pre ++ nic_call sock n :: mid ++ mmds_call sock (MMDSPayload (VM_ProjectID vm) plain) :: post)%list).
Proof.
  intros Hnd Hpid. cbv zeta. split; [intros key' secs'; split; [done|]|].
  - unfold boot_plan. rewrite !filter_app. f_equal. f_equal.
    destruct (0 <? _)%nat; destruct (0 <? _)%nat; cbn [when]; rewrite ?filter_cons_False by (intros H; by apply H); done.
  - set (plain := plain_secrets (Key material) (secs (VM_ProjectID vm))).
    assert (Hmmds : FC_MMDSData (boot_config m (Key material) vols secs vm spec) =
      if bool_decide (plain = ∅) then [] else MMDSPayload (VM_ProjectID vm) plain).
    { unfold boot_config, fcConfigFor. cbn [FC_MMDSData]. rewrite (bool_decide_false (VM_ProjectID vm = "")) by done.
      rewrite bool_decide_false; [done|]. intros He. pose proof (Key_cipher material) as Hk. by rewrite He in Hk. }
    exists plain. split_and!; [done| |].
    + intros name v. unfold plain, plain_secrets. rewrite plain_secrets_acc by done. rewrite lookup_empty. unfold readable.
      setoid_rewrite Open_Seal. split.
      * intros [(sec & Hin & <- & Hn & He & nonce & Hl & Hs)|[? _]]; [|done]. by exists sec, nonce.
      * intros (sec & nonce & Hin & <- & Hn & Hl & Hs). left. exists sec. split_and!; try done; [|by exists nonce].
        intros He. rewrite He in Hs. unfold Seal in Hs. rewrite Key_cipher in Hs. cbn in Hs.
        injection Hs as Hs. by destruct nonce.
    + intros Hne. unfold boot_plan, devices. rewrite Hmmds, bool_decide_false by done.
      cbn [boot_config fcConfigFor FC_NetworkSpec MMDSPayload List.length Nat.ltb Nat.leb when app].
      match goal with |- context [?bs :: ?root :: nic_call sock ?n :: ?rest] =>
        match rest with (?mid ++ _ :: ?post)%list => by exists [bs; root], mid, post, n end end.
Qed.

Definition demo_fc : FCConfig :=
  mkFCConfig "direct" "firecracker" "/vmlinux" "/rootfs.ext4" "/run" "/snap" "/log" "" "/usr/bin/jailer" true "v2" "" "" 0 true.

Definition demo_secret : Secret :=
  mkSecret "s1" "p" "TOKEN" (match Seal (Key "k") (Ok "nonce-nonce-") "hunter2" with Ok b => b | Err _ => "" end) 0 0.

Lemma boot_secrets_confined_witness :
  let vm := VM_set_ProjectID "p" (VM_set_ID "v" VM_zero) in
  let spec := mkBoot "02:00:00:00:00:01" "tap1" "10.42.1.10/24" "10.42.1.1" in
  let cfg := boot_config demo_fc (Key "k") [] (fun _ => [demo_secret]) vm spec in
  boot_argv (NewFCClient "fc" "/run") "/run/v.sock" cfg
    = boot_argv (NewFCClient "fc" "/run") "/run/v.sock" (boot_config demo_fc "" [] (fun _ => []) vm spec)
  /\ FC_MMDSData cfg = MMDSPayload "p" {["TOKEN" := "hunter2"]}.
Proof.
  cbv zeta. split; [|vm_compute; reflexivity].
  refine (proj1 (proj1 (boot_secrets_confined demo_fc "k" [] (fun _ => [demo_secret]) _ _ "/run/v.sock" _ _ _) "" (fun _ => []))).
  - apply NoDup_singleton.
  - discriminate.
Defined.

(** ** Paths *)

Lemma safeVMID_no_slash s : no_slash (safeVMID s) = true.
Proof.
  unfold safeVMID. induction s as [|c s IH]; [done|]. cbn [smap]. unfold no_slash in *. cbn [sall]. rewrite IH, andb_true_r.
  destruct (in_set "/\ " c) eqn:E; [done|]. apply negb_true_iff, not_true_is_false. intros ->%Ascii.eqb_eq. by vm_compute in E.
Qed.

(** Whatever the identifier, the control socket of [socket.go] is in its directory. *)
Theorem socketPath_below dir vmID : dir <> "" ->
  below dir (socketPath dir vmID)
  /\ parts (socketPath dir vmID) = (parts dir ++ [("porter-" ++ safeVMID vmID ++ ".sock")%string])%list.
Proof.
  intros Hd. apply Join_single; [done|]. apply plain_part_spec. split_and!; [|done|done|done].
  pose proof (safeVMID_no_slash vmID) as Hs. unfold no_slash in *. by rewrite !sall_app, Hs.
Qed.

(** The client does not use it: an identifier with dots leaves the directory. *)
Lemma client_socket_escapes : Join ["/run/porter/firecracker"; "../../x" ++ ".sock"] = "/run/x.sock".
Proof. by vm_compute. Qed.

(** ** What the configuration leaves out *)

(** The jailer's own binary is never the program that is run: the argument vector
    starts with its first option. *)
Lemma jailer_not_run jailer vmID fcBin dir ver :
  jailer <> "" -> head (jailArgs jailer vmID fcBin dir ver) = Some "--id" /\ (jailer ∉ jailArgs jailer vmID fcBin dir ver
    \/ jailer ∈ ["--id"; vmID; "--exec-file"; fcBin; "--api-sock"; dir ++ "/" ++ vmID ++ ".sock"; "--cgroup-version"; "v2"; ver;
                 "--"; "--config-file"; "/dev/null"]).
Proof.
  intros Hj. unfold jailArgs. rewrite bool_decide_false by done. cbv zeta. split; [done|].
  destruct (decide (jailer ∈ ["--id"; vmID; "--exec-file"; fcBin; "--api-sock"; dir ++ "/" ++ vmID ++ ".sock"; "--cgroup-version"; "v2"; ver;
                 "--"; "--config-file"; "/dev/null"])) as [?|Hno]; [by right|]. left. intros Hin. apply Hno.
  rewrite !elem_of_cons in *. case_bool_decide; naive_solver.
Qed.

(** A guest on a /30 link is told the mask of a /24. *)
Lemma mask_ignores_layout :
  let vm := VM_set_ID "v" VM_zero in
  let spec := mkBoot "02:00:00:00:00:01" "tap1" "10.42.1.6/30" "10.42.1.5" in
  buildBootArgs (boot_config demo_fc "" [] (fun _ => []) vm spec) = " ip=10.42.1.6::10.42.1.5:255.255.255.0::eth0:off".
Proof. by vm_compute. Qed.

(** ** Commands in the guest *)

(** An agent that answers every request with a result. *)
Definition answering (r : ExecResult) : Agent :=
  mkAgent None (fun _ => None) (fun q => Ok (mkResponse ProtocolVersion (Rq_ID q) true ""
    [("stdout", JStr (Ex_Stdout r)); ("stderr", JStr (Ex_Stderr r)); ("exit_code", JInt (Ex_ExitCode r))])).

(** A command runs to its result: its output is written; a failure is reported with
    the exit code and both outputs, unless its text looks like a refused connection. *)
Lemma exec_result m nano vmID cmd args stdin r :
  let err := "guest command exited " ++ Itoa (Ex_ExitCode r) ++ ": " ++ Ex_Stderr r in
  VMManager_Exec m (fun _ => answering r) nano vmID (cmd :: args) stdin =
    if Ex_ExitCode r =? 0 then (Ex_Stdout r, None)
    else if isDialError (Some err) then
      ("", Some ("guest agent not connected for vm " ++ vmID ++ " (socket " ++ Join [Cfg_SocketDir m; vmID ++ ".agent.sock"] ++ ")"))
    else (Ex_Stdout r ++ Ex_Stderr r, Some err).
Proof.
  cbv zeta. unfold VMManager_Exec, Client_Exec, call, answering. cbn [ag_dial ag_write ag_read Rs_Protocol Rs_ID Rs_OK Rq_ID negb].
  rewrite !bool_decide_true by done. cbn [negb orb Rs_Data]. destruct r as [out err code].
  change (decode_exec Exec_zero _) with (Some (mkExec out err code)). cbn [Ex_ExitCode Ex_Stdout Ex_Stderr].
  by destruct (code =? 0).
Qed.

(** An answer to another request is refused. *)
Lemma exec_wrong_id m nano vmID argv stdin conn resp : argv <> [] -> ag_dial conn = None -> (forall q, ag_write conn q = None) ->
  (forall q, ag_read conn q = Ok resp) -> Rs_ID resp <> Itoa nano ->
  VMManager_Exec m (fun _ => conn) nano vmID argv stdin = ("", Some "guest agent protocol mismatch").
Proof.
  intros Ha Hd Hw Hr Hid. unfold VMManager_Exec, Client_Exec, call. destruct argv; [done|]. rewrite Hd, Hw, Hr. cbn [Rq_ID].
  rewrite (bool_decide_false (Rs_ID resp = Itoa nano)) by done. cbn [negb]. rewrite orb_true_r. by vm_compute.
Qed.

(** A command that fails because a file is missing is reported as a missing agent. *)
Lemma missing_file_is_missing_agent :
  VMManager_Exec demo_fc (fun _ => answering (mkExec "" "cat: /x: no such file" 1)) 7 "v" ["cat"; "/x"] None
  = ("", Some "guest agent not connected for vm v (socket /run/v.agent.sock)").
Proof. by vm_compute. Qed.
