(* ===== verification/Telemetry.v ===== *)
(** * Logs, metrics and live events

    The in-memory rings of [store/store.go] (logs, daemon log, web vitals), the log
    collector of [runtime/metrics.go], the CPU sampler of [metrics/collector.go] and the
    server-sent events hub of [event/hub.go]. Files are the text they hold; the tickers
    that call a collector are not modelled, a poll is one step. *)
From S2P Require Import Prelude GoStrings GoNum GoPath Types Store.
From Stdlib Require Import String Ascii.

Open Scope string_scope.
Open Scope Z_scope.

(** ** Rings *)

(** [append] and the cut to the last [cap] entries. *)
Definition ring_push {A} (cap : nat) (buf : list A) (x : A) : list A :=
  let buf := (buf ++ [x])%list in
  if (cap <? List.length buf)%nat then drop (List.length buf - cap) buf else buf.

(** The last [n] entries, all of them when [n] is not positive or too large. *)
Definition ring_tail {A} (n : Z) (buf : list A) : list A :=
  let n := if (n <=? 0) || (Z.of_nat (List.length buf) <? n) then Z.of_nat (List.length buf) else n in
  drop (List.length buf - Z.to_nat n) buf.

Definition logRingSize : nat := 500.
Definition daemonLogRingSize : nat := 1000.

Record Rings := mkRings {
  rg_logs : gmap string (list string);
  rg_daemon : list string;
  rg_daemon_rows : list string;
  rg_vitals : gmap string (list WebVital)
}.

Definition AppendLog (vmID line : string) (s : Rings) : Rings :=
  mkRings (<[vmID := ring_push logRingSize (default [] (rg_logs s !! vmID)) line]> (rg_logs s))
          (rg_daemon s) (rg_daemon_rows s) (rg_vitals s).

Definition TailLogs (s : Rings) (vmID : string) (n : Z) : list string := ring_tail n (default [] (rg_logs s !! vmID)).

(** The ring, and a row of [daemon_logs] when the insert succeeds. *)
Definition AppendDaemonLog (insert_ok : bool) (line : string) (s : Rings) : Rings :=
  mkRings (rg_logs s) (ring_push daemonLogRingSize (rg_daemon s) line)
          (if insert_ok then rg_daemon_rows s ++ [line] else rg_daemon_rows s) (rg_vitals s).

Definition TailDaemonLogs (s : Rings) (n : Z) : list string := ring_tail n (rg_daemon s).

Definition AddVital (v : option WebVital) (s : Rings) : Rings :=
  match v with
  | None => s
  | Some v =>
      if WV_ProjectID v ==? "" then s
      else mkRings (rg_logs s) (rg_daemon s) (rg_daemon_rows s)
             (<[WV_ProjectID v := ring_push 500 (default [] (rg_vitals s !! WV_ProjectID v)) v]> (rg_vitals s))
  end.

Definition ListVitals (s : Rings) (projectID : string) (limit : Z) : list WebVital :=
  ring_tail limit (default [] (rg_vitals s !! projectID)).

(** ** The log collector *)

Definition cr : ascii := "013".
Definition lf : ascii := "010".

(** [bufio.ScanLines] over a text with a 1 MiB buffer: a longer line ends the scan. *)
Fixpoint scan_until (l : list string) : list string :=
  match l with
  | [] => []
  | s :: l => if 1048576 <=? Z.of_nat (String.length s) then [] else trim_suffix s (String cr "") :: scan_until l
  end.

Definition scan_lines (text : string) : list string :=
  let l := split_on lf text in
  scan_until (if bool_decide (last l = Some "") then removelast l else l).

(** [tailFile]: at most 200 lines are held while scanning. *)
Definition tailFile (file : option string) (n : nat) : list string :=
  match file with
  | None => []
  | Some text =>
      let lines := fold_left (ring_push 200) (scan_lines text) [] in
      if (n <? List.length lines)%nat then drop (List.length lines - n) lines else lines
  end.

Definition logged (ln : string) : bool :=
  negb ((ln ==? "") || contains ln "API_KEY" || contains ln "SECRET").

(** [PollOnce]: [files] maps a path to its content; the samples are the inserts of
    [AddMetric], whose errors are ignored. *)
Definition poll_vm (files : string -> option string) (logsDir : string) (now : Z)
    (st : Rings * list MetricSample) (id : string) : Rings * list MetricSample :=
  let lines := trim_space <$> tailFile (files (Join [logsDir; id ++ ".log"])) 20 in
  (fold_left (fun s ln => if logged ln then AppendLog id ln s else s) lines st.1,
   (st.2 ++ [mkMetricSample "" id "porter.heartbeat" (f_of_Z 1) now])%list).

Definition PollOnce (files : string -> option string) (logsDir : string) (now : Z) (vmIDs : list string)
    (st : Rings * list MetricSample) : Rings * list MetricSample :=
  fold_left (poll_vm files logsDir now) vmIDs st.

(** ** The CPU sampler *)

(** [strconv.ParseUint(f, 10, 64)] with its error dropped: 0 on bad syntax, the largest
    value when out of range. *)
Definition parse_uint (f : string) : Z :=
  match digits_val f 0 with
  | Some v => if f ==? "" then 0 else Z.min v (2 ^ 64 - 1)
  | None => 0
  end.

(** [None] is the run-time panic of slicing an empty list of fields. *)
Definition cpuTicks (stat : option string) : option Z :=
  match stat with
  | None => Some 0
  | Some data =>
      let line := default "" (find_first (fun l => has_prefix l "cpu ") (split_on lf data)) in
      match fields line with
      | [] => None
      | _ :: fs => Some (fold_left (fun total f => u64 (total + parse_uint f)) fs 0)
      end
  end.

Definition cpuPercent (prev cur : Z) : float64 :=
  if cur <? prev then f_of_Z 0
  else fmul (fdiv (f_of_Z (cur - prev)) (f_of_Z 3000)) (f_of_Z 100).

(** [sample] and [sampleCPU]: one row for every running VM; [ids] are the new ids. *)
Definition sample_running (metric : string) (value : VM -> float64) (ids : nat -> string) (now : Z) (vms : list VM)
    (rows : list MetricSample) : list MetricSample :=
  (rows ++ imap (fun i vm => mkMetricSample (ids i) (VM_ID vm) metric (value vm) now)
             (base.filter (fun vm => VM_State vm = StateRunning) vms))%list.

Definition sample := sample_running "memory_mib" (fun vm => f_of_Z (VM_MemMiB vm)).
Definition sampleCPU (usage : float64) := sample_running "cpu_percent" (fun _ => usage).

(** ** The events hub *)

Section Hub.
Context {Data : Type} (marshal : Data -> option string).

Record sseEvent := mkEvent { ev_Event : string; ev_Data : Data }.

(** A connected client: its channel of capacity 32 and what was written to it. *)
Record Stream := mkStream { st_ch : list sseEvent; st_out : list string }.
Local Abbreviation Hub := (gmap nat Stream).

Definition chan_cap : nat := 32.

Definition nl : string := String lf "".

Definition render_event (ev : sseEvent) : option string :=
  payload ← marshal (ev_Data ev); Some ("event: " ++ ev_Event ev ++ nl ++ "data: " ++ payload ++ nl ++ nl).

(** A full channel drops the event. *)
Definition offer (ev : sseEvent) (st : Stream) : Stream :=
  if (List.length (st_ch st) <? chan_cap)%nat then mkStream (st_ch st ++ [ev]) (st_out st) else st.

Definition Broadcast (ev : sseEvent) (h : Hub) : Hub := offer ev <$> h.

(** [ServeHTTP]: entering, one turn of the loop, and leaving. *)
Definition connect (id : nat) (h : Hub) : Hub :=
  match h !! id with
  | Some _ => h
  | None => <[id := mkStream [] [": connected" ++ nl ++ nl]]> h
  end.

Definition deliver (st : Stream) : Stream :=
  match st_ch st with
  | [] => st
  | ev :: ch => mkStream ch (st_out st ++ match render_event ev with Some s => [s] | None => [] end)
  end.

Definition leave (id : nat) (h : Hub) : Hub := delete id h.

Inductive hub_op := HConnect (id : nat) | HBroadcast (ev : sseEvent) | HDeliver (id : nat) | HLeave (id : nat).

Definition hub_step (h : Hub) (o : hub_op) : Hub :=
  match o with
  | HConnect id => connect id h
  | HBroadcast ev => Broadcast ev h
  | HDeliver id => alter deliver id h
  | HLeave id => leave id h
  end.
End Hub.

(** ** Rings keep the end of the log *)

Lemma ring_push_lastn {A} cap (buf : list A) x : ring_push cap buf x = lastn cap (buf ++ [x])%list.
Proof.
  unfold ring_push. destruct (Nat.ltb_spec cap (List.length (buf ++ [x])%list)); [done|]. symmetry. by apply lastn_all.
Qed.

Lemma ring_pushes {A} cap (l k : list A) : fold_left (ring_push cap) l (lastn cap k) = lastn cap (k ++ l)%list.
Proof.
  revert k. induction l as [|x l IH]; intros k; cbn [fold_left]; [by rewrite app_nil_r|].
  rewrite ring_push_lastn, lastn_app_lastn, IH. by rewrite <- app_assoc.
Qed.

(** The window of a ring of capacity [cap] a request for [n] entries sees. *)
Definition window (cap : nat) (n : Z) : nat := if n <=? 0 then cap else Nat.min (Z.to_nat n) cap.

Lemma ring_tail_lastn {A} cap n (l : list A) : ring_tail n (lastn cap l) = lastn (window cap n) l.
Proof.
  unfold ring_tail, window. set (k := lastn cap l). assert (Hk : List.length k = Nat.min cap (List.length l)) by apply length_lastn.
  destruct (Z.leb_spec n 0); cbn [orb].
  - rewrite Nat2Z.id, Nat.sub_diag. cbn. done.
  - destruct (Z.ltb_spec (Z.of_nat (List.length k)) n).
    + rewrite Nat2Z.id, Nat.sub_diag. cbn [drop]. transitivity (lastn cap l); [done|]. unfold lastn. f_equal. lia.
    + change (drop (List.length k - Z.to_nat n) k) with (lastn (Z.to_nat n) k). unfold k.
      destruct (Nat.leb_spec (Z.to_nat n) cap); [rewrite lastn_lastn by done; f_equal; lia|].
      rewrite lastn_all by (fold k; lia). f_equal. lia.
Qed.

Definition rings0 : Rings := mkRings ∅ [] [] ∅.

(** The lines logged for a VM, in order. *)
Definition lines_of (vmID : string) (ops : list (string * string)) : list string :=
  snd <$> base.filter (fun o => o.1 = vmID) ops.

Lemma rg_logs_AppendLog vm line s :
  rg_logs (AppendLog vm line s) = <[vm := ring_push logRingSize (default [] (rg_logs s !! vm)) line]> (rg_logs s).
Proof. done. Qed.

Lemma logs_state ops vmID :
  default [] (rg_logs (fold_left (fun s o => AppendLog o.1 o.2 s) ops rings0) !! vmID) = lastn logRingSize (lines_of vmID ops).
Proof.
  induction ops as [|[vm line] ops IH] using rev_ind; [done|].
  rewrite fold_left_app. cbn [fold_left fst snd]. rewrite rg_logs_AppendLog.
  unfold lines_of. rewrite filter_app, fmap_app. destruct (decide (vm = vmID)) as [->|Hne].
  - rewrite lookup_insert_eq, IH. cbn [from_option]. unfold id. rewrite filter_cons_True by done.
    rewrite ring_push_lastn. unfold lines_of. by rewrite lastn_app_lastn.
  - rewrite lookup_insert_ne by done. rewrite filter_cons_False by done. rewrite IH. unfold lines_of.
    by rewrite filter_nil, fmap_nil, app_nil_r.
Qed.

(** The log of a VM is the end of everything logged for it: after any sequence of
    writes to any VMs, reading [n] lines gives the last [n] written for that VM in
    order, at most the 500 of the ring, and all the ring holds when [n] is not
    positive; other VMs' lines never show. *)
Theorem logs_refine ops vmID n :
  TailLogs (fold_left (fun s o => AppendLog o.1 o.2 s) ops rings0) vmID n = lastn (window logRingSize n) (lines_of vmID ops).
Proof. unfold TailLogs. by rewrite logs_state, ring_tail_lastn. Qed.

Lemma daemon_refine ops n :
  let s := fold_left (fun s o => AppendDaemonLog o.1 o.2 s) ops rings0 in
  TailDaemonLogs s n = lastn (window daemonLogRingSize n) (snd <$> ops)
  /\ rg_daemon_rows s = snd <$> base.filter (fun o => o.1 = true) ops.
Proof.
  cbv zeta. unfold TailDaemonLogs.
  assert (H : rg_daemon (fold_left (fun s o => AppendDaemonLog o.1 o.2 s) ops rings0) = lastn daemonLogRingSize (snd <$> ops)
    /\ rg_daemon_rows (fold_left (fun s o => AppendDaemonLog o.1 o.2 s) ops rings0) = snd <$> base.filter (fun o => o.1 = true) ops).
  { induction ops as [|[ok line] ops [IH1 IH2]] using rev_ind; [done|]. rewrite fold_left_app. cbn [fold_left fst snd].
    unfold AppendDaemonLog at 1 3. cbn [rg_daemon rg_daemon_rows]. rewrite filter_app, !fmap_app, ring_push_lastn, IH1, IH2, lastn_app_lastn.
    split; [done|]. destruct ok; cbn; [done|by rewrite app_nil_r]. }
  destruct H as [-> ->]. by rewrite ring_tail_lastn.
Qed.

(** Holding only 200 lines while scanning changes nothing: the tail of a file is the
    end of its lines. *)
Theorem tailFile_spec text n : (n <= 200)%nat -> tailFile (Some text) n = lastn n (scan_lines text).
Proof.
  intros Hn. unfold tailFile. cbv zeta. pose proof (ring_pushes 200 (scan_lines text) []) as H. cbn [app] in H.
  change (lastn 200 []) with (@nil string) in H. rewrite H. rewrite <- (lastn_lastn n 200) by done.
  set (k := lastn 200 _). destruct (Nat.ltb_spec n (List.length k)); [done|]. symmetry. by apply lastn_all.
Qed.

(** ** What the collector lets through *)

Definition all_logged (s : Rings) : Prop := forall vm l, rg_logs s !! vm = Some l -> forall ln, ln ∈ l -> logged ln = true.

Lemma AppendLog_logged s vm ln : all_logged s -> logged ln = true -> all_logged (AppendLog vm ln s).
Proof.
  intros Hs Hl id l Hid x Hx. rewrite rg_logs_AppendLog in Hid.
  apply lookup_insert_Some in Hid as [[<- <-]|[_ Hid]]; [|by eapply Hs].
  rewrite ring_push_lastn in Hx. unfold lastn in Hx. apply subseteq_drop in Hx.
  apply elem_of_app in Hx as [Hx|Hx]; [|by apply list_elem_of_singleton in Hx as ->].
  destruct (rg_logs s !! vm) as [l|] eqn:E; [by eapply Hs|by apply elem_of_nil in Hx].
Qed.

Lemma rings0_logged : all_logged rings0.
Proof. intros vm l H. unfold rings0 in H. cbn [rg_logs] in H. by apply lookup_empty_Some in H. Qed.

(** Polling never lets a line with a key or a secret into the logs, nor an empty one,
    whatever the files hold, and records one heartbeat for every VM polled. *)
Theorem PollOnce_redacts files dir now ids s rows :
  all_logged s ->
  let '(s', rows') := PollOnce files dir now ids (s, rows) in
  all_logged s' /\ rows' = (rows ++ map (fun id => mkMetricSample "" id "porter.heartbeat" (f_of_Z 1) now) ids)%list.
Proof.
  revert s rows. induction ids as [|id ids IH]; intros s rows Hs; cbn [PollOnce fold_left map]; [by rewrite app_nil_r|].
  unfold PollOnce in IH. unfold poll_vm at 2. cbn [fst snd].
  set (s1 := fold_left _ _ s). assert (H1 : all_logged s1).
  { unfold s1. generalize (trim_space <$> tailFile (files (Join [dir; id ++ ".log"])) 20). intros l. clear s1 IH. revert s Hs.
    induction l as [|ln l IHl]; intros s Hs; [done|]. cbn [fold_left]. apply IHl.
    destruct (logged ln) eqn:E; [by apply AppendLog_logged|done]. }
  specialize (IH s1 (rows ++ [mkMetricSample "" id "porter.heartbeat" (f_of_Z 1) now])%list H1).
  destruct (fold_left _ ids _) as [s' rows']. destruct IH as [Ha ->]. split; [done|]. by rewrite <- app_assoc.
Qed.

Lemma PollOnce_redacts_witness :
  let files p := if p ==? "/log/a.log" then Some ("booted" ++ String lf "API_KEY=1" ++ String lf "ready" ++ String lf "") else None in
  let st := PollOnce files "/log" 5 ["a"; "b"] (rings0, []) in
  all_logged st.1 /\ TailLogs st.1 "a" 0 = ["booted"; "ready"].
Proof.
  cbv zeta. split; [|by vm_compute].
  exact (proj1 (PollOnce_redacts (fun p => if p ==? "/log/a.log" then Some ("booted" ++ String lf "API_KEY=1" ++ String lf "ready" ++ String lf "") else None)
    "/log" 5 ["a"; "b"] rings0 [] rings0_logged)).
Defined.

(** Every poll reads the end of the file again, so a quiet VM's last lines are logged
    once more each time. *)
Lemma poll_repeats_lines :
  let files p := Some ("ready" ++ String lf "") in
  TailLogs (PollOnce files "/log" 5 ["a"] (PollOnce files "/log" 5 ["a"] (rings0, []))).1 "a" 0 = ["ready"; "ready"].
Proof. by vm_compute. Qed.

(** ** CPU *)

(** An idle core counts as fully busy: thirty seconds in which only the idle column
    grows, by 3000 ticks, are reported as 100 per cent. *)
Lemma idle_is_busy :
  exists prev cur, cpuTicks (Some "cpu  10 0 5 1000 0") = Some prev /\ cpuTicks (Some "cpu  10 0 5 4000 0") = Some cur
    /\ cpuPercent prev cur = f_of_Z 100.
Proof. exists 1015, 4015. vm_compute. done. Qed.

(** A readable file without the aggregate line panics. *)
Lemma no_cpu_line_panics : cpuTicks (Some "intr 5") = None.
Proof. by vm_compute. Qed.

(** A counter that went backwards reports no load. *)
Lemma backwards_is_zero prev cur : cur < prev -> cpuPercent prev cur = f_of_Z 0.
Proof. intros H. unfold cpuPercent. by rewrite (proj2 (Z.ltb_lt _ _) H). Qed.

(** ** The hub delivers in order *)

Section HubTheorems.
Context {Data : Type} (marshal : Data -> option string).

(** What one client should hear: the broadcasts since it connected, how many wait in
    its channel, and whether the channel was ever full when one arrived. *)
Record Ear := mkEar { heard : list (@sseEvent Data); pending : nat; lagged : bool }.

Definition ear_step (id : nat) (e : option Ear) (o : @hub_op Data) : option Ear :=
  match o with
  | HConnect i => if bool_decide (i = id) then Some (default (mkEar [] 0 false) e) else e
  | HBroadcast ev =>
      (fun e => if (pending e <? chan_cap)%nat then mkEar (heard e ++ [ev]) (S (pending e)) (lagged e)
                else mkEar (heard e ++ [ev]) (pending e) true) <$> e
  | HDeliver i => if bool_decide (i = id) then (fun e => mkEar (heard e) (pred (pending e)) (lagged e)) <$> e else e
  | HLeave i => if bool_decide (i = id) then None else e
  end.

(** A stream agrees with it: what was taken from the channel was written in order after
    the greeting, taken and waiting events are a subsequence of the broadcasts, and all
    of them when the client never lagged. *)
Definition hears (st : Stream) (e : Ear) : Prop :=
  exists taken,
    st_out st = (": connected" ++ nl ++ nl) :: omap (render_event marshal) taken
    /\ (taken ++ st_ch st)%list `sublist_of` heard e
    /\ List.length (st_ch st) = pending e /\ (pending e <= chan_cap)%nat
    /\ (lagged e = false -> (taken ++ st_ch st)%list = heard e).

Definition agree (s : option Stream) (e : option Ear) : Prop :=
  match s, e with
  | None, None => True
  | Some st, Some e => hears st e
  | _, _ => False
  end.

Lemma offer_hears ev st e : hears st e -> agree (Some (offer ev st)) (ear_step 0 (Some e) (HBroadcast ev)).
Proof.
  intros (taken & Ho & Hs & Hl & Hc & Hall). cbn [ear_step fmap option_fmap option_map agree]. unfold offer. rewrite Hl.
  destruct (Nat.ltb_spec (pending e) chan_cap) as [Hlt|Hge]; exists taken; cbn [st_out st_ch heard pending lagged].
  - split_and!; [done| | |lia|].
    + rewrite app_assoc. by apply sublist_app.
    + rewrite length_app. cbn. lia.
    + intros He. by rewrite app_assoc, Hall.
  - split_and!; [done| |done|done|done]. by apply sublist_inserts_r.
Qed.

Lemma deliver_hears st e : hears st e -> hears (deliver marshal st) (mkEar (heard e) (pred (pending e)) (lagged e)).
Proof.
  intros (taken & Ho & Hs & Hl & Hc & Hall). unfold deliver. destruct (st_ch st) as [|ev ch] eqn:Ech.
  - exists taken. cbn [heard pending lagged]. rewrite Ech. cbn in Hl. rewrite <- Hl. split_and!; try done. cbn. lia.
  - exists (taken ++ [ev])%list. cbn [st_out st_ch heard pending lagged]. cbn in Hl.
    rewrite <- app_assoc. cbn [app]. split_and!; [|done|lia|lia|done].
    rewrite Ho, omap_app. cbn. by destruct (render_event marshal ev).
Qed.

Lemma step_agrees id h e o : agree (h !! id) e -> agree (hub_step marshal h o !! id) (ear_step id e o).
Proof.
  intros H. destruct o as [i|ev|i|i]; cbn [hub_step ear_step].
  - unfold connect. case_bool_decide as Hi.
    + subst i. destruct (h !! id) as [st|] eqn:E, e as [e|]; try done; cbn [from_option] in *; [by rewrite E|].
      rewrite lookup_insert_eq. exists []. cbn. split_and!; try done. unfold chan_cap. lia.
    + destruct (h !! i) as [st|]; [done|]. by rewrite lookup_insert_ne.
  - unfold Broadcast. rewrite lookup_fmap. destruct (h !! id) as [st|], e as [e|]; try done. by apply offer_hears.
  - case_bool_decide as Hi.
    + subst i. rewrite lookup_alter_eq. destruct (h !! id) as [st|], e as [e|]; try done. by apply deliver_hears.
    + by rewrite lookup_alter_ne.
  - unfold leave. case_bool_decide as Hi.
    + subst i. by rewrite lookup_delete_eq.
    + by rewrite lookup_delete_ne.
Qed.

(** Whatever the interleaving of connections, broadcasts, deliveries and departures,
    a connected client's stream is the greeting followed by broadcasts made since it
    connected, in order, none invented, none repeated, and none missing unless 32 were
    waiting when it came; a slow client never costs another one an event; a client that
    left has no stream. *)
Theorem hub_delivers ops id :
  agree (foldl (hub_step marshal) ∅ ops !! id) (foldl (ear_step id) None ops).
Proof.
  assert (H : forall h e, agree (h !! id) e -> agree (foldl (hub_step marshal) h ops !! id) (foldl (ear_step id) e ops)).
  { induction ops as [|o ops IH]; intros h e He; [done|]. cbn [foldl]. by apply IH, step_agrees. }
  apply H. by rewrite lookup_empty.
Qed.
End HubTheorems.
