(* ===== verification/SshGw.v ===== *)
(** * The SSH gateway ([sshgw/sshgw.go])

    Signing short-lived user certificates, deciding who may connect, and the requests
    of a session. A public key is its wire encoding; the SSH library's parser of
    authorized keys, its signatures and the bytes a certificate signs are arguments.
    Loading the keys from files and the transport are not modelled. *)
From S2P Require Import Prelude GoStrings GoPath GoNum GoNet GoCrypto SecretBox Types Gateway Store NetMgr Controllers Pool Runtime.
From Stdlib Require Import String Ascii.

Open Scope string_scope.
Open Scope Z_scope.

Record Certificate := mkCert {
  Cert_Key : string;
  Cert_Serial : Z;
  Cert_Type : Z;
  Cert_KeyId : string;
  Cert_ValidAfter : Z;
  Cert_ValidBefore : Z;
  Cert_ValidPrincipals : list string;
  Cert_SignatureKey : string;
  Cert_Signature : string
}.

(** What a client offers: a bare key or a certificate. *)
Inductive OfferedKey := BareKey (k : string) | CertKey (c : Certificate).

Definition UserCert : Z := 1.
Definition HostCert : Z := 2.

Definition ns_per_s : Z := 10 ^ 9.
(** [t.Unix()] of a time in nanoseconds. *)
Definition unix_s (t : Z) : Z := t / ns_per_s.

Section Gateway.
Context (public : string -> string) (sign : string -> string -> string) (to_sign : Certificate -> string)
        (ParseAuthorizedKey : string -> result string string).

Record Gateway := mkGateway { g_caKey : string; g_hostKey : string }.

Definition signedByCA (g : Gateway) (cert : Certificate) : bool := Cert_SignatureKey cert ==? public (g_caKey g).

(** [authorizeCert]: the permission names the user of the connection. *)
Definition authorizeCert (g : Gateway) (user : string) (now : Z) (key : OfferedKey) : result string (list (string * string)) :=
  match key with
  | BareKey _ => Err "public key not a certificate"
  | CertKey cert =>
      if (Cert_SignatureKey cert !=? public (g_hostKey g)) && negb (signedByCA g cert) then
        Err "certificate not signed by gateway CA"
      else
        let t := u64 (unix_s now) in
        if (Cert_ValidBefore cert <? t) || (t <? Cert_ValidAfter cert) then Err "certificate expired or not yet valid"
        else Ok [("vm", user)]
  end.

(** [cert.SignCert]: the authority's key and its signature are filled in. *)
Definition SignCert (authority : string) (c : Certificate) : Certificate :=
  let c := mkCert (Cert_Key c) (Cert_Serial c) (Cert_Type c) (Cert_KeyId c) (Cert_ValidAfter c) (Cert_ValidBefore c)
             (Cert_ValidPrincipals c) (public authority) "" in
  mkCert (Cert_Key c) (Cert_Serial c) (Cert_Type c) (Cert_KeyId c) (Cert_ValidAfter c) (Cert_ValidBefore c)
    (Cert_ValidPrincipals c) (Cert_SignatureKey c) (sign authority (to_sign c)).

Definition SignCertificate (g : Gateway) (pubKey vmID : string) (now : Z) : result string Certificate :=
  match ParseAuthorizedKey pubKey with
  | Err e => Err ("parse public key: " ++ e)
  | Ok parsed =>
      let cert := {| Cert_Key := parsed; Cert_Serial := u64 now; Cert_Type := UserCert; Cert_KeyId := vmID;
                     Cert_ValidAfter := u64 (unix_s (now - 60 * ns_per_s));
                     Cert_ValidBefore := u64 (unix_s (now + 600 * ns_per_s));
                     Cert_ValidPrincipals := [vmID]; Cert_SignatureKey := public (g_caKey g); Cert_Signature := "" |} in
      Ok (SignCert (g_hostKey g) cert)
  end.

(** A session channel: the replies to its requests and the commands run, in order;
    [exec] is the bridge into the guest, if there is one. *)
Definition session (exec : option (string -> list string -> string * option string)) (user : string) (reqs : list string)
    : list (string * bool) * list (string * (string * option string)) :=
  (map (fun t => (t, bool_decide (t ∈ ["shell"; "exec"; "pty-req"]))) reqs,
   match exec with
   | None => []
   | Some run => map (fun _ => (user, run user [])) (base.filter (fun t => t = "shell") reqs)
   end).

(** [handleConn] on one channel: only sessions are accepted. *)
Definition handleChannel (exec : option (string -> list string -> string * option string)) (user channelType : string) (reqs : list string)
    : option (list (string * bool) * list (string * (string * option string))) :=
  if channelType !=? "session" then None else Some (session exec user reqs).

(** ** Who gets in *)

(** The decision, in full: a certificate that names the gateway's host or CA key as its
    signer, within its validity. *)
Lemma authorizeCert_iff g user now key perms :
  authorizeCert g user now key = Ok perms <->
  exists c, key = CertKey c /\ perms = [("vm", user)]
    /\ (Cert_SignatureKey c = public (g_hostKey g) \/ Cert_SignatureKey c = public (g_caKey g))
    /\ Cert_ValidAfter c <= u64 (unix_s now) <= Cert_ValidBefore c.
Proof.
  destruct key as [k|c]; cbn [authorizeCert]; [split; [done|by intros (? & ? & _)]|].
  unfold signedByCA. destruct (_ && _) eqn:Es.
  - split; [done|]. intros (c' & [= <-] & _ & Hk & _). apply andb_true_iff in Es as [H1 H2].
    apply negb_true_iff, bool_decide_eq_false in H1, H2. by destruct Hk.
  - destruct (_ || _) eqn:Et.
    + split; [done|]. intros (c' & [= <-] & _ & _ & Ht). apply orb_true_iff in Et. rewrite !Z.ltb_lt in Et. lia.
    + apply orb_false_iff in Et. rewrite !Z.ltb_ge in Et. split.
      * intros [= <-]. exists c. split_and!; [done|done| |lia|lia]. apply andb_false_iff in Es.
        rewrite !negb_false_iff, !bool_decide_eq_true in Es. done.
      * by intros (c' & [= <-] & -> & _).
Qed.

Lemma unix_shift now k : unix_s (now + k * ns_per_s) = unix_s now + k.
Proof. apply Z.div_add. done. Qed.

(** C28: A certificate signed for a caller lets them in from one minute before its issue to
    ten minutes after, and at no other time; the certificate carries the caller's key
    and the VM's name, and an unreadable key gets none. *)
Theorem SignCertificate_authorizes g pubKey vmID t :
  60 * ns_per_s <= t < 2 ^ 62 ->
  match ParseAuthorizedKey pubKey with
  | Err _ => is_ok (SignCertificate g pubKey vmID t) = false
  | Ok k => exists c, SignCertificate g pubKey vmID t = Ok c
      /\ Cert_Key c = k /\ Cert_KeyId c = vmID /\ Cert_ValidPrincipals c = [vmID] /\ Cert_Type c = UserCert
      /\ Cert_Signature c = sign (g_hostKey g) (to_sign (mkCert k (Cert_Serial c) UserCert vmID (Cert_ValidAfter c)
           (Cert_ValidBefore c) [vmID] (public (g_hostKey g)) ""))
      /\ forall user now, 0 <= now < 2 ^ 62 ->
           is_ok (authorizeCert g user now (CertKey c)) = true <-> unix_s t - 60 <= unix_s now <= unix_s t + 600
  end.
Proof.
  intros Ht. unfold SignCertificate. destruct (ParseAuthorizedKey pubKey) as [k|e]; [|done].
  eexists. split; [done|]. cbn [SignCert Cert_Key Cert_KeyId Cert_ValidPrincipals Cert_Type Cert_Serial Cert_ValidAfter Cert_ValidBefore Cert_Signature].
  split_and!; try done. intros user now Hnow.
  replace (t - 60 * ns_per_s) with (t + (-60) * ns_per_s) by lia. rewrite !unix_shift.
  assert (H62 : forall x, 0 <= x < 2 ^ 62 -> 0 <= unix_s x < 2 ^ 62 / ns_per_s + 1).
  { intros x Hx. unfold unix_s. split; [apply Z.div_pos; [lia|done]|]. apply Z.lt_succ_r, Z.div_le_mono; [done|lia]. }
  assert (60 <= unix_s t) by (unfold unix_s; apply Z.div_le_lower_bound; [done|lia]).
  assert (Ht' : 0 <= t < 2 ^ 62) by (unfold ns_per_s in *; lia).
  pose proof (H62 t Ht') as Hu. pose proof (H62 now Hnow) as Hn.
  assert (2 ^ 62 / ns_per_s + 1 + 600 < 2 ^ 64) by by vm_compute.
  rewrite !u64_id by lia. destruct (authorizeCert _ _ _ _) as [perms|e] eqn:E; cbn [is_ok].
  - apply authorizeCert_iff in E as (c & [= <-] & _ & _ & Hv).
    cbn [Cert_ValidAfter Cert_ValidBefore SignCert] in Hv. rewrite !u64_id in Hv by lia. lia.
  - split; [done|]. intros Hw. exfalso.
    match type of E with authorizeCert _ _ _ (CertKey ?c) = _ => assert (Hok : authorizeCert g user now (CertKey c) = Ok [("vm", user)]) end.
    { apply authorizeCert_iff. eexists. split_and!; [done|done|by left| |];
        cbn [Cert_ValidAfter Cert_ValidBefore SignCert]; rewrite !u64_id by lia; lia. }
    congruence.
Qed.

(** The signature itself is never looked at, nor the principals, nor the kind of
    certificate: naming the gateway's public key as the signer is enough, and the VM is
    whatever user name the client gives. *)
Lemma forged_certificate_accepted g user now k sig :
  0 <= now < 2 ^ 62 ->
  authorizeCert g user now
    (CertKey (mkCert k 0 HostCert "" 0 (2 ^ 64 - 1) [] (public (g_hostKey g)) sig)) = Ok [("vm", user)].
Proof.
  intros Hn. apply authorizeCert_iff. eexists. split_and!; [done|done|by left| |]; cbn [Cert_ValidAfter Cert_ValidBefore].
  - apply u64_range.
  - pose proof (u64_range (unix_s now)). lia.
Qed.

(** A certificate issued for one VM opens a session on any other. *)
Lemma certificate_opens_any_vm g c user user' now : is_ok (authorizeCert g user now (CertKey c)) = is_ok (authorizeCert g user' now (CertKey c)).
Proof. cbn [authorizeCert]. destruct (_ && _); [done|]. by destruct (_ || _). Qed.

(** The CA key signs nothing: certificates name the host key. *)
Lemma ca_key_unused g pubKey vmID t c : SignCertificate g pubKey vmID t = Ok c -> Cert_SignatureKey c = public (g_hostKey g).
Proof. unfold SignCertificate. destruct (ParseAuthorizedKey pubKey); [|done]. by intros [= <-]. Qed.
End Gateway.

(** A shell is bridged with no command, which the VM manager refuses: it never runs. *)
Lemma shell_never_runs m agents nano user :
  session (Some (fun vm argv => VMManager_Exec m agents nano vm argv None)) user ["pty-req"; "shell"]
  = ([("pty-req", true); ("shell", true)], [(user, ("", Some "exec: no command given"))]).
Proof. done. Qed.

(** An exec request is acknowledged and nothing runs. *)
Lemma exec_ignored run user : session (Some run) user ["exec"] = ([("exec", true)], []).
Proof. done. Qed.

Definition toy_sign (k m : string) : string := k ++ ":" ++ m.

Lemma SignCertificate_authorizes_witness :
  let g := mkGateway "ca" "host" in
  exists c, SignCertificate (fun k => "pub-" ++ k) toy_sign Cert_KeyId (fun s => Ok s) g "ssh-ed25519 AAAA" "vm-1" (1000 * ns_per_s) = Ok c
    /\ is_ok (authorizeCert (fun k => "pub-" ++ k) g "vm-1" (1500 * ns_per_s) (CertKey c)) = true.
Proof.
  destruct (SignCertificate_authorizes (fun k => "pub-" ++ k) toy_sign Cert_KeyId (fun s => Ok s) (mkGateway "ca" "host")
    "ssh-ed25519 AAAA" "vm-1" (1000 * ns_per_s)) as (c & Hc & _ & _ & _ & _ & _ & Ha).
  - unfold ns_per_s. lia.
  - exists c. split; [done|]. apply Ha; vm_compute; split; discriminate || reflexivity.
Defined.
