(* ===== verification/Images.v ===== *)
(** * Images, volumes and builds on the host

    Volume directories ([volumes/volumes.go]), artifact checks ([imagecatalog/validate.go],
    [imagecatalog/catalog.go]), build detection and the OCI unpacker ([buildkit/detect.go],
    [buildkit/builder.go]), and the API's upload and git builds ([api/handlers.go]).
    The file system is a state [F] with the effect of an operation and a directory
    listing as arguments; every operation attempted is kept in a trace, which is what
    the path theorems are about. External commands, archives and JSON documents are the
    answers they give. *)
From S2P Require Import Prelude GoStrings GoNum GoPath GoCrypto InitShim Types.
From Stdlib Require Import String Ascii.

Open Scope string_scope.
Open Scope Z_scope.

(** ** File operations *)

Inductive fsop :=
| OMkdirAll (p : string)
| OCreate (p : string)
| OTruncate (p : string) (size : Z)
| OWriteFile (p content : string)
| ORemove (p : string)
| ORemoveAll (p : string)
| OSymlink (target p : string).

(** The path an operation works on. *)
Definition op_path (o : fsop) : string :=
  match o with
  | OMkdirAll p | OCreate p | OTruncate p _ | OWriteFile p _ | ORemove p | ORemoveAll p | OSymlink _ p => p
  end.

Section Files.
Context {F : Type} (apply : fsop -> F -> F * option string) (readdir : string -> F -> list string).

(** The file system and what was done to it. *)
Record Disk := mkDisk { d_fs : F; d_trace : list fsop }.

Definition do_op (o : fsop) (d : Disk) : Disk * option string :=
  let '(f, e) := apply o (d_fs d) in (mkDisk f (d_trace d ++ [o])%list, e).

(** An operation whose error is dropped. *)
Definition try_op (o : fsop) (d : Disk) : Disk := (do_op o d).1.

Definition step_or (r : Disk * option string) (wrap : string -> string) (k : Disk -> Disk * option string) : Disk * option string :=
  match r with (d, None) => k d | (d, Some e) => (d, Some (wrap e)) end.

(** ** Volumes *)

Definition vol_dir (dir : string) : string := if dir ==? "" then "volumes" else dir.

(** [Manager.Create]: the directory, the sparse image and the marker. *)
Definition volume_Create (dir volumeID : string) (sizeMiB : Z) (d : Disk) : Disk * result string string :=
  let sizeMiB := if sizeMiB <=? 0 then 1024 else sizeMiB in
  let path := Join [dir; volumeID] in
  let img := Join [path; "data.img"] in
  let '(d, e) :=
    step_or (do_op (OMkdirAll dir) d) (fun e => "volumes: ensure root: " ++ e) (fun d =>
    step_or (do_op (OMkdirAll path) d) (fun e => "volumes: mkdir " ++ path ++ ": " ++ e) (fun d =>
    step_or (do_op (OCreate img) d) (fun e => "volumes: create image: " ++ e) (fun d =>
    step_or (do_op (OTruncate img (i64 (sizeMiB * 1024 * 1024))) d) (fun e => "volumes: truncate " ++ img ++ ": " ++ e) (fun d =>
    step_or (do_op (OWriteFile (Join [path; "VOLUME"]) ("size_mib=" ++ Itoa sizeMiB ++ String "010" "")) d)
      (fun e => "volumes: write marker: " ++ e) (fun d => (d, None)))))) in
  (d, match e with Some e => Err e | None => Ok path end).

Definition volume_Delete (dir volumeID : string) (d : Disk) : Disk * option string := do_op (ORemoveAll (Join [dir; volumeID])) d.

(** ** Unpacking an uploaded archive *)

Record ZipEntry := mkZip { z_Name : string; z_IsDir : bool; z_Opens : bool }.

Definition unzip_entry (cleanDest : string) (d : Disk) (f : ZipEntry) : Disk :=
  let name := Clean (z_Name f) in
  if IsAbs name || (name ==? "..") || has_prefix name "../" then d
  else
    let target := Join [cleanDest; name] in
    if (target !=? cleanDest) && negb (has_prefix target (cleanDest ++ "/")) then d
    else if z_IsDir f then try_op (OMkdirAll target) d
    else
      match do_op (OMkdirAll (Dir target)) d with
      | (d, Some _) => d
      | (d, None) => if z_Opens f then try_op (OCreate target) d else d
      end.

Definition unzipTo (entries : list ZipEntry) (dest : string) (d : Disk) : Disk :=
  fold_left (unzip_entry (Clean dest)) entries d.

(** ** Applying an image layer *)

Inductive TarType := TDir | TReg | TSymlink | TOther.
Record TarEntry := mkTar { te_Name : string; te_Type : TarType; te_Linkname : string }.

Definition whiteout (dst base : string) (d : Disk) : Disk :=
  if base ==? ".wh..wh..opq" then
    fold_left (fun d e => try_op (ORemoveAll (Join [Dir dst; e])) d) (readdir (Dir dst) (d_fs d)) d
  else try_op (ORemoveAll (Join [Dir dst; trim_prefix base ".wh."])) d.

Definition apply_entry (root : string) (h : TarEntry) (d : Disk) : Disk * option string :=
  let rel := Clean (te_Name h) in
  if (rel ==? ".") || has_prefix rel "../" then (d, None)
  else
    let dst := Join [root; rel] in
    let base := Base rel in
    if has_prefix base ".wh." then (whiteout dst base d, None)
    else
      match te_Type h with
      | TDir => do_op (OMkdirAll dst) d
      | TReg => step_or (do_op (OMkdirAll (Dir dst)) d) id (fun d => do_op (OCreate dst) d)
      | TSymlink => step_or (do_op (OMkdirAll (Dir dst)) d) id (fun d => do_op (OSymlink (te_Linkname h) dst) (try_op (ORemoveAll dst) d))
      | TOther => (d, None)
      end.

(** The entries of a layer, and the error that ends reading it, if any. *)
Fixpoint applyLayer (entries : list TarEntry) (stop : option string) (root : string) (d : Disk) : Disk * option string :=
  match entries with
  | [] => (d, stop)
  | h :: rest => step_or (apply_entry root h d) id (applyLayer rest stop root)
  end.

End Files.
Arguments Disk : clear implicits.
Arguments mkDisk {F}.

(** [SanitizeID] maps runes: the width of the first one, by UTF-8's rules; an invalid
    byte counts as one. *)
Definition cont_in (lo hi : Z) (s : string) : bool :=
  match s with String c _ => (lo <=? byte_of c) && (byte_of c <=? hi) | EmptyString => false end.

Definition rune_width (c : ascii) (s : string) : nat :=
  let b := byte_of c in
  let c1 := cont_in 128 191 in
  if b <? 194 then 1
  else if b <? 224 then if c1 s then 2 else 1
  else if b <? 240 then
    let lo := if b =? 224 then 160 else 128 in
    let hi := if b =? 237 then 159 else 191 in
    if cont_in lo hi s && c1 (sdrop 1 s) then 3 else 1
  else if b <? 245 then
    let lo := if b =? 240 then 144 else 128 in
    let hi := if b =? 244 then 143 else 191 in
    if cont_in lo hi s && c1 (sdrop 1 s) && c1 (sdrop 2 s) then 4 else 1
  else 1.

Definition id_char (c : ascii) : bool := is_lower c || is_upper c || is_digit c || in_set "-_" c.

(** [skip] bytes of the rune just replaced are left out. *)
Fixpoint sanitize (skip : nat) (s : string) : string :=
  match s with
  | EmptyString => EmptyString
  | String c s =>
      match skip with
      | S k => sanitize k s
      | O => if id_char c then String c (sanitize 0 s) else String "-" (sanitize (rune_width c s - 1) s)
      end
  end.
Definition SanitizeID (id : string) : string := sanitize 0 id.

(** ** Paths stay where they belong *)

Section Confined.
Context {F : Type} (apply : fsop -> F -> F * option string) (readdir : string -> F -> list string).
Implicit Types d : Disk F.

(** [d'] continues [d] with operations that satisfy [P] only. *)
Definition only (P : fsop -> Prop) d d' : Prop :=
  exists ops, d_trace d' = (d_trace d ++ ops)%list /\ Forall P ops.

Lemma only_refl P d : only P d d.
Proof. exists []. by rewrite app_nil_r. Qed.

Lemma only_trans P d1 d2 d3 : only P d1 d2 -> only P d2 d3 -> only P d1 d3.
Proof.
  intros (l & H1 & Hl) (k & H2 & Hk). exists (l ++ k)%list. rewrite H2, H1, app_assoc. split; [done|]. by apply Forall_app.
Qed.

Lemma only_do (P : fsop -> Prop) o d : P o -> only P d (do_op apply o d).1.
Proof. intros H. unfold do_op. destruct (apply o (d_fs d)). exists [o]. split; [done|]. by constructor. Qed.

Lemma only_fold {A} P (f : Disk F -> A -> Disk F) l d :
  (forall d x, x ∈ l -> only P d (f d x)) -> only P d (fold_left f l d).
Proof.
  revert d. induction l as [|x l IH]; intros d H; [apply only_refl|]. cbn [fold_left].
  eapply only_trans; [apply H; by left|]. apply IH. intros d' y Hy. apply H. by right.
Qed.

Lemma only_step P r wrap k d : only P d r.1 -> (forall d', only P d' (k d').1) -> only P d (step_or r wrap k).1.
Proof. intros Hr Hk. destruct r as [d' [e|]]; cbn in *; [done|]. by eapply only_trans. Qed.

Definition op_below (root : string) (o : fsop) : Prop := below root (op_path o).

(** What unpacking may do: work below the directory, or make its parent, which is there. *)
Definition unzip_op (dest : string) (o : fsop) : Prop := op_below dest o \/ o = OMkdirAll (Dir (Clean dest)).

Lemma below_Clean dest p : below (Clean dest) p -> below dest p.
Proof. intros Hp. eapply below_trans; [apply below_refl|done]. Qed.

(** The directory of a target is below the destination, or its parent when the name
    has no component. *)
Lemma unzip_dir dest n : climbs (Clean n) = false -> IsAbs (Clean n) = false ->
  unzip_op dest (OMkdirAll (Dir (Join [Clean dest; Clean n]))).
Proof.
  intros Hc Ha. destruct (decide (rel_parts (Clean n) = [])) as [Hnil|Hne].
  - right. f_equal. f_equal. rewrite rel_parts_Clean in Hnil. apply parts_nil in Hnil as [Hn|Hn]; rewrite Hn in *; [done|].
    apply Join_dot.
  - left. apply below_Clean, Dir_Join_below; [apply Clean_nonempty|done|done].
Qed.

Lemma unzip_entry_only dest f d : only (unzip_op dest) d (unzip_entry apply (Clean dest) d f).
Proof.
  unfold unzip_entry. destruct (_ || _) eqn:Eg; [apply only_refl|].
  apply orb_false_iff in Eg as [Eg1 Eg2]. apply orb_false_iff in Eg1 as [Ea Eg1].
  destruct (_ && _) eqn:Ep; [apply only_refl|].
  assert (Hc : climbs (Clean (z_Name f)) = false) by by rewrite climbs_Clean, Eg1, Eg2.
  assert (Ht : below dest (Join [Clean dest; Clean (z_Name f)])).
  { apply below_Clean, Join_below; [apply Clean_nonempty|done]. }
  destruct (z_IsDir f); [apply only_do; by left|].
  pose proof (only_do (unzip_op dest) (OMkdirAll (Dir (Join [Clean dest; Clean (z_Name f)]))) d (unzip_dir dest _ Hc Ea)) as Hm.
  destruct (do_op apply _ d) as [d' [e|]]; cbn [fst] in Hm; [done|].
  eapply only_trans; [done|]. destruct (z_Opens f); [apply only_do; by left|apply only_refl].
Qed.

(** Unpacking an upload is safe against names that climb: whatever the archive
    holds, every directory made and every file created is at or below the destination
    (the destination's own parent, which exists, may be made again). *)
Theorem unzipTo_confined entries dest d : only (unzip_op dest) d (unzipTo apply entries dest d).
Proof. apply only_fold. intros d' f _. apply unzip_entry_only. Qed.

(** ... and it loses nothing: a file whose name does not climb is created at its place. *)
Lemma target_prefix dest n : parts dest <> [] -> climbs (Clean n) = false -> rel_parts (Clean n) <> [] ->
  has_prefix (Join [Clean dest; Clean n]) (Clean dest ++ "/") = true.
Proof.
  intros Hd Hc Hn. destruct (Join_parts (Clean dest) (Clean n) (Clean_nonempty dest) Hc) as [Ha Hp].
  rewrite <- Clean_Join by apply Clean_nonempty. unfold Clean at 1. rewrite Ha, Hp, IsAbs_Clean, parts_Clean.
  rewrite render_app by done. destruct (rel_parts (Clean n)) as [|x k]; [done|].
  fold (Clean dest). rewrite <- sapp_assoc. apply has_prefix_app.
Qed.

Lemma unzip_creates dest f d : parts dest <> [] -> climbs (Clean (z_Name f)) = false -> IsAbs (Clean (z_Name f)) = false ->
  rel_parts (Clean (z_Name f)) <> [] -> z_IsDir f = false -> z_Opens f = true ->
  (apply (OMkdirAll (Dir (Join [Clean dest; Clean (z_Name f)]))) (d_fs d)).2 = None ->
  OCreate (Join [Clean dest; Clean (z_Name f)]) ∈ d_trace (unzip_entry apply (Clean dest) d f).
Proof.
  intros Hd Hc Ha Hn Hdir Ho Hm. unfold unzip_entry. pose proof Hc as Hc'. rewrite climbs_Clean in Hc'.
  apply orb_false_iff in Hc' as [-> ->]. rewrite Ha. cbn [orb]. rewrite target_prefix by done. rewrite andb_false_r, Hdir.
  unfold try_op, do_op. destruct (apply (OMkdirAll _) (d_fs d)) as [f' e]. cbn [snd] in Hm. subst e. rewrite Ho.
  destruct (apply (OCreate _) _). cbn [fst d_trace]. apply elem_of_app. right. by left.
Qed.

(** *** Layers *)

(** A harmless entry: not the parent directory, not the root itself unless a
    directory, and a whiteout of a named file or of a directory's content. *)
Definition entry_ok (h : TarEntry) : bool :=
  let rel := Clean (te_Name h) in
  let base := Base rel in
  (rel !=? "..") && (rel !=? "/")
  && (negb (has_prefix base ".wh.") || (base ==? ".wh..wh..opq") || plain_part (trim_prefix base ".wh.")).

Lemma whiteout_only root dst base d :
  (forall p f, Forall (fun e => plain_part e = true) (readdir p f)) -> Dir dst <> "" -> below root (Dir dst) ->
  base = ".wh..wh..opq" \/ plain_part (trim_prefix base ".wh.") = true ->
  only (op_below root) d (whiteout apply readdir dst base d).
Proof.
  intros Hr Hd Hb Hok.
  assert (Hin : forall e, plain_part e = true -> op_below root (ORemoveAll (Join [Dir dst; e]))).
  { intros e He. eapply below_trans; [done|]. by apply Join_single. }
  unfold whiteout. case_bool_decide as E.
  - apply only_fold. intros d' e He. apply only_do, Hin.
    specialize (Hr (Dir dst) (d_fs d)). rewrite Forall_forall in Hr. by apply Hr.
  - apply only_do, Hin. by destruct Hok.
Qed.

Lemma Dir_nonempty p : Dir p <> "".
Proof. unfold Dir. destruct (cut_last slash p) as [[? ?]|]; apply Clean_nonempty. Qed.

Lemma apply_entry_only root h d :
  (forall p f, Forall (fun e => plain_part e = true) (readdir p f)) -> root <> "" -> entry_ok h = true ->
  only (op_below root) d (apply_entry apply readdir root h d).1.
Proof.
  intros Hrd Hroot Hok. unfold entry_ok in Hok. rewrite !andb_true_iff, !negb_true_iff, !bool_decide_eq_false in Hok.
  destruct Hok as [[H1 H2] Hw]. unfold apply_entry. destruct ((Clean _ ==? ".") || _) eqn:Eg; [apply only_refl|].
  apply orb_false_iff in Eg as [Eg1%bool_decide_eq_false Eg2].
  assert (Hc : climbs (Clean (te_Name h)) = false).
  { rewrite climbs_Clean, Eg2. by rewrite bool_decide_false. }
  assert (Hne : rel_parts (Clean (te_Name h)) <> []).
  { rewrite rel_parts_Clean. intros Hnil. by destruct (parts_nil _ Hnil). }
  set (dst := Join [root; Clean (te_Name h)]).
  assert (Ht : below root dst) by by apply Join_below.
  assert (Hd : below root (Dir dst)) by by apply Dir_Join_below.
  destruct (has_prefix (Base (Clean (te_Name h))) ".wh.") eqn:Eb; cbn [fst].
  - apply whiteout_only; [done|apply Dir_nonempty|done|]. cbn [negb orb] in Hw.
    apply orb_true_iff in Hw as [Hw%bool_decide_eq_true|Hw]; [by left|by right].
  - destruct (te_Type h).
    + by apply only_do.
    + apply only_step; [by apply only_do|]. intros d'. by apply only_do.
    + apply only_step; [by apply only_do|]. intros d'.
      eapply only_trans; [by apply (only_do _ (ORemoveAll dst))|by apply only_do].
    + apply only_refl.
Qed.

(** Unpacking a layer of an image stays below the root directory, as long as no entry
    is the parent directory or the root itself and no whiteout names [.], [..] or
    nothing: every directory, file, link and removal is of a path below the root. *)
Theorem applyLayer_confined entries stop root d :
  (forall p f, Forall (fun e => plain_part e = true) (readdir p f)) -> root <> "" -> forallb entry_ok entries = true ->
  only (op_below root) d (applyLayer apply readdir entries stop root d).1.
Proof.
  intros Hrd Hroot. revert d. induction entries as [|h entries IH]; intros d Hok; [apply only_refl|].
  cbn [forallb] in Hok. apply andb_true_iff in Hok as [Hh Hok]. cbn [applyLayer].
  apply only_step; [by apply apply_entry_only|]. intros d'. by apply IH.
Qed.
End Confined.

(** A file system that does nothing and never fails. *)
Definition idle_fs (o : fsop) (f : unit) : unit * option string := (f, None).
Definition no_files (p : string) (f : unit) : list string := [].
Definition disk0 : Disk unit := mkDisk tt [].

Definition layer_ops (entries : list TarEntry) (root : string) : list fsop :=
  d_trace (applyLayer idle_fs no_files entries None root disk0).1.

Lemma applyLayer_confined_witness :
  only (op_below "/tmp/r") disk0
    (applyLayer idle_fs no_files [mkTar "./etc/" TDir ""; mkTar "etc/passwd" TReg ""; mkTar "/bin/../bin/.wh.sh" TReg ""] None "/tmp/r" disk0).1
  /\ layer_ops [mkTar "./etc/" TDir ""; mkTar "etc/passwd" TReg ""; mkTar "/bin/../bin/.wh.sh" TReg ""] "/tmp/r"
     = [OMkdirAll "/tmp/r/etc"; OMkdirAll "/tmp/r/etc"; OCreate "/tmp/r/etc/passwd"; ORemoveAll "/tmp/r/bin/sh"].
Proof.
  split; [|by vm_compute]. apply applyLayer_confined; [by intros p f|done|by vm_compute].
Defined.

(** The exceptions are real: a link named [..] removes the parent of the root, and so
    does a whiteout of [..]. *)
Lemma layer_removes_parent :
  layer_ops [mkTar ".." TSymlink "x"] "/tmp/work/r" = [OMkdirAll "/tmp"; ORemoveAll "/tmp/work"; OSymlink "x" "/tmp/work"]
  /\ layer_ops [mkTar ".wh..." TReg ""] "/tmp/work/r" = [ORemoveAll "/tmp/work"].
Proof. by vm_compute. Qed.

(** Links are created as the layer says and followed by later entries, so a file can be
    written anywhere on the host. *)
Lemma layer_writes_through_link :
  layer_ops [mkTar "a" TSymlink "/etc"; mkTar "a/passwd" TReg ""] "/tmp/r"
  = [OMkdirAll "/tmp/r"; ORemoveAll "/tmp/r/a"; OSymlink "/etc" "/tmp/r/a"; OMkdirAll "/tmp/r/a"; OCreate "/tmp/r/a/passwd"].
Proof. by vm_compute. Qed.

(** ** Volumes are directories of their own *)

Lemma sanitize_chars k s : sall id_char (sanitize k s) = true.
Proof.
  revert k. induction s as [|c s IH]; intros [|k]; cbn [sanitize]; try done.
  destruct (id_char c) eqn:E; cbn [sall]; [by rewrite E, IH|by rewrite IH].
Qed.

Lemma id_chars_plain s : s <> "" -> sall id_char s = true -> plain_part s = true.
Proof.
  intros Hne Hs. apply plain_part_spec. split_and!; [|done| |].
  - unfold no_slash. revert Hs. apply sall_impl. intros c Hc. apply negb_true_iff, Ascii.eqb_neq. intros ->. by vm_compute in Hc.
  - intros ->. by vm_compute in Hs.
  - intros ->. by vm_compute in Hs.
Qed.

Lemma SanitizeID_nonempty id : id <> "" -> SanitizeID id <> "".
Proof. unfold SanitizeID. destruct id as [|c s]; [done|]. intros _. cbn [sanitize]. by destruct (id_char c). Qed.

(** A volume lives in a directory of its own: for every identifier, the directory,
    the image of the requested size in bytes and the marker are below the volumes
    directory, whatever the identifier holds; success returns that directory. *)
Theorem volume_confined {F} (apply : fsop -> F -> F * option string) dir id size (d : Disk F) :
  dir <> "" -> id <> "" ->
  let path := Join [dir; SanitizeID id] in
  let '(d', r) := volume_Create apply dir (SanitizeID id) size d in
  only (op_below dir) d d'
  /\ parts path = (parts dir ++ [SanitizeID id])%list
  /\ (forall p, r = Ok p -> p = path
        /\ OTruncate (Join [path; "data.img"]) (i64 ((if size <=? 0 then 1024 else size) * 1024 * 1024)) ∈ d_trace d').
Proof.
  intros Hd Hid. cbv zeta. set (vid := SanitizeID id).
  assert (Hpl : plain_part vid = true) by (by apply id_chars_plain; [apply SanitizeID_nonempty|apply sanitize_chars]).
  destruct (Join_single dir vid Hd Hpl) as [Hb Hp]. set (path := Join [dir; vid]) in *.
  assert (Hpath : path <> "") by by apply Join_nonempty.
  assert (Hin : forall c, plain_part c = true -> below dir (Join [path; c])).
  { intros c Hc. eapply below_trans; [done|]. by apply Join_single. }
  assert (Hself : below dir dir) by (split; [done|]; exists []; by rewrite app_nil_r).
  unfold volume_Create. cbv zeta. fold path. destruct (step_or _ _ _) as [d' e] eqn:Es.
  assert (Honly : only (op_below dir) d d').
  { replace d' with ((d', e).1) by done. rewrite <- Es.
    repeat (apply only_step; [apply only_do; first [done|by apply Hin]|intros ?]). apply only_refl. }
  split_and!; [done|done|]. intros p Hr. destruct e; [done|]. injection Hr as <-. split; [done|].
  revert Es. unfold step_or, do_op.
  repeat (destruct (apply _ _) as [? [?|]]; cbn [d_fs d_trace]; [done|]).
  intros [= <-]. cbn [d_trace]. apply elem_of_app. left. apply elem_of_app. right. by left.
Qed.

Lemma volume_confined_witness :
  only (op_below "/vols") disk0 (volume_Create idle_fs "/vols" (SanitizeID "../a/b") 0 disk0).1.
Proof.
  pose proof (volume_confined idle_fs "/vols" "../a/b" 0 disk0) as H. cbv zeta in H.
  destruct (volume_Create _ _ _ _ _) as [d' r]. apply H; discriminate.
Defined.

(** ** Artifact checks *)

Record FileInfo := mkFileInfo { fi_symlink : bool; fi_regular : bool; fi_size : Z; fi_read : result string string }.

Section Artifacts.
Context (lstat : string -> result string FileInfo).

Definition inspectFile (path label : string) : result string (Z * string) :=
  if path ==? "" then Err (label ++ " path is empty")
  else match lstat (Clean path) with
       | Err e => Err (label ++ " is unavailable: " ++ e)
       | Ok info =>
           if fi_symlink info || negb (fi_regular info) then Err (label ++ " must be a regular non-symlink file")
           else if fi_size info <=? 0 then Err (label ++ " is empty")
           else match fi_read info with
                | Err e => Err ("open " ++ label ++ ": " ++ e)
                | Ok content => Ok (fi_size info, hash_hex content)
                end
       end.

Record ArtifactReport := mkReport {
  Rep_Status : string; Rep_Architecture : string; Rep_RootfsSHA256 : string; Rep_KernelSHA256 : string;
  Rep_RootfsBytes : Z; Rep_KernelBytes : Z; Rep_Error : string }.

Definition ValidateArtifacts (rootfs kernel : string) : ArtifactReport * option string :=
  match inspectFile rootfs "rootfs.ext4" with
  | Err e => (mkReport "invalid" "x86_64" "" "" 0 0 e, Some e)
  | Ok (rb, rs) =>
      match inspectFile kernel "vmlinux" with
      | Err e => (mkReport "invalid" "x86_64" "" "" 0 0 e, Some e)
      | Ok (kb, ks) => (mkReport "ready" "x86_64" rs ks rb kb "", None)
      end
  end.

Definition ManifestFromArtifacts (id : string) (now : Z) (name reference description kind rootfs kernel : string) (vcpus memMiB : Z) : GoldenImage :=
  let kind := if kind ==? "" then "base" else kind in
  let reference := if reference ==? "" then "base://" ++ name else reference in
  let '(report, err) := ValidateArtifacts rootfs kernel in
  let status := match err with Some _ => "invalid" | None => Rep_Status report end in
  let vcpus := if vcpus <=? 0 then 1 else vcpus in
  let memMiB := if memMiB <=? 0 then 256 else memMiB in
  {| GI_ID := id; GI_Name := name; GI_Image := reference; GI_Description := description; GI_VCPUs := vcpus; GI_MemMiB := memMiB;
     GI_Ports := []; GI_Env := ∅; GI_Tags := []; GI_Logo := ""; GI_Version := "v1"; GI_Kind := kind;
     GI_Rootfs := Clean rootfs; GI_Kernel := Clean kernel; GI_Architecture := Rep_Architecture report;
     GI_RootfsSHA256 := Rep_RootfsSHA256 report; GI_KernelSHA256 := Rep_KernelSHA256 report; GI_Status := status;
     GI_ValidatedAt := Some now; GI_CreatedAt := now |}.

(** A bootable artifact: a named regular file, not a link, not empty, readable. *)
Definition bootable (path content : string) : Prop :=
  path <> "" /\ exists info, lstat (Clean path) = Ok info /\ fi_symlink info = false /\ fi_regular info = true
    /\ 0 < fi_size info /\ fi_read info = Ok content.

Lemma inspectFile_ok path label size sum :
  inspectFile path label = Ok (size, sum) <->
  exists content info, bootable path content /\ lstat (Clean path) = Ok info /\ size = fi_size info /\ sum = hash_hex content.
Proof.
  unfold inspectFile, bootable. case_bool_decide as Hp; [split; [discriminate|intros (? & ? & (? & _) & _); tauto]|].
  destruct (lstat (Clean path)) as [info|e] eqn:El; [|split; [discriminate|intros (? & ? & (_ & ? & ? & _) & _); congruence]].
  destruct (fi_symlink info) eqn:E1; [split; [discriminate|intros (? & ? & (_ & ? & [= <-] & ? & _) & _); congruence]|].
  destruct (fi_regular info) eqn:E2; cbn [orb negb]; [|split; [discriminate|intros (? & ? & (_ & ? & [= <-] & _ & ? & _) & _); congruence]].
  destruct (Z.leb_spec (fi_size info) 0); [split; [discriminate|intros (? & ? & (_ & ? & [= <-] & _ & _ & ? & _) & _); lia]|].
  destruct (fi_read info) as [content|e] eqn:E3; [|split; [discriminate|intros (? & ? & (_ & ? & [= <-] & _ & _ & _ & ?) & _); congruence]].
  split.
  - intros [= <- <-]. exists content, info. split_and!; try reflexivity; [exact Hp|]. exists info. split_and!; try reflexivity; assumption.
  - intros (content' & info' & (_ & info'' & [= <-] & _ & _ & _ & Hc) & [= <-] & -> & ->). rewrite E3 in Hc. injection Hc as ->. reflexivity.
Qed.

(** An image is reported ready exactly when both its disk and its kernel are readable
    regular files with content, and then its digests are the SHA-256 of what they hold;
    in every other case the report is invalid, carries the error and no digest. *)
Theorem ValidateArtifacts_spec rootfs kernel :
  let '(report, err) := ValidateArtifacts rootfs kernel in
  (err = None <-> exists rc kc, bootable rootfs rc /\ bootable kernel kc)
  /\ (forall rc kc, bootable rootfs rc -> bootable kernel kc ->
        Rep_Status report = "ready" /\ Rep_RootfsSHA256 report = hash_hex rc /\ Rep_KernelSHA256 report = hash_hex kc)
  /\ (forall e, err = Some e -> Rep_Status report = "invalid" /\ Rep_Error report = e
        /\ Rep_RootfsSHA256 report = "" /\ Rep_KernelSHA256 report = "").
Proof.
  assert (Hok : forall p l c, bootable p c -> exists n, inspectFile p l = Ok (n, hash_hex c)).
  { intros p l c Hb. pose proof Hb as (_ & info & Hl & _). exists (fi_size info). apply inspectFile_ok. exists c, info.
    split_and!; try assumption; reflexivity. }
  assert (Hok' : forall p l n s, inspectFile p l = Ok (n, s) -> exists c, bootable p c).
  { intros p l n s (c & ? & ? & _)%inspectFile_ok. exists c. assumption. }
  unfold ValidateArtifacts.
  destruct (inspectFile rootfs "rootfs.ext4") as [[rb rs]|e] eqn:Er.
  - destruct (inspectFile kernel "vmlinux") as [[kb ks]|e] eqn:Ek.
    + split_and!; [|intros rc kc Hr Hk|discriminate].
      * split; [|reflexivity]. intros _. apply Hok' in Er as [rc ?]. apply Hok' in Ek as [kc ?]. exists rc, kc. split; assumption.
      * destruct (Hok _ "rootfs.ext4" _ Hr) as [? Hr']. destruct (Hok _ "vmlinux" _ Hk) as [? Hk'].
        rewrite Er in Hr'. rewrite Ek in Hk'. injection Hr' as _ ->. injection Hk' as _ ->. split_and!; reflexivity.
    + split_and!; [split; [discriminate|]|intros rc kc _ Hk|].
      * intros (rc & kc & _ & Hk). destruct (Hok _ "vmlinux" _ Hk). congruence.
      * destruct (Hok _ "vmlinux" _ Hk). congruence.
      * intros ? [= <-]. split_and!; reflexivity.
  - split_and!; [split; [discriminate|]|intros rc kc Hr _|].
    + intros (rc & kc & Hr & _). destruct (Hok _ "rootfs.ext4" _ Hr). congruence.
    + destruct (Hok _ "rootfs.ext4" _ Hr). congruence.
    + intros ? [= <-]. split_and!; reflexivity.
Qed.
End Artifacts.
