(* ===== verification/Builds.v ===== *)
(** * Building images from source ([buildkit/detect.go], [buildkit/builder.go], [api/handlers.go])

    Choosing a build engine, the commands it runs, turning an OCI archive into a disk,
    the API's git builds and uploads, and the image library they fill. External
    commands, the files they leave behind, archives and JSON documents are answers of a
    [Tools] record; what was run is kept in a list. *)
From S2P Require Import Prelude GoStrings GoNum GoNet GoPath GoCrypto InitShim Types Gateway Store NetMgr Controllers Pool Images Projects.
From Stdlib Require Import String Ascii.

Open Scope string_scope.
Open Scope Z_scope.

(** ** Detection *)

Inductive Engine := EngineDockerfile | EngineNixpacks | EngineRailpack | EngineBuildpacks | EngineStatic.

#[export] Instance Engine_eq_dec : EqDecision Engine.
Proof. solve_decision. Defined.

Definition engine_name (e : Engine) : string :=
  match e with
  | EngineDockerfile => "dockerfile" | EngineNixpacks => "nixpacks" | EngineRailpack => "railpack"
  | EngineBuildpacks => "buildpacks" | EngineStatic => "static"
  end.

Record Plan := mkPlan { Plan_Engine : Engine; Plan_ContextDir : string; Plan_Dockerfile : string; Plan_OutputOCI : string }.

(** The manifest of an OCI image and the part of its configuration that is used. *)
Record OciManifest := mkManifest { Mf_Config : string; Mf_Layers : list string }.
Record OciConfig := mkOciConfig { Oc_Entrypoint : list string; Oc_Cmd : list string; Oc_Env : list string; Oc_WorkingDir : string }.

Record Tools := mkTools {
  t_stat : string -> option bool;                                  (* exists; is a directory *)
  t_run : list string -> option string;                            (* the error of a command *)
  t_mkdir : string -> option string;
  t_copy : string -> string -> option string;
  t_sha256 : string -> option string;
  t_tar : string -> option (list (string * string) * option string); (* entries, and the error that ends reading *)
  t_index : string -> option (list string);                        (* digests of the manifests *)
  t_manifest : string -> result string OciManifest;
  t_config : string -> result string OciConfig;
  t_layer : string -> list TarEntry * option string;
  t_tempdir : result string string;
  t_truncate : string -> Z -> option string;
  t_mkfs : bool;                                                   (* mkfs.ext4 is installed *)
  t_tmp : string                                                   (* os.TempDir() *)
}.

Section Builder.
Context (t : Tools).

Definition has (dir : string) (names : list string) : bool :=
  existsb (fun n => bool_decide (t_stat t (Join [dir; n]) = Some false)) names.
Definition isDir (dir n : string) : bool := bool_decide (t_stat t (Join [dir; n]) = Some true).

Definition Detect (dir : string) : Engine :=
  if has dir ["railpack.json"] then EngineRailpack
  else if has dir ["nixpacks.toml"; ".nixpacks.toml"; "NIXPACKS.toml"] then EngineNixpacks
  else if has dir ["Dockerfile"; "dockerfile"; "Containerfile"] then EngineDockerfile
  else if isDir dir "dist" || isDir dir "build" || has dir ["index.html"] then EngineStatic
  else if has dir ["package.json"; "requirements.txt"; "pyproject.toml"; "go.mod"; "Cargo.toml"; "Gemfile"; "composer.json"]
  then EngineNixpacks
  else if has dir ["project.toml"; "Procfile"] then EngineBuildpacks
  else EngineBuildpacks.

Definition PlanFor (dir outputOCI : string) : Plan :=
  let eng := Detect dir in
  let dockerfile :=
    if bool_decide (eng = EngineDockerfile) then
      match find_first (fun c => bool_decide (is_Some (t_stat t (Join [dir; c])))) ["Dockerfile"; "dockerfile"; "Containerfile"] with
      | Some c => Join [dir; c]
      | None => ""
      end
    else "" in
  mkPlan eng dir dockerfile outputOCI.

(** ** Running the engines *)

Record BuilderCfg := mkBuilder { B_Bin : string; B_Addr : string; B_NixpacksBin : string; B_RailpackBin : string }.

(** The commands run, in order, and the error. *)
Definition Ran : Type := list (list string) * option string.

Definition firstNonEmpty (a b : string) : string := if a !=? "" then a else b.

Definition validOCITar (path : string) : bool :=
  match t_tar t path with
  | None => false
  | Some (entries, _) => existsb (fun e => e.1 ==? "index.json") entries
  end.

Definition runPack (bin : string) (args : list string) (outputOCI : string) : Ran :=
  ([bin :: args],
   match t_run t (bin :: args) with
   | None => None
   | Some e => if validOCITar outputOCI then None else Some ("buildkit: " ++ bin ++ ": " ++ e)
   end).

Definition Builder_Build (b : BuilderCfg) (contextDir dockerfile outputOCI : string) : Ran :=
  let bin := if B_Bin b ==? "" then "buildctl" else B_Bin b in
  let addr := if B_Addr b ==? "" then "unix:///run/buildkit/buildkitd.sock" else B_Addr b in
  if (contextDir ==? "") || (dockerfile ==? "") || (outputOCI ==? "") then
    ([], Some "buildkit: context, dockerfile, and output are required")
  else match t_mkdir t (Dir outputOCI) with
       | Some e => ([], Some e)
       | None =>
           let argv := [bin; "--addr"; addr; "build"; "--frontend"; "dockerfile.v0"; "--local"; "context=" ++ contextDir;
                        "--local"; "dockerfile=" ++ Dir dockerfile; "--opt"; "filename=" ++ Base dockerfile;
                        "--output"; "type=oci,dest=" ++ outputOCI] in
           ([argv], match t_run t argv with Some e => Some ("buildkit build: " ++ e) | None => None end)
       end.

Definition EnsureOCI (b : BuilderCfg) (contextDir dockerfile outputOCI : string) : Ran :=
  if (outputOCI !=? "") && validOCITar outputOCI then ([], None)
  else let '(cmds, err) := Builder_Build b contextDir dockerfile outputOCI in
       (cmds, match err with
              | Some e => if (outputOCI !=? "") && validOCITar outputOCI then None else Some e
              | None => None
              end).

Definition BuildWithPlan (b : BuilderCfg) (p : Plan) : Ran :=
  let args := ["build"; "--format"; "oci"; Plan_ContextDir p; "--out"; Plan_OutputOCI p] in
  match Plan_Engine p with
  | EngineDockerfile =>
      if Plan_Dockerfile p ==? "" then ([], Some ("buildkit: dockerfile engine but no Dockerfile in " ++ Plan_ContextDir p))
      else Builder_Build b (Plan_ContextDir p) (Plan_Dockerfile p) (Plan_OutputOCI p)
  | EngineNixpacks => runPack (firstNonEmpty (B_NixpacksBin b) "nixpacks") args (Plan_OutputOCI p)
  | EngineRailpack => runPack (firstNonEmpty (B_RailpackBin b) "railpack") args (Plan_OutputOCI p)
  | EngineStatic =>
      ([], Some ("buildkit: static engine needs a publish dir build first (dist/build → nginx OCI); provide a Dockerfile or prebuilt OCI tar at "
                 ++ Plan_OutputOCI p))
  | EngineBuildpacks =>
      ([], Some ("buildkit: buildpacks runner not installed for " ++ Plan_ContextDir p ++
                 "; provide a Dockerfile or prebuilt OCI tar at " ++ Plan_OutputOCI p))
  end.

(** ** OCI archives *)

(** The content of the first entry whose name is wanted; an error before it ends the search. *)
Definition tar_find (want : string -> bool) (path : string) : result string (option string) :=
  match t_tar t path with
  | None => Err ("open " ++ path)
  | Some (entries, stop) =>
      match find_first (fun e => want e.1) entries with
      | Some e => Ok (Some e.2)
      | None => match stop with Some e => Err e | None => Ok None end
      end
  end.

(** [strings.Replace(digest, ":", "/", 1)]. *)
Definition blob_name (digest : string) : string :=
  "blobs/" ++ match cut ":" digest with Some (a, b) => a ++ "/" ++ b | None => digest end.

Definition readBlob (path digest : string) : result string string :=
  found ← tar_find (fun n => n ==? blob_name digest) path;
  match found with Some data => Ok data | None => Err ("OCI blob " ++ digest ++ " not found") end.

Section Unpack.
Context {F : Type} (apply : fsop -> F -> F * option string) (readdir : string -> F -> list string).

Fixpoint unpack_layers (path : string) (layers : list string) (root : string) (d : Disk F) : Disk F * option string :=
  match layers with
  | [] => (d, None)
  | digest :: rest =>
      match readBlob path digest with
      | Err e => (d, Some e)
      | Ok data =>
          let '(entries, stop) := t_layer t data in
          step_or (applyLayer apply readdir entries stop root d) id (unpack_layers path rest root)
      end
  end.

Definition read_manifest (path index : string) : result string OciManifest :=
  match t_index t index with
  | None | Some [] => Err "invalid OCI index"
  | Some (digest :: _) => m ← readBlob path digest; t_manifest t m
  end.

Definition unpackOCI (path root : string) (d : Disk F) : Disk F * option string :=
  match tar_find (fun n => (n ==? "index.json") || (n ==? "./index.json")) path with
  | Err e => (d, Some e)
  | Ok found =>
      let index := default "" found in
      if index ==? "" then (d, Some "oci archive missing index.json")
      else match read_manifest path index with
           | Err e => (d, Some e)
           | Ok manifest => unpack_layers path (Mf_Layers manifest) root d
           end
  end.

(** [readOCIConfig]: here only [index.json] is looked for. *)
Definition readOCIConfig (path : string) : result string OciConfig :=
  found ← tar_find (fun n => n ==? "index.json") path;
  manifest ← read_manifest path (default "" found);
  c ← readBlob path (Mf_Config manifest);
  t_config t c.

Definition InitPath : string := "sbin/init".

(** [InstallInit]: what stood there is removed first; that it is missing is no error. *)
Definition InstallInit (root script : string) (d : Disk F) : Disk F * option string :=
  let dst := Join [root; InitPath] in
  step_or (do_op apply (OMkdirAll (Dir dst)) d) id (fun d =>
  step_or (do_op apply (ORemove dst) d) id (fun d => do_op apply (OWriteFile dst script) d)).

Record BuildResult := mkResult { Res_OCIPath : string; Res_RootfsPath : string; Res_Config : OciConfig }.

Definition ConvertOCIToExt4 (ociPath rootfsPath : string) (sizeMiB : Z) (d : Disk F) : Disk F * list (list string) * result string BuildResult :=
  let sizeMiB := if sizeMiB <? 64 then 512 else sizeMiB in
  match t_tempdir t with
  | Err e => (d, [], Err e)
  | Ok root =>
      let gone d := try_op apply (ORemoveAll root) d in
      match unpackOCI ociPath root d with
      | (d, Some e) => (gone d, [], Err e)
      | (d, None) =>
          let cfg := readOCIConfig ociPath in
          let '(d, err) :=
            match cfg with
            | Ok c => match BuildInitScript (Oc_Entrypoint c) (Oc_Cmd c) (Oc_Env c) (Oc_WorkingDir c) with
                      | Ok script => step_or (InstallInit root script d) (fun e => "install init shim: " ++ e) (fun d => (d, None))
                      | Err _ => (d, None)
                      end
            | Err _ => (d, None)
            end in
          match err with
          | Some e => (gone d, [], Err e)
          | None =>
              match t_mkdir t (Dir rootfsPath) with
              | Some e => (gone d, [], Err e)
              | None =>
                  match t_truncate t rootfsPath (i64 (sizeMiB * 1024 * 1024)) with
                  | Some e => (gone d, [], Err e)
                  | None =>
                      if negb (t_mkfs t) then
                        (gone d, [], Err ("mkfs.ext4 not found: rootfs formatting requires Linux with e2fsprogs (unpack to " ++ root ++
                                          " already staged, image build must run on Linux)"))
                      else
                        let argv := ["mkfs.ext4"; "-F"; "-d"; root; rootfsPath] in
                        match t_run t argv with
                        | Some e => (gone d, [argv], Err ("mkfs.ext4: " ++ e))
                        | None => (gone d, [argv], match cfg with Err e => Err e | Ok c => Ok (mkResult ociPath rootfsPath c) end)
                        end
                  end
              end
          end
      end
  end.
End Unpack.
End Builder.

(** ** The image library *)

(** A row of [golden_images]: its key and the document stored beside it. *)
Record ImageRow := mkImageRow { ir_id : string; ir_data : GoldenImage }.

(** What is read back: the columns override the document, with the defaults of the insert. *)
Definition stored_image (gi : GoldenImage) : GoldenImage :=
  let or s d := if s ==? "" then d else s in
  {| GI_ID := GI_ID gi; GI_Name := GI_Name gi; GI_Image := GI_Image gi; GI_Description := GI_Description gi;
     GI_VCPUs := GI_VCPUs gi; GI_MemMiB := GI_MemMiB gi; GI_Ports := GI_Ports gi; GI_Env := GI_Env gi; GI_Tags := GI_Tags gi;
     GI_Logo := GI_Logo gi; GI_Version := or (GI_Version gi) "v1"; GI_Kind := or (GI_Kind gi) "custom";
     GI_Rootfs := GI_Rootfs gi; GI_Kernel := GI_Kernel gi; GI_Architecture := or (GI_Architecture gi) "x86_64";
     GI_RootfsSHA256 := GI_RootfsSHA256 gi; GI_KernelSHA256 := GI_KernelSHA256 gi; GI_Status := or (GI_Status gi) "unknown";
     GI_ValidatedAt := GI_ValidatedAt gi; GI_CreatedAt := GI_CreatedAt gi |}.

(** [ON CONFLICT (name) DO UPDATE]: the key of the row stays. *)
Fixpoint PutGoldenImage (gi : GoldenImage) (rows : list ImageRow) : list ImageRow :=
  match rows with
  | [] => [mkImageRow (GI_ID gi) (stored_image gi)]
  | r :: rest => if GI_Name (ir_data r) ==? GI_Name gi then mkImageRow (ir_id r) (stored_image gi) :: rest
                 else r :: PutGoldenImage gi rest
  end.

Definition ListGoldenImages (collate : (GoldenImage -> string) -> list GoldenImage -> list GoldenImage) (rows : list ImageRow) : list GoldenImage :=
  collate GI_Name (ir_data <$> rows).

Definition DeleteGoldenImage (id : string) (rows : list ImageRow) : list ImageRow := base.filter (fun r => ir_id r <> id) rows.

(** The keys of the map [inUse]: images of the projects' VMs, and identifiers of the
    library entries with such an image. *)
Definition used_images (s : StoreState) : list string :=
  mjoin ((fun p => omap (fun vid => VM_Image <$> Store_GetVM s vid) (Proj_VMIDs p)) <$> ListProjects s).

Definition inUse (s : StoreState) (images : list GoldenImage) (key : string) : bool :=
  bool_decide (key ∈ used_images s)
  || existsb (fun gi => (GI_ID gi ==? key) && bool_decide (GI_Image gi ∈ used_images s)) images.

(** [handlePruneImages]: the rows left and the number reported. *)
Definition prune_images (s : StoreState) (images : list GoldenImage) (rows : list ImageRow) : list ImageRow * Z :=
  let unused := base.filter (fun gi => inUse s images (GI_ID gi) = false) images in
  (fold_left (fun rows gi => DeleteGoldenImage (GI_ID gi) rows) unused rows, Z.of_nat (List.length unused)).

(** ** Uploads *)

Definition safeGitURL (raw : string) : option string :=
  let u := trim_space raw in
  if u ==? "" then None
  else if has_prefix u "-" then None
  else if has_prefix u "git@" then Some u
  else if negb (has_prefix u "https://") && negb (has_prefix u "http://") then None
  else Some u.

(** The parts of an upload's form: the name, the numbers' texts and the archive (None
    when it is missing, an error when it is not a zip file). *)
Record UploadForm := mkForm { uf_name : string; uf_vcpus : string; uf_mem : string; uf_file : option (result string (list ZipEntry)) }.

Definition positive_or (s : string) (def : Z) : Z := let n := Atoi_val s in if n <=? 0 then def else n.

Definition handleUploadCustomImage {F} (apply : fsop -> F -> F * option string) (lstat : F -> string -> result string FileInfo)
    (dir : string) (form : result string UploadForm) (id : string) (now : Z) (d : Disk F) (rows : list ImageRow) : Disk F * list ImageRow * Resp :=
  if dir ==? "" then (d, rows, writeError 400 "custom images dir not configured")
  else match form with
       | Err e => (d, rows, writeError 400 ("multipart parse: " ++ e))
       | Ok f =>
           let name := Base (trim_space (uf_name f)) in
           if (name ==? "") || (name ==? ".") || (name ==? "/") then (d, rows, writeError 400 "name is required")
           else match uf_file f with
                | None => (d, rows, writeError 400 "file (zip) is required")
                | Some file =>
                    let dest := Join [dir; name] in
                    match do_op apply (OMkdirAll dest) d with
                    | (d, Some e) => (d, rows, writeError 500 ("mkdir: " ++ e))
                    | (d, None) =>
                        match file with
                        | Err e => (d, rows, writeError 400 ("unzip: " ++ e))
                        | Ok entries =>
                            let d := unzipTo apply entries dest d in
                            let rootfs := Join [dest; "rootfs.ext4"] in
                            let kernel := Join [dest; "vmlinux"] in
                            let '(report, err) := ValidateArtifacts (lstat (d_fs d)) rootfs kernel in
                            match err with
                            | Some _ => (d, rows, writeError 400 ("invalid microVM artifacts: " ++ Rep_Error report))
                            | None =>
                                let gi := {| GI_ID := id; GI_Name := name; GI_Image := "custom://" ++ name; GI_Description := "";
                                             GI_VCPUs := positive_or (uf_vcpus f) 1; GI_MemMiB := positive_or (uf_mem f) 256;
                                             GI_Ports := []; GI_Env := ∅; GI_Tags := []; GI_Logo := ""; GI_Version := "";
                                             GI_Kind := "custom"; GI_Rootfs := rootfs; GI_Kernel := kernel;
                                             GI_Architecture := Rep_Architecture report; GI_RootfsSHA256 := Rep_RootfsSHA256 report;
                                             GI_KernelSHA256 := Rep_KernelSHA256 report; GI_Status := Rep_Status report;
                                             GI_ValidatedAt := Some now; GI_CreatedAt := now |} in
                                (d, PutGoldenImage gi rows, writeJSON 201 (JObj [("id", JStr id); ("image", JStr (GI_Image gi))]))
                            end
                        end
                    end
                end
       end.

(** ** Volumes behind the API *)

(** [PutVolume]: a volume of the same name in the project keeps its identifier and
    takes the new size and path; a missing project is refused. *)
Fixpoint upsert_volume (v : Volume) (l : list Volume) : list Volume :=
  match l with
  | [] => [v]
  | x :: l => if (Vol_ProjectID x ==? Vol_ProjectID v) && (Vol_Name x ==? Vol_Name v)
              then Vol_set_Path (Vol_Path v) (Vol_set_SizeMiB (Vol_SizeMiB v) x) :: l
              else x :: upsert_volume v l
  end.
Definition PutVolume (projects : list string) (v : Volume) (l : list Volume) : list Volume :=
  if bool_decide (Vol_ProjectID v ∈ projects) && (Vol_ProjectID v !=? "") then upsert_volume v l else l.

Definition find_volume (id : string) (l : list Volume) : option Volume := find_first (fun v => Vol_ID v ==? id) l.

Definition vol_json (v : Volume) : Json :=
  JObj [("id", JStr (Vol_ID v)); ("project_id", JStr (Vol_ProjectID v)); ("name", JStr (Vol_Name v));
        ("size_mib", JInt (Vol_SizeMiB v)); ("path", JStr (Vol_Path v))].

Record VolumeReq := mkVolReq { vr_name : string; vr_size : Z; vr_mount : string }.

Section Volumes.
Context {F : Type} (apply : fsop -> F -> F * option string) (volMgr : option string) (projects : list string).

Definition handleCreateVolume (projectID id : string) (now : Z) (req : result string VolumeReq) (d : Disk F) (l : list Volume)
    : Disk F * list Volume * Resp :=
  match req with
  | Err e => (d, l, writeError 400 ("bad request: " ++ e))
  | Ok req =>
      let size := if vr_size req <=? 0 then 1024 else vr_size req in
      let v := mkVolume id projectID (vr_name req) size (vr_mount req) now in
      match volMgr with
      | None => (d, PutVolume projects v l, writeJSON 201 (vol_json v))
      | Some dir =>
          match volume_Create apply dir (SanitizeID id) size d with
          | (d, Err e) => (d, l, writeError 500 ("failed to provision volume: " ++ e))
          | (d, Ok hostPath) =>
              let v := Vol_set_Path hostPath v in
              (d, PutVolume projects v l, writeJSON 201 (vol_json v))
          end
      end
  end.

Definition handleGetVolume (volumeId : string) (l : list Volume) : Resp :=
  match find_volume volumeId l with
  | Some v => writeJSON 200 (vol_json v)
  | None => writeError 404 "volume not found"
  end.

Definition handleDeleteVolume (volumeId : string) (d : Disk F) (l : list Volume) : Disk F * list Volume * Resp :=
  match find_volume volumeId l with
  | None => (d, l, writeError 404 "volume not found")
  | Some _ =>
      let d := match volMgr with Some dir => (volume_Delete apply dir (SanitizeID volumeId) d).1 | None => d end in
      (d, base.filter (fun v => Vol_ID v <> volumeId) l, writeJSON 200 (JObj [("status", JStr "deleted")]))
  end.

Definition handleResizeVolume (volumeId : string) (req : result string Z) (l : list Volume) : list Volume * Resp :=
  match req with
  | Err e => (l, writeError 400 ("bad request: " ++ e))
  | Ok size =>
      match find_volume volumeId l with
      | None => (l, writeError 404 "volume not found")
      | Some _ =>
          ((fun v => if Vol_ID v ==? volumeId then Vol_set_SizeMiB size v else v) <$> l,
           writeJSON 200 (JObj [("status", JStr "resized"); ("size_mib", JInt size)]))
      end
  end.
End Volumes.

(** ** Git builds *)

Definition set_status (status : string) (b : Build) : Build :=
  mkBuild (Bld_ID b) (Bld_ProjectID b) (Bld_GitURL b) (Bld_Branch b) status (Bld_Image b) (Bld_Log b) (Bld_CreatedAt b).
Definition add_log (line : string) (b : Build) : Build :=
  mkBuild (Bld_ID b) (Bld_ProjectID b) (Bld_GitURL b) (Bld_Branch b) (Bld_BuildStatus b) (Bld_Image b) (Bld_Log b ++ line) (Bld_CreatedAt b).
Definition set_image (image : string) (b : Build) : Build :=
  mkBuild (Bld_ID b) (Bld_ProjectID b) (Bld_GitURL b) (Bld_Branch b) (Bld_BuildStatus b) image (Bld_Log b) (Bld_CreatedAt b).

Definition orDefault (val def : string) : string := if val ==? "" then def else val.
Definition shortBuildRef (b : Build) : string := if 8 <? Z.of_nat (String.length (Bld_ID b)) then substring 0 8 (Bld_ID b) else Bld_ID b.
Definition shortHash (sum : string) : string := if 12 <? Z.of_nat (String.length sum) then substring 0 12 sum else sum.
(** [%v] of a list of strings. *)
Definition fmt_list (l : list string) : string := "[" ++ join " " l ++ "]".

Section GitBuild.
Context (t : Tools) {F : Type} (apply : fsop -> F -> F * option string) (readdir : string -> F -> list string).
(** The host's builder settings and shared kernel, when it is configured; the directory
    of custom images; the identifier and time of the new image. *)
Context (hostConfig : option (BuilderCfg * string)) (customImagesDir newID : string) (now : Z).

Definition firstExisting (paths : list string) : string :=
  default "" (find_first (fun p => bool_decide (t_stat t p = Some false)) paths).

(** What a build leaves: the disk, commands run, lines logged, usage recorded and
    events sent, in order. *)
Record Work := mkWork {
  wk_disk : Disk F; wk_cmds : list (list string); wk_log : list string;
  wk_usage : list (string * string * string); wk_events : list (string * string)
}.

Definition ran (cmds : list (list string)) (w : Work) : Work := mkWork (wk_disk w) (wk_cmds w ++ cmds)%list (wk_log w) (wk_usage w) (wk_events w).
Definition logf (line : string) (w : Work) : Work := mkWork (wk_disk w) (wk_cmds w) (wk_log w ++ [line])%list (wk_usage w) (wk_events w).
Definition on_disk (d : Disk F) (w : Work) : Work := mkWork d (wk_cmds w) (wk_log w) (wk_usage w) (wk_events w).
Definition used (u : string * string * string) (w : Work) : Work := mkWork (wk_disk w) (wk_cmds w) (wk_log w) (wk_usage w ++ [u])%list (wk_events w).
Definition sent (e : string * string) (w : Work) : Work := mkWork (wk_disk w) (wk_cmds w) (wk_log w) (wk_usage w) (wk_events w ++ [e])%list.

Definition packFallback (b : Build) (dir : string) (w : Work) : Work * option (string * string) :=
  let ociOut := Join [t_tmp t; "porter-oci-" ++ Bld_ID b ++ ".tar"] in
  let plan := PlanFor t dir ociOut in
  let w := logf ("pack detected: engine=" ++ engine_name (Plan_Engine plan) ++ " (building OCI)") w in
  let builder := match hostConfig with Some (b, _) => b | None => mkBuilder "" "" "" "" end in
  let '(cmds, err) := BuildWithPlan t builder plan in
  let w := ran cmds w in
  match err with
  | Some e => (logf ("pack build failed: " ++ e) w, None)
  | None =>
      let rootfsOut := Join [t_tmp t; "porter-rootfs-" ++ Bld_ID b ++ ".ext4"] in
      let '(d, cmds, res) := ConvertOCIToExt4 t apply readdir ociOut rootfsOut 512 (wk_disk w) in
      let w := ran cmds (on_disk d w) in
      match res with
      | Err e => (logf ("OCI→rootfs failed: " ++ e) w, None)
      | Ok res =>
          let kernel := match hostConfig with Some (_, k) => k | None => "" end in
          if kernel ==? "" then (logf "pack built rootfs but no shared kernel configured (set [firecracker] kernel_image)" w, None)
          else
            let w := logf ("pack pipeline ready: engine=" ++ engine_name (Plan_Engine plan) ++ " entrypoint=" ++ fmt_list (Oc_Entrypoint (Res_Config res))
                           ++ " cmd=" ++ fmt_list (Oc_Cmd (Res_Config res))) w in
            (used (Bld_ProjectID b, "build/" ++ Bld_ID b, "build.pack") w, Some (Res_RootfsPath res, kernel))
      end
  end.

(** The artifacts of the clone, or those the pack pipeline makes. *)
Definition artifacts (b : Build) (dir : string) (w : Work) : Work * option (string * string) :=
  let rootfs := firstExisting [Join [dir; "rootfs.ext4"]; Join [dir; ".porter"; "rootfs.ext4"]] in
  let kernel := firstExisting [Join [dir; "vmlinux"]; Join [dir; ".porter"; "vmlinux"]] in
  if (rootfs ==? "") || (kernel ==? "") then packFallback b dir w else (w, Some (rootfs, kernel)).

Definition git_image (b : Build) (dest : string) : GoldenImage :=
  let name := "git-" ++ shortBuildRef b in
  let rootfs := Join [dest; "rootfs.ext4"] in
  let kernel := Join [dest; "vmlinux"] in
  {| GI_ID := newID; GI_Name := name; GI_Image := "custom://" ++ name; GI_Description := ""; GI_VCPUs := 1; GI_MemMiB := 256;
     GI_Ports := []; GI_Env := ∅; GI_Tags := []; GI_Logo := ""; GI_Version := ""; GI_Kind := "custom";
     GI_Rootfs := rootfs; GI_Kernel := kernel; GI_Architecture := "";
     GI_RootfsSHA256 := default "" (t_sha256 t rootfs); GI_KernelSHA256 := default "" (t_sha256 t kernel);
     GI_Status := "ready"; GI_ValidatedAt := Some now; GI_CreatedAt := now |}.

Definition git_argv (b : Build) (dir : string) : list string :=
  ["git clone"; "clone"; "--depth"; "1"; "--branch"; orDefault (Bld_Branch b) "main"; Bld_GitURL b; dir].

(** The build stored at the end, the image library and the work done; the clone is
    removed on every path. *)
Definition runGitBuildCtx (b : Build) (w : Work) (rows : list ImageRow) : Build * list ImageRow * Work :=
  let dir := Join [t_tmp t; "porter-build-" ++ Bld_ID b] in
  let done w := on_disk (try_op apply (ORemoveAll dir) (wk_disk w)) w in
  let failed line w := (add_log line (set_status "failed" b), rows, done w) in
  let w := ran [git_argv b dir] w in
  match t_run t (git_argv b dir) with
  | Some e => failed ("git clone failed" ++ InitShim.newline) (logf ("git clone failed: " ++ e) w)
  | None =>
      let w := logf "repository cloned; looking for direct Firecracker artifacts" w in
      match artifacts b dir w with
      | (w, None) =>
          failed ("direct artifact missing: repository must provide rootfs.ext4 and vmlinux at root or .porter/ (or a Dockerfile/pack the runners can build)" ++ InitShim.newline)
                 (logf "direct artifact missing — pack fallback also unavailable (see build log)" w)
      | (w, Some (rootfs, kernel)) =>
          if customImagesDir ==? "" then failed ("custom image storage is not configured" ++ InitShim.newline) w
          else
            let dest := Join [customImagesDir; "git-" ++ shortBuildRef b] in
            match t_mkdir t dest with
            | Some e => failed ("create direct image directory failed: " ++ e ++ InitShim.newline) w
            | None =>
                match t_copy t rootfs (Join [dest; "rootfs.ext4"]) with
                | Some e => failed ("copy rootfs failed: " ++ e ++ InitShim.newline) w
                | None =>
                    match t_copy t kernel (Join [dest; "vmlinux"]) with
                    | Some e => failed ("copy kernel failed: " ++ e ++ InitShim.newline) w
                    | None =>
                        let gi := git_image b dest in
                        let w := logf ("direct Firecracker image ready: " ++ GI_Image gi ++ " (rootfs sha256:" ++ shortHash (GI_RootfsSHA256 gi)
                                       ++ " kernel sha256:" ++ shortHash (GI_KernelSHA256 gi) ++ ")") w in
                        (set_status "ready" (set_image (GI_Image gi) b), PutGoldenImage gi rows, done (sent ("build.ready", Bld_ID b) w))
                    end
                end
            end
      end
  end.
End GitBuild.

(** [handleCreateBuild]: the build that is stored and started, if any. *)
Definition handleCreateBuild (projectID id : string) (now : Z) (req : result string (string * string)) : option Build * Resp :=
  match req with
  | Err e => (None, writeError 400 ("bad request: " ++ e))
  | Ok (gitURL, branch) =>
      if gitURL ==? "" then (None, writeError 400 "git_url is required")
      else match safeGitURL gitURL with
           | None => (None, writeError 400 "git_url must be an https:// or git@ repository")
           | Some u =>
               let b := mkBuild id projectID u branch "building" "" "" now in
               (Some b, writeJSON 202 (JObj [("id", JStr id); ("git_url", JStr u); ("build_status", JStr "building")]))
           end
  end.

(** ** Facts *)

(** A plan for the Dockerfile engine names one of the three files, and it exists. *)
Lemma PlanFor_dockerfile t dir out :
  Plan_Engine (PlanFor t dir out) = EngineDockerfile ->
  exists c, c ∈ ["Dockerfile"; "dockerfile"; "Containerfile"] /\ Plan_Dockerfile (PlanFor t dir out) = Join [dir; c]
    /\ is_Some (t_stat t (Join [dir; c])).
Proof.
  unfold PlanFor. cbn [Plan_Engine Plan_Dockerfile]. intros He. rewrite bool_decide_true by done.
  destruct (find_first _ _) as [c|] eqn:Ef.
  - apply find_first_In in Ef as [Hin Hst]. apply bool_decide_eq_true in Hst. by exists c.
  - exfalso. rewrite find_first_None, Forall_forall in Ef.
    assert (Hh : has t dir ["Dockerfile"; "dockerfile"; "Containerfile"] = true).
    { revert He. unfold Detect. destruct (has t dir ["Dockerfile"; "dockerfile"; "Containerfile"]); [done|]. by repeat case_match. }
    unfold has in Hh. apply existsb_exists in Hh as (c & Hc & Hs). apply bool_decide_eq_true in Hs.
    apply list_elem_of_In in Hc. specialize (Ef c Hc). apply bool_decide_eq_false in Ef. apply Ef. by rewrite Hs.
Qed.

(** Every plan is runnable as far as the code goes: the Dockerfile engine and the two
    packs run exactly one command, the other two engines none and fail. *)
Lemma BuildWithPlan_commands t b dir out :
  dir <> "" -> out <> "" -> t_mkdir t (Dir out) = None ->
  let p := PlanFor t dir out in
  let '(cmds, err) := BuildWithPlan t b p in
  match Plan_Engine p with
  | EngineDockerfile | EngineNixpacks | EngineRailpack => exists argv, cmds = [argv] /\ (t_run t argv = None -> err = None)
  | EngineStatic | EngineBuildpacks => cmds = [] /\ is_Some err
  end.
Proof.
  intros Hd Ho Hm. cbv zeta. unfold BuildWithPlan. destruct (Plan_Engine (PlanFor t dir out)) eqn:He; cbn beta iota zeta.
  - destruct (PlanFor_dockerfile t dir out He) as (c & _ & -> & _). pose proof (Join_nonempty dir c Hd) as Hj.
    rewrite (bool_decide_false (Join [dir; c] = "")) by done. unfold Builder_Build. cbn [Plan_ContextDir Plan_OutputOCI PlanFor].
    rewrite !bool_decide_false by done. cbn [orb]. rewrite Hm. eexists. split; [done|]. by intros ->.
  - unfold runPack. eexists. split; [done|]. by intros ->.
  - unfold runPack. eexists. split; [done|]. by intros ->.
  - by split.
  - by split.
Qed.

Lemma packFallback_cmds t {F} (apply : fsop -> F -> F * option string) readdir hc b dir w w' r :
  packFallback t apply readdir hc b dir w = (w', r) -> exists rest, wk_cmds w' = (wk_cmds w ++ rest)%list.
Proof.
  unfold packFallback. destruct (BuildWithPlan _ _ _) as [cmds [e|]]; [intros [= <- _]; by exists cmds|].
  destruct (ConvertOCIToExt4 _ _ _ _ _ _ _) as [[d cmds'] res].
  repeat case_match; intros [= <- _]; exists (cmds ++ cmds')%list; cbn; by rewrite app_assoc.
Qed.

Lemma artifacts_cmds t {F} (apply : fsop -> F -> F * option string) readdir hc b dir w w' r :
  artifacts t apply readdir hc b dir w = (w', r) -> exists rest, wk_cmds w' = (wk_cmds w ++ rest)%list.
Proof.
  unfold artifacts. case_match; [apply packFallback_cmds|]. intros [= <- _]. exists []. by rewrite app_nil_r.
Qed.

(** Every path of a git build: the first command is the clone, the clone's directory is
    removed last, and the build either failed and left the image library alone, or is
    ready and its image is in the library under the custom images directory. *)
Theorem runGitBuildCtx_outcome t {F} (apply : fsop -> F -> F * option string) readdir hc dir newID now b w rows :
  let '(b', rows', w') := runGitBuildCtx t apply readdir hc dir newID now b w rows in
  (exists rest, wk_cmds w' = (wk_cmds w ++ git_argv b (Join [t_tmp t; ("porter-build-" ++ Bld_ID b)%string]) :: rest)%list)
  /\ last (d_trace (wk_disk w')) = Some (ORemoveAll (Join [t_tmp t; "porter-build-" ++ Bld_ID b]))
  /\ (Bld_BuildStatus b' = "failed" /\ rows' = rows /\ Bld_Image b' = Bld_Image b
      \/ Bld_BuildStatus b' = "ready" /\ dir <> ""
         /\ (let gi := git_image t newID now b (Join [dir; "git-" ++ shortBuildRef b]) in
             rows' = PutGoldenImage gi rows /\ Bld_Image b' = GI_Image gi)).
Proof.
  unfold runGitBuildCtx. set (tmp := Join [t_tmp t; "porter-build-" ++ Bld_ID b]).
  assert (Hlast : forall d, last (d_trace (try_op apply (ORemoveAll tmp) d)) = Some (ORemoveAll tmp)).
  { intros d. unfold try_op, do_op. destruct (apply _ _). cbn [fst d_trace]. apply last_snoc. }
  destruct (t_run t (git_argv b tmp)) as [e|].
  { cbn. split; [by exists []|]. split; [apply Hlast|]. by left. }
  destruct (artifacts _ _ _ _ _ _ _) as [w1 art] eqn:Ea. apply artifacts_cmds in Ea as [rest Hr].
  assert (Hc : exists rest, wk_cmds w1 = (wk_cmds w ++ git_argv b tmp :: rest)%list).
  { exists rest. by rewrite Hr; cbn [wk_cmds logf ran]; rewrite <- app_assoc. }
  destruct art as [[rootfs kernel]|]; [|cbn; split_and!; [exact Hc|apply Hlast|by left]].
  case_bool_decide as Hdir; [cbn; split_and!; [exact Hc|apply Hlast|by left]|].
  destruct (t_mkdir _ _); [cbn; split_and!; [exact Hc|apply Hlast|by left]|].
  destruct (t_copy _ rootfs _); [cbn; split_and!; [exact Hc|apply Hlast|by left]|].
  destruct (t_copy _ kernel _); cbn; (split_and!; [exact Hc|apply Hlast|]); [by left|].
  right. split_and!; done.
Qed.

(** A host where only programs without spaces in their names exist refuses the clone,
    whatever the request. *)
Lemma git_build_never_starts t {F} (apply : fsop -> F -> F * option string) readdir hc dir newID now b w rows :
  (forall argv, head argv = Some "git clone" -> is_Some (t_run t argv)) ->
  Bld_BuildStatus (runGitBuildCtx t apply readdir hc dir newID now b w rows).1.1 = "failed".
Proof. intros Ht. unfold runGitBuildCtx. destruct (Ht (git_argv b (Join [t_tmp t; "porter-build-" ++ Bld_ID b])) eq_refl) as [e ->]. done. Qed.

(** An upload named [..] is unpacked beside the directory of custom images. *)
Lemma upload_escapes :
  let form := mkForm "a/.." "" "" (Some (Ok [mkZip "vmlinux" false true])) in
  d_trace (handleUploadCustomImage idle_fs (fun _ _ => Err "") "/var/porter/custom" (Ok form) "i" 0 disk0 []).1.1
  = [OMkdirAll "/var/porter"; OMkdirAll "/var/porter"; OCreate "/var/porter/vmlinux"].
Proof. vm_compute. reflexivity. Qed.

(** Uploading an image again under its name: the library lists the new identifier, by
    which the row cannot be deleted. *)
Lemma reupload_undeletable :
  let gi id := git_image (mkTools (fun _ => None) (fun _ => None) (fun _ => None) (fun _ _ => None) (fun _ => None) (fun _ => None) (fun _ => None)
                            (fun _ => Err "") (fun _ => Err "") (fun _ => ([], None)) (Err "") (fun _ _ => None) false "/tmp") id 0 Bld_zero "/img" in
  let rows := PutGoldenImage (gi "b") (PutGoldenImage (gi "a") []) in
  ((GI_ID ∘ ir_data) <$> rows) = ["b"] /\ DeleteGoldenImage "b" rows = rows.
Proof. vm_compute. done. Qed.

Lemma only_impl {F} (P Q : fsop -> Prop) (d d' : Disk F) : (forall o, P o -> Q o) -> only P d d' -> only Q d d'.
Proof. intros Hpq (ops & Ht & Hf). exists ops. split; [done|]. by eapply Forall_impl. Qed.

(** Uploads are confined: unless the name is [..], whatever the archive holds every file
    operation works below the directory of custom images, and the library changes only
    by an entry of that name whose disk and kernel lie there. *)
Theorem upload_confined {F} (apply : fsop -> F -> F * option string) lstat dir form id now (d : Disk F) rows :
  dir <> "" -> (forall f, form = Ok f -> Base (trim_space (uf_name f)) <> "..") ->
  let '(d', rows', resp) := handleUploadCustomImage apply lstat dir form id now d rows in
  only (op_below dir) d d'
  /\ (rows' = rows \/ exists gi, rows' = PutGoldenImage gi rows /\ GI_Image gi = "custom://" ++ GI_Name gi
        /\ below dir (GI_Rootfs gi) /\ below dir (GI_Kernel gi)).
Proof.
  intros Hd Hf. unfold handleUploadCustomImage. rewrite bool_decide_false by done.
  destruct form as [f|e]; [|by split; [apply only_refl|left]].
  specialize (Hf f eq_refl). set (name := Base (trim_space (uf_name f))) in *.
  destruct (_ || _) eqn:En; [by split; [apply only_refl|left]|].
  destruct (uf_file f) as [file|]; [|by split; [apply only_refl|left]].
  assert (Hp : plain_part name = true).
  { rewrite !orb_false_iff in En. destruct En as [[E1 E2] E3]. apply plain_part_spec.
    apply bool_decide_eq_false in E1, E2, E3. destruct (Base_no_slash (trim_space (uf_name f))); done. }
  destruct (Join_single dir name Hd Hp) as [Hb Hparts]. pose proof (Join_nonempty dir name Hd) as Hn.
  assert (Hin : forall c, plain_part c = true -> below dir (Join [Join [dir; name]; c])).
  { intros c Hc. eapply below_trans; [exact Hb|]. by apply Join_single. }
  pose proof (only_do apply (op_below dir) (OMkdirAll (Join [dir; name])) d Hb) as Hm.
  destruct (do_op apply _ d) as [d1 [e|]]; cbn [fst] in Hm; [by split; [|left]|].
  destruct file as [entries|e]; [|by split; [|left]].
  assert (Hu : only (op_below dir) d (unzipTo apply entries (Join [dir; name]) d1)).
  { eapply only_trans; [exact Hm|]. apply (only_impl (unzip_op (Join [dir; name]))).
    - intros o [Ho| ->]; [by eapply below_trans|]. unfold op_below. cbn [op_path]. rewrite Clean_Join by done.
      apply Dir_Join_below; [done|by apply climbs_single|by rewrite rel_parts_single].
    - apply only_fold. intros d' z _. apply unzip_entry_only. }
  destruct (ValidateArtifacts _ _ _) as [report [e|]]; [by split; [|left]|].
  split; [done|]. right. eexists. split; [done|]. cbn [GI_Image GI_Name GI_Rootfs GI_Kernel].
  split_and!; [done|by apply Hin|by apply Hin].
Qed.

Lemma upload_confined_witness :
  let form := mkForm " ../x/web " "2" "" (Some (Ok [mkZip "../../etc/passwd" false true; mkZip "rootfs.ext4" false true])) in
  only (op_below "/img") disk0 (handleUploadCustomImage idle_fs (fun _ _ => Err "") "/img" (Ok form) "i" 0 disk0 []).1.1.
Proof.
  intros form. pose proof (upload_confined idle_fs (fun _ _ => Err "") "/img" (Ok form) "i" 0 disk0 []) as H.
  destruct (handleUploadCustomImage _ _ _ _ _ _ _ _) as [[d' rows'] resp]. apply H; [discriminate|].
  intros f [= <-]. vm_compute. discriminate.
Defined.

(** Pruning keeps every library entry whose image some project's VM runs, provided its
    row is stored under the identifier it lists. *)
Lemma prune_keeps_used s images rows r :
  r ∈ rows -> ir_id r = GI_ID (ir_data r) -> ir_data r ∈ images -> GI_Image (ir_data r) ∈ used_images s ->
  r ∈ (prune_images s images rows).1.
Proof.
  intros Hr Hid Hi Hu. unfold prune_images. cbn [fst].
  assert (Hk : Forall (fun gi => GI_ID gi <> ir_id r) (base.filter (fun gi => inUse s images (GI_ID gi) = false) images)).
  { apply Forall_forall. intros gi [Hgi _]%list_elem_of_filter Heq. revert Hgi. rewrite Heq, Hid. unfold inUse.
    apply not_false_iff_true, orb_true_iff. right. apply existsb_exists. exists (ir_data r).
    split; [by apply list_elem_of_In|]. rewrite !bool_decide_true by done. done. }
  revert rows Hr. induction Hk as [|gi l Hne _ IH]; intros rows Hr; [done|].
  apply IH. unfold DeleteGoldenImage. apply list_elem_of_filter. by split; [congruence|].
Qed.
