(* ===== verification/Analytics.v ===== *)
(** * Traffic analytics and usage metering ([api/handlers.go])

    The handlers that count what the traffic rings hold: per project (usage, time
    series, paths, status codes, bandwidth, web vitals) and over the platform. A time is
    in nanoseconds since 1970 (UTC); [off] is the offset of the server's time zone, in
    which times are printed. Answers are records with the fields of the JSON object. *)
From S2P Require Import Prelude GoStrings GoNum Types Gateway Store Telemetry.
From Stdlib Require Import String Ascii.

Open Scope string_scope.
Open Scope Z_scope.

(** ** Counting *)

(** [m[key(e)]++] over a list. *)
Definition bump {K} `{Countable K} (m : gmap K Z) (k : K) : gmap K Z := <[k := default 0 (m !! k) + 1]> m.
Definition tally {A K} `{Countable K} (key : A -> K) (l : list A) : gmap K Z := fold_left (fun m e => bump m (key e)) l ∅.

(** ** Clock *)

Definition day_ns : Z := 86400 * 10 ^ 9.

Definition two (n : Z) : string := (if n <? 10 then "0" else "") ++ Itoa n.

(** [Format("15:04")]. *)
Definition clock (off t : Z) : string :=
  let m := ((t + off) mod day_ns) / (60 * 10 ^ 9) in two (m / 60) ++ ":" ++ two (m mod 60).

(** The local day of a time, and [Format("2006-01-02")] of it (years of four digits):
    the date of a day number, counting years from March. *)
Definition local_day (off t : Z) : Z := (t + off) / day_ns.
Definition date_text (day : Z) : string :=
  let z := day + 719468 in
  let era := z / 146097 in
  let doe := z mod 146097 in
  let yoe := (doe - doe / 1460 + doe / 36524 - doe / 146096) / 365 in
  let doy := doe - (365 * yoe + yoe / 4 - yoe / 100) in
  let mp := (5 * doy + 2) / 153 in
  let d := doy - (153 * mp + 2) / 5 + 1 in
  let m := if mp <? 10 then mp + 3 else mp - 9 in
  let y := yoe + era * 400 + (if m <=? 2 then 1 else 0) in
  Itoa y ++ "-" ++ two m ++ "-" ++ two d.

Example date_text_examples :
  date_text 0 = "1970-01-01" /\ date_text 19782 = "2024-02-29" /\ date_text 19783 = "2024-03-01" /\ date_text 20453 = "2025-12-31".
Proof. vm_compute. done. Qed.

Example clock_examples : clock 0 0 = "00:00" /\ clock (-5 * 3600 * 10 ^ 9) (3661 * 10 ^ 9) = "20:01".
Proof. vm_compute. done. Qed.

(** ** A project's traffic *)

Definition projectTraffic (projectID : string) (limit : Z) (s : StoreState) : list TrafficEntry :=
  match (GetProject projectID s).2 with
  | None => []
  | Some proj => Proj_VMIDs proj ≫= fun vid => ListTraffic s vid limit
  end.

Definition sum_bytes (l : list TrafficEntry) : Z * Z :=
  fold_left (fun '(i, o) e => (i64 (i + TE_BytesIn e), i64 (o + TE_BytesOut e))) l (0, 0).

Record UsageAnswer := mkUsageAnswer { ua_requests : Z; ua_bandwidth : Z; ua_in : Z; ua_out : Z; ua_invocations : Z }.

Definition handleAnalyticsUsage (projectID : string) (s : StoreState) : UsageAnswer :=
  let tr := projectTraffic projectID 200 s in
  let '(i, o) := sum_bytes tr in
  mkUsageAnswer (Z.of_nat (List.length tr)) (i64 (i + o)) i o (Z.of_nat (List.length tr)).

(** The keys sorted, each with its count. *)
Definition sorted_series (m : gmap string Z) : list (string * Z) :=
  (fun k => (k, default 0 (m !! k))) <$> sort_strings (elements (dom m)).

Definition handleAnalyticsTimeseries (off : Z) (projectID : string) (s : StoreState) : list (string * Z) :=
  sorted_series (tally (fun e => clock off (TE_Timestamp e)) (projectTraffic projectID 500 s)).

(** [sort.Slice] by hits, descending; it may leave equal ones in any order: [sort] is it. *)
Definition handleAnalyticsPaths (sort : list (string * Z) -> list (string * Z)) (projectID : string) (s : StoreState) : list (string * Z) :=
  sort (map_to_list (tally TE_Path (projectTraffic projectID 200 s))).

Definition handleAnalyticsStatusCodes (projectID : string) (s : StoreState) : gmap string Z :=
  tally (fun e => Itoa (TE_Status e)) (projectTraffic projectID 500 s).

Definition handleAnalyticsBandwidth (projectID : string) (s : StoreState) : Z * Z * Z :=
  let '(i, o) := sum_bytes (projectTraffic projectID 500 s) in (i64 (i + o), i, o).

Definition handleAnalyticsRequests (projectID : string) (s : StoreState) : Z :=
  Z.of_nat (List.length (projectTraffic projectID 500 s)).

(** ** Web vitals *)

Definition vitalRating (metric : string) (v : float64) : string :=
  let rate good ok := if fle v good then "good" else if fle v ok then "needs-improvement" else "poor" in
  if metric ==? "lcp_ms" then rate (f_of_Z 2500) (f_of_Z 4000)
  else if metric ==? "cls" then rate (f_lit 1 1) (f_lit 25 2)
  else if metric ==? "inp_ms" then rate (f_of_Z 200) (f_of_Z 500)
  else rate (f_of_Z 800) (f_of_Z 1800).

(** The values come in the map's order, which is open: it is the order of the list. *)
Definition handleWebVitalsBeacon (projectID path : string) (values : list (string * float64)) (now : Z) (r : Rings) : Rings * Z :=
  (fold_left (fun r mv =>
     let '(metric, value) := mv in
     if flt value (f_of_Z 0) then r
     else AddVital (Some (mkWebVital projectID path metric value (vitalRating metric value) now)) r) values r,
   Z.of_nat (List.length values)).

Record VitalSummary := mkVitalSummary { vs_metric : string; vs_p75 : float64; vs_count : Z; vs_good : Z; vs_percent : float64 }.

(** [sort.Float64s] is [fsort]; metrics come in the order [order] gives them. *)
Definition handleWebVitals (fsort : list float64 -> list float64) (order : list VitalSummary -> list VitalSummary)
    (projectID : string) (r : Rings) : list VitalSummary :=
  let vs := ListVitals r projectID 200 in
  let metrics := elements (dom (tally WV_Metric vs)) in
  order (omap (fun m =>
    let vals := fsort (WV_Value <$> base.filter (fun v => WV_Metric v = m) vs) in
    let n := Z.of_nat (List.length vals) in
    p75 ← vals !! Z.to_nat ((n - 1) * 3 / 4);
    let good := Z.of_nat (List.length (base.filter (fun v => vitalRating m v = "good") vals)) in
    Some (mkVitalSummary m p75 n good (fdiv (f_of_Z (i64 (good * 100))) (f_of_Z n)))) metrics).

Definition handleWebVitalsTimeseries (off : Z) (projectID : string) (r : Rings) : list (string * string * float64) :=
  (fun v => (clock off (WV_Timestamp v), WV_Metric v, WV_Value v)) <$> ListVitals r projectID 100.

(** ** The platform *)

Definition handleGlobalAnalytics (s : StoreState) : Z * Z :=
  (fold_left (fun n vm => n + Z.of_nat (List.length (ListTraffic s (VM_ID vm) 100))) (Store_ListVMs s) 0,
   Z.of_nat (List.length (projects s))).

Definition handleGlobalAnalyticsTimeseries (off : Z) (s : StoreState) : list (string * Z) :=
  sorted_series (tally (fun e => clock off (TE_Timestamp e)) (Store_ListVMs s ≫= fun vm => ListTraffic s (VM_ID vm) 30)).

Definition defaultPeriod (period : string) : Z :=
  if period ==? "24h" then day_ns else if period ==? "7d" then 7 * day_ns else 30 * day_ns.

Definition isFunctionPath (p : string) : bool :=
  has_prefix p "/api/" || has_prefix p "/functions/" || contains p "/fn/".

(** A missing inner map counts as one whose entries are 0. *)
Definition meter {K} `{Countable K} (m : gmap K (Z * Z)) (k : K) (bytes : Z) : gmap K (Z * Z) :=
  let '(n, b) := default (0, 0) (m !! k) in <[k := (n + 1, i64 (b + bytes))]> m.

Record Usage := mkUsage {
  us_requests : Z; us_functions : Z; us_in : Z; us_out : Z;
  us_byDay : gmap Z (Z * Z); us_projects : gmap string (Z * Z)
}.
Definition usage0 : Usage := mkUsage 0 0 0 0 ∅ ∅.

Definition usage_step (since off : Z) (pid : string) (u : Usage) (e : TrafficEntry) : Usage :=
  if TE_Timestamp e <? since then u
  else
    let bytes := i64 (TE_BytesIn e + TE_BytesOut e) in
    mkUsage (us_requests u + 1) (if isFunctionPath (TE_Path e) then us_functions u + 1 else us_functions u)
      (i64 (us_in u + TE_BytesIn e)) (i64 (us_out u + TE_BytesOut e))
      (meter (us_byDay u) (local_day off (TE_Timestamp e)) bytes) (meter (us_projects u) pid bytes).

Definition collect (since off : Z) (s : StoreState) : Usage :=
  fold_left (fun u vm => fold_left (usage_step since off (VM_ProjectID vm)) (ListTraffic s (VM_ID vm) 2000) u) (Store_ListVMs s) usage0.

(** [for d := ...; !d.After(now); d = d.Add(24h)]: the fuel is the number of turns. *)
Fixpoint day_loop (fuel : nat) (d now : Z) : list Z :=
  match fuel with
  | O => []
  | S fuel => if now <? d then [] else d :: day_loop fuel (d + day_ns) now
  end.
Definition day_starts (since now : Z) : list Z :=
  let d := since - since mod day_ns in day_loop (S (Z.to_nat ((now - d) / day_ns))) d now.

Record UsageReport := mkUsageReport {
  ur_requests : Z; ur_functions : Z; ur_transfer : Z; ur_in : Z; ur_out : Z; ur_projects : Z;
  ur_series : list (Z * (Z * Z)); ur_by_project : gmap string (Z * Z)
}.

Definition handleUsage (period : string) (off now : Z) (s : StoreState) : UsageReport :=
  let since := now - defaultPeriod period in
  let u := collect since off s in
  let days := (fun d => let day := local_day off d in (day, default (0, 0) (us_byDay u !! day))) <$> day_starts since now in
  mkUsageReport (us_requests u) (us_functions u) (i64 (us_in u + us_out u)) (us_in u) (us_out u)
    (Z.of_nat (List.length (projects s))) days (us_projects u).

(** The rows as printed. *)
Definition series_text (r : UsageReport) : list (string * Z * Z) := (fun '(d, (n, b)) => (date_text d, n, b)) <$> ur_series r.

Definition handleUsageBandwidth (period : string) (now : Z) (s : StoreState) : Z * Z * Z :=
  let since := now - defaultPeriod period in
  let '(i, o) := fold_left (fun acc vm => fold_left (fun '(i, o) e =>
                     if TE_Timestamp e <? since then (i, o) else (i64 (i + TE_BytesIn e), i64 (o + TE_BytesOut e)))
                   (ListTraffic s (VM_ID vm) 2000) acc) (Store_ListVMs s) (0, 0) in
  (i64 (i + o), i, o).

Definition handleUsageRequests (period : string) (now : Z) (s : StoreState) : Z * Z :=
  let since := now - defaultPeriod period in
  fold_left (fun acc vm => fold_left (fun '(n, f) e =>
      if TE_Timestamp e <? since then (n, f) else (n + 1, if isFunctionPath (TE_Path e) then f + 1 else f))
    (ListTraffic s (VM_ID vm) 2000) acc) (Store_ListVMs s) (0, 0).

(** ** Sums by key *)

Lemma zsum_indicator {K} `{EqDecision K} (f : K -> Z) (k : K) (v : Z) ks :
  NoDup ks -> zsum ((fun x => f x + if decide (k = x) then v else 0) <$> ks) = zsum (f <$> ks) + if decide (k ∈ ks) then v else 0.
Proof.
  induction 1 as [|x ks Hx Hnd IH]; cbn; [done|]. rewrite IH.
  destruct (decide (k = x)) as [->|Hne].
  - rewrite (decide_False (P := x ∈ ks)), (decide_True (P := x ∈ x :: ks)) by set_solver. lia.
  - destruct (decide (k ∈ ks)), (decide (k ∈ x :: ks)); set_solver by lia.
Qed.

(** Summing by key and then over the keys is summing. *)
Lemma zsum_by_key {A K} `{EqDecision K} (key : A -> K) (w : A -> Z) ks l :
  NoDup ks -> (forall e, e ∈ l -> key e ∈ ks) ->
  zsum ((fun k => zsum (w <$> base.filter (fun e => key e = k) l)) <$> ks) = zsum (w <$> l).
Proof.
  intros Hnd. induction l as [|e l IH]; intros Hin.
  - cbn. induction ks as [|k ks IHk]; [done|]. cbn. apply IHk; [by inversion Hnd|]. set_solver.
  - assert (Heq : forall k, zsum (w <$> base.filter (fun e => key e = k) (e :: l))
      = zsum (w <$> base.filter (fun e => key e = k) l) + if decide (key e = k) then w e else 0).
    { intros k. rewrite filter_cons. destruct (decide (key e = k)); cbn; lia. }
    rewrite (list_fmap_ext _ _ ks (fun i k _ => Heq k)), zsum_indicator, IH by set_solver.
    rewrite decide_True by set_solver. cbn. lia.
Qed.

(** ** What a metering pass holds *)

(** Wrapping the parts of a sum does not change where the sum wraps to. *)
Lemma i64_zsum_wrapped {A} (w : A -> Z) l : i64 (zsum ((fun x => i64 (w x)) <$> l)) = i64 (zsum (w <$> l)).
Proof. induction l as [|x l IH]; cbn; [done|]. by rewrite i64_add_l, <- i64_add_r, IH, i64_add_r. Qed.

Lemma meter_lookup {A K} `{Countable K} (key : A -> K) (w : A -> Z) l k :
  fold_left (fun m x => meter m (key x) (w x)) l ∅ !! k =
  let f := base.filter (fun x => key x = k) l in
  if decide (f = []) then None else Some (Z.of_nat (List.length f), i64 (zsum (w <$> f))).
Proof.
  cbv zeta. induction l as [|x l IH] using rev_ind; [done|]. rewrite fold_left_app, filter_app. cbn [fold_left].
  set (m := fold_left _ l ∅) in *. unfold meter.
  destruct (decide (key x = k)) as [<-|Hne].
  - rewrite filter_cons_True, filter_nil by done. rewrite (decide_False (P := (_ ++ _)%list = [])) by (by intros [_ ?]%app_nil). rewrite IH.
    destruct (decide (_ = [])) as [E|E]; cbn.
    + rewrite lookup_insert_eq, E. cbn. by rewrite !Z.add_0_r.
    + rewrite lookup_insert_eq, length_app, fmap_app, zsum_app. cbn. rewrite i64_add_l. do 2 f_equal; [lia|]. f_equal. lia.
  - rewrite filter_cons_False, filter_nil, app_nil_r by done.
    destruct (default _ _) as [n b]. by rewrite lookup_insert_ne.
Qed.

(** The entries of the period, with their projects. *)
Definition in_period (since : Z) (s : StoreState) : list (string * TrafficEntry) :=
  base.filter (fun pe => since <= TE_Timestamp pe.2)
    (Store_ListVMs s ≫= fun vm => (fun e => (VM_ProjectID vm, e)) <$> ListTraffic s (VM_ID vm) 2000).

Definition bytes_of (e : TrafficEntry) : Z := TE_BytesIn e + TE_BytesOut e.

Lemma collect_spec since off s :
  let l := in_period since s in
  collect since off s = mkUsage (Z.of_nat (List.length l))
    (Z.of_nat (List.length (base.filter (fun pe => isFunctionPath (TE_Path pe.2) = true) l)))
    (i64 (zsum ((TE_BytesIn ∘ snd) <$> l))) (i64 (zsum ((TE_BytesOut ∘ snd) <$> l)))
    (fold_left (fun m pe => meter m (local_day off (TE_Timestamp pe.2)) (i64 (bytes_of pe.2))) l ∅)
    (fold_left (fun m pe => meter m pe.1 (i64 (bytes_of pe.2))) l ∅).
Proof.
  cbv zeta. unfold collect, in_period. set (all := Store_ListVMs s ≫= _).
  assert (Hc : collect since off s = fold_left (fun u pe => usage_step since off pe.1 u pe.2) all usage0).
  { unfold collect, all. generalize usage0. induction (Store_ListVMs s) as [|vm vms IH]; intros u; [done|].
    cbn [fold_left mbind list_bind]. rewrite fold_left_app, <- IH. f_equal.
    revert u. induction (ListTraffic s (VM_ID vm) 2000) as [|e es IHe]; intros u; [done|]. cbn [fold_left fmap list_fmap]. apply IHe. }
  unfold collect in Hc. rewrite Hc. clear Hc. induction all as [|[pid e] l IH] using rev_ind; [done|].
  rewrite fold_left_app, IH, filter_app. cbn [fold_left fst snd]. unfold usage_step. cbn [us_requests us_functions us_in us_out us_byDay us_projects].
  destruct (Z.ltb_spec (TE_Timestamp e) since).
  - rewrite filter_cons_False, filter_nil, app_nil_r by (cbn; lia). done.
  - rewrite filter_cons_True, filter_nil by (cbn; lia).
    rewrite !length_app, !fmap_app, !zsum_app, !fold_left_app, filter_app, length_app, !i64_add_l. cbn [fold_left fmap list_fmap zsum foldr fst snd compose].
    rewrite !Z.add_0_r. f_equal; [cbn; lia|].
    destruct (isFunctionPath (TE_Path e)) eqn:E; [rewrite filter_cons_True by done|rewrite filter_cons_False by (cbn; congruence)]; rewrite filter_nil; cbn; lia.
Qed.

Definition cell {K} `{Countable K} (m : gmap K (Z * Z)) (k : K) : Z * Z := default (0, 0) (m !! k).

(** Over any keys that cover the entries, the counts add up to the number of entries
    and the bytes to all bytes. *)
Lemma meter_totals {A K} `{Countable K} (key : A -> K) (w : A -> Z) l ks :
  NoDup ks -> (forall e, e ∈ l -> key e ∈ ks) ->
  let m := fold_left (fun m x => meter m (key x) (i64 (w x))) l ∅ in
  zsum ((fun k => (cell m k).1) <$> ks) = Z.of_nat (List.length l)
  /\ i64 (zsum ((fun k => (cell m k).2) <$> ks)) = i64 (zsum (w <$> l)).
Proof.
  intros Hnd Hin m.
  assert (Hcell : forall k, cell m k = let f := base.filter (fun x => key x = k) l in
    (Z.of_nat (List.length f), i64 (zsum ((fun x => i64 (w x)) <$> f)))).
  { intros k. unfold cell, m. rewrite (meter_lookup key (fun x => i64 (w x)) l k). cbv zeta.
    by destruct (decide _) as [->|]. }
  split.
  - rewrite (list_fmap_ext _ (fun k => zsum ((fun _ => 1) <$> base.filter (fun x => key x = k) l)) ks) by (intros i k _; rewrite Hcell; symmetry; apply zsum_ones).
    rewrite zsum_by_key by done. apply zsum_ones.
  - rewrite (list_fmap_ext _ (fun k => i64 (zsum ((fun x => i64 (w x)) <$> base.filter (fun x => key x = k) l))) ks) by (intros i k _; by rewrite Hcell).
    rewrite i64_zsum_wrapped, zsum_by_key by done. apply i64_zsum_wrapped.
Qed.

(** The same over the map's own keys. *)
Lemma meter_map_totals {A K} `{Countable K} (key : A -> K) (w : A -> Z) l :
  let m := fold_left (fun m x => meter m (key x) (i64 (w x))) l ∅ in
  zsum ((fst ∘ snd) <$> map_to_list m) = Z.of_nat (List.length l)
  /\ i64 (zsum ((snd ∘ snd) <$> map_to_list m)) = i64 (zsum (w <$> l)).
Proof.
  intros m. destruct (meter_totals key w l (fst <$> map_to_list m)) as [H1 H2].
  - apply NoDup_fst_map_to_list.
  - intros e He. assert (Hs : is_Some (m !! key e)).
    { unfold m. rewrite (meter_lookup key (fun x => i64 (w x)) l). cbv zeta. destruct (decide _) as [E|]; [|by eexists].
      exfalso. assert (Hx : e ∈ base.filter (fun x => key x = key e) l) by (by apply list_elem_of_filter). rewrite E in Hx. by apply elem_of_nil in Hx. }
    destruct Hs as [v Hv]. apply list_elem_of_fmap. exists (key e, v). split; [done|]. by apply elem_of_map_to_list.
  - fold m in H1, H2. rewrite <- list_fmap_compose in H1, H2. rewrite <- H1, <- H2.
    assert (Hc : forall i kv, map_to_list m !! i = Some kv -> cell m kv.1 = kv.2).
    { intros i [k v] Hi%list_elem_of_lookup_2. apply elem_of_map_to_list in Hi. unfold cell. cbn. by rewrite Hi. }
    split; [|f_equal]; f_equal; apply list_fmap_ext; intros i kv Hi; cbn; by rewrite (Hc i kv Hi).
Qed.

Lemma day_loop_spec n d now : d <= now -> (now - d) / day_ns = Z.of_nat n ->
  day_loop (S n) d now = (fun i => d + i * day_ns) <$> seqZ 0 (Z.of_nat n + 1).
Proof.
  assert (Hpos : 0 < day_ns) by (vm_compute; done). intros Hd Hn.
  replace (Z.of_nat n + 1) with (Z.of_nat (S n)) by lia. revert d Hd Hn. induction n as [|n IH]; intros d Hd Hn.
  - change (seqZ 0 (Z.of_nat 1)) with [0]. cbn [day_loop fmap list_fmap]. destruct (Z.ltb_spec now d); [lia|]. f_equal. lia.
  - change (day_loop (S (S n)) d now) with (if now <? d then [] else d :: day_loop (S n) (d + day_ns) now).
    destruct (Z.ltb_spec now d); [lia|]. rewrite IH.
    + rewrite (seqZ_cons 0 (Z.of_nat (S (S n)))) by lia. rewrite fmap_cons, Z.mul_0_l, Z.add_0_r. f_equal.
      replace (Z.pred (Z.of_nat (S (S n)))) with (Z.of_nat (S n)) by lia.
      replace (Z.succ 0) with (1 + 0) by lia. rewrite <- (fmap_add_seqZ 1 0), <- list_fmap_compose. apply list_fmap_ext. intros i x _. cbn. lia.
    + enough (day_ns <= now - d) by lia. apply Z.nlt_ge. intros Hlt. rewrite Z.div_small in Hn by lia. lia.
    + replace (now - (d + day_ns)) with (now - d + (-1) * day_ns) by lia. rewrite Z.div_add by lia. lia.
Qed.

(** In UTC the rows of the report are the days from the start of the period to now,
    each once. *)
Lemma day_starts_utc since now : since <= now ->
  local_day 0 <$> day_starts since now = seqZ (since / day_ns) (now / day_ns - since / day_ns + 1).
Proof.
  assert (Hpos : 0 < day_ns) by (vm_compute; done). intros Hle. unfold day_starts.
  pose proof (Z.div_mod since day_ns ltac:(lia)) as Hs. pose proof (Z.mod_pos_bound since day_ns Hpos).
  set (a := since / day_ns) in *. replace (since - since mod day_ns) with (a * day_ns) by lia.
  assert (Hn : (now - a * day_ns) / day_ns = now / day_ns - a).
  { replace (now - a * day_ns) with (now + (- a) * day_ns) by lia. rewrite Z.div_add by lia. lia. }
  assert (Hge : a <= now / day_ns) by (apply Z.div_le_mono; lia).
  rewrite (day_loop_spec (Z.to_nat ((now - a * day_ns) / day_ns))) by lia.
  rewrite Hn, Z2Nat.id by lia. rewrite <- list_fmap_compose.
  replace (seqZ a (now / day_ns - a + 1)) with (Z.add a <$> seqZ 0 (now / day_ns - a + 1)) by (rewrite fmap_add_seqZ; f_equal; lia).
  apply list_fmap_ext. intros i x _. cbn. unfold local_day.
  replace (a * day_ns + x * day_ns + 0) with ((a + x) * day_ns) by lia. by rewrite Z.div_mul by lia.
Qed.

Lemma defaultPeriod_pos p : 0 < defaultPeriod p.
Proof. unfold defaultPeriod. repeat case_match; vm_compute; done. Qed.

(** The usage report adds up. For a server in UTC whose rings hold no entry of the
    future: the requests are the entries of the period; the daily rows are the days of
    the period, each once, and their requests and bytes add up to the totals (modulo the
    64 bits the bytes are counted in); so do those of the projects. *)
Theorem handleUsage_adds_up period now s :
  let since := now - defaultPeriod period in
  let l := in_period since s in
  let r := handleUsage period 0 now s in
  (forall pe, pe ∈ l -> TE_Timestamp pe.2 <= now) ->
  ur_requests r = Z.of_nat (List.length l)
  /\ ur_transfer r = i64 (zsum ((bytes_of ∘ snd) <$> l))
  /\ fst <$> ur_series r = seqZ (since / day_ns) (now / day_ns - since / day_ns + 1)
  /\ zsum ((fst ∘ snd) <$> ur_series r) = ur_requests r
  /\ i64 (zsum ((snd ∘ snd) <$> ur_series r)) = ur_transfer r
  /\ zsum ((fst ∘ snd) <$> map_to_list (ur_by_project r)) = ur_requests r
  /\ i64 (zsum ((snd ∘ snd) <$> map_to_list (ur_by_project r))) = ur_transfer r.
Proof.
  intros since l r Hnow. pose proof (defaultPeriod_pos period) as Hp.
  assert (Hpos : 0 < day_ns) by (vm_compute; done).
  assert (Hc := collect_spec since 0 s). cbv zeta in Hc. fold l in Hc.
  assert (Htr : ur_transfer r = i64 (zsum ((bytes_of ∘ snd) <$> l))).
  { unfold r, handleUsage. fold since. rewrite Hc. cbn [ur_transfer us_in us_out]. rewrite i64_add_l, i64_add_r. f_equal. symmetry. apply zsum_fmap_add. }
  assert (Hreq : ur_requests r = Z.of_nat (List.length l)) by (unfold r, handleUsage; fold since; by rewrite Hc).
  set (days := seqZ (since / day_ns) (now / day_ns - since / day_ns + 1)).
  set (m := fold_left (fun m pe => meter m (local_day 0 (TE_Timestamp pe.2)) (i64 (bytes_of pe.2))) l ∅) in Hc.
  assert (Hser : ur_series r = (fun k => (k, cell m k)) <$> days).
  { unfold r, handleUsage. fold since. rewrite Hc. cbn [ur_series us_byDay]. unfold days. rewrite <- day_starts_utc by lia.
    by rewrite <- list_fmap_compose. }
  destruct (meter_totals (fun pe => local_day 0 (TE_Timestamp pe.2)) (bytes_of ∘ snd) l days) as [H1 H2].
  { apply NoDup_seqZ. }
  { intros pe Hpe. apply elem_of_seqZ. unfold local_day. rewrite Z.add_0_r.
    assert (since <= TE_Timestamp pe.2) by (by apply list_elem_of_filter in Hpe as [? _]). pose proof (Hnow pe Hpe).
    pose proof (Z.div_le_mono since (TE_Timestamp pe.2) day_ns Hpos ltac:(lia)).
    pose proof (Z.div_le_mono (TE_Timestamp pe.2) now day_ns Hpos ltac:(lia)). lia. }
  destruct (meter_map_totals fst (bytes_of ∘ snd) l) as [H3 H4].
  assert (Hproj : ur_by_project r = fold_left (fun m pe => meter m pe.1 (i64 ((bytes_of ∘ snd) pe))) l ∅)
    by (unfold r, handleUsage; fold since; by rewrite Hc).
  rewrite Hreq, Htr, Hser, Hproj, <- !list_fmap_compose. split_and!; [done|done| |exact H1|exact H2|exact H3|exact H4].
  rewrite <- (list_fmap_id days) at 2. by apply list_fmap_ext.
Qed.

(** One request of today and one of eight days ago, over a week. *)
Definition demo_traffic : StoreState :=
  let e t := mkTrafficEntry t "GET" "h" "/api/x" 200 1 "" 10 20 in
  with_traffic {["v" := [e (20453 * day_ns - 8 * day_ns); e (20453 * day_ns + 15 * 3600 * 10 ^ 9)]]}
    (with_replicas [VM_set_ProjectID "p" (VM_set_ID "v" VM_zero)] empty_store).

Lemma handleUsage_adds_up_witness :
  let r := handleUsage "7d" 0 (20453 * day_ns + 16 * 3600 * 10 ^ 9) demo_traffic in
  zsum ((fst ∘ snd) <$> ur_series r) = ur_requests r.
Proof.
  apply (handleUsage_adds_up "7d" (20453 * day_ns + 16 * 3600 * 10 ^ 9) demo_traffic).
  assert (Hl : forallb (fun pe => TE_Timestamp pe.2 <=? 20453 * day_ns + 16 * 3600 * 10 ^ 9)
                 (in_period (20453 * day_ns + 16 * 3600 * 10 ^ 9 - defaultPeriod "7d") demo_traffic) = true) by (vm_compute; reflexivity).
  intros pe Hpe. apply Z.leb_le. exact (forallb_elem _ _ Hl pe Hpe).
Defined.

(** West of Greenwich the row of the current day is missing for most of the day. *)
Lemma today_missing_in_series :
  let off := -5 * 3600 * 10 ^ 9 in
  let r := handleUsage "24h" off (20453 * day_ns + 16 * 3600 * 10 ^ 9) demo_traffic in
  (ur_requests r, series_text r) = (1, [("2025-12-29", 0, 0); ("2025-12-30", 0, 0)]).
Proof. vm_compute. reflexivity. Qed.

(** ** Counts by key *)

Lemma tally_lookup {A K} `{Countable K} (key : A -> K) l k :
  tally key l !! k = let f := base.filter (fun x => key x = k) l in if decide (f = []) then None else Some (Z.of_nat (List.length f)).
Proof.
  cbv zeta. unfold tally. induction l as [|x l IH] using rev_ind; [done|]. rewrite fold_left_app, filter_app. cbn [fold_left].
  unfold bump. set (m := fold_left _ l ∅) in *. destruct (decide (key x = k)) as [<-|Hne].
  - rewrite filter_cons_True, filter_nil by done. rewrite (decide_False (P := (_ ++ _)%list = [])) by (by intros [_ ?]%app_nil). rewrite IH.
    rewrite lookup_insert_eq, length_app. destruct (decide (_ = [])) as [E|E]; cbn; [by rewrite E|]. f_equal. lia.
  - by rewrite filter_cons_False, filter_nil, app_nil_r, lookup_insert_ne by done.
Qed.

(** The series of a count: in the order of its keys, each once, exactly the keys that
    occur with the number of times they do; nothing is lost. *)
Lemma sorted_series_tally {A} (key : A -> string) l :
  let series := sorted_series (tally key l) in
  Sorted String.le (fst <$> series) /\ NoDup (fst <$> series)
  /\ (forall k n, (k, n) ∈ series <-> n = Z.of_nat (List.length (base.filter (fun x => key x = k) l)) /\ 0 < n)
  /\ zsum (snd <$> series) = Z.of_nat (List.length l).
Proof.
  cbv zeta. unfold sorted_series. rewrite <- !list_fmap_compose. set (ks := sort_strings (elements (dom (tally key l)))).
  assert (Hnd : NoDup ks) by (unfold ks, sort_strings; rewrite merge_sort_Permutation; apply NoDup_elements).
  assert (Hks : forall k, k ∈ ks <-> base.filter (fun x => key x = k) l <> []).
  { intros k. unfold ks, sort_strings. rewrite merge_sort_Permutation, elem_of_elements, elem_of_dom, tally_lookup. cbv zeta.
    destruct (decide _) as [E|E]; split; [by intros [? ?]|by rewrite E|done|by eexists]. }
  assert (Hval : forall k, default 0 (tally key l !! k) = zsum ((fun _ => 1) <$> base.filter (fun x => key x = k) l)).
  { intros k. rewrite tally_lookup. cbv zeta. rewrite zsum_ones. by destruct (decide _) as [->|]. }
  rewrite (list_fmap_ext _ id ks) by done. rewrite list_fmap_id. split_and!.
  - apply Sorted_merge_sort. apply _.
  - done.
  - intros k n. rewrite list_elem_of_fmap. split.
    + intros (k' & [= -> ->] & Hk). rewrite Hval, zsum_ones. split; [done|]. apply Hks in Hk. destruct (base.filter _ l); [done|]. cbn. lia.
    + intros [Hn Hpos]. exists k. rewrite Hval, zsum_ones, <- Hn. split; [done|]. apply Hks. intros E. rewrite E in Hn. cbn in Hn. lia.
  - rewrite (list_fmap_ext _ (fun k => zsum ((fun _ => 1) <$> base.filter (fun x => key x = k) l)) ks) by (intros i k _; apply Hval).
    rewrite zsum_by_key, zsum_ones; [done|done|]. intros e He. apply Hks. intros E. assert (Hx : e ∈ base.filter (fun x => key x = key e) l) by (by apply list_elem_of_filter).
    rewrite E in Hx. by apply elem_of_nil in Hx.
Qed.
