(* ===== verification/Addons.v ===== *)
(** * A project's attachments ([store/store.go], [api/handlers.go])

    Alerts, hooks, cron jobs, drains, redirects, firewall rules, environments and
    networks: eight tables of the same shape, their statements and their handlers. The
    class [Row] says what a table's rows are; the statements and what they guarantee are
    stated once for every instance. Rows are in the order of their creation. *)
From S2P Require Import Prelude GoStrings GoNum Types Gateway Store Cron.
From Stdlib Require Import String Ascii.

Open Scope string_scope.
Open Scope Z_scope.

(** ** Tables *)

(** [row_merge old new] is the row after [ON CONFLICT ... DO UPDATE]: the key, the
    project and the creation time stay. *)
Class Row (A : Type) := {
  row_id : A -> string;
  row_project : A -> string;
  row_merge : A -> A -> A;
  row_merge_id : forall old new, row_id (row_merge old new) = row_id old;
  row_merge_project : forall old new, row_project (row_merge old new) = row_project old
}.

Section Table.
Context {A : Type} `{Row A}.
(** [uuid] accepts the texts the key column reads; [projects] are the stored projects. *)
Context (uuid : string -> bool) (projects : list string).

Fixpoint update_row (f : A -> A) (id : string) (l : list A) : list A :=
  match l with
  | [] => []
  | x :: l => if row_id x ==? id then f x :: l else x :: update_row f id l
  end.

Definition get_row (id : string) (l : list A) : option A := find_first (fun x => row_id x ==? id) l.

(** [INSERT ... ON CONFLICT (id) DO UPDATE]: an empty project is NULL, which the column
    refuses; the project of a new row must exist. *)
Definition put_row (x : A) (l : list A) : list A :=
  if negb (uuid (row_id x)) || (row_project x ==? "") then l
  else match get_row (row_id x) l with
       | Some _ => update_row (fun old => row_merge old x) (row_id x) l
       | None => if bool_decide (row_project x ∈ projects) then (l ++ [x])%list else l
       end.

Definition list_rows (projectID : string) (l : list A) : list A := base.filter (fun x => row_project x = projectID) l.

(** [DELETE]: the rows left and whether one was removed. *)
Definition delete_row (id : string) (l : list A) : list A * bool :=
  (base.filter (fun x => row_id x <> id) l, bool_decide (is_Some (get_row id l))).
End Table.

#[export, refine] Instance Alert_row : Row Alert :=
  {| row_id := Al_ID; row_project := Al_ProjectID;
     row_merge old new := mkAlert (Al_ID old) (Al_ProjectID old) (Al_Name new) (Al_Metric new) (Al_Threshold new) (Al_Op new)
                            (Al_CooldownS new) (Al_Silenced new) (Al_CreatedAt old) |}.
Proof. all: done. Defined.

#[export, refine] Instance Hook_row : Row Hook :=
  {| row_id := Hook_ID; row_project := Hook_ProjectID;
     row_merge old new := mkHook (Hook_ID old) (Hook_ProjectID old) (Hook_Name new) (Hook_URL new) (Hook_Events new) (Hook_Active new)
                            (Hook_CreatedAt old) |}.
Proof. all: done. Defined.

#[export, refine] Instance Cron_row : Row Cron :=
  {| row_id := Cron_ID; row_project := Cron_ProjectID;
     row_merge old new := mkCron (Cron_ID old) (Cron_ProjectID old) (Cron_Name new) (Cron_Schedule new) (Cron_JobImage new) (Cron_Active new)
                            (Cron_LastRun old) (Cron_CreatedAt old) |}.
Proof. all: done. Defined.

#[export, refine] Instance Drain_row : Row Drain :=
  {| row_id := Dr_ID; row_project := Dr_ProjectID;
     row_merge old new := mkDrain (Dr_ID old) (Dr_ProjectID old) (Dr_Name new) (Dr_Endpoint new) (Dr_Kind new) (Dr_Active new) (Dr_CreatedAt old) |}.
Proof. all: done. Defined.

#[export, refine] Instance Redirect_row : Row Redirect :=
  {| row_id := Rd_ID; row_project := Rd_ProjectID;
     row_merge old new := mkRedirect (Rd_ID old) (Rd_ProjectID old) (Rd_Source new) (Rd_Target new) (Rd_Permanent new) (Rd_CreatedAt old) |}.
Proof. all: done. Defined.

#[export, refine] Instance FirewallRule_row : Row FirewallRule :=
  {| row_id := FR_ID; row_project := FR_ProjectID;
     row_merge old new := mkFirewallRule (FR_ID old) (FR_ProjectID old) (FR_Direction new) (FR_Action new) (FR_Proto new) (FR_Ports new)
                            (FR_Source new) (FR_Priority new) (FR_Active new) (FR_CreatedAt old) |}.
Proof. all: done. Defined.

#[export, refine] Instance Environment_row : Row Environment :=
  {| row_id := Ev_ID; row_project := Ev_ProjectID;
     row_merge old new := mkEnvironment (Ev_ID old) (Ev_ProjectID old) (Ev_Name old) (Ev_Branch new) (Ev_URL new) (Ev_EnvDomain new) (Ev_CreatedAt old) |}.
Proof. all: done. Defined.

#[export, refine] Instance Network_row : Row Network :=
  {| row_id := Net_ID; row_project := Net_ProjectID;
     row_merge old new := mkNetwork (Net_ID old) (Net_ProjectID old) (Net_Name old) (Net_CIDR new) (Net_Driver new) (Net_CreatedAt old) |}.
Proof. all: done. Defined.

(** ** The statements *)

Section Statements.
Context (uuid : string -> bool) (projects : list string).

Definition PutAlert : Alert -> list Alert -> list Alert := put_row uuid projects.
Definition PutCron : Cron -> list Cron -> list Cron := put_row uuid projects.
Definition PutDrain : Drain -> list Drain -> list Drain := put_row uuid projects.
Definition PutRedirect : Redirect -> list Redirect -> list Redirect := put_row uuid projects.
Definition PutFirewallRule : FirewallRule -> list FirewallRule -> list FirewallRule := put_row uuid projects.
(** [events] is a column without NULL: a nil slice is refused. *)
Definition PutHook (has_events : bool) (h : Hook) (l : list Hook) : list Hook := if has_events then put_row uuid projects h l else l.

(** [ON CONFLICT (project_id, name)]: a row of that name keeps its key; another row with
    the same key is an error. *)
Definition put_named {A} `{Row A} (name : A -> string) (x : A) (l : list A) : list A :=
  if negb (uuid (row_id x)) || (row_project x ==? "") then l
  else match find_first (fun y => (row_project y ==? row_project x) && (name y ==? name x)) l with
       | Some old => update_row (fun old => row_merge old x) (row_id old) l
       | None => if bool_decide (is_Some (get_row (row_id x) l)) || negb (bool_decide (row_project x ∈ projects)) then l else (l ++ [x])%list
       end.
Definition PutEnvironment : Environment -> list Environment -> list Environment := put_named Ev_Name.
Definition PutNetwork : Network -> list Network -> list Network := put_named Net_Name.

Definition ListAlerts : string -> list Alert -> list Alert := list_rows.
Definition GetAlert : string -> list Alert -> option Alert := get_row.
Definition DeleteAlert : string -> list Alert -> list Alert * bool := delete_row.
Definition ListHooks : string -> list Hook -> list Hook := list_rows.
Definition DeleteHook : string -> list Hook -> list Hook * bool := delete_row.
Definition ListCrons : string -> list Cron -> list Cron := list_rows.
Definition ListAllCrons (l : list Cron) : list Cron := l.
Definition GetCron : string -> list Cron -> option Cron := get_row.
Definition DeleteCron : string -> list Cron -> list Cron * bool := delete_row.
Definition ListDrains : string -> list Drain -> list Drain := list_rows.
Definition DeleteDrain : string -> list Drain -> list Drain * bool := delete_row.
Definition ListRedirects : string -> list Redirect -> list Redirect := list_rows.
Definition DeleteRedirect : string -> list Redirect -> list Redirect * bool := delete_row.
Definition GetFirewallRule : string -> list FirewallRule -> option FirewallRule := get_row.
Definition DeleteFirewallRule : string -> list FirewallRule -> list FirewallRule * bool := delete_row.
Definition ListEnvironments : string -> list Environment -> list Environment := list_rows.
Definition GetEnvironment : string -> list Environment -> option Environment := get_row.
Definition DeleteEnvironment : string -> list Environment -> list Environment * bool := delete_row.
Definition ListNetworks : string -> list Network -> list Network := list_rows.
Definition DeleteNetwork : string -> list Network -> list Network * bool := delete_row.

Definition SetAlertSilenced (id : string) (silenced : bool) (l : list Alert) : list Alert * bool :=
  (update_row (Al_set_Silenced silenced) id l, bool_decide (is_Some (get_row id l))).

(** ** The handlers *)

(** An answer: a row, a few fields, or an error. *)
Inductive Answer (A : Type) := Body (status : Z) (x : A) | Note (status : Z) (fields : list (string * string)) | Refused (status : Z) (msg : string).
Arguments Body {A}. Arguments Note {A}. Arguments Refused {A}.

Definition bad_request {A} (e : string) : Answer A := Refused 400 ("bad request: " ++ e).

(** The two handlers every table has. (The mail sent when an alert is created is outside.) *)
Definition handle_get {A} (what : string) (found : option A) : Answer A :=
  match found with Some x => Body 200 x | None => Refused 404 (what ++ " not found") end.

Definition handle_delete {A} (what : string) (deleted : list A * bool) (l : list A) : list A * Answer A :=
  let '(l', gone) := deleted in
  if gone then (l', Note 200 [("status", "deleted")]) else (l, Refused 404 (what ++ " not found")).

(** [PATCH]: read, decode, change, write. *)
Definition handle_patch {A R} (put : A -> list A -> list A) (what : string) (found : option A) (req : result string R) (change : R -> A -> A) (l : list A)
    : list A * Answer A :=
  match found with
  | None => (l, Refused 404 (what ++ " not found"))
  | Some x =>
      match req with
      | Err e => (l, bad_request e)
      | Ok r => let x := change r x in (put x l, Body 200 x)
      end
  end.

Definition set_if {A B} (set : B -> A -> A) (v : option B) (x : A) : A := match v with Some b => set b x | None => x end.
Definition nonempty (s : string) : option string := if s ==? "" then None else Some s.

Record AlertReq := mkAlertReq { aq_Name : string; aq_Metric : string; aq_Threshold : float64; aq_Op : string; aq_CooldownS : Z }.
Definition handleCreateAlert (projectID id : string) (now : Z) (req : result string AlertReq) (l : list Alert) : list Alert * Answer Alert :=
  match req with
  | Err e => (l, bad_request e)
  | Ok r =>
      let al := mkAlert id projectID (aq_Name r) (aq_Metric r) (aq_Threshold r) (aq_Op r) (aq_CooldownS r) false now in
      (PutAlert al l, Body 201 al)
  end.
Definition handleGetAlert (id : string) (l : list Alert) : Answer Alert := handle_get "alert" (GetAlert id l).
Record AlertPatch := mkAlertPatch { ap_Threshold : float64; ap_Op : string; ap_Silenced : option bool }.
Definition handlePatchAlert (id : string) (req : result string AlertPatch) (l : list Alert) : list Alert * Answer Alert :=
  handle_patch PutAlert "alert" (GetAlert id l) req (fun r al =>
    let al := if fle (ap_Threshold r) (f_of_Z 0) && fle (f_of_Z 0) (ap_Threshold r) then al else Al_set_Threshold (ap_Threshold r) al in
    set_if Al_set_Silenced (ap_Silenced r) (set_if Al_set_Op (nonempty (ap_Op r)) al)) l.
Definition handleDeleteAlert (id : string) (l : list Alert) : list Alert * Answer Alert := handle_delete "alert" (DeleteAlert id l) l.
Definition handleSilenceAlert (id : string) (l : list Alert) : list Alert * Answer Alert := ((SetAlertSilenced id true l).1, Note 200 [("status", "silenced")]).
Definition handleUnsilenceAlert (id : string) (l : list Alert) : list Alert * Answer Alert := ((SetAlertSilenced id false l).1, Note 200 [("status", "unsilenced")]).

Record HookReq := mkHookReq { hq_Name : string; hq_URL : string; hq_Events : option (list string) }.
Definition handleCreateHook (projectID id : string) (now : Z) (req : result string HookReq) (l : list Hook) : list Hook * Answer Hook :=
  match req with
  | Err e => (l, bad_request e)
  | Ok r =>
      if hq_URL r ==? "" then (l, Refused 400 "url is required")
      else let h := mkHook id projectID (hq_Name r) (hq_URL r) (default [] (hq_Events r)) true now in
           (PutHook (bool_decide (is_Some (hq_Events r))) h l, Body 201 h)
  end.
Definition handleDeleteHook (id : string) (l : list Hook) : list Hook * Answer Hook := handle_delete "hook" (DeleteHook id l) l.
Definition hookURL (hooks : list Hook) (id : string) : string :=
  match find_first (fun h => Hook_ID h ==? id) hooks with Some h => Hook_URL h | None => "" end.
(** The URL that is posted to, if any. *)
Definition handleTriggerHook (projectID id : string) (l : list Hook) : option string * Answer Hook :=
  (nonempty (hookURL (ListHooks projectID l) id), Note 200 [("status", "triggered"); ("hook", id)]).

Record CronReq := mkCronReq { cq_Name : string; cq_Schedule : string; cq_JobImage : string }.
Definition handleCreateCron (projectID id : string) (now : Z) (req : result string CronReq) (l : list Cron) : list Cron * Answer Cron :=
  match req with
  | Err e => (l, bad_request e)
  | Ok r =>
      let c := mkCron id projectID (cq_Name r) (cq_Schedule r) (cq_JobImage r) true None now in
      (PutCron c l, Body 201 c)
  end.
Definition handleGetCron (id : string) (l : list Cron) : Answer Cron := handle_get "cron" (GetCron id l).
Definition handlePatchCron (id : string) (req : result string (string * option bool)) (l : list Cron) : list Cron * Answer Cron :=
  handle_patch PutCron "cron" (GetCron id l) req (fun r c => set_if Cron_set_Active r.2 (set_if Cron_set_Schedule (nonempty r.1) c)) l.
Definition handleDeleteCron (id : string) (l : list Cron) : list Cron * Answer Cron := handle_delete "cron" (DeleteCron id l) l.

(** [handleRunCron]: the cron is touched, the job's VM recorded and booted. *)
Definition handleRunCron (vmID id : string) (now : Z) (has_vmm : bool) (l : list Cron) (s : StoreState)
    : list Cron * StoreState * option VM * Answer Cron :=
  match GetCron id l with
  | None => (l, s, None, Refused 404 "cron not found")
  | Some c =>
      let vm := VM_set_ID vmID (job_vm c now) in
      (TouchCron (Cron_ID c) now l, PutVM vm s, if has_vmm then Some vm else None,
       Note 202 [("status", "job booted as microVM"); ("cron", Cron_ID c); ("vm", vmID); ("engine", "real")])
  end.

Definition handleCreateDrain (projectID id : string) (now : Z) (req : result string (string * string * string)) (l : list Drain) : list Drain * Answer Drain :=
  match req with
  | Err e => (l, bad_request e)
  | Ok (name, endpoint, kind) => let d := mkDrain id projectID name endpoint kind true now in (PutDrain d l, Body 201 d)
  end.
Definition handleDeleteDrain (id : string) (l : list Drain) : list Drain * Answer Drain := handle_delete "drain" (DeleteDrain id l) l.
(** [post] is the delivery. *)
Definition handleTestDrain (post : string -> option string) (projectID id : string) (l : list Drain) : Answer Drain :=
  match find_first (fun d => Dr_ID d ==? id) (ListDrains projectID l) with
  | None => Refused 404 "drain not found"
  | Some d =>
      if Dr_Endpoint d ==? "" then Refused 400 "drain has no endpoint"
      else match post (Dr_Endpoint d) with
           | Some e => Note 502 [("drain", Dr_ID d); ("status", "delivery failed"); ("error", e)]
           | None => Note 200 [("drain", Dr_ID d); ("status", "delivered test event")]
           end
  end.

Definition handleCreateRedirect (projectID id : string) (now : Z) (req : result string (string * string * bool)) (l : list Redirect) : list Redirect * Answer Redirect :=
  match req with
  | Err e => (l, bad_request e)
  | Ok (source, target, permanent) => let rd := mkRedirect id projectID source target permanent now in (PutRedirect rd l, Body 201 rd)
  end.
Definition handleDeleteRedirect (id : string) (l : list Redirect) : list Redirect * Answer Redirect := handle_delete "redirect" (DeleteRedirect id l) l.
(** The redirects come with their own identifiers; [ids] are new ones for those without. *)
Definition handleBulkRedirects (projectID : string) (ids : list string) (req : result string (list Redirect)) (l : list Redirect) : list Redirect * Answer Redirect :=
  match req with
  | Err e => (l, bad_request e)
  | Ok rds =>
      (fold_left (fun l p =>
         let '(rd, new) := p in
         let rd := mkRedirect (if Rd_ID rd ==? "" then new else Rd_ID rd) projectID (Rd_Source rd) (Rd_Target rd) (Rd_Permanent rd) (Rd_CreatedAt rd) in
         PutRedirect rd l) (combine rds ids) l,
       Note 200 [("status", "applied"); ("count", Itoa (Z.of_nat (List.length rds)))])
  end.

Record RuleReq := mkRuleReq { rq_Direction : string; rq_Action : string; rq_Proto : string; rq_Ports : string; rq_Source : string; rq_Priority : Z }.
Definition handleCreateFirewallRule (projectID id : string) (now : Z) (req : result string RuleReq) (l : list FirewallRule) : list FirewallRule * Answer FirewallRule :=
  match req with
  | Err e => (l, bad_request e)
  | Ok r =>
      let fr := mkFirewallRule id projectID (rq_Direction r) (rq_Action r) (rq_Proto r) (rq_Ports r) (rq_Source r) (rq_Priority r) true now in
      (PutFirewallRule fr l, Body 201 fr)
  end.
Definition handleGetFirewallRule (id : string) (l : list FirewallRule) : Answer FirewallRule := handle_get "firewall rule" (GetFirewallRule id l).
Record RulePatch := mkRulePatch { rp_Action : string; rp_Active : option bool; rp_Priority : Z }.
Definition handlePatchFirewallRule (id : string) (req : result string RulePatch) (l : list FirewallRule) : list FirewallRule * Answer FirewallRule :=
  handle_patch PutFirewallRule "firewall rule" (GetFirewallRule id l) req (fun r fr =>
    let fr := set_if FR_set_Active (rp_Active r) (set_if FR_set_Action (nonempty (rp_Action r)) fr) in
    if rp_Priority r =? 0 then fr else FR_set_Priority (rp_Priority r) fr) l.
Definition handleDeleteFirewallRule (id : string) (l : list FirewallRule) : list FirewallRule * Answer FirewallRule := handle_delete "firewall rule" (DeleteFirewallRule id l) l.
Definition handleFirewallStats (projectID : string) (s : StoreState) : Z * Z * Z :=
  fold_left (fun '(allowed, blocked, active) fr =>
    let active := if FR_Active fr then active + 1 else active in
    if FR_Action fr ==? "deny" then (allowed, blocked + 1, active) else (allowed + 1, blocked, active))
    (omap id (Store_ListFirewallRules s projectID)) (0, 0, 0).
Definition handleFirewallWhitelist (projectID : string) (s : StoreState) : list string :=
  FR_Source <$> base.filter (fun fr => FR_Action fr = "allow") (omap id (Store_ListFirewallRules s projectID)).

Record EnvReq := mkEnvReq { eq_Name : string; eq_Branch : string; eq_URL : string; eq_EnvDomain : string }.
Definition handleCreateEnvironment (projectID id : string) (now : Z) (req : result string EnvReq) (l : list Environment) : list Environment * Answer Environment :=
  match req with
  | Err e => (l, bad_request e)
  | Ok r =>
      let e := mkEnvironment id projectID (if eq_Name r ==? "" then "staging" else eq_Name r) (eq_Branch r) (eq_URL r) (eq_EnvDomain r) now in
      (PutEnvironment e l, Body 201 e)
  end.
Definition add_seen (avail : list string) (name : string) : list string :=
  if (name ==? "") || bool_decide (name ∈ avail) then avail else (avail ++ [name])%list.
Definition handleEnvironmentsAvailable (projectID : string) (l : list Environment) : list string :=
  fold_left add_seen (Ev_Name <$> ListEnvironments projectID l) ["production"; "preview"; "staging"; "development"].
Definition handleGetEnvironment (id : string) (l : list Environment) : Answer Environment := handle_get "environment" (GetEnvironment id l).
Definition handlePatchEnvironment (id : string) (req : result string (string * string * string)) (l : list Environment) : list Environment * Answer Environment :=
  handle_patch PutEnvironment "environment" (GetEnvironment id l) req (fun r e =>
    set_if Ev_set_EnvDomain (nonempty r.2) (set_if Ev_set_URL (nonempty r.1.2) (set_if Ev_set_Branch (nonempty r.1.1) e))) l.
Definition handleDeleteEnvironment (id : string) (l : list Environment) : list Environment * Answer Environment := handle_delete "environment" (DeleteEnvironment id l) l.
Definition handleEnvBranch (id : string) (req : result string string) : list Environment -> list Environment * Answer Environment :=
  fun l => let '(l, a) := handle_patch PutEnvironment "environment" (GetEnvironment id l) req Ev_set_Branch l in
           (l, match a with Body st e => Note st [("environment", Ev_ID e); ("branch", Ev_Branch e); ("status", "updated")] | a => a end).
Definition handleEnvDomain (id : string) (req : result string string) : list Environment -> list Environment * Answer Environment :=
  fun l => let '(l, a) := handle_patch PutEnvironment "environment" (GetEnvironment id l) req Ev_set_EnvDomain l in
           (l, match a with Body st e => Note st [("environment", Ev_ID e); ("env_domain", Ev_EnvDomain e); ("status", "updated")] | a => a end).

Definition handleCreateNetwork (projectID id : string) (now : Z) (req : result string (string * string * string)) (l : list Network) : list Network * Answer Network :=
  match req with
  | Err e => (l, bad_request e)
  | Ok (name, cidr, driver) =>
      if name ==? "" then (l, Refused 400 "network name is required")
      else
        let n := mkNetwork id projectID name (if cidr ==? "" then "10.42.0.0/24" else cidr) (if driver ==? "" then "bridge" else driver) now in
        (PutNetwork n l, Body 201 n)
  end.
End Statements.

(** ** Tables refine maps *)

Lemma filter_all {A} (P : A -> Prop) `{forall x, Decision (P x)} (l : list A) : Forall P l -> base.filter P l = l.
Proof. induction 1 as [|x l Hx _ IH]; [done|]. by rewrite filter_cons_True, IH by done. Qed.

Section Refines.
Context {A : Type} `{Row A} (uuid : string -> bool) (projects : list string).

Lemma get_row_In id l x : get_row id l = Some x -> x ∈ l /\ row_id x = id.
Proof. intros [Hin He]%find_first_In. by apply bool_decide_eq_true in He. Qed.

Lemma get_row_None id l : get_row id l = None <-> id ∉ row_id <$> l.
Proof.
  unfold get_row. rewrite find_first_None, Forall_forall. split.
  - intros Hn [x [-> Hx]]%list_elem_of_fmap. specialize (Hn x Hx). by apply bool_decide_eq_false in Hn.
  - intros Hn x Hx. apply bool_decide_eq_false. intros <-. apply Hn. by apply list_elem_of_fmap_2.
Qed.

Lemma get_row_snoc id l x :
  get_row id (l ++ [x])%list = match get_row id l with Some y => Some y | None => if row_id x ==? id then Some x else None end.
Proof. unfold get_row. induction l as [|y l IH]; [done|]. cbn [find_first app]. destruct (row_id y ==? id); [done|apply IH]. Qed.

Lemma get_row_update f k id l : (forall x, row_id (f x) = row_id x) ->
  get_row id (update_row f k l) = if id ==? k then f <$> get_row k l else get_row id l.
Proof.
  intros Hf. induction l as [|x l IH]; [by destruct (id ==? k)|]. cbn [update_row]. destruct (decide (row_id x = k)) as [Ex|Ex].
  - rewrite (bool_decide_true (row_id x = k)) by done. unfold get_row. cbn [find_first]. rewrite Hf, Ex. rewrite (bool_decide_true (k = k)) by done.
    destruct (decide (id = k)) as [->|Hn]; [by rewrite bool_decide_true|].
    by rewrite (bool_decide_false (id = k)), (bool_decide_false (k = id)) by congruence.
  - rewrite (bool_decide_false (row_id x = k)) by done. unfold get_row in *. cbn [find_first].
    rewrite IH, (bool_decide_false (row_id x = k)) by done. destruct (decide (row_id x = id)) as [E|E].
    + rewrite (bool_decide_true (row_id x = id)), (bool_decide_false (id = k)) by congruence. done.
    + by rewrite (bool_decide_false (row_id x = id)) by done.
Qed.

Lemma get_row_delete k id l : get_row id (delete_row k l).1 = if id ==? k then None else get_row id l.
Proof.
  unfold delete_row, get_row. cbn [fst]. induction l as [|x l IH]; [by destruct (id ==? k)|].
  destruct (decide (row_id x = k)) as [Ex|Ex].
  - rewrite filter_cons_False by tauto. rewrite IH. cbn [find_first]. rewrite Ex. destruct (decide (id = k)) as [E|E].
    + by rewrite (bool_decide_true (id = k)) by done.
    + by rewrite (bool_decide_false (id = k)), (bool_decide_false (k = id)) by congruence.
  - rewrite filter_cons_True by done. cbn [find_first]. rewrite IH. destruct (decide (row_id x = id)) as [E|E].
    + by rewrite (bool_decide_true (row_id x = id)), (bool_decide_false (id = k)) by congruence.
    + by rewrite (bool_decide_false (row_id x = id)) by done.
Qed.

Lemma update_row_ids f k l : (forall x, row_id (f x) = row_id x) -> row_id <$> update_row f k l = row_id <$> l.
Proof. intros Hf. induction l as [|x l IH]; [done|]. cbn [update_row]. case_bool_decide; cbn; [by rewrite Hf|by rewrite IH]. Qed.

Lemma put_row_NoDup x l : NoDup (row_id <$> l) -> NoDup (row_id <$> put_row uuid projects x l).
Proof.
  intros Hnd. unfold put_row. case_match; [done|]. destruct (get_row _ l) as [old|] eqn:E.
  - by rewrite update_row_ids by (intros; apply row_merge_id).
  - destruct (bool_decide (row_project x ∈ projects)); [|done]. rewrite fmap_app. apply NoDup_app. split_and!; [done| |by apply NoDup_singleton].
    intros k Hk Hx. apply list_elem_of_singleton in Hx as ->. by apply get_row_None in E.
Qed.

Lemma delete_row_NoDup k l : NoDup (row_id <$> l) -> NoDup (row_id <$> (delete_row k l).1).
Proof. apply NoDup_fmap_filter. Qed.

(** The life of a new row. *)
Lemma put_row_fresh x l : uuid (row_id x) = true -> row_project x <> "" -> row_project x ∈ projects -> get_row (row_id x) l = None ->
  put_row uuid projects x l = (l ++ [x])%list.
Proof. intros Hu Hp Hin Hg. unfold put_row. by rewrite Hu, bool_decide_false, Hg, bool_decide_true by done. Qed.

Lemma get_row_last x l : get_row (row_id x) l = None -> get_row (row_id x) (l ++ [x])%list = Some x.
Proof. intros Hg. by rewrite get_row_snoc, Hg, bool_decide_true by done. Qed.

Lemma put_row_last x y l : row_id y = row_id x -> uuid (row_id x) = true -> row_project y <> "" -> get_row (row_id x) l = None ->
  put_row uuid projects y (l ++ [x])%list = (l ++ [row_merge x y])%list.
Proof.
  intros Hi Hu Hp Hg. unfold put_row. rewrite Hi, Hu, bool_decide_false, get_row_last by done. cbn [negb orb].
  apply get_row_None in Hg. induction l as [|z l IH]; cbn [app update_row]; [by rewrite bool_decide_true|].
  cbn in Hg. apply not_elem_of_cons in Hg as [Hz Hg]. rewrite bool_decide_false by congruence. by rewrite IH.
Qed.

Lemma delete_row_last x l : get_row (row_id x) l = None -> (delete_row (row_id x) (l ++ [x])%list).1 = l.
Proof.
  intros Hg%get_row_None. unfold delete_row. cbn [fst]. rewrite filter_app, filter_cons_False, filter_nil, app_nil_r by tauto.
  apply filter_all. apply Forall_forall. intros y Hy E. apply Hg. rewrite <- E. by apply list_elem_of_fmap_2.
Qed.

Inductive table_op := TPut (x : A) | TDelete (id : string).

Definition table_step (l : list A) (o : table_op) : list A :=
  match o with TPut x => put_row uuid projects x l | TDelete id => (delete_row id l).1 end.

(** What the statements mean: a map from keys to rows. *)
Definition map_step (m : gmap string A) (o : table_op) : gmap string A :=
  match o with
  | TPut x =>
      if uuid (row_id x) && (row_project x !=? "") then
        match m !! row_id x with
        | Some old => <[row_id x := row_merge old x]> m
        | None => if bool_decide (row_project x ∈ projects) then <[row_id x := x]> m else m
        end
      else m
  | TDelete id => delete id m
  end.

Lemma table_step_refines l m o : (forall id, get_row id l = m !! id) -> forall id, get_row id (table_step l o) = map_step m o !! id.
Proof.
  intros Hm id. destruct o as [x|k]; cbn [table_step map_step].
  - unfold put_row. destruct (uuid (row_id x)); cbn [negb orb andb]; [|done]. case_bool_decide; cbn [negb]; [done|].
    rewrite <- Hm. destruct (get_row (row_id x) l) as [old|] eqn:E.
    + rewrite get_row_update by (intros; apply row_merge_id). case_bool_decide as Ei.
      * by rewrite Ei, E, lookup_insert_eq.
      * by rewrite lookup_insert_ne, Hm by congruence.
    + destruct (bool_decide (row_project x ∈ projects)); [|done]. rewrite get_row_snoc. destruct (decide (row_id x = id)) as [<-|Hne].
      * by rewrite E, bool_decide_true, lookup_insert_eq by done.
      * rewrite (bool_decide_false (row_id x = id)), lookup_insert_ne, Hm by done. by destruct (m !! id).
  - rewrite get_row_delete. case_bool_decide as E; [by rewrite E, lookup_delete_eq|]. by rewrite lookup_delete_ne, Hm by congruence.
Qed.

End Refines.

(** ** Named attachments *)

(** Environments and networks have one row of a name in a project, and unique keys. *)
Definition named_ok {A} `{Row A} (name : A -> string) (l : list A) : Prop :=
  NoDup (row_id <$> l) /\ NoDup ((fun x => (row_project x, name x)) <$> l).

Lemma put_named_ok {A} `{Row A} uuid projects (name : A -> string) x l :
  (forall old new, name (row_merge old new) = name old) -> named_ok name l -> named_ok name (put_named uuid projects name x l).
Proof.
  intros Hname [Hid Hnm]. unfold put_named. destruct (_ || _); [done|].
  destruct (find_first _ l) as [old|] eqn:Ef.
  - split; [by rewrite update_row_ids by (intros; apply row_merge_id)|].
    replace ((fun x => (row_project x, name x)) <$> update_row (fun old => row_merge old x) (row_id old) l)
      with ((fun x => (row_project x, name x)) <$> l); [done|].
    clear Hid Hnm Ef. induction l as [|y l IH]; [done|]. cbn [update_row].
    destruct (row_id y ==? row_id old); cbn [fmap list_fmap]; [by rewrite row_merge_project, Hname|by rewrite <- IH].
  - destruct (bool_decide (is_Some (get_row (row_id x) l))) eqn:Eg; [done|]. destruct (bool_decide (row_project x ∈ projects)); cbn [orb negb]; [|done].
    apply bool_decide_eq_false in Eg. unfold named_ok. rewrite !fmap_app. split; apply NoDup_app; split_and!; try done; try (by apply NoDup_singleton).
    + intros k Hk Hx. apply list_elem_of_singleton in Hx as ->. apply Eg. destruct (get_row (row_id x) l) eqn:E; [done|].
      by apply get_row_None in E.
    + intros k Hk Hx. apply list_elem_of_singleton in Hx as ->. apply list_elem_of_fmap in Hk as (y & [= Hp Hn] & Hy).
      rewrite find_first_None, Forall_forall in Ef. specialize (Ef y Hy). rewrite <- Hp, <- Hn in Ef. by rewrite !bool_decide_true in Ef.
Qed.

(** ** Rules that are made are enforced *)

Definition with_rules (l : list FirewallRule) (s : StoreState) : StoreState :=
  mkStore (replicas s) (Store.projects s) (domains s) (deployments s) (next_revision s) (servers s) (builds s) l (micro_vms s) (events s)
    (usage_keys s) (traffic s) (project_cache s).

Lemma listed_rule s p fr : Some fr ∈ Store_ListFirewallRules s p <-> fr ∈ firewall_rules s /\ FR_ProjectID fr = p /\ p <> "".
Proof.
  unfold Store_ListFirewallRules. rewrite list_elem_of_fmap. split.
  - intros (r & [= ->] & Hr). rewrite merge_sort_Permutation, list_elem_of_filter in Hr. tauto.
  - intros (Hin & Hp). exists fr. split; [done|]. by rewrite merge_sort_Permutation, list_elem_of_filter.
Qed.

Lemma firewall_blocks_iff s p ra : p <> "" ->
  is_Some (blockedByFirewall s p ra) <->
  exists fr, fr ∈ firewall_rules s /\ FR_ProjectID fr = p /\ active_deny fr = true /\ sourceMatches (FR_Source fr) (remote_ip ra) = true.
Proof.
  intros Hp. pose proof (firewall_decision s p ra Hp) as Hd. split.
  - intros [fr E]. rewrite E in Hd. destruct Hd as [(Hl & Ha & Hm) _]. apply listed_rule in Hl as (? & ? & _). by exists fr.
  - intros (fr & Hin & Hpr & Ha & Hm). destruct (blockedByFirewall s p ra); [by eexists|]. exfalso. apply (Hd fr).
    split; [|done]. by apply listed_rule.
Qed.


Definition any_id (s : string) : bool := true.


(** ** What the handlers do not check *)

(** A rule, alert or redirect is found by its key alone: the project of the route plays
    no part, so one project's caller patches or deletes another's. *)
Lemma rule_of_another_project :
  let r := mkFirewallRule "r0" "victim" "ingress" "deny" "tcp" "" "0.0.0.0/0" 1 true 0 in
  (handleDeleteFirewallRule "r0" [r]).1 = []
  /\ FR_Active <$> (handlePatchFirewallRule any_id ["victim"] "r0" (Ok (mkRulePatch "" (Some false) 0)) [r]).1 = [false].
Proof. vm_compute. done. Qed.

(** The identifiers of bulk redirects are the caller's: naming another project's
    redirect rewrites it in place. *)
Lemma bulk_redirect_crosses_projects :
  (handleBulkRedirects any_id ["a"; "b"] "b" ["n"] (Ok [mkRedirect "r" "b" "/" "https://evil" true 0]) [mkRedirect "r" "a" "/" "/home" false 0]).1
  = [mkRedirect "r" "a" "/" "https://evil" true 0].
Proof. vm_compute. reflexivity. Qed.

(** A hook made without a list of events is answered with 201 and not stored. *)
Lemma hook_without_events_lost :
  handleCreateHook any_id ["p"] "p" "h" 0 (Ok (mkHookReq "n" "https://x" None)) [] = ([], Body Hook 201 (mkHook "h" "p" "n" "https://x" [] true 0)).
Proof. vm_compute. reflexivity. Qed.

(** An environment made under a taken name is answered with a key that is not stored. *)
Lemma environment_key_lost :
  let e0 := mkEnvironment "e0" "p" "staging" "main" "" "" 0 in
  let '(l, a) := handleCreateEnvironment any_id ["p"] "p" "e1" 5 (Ok (mkEnvReq "" "dev" "" "")) [e0] in
  a = Body Environment 201 (mkEnvironment "e1" "p" "staging" "dev" "" "" 5) /\ Ev_ID <$> l = ["e0"].
Proof. vm_compute. done. Qed.

(** A threshold or a priority cannot be set to zero. *)
Lemma zero_is_ignored :
  (handlePatchFirewallRule any_id ["p"] "r" (Ok (mkRulePatch "" None 0)) [mkFirewallRule "r" "p" "" "deny" "" "" "" 9 true 0]).1
  = [mkFirewallRule "r" "p" "" "deny" "" "" "" 9 true 0].
Proof. vm_compute. reflexivity. Qed.
