(* ===== verification/Migrations.v ===== *)
(** * Schema migrations and the first administrator ([store/store.go])

    At startup the server runs every [NNNN_*.up.sql] it embeds that
    [schema_migrations] does not list yet, in the order of the names, one statement
    at a time. [splitSQL] cuts a script into statements at the lines that end in a
    semicolon, keeping [$$]-quoted bodies together. The database is an argument: a
    state and what executing a statement does to it. [EnsureSeededAdmin] gives the
    administrator the migrations create its first password. *)
From S2P Require Import Prelude GoStrings Types Store Rbac GoCrypto Auth Api Access.
From Stdlib Require Import String Ascii.

Open Scope string_scope.

Definition nl : ascii := "010"%char.

(** ** [splitSQL] *)

(** A line the loop skips: blank, or a comment. *)
Definition skipped (line : string) : bool :=
  let t := trim_space line in (t ==? "") || has_prefix t "--".

(** The loop's variables: the statements found, the one being read, [inDollar]. *)
Record Splitter := mkSplitter { sp_out : list string; sp_cur : string; sp_dollar : bool }.

Definition toggles (line : string) : bool := contains (trim_space line) "$$".
Definition ends_stmt (line : string) : bool := has_suffix (trim_space line) ";".

Definition split_step (st : Splitter) (line : string) : Splitter :=
  if skipped line then st
  else
    let inDollar := if toggles line then negb (sp_dollar st) else sp_dollar st in
    let cur := sp_cur st ++ line ++ String nl "" in
    if negb inDollar && ends_stmt line
    then mkSplitter (sp_out st ++ [cur])%list "" inDollar
    else mkSplitter (sp_out st) cur inDollar.

Definition splitSQL (body : string) : list string :=
  let st := fold_left split_step (split_on nl body) (mkSplitter [] "" false) in
  if trim_space (sp_cur st) !=? "" then (sp_out st ++ [sp_cur st])%list else sp_out st.

(** ** [Migrate] *)

(** The schema, the rows of [schema_migrations], and the statements executed. *)
Record MigDB (D : Type) := mkMigDB { md_schema : D; md_versions : list string; md_log : list string }.
Arguments mkMigDB {D}.
Arguments md_schema {D}.
Arguments md_versions {D}.
Arguments md_log {D}.

(** What the database answers during one start: the error of creating the table
    of versions, of looking a version up and of recording it, and the effect of a
    statement. *)
Record MigWorld (D : Type) := mkMigWorld {
  mw_create : option string;
  mw_check : string -> option string;
  mw_record : string -> option string;
  mw_exec : D -> string -> D * option string
}.
Arguments mkMigWorld {D}.
Arguments mw_create {D}.
Arguments mw_check {D}.
Arguments mw_record {D}.
Arguments mw_exec {D}.

Section Migrate.
Context {D : Type}.
Implicit Types (w : MigWorld D) (db : MigDB D).

(** The embedded directory: names, which are distinct, and bodies. *)
Variable files : list (string * string).

Definition ups : list string :=
  sort_strings (base.filter (fun name => has_suffix name ".up.sql" = true) files.*1).

Definition ReadFile (name : string) : string := default "" (snd <$> find_first (fun f => f.1 ==? name) files).

Fixpoint exec_stmts w (name : string) (stmts : list string) db : MigDB D * option string :=
  match stmts with
  | [] => (db, None)
  | stmt :: rest =>
      let '(d, e) := mw_exec w (md_schema db) stmt in
      let db := mkMigDB d (md_versions db) (md_log db ++ [stmt])%list in
      match e with
      | Some err => (db, Some ("apply migration " ++ name ++ ": " ++ err ++ String nl "stmt: " ++ stmt))
      | None => exec_stmts w name rest db
      end
  end.

Fixpoint migrate_each w (names : list string) db : MigDB D * option string :=
  match names with
  | [] => (db, None)
  | name :: rest =>
      match mw_check w name with
      | Some err => (db, Some ("check migration " ++ name ++ ": " ++ err))
      | None =>
          if bool_decide (name ∈ md_versions db) then migrate_each w rest db
          else
            let '(db, e) := exec_stmts w name (splitSQL (ReadFile name)) db in
            match e with
            | Some err => (db, Some err)
            | None =>
                match mw_record w name with
                | Some err => (db, Some ("record migration " ++ name ++ ": " ++ err))
                | None => migrate_each w rest (mkMigDB (md_schema db) (md_versions db ++ [name])%list (md_log db))
                end
            end
      end
  end.

Definition Migrate w db : MigDB D * option string :=
  match mw_create w with
  | Some err => (db, Some ("create schema_migrations: " ++ err))
  | None => migrate_each w ups db
  end.
End Migrate.

(** ** Lemmas: statements *)

Lemma trim_right_nil p s : trim_right_f p s = "" <-> sall p s = true.
Proof.
  induction s as [|c s IH]; [done|]. cbn. destruct (trim_right_f p s) eqn:E.
  - rewrite (proj1 IH eq_refl), andb_true_r. by destruct (p c).
  - split; [done|]. intros [_ H]%andb_true_iff. by apply IH in H.
Qed.

Lemma trim_left_nil p s : sall p (trim_left_f p s) = true <-> sall p s = true.
Proof. induction s as [|c s IH]; [done|]. cbn. destruct (p c) eqn:E; cbn; rewrite ?E; [done|by split]. Qed.

Lemma trim_space_nil s : trim_space s = "" <-> sall is_space s = true.
Proof. unfold trim_space, trim_f. rewrite trim_right_nil. apply trim_left_nil. Qed.

(** The text of a list of lines, and of the lines that are kept. *)
Definition text (lines : list string) : string :=
  fold_right (fun line acc => line ++ String nl "" ++ acc) "" lines.
Definition kept (lines : list string) : list string := base.filter (fun line => skipped line = false) lines.

(** A statement read from its first line: the cut falls on its last line and on
    no line before it. [d] is [inDollar] at its start. *)
Fixpoint complete_from (d : bool) (p : list string) : bool :=
  match p with
  | [] => false
  | line :: p =>
      let d := if toggles line then negb d else d in
      if negb d && ends_stmt line then bool_decide (p = []) else complete_from d p
  end.

(** Lines that end no statement. *)
Fixpoint unfinished_from (d : bool) (p : list string) : bool :=
  match p with
  | [] => true
  | line :: p =>
      let d := if toggles line then negb d else d in
      negb (negb d && ends_stmt line) && unfinished_from d p
  end.

Lemma text_nil p : Forall (fun line => skipped line = false) p -> trim_space (text p) = "" -> p = [].
Proof.
  intros Hp. rewrite trim_space_nil. destruct Hp as [|line p Hl _]; [done|]. cbn.
  rewrite sall_app. intros [H _]%andb_true_iff. apply trim_space_nil in H.
  unfold skipped in Hl. by rewrite H in Hl.
Qed.

Lemma skip_step st line : skipped line = true -> split_step st line = st.
Proof. unfold split_step. by intros ->. Qed.

Lemma skip_steps lines st : Forall (fun line => skipped line = true) lines -> fold_left split_step lines st = st.
Proof. intros H. induction H as [|line lines Hl _ IH]; [done|]. cbn. by rewrite skip_step. Qed.

Lemma fold_kept lines st : fold_left split_step lines st = fold_left split_step (kept lines) st.
Proof.
  revert st. induction lines as [|line lines IH]; intros st; [done|]. unfold kept. rewrite filter_cons.
  destruct (skipped line) eqn:E; cbn.
  - rewrite skip_step by done. apply IH.
  - apply IH.
Qed.

(** Reading a complete statement adds it and leaves the loop ready for the next. *)
Lemma fold_complete p out c d :
  Forall (fun line => skipped line = false) p -> complete_from d p = true ->
  fold_left split_step p (mkSplitter out c d) = mkSplitter (out ++ [(c ++ text p)%string])%list "" false.
Proof.
  intros Hp. revert c d. induction Hp as [|line p Hl Hp IH]; intros c d; [done|]. cbn [complete_from fold_left].
  unfold split_step at 2. rewrite Hl. cbn [sp_out sp_cur sp_dollar].
  destruct (if toggles line then negb d else d) eqn:Ed; cbn [negb andb].
  - intros Hc. rewrite IH by done. cbn. by rewrite !sapp_assoc.
  - destruct (ends_stmt line).
    + intros ->%bool_decide_eq_true_1. cbn. done.
    + intros Hc. rewrite IH by done. cbn. by rewrite !sapp_assoc.
Qed.

(** Every list of lines is complete statements followed by lines that end none. *)
Lemma cut_lines d lines :
  (unfinished_from d lines = true) \/
  exists p rest, lines = (p ++ rest)%list /\ complete_from d p = true.
Proof.
  revert d. induction lines as [|line lines IH]; intros d; [by left|]. cbn [unfinished_from].
  destruct (negb (if toggles line then negb d else d) && ends_stmt line) eqn:E.
  - right. exists [line], lines. split; [done|]. cbn [complete_from]. by rewrite E.
  - destruct (IH (if toggles line then negb d else d)) as [H|(p & rest & -> & H)]; [by left|right].
    exists (line :: p), rest. split; [done|]. cbn [complete_from]. by rewrite E.
Qed.

Lemma complete_cons d p : complete_from d p = true -> p <> [].
Proof. by destruct p. Qed.

Lemma fold_unfinished p out c d :
  Forall (fun line => skipped line = false) p -> unfinished_from d p = true ->
  exists d', fold_left split_step p (mkSplitter out c d) = mkSplitter out (c ++ text p) d'.
Proof.
  intros Hp. revert c d. induction Hp as [|line p Hl Hp IH]; intros c d; cbn [unfinished_from fold_left].
  { intros _. exists d. by rewrite sapp_nil_r. }
  intros [E%negb_true_iff H]%andb_true_iff.
  unfold split_step at 2. rewrite Hl. cbn [sp_out sp_cur sp_dollar]. rewrite E.
  destruct (IH (c ++ line ++ String nl "") _ H) as [d' ->]. exists d'. f_equal. cbn. by rewrite !sapp_assoc.
Qed.

(** What [splitSQL] returns for any script: its kept lines, all of them and in
    order, cut after each line that completes a statement and nowhere else. *)
Lemma splitSQL_spec body :
  exists stmts rest,
    splitSQL body = text <$> (stmts ++ if bool_decide (rest = []) then [] else [rest])%list /\
    (List.concat stmts ++ rest)%list = kept (split_on nl body) /\
    Forall (fun p => complete_from false p = true) stmts /\ unfinished_from false rest = true.
Proof.
  unfold splitSQL. rewrite fold_kept.
  assert (Hk : Forall (fun line => skipped line = false) (kept (split_on nl body))).
  { apply Forall_forall. intros x [Hx _]%list_elem_of_filter. done. }
  set (lines := kept (split_on nl body)) in *.
  assert (Hgen : forall n lines out, (List.length lines < n)%nat -> Forall (fun line => skipped line = false) lines ->
    exists stmts rest d,
      fold_left split_step lines (mkSplitter out "" false) = mkSplitter (out ++ (text <$> stmts))%list (text rest) d /\
      (List.concat stmts ++ rest)%list = lines /\ Forall (fun p => complete_from false p = true) stmts /\
      unfinished_from false rest = true).
  { clear. induction n as [|n IH]; intros lines out Hn Hk; [lia|].
    destruct (cut_lines false lines) as [Hu|(p & rest & -> & Hc)].
    - destruct (fold_unfinished lines out "" false Hk Hu) as [d E]. exists [], lines, d.
      rewrite E, app_nil_r. by repeat split.
    - apply Forall_app in Hk as [Hp Hr]. rewrite fold_left_app, (fold_complete p out "" false Hp Hc).
      assert (List.length p <> 0%nat) by (destruct p; done). rewrite length_app in Hn.
      destruct (IH rest (out ++ [("" ++ text p)%string])%list) as (stmts & last & d & E & Ec & Hs & Hu); [lia|done|].
      exists (p :: stmts), last, d. rewrite E. cbn. rewrite <- !app_assoc, Ec. repeat split; [by constructor|done]. }
  destruct (Hgen _ lines [] (Nat.lt_succ_diag_r _) Hk) as (stmts & rest & d & E & Ec & Hs & Hu).
  rewrite E. cbn [sp_cur sp_out]. exists stmts, rest. split; [|done].
  rewrite <- Ec in Hk. apply Forall_app in Hk as [_ Hr].
  rewrite fmap_app. destruct rest as [|line rest].
  - cbn. by rewrite app_nil_r.
  - rewrite (bool_decide_false (line :: rest = [])) by done.
    rewrite bool_decide_eq_false_2; [done|]. intros H. by apply text_nil in H.
Qed.

(** A script: statements, each with the comments and blank lines before it. *)
Definition script_lines (script : list (list string * list string)) : list string :=
  List.concat ((fun b => b.1 ++ b.2)%list <$> script).

Definition script_ok (script : list (list string * list string)) : Prop :=
  Forall (fun line => sall (fun c => negb (Ascii.eqb c nl)) line = true) (script_lines script) /\
  Forall (fun b => Forall (fun line => skipped line = true) b.1 /\
                   Forall (fun line => skipped line = false) b.2 /\ complete_from false b.2 = true) script.

Lemma script_pieces script out :
  Forall (fun b => Forall (fun line => skipped line = true) b.1 /\
                   Forall (fun line => skipped line = false) b.2 /\ complete_from false b.2 = true) script ->
  fold_left split_step (script_lines script) (mkSplitter out "" false) =
  mkSplitter (out ++ (text <$> script.*2))%list "" false.
Proof.
  intros H. revert out. induction H as [|[noise p] script (Hn & Hp & Hc) _ IH]; intros out.
  { by rewrite app_nil_r. }
  change (script_lines ((noise, p) :: script)) with ((noise ++ p) ++ script_lines script)%list.
  cbn [fst snd] in *. rewrite !fold_left_app, (skip_steps noise), (fold_complete p), IH by done. cbn. by rewrite <- app_assoc.
Qed.

(** Splitting a script written from statements gives back exactly those
    statements, in order: comments and blank lines are dropped, a [$$]-quoted body
    with semicolons of its own stays in one piece. *)
Theorem splitSQL_reads_back script :
  script <> [] -> script_ok script ->
  splitSQL (join (String nl "") (script_lines script)) = text <$> script.*2.
Proof.
  intros Hne [Hnl Hok]. unfold splitSQL. rewrite split_on_join.
  - rewrite script_pieces by done. done.
  - destruct Hok as [|[noise p] script (_ & _ & Hc)]; [done|].
    destruct noise; [|done]. by destruct p.
  - done.
Qed.

(** ** Lemmas: migrations *)

Section MigrateProofs.
Context {D : Type} (files : list (string * string)).
Implicit Types (w : MigWorld D) (db : MigDB D).

(** The migrations a start still has to run, and the statements of a list of them. *)
Definition pending (versions names : list string) : list string :=
  base.filter (fun name => name ∉ versions) names.
Definition stmts_of (names : list string) : list string :=
  List.concat ((fun name => splitSQL (ReadFile files name)) <$> names).

Lemma exec_stmts_spec w name stmts db :
  let '(db', e) := exec_stmts w name stmts db in
  md_versions db' = md_versions db /\
  exists k, md_log db' = (md_log db ++ take k stmts)%list /\ (e = None -> take k stmts = stmts).
Proof.
  revert db. induction stmts as [|stmt stmts IH]; intros db; cbn.
  { split; [done|]. exists 0%nat. by rewrite app_nil_r. }
  destruct (mw_exec w (md_schema db) stmt) as [d [err|]]; cbn.
  { split; [done|]. by exists 1%nat. }
  specialize (IH (mkMigDB d (md_versions db) (md_log db ++ [stmt])%list)).
  destruct (exec_stmts w name stmts _) as [db' e]. destruct IH as (-> & k & -> & Hk). split; [done|].
  exists (Datatypes.S k). cbn. rewrite <- app_assoc. split; [done|]. intros He. by rewrite Hk.
Qed.

Lemma pending_app versions names name :
  name ∉ names -> pending (versions ++ [name])%list names = pending versions names.
Proof.
  intros Hn. unfold pending. induction names as [|x names IH]; [done|].
  apply not_elem_of_cons in Hn as [Hx Hn]. rewrite !filter_cons, IH by done.
  assert (H : x ∉ (versions ++ [name])%list <-> x ∉ versions).
  { rewrite not_elem_of_app, list_elem_of_singleton. naive_solver. }
  destruct (decide (x ∉ versions)), (decide (x ∉ (versions ++ [name])%list)); tauto || done.
Qed.

(** One start: some of the pending migrations are run and recorded, in order; the
    next one may have run in part; an error-free start has run them all. *)
Record start_outcome (names : list string) db (db' : MigDB D) (e : option string) (done rest : list string) : Prop := {
  so_split : pending (md_versions db) names = (done ++ rest)%list;
  so_versions : md_versions db' = (md_versions db ++ done)%list;
  so_log : exists k, md_log db' = (md_log db ++ stmts_of done ++
                       take k (default [] ((fun name => splitSQL (ReadFile files name)) <$> head rest)))%list;
  so_done : e = None -> rest = [] /\ md_log db' = (md_log db ++ stmts_of done)%list
}.

Lemma migrate_each_spec w names db :
  NoDup names -> exists done rest, start_outcome names db (migrate_each files w names db).1 (migrate_each files w names db).2 done rest.
Proof.
  intros Hnd. revert db. induction Hnd as [|name names Hn Hnd IH]; intros db.
  { exists [], []. cbn. split; cbn; rewrite ?app_nil_r; try done. by exists 0%nat; rewrite app_nil_r. }
  cbn [migrate_each]. destruct (mw_check w name) as [err|].
  { exists [], (pending (md_versions db) (name :: names)). split; cbn; rewrite ?app_nil_r; try done.
    by exists 0%nat; rewrite app_nil_r. }
  destruct (decide (name ∈ md_versions db)) as [Hin|Hin].
  { rewrite bool_decide_eq_true_2 by done. destruct (IH db) as (dn & rest & [H1 H2 H3 H4]).
    exists dn, rest. split; try done. unfold pending in *. rewrite filter_cons_False; [done|tauto]. }
  rewrite bool_decide_eq_false_2 by done.
  assert (Ep : pending (md_versions db) (name :: names) = name :: pending (md_versions db) names).
  { unfold pending. by rewrite filter_cons_True. }
  pose proof (exec_stmts_spec w name (splitSQL (ReadFile files name)) db) as Hs.
  destruct (exec_stmts w name _ db) as [db1 [err|]]; destruct Hs as (Ev & k & El & Hk).
  { exists [], (name :: pending (md_versions db) names). split; cbn; rewrite ?app_nil_r; try done. by exists k. }
  specialize (Hk eq_refl). rewrite Hk in El.
  destruct (mw_record w name) as [err|].
  { exists [], (name :: pending (md_versions db) names). split; cbn; rewrite ?app_nil_r; try done.
    exists (List.length (splitSQL (ReadFile files name))). by rewrite firstn_all. }
  set (db2 := mkMigDB (md_schema db1) (md_versions db1 ++ [name])%list (md_log db1)).
  destruct (IH db2) as (dn & rest & [H1 H2 (k' & H3) H4]). exists (name :: dn), rest. unfold db2 in *.
  cbn [md_versions md_log fst snd] in H1, H2, H3, H4 |- *. split.
  - rewrite Ep. cbn. f_equal. rewrite <- H1, Ev. by rewrite pending_app.
  - by rewrite H2, Ev, <- app_assoc.
  - exists k'. rewrite H3, El. unfold stmts_of. cbn. by rewrite <- !app_assoc.
  - intros He. destruct (H4 He) as [-> Hl]. split; [done|]. rewrite Hl, El. unfold stmts_of. cbn. by rewrite <- !app_assoc.
Qed.

Lemma migrate_spec w db :
  NoDup files.*1 ->
  exists done rest, start_outcome (ups files) db (Migrate files w db).1 (Migrate files w db).2 done rest.
Proof.
  intros Hnd. unfold Migrate. destruct (mw_create w).
  - exists [], (pending (md_versions db) (ups files)). split; cbn; rewrite ?app_nil_r; try done.
    by exists 0%nat; rewrite app_nil_r.
  - apply migrate_each_spec. unfold ups, sort_strings. rewrite merge_sort_Permutation. by apply NoDup_filter.
Qed.

Definition starts (ws : list (MigWorld D)) db : MigDB D := fold_left (fun db w => (Migrate files w db).1) ws db.

(** A start during which the database answers everything. *)
Definition answers w : Prop :=
  mw_create w = None /\ (forall name, mw_check w name = None) /\ (forall name, mw_record w name = None) /\
  (forall d stmt, (mw_exec w d stmt).2 = None).

Lemma exec_stmts_answers w name stmts db : answers w -> (exec_stmts w name stmts db).2 = None.
Proof.
  intros (_ & _ & _ & He). revert db. induction stmts as [|stmt stmts IH]; intros db; [done|]. cbn.
  specialize (He (md_schema db) stmt). destruct (mw_exec w (md_schema db) stmt) as [d e]. cbn in He. subst e. apply IH.
Qed.

Lemma Migrate_answers w db : answers w -> (Migrate files w db).2 = None.
Proof.
  intros Ha. pose proof Ha as (Hc & Hk & Hr & _). unfold Migrate. rewrite Hc. generalize (ups files) as names.
  intros names. revert db. induction names as [|name names IH]; intros db; [done|]. cbn. rewrite Hk.
  case_goal; [apply IH|]. pose proof (exec_stmts_answers w name (splitSQL (ReadFile files name)) db Ha) as He.
  destruct (exec_stmts w name _ db) as [db1 e]. cbn in He. subst e. rewrite Hr. apply IH.
Qed.

Lemma pending_none versions names : (forall x, x ∈ names -> x ∈ versions) -> pending versions names = [].
Proof.
  intros H. unfold pending. induction names as [|x names IH]; [done|].
  rewrite filter_cons_False by (intros Hx; apply Hx, H; left). apply IH. intros y Hy. apply H. by right.
Qed.

Lemma pending_all versions names : (forall x, x ∈ names -> x ∉ versions) -> pending versions names = names.
Proof.
  intros H. unfold pending. induction names as [|x names IH]; [done|].
  rewrite filter_cons_True by (apply H; left). f_equal. apply IH. intros y Hy. apply H. by right.
Qed.

Lemma pending_take k names : NoDup names -> pending (take k names) names = drop k names.
Proof.
  intros Hnd. transitivity (pending (take k names) (take k names ++ drop k names)%list); [by rewrite take_drop|].
  transitivity (pending (take k names) (take k names) ++ pending (take k names) (drop k names))%list.
  { unfold pending. by rewrite filter_app. }
  rewrite pending_none, pending_all; [done|..]; [|done].
  intros x Hd Ht. rewrite <- (take_drop k names) in Hnd. apply NoDup_app in Hnd as (_ & Hx & _). by apply (Hx x).
Qed.

Lemma ups_NoDup : NoDup files.*1 -> NoDup (ups files).
Proof. intros H. unfold ups, sort_strings. rewrite merge_sort_Permutation. by apply NoDup_filter. Qed.

(** A prefix of the migrations stays one over a start. *)
Lemma start_prefix w db k :
  NoDup files.*1 -> md_versions db = take k (ups files) ->
  exists k', md_versions (Migrate files w db).1 = take k' (ups files).
Proof.
  intros Hnd Hv. destruct (migrate_spec w db Hnd) as (dn & rest & [H1 H2 _ _]).
  rewrite Hv, pending_take in H1 by by apply ups_NoDup.
  exists (List.length (take k (ups files) ++ dn)). rewrite H2, Hv.
  assert (E : ups files = ((take k (ups files) ++ dn) ++ rest)%list) by (by rewrite <- app_assoc, <- H1, take_drop).
  rewrite E at 3. by rewrite take_app_length.
Qed.

Lemma starts_prefix ws db :
  NoDup files.*1 -> md_versions db = [] -> exists k, md_versions (starts ws db) = take k (ups files).
Proof.
  intros Hnd Hv. assert (H0 : exists k, md_versions db = take k (ups files)) by (by exists 0%nat).
  clear Hv. unfold starts. revert db H0. induction ws as [|w ws IH]; intros db [k Hk]; cbn; [by exists k|].
  apply IH. by apply (start_prefix w db k).
Qed.

(** C24: Over any sequence of starts of a fresh database, whatever fails in them,
    the recorded migrations are an initial part of the embedded ones in the order
    of their names; a start that reports no error has recorded them all and has
    executed exactly the statements of those that were missing; later starts then
    execute nothing; and a start whose statements all succeed reports no error. *)
Theorem migrations_in_order ws w db :
  NoDup files.*1 -> md_versions db = [] ->
  let before := starts ws db in
  let '(after, e) := Migrate files w before in
  exists k,
    md_versions before = take k (ups files) /\
    (e = None -> md_versions after = ups files /\
                 md_log after = (md_log before ++ stmts_of (drop k (ups files)))%list /\
                 forall w', (Migrate files w' after).1 = after) /\
    (answers w -> e = None).
Proof.
  intros Hnd Hv before. destruct (Migrate files w before) as [after e] eqn:E.
  destruct (starts_prefix ws db Hnd Hv) as [k Hk]. exists k. split; [done|]. split.
  - intros ->. destruct (migrate_spec w before Hnd) as (dn & rest & [H1 H2 H3 H4]). rewrite E in H2, H3, H4.
    destruct (H4 eq_refl) as [-> Hl]. fold before in Hk. rewrite Hk, pending_take in H1 by by apply ups_NoDup.
    rewrite app_nil_r in H1. cbn [fst] in *. rewrite Hk, <- H1, take_drop in H2. split_and!; [done|by rewrite H1|].
    intros w'. unfold Migrate. destruct (mw_create w'); [done|].
    assert (Hsub : forall names, (forall x, x ∈ names -> x ∈ md_versions after) -> (migrate_each files w' names after).1 = after).
    { induction names as [|x names IH]; intros Hx; [done|]. cbn. destruct (mw_check w' x); [done|].
      rewrite bool_decide_eq_true_2; [apply IH|]; set_solver. }
    apply Hsub. intros x Hx. by rewrite H2.
  - intros Ha%(Migrate_answers w before). by rewrite E in Ha.
Qed.
End MigrateProofs.

(** ** Examples *)

Definition ex_script : list (list string * list string) :=
  [(["-- tables"; ""], ["CREATE TABLE a ("; "  id INT"; ");"]);
   ([], ["DO $$"; "BEGIN"; "  x := 1;"; "END"; "$$;"]);
   (["  -- last"], ["DROP TABLE b;"])].

Lemma splitSQL_reads_back_witness :
  splitSQL (join (String nl "") (script_lines ex_script)) = text <$> ex_script.*2.
Proof.
  apply (splitSQL_reads_back ex_script); [discriminate|].
  split; repeat first [apply Forall_nil | apply Forall_cons | split | reflexivity].
Defined.

(** A quoted body opened and closed on one line leaves the loop inside it: the
    next statement is not cut off. *)
Lemma one_line_body_swallows :
  splitSQL (text ["DO $$ BEGIN x := 1; END $$;"; "DROP TABLE b;"; "DROP TABLE c;"]) =
  [text ["DO $$ BEGIN x := 1; END $$;"; "DROP TABLE b;"; "DROP TABLE c;"]].
Proof. vm_compute. reflexivity. Qed.

Definition ex_files : list (string * string) :=
  [("0002_b.up.sql", text ["B1;"; "B2;"]); ("0001_a.up.sql", text ["A1;"]); ("0001_a.down.sql", "X;")].

(** The second statement of the second migration fails once. *)
Definition ex_fails : MigWorld nat :=
  mkMigWorld None (fun _ => None) (fun _ => None)
    (fun d s => if s ==? text ["B2;"] then (d, Some "lock timeout") else (Datatypes.S d, None)).
Definition ex_answers : MigWorld nat :=
  mkMigWorld None (fun _ => None) (fun _ => None) (fun d _ => (Datatypes.S d, None)).

Lemma migrations_in_order_witness :
  let before := starts ex_files [ex_fails] (mkMigDB 0%nat [] []) in
  let '(after, e) := Migrate ex_files ex_answers before in
  exists k,
    md_versions before = take k (ups ex_files) /\
    (e = None -> md_versions after = ups ex_files /\
                 md_log after = (md_log before ++ stmts_of ex_files (drop k (ups ex_files)))%list /\
                 forall w', (Migrate ex_files w' after).1 = after) /\
    (answers ex_answers -> e = None).
Proof.
  apply (migrations_in_order ex_files [ex_fails] ex_answers (mkMigDB 0%nat [] [])).
  - apply (bool_decide_unpack _). vm_compute. exact I.
  - reflexivity.
Defined.

(** A migration is not one transaction: after a failure half way the next start
    executes its first statements again. *)
Lemma partial_migration_reruns :
  let db := starts ex_files [ex_fails] (mkMigDB 0%nat [] []) in
  md_versions db = ["0001_a.up.sql"] /\ md_log db = text <$> [["A1;"]; ["B1;"]; ["B2;"]] /\
  md_log (Migrate ex_files ex_answers db).1 = text <$> [["A1;"]; ["B1;"]; ["B2;"]; ["B1;"]; ["B2;"]].
Proof. vm_compute. auto. Qed.

(** ** The seeded administrator *)

Definition SeededAdminUsername : string := "admin".
Definition dq : string := String "034" "".

(** The UPDATE: the row of that name whose hash is still blank. *)
Definition set_password (hash salt : string) (u : User) : User :=
  if (User_Username u ==? SeededAdminUsername) && (User_PasswordHash u ==? "")
  then mkUser (User_ID u) (User_Username u) (User_Role u) (User_Email u) (User_NotifyOptIn u) hash salt (User_CreatedAt u)
  else u.

(** [salt] is what [auth.NewSalt] returns, [exec_err] the error of the UPDATE. *)
Definition EnsureSeededAdmin (salt : result string string) (exec_err : option string) (password : string) (db : TenancyDB)
  : TenancyDB * option string :=
  match GetUserByUsername db SeededAdminUsername with
  | None => (db, Some ("seeded admin user " ++ dq ++ SeededAdminUsername ++ dq ++ " is missing; run database migrations"))
  | Some u =>
      if User_PasswordHash u !=? "" then (db, None)
      else if negb (ValidateBootstrapPassword password)
      then (db, Some "seeded admin password is not initialized: bootstrap admin password must be at least 12 characters")
      else
        match salt with
        | Err e => (db, Some ("generate seeded admin salt: " ++ e))
        | Ok salt =>
            match exec_err with
            | Some e => (db, Some ("initialize seeded admin password: " ++ e))
            | None => (with_users (set_password (HashPassword password salt) salt <$> users db) db, None)
            end
        end
  end.

Lemma set_password_name hash salt u : User_Username (set_password hash salt u) = User_Username u.
Proof. unfold set_password. by case_goal. Qed.

Lemma find_set_password hash salt l name :
  find_first (fun u => User_Username u ==? name) (set_password hash salt <$> l) =
  set_password hash salt <$> find_first (fun u => User_Username u ==? name) l.
Proof.
  rewrite find_first_fmap. f_equal. induction l as [|u l IH]; [done|]. cbn. by rewrite set_password_name, IH.
Qed.

Lemma hash_nonempty password salt : HashPassword password salt <> "".
Proof. intros E. destruct (hash_hex_wf (salt ++ password)) as [Hl _]. unfold HashPassword in E. by rewrite E in Hl. Qed.

(** The first administrator's password is set exactly once. When the row has
    no password yet and one of at least twelve characters is given, the given
    password is then accepted for the administrator and every other account is
    untouched; after that no later start changes any account, whatever password it
    is given. *)
Theorem seeded_admin_once salt password db u :
  GetUserByUsername db SeededAdminUsername = Some u -> User_PasswordHash u = "" ->
  ValidateBootstrapPassword password = true -> salt <> "" ->
  let '(db', e) := EnsureSeededAdmin (Ok salt) None password db in
  e = None /\
  (exists u', GetUserByUsername db' SeededAdminUsername = Some u' /\ User_ID u' = User_ID u /\ User_Role u' = User_Role u /\
              VerifyPassword password (User_Salt u') (User_PasswordHash u') = true) /\
  (forall name, name <> SeededAdminUsername -> GetUserByUsername db' name = GetUserByUsername db name) /\
  (forall salt2 exec_err password2, EnsureSeededAdmin salt2 exec_err password2 db' = (db', None)).
Proof.
  intros Hu Hblank Hp Hs. unfold EnsureSeededAdmin at 1. rewrite Hu, (bool_decide_true (User_PasswordHash u = "")), Hp by done.
  cbn [negb].
  assert (Hq : q_ok db QUser = true) by (unfold GetUserByUsername in Hu; by destruct (q_ok db QUser)).
  assert (Hn : User_Username u = SeededAdminUsername).
  { unfold GetUserByUsername in Hu. rewrite Hq in Hu. apply find_first_In in Hu as [_ Hk]. by bools. }
  set (hash := HashPassword password salt). set (db' := with_users (set_password hash salt <$> users db) db).
  assert (Hg : forall name, GetUserByUsername db' name = set_password hash salt <$> GetUserByUsername db name).
  { intros name. unfold GetUserByUsername, db'. cbn. rewrite Hq. apply find_set_password. }
  set (u' := mkUser (User_ID u) (User_Username u) (User_Role u) (User_Email u) (User_NotifyOptIn u) hash salt (User_CreatedAt u)).
  assert (Hu' : GetUserByUsername db' SeededAdminUsername = Some u').
  { rewrite Hg, Hu. cbn. unfold set_password. by rewrite (bool_decide_true (User_Username u = _)), (bool_decide_true (User_PasswordHash u = "")). }
  split_and!; [done| | |].
  - exists u'. split_and!; [done|done|done|]. apply VerifyPassword_spec. split_and!; [|done|done].
    intros ->. unfold ValidateBootstrapPassword in Hp. discriminate Hp.
  - intros name Hne. rewrite Hg. destruct (GetUserByUsername db name) as [x|] eqn:Ex; [|done]. cbn.
    assert (Hx : User_Username x = name).
    { unfold GetUserByUsername in Ex. rewrite Hq in Ex. apply find_first_In in Ex as [_ Hk]. by bools. }
    unfold set_password. by rewrite (bool_decide_false (User_Username x = _)) by congruence.
  - intros salt2 exec_err password2. unfold EnsureSeededAdmin. rewrite Hu'.
    rewrite (bool_decide_false (User_PasswordHash u' = "")) by apply hash_nonempty. done.
Qed.

Definition ex_admin : User := mkUser "u1" "admin" "admin" "" false "" "" 0.
Definition ex_tenancy : TenancyDB := mkTenancy (fun _ => true) [] [] [] [] [] [] [] [] [] [ex_admin] [] [].

Lemma seeded_admin_once_witness :
  let '(db', e) := EnsureSeededAdmin (Ok "00ff") None "correct horse" ex_tenancy in
  e = None /\
  (exists u', GetUserByUsername db' SeededAdminUsername = Some u' /\ User_ID u' = User_ID ex_admin /\ User_Role u' = User_Role ex_admin /\
              VerifyPassword "correct horse" (User_Salt u') (User_PasswordHash u') = true) /\
  (forall name, name <> SeededAdminUsername -> GetUserByUsername db' name = GetUserByUsername ex_tenancy name) /\
  (forall salt2 exec_err password2, EnsureSeededAdmin salt2 exec_err password2 db' = (db', None)).
Proof.
  apply (seeded_admin_once "00ff" "correct horse" ex_tenancy ex_admin); [reflexivity|reflexivity|reflexivity|discriminate].
Defined.
