(* ===== verification/Durable.v ===== *)
(** * Durable logs, samples and records ([store/store.go]), and the traffic purge

    The tables behind build logs, metrics, health events, traffic logs, feedback and
    DNS records: one function per statement, under the constraints of the
    migrations. A row refers to projects, replicas and builds of the store, which is
    an argument. Where a statement orders by a time that may repeat, the order of
    equal times is open: it is the function the statement is given. The purge of a
    project's traffic works on the rings of the store. *)
From S2P Require Import Prelude GoStrings GoNum Types Gateway Store Controllers Pool Projects Analytics.
From Stdlib Require Import String Ascii.

Open Scope string_scope.
Open Scope Z_scope.

(** ** Tables *)

(** [bl_build] is "" where the column is NULL; rows are in the order of their id. *)
Record BuildLine := mkBuildLine { bl_project : string; bl_build : string; bl_line : string }.

(** A row of [traffic_logs]: [None] is NULL. *)
Record TrafficRow := mkTrafficRow { tr_vm : string; tr_project : option string; tr_entry : TrafficEntry }.

Record Durable := mkDurable {
  build_logs : list BuildLine;
  metrics_samples : list MetricSample;
  health_events : list HealthEvent;
  traffic_logs : list TrafficRow;
  feedback : list Feedback;
  dns_records : list DNSRecord
}.

Definition with_build_logs l d := mkDurable l (metrics_samples d) (health_events d) (traffic_logs d) (feedback d) (dns_records d).
Definition with_metrics l d := mkDurable (build_logs d) l (health_events d) (traffic_logs d) (feedback d) (dns_records d).
Definition with_health_events l d := mkDurable (build_logs d) (metrics_samples d) l (traffic_logs d) (feedback d) (dns_records d).
Definition with_traffic_logs l d := mkDurable (build_logs d) (metrics_samples d) (health_events d) l (feedback d) (dns_records d).
Definition with_feedback l d := mkDurable (build_logs d) (metrics_samples d) (health_events d) (traffic_logs d) l (dns_records d).
Definition with_dns_records l d := mkDurable (build_logs d) (metrics_samples d) (health_events d) (traffic_logs d) (feedback d) l.

Definition durable0 : Durable := mkDurable [] [] [] [] [] [].

(** The references of the tables: a project that is there, a replica or NULL, a
    build or NULL. *)
Definition is_project (s : StoreState) (id : string) : bool := (id !=? "") && project_ref s id.
Definition vm_ref (s : StoreState) (id : string) : bool :=
  (id ==? "") || existsb (fun vm => VM_ID vm ==? id) (replicas s).
Definition build_ref (s : StoreState) (id : string) : bool :=
  (id ==? "") || existsb (fun b => Bld_ID b ==? id) (builds s).

(** ** Build logs *)

Definition AppendBuildLogFor (s : StoreState) (projectID buildID line : string) (d : Durable) : Durable :=
  if is_project s projectID && build_ref s buildID
  then with_build_logs (build_logs d ++ [mkBuildLine projectID buildID line])%list d else d.

Definition AppendBuildLog (s : StoreState) (projectID line : string) (d : Durable) : Durable :=
  AppendBuildLogFor s projectID "" line d.

(** The newest [n] by id, oldest first. *)
Definition tail_rows {A} (n : Z) (l : list A) : list A := lastn (Z.to_nat (if n <=? 0 then 200 else n)) l.

Definition TailBuildLogs (projectID : string) (n : Z) (d : Durable) : list string :=
  bl_line <$> tail_rows n (base.filter (fun r => bl_project r = projectID) (build_logs d)).

(** A NULL [build_id] equals no argument. *)
Definition TailBuildLogsFor (projectID buildID : string) (n : Z) (d : Durable) : list string :=
  bl_line <$> tail_rows n (base.filter (fun r => bl_project r = projectID /\ bl_build r = buildID /\ buildID <> "") (build_logs d)).

(** ** Metrics and health events *)

(** An error of the statement is returned. *)
Definition AddMetric (s : StoreState) (m : MetricSample) (d : Durable) : Durable * bool :=
  if vm_ref s (Met_VMID m) then (with_metrics (metrics_samples d ++ [m])%list d, true) else (d, false).

Section Listings.
(** [ORDER BY ts DESC]: some sort of the rows by decreasing time. *)
Context (order_metrics : list MetricSample -> list MetricSample) (order_events : list HealthEvent -> list HealthEvent).

Definition limit_or (n dflt : Z) : nat := Z.to_nat (if n <=? 0 then dflt else n).

Definition ListMetrics (vmID : string) (limit : Z) (d : Durable) : list MetricSample :=
  take (limit_or limit 100) (order_metrics (base.filter (fun m => Met_VMID m = vmID /\ vmID <> "") (metrics_samples d))).

Definition AddHealthEvent (s : StoreState) (e : HealthEvent) (d : Durable) : Durable * bool :=
  if vm_ref s (HE_VMID e) && project_ref s (HE_ProjectID e)
  then (with_health_events (health_events d ++ [e])%list d, true) else (d, false).

Definition ListHealthEvents (projectID : string) (limit : Z) (d : Durable) : list HealthEvent :=
  take (limit_or limit 50) (order_events (base.filter (fun e => HE_ProjectID e = projectID /\ projectID <> "") (health_events d))).
End Listings.

(** ** Traffic logs *)

(** [persistTraffic]: the INSERT names no project, so that column is NULL. [ok] is
    whether the statement succeeded within its three seconds. *)
Definition persistTraffic (ok : bool) (vmID : string) (e : TrafficEntry) (d : Durable) : Durable :=
  let e := if TE_Method e ==? "" then mkTrafficEntry (TE_Timestamp e) "GET" (TE_Host e) (TE_Path e) (TE_Status e)
                                        (TE_DurationMS e) (TE_RemoteIP e) (TE_BytesIn e) (TE_BytesOut e) else e in
  if ok then with_traffic_logs (traffic_logs d ++ [mkTrafficRow vmID None e])%list d else d.

Definition AddTraffic (ok : bool) (vmID : string) (e : TrafficEntry) (sd : StoreState * Durable) : StoreState * Durable :=
  (Store_AddTraffic sd.1 vmID e, persistTraffic ok vmID e sd.2).

(** The columns read back: the byte counts are not stored. *)
Definition logged_entry (e : TrafficEntry) : TrafficEntry :=
  mkTrafficEntry (TE_Timestamp e) (TE_Method e) (TE_Host e) (TE_Path e) (TE_Status e) (TE_DurationMS e) (TE_RemoteIP e) 0 0.

Definition ListTrafficLogs (order : list TrafficEntry -> list TrafficEntry) (projectID : string) (limit : Z) (d : Durable) : list TrafficEntry :=
  let limit := if (limit <=? 0) || (2000 <? limit) then 200 else limit in
  take (Z.to_nat limit)
    (order (logged_entry ∘ tr_entry <$> base.filter (fun r => tr_project r = Some projectID /\ projectID <> "") (traffic_logs d))).

(** ** Purging a project's traffic *)

Definition ClearTrafficFor (vmIDs : list string) (s : StoreState) : StoreState :=
  with_traffic (fold_left (fun m id => delete id m) vmIDs (traffic s)) s.

(** One ring: the entries of other paths stay; an empty ring is removed. *)
Definition purge_ring (path : string) (acc : gmap string (list TrafficEntry) * Z) (vmID : string) : gmap string (list TrafficEntry) * Z :=
  let buf := default [] (acc.1 !! vmID) in
  let k := base.filter (fun e => TE_Path e <> path) buf in
  (match k with [] => delete vmID acc.1 | _ => <[vmID := k]> acc.1 end,
   acc.2 + (zlen buf - zlen k)).

Definition ClearTrafficForPath (projectID path : string) (s : StoreState) (d : Durable) : StoreState * Durable * Z :=
  let '(s, p) := GetProject projectID s in
  match p with
  | None => (s, d, 0)
  | Some proj =>
      let '(m, removed) := fold_left (purge_ring path) (Proj_VMIDs proj) (traffic s, 0) in
      (with_traffic m s,
       with_traffic_logs (base.filter (fun r => ~ (tr_project r = Some projectID /\ TE_Path (tr_entry r) = path)) (traffic_logs d)) d,
       removed)
  end.

Section Handlers.
Context {R : Type} (w : Wiring).
Implicit Types (a : API R) (d : Durable).

Definition handleCachePurge (projectID : string) a : API R * Resp :=
  let '(a, p) := get_project projectID a in
  let a := match p with Some proj => on_store (ClearTrafficFor (Proj_VMIDs proj)) a | None => a end in
  let a := AppendDaemonLog ("cache purged for project " ++ projectID) a in
  let a := Broadcast "cache.purged" (JObj [("project_id", JStr projectID)]) a in
  (a, writeJSON 200 (JObj [("status", JStr "cache purged"); ("project_id", JStr projectID)])).

Definition handleCachePurgePath (projectID : string) (body : result string string) a d : API R * Durable * Resp :=
  match body with
  | Err e => (a, d, writeError 400 ("bad request: " ++ e))
  | Ok path =>
      let '(s, d, removed) := ClearTrafficForPath projectID path (store a) d in
      let a := AppendDaemonLog ("cache path purge for project " ++ projectID ++ ": " ++ path ++ " (" ++ Itoa removed ++ " entries removed)")
                 (with_store s a) in
      (a, d, writeJSON 200 (JObj [("status", JStr "path purged"); ("path", JStr path); ("project_id", JStr projectID);
                                  ("removed", JInt removed)]))
  end.

(** The hit rate of the cache, from the redirects among the recent entries. *)
Definition is_hit (e : TrafficEntry) : bool := (300 <=? TE_Status e) && (TE_Status e <? 400).

Definition handleCacheStats (projectID : string) (s : StoreState) : float64 * Z * Z :=
  let tr := projectTraffic projectID 300 s in
  let hits := zlen (base.filter (fun e => is_hit e = true) tr) in
  let total := zlen tr in
  (if 0 <? total then fmul (fdiv (f_of_Z hits) (f_of_Z total)) (f_of_Z 100) else f_of_Z 0, total, hits).

Definition handleAllTraffic (s : StoreState) : Resp :=
  writeJSON 200 (JTraffic (Store_ListVMs s ≫= fun vm => ListTraffic s (VM_ID vm) 100)).

Definition handleClearTraffic a : API R * Resp :=
  (on_store ClearTraffic a, writeJSON 200 (JObj [("status", JStr "cleared")])).

(** The method is compared with the lower-cased query as it is. *)
Definition traffic_match (q : string) (e : TrafficEntry) : bool :=
  (q ==? "") || contains (to_lower (TE_Path e)) q || contains (to_lower (TE_Host e)) q || contains (TE_Method e) q.

Definition handleTrafficSearch (query : string) (s : StoreState) : Resp :=
  let q := to_lower query in
  writeJSON 200 (JObj [("results", JTraffic (Store_ListVMs s ≫= fun vm =>
                          base.filter (fun e => traffic_match q e = true) (ListTraffic s (VM_ID vm) 100)));
                       ("query", JStr q)]).

Definition handleProjectTraffic (projectID : string) a : API R * Resp :=
  let '(a, p) := get_project projectID a in
  match p with
  | None => (a, writeError 404 "project not found")
  | Some proj => (a, writeJSON 200 (JTraffic (Proj_VMIDs proj ≫= fun vid => ListTraffic (store a) vid 100)))
  end.

(** ** DNS records *)

Definition same_record (r x : DNSRecord) : bool := (Rec_ProjectID x ==? Rec_ProjectID r) && (Rec_Name x ==? Rec_Name r).

(** A conflict on project and name rewrites type, value and time to live; a used
    identifier, a missing project and a time to live beyond 32 bits are errors. *)
Definition AddDNSRecord (s : StoreState) (r : DNSRecord) d : Durable * bool :=
  if negb (is_project s (Rec_ProjectID r) && int4 (Rec_TTL r)) then (d, false)
  else if existsb (same_record r) (dns_records d) then
    (with_dns_records ((fun x => if same_record r x
       then mkDNSRecord (Rec_ID x) (Rec_ProjectID x) (Rec_Name x) (Rec_Type r) (Rec_Value r) (Rec_TTL r) (Rec_CreatedAt x)
       else x) <$> dns_records d) d, true)
  else if existsb (fun x => Rec_ID x ==? Rec_ID r) (dns_records d) then (d, false)
  else (with_dns_records (dns_records d ++ [r])%list d, true).

(** [ORDER BY name], in the collation of the database. *)
Definition ListDNSRecords (order : list DNSRecord -> list DNSRecord) (projectID : string) d : list DNSRecord :=
  order (base.filter (fun r => Rec_ProjectID r = projectID) (dns_records d)).

Definition RemoveDNSRecord (projectID name : string) d : Durable :=
  with_dns_records (base.filter (fun r => ~ (Rec_ProjectID r = projectID /\ Rec_Name r = name)) (dns_records d)) d.

(** ** Feedback *)

Definition PutFeedback (ok : bool) (f : Feedback) d : Durable :=
  if ok then with_feedback (feedback d ++ [f])%list d else d.

Definition ListFeedback (order : list Feedback -> list Feedback) (limit : Z) d : list Feedback :=
  let limit := if (limit <=? 0) || (500 <? limit) then 100 else limit in take (Z.to_nat limit) (order (feedback d)).

(** [userIDFromHeader]: the header is accepted when it names the caller. *)
Definition userIDFromHeader (username header : string) : string :=
  if username ==? "" then ""
  else if (header !=? "") && (header !=? username) then "" else username.

Definition handleFeedback (ok : bool) (now : Z) (username header : string)
    (req : result string (string * string * string * string)) a d : API R * Durable * Resp :=
  match req with
  | Err e => (a, d, writeError 400 ("bad request: " ++ e))
  | Ok (subject, message, category, projectID) =>
      if trim_space message ==? "" then (a, d, writeError 400 "message is required")
      else
        let category := if category ==? "" then "general" else category in
        let '(a, id) := fresh_id w a in
        let user := userIDFromHeader username header in
        let f := mkFeedback id subject message category user projectID now in
        (AppendDaemonLog ("feedback " ++ category ++ " from " ++ user ++ ": " ++ message) a, PutFeedback ok f d,
         writeJSON 201 (JObj [("status", JStr "received"); ("id", JStr id)]))
  end.

Definition handleListFeedback (order : list Feedback -> list Feedback) (limit : string) d : list Feedback :=
  ListFeedback order (if limit ==? "" then 100 else default 100 (Atoi limit)) d.
End Handlers.

(** ** Lemmas: logs *)

(** The lines written for a build, in order. *)
Definition lines_for (projectID buildID : string) (ops : list BuildLine) : list string :=
  bl_line <$> base.filter (fun r => bl_project r = projectID /\ bl_build r = buildID) ops.

Definition append_all (s : StoreState) (ops : list BuildLine) (d : Durable) : Durable :=
  fold_left (fun d r => AppendBuildLogFor s (bl_project r) (bl_build r) (bl_line r) d) ops d.

Lemma append_all_rows s ops d :
  build_logs (append_all s ops d) =
  (build_logs d ++ base.filter (fun r => is_project s (bl_project r) && build_ref s (bl_build r) = true) ops)%list.
Proof.
  unfold append_all. revert d. induction ops as [|[p b l] ops IH]; intros d; [by rewrite app_nil_r|].
  cbn [fold_left bl_project bl_build bl_line].
  rewrite IH. unfold AppendBuildLogFor. rewrite filter_cons. cbn [bl_project bl_build].
  destruct (is_project s p && build_ref s b); cbn; [|done]. by rewrite <- app_assoc.
Qed.

Lemma lastn_fmap {A B} (f : A -> B) n l : f <$> lastn n l = lastn n (f <$> l).
Proof. unfold lastn. by rewrite fmap_drop, length_fmap. Qed.

Lemma filter_and {A} (P Q : A -> Prop) `{forall x, Decision (P x), forall x, Decision (Q x)} (l : list A) :
  (forall x, P x -> Q x) -> base.filter P (base.filter Q l) = base.filter P l.
Proof.
  intros H1. induction l as [|x l IH]; [done|]. rewrite (filter_cons Q). destruct (decide (Q x)) as [Hq|Hq].
  - by rewrite !(filter_cons P), IH.
  - rewrite IH, (filter_cons_False P); [done|]. auto.
Qed.

(** The tail of a build's log is the end of the lines written for exactly that
    build, in the order they were written, whatever other builds of the project or
    other projects wrote in between. *)
Theorem build_log_tail s ops projectID buildID n :
  is_project s projectID = true -> buildID <> "" -> build_ref s buildID = true ->
  TailBuildLogsFor projectID buildID n (append_all s ops durable0) =
  tail_rows n (lines_for projectID buildID ops).
Proof.
  intros Hp Hb Hr. unfold TailBuildLogsFor, tail_rows, lines_for. rewrite append_all_rows, lastn_fmap. cbn [durable0 build_logs app].
  f_equal. f_equal. rewrite filter_and.
  - apply list_filter_iff. intros r. tauto.
  - intros r (-> & -> & _). by rewrite Hp, Hr.
Qed.

(** ** Lemmas: the purge *)

Definition ring (m : gmap string (list TrafficEntry)) (vmID : string) : list TrafficEntry := default [] (m !! vmID).
Definition of_path (path : string) (l : list TrafficEntry) : list TrafficEntry := base.filter (fun e => TE_Path e = path) l.
Definition not_path (path : string) (l : list TrafficEntry) : list TrafficEntry := base.filter (fun e => TE_Path e <> path) l.

Lemma purge_ring_rings path m n id vm :
  ring (purge_ring path (m, n) id).1 vm = if vm ==? id then not_path path (ring m id) else ring m vm.
Proof.
  unfold purge_ring, ring, not_path. cbn [fst]. set (k := base.filter (fun e => TE_Path e <> path) (default [] (m !! id))).
  destruct (decide (vm = id)) as [->|Hne].
  - rewrite bool_decide_eq_true_2 by done. destruct k; [by rewrite lookup_delete_eq|by rewrite lookup_insert_eq].
  - rewrite bool_decide_eq_false_2 by done. destruct k; [by rewrite lookup_delete_ne|by rewrite lookup_insert_ne].
Qed.

Lemma split_path path l : zlen l - zlen (not_path path l) = zlen (of_path path l).
Proof.
  unfold zlen, not_path, of_path. induction l as [|e l IH]; [done|]. rewrite !filter_cons.
  destruct (decide (TE_Path e = path)), (decide (TE_Path e <> path)); cbn [List.length]; try tauto; lia.
Qed.

Lemma not_path_idem path l : not_path path (not_path path l) = not_path path l.
Proof. unfold not_path. by apply filter_and. Qed.

Lemma purge_rings path ids m n vm :
  ring (fold_left (purge_ring path) ids (m, n)).1 vm = if bool_decide (vm ∈ ids) then not_path path (ring m vm) else ring m vm.
Proof.
  revert m n. induction ids as [|id ids IH]; intros m n; [done|]. cbn [fold_left].
  pose proof (purge_ring_rings path m n id vm) as Hr. destruct (purge_ring path (m, n) id) as [m1 n1]. cbn [fst] in Hr.
  rewrite IH, Hr. destruct (decide (vm = id)) as [->|Hne].
  - rewrite (bool_decide_true (id = id)), (bool_decide_true (id ∈ id :: ids)) by (done || left).
    destruct (bool_decide (id ∈ ids)); [apply not_path_idem|done].
  - rewrite (bool_decide_false (vm = id)) by done. rewrite (bool_decide_ext (vm ∈ id :: ids) (vm ∈ ids)); [done|]. set_solver.
Qed.

Lemma purge_count path ids m n :
  NoDup ids ->
  (fold_left (purge_ring path) ids (m, n)).2 = n + zlen (of_path path (ids ≫= ring m)).
Proof.
  intros Hnd. revert m n. induction Hnd as [|id ids Hid Hnd IH]; intros m n; cbn [fold_left]; [unfold zlen; cbn; lia|].
  pose proof (purge_ring_rings path m n id) as Hr.
  assert (E2 : (purge_ring path (m, n) id).2 = n + zlen (of_path path (ring m id))) by (cbn; by rewrite <- split_path).
  destruct (purge_ring path (m, n) id) as [m1 n1]. cbn [fst snd] in Hr, E2. rewrite IH, E2.
  assert (E : (ids ≫= ring m1) = (ids ≫= ring m)).
  { clear -Hr Hid. induction ids as [|x ids IH]; [done|]. apply not_elem_of_cons in Hid as [Hx Hid]. cbn.
    rewrite IH by done. rewrite Hr, bool_decide_eq_false_2 by congruence. done. }
  rewrite E. change ((id :: ids) ≫= ring m) with (ring m id ++ (ids ≫= ring m))%list.
  unfold of_path, zlen. rewrite filter_app, length_app. lia.
Qed.

(** A path purge removes from the rings of the project's replicas exactly the
    entries of that path and counts them; every other entry keeps its place, and
    the rings of every other VM are as before. *)
Theorem purge_path_exact projectID path s d proj :
  (GetProject projectID s).2 = Some proj -> NoDup (Proj_VMIDs proj) ->
  let '(s', _, removed) := ClearTrafficForPath projectID path s d in
  (forall vm, ring (traffic s') vm = if bool_decide (vm ∈ Proj_VMIDs proj) then not_path path (ring (traffic s) vm)
                                     else ring (traffic s) vm) /\
  removed = zlen (of_path path (Proj_VMIDs proj ≫= ring (traffic s))) /\
  replicas s' = replicas s /\ projects s' = projects s.
Proof.
  intros Hp Hnd. unfold ClearTrafficForPath.
  assert (Hf : forall t, t = GetProject projectID s -> traffic t.1 = traffic s /\ replicas t.1 = replicas s /\ projects t.1 = projects s).
  { intros t ->. unfold GetProject. repeat case_goal; done. }
  destruct (GetProject projectID s) as [s1 p]. cbn [snd] in Hp. subst p. destruct (Hf _ eq_refl) as (Et & Er & Ep). cbn [fst] in *.
  pose proof (purge_rings path (Proj_VMIDs proj) (traffic s1) 0) as Hr.
  pose proof (purge_count path (Proj_VMIDs proj) (traffic s1) 0 Hnd) as Hc.
  destruct (fold_left (purge_ring path) (Proj_VMIDs proj) (traffic s1, 0)) as [m n]. cbn [fst snd] in *.
  rewrite Et in Hr, Hc. split_and!; [exact Hr|lia|exact Er|exact Ep].
Qed.

Lemma no_project_rows projectID rows :
  Forall (fun r => tr_project r = None) rows ->
  base.filter (fun r => tr_project r = Some projectID /\ projectID <> "") rows = [].
Proof.
  intros H. induction H as [|r l Hr _ IH]; [done|]. rewrite filter_cons_False; [done|]. rewrite Hr. naive_solver.
Qed.

(** No row of [traffic_logs] names a project: the listing by project is empty, and
    the purge finds none to delete. *)
Lemma traffic_logs_never_found ops sd order projectID limit :
  (forall l, order l = [] <-> l = []) -> Forall (fun r => tr_project r = None) (traffic_logs sd.2) ->
  ListTrafficLogs order projectID limit (fold_left (fun sd o => AddTraffic o.1.1 o.1.2 o.2 sd) ops sd).2 = [].
Proof.
  intros Ho Hn.
  assert (H : Forall (fun r => tr_project r = None) (traffic_logs (fold_left (fun sd o => AddTraffic o.1.1 o.1.2 o.2 sd) ops sd).2)).
  { revert sd Hn. induction ops as [|[[ok vm] e] ops IH]; intros sd Hn; [done|]. cbn [fold_left]. apply IH.
    cbn. unfold persistTraffic. destruct ok; [|done]. cbn. apply Forall_app. by repeat constructor. }
  unfold ListTrafficLogs. rewrite no_project_rows by done. cbn [fmap list_fmap].
  rewrite (proj2 (Ho []) eq_refl). by rewrite take_nil.
Qed.

(** The query is lower-cased, the method is not: a search for a method finds it
    nowhere but in paths and hosts. *)
Lemma method_search_blind :
  traffic_match (to_lower "POST") (mkTrafficEntry 0 "POST" "a.test" "/x" 200 1 "" 0 0) = false.
Proof. reflexivity. Qed.

(** The aggregate is announced newest first; each ring comes oldest first. *)
Lemma all_traffic_oldest_first s vm e1 e2 :
  replicas s = [vm] -> traffic s !! VM_ID vm = Some [e1; e2] ->
  handleAllTraffic s = writeJSON 200 (JTraffic [e1; e2]).
Proof.
  intros Hr Ht. unfold handleAllTraffic, Store_ListVMs. rewrite Hr. cbn. unfold ListTraffic, TrafficRing_List, ring_buf.
  cbn [perVM]. by rewrite Ht.
Qed.

(** DNS records by project and name behave as a map. *)
Definition dns_lookup (projectID name : string) (d : Durable) : option (string * string * Z) :=
  (fun r => (Rec_Type r, Rec_Value r, Rec_TTL r)) <$>
  find_first (fun r => (Rec_ProjectID r ==? projectID) && (Rec_Name r ==? name)) (dns_records d).

Lemma dns_find_rewrite (f : DNSRecord -> DNSRecord) (l : list DNSRecord) p n :
  (forall x, Rec_ProjectID (f x) = Rec_ProjectID x /\ Rec_Name (f x) = Rec_Name x) ->
  find_first (fun r => (Rec_ProjectID r ==? p) && (Rec_Name r ==? n)) (f <$> l) =
  f <$> find_first (fun r => (Rec_ProjectID r ==? p) && (Rec_Name r ==? n)) l.
Proof.
  intros Hf. rewrite find_first_fmap. f_equal. induction l as [|x l IH]; [done|]. cbn. destruct (Hf x) as [-> ->].
  by rewrite IH.
Qed.

Lemma find_first_none {A} (q : A -> bool) (l : list A) : existsb q l = false -> find_first q l = None.
Proof. induction l as [|x l IH]; [done|]. cbn. intros [-> H]%orb_false_iff. by apply IH. Qed.

Lemma existsb_find {A} (q : A -> bool) (l : list A) : existsb q l = true -> exists x, find_first q l = Some x /\ q x = true.
Proof.
  induction l as [|x l IH]; [done|]. cbn. destruct (q x) eqn:E; cbn; [by exists x|]. done.
Qed.

(** A record that was accepted is what its name answers, and every other name
    answers as before; a refused one changes nothing. *)
Lemma dns_record_lookup s r d p n :
  let '(d', ok) := AddDNSRecord s r d in
  dns_lookup p n d' =
  if ok && (Rec_ProjectID r ==? p) && (Rec_Name r ==? n) then Some (Rec_Type r, Rec_Value r, Rec_TTL r) else dns_lookup p n d.
Proof.
  unfold AddDNSRecord. destruct (negb _); [done|]. destruct (existsb (same_record r) (dns_records d)) eqn:Ex.
  - unfold dns_lookup. cbn [dns_records with_dns_records andb]. rewrite dns_find_rewrite; [|intros x; by destruct (same_record r x)].
    destruct (decide (Rec_ProjectID r = p /\ Rec_Name r = n)) as [[<- <-]|Hne].
    + rewrite !(bool_decide_true (_ = _)) by done. cbn [andb]. apply existsb_find in Ex as (x & Ef & Hx).
      unfold same_record in Ef, Hx. rewrite Ef. cbn. unfold same_record. by rewrite Hx.
    + assert (E : (Rec_ProjectID r ==? p) && (Rec_Name r ==? n) = false).
      { apply not_true_is_false. intros H. bools. tauto. }
      rewrite E. destruct (find_first _ (dns_records d)) as [x|] eqn:Ef; [|done]. cbn.
      apply find_first_In in Ef as [_ Hx]. bools. destruct (same_record r x) eqn:Es; [|done].
      unfold same_record in Es. bools. exfalso. apply Hne. split; congruence.
  - destruct (existsb (fun x => Rec_ID x ==? Rec_ID r) (dns_records d)); [done|]. unfold dns_lookup. cbn [dns_records with_dns_records andb].
    rewrite find_first_app. cbn [find_first]. destruct ((Rec_ProjectID r ==? p) && (Rec_Name r ==? n)) eqn:E.
    + bools. subst p n. unfold same_record in Ex. by rewrite (find_first_none _ _ Ex).
    + by destruct (find_first _ (dns_records d)).
Qed.

(** ** Examples *)

Definition ex_entry (path : string) : TrafficEntry := mkTrafficEntry 1 "GET" "a.test" path 200 1 "" 0 0.
Definition ex_proj : Project := Proj_set_VMIDs ["v1"; "v2"] (Proj_set_ID "p1" Proj_zero).
Definition ex_store : StoreState :=
  with_traffic {[ "v1" := [ex_entry "/a"; ex_entry "/b"]; "v2" := [ex_entry "/a"]; "other" := [ex_entry "/a"] ]}
    (PutBuild (mkBuild "b1" "p1" "" "" "building" "" "" 0) (PutProject ex_proj empty_store)).

Lemma purge_path_exact_witness :
  let '(s', _, removed) := ClearTrafficForPath "p1" "/a" ex_store durable0 in
  (forall vm, ring (traffic s') vm = if bool_decide (vm ∈ ["v1"; "v2"]) then not_path "/a" (ring (traffic ex_store) vm)
                                     else ring (traffic ex_store) vm) /\
  removed = zlen (of_path "/a" (["v1"; "v2"] ≫= ring (traffic ex_store))) /\
  replicas s' = replicas ex_store /\ projects s' = projects ex_store.
Proof.
  apply (purge_path_exact "p1" "/a" ex_store durable0 ex_proj).
  - vm_compute. reflexivity.
  - apply (bool_decide_unpack _). vm_compute. exact I.
Defined.

Lemma purge_counts : (ClearTrafficForPath "p1" "/a" ex_store durable0).2 = 2.
Proof. vm_compute. reflexivity. Qed.

Lemma build_log_tail_witness :
  TailBuildLogsFor "p1" "b1" 0
    (append_all ex_store [mkBuildLine "p1" "b1" "one"; mkBuildLine "p1" "" "project"; mkBuildLine "p1" "b1" "two"] durable0) =
  tail_rows 0 (lines_for "p1" "b1" [mkBuildLine "p1" "b1" "one"; mkBuildLine "p1" "" "project"; mkBuildLine "p1" "b1" "two"]).
Proof. apply build_log_tail; [vm_compute; reflexivity|discriminate|vm_compute; reflexivity]. Defined.
