(* ===== verification/Hosts.v ===== *)
(** * Servers, replica access and snapshots ([api/handlers.go], [store/network.go])

    Registering worker nodes and their heartbeats, composed with the node
    controller; commands, consoles and connection data of a replica; the live log
    streams; the snapshot and restore handlers; and the recorded address
    allocations. The VM runner's snapshot, restore and exec are methods of the
    interface the API is given; an absent runner or one that cannot exec is [None]. *)
From S2P Require Import Prelude GoStrings GoNum GoNet Types Gateway Store Controllers GoPath Runtime Telemetry Pool.
From Stdlib Require Import String Ascii.

Open Scope string_scope.
Open Scope Z_scope.

(** ** Servers *)

Section Servers.
Context {R : Type} (w : Wiring).
Implicit Types a : API R.

Definition handleListServers a : API R * Resp := (a, writeJSON 200 (JServers (ListServers (store a)))).

Definition handleRegisterServer (now : Z) (req : result string (string * string)) a : API R * Resp :=
  match req with
  | Err e => (a, writeError 400 ("bad request: " ++ e))
  | Ok (hostname, address) =>
      if hostname ==? "" then (a, writeError 400 "hostname is required")
      else
        let '(a, id) := fresh_id w a in
        let srv := mkServer id hostname address "registered" 0 0 "" "" "" 0 0 0 now in
        let a := on_store (PutServer srv) a in
        let a := Pool.AppendDaemonLog ("server registered: " ++ hostname ++ " (" ++ address ++ ")") a in
        (a, writeJSON 201 (JServer srv))
  end.

Definition handleGetServer (id : string) a : API R * Resp :=
  match GetServer (store a) id with
  | None => (a, writeError 404 "server not found")
  | Some srv => (a, writeJSON 200 (JServer srv))
  end.

Definition set_hb_status (status : string) (h : ServerHeartbeat) : ServerHeartbeat :=
  mkServerHeartbeat (HB_ID h) (HB_Address h) status (HB_VCPUs h) (HB_MemMiB h) (HB_OS h) (HB_Arch h) (HB_Version h)
    (HB_Projects h) (HB_VMs h).

Definition handleServerHeartbeat (now : Z) (req : result string ServerHeartbeat) a : API R * Resp :=
  match req with
  | Err e => (a, writeError 400 ("bad request: " ++ e))
  | Ok h =>
      if HB_ID h ==? "" then (a, writeError 400 "id is required")
      else
        let h := if HB_Status h ==? "" then set_hb_status "online" h else h in
        let '(s, ok) := ApplyHeartbeat h now (store a) in
        let a := with_store s a in
        if ok then (a, writeJSON 200 (JObj [("status", JStr "ok"); ("id", JStr (HB_ID h))]))
        else (a, writeError 404 "server not registered — POST /servers first")
  end.

(** The address as host and port, the gateway of the platform without one. *)
Definition handleServerSSH (id : string) a : API R * Resp :=
  match GetServer (store a) id with
  | None => (a, writeError 404 "server not found")
  | Some srv =>
      let '(host, port) :=
        match SplitHostPort (Srv_Address srv) with
        | Some (h, p) => (h, match Atoi p with Some n => if 0 <? n then n else 22 | None => 22 end)
        | None => (Srv_Address srv, 22)
        end in
      let ssh host port user gateway :=
        writeJSON 200 (JObj [("host", JStr host); ("port", JInt port); ("user", JStr user); ("gateway", JStr gateway)]) in
      (a, if host ==? "" then ssh "localhost" 2222 "admin" "porter" else ssh host port "root" "direct")
  end.

Definition handleDeleteServer (id : string) a : API R * Resp :=
  let '(s, ok) := DeleteServer id (store a) in
  let a := with_store s a in
  if ok then (Pool.AppendDaemonLog ("server unregistered: " ++ id) a, writeJSON 200 (JObj [("status", JStr "deleted")]))
  else (a, writeError 404 "server not found").
End Servers.

(** ** Live log streams *)

Record logStreamPayload := mkPayload { lp_Source : string; lp_Lines : list string; lp_Status : string }.

(** What a client receives: [: connected], data events and the end marker. *)
Inductive StreamEvent := Connected | LogEvent (body : string) | EndEvent.

Section Stream.
(** [json.Marshal] of a payload, which cannot fail. *)
Variable marshal : logStreamPayload -> string.

(** [serveLogStream] over the snapshots it takes, one per tick until the client
    leaves. [last] is the body last sent. *)
Fixpoint stream_ticks (is_done : option (string -> bool)) (last : string) (snapshots : list logStreamPayload) : list StreamEvent :=
  match snapshots with
  | [] => []
  | payload :: rest =>
      let key := marshal payload in
      let sent := if key ==? last then [] else [LogEvent key] in
      (sent ++ if match is_done with Some f => f (lp_Status payload) | None => false end
               then [EndEvent] else stream_ticks is_done key rest)%list
  end.

Definition serveLogStream (is_done : option (string -> bool)) (snapshots : list logStreamPayload) : list StreamEvent :=
  Connected :: stream_ticks is_done "" snapshots.
End Stream.

(** A handler answers with JSON or with a stream of the given payload. *)
Inductive Reply := Json_reply (r : Resp) | Stream_reply (is_done : option (string -> bool)) (snapshot : logStreamPayload).

Definition wants_sse (stream accept : string) : bool := (stream ==? "sse") || contains accept "text/event-stream".

(** ** Reaching a replica *)

Section Replicas.
Context {R : Type}.
Implicit Types (a : API R) (rg : Rings).

(** [vmAtReplica]: "" when there is no such project or index. *)
Definition vmAtReplica (projID : string) (idx : Z) a : API R * string :=
  let '(a, p) := get_project projID a in
  (a, default "" (p ≫= fun proj => vmid_at proj idx)).

Definition vmInfoIP (s : StoreState) (id : string) : string :=
  match Store_GetVM s id with Some vm => VM_IPAddress vm | None => "" end.

Definition tailN (tail : string) : Z := let n := Atoi_val tail in if n <=? 0 then 200 else n.

Definition ssh_info (vm : VM) : Resp :=
  writeJSON 200 (JObj [("host", JStr (VM_IPAddress vm)); ("port", JInt 22); ("user", JStr "root")]).

Definition handleSSHInfoByID (replicaId : string) a : Resp :=
  match Store_GetVM (store a) replicaId with
  | None => writeError 404 "replica not found"
  | Some vm => ssh_info vm
  end.

Definition handleSSHInfo (projID n : string) a : API R * Resp :=
  let '(a, vmID) := vmAtReplica projID (replicaIndex n) a in (a, handleSSHInfoByID vmID a).

Definition handleReplicaLogs (projID n tail : string) a rg : API R * Resp :=
  let '(a, vmID) := vmAtReplica projID (replicaIndex n) a in
  (a, writeJSON 200 (JObj [("logs", JStrs (TailLogs rg vmID (tailN tail)))])).

Definition handleReplicaLogsByID (replicaId tail : string) rg : Resp :=
  writeJSON 200 (JObj [("logs", JStrs (TailLogs rg replicaId (tailN tail)))]).

Definition handleReplicaTraffic (projID n : string) a : API R * Resp :=
  let '(a, vmID) := vmAtReplica projID (replicaIndex n) a in (a, writeJSON 200 (JTraffic (ListTraffic (store a) vmID 100))).

Definition handleReplicaTrafficByID (replicaId : string) a : Resp :=
  writeJSON 200 (JTraffic (ListTraffic (store a) replicaId 100)).

Definition handleReplicaHealthByID (replicaId : string) a : Resp :=
  match Store_GetVM (store a) replicaId with
  | None => writeError 404 "replica not found"
  | Some vm => writeJSON 200 (JObj [("replica", JStr (VM_ID vm)); ("running", JBool (VM_State vm ==? StateRunning));
                                    ("state", JStr (VM_State vm)); ("health", JStr (VM_HealthStatus vm));
                                    ("error", JStr (VM_Error vm))])
  end.

(** [handleReplicaLogStream]: the snapshot of one tick. *)
Definition replica_log_snapshot (vmID : string) a rg : logStreamPayload :=
  match Store_GetVM (store a) vmID with
  | None => mkPayload "replica" [] "missing"
  | Some vm => mkPayload "replica" (TailLogs rg vmID 300) (VM_State vm)
  end.

Definition handleReplicaLogStream (replicaId : string) a rg : Reply :=
  match Store_GetVM (store a) replicaId with
  | None => Json_reply (writeError 404 "replica not found")
  | Some _ => Stream_reply None (replica_log_snapshot replicaId a rg)
  end.

Definition console_reply (vmID stream accept tail : string) rg : Reply :=
  if wants_sse stream accept then Stream_reply None (mkPayload "console" (TailLogs rg vmID (tailN tail)) "streaming")
  else Json_reply (writeJSON 200 (JObj [("status", JStr "console via exec (non-interactive)"); ("replica", JStr vmID);
                                        ("stream", JStr "GET ?stream=sse")])).

Definition handleReplicaConsole (projID n stream accept tail : string) a rg : API R * Reply :=
  let '(a, vmID) := vmAtReplica projID (replicaIndex n) a in
  (a, if vmID ==? "" then Json_reply (writeError 404 "replica not found") else console_reply vmID stream accept tail rg).

Definition handleReplicaConsoleByID (replicaId stream accept tail : string) a rg : Reply :=
  match Store_GetVM (store a) replicaId with
  | None => Json_reply (writeError 404 "replica not found")
  | Some _ => console_reply replicaId stream accept tail rg
  end.

(** ** Commands in a guest *)

(** [Execer.Exec]: the output written, and the error. *)
Variable execer : option (R -> string -> list string -> R * (string * option string)).

Definition handleSSHCert (projID n : string) a : API R * Resp :=
  let '(a, vmID) := vmAtReplica projID (replicaIndex n) a in
  (a, if (match execer with Some _ => true | None => false end) && (vmID !=? "")
      then writeJSON 200 (JObj [("status", JStr "ssh via guest agent"); ("replica", JStr vmID);
                                ("host", JStr (vmInfoIP (store a) vmID)); ("port", JInt 22); ("user", JStr "root")])
      else writeJSON 200 (JObj [("status", JStr "ssh unsupported until the guest-vsock agent is enabled"); ("replica", JStr vmID)])).

Definition handleSSHCertByID (replicaId : string) a : Resp :=
  match Store_GetVM (store a) replicaId with
  | None => writeError 404 "replica not found"
  | Some vm =>
      match execer with
      | None => writeJSON 200 (JObj [("status", JStr "ssh unsupported until the guest-vsock agent is enabled"); ("replica", JStr (VM_ID vm));
                                     ("host", JStr (VM_IPAddress vm)); ("port", JInt 22)])
      | Some _ => writeJSON 200 (JObj [("status", JStr "ssh available via guest agent"); ("replica", JStr (VM_ID vm));
                                       ("host", JStr (VM_IPAddress vm)); ("user", JStr "root"); ("port", JInt 22)])
      end
  end.

Definition exec_error (vmID out e : string) : Resp :=
  writeJSON 200 (JObj [("status", JStr "exec error"); ("output", JStr out); ("error", JStr e); ("replica", JStr vmID)]).

Definition is_done_status (status : string) : bool := status ==? "done".

Definition handleReplicaExec (projID n stream accept : string) (req : result string (list string)) a rg : API R * Rings * Reply :=
  match req with
  | Err e => (a, rg, Json_reply (writeError 400 ("bad request: " ++ e)))
  | Ok cmd =>
      let '(a, vmID) := vmAtReplica projID (replicaIndex n) a in
      if vmID ==? "" then (a, rg, Json_reply (writeError 404 "replica not found"))
      else
        match execer with
        | None => (a, rg, Json_reply (writeJSON 200 (JObj [("status", JStr "exec unsupported"); ("replica", JStr vmID); ("cmd", JStrs cmd)])))
        | Some exec =>
            let '(r, (out, err)) := exec (vmm a) vmID cmd in
            let a := with_vmm r a in
            match err with
            | Some e => (a, rg, Json_reply (exec_error vmID out e))
            | None =>
                (a, AppendLog vmID out rg,
                 if wants_sse stream accept
                 then Stream_reply (Some is_done_status)
                        (mkPayload "exec" (split_on "010" (trim_right_set (String "010" "") out)) "done")
                 else Json_reply (writeJSON 200 (JObj [("status", JStr "exec"); ("output", JStr out); ("replica", JStr vmID)])))
            end
        end
  end.

Definition handleReplicaExecByID (replicaId : string) (req : result string (list string)) a rg : API R * Rings * Resp :=
  match Store_GetVM (store a) replicaId with
  | None => (a, rg, writeError 404 "replica not found")
  | Some vm =>
      match req with
      | Err e => (a, rg, writeError 400 ("bad request: " ++ e))
      | Ok [] => (a, rg, writeError 400 "cmd is required")
      | Ok cmd =>
          match execer with
          | None => (a, rg, writeJSON 200 (JObj [("status", JStr "exec unsupported for this replica"); ("replica", JStr (VM_ID vm));
                                                 ("cmd", JStrs cmd)]))
          | Some exec =>
              let '(r, (out, err)) := exec (vmm a) (VM_ID vm) cmd in
              let a := with_vmm r a in
              match err with
              | Some e => (a, rg, exec_error (VM_ID vm) out e)
              | None => (a, AppendLog (VM_ID vm) (trim_space out) rg,
                         writeJSON 200 (JObj [("status", JStr "exec"); ("output", JStr out); ("replica", JStr (VM_ID vm))]))
              end
          end
      end
  end.
End Replicas.

(** ** Snapshots *)

Record SnapshotInfo := mkSnapshotInfo { Info_SnapshotPath : string; Info_MemoryPath : string; Info_CreatedAt : Z }.

(** The two methods of [VMRunner] that the pool does not use. *)
Class Snapshotter (R : Type) := {
  vr_Snapshot : R -> VM -> R * result string SnapshotInfo;
  vr_Restore : R -> VM -> R * option string
}.

(** What the handlers rely on: a snapshot that succeeded has two files. *)
Class SnapshotterLaws (R : Type) `{Snapshotter R} : Prop :=
  snapshot_paths r vm r' info :
    vr_Snapshot r vm = (r', Ok info) -> Info_SnapshotPath info <> "" /\ Info_MemoryPath info <> "".

Definition set_snapshot (status err : string) (vm : VM) : VM := VM_set_SnapshotError err (VM_set_SnapshotStatus status vm).

Definition took_snapshot (info : SnapshotInfo) (vm : VM) : VM :=
  set_snapshot "ready" ""
    (VM_set_SnapshotCreatedAt (Some (Info_CreatedAt info))
      (VM_set_SnapshotMemPath (Info_MemoryPath info) (VM_set_SnapshotPath (Info_SnapshotPath info) vm))).

Section Snapshots.
(** [runtime] is whether the API was given a runner. *)
Context {R : Type} `{Snapshotter R} (runtime : bool).
Implicit Types a : API R.

Definition put_vm (vm : VM) a : API R := on_store (PutVM vm) a.

Definition info_json (info : SnapshotInfo) : Json :=
  JObj [("snapshot_path", JStr (Info_SnapshotPath info)); ("memory_path", JStr (Info_MemoryPath info));
        ("created_at", JInt (Info_CreatedAt info))].

Definition snapshot_ready (info : SnapshotInfo) (vm : VM) a : API R * Resp :=
  let vm := took_snapshot info vm in
  (put_vm vm a, writeJSON 200 (JObj [("status", JStr "ready"); ("replica", JVM vm); ("snapshot", info_json info)])).

Definition handleReplicaSnapshot (projID n : string) a : API R * Resp :=
  let '(a, vmID) := vmAtReplica projID (replicaIndex n) a in
  match Store_GetVM (store a) vmID with
  | None => (a, writeError 404 "replica not found")
  | Some vm =>
      if negb runtime then (a, writeError 503 "VM runtime is unavailable")
      else
        let vm := set_snapshot "creating" "" vm in
        let a := put_vm vm a in
        let '(r, res) := vr_Snapshot (vmm a) vm in
        let a := with_vmm r a in
        match res with
        | Err e => (put_vm (set_snapshot "failed" e vm) a, writeError 409 ("snapshot failed: " ++ e))
        | Ok info => snapshot_ready info vm a
        end
  end.

Definition handleReplicaSnapshotForVM (vm : VM) a : API R * Resp :=
  if negb runtime then (a, writeError 503 "VM runtime is unavailable")
  else
    let '(r, res) := vr_Snapshot (vmm a) vm in
    let a := with_vmm r a in
    match res with
    | Err e => (a, writeError 409 ("snapshot failed: " ++ e))
    | Ok info => snapshot_ready info vm a
    end.

Definition handleReplicaSnapshotByID (replicaId : string) a : API R * Resp :=
  match Store_GetVM (store a) replicaId with
  | None => (a, writeError 404 "replica not found")
  | Some vm => handleReplicaSnapshotForVM vm a
  end.

(** The end of both restores. *)
Definition restore_vm (vm : VM) a : API R * Resp :=
  let '(r, e) := vr_Restore (vmm a) vm in
  let a := with_vmm r a in
  match e with
  | Some e => (put_vm (VM_set_Crashed true (set_snapshot "failed" e vm)) a, writeError 409 ("restore failed: " ++ e))
  | None =>
      let vm := VM_set_Crashed false (set_snapshot "ready" "" vm) in
      (put_vm vm a, writeJSON 202 (JObj [("status", JStr "restored"); ("replica", JVM vm)]))
  end.

Definition no_snapshot (vm : VM) : bool := (VM_SnapshotPath vm ==? "") || (VM_SnapshotMemPath vm ==? "").

Definition handleReplicaRestore (projID n : string) a : API R * Resp :=
  let '(a, vmID) := vmAtReplica projID (replicaIndex n) a in
  match Store_GetVM (store a) vmID with
  | None => (a, writeError 404 "replica not found")
  | Some vm =>
      if no_snapshot vm then (a, writeError 409 "replica has no complete snapshot")
      else if negb runtime then (a, writeError 503 "VM runtime is unavailable")
      else let vm := set_snapshot "restoring" "" vm in restore_vm vm (put_vm vm a)
  end.

Definition handleReplicaRestoreForVM (vm : VM) a : API R * Resp :=
  if no_snapshot vm then (a, writeError 409 "replica has no complete snapshot")
  else if negb runtime then (a, writeError 503 "VM runtime is unavailable")
  else restore_vm vm a.

Definition handleReplicaRestoreByID (replicaId : string) a : API R * Resp :=
  match Store_GetVM (store a) replicaId with
  | None => (a, writeError 404 "replica not found")
  | Some vm => handleReplicaRestoreForVM vm a
  end.
End Snapshots.

(** ** Recorded address allocations ([store/network.go]) *)

Record IPAllocationSpec := mkIPAllocation { IPA_NetworkID : string; IPA_IP : string; IPA_MicroVMID : string }.

Section Allocations.
(** [$2::inet]: the canonical text of an address, [None] for what is not one. *)
Variable inet : string -> option string.
Implicit Types l : list IPAllocationSpec.

Definition same_address (net ip : string) (r : IPAllocationSpec) : bool := (IPA_NetworkID r ==? net) && (IPA_IP r ==? ip).

(** A conflict on network and address hands the row to the new VM. *)
Definition AllocateIP (networkID ip microVMID : string) l : list IPAllocationSpec * option IPAllocationSpec :=
  match inet ip with
  | None => (l, None)
  | Some addr =>
      (if existsb (same_address networkID addr) l
       then (fun r => if same_address networkID addr r then mkIPAllocation networkID addr microVMID else r) <$> l
       else (l ++ [mkIPAllocation networkID addr microVMID])%list,
       Some (mkIPAllocation networkID ip microVMID))
  end.

Definition ReleaseIP (microVMID : string) l : list IPAllocationSpec :=
  base.filter (fun r => IPA_MicroVMID r <> microVMID) l.

(** [ORDER BY ip], in the order of the [inet] type. *)
Definition ListIPAllocations (order : list IPAllocationSpec -> list IPAllocationSpec) (networkID : string) l : list IPAllocationSpec :=
  order (base.filter (fun r => IPA_NetworkID r = networkID) l).
End Allocations.

(** ** Lemmas: servers *)

Lemma ApplyHeartbeat_spec h now s srv :
  GetServer s (HB_ID h) = Some srv -> heartbeat_fits h = true ->
  GetServer (ApplyHeartbeat h now s).1 (HB_ID h) = Some (heartbeat_cols h now srv) /\
  (ApplyHeartbeat h now s).2 = true /\
  (forall id, id <> HB_ID h -> GetServer (ApplyHeartbeat h now s).1 id = GetServer s id).
Proof.
  intros Hs Hf. unfold ApplyHeartbeat, GetServer in *. rewrite Hs, Hf. cbn.
  assert (Hid : Srv_ID srv = HB_ID h) by (apply find_first_In in Hs as [_ Hk]; by bools).
  assert (Hk : Srv_ID (heartbeat_cols h now srv) = HB_ID h) by done.
  split_and!; [|done|].
  - rewrite <- Hk. apply row_upsert_eq.
  - intros id Hne. apply row_upsert_ne. congruence.
Qed.

(** Replacing a stored row keeps every column the new row has in common with it. *)
Lemma upsert_column {A} (key col : A -> string) x y l :
  NoDup (key <$> l) -> row key (key x) l = Some y -> col x = col y -> col <$> upsert key x l = col <$> l.
Proof.
  intros Hnd. induction l as [|z l IH]; [done|]. cbn. destruct (bool_decide_reflect (key z = key x)) as [E|E].
  - intros [= <-] Hc. cbn. by rewrite Hc.
  - intros Hr Hc. cbn. f_equal. apply IH; try done. by apply NoDup_cons in Hnd as [_ ?].
Qed.

Lemma heartbeat_inv h now s : servers_inv s -> servers_inv (ApplyHeartbeat h now s).1.
Proof.
  intros [Hi Hn]. unfold ApplyHeartbeat. destruct (row Srv_ID (HB_ID h) (servers s)) as [srv|] eqn:E; [|by split].
  destruct (heartbeat_fits h); [|by split]. cbn [fst].
  assert (Hid : Srv_ID srv = HB_ID h) by (apply find_first_In in E as [_ Hk]; by bools).
  assert (Er : row Srv_ID (Srv_ID (heartbeat_cols h now srv)) (servers s) = Some srv) by (cbn; by rewrite Hid).
  split; cbn [servers with_servers].
  - by rewrite (upsert_column Srv_ID Srv_ID _ srv).
  - by rewrite (upsert_column Srv_ID Srv_Name _ srv).
Qed.

(** A status outside the node controller's states starts the registration over. *)
Lemma restart_step now srv :
  Srv_Status srv = "online" \/ Srv_Status srv = "registered" ->
  Srv_Status (node_stored now srv) = "AgentConnected".
Proof. unfold node_stored, node_step. intros [-> | ->]; vm_compute; reflexivity. Qed.

(** [k] cycles along the registration chain. *)
Lemma chain_cycles ts srv n :
  cycles_to_ready (Srv_Status srv) = Some n -> (List.length ts <= n)%nat ->
  cycles_to_ready (Srv_Status (fold_left (fun v now => node_stored now v) ts srv)) = Some (n - List.length ts)%nat.
Proof.
  revert srv n. induction ts as [|t ts IH]; intros srv n Hn Hl; cbn [fold_left List.length] in *; [by rewrite Nat.sub_0_r|].
  destruct n as [|n]; [lia|]. apply (cycles_to_ready_S t) in Hn. apply IH in Hn; [|lia]. rewrite Hn. f_equal.
Qed.

Lemma restart_cycles t ts srv :
  Srv_Status srv = "online" \/ Srv_Status srv = "registered" -> (List.length ts <= 8)%nat ->
  cycles_to_ready (Srv_Status (fold_left (fun v now => node_stored now v) (t :: ts) srv)) = Some (8 - List.length ts)%nat.
Proof. intros Hs Hl. cbn [fold_left]. apply chain_cycles; [|done]. by rewrite restart_step. Qed.

Lemma fold_node_stored_fields ts srv :
  exists st, fold_left (fun v now => node_stored now v) ts srv = Srv_set_Status st srv.
Proof.
  revert srv. induction ts as [|t ts IH]; intros srv; [exists (Srv_Status srv); by destruct srv|]. cbn [fold_left].
  destruct (IH (node_stored t srv)) as [st ->]. exists st. by destruct srv.
Qed.

Section ServerProofs.
Context {R : Type} (w : Wiring).
Implicit Types a : API R.

(** The row a registration stores. *)
Definition registered_row (id hostname address : string) : Server :=
  mkServer id hostname address "registered" 0 0 "" "" "" 0 0 0 0.

Lemma register_store now hostname address a :
  hostname <> "" -> hostname ∉ Srv_Name <$> servers (store a) -> NewID w (next_id a) ∉ Srv_ID <$> servers (store a) ->
  servers (store (handleRegisterServer w now (Ok (hostname, address)) a).1) =
  (servers (store a) ++ [registered_row (NewID w (next_id a)) hostname address])%list.
Proof.
  intros Hh Hn Hi. unfold handleRegisterServer. rewrite bool_decide_eq_false_2 by done. cbn.
  unfold PutServer. assert (Hf : hostname_taken (store a) (mkServer (NewID w (next_id a)) hostname address "registered" 0 0 "" "" "" 0 0 0 now) = false).
  { unfold hostname_taken. apply not_true_is_false. intros (r & Hr & Hb)%existsb_exists. bools.
    apply Hn, list_elem_of_fmap. exists r. split; [done|by apply list_elem_of_In]. }
  rewrite Hf. cbn. unfold row. rewrite find_first_absent by done. cbn. by rewrite upsert_fresh.
Qed.

Lemma servers_inv_snoc s srv l :
  servers s = (l ++ [srv])%list -> NoDup (Srv_ID <$> l) -> NoDup (Srv_Name <$> l) ->
  Srv_ID srv ∉ Srv_ID <$> l -> Srv_Name srv ∉ Srv_Name <$> l -> servers_inv s.
Proof.
  intros E Hi Hn Hi' Hn'. split; rewrite E, fmap_app, NoDup_app; split_and!; try done; try apply NoDup_singleton;
    intros x Hx; cbn; rewrite list_elem_of_singleton; naive_solver.
Qed.

(** C34: Registering a server with a free host name stores it under a new
    identifier without touching the others, and whatever the times of the cycles
    the node controller has it ready after nine of them, every other column as
    registered; a first heartbeat afterwards replaces the reported columns. *)
Theorem registration_becomes_ready now hostname address ts a h hnow :
  servers_inv (store a) -> hostname <> "" -> hostname ∉ Srv_Name <$> servers (store a) ->
  NewID w (next_id a) ∉ Srv_ID <$> servers (store a) -> List.length ts = 9%nat ->
  HB_ID h = NewID w (next_id a) -> heartbeat_fits h = true ->
  let id := NewID w (next_id a) in
  let ready := Srv_set_Status StatusReady (registered_row id hostname address) in
  let '(a1, resp) := handleRegisterServer w now (Ok (hostname, address)) a in
  let s := node_cycles ts (store a1) in
  r_status resp = 201 /\ servers_inv (store a1) /\
  (forall other, other <> id -> GetServer (store a1) other = GetServer (store a) other) /\
  GetServer s id = Some ready /\
  GetServer (ApplyHeartbeat h hnow s).1 id = Some (heartbeat_cols h hnow ready).
Proof.
  intros Hinv Hh Hn Hi Hts Hhid Hfit id ready. pose proof (register_store now hostname address a Hh Hn Hi) as Es.
  assert (Hst : r_status (handleRegisterServer w now (Ok (hostname, address)) a).2 = 201).
  { unfold handleRegisterServer. by rewrite bool_decide_eq_false_2. }
  destruct (handleRegisterServer w now (Ok (hostname, address)) a) as [a1 resp]. cbn [fst snd] in Es, Hst.
  assert (Hinv1 : servers_inv (store a1)) by (eapply servers_inv_snoc; [exact Es|apply Hinv|apply Hinv|done|done]).
  assert (Hg : forall other, GetServer (store a1) other =
                 if other ==? id then Some (registered_row id hostname address) else GetServer (store a) other).
  { intros other. unfold GetServer, row. rewrite Es, find_first_app. destruct (decide (other = id)) as [->|Hne].
    - rewrite find_first_absent by done. cbn. by rewrite !bool_decide_eq_true_2.
    - rewrite (bool_decide_eq_false_2 (other = id)) by done. cbn [find_first Srv_ID registered_row]. fold id.
      rewrite (bool_decide_eq_false_2 (id = other)) by done. by destruct (find_first _ _). }
  assert (Hr : GetServer (node_cycles ts (store a1)) id = Some ready).
  { rewrite GetServer_cycles, Hg, (bool_decide_true (id = id)) by done. cbn [fmap option_fmap option_map]. f_equal.
    destruct ts as [|t ts]; [done|]. injection Hts as Hts.
    pose proof (restart_cycles t ts (registered_row id hostname address) (or_intror eq_refl)) as Hc.
    rewrite Hts, Nat.sub_diag in Hc. specialize (Hc (Nat.le_refl _)). apply cycles_to_ready_0 in Hc.
    destruct (fold_node_stored_fields (t :: ts) (registered_row id hostname address)) as [st E].
    rewrite E in Hc |- *. cbn in Hc. by rewrite Hc. }
  split_and!; try done.
  - intros other Hne. by rewrite Hg, bool_decide_eq_false_2.
  - fold id in Hhid. rewrite <- Hhid in Hr |- *. by apply ApplyHeartbeat_spec.
Qed.

(** A node that reports without a status of its own, and the cycles before its
    next report. *)
Definition hb_round (h : ServerHeartbeat) (a : API R) (r : Z * list Z) : API R :=
  on_store (node_cycles r.2) (handleServerHeartbeat r.1 (Ok h) a).1.

Lemma hb_round_server h a r srv :
  servers_inv (store a) -> HB_ID h <> "" -> HB_Status h = "" -> heartbeat_fits h = true ->
  GetServer (store a) (HB_ID h) = Some srv -> (List.length r.2 <= 8)%nat ->
  servers_inv (store (hb_round h a r)) /\
  exists srv', GetServer (store (hb_round h a r)) (HB_ID h) = Some srv' /\ Srv_Status srv' <> StatusReady.
Proof.
  intros Hinv Hid Hst Hf Hs Hl. unfold hb_round, handleServerHeartbeat.
  rewrite (bool_decide_false (HB_ID h = "")), (bool_decide_true (HB_Status h = "")) by done.
  set (h' := set_hb_status "online" h).
  destruct (ApplyHeartbeat_spec h' r.1 (store a) srv) as (Hg & Hok & _); [done|done|].
  pose proof (heartbeat_inv h' r.1 (store a) Hinv) as Hi'.
  destruct (ApplyHeartbeat h' r.1 (store a)) as [s1 ok]. cbn [fst snd] in Hg, Hok, Hi'. subst ok. cbn [fst store on_store with_store].
  assert (Hcyc : forall ts s, servers_inv s -> servers_inv (node_cycles ts s)).
  { induction ts as [|t ts IH]; intros s H; [done|]. cbn. apply IH. by apply node_cycle_inv. }
  split; [by apply Hcyc|]. change (HB_ID h') with (HB_ID h) in Hg. rewrite GetServer_cycles, Hg by done. eexists. split; [reflexivity|].
  destruct r.2 as [|t ts] eqn:E; [done|]. cbn in Hl.
  pose proof (restart_cycles t ts (heartbeat_cols h' r.1 srv) (or_introl eq_refl)) as Hc. specialize (Hc ltac:(lia)).
  intros Hr. rewrite Hr in Hc. change (cycles_to_ready StatusReady) with (Some 0%nat) in Hc. injection Hc. lia.
Qed.

(** A node whose heartbeats come at most eight cycles apart and name no status is
    never ready: each one starts its registration over. *)
Lemma heartbeats_never_ready h rounds a srv :
  servers_inv (store a) -> HB_ID h <> "" -> HB_Status h = "" -> heartbeat_fits h = true ->
  GetServer (store a) (HB_ID h) = Some srv -> rounds <> [] -> Forall (fun r => List.length r.2 <= 8)%nat rounds ->
  exists srv', GetServer (store (fold_left (hb_round h) rounds a)) (HB_ID h) = Some srv' /\ Srv_Status srv' <> StatusReady.
Proof.
  intros Hinv Hid Hst Hf Hs Hne Hl. destruct rounds as [|r rounds]; [done|]. clear Hne. cbn [fold_left].
  apply Forall_cons in Hl as [Hr Hl]. destruct (hb_round_server h a r srv) as [Hi (srv' & Hg & Hn)]; try done.
  clear Hinv Hs Hr. generalize dependent srv'. generalize dependent (hb_round h a r). clear a srv r.
  induction Hl as [|r rounds Hr Hl IH]; intros a Hinv srv Hs Hn; cbn [fold_left]; [by exists srv|].
  destruct (hb_round_server h a r srv) as [Hi (srv' & Hg & Hn')]; try done. by apply (IH _ Hi srv').
Qed.
End ServerProofs.

(** A second registration of a host name is answered 201 with an identifier that
    is not stored. *)
Lemma duplicate_hostname_acknowledged :
  let w := mkWiring (fun n => if (n =? 0)%nat then "s1" else "s2") (fun _ => Err "") (fun _ _ => None) None None "" in
  let a0 : API unit := mkAPI empty_store [] [] tt 0 [] [] [] [] in
  let a1 := (handleRegisterServer w 1 (Ok ("node", "10.0.0.1")) a0).1 in
  let '(a2, resp) := handleRegisterServer w 2 (Ok ("node", "10.0.0.2")) a1 in
  r_status resp = 201 /\ r_status (handleGetServer "s1" a2).2 = 200 /\ r_status (handleGetServer "s2" a2).2 = 404.
Proof. vm_compute. auto. Qed.

(** ** Lemmas: streams *)

Section StreamProofs.
Variable marshal : logStreamPayload -> string.
Implicit Types (is_done : option (string -> bool)) (ps : list logStreamPayload).

Definition ends is_done (p : logStreamPayload) : bool := match is_done with Some f => f (lp_Status p) | None => false end.

(** The snapshots that are taken: up to the first whose status ends the stream. *)
Fixpoint until_end is_done ps : list logStreamPayload :=
  match ps with
  | [] => []
  | p :: ps => p :: if ends is_done p then [] else until_end is_done ps
  end.

Definition bodies (evs : list StreamEvent) : list string := omap (fun e => match e with LogEvent b => Some b | _ => None end) evs.

(** No element equals the one before it. *)
Fixpoint no_repeat (prev : string) (l : list string) : bool :=
  match l with [] => true | x :: l => (x !=? prev) && no_repeat x l end.

Lemma last_cons {A} (x : A) l d : List.last (x :: l) d = List.last l x.
Proof.
  destruct l as [|y l]; [done|]. change (List.last (y :: l) d = List.last (y :: l) x).
  revert y. induction l as [|z l IH]; intros y; [done|]. apply IH.
Qed.

Lemma bodies_app l l' : bodies (l ++ l') = (bodies l ++ bodies l')%list.
Proof. unfold bodies. apply omap_app. Qed.

Lemma stream_ticks_spec is_done prev ps :
  let b := bodies (stream_ticks marshal is_done prev ps) in
  no_repeat prev b = true /\ List.last b prev = List.last (marshal <$> until_end is_done ps) prev /\
  (EndEvent ∈ stream_ticks marshal is_done prev ps <-> existsb (ends is_done) ps = true).
Proof.
  revert prev. induction ps as [|p ps IH]; intros prev; cbn zeta.
  { cbn. split_and!; try done. split; [intros H; by apply not_elem_of_nil in H|done]. }
  cbn [stream_ticks until_end existsb]. fold (ends is_done p). rewrite bodies_app.
  destruct (IH (marshal p)) as (H1 & H2 & H3). destruct (ends is_done p) eqn:Ee.
  - destruct (bool_decide_reflect (marshal p = prev)) as [E|E]; cbn; rewrite ?E; split_and!; try done;
      try (by rewrite (bool_decide_false (_ = _))); split; try done; intros _; set_solver.
  - cbn [orb]. assert (Hl : List.last (marshal <$> p :: until_end is_done ps) prev =
                            List.last (marshal <$> until_end is_done ps) (marshal p)).
    { apply last_cons. }
    rewrite Hl. destruct (bool_decide_reflect (marshal p = prev)) as [E|E].
    + cbn [app bodies omap list_omap]. rewrite E in *. split_and!; done.
    + cbn [app bodies omap list_omap no_repeat]. rewrite (bool_decide_false (marshal p = prev)) by done. cbn [negb andb].
      split_and!; [done| |].
      * rewrite <- H2. apply last_cons.
      * rewrite <- H3. set_solver.
Qed.

(** A client of a log stream always holds the current snapshot: at any moment,
    whatever the snapshots were so far, the last event it received carries the
    snapshot taken last; it is never sent the same snapshot twice in a row; and the
    stream ends exactly when a snapshot has a final status. *)
Theorem stream_current is_done ps :
  let evs := serveLogStream marshal is_done ps in
  List.last (bodies evs) "" = List.last (marshal <$> until_end is_done ps) "" /\
  no_repeat "" (bodies evs) = true /\
  (EndEvent ∈ evs <-> exists p, p ∈ ps /\ ends is_done p = true).
Proof.
  intros evs. destruct (stream_ticks_spec is_done "" ps) as (H1 & H2 & H3). unfold evs, serveLogStream.
  change (bodies (Connected :: stream_ticks marshal is_done "" ps)) with (bodies (stream_ticks marshal is_done "" ps)).
  split_and!; [done|done|]. rewrite elem_of_cons, H3, existsb_exists. split.
  - intros [?|(p & Hp & He)]; [done|]. exists p. by rewrite list_elem_of_In.
  - intros (p & Hp & He). right. exists p. by rewrite <- list_elem_of_In.
Qed.
End StreamProofs.

(** ** Lemmas: snapshots *)

(** The columns a snapshot or restore leaves alone decide whether a row is accepted. *)
Record same_slot (vm vm' : VM) : Prop := {
  sl_id : VM_ID vm' = VM_ID vm; sl_project : VM_ProjectID vm' = VM_ProjectID vm;
  sl_index : VM_ReplicaIndex vm' = VM_ReplicaIndex vm; sl_state : VM_State vm' = VM_State vm;
  sl_health : VM_HealthStatus vm' = VM_HealthStatus vm
}.

Lemma put_same_slot vm s vm1 s1 vm2 :
  replica_updated vm s vm1 s1 -> same_slot vm1 vm2 -> replica_updated vm s vm2 (PutVM vm2 s1).
Proof.
  intros Hu [Hi Hp Hx Hs Hh]. destruct (GetVM_In _ _ _ (ru_get _ _ _ _ Hu)) as [Hin _].
  destruct (ri_checks _ (ru_inv _ _ _ _ Hu) vm1 Hin) as [Hst Hhe].
  apply (replica_updated_Put vm s vm1 s1 vm2 Hu); try done; by rewrite ?Hs, ?Hh.
Qed.

(** A replica's snapshot is usable: the status says ready only with two files. *)
Definition snap_ok (vm : VM) : Prop :=
  VM_SnapshotStatus vm = "ready" -> VM_SnapshotPath vm <> "" /\ VM_SnapshotMemPath vm <> "".

Section SnapshotProofs.
Context {R : Type} `{Snapshotter R}.
Implicit Types a : API R.

Lemma vmAtReplica_frame projID idx a :
  replica_rows (store (vmAtReplica projID idx a).1) = replica_rows (store a) /\ vmm (vmAtReplica projID idx a).1 = vmm a.
Proof.
  unfold vmAtReplica, get_project. pose proof (GetProject_rows projID (store a)) as Hr.
  destruct (GetProject projID (store a)) as [s p]. done.
Qed.

(** What a request answers and leaves, for the replica it is about. *)
Inductive snap_request := SnapAt (projID n : string) | SnapID (id : string) | RestoreAt (projID n : string) | RestoreID (id : string).

Definition snap_handle (runtime : bool) (q : snap_request) a : API R * Resp :=
  match q with
  | SnapAt p n => handleReplicaSnapshot runtime p n a
  | SnapID id => handleReplicaSnapshotByID runtime id a
  | RestoreAt p n => handleReplicaRestore runtime p n a
  | RestoreID id => handleReplicaRestoreByID runtime id a
  end.

Lemma replica_updated_from vm s s1 vm' s' :
  replica_rows s1 = replica_rows s -> replica_updated vm s1 vm' s' -> replica_updated vm s vm' s'.
Proof.
  intros [= E _] [H1 H2 H3 H4]. split; try done. intros id Hne. rewrite H3 by done. unfold Store_GetVM. by rewrite E.
Qed.

(** The replica an index names. *)
Definition replica_at (projID n : string) a (vm : VM) : Prop :=
  exists vmID, (vmAtReplica projID (replicaIndex n) a).2 = vmID /\ Store_GetVM (store a) vmID = Some vm.

(** Looking an index up again after replicas were rewritten finds the same one. *)
Lemma vmAtReplica_again projID idx a a' :
  projects (store a') = projects (store (vmAtReplica projID idx a).1) ->
  project_cache (store a') = project_cache (store (vmAtReplica projID idx a).1) ->
  (vmAtReplica projID idx a').2 = (vmAtReplica projID idx a).2.
Proof.
  unfold vmAtReplica, get_project, GetProject, load_project.
  destruct (project_cache (store a) !! projID) as [p|] eqn:Ec; [cbn; intros _ Ecc; rewrite Ecc, Ec; done|].
  destruct (row pr_id projID (projects (store a))) as [r|] eqn:Er; cbn.
  - intros _ Ecc. by rewrite Ecc, lookup_insert_eq.
  - intros Ep Ecc. by rewrite Ecc, Ec, Ep, Er.
Qed.

Lemma snapshot_outcome projID n a vm :
  replicas_inv (store a) -> replica_at projID n a vm ->
  let creating := set_snapshot "creating" "" vm in
  let '(a', resp) := handleReplicaSnapshot true projID n a in
  match vr_Snapshot (vmm a) creating with
  | (r, Ok info) => vmm a' = r /\ r_status resp = 200 /\ replica_updated vm (store a) (took_snapshot info creating) (store a')
  | (r, Err e) => vmm a' = r /\ r_status resp = 409 /\ replica_updated vm (store a) (set_snapshot "failed" e creating) (store a')
  end.
Proof.
  intros Hinv (vmID & Hid & Hg) creating. unfold handleReplicaSnapshot.
  destruct (vmAtReplica_frame projID (replicaIndex n) a) as [Hr Hm].
  destruct (vmAtReplica projID (replicaIndex n) a) as [a1 id]. cbn [fst snd] in *. subst id.
  pose proof (replicas_inv_rows _ _ Hr Hinv) as Hinv1.
  assert (Hg1 : Store_GetVM (store a1) vmID = Some vm) by (unfold Store_GetVM in *; by injection Hr as -> _).
  destruct (GetVM_In _ _ _ Hg1) as [_ Hvid]. rewrite Hg1. cbn [negb]. fold creating.
  assert (Hu : replica_updated vm (store a1) creating (PutVM creating (store a1))).
  { apply (put_same_slot vm (store a1) vm (store a1)); [|done]. apply replica_updated_refl; [done|by rewrite Hvid]. }
  change (vmm (put_vm creating a1)) with (vmm a1). rewrite Hm.
  destruct (vr_Snapshot (vmm a) creating) as [r [info|e]]; cbn; split_and!; try done;
    apply (replica_updated_from _ _ _ _ _ Hr); by apply (put_same_slot vm (store a1) creating).
Qed.

Lemma restore_outcome projID n a vm :
  replicas_inv (store a) -> replica_at projID n a vm -> no_snapshot vm = false ->
  let restoring := set_snapshot "restoring" "" vm in
  let '(a', resp) := handleReplicaRestore true projID n a in
  match vr_Restore (vmm a) restoring with
  | (_, None) => r_status resp = 202 /\
      replica_updated vm (store a) (VM_set_Crashed false (set_snapshot "ready" "" restoring)) (store a')
  | (_, Some e) => r_status resp = 409 /\
      replica_updated vm (store a) (VM_set_Crashed true (set_snapshot "failed" e restoring)) (store a')
  end.
Proof.
  intros Hinv (vmID & Hid & Hg) Hn restoring. unfold handleReplicaRestore.
  destruct (vmAtReplica_frame projID (replicaIndex n) a) as [Hr Hm].
  destruct (vmAtReplica projID (replicaIndex n) a) as [a1 id]. cbn [fst snd] in *. subst id.
  pose proof (replicas_inv_rows _ _ Hr Hinv) as Hinv1.
  assert (Hg1 : Store_GetVM (store a1) vmID = Some vm) by (unfold Store_GetVM in *; by injection Hr as -> _).
  destruct (GetVM_In _ _ _ Hg1) as [_ Hvid]. rewrite Hg1, Hn. cbn [negb]. fold restoring.
  assert (Hu : replica_updated vm (store a1) restoring (PutVM restoring (store a1))).
  { apply (put_same_slot vm (store a1) vm (store a1)); [|done]. apply replica_updated_refl; [done|by rewrite Hvid]. }
  unfold restore_vm. change (vmm (put_vm restoring a1)) with (vmm a1). rewrite Hm.
  destruct (vr_Restore (vmm a) restoring) as [r [e|]]; cbn; split_and!; try done;
    apply (replica_updated_from _ _ _ _ _ Hr); by apply (put_same_slot vm (store a1) restoring).
Qed.

Lemma PutVM_tables vm s : projects (PutVM vm s) = projects s /\ project_cache (PutVM vm s) = project_cache s.
Proof. unfold PutVM. by case_goal. Qed.

(** After a snapshot the index still names the replica, now with its files. *)
Lemma snapshot_keeps_index projID n a vm vm' :
  replica_at projID n a vm ->
  replica_updated vm (store a) vm' (store (handleReplicaSnapshot true projID n a).1) ->
  replica_at projID n (handleReplicaSnapshot true projID n a).1 vm'.
Proof.
  intros (vmID & Hid & Hg) Hu. destruct (GetVM_In _ _ _ Hg) as [_ Hvid]. exists vmID. split; [|by rewrite <- Hvid; apply Hu].
  rewrite <- Hid. apply vmAtReplica_again; unfold handleReplicaSnapshot;
    destruct (vmAtReplica projID (replicaIndex n) a) as [a1 id]; cbn [fst]; destruct (Store_GetVM (store a1) id) as [v|]; try done;
    cbn [negb]; destruct (vr_Snapshot _ _) as [r [info|e]]; cbn;
    rewrite ?(proj1 (PutVM_tables _ _)), ?(proj2 (PutVM_tables _ _)); done.
Qed.

Context `{!SnapshotterLaws R}.

(** A snapshot that was answered with success can be restored: the replica is
    recorded as ready with the files the runner reported, a restore then hands the
    runner exactly those files, and its outcome is recorded, ready and running
    again or failed and crashed; no other replica changes in either step. *)
Theorem snapshot_then_restore projID n a vm :
  replicas_inv (store a) -> replica_at projID n a vm ->
  let '(a1, resp1) := handleReplicaSnapshot true projID n a in
  let '(a2, resp2) := handleReplicaRestore true projID n a1 in
  match vr_Snapshot (vmm a) (set_snapshot "creating" "" vm) with
  | (r, Ok info) =>
      let taken := took_snapshot info (set_snapshot "creating" "" vm) in
      r_status resp1 = 200 /\ replica_updated vm (store a) taken (store a1) /\
      (let restoring := set_snapshot "restoring" "" taken in
       VM_SnapshotPath restoring = Info_SnapshotPath info /\ VM_SnapshotMemPath restoring = Info_MemoryPath info /\
       match vr_Restore r restoring with
       | (_, None) => r_status resp2 = 202 /\
           replica_updated taken (store a1) (VM_set_Crashed false (set_snapshot "ready" "" restoring)) (store a2)
       | (_, Some e) => r_status resp2 = 409 /\
           replica_updated taken (store a1) (VM_set_Crashed true (set_snapshot "failed" e restoring)) (store a2)
       end)
  | (_, Err e) => r_status resp1 = 409 /\
      replica_updated vm (store a) (set_snapshot "failed" e (set_snapshot "creating" "" vm)) (store a1)
  end.
Proof.
  intros Hinv Hat. pose proof (snapshot_outcome projID n a vm Hinv Hat) as Ho. cbv zeta in Ho.
  pose proof (snapshot_keeps_index projID n a vm) as Hk.
  destruct (handleReplicaSnapshot true projID n a) as [a1 resp1]. cbn [fst] in Hk.
  destruct (vr_Snapshot (vmm a) (set_snapshot "creating" "" vm)) as [r [info|e]] eqn:Es.
  2: { destruct Ho as (_ & H1 & H2). by destruct (handleReplicaRestore true projID n a1). }
  destruct Ho as (Hm & H1 & H2). set (taken := took_snapshot info (set_snapshot "creating" "" vm)) in *.
  destruct (snapshot_paths _ _ _ _ Es) as [Hp1 Hp2].
  pose proof (restore_outcome projID n a1 taken (ru_inv _ _ _ _ H2) (Hk taken Hat H2)) as Hr. cbv zeta in Hr.
  destruct (handleReplicaRestore true projID n a1) as [a2 resp2]. rewrite Hm in Hr.
  split; [done|]. split; [done|]. cbv zeta. split; [done|]. split; [done|].
  apply Hr. unfold no_snapshot. by rewrite !bool_decide_eq_false_2.
Qed.

(** ** Every sequence of requests *)

Definition snap_inv a : Prop := replicas_inv (store a) /\ (forall vm, vm ∈ replicas (store a) -> snap_ok vm).

Lemma put_vm_snap vm a : snap_ok vm -> snap_inv a -> snap_inv (put_vm vm a).
Proof.
  intros Hv [Hi Hs]. split; [by apply PutVM_inv|]. cbn. unfold PutVM. case_goal; [|done]. cbn.
  intros x [->|Hx]%elem_of_upsert; [done|by apply Hs].
Qed.

Lemma with_vmm_snap r a : snap_inv a -> snap_inv (with_vmm r a).
Proof. done. Qed.

Lemma vmAtReplica_snap projID idx a : snap_inv a -> snap_inv (vmAtReplica projID idx a).1.
Proof.
  intros [Hi Hs]. destruct (vmAtReplica_frame projID idx a) as [Hr _]. split; [by apply (replicas_inv_rows (store a))|].
  by injection Hr as -> _.
Qed.

Lemma snapshot_ready_snap r vm r' info a :
  vr_Snapshot r vm = (r', Ok info) -> snap_inv a -> snap_inv (snapshot_ready info vm a).1.
Proof. intros Hs Ha. apply put_vm_snap; [|done]. intros _. by apply (snapshot_paths _ _ _ _ Hs). Qed.

Lemma restore_vm_snap vm a : no_snapshot vm = false -> snap_inv a -> snap_inv (restore_vm vm a).1.
Proof.
  intros Hn Ha. unfold restore_vm. destruct (vr_Restore (vmm a) vm) as [r [e|]]; apply put_vm_snap; try done.
  intros _. unfold no_snapshot in Hn. by bools.
Qed.

Lemma snap_handle_inv runtime q a : snap_inv a -> snap_inv (snap_handle runtime q a).1.
Proof.
  intros Ha. destruct q as [p n|id|p n|id]; cbn [snap_handle].
  - unfold handleReplicaSnapshot. pose proof (vmAtReplica_snap p (replicaIndex n) a Ha) as H1.
    destruct (vmAtReplica p (replicaIndex n) a) as [a1 vid]. cbn [fst] in H1.
    destruct (Store_GetVM (store a1) vid) as [vm|]; [|done]. destruct runtime; [|done]. cbn [negb].
    destruct (vr_Snapshot _ _) as [r [info|e]] eqn:E.
    + apply (snapshot_ready_snap _ _ _ _ _ E). by apply put_vm_snap.
    + apply put_vm_snap; [done|]. by apply put_vm_snap.
  - unfold handleReplicaSnapshotByID, handleReplicaSnapshotForVM. destruct (Store_GetVM (store a) id) as [vm|]; [|done].
    destruct runtime; [|done]. cbn [negb]. destruct (vr_Snapshot _ _) as [r [info|e]] eqn:E; [|done].
    by apply (snapshot_ready_snap _ _ _ _ _ E).
  - unfold handleReplicaRestore. pose proof (vmAtReplica_snap p (replicaIndex n) a Ha) as H1.
    destruct (vmAtReplica p (replicaIndex n) a) as [a1 vid]. cbn [fst] in H1.
    destruct (Store_GetVM (store a1) vid) as [vm|]; [|done]. destruct (no_snapshot vm) eqn:En; [done|].
    destruct runtime; [|done]. apply restore_vm_snap; [done|]. by apply put_vm_snap.
  - unfold handleReplicaRestoreByID, handleReplicaRestoreForVM. destruct (Store_GetVM (store a) id) as [vm|]; [|done].
    destruct (no_snapshot vm) eqn:En; [done|]. destruct runtime; [|done]. by apply restore_vm_snap.
Qed.

End SnapshotProofs.

(** The snapshots of the runtime's client have two files. *)
Lemma CreateSnapshot_files w c vmID dir now h h' res :
  dir <> "" -> CreateSnapshot w c vmID dir now h = (h', Ok res) -> Snap_Path res <> "" /\ Snap_MemoryPath res <> "".
Proof.
  intros Hd. unfold CreateSnapshot. destruct (fc_vms c !! vmID); [|done]. destruct (put _ _ _ _ _) as [h1 [e|]]; [done|].
  intros [= <- <-]. split; by apply Join_nonempty.
Qed.

(** ** Lemmas: allocations *)

(** One VM per network and address, whatever is allocated and released. *)
Lemma allocations_unique inet net ip vm l :
  NoDup ((fun r => (IPA_NetworkID r, IPA_IP r)) <$> l) ->
  NoDup ((fun r => (IPA_NetworkID r, IPA_IP r)) <$> (AllocateIP inet net ip vm l).1).
Proof.
  intros Hn. unfold AllocateIP. destruct (inet ip) as [addr|]; [|done]. cbn [fst].
  destruct (existsb (same_address net addr) l) eqn:E.
  - rewrite <- list_fmap_compose. rewrite (list_fmap_ext _ (fun r => (IPA_NetworkID r, IPA_IP r)) l); [done|].
    intros i r _. cbn. unfold same_address. destruct ((IPA_NetworkID r ==? net) && (IPA_IP r ==? addr)) eqn:Es; [|done].
    bools. cbn. congruence.
  - rewrite fmap_app, NoDup_app. split_and!; [done| |apply NoDup_singleton].
    intros x Hx. cbn. rewrite list_elem_of_singleton. intros ->. apply list_elem_of_fmap in Hx as (r & Er & Hr).
    assert (Ht : existsb (same_address net addr) l = true); [|by rewrite Ht in E].
    apply existsb_exists. exists r. split; [by apply list_elem_of_In|]. injection Er as -> ->. unfold same_address.
    by rewrite !bool_decide_eq_true_2.
Qed.

(** Allocating a taken address is not a no-op: the row passes to the new VM. *)
Lemma allocation_is_taken_over :
  let inet := fun s => Some s in
  let l := (AllocateIP inet "n" "10.0.0.2" "vm-a" []).1 in
  (AllocateIP inet "n" "10.0.0.2" "vm-b" l).1 = [mkIPAllocation "n" "10.0.0.2" "vm-b"].
Proof. reflexivity. Qed.

(** ** Examples *)

(** By identifier a failed snapshot leaves no trace in the row. *)
Lemma snapshot_by_id_failure_unrecorded {R : Type} `{Snapshotter R} id vm (a : API R) r e :
  Store_GetVM (store a) id = Some vm -> vr_Snapshot (vmm a) vm = (r, Err e) ->
  r_status (handleReplicaSnapshotByID true id a).2 = 409 /\ store (handleReplicaSnapshotByID true id a).1 = store a.
Proof. intros Hg Hs. unfold handleReplicaSnapshotByID, handleReplicaSnapshotForVM. rewrite Hg. cbn [negb]. by rewrite Hs. Qed.

Definition ex_w : Wiring := mkWiring (fun n => "id-" ++ Itoa (Z.of_nat n)) (fun _ => Err "") (fun _ _ => None) None None "".

(** A runner that counts its calls. *)
Definition ex_runner : Snapshotter nat := {|
  vr_Snapshot r vm := (S r, Ok (mkSnapshotInfo ("/snap/" ++ VM_ID vm ++ ".snap") ("/snap/" ++ VM_ID vm ++ ".mem") 5));
  vr_Restore r vm := (S r, None) |}.

Lemma ex_runner_laws : @SnapshotterLaws nat ex_runner.
Proof. intros r vm r' info [= <- <-]. cbn. by split. Qed.

Definition ex_vm : VM := VM_set_HealthStatus HealthHealthy (VM_set_State StateRunning (VM_set_ProjectID "p1" (VM_set_ID "v1" VM_zero))).
Definition ex_proj : Project := Proj_set_VMIDs ["v1"] (Proj_set_ID "p1" Proj_zero).
Definition ex_store : StoreState := PutVM ex_vm (PutProject ex_proj empty_store).
Definition ex_api : API nat := mkAPI ex_store [] [] 0%nat 0 [] [] [] [].

Lemma ex_store_inv : replicas_inv ex_store.
Proof. apply PutVM_inv, PutProject_replicas_inv, no_replicas_inv. reflexivity. Qed.

Lemma snapshot_then_restore_witness :
  let '(a1, resp1) := @handleReplicaSnapshot nat ex_runner true "p1" "0" ex_api in
  let '(a2, resp2) := @handleReplicaRestore nat ex_runner true "p1" "0" a1 in
  match @vr_Snapshot nat ex_runner (vmm ex_api) (set_snapshot "creating" "" ex_vm) with
  | (r, Ok info) =>
      let taken := took_snapshot info (set_snapshot "creating" "" ex_vm) in
      r_status resp1 = 200 /\ replica_updated ex_vm (store ex_api) taken (store a1) /\
      (let restoring := set_snapshot "restoring" "" taken in
       VM_SnapshotPath restoring = Info_SnapshotPath info /\ VM_SnapshotMemPath restoring = Info_MemoryPath info /\
       match @vr_Restore nat ex_runner r restoring with
       | (_, None) => r_status resp2 = 202 /\
           replica_updated taken (store a1) (VM_set_Crashed false (set_snapshot "ready" "" restoring)) (store a2)
       | (_, Some e) => r_status resp2 = 409 /\
           replica_updated taken (store a1) (VM_set_Crashed true (set_snapshot "failed" e restoring)) (store a2)
       end)
  | (_, Err e) => r_status resp1 = 409 /\
      replica_updated ex_vm (store ex_api) (set_snapshot "failed" e (set_snapshot "creating" "" ex_vm)) (store a1)
  end.
Proof.
  apply (@snapshot_then_restore nat ex_runner ex_runner_laws "p1" "0" ex_api ex_vm).
  - exact ex_store_inv.
  - exists "v1". split; vm_compute; reflexivity.
Defined.


Definition ex_hb : ServerHeartbeat := mkServerHeartbeat "id-0" "10.0.0.9:22" "" 4 8192 "linux" "amd64" "1.0" 0 0.
Definition ex_empty : API unit := mkAPI empty_store [] [] tt 0 [] [] [] [].

Lemma registration_becomes_ready_witness :
  let id := "id-0" in
  let ready := Srv_set_Status StatusReady (registered_row id "node-1" "10.0.0.9") in
  let '(a1, resp) := handleRegisterServer ex_w 1 (Ok ("node-1", "10.0.0.9")) ex_empty in
  let s := node_cycles [1; 2; 3; 4; 5; 6; 7; 8; 9] (store a1) in
  r_status resp = 201 /\ servers_inv (store a1) /\
  (forall other, other <> id -> GetServer (store a1) other = GetServer (store ex_empty) other) /\
  GetServer s id = Some ready /\
  GetServer (ApplyHeartbeat ex_hb 20 s).1 id = Some (heartbeat_cols ex_hb 20 ready).
Proof.
  apply (registration_becomes_ready ex_w 1 "node-1" "10.0.0.9" [1; 2; 3; 4; 5; 6; 7; 8; 9] ex_empty ex_hb 20).
  - split; apply NoDup_nil_2.
  - discriminate.
  - apply not_elem_of_nil.
  - apply not_elem_of_nil.
  - reflexivity.
  - reflexivity.
  - reflexivity.
Defined.

(** A command's output ends up in the replica's log, and only on success. *)
Lemma exec_logs_output {R : Type} (exec : R -> string -> list string -> R * (string * option string)) id cmd arg vm (a : API R) rg :
  Store_GetVM (store a) id = Some vm ->
  let '(_, rg', _) := handleReplicaExecByID (Some exec) id (Ok (cmd :: arg)) a rg in
  match (exec (vmm a) (VM_ID vm) (cmd :: arg)).2 with
  | (out, None) => rg' = AppendLog (VM_ID vm) (trim_space out) rg
  | (_, Some _) => rg' = rg
  end.
Proof.
  intros Hg. unfold handleReplicaExecByID. rewrite Hg. by destruct (exec (vmm a) (VM_ID vm) (cmd :: arg)) as [r [out [e|]]].
Qed.
