(* ===== verification/Views.v ===== *)
(** * Reading views of the API ([api/api.go], [api/handlers.go])

    Conditional reads with entity tags and field selection; log, metric and event
    views over the rings and the durable tables, with the snapshots of their live
    streams; services, framework detection, git branches and settings; images and
    the host. JSON encoding of a value is an argument where only its text matters. *)
From S2P Require Import Prelude GoStrings GoNum GoCrypto Types Gateway Store Controllers Compose Pool Api Projects Telemetry Durable Hosts.
From Stdlib Require Import String Ascii.

Open Scope string_scope.
Open Scope Z_scope.

(** ** Entity tags *)

(** The tag of a JSON body. *)
Definition tag_of (body : string) : string := String "034" "" ++ hash_hex body ++ String "034" "".

(** [etagOf]: "" for a value that cannot be encoded. *)
Definition etagOf (body : option string) : string := match body with Some b => tag_of b | None => "" end.

(** [etagFresh]: the header it sets, and whether the client's copy is current. *)
Definition etagFresh (if_none_match body : string) : string * bool :=
  let tag := tag_of body in (tag, if_none_match ==? tag).

Record HttpReply := mkHttpReply { hr_status : Z; hr_etag : option string; hr_body : string }.

(** [writeJSONETag] of a value whose encoding is [body]; an encoding error leaves
    [writeJSON], which sends the status and no body. *)
Definition writeJSONETag (if_none_match : string) (body : option string) : HttpReply :=
  match body with
  | None => mkHttpReply 200 None ""
  | Some b =>
      let '(tag, fresh) := etagFresh if_none_match b in
      if fresh then mkHttpReply 304 (Some tag) "" else mkHttpReply 200 (Some tag) b
  end.

(** ** Field selection *)

(** [want] of [selectFields]: the names of the query, lower-cased. *)
Definition wanted (fields : string) : list string :=
  to_lower <$> base.filter (fun f => f <> "") (trim_space <$> split_on "," fields).

(** [selectFields] of a JSON object, by its members; another value, which does not
    decode into a map, is returned as it is. *)
Definition selectFields (fields : string) (obj : list (string * Json)) : list (string * Json) :=
  let raw := trim_space fields in
  if raw ==? "" then obj
  else
    match wanted raw with
    | [] => obj
    | want => base.filter (fun kv => to_lower kv.1 ∈ want) obj
    end.

(** ** Projects and replicas *)

Section Views.
Context {R : Type}.
Implicit Types (a : API R) (rg : Rings) (d : Durable).

Definition pool_vms (s : StoreState) (ids : list string) : list VM := omap (Store_GetVM s) ids.

Definition handleListReplicas (limit cursor id : string) a : API R * (Resp + Page VM) :=
  let '(a, p) := get_project id a in
  match p with
  | None => (a, inl (writeError 404 "project not found"))
  | Some proj => (a, inr (paginate limit cursor (pool_vms (store a) (Proj_VMIDs proj))))
  end.

Definition handleVMCompatDomains (replicaId : string) a : Resp :=
  match Store_GetVM (store a) replicaId with
  | None => writeError 404 "replica not found"
  | Some vm => writeJSON 200 (JDomains (Store_ListDomains (store a) (VM_ProjectID vm)))
  end.

(** ** Logs, metrics, events *)

Section Ordered.
Context (order_metrics : list MetricSample -> list MetricSample) (order_events : list HealthEvent -> list HealthEvent).

Definition handleReplicaMetrics (id n : string) a d : API R * Resp :=
  let '(a, vmID) := vmAtReplica id (replicaIndex n) a in (a, writeJSON 200 (JMetrics (ListMetrics order_metrics vmID 60 d))).

Definition handleReplicaMetricsByID (replicaId : string) d : Resp := writeJSON 200 (JMetrics (ListMetrics order_metrics replicaId 60 d)).

Definition handleReplicaHealth (id n : string) a d : API R * Resp :=
  let '(a, vmID) := vmAtReplica id (replicaIndex n) a in
  (a, writeJSON 200 (JObj [("replica", JStr vmID); ("events", JEvents (ListHealthEvents order_events id 20 d))])).

Definition handleProjectMetrics (id : string) a d : API R * Resp :=
  with_project id a (fun a proj =>
    (a, writeJSON 200 (JMetrics (Proj_VMIDs proj ≫= fun vid => ListMetrics order_metrics vid 30 d)))).

Definition handleProjectEvents (id : string) d : Resp := writeJSON 200 (JEvents (ListHealthEvents order_events id 50 d)).

Definition handleFirewallEvents (id : string) d : Resp :=
  writeJSON 200 (JObj [("events", JEvents (ListHealthEvents order_events id 50 d)); ("project_id", JStr id)]).
End Ordered.

(** The lines of a project: its replicas' in the order of the pool, then its builds'. *)
Definition project_lines (proj : Project) rg d : list string :=
  ((Proj_VMIDs proj ≫= fun vid => TailLogs rg vid 50) ++ TailBuildLogs (Proj_ID proj) 50 d)%list.

Definition handleProjectLogs (id : string) a rg d : API R * Resp :=
  with_project id a (fun a proj =>
    (a, writeJSON 200 (JObj [("logs", JStrs (project_lines proj rg d)); ("project_id", JStr (Proj_ID proj))]))).

(** The snapshot of one tick of [handleProjectLogStream]. *)
Definition project_log_snapshot (id : string) a rg d : API R * logStreamPayload :=
  let '(a, p) := get_project id a in
  (a, match p with
      | None => mkPayload "project" [] "missing"
      | Some proj => mkPayload "project" (project_lines proj rg d) (projStatus proj)
      end).

Definition handleProjectLogStream (id : string) a rg d : API R * Reply :=
  let '(a, p) := get_project id a in
  match p with
  | None => (a, Json_reply (writeError 404 "project not found"))
  | Some _ => let '(a, snap) := project_log_snapshot id a rg d in (a, Stream_reply None snap)
  end.

Definition own_build (projectID buildID : string) a : option Build :=
  match GetBuild (store a) buildID with
  | Some b => if Bld_ProjectID b ==? projectID then Some b else None
  | None => None
  end.

Definition handleBuildLogs (projectID buildID : string) a d : Resp :=
  match own_build projectID buildID a with
  | None => writeError 404 "build not found"
  | Some b => writeJSON 200 (JObj [("build", JStr buildID); ("status", JStr (Bld_BuildStatus b));
                                   ("logs", JStrs (TailBuildLogsFor projectID buildID 300 d))])
  end.

Definition build_log_snapshot (projectID buildID : string) a d : logStreamPayload :=
  match GetBuild (store a) buildID with
  | None => mkPayload "build" [] "missing"
  | Some b => mkPayload "build" (TailBuildLogsFor projectID buildID 300 d) (Bld_BuildStatus b)
  end.

Definition build_over (status : string) : bool := (status ==? "ready") || (status ==? "failed").

Definition handleBuildLogStream (projectID buildID : string) a d : Reply :=
  match own_build projectID buildID a with
  | None => Json_reply (writeError 404 "build not found")
  | Some _ => Stream_reply (Some build_over) (build_log_snapshot projectID buildID a d)
  end.

Definition handleDeploymentLogs (projectID : string) d : Resp :=
  writeJSON 200 (JObj [("logs", JStrs (TailBuildLogs projectID 200 d))]).

Definition handleDaemonLogs (tail : string) rg : Resp :=
  writeJSON 200 (JObj [("logs", JStrs (TailDaemonLogs rg (tailN tail)))]).

(** ** Services *)

(** One entry of the listing. *)
Record ServiceView := mkServiceView { sv_name : string; sv_desired : Z; sv_healthy : Z; sv_vms : list string }.

(** The pools of the project, in Go's order of the map, then the services of the
    compose file that have none. *)
Definition service_views (order : list (string * ServicePool) -> list (string * ServicePool)) (proj : Project) : list ServiceView :=
  (((fun np : string * ServicePool => mkServiceView np.1 (Pool_Desired np.2) (Pool_Healthy np.2) (Pool_VMs np.2)) <$>
      order (map_to_list (Proj_ServicePools proj))) ++
   (if Proj_ComposeYAML proj !=? ""
    then (fun svc => mkServiceView svc 1 0 []) <$> base.filter (fun svc => Proj_ServicePools proj !! svc = None) (serviceNames proj)
    else []))%list.

Definition name_le (x y : ServiceView) : Prop := String.le (sv_name x) (sv_name y).

#[export] Instance name_le_dec x y : Decision (name_le x y).
Proof. unfold name_le. apply _. Defined.

Definition list_services (order : list (string * ServicePool) -> list (string * ServicePool)) (proj : Project) : list ServiceView :=
  merge_sort name_le (service_views order proj).

Definition handleListServices (order : list (string * ServicePool) -> list (string * ServicePool)) (id : string) a : API R * (Resp + list ServiceView) :=
  let '(a, p) := get_project id a in
  (a, match p with None => inl (writeError 404 "project not found") | Some proj => inr (list_services order proj) end).

(** [handleGetService]: the service of that name, or all of them. *)
Definition handleGetService (order : list (string * ServicePool) -> list (string * ServicePool)) (id name : string) a
  : API R * (Resp + (ServiceView + list ServiceView)) :=
  let '(a, p) := get_project id a in
  (a, match p with
      | None => inl (writeError 404 "project not found")
      | Some proj =>
          let pools := service_views order proj in
          inr (match find_first (fun v => sv_name v ==? name) pools with Some v => inl v | None => inr pools end)
      end).

(** ** Framework detection *)

Record Framework := mkFramework { fw_name : string; fw_keys : list string; fw_install : string; fw_build : string; fw_start : string }.

Definition frameworks : list Framework :=
  [mkFramework "node" ["node"; "nextjs"; "nuxt"; "sveltekit"; "remix"] "npm install" "npm run build" "npm start";
   mkFramework "nextjs" ["next"] "npm install" "npm run build" "npm run start";
   mkFramework "python" ["python"; "django"; "flask"; "fastapi"; "streamlit"; "jupyter"] "pip install -r requirements.txt" "" "python app.py";
   mkFramework "go" ["golang"; "/go"; "gobuild"; "scratch"] "go mod download" "go build -o app ." "./app";
   mkFramework "ruby" ["ruby"; "rails"; "jekyll"] "bundle install" "" "bundle exec rails server";
   mkFramework "php" ["php"; "laravel"; "wordpress"] "composer install" "" "php artisan serve";
   mkFramework "rust" ["rust"; "cargo"; "actix"; "rocket"] "cargo build --release" "" "./target/release/app";
   mkFramework "deno" ["deno"] "deno cache main.ts" "" "deno run --allow-all main.ts";
   mkFramework "static" ["nginx"; "httpd"; "apache"; "static"; "caddy"; "html"; "vite"] "" "" "";
   mkFramework "postgresql" ["postgres"; "postgresql"] "" "" "";
   mkFramework "redis" ["redis"] "" "" "";
   mkFramework "mysql" ["mysql"; "mariadb"] "" "" ""].

Definition detectFramework (proj : Project) : Json :=
  let ref := to_lower (Proj_Image proj ++ " " ++ Proj_Source proj ++ " " ++ Proj_ComposeYAML proj) in
  match find_first (fun c => existsb (contains ref) (fw_keys c)) frameworks with
  | Some c => JObj [("framework", JStr (fw_name c)); ("install_command", JStr (fw_install c)); ("build_command", JStr (fw_build c));
                    ("start_command", JStr (fw_start c)); ("detected", JBool true)]
  | None => JObj [("framework", JStr "other"); ("detected", JBool false)]
  end.

Definition handleGetFramework (id : string) (pf : Platform R) : Platform R * Resp :=
  let '(a, p) := get_project id (pf_api pf) in
  let pf := on_api (fun _ => a) pf in
  match p with
  | None => settingsGet id "framework" pf
  | Some proj =>
      match pf_settings pf !! (Proj_ID proj, "framework") with
      | Some (JObj (x :: l)) => (pf, writeJSON 200 (JObj (x :: l)))
      | _ => (pf, writeJSON 200 (detectFramework proj))
      end
  end.

(** ** Git *)

(** What follows the first [refs/heads/] of a line, not at its start. *)
Fixpoint after_first (sub s : string) (i : nat) : option (nat * string) :=
  if has_prefix s sub then Some (i, sdrop (String.length sub) s)
  else match s with EmptyString => None | String _ s => after_first sub s (S i) end.

Definition branch_of (line : string) : option string :=
  match after_first "refs/heads/" line 0 with
  | Some (S _, name) => Some name
  | _ => None
  end.

(** The loop over [branches] with the map [dedup]: first occurrences, in order. *)
Fixpoint dedup (seen : list string) (l : list string) : list string :=
  match l with
  | [] => []
  | b :: l => if bool_decide (b ∈ seen) then dedup seen l else b :: dedup (b :: seen) l
  end.

(** [ls_remote] is the output of [git ls-remote --heads], [None] on an error. *)
Definition git_branches (builds : list Build) (ls_remote : string -> option string) : list string :=
  let url := default "" (Bld_GitURL <$> last builds) in
  let heads := if url !=? "" then match ls_remote url with Some out => omap branch_of (split_on "010" out) | None => [] end else [] in
  dedup [] ("main" :: heads).

Definition handleGitSync (id : string) (body : result string string) (d : Durable) (pf : Platform R) : Platform R * Durable * Resp :=
  match body with
  | Err e => (pf, d, writeError 400 ("bad request: " ++ e))
  | Ok branch =>
      let pf := PutProjectSettings id "git" (JObj [("sync", JBool true); ("branch", JStr branch)]) pf in
      (pf, Durable.AppendBuildLog (store (pf_api pf)) id "git sync triggered" d,
       writeJSON 200 (JObj [("status", JStr "synced"); ("branch", JStr branch)]))
  end.

Definition handleGitToggles (id : string) (body : result string (option bool * option bool)) (pf : Platform R) : Platform R * Resp :=
  match body with
  | Err e => (pf, writeError 400 ("bad request: " ++ e))
  | Ok (auto, prod) =>
      let toggles := JObj (match auto with Some b => [("auto_deploy", JBool b)] | None => [] end ++
                           match prod with Some b => [("production_only", JBool b)] | None => [] end)%list in
      (PutProjectSettings id "git" toggles pf, writeJSON 200 toggles)
  end.

(** Rows by creation, which is the order of the list. *)
Definition ListBuilds (s : StoreState) (projectID : string) : list Build :=
  base.filter (fun b => Bld_ProjectID b = projectID /\ projectID <> "") (builds s).

Definition handleListBuilds (projectID : string) a : list Build := ListBuilds (store a) projectID.

Definition handleGitBranches (id : string) (ls_remote : string -> option string) a : API R * Resp :=
  with_project id a (fun a proj =>
    (a, writeJSON 200 (JObj [("branches", JStrs (git_branches (ListBuilds (store a) (Proj_ID proj)) ls_remote)); ("project_id", JStr id)]))).

(** ** Settings sections: one generic read and write per path *)

Inductive Setting :=
| SGeneral | SBuild | SChecks | SRollout | SBuildMachine | SGit | SGitLFS | SProtection | SSecurity | SRetention
| SNetworking | SAdvanced | SOIDC | SPassport | SMicrofrontends | SFunctions | SIgnoreCommand.

#[export] Instance Setting_eq_dec : EqDecision Setting.
Proof. solve_decision. Defined.

Definition section (x : Setting) : string :=
  match x with
  | SGeneral => "general" | SBuild => "build" | SChecks => "checks" | SRollout => "rollout" | SBuildMachine => "build-machine"
  | SGit => "git" | SGitLFS => "git/lfs" | SProtection => "deployment-protection" | SSecurity => "security" | SRetention => "retention"
  | SNetworking => "networking" | SAdvanced => "advanced" | SOIDC => "oidc" | SPassport => "passport"
  | SMicrofrontends => "microfrontends" | SFunctions => "functions" | SIgnoreCommand => "ignore-command"
  end.

Definition handleGetSetting (x : Setting) (id : string) (pf : Platform R) : Platform R * Resp := settingsGet id (section x) pf.
Definition handlePutSetting (x : Setting) (id : string) (body : result string Json) (pf : Platform R) : Platform R * Resp :=
  settingsPut id (section x) body pf.

(** ** Images *)

Definition manifest_of (gi : GoldenImage) : ImageManifest :=
  mkImageManifest (GI_ID gi) (GI_Name gi) (GI_Kind gi) (GI_Description gi) (GI_Image gi) (GI_Rootfs gi) (GI_Kernel gi) (GI_Architecture gi)
    (GI_RootfsSHA256 gi) (GI_KernelSHA256 gi) (GI_Status gi) (GI_VCPUs gi) (GI_MemMiB gi) (GI_Ports gi) (GI_Env gi) (GI_Tags gi) (GI_Logo gi).

Definition handleListImages (w : Wiring) a : list ImageManifest :=
  (default [] (catalog w) ++ (manifest_of <$> golden_images a))%list.

Definition base_ref (w : Wiring) : string :=
  match hostConfig w with
  | Some c => if BaseImageRef c !=? "" then BaseImageRef c else "base://default"
  | None => "base://default"
  end.

Definition is_base (ref : string) (gi : GoldenImage) : bool := (GI_Image gi ==? ref) || (GI_Name gi ==? trim_prefix ref "base://").

Definition handleBaseImage (w : Wiring) a : result Resp GoldenImage :=
  match find_first (is_base (base_ref w)) (golden_images a) with
  | Some gi => Ok gi
  | None => Err (writeError 404 "configured base image is not registered")
  end.

(** The reference, the image found and whether its artifacts are valid. *)
Definition handleBaseImageReadiness (w : Wiring) a : string * option GoldenImage * bool :=
  match find_first (is_base (base_ref w)) (golden_images a) with
  | Some gi => (base_ref w, Some gi, match ValidateArtifacts w (GI_Rootfs gi) (GI_Kernel gi) with None => true | Some _ => false end)
  | None => (base_ref w, None, false)
  end.

Definition image_match (q : string) (im : ImageManifest) : bool :=
  (q ==? "") || contains (to_lower (Man_Name im)) q || contains (to_lower (Man_Image im)) q.

Definition handleImageSearch (w : Wiring) (query : string) : list ImageManifest :=
  base.filter (fun im => image_match (to_lower query) im = true) (default [] (catalog w)).

Definition handleGetImage (w : Wiring) (ref : string) : option ImageManifest :=
  find_first (fun im => (Man_Name im ==? ref) || (Man_Image im ==? ref)) (default [] (catalog w)).

(** [size] is the size of a file, [None] when it cannot be read. *)
Definition handleImageStats (size : string -> option Z) (images : list GoldenImage) : Z * Z :=
  (zlen images,
   fold_left (fun bytes gi => if GI_Rootfs gi !=? ""
                              then match size (GI_Rootfs gi) with Some n => i64 (bytes + n) | None => bytes end
                              else bytes) images 0).

(** ** The host *)

Definition hostname (os : result string string) : string := match os with Ok h => h | Err _ => "porter-host" end.

(** [strings.Count] of a non-empty substring: occurrences that do not overlap. *)
Fixpoint count_sub (fuel : nat) (sub s : string) : Z :=
  match fuel, s with
  | S fuel, String _ rest =>
      if has_prefix s sub then 1 + count_sub fuel sub (sdrop (String.length sub) s) else count_sub fuel sub rest
  | _, _ => 0
  end.

(** One line of [/proc/meminfo] in the loop of [hostLoad]; [memUsed] is computed
    from the total read so far. *)
Definition mem_line (acc : Z * Z) (line : string) : Z * Z :=
  match fields line with
  | name :: value :: _ =>
      let v := Atoi_val value in
      if name ==? "MemTotal:" then (acc.1, v)
      else if name ==? "MemAvailable:" then (i64 (acc.2 - v), acc.2)
      else acc
  | _ => acc
  end.

(** [hostLoad]: the files' contents, [None] when one cannot be read, and
    [strconv.ParseFloat]; an empty [/proc/loadavg] panics. *)
Definition hostLoad (parse : string -> option float64) (cpuinfo loadavg meminfo : option string) : option (Z * float64 * Z * Z) :=
  let ncpu := match cpuinfo with
              | Some b => count_sub (S (String.length b)) ("processor" ++ String "009" ":") b
              | None => 0
              end in
  let '(memUsed, memTotal) := match meminfo with Some b => fold_left mem_line (split_on "010" b) (0, 0) | None => (0, 0) end in
  match loadavg with
  | None => Some (ncpu, f_of_Z 0, memUsed, memTotal)
  | Some b =>
      match fields b with
      | [] => None
      | f :: _ => Some (ncpu, default (f_of_Z 0) (parse f), memUsed, memTotal)
      end
  end.

Record Overview := mkOverview { ov_running : Z; ov_total : Z; ov_projects : Z; ov_images : Z }.

Definition handleOverview a : Overview :=
  mkOverview (zlen (base.filter (fun vm => VM_State vm = StateRunning) (Store_ListVMs (store a)))) (zlen (Store_ListVMs (store a)))
    (zlen (ListProjects (store a))) (zlen (golden_images a)).

(** Percent of the CPUs and of the memory; the memory total in MiB. *)
Definition handleHostOverview (load : Z * float64 * Z * Z) : float64 * float64 * Z * Z :=
  let '(cpu, l, mu, mt) := load in
  (if flt (f_of_Z 0) l && (0 <? cpu) then fmul (fdiv l (f_of_Z cpu)) (f_of_Z 100) else f_of_Z 0,
   if 0 <? mt then fmul (fdiv (f_of_Z mu) (f_of_Z mt)) (f_of_Z 100) else f_of_Z 0,
   cpu, Z.quot mt 1024).

Record HostPort := mkHostPort { hp_vm : string; hp_name : string; hp_ip : string; hp_host : Z; hp_container : Z; hp_proto : string }.

Definition handleHostPorts a : list HostPort :=
  Store_ListVMs (store a) ≫= fun vm =>
    (fun p => mkHostPort (VM_ID vm) (VM_Name vm) (VM_IPAddress vm) (Port_HostPort p) (Port_ContainerPort p) (Port_Protocol p)) <$> VM_Ports vm.

Definition kernel_paths : list string :=
  ["/etc/porter/kernel/vmlinux"; "/opt/porter/kernel/vmlinux"; "/var/lib/porter/kernel/vmlinux"; "kernel/vmlinux"].

(** The first kernel image that is there, with its size. *)
Definition handleHostKernel (size : string -> option Z) : option (string * Z) :=
  head (omap (fun p => (fun n => (p, n)) <$> size p) kernel_paths).
End Views.

(** ** Theorems: conditional reads *)

(** A client that keeps the last body with its tag and asks with it: the copy it
    has after a read of a value encoded as [body]. *)
Definition refresh (cache : option (string * string)) (body : string) : option (string * string) :=
  let reply := writeJSONETag (match cache with Some (tag, _) => tag | None => "" end) (Some body) in
  if hr_status reply =? 304 then cache
  else match hr_etag reply with Some tag => Some (tag, hr_body reply) | None => cache end.

Lemma tag_nonempty body : tag_of body <> "".
Proof. unfold tag_of. intros E. discriminate E. Qed.

Lemma tag_inj b b' : tag_of b = tag_of b' -> hash_hex b = hash_hex b'.
Proof.
  unfold tag_of. intros E. apply sapp_inj_l in E. revert E.
  destruct (hash_hex_wf b) as [Hl _], (hash_hex_wf b') as [Hl' _]. revert Hl Hl'. generalize (hash_hex b) (hash_hex b').
  intros h h' Hl Hl' E. rewrite <- (stake_app h (String "034" "")), <- (stake_app h' (String "034" "")). by rewrite E, Hl, Hl'.
Qed.

(** The client's copy is of the value read last. *)
Definition current (cache : option (string * string)) (body : string) : Prop := cache = Some (tag_of body, body).

Lemma refresh_current cache body :
  (cache = None \/ exists old, current cache old /\ (hash_hex old = hash_hex body -> old = body)) ->
  current (refresh cache body) body.
Proof.
  intros H. unfold refresh, writeJSONETag, etagFresh, current. destruct H as [->|(old & -> & Hi)].
  - rewrite bool_decide_eq_false_2 by (intros E; symmetry in E; by apply tag_nonempty in E). reflexivity.
  - destruct (bool_decide_reflect (tag_of old = tag_of body)) as [E|E].
    + apply tag_inj in E. rewrite (Hi E). reflexivity.
    + reflexivity.
Qed.

(** A client that reads with its entity tag always shows the current value:
    after any sequence of reads of changing values its copy is the last value's
    encoding, provided no two of them have the same SHA-256. *)
Theorem conditional_reads_current bodies body :
  (forall x y, x ∈ (bodies ++ [body])%list -> y ∈ (bodies ++ [body])%list -> hash_hex x = hash_hex y -> x = y) ->
  current (fold_left refresh (bodies ++ [body])%list None) body.
Proof.
  revert body. induction bodies as [|b bodies IH] using rev_ind; intros body Hinj.
  - apply refresh_current. by left.
  - rewrite fold_left_app. cbn [fold_left]. apply refresh_current. right. exists b. split.
    + apply IH. intros x y Hx Hy. apply Hinj; apply elem_of_app; by left.
    + apply Hinj; apply elem_of_app; [left; apply elem_of_app; right; by apply list_elem_of_singleton|right; by apply list_elem_of_singleton].
Qed.

(** The members a selection keeps: all of them without a name in the query, else
    those whose name is asked for in any case. *)
Lemma selectFields_spec fields obj k v :
  (k, v) ∈ selectFields fields obj <->
  (k, v) ∈ obj /\ (wanted (trim_space fields) = [] \/ trim_space fields = "" \/ to_lower k ∈ wanted (trim_space fields)).
Proof.
  unfold selectFields. destruct (bool_decide_reflect (trim_space fields = "")) as [E|E]; [naive_solver|].
  destruct (wanted (trim_space fields)) as [|f l] eqn:Ew; [naive_solver|]. rewrite list_elem_of_filter. cbn [fst]. naive_solver.
Qed.

(** ** Theorems: branches *)

Lemma dedup_spec seen l :
  NoDup (dedup seen l) /\ (forall b, b ∈ dedup seen l <-> b ∈ l /\ b ∉ seen).
Proof.
  revert seen. induction l as [|b l IH]; intros seen; cbn [dedup].
  { split; [apply NoDup_nil_2|]. intros b. split; [intros H; by apply not_elem_of_nil in H|intros [H _]; by apply not_elem_of_nil in H]. }
  destruct (bool_decide_reflect (b ∈ seen)) as [Hb|Hb].
  - destruct (IH seen) as [Hn He]. split; [done|]. intros x. rewrite He, elem_of_cons. naive_solver.
  - destruct (IH (b :: seen)) as [Hn He]. split.
    + apply NoDup_cons. split; [|done]. rewrite He, elem_of_cons. tauto.
    + intros x. rewrite !elem_of_cons, He, elem_of_cons. destruct (decide (x = b)) as [->|]; naive_solver.
Qed.

(** The branches of a project: [main] first, no name twice, and besides it exactly
    the heads the remote of its last build reports. *)
Lemma git_branches_spec builds ls_remote :
  let bs := git_branches builds ls_remote in
  head bs = Some "main" /\ NoDup bs /\
  (forall b, b ∈ bs <-> b = "main" \/
     exists bld out line, last builds = Some bld /\ Bld_GitURL bld <> "" /\ ls_remote (Bld_GitURL bld) = Some out /\
       line ∈ split_on "010" out /\ branch_of line = Some b).
Proof.
  unfold git_branches.
  set (heads := if default "" (Bld_GitURL <$> last builds) !=? "" then _ else _).
  destruct (dedup_spec [] ("main" :: heads)) as [Hn He]. cbv zeta. split; [reflexivity|]. split; [done|].
  intros b. rewrite He, elem_of_cons.
  assert (Hh : b ∈ heads <-> exists bld out line, last builds = Some bld /\ Bld_GitURL bld <> "" /\ ls_remote (Bld_GitURL bld) = Some out /\
                 line ∈ split_on "010" out /\ branch_of line = Some b).
  { unfold heads. destruct (last builds) as [bld|]; cbn.
    2: { split; [intros H; by apply not_elem_of_nil in H|naive_solver]. }
    destruct (bool_decide_reflect (Bld_GitURL bld = "")) as [E|E]; cbn [negb].
    { split; [intros H; by apply not_elem_of_nil in H|naive_solver]. }
    destruct (ls_remote (Bld_GitURL bld)) as [out|] eqn:Eo.
    - rewrite list_elem_of_omap. split.
      + intros (line & Hl & Hb). by exists bld, out, line.
      + intros (bld' & out' & line & [= <-] & _ & Eo' & Hl & Hb). rewrite Eo in Eo'. injection Eo' as <-. by exists line.
    - split; [intros H; by apply not_elem_of_nil in H|]. intros (bld' & out' & line & [= <-] & _ & Eo' & _). congruence. }
  rewrite <- Hh. assert (b ∉ []) by apply not_elem_of_nil. tauto.
Qed.

(** ** Theorems: services *)

Section Services.
Context (order : list (string * ServicePool) -> list (string * ServicePool)).
Hypothesis order_perm : forall l, order l ≡ₚ l.

(** The entry of a name in the listing. *)
Definition service_view (proj : Project) (name : string) : option ServiceView :=
  match Proj_ServicePools proj !! name with
  | Some pool => Some (mkServiceView name (Pool_Desired pool) (Pool_Healthy pool) (Pool_VMs pool))
  | None => if bool_decide (Proj_ComposeYAML proj <> "" /\ name ∈ serviceNames proj) then Some (mkServiceView name 1 0 []) else None
  end.

Lemma service_views_elem proj v : v ∈ service_views order proj <-> service_view proj (sv_name v) = Some v.
Proof.
  unfold service_views, service_view. rewrite elem_of_app. split.
  - intros [(np & -> & Hnp)%list_elem_of_fmap|Hv].
    + rewrite order_perm in Hnp. destruct np as [name pool]. apply elem_of_map_to_list in Hnp. cbn. by rewrite Hnp.
    + destruct (bool_decide_reflect (Proj_ComposeYAML proj = "")) as [E|E]; cbn [negb] in Hv; [by apply not_elem_of_nil in Hv|].
      apply list_elem_of_fmap in Hv as (svc & -> & Hs). apply list_elem_of_filter in Hs as [Hn Hin]. cbn. rewrite Hn.
      by rewrite bool_decide_eq_true_2.
  - destruct (Proj_ServicePools proj !! sv_name v) as [pool|] eqn:Ep.
    + intros [= Ev]. left. apply list_elem_of_fmap. exists (sv_name v, pool). split; [by rewrite <- Ev|].
      rewrite order_perm. by apply elem_of_map_to_list.
    + destruct (bool_decide_reflect (Proj_ComposeYAML proj <> "" /\ sv_name v ∈ serviceNames proj)) as [[E Hin]|]; [|done].
      intros [= Ev]. right. rewrite (bool_decide_eq_false_2 (Proj_ComposeYAML proj = "")) by done. cbn [negb].
      apply list_elem_of_fmap. exists (sv_name v). split; [done|]. by apply list_elem_of_filter.
Qed.

(** The listing of a project's services is sorted by name and holds exactly one
    view per pool and per service of the compose file without a pool. *)
Lemma list_services_spec proj :
  Sorted name_le (list_services order proj) /\
  (forall v, v ∈ list_services order proj <-> service_view proj (sv_name v) = Some v).
Proof.
  unfold list_services. split.
  - apply Sorted_merge_sort. intros x y. unfold name_le. apply String.le_total.
  - intros v. rewrite merge_sort_Permutation. apply service_views_elem.
Qed.
End Services.

(** ** Theorems: settings *)

Lemma section_inj x y : section x = section y -> x = y.
Proof. by destruct x, y. Qed.

(** What is written to a section of a stored project is what reading it answers,
    and every other section and project reads as before. *)
Lemma setting_reads_back {R} x y id id' data (pf : Platform R) :
  project_ref (store (pf_api pf)) id = true -> id <> "" ->
  (handleGetSetting y id' (handlePutSetting x id (Ok data) pf).1).2 =
  if bool_decide (x = y /\ id = id') then writeJSON 200 data else (handleGetSetting y id' pf).2.
Proof.
  intros Hr Hne. unfold handleGetSetting, handlePutSetting, settingsGet, settingsPut, PutProjectSettings, GetProjectSettings.
  rewrite Hr, (bool_decide_eq_false_2 (id = "")) by done. cbn.
  destruct (decide (x = y /\ id = id')) as [[-> ->]|Hd].
  - rewrite bool_decide_eq_true_2 by done. by rewrite lookup_insert_eq.
  - rewrite bool_decide_eq_false_2 by done. rewrite lookup_insert_ne; [done|].
    intros [= Ei Es]. apply Hd. split; [by apply section_inj|done].
Qed.

(** Both git handlers write the whole section: each drops what the other stored. *)
Lemma git_sync_drops_toggles {R} id d (pf : Platform R) :
  project_ref (store (pf_api pf)) id = true -> id <> "" ->
  let pf1 := (handleGitToggles id (Ok (Some true, None)) pf).1 in
  (settingsGet id "git" (handleGitSync id (Ok "main") d pf1).1.1).2 =
  writeJSON 200 (JObj [("sync", JBool true); ("branch", JStr "main")]).
Proof.
  intros Hr Hne. unfold handleGitToggles, handleGitSync, settingsGet, GetProjectSettings, PutProjectSettings.
  rewrite Hr, (bool_decide_eq_false_2 (id = "")) by done. cbn [andb negb fst snd pf_api pf_settings].
  rewrite Hr. cbn [andb negb fst snd pf_settings]. by rewrite lookup_insert_eq.
Qed.

(** ** Examples *)

(** An image of the framework's own name is taken for plain node. *)
Lemma nextjs_detected_as_node :
  detectFramework (Proj_set_Image "acme/nextjs:14" Proj_zero) =
  JObj [("framework", JStr "node"); ("install_command", JStr "npm install"); ("build_command", JStr "npm run build");
        ("start_command", JStr "npm start"); ("detected", JBool true)].
Proof. vm_compute. reflexivity. Qed.

Lemma branches_example :
  git_branches [mkBuild "b" "p" "https://x/y.git" "main" "ready" "" "" 0]
    (fun _ => Some ("abc" ++ String "009" "refs/heads/dev" ++ String "010" "" ++ "def" ++ String "009" "refs/heads/main" ++ String "010" "")) = ["main"; "dev"].
Proof. vm_compute. reflexivity. Qed.

(** An empty load file is an index out of range. *)
Lemma empty_loadavg_panics parse : hostLoad parse None (Some "") None = None.
Proof. reflexivity. Qed.

Lemma conditional_reads_current_witness : current (fold_left refresh ["a"; "b"; "b"; "a"] None) "a".
Proof.
  apply (conditional_reads_current ["a"; "b"; "b"] "a").
  assert (H : forall x, x ∈ ["a"; "b"; "b"; "a"] -> x = "a" \/ x = "b").
  { intros x. rewrite !elem_of_cons. intros [->|[->|[->|[->|Hx]]]]; [by left|by right|by right|by left|by apply not_elem_of_nil in Hx]. }
  assert (Hab : bool_decide (hash_hex "a" = hash_hex "b") = false) by (vm_compute; reflexivity).
  apply bool_decide_eq_false_1 in Hab.
  intros x y Hx Hy. destruct (H x Hx) as [->| ->], (H y Hy) as [->| ->]; intros E;
    [reflexivity|contradiction|symmetry in E; contradiction|reflexivity].
Defined.
