(* ===== verification/Edge.v ===== *)
(** * Clients, mail, start checks and middleware

    The client of the judgment service ([judge/judge.go]), the second Firecracker
    client ([runtime/fc.go]), mail ([notify/notify.go]), the prerequisite checks
    ([startup/check.go]), the logging and metrics middleware ([logging/logging.go],
    [observability/metrics.go]) and the certificate policy ([tls/autocert.go]).
    What the other side answers is an argument. *)
From S2P Require Import Prelude GoStrings GoNum Types Store Rbac Settings Pool Gates.
From Stdlib Require Import String Ascii.

Open Scope string_scope.
Open Scope Z_scope.

(** ** [judge/judge.go] *)

Module Judge.

Definition Endpoint : string := "https://api.typesafe.ai/v1/systemone".
Definition Model : string := "jev-latest".

Record ChoiceQ := mkChoiceQ { CQ_Instructions : string; CQ_Criteria : gmap string string }.
Record NoulQ := mkNoulQ { NQ_Instructions : string; NQ_TrueMeans : string; NQ_FalseMeans : string }.
Record ScoreQ := mkScoreQ { SQ_Instructions : string; SQ_Levels : list string }.

Record Client := mkClient { Key : string; Client_Model : string; Client_Endpoint : string }.

Definition model (c : Client) : string := if Client_Model c !=? "" then Client_Model c else Model.
Definition endpoint (c : Client) : string := if Client_Endpoint c !=? "" then Client_Endpoint c else Endpoint.

Inductive Criteria := CritMap (m : gmap string string) | CritLevels (l : list string).
Record wireQuestion := mkWireQ { WQ_Type : string; WQ_Instructions : string; WQ_Criteria : Criteria }.

Definition wire_choice (q : ChoiceQ) : wireQuestion := mkWireQ "choice" (CQ_Instructions q) (CritMap (CQ_Criteria q)).
Definition wire_noul (q : NoulQ) : wireQuestion :=
  mkWireQ "noul" (NQ_Instructions q) (CritMap {[ "true" := NQ_TrueMeans q; "false" := NQ_FalseMeans q ]}).
Definition wire_score (q : ScoreQ) : wireQuestion := mkWireQ "score" (SQ_Instructions q) (CritLevels (SQ_Levels q)).

(** The three loops fill one map: a later kind takes the place of an earlier one. *)
Definition wire (choices : gmap string ChoiceQ) (nouls : gmap string NoulQ) (scores : gmap string ScoreQ) : gmap string wireQuestion :=
  (wire_score <$> scores) ∪ ((wire_noul <$> nouls) ∪ (wire_choice <$> choices)).

Record Request := mkRequest { Rq_URL : string; Rq_Auth : string; Rq_Model : string; Rq_Questions : gmap string wireQuestion }.

(** The service's answer: the status code and text, and the body. *)
Record HTTPAnswer := mkHTTPAnswer { HA_Code : Z; HA_Status : string; HA_Body : string }.

Section Evaluate.
(** Marshalling the request may fail on the caller's [state]; the transport, and
    the JSON decoders: of the body into raw answers, and of one raw answer, "" for
    an id that is not in the body. Go's maps are read in some order: [iter]. *)
Variables (marshal_err : option string) (post : Request -> result string HTTPAnswer)
  (decode_body : string -> result string (gmap string string))
  (decode_choice : string -> result string ChoiceA) (decode_noul : string -> result string float64)
  (decode_score : string -> result string ScoreA) (iter : gset string -> list string).

(** One of the three decoding loops. *)
Fixpoint decode_each {A} (kind : string) (decode : string -> result string A) (raw : gmap string string) (ids : list string)
    (out : gmap string A) : result string (gmap string A) :=
  match ids with
  | [] => Ok out
  | id :: ids =>
      match decode (default "" (raw !! id)) with
      | Err e => Err ("judge: decode " ++ kind ++ " " ++ id ++ ": " ++ e)
      | Ok a => decode_each kind decode raw ids (<[id := a]> out)
      end
  end.

(** [Evaluate], with the requests it sent. *)
Definition Evaluate (c : Client) (choices : gmap string ChoiceQ) (nouls : gmap string NoulQ) (scores : gmap string ScoreQ)
  : list Request * result string Answers :=
  if Key c ==? "" then ([], Err "judge: missing API key; live judgments unavailable")
  else
    let questions := wire choices nouls scores in
    if bool_decide (questions = ∅) then ([], Err "judge: no questions to ask")
    else
      match marshal_err with
      | Some e => ([], Err e)
      | None =>
          let req := mkRequest (endpoint c) ("Bearer " ++ Key c) (model c) questions in
          ([req],
           resp ← post req;
           if 400 <=? HA_Code resp then Err ("judge: typesafe HTTP " ++ HA_Status resp)
           else
             raw ← decode_body (HA_Body resp);
             cs ← decode_each "choice" decode_choice raw (iter (dom choices)) ∅;
             ns ← decode_each "noul" decode_noul raw (iter (dom nouls)) ∅;
             ss ← decode_each "score" decode_score raw (iter (dom scores)) ∅;
             Ok (mkAnswers cs ns ss))
      end.
End Evaluate.
End Judge.

(** ** [runtime/fc.go] *)

Module FcApi.

Record Req := mkReq { rq_method : string; rq_path : string; rq_body : Json }.

(** What the socket answers a request: a transport error, or a status. *)
Definition Answer := result string (Z * string).

(** [put] and [patch]: the error of a request on the socket of the client. *)
Definition do_req (sock : string) (answer : Req -> Answer) (r : Req) : option string :=
  match answer r with
  | Err e => Some (rq_method r ++ " " ++ rq_path r ++ " over unix socket " ++ sock ++ ": " ++ e)
  | Ok (code, status) => if 300 <=? code then Some (rq_method r ++ " " ++ rq_path r ++ ": " ++ status) else None
  end.

Definition put (path : string) (body : Json) : Req := mkReq "PUT" path body.
Definition patch (path : string) (body : Json) : Req := mkReq "PATCH" path body.

Definition SetBootSource (kernelPath bootArgs : string) : Req :=
  put "/boot-source" (JObj [("kernel_image_path", JStr kernelPath); ("boot_args", JStr bootArgs)]).
Definition drive (driveID path : string) (root readOnly : bool) : Json :=
  JObj [("drive_id", JStr driveID); ("path_on_host", JStr path); ("is_root_device", JBool root); ("is_read_only", JBool readOnly)].
Definition SetRootDrive (path : string) (readOnly : bool) : Req := put "/drives/rootfs" (drive "rootfs" path true readOnly).
Definition SetDataDrive (driveID path : string) : Req := put ("/drives/" ++ driveID) (drive driveID path false false).
Definition SetNetworkInterface (ifaceID mac hostDev : string) : Req :=
  put ("/network-interfaces/" ++ ifaceID) (JObj [("iface_id", JStr ifaceID); ("guest_mac", JStr mac); ("host_dev_name", JStr hostDev)]).
Definition SetMachineConfig (vcpus memMiB : Z) : Req :=
  put "/machine-config" (JObj [("vcpu_count", JInt vcpus); ("mem_size_mib", JInt memMiB)]).
Definition SetMMDSConfig (data : list (string * Json)) : Req :=
  put "/mmds/config" (JObj [("version", JStr "V2"); ("network_interfaces", JStrs ["eth0"]); ("mmds_data", JObj data)]).
Definition InstanceStart : Req := put "/actions" (JObj [("action_type", JStr "InstanceStart")]).
Definition SetState (state : string) : Req := patch "/vm" (JObj [("state", JStr state)]).
Definition CreateSnapshot (snapshotPath memFilePath : string) : Req :=
  put "/snapshot/create" (JObj [("snapshot_type", JStr "Full"); ("snapshot_path", JStr snapshotPath); ("mem_file_path", JStr memFilePath)]).
Definition LoadSnapshot (snapshotPath memFilePath : string) (resumeVM : bool) : Req :=
  put "/snapshot/load"
    (JObj [("snapshot_path", JStr snapshotPath);
           ("mem_backend", JObj [("backend_path", JStr memFilePath); ("backend_type", JStr "File")]);
           ("track_dirty_pages", JBool false); ("resume_vm", JBool resumeVM)]).
End FcApi.

(** ** [notify/notify.go] *)

Module Notify.

Record SMTPConfig := mkSMTP { Host : string; Port : Z; User : string; Password : string; From : string; DefaultTo : string; Enabled : bool }.

Definition Enable (cfg : SMTPConfig) : bool := Enabled cfg && (Host cfg !=? "").

Definition crlf : string := String "013" (String "010" "").

(** [date] is the current time in RFC 1123 form. *)
Definition buildMessage (date from : string) (to : list string) (subject body : string) : string :=
  "From: " ++ from ++ crlf ++ "To: " ++ join ", " to ++ crlf ++ "Subject: " ++ subject ++ crlf ++
  "MIME-Version: 1.0" ++ crlf ++ "Content-Type: text/plain; charset=UTF-8" ++ crlf ++ "Date: " ++ date ++ crlf ++
  crlf ++ body ++ crlf.

Record Mail := mkMail { m_addr : string; m_from : string; m_to : list string; m_msg : string }.

(** [Send]: the mail handed to SMTP, whose error is [smtp]. *)
Definition Send (cfg : SMTPConfig) (date : string) (smtp : Mail -> option string) (to : list string) (subject body : string)
  : list Mail * option string :=
  if negb (Enable cfg) then ([], None)
  else
    let to := match to with [] => [DefaultTo cfg] | _ => to end in
    if default "" (head to) ==? "" then ([], Some "notify: no recipient configured")
    else
      let addr := Host cfg ++ ":" ++ Itoa (Port cfg) in
      let mail := mkMail addr (From cfg) to (buildMessage date (From cfg) to subject body) in
      ([mail], match smtp mail with Some e => Some ("notify: smtp " ++ addr ++ ": " ++ e) | None => None end).

Definition lf : string := String "010" "".

Definition SendAlert (cfg : SMTPConfig) (date sent : string) (smtp : Mail -> option string) (to project alertID status detail : string) :=
  Send cfg date smtp [to] ("[porter] alert " ++ status ++ " on " ++ project ++ ": " ++ alertID)
    ("Project: " ++ project ++ lf ++ "Alert: " ++ alertID ++ lf ++ "Status: " ++ status ++ lf ++ "Detail: " ++ detail ++ lf ++
     "Sent: " ++ sent ++ lf).

(** [ProjectNotifyEmails] ([store/store.go]): members who opted in, else those of
    the project's organisation. The joins compare the user name, a text, with the
    member's user column, a UUID in the schema: [join_ok] is whether the database
    accepts the comparison; a refused statement is logged and gives no address. *)
Definition opted_in (u : Types.User) : bool := User_NotifyOptIn u && (User_Email u !=? "").

Definition member_emails (db : TenancyDB) (members : list string) : list string :=
  members ≫= fun m => User_Email <$> base.filter (fun u => User_Username u = m /\ opted_in u = true) (users db).

Definition ProjectNotifyEmails (join_ok : bool) (db : TenancyDB) (projectID : string) : list string :=
  if (projectID ==? "") || negb join_ok then []
  else
    match member_emails db (pm_user <$> base.filter (fun r => pm_project r = projectID) (project_members db)) with
    | [] =>
        member_emails db
          (project_orgs db ≫= fun p =>
             if p.1 ==? projectID
             then match p.2 with
                  | Some org => om_user <$> base.filter (fun r => om_org r = org) (org_members db)
                  | None => []
                  end
             else [])
    | l => l
    end.

(** [notifyProject] ([api/handlers.go]): the mail it starts; [None] is no mailer. *)
Definition notifyProject (join_ok : bool) (mailer : option SMTPConfig) (db : TenancyDB) (date : string) (smtp : Mail -> option string)
    (projectID subject body : string) : list Mail :=
  match mailer with
  | None => []
  | Some cfg => (Send cfg date smtp (ProjectNotifyEmails join_ok db projectID) subject ("Project " ++ projectID ++ lf ++ lf ++ body)).1
  end.
End Notify.

(** ** [startup/check.go] *)

Module Startup.

Record Result := mkResult { Name : string; OK : bool; Message : string; Fatal : bool }.

(** What the host answers: whether a directory can be made, a file is there, a
    program is found on the path. *)
Record HostWorld := mkHostWorld {
  hw_mkdir : string -> option string;
  hw_stat : string -> option string;
  hw_lookpath : string -> result string string;
  hw_getenv : string -> string
}.

Section Checks.
Variable w : HostWorld.

Definition q (s : string) : string := String "034" "" ++ s ++ String "034" "".

Definition checkNetworkMode (cfg : Config) : Result :=
  if NetworkUse30 cfg
  then mkResult "network-mode" true "/30 per link (guest images must use 255.255.255.252 + TAP .1 gateway)" false
  else mkResult "network-mode" true "/24 per project (default; set [network] use_30=true for /30 reference layout)" false.

(** [order] is the order in which Go reads the map of front-ends. *)
Definition checkPacks (order : list (string * string) -> list (string * string)) (cfg : Config) : Result :=
  let bins := order [("buildctl", BuildKitBin cfg); ("nixpacks", NixpacksBin cfg); ("railpack", RailpackBin cfg)] in
  let found := fst <$> base.filter (fun nb => is_ok (hw_lookpath w (if nb.2 ==? "" then nb.1 else nb.2)) = true) bins in
  match found with
  | [] => mkResult "build-packs" true "no pack binaries on PATH — Dockerfile/nixpacks builds need runners; prebuilt OCI tar still works" false
  | _ => mkResult "build-packs" true ("available: [" ++ join " " found ++ "]") false
  end.

Definition checkJudgments : Result :=
  if hw_getenv w "PORTER_TYPESAFE_KEY" ==? ""
  then mkResult "judgments" true "PORTER_TYPESAFE_KEY unset — triage/riskgate/cmdgate/alertjudge escalate to human (safe default)" false
  else mkResult "judgments" true "PORTER_TYPESAFE_KEY set — live System One judgments enabled" false.

Definition checkSocketDir (cfg : Config) : Result :=
  let dir := FirecrackerSocketDir cfg in
  if dir ==? "" then mkResult "firecracker-api-socket-dir" false "no Firecracker API socket directory configured" true
  else
    match hw_mkdir w dir with
    | Some e => mkResult "firecracker-api-socket-dir" false ("cannot create " ++ dir ++ ": " ++ e) false
    | None => mkResult "firecracker-api-socket-dir" true dir false
    end.

Definition checkKVM : Result :=
  match find_first (fun p => match hw_stat w p with None => true | Some _ => false end) ["/dev/kvm"; "/dev/kvm0"] with
  | Some kvm => mkResult "kvm" true kvm false
  | None => mkResult "kvm" false "/dev/kvm not found — microVMs will not boot (WSL2: enable nested virtualization)" false
  end.

Definition checkFirecracker (cfg : Config) : Result :=
  let bin := if FirecrackerBin cfg ==? "" then "firecracker" else FirecrackerBin cfg in
  match hw_lookpath w bin with
  | Ok p => mkResult "firecracker" true p false
  | Err e =>
      match hw_stat w bin with
      | None => mkResult "firecracker" true bin false
      | Some _ => mkResult "firecracker" false ("binary " ++ q bin ++ " not found: " ++ e) false
      end
  end.

Definition checkJailer (cfg : Config) : Result :=
  if JailerBin cfg ==? ""
  then mkResult "jailer" true "not explicitly configured; direct Firecracker runs with the configured VMM process" false
  else
    match hw_stat w (JailerBin cfg) with
    | Some e => mkResult "jailer" false ("configured jailer " ++ q (JailerBin cfg) ++ " missing: " ++ e ++
                                         " — workloads may run without jailer isolation") false
    | None => mkResult "jailer" true (JailerBin cfg) false
    end.

Definition checkVolumesDir (cfg : Config) : Result :=
  if VolumesDir cfg ==? "" then mkResult "volumes-dir" true "not configured (defaults to ./volumes)" false
  else
    match hw_mkdir w (VolumesDir cfg) with
    | Some e => mkResult "volumes-dir" false ("cannot create " ++ VolumesDir cfg ++ ": " ++ e) false
    | None => mkResult "volumes-dir" true (VolumesDir cfg) false
    end.

Definition Check (order : list (string * string) -> list (string * string)) (cfg : Config) : list Result :=
  [checkSocketDir cfg; checkKVM; checkFirecracker cfg; checkJailer cfg; checkVolumesDir cfg; checkNetworkMode cfg;
   checkPacks order cfg; checkJudgments].

(** [handleHostPrerequisites] ([api/handlers.go]): ready, configured, the checks. *)
Fixpoint all_ok (checks : list Result) : bool :=
  match checks with [] => true | c :: rest => if negb (OK c) then false else all_ok rest end.

Definition handleHostPrerequisites (order : list (string * string) -> list (string * string)) (cfg : option Config) : bool * bool * list Result :=
  match cfg with
  | None => (false, false, [])
  | Some cfg => let checks := Check order cfg in (all_ok checks, true, checks)
  end.
End Checks.
End Startup.

(** ** [logging/logging.go], [observability/metrics.go]: middleware *)

Module Middleware.

(** A response writer, as far as the handlers below see it: the status it last
    recorded and whether it is an [http.Flusher]. *)
Record Writer := mkWriter { wr_status : Z; wr_flusher : bool }.

(** [responseWriter] and [statusWriter] embed the interface [http.ResponseWriter]
    and declare no [Flush]: the wrapped value is no flusher, whatever it wraps. *)
Definition wrap (_ : Writer) : Writer := mkWriter 200 false.

Definition WriteHeader (status : Z) (w : Writer) : Writer := mkWriter status (wr_flusher w).

(** A handler: what it does to the writer. *)
Definition Handler := Writer -> Writer.

Definition Logging (enabled : bool) (next : Handler) : Handler :=
  if negb enabled then next else fun w => next (wrap w).

(** The request identifier the middleware uses: the client's, else a new one. *)
Definition request_id (header new_id : string) : string := if header ==? "" then new_id else header.

(** [serveLogStream] and the event stream start by asking for the flusher. *)
Definition stream_handler : Handler := fun w => if wr_flusher w then WriteHeader 200 w else WriteHeader 500 w.

Record Metrics := mkMetrics {
  m_requests : Z; m_serverError : Z; m_durationNS : Z; m_byMethod : list Z; m_byStatusClass : list Z }.

Definition metricMethods : list string := ["GET"; "POST"; "PUT"; "PATCH"; "DELETE"; "OTHER"].
Definition metricStatusClasses : list string := ["1xx"; "2xx"; "3xx"; "4xx"; "5xx"].

Definition NewMetrics : Metrics := mkMetrics 0 0 0 (replicate 6 0) (replicate 5 0).

Fixpoint index_of (method : string) (l : list string) (i : nat) : option nat :=
  match l with [] => None | m :: l => if m ==? method then Some i else index_of method l (S i) end.

(** The loop stops before the last label, which is the default. *)
Definition methodIndex (method : string) : nat := default 5%nat (index_of method (take 5 metricMethods) 0).

Definition statusClassIndex (status : Z) : Z :=
  if (status <? 100) || (600 <=? status) then 4
  else
    let index := Z.quot status 100 - 1 in
    if index <? 0 then 0 else if 5 <=? index then 4 else index.

Definition add_at (i : nat) (l : list Z) : list Z := alter (fun n => u64 (n + 1)) i l.

(** One request through the middleware: [status] is what the handler left,
    [elapsed] the nanoseconds it took. *)
Definition observe (method : string) (status elapsed : Z) (m : Metrics) : Metrics :=
  mkMetrics (u64 (m_requests m + 1))
            (if 500 <=? status then u64 (m_serverError m + 1) else m_serverError m)
            (u64 (m_durationNS m + elapsed))
            (add_at (methodIndex method) (m_byMethod m))
            (add_at (Z.to_nat (statusClassIndex status)) (m_byStatusClass m)).

Definition Measured (method : string) (elapsed : Z) (next : Handler) (w : Writer) (m : Metrics) : Writer * Metrics :=
  let rw := next (wrap w) in (rw, observe method (wr_status rw) elapsed m).
End Middleware.

(** ** [tls/autocert.go] *)

Module Tls.

(** [NewManager]: the base domain and the names of the host policy. *)
Record Manager := mkManager { baseDomain : string; whitelist : list string; cacheDir : string }.

Definition NewManager (base cache : string) : Manager :=
  let cache := if cache ==? "" then "certs" else cache in
  let base := to_lower (trim_suffix base ".") in
  mkManager base ["*." ++ base; base] cache.

(** [autocert.HostWhitelist] admits exact names only, as its documentation says. *)
Definition HostPolicy (m : Manager) (host : string) : bool := bool_decide (host ∈ whitelist m).

(** [GetCertificate]: no name, no certificate; otherwise what ACME gives, for a
    name the policy admits. *)
Definition GetCertificate {C} (m : Manager) (acme : string -> result string C) (serverName : string) : result string (option C) :=
  if serverName ==? "" then Ok None
  else if HostPolicy m serverName then Some <$> acme serverName
  else Err ("acme/autocert: host " ++ serverName ++ " not configured in HostWhitelist").
End Tls.

(** ** Theorems: the judge's client *)

Module JudgeProofs.
Import Judge.

Section Proofs.
Context (marshal_err : option string) (post : Request -> result string HTTPAnswer)
  (decode_body : string -> result string (gmap string string))
  (decode_choice : string -> result string ChoiceA) (decode_noul : string -> result string float64)
  (decode_score : string -> result string ScoreA) (iter : gset string -> list string).

(** An iteration visits every key. *)
Hypothesis iter_all : forall ks id, id ∈ iter ks <-> id ∈ ks.

Lemma decode_each_dom {A} kind (decode : string -> result string A) raw ids out m :
  decode_each kind decode raw ids out = Ok m -> dom m = list_to_set ids ∪ dom out.
Proof.
  revert out. induction ids as [|id ids IH]; intros out; cbn [decode_each].
  - intros [= <-]. set_solver.
  - destruct (decode (default "" (raw !! id))) as [a|e]; [|done]. intros ->%IH. rewrite dom_insert_L. set_solver.
Qed.

Lemma decode_each_missing {A} kind (decode : string -> result string A) raw ids out id e :
  id ∈ ids -> raw !! id = None -> decode "" = Err e -> exists e', decode_each kind decode raw ids out = Err e'.
Proof.
  intros Hin Hr Hd. revert out. induction ids as [|x ids IH]; intros out; [by apply not_elem_of_nil in Hin|]. cbn [decode_each].
  apply elem_of_cons in Hin as [<-|Hin].
  - rewrite Hr. cbn. rewrite Hd. by eexists.
  - destruct (decode (default "" (raw !! x))); [by apply IH|by eexists].
Qed.

Lemma iter_set ks : list_to_set (iter ks) = ks.
Proof. apply set_eq. intros id. rewrite elem_of_list_to_set. apply iter_all. Qed.

End Proofs.

(** Two questions of different kinds under one id: one of them is never asked. *)
Lemma shared_id_overwritten cq nq :
  wire {[ "x" := cq ]} {[ "x" := nq ]} ∅ = {[ "x" := wire_noul nq ]}.
Proof. unfold wire. rewrite fmap_empty, !map_fmap_singleton, map_empty_union. by rewrite <- insert_union_singleton_l, insert_singleton_eq. Qed.

(** A service that answers every question it is asked. *)
Definition ex_post (r : Request) : result string HTTPAnswer := Ok (mkHTTPAnswer 200 "200 OK" "{}").
Definition ex_raw : gmap string string := {[ "change" := "c"; "risk" := "s" ]}.
Definition ex_choice (s : string) : result string ChoiceA := if s ==? "" then Err "unexpected end of JSON input" else Ok (mkChoiceA "code" (f_of_Z 1)).
Definition ex_noul (s : string) : result string float64 := if s ==? "" then Err "unexpected end of JSON input" else Ok (f_of_Z 1).
Definition ex_score (s : string) : result string ScoreA := if s ==? "" then Err "unexpected end of JSON input" else Ok (mkScoreA (f_of_Z 1) (f_of_Z 1)).
Definition ex_client : Client := mkClient "key" "" "".
Definition ex_choices : gmap string ChoiceQ := {[ "change" := mkChoiceQ "What changed?" ∅ ]}.
Definition ex_scores : gmap string ScoreQ := {[ "risk" := mkScoreQ "How risky?" ["low"; "high"] ]}.


Lemma ex_answered : is_ok (Evaluate None ex_post (fun _ => Ok ex_raw) ex_choice ex_noul ex_score elements ex_client ex_choices ∅ ex_scores).2 = true.
Proof. vm_compute. reflexivity. Qed.
End JudgeProofs.

(** ** Theorems: mail *)

Module NotifyProofs.
Import Notify.

(** A disabled mailer sends nothing; an enabled one sends at most one mail, to the
    given recipients or, without any, to the default. *)
Lemma Send_spec cfg date smtp to subject body :
  let '(sent, err) := Send cfg date smtp to subject body in
  (Enable cfg = false -> sent = [] /\ err = None) /\
  (forall m, m ∈ sent -> sent = [m] /\ m_to m = (match to with [] => [DefaultTo cfg] | _ => to end) /\ default "" (head (m_to m)) <> "").
Proof.
  unfold Send. destruct (Enable cfg); cbn [negb].
  - destruct (bool_decide_reflect (default "" (head (match to with [] => [DefaultTo cfg] | _ => to end)) = "")) as [E|E].
    + split; [done|]. intros m Hm. by apply not_elem_of_nil in Hm.
    + split; [done|]. intros m ->%list_elem_of_singleton. by split_and!.
  - split; [done|]. intros m Hm. by apply not_elem_of_nil in Hm.
Qed.

(** The default recipient is documented for alerts without a destination, but an
    empty destination is one recipient, the empty one. *)
Lemma alert_never_uses_default cfg date sent_at smtp project alertID status detail :
  Enable cfg = true ->
  SendAlert cfg date sent_at smtp "" project alertID status detail = ([], Some "notify: no recipient configured").
Proof. intros He. unfold SendAlert, Send. by rewrite He. Qed.

(** A line break in the subject starts a header of the sender's choosing. *)
Lemma subject_injects_headers :
  contains (buildMessage "now" "porter@x" ["ops@x"] ("up" ++ crlf ++ "Bcc: eve@y") "") (crlf ++ "Bcc: eve@y" ++ crlf) = true.
Proof. vm_compute. reflexivity. Qed.

(** With the column types of the schema no project has notification addresses. *)
Lemma notify_emails_always_empty db projectID : ProjectNotifyEmails false db projectID = [].
Proof. unfold ProjectNotifyEmails. by rewrite orb_true_r. Qed.
End NotifyProofs.

(** ** Theorems: start checks *)

Module StartupProofs.
Import Startup.

Lemma checkPacks_ok w order cfg : OK (checkPacks w order cfg) = true /\ Fatal (checkPacks w order cfg) = false.
Proof. unfold checkPacks. cbv zeta. by destruct (fst <$> _). Qed.

(** The host is reported ready exactly when the socket directory is configured
    and can be made, a KVM device is there, the VMM is on the path or at its
    configured place, a configured jailer is there and a configured volumes
    directory can be made; the network layout, the build front-ends and the judge
    never block it, and only a missing socket directory is fatal. *)
Theorem prerequisites_ready w order cfg :
  let '(ready, configured, checks) := handleHostPrerequisites w order (Some cfg) in
  configured = true /\ List.length checks = 8%nat /\
  (ready = true <->
     FirecrackerSocketDir cfg <> "" /\ hw_mkdir w (FirecrackerSocketDir cfg) = None /\
     (hw_stat w "/dev/kvm" = None \/ hw_stat w "/dev/kvm0" = None) /\
     (let bin := if FirecrackerBin cfg ==? "" then "firecracker" else FirecrackerBin cfg in
      is_ok (hw_lookpath w bin) = true \/ hw_stat w bin = None) /\
     (JailerBin cfg = "" \/ hw_stat w (JailerBin cfg) = None) /\
     (VolumesDir cfg = "" \/ hw_mkdir w (VolumesDir cfg) = None)) /\
  (forall c, c ∈ checks -> Fatal c = true -> FirecrackerSocketDir cfg = "").
Proof.
  unfold handleHostPrerequisites, Check. split_and!; [done|done| |].
  - assert (Hs : OK (checkSocketDir w cfg) = true <-> FirecrackerSocketDir cfg <> "" /\ hw_mkdir w (FirecrackerSocketDir cfg) = None).
    { unfold checkSocketDir. destruct (bool_decide_reflect (FirecrackerSocketDir cfg = "")); [naive_solver|].
      destruct (hw_mkdir w (FirecrackerSocketDir cfg)); naive_solver. }
    assert (Hk : OK (checkKVM w) = true <-> hw_stat w "/dev/kvm" = None \/ hw_stat w "/dev/kvm0" = None).
    { unfold checkKVM. cbn. destruct (hw_stat w "/dev/kvm"), (hw_stat w "/dev/kvm0"); naive_solver. }
    assert (Hf : OK (checkFirecracker w cfg) = true <->
      let bin := if FirecrackerBin cfg ==? "" then "firecracker" else FirecrackerBin cfg in
      is_ok (hw_lookpath w bin) = true \/ hw_stat w bin = None).
    { unfold checkFirecracker. cbv zeta. set (bin := if FirecrackerBin cfg ==? "" then "firecracker" else FirecrackerBin cfg).
      destruct (hw_lookpath w bin), (hw_stat w bin); naive_solver. }
    assert (Hj : OK (checkJailer w cfg) = true <-> JailerBin cfg = "" \/ hw_stat w (JailerBin cfg) = None).
    { unfold checkJailer. destruct (bool_decide_reflect (JailerBin cfg = "")); [naive_solver|].
      destruct (hw_stat w (JailerBin cfg)); naive_solver. }
    assert (Hv : OK (checkVolumesDir w cfg) = true <-> VolumesDir cfg = "" \/ hw_mkdir w (VolumesDir cfg) = None).
    { unfold checkVolumesDir. destruct (bool_decide_reflect (VolumesDir cfg = "")); [naive_solver|].
      destruct (hw_mkdir w (VolumesDir cfg)); naive_solver. }
    assert (Hn : OK (checkNetworkMode cfg) = true) by (unfold checkNetworkMode; by destruct (NetworkUse30 cfg)).
    assert (Hp : OK (checkPacks w order cfg) = true) by apply checkPacks_ok.
    assert (Hg : OK (checkJudgments w) = true) by (unfold checkJudgments; by case_goal).
    cbn [all_ok]. rewrite Hn, Hp, Hg. cbn [negb]. cbv zeta in Hf |- *. rewrite <- Hf, <- Hk, <- Hj, <- Hv.
    destruct (OK (checkSocketDir w cfg)), (OK (checkKVM w)), (OK (checkFirecracker w cfg)), (OK (checkJailer w cfg)),
      (OK (checkVolumesDir w cfg)); cbn [negb]; naive_solver.
  - intros c Hc. rewrite !elem_of_cons in Hc.
    destruct Hc as [->|[->|[->|[->|[->|[->|[->|[->|Hc]]]]]]]]; [| | | | | | | |by apply not_elem_of_nil in Hc].
    + unfold checkSocketDir. destruct (bool_decide_reflect (FirecrackerSocketDir cfg = "")); [done|]. by case_goal.
    + unfold checkKVM. by destruct (find_first _ _).
    + unfold checkFirecracker. repeat case_goal; done.
    + unfold checkJailer. repeat case_goal; done.
    + unfold checkVolumesDir. repeat case_goal; done.
    + unfold checkNetworkMode. by case_goal.
    + by rewrite (proj2 (checkPacks_ok w order cfg)).
    + unfold checkJudgments. by case_goal.
Qed.
End StartupProofs.

(** ** Theorems: middleware *)

Module MiddlewareProofs.
Import Middleware.

Lemma methodIndex_lt method : (methodIndex method < 6)%nat.
Proof. unfold methodIndex. cbn. repeat case_goal; cbn; lia. Qed.

Lemma statusClassIndex_range status : 0 <= statusClassIndex status < 5.
Proof. unfold statusClassIndex. repeat case_goal; bools; lia. Qed.

(** A status in range is counted in the class of its first digit. *)
Lemma statusClassIndex_class status : 100 <= status < 600 -> statusClassIndex status = status / 100 - 1.
Proof.
  intros H. unfold statusClassIndex.
  assert (Hq : 1 <= Z.quot status 100 <= 5).
  { rewrite Z.quot_div_nonneg by lia. split; [apply Z.div_le_lower_bound; lia|].
    apply Z.lt_succ_r. apply Z.div_lt_upper_bound; lia. }
  rewrite Z.quot_div_nonneg in * by lia. repeat case_goal; bools; lia.
Qed.

Lemma zsum_alter i l : (i < List.length l)%nat -> zsum (alter (fun n => n + 1) i l) = zsum l + 1.
Proof.
  unfold zsum. revert i. induction l as [|x l IH]; intros [|i] H; cbn [List.length] in *; try lia; cbn; [lia|].
  specialize (IH i ltac:(lia)). cbn in IH. lia.
Qed.

(** Counters of at most [n], bumped without wrapping. *)
Lemma add_at_small i l n :
  Forall (fun x => 0 <= x <= n) l -> n + 1 < 2 ^ 64 -> add_at i l = alter (fun n => n + 1) i l.
Proof.
  intros Hl Hn. unfold add_at. revert i. induction Hl as [|x l Hx Hl IH]; intros [|i]; cbn; try done.
  - f_equal. apply u64_id. lia.
  - f_equal. apply IH.
Qed.

Lemma alter_bound i l n :
  Forall (fun x => 0 <= x <= n) l -> Forall (fun x => 0 <= x <= n + 1) (alter (fun n => n + 1) i l).
Proof.
  intros Hl. revert i. induction Hl as [|x l Hx Hl IH]; intros [|i]; cbn; constructor; try lia; [|apply IH].
  eapply Forall_impl; [exact Hl|]. cbn. lia.
Qed.

Definition observe_all (rs : list (string * Z * Z)) : Metrics :=
  fold_left (fun m r => observe r.1.1 r.1.2 r.2 m) rs NewMetrics.

Record metrics_ok (n : Z) (errors : Z) (m : Metrics) : Prop := {
  mo_requests : m_requests m = n; mo_errors : m_serverError m = errors;
  mo_methods : List.length (m_byMethod m) = 6%nat /\ Forall (fun x => 0 <= x <= n) (m_byMethod m) /\ zsum (m_byMethod m) = n;
  mo_classes : List.length (m_byStatusClass m) = 5%nat /\ Forall (fun x => 0 <= x <= n) (m_byStatusClass m) /\ zsum (m_byStatusClass m) = n
}.

Lemma observe_ok method status elapsed n errors m :
  0 <= errors <= n -> n + 1 < 2 ^ 64 -> metrics_ok n errors m ->
  metrics_ok (n + 1) (if 500 <=? status then errors + 1 else errors) (observe method status elapsed m).
Proof.
  intros He Hn [H1 H2 (L1 & B1 & S1) (L2 & B2 & S2)].
  pose proof (methodIndex_lt method) as Hm. pose proof (statusClassIndex_range status) as Hc.
  split; cbn [observe m_requests m_serverError m_byMethod m_byStatusClass].
  - rewrite H1. apply u64_id. lia.
  - rewrite H2. case_goal; [apply u64_id; lia|done].
  - rewrite (add_at_small _ _ n) by done. split_and!; [by rewrite length_alter|by apply alter_bound|].
    rewrite zsum_alter by (rewrite L1; lia). lia.
  - rewrite (add_at_small _ _ n) by done. split_and!; [by rewrite length_alter|by apply alter_bound|].
    rewrite zsum_alter by (rewrite L2; lia). lia.
Qed.

(** The request counters agree with each other: after any number of requests
    below 2^64 the total is their number, the counts by method and the counts by
    status class each add up to it, and the server errors are exactly the requests
    answered 500 or more. *)
Theorem metrics_add_up rs :
  Z.of_nat (List.length rs) < 2 ^ 64 ->
  let m := observe_all rs in
  m_requests m = Z.of_nat (List.length rs) /\ zsum (m_byMethod m) = m_requests m /\ zsum (m_byStatusClass m) = m_requests m /\
  m_serverError m = Z.of_nat (List.length (base.filter (fun r => 500 <= r.1.2) rs)).
Proof.
  intros Hlen m.
  assert (H : metrics_ok (Z.of_nat (List.length rs)) (Z.of_nat (List.length (base.filter (fun r => 500 <= r.1.2) rs))) m).
  { unfold m, observe_all. induction rs as [|r rs IH] using rev_ind; [split; cbn; try done; split_and!; try done; repeat constructor; lia|].
    rewrite fold_left_app. cbn [fold_left]. rewrite filter_app, !length_app in *. cbn [List.length] in *.
    rewrite !Nat2Z.inj_add in *. pose proof (length_filter (fun r : string * Z * Z => 500 <= r.1.2) rs) as Hf.
    replace (Z.of_nat (List.length (base.filter (fun r => 500 <= r.1.2) rs)) +
             Z.of_nat (List.length (base.filter (fun r0 : string * Z * Z => 500 <= r0.1.2) [r])))
      with (if 500 <=? r.1.2 then Z.of_nat (List.length (base.filter (fun r => 500 <= r.1.2) rs)) + 1
            else Z.of_nat (List.length (base.filter (fun r => 500 <= r.1.2) rs))).
    - apply observe_ok; [lia|lia|]. apply IH. lia.
    - rewrite filter_cons, filter_nil. destruct (Z.leb_spec 500 r.1.2), (decide (500 <= r.1.2)); cbn [List.length]; lia. }
  destruct H as [H1 H2 (_ & _ & H3) (_ & _ & H4)]. split_and!; congruence.
Qed.

Lemma metrics_add_up_witness :
  let m := observe_all [("GET", 200, 5); ("TRACE", 404, 1); ("POST", 503, 2)] in
  m_requests m = 3 /\ zsum (m_byMethod m) = m_requests m /\ zsum (m_byStatusClass m) = m_requests m /\ m_serverError m = 1.
Proof. apply (metrics_add_up [("GET", 200, 5); ("TRACE", 404, 1); ("POST", 503, 2)]). vm_compute. reflexivity. Defined.

(** Behind the request log or the metrics no stream starts: the wrapped writer is
    no flusher. *)
Lemma logged_streams_unsupported w : wr_status (Logging true stream_handler w) = 500.
Proof. reflexivity. Qed.

Lemma measured_streams_unsupported elapsed w m : wr_status (Measured "GET" elapsed stream_handler w m).1 = 500.
Proof. reflexivity. Qed.

(** A status outside 100 to 599 counts as 5xx without being a server error. *)
Lemma odd_status_class : statusClassIndex 99 = 4 /\ m_serverError (observe "GET" 99 0 NewMetrics) = 0.
Proof. by split. Qed.
End MiddlewareProofs.

(** ** Theorems: certificates *)

Module TlsProofs.
Import Tls.

Lemma sapp_inj_r (s t u : string) : s ++ u = t ++ u -> s = t.
Proof.
  intros E. assert (Hl : String.length s = String.length t).
  { assert (H : String.length (s ++ u) = String.length (t ++ u)) by (by rewrite E). rewrite !slen_app in H. lia. }
  revert t Hl E. induction s as [|c s IH]; intros [|d t] Hl E; try done. injection E as -> E. f_equal. apply IH; [|done]. cbn in Hl. lia.
Qed.

(** The policy names a wildcard, but it is matched literally: no host below the
    base domain gets a certificate. *)
Lemma subdomain_refused base label cache :
  label <> "" -> label <> "*" -> HostPolicy (NewManager base cache) (label ++ "." ++ to_lower (trim_suffix base ".")) = false.
Proof.
  intros Hne Hs. unfold HostPolicy, NewManager. cbn [whitelist]. apply bool_decide_eq_false_2.
  set (b := to_lower (trim_suffix base ".")). rewrite !elem_of_cons. intros [E|[E|E]]; [| |by apply not_elem_of_nil in E].
  - apply Hs. change ("*." ++ b) with ("*" ++ ("." ++ b)) in E. by apply sapp_inj_r in E.
  - assert (Hl : String.length (label ++ "." ++ b) = String.length b) by (by rewrite E). rewrite !slen_app in Hl. cbn in Hl. lia.
Qed.
End TlsProofs.
