(* ===== verification/Tenant.v ===== *)
(** * Tenancy ([store/rls.go], [store/sessions.go], [store/store.go], [resource/rbac.go], [api/handlers.go])

    Row-level security: the policies of migrations 0019 and 0021, the setting they
    read, and the transactions that set it; the listing of secrets above them.
    Teams, default organisations and groups, the static scope chain, and the tokens
    a caller mints. Answers of the database and its collation are arguments. *)
From S2P Require Import Prelude GoStrings GoNum GoCrypto Types Store Rbac Auth Api Access Pool.
From Stdlib Require Import String Ascii.

Open Scope string_scope.
Open Scope Z_scope.

Module Rls.

(** ** The setting [app.tenant_id] of a connection *)

(** Its value for the session, and the one local to the open transaction. *)
Record Conn := mkConn { cn_session : option string; cn_local : option string }.

Definition current_setting (c : Conn) : option string :=
  match cn_local c with Some v => Some v | None => cn_session c end.

Definition porter_tenant (c : Conn) : string := default "" (current_setting c).

(** [set_config('app.tenant_id', v, is_local)]. *)
Definition set_config (v : string) (is_local : bool) (c : Conn) : Conn :=
  if is_local then mkConn (cn_session c) (Some v) else mkConn (Some v) (cn_local c).

(** The end of a transaction drops what was local to it. *)
Definition end_tx (c : Conn) : Conn := mkConn (cn_session c) None.

(** ** Tables and policies *)

(** The tables with a policy; environments, networks and domains by their
    identifier and project, projects by their identifier and organisation. *)
Record Tables := mkTables {
  tb_projects : list (string * option string);
  tb_environments : list (string * string);
  tb_secrets : list Secret;
  tb_volumes : list Volume;
  tb_networks : list (string * string);
  tb_domains : list (string * string) }.

Definition policy_projects (t : string) (p : string * option string) : bool :=
  (t ==? "") || (p.2 ==? Some t) || (p.1 ==? t).

(** The projects of the subquery are those the policy of [projects] shows. *)
Definition policy_environments (t : string) (projects : list (string * option string)) (e : string * string) : bool :=
  (t ==? "")
  || existsb (fun p => (p.1 ==? e.2) && (p.2 ==? Some t)) (base.filter (fun p => policy_projects t p = true) projects)
  || (e.2 ==? t).

(** Secrets, networks, domains, and volumes since migration 0021. *)
Definition policy_owned (t project : string) : bool := (t ==? "") || (project ==? t).

(** The rows a statement works on; a superuser bypasses the policies. *)
Definition visible (bypass : bool) (t : string) (db : Tables) : Tables :=
  if bypass then db
  else mkTables
         (base.filter (fun p => policy_projects t p = true) (tb_projects db))
         (base.filter (fun e => policy_environments t (tb_projects db) e = true) (tb_environments db))
         (base.filter (fun s => policy_owned t (Sec_ProjectID s) = true) (tb_secrets db))
         (base.filter (fun v => policy_owned t (Vol_ProjectID v) = true) (tb_volumes db))
         (base.filter (fun n => policy_owned t n.2 = true) (tb_networks db))
         (base.filter (fun d => policy_owned t d.2 = true) (tb_domains db)).

(** ** Transactions *)

(** What the database answers: whether there is a pool, the errors of BEGIN, of
    [set_config], of the query with its parameter, of the row stream after some
    rows, of COMMIT; and whether the role bypasses row security. *)
Record Pg := mkPg {
  pg_nil : bool; pg_begin : option string; pg_set : option string; pg_query : string -> option string;
  pg_rows : option (nat * string); pg_commit : option string; pg_bypass : bool }.

Record Tx := mkTx { tx_conn : Conn; tx_db : Tables }.

Definition Query (w : Pg) (tx : Tx) : Tables := visible (pg_bypass w) (porter_tenant (tx_conn tx)) (tx_db tx).

(** [fn] returns what its closure has collected, next to its error. *)
Definition WithTenant {A} (w : Pg) (tenantID : string) (fn : Tx -> Tx * A * option string) (zero : A) (c : Conn) (db : Tables)
    : Conn * Tables * A * option string :=
  if pg_nil w then (c, db, zero, Some "no rows in result set")
  else
    match pg_begin w with
    | Some e => (c, db, zero, Some e)
    | None =>
        match pg_set w with
        | Some e => (end_tx c, db, zero, Some e)
        | None =>
            let '(tx, out, err) := fn (mkTx (set_config tenantID true c) db) in
            match err with
            | Some e => (end_tx (tx_conn tx), db, out, Some e)
            | None =>
                match pg_commit w with
                | Some e => (end_tx (tx_conn tx), db, out, Some e)
                | None => (end_tx (tx_conn tx), tx_db tx, out, None)
                end
            end
        end
    end.

Section Listing.
Context (collate : forall A, (A -> string) -> list A -> list A).

(** [SELECT id, name FROM table WHERE project_id = $1 ORDER BY name], row by row. *)
Definition scan_rows (w : Pg) (projectID : string) (rows : list (string * string)) (tx : Tx)
    : Tx * list (string * string) * option string :=
  match pg_query w projectID with
  | Some e => (tx, [], Some e)
  | None =>
      let rows := collate (string * string) snd rows in
      match pg_rows w with
      | Some (n, e) => (tx, take n rows, Some e)
      | None => (tx, rows, None)
      end
  end.

Definition secret_rows (projectID : string) (db : Tables) : list (string * string) :=
  (fun s => (Sec_ID s, Sec_Name s)) <$> base.filter (fun s => Sec_ProjectID s = projectID) (tb_secrets db).
Definition volume_rows (projectID : string) (db : Tables) : list (string * string) :=
  (fun v => (Vol_ID v, Vol_Name v)) <$> base.filter (fun v => Vol_ProjectID v = projectID) (tb_volumes db).

Definition ListSecretsTx (w : Pg) (tenantID projectID : string) : Conn -> Tables -> Conn * Tables * list (string * string) * option string :=
  WithTenant w tenantID (fun tx => scan_rows w projectID (secret_rows projectID (Query w tx)) tx) [].

Definition ListVolumesTx (w : Pg) (tenantID projectID : string) : Conn -> Tables -> Conn * Tables * list (string * string) * option string :=
  WithTenant w tenantID (fun tx => scan_rows w projectID (volume_rows projectID (Query w tx)) tx) [].

(** [ListSecrets], outside of a transaction: the identifiers and names it reads (it
    reads the values too, and no times). A nil pool is dereferenced: None is the panic.
    An error in the row stream is not looked at. *)
Definition ListSecrets (w : Pg) (projectID : string) (c : Conn) (db : Tables) : option (list (string * string)) :=
  if pg_nil w then None
  else Some match pg_query w projectID with Some _ => [] | None =>
              let rows := collate (string * string) snd (secret_rows projectID (Query w (mkTx c db))) in
              match pg_rows w with Some (n, _) => take n rows | None => rows end end.

Definition mask : string := "••••••".
Definition zero_time : string := "0001-01-01T00:00:00Z".

Definition secret_json (extra : list (string * Json)) (r : string * string) : Json :=
  JObj ([("id", JStr r.1); ("name", JStr r.2); ("value", JStr mask)] ++ extra)%list.

(** [handleListSecrets]; [selectFields] leaves a list as it is. [w] answers the
    transaction, [w'] the statement after it; None is a panic. *)
Definition handleListSecrets (w w' : Pg) (projID : string) (c : Conn) (db : Tables) : Conn * option Resp :=
  match ListSecretsTx w projID projID c db with
  | (c, _, rows, None) => (c, Some (writeJSON 200 (JList (secret_json [] <$> rows))))
  | (c, db, _, Some _) =>
      (c, (fun rows => writeJSON 200 (JList (secret_json [("created_at", JStr zero_time)] <$> rows))) <$> ListSecrets w' projID c db)
  end.
End Listing.
End Rls.

Module RlsProofs.
Import Rls.

Section Facts.
Context (collate : forall A, (A -> string) -> list A -> list A).

(** The rows of a project under a tenant: all of them for the project itself (or
    without a tenant), none for another. *)
Lemma owned_rows {A} (key : A -> string) t project (l : list A) :
  base.filter (fun x => key x = project) (base.filter (fun x => policy_owned t (key x) = true) l) =
  if (t ==? "") || (project ==? t) then base.filter (fun x => key x = project) l else [].
Proof.
  change ((t ==? "") || (project ==? t)) with (policy_owned t project).
  destruct (policy_owned t project) eqn:E.
  - apply list_filter_filter_l. by intros x ->.
  - apply elem_of_nil_inv. intros x. rewrite !list_elem_of_filter. intros (Hk & Hp & _). congruence.
Qed.

Lemma visible_secret_rows t project db :
  secret_rows project (visible false t db) = if (t ==? "") || (project ==? t) then secret_rows project db else [].
Proof. unfold secret_rows, visible. cbn [tb_secrets]. rewrite (owned_rows Sec_ProjectID). by case_match. Qed.
Lemma visible_volume_rows t project db :
  volume_rows project (visible false t db) = if (t ==? "") || (project ==? t) then volume_rows project db else [].
Proof. unfold volume_rows, visible. cbn [tb_volumes]. rewrite (owned_rows Vol_ProjectID). by case_match. Qed.

(** What a listing in a transaction gives, from the rows it sees. *)
Definition tx_outcome (w : Pg) (projectID : string) (rows : list (string * string)) : list (string * string) * option string :=
  if pg_nil w then ([], Some "no rows in result set")
  else match pg_begin w, pg_set w with
       | Some e, _ | None, Some e => ([], Some e)
       | None, None =>
           match scan_rows collate w projectID rows (mkTx (mkConn None None) (mkTables [] [] [] [] [] [])) with
           | (_, out, Some e) => (out, Some e)
           | (_, out, None) => (out, pg_commit w)
           end
       end.

Lemma WithTenant_listing w tenant projectID (rows : Tables -> list (string * string)) c db :
  cn_local c = None ->
  WithTenant w tenant (fun tx => scan_rows collate w projectID (rows (Query w tx)) tx) [] c db =
  (c, db, (tx_outcome w projectID (rows (visible (pg_bypass w) tenant db))).1,
   (tx_outcome w projectID (rows (visible (pg_bypass w) tenant db))).2).
Proof.
  intros Hc. destruct c as [cs cl]. cbn in Hc. subst cl.
  unfold WithTenant, tx_outcome, end_tx. destruct (pg_nil w); [done|].
  destruct (pg_begin w); [done|]. destruct (pg_set w); [done|]. cbn [set_config cn_session].
  unfold Query, porter_tenant, current_setting, scan_rows. cbn [tx_conn tx_db cn_local default].
  destruct (pg_query w projectID); [done|]. cbn zeta. destruct (pg_rows w) as [[n e]|]; [done|].
  by destruct (pg_commit w).
Qed.

Lemma ListSecretsTx_outcome w tenant project c db :
  cn_local c = None ->
  ListSecretsTx collate w tenant project c db =
  (c, db, (tx_outcome w project (secret_rows project (visible (pg_bypass w) tenant db))).1,
   (tx_outcome w project (secret_rows project (visible (pg_bypass w) tenant db))).2).
Proof. apply (WithTenant_listing w tenant project (secret_rows project)). Qed.
Lemma ListVolumesTx_outcome w tenant project c db :
  cn_local c = None ->
  ListVolumesTx collate w tenant project c db =
  (c, db, (tx_outcome w project (volume_rows project (visible (pg_bypass w) tenant db))).1,
   (tx_outcome w project (volume_rows project (visible (pg_bypass w) tenant db))).2).
Proof. apply (WithTenant_listing w tenant project (volume_rows project)). Qed.

Hypothesis collate_perm : forall A f l, collate A f l ≡ₚ l.

Lemma tx_outcome_sub w project rows r : r ∈ (tx_outcome w project rows).1 -> r ∈ rows.
Proof.
  assert (Hin : forall n, r ∈ take n (collate _ snd rows) -> r ∈ rows).
  { intros n (i & Hi & _)%elem_of_take. rewrite <- (collate_perm _ snd rows). by eapply list_elem_of_lookup_2. }
  unfold tx_outcome, scan_rows. cbn zeta. repeat (case_match; simplify_eq/=); try (intros H'; by apply elem_of_nil in H'); try apply Hin.
  intros Hr. by rewrite <- (collate_perm _ snd rows).
Qed.

Lemma tx_outcome_all w project rows : (tx_outcome w project rows).2 = None -> (tx_outcome w project rows).1 ≡ₚ rows.
Proof.
  unfold tx_outcome, scan_rows. cbn zeta. repeat (case_match; simplify_eq/=); done.
Qed.

(** C26: Under a tenant, the listings of row-security transactions only show the
    tenant's own rows: whatever rows other tenants have, the answer is the same; a row
    is shown only when the project asked for is the tenant, and then it is one of its
    secrets; without an error all of them are. Afterwards the connection carries no
    tenant and the tables are as before, so later statements are not affected. *)
Theorem rls_confines w tenant project c db1 db2 :
  pg_bypass w = false -> tenant <> "" -> cn_local c = None ->
  base.filter (fun s => Sec_ProjectID s = tenant) (tb_secrets db1) = base.filter (fun s => Sec_ProjectID s = tenant) (tb_secrets db2) ->
  base.filter (fun v => Vol_ProjectID v = tenant) (tb_volumes db1) = base.filter (fun v => Vol_ProjectID v = tenant) (tb_volumes db2) ->
  exists rows err vrows verr,
    ListSecretsTx collate w tenant project c db1 = (c, db1, rows, err) /\
    ListSecretsTx collate w tenant project c db2 = (c, db2, rows, err) /\
    ListVolumesTx collate w tenant project c db1 = (c, db1, vrows, verr) /\
    ListVolumesTx collate w tenant project c db2 = (c, db2, vrows, verr) /\
    (forall r, r ∈ rows -> project = tenant /\ exists s, s ∈ tb_secrets db1 /\ Sec_ProjectID s = tenant /\ r = (Sec_ID s, Sec_Name s)) /\
    (forall r, r ∈ vrows -> project = tenant /\ exists v, v ∈ tb_volumes db1 /\ Vol_ProjectID v = tenant /\ r = (Vol_ID v, Vol_Name v)) /\
    (err = None -> project = tenant -> rows ≡ₚ secret_rows tenant db1) /\
    (verr = None -> project = tenant -> vrows ≡ₚ volume_rows tenant db1).
Proof.
  intros Hb Ht Hc Hs Hv. rewrite !ListSecretsTx_outcome, !ListVolumesTx_outcome, Hb, !visible_secret_rows, !visible_volume_rows by done.
  rewrite (bool_decide_false (tenant = "")) by done. cbn [orb].
  destruct (decide (project = tenant)) as [->|Hne].
  - rewrite bool_decide_true by done.
    assert (secret_rows tenant db2 = secret_rows tenant db1) as -> by (unfold secret_rows; by rewrite Hs).
    assert (volume_rows tenant db2 = volume_rows tenant db1) as -> by (unfold volume_rows; by rewrite Hv).
    do 4 eexists. split_and!; [done..| | |by intros H _; apply tx_outcome_all|by intros H _; apply tx_outcome_all].
    + intros r (s & -> & (? & ?)%list_elem_of_filter)%tx_outcome_sub%list_elem_of_fmap. eauto.
    + intros r (s & -> & (? & ?)%list_elem_of_filter)%tx_outcome_sub%list_elem_of_fmap. eauto.
  - rewrite bool_decide_false by done. do 4 eexists. split_and!; [done..| | |done|done].
    + by intros r ?%tx_outcome_sub%elem_of_nil.
    + by intros r ?%tx_outcome_sub%elem_of_nil.
Qed.

(** What a listing depends on: identifiers, projects and names. *)
Lemma secret_rows_erased project db1 db2 bypass t :
  (fun s => (Sec_ID s, Sec_ProjectID s, Sec_Name s)) <$> tb_secrets db1 = (fun s => (Sec_ID s, Sec_ProjectID s, Sec_Name s)) <$> tb_secrets db2 ->
  secret_rows project (visible bypass t db1) = secret_rows project (visible bypass t db2).
Proof.
  intros He. assert (H : forall db, secret_rows project db = (fun x => (x.1.1, x.2)) <$>
    base.filter (fun x => x.1.2 = project) ((fun s => (Sec_ID s, Sec_ProjectID s, Sec_Name s)) <$> tb_secrets db)).
  { intros db. unfold secret_rows. induction (tb_secrets db) as [|s l IH]; [done|].
    cbn [fmap list_fmap]. rewrite !filter_cons. cbn [fst snd]. case_decide; cbn [fmap list_fmap]; by rewrite IH. }
  destruct bypass; [by rewrite (H (visible true t db1)), (H (visible true t db2)); unfold visible; rewrite He|].
  rewrite !visible_secret_rows. by rewrite (H db1), (H db2), He.
Qed.

(** The listing of a project's secrets shows no value: whatever is stored as
    values, the answer is the same; every entry is masked and names a secret of that
    project, and an answer of the row-security transaction lists all of them. Only a
    store without a pool makes the handler panic instead of answering. *)
Theorem secret_values_never_listed w w' project c db1 db2 :
  cn_local c = None ->
  (fun s => (Sec_ID s, Sec_ProjectID s, Sec_Name s)) <$> tb_secrets db1 = (fun s => (Sec_ID s, Sec_ProjectID s, Sec_Name s)) <$> tb_secrets db2 ->
  handleListSecrets collate w w' project c db1 = handleListSecrets collate w w' project c db2 /\
  (pg_nil w' = false -> exists entries extra,
     handleListSecrets collate w w' project c db1 = (c, Some (writeJSON 200 (JList (secret_json extra <$> entries)))) /\
     (forall r, r ∈ entries -> exists s, s ∈ tb_secrets db1 /\ Sec_ProjectID s = project /\ r = (Sec_ID s, Sec_Name s)) /\
     (project <> "" -> (ListSecretsTx collate w project project c db1).2 = None -> entries ≡ₚ secret_rows project db1)).
Proof.
  intros Hc He. unfold handleListSecrets. rewrite !ListSecretsTx_outcome by done.
  rewrite <- (secret_rows_erased project db1 db2 _ _ He).
  assert (Hsub : forall bypass t r, r ∈ secret_rows project (visible bypass t db1) ->
    exists s, s ∈ tb_secrets db1 /\ Sec_ProjectID s = project /\ r = (Sec_ID s, Sec_Name s)).
  { intros bypass t r. destruct bypass; [|rewrite visible_secret_rows; case_match; [|by intros ?%elem_of_nil]];
      intros (s & -> & (? & ?)%list_elem_of_filter)%list_elem_of_fmap; eauto. }
  destruct (tx_outcome w project (secret_rows project (visible (pg_bypass w) project db1))) as [rows [e|]] eqn:E; cbn [fst snd].
  - unfold ListSecrets, Query. cbn [tx_conn tx_db]. rewrite (secret_rows_erased project db1 db2 _ _ He).
    split; [done|]. intros ->. cbn [fmap option_fmap option_map]. do 2 eexists. split_and!; [done| |by intros _ [=]].
    intros r. rewrite <- (secret_rows_erased project db1 db2 _ _ He).
    destruct (pg_query w' project); [by intros ?%elem_of_nil|]. cbn zeta. destruct (pg_rows w') as [[n ?]|].
    + intros (i & Hi & _)%elem_of_take. eapply Hsub. rewrite <- (collate_perm _ snd). by eapply list_elem_of_lookup_2.
    + rewrite collate_perm. apply Hsub.
  - split; [done|]. intros _. exists rows, []. split_and!; [done| |].
    + intros r Hr. eapply Hsub, tx_outcome_sub. by rewrite E.
    + intros Hp _. pose proof (tx_outcome_all w project (secret_rows project (visible (pg_bypass w) project db1))) as Ha.
      rewrite E in Ha. rewrite Ha by done. destruct (pg_bypass w); [done|].
      by rewrite visible_secret_rows, (bool_decide_true (project = project)), orb_true_r.
Qed.
End Facts.

(** The fallback does not help where the comment expects it to: without a pool it panics. *)
Lemma fallback_panics collate w project c db :
  pg_nil w = true -> handleListSecrets collate w w project c db = (c, None).
Proof. intros Hn. unfold handleListSecrets, ListSecretsTx, WithTenant, ListSecrets. by rewrite Hn. Qed.

(** The fallback of a failed transaction lists every creation time as year one. *)
Lemma fallback_zero_times :
  let s := mkSecret "s1" "p1" "KEY" "box" 1700000000 1700000000 in
  let w e := mkPg false None e (fun _ => None) None None false in
  (handleListSecrets (fun _ _ l => l) (w (Some "timeout")) (w None) "p1" (mkConn None None) (mkTables [] [] [s] [] [] [])).2 =
  Some (writeJSON 200 (JList [JObj [("id", JStr "s1"); ("name", JStr "KEY"); ("value", JStr mask); ("created_at", JStr "0001-01-01T00:00:00Z")]])).
Proof. by vm_compute. Qed.

(** ** A concrete database *)

Definition ex_pg : Pg := mkPg false None None (fun _ => None) None None false.
Definition ex_db (v : string) : Tables :=
  mkTables [("p1", Some "o1"); ("p2", Some "o2")] [("e1", "p1"); ("e2", "p2")]
    [mkSecret "s1" "p1" "KEY" v 0 0; mkSecret "s2" "p2" "OTHER" v 0 0] [mkVolume "v1" "p1" "data" 1024 "/data" 0] [] [].

Lemma rls_confines_witness :
  (ListSecretsTx (fun _ _ l => l) ex_pg "p1" "p1" (mkConn None None) (ex_db "x")).1.2 = [("s1", "KEY")] /\
  exists rows err vrows verr,
    ListSecretsTx (fun _ _ l => l) ex_pg "p2" "p1" (mkConn None None) (ex_db "x") = (mkConn None None, ex_db "x", rows, err) /\
    ListVolumesTx (fun _ _ l => l) ex_pg "p2" "p1" (mkConn None None) (ex_db "x") = (mkConn None None, ex_db "x", vrows, verr).
Proof.
  split; [by vm_compute|].
  destruct (rls_confines (fun _ _ l => l) (fun _ _ _ => reflexivity _) ex_pg "p2" "p1" (mkConn None None) (ex_db "x") (ex_db "x"))
    as (rows & err & vrows & verr & H1 & _ & H2 & _); [done..|]. by exists rows, err, vrows, verr.
Defined.

Lemma secret_values_never_listed_witness :
  handleListSecrets (fun _ _ l => l) ex_pg ex_pg "p1" (mkConn None None) (ex_db "x") =
  handleListSecrets (fun _ _ l => l) ex_pg ex_pg "p1" (mkConn None None) (ex_db "y").
Proof.
  destruct (secret_values_never_listed (fun _ _ l => l) (fun _ _ _ => reflexivity _) ex_pg ex_pg "p1" (mkConn None None) (ex_db "x") (ex_db "y")) as [H _];
    [done|by vm_compute|exact H].
Defined.
End RlsProofs.

Module Teams.

(** ** Teams *)

(** [DELETE FROM team_members]. *)
Definition RemoveTeamMember (groupID userID : string) (a : Accounts) : Accounts :=
  mkAccounts (ac_srv a) (ac_orgs a) (ac_groups a)
    (base.filter (fun m => ~ (tm_group m = groupID /\ tm_user m = userID)) (ac_team_members a)) (ac_log a) (ac_next a).

(** The rows the join gives: a member is named by user name or by identifier. *)
Definition team_roles (groupID username : string) (a : Accounts) : list string :=
  tm_role <$> base.filter (fun m => tm_group m = groupID /\
    existsb (fun u => ((User_Username u ==? tm_user m) || (User_ID u ==? tm_user m)) && (User_Username u ==? username)) (users (ac_db a)) = true)
    (ac_team_members a).

(** [LIMIT 1] without an order: any of the rows. *)
Definition TeamRoleForUser (limit1 : list string -> option string) (groupID username : string) (a : Accounts) : string :=
  if (groupID ==? "") || (username ==? "") then ""
  else match limit1 (team_roles groupID username a) with
       | Some role => if role !=? "" then role else GroupRoleForUser (ac_db a) groupID username
       | None => GroupRoleForUser (ac_db a) groupID username
       end.

(** ** Groups *)

(** [coalesce_ok]: whether the database takes [COALESCE(org_id,'')] of a UUID column. *)
Definition GetGroup (coalesce_ok : bool) (id : string) (a : Accounts) : option Group :=
  if coalesce_ok then (fun g => mkGroup (Grp_ID g) (Grp_OrgID g) (Grp_Name g) 0) <$> find_first (fun g => Grp_ID g ==? id) (ac_groups a)
  else None.

Definition handlePatchGroup (coalesce_ok : bool) (db_error : string) (groupId : string) (body : result string string) (a : Accounts)
    : Accounts * Resp :=
  match GetGroup coalesce_ok groupId a with
  | None => (a, writeError 404 "group not found")
  | Some g =>
      match body with
      | Err e => (a, writeError 400 ("bad request: " ++ e))
      | Ok name =>
          let g := if name !=? "" then Grp_set_Name name g else g in
          let '(a, ok) := PutGroup g a in
          (a, if ok then writeJSON 200 (JGroup g) else writeError 500 ("update group: " ++ db_error))
      end
  end.

(** ** Default organisations *)

(** [is_uuid]: whether the owner's identifier is one, as [org_members.user_id] wants;
    an error of that INSERT is ignored. *)
Definition EnsureDefaultOrg (is_uuid : string -> bool) (db_error id ownerID name : string) (a : Accounts) : Accounts * result string string :=
  match find_first (fun o => (Org_OwnerID o ==? ownerID) && Org_IsDefault o) (ac_orgs a) with
  | Some o => (a, Ok (Org_ID o))
  | None =>
      if existsb (fun o => (Org_ID o ==? id) || (Org_Name o ==? name)) (ac_orgs a) then (a, Err db_error)
      else
        let a := with_orgs (ac_orgs a ++ [mkOrg id name ownerID true 0])%list a in
        (if is_uuid ownerID && negb (existsb (om_hit id ownerID) (org_members (ac_db a)))
         then on_db (fun db => with_org_members (org_members db ++ [mkOMRow id ownerID "owner"])%list db) a else a, Ok id)
  end.

(** ** The static scope chain *)

Definition scope_order : list string := ["environment"; "project"; "team"; "org"; "reseller"; "platform"].

(** The types after the first occurrence of [t]. *)
Fixpoint types_after (t : string) (l : list string) : option (list string) :=
  match l with
  | [] => None
  | x :: l => if x ==? t then Some l else types_after t l
  end.

Definition ScopeChain (scopeType scopeID : string) : list (string * string) :=
  match types_after scopeType scope_order with
  | None => [("platform", "")]
  | Some rest => (scopeType, scopeID) :: ((fun t => (t, "")) <$> rest)
  end.
End Teams.

Module TeamsProofs.
Import Teams.

(** A chain starts at its scope, names each wider type once and in order, and ends at
    the platform; an unknown type only has the platform. *)
Lemma ScopeChain_spec t i :
  (ScopeChain t i).*1 `suffix_of` scope_order /\ last (ScopeChain t i).*1 = Some "platform" /\
  (t ∈ scope_order -> head (ScopeChain t i) = Some (t, i)).
Proof.
  destruct (decide (t ∈ scope_order)) as [Hin|Hout].
  - assert (Hs : (ScopeChain t i).*1 = (ScopeChain t "").*1 /\ head (ScopeChain t i) = Some (t, i)).
    { revert Hin. unfold scope_order. rewrite !elem_of_cons. intros H. repeat destruct H as [->|H]; [..|by apply elem_of_nil in H]; by vm_compute. }
    destruct Hs as [-> ?]. split_and!; [| |done].
    all: revert Hin; unfold scope_order; rewrite !elem_of_cons; intros Hi; repeat destruct Hi as [->|Hi]; [..|by apply elem_of_nil in Hi].
    all: first [by vm_compute|apply (bool_decide_unpack _); by vm_compute].
  - assert (ScopeChain t i = [("platform", "")]) as ->.
    { unfold ScopeChain, scope_order in *. cbn [types_after]. rewrite !not_elem_of_cons in Hout.
      destruct_and! Hout. by rewrite !bool_decide_false by congruence. }
    split_and!; [apply (bool_decide_unpack _); by vm_compute|done|done].
Qed.

(** A direct row decides the team role; without one it is the role in the owning organisation. *)
Lemma TeamRoleForUser_spec limit1 groupID username a :
  (forall l, match limit1 l with Some r => r ∈ l | None => l = [] end) -> groupID <> "" -> username <> "" ->
  (team_roles groupID username a = [] -> TeamRoleForUser limit1 groupID username a = GroupRoleForUser (ac_db a) groupID username) /\
  (team_roles groupID username a <> [] -> Forall (fun r => r <> "") (team_roles groupID username a) ->
     TeamRoleForUser limit1 groupID username a ∈ team_roles groupID username a).
Proof.
  intros Hl Hg Hu. unfold TeamRoleForUser. rewrite !bool_decide_false by done. cbn [orb].
  specialize (Hl (team_roles groupID username a)). destruct (limit1 _) as [r|]; split; intros H.
  - rewrite H in Hl. by apply elem_of_nil in Hl.
  - intros Hf. rewrite Forall_forall in Hf. by rewrite bool_decide_false by auto.
  - done.
  - by rewrite Hl in H.
Qed.

(** Team rows are never consulted: adding a member to a team changes nothing the
    permission checks read, although migration 0020 says that table is checked first. *)
Lemma team_role_ignored groupID userID role a order r p perm :
  granted order (ac_db (AddTeamMember groupID userID role a)) r p perm = granted order (ac_db a) r p perm.
Proof. done. Qed.

(** A PATCH never changes a group: the lookup is refused by the database, and where it
    were not, the plain INSERT of [PutGroup] collides with the group itself. *)
Lemma patch_group_never_stores coalesce_ok db_error groupId body a :
  (handlePatchGroup coalesce_ok db_error groupId body a).1 = a /\
  r_status (handlePatchGroup coalesce_ok db_error groupId body a).2 <> 200.
Proof.
  unfold handlePatchGroup, GetGroup. destruct coalesce_ok; [|done].
  destruct (find_first _ _) as [g|] eqn:E; [|done]. cbn [fmap option_fmap option_map].
  destruct body as [name|e]; [|done]. cbn zeta.
  assert (HP : forall n, PutGroup (mkGroup (Grp_ID g) (Grp_OrgID g) n 0) a = (a, false)).
  { intros n. unfold PutGroup. apply find_first_In in E as [Hin _].
    rewrite (proj2 (existsb_exists _ _)); [done|]. exists g. split; [by apply list_elem_of_In|]. cbn. by apply bool_decide_eq_true. }
  destruct (name !=? ""); cbn [Grp_set_Name Grp_ID Grp_OrgID Grp_Name Grp_CreatedAt]; unfold Grp_set_Name;
    cbn [Grp_ID Grp_OrgID Grp_Name Grp_CreatedAt]; rewrite HP; done.
Qed.

(** A second call finds the organisation of the first, whatever name and identifier it is given. *)
Lemma default_org_stable is_uuid e id id' owner name name' a a' o :
  EnsureDefaultOrg is_uuid e id owner name a = (a', Ok o) ->
  EnsureDefaultOrg is_uuid e id' owner name' a' = (a', Ok o).
Proof.
  unfold EnsureDefaultOrg at 1. destruct (find_first _ (ac_orgs a)) as [x|] eqn:E.
  - intros [= <- <-]. unfold EnsureDefaultOrg. by rewrite E.
  - destruct (existsb _ _); [done|]. cbn zeta. intros [= <- <-]. unfold EnsureDefaultOrg.
    assert (Ho : forall b : bool, ac_orgs (if b then on_db (fun db => with_org_members (org_members db ++ [mkOMRow id owner "owner"])%list db)
      (with_orgs (ac_orgs a ++ [mkOrg id name owner true 0])%list a) else with_orgs (ac_orgs a ++ [mkOrg id name owner true 0])%list a)
      = (ac_orgs a ++ [mkOrg id name owner true 0])%list) by by intros [].
    rewrite Ho, find_first_app, E. cbn. by rewrite bool_decide_true.
Qed.
End TeamsProofs.

Module Tokens.
Section Minting.
Context {Priv : Type} (Public : Priv -> string) (Sign : Priv -> string -> string) (EdVerify : string -> string -> string -> bool)
  (Marshal : gmap string JVal -> string) (Unmarshal : string -> option (gmap string JVal)).

Definition token_ttl : Z := 12 * 3600 * second.

(** [PublicJWK]. *)
Definition PublicJWK (k : KeyPair (Priv := Priv)) : list (string * string) :=
  [("kty", "OKP"); ("crv", "Ed25519"); ("alg", "EdDSA"); ("use", "sig"); ("kid", KP_KID k); ("x", EncodeB64 (Public (KP_Key k)))].

Definition handleJWKS (k : KeyPair (Priv := Priv)) : Resp :=
  if KP_KID k ==? "" then writeError 503 "JWT authentication is not configured"
  else writeJSON 200 (JObj [("keys", JList [JObj ((fun kv => (kv.1, JStr kv.2)) <$> PublicJWK k)])]).

(** The token of [handleMintToken] for the caller [me]; encoding the claims does not fail. *)
Definition minted (k : KeyPair) (now : Z) (me : string) (actx : AuthContext) : string :=
  Mint Sign Marshal k now me "porter-api" "session" (AC_ScopeID actx) token_ttl.

Definition handleMintToken (k : KeyPair) (now : Z) (me : string) (actx : AuthContext) : Resp :=
  if KP_KID k ==? "" then writeError 503 "JWT authentication is not configured"
  else writeJSON 200 (JObj [("token", JStr (minted k now me actx)); ("scope", JStr (AC_ScopeType actx)); ("tenant", JStr (AC_ScopeID actx))]).

Hypothesis sign_verify : forall priv msg, EdVerify (Public priv) msg (Sign priv msg) = true.
Hypothesis json_roundtrip : forall m : gmap string JVal,
  (forall k v, m !! k = Some v -> printable k = true /\ json_safe v) -> Unmarshal (Marshal m) = Some m.

Lemma minted_dots k now me actx : count_dots (minted k now me actx) = 2%nat.
Proof. unfold count_dots, minted, Mint. cbv zeta. by rewrite token_split. Qed.

(** A token a tenant's caller mints is answered with 200 and authenticates them on
    later requests as the same user, with the role the user then has, in an
    organisation scope of that tenant, up to the second twelve hours after it was
    minted; after that it is no token of the server. *)
Theorem minted_token_authenticates k s now now' me actx :
  mintable k now me "porter-api" "session" (AC_ScopeID actx) token_ttl ->
  srv_kid s = KP_KID k -> KP_KID k <> "" -> AC_ScopeID actx <> "" -> AC_ScopeID actx <> CentralTenant ->
  let verify tok := Verify Public EdVerify Unmarshal k now' tok "porter-api" in
  let tok := minted k now me actx in
  handleMintToken k now me actx = writeJSON 200 (JObj [("token", JStr tok); ("scope", JStr (AC_ScopeType actx)); ("tenant", JStr (AC_ScopeID actx))]) /\
  (unix now' <= unix (truncate now) + 12 * 3600 ->
     resolveBearer verify s now' tok =
     (mkPrincipal me (user_role (srv_db s) me), Some (mkAuthContext "user" me "org" (AC_ScopeID actx)))) /\
  (unix (truncate now) + 12 * 3600 < unix now' -> jwt_principal verify s tok = None).
Proof.
  intros Hm Hs Hk Hi Hct verify tok. split; [unfold handleMintToken; by rewrite bool_decide_false|].
  assert (Hu : unix (truncate now + token_ttl) = unix (truncate now) + 12 * 3600).
  { unfold unix, token_ttl. by rewrite Z.div_add by (unfold second; lia). }
  assert (Hv : verify tok = if unix (truncate now + token_ttl) <? unix now' then Err "auth: token expired"
    else Ok (mkClaims (issuerOf (KP_KID k)) me "porter-api" "session" (AC_ScopeID actx) (unix (truncate now) * second)
               (unix (truncate now + token_ttl) * second))).
  { unfold verify, tok, minted. rewrite (Verify_Mint _ Sign _ Marshal) by done. by rewrite bool_decide_false, bool_decide_true by done. }
  assert (Hj : jwt_principal verify s tok = if unix (truncate now + token_ttl) <? unix now' then None
    else Some (mkPrincipal me (user_role (srv_db s) me), mkAuthContext "user" me "org" (AC_ScopeID actx))).
  { unfold jwt_principal. rewrite Hs, (bool_decide_false (KP_KID k = "")), (minted_dots k now me actx : count_dots tok = 2%nat), Hv by done.
    cbn [negb andb Nat.eqb]. destruct (_ <? _); [done|]. cbn [Claim_Subject Claim_Tenant].
    destruct Hm as [_ _ [_ Hsub] _ _ _ _ _]. rewrite (bool_decide_false (me = "")) by done. cbn [negb].
    unfold ResolveScope. by rewrite (bool_decide_false (AC_ScopeID actx = "")), (bool_decide_false (AC_ScopeID actx = CentralTenant)) by done. }
  split; intros Ht.
  - unfold resolveBearer. rewrite Hj. by rewrite (proj2 (Z.ltb_ge _ _)) by lia.
  - rewrite Hj. by rewrite (proj2 (Z.ltb_lt _ _)) by lia.
Qed.

(** Without a tenant (the platform scope, which a login without the tenant header has)
    the endpoint answers 200 with a token no request accepts. *)
Lemma platform_mint_useless k s now now' me actx :
  mintable k now me "porter-api" "session" "" token_ttl -> AC_ScopeID actx = "" ->
  jwt_principal (fun tok => Verify Public EdVerify Unmarshal k now' tok "porter-api") s (minted k now me actx) = None.
Proof.
  intros Hm Ha. unfold jwt_principal, minted. rewrite Ha.
  rewrite (platform_token_refused Public Sign EdVerify Marshal Unmarshal sign_verify json_roundtrip) by done. by case_match.
Qed.
End Minting.

Definition ex_caller : AuthContext := mkAuthContext "user" "ann" "project" "p1".
Definition ex_server : Server :=
  mkServer (mkTenancy (fun _ => true) [] [] [] [] [] [] [] [] [] [] [] []) ∅ [] "" 0 (KP_KID toy_key).

(** The answer says [project]; the token is one of an organisation of that name. *)
Lemma minted_token_authenticates_witness :
  resolveBearer (fun tok => Verify EncodeHex toy_verify toy_unmarshal toy_key (60 * second) tok "porter-api") ex_server (60 * second)
    (minted toy_sign toy_marshal toy_key 0 "ann" ex_caller) =
  (mkPrincipal "ann" "", Some (mkAuthContext "user" "ann" "org" "p1")).
Proof.
  destruct (minted_token_authenticates EncodeHex toy_sign toy_verify toy_marshal toy_unmarshal toy_sign_verify (fun m _ => toy_roundtrip m)
    toy_key ex_server 0 (60 * second) "ann" ex_caller) as (_ & H & _);
    [split; vm_compute; intuition congruence|done|by vm_compute|done|done|]. apply H. by vm_compute.
Defined.
End Tokens.
