(* ===== verification/Work.v ===== *)
(** * Queued and periodic work ([store/events.go], [store/store.go], [controller], [cron], [autoscale], [metrics], [health])

    The task ledger with its lock keys, the audit log, the daily counters that are
    written by concurrent goroutines, deployments from a repository, and the ticker
    loops that drive controllers, scheduler, autoscaler, samplers and health checks.
    Whether a text is valid JSON, the errors of the database and the times of the
    ticks are arguments. *)
From S2P Require Import Prelude GoStrings GoNum Types Gateway Store Health Controllers Cron Scheduler Pool Projects Telemetry Builds Durable.
From Stdlib Require Import String Ascii.

Open Scope string_scope.
Open Scope Z_scope.

Module Tasks.

Record Task := mkTask {
  Task_ID : string; Task_Kind : string; Task_Payload : string; Task_Status : string; Task_Attempts : Z;
  Task_LockKey : option string; Task_Progress : string; Task_Error : string }.

Record Audit := mkAudit {
  Audit_ActorType : string; Audit_ActorID : string; Audit_Action : string; Audit_ResourceRef : string;
  Audit_RequestID : string; Audit_Outcome : string }.

Definition TaskQueued : string := "queued".

Definition set_kind (kind : string) (t : Task) : Task :=
  mkTask (Task_ID t) kind (Task_Payload t) (Task_Status t) (Task_Attempts t) (Task_LockKey t) (Task_Progress t) (Task_Error t).
Definition set_status (status progress err : string) (t : Task) : Task :=
  mkTask (Task_ID t) (Task_Kind t) (Task_Payload t) status (Task_Attempts t + 1) (Task_LockKey t) progress err.

Definition has_lock (k : string) (t : Task) : bool := Task_LockKey t ==? Some k.

Section Ledger.
(** [jsonb s]: the error of the cast of [s], if any. *)
Context (jsonb : string -> option string).

(** [down] is an error of the connection; [id] the identifier the database draws. A
    conflict on the lock key keeps the row and replaces its kind. *)
Definition CreateTask (down : option string) (id kind payload lockKey : string) (l : list Task) : list Task * (string * option string) :=
  match down, jsonb payload with
  | Some e, _ | None, Some e => (l, ("", Some e))
  | None, None =>
      let lock := if lockKey !=? "" then Some lockKey else None in
      match (if lockKey !=? "" then find_first (has_lock lockKey) l else None) with
      | Some t => ((fun x => if has_lock lockKey x then set_kind kind x else x) <$> l, (Task_ID t, None))
      | None => ((l ++ [mkTask id kind payload TaskQueued 0 lock "{}" ""])%list, (id, None))
      end
  end.

Definition max_int4 : Z := 2147483647.

(** [attempts] is an INT: past its end the statement fails. *)
Definition UpdateTaskStatus (down : option string) (id status progress errText : string) (l : list Task) : list Task * option string :=
  match down, jsonb progress with
  | Some e, _ | None, Some e => (l, Some e)
  | None, None =>
      if existsb (fun t => (Task_ID t ==? id) && (max_int4 <=? Task_Attempts t)) l then (l, Some "integer out of range")
      else ((fun t => if Task_ID t ==? id then set_status status progress errText t else t) <$> l, None)
  end.

Definition AppendAudit (down : option string) (r : Audit) (l : list Audit) : list Audit * option string :=
  match down with Some e => (l, Some e) | None => ((l ++ [r])%list, None) end.

(** ** Sequences of operations *)

Inductive task_op :=
| Create (down : option string) (id kind payload lockKey : string)
| Update (down : option string) (id status progress errText : string).

Definition task_step (l : list Task) (o : task_op) : list Task :=
  match o with
  | Create d i k p lk => (CreateTask d i k p lk l).1
  | Update d i st p e => (UpdateTaskStatus d i st p e l).1
  end.

(** The database draws an identifier no row has. *)
Definition fresh_for (l : list Task) (o : task_op) : Prop :=
  match o with Create _ i _ _ _ => i ∉ Task_ID <$> l | Update _ _ _ _ _ => True end.

Fixpoint fresh_run (l : list Task) (ops : list task_op) : Prop :=
  match ops with [] => True | o :: ops => fresh_for l o /\ fresh_run (task_step l o) ops end.

Definition locks (l : list Task) : list string := omap Task_LockKey l.

Definition ledger_ok (l : list Task) : Prop :=
  NoDup (Task_ID <$> l) /\ NoDup (locks l) /\ Forall (fun t => Task_LockKey t <> Some "" /\ 0 <= Task_Attempts t <= max_int4) l.

Lemma find_lock k l t : find_first (has_lock k) l = Some t -> t ∈ l /\ Task_LockKey t = Some k.
Proof. intros (Hin & Hl)%find_first_In. by apply bool_decide_eq_true in Hl. Qed.
Lemma find_lock_none k l : find_first (has_lock k) l = None -> k ∉ locks l.
Proof.
  rewrite find_first_None, Forall_forall. intros H (t & Hin & Hk)%list_elem_of_omap. specialize (H t Hin).
  by apply bool_decide_eq_false in H.
Qed.

Lemma locks_fmap (f : Task -> Task) (l : list Task) : (forall t, Task_LockKey (f t) = Task_LockKey t) -> locks (f <$> l) = locks l.
Proof. intros Hf. unfold locks. induction l as [|t l IH]; [done|]. cbn. by rewrite Hf, IH. Qed.
Lemma ids_fmap (f : Task -> Task) (l : list Task) : (forall t, Task_ID (f t) = Task_ID t) -> Task_ID <$> (f <$> l) = Task_ID <$> l.
Proof. intros Hf. rewrite <- list_fmap_compose. apply list_fmap_ext. intros i t _. apply Hf. Qed.

Lemma task_step_ok l o : ledger_ok l -> fresh_for l o -> ledger_ok (task_step l o).
Proof.
  intros (Hi & Hl & Hf) Hfr. destruct o as [d i k p lk|d i st p e]; cbn [task_step fresh_for] in *.
  - unfold CreateTask. destruct d; [done|]. destruct (jsonb p); [done|]. cbn zeta.
    destruct (lk !=? "") eqn:El; [destruct (find_first _ _) as [t|] eqn:Ef|]; cbn [fst].
    + split_and!.
      * rewrite ids_fmap; [done|]. intros x. by case_match.
      * rewrite locks_fmap; [done|]. intros x. by case_match.
      * apply Forall_fmap. eapply Forall_impl; [done|]. intros x. cbn. by case_match.
    + bools. apply find_lock_none in Ef. split_and!.
      * rewrite fmap_app. apply NoDup_app. split_and!; [done| |apply NoDup_singleton]. intros x Hx ->%list_elem_of_singleton. done.
      * unfold locks. rewrite omap_app. apply NoDup_app. split_and!; [done| |apply NoDup_singleton]. intros x Hx ->%list_elem_of_singleton. done.
      * apply Forall_app. split; [done|]. constructor; [|done]. cbn. split; [congruence|unfold max_int4; lia].
    + split_and!.
      * rewrite fmap_app. apply NoDup_app. split_and!; [done| |apply NoDup_singleton]. intros x Hx ->%list_elem_of_singleton. done.
      * unfold locks. rewrite omap_app. cbn. by rewrite app_nil_r.
      * apply Forall_app. split; [done|]. constructor; [|done]. cbn. split; [done|unfold max_int4; lia].
  - unfold UpdateTaskStatus. destruct d; [done|]. destruct (jsonb p); [done|]. destruct (existsb _ _) eqn:Ex; [done|]. cbn [fst]. split_and!.
    + rewrite ids_fmap; [done|]. intros x. by case_match.
    + rewrite locks_fmap; [done|]. intros x. by case_match.
    + apply Forall_fmap, Forall_forall. intros t Ht. rewrite Forall_forall in Hf. specialize (Hf t Ht). cbn.
      destruct (Task_ID t ==? i) eqn:Et; [|done]. cbn. split; [apply Hf|].
      assert (~ max_int4 <= Task_Attempts t); [|lia]. intros Hm. apply not_true_iff_false in Ex. apply Ex.
      apply existsb_exists. exists t. split; [by apply list_elem_of_In|]. by rewrite Et, (proj2 (Z.leb_le _ _)).
Qed.

Lemma run_ok ops l : ledger_ok l -> fresh_run l ops -> ledger_ok (fold_left task_step ops l).
Proof.
  revert l. induction ops as [|o ops IH]; intros l Hl Hf; [done|]. cbn in *. destruct Hf. apply IH; [|done]. by apply task_step_ok.
Qed.

(** A row under a lock key stays, with its identifier. *)
Definition locked (k i : string) (l : list Task) : Prop := exists t, t ∈ l /\ Task_ID t = i /\ Task_LockKey t = Some k.

Lemma locked_step k i l o : locked k i l -> locked k i (task_step l o).
Proof.
  intros (t & Hin & Hi & Hk).
  assert (Hmap : forall f : Task -> Task, (forall x, Task_ID (f x) = Task_ID x /\ Task_LockKey (f x) = Task_LockKey x) -> locked k i (f <$> l)).
  { intros f Hf. exists (f t). destruct (Hf t) as [-> ->]. split; [by apply list_elem_of_fmap_2|done]. }
  destruct o as [d i' kd p lk|d i' st p e]; cbn [task_step].
  - unfold CreateTask. repeat case_match; cbn [fst]; try (by exists t); try (exists t; split; [|done]; set_solver); apply Hmap; intros x; by case_match.
  - unfold UpdateTaskStatus. repeat case_match; cbn [fst]; try (by exists t); apply Hmap; intros x; by case_match.
Qed.

Lemma locked_run ops k i l : locked k i l -> locked k i (fold_left task_step ops l).
Proof. revert l. induction ops as [|o ops IH]; intros l H; [done|]. cbn. by apply IH, locked_step. Qed.

Lemma locked_find k i l : ledger_ok l -> locked k i l -> exists t, find_first (has_lock k) l = Some t /\ Task_ID t = i.
Proof.
  intros (_ & Hn & _) (t & Hin & Hi & Hk). destruct (find_first (has_lock k) l) as [t'|] eqn:E.
  - exists t'. split; [done|]. apply find_lock in E as [Hin' Hk'].
    assert (t' = t) as ->; [|done]. clear Hi. induction l as [|x l IH]; [by apply elem_of_nil in Hin|].
    unfold locks in Hn. cbn in Hn. fold (locks l) in Hn.
    assert (Hl : forall y, y ∈ l -> Task_LockKey y = Some k -> k ∈ locks l) by (intros y Hy Hyk; apply list_elem_of_omap; eauto).
    rewrite !elem_of_cons in *. destruct Hin as [<-|Hin], Hin' as [<-|Hin']; [done|..].
    + rewrite Hk in Hn. apply NoDup_cons in Hn as [Hx _]. by destruct Hx; eapply Hl.
    + rewrite Hk' in Hn. apply NoDup_cons in Hn as [Hx _]. by destruct Hx; eapply Hl.
    + apply IH; [|done..]. destruct (Task_LockKey x); [by apply NoDup_cons in Hn as [_ ?]|done].
  - apply find_lock_none in E. destruct E. apply list_elem_of_omap. eauto.
Qed.

(** In a ledger of any history, identifiers and lock keys are unique; once a task
    was created under a lock key, creating one again under that key, after whatever
    happened in between, gives its identifier and adds no row, and the task keeps its
    payload, status and attempts. *)
Theorem lock_key_deduplicates ops ops' l i k kind payload i' kind' payload' :
  fresh_run [] ops -> l = fold_left task_step ops [] -> k <> "" -> i ∉ Task_ID <$> l ->
  jsonb payload = None -> jsonb payload' = None ->
  fresh_run (CreateTask None i kind payload k l).1 ops' ->
  let first := CreateTask None i kind payload k l in
  let l' := fold_left task_step ops' first.1 in
  let again := CreateTask None i' kind' payload' k l' in
  ledger_ok l' /\ first.2.2 = None /\ again.2 = first.2 /\ List.length again.1 = List.length l' /\
  (fun t => (Task_ID t, Task_Payload t, Task_Status t, Task_Attempts t)) <$> again.1 =
  (fun t => (Task_ID t, Task_Payload t, Task_Status t, Task_Attempts t)) <$> l'.
Proof.
  intros Hf -> Hk Hi Hp Hp' Hf' first l' again.
  assert (Hok0 : ledger_ok (fold_left task_step ops [])).
  { apply run_ok; [|done]. split_and!; [apply NoDup_nil_2|apply NoDup_nil_2|constructor]. }
  set (l := fold_left task_step ops []) in *.
  assert (Hok1 : ledger_ok first.1) by exact (task_step_ok l (Create None i kind payload k) Hok0 Hi).
  assert (Hok : ledger_ok l') by by apply run_ok.
  assert (Hfirst : locked k first.2.1 first.1 /\ first.2.2 = None).
  { unfold first, CreateTask. rewrite Hp. cbn zeta. rewrite (bool_decide_false (k = "")) by done. cbn [negb].
    destruct (find_first _ _) as [t|] eqn:Ef; cbn [fst snd]; (split; [|done]).
    - apply find_lock in Ef as [Hin Hl]. exists (set_kind kind t). split; [|done].
      apply list_elem_of_fmap. exists t. split; [|done]. unfold has_lock. by rewrite bool_decide_true.
    - eexists. split; [apply elem_of_app; right; by apply list_elem_of_singleton|]. done. }
  destruct Hfirst as [Hlk Hnone]. apply (locked_run ops') in Hlk. apply (locked_find _ _ _ Hok) in Hlk as (t & Ht & Hid).
  split_and!; [done..| | |]; unfold again, CreateTask; rewrite Hp'; cbn zeta; rewrite (bool_decide_false (k = "")) by done; cbn [negb];
    fold l'; rewrite Ht; cbn [fst snd].
  - rewrite Hid, <- Hnone. by destruct first.2.
  - by rewrite length_fmap.
  - rewrite <- list_fmap_compose. apply list_fmap_ext. intros ? x _. cbn. by case_match.
Qed.

(** What a status update does: the row named, and no other, carries the new status and
    one more attempt. *)
Lemma UpdateTaskStatus_spec id status progress e l l' :
  UpdateTaskStatus None id status progress e l = (l', None) ->
  forall n t, l !! n = Some t -> l' !! n = Some (if Task_ID t ==? id then set_status status progress e t else t).
Proof.
  unfold UpdateTaskStatus. destruct (jsonb progress); [done|]. case_match; [done|]. intros [= <-] n t Hn.
  by rewrite list_lookup_fmap, Hn.
Qed.
End Ledger.

(** A finished task holds its key for good: the next operation under it is answered
    with the finished row and nothing is queued; the row then has the new kind and the
    old payload. *)
Lemma finished_task_blocks :
  let ok (_ : string) : option string := None in
  let '(l, _) := CreateTask ok None "t1" "build" "{'v':1}" "app" [] in
  let '(l, _) := UpdateTaskStatus ok None "t1" "succeeded" "{}" "" l in
  CreateTask ok None "t2" "deploy" "{'v':2}" "app" l =
  ([mkTask "t1" "deploy" "{'v':1}" "succeeded" 1 (Some "app") "{}" ""], ("t1", None)).
Proof. by vm_compute. Qed.

(** The update is documented as idempotent; each repetition counts as an attempt. *)
Lemma update_counts_repeats :
  let ok (_ : string) : option string := None in
  let l := (CreateTask ok None "t1" "build" "{}" "" []).1 in
  let once := (UpdateTaskStatus ok None "t1" "running" "{}" "" l).1 in
  (UpdateTaskStatus ok None "t1" "running" "{}" "" once).1 <> once.
Proof. by vm_compute. Qed.

Lemma lock_key_deduplicates_witness :
  let ok (_ : string) : option string := None in
  let first := CreateTask ok None "t1" "build" "{}" "app" [] in
  let l' := fold_left (task_step ok) [Create None "t2" "gc" "{}" ""; Update None "t1" "running" "{}" ""] first.1 in
  (CreateTask ok None "t3" "build" "{}" "app" l').2 = ("t1", None).
Proof.
  cbv zeta. destruct (lock_key_deduplicates (fun _ => None) [] [Create None "t2" "gc" "{}" ""; Update None "t1" "running" "{}" ""]
    [] "t1" "app" "build" "{}" "t3" "build" "{}") as (_ & _ & H & _);
    [done|done|done|set_solver|done|done|cbn; split_and!; [set_solver|done|done]|]. by rewrite H.
Defined.
End Tasks.

Module Daily.

Record Increment := mkInc { inc_project : string; inc_requests : Z; inc_bandwidth : Z; inc_invocations : Z }.

Definition add3 (a b : Z * Z * Z) : Z * Z * Z := (a.1.1 + b.1.1, a.1.2 + b.1.2, a.2 + b.2).
Definition fits3 (a : Z * Z * Z) : bool :=
  bool_decide (in_i64 a.1.1) && bool_decide (in_i64 a.1.2) && bool_decide (in_i64 a.2).
Definition counts (i : Increment) : Z * Z * Z := (inc_requests i, inc_bandwidth i, inc_invocations i).

(** [analytics_daily] keeps requests, bandwidth and invocations by project and day. The
    body of the goroutine, at [CURRENT_DATE] [today]; its error is dropped: a failed
    statement ([ok] is false), an unknown project, a counter past the end of BIGINT. *)
Definition UpsertDailyAnalytics (nil_pool ok : bool) (s : StoreState) (today : Z) (i : Increment) (m : gmap (string * Z) (Z * Z * Z)) : gmap (string * Z) (Z * Z * Z) :=
  if nil_pool || negb ok || negb (is_project s (inc_project i)) then m
  else
    let row := add3 (default (0, 0, 0) (m !! (inc_project i, today))) (counts i) in
    if fits3 row then <[(inc_project i, today) := row]> m else m.

(** Goroutines run in any order; each is one statement on its day. *)
Definition run_all (s : StoreState) (l : list (Z * Increment)) (m : gmap (string * Z) (Z * Z * Z)) : gmap (string * Z) (Z * Z * Z) :=
  fold_left (fun m di => UpsertDailyAnalytics false true s di.1 di.2 m) l m.

Definition key_of (di : Z * Increment) : string * Z := (inc_project di.2, di.1).
Definition of_key (k : string * Z) (l : list (Z * Increment)) : list (Z * Increment) := base.filter (fun di => key_of di = k) l.
Definition total (l : list (Z * Increment)) : Z * Z * Z :=
  (zsum ((fun di => inc_requests di.2) <$> l), zsum ((fun di => inc_bandwidth di.2) <$> l), zsum ((fun di => inc_invocations di.2) <$> l)).

Definition inc_ok (s : StoreState) (di : Z * Increment) : Prop :=
  is_project s (inc_project di.2) = true /\ 0 <= inc_requests di.2 /\ 0 <= inc_bandwidth di.2 /\ 0 <= inc_invocations di.2.

Lemma zsum_perm l k : l ≡ₚ k -> zsum l = zsum k.
Proof. unfold zsum. induction 1; cbn; lia. Qed.
Lemma zsum_filter_le {A} (f : A -> Z) (P : A -> Prop) `{forall x, Decision (P x)} l :
  Forall (fun x => 0 <= f x) l -> 0 <= zsum (f <$> base.filter P l) <= zsum (f <$> l).
Proof. induction 1; [done|]. rewrite filter_cons. case_decide; cbn in *; lia. Qed.

Lemma total_snoc l di : total (l ++ [di])%list = add3 (total l) (counts di.2).
Proof. unfold total, add3, counts. rewrite !fmap_app, !zsum_app. cbn. by rewrite !Z.add_0_r. Qed.

Definition bounded (l : list (Z * Increment)) : Prop :=
  (total l).1.1 <= max_int64 /\ (total l).1.2 <= max_int64 /\ (total l).2 <= max_int64.

Lemma inc_ok_nonneg s l : Forall (inc_ok s) l ->
  Forall (fun di : Z * Increment => 0 <= inc_requests di.2) l /\ Forall (fun di : Z * Increment => 0 <= inc_bandwidth di.2) l /\
  Forall (fun di : Z * Increment => 0 <= inc_invocations di.2) l.
Proof. intros H. split_and!; (eapply Forall_impl; [done|]); unfold inc_ok; naive_solver. Qed.

Lemma of_key_fits s k l : Forall (inc_ok s) l -> bounded l -> fits3 (total (of_key k l)) = true.
Proof.
  intros (H1 & H2 & H3)%inc_ok_nonneg (B1 & B2 & B3). unfold fits3, of_key, total in *. cbn [fst snd] in *.
  pose proof (zsum_filter_le (fun di : Z * Increment => inc_requests di.2) (fun di => key_of di = k) l H1).
  pose proof (zsum_filter_le (fun di : Z * Increment => inc_bandwidth di.2) (fun di => key_of di = k) l H2).
  pose proof (zsum_filter_le (fun di : Z * Increment => inc_invocations di.2) (fun di => key_of di = k) l H3).
  rewrite !bool_decide_true; [done|unfold in_i64, min_int64; lia..].
Qed.

(** The increments of a list that fits stay within it, so does every initial part. *)
Lemma bounded_prefix s l di : Forall (inc_ok s) (l ++ [di]) -> bounded (l ++ [di]) -> bounded l.
Proof.
  intros [_ Hd]%Forall_app (B1 & B2 & B3). apply Forall_inv in Hd as (_ & ? & ? & ?).
  rewrite total_snoc in B1, B2, B3. unfold add3, counts, bounded in *. cbn [fst snd] in *. lia.
Qed.

Lemma of_key_snoc k l di : of_key k (l ++ [di]) = (of_key k l ++ if decide (key_of di = k) then [di] else [])%list.
Proof. unfold of_key. rewrite filter_app, filter_cons, filter_nil. by case_decide. Qed.

Lemma run_all_rows s l k :
  Forall (inc_ok s) l -> bounded l ->
  run_all s l ∅ !! k = if decide (of_key k l = []) then None else Some (total (of_key k l)).
Proof.
  revert k. induction l as [|di l IH] using rev_ind; intros k; [done|]. intros Hok Hb.
  pose proof (bounded_prefix _ _ _ Hok Hb) as Hb'. pose proof (of_key_fits s (key_of di) _ Hok Hb) as Hfit.
  pose proof Hok as [Hl Hd]%Forall_app. apply Forall_inv in Hd as (Hp & _).
  assert (Hrow : add3 (default (0, 0, 0) (run_all s l ∅ !! key_of di)) (counts di.2) = total (of_key (key_of di) (l ++ [di]))).
  { rewrite of_key_snoc, decide_True, total_snoc, IH by done. case_decide as E; [by rewrite E|done]. }
  unfold run_all. rewrite fold_left_app. cbn [fold_left]. fold (run_all s l ∅). unfold UpsertDailyAnalytics at 1. rewrite Hp. cbn [orb negb].
  change (inc_project di.2, di.1) with (key_of di). cbn zeta. rewrite Hrow, Hfit.
  destruct (decide (key_of di = k)) as [Heq|Hne].
  - subst k. rewrite lookup_insert_eq. rewrite decide_False; [done|]. rewrite of_key_snoc, decide_True by done. by destruct (of_key _ l).
  - rewrite lookup_insert_ne by done. rewrite IH by done. by rewrite of_key_snoc, (decide_False (P := key_of di = k)), app_nil_r by done.
Qed.

(** Counters written by concurrent goroutines lose nothing: in whatever order the
    statements run, a project and day has a row exactly when something was counted for
    it, and the row is the sum of all that was, as long as the sums fit in 64 bits. *)
Theorem daily_counters_add_up s l l' k :
  Forall (inc_ok s) l -> bounded l -> l' ≡ₚ l ->
  run_all s l' ∅ !! k = if decide (of_key k l = []) then None else Some (total (of_key k l)).
Proof.
  intros Hok Hb Hp.
  assert (Ht : forall x y, x ≡ₚ y -> total x = total y).
  { intros x y Hxy. unfold total. by rewrite (zsum_perm _ _ (fmap_Permutation (fun di => inc_requests di.2) _ _ Hxy)),
      (zsum_perm _ _ (fmap_Permutation (fun di => inc_bandwidth di.2) _ _ Hxy)), (zsum_perm _ _ (fmap_Permutation (fun di => inc_invocations di.2) _ _ Hxy)). }
  assert (Hk : of_key k l' ≡ₚ of_key k l) by (unfold of_key; by rewrite Hp).
  rewrite run_all_rows; [|by rewrite Hp|unfold bounded; by rewrite (Ht _ _ Hp)].
  rewrite (Ht _ _ Hk). case_decide as E; case_decide as E'; [done| | |done].
  - rewrite E in Hk. by apply Permutation_nil_l in Hk.
  - rewrite E' in Hk. by apply Permutation_nil_r in Hk.
Qed.

Definition ex_store : StoreState := PutProject (Proj_set_Name "app" (Proj_set_ID "p1" Proj_zero)) empty_store.
Definition ex_incs : list (Z * Increment) := [(1, mkInc "p1" 1 100 0); (1, mkInc "p1" 2 50 1); (2, mkInc "p1" 4 0 0)].

Lemma daily_counters_add_up_witness : run_all ex_store (rev ex_incs) ∅ !! ("p1", 1) = Some (3, 150, 1).
Proof.
  rewrite (daily_counters_add_up ex_store ex_incs (rev ex_incs) ("p1", 1)); [by vm_compute| | |].
  - unfold ex_incs. repeat constructor; done.
  - unfold bounded. by vm_compute.
  - symmetry. apply Permutation_rev.
Defined.
End Daily.

Module Gitops.
Section Git.
Context {R : Type} (w : Wiring).
Implicit Types a : API R.

(** [handleGitImport]: the build that is stored and started, if any. *)
Definition handleGitImport (projectID : string) (now : Z) (req : result string (string * string)) a : API R * option Build * Resp :=
  match req with
  | Err e => (a, None, writeError 400 ("bad request: " ++ e))
  | Ok (gitURL, branch) =>
      if gitURL ==? "" then (a, None, writeError 400 "git_url is required")
      else match safeGitURL gitURL with
           | None => (a, None, writeError 400 "git_url must be an https:// or git@ repository")
           | Some u =>
               let branch := if branch ==? "" then "main" else branch in
               let '(a, id) := fresh_id w a in
               let b := mkBuild id projectID u branch "building" "" "" now in
               (on_store (PutBuild b) a, Some b,
                writeJSON 202 (JObj [("id", JStr id); ("git_url", JStr u); ("branch", JStr branch); ("build_status", JStr "building")]))
           end
  end.

(** [handleDeployGit]; an error of [CreateDeployment] is dropped. *)
Definition handleDeployGit (projectID : string) (now : Z) (req : result string (string * string)) a (d : Durable)
    : API R * Durable * option Build * Resp :=
  match req with
  | Err e => (a, d, None, writeError 400 ("bad request: " ++ e))
  | Ok (repository, branch) =>
      if repository ==? "" then (a, d, None, writeError 400 "repository is required")
      else match safeGitURL repository with
           | None => (a, d, None, writeError 400 "repository must be an https:// or git@ URL")
           | Some u =>
               let '(a, p) := get_project projectID a in
               match p with
               | None => (a, d, None, writeError 404 "project not found")
               | Some proj =>
                   let '(a, id) := fresh_id w a in
                   let b := mkBuild id (Proj_ID proj) u branch "building" "" "" now in
                   let a := on_store (PutBuild b) a in
                   let d := Durable.AppendBuildLogFor (store a) (Proj_ID proj) id "git deploy queued (source detection + direct artifact validation)" d in
                   let '(a, did) := fresh_id w a in
                   let dep := first_deployment now did (Proj_ID proj) "building" "" "" in
                   (on_store (fun s => (CreateDeployment dep s).1) a, d, Some b, writeJSON 202 (JDep (normalise_weight dep)))
               end
           end
  end.

(** A deployment from a repository is answered with 202 and a deployment that is never
    stored: its row has no version label, guest base and environment. *)
Lemma git_deploy_unrecorded projectID now req a d a' d' b r :
  handleDeployGit projectID now req a d = (a', d', b, r) ->
  deployments (store a') = deployments (store a) /\
  (r_status r = 202 -> exists dep, r_body r = JDep dep /\ Dep_VersionLabel dep = "").
Proof.
  assert (HG : forall s, deployments (GetProject projectID s).1 = deployments s) by (intros s; unfold GetProject; by repeat case_match).
  unfold handleDeployGit, get_project. destruct req as [[repo branch]|e]; [|by intros [= <- _ _ <-]].
  destruct (repo ==? ""); [by intros [= <- _ _ <-]|]. destruct (safeGitURL repo) as [u|]; [|by intros [= <- _ _ <-]].
  specialize (HG (store a)). destruct (GetProject projectID (store a)) as [s [proj|]]; [|by intros [= <- _ _ <-]].
  cbn [fst] in HG. intros [= <- _ _ <-]. cbn -[first_deployment CreateDeployment]. split; [|intros _; by eexists].
  rewrite first_deployment_refused, <- HG. unfold PutBuild. by case_match.
Qed.
End Git.
End Gitops.

Module Loops.

(** ** Ticker loops *)

(** What the [select] of a loop receives: a tick at a time, a closed stop channel, the
    end of its context. *)
Inductive LoopEvent := Tick (now : Z) | Stopped | Cancelled.

Definition on_stop (e : LoopEvent) : bool := match e with Stopped => true | _ => false end.
Definition on_cancel (e : LoopEvent) : bool := match e with Cancelled => true | _ => false end.
Definition on_either (e : LoopEvent) : bool := on_stop e || on_cancel e.

Fixpoint ticker_loop {S} (returns : LoopEvent -> bool) (pass : Z -> S -> S) (evs : list LoopEvent) (s : S) : S :=
  match evs with
  | [] => s
  | Tick now :: evs => ticker_loop returns pass evs (pass now s)
  | e :: evs => if returns e then s else ticker_loop returns pass evs s
  end.

(** [Manager.runController]: one pass at once, then one a tick. *)
Definition runController {S} (reconcile : Z -> S -> S) (start : Z) (evs : list LoopEvent) (s : S) : S :=
  ticker_loop on_either reconcile evs (reconcile start s).

(** [Runner.loop] of cron and [Scaler.loop]. *)
Definition cron_loop (local : Z -> Civil) (has_booter : bool) (start : Z) (evs : list LoopEvent) (st : CronState) : CronState :=
  ticker_loop on_stop (fireDue local has_booter) evs (fireDue local has_booter start st).
Definition scaler_loop (metrics : string -> list MetricSample) (new_vm : Project -> Z -> option string) (start : Z) (evs : list LoopEvent)
    (st : ScalerState) : ScalerState :=
  ticker_loop on_stop (scaler_reconcile metrics new_vm) evs (scaler_reconcile metrics new_vm start st).

(** [Checker.Watch]: what is probed answers by the time; the hook's calls are counted. *)
Definition watch_interval (sec : Z) : Z := if sec <=? 0 then 10 else sec.
Definition Watch (http_get : Z -> string -> option Z) (tcp_dial : Z -> string -> bool) (vmID : string) (spec : HealthSpec)
    (start : Z) (evs : list LoopEvent) (s : StoreState) : StoreState * Z :=
  let pass now (st : StoreState * Z) :=
    let '(s, replace) := probeOnce (http_get now) (tcp_dial now) vmID spec st.1 in (s, if (replace : bool) then st.2 + 1 else st.2) in
  ticker_loop on_cancel pass evs (pass start (s, 0)).

(** [Collector.Start] of the log collector: no pass before the first tick. *)
Definition poll_interval (ns : Z) : Z := if ns <=? 0 then 60 * 1000000000 else ns.
Definition Collector_Start {S} (poll : Z -> S -> S) (evs : list LoopEvent) (s : S) : S := ticker_loop on_cancel poll evs s.

(** [Collector.loop] of the samplers: the last reading of [/proc/stat] and the rows;
    None is the panic of [cpuTicks]. *)
Definition metrics_loop (stat : Z -> option string) (vms : Z -> list VM) (ids : Z -> nat -> string) (start : Z) (evs : list LoopEvent)
    (rows : list MetricSample) : option (Z * list MetricSample) :=
  ticker_loop on_stop
    (fun now st =>
       match st, cpuTicks (stat now) with
       | Some (prev, rows), Some cur => Some (cur, sampleCPU (cpuPercent prev cur) (ids now) now (vms now) rows)
       | _, _ => None
       end)
    evs ((fun prev => (prev, sample (ids start) start (vms start) rows)) <$> cpuTicks (stat start)).

(** The ticks before the loop returns. *)
Fixpoint live (returns : LoopEvent -> bool) (evs : list LoopEvent) : list Z :=
  match evs with
  | [] => []
  | Tick now :: evs => now :: live returns evs
  | e :: evs => if returns e then [] else live returns evs
  end.

Lemma ticker_loop_live {S} returns (pass : Z -> S -> S) evs s :
  ticker_loop returns pass evs s = fold_left (fun s now => pass now s) (live returns evs) s.
Proof. revert s. induction evs as [|[t| |] evs IH]; intros s; cbn; [done|apply IH|..]; by case_match. Qed.

(** Nothing happens after the loop has returned. *)
Lemma loop_over {S} returns (pass : Z -> S -> S) evs e evs' s :
  returns e = true -> (forall t, e <> Tick t) -> ticker_loop returns pass (evs ++ e :: evs') s = ticker_loop returns pass evs s.
Proof.
  intros Hr Ht. revert s. induction evs as [|[t| |] evs IH]; intros s; cbn; [|apply IH|case_match; [done|apply IH]..].
  destruct e; [by destruct (Ht now)|by rewrite Hr..].
Qed.

(** The samplers take memory once, at the start: ticks only take the processor. *)
Lemma memory_sampled_once stat vms ids start evs rows prev rows' :
  metrics_loop stat vms ids start evs rows = Some (prev, rows') ->
  base.filter (fun r => Met_Metric r = "memory_mib") rows' =
  base.filter (fun r => Met_Metric r = "memory_mib") (sample (ids start) start (vms start) rows).
Proof.
  unfold metrics_loop. rewrite ticker_loop_live. destruct (cpuTicks (stat start)) as [p0|]; cbn [fmap option_fmap option_map].
  2: { induction (live on_stop evs) as [|t ts IH]; [done|]. exact IH. }
  generalize (sample (ids start) start (vms start) rows) as r0. revert p0.
  induction (live on_stop evs) as [|t ts IH]; intros p0 r0; cbn [fold_left]; [by intros [= _ <-]|].
  destruct (cpuTicks (stat t)) as [cur|].
  - intros ->%IH. unfold sampleCPU, sample_running. rewrite filter_app.
    rewrite (elem_of_nil_inv (base.filter _ (imap _ _))), app_nil_r; [done|].
    intros r (Hm & Hin)%list_elem_of_filter. apply elem_of_lookup_imap in Hin as (i & vm & -> & _). done.
  - clear IH. induction ts as [|t' ts IH]; [done|]. exact IH.
Qed.

(** ** Schedules over a run of the loop *)

Section CronLoop.
Context (local : Z -> Civil) (has_booter : bool).

(** A row after a pass. *)
Definition row_step (now : Z) (c : Cron) : Cron := if due local now c then Cron_set_LastRun (Some now) c else c.

Lemma touch_rows now ds l :
  foldl (fun cs d => TouchCron (Cron_ID d) now cs) l ds =
  (fun c => if decide (Cron_ID c ∈ Cron_ID <$> ds) then Cron_set_LastRun (Some now) c else c) <$> l.
Proof.
  revert l. induction ds as [|d ds IH]; intros l; cbn [foldl].
  - rewrite <- list_fmap_id at 1. apply list_fmap_ext. intros i c _. by rewrite decide_False by apply not_elem_of_nil.
  - rewrite IH. unfold TouchCron. rewrite <- list_fmap_compose. apply list_fmap_ext. intros i c _. cbn.
    destruct (decide (Cron_ID c = Cron_ID d)) as [He|He].
    + rewrite bool_decide_true, (decide_True (P := Cron_ID c ∈ _ :: _)) by (done || (rewrite He; by left)). by case_decide.
    + rewrite bool_decide_false by done. case_decide as H1; case_decide as H2; try done; set_solver.
Qed.

(** With unique identifiers a pass changes each row for itself. *)
Lemma fireDue_rows now st : NoDup (Cron_ID <$> crons st) -> crons (fireDue local has_booter now st) = row_step now <$> crons st.
Proof.
  intros Hnd. unfold fireDue. destruct (fire_pass local has_booter now (crons st) st) as (_ & _ & ->). rewrite touch_rows.
  apply list_fmap_ext. intros i c Hi. unfold row_step. apply list_elem_of_lookup_2 in Hi.
  destruct (due local now c) eqn:E.
  - rewrite decide_True; [done|]. apply list_elem_of_fmap_2, list_elem_of_filter. done.
  - rewrite decide_False; [done|]. intros (d & Hd & (Hdue & Hin)%list_elem_of_filter)%list_elem_of_fmap.
    assert (c = d) by (by apply (NoDup_fmap_inj_on Cron_ID (crons st))). congruence.
Qed.

(** The jobs started over some passes, with their times. *)
Fixpoint cron_trace (ts : list Z) (st : CronState) : list (Z * Cron) :=
  match ts with
  | [] => []
  | t :: ts => ((fun c => (t, c)) <$> base.filter (fun c => due local t c = true) (crons st))
               ++ cron_trace ts (fireDue local has_booter t st)
  end%list.

(** The runs of one schedule. *)
Fixpoint row_runs (ts : list Z) (c : Cron) : list Z :=
  match ts with
  | [] => []
  | t :: ts => (if due local t c then [t] else []) ++ row_runs ts (row_step t c)
  end%list.

Fixpoint no_repeat (prev : option Z) (runs : list Z) : Prop :=
  match runs with
  | [] => True
  | t :: runs => (forall p, prev = Some p -> same_minute (local p) (local t) = false) /\ no_repeat (Some t) runs
  end.

Lemma fireDue_ids now st : NoDup (Cron_ID <$> crons st) -> Cron_ID <$> crons (fireDue local has_booter now st) = Cron_ID <$> crons st.
Proof.
  intros Hnd. rewrite fireDue_rows by done. rewrite <- list_fmap_compose. apply list_fmap_ext. intros i c _. cbn. unfold row_step. by case_match.
Qed.

(** What is started for a row of the table are its own runs. *)
Lemma trace_runs ts st n c :
  NoDup (Cron_ID <$> crons st) -> crons st !! n = Some c ->
  (base.filter (fun tc => Cron_ID tc.2 = Cron_ID c) (cron_trace ts st)).*1 = row_runs ts c.
Proof.
  revert st c. induction ts as [|t ts IH]; intros st c Hnd Hn; [done|]. cbn [cron_trace row_runs].
  rewrite filter_app, fmap_app. f_equal.
  - assert (Hin : c ∈ crons st) by by eapply list_elem_of_lookup_2.
    assert (Hu : base.filter (fun d => Cron_ID d = Cron_ID c) (base.filter (fun d => due local t d = true) (crons st))
      = if due local t c then [c] else []).
    { clear IH Hn. revert Hin Hnd. induction (crons st) as [|d l IHl]; intros Hin Hnd; [by apply elem_of_nil in Hin|].
      rewrite fmap_cons in Hnd. apply NoDup_cons in Hnd as [Hd Hnd]. rewrite (filter_cons (fun d => due local t d = true)). apply elem_of_cons in Hin as [<-|Hin].
      - assert (Hrest : base.filter (fun d => Cron_ID d = Cron_ID c) (base.filter (fun d => due local t d = true) l) = []).
        { apply elem_of_nil_inv. intros x (Hx & (_ & Hxl)%list_elem_of_filter)%list_elem_of_filter. apply Hd. rewrite <- Hx. by apply list_elem_of_fmap_2. }
        destruct (due local t c) eqn:E; case_decide; try done. by rewrite filter_cons_True, Hrest.
      - assert (Hne : Cron_ID d <> Cron_ID c) by (intros He; apply Hd; rewrite He; by apply list_elem_of_fmap_2).
        case_decide; [rewrite filter_cons_False by done|]; by apply IHl. }
    clear IH. revert Hu. generalize (base.filter (fun d => due local t d = true) (crons st)) as l. intros l Hu.
    transitivity ((fun _ : Cron => t) <$> base.filter (fun d => Cron_ID d = Cron_ID c) l); [|rewrite Hu; by case_match].
    clear Hu. induction l as [|d l IHl]; [done|]. cbn [fmap list_fmap]. rewrite !filter_cons. cbn [snd]. case_decide; cbn; by rewrite IHl.
  - assert (Cron_ID c = Cron_ID (row_step t c)) as -> by (unfold row_step; by case_match).
    apply IH; [by rewrite fireDue_ids|]. by rewrite fireDue_rows, list_lookup_fmap, Hn by done.
Qed.

Lemma cron_trace_booted ts st :
  has_booter = true ->
  booted (fold_left (fun st t => fireDue local has_booter t st) ts st) =
  (booted st ++ ((fun tc => job_vm tc.2 tc.1) <$> cron_trace ts st))%list.
Proof.
  intros Hb. revert st. induction ts as [|t ts IH]; intros st; cbn [fold_left cron_trace]; [by rewrite app_nil_r|].
  rewrite IH, fmap_app. unfold fireDue at 1. destruct (fire_pass local has_booter t (crons st) st) as (-> & _ & _). rewrite Hb, <- app_assoc.
  f_equal. f_equal. by rewrite <- list_fmap_compose.
Qed.

Lemma row_runs_no_repeat ts c : no_repeat (Cron_LastRun c) (row_runs ts c).
Proof.
  revert c. induction ts as [|t ts IH]; intros c; [done|]. cbn [row_runs]. specialize (IH (row_step t c)). unfold row_step in *.
  destruct (due local t c) eqn:E; [|done]. split; [|done]. intros p Hp. unfold due in E. rewrite Hp in E. repeat case_match; try done. by apply negb_true_iff in E.
Qed.

Lemma row_runs_covers ts c t :
  Cron_Active c = true -> Cron_Schedule c <> "" -> t ∈ ts -> Matches (Cron_Schedule c) (local t) = true ->
  exists t', (Cron_LastRun c = Some t' \/ t' ∈ row_runs ts c) /\ same_minute (local t') (local t) = true.
Proof.
  intros Ha Hs. revert c Ha Hs. induction ts as [|t0 ts IH]; intros c Ha Hs Hin Hm; [by apply elem_of_nil in Hin|].
  assert (Hrow : Cron_Active (row_step t0 c) = true /\ Cron_Schedule (row_step t0 c) = Cron_Schedule c).
  { unfold row_step. by case_match. }
  cbn [row_runs]. apply elem_of_cons in Hin as [<-|Hin].
  - unfold row_step. destruct (due local t c) eqn:E.
    + exists t. split; [right; by left|]. unfold same_minute. by rewrite !Z.eqb_refl.
    + unfold due in E. rewrite Ha, (bool_decide_false (Cron_Schedule c = "")), Hm in E by done. cbn in E.
      destruct (Cron_LastRun c) as [p|]; [|done]. apply negb_false_iff in E. exists p. auto.
  - destruct Hrow as [Ha' Hs']. rewrite <- Hs' in Hs, Hm. destruct (IH _ Ha' Hs Hin Hm) as (t' & [Hl|Hr] & Ht').
    + unfold row_step in *. destruct (due local t0 c); [|eauto]. cbn in Hl. injection Hl as <-. exists t0. split; [right; by left|done].
    + exists t'. split; [right; apply elem_of_app; by right|done].
Qed.

End CronLoop.

(** A clock of minutes of one day. *)
Definition ex_clock (t : Z) : Civil := mkCivil 2024 1 8 (t / 3600 mod 24) (t / 60 mod 60) 1.
Definition ex_job : Cron := mkCron "c1" "p1" "nightly" "30 9 * * *" "job:1" true None 0.
Definition ex_cron : CronState := mkCronState [ex_job] [] empty_store [].

End Loops.
