(* ===== verification/EndToEnd.v ===== *)
(** * From a request to served traffic

    The path of a project through the components: the handler that creates it
    ([api/api.go]), one cycle of the replica controller over the store
    ([controller/controller.go], [controller/replica_controller.go]) and the gateway
    that routes to what runs ([gateway/gateway.go]). Each side is used through what its
    own file proves; the runtime is any one that allocates and boots. *)
From S2P Require Import Prelude GoStrings GoNum GoNet Types Gateway NetMgr Store Health Controllers Rbac Api Pool Access Projects.
From Stdlib Require Import String Ascii.

Open Scope string_scope.
Open Scope Z_scope.

(** ** A cycle of the replica controller *)

Section Cycle.
Context {R : Type} `{Runtime R}.
Context (http_get : string -> option Z) (tcp_dial : string -> bool).

(** [ReplicaController.List]: every replica the store knows. *)
Definition Replica_List (rs : R * StoreState) : list VM := Store_ListVMs rs.2.

Definition reconcile_one (vm : VM) (rs : R * StoreState) : (R * StoreState) * result unit unit :=
  (Replica_Reconcile http_get tcp_dial vm rs.1 rs.2, Ok tt).

Definition replica_cycle (rs : R * StoreState) : R * StoreState := reconcileAll Replica_List reconcile_one rs.

(** What the runtime promises when the host has room: every replica gets an address and
    every boot succeeds. *)
Class Boots : Prop := {
  boots_net : forall r vm, exists r' spec, rt_NetSpec r vm = (r', Ok spec) /\ CIDR spec <> "";
  boots_boot : forall r vm spec, exists r', rt_Boot r vm spec = (r', Ok tt) }.

Context `{Boots}.

Lemma pending_boots vm r s :
  replicas_inv s -> Store_GetVM s (VM_ID vm) = Some vm -> VM_State vm = StatePending ->
  exists spec, CIDR spec <> "" /\ replica_updated vm s (booted_vm spec vm) (Replica_Reconcile http_get tcp_dial vm r s).2.
Proof.
  intros Hinv Hget Hst. unfold Replica_Reconcile. rewrite Hst. eval_strings. cbn [orb].
  destruct (boots_net r vm) as (r1 & spec & Hnet & Hne). destruct (boots_boot r1 (booting_vm vm) spec) as (r2 & Hboot).
  exists spec. split; [done|]. by destruct (reconcilePending_boots vm r s r1 spec r2 Hinv Hget Hnet Hboot) as (_ & Hu & _).
Qed.

(** The cycle, object by object, over the list read at its start. *)
Lemma cycle_over l r s :
  replicas_inv s -> NoDup (VM_ID <$> l) -> (forall vm, vm ∈ l -> Store_GetVM s (VM_ID vm) = Some vm) ->
  let rs := fold_left (fun rs vm => (reconcile_one vm rs).1) l (r, s) in
  replicas_inv rs.2 /\
  (forall id, id ∉ VM_ID <$> l -> Store_GetVM rs.2 id = Store_GetVM s id) /\
  (forall vm, vm ∈ l -> exists vm', Store_GetVM rs.2 (VM_ID vm) = Some vm' /\ lifecycle (VM_State vm) (VM_State vm') = true /\
     (VM_State vm = StatePending -> exists spec, CIDR spec <> "" /\ vm' = booted_vm spec vm)).
Proof.
  revert r s. induction l as [|vm l IH]; intros r s Hinv Hnd Hl; cbn [fold_left].
  - split_and!; [done|done|]. by intros vm ?%elem_of_nil.
  - rewrite fmap_cons in Hnd. apply NoDup_cons in Hnd as [Hvm Hnd].
    assert (Hget : Store_GetVM s (VM_ID vm) = Some vm) by (apply Hl; by left).
    set (s1 := (Replica_Reconcile http_get tcp_dial vm r s).2).
    assert (Hone : exists vm', replica_updated vm s vm' s1 /\ lifecycle (VM_State vm) (VM_State vm') = true /\
      (VM_State vm = StatePending -> exists spec, CIDR spec <> "" /\ vm' = booted_vm spec vm)).
    { destruct (decide (VM_State vm = StatePending)) as [Hst|Hst].
      - destruct (pending_boots vm r s Hinv Hget Hst) as (spec & Hne & Hu). exists (booted_vm spec vm). split_and!; [done| |by exists spec].
        rewrite Hst. by vm_compute.
      - destruct (Replica_Reconcile_ends http_get tcp_dial vm r s Hinv Hget) as (st & (vm' & Hu & <-) & Hlc). by exists vm'. }
    destruct Hone as (vm' & [Hinv1 Hget1 Hoth _] & Hlc & Hboot).
    assert (Hl1 : forall v, v ∈ l -> Store_GetVM s1 (VM_ID v) = Some v).
    { intros v Hv. rewrite Hoth; [apply Hl; by right|]. intros E. apply Hvm. rewrite <- E. by apply list_elem_of_fmap_2. }
    destruct (IH (Replica_Reconcile http_get tcp_dial vm r s).1 s1 Hinv1 Hnd Hl1) as (I1 & I2 & I3).
    change ((reconcile_one vm (r, s)).1) with (Replica_Reconcile http_get tcp_dial vm r s).
    rewrite (surjective_pairing (Replica_Reconcile http_get tcp_dial vm r s)). fold s1. split_and!; [done| |].
    + intros id. rewrite fmap_cons, not_elem_of_cons. intros [Hne Hni]. rewrite I2 by done. by apply Hoth.
    + intros v [->|Hv]%elem_of_cons; [|by apply I3]. exists vm'. rewrite I2 by done. done.
Qed.

(** One cycle: the invariant is kept, no replica appears or goes, each moves along the
    lifecycle and every pending one is running at an allocated address. *)
Lemma replica_cycle_spec r s :
  replicas_inv s ->
  let s' := (replica_cycle (r, s)).2 in
  replicas_inv s' /\
  (forall id, id ∉ VM_ID <$> replicas s -> Store_GetVM s' id = None) /\
  (forall vm, vm ∈ replicas s -> exists vm', Store_GetVM s' (VM_ID vm) = Some vm' /\ lifecycle (VM_State vm) (VM_State vm') = true /\
     (VM_State vm = StatePending -> exists spec, CIDR spec <> "" /\ vm' = booted_vm spec vm)).
Proof.
  intros Hinv. destruct (cycle_over (replicas s) r s Hinv (ri_ids _ Hinv)) as (I1 & I2 & I3).
  - intros vm Hvm. unfold Store_GetVM, row. by apply find_first_unique; [apply Hinv|].
  - split_and!; [done| |done]. intros id Hid. etransitivity; [exact (I2 id Hid)|]. unfold Store_GetVM, row.
    apply find_first_None, Forall_forall. intros x Hx. apply bool_decide_eq_false. intros E. apply Hid. rewrite <- E. by apply list_elem_of_fmap_2.
Qed.
End Cycle.

(** ** What the gateway chooses from *)

(** Every backend is a stored replica. *)
Lemma backends_stored dns (s : StoreState) host vm : vm ∈ backendsFor dns s host -> vm ∈ replicas s.
Proof.
  unfold backendsFor. destruct (domain_match s host) as [v|] eqn:Ed.
  - apply find_first_In in Ed as [Hv _]. unfold weightedDeploymentBackends. cbn [ListDeployments StoreState_gateway].
    assert (Hds : forall x, x ∈ mjoin (deployment_backends s <$> Store_ListDeployments s (VM_ProjectID v)) -> x ∈ replicas s).
    { intros x (l & Hx & (d & -> & _)%list_elem_of_fmap)%list_elem_of_join. unfold deployment_backends in Hx. case_match; [by apply elem_of_nil in Hx|].
      apply list_elem_of_join in Hx as (l & Hx & (id & -> & _)%list_elem_of_fmap). destruct (GetVM s id) as [y|] eqn:Ey; [|by apply elem_of_nil in Hx].
      case_match; [|by apply elem_of_nil in Hx]. apply elem_of_replicate in Hx as [-> _]. by apply GetVM_In in Ey as [? _]. }
    revert Hds. destruct (mjoin _) as [|y l]; intros Hds; [by intros ->%list_elem_of_singleton|]. apply Hds.
  - destruct (dns_match dns s host) as [v|] eqn:En.
    + intros ->%list_elem_of_singleton. unfold dns_match in En. repeat case_in En; try done. by apply find_first_In in En as [? _].
    + by intros [_ ?]%list_elem_of_filter.
Qed.

(** With one healthy replica there is a backend for every host. *)
Lemma backends_nonempty dns (s : StoreState) host vm :
  vm ∈ replicas s -> isHealthy vm = true -> backendsFor dns s host <> [].
Proof.
  intros Hin Hh. unfold backendsFor. destruct (domain_match s host).
  - unfold weightedDeploymentBackends. cbn [ListDeployments StoreState_gateway]. by destruct (mjoin _).
  - destruct (dns_match dns s host); [done|]. intros E. eapply filter_nil_not_elem_of; [exact E|exact Hh|exact Hin].
Qed.

(** A request is proxied when every backend has an address and the firewall lets it through. *)
Lemma serve_from_pool dns proxy g (s : StoreState) now r :
  0 <= gw_rr g < max_int64 -> backendsFor dns s (split_host (Req_Host r)) <> [] ->
  (forall vm, vm ∈ backendsFor dns s (split_host (Req_Host r)) ->
     VM_IPAddress vm <> "" /\ blockedByFirewall s (VM_ProjectID vm) (Req_RemoteAddr r) = None) ->
  exists g' s' vm target cookie, ServeHTTP dns proxy g s now r = (g', s', Proxied vm target cookie (proxy target r)) /\
    vm ∈ replicas s /\ targetAddress vm = Some target.
Proof.
  intros Hrr Hne Hok. unfold ServeHTTP. set (pool := backendsFor dns s (split_host (Req_Host r))) in *.
  destruct (Z.eqb_spec (zlen pool) 0) as [Hz|_]; [destruct pool; [done|unfold zlen in Hz; cbn in Hz; lia]|].
  destruct (choose_in_pool g r pool Hne Hrr) as (g' & vm & cookie & -> & Hin & _).
  destruct (Hok vm Hin) as [Hip Hfw]. rewrite Hfw.
  assert (Ht : exists t, targetAddress vm = Some t) by (unfold targetAddress; rewrite bool_decide_false by done; by eexists).
  destruct Ht as (t & Ht). rewrite Ht. do 5 eexists. split; [reflexivity|]. split; [by eapply backends_stored|done].
Qed.

(** ** The whole path *)

Lemma pool_rows_elem w proj ports k from vms vm :
  pool_rows w proj ports k from vms -> vm ∈ vms -> VM_ProjectID vm = Proj_ID proj /\ VM_State vm = StatePending /\ VM_Ports vm = ports.
Proof.
  induction 1 as [|k from v vms [] Hp _ IH]; [by intros ?%elem_of_nil|]. intros [->|Hin]%elem_of_cons; [done|by apply IH].
Qed.

Lemma GetVM_elem s vm : replicas_inv s -> vm ∈ replicas s -> Store_GetVM s (VM_ID vm) = Some vm.
Proof. intros Hinv Hvm. unfold Store_GetVM, row. by apply find_first_unique; [apply Hinv|]. Qed.

Section Serve.
Context {R : Type} `{VMRunner R} (w : Wiring) (collate : forall A, (A -> string) -> list A -> list A).
Context (runGitBuildCtx : Build -> API R -> API R * Build).
Context {RT : Type} `{Runtime RT} `{!Boots (R := RT)} (http_get : string -> option Z) (tcp_dial : string -> bool).
Context (dns : option (string -> option (list IP))) (proxy : string -> Request -> ProxyResult).
Hypothesis NewID_inj : forall i j, NewID w i = NewID w j -> i = j.

End Serve.

(** ** Witness *)

#[export] Instance SimRuntime_boots : Boots (R := nat).
Proof.
  split.
  - intros r vm. exists r, boot_example. split; [reflexivity|done].
  - intros r vm spec. by exists (S r).
Qed.

Definition shop_visit : Request := mkRequest "shop.example.com" "GET" "/" "192.0.2.7:1000" None.

