(* ===== verification/Listings.v ===== *)
(** * Stacks, disk usage and listings

    What is left of the store and the handlers around it: the table of compose stacks
    ([store/store.go]), the disk usage of a volume ([volumes/volumes.go] with the walk of
    [path/filepath]), the listings of users, roles and grants, the scope chain of a project
    ([store/tenancy.go]) and the audit and event views of an organisation ([api/api.go]).
    Collation, identifiers a UUID column reads and the files below a directory are
    arguments. *)
From S2P Require Import Prelude GoStrings GoNum Types Store Rbac GoCrypto Auth Routes Api Pool Deploys Access GoPath Settings Images Builds Addons Telemetry Durable Projects Hosts Views.
From Stdlib Require Import String Ascii.

Open Scope string_scope.
Open Scope Z_scope.

(** ** Compose stacks *)

Module Stacks.
Section Stacks.
(** [uuid] accepts the texts a UUID column reads, [orgs] are the stored organisations,
    [coalesce_ok] is whether the database takes [COALESCE(org_id,'')] of a UUID column. *)
Context (uuid : string -> bool) (orgs : list string) (coalesce_ok : bool).

(** The row a stack is stored as: the creation time is the database's. *)
Definition row (st : Stack) : Stack := mkStack (Stk_ID st) (Stk_Name st) (Stk_OrgID st) (Stk_Source st) (Stk_ComposeYAML st) 0.

(** The constraints: keys are UUIDs, an organisation exists, no other stack has the name. *)
Definition put_ok (st : Stack) (l : list Stack) : bool :=
  uuid (Stk_ID st) && ((Stk_OrgID st ==? "") || bool_decide (Stk_OrgID st ∈ orgs)) &&
  forallb (fun x => (Stk_Name x !=? Stk_Name st) || (Stk_ID x ==? Stk_ID st)) l.

Definition PutStack (st : Stack) (l : list Stack) : list Stack :=
  if put_ok st l then
    if existsb (fun x => Stk_ID x ==? Stk_ID st) l then (fun x => if Stk_ID x ==? Stk_ID st then row st else x) <$> l
    else (l ++ [row st])%list
  else l.

Definition ListStacks (l : list Stack) : list Stack := if coalesce_ok then l else [].

Definition GetStack (id : string) (l : list Stack) : option Stack :=
  if coalesce_ok then find_first (fun x => Stk_ID x ==? id) l else None.

Definition DeleteStack (id : string) (l : list Stack) : list Stack * bool :=
  if uuid id then (base.filter (fun x => Stk_ID x <> id) l, existsb (fun x => Stk_ID x ==? id) l) else (l, false).

Inductive op := Put (st : Stack) | Delete (id : string).

Definition run (l : list Stack) (o : op) : list Stack :=
  match o with Put st => PutStack st l | Delete id => (DeleteStack id l).1 end.

(** Identifiers and names are unique. *)
Record wf (l : list Stack) : Prop := {
  wf_ids : NoDup (Stk_ID <$> l);
  wf_names : NoDup (Stk_Name <$> l) }.

Lemma replaced_ids st (l : list Stack) : (Stk_ID <$> ((fun x => if Stk_ID x ==? Stk_ID st then row st else x) <$> l)) = Stk_ID <$> l.
Proof.
  rewrite <- list_fmap_compose. apply list_fmap_ext. intros _ x _. cbn. case_bool_decide as E; [by rewrite E|done].
Qed.

Lemma put_names st (l : list Stack) x :
  put_ok st l = true -> x ∈ l -> Stk_Name x = Stk_Name st -> Stk_ID x = Stk_ID st.
Proof.
  intros [_ Hn]%andb_true_iff Hx E. pose proof (forallb_elem _ _ Hn x Hx) as Hq. cbn in Hq.
  rewrite E, bool_decide_eq_true_2 in Hq by done. by apply bool_decide_eq_true in Hq.
Qed.

Lemma replaced_names st (l : list Stack) :
  put_ok st l = true -> NoDup (Stk_ID <$> l) -> NoDup (Stk_Name <$> l) ->
  NoDup (Stk_Name <$> ((fun x => if Stk_ID x ==? Stk_ID st then row st else x) <$> l)).
Proof.
  intros Hok Hi Hn. assert (Hp : forall x, x ∈ l -> Stk_Name x = Stk_Name st -> Stk_ID x = Stk_ID st) by (intros; by eapply put_names).
  clear Hok. induction l as [|y l IH]; [constructor|]. cbn in *. apply NoDup_cons in Hi as [Hy Hi]. apply NoDup_cons in Hn as [Hyn Hn].
  constructor; [|apply IH; [done..|intros x Hx; apply Hp; by right]].
  intros (z & Ez & (x & -> & Hx)%list_elem_of_fmap)%list_elem_of_fmap.
  case_bool_decide as Eyi; case_bool_decide as Exi; cbn in Ez.
  - apply Hy. rewrite Eyi, <- Exi. by apply list_elem_of_fmap_2.
  - apply Exi, Hp; [by right|done].
  - apply Eyi, Hp; [by left|done].
  - apply Hyn. rewrite Ez. by apply list_elem_of_fmap_2.
Qed.

Lemma run_wf l o : wf l -> wf (run l o).
Proof.
  intros [Hi Hn]. destruct o as [st|id]; cbn [run].
  - unfold PutStack. destruct (put_ok st l) eqn:Hok; [|done]. destruct (existsb _ l) eqn:He.
    + split; [by rewrite replaced_ids|by apply replaced_names].
    + assert (Hno : Stk_ID st ∉ Stk_ID <$> l).
      { intros (x & E & Hx)%list_elem_of_fmap. apply not_true_iff_false in He. apply He, existsb_exists. exists x.
        split; [by apply list_elem_of_In|]. by apply bool_decide_eq_true. }
      split; rewrite fmap_app; apply NoDup_app; split_and!; try done; try apply NoDup_singleton.
      * by intros x Hx ->%list_elem_of_singleton.
      * intros x (y & -> & Hy)%list_elem_of_fmap E%list_elem_of_singleton. apply Hno. rewrite <- (put_names st l y Hok Hy E).
        by apply list_elem_of_fmap_2.
  - unfold DeleteStack. destruct (uuid id); [|done]. cbn.
    split; by apply NoDup_fmap_filter.
Qed.

Lemma find_replaced st (l : list Stack) :
  existsb (fun x => Stk_ID x ==? Stk_ID st) l = true ->
  find_first (fun x => Stk_ID x ==? Stk_ID st) ((fun x => if Stk_ID x ==? Stk_ID st then row st else x) <$> l) = Some (row st).
Proof.
  induction l as [|y l IH]; [done|]. cbn. destruct (decide (Stk_ID y = Stk_ID st)) as [E|E].
  - rewrite (bool_decide_eq_true_2 (Stk_ID y = _)) by done. cbn. by rewrite bool_decide_eq_true_2.
  - rewrite (bool_decide_eq_false_2 (Stk_ID y = _)) by done. cbn. rewrite (bool_decide_eq_false_2 (Stk_ID y = _)) by done. apply IH.
Qed.

Lemma find_other st id (l : list Stack) :
  id <> Stk_ID st ->
  find_first (fun x => Stk_ID x ==? id) ((fun x => if Stk_ID x ==? Stk_ID st then row st else x) <$> l) = find_first (fun x => Stk_ID x ==? id) l.
Proof.
  intros Hne. induction l as [|y l IH]; [done|]. cbn. destruct (decide (Stk_ID y = Stk_ID st)) as [E|E].
  - rewrite (bool_decide_eq_true_2 (Stk_ID y = _)) by done. cbn. rewrite E. by rewrite (bool_decide_eq_false_2 (Stk_ID st = id)) by congruence.
  - rewrite (bool_decide_eq_false_2 (Stk_ID y = Stk_ID st)) by done. by rewrite IH.
Qed.

(** Over any history stacks have unique identifiers and names; an accepted stack is read
    back as it was put, and a refused one (a taken name, an unknown organisation) leaves
    the table alone. *)
Lemma stacks_consistent ops st :
  let l := fold_left run ops [] in
  wf l /\
  (if put_ok st l then forall id, coalesce_ok = true -> GetStack id (PutStack st l) = if id ==? Stk_ID st then Some (row st) else GetStack id l
   else PutStack st l = l).
Proof.
  cbv zeta. assert (Hwf : wf (fold_left run ops [])).
  { assert (H : forall l, wf l -> wf (fold_left run ops l)); [|apply H; split; constructor].
    induction ops as [|o ops IH]; [done|]. intros l Hl. cbn. by apply IH, run_wf. }
  split; [done|]. set (l := fold_left run ops []) in *. unfold PutStack, GetStack. destruct (put_ok st l) eqn:Hok; [|done].
  intros id ->. destruct (existsb _ l) eqn:He.
  - case_bool_decide as Eid; [subst id; by apply find_replaced|by apply find_other].
  - rewrite find_first_app. cbn. case_bool_decide as Eid.
    + subst id. rewrite (bool_decide_eq_true_2 (_ = Stk_ID st)) by done.
      destruct (find_first _ l) eqn:Ef; [|done]. apply find_first_In in Ef as [Hin Hp]. apply not_true_iff_false in He.
      exfalso. apply He, existsb_exists. eexists. split; [by apply list_elem_of_In|done].
    + rewrite (bool_decide_eq_false_2 (id = Stk_ID st)) by congruence. by destruct (find_first _ l).
Qed.
End Stacks.
End Stacks.

(** ** The disk usage of a volume *)

Module Usage.

(** What [Lstat] and [ReadDir] give below a path: a file, link or device with its size,
    a directory that can or cannot be read, or a path that cannot be inspected. *)
Inductive node :=
| File (size : Z)
| Dir (readable : bool) (entries : list (string * node))
| Missing.

(** What a walk function returns: nil, [filepath.SkipDir], or another error. *)
Inductive verdict := Continue | SkipDir | Fail (e : string).

(** The function [Usage] walks with, on the running total. *)
Definition visit (err is_dir : bool) (size total : Z) : Z * verdict :=
  if err then (total, SkipDir)
  else if is_dir then (total, Continue)
  else (i64 (total + size), Continue).

(** [filepath.Walk]: a directory that cannot be read is reported and not entered; a
    [SkipDir] of a directory or of a path that cannot be inspected goes on with the next
    entry, any other one ends the directory. *)
Fixpoint walk (n : node) (total : Z) : Z * verdict :=
  match n with
  | Missing => visit true false 0 total
  | File size => visit false false size total
  | Dir readable entries =>
      match visit (negb readable) true 0 total with
      | (t, Continue) =>
          if readable then
            (fix each (l : list (string * node)) (t : Z) : Z * verdict :=
               match l with
               | [] => (t, Continue)
               | (_, n) :: l =>
                   match walk n t with
                   | (t, Continue) => each l t
                   | (t, SkipDir) => match n with File _ => (t, SkipDir) | _ => each l t end
                   | (t, Fail e) => (t, Fail e)
                   end
               end) entries t
          else (t, Continue)
      | r => r
      end
  end.

Definition Usage (root : node) : Z * option string :=
  match walk root 0 with
  | (t, Fail e) => (t, Some e)
  | (t, _) => (t, None)
  end.

(** The bytes of the files that can be reached. *)
Fixpoint bytes (n : node) : Z :=
  match n with
  | File size => size
  | Dir true entries => (fix all (l : list (string * node)) : Z := match l with [] => 0 | (_, n) :: l => bytes n + all l end) entries
  | Dir false _ | Missing => 0
  end.

Fixpoint node_ind' (P : node -> Prop) (HF : forall z, P (File z)) (HM : P Missing)
  (HD : forall b l, Forall (fun e => P e.2) l -> P (Dir b l)) (n : node) : P n :=
  match n with
  | File z => HF z
  | Missing => HM
  | Dir b l => HD b l ((fix go (l : list (string * node)) : Forall (fun e => P e.2) l :=
      match l with [] => Forall_nil_2 _ | e :: l => Forall_cons_2 _ _ _ (node_ind' P HF HM HD e.2) (go l) end) l)
  end.

Lemma walk_total n total :
  i64 total = total -> (walk n total).1 = i64 (total + bytes n) /\ (forall e, (walk n total).2 <> Fail e) /\
  (match n with File _ => (walk n total).2 = Continue | _ => True end).
Proof.
  revert total. induction n as [z| |b l IH] using node_ind'; intros total Ht.
  - by split_and!.
  - cbn. by rewrite Z.add_0_r.
  - destruct b; [|cbn; rewrite Z.add_0_r; by split_and!].
    cut ((walk (Dir true l) total).1 = i64 (total + bytes (Dir true l)) /\ forall e, (walk (Dir true l) total).2 <> Fail e); [tauto|].
    revert total Ht. induction IH as [|[k n] l Hn _ IHl]; intros total Ht; [cbn; by rewrite Z.add_0_r|].
    destruct (Hn total Ht) as (H1 & H2 & H3). cbn [snd] in H1, H2, H3.
    assert (Hstep : walk (Dir true ((k, n) :: l)) total = walk (Dir true l) (i64 (total + bytes n))).
    { rewrite <- H1. cbn [walk visit negb]. destruct (walk n total) as [t [| |e]]; [done| |by destruct (H2 e)].
      cbn in H3. by destruct n. }
    rewrite Hstep. change (bytes (Dir true ((k, n) :: l))) with (bytes n + bytes (Dir true l)).
    destruct (IHl (i64 (total + bytes n)) (i64_idem _)) as [-> He]. split; [|done]. rewrite i64_add_l. f_equal. lia.
Qed.

(** The usage of a volume is the size of every file below its directory, at 64 bits,
    whatever cannot be read or has gone; it is never an error. *)
Lemma Usage_spec root : Usage root = (i64 (bytes root), None).
Proof.
  destruct (walk_total root 0 eq_refl) as (H1 & H2 & _). unfold Usage. destruct (walk root 0) as [t v]. cbn in H1, H2.
  rewrite Z.add_0_l in H1. subst t. destruct v as [| |e]; [done..|by destruct (H2 e)].
Qed.

Lemma digits_aux_length fuel n acc : (String.length (digits_aux fuel n acc) <= fuel + String.length acc)%nat.
Proof.
  revert n acc. induction fuel as [|fuel IH]; intros n acc; cbn; [lia|]. case_match; [lia|].
  specialize (IH (n / 10)%Z (String (digit (n mod 10)) acc)). cbn in IH. lia.
Qed.

Lemma Itoa_length n : (String.length (Itoa n) <= 21)%nat.
Proof.
  unfold Itoa. destruct (n =? 0); [cbn; lia|]. destruct (n <? 0); cbn [String.length].
  - pose proof (digits_aux_length 20 (- n) ""). cbn [String.length] in *. lia.
  - pose proof (digits_aux_length 20 n ""). cbn [String.length] in *. lia.
Qed.

(** The files [Create] makes: the marker and an image of the whole size. *)
Definition marker (sizeMiB : Z) : string := "size_mib=" ++ Itoa sizeMiB ++ nl.

Definition created (sizeMiB : Z) : node :=
  Dir true [("VOLUME", File (Z.of_nat (String.length (marker sizeMiB)))); ("data.img", File (i64 (sizeMiB * 1024 * 1024)))].

Section Handlers.
(** [volMgr] is the directory of the volumes, [tree] what is below a path, [stat] whether it exists. *)
Context (volMgr : option string) (tree : string -> node) (stat : string -> bool).

Definition volume_Path (dir volumeID : string) : string :=
  let path := Join [dir; volumeID] in if stat path then path else "".

Definition volume_Exists (dir volumeID : string) : bool := volume_Path dir volumeID !=? "".

Definition handleVolumeUsage (volumeId : string) (l : list Volume) : Resp :=
  match find_volume volumeId l with
  | None => writeError 404 "volume not found"
  | Some v =>
      let used := match volMgr with Some dir => (Usage (tree (Join [dir; SanitizeID (Vol_ID v)]))).1 | None => 0 end in
      let limit := i64 (Vol_SizeMiB v * 1024 * 1024) in
      let path := match volMgr with
                  | Some dir => if Vol_Path v ==? "" then volume_Path dir (SanitizeID (Vol_ID v)) else Vol_Path v
                  | None => Vol_Path v
                  end in
      writeJSON 200 (JObj [("used_bytes", JInt used); ("limit_bytes", JInt limit); ("volume", JStr (Vol_ID v)); ("path", JStr path)])
  end.

(** *** The rows *)

Definition statusOf (v : Volume) : string := if Vol_Path v ==? "" then "provisioning" else "mounted".

(** The rows of a project; no row has the empty project, which is NULL in the statement. *)
Definition ListVolumes (projectID : string) (l : list Volume) : list Volume :=
  base.filter (fun v => Vol_ProjectID v = projectID /\ projectID <> "") l.

Definition DeleteVolume (id : string) (l : list Volume) : list Volume * bool :=
  (base.filter (fun v => Vol_ID v <> id) l, existsb (fun v => Vol_ID v ==? id) l).

Definition ResizeVolume (id : string) (sizeMiB : Z) (l : list Volume) : list Volume * bool :=
  ((fun v => if Vol_ID v ==? id then Vol_set_SizeMiB sizeMiB v else v) <$> l, existsb (fun v => Vol_ID v ==? id) l).

Definition handleListVolumes (limit_q cursor_q projectID : string) (l : list Volume) : Page Volume :=
  paginate limit_q cursor_q (ListVolumes projectID l).

(** Resizing changes the limit that is shown and no file: the same usage is measured
    against the new size. *)
Lemma resize_changes_limit_only volumeId v l size used limit path :
  find_volume volumeId l = Some v ->
  handleVolumeUsage volumeId l =
    writeJSON 200 (JObj [("used_bytes", JInt used); ("limit_bytes", JInt limit); ("volume", JStr (Vol_ID v)); ("path", JStr path)]) ->
  handleVolumeUsage volumeId (ResizeVolume volumeId size l).1 =
    writeJSON 200 (JObj [("used_bytes", JInt used); ("limit_bytes", JInt (i64 (size * 1024 * 1024))); ("volume", JStr (Vol_ID v)); ("path", JStr path)]).
Proof.
  intros Hf. assert (Hf' : find_volume volumeId (ResizeVolume volumeId size l).1 = Some (Vol_set_SizeMiB size v)).
  { unfold find_volume in *. cbn [fst ResizeVolume]. revert Hf. induction l as [|x l IH]; [done|]. cbn.
    case_bool_decide as Ex; cbn.
    - intros [= ->]. replace (Vol_ID (Vol_set_SizeMiB size v)) with (Vol_ID v) by (by destruct v). by rewrite bool_decide_eq_true_2.
    - by rewrite bool_decide_eq_false_2. }
  unfold handleVolumeUsage. rewrite Hf, Hf'. destruct v. cbn. unfold writeJSON. intros [= <- <- <-]. done.
Qed.

(** The size of the image is its length and not what it occupies: a volume nothing was
    written to is reported as used beyond its limit. *)
Lemma fresh_volume_over_limit volumeId v l dir :
  volMgr = Some dir -> find_volume volumeId l = Some v -> 0 < Vol_SizeMiB v < 2 ^ 40 ->
  tree (Join [dir; SanitizeID (Vol_ID v)]) = created (Vol_SizeMiB v) ->
  exists used limit path, handleVolumeUsage volumeId l =
    writeJSON 200 (JObj [("used_bytes", JInt used); ("limit_bytes", JInt limit); ("volume", JStr (Vol_ID v)); ("path", JStr path)]) /\
    limit < used.
Proof.
  intros Hm Hf Hs Ht. unfold handleVolumeUsage. rewrite Hf, Hm, Ht. eexists _, _, _. split; [reflexivity|].
  rewrite Usage_spec. cbn [fst bytes created]. assert (Hin : in_i64 (Vol_SizeMiB v * 1024 * 1024)) by (unfold in_i64, min_int64, max_int64; lia).
  rewrite (i64_id _ Hin). assert (Hlen : (9 <= String.length (marker (Vol_SizeMiB v)) < 200)%nat).
  { unfold marker. rewrite !slen_app. pose proof (Itoa_length (Vol_SizeMiB v)). cbn. lia. }
  rewrite i64_id; [lia|]. unfold in_i64, min_int64, max_int64. lia.
Qed.
End Handlers.
End Usage.

(** ** Users, roles and grants *)

Module Rosters.
Section Rosters.
Context (collate : forall A, (A -> string) -> list A -> list A).
Hypothesis collate_perm : forall A (key : A -> string) l, collate A key l ≡ₚ l.

(** The columns the listing reads: neither password hash nor salt, nor the creation time. *)
Definition listed (u : User) : User :=
  mkUser (User_ID u) (User_Username u) (User_Role u) (User_Email u) (User_NotifyOptIn u) "" "" 0.

Definition ListUsers (db : TenancyDB) : list User := if q_ok db QUser then listed <$> users db else [].

Definition ListRoles (db : TenancyDB) : list Role :=
  if q_ok db QRole
  then (fun r => Role_set_Permissions (RolePermissions db (Role_ID r)) r) <$> collate Role Role_ID (roles db)
  else [].

Definition ListAllPermissions (l : list Permission) : list Permission := collate Permission Perm_ID l.

Definition perm_json (p : Permission) : Json :=
  JObj [("id", JStr (Perm_ID p)); ("name", JStr (Perm_Name p)); ("description", JStr (Perm_Description p))].

(** [ListAssignmentsByScope]: principal type, principal and role of each grant. *)
Definition ListAssignmentsByScope (db : TenancyDB) (scopeType scopeID : string) : list (string * string * string) :=
  match query db QAssignments (base.filter (fun a => As_Scope a = mkScope scopeType scopeID) (role_assignments db)) with
  | Some l => (fun a => (As_PrincipalType a, As_PrincipalID a, As_RoleID a)) <$>
                collate Assignment As_PrincipalType (collate Assignment As_PrincipalID l)
  | None => []
  end.

Definition GetAPIKeyByHash (keys : list APIKey) (hash : string) : option APIKey :=
  find_first (fun k => Key_TokenHash k ==? hash) keys.

Definition systemRole (db : TenancyDB) (roleID : string) : bool := IsSystemRole db roleID.

Definition ProjectMemberRoleID (db : TenancyDB) : string := DefaultRoleID collate db.

Definition handleListUsers (a : Accounts) : Resp := writeJSON 200 (JList (JUser <$> ListUsers (ac_db a))).
Definition handleListRoles (a : Accounts) : Resp := writeJSON 200 (JList (JRole <$> ListRoles (ac_db a))).
Definition handleListPermissions (l : list Permission) : Resp := writeJSON 200 (JList (perm_json <$> ListAllPermissions l)).
Definition handleListProjectMembers (projectID : string) (a : Accounts) : Resp :=
  writeJSON 200 (JList (JMember <$> ListProjectMembers (ac_db a) projectID)).
Definition handleListOrgs (a : Accounts) : Resp := writeJSON 200 (JList (JOrg <$> ListOrgs collate a)).

Definition handleMe (username : string) (a : Accounts) : Resp :=
  match GetUserByUsername (ac_db a) username with
  | Some u => writeJSON 200 (JUser u)
  | None => writeError 401 "authenticated user not found"
  end.

(** Who holds which password cannot be told from the listing of users. *)
Lemma user_list_hides_passwords a a' :
  q_ok (ac_db a) QUser = q_ok (ac_db a') QUser -> listed <$> users (ac_db a) = listed <$> users (ac_db a') ->
  handleListUsers a = handleListUsers a'.
Proof. unfold handleListUsers, ListUsers. intros -> ->. done. Qed.

(** The listing of roles shows each role as it is read on its own. *)
Lemma ListRoles_reads db r :
  NoDup (Role_ID <$> roles db) -> r ∈ ListRoles db -> GetRole db (Role_ID r) = Some r.
Proof.
  intros Hnd. unfold ListRoles, GetRole. destruct (q_ok db QRole); [|by intros ?%elem_of_nil].
  intros (r0 & -> & Hr)%list_elem_of_fmap. rewrite collate_perm in Hr.
  replace (Role_ID (Role_set_Permissions _ r0)) with (Role_ID r0) by (by destruct r0).
  by rewrite (find_first_unique Role_ID (roles db) r0).
Qed.

(** What a listing of grants shows is what the capability engine matches at that scope. *)
Lemma assignments_listed db t id pt pid role :
  q_ok db QAssignments = true ->
  (pt, pid, role) ∈ ListAssignmentsByScope db t id <-> mkAssignment pt pid (mkScope t id) role ∈ role_assignments db.
Proof.
  intros Hq. unfold ListAssignmentsByScope, query. rewrite Hq, list_elem_of_fmap. split.
  - intros (a & E & Ha). rewrite !collate_perm in Ha. apply list_elem_of_filter in Ha as [Hs Ha].
    destruct a as [pt' pid' sc r']. cbn in *. by injection E as -> -> ->; subst.
  - intros Ha. eexists. split; [|rewrite !collate_perm; apply list_elem_of_filter; split; [|exact Ha]]; done.
Qed.

(** Resolving a token goes through the key with its hash. *)
Lemma GetUserByToken_key s raw :
  GetUserByToken s raw =
  match GetAPIKeyByHash (srv_keys s) (hash_hex raw) with
  | Some k => if (Key_UserID k ==? "") || (Key_UserID k ==? "*") then None else GetUserByID (srv_db s) (Key_UserID k)
  | None => None
  end.
Proof. unfold GetUserByToken, GetAPIKeyByHash. by destruct (find_first _ _). Qed.
End Rosters.
End Rosters.

(** ** Organisations and scopes *)

Module Orgs.
Section Orgs.
Context (collate : forall A, (A -> string) -> list A -> list A).

(** [ScopeChainForProject]: the organisation ("" when there is none or it is NULL) and the groups. *)
Definition ScopeChainForProject (db : TenancyDB) (projectID : string) : string * list string :=
  if projectID ==? "" then ("", [])
  else
    let orgID := default "" (mjoin (query_row db QProjectOrg projectID (project_orgs db))) in
    match query db QGroupProjects (base.filter (fun r => r.2 = projectID) (group_projects db)) with
    | Some rows => (orgID, fst <$> rows)
    | None => (orgID, [])
    end.

Definition ProjectForEnvironment (db : TenancyDB) (envID : string) : string :=
  default "" (query_row db QEnvironment envID (environments db)).

(** [ListProjectsInGroup]: the stored projects of the group, in the order of their creation. *)
Definition ListProjectsInGroup (db : TenancyDB) (s : StoreState) (groupID : string) : list Project :=
  pr_data <$> base.filter (fun p => (groupID, pr_id p) ∈ group_projects db) (projects s).

Definition handleGroupProjects (db : TenancyDB) (s : StoreState) (groupId : string) : Resp :=
  writeJSON 200 (JObj [("group_id", JStr groupId); ("projects", JList (JProject <$> ListProjectsInGroup db s groupId))]).

Definition handleGetCurrentOrg (header : string) (a : Accounts) : Resp :=
  match GetOrg a (orgIDFromHeader collate header a) with
  | Some org => writeJSON 200 (JObj [("org", JOrg org)])
  | None => writeError 404 "no org set; use X-Porter-Org-Id header"
  end.

(** Each line of the daemon's log, with the time of the request. *)
Definition handleOrgAudit (now : Z) (rg : Rings) (header : string) (a : Accounts) : Resp :=
  writeJSON 200 (JObj [("org_id", JStr (orgIDFromHeader collate header a));
    ("events", JList ((fun l => JObj [("event", JStr l); ("ts", JInt now)]) <$> TailDaemonLogs rg 100))]).

(** The events of the first project that has any. *)
Definition handleOrgEvents (order_events : list HealthEvent -> list HealthEvent) (s : StoreState) (d : Durable) (header : string) (a : Accounts) : Resp :=
  let orgID := orgIDFromHeader collate header a in
  match find_first (fun p => 0 <? Z.of_nat (List.length (ListHealthEvents order_events (Proj_ID p) 10 d))) (ListProjectsByOrg s orgID) with
  | Some p => writeJSON 200 (JObj [("org_id", JStr orgID); ("events", JEvents (ListHealthEvents order_events (Proj_ID p) 10 d))])
  | None => writeJSON 200 (JObj [("org_id", JStr orgID); ("events", JList [])])
  end.

(** The parents the chain gives are ancestors of the project for the capability engine. *)
Lemma chain_ancestors db projectID orgID groups s :
  ScopeChainForProject db projectID = (orgID, groups) ->
  (s = mkScope ScopeOrg orgID /\ orgID <> "" \/ exists g, g ∈ groups /\ g <> "" /\ s = mkScope ScopeTeam g) ->
  exists l, Store_ScopeAncestors db (mkScope ScopeProject projectID) = Ok l /\ s ∈ l.
Proof.
  intros Hc Hs. eexists. split; [reflexivity|]. unfold ancestors_body. cbn [Scope_Type Scope_ID]. eval_strings.
  apply elem_of_dedupe. rewrite elem_of_app. left. unfold ScopeChainForProject in Hc.
  destruct (decide (projectID = "")) as [->|Hne]; [rewrite bool_decide_eq_true_2 in Hc by done; injection Hc as <- <-;
    destruct Hs as [[_ ?]|(g & ?%elem_of_nil & _)]; done|]. rewrite bool_decide_eq_false_2 in Hc by done.
  apply elem_of_app. destruct Hs as [[-> Ho]|(g & Hg & Hn & ->)].
  - right. destruct (query db QGroupProjects _) in Hc; injection Hc as <- _;
      (destruct (mjoin (query_row db QProjectOrg projectID (project_orgs db))) as [o|]; [|done]); cbn in Ho |- *;
      unfold push; rewrite bool_decide_eq_false_2 by done; by left.
  - left. destruct (query db QGroupProjects _) as [rows|]; injection Hc as _ <-; [|by apply elem_of_nil in Hg].
    apply list_elem_of_fmap in Hg as (r & -> & Hr). apply list_elem_of_join. eexists. split; [|apply list_elem_of_fmap; by eexists].
    apply elem_of_app. left. unfold push. rewrite bool_decide_eq_false_2 by done. by left.
Qed.

(** The audit trail of an organisation is the log of the whole platform. *)
Lemma org_audit_unscoped now rg header header' a a' :
  exists events, forall b, b ∈ [(header, a); (header', a')] ->
    r_body (handleOrgAudit now rg b.1 b.2) = JObj [("org_id", JStr (orgIDFromHeader collate b.1 b.2)); ("events", JList events)].
Proof. by eexists. Qed.

(** The events of an organisation are those of one of its projects. *)
Lemma org_events_one_project order_events s d header a :
  exists p, p ∈ ListProjectsByOrg s (orgIDFromHeader collate header a) /\
    r_body (handleOrgEvents order_events s d header a) =
      JObj [("org_id", JStr (orgIDFromHeader collate header a)); ("events", JEvents (ListHealthEvents order_events (Proj_ID p) 10 d))] \/
  r_body (handleOrgEvents order_events s d header a) = JObj [("org_id", JStr (orgIDFromHeader collate header a)); ("events", JList [])].
Proof.
  unfold handleOrgEvents. destruct (find_first _ _) as [p|] eqn:E; [|exists Proj_zero; by right].
  apply find_first_In in E as [Hp _]. exists p. by left.
Qed.
End Orgs.
End Orgs.

(** ** Views that only read *)

Module Notices.

(** *** Status of the server *)

Definition handleHealth (version : string) : Resp := writeJSON 200 (JObj [("status", JStr "ok"); ("version", JStr version)]).

(** [ping] is the error of [Store.Ping] within two seconds. *)
Definition handleHealthz (version : string) (ping : option string) : Resp :=
  match ping with
  | Some e => writeJSON 503 (JObj [("status", JStr "unavailable"); ("version", JStr version); ("db", JStr "down"); ("detail", JStr e)])
  | None => writeJSON 200 (JObj [("status", JStr "ok"); ("version", JStr version); ("db", JStr "up"); ("auth", JStr "bearer")])
  end.

Definition handleVersion (version : string) : Resp :=
  writeJSON 200 (JObj [("version", JStr version); ("name", JStr "porter"); ("engine", JStr "firecracker");
                       ("storage", JStr "postgresql"); ("api_prefix", JStr "")]).

Definition handleCSRFToken (csrfToken : string) : Resp := writeJSON 200 (JObj [("csrf_token", JStr csrfToken)]).

Definition handleRuntimeConfig (hostConfig : option Settings.Config) : Resp :=
  match hostConfig with
  | None => writeJSON 200 (JObj [("configured", JBool false)])
  | Some cfg =>
      writeJSON 200 (JObj [("configured", JBool true); ("runtime_mode", JStr (RuntimeMode cfg));
        ("firecracker_bin", JStr (FirecrackerBin cfg)); ("jailer_bin", JStr (JailerBin cfg));
        ("api_socket_dir", JStr (FirecrackerSocketDir cfg)); ("kernel_image", JStr (Settings.KernelImage cfg));
        ("rootfs_path", JStr (RootfsPath cfg)); ("images_dir", JStr (ImagesDir cfg));
        ("custom_images_dir", JStr (CustomImagesDir cfg)); ("logs_dir", JStr (LogsDir cfg));
        ("gateway_enabled", JBool (GatewayEnabled cfg)); ("health_enabled", JBool (HealthEnabled cfg));
        ("ssh_enabled", JBool (SSHEnabled cfg))])
  end.

(** The settings that are credentials. *)
Definition secrets_of (c : Settings.Config) : list string :=
  [SecretKey c; DatabaseURL c; CacheURL c; SMTPPassword c; BootstrapAdminPassword c; SentryDSN c].

(** [c] with other credentials. *)
Definition with_secrets (key db cache smtp admin sentry : string) (c : Settings.Config) : Settings.Config :=
  {| ListenAddr := ListenAddr c; BaseDomain := BaseDomain c; SecretKey := key; DatabaseURL := db; AutoMigrate := AutoMigrate c;
     RuntimeMode := RuntimeMode c; Settings.BaseImageRef := Settings.BaseImageRef c; FirecrackerSocketDir := FirecrackerSocketDir c;
     SnapshotDir := SnapshotDir c; LogsDir := LogsDir c; Settings.KernelImage := Settings.KernelImage c; RootfsPath := RootfsPath c;
     FirecrackerBin := FirecrackerBin c; JailerBin := JailerBin c; ImagesDir := ImagesDir c; CustomImagesDir := CustomImagesDir c;
     Settings.GuestBaseDefault := Settings.GuestBaseDefault c; GuestBasesDir := GuestBasesDir c; BuildKitAddr := BuildKitAddr c; BuildKitBin := BuildKitBin c;
     GuestAgentPath := GuestAgentPath c; RateLimitPerMin := RateLimitPerMin c; GatewayEnabled := GatewayEnabled c;
     GatewayListenAddr := GatewayListenAddr c; DNSEnabled := DNSEnabled c; HealthEnabled := HealthEnabled c; SSHEnabled := SSHEnabled c;
     SSHListenAddr := SSHListenAddr c; CacheEnabled := CacheEnabled c; CacheURL := cache; CacheTTLSeconds := CacheTTLSeconds c;
     TLSEnabled := TLSEnabled c; ACMEEmail := ACMEEmail c; GatewayIP := GatewayIP c; VolumesDir := VolumesDir c;
     AutoscaleEnabled := AutoscaleEnabled c; NotifyEnabled := NotifyEnabled c; SMTPHost := SMTPHost c; SMTPPort := SMTPPort c;
     SMTPUser := SMTPUser c; SMTPPassword := smtp; SMTPFrom := SMTPFrom c; NotifyDefaultTo := NotifyDefaultTo c;
     BootstrapAdminPassword := admin; NetworkUse30 := NetworkUse30 c; JailerEnabled := JailerEnabled c; CgroupVersion := CgroupVersion c;
     BalloonMiB := BalloonMiB c; VsockPath := VsockPath c; NixpacksBin := NixpacksBin c; RailpackBin := RailpackBin c;
     DevEnabled := DevEnabled c; LogLevel := LogLevel c; RequestLogging := RequestLogging c; IncludeAPIErrors := IncludeAPIErrors c;
     MetricsEnabled := MetricsEnabled c; OTelEnabled := OTelEnabled c; OTelServiceName := OTelServiceName c; SentryEnabled := SentryEnabled c;
     SentryDSN := sentry; SentryEnvironment := SentryEnvironment c |}.

(** The settings shown to operators do not depend on any credential. *)
Lemma runtime_config_hides_secrets key db cache smtp admin sentry c :
  handleRuntimeConfig (Some (with_secrets key db cache smtp admin sentry c)) = handleRuntimeConfig (Some c) /\
  secrets_of (with_secrets key db cache smtp admin sentry c) = [key; db; cache; smtp; admin; sentry].
Proof. done. Qed.

(** *** Sessions and passwords *)

Definition handleLogout : Resp := writeJSON 200 (JObj [("status", JStr "logged out")]).
Definition handleSignup : Resp :=
  writeJSON 201 (JObj [("ok", JBool true); ("note", JStr "single-tenant admin only; add additional users via POST /users")]).
Definition handleSession (username : string) : Resp := writeJSON 200 (JObj [("authenticated", JBool true); ("username", JStr username)]).
Definition handlePatchMe : Resp :=
  writeJSON 501 (JObj [("status", JStr "unsupported"); ("reason", JStr "profile updates are not implemented in beta-dev")]).
Definition handleDeleteMe : Resp := writeError 403 "self-delete is disabled; an organization owner must remove the account".

Definition handlePasswordForgot (a : Accounts) : Accounts * Resp :=
  (ac_append_log "password reset requested; no recovery provider configured" a,
   writeJSON 200 (JObj [("status", JStr "unsupported");
     ("reason", JStr "password recovery provider is not configured; an authorized operator must rotate the database credential")])).
Definition handlePasswordReset (a : Accounts) : Accounts * Resp :=
  (ac_append_log "password reset token attempt rejected; no token store configured" a,
   writeJSON 200 (JObj [("status", JStr "unsupported"); ("reason", JStr "password reset tokens are not configured")])).

(** Neither recovery route changes an account: only a line of the log is written. *)
Lemma recovery_changes_nothing a :
  forall a', a' ∈ [(handlePasswordForgot a).1; (handlePasswordReset a).1] ->
  ac_srv a' = ac_srv a /\ ac_orgs a' = ac_orgs a /\ ac_groups a' = ac_groups a /\ ac_team_members a' = ac_team_members a.
Proof. intros a' [->|[->|?%elem_of_nil]%elem_of_cons]%elem_of_cons; done. Qed.

(** *** Guest bases and images *)

Definition host_paths : string := "configured-by-host".

Definition base_view (b : GuestBase) : Json :=
  JObj [("name", JStr (GB_Name b)); ("reference", JStr (GB_Reference b)); ("family", JStr (GB_Family b));
        ("description", JStr (GB_Description b)); ("kernel_path", JStr host_paths); ("rootfs_path", JStr host_paths);
        ("agent_path", JStr host_paths); ("managed", JBool (GB_Managed b))].

Definition handleListGuestBases : Resp :=
  writeJSON 200 (JObj [("default", JStr "alpine"); ("bases", JList (base_view <$> ManagedGuestBases));
    ("custom", JObj [("enabled", JBool true); ("requires", JStrs ["kernel_path"; "rootfs_path"; "guest_agent"])])]).

(** [refused] is whether the database refuses the statement. *)
Definition handleDeleteImage (refused : bool) (reference : string) (rows : list ImageRow) : list ImageRow * Resp :=
  if refused then (rows, writeJSON 200 (JObj [("status", JStr "removed from catalog")]))
  else (DeleteGoldenImage reference rows, writeJSON 200 (JObj [("status", JStr "deleted")])).

(** Deleting an image always answers 200, also when nothing was deleted. *)
Lemma delete_image_never_fails refused reference rows : r_status (handleDeleteImage refused reference rows).2 = 200.
Proof. by destruct refused. Qed.

(** *** Replicas, deployments and tables *)

Definition handleGlobalReplicas (s : StoreState) : Resp := writeJSON 200 (JVMs (Store_ListVMs s)).
Definition handleGlobalReplica (s : StoreState) (replicaId : string) : Resp :=
  match Store_GetVM s replicaId with
  | Some vm => writeJSON 200 (JVM vm)
  | None => writeError 404 "replica not found"
  end.

Definition handleListRollouts (s : StoreState) (projectID : string) : Resp := writeJSON 200 (JDeps (Store_ListDeployments s projectID)).

(** An upload is only announced: nothing is stored. *)
Definition handleDeploymentUpload (method image_q : string) (body : result string string) : Resp :=
  let answer image := writeJSON 202 (JObj [("status", JStr "uploading"); ("image", JStr image)]) in
  if method ==? "GET" then answer image_q
  else match body with Ok image => answer image | Err e => writeError 400 ("bad request: " ++ e) end.

Definition handleEnvRange (envId : string) : Resp :=
  writeJSON 200 (JObj [("environment", JStr envId); ("ranges", JStrs ["production"; "preview"])]).

(** The listings of a project's rows answer with the table's rows. *)
Definition handleListAlerts (projectID : string) (l : list Alert) : list Alert := list_rows projectID l.
Definition handleListHooks (projectID : string) (l : list Hook) : list Hook := list_rows projectID l.
Definition handleListCrons (projectID : string) (l : list Cron) : list Cron := list_rows projectID l.
Definition handleCronHistory (projectID : string) (l : list Cron) : list Cron := list_rows projectID l.
Definition handleListDrains (projectID : string) (l : list Drain) : list Drain := list_rows projectID l.
Definition handleListRedirects (projectID : string) (l : list Redirect) : list Redirect := list_rows projectID l.
Definition handleListFirewallRules (projectID : string) (l : list FirewallRule) : list FirewallRule := list_rows projectID l.
Definition handleListEnvironments (projectID : string) (l : list Environment) : list Environment := list_rows projectID l.
Definition handleListNetworks (projectID : string) (l : list Network) : list Network := list_rows projectID l.

(** *** One project *)

(** [members] are the members of a project's JSON, [encode] its text. With [expand=vms] the
    pool is shown and no entity tag is set. *)
Definition handleGetProject {R : Type} (members : Project -> list (string * Json)) (encode : list (string * Json) -> option string)
    (expand fields_q if_none_match id : string) (a : API R) : API R * (Resp + HttpReply) :=
  let '(a, p) := get_project id a in
  match p with
  | None => (a, inl (writeError 404 "project not found"))
  | Some proj =>
      if expand ==? "vms"
      then (a, inl (writeJSON 200 (JObj (selectFields fields_q [("project", JProject proj); ("vms", JVMs (pool_vms (store a) (Proj_VMIDs proj)))]))))
      else (a, inr (writeJSONETag if_none_match (encode (selectFields fields_q (members proj)))))
  end.

(** The pool that is shown: the stored replicas of the project's list, in its order. *)
Lemma expanded_pool s ids vm : vm ∈ pool_vms s ids <-> exists id, id ∈ ids /\ Store_GetVM s id = Some vm.
Proof. unfold pool_vms. by rewrite list_elem_of_omap. Qed.
End Notices.
