(* ===== verification/Wires.v ===== *)
(** * Life cycles and connections

    The concurrent edges of the program as step relations: the background workers that a
    stop channel ends ([cron/runner.go], [autoscale/scaler.go], [metrics/collector.go]),
    the manager of the controllers ([controller/controller.go]), the listeners of the DNS
    server ([dns/server.go]), a forwarded connection ([gateway/portforward.go]); and the
    plumbing around them: waiting for a control socket ([runtime/socket.go],
    [runtime/fc_client.go]), the recorders around response writers ([gateway/gateway.go],
    [api/api.go]), the key files of the SSH gateway ([sshgw/sshgw.go]), the image
    catalogue ([imagecatalog/catalog.go]) and the text of the metrics page
    ([observability/metrics.go]). *)
From stdpp Require Import relations.
From S2P Require Import Prelude GoStrings GoNum GoTime GoPath Types Edge.
From Stdlib Require Import String Ascii SpecFloat.

Open Scope string_scope.
Open Scope Z_scope.

(** ** Background workers *)

Module Workers.

(** [sync.Once], the stop channel, the goroutines of the wait group and the callers
    blocked in [Stop]; closing a closed channel panics. *)
Record worker := mkWorker { once : bool; closed : bool; loops : nat; waiting : nat; panicked : bool }.

Definition new_worker : worker := mkWorker false false 0 0 false.

(** [Start]: the first call launches the loop. *)
Definition worker_Start (w : worker) : worker :=
  if once w then w else mkWorker true (closed w) (S (loops w)) (waiting w) (panicked w).

(** [Stop] up to its wait. *)
Definition worker_Stop (w : worker) : worker :=
  if closed w then mkWorker (once w) true (loops w) (waiting w) true
  else mkWorker (once w) true (loops w) (S (waiting w)) (panicked w).

(** The autoscaler and the sampler have the same two methods. *)
Definition scaler_Start : worker -> worker := worker_Start.
Definition scaler_Stop : worker -> worker := worker_Stop.
Definition collector_Start : worker -> worker := worker_Start.
Definition collector_Stop : worker -> worker := worker_Stop.

(** The interval all three are made with, in nanoseconds: thirty seconds unless it is positive. *)
Definition worker_interval (d : Z) : Z := if d <=? 0 then 30 * 1000000000 else d.

Inductive step : worker -> worker -> Prop :=
| step_start w : step w (worker_Start w)
| step_stop w : step w (worker_Stop w)
| step_exit w n : closed w = true -> loops w = S n -> step w (mkWorker (once w) true n (waiting w) (panicked w))
| step_return w n : loops w = 0%nat -> waiting w = S n -> step w (mkWorker (once w) (closed w) 0 n (panicked w)).

(** The steps of the worker itself: its loop ends, a caller of [Stop] returns. *)
Inductive own_step : worker -> worker -> Prop :=
| own_exit w n : closed w = true -> loops w = S n -> own_step w (mkWorker (once w) true n (waiting w) (panicked w))
| own_return w n : loops w = 0%nat -> waiting w = S n -> own_step w (mkWorker (once w) (closed w) 0 n (panicked w)).

Definition reachable (w : worker) : Prop := rtc step new_worker w.

Record wf (w : worker) : Prop := {
  wf_one : (loops w <= 1)%nat;
  wf_started : loops w = 1%nat -> once w = true;
  wf_waiting : (waiting w <= 1)%nat;
  wf_closed : (0 < waiting w)%nat -> closed w = true }.

Lemma step_wf w w' : step w w' -> wf w -> wf w'.
Proof.
  intros Hs [H1 H2 H3 H4]. destruct Hs as [w|w|w n Hc Hl|w n Hl Hw].
  - unfold worker_Start. destruct (once w) eqn:Eo; [done|]. split; cbn; try done.
    destruct (loops w) as [|[|]]; [lia| |lia]. specialize (H2 eq_refl). done.
  - unfold worker_Stop. destruct (closed w) eqn:Ec; split; cbn; try done. destruct (waiting w); [lia|]. specialize (H4 ltac:(lia)). done.
  - split; cbn; try done; lia.
  - split; cbn; try done; [lia..|]. intros. apply H4. lia.
Qed.

Lemma reachable_wf w : reachable w -> wf w.
Proof.
  intros Hr. unfold reachable in Hr. assert (Hi : wf new_worker) by (split; cbn; done || lia).
  revert Hi. induction Hr as [|w1 w2 w3 Hs _ IH]; [done|]. intros Hi. apply IH. by eapply step_wf.
Qed.

(** Own steps are bounded, and one is possible until every stopped caller has returned. *)
Lemma own_progress w :
  wf w -> (waiting w = 0%nat) \/ (exists w', own_step w w').
Proof.
  intros [H1 H2 H3 H4]. destruct (waiting w) as [|n] eqn:Ew; [by left|right].
  destruct (loops w) as [|k] eqn:El; [eexists; by apply own_return|]. eexists. apply own_exit; [apply H4; lia|done].
Qed.

Lemma own_decreases w w' : own_step w w' -> (loops w' + waiting w' < loops w + waiting w)%nat.
Proof. intros [v n Hc Hl|v n Hl Hw]; cbn; lia. Qed.

Lemma own_step_step w w' : own_step w w' -> step w w'.
Proof. intros []; by constructor. Qed.

Lemma own_closed w w' : own_step w w' -> closed w = true -> closed w' = true.
Proof. by intros []. Qed.



(** Stopping twice panics. *)
Lemma stop_twice_panics w : panicked (worker_Stop (worker_Stop w)) = true.
Proof. unfold worker_Stop at 2. destruct (closed w); reflexivity. Qed.

(** *** The manager of the controllers *)

(** Registered controllers by name; the goroutines [Start] launched, by controller. *)
Record manager := mkManager { ctrls : gset string; running : list string; m_closed : bool }.

Definition NewManager : manager := mkManager ∅ [] false.
Definition Register (name : string) (m : manager) : manager := mkManager ({[name]} ∪ ctrls m) (running m) (m_closed m).
Definition Manager_Start (m : manager) : manager := mkManager (ctrls m) (elements (ctrls m) ++ running m)%list (m_closed m).

(** One start runs each controller once, whatever was registered in whatever order; a
    second start doubles them. *)
Lemma manager_starts_each names :
  let m := Manager_Start (foldr Register NewManager names) in
  NoDup (running m) /\ (forall n, n ∈ running m <-> n ∈ names) /\
  running (Manager_Start m) = (running m ++ running m)%list.
Proof.
  cbv zeta. assert (Hc : forall n, n ∈ ctrls (foldr Register NewManager names) <-> n ∈ names).
  { induction names as [|x names IH]; intros n; cbn; set_solver. }
  assert (Hr : running (foldr Register NewManager names) = []) by (clear; induction names as [|x names IH]; [done|exact IH]).
  cbn. rewrite Hr, app_nil_r. split_and!; [apply NoDup_elements| |done]. intros n. rewrite elem_of_elements. apply Hc.
Qed.
End Workers.

(** ** The listeners of the DNS server *)

Module DnsServer.

(** Whether the server says it runs, the pair of listeners it holds, the pairs that really
    listen, and the calls of [Start] that have passed the check and not yet acted: the
    lock is released in between. All listeners are on one address. *)
Record server := mkServer { running : bool; current : option nat; live : list nat; next : nat; checked : nat }.

Definition dns_server0 : server := mkServer false None [] 0 0.

(** [Start] after the check: new listeners replace the held ones; they bind when the
    address is free. *)
Definition act (s : server) : server :=
  mkServer true (Some (next s)) (match live s with [] => [next s] | l => l end) (S (next s)) (pred (checked s)).

Definition dns_Shutdown (s : server) : server :=
  if running s
  then mkServer false (current s) (match current s with Some i => base.filter (fun j => j <> i) (live s) | None => live s end) (next s) (checked s)
  else s.

Inductive step : server -> server -> Prop :=
| step_check s : running s = false -> step s (mkServer (running s) (current s) (live s) (next s) (S (checked s)))
| step_refuse s : running s = true -> step s s
| step_act s n : checked s = S n -> step s (act s)
| step_shutdown s : step s (dns_Shutdown s).

(** [Start] without another call in between: an error when it runs already. *)
Definition dns_Start (s : server) : server * option string :=
  if running s then (s, Some "dns server already running")
  else (act (mkServer false (current s) (live s) (next s) (S (checked s))), None).

(** One call at a time: what listens is what the server holds, and nothing after a shutdown. *)
Record in_order (s : server) : Prop := {
  io_checked : checked s = 0%nat;
  io_live : live s = if running s then match current s with Some i => [i] | None => [] end else [];
  io_current : running s = true -> is_Some (current s) }.

Lemma Start_in_order s : in_order s -> in_order (dns_Start s).1.
Proof.
  intros [H1 H2 H3]. unfold dns_Start. destruct (running s) eqn:Er; [by split; cbn; rewrite ?Er|]. cbn in H2. split; cbn; [done|by rewrite H2|by eexists].
Qed.

Lemma Shutdown_in_order s : in_order s -> in_order (dns_Shutdown s).
Proof.
  intros [H1 H2 H3]. unfold dns_Shutdown. destruct (running s) eqn:Er; [|by split; rewrite ?Er].
  split; cbn; [done| |done]. destruct (H3 eq_refl) as [i Hi]. rewrite Hi, H2, Hi.
  rewrite filter_cons_False by tauto. done.
Qed.

Inductive call := CStart | CShutdown.
Definition run (s : server) (c : call) : server := match c with CStart => (dns_Start s).1 | CShutdown => dns_Shutdown s end.

(** Calls one after the other: exactly the held listeners listen while the server runs,
    none after a shutdown, and a second start is refused without effect. *)
Lemma dns_calls_in_order calls :
  let s := fold_left run calls dns_server0 in
  live s = (if running s then match current s with Some i => [i] | None => [] end else []) /\
  (running s = true -> dns_Start s = (s, Some "dns server already running")).
Proof.
  cbv zeta. assert (H : forall s, in_order s -> in_order (fold_left run calls s)).
  { induction calls as [|c calls IH]; [done|]. intros s Hs. cbn. apply IH. destruct c; [by apply Start_in_order|by apply Shutdown_in_order]. }
  specialize (H dns_server0 ltac:(by split)). split; [apply H|]. intros Hr. unfold dns_Start. by rewrite Hr.
Qed.

(** Two concurrent starts both pass the check: the second drops the listeners of the
    first, which then outlive the shutdown. *)
Lemma concurrent_starts_leak : exists s, rtc step dns_server0 s /\ running s = false /\ live s = [0%nat].
Proof.
  eexists. split.
  - eapply rtc_l; [by apply step_check|]. eapply rtc_l; [by apply step_check|]. eapply rtc_l; [by apply (step_act _ 1)|].
    eapply rtc_l; [by apply (step_act _ 0)|]. eapply rtc_l; [apply step_shutdown|]. apply rtc_refl.
  - by vm_compute.
Qed.
End DnsServer.

(** ** A forwarded connection *)

Module Forward.

(** One connection after the dial: what each side has still to send and whether it then
    ends, what the other side has received, and the messages on the channel of capacity
    two. The handler closes both connections after the first message. *)
Record conn := mkConn {
  c_todo : list string; c_eof : bool; u_todo : list string; u_eof : bool;
  c_got : list string; u_got : list string; c_done : bool; u_done : bool; shut : bool }.

Definition dialed (client upstream : list string) (c_eof u_eof : bool) : conn :=
  mkConn client c_eof upstream u_eof [] [] false false false.

Inductive step : conn -> conn -> Prop :=
| copy_up s x l : shut s = false -> c_done s = false -> c_todo s = x :: l ->
    step s (mkConn l (c_eof s) (u_todo s) (u_eof s) (c_got s) (u_got s ++ [x])%list (c_done s) (u_done s) (shut s))
| copy_down s x l : shut s = false -> u_done s = false -> u_todo s = x :: l ->
    step s (mkConn (c_todo s) (c_eof s) l (u_eof s) (c_got s ++ [x])%list (u_got s) (c_done s) (u_done s) (shut s))
| end_up s : shut s = false -> c_todo s = [] -> c_eof s = true ->
    step s (mkConn (c_todo s) (c_eof s) (u_todo s) (u_eof s) (c_got s) (u_got s) true (u_done s) (shut s))
| end_down s : shut s = false -> u_todo s = [] -> u_eof s = true ->
    step s (mkConn (c_todo s) (c_eof s) (u_todo s) (u_eof s) (c_got s) (u_got s) (c_done s) true (shut s))
| close_both s : shut s = false -> c_done s || u_done s = true ->
    step s (mkConn (c_todo s) (c_eof s) (u_todo s) (u_eof s) (c_got s) (u_got s) (c_done s) (u_done s) true).

(** Nothing is reordered, repeated or made up: each side has received a beginning of what
    the other sent, and the rest is still to come. *)
Definition faithful (client upstream : list string) (s : conn) : Prop :=
  client = (u_got s ++ c_todo s)%list /\ upstream = (c_got s ++ u_todo s)%list.

Lemma step_faithful client upstream s s' : step s s' -> faithful client upstream s -> faithful client upstream s'.
Proof.
  intros Hs [-> ->]. destruct Hs as [s x l _ _ ->|s x l _ _ ->|s|s|s]; split; cbn; try done; by rewrite <- app_assoc.
Qed.

Lemma forward_faithful client upstream ce ue s :
  rtc step (dialed client upstream ce ue) s -> faithful client upstream s.
Proof.
  intros Hr. assert (Hi : faithful client upstream (dialed client upstream ce ue)) by done.
  revert Hi. induction Hr as [|s1 s2 s3 Hs _ IH]; [done|]. intros Hi. apply IH. by eapply step_faithful.
Qed.

(** A client that ends its side first (as a request sent to the end and then shut down
    for writing) loses the answer: the handler closes after the first direction ends. *)
Lemma half_close_loses_answer :
  exists s, rtc step (dialed ["request"] ["answer"] true true) s /\ shut s = true /\ c_got s = [].
Proof.
  eexists. split.
  - eapply rtc_l; [by apply (copy_up _ "request" [])|]. eapply rtc_l; [by apply end_up|]. eapply rtc_l; [by apply close_both|]. apply rtc_refl.
  - done.
Qed.
End Forward.

(** ** Waiting for a control socket *)

Module Sockets.
Section Wait.
(** [stat i] is whether the socket is there at the [i]-th look, [delay i] the milliseconds
    the [i]-th wait takes, [cancelled i] the context's error when it ends that wait. *)
Context (stat : nat -> bool) (delay : nat -> Z) (cancelled : nat -> option string) (path : string).

Fixpoint wait_loop (fuel : nat) (i : nat) (now deadline : Z) : option (result string unit) :=
  match fuel with
  | O => None
  | S fuel =>
      if now <? deadline then
        if stat i then Some (Ok tt)
        else match cancelled i with
             | Some e => Some (Err e)
             | None => wait_loop fuel (S i) (now + delay i) deadline
             end
      else Some (Err ("timeout waiting for socket " ++ path))
  end.

(** [FCClient.waitForSocket]: ten seconds, looking every hundred milliseconds; a timer
    never fires early, so 101 rounds are enough. *)
Definition waitForSocket (now : Z) : option (result string unit) := wait_loop 101 0 now (now + 10000).

Hypothesis delay_100 : forall i, 100 <= delay i.

(** The [i]-th look: what was not there before, and the waits before it were not ended. *)
Inductive looked (now deadline : Z) : nat -> Z -> Prop :=
| looked_first : now < deadline -> looked now deadline 0 now
| looked_next i t : looked now deadline i t -> stat i = false -> cancelled i = None -> t + delay i < deadline ->
    looked now deadline (S i) (t + delay i).

Lemma looked_time now deadline k t : looked now deadline k t -> now <= t < deadline.
Proof. induction 1 as [|i t _ IH _ _ Hlt]; [lia|]. specialize (delay_100 i). lia. Qed.

Lemma wait_loop_spec fuel i now deadline t0 :
  deadline - now <= 100 * Z.of_nat (pred fuel) -> fuel <> 0%nat ->
  (now < deadline -> looked t0 deadline i now) ->
  exists r, wait_loop fuel i now deadline = Some r /\
    match r with
    | Ok _ => exists k t, looked t0 deadline k t /\ stat k = true
    | Err e => (exists k t, looked t0 deadline k t /\ stat k = false /\ cancelled k = Some e) \/
               e = "timeout waiting for socket " ++ path
    end.
Proof.
  revert i now. induction fuel as [|fuel IH]; intros i now Hf Hne Hl; [done|]. cbn [wait_loop].
  destruct (Z.ltb_spec now deadline) as [Hlt|Hge]; [|eexists; split; [done|right; done]].
  destruct (stat i) eqn:Es; [eexists; split; [done|]; exists i, now; by split; [apply Hl|]|].
  destruct (cancelled i) as [e|] eqn:Ec; [eexists; split; [done|]; left; exists i, now; by split_and!; [apply Hl|..]|].
  cbn in Hf. destruct fuel as [|fuel]; [cbn in Hf; lia|]. apply (IH (S i) (now + delay i)).
  - cbn. specialize (delay_100 i). lia.
  - done.
  - intros Hlt'. apply looked_next; [by apply Hl|done..].
Qed.

(** The wait always ends, within its ten seconds of looks: with success only when the
    socket was seen, with the context's error only when that ended a wait, and otherwise
    with the timeout. *)
Lemma waitForSocket_ends now :
  exists r, waitForSocket now = Some r /\
    match r with
    | Ok _ => exists k t, looked now (now + 10000) k t /\ stat k = true /\ now <= t < now + 10000
    | Err e => (exists k t, looked now (now + 10000) k t /\ cancelled k = Some e) \/ e = "timeout waiting for socket " ++ path
    end.
Proof.
  destruct (wait_loop_spec 101 0 now (now + 10000) now) as (r & Hr & Hs); [cbn; lia|done|intros; by constructor|].
  exists r. split; [exact Hr|]. destruct r as [[]|e]; [|destruct Hs as [(k & t & H1 & _ & H2)| ->]; [left; by exists k, t|by right]].
  destruct Hs as (k & t & Hk & Hst). exists k, t. split; [done|]. split; [done|]. by apply looked_time in Hk.
Qed.

(** A socket that appears within 99 looks a hundred milliseconds apart is found. *)
Lemma waitForSocket_finds now n :
  (forall i, delay i = 100) -> (n < 100)%nat -> stat n = true -> (forall i, (i < n)%nat -> cancelled i = None) ->
  waitForSocket now = Some (Ok tt).
Proof.
  intros Hd Hn Hs Hc. unfold waitForSocket.
  assert (H : forall k fuel, (k <= n)%nat -> (n - k < fuel)%nat -> wait_loop fuel k (now + 100 * Z.of_nat k) (now + 10000) = Some (Ok tt)).
  { intros k. remember (n - k)%nat as d eqn:Ed. revert k Ed. induction d as [|d IH]; intros k Ed [|fuel] Hk Hf; try lia; cbn [wait_loop];
      rewrite (proj2 (Z.ltb_lt _ _)) by lia.
    - replace k with n by lia. by rewrite Hs.
    - destruct (stat k); [done|]. rewrite Hc by lia. rewrite Hd.
      replace (now + 100 * Z.of_nat k + 100) with (now + 100 * Z.of_nat (S k)) by lia. apply IH; lia. }
  specialize (H 0%nat 101%nat ltac:(lia) ltac:(lia)). by rewrite Z.add_0_r in H.
Qed.
End Wait.

(** [waitForSocket] of the VM manager: what happens while it waits. *)
Inductive happening := CtxDone (e : string) | Tick (accepted : bool).

(** [None] while it still waits. *)
Fixpoint socket_wait (l : list happening) : option (result string unit) :=
  match l with
  | [] => None
  | CtxDone e :: _ => Some (Err e)
  | Tick true :: _ => Some (Ok tt)
  | Tick false :: l => socket_wait l
  end.

(** It succeeds exactly when a connection is accepted before the context ends. *)
Lemma socket_wait_spec l :
  socket_wait l = Some (Ok tt) <-> exists n rest, l = (replicate n (Tick false) ++ Tick true :: rest)%list.
Proof.
  split.
  - induction l as [|[e|[]] l IH]; [done|done|intros _; by exists 0%nat, l|]. cbn. intros H. destruct (IH H) as (n & rest & ->). by exists (S n), rest.
  - intros (n & rest & ->). by induction n.
Qed.
End Sockets.

(** ** Recorders around a response writer *)

Module Recorders.

(** The server's writer: the status line once sent and the body. An informational status
    is sent at once and does not count; a later status is ignored; a body that the
    status does not allow is refused. *)
Record http := mkHttp { h_status : option Z; h_body : string }.
Definition http0 : http := mkHttp None "".

Definition informational (code : Z) : bool := (100 <=? code) && (code <=? 199) && negb (code =? 101).
Definition bodyAllowed (code : Z) : bool := negb (((100 <=? code) && (code <=? 199)) || (code =? 204) || (code =? 304)).

Definition http_WriteHeader (code : Z) (h : http) : http :=
  match h_status h with
  | Some _ => h
  | None => if informational code then h else mkHttp (Some code) (h_body h)
  end.

(** The bytes taken. *)
Definition http_Write (p : string) (h : http) : http * Z :=
  let status := default 200 (h_status h) in
  if bodyAllowed status then (mkHttp (Some status) (h_body h ++ p), Z.of_nat (String.length p))
  else (mkHttp (Some status) (h_body h), 0).

(** What the client has when the handler returns. *)
Definition final (h : http) : Z := default 200 (h_status h).

Inductive call := CHeader (code : Z) | CWrite (p : string).

(** *** The gateway's recorder *)

Record responseRecorder := mkRecorder { rr_http : http; rr_status : Z; rr_bytes : Z }.

Definition NewResponseWriter (h : http) : responseRecorder := mkRecorder h 200 0.

Definition rr_WriteHeader (code : Z) (r : responseRecorder) : responseRecorder :=
  mkRecorder (http_WriteHeader code (rr_http r)) code (rr_bytes r).
Definition rr_Write (p : string) (r : responseRecorder) : responseRecorder :=
  let '(h, n) := http_Write p (rr_http r) in mkRecorder h (rr_status r) (rr_bytes r + n).

Definition statusCode (r : option responseRecorder) : Z := match r with Some r => rr_status r | None => 200 end.

Definition rr_call (r : responseRecorder) (c : call) : responseRecorder :=
  match c with CHeader code => rr_WriteHeader code r | CWrite p => rr_Write p r end.

(** *** The recorder of idempotent requests *)

Record recordingWriter := mkRecording { rw_http : http; rw_status : Z; rw_body : string; rw_wrote : bool }.

Definition rw_new (h : http) : recordingWriter := mkRecording h 200 "" false.

Definition rw_WriteHeader (code : Z) (w : recordingWriter) : recordingWriter :=
  if rw_wrote w then w else mkRecording (http_WriteHeader code (rw_http w)) code (rw_body w) true.
Definition rw_Write (p : string) (w : recordingWriter) : recordingWriter :=
  let w := if rw_wrote w then w else rw_WriteHeader 200 w in
  mkRecording (http_Write p (rw_http w)).1 (rw_status w) (rw_body w ++ p) (rw_wrote w).

Definition rw_call (w : recordingWriter) (c : call) : recordingWriter :=
  match c with CHeader code => rw_WriteHeader code w | CWrite p => rw_Write p w end.

(** The gateway counts exactly the bytes of the body the client gets. *)
Lemma recorder_bytes calls r :
  rr_bytes r = Z.of_nat (String.length (h_body (rr_http r))) ->
  rr_bytes (fold_left rr_call calls r) = Z.of_nat (String.length (h_body (rr_http (fold_left rr_call calls r)))).
Proof.
  revert r. induction calls as [|c calls IH]; [done|]. intros r Hr. cbn. apply IH. destruct c as [code|p]; cbn.
  - unfold http_WriteHeader. repeat case_match; done.
  - unfold rr_Write, http_Write. destruct (bodyAllowed _); cbn; [rewrite slen_app|]; lia.
Qed.

(** ... and records its status when the handler sets one, once, before the body
    (informational ones may come first). *)
Lemma recorder_status infos code writes :
  forallb informational infos = true -> informational code = false ->
  let r := fold_left rr_call ((CHeader <$> infos) ++ CHeader code :: (CWrite <$> writes))%list (NewResponseWriter http0) in
  rr_status r = code /\ final (rr_http r) = code.
Proof.
  intros Hi Hc. rewrite fold_left_app. cbv zeta.
  assert (H1 : rr_http (fold_left rr_call (CHeader <$> infos) (NewResponseWriter http0)) = http0).
  { assert (H : forall r, rr_http r = http0 -> rr_http (fold_left rr_call (CHeader <$> infos) r) = http0); [|by apply H].
    induction infos as [|i infos IH]; [done|]. cbn in Hi. apply andb_true_iff in Hi as [Hi Hi']. intros r Hr. cbn. apply IH; [done|].
    cbn. rewrite Hr. cbn. unfold http_WriteHeader. cbn. by rewrite Hi. }
  cbn [fold_left]. set (r0 := fold_left _ _ (NewResponseWriter http0)) in *.
  assert (H2 : forall r, rr_status r = code /\ h_status (rr_http r) = Some code ->
    let r' := fold_left rr_call (CWrite <$> writes) r in rr_status r' = code /\ h_status (rr_http r') = Some code).
  { induction writes as [|p writes IH]; [done|]. intros r [Hs Hh]. cbn. apply IH. unfold rr_Write, http_Write. rewrite Hh. cbn.
    destruct (bodyAllowed code); done. }
  destruct (H2 (rr_call r0 (CHeader code))) as [H3 H4]; [|split; [done|unfold final; by rewrite H4]].
  split; [done|]. cbn. rewrite H1. unfold http_WriteHeader. cbn. by rewrite Hc.
Qed.

(** A status after the body is recorded and never sent. *)
Lemma late_status_misrecorded :
  let r := fold_left rr_call [CWrite "ok"; CHeader 500] (NewResponseWriter http0) in rr_status r = 500 /\ final (rr_http r) = 200.
Proof. done. Qed.

(** What is stored for a replay is what the client was sent: the status, and the body
    where the status allows one, for every sequence of calls without informational codes. *)
Lemma recording_exact calls :
  (forall c, CHeader c ∈ calls -> informational c = false) ->
  let w := fold_left rw_call calls (rw_new http0) in
  rw_status w = final (rw_http w) /\ (bodyAllowed (rw_status w) = true -> rw_body w = h_body (rw_http w)).
Proof.
  intros Hc. assert (H : forall w,
    (if rw_wrote w then h_status (rw_http w) = Some (rw_status w) else rw_http w = http0 /\ rw_status w = 200 /\ rw_body w = "") /\
    (bodyAllowed (rw_status w) = true -> rw_body w = h_body (rw_http w)) ->
    let w' := fold_left rw_call calls w in
    (if rw_wrote w' then h_status (rw_http w') = Some (rw_status w') else rw_http w' = http0 /\ rw_status w' = 200 /\ rw_body w' = "") /\
    (bodyAllowed (rw_status w') = true -> rw_body w' = h_body (rw_http w'))).
  { induction calls as [|c calls IH]; [done|]. intros w Hw. cbn. apply IH; [intros x Hx; apply Hc; by right|].
    destruct Hw as [Hw Hb]. destruct c as [code|p]; cbn.
    - unfold rw_WriteHeader. destruct (rw_wrote w) eqn:Ew; [by rewrite Ew|]. destruct Hw as (Hh & Hs & Hbd). cbn. rewrite Hh. cbn.
      unfold http_WriteHeader. cbn. rewrite (Hc code ltac:(by left)). done.
    - unfold rw_Write, rw_WriteHeader. destruct (rw_wrote w) eqn:Ew; cbn.
      + rewrite Ew. unfold http_Write. rewrite Hw. cbn. destruct (bodyAllowed (rw_status w)) eqn:Eb; cbn; [|done].
        split; [done|]. intros _. by rewrite Hb.
      + destruct Hw as (Hh & Hs & Hbd). rewrite Hh, Hbd. done. }
  destruct (H (rw_new http0)) as [H1 H2]; [done|]. cbv zeta. split; [|exact H2]. unfold final.
  destruct (rw_wrote _); [by rewrite H1|]. destruct H1 as (-> & -> & _). done.
Qed.
End Recorders.

(** ** The key files of the SSH gateway *)

Module Keys.
Section Keys.
(** PEM blocks, by the bytes they hold; [writable] are the paths that can be written. *)
Context (pem_encode : string -> string) (pem_decode : string -> option string) (writable : string -> option string).

(** [generate] is the new key, or the error of the random source. *)
Definition loadOrCreateKey (path : string) (generate : result string string) (fs : gmap string string)
    : gmap string string * result string string :=
  match fs !! path ≫= pem_decode with
  | Some key => (fs, Ok key)
  | None =>
      match generate with
      | Err e => (fs, Err e)
      | Ok priv =>
          match writable path with
          | Some e => (fs, Err e)
          | None => (<[path := pem_encode priv]> fs, Ok priv)
          end
      end
  end.

Record gateway_keys := mkKeys { caKey : string; hostKey : string }.

(** [New] up to the server configuration; [signer] is the error of the host key's signer. *)
Definition sshgw_New (dataDir : string) (signer : string -> option string) (ca host : result string string) (fs : gmap string string)
    : gmap string string * result string gateway_keys :=
  match loadOrCreateKey (GoPath.Join [dataDir; "ca_key"]) ca fs with
  | (fs, Err e) => (fs, Err ("sshgw: ca key: " ++ e))
  | (fs, Ok ca) =>
      match loadOrCreateKey (GoPath.Join [dataDir; "host_key"]) host fs with
      | (fs, Err e) => (fs, Err ("sshgw: host key: " ++ e))
      | (fs, Ok host) =>
          match signer host with
          | Some e => (fs, Err ("sshgw: host signer: " ++ e))
          | None => (fs, Ok (mkKeys ca host))
          end
      end
  end.

Hypothesis pem_roundtrip : forall b, pem_decode (pem_encode b) = Some b.

Lemma key_reloads path generate fs fs' key :
  loadOrCreateKey path generate fs = (fs', Ok key) -> fs' !! path ≫= pem_decode = Some key.
Proof.
  unfold loadOrCreateKey. destruct (fs !! path ≫= pem_decode) as [k|] eqn:E.
  - intros [= <- <-]. exact E.
  - destruct generate as [priv|]; [|done]. destruct (writable path); [done|]. intros [= <- <-]. rewrite lookup_insert_eq. cbn. apply pem_roundtrip.
Qed.

Lemma key_known path generate fs key :
  fs !! path ≫= pem_decode = Some key -> loadOrCreateKey path generate fs = (fs, Ok key).
Proof. unfold loadOrCreateKey. by intros ->. Qed.

Lemma key_elsewhere path path' generate fs fs' r :
  loadOrCreateKey path generate fs = (fs', r) -> path <> path' -> fs' !! path' = fs !! path'.
Proof.
  unfold loadOrCreateKey. destruct (fs !! path ≫= pem_decode); [by intros [= <- _]|]. destruct generate; [|by intros [= <- _]].
  destruct (writable path); [by intros [= <- _]|]. intros [= <- _] Hne. by rewrite lookup_insert_ne.
Qed.

(** A restart keeps the gateway's identity: the keys of the first start are those of
    every later one, whatever the random source then gives, and no file changes. *)
Lemma keys_persist dataDir signer ca host fs fs' keys :
  GoPath.Join [dataDir; "ca_key"] <> GoPath.Join [dataDir; "host_key"] ->
  sshgw_New dataDir signer ca host fs = (fs', Ok keys) ->
  forall ca' host', sshgw_New dataDir signer ca' host' fs' = (fs', Ok keys).
Proof.
  intros Hp. unfold sshgw_New. destruct (loadOrCreateKey _ ca fs) as [fs1 [k1|]] eqn:E1; [|done].
  destruct (loadOrCreateKey _ host fs1) as [fs2 [k2|]] eqn:E2; [|done]. destruct (signer k2) eqn:Es; [done|]. intros [= <- <-] ca' host'.
  rewrite (key_known _ ca' fs2 k1).
  - rewrite (key_known _ host' fs2 k2) by (by eapply key_reloads). by rewrite Es.
  - rewrite (key_elsewhere _ _ _ _ _ _ E2) by done. by eapply key_reloads.
Qed.

(** A key file that does not decode is not reported: it is overwritten with a new key,
    and every certificate signed before is refused from then on. *)
Lemma damaged_key_replaced path priv fs text :
  fs !! path = Some text -> pem_decode text = None -> writable path = None ->
  loadOrCreateKey path (Ok priv) fs = (<[path := pem_encode priv]> fs, Ok priv).
Proof. intros Hf Hd Hw. unfold loadOrCreateKey. by rewrite Hf; cbn; rewrite Hd, Hw. Qed.

(** Any PEM block is taken for a key, whatever it holds. *)
Lemma any_block_is_key path generate fs bytes :
  loadOrCreateKey path generate (<[path := pem_encode bytes]> fs) = (<[path := pem_encode bytes]> fs, Ok bytes).
Proof. apply key_known. rewrite lookup_insert_eq. apply pem_roundtrip. Qed.
End Keys.
End Keys.

(** ** The image catalogue *)

Module Catalog.

(** A directory entry: its name, whether it is a directory, and the manifest it decodes to. *)
Record entry := mkEntry { e_name : string; e_dir : bool; e_manifest : option ImageManifest }.

Definition set_id (id : string) (m : ImageManifest) : ImageManifest :=
  mkImageManifest id (Man_Name m) (Man_Type m) (Man_Description m) (Man_Image m) (Man_Rootfs m) (Man_Kernel m) (Man_Architecture m)
    (Man_RootfsSHA256 m) (Man_KernelSHA256 m) (Man_Status m) (Man_VCPUs m) (Man_MemMiB m) (Man_Ports m) (Man_Env m) (Man_Tags m) (Man_Logo m).

Definition load (e : entry) : option ImageManifest :=
  if e_dir e || (Ext (e_name e) !=? ".json") then None
  else (fun m => if Man_ID m ==? "" then set_id (trim_suffix (e_name e) ".json") m else m) <$> e_manifest e.

Section Catalog.
(** [sort.Slice] by name: some permutation in which names do not decrease. *)
Context (sort_by_name : list ImageManifest -> list ImageManifest).

Definition catalog_New (dir : string) (entries : option (list entry)) : list ImageManifest :=
  if dir ==? "" then []
  else match entries with
       | None => []
       | Some l => sort_by_name (omap load l)
       end.

Hypothesis sort_perm : forall l, sort_by_name l ≡ₚ l.
Hypothesis sort_sorted : forall l, Sorted (fun a b => String.le (Man_Name a) (Man_Name b)) (sort_by_name l).

Lemma cut_last_eq sep s a b : cut_last sep s = Some (a, b) -> s = a ++ String sep b.
Proof.
  revert a b. induction s as [|c s IH]; [done|]. intros a b. cbn [cut_last]. destruct (cut_last sep s) as [[a' b']|].
  - intros [= <- <-]. by rewrite sapp_cons, (IH a' b').
  - destruct (Ascii.eqb_spec c sep) as [->|]; [|done]. by intros [= <- <-].
Qed.

Lemma Ext_suffix p : exists pre, p = pre ++ Ext p.
Proof.
  unfold Ext. destruct (cut_last slash p) as [[d n]|] eqn:Ed.
  - apply cut_last_eq in Ed as ->. destruct (cut_last "." n) as [[a b]|] eqn:En.
    + apply cut_last_eq in En as ->. exists (d ++ String slash a). by rewrite sapp_assoc, sapp_cons.
    + exists (d ++ String slash n). by rewrite sapp_nil_r.
  - destruct (cut_last "." p) as [[a b]|] eqn:En; [apply cut_last_eq in En as ->; by exists a|exists p; by rewrite sapp_nil_r].
Qed.

(** The catalogue has every manifest that decodes, once per file, ordered by name; what
    does not decode is left out; only a file called ".json" leaves an image without
    an identifier. *)
Lemma catalog_spec dir l :
  dir <> "" ->
  catalog_New dir (Some l) ≡ₚ omap load l /\ Sorted (fun a b => String.le (Man_Name a) (Man_Name b)) (catalog_New dir (Some l)) /\
  (forall m, m ∈ catalog_New dir (Some l) -> Man_ID m = "" -> exists e, e ∈ l /\ e_name e = ".json").
Proof.
  intros Hd. unfold catalog_New. rewrite bool_decide_eq_false_2 by done. split_and!; [apply sort_perm|apply sort_sorted|].
  intros m Hm Hid. rewrite sort_perm in Hm. apply list_elem_of_omap in Hm as (e & He & Hl). exists e. split; [done|].
  unfold load in Hl. destruct (e_dir e); [done|]. cbn in Hl. destruct (decide (Ext (e_name e) = ".json")) as [Hx|Hx];
    [rewrite bool_decide_eq_true_2 in Hl by done|by rewrite bool_decide_eq_false_2 in Hl].
  cbn in Hl. destruct (e_manifest e) as [m0|]; [|done]. cbn in Hl. injection Hl as <-.
  case_bool_decide as E0; [|done]. cbn in Hid. pose proof (Ext_suffix (e_name e)) as [pre Hpre]. rewrite Hx in Hpre.
  rewrite Hpre in Hid |- *. rewrite trim_suffix_app in Hid. by rewrite Hid.
Qed.
End Catalog.
End Catalog.

(** ** The metrics page *)

Module Page.
Import Edge.Middleware.

Definition newline : ascii := "010".

(** [strconv.FormatFloat(f, 'f', 6, 64)]: the exact value to six decimals, half to even. *)
Definition fixed6 (f : float64) : string :=
  let text (n : Z) := Itoa (n / 1000000) ++ "." ++ digitsn 6 (n mod 1000000) in
  let round (num den : Z) :=
    let q := num / den in let r := num mod den in
    if (2 * r <? den) || ((2 * r =? den) && Z.even q) then q else q + 1 in
  let sign (s : bool) (t : string) := if s then "-" ++ t else t in
  match f with
  | S754_zero s => sign s (text 0)
  | S754_infinity s => if s then "-Inf" else "+Inf"
  | S754_nan => "NaN"
  | S754_finite s m e => sign s (text (if 0 <=? e then Zpos m * 2 ^ e * 1000000 else round (Zpos m * 1000000) (2 ^ (- e))))
  end.

Definition seconds (ns : Z) : string := fixed6 (fdiv (f_of_Z ns) (f_of_Z 1000000000)).

Definition header (name help : string) : list string := ["# HELP " ++ name ++ " " ++ help; "# TYPE " ++ name ++ " counter"].
Definition labelled (name label value : string) : string := name ++ "{" ++ label ++ "=" ++ String "034" value ++ String "034" "}".
Definition sample (name value : string) : string := name ++ " " ++ value.

Definition total_name : string := "porter_http_requests_total".
Definition method_name : string := "porter_http_requests_by_method_total".
Definition class_name : string := "porter_http_responses_by_status_class_total".
Definition error_name : string := "porter_http_server_errors_total".
Definition sum_name : string := "porter_http_request_duration_seconds_sum".
Definition count_name : string := "porter_http_request_duration_seconds_count".

(** The samples of the page, by name and value. *)
Definition samples_of (m : Metrics) : list (string * string) :=
  ((total_name, Itoa (m_requests m)) ::
   zip_with (fun x n => (labelled method_name "method" x, Itoa n)) metricMethods (m_byMethod m) ++
   zip_with (fun x n => (labelled class_name "status_class" x, Itoa n)) metricStatusClasses (m_byStatusClass m) ++
   [(error_name, Itoa (m_serverError m)); (sum_name, seconds (m_durationNS m)); (count_name, Itoa (m_requests m))])%list.

Definition page_lines (m : Metrics) : list string :=
  (header total_name "Total HTTP requests handled by Porter." ++ [sample total_name (Itoa (m_requests m))] ++
   header method_name "Total HTTP requests by bounded method label." ++
   zip_with (fun x n => sample (labelled method_name "method" x) (Itoa n)) metricMethods (m_byMethod m) ++
   header class_name "Total HTTP responses by bounded status class label." ++
   zip_with (fun x n => sample (labelled class_name "status_class" x) (Itoa n)) metricStatusClasses (m_byStatusClass m) ++
   header error_name "Total HTTP responses with status 500 or higher." ++ [sample error_name (Itoa (m_serverError m))] ++
   header sum_name "Sum of HTTP request durations in seconds." ++ [sample sum_name (seconds (m_durationNS m))] ++
   header count_name "Count of HTTP request durations." ++ [sample count_name (Itoa (m_requests m))])%list.

(** [Metrics.Handler]: every line ends with a newline. *)
Definition Handler (m : Metrics) : string := join (String newline "") (page_lines m ++ [""])%list.

(** What a scraper reads: the lines that are not comments, split at their last blank. *)
Definition scrape (page : string) : list (string * string) :=
  omap (fun line => if has_prefix line "#" || (line ==? "") then None else cut_last " " line) (split_on newline page).

Definition not_char (c x : ascii) : bool := negb (Ascii.eqb x c).

Lemma digitsn_digits w n : sall is_digit (digitsn w n) = true.
Proof.
  revert n. induction w as [|w IH]; intros n; [done|]. cbn [digitsn]. rewrite sall_app, IH. cbn [sall].
  by rewrite is_digit_digit by apply mod10_range.
Qed.

Lemma cut_last_blank s v : sall (not_char " ") v = true -> cut_last " " (s ++ String " " v) = Some (s, v).
Proof.
  intros Hv. assert (Hn : cut_last " " v = None).
  { induction v as [|c v IH]; [done|]. cbn [sall] in Hv. apply andb_true_iff in Hv as [Hc Hv]. cbn [cut_last]. rewrite (IH Hv).
    unfold not_char in Hc. by apply negb_true_iff in Hc as ->. }
  induction s as [|c s IH]; [rewrite sapp_nil_l; cbn [cut_last]; by rewrite Hn|]. rewrite sapp_cons. cbn [cut_last]. by rewrite IH.
Qed.

(** A text of counters: no blank and no newline. *)
Definition plain (s : string) : bool := sall (not_char " ") s && sall (not_char newline) s.

Lemma plain_digits s : sall is_digit s = true -> plain s = true.
Proof.
  intros H. unfold plain. apply andb_true_iff. split; (eapply sall_impl; [|exact H]); intros x Hx; unfold not_char;
    apply negb_true_iff; match goal with |- Ascii.eqb x ?c = false => destruct (Ascii.eqb_spec x c) as [->|]; [vm_compute in Hx; discriminate|done] end.
Qed.

Lemma plain_app s t : plain s = true -> plain t = true -> plain (s ++ t) = true.
Proof. unfold plain. rewrite !sall_app, !andb_true_iff. tauto. Qed.

Lemma plain_Itoa n : plain (Itoa n) = true.
Proof.
  destruct (Z.lt_ge_cases n 0) as [Hn|Hn]; [|by apply plain_digits, Itoa_digits]. unfold Itoa.
  rewrite (proj2 (Z.eqb_neq n 0)), (proj2 (Z.ltb_lt n 0)) by lia. apply (plain_app "-"); [done|]. apply plain_digits, digits_aux_all. done.
Qed.

Lemma plain_fixed6 f : plain (fixed6 f) = true.
Proof.
  assert (H : forall n, plain (Itoa (n / 1000000) ++ "." ++ digitsn 6 (n mod 1000000)) = true).
  { intros n. apply plain_app; [apply plain_Itoa|]. apply plain_app; [done|]. apply plain_digits, digitsn_digits. }
  destruct f as [s|s| |s m e]; cbn [fixed6]; [destruct s|destruct s| |destruct s]; try done; try apply H; by apply plain_app.
Qed.

Lemma line_no_newline name v :
  sall (not_char newline) name = true -> plain v = true -> sall (not_char newline) (sample name v) = true.
Proof. intros Hn [_ Hv]%andb_true_iff. unfold sample. by rewrite !sall_app, Hn, Hv. Qed.

(** The lines of the page have no newline of their own. *)
Lemma page_lines_plain m l : l ∈ page_lines m -> sall (not_char newline) l = true.
Proof.
  assert (Hz : forall name label (xs : list string) (ns : list Z) l, forallb (fun x => sall (not_char newline) (labelled name label x)) xs = true ->
    l ∈ zip_with (fun x n => sample (labelled name label x) (Itoa n)) xs ns -> sall (not_char newline) l = true).
  { intros name label xs. induction xs as [|x xs IH]; intros [|n ns] k Hx Hk; try by apply elem_of_nil in Hk. cbn in Hx, Hk.
    apply andb_true_iff in Hx as [Hx Hxs]. apply elem_of_cons in Hk as [->|Hk]; [apply line_no_newline; [done|apply plain_Itoa]|by eapply IH]. }
  unfold page_lines, header. rewrite !elem_of_app, !elem_of_cons, !elem_of_nil.
  intros Hl. repeat match type of Hl with _ \/ _ => destruct Hl as [Hl|Hl] end; try done; try (subst l; reflexivity);
    try (subst l; apply line_no_newline; [reflexivity|first [apply plain_Itoa|apply plain_fixed6]]).
  - by apply Hz in Hl.
  - by apply Hz in Hl.
Qed.

Definition read_line (line : string) : option (string * string) :=
  if has_prefix line "#" || (line ==? "") then None else cut_last " " line.

Lemma read_sample c name v : Ascii.eqb "#" c = false -> plain v = true -> read_line (sample (String c name) v) = Some (String c name, v).
Proof.
  intros Hc [Hv _]%andb_true_iff. unfold read_line, sample.
  replace (has_prefix (String c name ++ " " ++ v) "#") with false;
    [|symmetry; apply not_true_is_false; intros (t & E)%has_prefix_spec; injection E as -> _; by rewrite Ascii.eqb_refl in Hc].
  rewrite bool_decide_eq_false_2 by (by rewrite sapp_cons). by apply (cut_last_blank (String c name)).
Qed.

Lemma read_header name help : omap read_line (header name help) = [].
Proof. reflexivity. Qed.

Lemma read_labelled c name label (xs : list string) (ns : list Z) :
  Ascii.eqb "#" c = false ->
  omap read_line (zip_with (fun x n => sample (labelled (String c name) label x) (Itoa n)) xs ns) =
  zip_with (fun x n => (labelled (String c name) label x, Itoa n)) xs ns.
Proof.
  intros Hc. revert ns. induction xs as [|x xs IH]; intros [|n ns]; try done. cbn [zip_with].
  change (labelled (String c name) label x) with (String c (labelled name label x)).
  rewrite <- IH. cbn [omap list_omap]. rewrite read_sample; [done|done|apply plain_Itoa].
Qed.

(** Scraping the page gives every counter: the total, the count of each method and of each
    status class, the errors and the durations, each once and with its value. *)
Lemma page_reads_back m : scrape (Handler m) = samples_of m.
Proof.
  unfold scrape, Handler. rewrite split_on_join.
  - change (omap read_line (page_lines m ++ [""])%list = samples_of m). unfold page_lines. rewrite !omap_app.
    unfold total_name, method_name, class_name, error_name, sum_name, count_name. rewrite !read_labelled by done.
    cbn [omap list_omap]. rewrite !read_sample by (done || apply plain_Itoa || apply plain_fixed6).
    rewrite !read_header. change (read_line "") with (@None (string * string)). by rewrite app_nil_r.
  - by destruct (page_lines m).
  - apply Forall_app. split; [|by repeat constructor]. apply Forall_forall. intros l Hl. by apply (page_lines_plain m).
Qed.

(** The page of one slow request. *)
Example page_example :
  scrape (Handler (observe "GET" 200 1500000000 NewMetrics)) !! 13%nat = Some (sum_name, "1.500000").
Proof. vm_compute. reflexivity. Qed.
End Page.

(** ** Identifiers of requests and statements *)

Module Tracing.

(** [withRequestID]: the response header and the identifier the request carries. *)
Definition withRequestID (header fresh : string) : string * option string :=
  let id := if header ==? "" then fresh else header in (id, Some id).

Definition currentRequestID (carried : option string) : string := default "" carried.

(** What handlers log is what the client is told: the client's own identifier, or a new one. *)
Lemma request_id_echoed header fresh :
  let '(sent, carried) := withRequestID header fresh in
  currentRequestID carried = sent /\ (header <> "" -> sent = header) /\ (header = "" -> sent = fresh).
Proof. cbn. case_bool_decide; done. Qed.

(** [sqlOperation]: the first word of a statement, in capitals. *)
Definition sqlOperation (sql : string) : string :=
  match fields sql with [] => "UNKNOWN" | w :: _ => to_upper w end.

(** The tracer never sees anything after the first word, such as names or values. *)
Lemma sqlOperation_first_word w rest :
  w <> "" -> sall (fun c => negb (is_space c)) w = true -> sqlOperation (w ++ " " ++ rest) = to_upper w.
Proof.
  intros Hw Hs. unfold sqlOperation, fields. rewrite !smap_app.
  rewrite (smap_id_on _ (fun c => negb (is_space c)) w) by (done || intros c ->%negb_true_iff; done).
  change (smap _ " ") with " ". change (" " ++ ?s) with (String " " s). rewrite split_on_app.
  - by rewrite filter_cons_True.
  - eapply sall_impl; [|exact Hs]. intros c Hc. apply negb_true_iff, Ascii.eqb_neq. intros ->. done.
Qed.
End Tracing.
